(* ===== verification/_CoqProject ===== *)
-Q . S2P
Prelude.v
Mem.v
Pmm.v
Vmm.v
PageTables.v
Heap.v
HeapFacts.v
HeapKeeps.v
KernelMem.v
Chain.v
Descriptors.v
Sched.v
SchedFacts.v
SchedRun.v
Context.v
Timer.v
TimerFacts.v
Ipc.v
IpcFacts.v
KbdBuf.v
Bus.v
Printf.v
Serial.v
Console.v
ConsoleFacts.v
Limine.v
Irq.v
System.v
SystemFacts.v
Fork.v
ForkFacts.v
UserCopy.v
Spaces.v
StackMap.v
Proc.v
Syscalls.v
ProcFacts.v
HeapStep.v
ElfFacts.v
ExecFacts.v
SyscallFacts.v
Isolation.v
ExecCall.v
ElfLoad.v
UserProgs.v
Services.v
ServiceFacts.v
Boot.v
BootFacts.v
InitFacts.v
SystemRun.v
Entry.v
