(* ===== verification/Prelude.v ===== *)
(** * Orchid microkernel: a verification library (root file)

    Orchid is a small x86-64 kernel: a boot sequence, physical and virtual
    memory, a kernel heap, preemptive threads with a sleep timer, message
    ports and a registry of named services, a keyboard buffer, a serial line,
    a framebuffer console, and processes with a handful of system calls.  This
    library models its C and assembly code as executable definitions and
    proves what each part promises to the others.

    ** The program and the files

    Memory.  [pmm.c] keeps a stack of free page frames; [vmm.c] maps pages in
    four-level page tables that it reaches through the direct map, and builds
    the kernel heap ([kmalloc], [kfree]) on top.
    - Pmm.v: [pmm.c].  [FrameAllocator] is what it promises to its clients.
    - Mem.v: byte memory; Vmm.v: the page tables of [vmm.c]; PageTables.v:
      their invariant and the theorems.
    - Heap.v, HeapFacts.v: the heap of [vmm.c], over the interface
      [PageMapper]; KernelMem.v: [vmm.c] implements [PageMapper], and [KHeap],
      the interface through which all other components allocate;
      HeapKeeps.v: what an allocation leaves alone in page tables.
    Threads.  [scheduler.c] keeps the ready queue and picks the next thread;
    [switch.s] switches stacks; [timer.c] lets threads sleep; [ipc.c] passes
    messages between them.
    - Chain.v: linked lists in a store; Sched.v: [scheduler.c];
      SchedFacts.v: its invariant; SchedRun.v: sequences of scheduler calls.
    - Context.v: [switch.s] and [userspace_entry.S] on registers and stacks.
    - Timer.v, TimerFacts.v: [timer.c].  Ipc.v, IpcFacts.v: [ipc.c].
    Devices and interrupts.
    - Descriptors.v: [gdt.c], [tss.c], [idt.c].  Entry.v: [isr.s] and
      [syscall_entry.S].  Irq.v: [irq.c] and [isr_handler.c].
    - KbdBuf.v: [kbd_buf.c].  Printf.v, Serial.v: [serial.c].  Console.v,
      ConsoleFacts.v: [console.c] with its font.  Bus.v: [bus.c].
    Processes and system calls.
    - Fork.v, ForkFacts.v: [fork_address_space] of [proc.c].  Proc.v: the rest
      of [proc.c], and [elf.c]; Spaces.v, ProcFacts.v, ElfFacts.v,
      ExecFacts.v, ElfLoad.v: its theorems; HeapStep.v: what an allocation
      leaves alone in byte memory.
    - UserCopy.v: [copy_to_user] and [copy_from_user] of [syscalls.c];
      Syscalls.v: the dispatcher; SyscallFacts.v: its theorems.
    - Isolation.v: what a system call leaves alone of the other processes;
      ExecCall.v: [SYS_exec] from the caller's buffer to the new program.
    - UserProgs.v: the programs [user/shell.S] and [user/init.S].
    - Services.v, ServiceFacts.v: the threads of [main.c] and the services of
      [user/kbd.c] and [user/vfs.c].
    Boot and the whole.
    - Limine.v: the structures of the boot loader's protocol ([limine.h]) with
      their layout in memory, the request objects of [limine.c], and the reads
      of the answers in [main.c].
    - Boot.v, BootFacts.v: [_start] of [main.c], and [pit.c]; InitFacts.v:
      the lines of [_start] that load the first program.
    - System.v, SystemFacts.v, SystemRun.v: scheduler, timer, ports, keyboard
      buffer and interrupt table over one heap; the events of the machine as a
      step relation with suspended computations, its invariant, and runs from
      boot.

    ** How the code is modelled

    A function of the program that changes state is a term of the monad [M S]
    over the state [S] of its component (a record with one field per static
    variable).  It returns ([Ret]), faults on an access the hardware or C does
    not allow ([Fault]), waits for ever on a taken lock ([Spin]), runs out of
    fuel ([Hang]), leaves the thread for good ([Gone]) or switches to another
    thread ([Switch], with what remains to be done once the thread runs
    again).  A component's operation is lifted to a larger state with [zoom].
    Integers are [Z] with the wrap-around of their C type written out.
    Page tables, user pages and byte buffers are one byte memory, addressed as
    the kernel does it (physical address plus [hhdm_offset]); the direct map
    ends below the region of the heap ([frame]), so a buffer of the heap and a
    frame are different bytes.  Heap headers,
    threads, wait nodes, timer entries, processes and messages are records in
    finite maps from their addresses, so reading a pointer that is not one
    faults.  What the processor or the boot loader supplies (UART and keyboard
    registers, the memory with the loader's answers, CR3, addresses fixed by
    the linker, the content of uninitialised memory) is a parameter.

    Fuel.  A loop over a linked list gets one round more than the store has
    nodes ([walk_fuel]), the list of heap blocks one more than it has headers,
    and [kmalloc_loop] two more than there are free frames (every round but
    the last two takes a frame); the theorems show that these never run out.
    The copying and loading loops get one round more than there are bytes.
    Polling loops (transmitter, keyboard controller, [kbd_buf_get]) get the
    number of polls the device may take as a parameter.  Loops of services
    that never end are cut after a number of rounds.

    ** What the theorems show

    - Memory: no frame is handed out twice (Pmm.v); a mapped page translates
      back and no other page changes, also when frames run out (PageTables.v);
      [kmalloc] returns room that overlaps nothing in use, [kfree] gives it
      back and merges (HeapFacts.v).
    - Threads: from boot on, under every sequence of calls, the ready queue is
      the acyclic list of the ready threads; every ready thread runs after at
      most as many switches as there are threads before it (SchedRun.v);
      switching away and back restores a thread (Context.v); a sleeper wakes
      at its deadline (TimerFacts.v); the message received is the message sent
      (IpcFacts.v).
    - Devices: the screen always shows the text terminal the console implements
      (ConsoleFacts.v); what is printed is the formatted text (Serial.v); the
      keyboard buffer is a queue (KbdBuf.v); interrupts are transparent
      from the gate of their vector to the [iretq] (Entry.v) and do what they
      are for (Irq.v).
    - Processes: [fork] gives the child a copy of every page in frames of its
      own and changes nothing of the parent (ForkFacts.v, ProcFacts.v); the
      loader maps exactly the image (ElfFacts.v), and [elf_load] makes a
      process of it (ElfLoad.v); system calls move exactly the caller's bytes
      (UserCopy.v, SyscallFacts.v); [SYS_exec] turns the caller into the
      program it passed (ExecCall.v).  An operation that allocates fails only
      when fewer free frames are left than a number the theorem states
      ([starved], [load_short], [exec_need], [elf_need]); the witnesses run on
      a machine that has more.
    - Composition: request and reply through the echo service, and the file
      service (ServiceFacts.v); what is typed on the keyboard reaches the
      screen through interrupt, buffer and shell, and init starts the shell in
      a process of its own (UserProgs.v); system calls leave the other
      processes alone (Isolation.v), and copying ends whatever the caller
      passes (UserCopy.v).
    - The whole: what the loader answers is what the kernel reads (Limine.v);
      from there [_start] establishes the invariants of every component
      (BootFacts.v); from the state it leaves no sequence of interrupts, calls
      and resumptions makes the kernel wait for a held lock, loop, or touch a
      missing object, unless an allocation runs out of memory, and every
      blocked thread stays in exactly one queue that will wake it
      (SystemRun.v).
    - Where the code does not do what it means to, the theorem says what it
      does instead: a second [scheduler_add_thread] makes the queue cyclic
      (SchedRun.v), the [iretq] frame of a user thread is reversed (Context.v),
      pages below new tables are not accessible from user mode (PageTables.v),
      a tick inside [sleep_until] is a lost wake-up (TimerFacts.v), the STAR
      selectors are lost (Descriptors.v), [exec] drops the ready queue and the
      user stack lies in the kernel half, which [fork] shares (ExecFacts.v),
      its copy of the image is leaked (ExecCall.v), the first program, if
      [_start] loaded it, would be the only thread that ever runs
      (InitFacts.v),
      the file service drops what the keyboard service sends (ServiceFacts.v),
      no request lies between the markers of the protocol (Limine.v).

    ** Not modelled

    Log messages inside a component, except those of [_start] and of the
    service threads; the caches of the processor; preemption inside a critical
    section (one processor, interrupts masked in the handlers) apart from the
    interleavings named above; [tssflush.S] and the two loops of [hlt] (a few
    instructions); the numbers [limine.h] defines and the kernel never uses;
    what the boot loader itself does.  The lines of [_start] after the [#if 0]
    that is never closed are not part of the program that is built; they are
    modelled apart ([load_init]).  Runs of the whole kernel (SystemRun.v) are
    those of kernel threads: [elf_load] and [sys_exec] queue a thread twice,
    after which the ready queue is no longer a list and only that thread runs
    (ExecFacts.v, InitFacts.v), so the theorems on processes start from a state
    with the invariant instead. *)

From stdpp Require Import base gmap list fin_maps.
From Stdlib Require Import ZArith Lia.

#[global] Open Scope Z_scope.

(** ** Machine integers

    A w-bit unsigned C integer is a [Z] in [0, 2^w); every arithmetic
    operation of the source that can leave that range is written with the
    wrap-around [u64], [u32], [u16] or [u8]; conversions to the signed types
    are [i64], [i32] and [i8] (two's complement, as GCC defines them). *)

Definition two8 : Z := 256.
Definition two16 : Z := 65536.
Definition two32 : Z := 4294967296.
Definition two64 : Z := 18446744073709551616.

Definition u8 (x : Z) : Z := x mod two8.
Definition u16 (x : Z) : Z := x mod two16.
Definition u32 (x : Z) : Z := x mod two32.
Definition u64 (x : Z) : Z := x mod two64.

Definition signed (m x : Z) : Z :=
  let r := x mod m in if r <? m / 2 then r else r - m.
Definition i8 (x : Z) : Z := signed two8 x.
Definition i32 (x : Z) : Z := signed two32 x.
Definition i64 (x : Z) : Z := signed two64 x.

(** [PAGE_SIZE] of pmm.h. *)
Definition PAGE_SIZE : Z := 4096.

(** C's [!x]/[if (x)] on an integer, as a boolean test. *)
Definition truthy (x : Z) : bool := negb (x =? 0).

(** ** Outcomes of a kernel operation

    A kernel operation is a state transformer.  It can
    - return a value ([Ret]);
    - give the processor away in [schedule] and go on later, from whatever
      state it is resumed in ([Switch]: a resumption);
    - never be resumed, because the calling thread has exited ([Gone]);
    - wait for a spin lock that is already held ([Spin]);
    - loop for ever ([Hang]);
    - access memory that is not there: an unmapped page, a freed or never
      written object, an array element out of range ([Fault]). *)

Inductive res (S A : Type) : Type :=
| Ret (a : A) (s : S)
| Switch (s : S) (k : S -> res S A)
| Gone (s : S)
| Spin
| Hang
| Fault.
Arguments Ret {S A} a s.
Arguments Switch {S A} s k.
Arguments Gone {S A} s.
Arguments Spin {S A}.
Arguments Hang {S A}.
Arguments Fault {S A}.

Definition M (S A : Type) : Type := S -> res S A.

Fixpoint bindr {S A B : Type} (r : res S A) (f : A -> S -> res S B) : res S B :=
  match r with
  | Ret a s => f a s
  | Switch s k => Switch s (fun s' => bindr (k s') f)
  | Gone s => Gone s
  | Spin => Spin
  | Hang => Hang
  | Fault => Fault
  end.

Definition mret {S A} (a : A) : M S A := fun s => Ret a s.
Definition mbind {S A B} (m : M S A) (f : A -> M S B) : M S B :=
  fun s => bindr (m s) f.
Definition mget {S A} (f : S -> A) : M S A := fun s => Ret (f s) s.
Definition mset {S} (f : S -> S) : M S unit := fun s => Ret tt (f s).
Definition mfault {S A} : M S A := fun _ => Fault.
Definition mhang {S A} : M S A := fun _ => Hang.

(** Reading a cell of a typed store: an address with no object faults. *)
Definition mopt {S A} (o : option A) : M S A :=
  fun s => match o with Some a => Ret a s | None => Fault end.

(** [for (i = start; n more times; i++) body] in the monad. *)
Fixpoint mfor {S} (n : nat) (i : Z) (body : Z -> M S unit) : M S unit :=
  match n with
  | O => mret tt
  | Datatypes.S n' => mbind (body i) (fun _ => mfor n' (i + 1) body)
  end.

Declare Scope orchid_scope.
Delimit Scope orchid_scope with orchid.
Notation "x <- c ;; k" := (mbind c (fun x => k))
  (at level 100, c at next level, right associativity) : orchid_scope.
Notation "c ;;; k" := (mbind c (fun _ => k))
  (at level 100, right associativity) : orchid_scope.
#[global] Open Scope orchid_scope.

(** Running an operation of a component inside a larger state. *)
Fixpoint zoomr {S T A} (get : S -> T) (put : T -> S -> S) (s : S)
    (r : res T A) : res S A :=
  match r with
  | Ret a t => Ret a (put t s)
  | Switch t k => Switch (put t s) (fun s' => zoomr get put s' (k (get s')))
  | Gone t => Gone (put t s)
  | Spin => Spin
  | Hang => Hang
  | Fault => Fault
  end.
Definition zoom {S T A} (get : S -> T) (put : T -> S -> S) (m : M T A) : M S A :=
  fun s => zoomr get put s (m (get s)).

(** ** Spin locks (sync.h)

    The lock word is 0 when free and 1 when held.  [spin_lock] on a held
    lock does not proceed. *)
Definition spin_lock {S} (get : S -> Z) (put : Z -> S -> S) : M S unit :=
  fun s => if get s =? 0 then Ret tt (put 1 s) else Spin.
Definition spin_unlock {S} (put : Z -> S -> S) : M S unit :=
  fun s => Ret tt (put 0 s).

(** Giving the processor away, and resuming a computation in the states the
    environment provides. *)
Definition myield {S} : M S unit := fun s => Switch s (fun s' => Ret tt s').
Fixpoint drive {S A} (env : list S) (r : res S A) : res S A :=
  match env, r with
  | s :: env', Switch _ k => drive env' (k s)
  | _, _ => r
  end.

(** Whether a computation returned, and its final state. *)
Definition returned {S A} (r : res S A) : option (A * S) :=
  match r with Ret a s => Some (a, s) | _ => None end.

(** ** Automation *)

Create HintDb orchid.

(** Symbolic execution of monadic code: unfolds the monad and reduces the
    matches on [Ret]. *)
Ltac mstep :=
  unfold mbind, mret, mget, mset, mopt, mfault, mhang, spin_lock, spin_unlock, zoom;
  cbn [bindr zoomr].
Tactic Notation "mstep" "in" hyp(H) :=
  unfold mbind, mret, mget, mset, mopt, mfault, mhang, spin_lock, spin_unlock, zoom in H;
  cbn [bindr zoomr] in H.

(** Case analysis on the boolean comparisons of the goal and context. *)
Ltac zcases :=
  repeat match goal with
  | |- context [?x =? ?y] => destruct (Z.eqb_spec x y)
  | |- context [?x <? ?y] => destruct (Z.ltb_spec x y)
  | |- context [?x <=? ?y] => destruct (Z.leb_spec x y)
  | H : context [?x =? ?y] |- _ => destruct (Z.eqb_spec x y)
  | H : context [?x <? ?y] |- _ => destruct (Z.ltb_spec x y)
  | H : context [?x <=? ?y] |- _ => destruct (Z.leb_spec x y)
  end.

(** Turns boolean comparisons of the context into propositions. *)
Ltac zbool :=
  repeat match goal with
  | H : (_ =? _) = true |- _ => apply Z.eqb_eq in H
  | H : (_ =? _) = false |- _ => apply Z.eqb_neq in H
  | H : (_ <? _) = true |- _ => apply Z.ltb_lt in H
  | H : (_ <? _) = false |- _ => apply Z.ltb_ge in H
  | H : (_ <=? _) = true |- _ => apply Z.leb_le in H
  | H : (_ <=? _) = false |- _ => apply Z.leb_gt in H
  end.

(** ** Shared lemmas on integers *)

Lemma u64_small x : 0 <= x < two64 -> u64 x = x.
Proof. apply Z.mod_small. Qed.

Lemma u64_range x : 0 <= u64 x < two64.
Proof. apply Z.mod_pos_bound. reflexivity. Qed.

Lemma u32_small x : 0 <= x < two32 -> u32 x = x.
Proof. apply Z.mod_small. Qed.

Lemma i32_small x : - 2147483648 <= x < 2147483648 -> i32 x = x.
Proof.
  intros H. unfold i32, signed, two32. change (4294967296 / 2) with 2147483648.
  destruct (Z_lt_le_dec x 0).
  - replace (x mod 4294967296) with (x + 4294967296).
    + destruct (Z.ltb_spec (x + 4294967296) 2147483648); lia.
    + apply (Z.mod_unique_pos _ _ (-1)); lia.
  - rewrite Z.mod_small by lia. destruct (Z.ltb_spec x 2147483648); lia.
Qed.

(** Masks as arithmetic: the low [k] bits, and everything above them. *)
Lemma land_low x k : 0 <= k -> Z.land x (Z.ones k) = x mod 2 ^ k.
Proof. intros. apply Z.land_ones. lia. Qed.

Lemma land_4095 x : Z.land x 4095 = x mod 4096.
Proof. change 4095 with (Z.ones 12). rewrite Z.land_ones by lia. reflexivity. Qed.

Lemma land_511 x : Z.land x 511 = x mod 512.
Proof. change 511 with (Z.ones 9). rewrite Z.land_ones by lia. reflexivity. Qed.

Lemma land_1 x : Z.land x 1 = x mod 2.
Proof. change 1 with (Z.ones 1) at 1. rewrite Z.land_ones by lia. reflexivity. Qed.

(** Clearing the low [k] bits of a [w]-bit number (0 <= k <= w). *)
Lemma land_clear_low x k w :
  0 <= k <= w -> 0 <= x < 2 ^ w ->
  Z.land x (Z.ones w - Z.ones k) = x - x mod 2 ^ k.
Proof.
  intros Hk Hx.
  assert (Hones : Z.ones w - Z.ones k = Z.shiftl (Z.ones (w - k)) k).
  { rewrite Z.shiftl_mul_pow2, !Z.ones_equiv by lia.
    replace w with ((w - k) + k) at 1 by lia. rewrite Z.pow_add_r by lia. lia. }
  rewrite Hones.
  assert (Hx2 : x - x mod 2 ^ k = Z.shiftl (Z.shiftr x k) k).
  { rewrite Z.shiftl_mul_pow2, Z.shiftr_div_pow2 by lia.
    rewrite Z.mod_eq by (apply Z.pow_nonzero; lia). lia. }
  rewrite Hx2. apply Z.bits_inj'. intros i Hi.
  rewrite Z.land_spec, !Z.shiftl_spec by lia.
  destruct (Z_lt_le_dec i k).
  { rewrite !(Z.testbit_neg_r _ (i - k)) by lia. by rewrite andb_false_r. }
  rewrite Z.shiftr_spec by lia. replace (i - k + k) with i by lia.
  destruct (Z_lt_le_dec i w).
  - rewrite Z.ones_spec_low by lia. by rewrite andb_true_r.
  - rewrite Z.ones_spec_high by lia. rewrite andb_false_r. symmetry.
    destruct (Z.eq_dec x 0) as [->|]; [apply Z.testbit_0_l|].
    apply Z.bits_above_log2; [lia|].
    apply Z.log2_lt_pow2; [lia|]. apply Z.lt_le_trans with (2 ^ w); [lia|].
    apply Z.pow_le_mono_r; lia.
Qed.

(** Or-ing disjoint bit ranges is addition. *)
Lemma lor_add_disjoint a b k :
  0 <= k -> a mod 2 ^ k = 0 -> 0 <= b < 2 ^ k -> Z.lor a b = a + b.
Proof.
  intros Hk Ha Hb.
  assert (Hland : Z.land a b = 0).
  { apply Z.bits_inj'. intros i Hi. rewrite Z.land_spec, Z.bits_0.
    destruct (Z_lt_le_dec i k).
    - rewrite <- (Z.mod_pow2_bits_low a k i) by lia.
      rewrite Ha, Z.bits_0. reflexivity.
    - rewrite <- (Z.mod_small b (2 ^ k)) by lia.
      rewrite Z.mod_pow2_bits_high by lia. apply andb_false_r. }
  rewrite <- Z.lxor_lor by done. symmetry. by apply Z.add_nocarry_lxor.
Qed.

(** ** Shared lemmas on the monad *)

Lemma bindr_Ret_inv {S A B} (r : res S A) (f : A -> S -> res S B) b s :
  bindr r f = Ret b s -> exists a s', r = Ret a s' /\ f a s' = Ret b s.
Proof. destruct r; simpl; intros H; try discriminate. eauto. Qed.

Lemma mbind_Switch {S A B} (m : M S A) (f : A -> M S B) (s s' : S) k : m s = Switch s' k -> mbind m f s = Switch s' (fun x => bindr (k x) f).
Proof. intros E. unfold mbind. by rewrite E. Qed.

Lemma mbind_Ret {S A B} (m : M S A) (f : A -> M S B) s a s' :
  m s = Ret a s' -> mbind m f s = f a s'.
Proof. intros E. unfold mbind. by rewrite E. Qed.

(** The rule for counted loops: the body succeeds and keeps the invariant. *)
Lemma mfor_rule {S} (P : Z -> S -> Prop) n i (body : Z -> M S unit) s :
  P i s ->
  (forall j s, i <= j < i + Z.of_nat n -> P j s -> exists s', body j s = Ret tt s' /\ P (j + 1) s') ->
  exists s', mfor n i body s = Ret tt s' /\ P (i + Z.of_nat n) s'.
Proof.
  revert i s. induction n as [|n IH]; intros i s H0 Hs; cbn [mfor].
  - exists s. by rewrite Z.add_0_r.
  - destruct (Hs i s) as (s1 & E & H1); [lia|done|]. rewrite (mbind_Ret _ _ _ _ _ E).
    replace (i + Z.of_nat (Datatypes.S n)) with (i + 1 + Z.of_nat n) by lia. apply IH; [done|].
    intros j s2 Hj. apply Hs. lia.
Qed.

(** ** Shared lemmas on stores *)

(** Distinct keys of a finite map are no more than its size. *)
Lemma nodup_keys_size {A} (h : gmap Z A) (l : list Z) :
  NoDup l -> (forall x, x ∈ l -> is_Some (h !! x)) -> (length l <= size h)%nat.
Proof.
  revert h. induction l as [|x l IH]; intros h Hnd Hin; simpl; [lia|].
  apply NoDup_cons in Hnd as [Hx Hnd]. destruct (Hin x) as [v Hv]; [left|].
  rewrite <- (insert_delete_id h x v Hv), map_size_insert_None by apply lookup_delete_eq.
  apply le_n_S, IH; [done|]. intros y Hy. rewrite lookup_delete_ne by (by intros ->).
  apply Hin. by right.
Qed.

(** Distinct images come from distinct elements. *)
Lemma NoDup_fmap_elem {A B} (f : A -> B) l x y :
  NoDup (f <$> l) -> x ∈ l -> y ∈ l -> f x = f y -> x = y.
Proof.
  intros Hnd Hx Hy E. apply list_elem_of_lookup in Hx as [i Hi], Hy as [j Hj].
  assert (i = j) as ->; [|congruence].
  apply (NoDup_lookup (f <$> l) i j (f x)); [done|by rewrite list_lookup_fmap, Hi|].
  rewrite list_lookup_fmap, Hj. simpl. by rewrite E.
Qed.

Lemma app_eq_cons_fmap_fst (le : list (Z * Z)) l1 a l2 :
  le.*1 = l1 ++ a :: l2 ->
  exists le1 z le2, le = le1 ++ (a, z) :: le2 /\ le1.*1 = l1 /\ le2.*1 = l2.
Proof.
  intros E. apply fmap_app_inv in E as (le1 & le2 & E1 & E2 & ->).
  symmetry in E2. apply fmap_cons_inv in E2 as ([a' z] & le2' & E2 & E3 & ->).
  simpl in E2. subst. by exists le1, z, le2'.
Qed.
