(* ===== verification/Mem.v ===== *)
(** * Byte memory

    The memory the kernel reaches through pointers into the direct map: a
    finite map from byte addresses to bytes, with the little-endian 64-bit
    loads and stores of the page-table code and the byte loops [memset] and
    [memcpy] of proc.c and elf.c. *)

From stdpp Require Import base gmap list fin_maps.
From Stdlib Require Import ZArith Lia.
From S2P Require Import Prelude.

(** ** Counted loops: [for (i = start; n more times; i++) body]. *)
Fixpoint for_up {A : Type} (n : nat) (i : Z) (body : Z -> A -> A) (a : A) : A :=
  match n with
  | O => a
  | S n' => for_up n' (i + 1) body (body i a)
  end.

(** ** Bytes and words *)

Abbreviation mem := (gmap Z Z).

Definition rd8 (m : mem) (a : Z) : Z := u8 (default 0 (m !! a)).
Definition wr8 (m : mem) (a v : Z) : mem := <[a := u8 v]> m.

Fixpoint rdn (n : nat) (m : mem) (a : Z) : Z :=
  match n with
  | O => 0
  | S n' => rd8 m a + 256 * rdn n' m (a + 1)
  end.

Fixpoint wrn (n : nat) (m : mem) (a v : Z) : mem :=
  match n with
  | O => m
  | S n' => wrn n' (wr8 m a v) (a + 1) (v / 256)
  end.

Definition rd64 (m : mem) (a : Z) : Z := rdn 8 m a.
Definition wr64 (m : mem) (a v : Z) : mem := wrn 8 m a v.

(** [memset] and [memcpy]: ascending byte loops. *)
Definition memset (s c n : Z) (m : mem) : mem :=
  for_up (Z.to_nat n) 0 (fun i m => wr8 m (s + i) c) m.
Definition memcpy (d s n : Z) (m : mem) : mem :=
  for_up (Z.to_nat n) 0 (fun i m => wr8 m (d + i) (rd8 m (s + i))) m.

(** [for (i = lo; i < lo + n; i++) p[i] = 0] on 64-bit words. *)
Definition zero_qwords (p : Z) (n : nat) (m : mem) : mem :=
  for_up n 0 (fun i m => wr64 m (p + 8 * i) 0) m.

(** ** The loop rule *)

Lemma for_up_ind {A} (P : Z -> A -> Prop) n i body (a : A) :
  P i a ->
  (forall j x, i <= j < i + Z.of_nat n -> P j x -> P (j + 1) (body j x)) ->
  P (i + Z.of_nat n) (for_up n i body a).
Proof.
  revert i a. induction n as [|n IH]; intros i a H0 Hs; cbn [for_up].
  - by rewrite Z.add_0_r.
  - replace (i + Z.of_nat (S n)) with ((i + 1) + Z.of_nat n) by lia.
    apply IH; [apply Hs; [lia|done]|]. intros. apply Hs; [lia|done].
Qed.

(** ** Loads and stores *)

Lemma rd8_range m a : 0 <= rd8 m a < 256.
Proof. apply Z.mod_pos_bound. reflexivity. Qed.

Lemma rd8_wr8_eq m a v : rd8 (wr8 m a v) a = u8 v.
Proof.
  unfold rd8, wr8. rewrite lookup_insert_eq. cbn. by apply Z.mod_mod.
Qed.

Lemma rd8_wr8_ne m a b v : a <> b -> rd8 (wr8 m a v) b = rd8 m b.
Proof. intros. unfold rd8, wr8. by rewrite lookup_insert_ne. Qed.

Lemma rd8_wrn_out n m a v b :
  b < a \/ a + Z.of_nat n <= b -> rd8 (wrn n m a v) b = rd8 m b.
Proof.
  revert m a v. induction n as [|n IH]; intros m a v H; cbn [wrn]; [done|].
  rewrite IH by lia. apply rd8_wr8_ne. lia.
Qed.

Lemma rd8_wrn_zero n m a b :
  a <= b < a + Z.of_nat n -> rd8 (wrn n m a 0) b = 0.
Proof.
  revert m a. induction n as [|n IH]; intros m a H; cbn [wrn]; [lia|].
  rewrite Z.div_0_l by lia. destruct (Z.eq_dec a b) as [->|Hne].
  - rewrite rd8_wrn_out, rd8_wr8_eq by lia. done.
  - apply IH. lia.
Qed.

Lemma rdn_ext n m m' a :
  (forall b, a <= b < a + Z.of_nat n -> rd8 m b = rd8 m' b) ->
  rdn n m a = rdn n m' a.
Proof.
  revert a. induction n as [|n IH]; intros a H; cbn [rdn]; [done|].
  rewrite (H a) by lia. rewrite (IH (a + 1)); [done|]. intros. apply H. lia.
Qed.

Lemma rdn_shift n m m' a a' :
  (forall i, 0 <= i < Z.of_nat n -> rd8 m (a + i) = rd8 m' (a' + i)) ->
  rdn n m a = rdn n m' a'.
Proof.
  revert a a'. induction n as [|n IH]; intros a a' H; cbn [rdn]; [done|].
  pose proof (H 0 ltac:(lia)) as H0. rewrite !Z.add_0_r in H0. rewrite H0.
  rewrite (IH (a + 1) (a' + 1)); [done|]. intros i Hi.
  replace (a + 1 + i) with (a + (i + 1)) by lia.
  replace (a' + 1 + i) with (a' + (i + 1)) by lia. apply H. lia.
Qed.

Lemma rdn_range n m a : 0 <= rdn n m a < 256 ^ Z.of_nat n.
Proof.
  revert a. induction n as [|n IH]; intros a; cbn [rdn]; [cbn; lia|].
  specialize (IH (a + 1)). pose proof (rd8_range m a).
  rewrite Nat2Z.inj_succ, Z.pow_succ_r by lia. lia.
Qed.

Lemma rdn_wrn_eq n m a v : rdn n (wrn n m a v) a = v mod 256 ^ Z.of_nat n.
Proof.
  revert m a v. induction n as [|n IH]; intros m a v; cbn [rdn wrn].
  { by rewrite Z.mod_1_r. }
  rewrite IH, rd8_wrn_out, rd8_wr8_eq by lia. unfold u8, two8.
  rewrite Nat2Z.inj_succ, Z.pow_succ_r by lia.
  rewrite Z.rem_mul_r by (try apply Z.pow_nonzero; lia). lia.
Qed.

(** A word that is loaded and stored carries its bytes over. *)
Lemma rd8_wrn_rdn n m m' a a' j :
  0 <= j < Z.of_nat n -> rd8 (wrn n m a (rdn n m' a')) (a + j) = rd8 m' (a' + j).
Proof.
  revert m a a' j. induction n as [|n IH]; intros m a a' j Hj; [lia|]. cbn [wrn rdn].
  pose proof (rd8_range m' a'). destruct (Z.eq_dec j 0) as [->|Hne].
  - rewrite !Z.add_0_r, rd8_wrn_out, rd8_wr8_eq by lia. unfold u8, two8.
    rewrite (Z.mul_comm 256), Z.mod_add, Z.mod_small by lia. done.
  - replace ((rd8 m' a' + 256 * rdn n m' (a' + 1)) / 256) with (rdn n m' (a' + 1)) by (Z.div_mod_to_equations; lia).
    replace (a + j) with (a + 1 + (j - 1)) by lia. rewrite IH by lia. f_equal. lia.
Qed.

Lemma rdn_zero n m a :
  (forall b, a <= b < a + Z.of_nat n -> rd8 m b = 0) -> rdn n m a = 0.
Proof.
  revert a. induction n as [|n IH]; intros a H; cbn [rdn]; [done|].
  rewrite (H a), IH by (try (intros; apply H); lia). done.
Qed.

Lemma rd64_range m a : 0 <= rd64 m a < two64.
Proof. apply (rdn_range 8). Qed.

Lemma rd64_wr64_eq m a v : rd64 (wr64 m a v) a = u64 v.
Proof. apply (rdn_wrn_eq 8). Qed.

Lemma rd64_wr64_ne m a b v :
  b + 8 <= a \/ a + 8 <= b -> rd64 (wr64 m a v) b = rd64 m b.
Proof.
  intros. unfold rd64, wr64. apply rdn_ext. intros. apply rd8_wrn_out. lia.
Qed.

Lemma rd8_wr64_out m a v b : b < a \/ a + 8 <= b -> rd8 (wr64 m a v) b = rd8 m b.
Proof. intros. unfold wr64. apply rd8_wrn_out. lia. Qed.

(** ** Block operations *)

Lemma rd8_memset s c n m b :
  0 <= n ->
  rd8 (memset s c n m) b =
    if (s <=? b) && (b <? s + n) then u8 c else rd8 m b.
Proof.
  intros Hn. unfold memset.
  pose proof (for_up_ind
    (fun i x => rd8 x b = if (s <=? b) && (b <? s + i) then u8 c else rd8 m b)
    (Z.to_nat n) 0 (fun i m => wr8 m (s + i) c) m) as H.
  rewrite Z2Nat.id, Z.add_0_l in H by lia. apply H; clear H.
  - destruct (Z.leb_spec s b), (Z.ltb_spec b (s + 0)); simpl; try done; lia.
  - intros j x Hj Hx. destruct (Z.eq_dec (s + j) b) as [<-|Hne].
    + rewrite rd8_wr8_eq.
      destruct (Z.leb_spec s (s + j)), (Z.ltb_spec (s + j) (s + (j + 1)));
        simpl; try done; lia.
    + rewrite rd8_wr8_ne, Hx by done.
      destruct (Z.leb_spec s b), (Z.ltb_spec b (s + j)), (Z.ltb_spec b (s + (j + 1)));
        simpl; try done; lia.
Qed.

Lemma rd8_memcpy d s n m b :
  0 <= n -> d + n <= s \/ s + n <= d ->
  rd8 (memcpy d s n m) b =
    if (d <=? b) && (b <? d + n) then rd8 m (s + (b - d)) else rd8 m b.
Proof.
  intros Hn Hdis. unfold memcpy.
  pose proof (for_up_ind
    (fun i x => forall b, rd8 x b =
       if (d <=? b) && (b <? d + i) then rd8 m (s + (b - d)) else rd8 m b)
    (Z.to_nat n) 0 (fun i m => wr8 m (d + i) (rd8 m (s + i))) m) as H.
  rewrite Z2Nat.id, Z.add_0_l in H by lia. apply H; clear H b.
  - intros b. destruct (Z.leb_spec d b), (Z.ltb_spec b (d + 0)); simpl; try done; lia.
  - intros j x Hj Hx b. destruct (Z.eq_dec (d + j) b) as [<-|Hne].
    + rewrite rd8_wr8_eq, Hx. unfold u8. rewrite Z.mod_small by
        (destruct (_ && _); apply rd8_range).
      destruct (Z.leb_spec d (s + j)), (Z.ltb_spec (s + j) (d + j)),
        (Z.leb_spec d (d + j)), (Z.ltb_spec (d + j) (d + (j + 1)));
        simpl; try lia; f_equal; lia.
    + rewrite rd8_wr8_ne, Hx by done.
      destruct (Z.leb_spec d b), (Z.ltb_spec b (d + j)), (Z.ltb_spec b (d + (j + 1)));
        simpl; try done; lia.
Qed.

Lemma rd8_zero_qwords p n m b :
  rd8 (zero_qwords p n m) b =
    if (p <=? b) && (b <? p + 8 * Z.of_nat n) then 0 else rd8 m b.
Proof.
  unfold zero_qwords.
  apply (for_up_ind
    (fun i x => rd8 x b = if (p <=? b) && (b <? p + 8 * i) then 0 else rd8 m b)
    n 0 (fun i m => wr64 m (p + 8 * i) 0) m).
  - destruct (Z.leb_spec p b), (Z.ltb_spec b (p + 8 * 0)); simpl; try done; lia.
  - intros j x Hj Hx.
    destruct (decide (p + 8 * j <= b < p + 8 * j + 8)) as [Hin|Hout].
    + unfold wr64. rewrite rd8_wrn_zero by lia.
      destruct (Z.leb_spec p b), (Z.ltb_spec b (p + 8 * (j + 1))); simpl; try done; lia.
    + rewrite rd8_wr64_out, Hx by lia.
      destruct (Z.leb_spec p b), (Z.ltb_spec b (p + 8 * j)),
        (Z.ltb_spec b (p + 8 * (j + 1))); simpl; try done; lia.
Qed.

Lemma rd64_ext m m' a :
  (forall b, a <= b < a + 8 -> rd8 m b = rd8 m' b) -> rd64 m a = rd64 m' a.
Proof. intros. by apply rdn_ext. Qed.

Lemma rd64_zero_qwords p n m i :
  0 <= i < Z.of_nat n -> rd64 (zero_qwords p n m) (p + 8 * i) = 0.
Proof.
  intros Hi. apply rdn_zero. intros b Hb. rewrite rd8_zero_qwords.
  destruct (Z.leb_spec p b), (Z.ltb_spec b (p + 8 * Z.of_nat n)); simpl; lia.
Qed.

Lemma rd64_zero_qwords_out p n m a :
  a + 8 <= p \/ p + 8 * Z.of_nat n <= a -> rd64 (zero_qwords p n m) a = rd64 m a.
Proof.
  intros Ha. apply rd64_ext. intros b Hb. rewrite rd8_zero_qwords.
  destruct (Z.leb_spec p b), (Z.ltb_spec b (p + 8 * Z.of_nat n)); simpl; lia.
Qed.

Lemma rd64_memset_zero s n m a :
  0 <= n -> s <= a -> a + 8 <= s + n -> rd64 (memset s 0 n m) a = 0.
Proof.
  intros. apply rdn_zero. intros b Hb. rewrite rd8_memset by lia.
  destruct (Z.leb_spec s b), (Z.ltb_spec b (s + n)); simpl; done || lia.
Qed.

