(* ===== verification/Pmm.v ===== *)
(** * Physical memory manager (src/kernel/pmm.c)

    A stack of free page frames in a static array.  [free_pages] reads it as
    a list, top first; the operations are shown to be the pop and push of a
    bounded stack, [pmm_init] to enumerate the page frames of the usable
    regions of the boot loader's memory map, and any history of allocations
    and frees to keep every frame either free or owned by one caller. *)

From stdpp Require Import base gmap list fin_maps.
From Stdlib Require Import ZArith Lia.
From S2P Require Import Prelude.

(** ** State *)

Definition MAX_FREE_LIST : Z := 300000.

Record pmm_t : Type := mk_pmm {
  free_stack : gmap Z Z;      (* static uint64_t free_stack[MAX_FREE_LIST] *)
  free_top : Z;
  pmm_lock : Z
}.

(** The static initial values: a zeroed array, [free_top = 0], lock free. *)
Definition pmm_boot : pmm_t := mk_pmm ∅ 0 0.

Definition set_pmm_lock (l : Z) (s : pmm_t) : pmm_t :=
  mk_pmm (free_stack s) (free_top s) l.

(** [struct limine_memmap_entry] *)
Record memmap_entry : Type := mk_entry {
  me_base : Z;
  me_length : Z;
  me_type : Z
}.

Definition LIMINE_MEMMAP_USABLE : Z := 0.

(** ** Operations *)

(** [free_stack[free_top++] = page], with the array bound checked. *)
Definition stack_push (page : Z) : M pmm_t unit := fun s =>
  if (0 <=? free_top s) && (free_top s <? MAX_FREE_LIST)
  then Ret tt (mk_pmm (<[free_top s := page]> (free_stack s)) (free_top s + 1) (pmm_lock s))
  else Fault.

(** [free_stack[--free_top]], with the array bound checked. *)
Definition stack_pop : M pmm_t Z := fun s =>
  let t := free_top s - 1 in
  if (0 <=? t) && (t <? MAX_FREE_LIST)
  then Ret (default 0 (free_stack s !! t)) (mk_pmm (free_stack s) t (pmm_lock s))
  else Fault.

(** [~(PAGE_SIZE - 1)]: the [int] -4096 converted to [uint64_t]. *)
Definition PAGE_MASK : Z := 18446744073709547520.

Definition page_align_up (base : Z) : Z :=
  Z.land (u64 (base + PAGE_SIZE - 1)) PAGE_MASK.
Definition page_align_end (base length : Z) : Z :=
  Z.land (u64 (base + length)) PAGE_MASK.

(** The inner [while (base < end)] loop of [pmm_init]; the result is
    [total_free].  Every round but the last pushes a page, so
    [MAX_FREE_LIST + 1] rounds are enough ([init_fill_total]). *)
Fixpoint init_fill (fuel : nat) (base end_ total_free : Z) : M pmm_t Z :=
  match fuel with
  | O => mhang
  | S fuel' =>
      if base <? end_ then
        top <- mget free_top ;;
        if top <? MAX_FREE_LIST then
          stack_push base ;;;
          init_fill fuel' (u64 (base + PAGE_SIZE)) end_ (u64 (total_free + 1))
        else mret total_free            (* "Free list overflow": break *)
      else mret total_free
  end.

Definition fill_fuel : nat := S (Z.to_nat MAX_FREE_LIST).

Fixpoint init_entries (entries : list memmap_entry) (total_free : Z) : M pmm_t Z :=
  match entries with
  | [] => mret total_free
  | e :: rest =>
      if negb (me_type e =? LIMINE_MEMMAP_USABLE) then init_entries rest total_free
      else
        total' <- init_fill fill_fuel (page_align_up (me_base e))
                    (page_align_end (me_base e) (me_length e)) total_free ;;
        init_entries rest total'
  end.

(** [None] is a missing response; the result is the count that is printed. *)
Definition pmm_init (mm_resp : option (list memmap_entry)) : M pmm_t Z :=
  match mm_resp with
  | None => mret 0
  | Some entries => init_entries entries 0
  end.

Definition pmm_alloc_page : M pmm_t Z :=
  spin_lock pmm_lock set_pmm_lock ;;;
  top <- mget free_top ;;
  if top =? 0 then
    spin_unlock set_pmm_lock ;;;
    mret 0
  else
    page <- stack_pop ;;
    spin_unlock set_pmm_lock ;;;
    mret page.

Definition pmm_free_page (phys_addr : Z) : M pmm_t unit :=
  spin_lock pmm_lock set_pmm_lock ;;;
  top <- mget free_top ;;
  (if top <? MAX_FREE_LIST then stack_push phys_addr else mret tt) ;;;
  spin_unlock set_pmm_lock.

Definition pmm_free_page_count : M pmm_t Z :=
  spin_lock pmm_lock set_pmm_lock ;;;
  count <- mget free_top ;;
  spin_unlock set_pmm_lock ;;;
  mret (u64 count).

(** ** Abstract view and invariant *)

(** The free pages, the next one to be handed out first. *)
Definition free_pages (s : pmm_t) : list Z :=
  reverse ((fun i => default 0 (free_stack s !! i)) <$> seqZ 0 (free_top s)).

Definition pmm_ok (s : pmm_t) : Prop :=
  0 <= free_top s <= MAX_FREE_LIST /\ pmm_lock s = 0.

(** The page addresses from [b] (included) to [e] (excluded). *)
Definition page_range (b e : Z) : list Z :=
  (fun i => b + PAGE_SIZE * i) <$> seqZ 0 ((e - b + (PAGE_SIZE - 1)) / PAGE_SIZE).

(** The page frames of one usable region, in address order. *)
Definition entry_pages (e : memmap_entry) : list Z :=
  if me_type e =? LIMINE_MEMMAP_USABLE
  then page_range (page_align_up (me_base e)) (page_align_end (me_base e) (me_length e))
  else [].

(** The page frames of the whole map. *)
Definition map_pages (entries : list memmap_entry) : list Z :=
  concat (entry_pages <$> entries).

(** ** What a frame allocator promises to its clients

    The virtual memory manager, the heap and the process code use page
    frames only through this interface; [Pmm_FrameAllocator] below shows
    that pmm.c keeps the promise. *)
Class FrameAllocator (P : Type) : Type := {
  fa_alloc : M P Z;
  fa_free : Z -> M P unit;
  fa_ok : P -> Prop;
  fa_pages : P -> list Z;
  fa_room : P -> bool;
  fa_alloc_nil : forall s, fa_ok s -> fa_pages s = [] ->
    fa_alloc s = Ret 0 s;
  fa_alloc_cons : forall s p ps, fa_ok s -> fa_pages s = p :: ps ->
    exists s', fa_alloc s = Ret p s' /\ fa_ok s' /\ fa_pages s' = ps;
  fa_free_spec : forall s p, fa_ok s ->
    exists s', fa_free p s = Ret tt s' /\ fa_ok s' /\
      fa_pages s' = if fa_room s then p :: fa_pages s else fa_pages s
}.

(** ** Lemmas *)

Lemma free_pages_length s : pmm_ok s -> Z.of_nat (length (free_pages s)) = free_top s.
Proof.
  intros [? _]. unfold free_pages.
  rewrite length_reverse, length_fmap, length_seqZ. lia.
Qed.

Lemma free_pages_insert m t l page :
  0 <= t ->
  free_pages (mk_pmm (<[t := page]> m) (t + 1) l) = page :: free_pages (mk_pmm m t l).
Proof.
  intros Ht. unfold free_pages. cbn [free_stack free_top].
  rewrite seqZ_app by lia. rewrite fmap_app, reverse_app, Z.add_0_l.
  change (seqZ t 1) with [t].
  cbn [fmap list_fmap]. rewrite reverse_singleton, lookup_insert_eq. cbn.
  f_equal. f_equal. apply list_fmap_ext. intros i x [-> Hx]%lookup_seqZ.
  rewrite lookup_insert_ne by lia. done.
Qed.

Lemma free_pages_pop m t l :
  0 < t ->
  free_pages (mk_pmm m t l) = default 0 (m !! (t - 1)) :: free_pages (mk_pmm m (t - 1) l).
Proof.
  intros Ht. unfold free_pages. cbn [free_stack free_top].
  replace t with ((t - 1) + 1) at 1 by lia.
  rewrite seqZ_app by lia. rewrite fmap_app, reverse_app, Z.add_0_l.
  done.
Qed.

Lemma pmm_alloc_empty s :
  pmm_ok s -> free_pages s = [] -> pmm_alloc_page s = Ret 0 s.
Proof.
  intros Hok Hnil. pose proof (free_pages_length s Hok) as Hl. rewrite Hnil in Hl.
  destruct s as [m t l], Hok as [? Hlk]. simpl in *. subst l.
  unfold pmm_alloc_page. mstep. simpl. rewrite <- Hl. done.
Qed.

Lemma pmm_alloc_pop s p ps :
  pmm_ok s -> free_pages s = p :: ps ->
  exists s', pmm_alloc_page s = Ret p s' /\ pmm_ok s' /\ free_pages s' = ps.
Proof.
  intros Hok Hp. pose proof (free_pages_length s Hok) as Hl. rewrite Hp in Hl.
  destruct s as [m t l], Hok as [Ht Hlk]. simpl in *. subst l.
  rewrite free_pages_pop in Hp by lia. injection Hp as Hp Hps.
  exists (mk_pmm m (t - 1) 0). split; [|by repeat split; simpl; try lia].
  unfold pmm_alloc_page. mstep. simpl.
  destruct (Z.eqb_spec t 0); [lia|]. unfold stack_pop. mstep. simpl.
  destruct (Z.leb_spec 0 (t - 1)), (Z.ltb_spec (t - 1) MAX_FREE_LIST); try lia.
  simpl. by rewrite Hp.
Qed.

Lemma pmm_free_push s p :
  pmm_ok s ->
  exists s', pmm_free_page p s = Ret tt s' /\ pmm_ok s' /\
    free_pages s' = if free_top s <? MAX_FREE_LIST then p :: free_pages s else free_pages s.
Proof.
  intros Hok. destruct s as [m t l], Hok as [Ht Hlk]. simpl in *. subst l.
  unfold pmm_free_page. mstep. simpl.
  destruct (Z.ltb_spec t MAX_FREE_LIST) as [Hlt|Hge].
  - unfold stack_push. mstep. simpl.
    destruct (Z.leb_spec 0 t), (Z.ltb_spec t MAX_FREE_LIST); try lia. simpl.
    eexists. split; [reflexivity|]. split; [split; simpl; lia|].
    unfold set_pmm_lock. simpl. apply (free_pages_insert m t 0 p). lia.
  - mstep. eexists. split; [reflexivity|]. split; [split; simpl; lia|]. done.
Qed.

#[export] Hint Resolve pmm_alloc_empty pmm_alloc_pop pmm_free_push : orchid.

(** pmm.c keeps the frame allocator's promise. *)
#[export] Instance Pmm_FrameAllocator : FrameAllocator pmm_t := {|
  fa_alloc := pmm_alloc_page;
  fa_free := pmm_free_page;
  fa_ok := pmm_ok;
  fa_pages := free_pages;
  fa_room := fun s => free_top s <? MAX_FREE_LIST;
  fa_alloc_nil := pmm_alloc_empty;
  fa_alloc_cons := pmm_alloc_pop;
  fa_free_spec := pmm_free_push
|}.

(** ** Enumeration of the memory map *)

Lemma page_mask_spec x : 0 <= x < two64 -> Z.land x PAGE_MASK = x - x mod 4096.
Proof.
  intros Hx. change PAGE_MASK with (Z.ones 64 - Z.ones 12).
  rewrite (land_clear_low x 12 64) by (change (2 ^ 64) with two64; lia). done.
Qed.

Lemma page_mask_aligned x : Z.land (u64 x) PAGE_MASK mod 4096 = 0.
Proof.
  rewrite page_mask_spec by apply u64_range.
  pose proof (Z.div_mod (u64 x) 4096). apply Z.mod_divide; [lia|].
  exists (u64 x / 4096). lia.
Qed.

Lemma page_mask_range x : 0 <= Z.land (u64 x) PAGE_MASK <= two64 - 4096.
Proof.
  pose proof (u64_range x) as Hr. pose proof (page_mask_aligned x) as Ha. revert Ha.
  rewrite page_mask_spec by done. unfold two64 in *.
  intros. Z.div_mod_to_equations. lia.
Qed.

Lemma page_range_nil b e : e <= b -> page_range b e = [].
Proof.
  intros. unfold page_range. rewrite seqZ_nil; [done|]. unfold PAGE_SIZE.
  Z.div_mod_to_equations. lia.
Qed.

Lemma page_range_cons b e :
  b < e -> page_range b e = b :: page_range (b + PAGE_SIZE) e.
Proof.
  intros. unfold page_range.
  replace ((e - b + (PAGE_SIZE - 1)) / PAGE_SIZE)
    with (Z.succ ((e - (b + PAGE_SIZE) + (PAGE_SIZE - 1)) / PAGE_SIZE))
    by (unfold PAGE_SIZE; Z.div_mod_to_equations; lia).
  rewrite seqZ_cons by (unfold PAGE_SIZE; Z.div_mod_to_equations; lia).
  rewrite fmap_cons. f_equal; [lia|]. rewrite Z.pred_succ. change (Z.succ 0) with (1 + 0). rewrite <- fmap_add_seqZ.
  rewrite <- list_fmap_compose. apply list_fmap_ext. intros i x _.
  unfold compose. unfold PAGE_SIZE. lia.
Qed.

Lemma elem_of_page_range p b e :
  p ∈ page_range b e -> b <= p < e /\ (p - b) mod PAGE_SIZE = 0.
Proof.
  intros (i & -> & Hi%elem_of_seqZ)%list_elem_of_fmap. split.
  - unfold PAGE_SIZE in *. Z.div_mod_to_equations. lia.
  - replace (b + PAGE_SIZE * i - b) with (i * PAGE_SIZE) by lia. by apply Z_mod_mult.
Qed.

Lemma page_range_NoDup b e : NoDup (page_range b e).
Proof.
  apply NoDup_fmap_2_strong; [|apply NoDup_seqZ].
  intros x y _ _ H. unfold PAGE_SIZE in H. lia.
Qed.

(** The inner loop pushes the pages of the range until the array is full,
    and ends within its fuel. *)
Lemma init_fill_total fuel b e tot s :
  pmm_ok s -> 0 <= tot < two64 ->
  0 <= b < two64 -> b mod 4096 = 0 -> 0 <= e < two64 -> e mod 4096 = 0 ->
  MAX_FREE_LIST - free_top s < Z.of_nat fuel ->
  exists tot' s', init_fill fuel b e tot s = Ret tot' s' /\ pmm_ok s' /\
    0 <= tot' < two64 /\
    free_top s' = free_top s +
      Z.of_nat (length (take (Z.to_nat (MAX_FREE_LIST - free_top s)) (page_range b e))) /\
    free_pages s' =
      reverse (take (Z.to_nat (MAX_FREE_LIST - free_top s)) (page_range b e)) ++ free_pages s.
Proof.
  revert b tot s. induction fuel as [|fuel IH]; intros b tot s Hok Htot Hb Hba He Hea Hf.
  { destruct Hok. lia. }
  cbn [init_fill]. destruct (Z.ltb_spec b e) as [Hlt|Hge].
  2:{ rewrite page_range_nil by lia. exists tot, s. rewrite take_nil. simpl.
      split_and!; try done; lia. }
  mstep. destruct s as [m t l], Hok as [Ht Hl]. simpl in Ht, Hl, Hf. subst l.
  cbn [free_top]. destruct (Z.ltb_spec t MAX_FREE_LIST) as [Hroom|Hfull].
  2:{ exists tot, (mk_pmm m t 0). replace (MAX_FREE_LIST - t) with 0 by lia.
      rewrite take_0. simpl. split_and!; try done; lia. }
  mstep. unfold stack_push. cbn [free_top free_stack pmm_lock].
  destruct (Z.leb_spec 0 t), (Z.ltb_spec t MAX_FREE_LIST); try lia. cbn [andb bindr].
  rewrite (u64_small (b + PAGE_SIZE)) by (unfold PAGE_SIZE, two64 in *; Z.div_mod_to_equations; lia).
  destruct (IH (b + PAGE_SIZE) (u64 (tot + 1)) (mk_pmm (<[t:=b]> m) (t + 1) 0))
    as (tot' & s' & Heq & Hok' & Htot' & Htop & Hpages); simpl; try done; try apply u64_range.
  { split; simpl; lia. }
  { unfold PAGE_SIZE, two64 in *. Z.div_mod_to_equations. lia. }
  { unfold PAGE_SIZE in *. rewrite Z.add_mod, Hba by lia. done. }
  { lia. }
  exists tot', s'. split; [done|]. split; [done|]. split; [done|].
  rewrite (page_range_cons b e) by done. cbn [free_top] in Htop, Hpages |- *.
  replace (Z.to_nat (MAX_FREE_LIST - t)) with (S (Z.to_nat (MAX_FREE_LIST - (t + 1)))) by lia.
  rewrite firstn_cons, reverse_cons, length_cons. split; [lia|].
  rewrite Hpages, (free_pages_insert m t 0 b) by lia. by rewrite <- app_assoc.
Qed.

Lemma init_entries_spec entries tot s :
  pmm_ok s -> 0 <= tot < two64 ->
  exists tot' s', init_entries entries tot s = Ret tot' s' /\ pmm_ok s' /\
    free_pages s' =
      reverse (take (Z.to_nat (MAX_FREE_LIST - free_top s)) (map_pages entries)) ++ free_pages s.
Proof.
  revert tot s. induction entries as [|e entries IH]; intros tot s Hok Htot.
  { exists tot, s. unfold map_pages. simpl. rewrite take_nil. done. }
  cbn [init_entries]. unfold map_pages. rewrite fmap_cons. cbn [concat].
  unfold entry_pages at 1. destruct (Z.eqb_spec (me_type e) LIMINE_MEMMAP_USABLE); cbn [negb].
  2:{ rewrite app_nil_l. by apply IH. }
  destruct (init_fill_total fill_fuel (page_align_up (me_base e))
              (page_align_end (me_base e) (me_length e)) tot s)
    as (tot1 & s1 & Heq & Hok1 & Htot1 & Htop1 & Hp1); try done;
    try apply page_mask_aligned; try (pose proof (page_mask_range (me_base e + PAGE_SIZE - 1));
      pose proof (page_mask_range (me_base e + me_length e));
      unfold page_align_up, page_align_end; lia).
  { destruct Hok. unfold fill_fuel. rewrite Nat2Z.inj_succ, Z2Nat.id by (unfold MAX_FREE_LIST; lia). lia. }
  mstep. rewrite Heq. cbn [bindr].
  destruct (IH tot1 s1 Hok1 Htot1) as (tot2 & s2 & Heq2 & Hok2 & Hp2).
  exists tot2, s2. split; [done|]. split; [done|].
  rewrite Hp2, Hp1, take_app, reverse_app, <- app_assoc. do 3 f_equal.
  destruct Hok1, Hok. f_equal. rewrite Htop1, length_take. lia.
Qed.

(** ** Properties *)

(** A memory map as the boot loader documents it: usable regions lie below
    2^64 with a page to spare and do not overlap, and frame 0 is not
    usable. *)
Definition region_ok (e : memmap_entry) : Prop :=
  me_type e = LIMINE_MEMMAP_USABLE ->
  0 < me_base e /\ 0 <= me_length e /\ me_base e + me_length e + PAGE_SIZE <= two64.

Definition regions_apart (e1 e2 : memmap_entry) : Prop :=
  me_type e1 = LIMINE_MEMMAP_USABLE -> me_type e2 = LIMINE_MEMMAP_USABLE ->
  me_base e1 + me_length e1 <= me_base e2 \/ me_base e2 + me_length e2 <= me_base e1.

Fixpoint memmap_ok (entries : list memmap_entry) : Prop :=
  match entries with
  | [] => True
  | e :: rest => region_ok e /\ Forall (regions_apart e) rest /\ memmap_ok rest
  end.

(** A whole page frame inside a usable region. *)
Definition frame_in (e : memmap_entry) (p : Z) : Prop :=
  me_type e = LIMINE_MEMMAP_USABLE /\ p mod PAGE_SIZE = 0 /\ p <> 0 /\
  me_base e <= p /\ p + PAGE_SIZE <= me_base e + me_length e.

Lemma entry_pages_in e p : region_ok e -> p ∈ entry_pages e -> frame_in e p.
Proof.
  unfold entry_pages, frame_in. intros Hr Hp.
  destruct (Z.eqb_spec (me_type e) LIMINE_MEMMAP_USABLE) as [Hu|]; [|by apply not_elem_of_nil in Hp].
  destruct (Hr Hu) as (Hb & Hl & Hw). apply elem_of_page_range in Hp as [Hrange Hmod].
  unfold page_align_up, page_align_end, PAGE_SIZE in *.
  rewrite !u64_small in * by (unfold two64 in *; lia).
  rewrite !page_mask_spec in * by (unfold two64 in *; lia).
  split; [done|]. Z.div_mod_to_equations. lia.
Qed.

Lemma map_pages_in entries p :
  memmap_ok entries -> p ∈ map_pages entries -> exists e, e ∈ entries /\ frame_in e p.
Proof.
  induction entries as [|e rest IH]; intros Hok Hp; [by apply not_elem_of_nil in Hp|].
  destruct Hok as (Hr & _ & Hrest). unfold map_pages in Hp. rewrite fmap_cons in Hp.
  cbn [concat] in Hp. apply elem_of_app in Hp as [Hp|Hp].
  - exists e. split; [by left|]. by apply entry_pages_in.
  - destruct (IH Hrest Hp) as (e' & He' & Hf). exists e'. split; [by right|done].
Qed.

Lemma map_pages_NoDup entries : memmap_ok entries -> NoDup (map_pages entries).
Proof.
  induction entries as [|e rest IH]; intros Hok; [constructor|].
  destruct Hok as (Hr & Hapart & Hrest). unfold map_pages. rewrite fmap_cons. cbn [concat].
  apply NoDup_app. split_and!; [|intros p Hp Hp'|by apply IH].
  - unfold entry_pages. case_match; [apply page_range_NoDup|constructor].
  - destruct (entry_pages_in _ _ Hr Hp) as (Hu & _ & _ & Hlo & Hhi).
    destruct (map_pages_in _ _ Hrest Hp') as (e' & He' & Hu' & _ & _ & Hlo' & Hhi').
    rewrite Forall_forall in Hapart.
    destruct (Hapart e' He' Hu Hu'); unfold PAGE_SIZE in *; lia.
Qed.

Lemma pmm_init_pages (entries : list memmap_entry) : memmap_ok entries ->
  exists total s, pmm_init (Some entries) pmm_boot = Ret total s /\ pmm_ok s /\
    free_pages s = reverse (take (Z.to_nat MAX_FREE_LIST) (map_pages entries)).
Proof.
  intros Hmap. destruct (init_entries_spec entries 0 pmm_boot) as (tot & s & Heq & Hok & Hp); [by split; simpl|done|].
  rewrite Z.sub_0_r in Hp. exists tot, s. replace (free_pages pmm_boot) with (@nil Z) in Hp by reflexivity. by rewrite app_nil_r in Hp.
Qed.

(** [pmm_init] on the boot loader's memory map returns, leaves the lock
    free, and its free stack holds the page frames of the usable regions in
    address order up to the capacity of the array: no frame twice, every
    frame aligned, non-zero and entirely inside a usable region. *)
Theorem pmm_init_sound (entries : list memmap_entry) (Hmap : memmap_ok entries) :
  exists total s, pmm_init (Some entries) pmm_boot = Ret total s /\ pmm_ok s /\
    free_pages s = reverse (take (Z.to_nat MAX_FREE_LIST) (map_pages entries)) /\
    NoDup (free_pages s) /\
    forall p, p ∈ free_pages s -> exists e, e ∈ entries /\ frame_in e p.
Proof.
  destruct (pmm_init_pages entries Hmap) as (tot & s & Heq & Hok & Hp). exists tot, s. rewrite Hp.
  pose proof (map_pages_NoDup entries Hmap) as Hnd.
  rewrite <- (take_drop (Z.to_nat MAX_FREE_LIST) (map_pages entries)) in Hnd.
  apply NoDup_app in Hnd as [Hnd _]. split_and!; try done.
  - by rewrite reverse_Permutation.
  - intros p Hin. apply map_pages_in; [done|]. rewrite reverse_Permutation in Hin.
    apply elem_of_take in Hin as (i & Hi & _). by eapply list_elem_of_lookup_2.
Qed.

(** A run of the allocator: the state and the frames its callers own. *)
Inductive pmm_step : pmm_t * list Z -> pmm_t * list Z -> Prop :=
| step_alloc s own p s' :
    pmm_alloc_page s = Ret p s' -> p <> 0 -> pmm_step (s, own) (s', p :: own)
| step_alloc_oom s own s' :
    pmm_alloc_page s = Ret 0 s' -> pmm_step (s, own) (s', own)
| step_free s own own' p s' :
    own ≡ₚ p :: own' -> pmm_free_page p s = Ret tt s' -> pmm_step (s, own) (s', own')
| step_count s own n s' :
    pmm_free_page_count s = Ret n s' -> pmm_step (s, own) (s', own).

Definition pmm_inv (all : list Z) (st : pmm_t * list Z) : Prop :=
  pmm_ok st.1 /\ free_pages st.1 ++ st.2 ≡ₚ all.

Lemma pmm_step_inv all st st' :
  Z.of_nat (length all) <= MAX_FREE_LIST -> 0 ∉ all ->
  pmm_inv all st -> pmm_step st st' -> pmm_inv all st'.
Proof.
  intros Hlen H0 [Hok Hperm] Hstep. destruct Hstep as
    [s own p s' Ha Hp0|s own s' Ha|s own own' p s' Hown Hf|s own n s' Hc]; simpl in *.
  - destruct (free_pages s) as [|q qs] eqn:Hq.
    { rewrite (pmm_alloc_empty s Hok Hq) in Ha. congruence. }
    destruct (pmm_alloc_pop s q qs Hok Hq) as (s1 & Ha1 & Hok1 & Hp1).
    rewrite Ha1 in Ha. simplify_eq. split; simpl; [done|].
    by rewrite <- Hperm, <- Permutation_middle.
  - destruct (free_pages s) as [|q qs] eqn:Hq.
    { rewrite (pmm_alloc_empty s Hok Hq) in Ha. simplify_eq. split; simpl; [done|]. by rewrite Hq. }
    destruct (pmm_alloc_pop s q qs Hok Hq) as (s1 & Ha1 & _ & _).
    rewrite Ha1 in Ha. simplify_eq. destruct H0. rewrite <- Hperm. by left.
  - destruct (pmm_free_push s p Hok) as (s1 & Hf1 & Hok1 & Hp1).
    rewrite Hf1 in Hf. simplify_eq. split; simpl; [done|].
    apply Permutation_length in Hperm as Hl. rewrite Hown, length_app, length_cons in Hl.
    pose proof (free_pages_length s Hok).
    destruct (Z.ltb_spec (free_top s) MAX_FREE_LIST); [|lia].
    rewrite Hp1, <- Hperm, Hown. by rewrite <- Permutation_middle.
  - destruct s as [m t l], Hok as [Ht Hl]. simpl in Hl. subst l.
    unfold pmm_free_page_count in Hc. mstep in Hc. simpl in Hc. simplify_eq. by split.
Qed.

(** C2: over any history of allocations, frees of owned frames and counts
    from a well-formed state, the free frames and the owned frames together
    are exactly the initial frames: none is handed out twice, none is lost. *)
Theorem pmm_no_double_allocation (s0 : pmm_t) (st : pmm_t * list Z)
    (Hok : pmm_ok s0) (H0 : 0 ∉ free_pages s0)
    (Hrun : rtc pmm_step (s0, []) st) :
  pmm_ok st.1 /\ free_pages st.1 ++ st.2 ≡ₚ free_pages s0.
Proof.
  assert (Hi : pmm_inv (free_pages s0) (s0, [])).
  { split; simpl; [done|]. by rewrite app_nil_r. }
  change (pmm_inv (free_pages s0) st). revert Hi.
  assert (Hlen : Z.of_nat (length (free_pages s0)) <= MAX_FREE_LIST).
  { rewrite free_pages_length by done. destruct Hok. lia. }
  induction Hrun as [|a b c Hab _ IH]; intros Hi; [done|].
  apply IH. by eapply pmm_step_inv.
Qed.

(** ** Witnesses *)

(** Two usable regions around a reserved one; the last region ends in the
    middle of a page. *)
Definition demo_map : list memmap_entry :=
  [mk_entry 4096 8192 0; mk_entry 12288 4096 1; mk_entry 20000 13000 0].

Lemma demo_map_ok : memmap_ok demo_map.
Proof.
  unfold demo_map. cbn [memmap_ok].
  split_and!; repeat first [apply Forall_nil_2 | apply Forall_cons_2];
    try exact I; unfold region_ok, regions_apart; simpl; unfold two64, PAGE_SIZE; lia.
Defined.

Lemma pmm_init_sound_witness :
  memmap_ok demo_map /\
  (exists total s, pmm_init (Some demo_map) pmm_boot = Ret total s /\ pmm_ok s /\
    free_pages s = reverse (take (Z.to_nat MAX_FREE_LIST) (map_pages demo_map)) /\
    NoDup (free_pages s) /\
    forall p, p ∈ free_pages s -> exists e, e ∈ demo_map /\ frame_in e p) /\
  map_pages demo_map = [4096; 8192; 20480; 24576; 28672].
Proof.
  split; [apply demo_map_ok|]. split; [apply (pmm_init_sound demo_map demo_map_ok)|].
  vm_compute. reflexivity.
Defined.

(** Four frames; two are allocated and the first one is given back. *)
Definition demo_pmm : pmm_t :=
  mk_pmm (<[0:=4096]> (<[1:=8192]> (<[2:=12288]> (<[3:=16384]> ∅)))) 4 0.

Lemma pmm_no_double_allocation_witness :
  exists st, rtc pmm_step (demo_pmm, []) st /\ st.2 = [12288] /\
    free_pages st.1 = [16384; 8192; 4096] /\
    pmm_ok st.1 /\ free_pages st.1 ++ st.2 ≡ₚ free_pages demo_pmm.
Proof.
  assert (Hrun : rtc pmm_step (demo_pmm, [])
    (mk_pmm (<[2:=16384]> (free_stack demo_pmm)) 3 0, [12288])).
  { eapply rtc_l; [eapply step_alloc; [vm_compute; reflexivity|lia]|].
    eapply rtc_l; [eapply step_alloc; [vm_compute; reflexivity|lia]|].
    eapply rtc_l; [eapply (step_free _ _ [12288] 16384);
      [apply perm_swap|vm_compute; reflexivity]|].
    apply rtc_refl. }
  eexists. split; [exact Hrun|]. split; [reflexivity|]. split; [vm_compute; reflexivity|].
  apply (pmm_no_double_allocation demo_pmm _); [split; simpl; unfold MAX_FREE_LIST; lia| |exact Hrun].
  vm_compute. intros H. repeat (apply elem_of_cons in H as [H|H]; [discriminate|]).
  by apply not_elem_of_nil in H.
Defined.
