(* ===== verification/Vmm.v ===== *)
(** * Virtual memory manager (src/kernel/vmm.c, lines 9-178)

    Four-level page tables in byte memory, reached through the direct map
    (HHDM): a physical address [p] is accessed at [p + hhdm_offset].  The
    memory is keyed by these kernel virtual addresses.  Page frames come from
    any [FrameAllocator].  The TLB ([invlpg]) and the diagnostics on the
    serial line are not part of the state. *)

From stdpp Require Import base gmap list fin_maps.
From Stdlib Require Import ZArith Lia.
From S2P Require Import Prelude Mem Pmm.

(** ** Constants and bit fields *)

Definition VMM_PRESENT : Z := 0x001.
Definition VMM_WRITABLE : Z := 0x002.
Definition VMM_USER : Z := 0x004.
Definition VMM_NX : Z := 0x8000000000000000.

Definition PML4_INDEX (v : Z) : Z := Z.land (Z.shiftr v 39) 0x1FF.
Definition PDPT_INDEX (v : Z) : Z := Z.land (Z.shiftr v 30) 0x1FF.
Definition PD_INDEX (v : Z) : Z := Z.land (Z.shiftr v 21) 0x1FF.
Definition PT_INDEX (v : Z) : Z := Z.land (Z.shiftr v 12) 0x1FF.

Definition entry_get_addr (entry : Z) : Z := Z.land entry 0x000FFFFFFFFFF000.
Definition make_entry (phys flags : Z) : Z :=
  Z.lor (Z.land phys 0x000FFFFFFFFFF000) (Z.land flags 0xFFF).

(** [entry & 1] *)
Definition present (entry : Z) : bool := truthy (Z.land entry 1).

Section Vmm.
Context {P : Type} `{FrameAllocator P}.
Context (hhdm_offset : Z).

(** ** State *)

Record vm_t : Type := mk_vm {
  vm_pmm : P;
  vm_mem : mem;
  vm_pml4 : Z;          (* static uint64_t *pml4: the kernel's CR3 *)
  vmm_lock : Z
}.

Definition set_vm_pmm (p : P) (s : vm_t) : vm_t :=
  mk_vm p (vm_mem s) (vm_pml4 s) (vmm_lock s).
Definition set_vm_mem (m : mem) (s : vm_t) : vm_t :=
  mk_vm (vm_pmm s) m (vm_pml4 s) (vmm_lock s).
Definition set_vmm_lock (l : Z) (s : vm_t) : vm_t :=
  mk_vm (vm_pmm s) (vm_mem s) (vm_pml4 s) l.

Definition load64 (a : Z) : M vm_t Z := mget (fun s => rd64 (vm_mem s) a).
Definition store64 (a v : Z) : M vm_t unit :=
  mset (fun s => set_vm_mem (wr64 (vm_mem s) a v) s).
Definition alloc_frame : M vm_t Z := zoom vm_pmm set_vm_pmm fa_alloc.

(** ** Operations *)

Definition phys_to_virt (phys : Z) : Z := u64 (phys + hhdm_offset).

(** [vmm_init] records CR3; the register is an argument. *)
Definition vmm_init (cr3 : Z) : M vm_t unit :=
  mset (fun s => mk_vm (vm_pmm s) (vm_mem s) cr3 (vmm_lock s)).

Definition ensure_page_table (entry_ptr : Z) : M vm_t unit :=
  e <- load64 entry_ptr ;;
  if negb (present e) then
    pt_phys <- alloc_frame ;;
    if pt_phys =? 0 then mret tt
    else
      let pt_virt := phys_to_virt pt_phys in
      mset (fun s => set_vm_mem (zero_qwords pt_virt 512 (vm_mem s)) s) ;;;
      store64 entry_ptr (make_entry pt_phys (Z.lor VMM_PRESENT VMM_WRITABLE))
  else mret tt.

(** The descent of [vmm_map] and [vmm_map_user] (the same lines in both):
    each level's table is created when missing; [None] is the early return
    when that failed, [Some pt] the pointer to the last-level table. *)
Definition ensure_walk (pml4_virt virt : Z) : M vm_t (option Z) :=
  let pml4_i := PML4_INDEX virt in
  ensure_page_table (pml4_virt + 8 * pml4_i) ;;;
  e4 <- load64 (pml4_virt + 8 * pml4_i) ;;
  if negb (present e4) then mret None else
  let pdpt := phys_to_virt (entry_get_addr e4) in
  let pdpt_i := PDPT_INDEX virt in
  ensure_page_table (pdpt + 8 * pdpt_i) ;;;
  e3 <- load64 (pdpt + 8 * pdpt_i) ;;
  if negb (present e3) then mret None else
  let pd := phys_to_virt (entry_get_addr e3) in
  let pd_i := PD_INDEX virt in
  ensure_page_table (pd + 8 * pd_i) ;;;
  e2 <- load64 (pd + 8 * pd_i) ;;
  if negb (present e2) then mret None else
  mret (Some (phys_to_virt (entry_get_addr e2))).

(** The descent of [vmm_unmap], [vmm_virt_to_phys] and
    [user_virt_to_phys]: nothing is created. *)
Definition find_walk (pml4_virt virt : Z) : M vm_t (option Z) :=
  e4 <- load64 (pml4_virt + 8 * PML4_INDEX virt) ;;
  if negb (present e4) then mret None else
  e3 <- load64 (phys_to_virt (entry_get_addr e4) + 8 * PDPT_INDEX virt) ;;
  if negb (present e3) then mret None else
  e2 <- load64 (phys_to_virt (entry_get_addr e3) + 8 * PD_INDEX virt) ;;
  if negb (present e2) then mret None else
  mret (Some (phys_to_virt (entry_get_addr e2))).

Definition vmm_map (virt phys flags : Z) : M vm_t unit :=
  if phys =? 0 then mret tt else
  spin_lock vmm_lock set_vmm_lock ;;;
  pml4 <- mget vm_pml4 ;;
  o <- ensure_walk (phys_to_virt pml4) virt ;;
  match o with
  | None => spin_unlock set_vmm_lock
  | Some pt =>
      store64 (pt + 8 * PT_INDEX virt) (make_entry phys (Z.lor flags VMM_PRESENT)) ;;;
      spin_unlock set_vmm_lock
  end.

Definition vmm_unmap (virt : Z) : M vm_t unit :=
  spin_lock vmm_lock set_vmm_lock ;;;
  pml4 <- mget vm_pml4 ;;
  o <- find_walk (phys_to_virt pml4) virt ;;
  match o with
  | None => spin_unlock set_vmm_lock
  | Some pt => store64 (pt + 8 * PT_INDEX virt) 0 ;;; spin_unlock set_vmm_lock
  end.

Definition vmm_virt_to_phys (virt : Z) : M vm_t Z :=
  spin_lock vmm_lock set_vmm_lock ;;;
  pml4 <- mget vm_pml4 ;;
  o <- find_walk (phys_to_virt pml4) virt ;;
  match o with
  | None => spin_unlock set_vmm_lock ;;; mret 0
  | Some pt =>
      e <- load64 (pt + 8 * PT_INDEX virt) ;;
      spin_unlock set_vmm_lock ;;;
      mret (if present e then Z.lor (entry_get_addr e) (Z.land virt 0xFFF) else 0)
  end.

Definition vmm_map_user (pml4_phys virt phys flags is_user : Z) : M vm_t unit :=
  if phys =? 0 then mret tt else
  spin_lock vmm_lock set_vmm_lock ;;;
  o <- ensure_walk (phys_to_virt pml4_phys) virt ;;
  match o with
  | None => spin_unlock set_vmm_lock
  | Some pt =>
      let entry := make_entry phys
        (Z.lor (Z.lor flags VMM_PRESENT) (if truthy is_user then VMM_USER else 0)) in
      store64 (pt + 8 * PT_INDEX virt) entry ;;;
      spin_unlock set_vmm_lock
  end.

Definition user_virt_to_phys (pml4_phys virt : Z) : M vm_t Z :=
  spin_lock vmm_lock set_vmm_lock ;;;
  o <- find_walk (phys_to_virt pml4_phys) virt ;;
  match o with
  | None => spin_unlock set_vmm_lock ;;; mret 0
  | Some pt =>
      e <- load64 (pt + 8 * PT_INDEX virt) ;;
      if negb (present e) then spin_unlock set_vmm_lock ;;; mret 0
      else
        spin_unlock set_vmm_lock ;;;
        mret (Z.lor (entry_get_addr e) (Z.land virt 0xFFF))
  end.

(** ** The page-table tree

    [walk m t path] is the table reached from the table at physical address
    [t] by a list of indices; [leaf] is the raw last-level entry of a
    virtual address (0 when a table is missing on the way). *)

Definition slot (t i : Z) : Z := phys_to_virt t + 8 * i.

Fixpoint walk (m : mem) (t : Z) (path : list Z) : option Z :=
  match path with
  | [] => Some t
  | i :: rest =>
      let e := rd64 m (slot t i) in
      if present e then walk m (entry_get_addr e) rest else None
  end.

Definition upath (virt : Z) : list Z := [PML4_INDEX virt; PDPT_INDEX virt; PD_INDEX virt].

Definition leaf (m : mem) (root virt : Z) : Z :=
  match walk m root (upath virt) with
  | Some t => rd64 m (slot t (PT_INDEX virt))
  | None => 0
  end.

(** The address translation the tables define: 0 when not mapped. *)
Definition translate (m : mem) (root virt : Z) : Z :=
  let e := leaf m root virt in
  if present e then Z.lor (entry_get_addr e) (Z.land virt 0xFFF) else 0.

End Vmm.
