(* ===== verification/PageTables.v ===== *)
(** * Correctness of the page-table code (src/kernel/vmm.c)

    The tables reachable from a root form a tree of distinct frames that the
    frame allocator does not own ([pt_wf]).  Under this invariant the code of
    vmm.c maps and unmaps exactly one page and reads back exactly the
    translation the tables define. *)

From stdpp Require Import base gmap list fin_maps.
From Stdlib Require Import ZArith Lia.
From S2P Require Import Prelude Mem Pmm Vmm.

#[local] Opaque zero_qwords wr64 rd64.

(** ** Bit fields *)

Lemma mod52_4096 x : x mod 2 ^ 52 mod 4096 = x mod 4096.
Proof. apply Z.mod_mod_divide. exists (2 ^ 40). reflexivity. Qed.

Lemma addr_mask_arith x :
  0 <= x -> Z.land x 0x000FFFFFFFFFF000 = (x mod 2 ^ 52) - x mod 4096.
Proof.
  intros Hx.
  rewrite <- (mod52_4096 x). change 4096 with (2 ^ 12) at 1.
  rewrite <- (land_clear_low (x mod 2 ^ 52) 12 52); [|lia|apply Z.mod_pos_bound; lia].
  rewrite <- (land_low x 52) by lia.
  rewrite <- Z.land_assoc. by replace (Z.land (Z.ones 52) (Z.ones 52 - Z.ones 12))
    with 0x000FFFFFFFFFF000 by reflexivity.
Qed.

Lemma addr_mask_id x : 0 <= x < 2 ^ 52 -> x mod 4096 = 0 -> entry_get_addr x = x.
Proof.
  intros Hx Ha. unfold entry_get_addr. rewrite addr_mask_arith by lia.
  rewrite (Z.mod_small x (2 ^ 52)) by lia. lia.
Qed.

Lemma entry_addr_range e : 0 <= e -> 0 <= entry_get_addr e < 2 ^ 52.
Proof.
  intros. unfold entry_get_addr. rewrite addr_mask_arith by lia.
  rewrite <- (mod52_4096 e).
  pose proof (Z.mod_pos_bound e (2 ^ 52)). 
  pose proof (Z.mod_pos_bound (e mod 2 ^ 52) 4096).
  pose proof (Z.mod_le (e mod 2 ^ 52) 4096). lia.
Qed.

Lemma entry_addr_aligned e : 0 <= e -> entry_get_addr e mod 4096 = 0.
Proof.
  intros. unfold entry_get_addr. rewrite addr_mask_arith by lia.
  rewrite <- (mod52_4096 e).
  apply Z.mod_divide; [lia|]. exists (e mod 2 ^ 52 / 4096).
  pose proof (Z.div_mod (e mod 2 ^ 52) 4096 ltac:(lia)). lia.
Qed.

Lemma make_entry_add p f :
  0 <= p -> make_entry p f = entry_get_addr p + f mod 4096.
Proof.
  intros. unfold make_entry. rewrite land_4095. fold (entry_get_addr p).
  apply (lor_add_disjoint _ _ 12); [lia|by apply entry_addr_aligned|].
  apply Z.mod_pos_bound. lia.
Qed.

Lemma make_entry_range p f : 0 <= p -> 0 <= make_entry p f < 2 ^ 52.
Proof.
  intros. rewrite make_entry_add by done.
  pose proof (entry_addr_range p ltac:(done)).
  pose proof (entry_addr_aligned p ltac:(done)).
  pose proof (Z.mod_pos_bound f 4096). Z.div_mod_to_equations. lia.
Qed.

Lemma make_entry_u64 p f : 0 <= p -> u64 (make_entry p f) = make_entry p f.
Proof. intros. apply u64_small. pose proof (make_entry_range p f ltac:(done)). unfold two64. lia. Qed.

(** Encoding an entry and reading its address back. *)
Lemma entry_get_make p f : 0 <= p -> entry_get_addr (make_entry p f) = entry_get_addr p.
Proof.
  intros Hp. pose proof (make_entry_range p f Hp).
  unfold entry_get_addr at 1. rewrite addr_mask_arith by lia.
  rewrite Z.mod_small by lia. rewrite make_entry_add by done.
  rewrite Z.add_mod, entry_addr_aligned, Z.add_0_l, !Z.mod_mod by lia. lia.
Qed.

Lemma present_make p f : 0 <= p -> present (make_entry p f) = Z.odd f.
Proof.
  intros Hp. unfold present, truthy. rewrite land_1, Zmod_odd.
  replace (Z.odd (make_entry p f)) with (Z.odd f); [by destruct (Z.odd f)|].
  rewrite make_entry_add by done. rewrite Z.odd_add.
  assert (Z.odd (entry_get_addr p) = false) as ->.
  { pose proof (entry_addr_aligned p Hp) as Ha. apply Z.mod_divide in Ha as [k ->]; [|lia].
    by rewrite Z.odd_mul, andb_false_r. }
  rewrite xorb_false_l. rewrite (Z.div_mod f 4096) at 1 by lia.
  by rewrite Z.odd_add, Z.odd_mul.
Qed.

Lemma odd_lor_present f : Z.odd (Z.lor f VMM_PRESENT) = true.
Proof. rewrite <- Z.bit0_odd, Z.lor_spec. by rewrite orb_true_r. Qed.

Lemma odd_lor_l f g : Z.odd f = true -> Z.odd (Z.lor f g) = true.
Proof. rewrite <- !Z.bit0_odd, Z.lor_spec. by intros ->. Qed.

(** A virtual address is its four indices, its offset and its sign bits. *)
Lemma index_range v : 0 <= PML4_INDEX v < 512 /\ 0 <= PDPT_INDEX v < 512 /\
  0 <= PD_INDEX v < 512 /\ 0 <= PT_INDEX v < 512.
Proof.
  unfold PML4_INDEX, PDPT_INDEX, PD_INDEX, PT_INDEX. change 0x1FF with 511.
  rewrite !land_511. pose proof (fun x => Z.mod_pos_bound x 512 ltac:(lia)). auto.
Qed.

(** The 36-bit page number that the four indices encode. *)
Definition vpn (v : Z) : Z := (v / 4096) mod 2 ^ 36.

Lemma index_vpn v :
  PML4_INDEX v = vpn v / 2 ^ 27 /\ PDPT_INDEX v = vpn v / 2 ^ 18 mod 512 /\
  PD_INDEX v = vpn v / 2 ^ 9 mod 512 /\ PT_INDEX v = vpn v mod 512.
Proof.
  unfold PML4_INDEX, PDPT_INDEX, PD_INDEX, PT_INDEX, vpn. change 0x1FF with 511.
  rewrite !land_511, !Z.shiftr_div_pow2 by lia.
  replace (v / 2 ^ 39) with (v / 4096 / 2 ^ 27) by (rewrite Zdiv_Zdiv by lia; done).
  replace (v / 2 ^ 30) with (v / 4096 / 2 ^ 18) by (rewrite Zdiv_Zdiv by lia; done).
  replace (v / 2 ^ 21) with (v / 4096 / 2 ^ 9) by (rewrite Zdiv_Zdiv by lia; done).
  change (2 ^ 12) with 4096. generalize (v / 4096). intros q. clear v.
  change (2 ^ 36) with 68719476736. change (2 ^ 27) with 134217728.
  change (2 ^ 18) with 262144. change (2 ^ 9) with 512.
  split_and!; Z.div_mod_to_equations; lia.
Qed.

Lemma same_indices_same_vpn v w :
  PML4_INDEX v = PML4_INDEX w -> PDPT_INDEX v = PDPT_INDEX w ->
  PD_INDEX v = PD_INDEX w -> PT_INDEX v = PT_INDEX w -> vpn v = vpn w.
Proof.
  destruct (index_vpn v) as (-> & -> & -> & ->), (index_vpn w) as (-> & -> & -> & ->).
  assert (0 <= vpn v < 2 ^ 36) by (apply Z.mod_pos_bound; lia).
  assert (0 <= vpn w < 2 ^ 36) by (apply Z.mod_pos_bound; lia).
  generalize dependent (vpn v). generalize dependent (vpn w). intros b Hb a Ha.
  change (2 ^ 27) with 134217728. change (2 ^ 18) with 262144. change (2 ^ 9) with 512.
  intros. Z.div_mod_to_equations. lia.
Qed.

Lemma vpn_same_indices v w :
  vpn v = vpn w -> upath v = upath w /\ PT_INDEX v = PT_INDEX w.
Proof.
  intros E. unfold upath.
  destruct (index_vpn v) as (-> & -> & -> & ->), (index_vpn w) as (-> & -> & -> & ->).
  by rewrite E.
Qed.

(** ** The tree invariant *)

Section Tables.
Context {P : Type} `{FrameAllocator P}.
Context (hhdm_offset : Z).
Context (hhdm_nonneg : 0 <= hhdm_offset).

#[local] Abbreviation vm := (@vm_t P).
#[local] Abbreviation slot := (slot hhdm_offset).
#[local] Abbreviation walk := (walk hhdm_offset).
#[local] Abbreviation leaf := (leaf hhdm_offset).
#[local] Abbreviation ptv := (phys_to_virt hhdm_offset).

(** A page frame that an entry can hold and the direct map covers, below the
    region of the kernel heap (0xFFFFF00000000000): the two regions of
    virtual addresses do not overlap. *)
Definition frame (p : Z) : Prop :=
  0 <= p < 2 ^ 52 /\ p mod 4096 = 0 /\ p + hhdm_offset + 4096 <= 0xFFFFF00000000000.

(** A path of at most [n] indices whose first one (the PML4 slot) lies in
    the part [I] of the address space under consideration. *)
Definition tpath (n : nat) (I : Z -> Prop) (path : list Z) : Prop :=
  (length path <= n)%nat /\ Forall (fun i => 0 <= i < 512) path /\
  match path with [] => True | i :: _ => I i end.

Record pt_wf (I : Z -> Prop) (m : mem) (root : Z) (free : list Z) : Prop := {
  wf_root : frame root;
  wf_table : forall path t, tpath 3 I path -> walk m root path = Some t ->
    frame t /\ t ∉ free;
  wf_inj : forall p1 p2 t, tpath 3 I p1 -> tpath 3 I p2 ->
    walk m root p1 = Some t -> walk m root p2 = Some t -> p1 = p2;
  wf_free : Forall (fun p => frame p /\ p <> 0) free;
  wf_nodup : NoDup free
}.

Record vm_wf (I : Z -> Prop) (root : Z) (s : vm) : Prop := {
  vwf_pmm : fa_ok (vm_pmm s);
  vwf_pt : pt_wf I (vm_mem s) root (fa_pages (vm_pmm s))
}.

Lemma frame_ptv p : frame p -> ptv p = p + hhdm_offset.
Proof. intros (? & ? & ?). unfold phys_to_virt. apply u64_small. unfold two64 in *. lia. Qed.

Lemma frames_apart p q : frame p -> frame q -> p <> q -> p + 4096 <= q \/ q + 4096 <= p.
Proof. intros (? & ? & ?) (? & ? & ?) ?. Z.div_mod_to_equations. lia. Qed.

Lemma slot_apart p q i j :
  frame p -> frame q -> 0 <= i < 512 -> 0 <= j < 512 -> p <> q \/ i <> j ->
  slot p i + 8 <= slot q j \/ slot q j + 8 <= slot p i.
Proof.
  intros Hp Hq Hi Hj Hne. unfold Vmm.slot. rewrite !frame_ptv by done.
  destruct (Z.eq_dec p q) as [->|Hpq]; [destruct Hne; [done|lia]|].
  destruct (frames_apart p q Hp Hq Hpq); lia.
Qed.

Lemma walk_app m t p q :
  walk m t (p ++ q) = match walk m t p with Some u => walk m u q | None => None end.
Proof.
  revert t. induction p as [|i p IH]; intros t; [done|]. cbn [app Vmm.walk].
  case_match; [apply IH|done].
Qed.

Lemma walk_snoc m t p i :
  walk m t (p ++ [i]) = match walk m t p with
    | Some u => if present (rd64 m (slot u i)) then Some (entry_get_addr (rd64 m (slot u i))) else None
    | None => None end.
Proof. rewrite walk_app. by destruct (walk m t p). Qed.

Lemma tpath_app_l n I p q : tpath n I (p ++ q) -> tpath n I p.
Proof.
  intros (Hl & Hf & Hi). split_and!.
  - rewrite length_app in Hl. lia.
  - by apply Forall_app in Hf as [? _].
  - by destruct p.
Qed.

Lemma tpath_snoc_idx n I p i q : tpath n I (p ++ i :: q) -> 0 <= i < 512.
Proof.
  intros (_ & Hf & _). apply Forall_app in Hf as [_ Hf]. by apply Forall_cons in Hf as [? _].
Qed.

(** *** Writing one new table

    [m'] differs from [m] as [ensure_page_table] leaves it: the fresh frame
    [q] is zeroed and slot [i] of the table [t] points to it. *)

Definition add_table (m : mem) (t i q : Z) : mem :=
  wr64 (zero_qwords (ptv q) 512 m) (slot t i) (make_entry q 3).

Lemma add_table_slot m t i q :
  frame q -> rd64 (add_table m t i q) (slot t i) = make_entry q 3.
Proof.
  intros ((? & ?) & ? & ?). unfold add_table. rewrite rd64_wr64_eq.
  apply make_entry_u64. lia.
Qed.

Lemma add_table_other m t i q u j :
  frame t -> frame q -> frame u -> 0 <= i < 512 -> 0 <= j < 512 ->
  u <> q -> (u <> t \/ j <> i) ->
  rd64 (add_table m t i q) (slot u j) = rd64 m (slot u j).
Proof.
  intros Ht Hq Hu Hi Hj Huq Hne. unfold add_table.
  rewrite rd64_wr64_ne by (apply slot_apart; try done; destruct Hne; auto).
  apply rd64_zero_qwords_out. unfold Vmm.slot. rewrite !frame_ptv by done.
  destruct (frames_apart u q Hu Hq Huq); lia.
Qed.

Lemma add_table_fresh m t i q j :
  frame t -> frame q -> 0 <= i < 512 -> 0 <= j < 512 -> q <> t ->
  rd64 (add_table m t i q) (slot q j) = 0.
Proof.
  intros Ht Hq Hi Hj Hne. unfold add_table.
  rewrite rd64_wr64_ne by (apply slot_apart; auto).
  apply rd64_zero_qwords. lia.
Qed.

Lemma add_table_page m t i q d b :
  frame t -> frame q -> frame d -> 0 <= i < 512 -> d <> t -> d <> q -> 0 <= b < 4096 ->
  rd8 (add_table m t i q) (ptv d + b) = rd8 m (ptv d + b).
Proof.
  intros Ht Hq Hd Hi Hdt Hdq Hb. unfold add_table, Vmm.slot.
  rewrite !frame_ptv by done.
  pose proof (frames_apart d t Hd Ht Hdt). pose proof (frames_apart d q Hd Hq Hdq).
  rewrite rd8_wr64_out by lia. rewrite rd8_zero_qwords.
  destruct (Z.leb_spec (q + hhdm_offset) (d + hhdm_offset + b)),
    (Z.ltb_spec (d + hhdm_offset + b) (q + hhdm_offset + 8 * Z.of_nat 512)); simpl; lia.
Qed.

Lemma add_table_far m t i q a : 0 <= i < 512 ->
  a < ptv t \/ ptv t + 4096 <= a -> a < ptv q \/ ptv q + 4096 <= a -> rd8 (add_table m t i q) a = rd8 m a.
Proof.
  intros Hi Ht Hq. unfold add_table, Vmm.slot. rewrite rd8_wr64_out by lia. rewrite rd8_zero_qwords.
  destruct (Z.leb_spec (ptv q) a), (Z.ltb_spec a (ptv q + 8 * Z.of_nat 512)); simpl; lia.
Qed.

Lemma frame_nonneg p : frame p -> 0 <= p.
Proof. intros ((? & ?) & _). lia. Qed.

Lemma frame_entry_addr p : frame p -> entry_get_addr p = p.
Proof. intros ((? & ?) & ? & _). apply addr_mask_id; lia. Qed.

(** The walk after the update: only the path to the new table changes. *)
Lemma walk_add_table I m root free p i q t pre suf u :
  pt_wf I m root (q :: free) -> tpath 3 I (p ++ [i]) -> walk m root p = Some t ->
  present (rd64 m (slot t i)) = false ->
  tpath 3 I (pre ++ suf) -> walk m root pre = Some u ->
  walk (add_table m t i q) u suf =
    if bool_decide (suf <> [] /\ pre ++ suf = p ++ [i]) then Some q else walk m u suf.
Proof.
  intros Hwf Hpi Hwp Habs. revert pre u.
  assert (Hq : frame q) by (pose proof (wf_free _ _ _ _ Hwf) as Hf; by apply Forall_cons in Hf as [[? _] _]).
  assert (Ht : frame t /\ t ∉ q :: free)
    by (eapply wf_table; [exact Hwf|eapply tpath_app_l, Hpi|exact Hwp]).
  assert (Hi : 0 <= i < 512) by (eapply tpath_snoc_idx, Hpi).
  destruct Ht as [Ht Htq]. apply not_elem_of_cons in Htq as [Htq _].
  induction suf as [|j rest IH]; intros pre u Hps Hwu;
    [by rewrite bool_decide_eq_false_2 by (by intros [? _])|].
  assert (Hj : 0 <= j < 512) by (eapply tpath_snoc_idx, Hps).
  assert (Hu : frame u /\ u ∉ q :: free)
    by (eapply wf_table; [exact Hwf|eapply tpath_app_l, Hps|exact Hwu]).
  destruct Hu as [Hu Huq]. apply not_elem_of_cons in Huq as [Huq _].
  cbn [Vmm.walk]. destruct (decide (u = t /\ j = i)) as [[-> ->]|Hne].
  - assert (pre = p) as -> by (eapply wf_inj; eauto using tpath_app_l).
    rewrite add_table_slot by done.
    rewrite present_make, entry_get_make, frame_entry_addr by eauto using frame_nonneg.
    rewrite Habs. change (Z.odd 3) with true. cbv iota. destruct rest as [|k rest].
    + rewrite bool_decide_eq_true_2; [done|]. split; done.
    + rewrite bool_decide_eq_false_2 by (intros [_ E%app_inv_head]; discriminate).
      assert (0 <= k < 512).
      { eapply (tpath_snoc_idx 3 I (p ++ [i]) k rest). by rewrite <- app_assoc. }
      cbn [Vmm.walk]. by rewrite add_table_fresh.
  - assert (Hsame : rd64 (add_table m t i q) (slot u j) = rd64 m (slot u j)).
    { apply add_table_other; try done.
      destruct (Z.eq_dec u t); [right|by left]. intros ->. by apply Hne. }
    rewrite Hsame. destruct (present (rd64 m (slot u j))) eqn:Hp.
    + rewrite (IH (pre ++ [j])).
      * rewrite <- app_assoc. cbn [app]. destruct rest as [|k rest];
          [|by erewrite bool_decide_ext; [reflexivity|split; intros [_ E]; by split]].
        rewrite !bool_decide_eq_false_2; [reflexivity|intros [_ E]|intros [Hx _]; exact (Hx eq_refl)].
        apply app_inj_tail in E as [-> ->]. apply Hne. split; [|done]. congruence.
      * by rewrite <- app_assoc.
      * rewrite walk_snoc, Hwu, Hp. done.
    + rewrite bool_decide_eq_false_2; [done|]. intros [_ E].
      destruct rest as [|k rest].
      * apply app_inj_tail in E as [-> ->]. apply Hne. split; [|done]. congruence.
      * destruct (exists_last (l := k :: rest)) as (l' & x & Hx); [done|].
        rewrite Hx in E. rewrite app_comm_cons, app_assoc in E.
        apply app_inj_tail in E as [E ->]. rewrite <- E in Hwp.
        rewrite walk_app, Hwu in Hwp. cbn [Vmm.walk] in Hwp. rewrite Hp in Hwp.
        discriminate Hwp.
Qed.

Lemma walk_add_root I m root free p i q t path :
  pt_wf I m root (q :: free) -> tpath 3 I (p ++ [i]) -> walk m root p = Some t ->
  present (rd64 m (slot t i)) = false -> tpath 3 I path ->
  walk (add_table m t i q) root path =
    if bool_decide (path = p ++ [i]) then Some q else walk m root path.
Proof.
  intros. rewrite (walk_add_table I m root free p i q t [] path root); try done.
  erewrite bool_decide_ext; [reflexivity|]. cbn [app]. split; [by intros [_ ?]|].
  intros ->. split; [|done]. intros E. by apply app_eq_nil in E as [_ ?].
Qed.

Lemma wf_head I m root q free : pt_wf I m root (q :: free) -> frame q /\ q <> 0 /\ q ∉ free.
Proof.
  intros Hwf. pose proof (wf_free _ _ _ _ Hwf) as Hf. apply Forall_cons in Hf as [[? ?] _].
  pose proof (wf_nodup _ _ _ _ Hwf) as Hn. by apply NoDup_cons in Hn as [? _].
Qed.

Lemma pt_wf_add I m root free p i q t :
  pt_wf I m root (q :: free) -> tpath 3 I (p ++ [i]) -> walk m root p = Some t ->
  present (rd64 m (slot t i)) = false ->
  pt_wf I (add_table m t i q) root free.
Proof.
  intros Hwf Hpi Hwp Habs. pose proof (wf_head _ _ _ _ _ Hwf) as (Hq & _ & Hqf).
  assert (Hold : forall path x, tpath 3 I path -> walk m root path = Some x ->
    frame x /\ x <> q /\ x ∉ free).
  { intros path x Hp Hx. destruct (wf_table _ _ _ _ Hwf path x Hp Hx) as [? Hn].
    by apply not_elem_of_cons in Hn as [? ?]. }
  pose proof (walk_add_root I m root free p i q t) as Hw. split.
  - apply (wf_root _ _ _ _ Hwf).
  - intros path x Hp. rewrite Hw by done. case_bool_decide; intros; simplify_eq; [done|].
    destruct (Hold path x) as (? & ? & ?); auto.
  - intros p1 p2 x Hp1 Hp2. rewrite !Hw by done.
    do 2 case_bool_decide; subst; intros Hx1 Hx2; simplify_eq; [done|..].
    + by destruct (Hold p2 x) as (_ & ? & _).
    + by destruct (Hold p1 x) as (_ & ? & _).
    + by eapply wf_inj.
  - pose proof (wf_free _ _ _ _ Hwf) as Hf. by apply Forall_cons in Hf as [_ ?].
  - pose proof (wf_nodup _ _ _ _ Hwf) as Hn. by apply NoDup_cons in Hn as [_ ?].
Qed.

Lemma upath_tpath I v : I (PML4_INDEX v) -> tpath 3 I (upath v).
Proof.
  intros. pose proof (index_range v) as (? & ? & ? & _). split_and!; [done| |done].
  unfold upath. repeat (apply Forall_cons_2; [done|]). by apply Forall_nil_2.
Qed.

Lemma leaf_add I m root free p i q t v :
  pt_wf I m root (q :: free) -> tpath 3 I (p ++ [i]) -> walk m root p = Some t ->
  present (rd64 m (slot t i)) = false -> I (PML4_INDEX v) ->
  leaf (add_table m t i q) root v = leaf m root v.
Proof.
  intros Hwf Hpi Hwp Habs Hv. pose proof (wf_head _ _ _ _ _ Hwf) as (Hq & _ & _).
  pose proof (upath_tpath I v Hv) as Hup. pose proof (index_range v) as (_ & _ & _ & Hx).
  assert (Hi : 0 <= i < 512) by (eapply tpath_snoc_idx, Hpi).
  destruct (wf_table _ _ _ _ Hwf p t (tpath_app_l _ _ _ _ Hpi) Hwp) as [Ht Htq].
  apply not_elem_of_cons in Htq as [Htq _].
  unfold Vmm.leaf. rewrite (walk_add_root I m root free p i q t (upath v)) by done.
  case_bool_decide as Hc.
  - rewrite Hc, walk_snoc, Hwp, Habs. by apply add_table_fresh.
  - destruct (walk m root (upath v)) as [x|] eqn:Hwx; [|done].
    destruct (wf_table _ _ _ _ Hwf _ x Hup Hwx) as [Hx1 Hx2].
    apply not_elem_of_cons in Hx2 as [Hx2 _]. apply add_table_other; try done.
    left. intros ->. pose proof (wf_inj _ _ _ _ Hwf _ _ _ Hup (tpath_app_l _ _ _ _ Hpi) Hwx Hwp) as E.
    destruct Hpi as (Hlen & _). rewrite <- E in Hlen. simpl in Hlen. lia.
Qed.

(** *** Memories that agree on the tables *)

Definition frame_same (m m' : mem) (x : Z) : Prop :=
  forall b, 0 <= b < 4096 -> rd8 m' (ptv x + b) = rd8 m (ptv x + b).

Definition tables_same (I : Z -> Prop) (m m' : mem) (root : Z) : Prop :=
  forall path x, tpath 3 I path -> walk m root path = Some x -> frame_same m m' x.

Lemma same_slot m m' x i : frame_same m m' x -> 0 <= i < 512 -> rd64 m' (slot x i) = rd64 m (slot x i).
Proof.
  intros Hx Hi. apply rd64_ext. intros b Hb. unfold Vmm.slot in Hb.
  replace b with (ptv x + (b - ptv x)) by lia. apply Hx. lia.
Qed.

Lemma same_walk I m m' root path : tables_same I m m' root -> tpath 3 I path -> walk m' root path = walk m root path.
Proof.
  intros Hk. induction path as [|i path IH] using rev_ind; intros Hp; [done|]. rewrite !walk_snoc.
  pose proof (tpath_app_l _ _ _ _ Hp) as Hp'. rewrite (IH Hp'). destruct (walk m root path) as [t|] eqn:Et; [|done].
  rewrite (same_slot m m' t i); [done|by apply (Hk path)|by eapply tpath_snoc_idx].
Qed.

Lemma same_leaf I m m' root v : tables_same I m m' root -> I (PML4_INDEX v) -> leaf m' root v = leaf m root v.
Proof.
  intros Hk Hv. pose proof (upath_tpath I v Hv) as Hp. unfold Vmm.leaf.
  rewrite (same_walk I m m' root) by done. destruct (walk m root (upath v)) as [t|] eqn:Et; [|done].
  apply same_slot; [by apply (Hk (upath v))|apply index_range].
Qed.

(** *** States that differ only by new, empty tables *)

Definition data_page (I : Z -> Prop) (root : Z) (s : vm) (d : Z) : Prop :=
  frame d /\ (d ∉ fa_pages (vm_pmm s)) /\
  forall path, tpath 3 I path -> walk (vm_mem s) root path <> Some d.

(** A byte the tables cannot reach: outside the direct map, or in a data
    page. *)
Definition far (I : Z -> Prop) (root : Z) (s : vm) (a : Z) : Prop :=
  forall d, frame d -> ptv d <= a < ptv d + 4096 -> data_page I root s d.

(** The page-table entries of [s'] (leaves excluded) that carry the
    user-access bit already did in [s]. *)
Definition user_tables_old (I : Z -> Prop) (root : Z) (s s' : vm) : Prop :=
  forall path t j, tpath 3 I (path ++ [j]) ->
    walk (vm_mem s') root path = Some t ->
    present (rd64 (vm_mem s') (slot t j)) = true ->
    Z.testbit (rd64 (vm_mem s') (slot t j)) 2 = true ->
    walk (vm_mem s) root path = Some t /\
    rd64 (vm_mem s) (slot t j) = rd64 (vm_mem s') (slot t j).

Record vm_ext (I : Z -> Prop) (root : Z) (s s' : vm) : Prop := {
  ext_wf : vm_wf I root s';
  ext_leaf : forall v, I (PML4_INDEX v) -> leaf (vm_mem s') root v = leaf (vm_mem s) root v;
  ext_walk : forall path t, tpath 3 I path ->
    walk (vm_mem s) root path = Some t -> walk (vm_mem s') root path = Some t;
  ext_pml4 : vm_pml4 s' = vm_pml4 s;
  ext_lock : vmm_lock s' = vmm_lock s;
  ext_free : exists used, fa_pages (vm_pmm s) = used ++ fa_pages (vm_pmm s');
  ext_data : forall d, data_page I root s d -> data_page I root s' d;
  ext_page : forall d b, data_page I root s d -> 0 <= b < 4096 ->
    rd8 (vm_mem s') (ptv d + b) = rd8 (vm_mem s) (ptv d + b);
  ext_user : user_tables_old I root s s';
  ext_rest : forall d b, d ∈ fa_pages (vm_pmm s') -> 0 <= b < 4096 ->
    rd8 (vm_mem s') (ptv d + b) = rd8 (vm_mem s) (ptv d + b);
  ext_far : forall a, far I root s a -> rd8 (vm_mem s') a = rd8 (vm_mem s) a;
  ext_top : forall i, 0 <= i < 512 -> ~ I i -> rd64 (vm_mem s') (slot root i) = rd64 (vm_mem s) (slot root i)
}.

Lemma far_data I root (s s' : vm) a :
  (forall d, data_page I root s d -> data_page I root s' d) -> far I root s a -> far I root s' a.
Proof. intros Hd Ha d Hf Hin. by apply Hd, Ha. Qed.

(** A frame that is not a data page keeps away from such a byte. *)
Lemma far_apart I root (s : vm) a d : far I root s a -> frame d -> ~ data_page I root s d ->
  a < ptv d \/ ptv d + 4096 <= a.
Proof. intros Ha Hf Hn. destruct (decide (ptv d <= a < ptv d + 4096)) as [Hin|]; [by destruct Hn; apply Ha|lia]. Qed.

Lemma vm_ext_refl I root s : vm_wf I root s -> vm_ext I root s s.
Proof.
  intros. split; [done|done|done|done|done|by exists []|done|done| |done|done|done]. by intros path t j.
Qed.

Lemma vm_ext_trans I root s1 s2 s3 :
  vm_ext I root s1 s2 -> vm_ext I root s2 s3 -> vm_ext I root s1 s3.
Proof.
  intros H1 H2. split.
  - apply H2.
  - intros. rewrite (ext_leaf _ _ _ _ H2) by done. by apply H1.
  - intros. apply H2; [done|]. by apply H1.
  - rewrite (ext_pml4 _ _ _ _ H2). apply H1.
  - rewrite (ext_lock _ _ _ _ H2). apply H1.
  - destruct (ext_free _ _ _ _ H1) as [u1 E1], (ext_free _ _ _ _ H2) as [u2 E2].
    exists (u1 ++ u2). by rewrite <- app_assoc, <- E2.
  - intros. apply H2. by apply H1.
  - intros d b Hd Hb. rewrite (ext_page _ _ _ _ H2) by (try apply H1; done). by apply H1.
  - intros path t j Hp Hw Hpr Hu. destruct (ext_user _ _ _ _ H2 path t j) as [Hw2 E2]; try done.
    rewrite <- E2 in Hpr, Hu |- *. by apply (ext_user _ _ _ _ H1).
  - intros d b Hd Hb. rewrite (ext_rest _ _ _ _ H2) by done. apply (ext_rest _ _ _ _ H1); [|done].
    destruct (ext_free _ _ _ _ H2) as [u2 E2]. rewrite E2. apply elem_of_app. by right.
  - intros a Ha. rewrite (ext_far _ _ _ _ H2) by (apply (far_data I root s1); [apply H1|done]). by apply H1.
  - intros i Hi Hn. rewrite (ext_top _ _ _ _ H2) by done. by apply H1.
Qed.

(** The state [ensure_page_table] leaves when it creates a table. *)
Lemma vm_ext_add I root s p i t q free pmm' :
  vm_wf I root s -> fa_pages (vm_pmm s) = q :: free ->
  fa_ok pmm' -> fa_pages pmm' = free ->
  tpath 3 I (p ++ [i]) -> walk (vm_mem s) root p = Some t ->
  present (rd64 (vm_mem s) (slot t i)) = false ->
  vm_ext I root s (set_vm_mem (add_table (vm_mem s) t i q) (set_vm_pmm pmm' s)).
Proof.
  intros [Hfa Hwf] Hq Hok' Hp' Hpi Hwp Habs. rewrite Hq in Hwf.
  pose proof (wf_head _ _ _ _ _ Hwf) as (Hfq & _ & _).
  assert (Hi : 0 <= i < 512) by (eapply tpath_snoc_idx, Hpi).
  destruct (wf_table _ _ _ _ Hwf p t (tpath_app_l _ _ _ _ Hpi) Hwp) as [Ht _].
  pose proof (walk_add_root I (vm_mem s) root free p i q t) as Hw.
  split; cbn [vm_mem vm_pmm vm_pml4 vmm_lock set_vm_mem set_vm_pmm];
    [| | |reflexivity|reflexivity| | | | | | |].
  - split; cbn [vm_mem vm_pmm set_vm_mem set_vm_pmm]; [done|]. rewrite Hp'. by eapply pt_wf_add.
  - intros. by eapply leaf_add.
  - intros path x Hpath Hx. rewrite Hw by done. case_bool_decide as Hc; [|done].
    subst path. rewrite walk_snoc, Hwp, Habs in Hx. done.
  - exists [q]. by rewrite Hq, Hp'.
  - intros d (Hd & Hdf & Hdt). rewrite Hq in Hdf. apply not_elem_of_cons in Hdf as [? ?].
    split; [done|]. cbn [vm_mem vm_pmm set_vm_mem set_vm_pmm]. rewrite Hp'. split; [done|].
    intros path Hpath. rewrite Hw by done. case_bool_decide; [congruence|by apply Hdt].
  - intros d b (Hd & Hdf & Hdt) Hb. rewrite Hq in Hdf. apply not_elem_of_cons in Hdf as [? ?].
    apply add_table_page; try done. intros ->. by eapply Hdt; [eapply tpath_app_l, Hpi|].
  - intros path u j Hpj. cbn [vm_mem set_vm_mem].
    assert (Hj : 0 <= j < 512) by (eapply tpath_snoc_idx, Hpj).
    rewrite Hw by (done || by eapply tpath_app_l). case_bool_decide as Hc.
    { intros [= <-]. rewrite add_table_fresh; try done. intros ->.
      by destruct (wf_table _ _ _ _ Hwf p t (tpath_app_l _ _ _ _ Hpi) Hwp) as [_ []%not_elem_of_cons]. }
    intros Hu. destruct (wf_table _ _ _ _ Hwf path u (tpath_app_l _ _ _ _ Hpj) Hu) as [Hfu Hnu].
    apply not_elem_of_cons in Hnu as [Hnu _].
    destruct (decide (u = t /\ j = i)) as [[-> ->]|Hne].
    + rewrite add_table_slot, make_entry_add by (try apply frame_nonneg; done).
      rewrite frame_entry_addr by done. intros _ Hb. exfalso.
      replace (q + 3 mod 4096) with (Z.lor q 3) in Hb.
      2:{ apply (lor_add_disjoint q 3 12); [lia|apply Hfq|lia]. }
      rewrite Z.lor_spec, orb_false_r in Hb. destruct Hfq as (_ & Ha & _).
      rewrite <- (Z.mod_pow2_bits_low q 12 2) in Hb by lia.
      change (2 ^ 12) with 4096 in Hb. by rewrite Ha in Hb.
    + rewrite add_table_other; try done.
      destruct (Z.eq_dec u t); [right|by left]. intros ->. by apply Hne.
  - intros d b Hd Hb. rewrite Hp' in Hd. pose proof (wf_free _ _ _ _ Hwf) as Hfr. apply Forall_cons in Hfr as [_ Hfr].
    rewrite Forall_forall in Hfr. destruct (Hfr d Hd) as [Hfd _].
    destruct (wf_table _ _ _ _ Hwf p t (tpath_app_l _ _ _ _ Hpi) Hwp) as [_ [_ Hnt]%not_elem_of_cons].
    pose proof (wf_nodup _ _ _ _ Hwf) as [Hnq _]%NoDup_cons. apply add_table_page; try done; by intros ->.
  - intros a Ha. apply add_table_far; [done|apply (far_apart I root s)..]; try done.
    + intros (_ & _ & Hdt). by eapply Hdt; [eapply tpath_app_l, Hpi|].
    + intros (_ & Hn & _). apply Hn. rewrite Hq. left.
  - intros j Hj Hn. pose proof (tpath_app_l 3 I [] (p ++ [i]) Hpi) as Hnil.
    destruct (wf_table _ _ _ _ Hwf [] root Hnil eq_refl) as [Hfr [Hnr _]%not_elem_of_cons].
    apply add_table_other; try done. destruct (Z.eq_dec root t) as [<-|]; [right|by left]. intros ->.
    assert (p = []) as -> by (eapply (wf_inj _ _ _ _ Hwf); eauto using tpath_app_l). apply Hn, Hpi.
Qed.

Lemma ensure_spec I root s p i t :
  vm_wf I root s -> tpath 3 I (p ++ [i]) -> walk (vm_mem s) root p = Some t ->
  exists s', ensure_page_table hhdm_offset (slot t i) s = Ret tt s' /\ vm_ext I root s s' /\
    (length (fa_pages (vm_pmm s)) <= S (length (fa_pages (vm_pmm s'))))%nat /\
    (present (rd64 (vm_mem s') (slot t i)) = true \/
     present (rd64 (vm_mem s') (slot t i)) = false /\ fa_pages (vm_pmm s') = [] /\ s' = s).
Proof.
  intros Hwf Hpi Hwp. unfold ensure_page_table, load64. mstep.
  destruct (present (rd64 (vm_mem s) (slot t i))) eqn:Hp; cbn [negb].
  { exists s. split; [done|]. split; [by apply vm_ext_refl|]. split; [lia|by left]. }
  unfold alloc_frame. mstep. destruct (fa_pages (vm_pmm s)) as [|q free] eqn:Hq.
  - rewrite (fa_alloc_nil (vm_pmm s)) by (done || apply Hwf). cbn.
    exists (set_vm_pmm (vm_pmm s) s). replace (set_vm_pmm (vm_pmm s) s) with s by (by destruct s).
    split; [done|]. split; [by apply vm_ext_refl|]. split; [lia|by right].
  - destruct (fa_alloc_cons (vm_pmm s) q free) as (pmm' & Ha & Hok' & Hp');
      [apply Hwf|done|]. rewrite Ha. cbn [zoomr bindr].
    pose proof (vwf_pt _ _ _ Hwf) as Hwf'. rewrite Hq in Hwf'.
    pose proof (wf_head _ _ _ _ _ Hwf') as (Hfq & Hq0 & _).
    destruct (Z.eqb_spec q 0); [done|]. mstep.
    eexists. split; [reflexivity|]. split; [|split].
    + by apply (vm_ext_add I root s p i t q free pmm').
    + cbn [vm_pmm set_vm_mem set_vm_pmm]. by rewrite Hp'.
    + left. cbn [vm_mem set_vm_mem]. fold (add_table (vm_mem s) t i q).
      change (Z.lor VMM_PRESENT VMM_WRITABLE) with 3.
      change (present (rd64 (add_table (vm_mem s) t i q) (slot t i)) = true).
      rewrite add_table_slot by done. by rewrite present_make by (by apply frame_nonneg).
Qed.

(** ** The two descents *)

(** One level of [ensure_walk], as used three times below. *)
Lemma ensure_level I root s p i t :
  vm_wf I root s -> tpath 3 I (p ++ [i]) -> walk (vm_mem s) root p = Some t ->
  exists s', ensure_page_table hhdm_offset (slot t i) s = Ret tt s' /\ vm_ext I root s s' /\
    (length (fa_pages (vm_pmm s)) <= S (length (fa_pages (vm_pmm s'))))%nat /\
    ((present (rd64 (vm_mem s') (slot t i)) = true /\
      walk (vm_mem s') root (p ++ [i]) = Some (entry_get_addr (rd64 (vm_mem s') (slot t i)))) \/
     (present (rd64 (vm_mem s') (slot t i)) = false /\
      walk (vm_mem s') root (p ++ [i]) = None /\ fa_pages (vm_pmm s') = [] /\
      fa_pages (vm_pmm s) = [])).
Proof.
  intros Hwf Hpi Hwp. destruct (ensure_spec I root s p i t) as (s' & He & Hext & Hn & Hc); try done.
  exists s'. split; [done|]. split; [done|]. split; [done|].
  assert (Hwp' : walk (vm_mem s') root p = Some t)
    by (eapply ext_walk; eauto using tpath_app_l).
  rewrite walk_snoc, Hwp'. destruct Hc as [Hp|(Hp & Hf & Hs)]; rewrite Hp; [by left|right].
  split_and!; try done. by rewrite <- Hs.
Qed.

Lemma walk_prefix_None m t p q : walk m t p = None -> walk m t (p ++ q) = None.
Proof. intros Hn. by rewrite walk_app, Hn. Qed.

Lemma ensure_walk_spec I root s v :
  vm_wf I root s -> I (PML4_INDEX v) ->
  exists o s', ensure_walk hhdm_offset (ptv root) v s = Ret o s' /\ vm_ext I root s s' /\
    match o with
    | Some pt => exists t, walk (vm_mem s') root (upath v) = Some t /\ pt = ptv t /\
        (length (fa_pages (vm_pmm s)) <= 3 + length (fa_pages (vm_pmm s')))%nat
    | None => walk (vm_mem s') root (upath v) = None /\ fa_pages (vm_pmm s') = [] /\
        (length (fa_pages (vm_pmm s)) <= 2)%nat
    end.
Proof.
  intros Hwf Hv. pose proof (upath_tpath I v Hv) as Hup. unfold upath in *.
  set (i4 := PML4_INDEX v) in *. set (i3 := PDPT_INDEX v) in *. set (i2 := PD_INDEX v) in *.
  assert (H1 : tpath 3 I ([] ++ [i4])) by (eapply (tpath_app_l 3 I [i4] [i3; i2]); done).
  assert (H2 : tpath 3 I ([i4] ++ [i3])) by (eapply (tpath_app_l 3 I [i4; i3] [i2]); done).
  unfold ensure_walk, load64. fold i4 i3 i2. mstep.
  destruct (ensure_level I root s [] i4 root Hwf H1 eq_refl) as (s1 & E1 & X1 & N1 & C1).
  unfold Vmm.slot in E1, C1. rewrite E1. cbn [bindr].
  destruct C1 as [[-> W1]|(-> & W1 & F1 & G1)]; cbn [negb].
  2:{ exists None, s1. split; [done|]. split; [done|]. split; [|split; [done|rewrite G1; simpl; lia]].
      by apply (walk_prefix_None _ _ [i4] [i3; i2]). }
  set (e4 := rd64 _ _) in *. clearbody e4. cbn [app] in W1.
  destruct (ensure_level I root s1 [i4] i3 (entry_get_addr e4)) as (s2 & E2 & X2 & N2 & C2);
    [apply X1|done|done|].
  unfold Vmm.slot in E2, C2. rewrite E2. cbn [bindr].
  assert (X12 := vm_ext_trans _ _ _ _ _ X1 X2).
  destruct C2 as [[-> W2]|(-> & W2 & F2 & G2)]; cbn [negb].
  2:{ exists None, s2. split; [done|]. split; [done|]. split; [|split; [done|rewrite G2 in N1; simpl in N1; lia]].
      by apply (walk_prefix_None _ _ [i4; i3] [i2]). }
  set (e3 := rd64 _ _) in *. clearbody e3. cbn [app] in W2.
  destruct (ensure_level I root s2 [i4; i3] i2 (entry_get_addr e3)) as (s3 & E3 & X3 & N3 & C3);
    [apply X2|done|done|].
  unfold Vmm.slot in E3, C3. rewrite E3. cbn [bindr].
  assert (X13 := vm_ext_trans _ _ _ _ _ X12 X3).
  destruct C3 as [[-> W3]|(-> & W3 & F3 & G3)]; cbn [negb].
  - eexists _, s3. split; [done|]. split; [done|]. eexists. split; [done|]. split; [done|lia].
  - exists None, s3. split; [done|]. split; [done|]. split; [done|]. split; [done|].
    rewrite G3 in N2. simpl in N2. lia.
Qed.

Lemma find_walk_spec root v (s : vm) :
  find_walk hhdm_offset (ptv root) v s =
    Ret (option_map ptv (walk (vm_mem s) root (upath v))) s.
Proof.
  unfold find_walk, load64, upath. mstep. cbn [Vmm.walk]. unfold Vmm.slot.
  destruct (present (rd64 (vm_mem s) (ptv root + 8 * PML4_INDEX v))); [|done]. cbn [negb bindr].
  destruct (present _); [|done]. cbn [negb bindr].
  by destruct (present _).
Qed.

(** *** Writing one leaf *)

Lemma wr_leaf_walk I m root free path t i e q :
  pt_wf I m root free -> tpath 3 I path -> length path = 3%nat ->
  walk m root path = Some t -> 0 <= i < 512 -> tpath 3 I q ->
  walk (wr64 m (slot t i) e) root q = walk m root q.
Proof.
  intros Hwf Hp Hlen Hw Hi Hq.
  destruct (wf_table _ _ _ _ Hwf path t Hp Hw) as [Ht _].
  assert (forall suf pre u, tpath 3 I (pre ++ suf) -> walk m root pre = Some u ->
    walk (wr64 m (slot t i) e) u suf = walk m u suf) as Hgen.
  { induction suf as [|j suf IH]; intros pre u Hps Hu; [done|]. cbn [Vmm.walk].
    assert (Hj : 0 <= j < 512) by (eapply tpath_snoc_idx, Hps).
    destruct (wf_table _ _ _ _ Hwf pre u (tpath_app_l _ _ _ _ Hps) Hu) as [Hfu _].
    assert (u <> t).
    { intros ->. pose proof (wf_inj _ _ _ _ Hwf _ _ _ (tpath_app_l _ _ _ _ Hps) Hp Hu Hw).
      subst pre. destruct Hps as [Hl _]. rewrite length_app, Hlen in Hl. simpl in Hl. lia. }
    rewrite rd64_wr64_ne by (apply slot_apart; auto).
    destruct (present _) eqn:Hpr; [|done].
    apply (IH (pre ++ [j])); [by rewrite <- app_assoc|]. by rewrite walk_snoc, Hu, Hpr. }
  by apply (Hgen q [] root).
Qed.

Lemma wr_leaf_wf I m root free path t i e :
  pt_wf I m root free -> tpath 3 I path -> length path = 3%nat ->
  walk m root path = Some t -> 0 <= i < 512 ->
  pt_wf I (wr64 m (slot t i) e) root free.
Proof.
  intros Hwf Hp Hlen Hw Hi.
  pose proof (fun q => wr_leaf_walk I m root free path t i e q Hwf Hp Hlen Hw Hi) as Hsame.
  split; try apply Hwf.
  - intros q x Hq. rewrite Hsame by done. by apply Hwf.
  - intros p1 p2 x Hp1 Hp2. rewrite !Hsame by done. by apply Hwf.
Qed.

(** Writing the leaf of [v] changes the entry of [v]'s page and no other. *)
Lemma leaf_wr I m root free v t e w :
  pt_wf I m root free -> I (PML4_INDEX v) -> I (PML4_INDEX w) ->
  walk m root (upath v) = Some t -> 0 <= e < two64 ->
  leaf (wr64 m (slot t (PT_INDEX v)) e) root w =
    if vpn w =? vpn v then e else leaf m root w.
Proof.
  intros Hwf Hv Hw Ht He. pose proof (upath_tpath I v Hv) as Hpv.
  pose proof (upath_tpath I w Hw) as Hpw.
  pose proof (index_range v) as (_ & _ & _ & Hiv). pose proof (index_range w) as (_ & _ & _ & Hiw).
  destruct (wf_table _ _ _ _ Hwf _ t Hpv Ht) as [Hft _].
  unfold Vmm.leaf. rewrite (wr_leaf_walk I m root free (upath v) t _ e (upath w)) by done.
  destruct (Z.eqb_spec (vpn w) (vpn v)) as [E|E].
  - apply vpn_same_indices in E as [Eu ->]. rewrite Eu, Ht, rd64_wr64_eq. by apply u64_small.
  - destruct (walk m root (upath w)) as [x|] eqn:Hx; [|done].
    destruct (wf_table _ _ _ _ Hwf _ x Hpw Hx) as [Hfx _].
    apply rd64_wr64_ne. apply slot_apart; try done.
    destruct (Z.eq_dec x t) as [->|]; [|by left]. right. intros Ei.
    pose proof (wf_inj _ _ _ _ Hwf _ _ _ Hpw Hpv Hx Ht) as Eu. unfold upath in Eu. simplify_eq.
    apply E. by apply same_indices_same_vpn.
Qed.

Lemma wr_leaf_page I root (s : vm) v t e d b :
  vm_wf I root s -> I (PML4_INDEX v) -> walk (vm_mem s) root (upath v) = Some t ->
  data_page I root s d -> 0 <= b < 4096 ->
  rd8 (wr64 (vm_mem s) (slot t (PT_INDEX v)) e) (ptv d + b) = rd8 (vm_mem s) (ptv d + b).
Proof.
  intros Hwf Hv Ht (Hd & _ & Hdt) Hb. pose proof (index_range v) as (_ & _ & _ & Hi).
  destruct (wf_table _ _ _ _ (vwf_pt _ _ _ Hwf) _ t (upath_tpath I v Hv) Ht) as [Hft _].
  assert (Hne : d <> t) by (intros ->; by eapply Hdt; [apply upath_tpath|]).
  unfold Vmm.slot. rewrite !frame_ptv by done.
  pose proof (frames_apart d t Hd Hft Hne). apply rd8_wr64_out. lia.
Qed.

(** ** What the operations do *)

Lemma set_lock_wf I root l (s : vm) : vm_wf I root s -> vm_wf I root (set_vmm_lock l s).
Proof. intros [? ?]. by split. Qed.

Lemma set_lock_ext I root l l' s s' :
  vm_ext I root (set_vmm_lock l s) s' -> vmm_lock s = l' ->
  vm_ext I root s (set_vmm_lock l' s').
Proof. intros [] <-. by split; try apply set_lock_wf. Qed.

Lemma lock_id (s : vm) : vmm_lock s = 0 -> set_vmm_lock 0 (set_vmm_lock 1 s) = s.
Proof. by destruct s; simpl; intros ->. Qed.

(** The common effect of [vmm_map] and [vmm_map_user]: the page of [virt]
    gets the entry [e] and nothing else changes, or the frame pool is
    exhausted and no translation changes at all. *)
Record map_effect (I : Z -> Prop) (root virt e : Z) (s s' : vm) : Prop := {
  me_wf : vm_wf I root s';
  me_unlocked : vmm_lock s' = 0;
  me_root : vm_pml4 s' = vm_pml4 s;
  me_used : exists used, fa_pages (vm_pmm s) = used ++ fa_pages (vm_pmm s') /\
    (length used <= 3)%nat;
  me_leaf :
    (forall w, I (PML4_INDEX w) ->
       leaf (vm_mem s') root w = if vpn w =? vpn virt then e else leaf (vm_mem s) root w) \/
    ((length (fa_pages (vm_pmm s)) <= 2)%nat /\ fa_pages (vm_pmm s') = [] /\
     (forall w, I (PML4_INDEX w) -> leaf (vm_mem s') root w = leaf (vm_mem s) root w) /\
     leaf (vm_mem s) root virt = 0);
  me_data : forall d, data_page I root s d -> data_page I root s' d;
  me_page : forall d b, data_page I root s d -> 0 <= b < 4096 ->
    rd8 (vm_mem s') (ptv d + b) = rd8 (vm_mem s) (ptv d + b);
  me_user : user_tables_old I root s s';
  me_rest : forall d b, d ∈ fa_pages (vm_pmm s') -> 0 <= b < 4096 ->
    rd8 (vm_mem s') (ptv d + b) = rd8 (vm_mem s) (ptv d + b);
  me_far : forall a, far I root s a -> rd8 (vm_mem s') a = rd8 (vm_mem s) a;
  me_top : forall i, 0 <= i < 512 -> ~ I i -> rd64 (vm_mem s') (slot root i) = rd64 (vm_mem s) (slot root i)
}.

(** The last part of both functions, after the lock is taken. *)
Definition map_tail (root virt e : Z) : M vm unit :=
  o <- ensure_walk hhdm_offset (ptv root) virt ;;
  match o with
  | None => spin_unlock set_vmm_lock
  | Some pt => store64 (pt + 8 * PT_INDEX virt) e ;;; spin_unlock set_vmm_lock
  end.

Lemma map_tail_spec I root virt e s :
  vm_wf I root s -> vmm_lock s = 0 -> I (PML4_INDEX virt) -> 0 <= e < two64 ->
  exists s', map_tail root virt e (set_vmm_lock 1 s) = Ret tt s' /\ map_effect I root virt e s s'.
Proof.
  intros Hwf Hlock Hv He. unfold map_tail. mstep.
  destruct (ensure_walk_spec I root (set_vmm_lock 1 s) virt) as (o & s1 & E & X & C);
    [by apply set_lock_wf|done|]. rewrite E. cbn [bindr].
  apply (set_lock_ext I root 1 0) in X; [|done].
  destruct (ext_free _ _ _ _ X) as [used Hused]. destruct o as [pt|].
  - destruct C as (t & Hw & -> & Hn). unfold store64. mstep. eexists. split; [done|].
    cbn [vm_mem set_vmm_lock vm_pmm] in Hw, Hn.
    assert (Hl : (length used <= 3)%nat).
    { cbn [vm_pmm set_vmm_lock] in Hused. rewrite Hused, length_app in Hn. lia. }
    change (ptv t + 8 * PT_INDEX virt) with (slot t (PT_INDEX virt)).
    pose proof (ext_wf _ _ _ _ X) as Hwf1. pose proof (vwf_pt _ _ _ Hwf1) as Hpt.
    cbn [vm_mem vm_pmm set_vmm_lock] in Hpt.
    pose proof (index_range virt) as (_ & _ & _ & Hi).
    split; cbn [vm_mem vm_pmm vm_pml4 vmm_lock set_vmm_lock set_vm_mem];
      [|reflexivity| | | | | | | | |].
    + split; [apply Hwf1|]. eapply wr_leaf_wf; eauto using upath_tpath.
    + apply (ext_pml4 _ _ _ _ X).
    + by exists used.
    + left. intros w Hiw. rewrite (leaf_wr I _ root _ virt t e w Hpt) by done.
      destruct (vpn w =? vpn virt); [done|]. by apply (ext_leaf _ _ _ _ X).
    + intros d Hd. destruct (ext_data _ _ _ _ X d Hd) as (? & ? & Hdt).
      split; [done|]. split; [done|]. intros path Hpath.
      cbn [vm_mem set_vm_mem set_vmm_lock]. 
      rewrite (wr_leaf_walk I _ root _ (upath virt) t _ e path Hpt) by (done || by apply upath_tpath).
      by apply Hdt.
    + intros d b Hd Hb.
      etransitivity; [eapply (wr_leaf_page I root (set_vmm_lock 0 s1)); eauto; by apply X|].
      by apply (ext_page _ _ _ _ X).
    + intros path u j Hpj. cbn [vm_mem set_vm_mem set_vmm_lock].
      assert (Hj : 0 <= j < 512) by (eapply tpath_snoc_idx, Hpj).
      rewrite (wr_leaf_walk I _ root _ (upath virt) t _ e path Hpt)
        by (done || (by apply upath_tpath) || (by eapply tpath_app_l)).
      intros Hu. destruct (wf_table _ _ _ _ Hpt path u (tpath_app_l _ _ _ _ Hpj) Hu) as [Hfu _].
      destruct (wf_table _ _ _ _ Hpt _ t (upath_tpath I virt Hv) Hw) as [Hft _].
      assert (u <> t).
      { intros ->. pose proof (wf_inj _ _ _ _ Hpt _ _ _ (tpath_app_l _ _ _ _ Hpj)
          (upath_tpath I virt Hv) Hu Hw) as ->. destruct Hpj as [Hlen _]. simpl in Hlen. lia. }
      rewrite rd64_wr64_ne by (apply slot_apart; auto).
      by apply (ext_user _ _ _ _ X).
    + intros d b Hd Hb. rewrite <- (ext_rest _ _ _ _ X) by done. cbn [vm_mem set_vmm_lock].
      destruct (wf_table _ _ _ _ Hpt _ t (upath_tpath I virt Hv) Hw) as [Hft Hnt].
      pose proof (wf_free _ _ _ _ Hpt) as Hfr. rewrite Forall_forall in Hfr. destruct (Hfr d Hd) as [Hfd _].
      assert (Hne : d <> t) by (by intros ->). unfold Vmm.slot. rewrite !frame_ptv by done.
      pose proof (frames_apart d t Hfd Hft Hne). apply rd8_wr64_out. lia.
    + intros a Ha. rewrite <- (ext_far _ _ _ _ X a Ha). cbn [vm_mem set_vmm_lock].
      destruct (wf_table _ _ _ _ Hpt _ t (upath_tpath I virt Hv) Hw) as [Hft _].
      apply (far_data I root s (set_vmm_lock 0 s1)) in Ha; [|apply X].
      destruct (far_apart I root (set_vmm_lock 0 s1) a t Ha Hft); [|unfold Vmm.slot; apply rd8_wr64_out; lia..].
      intros (_ & _ & Hdt). by eapply Hdt; [apply upath_tpath|].
    + intros i Hi' Hni. rewrite <- (ext_top _ _ _ _ X i Hi' Hni). cbn [vm_mem set_vmm_lock].
      pose proof (tpath_app_l 3 I [] (upath virt) (upath_tpath I virt Hv)) as Hnil.
      destruct (wf_table _ _ _ _ Hpt _ t (upath_tpath I virt Hv) Hw) as [Hft _].
      destruct (wf_table _ _ _ _ Hpt [] root Hnil eq_refl) as [Hfr _].
      apply rd64_wr64_ne, slot_apart; try done. left. intros ->.
      by pose proof (wf_inj _ _ _ _ Hpt _ _ _ Hnil (upath_tpath I virt Hv) eq_refl Hw).
  - destruct C as (Hw & Hf & Hn). mstep. eexists. split; [done|].
    assert (Hl : (length used <= 3)%nat).
    { cbn [vm_pmm set_vmm_lock] in Hused, Hn. rewrite Hused, length_app in Hn. lia. }
    split; [apply X|reflexivity|apply X|by exists used|right|apply X|apply X|apply X|apply X|apply X|apply X].
    split; [done|]. split; [done|]. split; [apply X|].
    rewrite <- (ext_leaf _ _ _ _ X) by done. unfold Vmm.leaf. cbn [vm_mem set_vmm_lock]. by rewrite Hw.
Qed.

Lemma vmm_map_effect I (s : vm) virt phys flags :
  vm_wf I (vm_pml4 s) s -> vmm_lock s = 0 -> I (PML4_INDEX virt) -> 0 < phys ->
  exists s', vmm_map hhdm_offset virt phys flags s = Ret tt s' /\
    map_effect I (vm_pml4 s) virt (make_entry phys (Z.lor flags VMM_PRESENT)) s s'.
Proof.
  intros Hwf Hlock Hv Hp. unfold vmm_map. destruct (Z.eqb_spec phys 0); [lia|].
  mstep. rewrite Hlock. cbn [Z.eqb bindr].
  apply (map_tail_spec I (vm_pml4 s) virt); try done.
  pose proof (make_entry_range phys (Z.lor flags VMM_PRESENT)). unfold two64. lia.
Qed.

Definition user_flags (flags is_user : Z) : Z :=
  Z.lor (Z.lor flags VMM_PRESENT) (if truthy is_user then VMM_USER else 0).

Lemma vmm_map_user_effect I root (s : vm) virt phys flags is_user :
  vm_wf I root s -> vmm_lock s = 0 -> I (PML4_INDEX virt) -> 0 < phys ->
  exists s', vmm_map_user hhdm_offset root virt phys flags is_user s = Ret tt s' /\
    map_effect I root virt (make_entry phys (user_flags flags is_user)) s s'.
Proof.
  intros Hwf Hlock Hv Hp. unfold vmm_map_user. destruct (Z.eqb_spec phys 0); [lia|].
  mstep. rewrite Hlock. cbn [Z.eqb bindr].
  apply (map_tail_spec I root virt); try done.
  pose proof (make_entry_range phys (user_flags flags is_user)). unfold two64. lia.
Qed.

Lemma vmm_virt_to_phys_eq (s : vm) virt :
  vmm_lock s = 0 ->
  vmm_virt_to_phys hhdm_offset virt s = Ret (translate hhdm_offset (vm_mem s) (vm_pml4 s) virt) s.
Proof.
  intros Hlock. unfold vmm_virt_to_phys. mstep. rewrite Hlock. cbn [Z.eqb bindr].
  rewrite find_walk_spec. cbn [bindr vm_mem vm_pml4 set_vmm_lock]. unfold translate, Vmm.leaf.
  destruct (walk _ _ _) as [t|]; cbn [option_map]; unfold load64; mstep; cbn [vm_mem set_vmm_lock];
    (rewrite (lock_id s) by done); done.
Qed.

Lemma user_virt_to_phys_eq root (s : vm) virt :
  vmm_lock s = 0 ->
  user_virt_to_phys hhdm_offset root virt s = Ret (translate hhdm_offset (vm_mem s) root virt) s.
Proof.
  intros Hlock. unfold user_virt_to_phys. mstep. rewrite Hlock. cbn [Z.eqb bindr].
  rewrite find_walk_spec. cbn [bindr vm_mem vm_pml4 set_vmm_lock]. unfold translate, Vmm.leaf.
  destruct (walk _ _ _) as [t|]; cbn [option_map]; unfold load64; mstep; cbn [vm_mem set_vmm_lock].
  - unfold Vmm.slot. destruct (present _); cbn [negb bindr]; by rewrite (lock_id s).
  - by rewrite (lock_id s).
Qed.

Lemma leaf_vpn m root v w : vpn v = vpn w -> leaf m root v = leaf m root w.
Proof. intros E. apply vpn_same_indices in E as [E1 E2]. unfold Vmm.leaf. by rewrite E1, E2. Qed.

Lemma translate_leaf m m' root v :
  leaf m root v = leaf m' root v ->
  translate hhdm_offset m root v = translate hhdm_offset m' root v.
Proof. unfold translate. by intros ->. Qed.

Lemma translate_entry m root v phys flags :
  leaf m root v = make_entry phys flags -> Z.odd flags = true -> frame phys ->
  translate hhdm_offset m root v = Z.lor phys (Z.land v 0xFFF).
Proof.
  intros E Ho Hf. pose proof (frame_nonneg _ Hf). unfold translate.
  rewrite E, present_make, Ho, entry_get_make, frame_entry_addr by done. done.
Qed.

(** With three frames in the pool a mapping cannot fail. *)
Lemma map_effect_room I root virt phys flags s s' w :
  map_effect I root virt (make_entry phys flags) s s' ->
  (3 <= length (fa_pages (vm_pmm s)))%nat -> frame phys -> Z.odd flags = true ->
  I (PML4_INDEX w) ->
  translate hhdm_offset (vm_mem s') root w =
    if vpn w =? vpn virt then Z.lor phys (Z.land w 0xFFF)
    else translate hhdm_offset (vm_mem s) root w.
Proof.
  intros E Hroom Hf Ho Hw. destruct (me_leaf _ _ _ _ _ _ E) as [Hl|(Hn & _)]; [|lia].
  specialize (Hl w Hw). destruct (vpn w =? vpn virt).
  - by apply translate_entry with flags.
  - by apply translate_leaf.
Qed.

(** ** Properties *)

(** C3: [vmm_map_user] then [user_virt_to_phys].  In a well-formed address
    space with three free frames the call returns with the lock released,
    every address of the page of [virt] then reads back as [phys] plus its
    page offset, every other page keeps its translation, no byte of a data
    page changes, and the tables stay well formed. *)
Theorem vmm_map_user_roundtrip (I : Z -> Prop) (root : Z) (s : vm)
    (virt phys flags is_user : Z)
    (Hwf : vm_wf I root s) (Hlock : vmm_lock s = 0) (Hv : I (PML4_INDEX virt))
    (Hphys : frame phys) (Hnz : phys <> 0)
    (Hroom : (3 <= length (fa_pages (vm_pmm s)))%nat) :
  exists s', vmm_map_user hhdm_offset root virt phys flags is_user s = Ret tt s' /\
    vm_wf I root s' /\ vmm_lock s' = 0 /\
    (forall w, I (PML4_INDEX w) ->
       user_virt_to_phys hhdm_offset root w s' =
         Ret (if vpn w =? vpn virt then Z.lor phys (Z.land w 0xFFF)
              else translate hhdm_offset (vm_mem s) root w) s') /\
    (forall d b, data_page I root s d -> 0 <= b < 4096 ->
       rd8 (vm_mem s') (ptv d + b) = rd8 (vm_mem s) (ptv d + b)).
Proof.
  pose proof (frame_nonneg _ Hphys).
  destruct (vmm_map_user_effect I root s virt phys flags is_user) as (s' & E & X);
    [done..|lia|]. exists s'. split; [done|]. split; [apply X|]. split; [apply X|].
  split; [|apply X]. intros w Hw. rewrite user_virt_to_phys_eq by apply X.
  erewrite map_effect_room; eauto. apply odd_lor_l, odd_lor_present.
Qed.

(** [vmm_map] (the kernel's own tables) when the frame pool may run dry:
    it always returns with the lock released and well-formed tables; either
    exactly the page of [virt] is remapped, or fewer than three frames were
    left and no translation at all has changed. *)
Theorem vmm_map_all_or_nothing (I : Z -> Prop) (s : vm) (virt phys flags : Z)
    (Hwf : vm_wf I (vm_pml4 s) s) (Hlock : vmm_lock s = 0)
    (Hv : I (PML4_INDEX virt)) (Hphys : frame phys) (Hnz : phys <> 0) :
  exists s', vmm_map hhdm_offset virt phys flags s = Ret tt s' /\
    vm_wf I (vm_pml4 s) s' /\ vmm_lock s' = 0 /\
    ((forall w, I (PML4_INDEX w) -> vmm_virt_to_phys hhdm_offset w s' =
        Ret (if vpn w =? vpn virt then Z.lor phys (Z.land w 0xFFF)
             else translate hhdm_offset (vm_mem s) (vm_pml4 s) w) s') \/
     ((length (fa_pages (vm_pmm s)) < 3)%nat /\
      forall w, I (PML4_INDEX w) -> vmm_virt_to_phys hhdm_offset w s' =
        Ret (translate hhdm_offset (vm_mem s) (vm_pml4 s) w) s')).
Proof.
  pose proof (frame_nonneg _ Hphys).
  destruct (vmm_map_effect I s virt phys flags) as (s' & E & X); [done..|lia|].
  exists s'. split; [done|]. split; [apply X|]. split; [apply X|].
  destruct (me_leaf _ _ _ _ _ _ X) as [Hl|(Hn & _ & Hl & _)]; [left|right; split; [lia|]];
    intros w Hw; rewrite vmm_virt_to_phys_eq, (me_root _ _ _ _ _ _ X) by apply X;
    f_equal; specialize (Hl w Hw); [|by apply translate_leaf].
  destruct (vpn w =? vpn virt); [|by apply translate_leaf].
  eapply translate_entry; [done|apply odd_lor_present|done].
Qed.

(** C33: [vmm_unmap] removes the translation of exactly one page. *)
Theorem vmm_unmap_correct (I : Z -> Prop) (s : vm) (virt : Z)
    (Hwf : vm_wf I (vm_pml4 s) s) (Hlock : vmm_lock s = 0) (Hv : I (PML4_INDEX virt)) :
  exists s', vmm_unmap hhdm_offset virt s = Ret tt s' /\
    vm_wf I (vm_pml4 s) s' /\ vmm_lock s' = 0 /\
    forall w, I (PML4_INDEX w) -> vmm_virt_to_phys hhdm_offset w s' =
      Ret (if vpn w =? vpn virt then 0
           else translate hhdm_offset (vm_mem s) (vm_pml4 s) w) s'.
Proof.
  unfold vmm_unmap. mstep. rewrite Hlock. cbn [Z.eqb bindr].
  rewrite find_walk_spec. cbn [bindr vm_mem vm_pml4 set_vmm_lock].
  pose proof (vwf_pt _ _ _ Hwf) as Hpt.
  destruct (walk (vm_mem s) (vm_pml4 s) (upath virt)) as [t|] eqn:Ht; cbn [option_map].
  - unfold store64. mstep. eexists. split; [done|].
    change (ptv t + 8 * PT_INDEX virt) with (slot t (PT_INDEX virt)).
    pose proof (index_range virt) as (_ & _ & _ & Hi).
    split; [|split; [done|]].
    + split; cbn [vm_pmm vm_mem set_vmm_lock set_vm_mem]; [apply Hwf|].
      eapply wr_leaf_wf; eauto using upath_tpath.
    + intros w Hw. rewrite vmm_virt_to_phys_eq by done.
      cbn [vm_pmm vm_mem vm_pml4 set_vmm_lock set_vm_mem]. f_equal.
      unfold translate. rewrite (leaf_wr I _ _ _ virt t 0 w Hpt) by done.
      by destruct (vpn w =? vpn virt).
  - mstep. rewrite (lock_id s) by done. exists s. split_and!; try done.
    intros w Hw. rewrite vmm_virt_to_phys_eq by done. f_equal.
    destruct (Z.eqb_spec (vpn w) (vpn virt)) as [E|]; [|done].
    unfold translate. rewrite (leaf_vpn _ _ _ _ E). unfold Vmm.leaf. by rewrite Ht.
Qed.

(** The processor lets ring 3 through a page only when every entry on the
    walk, the last one included, has the user bit set. *)
Fixpoint user_walk (m : mem) (t : Z) (path : list Z) : bool :=
  match path with
  | [] => true
  | i :: rest =>
      let e := rd64 m (slot t i) in
      present e && Z.testbit e 2 && user_walk m (entry_get_addr e) rest
  end.

Definition user_reachable (m : mem) (root virt : Z) : bool :=
  user_walk m root (upath virt ++ [PT_INDEX virt]).

(** [vmm_map_user] cannot make a page accessible to user mode in a part
    of the address space that had no tables yet: [ensure_page_table] creates
    the upper-level entries without [VMM_USER], so whatever the flags, the
    processor still refuses ring 3 the page just mapped. *)
Theorem vmm_map_user_not_user_reachable (I : Z -> Prop) (root : Z) (s s' : vm)
    (virt phys flags is_user : Z)
    (Hwf : vm_wf I root s) (Hlock : vmm_lock s = 0) (Hv : I (PML4_INDEX virt))
    (Hphys : frame phys) (Hnz : phys <> 0)
    (Habs : present (rd64 (vm_mem s) (slot root (PML4_INDEX virt))) = false)
    (Hrun : vmm_map_user hhdm_offset root virt phys flags is_user s = Ret tt s') :
  user_reachable (vm_mem s') root virt = false.
Proof.
  pose proof (frame_nonneg _ Hphys).
  destruct (vmm_map_user_effect I root s virt phys flags is_user) as (s1 & E & X);
    [done..|lia|]. rewrite E in Hrun. simplify_eq.
  unfold user_reachable, upath. cbn [app user_walk].
  destruct (present (rd64 (vm_mem s') (slot root (PML4_INDEX virt)))) eqn:Hp; [|done].
  destruct (Z.testbit (rd64 (vm_mem s') (slot root (PML4_INDEX virt))) 2) eqn:Hu; [|done].
  destruct (me_user _ _ _ _ _ _ X [] root (PML4_INDEX virt)) as [_ E']; try done.
  { eapply (tpath_app_l 3 I [PML4_INDEX virt]). by apply upath_tpath. }
  congruence.
Qed.

(** A root whose slots are all empty is well formed. *)
Lemma pt_wf_fresh (I : Z -> Prop) m root free :
  frame root -> root ∉ free -> Forall (fun p => frame p /\ p <> 0) free -> NoDup free ->
  (forall i, 0 <= i < 512 -> I i -> present (rd64 m (slot root i)) = false) ->
  pt_wf I m root free.
Proof.
  intros Hr Hnf Hf Hn Habs.
  assert (Hw : forall path t, tpath 3 I path -> walk m root path = Some t -> path = [] /\ t = root).
  { intros [|i path] t (_ & Hfa & Hi); cbn [Vmm.walk]; [by intros [= ->]|].
    apply Forall_cons in Hfa as [? _]. rewrite Habs by done. intros Hx. discriminate Hx. }
  split; try done.
  - intros path t Hp Hx. by destruct (Hw path t Hp Hx) as [-> ->].
  - intros p1 p2 t H1 H2 E1 E2. destruct (Hw p1 t H1 E1) as [-> _]. by destruct (Hw p2 t H2 E2) as [-> _].
Qed.

End Tables.

(** ** Witnesses: an empty address space with four free frames *)

Definition demo_hhdm : Z := 0xFFFF800000000000.
Lemma demo_hhdm_nonneg : 0 <= demo_hhdm.
Proof. unfold demo_hhdm. lia. Qed.

Definition demo_vm : @vm_t pmm_t := mk_vm demo_pmm ∅ 20480 0.

Lemma frame_small p : 0 <= p < 2 ^ 40 -> p mod 4096 = 0 -> frame demo_hhdm p.
Proof.
  intros. split; [|split; [done|]].
  - change (2 ^ 52) with 4503599627370496. lia.
  - unfold demo_hhdm, two64. lia.
Defined.

Lemma demo_pages : fa_pages (vm_pmm demo_vm) = [16384; 12288; 8192; 4096].
Proof. vm_compute. reflexivity. Defined.

Lemma demo_vm_wf : vm_wf demo_hhdm (fun _ => True) 20480 demo_vm.
Proof.
  split.
  - split; simpl; unfold MAX_FREE_LIST; lia.
  - rewrite demo_pages. apply pt_wf_fresh.
    + by apply frame_small.
    + intros E. repeat (apply elem_of_cons in E as [E|E]; [discriminate E|]).
      by apply not_elem_of_nil in E.
    + repeat (apply Forall_cons_2; [split; [by apply frame_small|done]|]). by apply Forall_nil_2.
    + apply (bool_decide_unpack _). vm_compute. exact Logic.I.
    + intros i Hi _. replace (rd64 (vm_mem demo_vm) (slot demo_hhdm 20480 i)) with 0; [done|].
      symmetry. apply (rdn_zero 8). done.
Defined.

Lemma vmm_map_user_roundtrip_witness :
  exists s', vmm_map_user demo_hhdm 20480 0x400000 24576 7 1 demo_vm = Ret tt s' /\
    vm_wf demo_hhdm (fun _ => True) 20480 s' /\ vmm_lock s' = 0 /\
    (forall w, True -> user_virt_to_phys demo_hhdm 20480 w s' =
       Ret (if vpn w =? vpn 0x400000 then Z.lor 24576 (Z.land w 0xFFF)
            else translate demo_hhdm (vm_mem demo_vm) 20480 w) s') /\
    (forall d b, data_page demo_hhdm (fun _ => True) 20480 demo_vm d -> 0 <= b < 4096 ->
       rd8 (vm_mem s') (phys_to_virt demo_hhdm d + b) =
       rd8 (vm_mem demo_vm) (phys_to_virt demo_hhdm d + b)).
Proof.
  apply (vmm_map_user_roundtrip demo_hhdm demo_hhdm_nonneg (fun _ => True));
    [apply demo_vm_wf|reflexivity|exact Logic.I|by apply frame_small|done|].
  rewrite demo_pages. simpl. lia.
Defined.

Lemma vmm_map_all_or_nothing_witness :
  exists s', vmm_map demo_hhdm 0xFFFFF00000000000 24576 3 demo_vm = Ret tt s' /\
    vm_wf demo_hhdm (fun _ => True) 20480 s' /\ vmm_lock s' = 0 /\
    ((forall w, True -> vmm_virt_to_phys demo_hhdm w s' =
        Ret (if vpn w =? vpn 0xFFFFF00000000000 then Z.lor 24576 (Z.land w 0xFFF)
             else translate demo_hhdm (vm_mem demo_vm) 20480 w) s') \/
     ((length (fa_pages (vm_pmm demo_vm)) < 3)%nat /\
      forall w, True -> vmm_virt_to_phys demo_hhdm w s' =
        Ret (translate demo_hhdm (vm_mem demo_vm) 20480 w) s')).
Proof.
  apply (vmm_map_all_or_nothing demo_hhdm demo_hhdm_nonneg (fun _ => True) demo_vm);
    [apply demo_vm_wf|reflexivity|exact Logic.I|by apply frame_small|done].
Defined.

Lemma vmm_unmap_correct_witness :
  exists s', vmm_unmap demo_hhdm 0x400000 demo_vm = Ret tt s' /\
    vm_wf demo_hhdm (fun _ => True) 20480 s' /\ vmm_lock s' = 0 /\
    forall w, True -> vmm_virt_to_phys demo_hhdm w s' =
      Ret (if vpn w =? vpn 0x400000 then 0
           else translate demo_hhdm (vm_mem demo_vm) 20480 w) s'.
Proof.
  apply (vmm_unmap_correct demo_hhdm demo_hhdm_nonneg (fun _ => True) demo_vm);
    [apply demo_vm_wf|reflexivity|exact Logic.I].
Defined.

Lemma vmm_map_user_not_user_reachable_witness :
  exists s', vmm_map_user demo_hhdm 20480 0x400000 24576 7 1 demo_vm = Ret tt s' /\
    user_reachable demo_hhdm (vm_mem s') 20480 0x400000 = false /\
    translate demo_hhdm (vm_mem s') 20480 0x400000 = 24576.
Proof.
  destruct (vmm_map_user_effect demo_hhdm demo_hhdm_nonneg (fun _ => True)
    20480 demo_vm 0x400000 24576 7 1) as (s' & E & _);
    [apply demo_vm_wf|reflexivity|exact Logic.I|lia|].
  exists s'. split; [exact E|]. split.
  - refine (vmm_map_user_not_user_reachable demo_hhdm demo_hhdm_nonneg (fun _ => True)
      20480 demo_vm s' 0x400000 24576 7 1 demo_vm_wf eq_refl Logic.I
      (frame_small 24576 _ eq_refl) _ _ E); [lia|lia|]. vm_compute. reflexivity.
  - assert (Hx : option_map (fun r => translate demo_hhdm (vm_mem r.2) 20480 0x400000)
      (returned (vmm_map_user demo_hhdm 20480 0x400000 24576 7 1 demo_vm)) = Some 24576)
      by (vm_compute; reflexivity).
    rewrite E in Hx. cbn [returned option_map snd] in Hx. injection Hx as Hx. exact Hx.
Defined.
