(* ===== verification/Heap.v ===== *)
(** * Kernel heap (src/kernel/vmm.c, lines 180-290)

    A first-fit allocator over a singly linked list of block headers at
    [HEAP_START_VIRT], grown page by page.  The block headers are a typed
    store keyed by their virtual address; reading or writing a header faults
    when a page under it is not present in the kernel's page tables. *)

From stdpp Require Import base gmap list fin_maps.
From Stdlib Require Import ZArith Lia.
From S2P Require Import Prelude.

Definition HEAP_START_VIRT : Z := 0xFFFFF00000000000.
Definition HEAP_INITIAL_PAGES : nat := 16.

(** [sizeof(heap_block_t)] on x86-64: 8 + 4 (+ 4 padding) + 8. *)
Definition sizeof_heap_block : Z := 24.

(** The first address above the PML4 slot the heap lives in. *)
Definition HEAP_LIMIT : Z := 0xFFFFF08000000000.

(** [~7], the [int] -8 converted to [size_t]. *)
Definition MASK7 : Z := 18446744073709551608.

Record heap_block : Type := mk_block {
  hb_size : Z;
  hb_free : Z;
  hb_next : Z
}.

(** ** What the heap needs from the memory managers below it

    [pm_alloc] is [pmm_alloc_page], [pm_map] is [vmm_map], [pm_present] tells
    whether the kernel's tables map the page of an address, and [pm_count] is
    the number of free frames. *)
Class PageMapper (V : Type) : Type := {
  pm_alloc : M V Z;
  pm_map : Z -> Z -> Z -> M V unit;
  pm_present : V -> Z -> bool;
  pm_count : V -> nat;
  pm_ok : V -> Prop;
  pm_owned : Z -> Prop;
  pm_present_page : forall v a b, a / 4096 = b / 4096 -> pm_present v a = pm_present v b;
  pm_alloc_none : forall v, pm_ok v -> pm_count v = 0%nat -> pm_alloc v = Ret 0 v;
  pm_alloc_some : forall v n, pm_ok v -> pm_count v = S n ->
    exists p v', pm_alloc v = Ret p v' /\ p <> 0 /\ pm_owned p /\ pm_ok v' /\
      pm_count v' = n /\ forall a, pm_present v' a = pm_present v a;
  pm_map_spec : forall v a p flags, pm_ok v -> pm_owned p -> p <> 0 ->
    HEAP_START_VIRT <= a < HEAP_LIMIT ->
    exists v', pm_map a p flags v = Ret tt v' /\ pm_ok v' /\
      (pm_count v' <= pm_count v <= 3 + pm_count v')%nat /\
      (forall b, HEAP_START_VIRT <= b < HEAP_LIMIT -> pm_present v b = true ->
         pm_present v' b = true) /\
      (pm_present v' a = true \/ (pm_count v <= 2)%nat /\ pm_count v' = 0%nat)
}.

Section Heap.
Context {V : Type} `{PageMapper V}.

(** ** State *)

Record heap_t : Type := mk_heap {
  h_vm : V;
  h_blocks : gmap Z heap_block;    (* the headers in heap memory *)
  heap_head : Z;
  heap_lock : Z;
  heap_initialized : Z;
  heap_end_virt : Z
}.

Definition set_h_vm (v : V) (s : heap_t) : heap_t :=
  mk_heap v (h_blocks s) (heap_head s) (heap_lock s) (heap_initialized s) (heap_end_virt s).
Definition set_h_blocks (b : gmap Z heap_block) (s : heap_t) : heap_t :=
  mk_heap (h_vm s) b (heap_head s) (heap_lock s) (heap_initialized s) (heap_end_virt s).
Definition set_heap_head (p : Z) (s : heap_t) : heap_t :=
  mk_heap (h_vm s) (h_blocks s) p (heap_lock s) (heap_initialized s) (heap_end_virt s).
Definition set_heap_lock (l : Z) (s : heap_t) : heap_t :=
  mk_heap (h_vm s) (h_blocks s) (heap_head s) l (heap_initialized s) (heap_end_virt s).
Definition set_heap_initialized (i : Z) (s : heap_t) : heap_t :=
  mk_heap (h_vm s) (h_blocks s) (heap_head s) (heap_lock s) i (heap_end_virt s).
Definition set_heap_end (e : Z) (s : heap_t) : heap_t :=
  mk_heap (h_vm s) (h_blocks s) (heap_head s) (heap_lock s) (heap_initialized s) e.

(** The static initial values. *)
Definition heap_boot (v : V) : heap_t := mk_heap v ∅ 0 0 0 HEAP_START_VIRT.

(** ** Header accesses *)

(** The 24 bytes of a header lie in present pages. *)
Definition header_present (s : heap_t) (a : Z) : bool :=
  pm_present (h_vm s) a && pm_present (h_vm s) (a + sizeof_heap_block - 1).

Definition read_block (a : Z) : M heap_t heap_block := fun s =>
  if header_present s a then
    match h_blocks s !! a with Some b => Ret b s | None => Fault end
  else Fault.

Definition write_block (a : Z) (b : heap_block) : M heap_t unit := fun s =>
  if header_present s a then Ret tt (set_h_blocks (<[a := b]> (h_blocks s)) s) else Fault.

Definition set_hb_size (n : Z) (b : heap_block) := mk_block n (hb_free b) (hb_next b).
Definition set_hb_free (f : Z) (b : heap_block) := mk_block (hb_size b) f (hb_next b).
Definition set_hb_next (p : Z) (b : heap_block) := mk_block (hb_size b) (hb_free b) p.

(** [p->field = ...]: read, change one field, write back. *)
Definition modify_block (a : Z) (f : heap_block -> heap_block) : M heap_t unit :=
  b <- read_block a ;; write_block a (f b).

Definition pmm_alloc : M heap_t Z := zoom h_vm set_h_vm pm_alloc.
Definition map_page (a p : Z) : M heap_t unit := zoom h_vm set_h_vm (pm_map a p 3).

(** Enough rounds for any walk over distinct headers. *)
Definition list_fuel (s : heap_t) : nat := S (S (size (h_blocks s))).

(** ** Operations *)

(** [while (last->next) last = last->next;] *)
Fixpoint last_block (fuel : nat) (last : Z) : M heap_t Z :=
  match fuel with
  | O => mhang
  | S fuel' =>
      b <- read_block last ;;
      if truthy (hb_next b) then last_block fuel' (hb_next b) else mret last
  end.

(** [heap_expand_locked]: the result is the C return value. *)
Definition heap_expand_locked : M heap_t Z :=
  phys <- pmm_alloc ;;
  if phys =? 0 then mret 0 else
  e <- mget heap_end_virt ;;
  map_page e phys ;;;
  write_block e (mk_block (PAGE_SIZE - sizeof_heap_block) 1 0) ;;;
  head <- mget heap_head ;;
  (if head =? 0 then mset (set_heap_head e)
   else
     fuel <- mget list_fuel ;;
     last <- last_block fuel head ;;
     lb <- read_block last ;;
     if truthy (hb_free lb) && (u64 (last + sizeof_heap_block + hb_size lb) =? e) then
       nb <- read_block e ;;
       modify_block last (fun b => set_hb_size (u64 (hb_size b + (sizeof_heap_block + hb_size nb))) b)
     else modify_block last (set_hb_next e)) ;;;
  mset (fun s => set_heap_end (u64 (heap_end_virt s + PAGE_SIZE)) s) ;;;
  mret 1.

(** The loop of [heap_init]: [n] more rounds from round [i]. *)
Fixpoint heap_init_pages (n : nat) (i : Z) : M heap_t unit :=
  match n with
  | O => mret tt
  | S n' =>
      phys <- pmm_alloc ;;
      if phys =? 0 then mret tt            (* break *)
      else
        map_page (HEAP_START_VIRT + i * PAGE_SIZE) phys ;;;
        mset (set_heap_end (HEAP_START_VIRT + (i + 1) * PAGE_SIZE)) ;;;
        heap_init_pages n' (i + 1)
  end.

Definition heap_init : M heap_t unit :=
  heap_init_pages HEAP_INITIAL_PAGES 0 ;;;
  mset (set_heap_head HEAP_START_VIRT) ;;;
  e <- mget heap_end_virt ;;
  write_block HEAP_START_VIRT
    (mk_block (u64 (e - HEAP_START_VIRT - sizeof_heap_block)) 1 0) ;;;
  mset (set_heap_initialized 1).

(** The inner loop of [kmalloc]: the first free block that is large enough,
    or 0 at the end of the list. *)
Fixpoint find_fit (fuel : nat) (curr size : Z) : M heap_t Z :=
  match fuel with
  | O => mhang
  | S fuel' =>
      if curr =? 0 then mret 0
      else
        b <- read_block curr ;;
        if truthy (hb_free b) && (size <=? hb_size b) then mret curr
        else find_fit fuel' (hb_next b) size
  end.

(** The body of the [if] in that loop: split when the rest is worth a block,
    mark as used. *)
Definition take_block (curr size : Z) : M heap_t unit :=
  b <- read_block curr ;;
  (if u64 (size + sizeof_heap_block + 8) <=? hb_size b then
     let new_block := curr + sizeof_heap_block + size in
     write_block new_block
       (mk_block (u64 (hb_size b - size - sizeof_heap_block)) 1 (hb_next b)) ;;;
     modify_block curr (set_hb_size size) ;;;
     modify_block curr (set_hb_next new_block)
   else mret tt) ;;;
  modify_block curr (set_hb_free 0).

(** [while (1)]: every round either returns or consumes a page frame. *)
Fixpoint kmalloc_loop (fuel : nat) (size : Z) : M heap_t Z :=
  match fuel with
  | O => mhang
  | S fuel' =>
      head <- mget heap_head ;;
      lf <- mget list_fuel ;;
      curr <- find_fit lf head size ;;
      if truthy curr then
        take_block curr size ;;;
        spin_unlock set_heap_lock ;;;
        mret (curr + sizeof_heap_block)
      else
        ok <- heap_expand_locked ;;
        if ok =? 0 then spin_unlock set_heap_lock ;;; mret 0
        else kmalloc_loop fuel' size
  end.

Definition align8 (size : Z) : Z := Z.land (u64 (size + 7)) MASK7.

Definition kmalloc (size : Z) : M heap_t Z :=
  spin_lock heap_lock set_heap_lock ;;;
  init <- mget heap_initialized ;;
  (if init =? 0 then heap_init else mret tt) ;;;
  frames <- mget (fun s => pm_count (h_vm s)) ;;
  kmalloc_loop (S (S frames)) (align8 size).

(** The search for the predecessor in [kfree]. *)
Fixpoint find_prev (fuel : nat) (block prev cur : Z) : M heap_t Z :=
  match fuel with
  | O => mhang
  | S fuel' =>
      if cur =? 0 then mret prev
      else if cur =? block then mret prev
      else
        b <- read_block cur ;;
        find_prev fuel' block cur (hb_next b)
  end.

(** [kfree], lines 273-276: absorb a free right neighbour. *)
Definition merge_next (block : Z) : M heap_t unit :=
  b <- read_block block ;;
  if truthy (hb_next b) then
    nb <- read_block (hb_next b) ;;
    if truthy (hb_free nb) then
      modify_block block (fun b => set_hb_size (u64 (hb_size b + (sizeof_heap_block + hb_size nb))) b) ;;;
      modify_block block (set_hb_next (hb_next nb))
    else mret tt
  else mret tt.

(** [kfree], lines 278-287: be absorbed by a free left neighbour. *)
Definition merge_prev (block : Z) : M heap_t unit :=
  head <- mget heap_head ;;
  fuel <- mget list_fuel ;;
  prev <- find_prev fuel block 0 head ;;
  if truthy prev then
    pb <- read_block prev ;;
    if truthy (hb_free pb) && (u64 (prev + sizeof_heap_block + hb_size pb) =? block) then
      b <- read_block block ;;
      modify_block prev (fun p => set_hb_size (u64 (hb_size p + (sizeof_heap_block + hb_size b))) p) ;;;
      modify_block prev (set_hb_next (hb_next b))
    else mret tt
  else mret tt.

Definition kfree (ptr : Z) : M heap_t unit :=
  if ptr =? 0 then mret tt else
  spin_lock heap_lock set_heap_lock ;;;
  let block := ptr - sizeof_heap_block in
  modify_block block (set_hb_free 1) ;;;
  merge_next block ;;;
  merge_prev block ;;;
  spin_unlock set_heap_lock.

End Heap.
