(* ===== verification/HeapFacts.v ===== *)
(** * Correctness of the kernel heap (src/kernel/vmm.c)

    The heap is a tiling of [HEAP_START_VIRT, heap_end_virt) by blocks, seen
    as a list of (size, free) pairs.  [kmalloc] and [kfree] are refined to
    first fit and coalescing on that list. *)

From stdpp Require Import base gmap list fin_maps.
From Stdlib Require Import ZArith Lia.
From S2P Require Import Prelude Heap.

(** ** The abstract heap *)

Abbreviation blk := (Z * bool)%type.

Definition b2z (b : bool) : Z := if b then 1 else 0.

(** Address after the blocks of [bl] when the first header is at [s]. *)
Fixpoint bend (s : Z) (bl : list blk) : Z :=
  match bl with
  | [] => s
  | b :: bl' => bend (s + 24 + b.1) bl'
  end.

(** [h] holds the headers of [bl] from address [s] on; the last one links to
    [nx]. *)
Fixpoint rep (h : gmap Z heap_block) (s : Z) (bl : list blk) (nx : Z) : Prop :=
  match bl with
  | [] => True
  | b :: bl' =>
      h !! s = Some (mk_block b.1 (b2z b.2)
                      (match bl' with [] => nx | _ => s + 24 + b.1 end)) /\
      rep h (s + 24 + b.1) bl' nx
  end.

Definition block_ok (b : blk) : Prop := 0 <= b.1 /\ b.1 mod 8 = 0.

(** No two neighbours are both free. *)
Fixpoint coalesced (bl : list blk) : Prop :=
  match bl with
  | b1 :: ((b2 :: _) as bl') => b1.2 && b2.2 = false /\ coalesced bl'
  | _ => True
  end.

(** First fit: the blocks before the first free one of size at least [n]. *)
Fixpoint first_fit (n : Z) (bl : list blk) : option (list blk) :=
  match bl with
  | [] => None
  | b :: bl' => if b.2 && (n <=? b.1) then Some [] else cons b <$> first_fit n bl'
  end.

(** What allocation makes of the chosen block. *)
Definition carve (n sz : Z) : list blk :=
  if n + 32 <=? sz then [(n, false); (sz - n - 24, true)] else [(sz, false)].

(** Freed block and its free right neighbour; then its free left one. *)
Definition merge_right (sz : Z) (post : list blk) : Z * list blk :=
  match post with
  | (sz', true) :: post' => (sz + (24 + sz'), post')
  | _ => (sz, post)
  end.
Definition merge_left (pre : list blk) (sz : Z) : list blk :=
  match last pre with
  | Some (szp, true) => removelast pre ++ [(szp + (24 + sz), true)]
  | _ => pre ++ [(sz, true)]
  end.
Definition free_block (pre : list blk) (sz : Z) (post : list blk) : list blk :=
  let '(sz', post') := merge_right sz post in merge_left pre sz' ++ post'.

(** ** Geometry *)

Lemma START_pos : 4096 < HEAP_START_VIRT.
Proof. done. Qed.

Lemma bend_app s b1 b2 : bend s (b1 ++ b2) = bend (bend s b1) b2.
Proof. revert s. induction b1; intros; simpl; auto. Qed.

Lemma bend_ge s bl : Forall block_ok bl -> s + 24 * Z.of_nat (length bl) <= bend s bl.
Proof.
  intros Hf. revert s. induction Hf as [|b bl [Hb _] _ IH]; intros s; simpl; [lia|].
  specialize (IH (s + 24 + b.1)). lia.
Qed.

Lemma rep_app h s b1 b2 nx :
  rep h s (b1 ++ b2) nx <->
  rep h s b1 (match b2 with [] => nx | _ => bend s b1 end) /\ rep h (bend s b1) b2 nx.
Proof.
  revert s. induction b1 as [|b b1 IH]; intros s; simpl.
  { split; [by intros|by intros [_ ?]]. }
  rewrite IH. destruct b1 as [|b' b1]; simpl.
  - destruct b2; simpl; tauto.
  - tauto.
Qed.

Lemma rep_frame h h' s bl nx :
  Forall block_ok bl -> rep h s bl nx ->
  (forall k, s <= k < bend s bl -> h' !! k = h !! k) -> rep h' s bl nx.
Proof.
  intros Hf. revert s. induction Hf as [|b bl Hb Hf' IH]; intros s Hr Hk; simpl in *; [done|].
  destruct Hr as [Hs Hr]. pose proof (bend_ge (s + 24 + b.1) bl Hf'). destruct Hb.
  split; [rewrite Hk; [done|lia]|]. apply IH; [done|]. intros k ?. apply Hk. lia.
Qed.

(** Replacing a run of blocks by another one of the same extent. *)
Lemma rep_replace h h' s pre mid mid' post nx :
  Forall block_ok pre -> Forall block_ok post ->
  rep h s (pre ++ mid ++ post) nx -> mid <> [] -> mid' <> [] ->
  (post <> [] -> bend (bend s pre) mid' = bend (bend s pre) mid) ->
  (forall k, k < bend s pre -> h' !! k = h !! k) ->
  (post <> [] -> forall k, bend (bend s pre) mid <= k -> h' !! k = h !! k) ->
  rep h' (bend s pre) mid' (match post with [] => nx | _ => bend (bend s pre) mid end) ->
  rep h' s (pre ++ mid' ++ post) nx.
Proof.
  intros Hpre Hpost Hr Hm Hm' Hb Hlo Hhi Hmid.
  apply rep_app in Hr as [Hr1 Hr2]. apply rep_app in Hr2 as [_ Hr2].
  apply rep_app. split.
  - apply (rep_frame h); [done| |intros; apply Hlo; lia].
    destruct mid as [|]; [done|]. by destruct mid'.
  - apply rep_app. destruct post as [|b post]; [done|].
    rewrite Hb by done. split; [done|].
    apply (rep_frame h); [done|done|]. intros. apply Hhi; [done|lia].
Qed.

Definition addrs (s : Z) (bl : list blk) : list Z :=
  (fun i => bend s (take i bl)) <$> seq 0 (length bl).

Lemma addrs_cons s b bl : addrs s (b :: bl) = s :: addrs (s + 24 + b.1) bl.
Proof.
  unfold addrs. cbn [length seq]. rewrite fmap_cons. simpl. f_equal.
  rewrite <- fmap_S_seq, <- list_fmap_compose. done.
Qed.

Lemma addrs_ge s bl x : Forall block_ok bl -> x ∈ addrs s bl -> s <= x.
Proof.
  intros Hf (i & -> & _)%list_elem_of_fmap.
  pose proof (bend_ge s (take i bl) (Forall_take _ _ _ Hf)). lia.
Qed.

Lemma addrs_NoDup s bl : Forall block_ok bl -> NoDup (addrs s bl).
Proof.
  intros Hf. revert s. induction Hf as [|b bl [Hb _] Hf IH]; intros s; [constructor|].
  rewrite addrs_cons. constructor; [|apply IH].
  intros Hin%addrs_ge; [lia|done].
Qed.

Lemma rep_addrs h s bl nx x : rep h s bl nx -> x ∈ addrs s bl -> is_Some (h !! x).
Proof.
  revert s. induction bl as [|b bl IH]; intros s Hr Hx; [by apply not_elem_of_nil in Hx|].
  destruct Hr as [Hs Hr]. rewrite addrs_cons in Hx. apply elem_of_cons in Hx as [->|Hx]; eauto.
Qed.

Lemma rep_length h s bl nx : Forall block_ok bl -> rep h s bl nx -> (length bl <= size h)%nat.
Proof.
  intros Hf Hr. replace (length bl) with (length (addrs s bl))
    by (unfold addrs; by rewrite length_fmap, length_seq).
  apply nodup_keys_size; [by apply addrs_NoDup|]. intros. by eapply rep_addrs.
Qed.

(** ** The invariant *)

Section HeapFacts.
Context {V : Type} `{PageMapper V}.
#[local] Abbreviation heap := (@heap_t V).

(** The part of the invariant that does not mention the block list. *)
Record heap_env (s : heap) : Prop := {
  he_ok : pm_ok (h_vm s);
  he_lo : HEAP_START_VIRT <= heap_end_virt s;
  he_align : heap_end_virt s mod 4096 = 0;
  he_limit : heap_end_virt s + 4096 * Z.of_nat (pm_count (h_vm s)) <= HEAP_LIMIT;
  he_present : forall a, HEAP_START_VIRT <= a < heap_end_virt s -> pm_present (h_vm s) a = true
}.

Record heap_lay (s : heap) (bl : list blk) : Prop := {
  hr_env : heap_env s;
  hr_head : heap_head s = HEAP_START_VIRT;
  hr_init : heap_initialized s = 1;
  hr_ne : bl <> [];
  hr_ok : Forall block_ok bl;
  hr_rep : rep (h_blocks s) HEAP_START_VIRT bl 0;
  hr_end : bend HEAP_START_VIRT bl = heap_end_virt s
}.

Lemma env_blocks b s : heap_env s -> heap_env (set_h_blocks b s).
Proof. by intros []. Qed.

Lemma env_lock l s : heap_env s -> heap_env (set_heap_lock l s).
Proof. by intros []. Qed.

Lemma rep_lock l s bl : heap_lay s bl -> heap_lay (set_heap_lock l s) bl.
Proof. intros []. by split; try apply env_lock. Qed.

Lemma header_ok s a :
  heap_env s -> HEAP_START_VIRT <= a -> a + 24 <= heap_end_virt s -> header_present s a = true.
Proof.
  intros He Hlo Hhi. unfold header_present, sizeof_heap_block.
  by rewrite !(he_present s He) by lia.
Qed.

Lemma read_block_ok s a b :
  header_present s a = true -> h_blocks s !! a = Some b -> read_block a s = Ret b s.
Proof. intros Hp Hb. unfold read_block. by rewrite Hp, Hb. Qed.

Lemma write_block_ok s a b :
  header_present s a = true -> write_block a b s = Ret tt (set_h_blocks (<[a:=b]> (h_blocks s)) s).
Proof. intros Hp. unfold write_block. by rewrite Hp. Qed.

Lemma modify_block_ok s a b f :
  header_present s a = true -> h_blocks s !! a = Some b ->
  modify_block a f s = Ret tt (set_h_blocks (<[a:=f b]> (h_blocks s)) s).
Proof.
  intros Hp Hb. unfold modify_block, mbind. rewrite (read_block_ok s a b) by done.
  cbn [bindr]. by apply write_block_ok.
Qed.

Lemma heap_limit_lt s : heap_env s -> heap_end_virt s < two64.
Proof. intros He. pose proof (he_limit s He). unfold HEAP_LIMIT, two64 in *. lia. Qed.

(** Sizes and addresses of a block inside the heap. *)
Lemma inside s pre sz fr post :
  heap_lay s (pre ++ (sz, fr) :: post) ->
  0 <= sz /\ sz mod 8 = 0 /\
  HEAP_START_VIRT <= bend HEAP_START_VIRT pre /\
  bend HEAP_START_VIRT pre + 24 + sz <= heap_end_virt s /\ heap_end_virt s < two64.
Proof.
  intros Hr. pose proof (hr_ok _ _ Hr) as Hok. apply Forall_app in Hok as [Hp Hq].
  apply Forall_cons in Hq as [[H0 H8] Hq]. simpl in *.
  pose proof (bend_ge HEAP_START_VIRT pre Hp).
  pose proof (bend_ge (bend HEAP_START_VIRT pre + 24 + sz) post Hq).
  pose proof (hr_end _ _ Hr) as He. rewrite bend_app in He. simpl in He.
  pose proof (heap_limit_lt s (hr_env _ _ Hr)). lia.
Qed.

Lemma header_inside s pre sz fr post :
  heap_lay s (pre ++ (sz, fr) :: post) -> header_present s (bend HEAP_START_VIRT pre) = true.
Proof.
  intros Hr. pose proof (inside _ _ _ _ _ Hr). apply header_ok; [apply Hr|lia..].
Qed.

Lemma lookup_inside s pre sz fr post :
  heap_lay s (pre ++ (sz, fr) :: post) ->
  h_blocks s !! bend HEAP_START_VIRT pre =
    Some (mk_block sz (b2z fr) (match post with [] => 0
                                | _ => bend HEAP_START_VIRT pre + 24 + sz end)).
Proof.
  intros Hr. pose proof (hr_rep _ _ Hr) as Hrep. apply rep_app in Hrep as [_ [Hl _]]. done.
Qed.

(** *** The searches *)

Lemma find_fit_spec s n bl a fuel :
  heap_env s -> Forall block_ok bl -> rep (h_blocks s) a bl 0 ->
  HEAP_START_VIRT <= a -> bend a bl = heap_end_virt s -> (length bl < fuel)%nat ->
  find_fit fuel (match bl with [] => 0 | _ => a end) n s =
    Ret (match first_fit n bl with Some pre => bend a pre | None => 0 end) s.
Proof.
  intros He. revert a fuel. induction bl as [|b bl IH]; intros a fuel Hok Hr Ha Hend Hf.
  { destruct fuel; [lia|]. done. }
  apply Forall_cons in Hok as [[Hb0 Hb8] Hok]. destruct Hr as [Hl Hr].
  destruct fuel as [|fuel]; [lia|]. simpl in Hend, Hf. pose proof (bend_ge _ _ Hok : a + 24 + b.1 + _ <= _).
  cbn [find_fit]. destruct (Z.eqb_spec a 0); [pose proof START_pos; lia|].
  mstep. rewrite (read_block_ok s a _) by (done || (apply header_ok; [done|lia|lia])).
  cbn [bindr hb_free hb_size hb_next first_fit].
  replace (truthy (b2z b.2)) with b.2 by (by destruct b.2).
  destruct (b.2 && (n <=? b.1)); [done|].
  rewrite IH by (done || lia). by destruct (first_fit n bl).
Qed.

Lemma find_prev_spec s pre sz fr post a fuel prev :
  heap_env s -> Forall block_ok (pre ++ (sz, fr) :: post) ->
  rep (h_blocks s) a (pre ++ (sz, fr) :: post) 0 ->
  HEAP_START_VIRT <= a -> bend a (pre ++ (sz, fr) :: post) = heap_end_virt s ->
  (length pre < fuel)%nat ->
  find_prev fuel (bend a pre) prev a s =
    Ret (match pre with [] => prev | _ => bend a (removelast pre) end) s.
Proof.
  intros He. revert a fuel prev. induction pre as [|b pre IH]; intros a fuel prev Hok Hr Ha Hend Hf.
  { destruct fuel; [lia|]. cbn [find_prev bend].
    destruct (Z.eqb_spec a 0); [pose proof START_pos; lia|]. by rewrite Z.eqb_refl. }
  destruct fuel as [|fuel]; [simpl in Hf; lia|].
  cbn [app] in Hok, Hr, Hend. apply Forall_cons in Hok as [[Hb0 Hb8] Hok].
  destruct Hr as [Hl Hr]. cbn [bend] in Hend |- *.
  assert (Hp : Forall block_ok pre) by (by apply Forall_app in Hok as [? _]).
  pose proof (bend_ge (a + 24 + b.1) pre Hp). pose proof (bend_ge _ _ Hok : a + 24 + b.1 + _ <= _).
  cbn [find_prev]. destruct (Z.eqb_spec a 0); [pose proof START_pos; lia|].
  destruct (Z.eqb_spec a (bend (a + 24 + b.1) pre)); [lia|].
  mstep. rewrite (read_block_ok s a _) by (done || (apply header_ok; [done|lia|lia])).
  cbn [bindr hb_next]. replace (match pre ++ (sz, fr) :: post with [] => 0 | _ => a + 24 + b.1 end)
    with (a + 24 + b.1) by (by destruct pre).
  simpl in Hf. rewrite IH by (done || lia). by destruct pre.
Qed.

Lemma last_block_spec s a pre b fuel :
  heap_env s -> Forall block_ok (pre ++ [b]) -> rep (h_blocks s) a (pre ++ [b]) 0 ->
  HEAP_START_VIRT <= a -> bend a (pre ++ [b]) <= heap_end_virt s -> (length pre < fuel)%nat ->
  last_block fuel a s = Ret (bend a pre) s.
Proof.
  intros He. revert a fuel. induction pre as [|c pre IH]; intros a fuel Hok Hr Ha Hend Hf.
  - destruct fuel; [lia|]. cbn [app] in *. destruct Hr as [Hl _].
    apply Forall_cons in Hok as [[? ?] _]. simpl in Hend. cbn [last_block]. mstep.
    rewrite (read_block_ok s a _) by (done || (apply header_ok; [done|lia|lia])). done.
  - destruct fuel; [simpl in Hf; lia|]. cbn [app] in *. destruct Hr as [Hl Hr].
    apply Forall_cons in Hok as [[? ?] Hok]. cbn [bend] in Hend |- *.
    pose proof (bend_ge _ _ Hok : a + 24 + c.1 + _ <= _). cbn [last_block]. mstep.
    rewrite (read_block_ok s a _) by (done || (apply header_ok; [done|lia|lia])).
    cbn [bindr hb_next].
    replace (match pre ++ [b] with [] => 0 | _ => a + 24 + c.1 end)
      with (a + 24 + c.1) by (by destruct pre).
    destruct (truthy (a + 24 + c.1)) eqn:Ht.
    2:{ unfold truthy in Ht. destruct (Z.eqb_spec (a + 24 + c.1) 0);
        pose proof START_pos; [lia|done]. }
    simpl in Hf. apply IH; done || lia.
Qed.

(** *** Neighbouring free blocks *)

Lemma coal_split pre b post :
  coalesced (pre ++ b :: post) <-> coalesced (pre ++ [b]) /\ coalesced (b :: post).
Proof.
  induction pre as [|c pre IH]; [simpl; tauto|].
  destruct pre as [|d pre]; cbn [app] in *; [simpl; tauto|].
  change (coalesced (c :: d :: pre ++ b :: post)) with
    (c.2 && d.2 = false /\ coalesced (d :: pre ++ b :: post)).
  change (coalesced (c :: d :: pre ++ [b])) with
    (c.2 && d.2 = false /\ coalesced (d :: pre ++ [b])). tauto.
Qed.

Lemma coal_tail b bl : coalesced (b :: bl) -> coalesced bl.
Proof. destruct bl; [done|]. by intros [_ ?]. Qed.

Lemma coal_used_cons sz bl : coalesced bl -> coalesced ((sz, false) :: bl).
Proof. by destruct bl. Qed.

Lemma coal_resize sz sz' fr bl : coalesced ((sz, fr) :: bl) -> coalesced ((sz', fr) :: bl).
Proof. by destruct bl. Qed.

Lemma coal_snoc_inv pre b : coalesced (pre ++ [b]) -> coalesced pre.
Proof.
  induction pre as [|c pre IH]; [done|]. destruct pre as [|d pre]; [done|].
  intros [? ?]. split; [done|]. by apply IH.
Qed.

Lemma coal_snoc_flag pre sz sz' fr : coalesced (pre ++ [(sz, fr)]) -> coalesced (pre ++ [(sz', fr)]).
Proof.
  induction pre as [|c pre IH]; [done|]. destruct pre as [|d pre]; [done|].
  intros [? ?]. split; [done|]. by apply IH.
Qed.

Lemma coal_snoc_used pre sz : coalesced pre -> coalesced (pre ++ [(sz, false)]).
Proof.
  induction pre as [|c pre IH]; [done|]. destruct pre as [|d pre].
  - intros _. split; [by rewrite andb_false_r|done].
  - intros [? ?]. split; [done|]. by apply IH.
Qed.

Lemma coal_snoc_after_used pre szp sz fr :
  coalesced (pre ++ [(szp, false)]) -> coalesced ((pre ++ [(szp, false)]) ++ [(sz, fr)]).
Proof. intros Hc. rewrite <- app_assoc. apply (coal_split pre (szp, false) [(sz, fr)]). by split. Qed.

(** Rebuilding [heap_lay] after a change of the headers only. *)
Lemma heap_lay_blocks s bl bl' h' :
  heap_lay s bl -> bl' <> [] -> Forall block_ok bl' -> rep h' HEAP_START_VIRT bl' 0 ->
  bend HEAP_START_VIRT bl' = heap_end_virt s ->
  heap_lay (set_h_blocks h' s) bl'.
Proof. intros [] ? ? ? ?. by split; try apply env_blocks. Qed.

(** *** Allocation from a block *)

Lemma carve_ok n sz : 0 <= n <= sz -> n mod 8 = 0 -> sz mod 8 = 0 -> Forall block_ok (carve n sz).
Proof.
  intros. unfold carve, block_ok. destruct (Z.leb_spec (n + 32) sz);
    repeat (apply Forall_cons_2; [simpl; Z.div_mod_to_equations; lia|]); by apply Forall_nil_2.
Qed.

Lemma carve_bend a n sz : bend a (carve n sz) = a + 24 + sz.
Proof. unfold carve. destruct (Z.leb_spec (n + 32) sz); simpl; lia. Qed.

Lemma carve_coal pre n sz post :
  coalesced (pre ++ (sz, true) :: post) -> coalesced (pre ++ carve n sz ++ post).
Proof.
  intros [Hl Hr]%coal_split. apply coal_snoc_inv in Hl. unfold carve.
  destruct (n + 32 <=? sz); cbn [app]; apply coal_split; split; try by apply coal_snoc_used.
  - apply coal_used_cons. by eapply coal_resize.
  - apply coal_used_cons. by eapply coal_tail.
Qed.

Lemma take_block_spec s pre sz post n :
  heap_lay s (pre ++ (sz, true) :: post) -> 0 <= n <= sz -> n mod 8 = 0 ->
  exists h', take_block (bend HEAP_START_VIRT pre) n s = Ret tt (set_h_blocks h' s) /\
    heap_lay (set_h_blocks h' s) (pre ++ carve n sz ++ post).
Proof.
  intros Hr Hn Hn8. pose proof (inside _ _ _ _ _ Hr) as (Hsz & Hsz8 & Hlo & Hhi & H64).
  pose proof (lookup_inside _ _ _ _ _ Hr) as Hl. pose proof (hr_env _ _ Hr) as He.
  assert (Hhdr : forall x h0, HEAP_START_VIRT <= x -> x + 24 <= heap_end_virt s ->
    header_present (set_h_blocks h0 s) x = true) by (intros; by apply header_ok; [apply env_blocks|..]).
  set (a := bend HEAP_START_VIRT pre) in *.
  assert (Hpost : Forall block_ok pre /\ Forall block_ok post).
  { pose proof (hr_ok _ _ Hr) as Hok. apply Forall_app in Hok as [? Hq].
    by apply Forall_cons in Hq as [_ ?]. }
  assert (Hfin : forall h', rep h' a (carve n sz) (match post with [] => 0 | _ => a + 24 + sz end) ->
    (forall k, k < a \/ a + 24 + sz <= k -> h' !! k = h_blocks s !! k) ->
    heap_lay (set_h_blocks h' s) (pre ++ carve n sz ++ post)).
  { intros h' Hc Hk. apply (heap_lay_blocks s (pre ++ (sz, true) :: post)); [done|..].
    - destruct pre; [|done]. unfold carve. by destruct (n + 32 <=? sz).
    - apply Forall_app. split; [apply Hpost|]. apply Forall_app. split; [by apply carve_ok|apply Hpost].
    - apply (rep_replace (h_blocks s) h' _ pre [(sz, true)] (carve n sz) post 0);
        try apply Hpost; try (fold a); [apply Hr|done| | | | |done].
      + unfold carve. by destruct (n + 32 <=? sz).
      + intros _. by rewrite carve_bend.
      + intros k ?. apply Hk. by left.
      + intros _ k ?. apply Hk. by right.
    - rewrite <- (hr_end _ _ Hr), !bend_app. fold a. by rewrite carve_bend. }
  unfold take_block. mstep. rewrite (read_block_ok s a _ (header_inside _ _ _ _ _ Hr) Hl).
  cbn [bindr hb_size]. unfold sizeof_heap_block.
  pose proof START_pos.
  rewrite (u64_small (n + 24 + 8)) by (unfold two64 in *; lia). revert Hfin.
  unfold carve. destruct (Z.leb_spec (n + 24 + 8) sz), (Z.leb_spec (n + 32) sz); try lia; intros Hfin.
  - rewrite write_block_ok by (apply header_ok; [done|lia|lia]). cbn [bindr].
    rewrite (modify_block_ok _ a (mk_block sz (b2z true) (match post with [] => 0 | _ => a + 24 + sz end)))
      by ((apply Hhdr; lia) || (cbn; rewrite lookup_insert_ne by lia; done)).
    cbn [bindr].
    erewrite modify_block_ok by ((apply Hhdr; lia) || (cbn; by rewrite lookup_insert_eq)).
    cbn [bindr].
    erewrite modify_block_ok by ((apply Hhdr; lia) || (cbn; by rewrite lookup_insert_eq)).
    cbn. eexists. split; [reflexivity|]. apply Hfin.
    + split; [by rewrite lookup_insert_eq|]. split; [|done].
      cbn. rewrite !lookup_insert_ne by lia. rewrite lookup_insert_eq. cbn.
      rewrite u64_small by (unfold two64 in *; lia). replace (a + 24 + n + 24 + (sz - n - 24)) with (a + 24 + sz) by lia.
      done.
    + intros k Hk. rewrite !lookup_insert_ne by lia. done.
  - cbn [bindr]. erewrite modify_block_ok by (done || by apply (header_inside _ _ _ _ _ Hr)).
    eexists. split; [reflexivity|]. apply Hfin.
    + split; [by rewrite lookup_insert_eq|done].
    + intros k Hk. rewrite lookup_insert_ne by lia. done.
Qed.

(** *** Freeing *)

(** Replacing the blocks [mid] by [mid'] of the same extent, by writes that
    touch only headers inside that extent. *)
Lemma lay_replace s pre mid mid' post h' :
  heap_lay s (pre ++ mid ++ post) -> mid <> [] -> mid' <> [] -> Forall block_ok mid' ->
  bend (bend HEAP_START_VIRT pre) mid' = bend (bend HEAP_START_VIRT pre) mid ->
  (forall k, k < bend HEAP_START_VIRT pre \/ bend (bend HEAP_START_VIRT pre) mid <= k ->
     h' !! k = h_blocks s !! k) ->
  rep h' (bend HEAP_START_VIRT pre) mid'
    (match post with [] => 0 | _ => bend (bend HEAP_START_VIRT pre) mid end) ->
  heap_lay (set_h_blocks h' s) (pre ++ mid' ++ post).
Proof.
  intros Hr Hm Hm' Hok Hb Hk Hc. pose proof (hr_ok _ _ Hr) as Hall.
  apply Forall_app in Hall as [Hp Hq]. apply Forall_app in Hq as [_ Hq].
  apply (heap_lay_blocks s (pre ++ mid ++ post)); [done|..].
  - destruct pre; [|done]. by destruct mid'.
  - by repeat (apply Forall_app; split).
  - apply (rep_replace (h_blocks s) h' _ pre mid mid' post 0); try done; [apply Hr|auto..].
  - rewrite <- (hr_end _ _ Hr), !bend_app. by rewrite Hb.
Qed.

Lemma set_free_spec s pre sz fr post f :
  heap_lay s (pre ++ (sz, fr) :: post) ->
  exists h', modify_block (bend HEAP_START_VIRT pre) (set_hb_free (b2z f)) s =
      Ret tt (set_h_blocks h' s) /\
    heap_lay (set_h_blocks h' s) (pre ++ (sz, f) :: post).
Proof.
  intros Hr. pose proof (inside _ _ _ _ _ Hr) as (Hsz & Hsz8 & _).
  rewrite (modify_block_ok _ _ _ _ (header_inside _ _ _ _ _ Hr) (lookup_inside _ _ _ _ _ Hr)).
  eexists. split; [reflexivity|].
  apply (lay_replace s pre [(sz, fr)] [(sz, f)] post); try done.
  - by apply Forall_cons_2.
  - intros k Hk. simpl in Hk. rewrite lookup_insert_ne by lia. done.
  - split; [by rewrite lookup_insert_eq|done].
Qed.

(** Absorbing the right neighbour: two field updates of the left header. *)
Lemma absorb_spec s pre sz fr sz' fr' post :
  heap_lay s (pre ++ (sz, fr) :: (sz', fr') :: post) ->
  let a := bend HEAP_START_VIRT pre in
  let nx := match post with [] => 0 | _ => a + 24 + sz + 24 + sz' end in
  exists h',
    (modify_block a (fun b => set_hb_size (u64 (hb_size b + (sizeof_heap_block + sz'))) b) ;;;
     modify_block a (set_hb_next nx)) s = Ret tt (set_h_blocks h' s) /\
    heap_lay (set_h_blocks h' s) (pre ++ (sz + (24 + sz'), fr) :: post).
Proof.
  intros Hr a nx. pose proof (inside _ _ _ _ _ Hr) as (Hsz & Hsz8 & Hlo & _).
  assert (Hr2 : heap_lay s ((pre ++ [(sz, fr)]) ++ (sz', fr') :: post)) by (by rewrite <- app_assoc).
  pose proof (inside _ _ _ _ _ Hr2) as (Hsz' & Hsz8' & _ & Hhi & H64).
  rewrite bend_app in Hhi. simpl in Hhi. fold a in Hhi, Hlo.
  pose proof (header_inside _ _ _ _ _ Hr) as Hh. fold a in Hh.
  mstep. rewrite (modify_block_ok _ _ _ _ Hh (lookup_inside _ _ _ _ _ Hr)). cbn [bindr].
  erewrite modify_block_ok by (exact Hh || (cbn; by rewrite lookup_insert_eq)).
  cbn. unfold sizeof_heap_block. pose proof START_pos.
  rewrite u64_small by (unfold two64 in *; lia).
  eexists. split; [reflexivity|].
  apply (lay_replace s pre [(sz, fr); (sz', fr')] [(sz + (24 + sz'), fr)] post); try done; fold a.
  - apply Forall_cons_2; [|by apply Forall_nil_2]. split; simpl; Z.div_mod_to_equations; lia.
  - simpl. lia.
  - intros k Hk. simpl in Hk. rewrite !lookup_insert_ne by lia. done.
  - split; [|done]. rewrite lookup_insert_eq. unfold set_hb_next. cbn. unfold nx. by destruct post.
Qed.

Lemma merge_next_spec s pre sz fr post :
  heap_lay s (pre ++ (sz, fr) :: post) ->
  exists h', merge_next (bend HEAP_START_VIRT pre) s = Ret tt (set_h_blocks h' s) /\
    heap_lay (set_h_blocks h' s)
      (pre ++ ((merge_right sz post).1, fr) :: (merge_right sz post).2).
Proof.
  intros Hr. pose proof (inside _ _ _ _ _ Hr) as (Hsz & _ & Hlo & _).
  assert (Hid : set_h_blocks (h_blocks s) s = s) by (by destruct s).
  unfold merge_next. mstep.
  rewrite (read_block_ok _ _ _ (header_inside _ _ _ _ _ Hr) (lookup_inside _ _ _ _ _ Hr)).
  cbn [bindr hb_next]. destruct post as [|[sz' fr'] post].
  { exists (h_blocks s). by rewrite Hid. }
  destruct (truthy (bend HEAP_START_VIRT pre + 24 + sz)) eqn:Ht.
  2:{ unfold truthy in Ht. destruct (Z.eqb_spec (bend HEAP_START_VIRT pre + 24 + sz) 0);
      pose proof START_pos; [lia|done]. }
  assert (Hr2 : heap_lay s ((pre ++ [(sz, fr)]) ++ (sz', fr') :: post)) by (by rewrite <- app_assoc).
  pose proof (header_inside _ _ _ _ _ Hr2) as Hh2. pose proof (lookup_inside _ _ _ _ _ Hr2) as Hl2.
  rewrite bend_app in Hh2, Hl2. cbn [bend fst] in Hh2, Hl2.
  rewrite (read_block_ok _ _ _ Hh2 Hl2). cbn [bindr hb_free].
  destruct fr'; cbn [b2z truthy Z.eqb negb merge_right].
  - apply (absorb_spec s pre sz fr sz' true post Hr).
  - exists (h_blocks s). by rewrite Hid.
Qed.

Lemma fuel_enough s bl : heap_lay s bl -> (length bl < list_fuel s)%nat.
Proof.
  intros Hr. pose proof (rep_length _ _ _ _ (hr_ok _ _ Hr) (hr_rep _ _ Hr)). unfold list_fuel. lia.
Qed.

Lemma merge_prev_spec s pre sz post :
  heap_lay s (pre ++ (sz, true) :: post) ->
  exists h', merge_prev (bend HEAP_START_VIRT pre) s = Ret tt (set_h_blocks h' s) /\
    heap_lay (set_h_blocks h' s) (merge_left pre sz ++ post).
Proof.
  intros Hr. assert (Hid : set_h_blocks (h_blocks s) s = s) by (by destruct s).
  unfold merge_prev. mstep. rewrite (hr_head _ _ Hr).
  pose proof (fuel_enough _ _ Hr) as Hfuel. rewrite length_app in Hfuel.
  rewrite (find_prev_spec s pre sz true post HEAP_START_VIRT) by
    (apply Hr || lia || (unfold HEAP_START_VIRT; lia)). cbn [bindr].
  destruct (decide (pre = [])) as [->|Hne].
  { exists (h_blocks s). by rewrite Hid. }
  destruct (exists_last Hne) as (pre' & [szp frp] & ->).
  replace (match pre' ++ [(szp, frp)] with [] => 0
    | _ => bend HEAP_START_VIRT (removelast (pre' ++ [(szp, frp)])) end)
    with (bend HEAP_START_VIRT pre') by (rewrite removelast_last; by destruct pre').
  unfold merge_left. rewrite last_snoc, removelast_last.
  rewrite <- app_assoc in Hr. cbn [app] in Hr.
  pose proof (inside _ _ _ _ _ Hr) as (Hszp & _ & Hlo & Hhi & H64).
  destruct (truthy (bend HEAP_START_VIRT pre')) eqn:Ht.
  2:{ unfold truthy in Ht. destruct (Z.eqb_spec (bend HEAP_START_VIRT pre') 0);
      pose proof START_pos; [lia|done]. }
  rewrite (read_block_ok _ _ _ (header_inside _ _ _ _ _ Hr) (lookup_inside _ _ _ _ _ Hr)).
  cbn [bindr hb_free hb_size]. unfold sizeof_heap_block at 1. pose proof START_pos.
  rewrite u64_small by (unfold two64 in *; lia).
  rewrite bend_app. cbn [bend fst]. rewrite Z.eqb_refl, andb_true_r.
  destruct frp; cbn [b2z truthy Z.eqb negb].
  - assert (Hr2 : heap_lay s ((pre' ++ [(szp, true)]) ++ (sz, true) :: post)) by (by rewrite <- app_assoc).
    pose proof (header_inside _ _ _ _ _ Hr2) as Hh2. pose proof (lookup_inside _ _ _ _ _ Hr2) as Hl2.
    rewrite bend_app in Hh2, Hl2. cbn [bend fst] in Hh2, Hl2.
    rewrite (read_block_ok _ _ _ Hh2 Hl2). cbn [bindr hb_size hb_next].
    rewrite <- app_assoc. apply (absorb_spec s pre' szp true sz true post Hr).
  - exists (h_blocks s). rewrite Hid. split; [done|]. by rewrite <- !app_assoc.
Qed.

Lemma free_block_coal pre sz post :
  coalesced (pre ++ (sz, false) :: post) -> coalesced (free_block pre sz post).
Proof.
  intros [Hl Hr]%coal_split. apply coal_snoc_inv in Hl. apply coal_tail in Hr.
  assert (Hright : forall x, coalesced ((x, true) :: (merge_right sz post).2)).
  { intros x. destruct post as [|[s1 []] post]; [done|by eapply coal_resize|]. by split. }
  unfold free_block. destruct (merge_right sz post) as [sz' post']. cbn [snd] in Hright.
  unfold merge_left. destruct (last pre) as [[szp []]|] eqn:Hlast.
  - apply last_Some in Hlast as [pre' ->]. rewrite removelast_last, <- app_assoc.
    apply coal_split. split; [by eapply coal_snoc_flag|apply Hright].
  - apply last_Some in Hlast as [pre' ->]. rewrite <- app_assoc. apply coal_split.
    split; [by apply coal_snoc_after_used|apply Hright].
  - apply last_None in Hlast as ->. apply Hright.
Qed.

(** [kfree] of a used block is [free_block]. *)
Lemma kfree_lay s pre sz post :
  heap_lay s (pre ++ (sz, false) :: post) -> heap_lock s = 0 ->
  exists h', kfree (bend HEAP_START_VIRT pre + 24) s = Ret tt (set_h_blocks h' s) /\
    heap_lay (set_h_blocks h' s) (free_block pre sz post).
Proof.
  intros Hr Hlock. pose proof (inside _ _ _ _ _ Hr) as (_ & _ & Hlo & _).
  unfold kfree. destruct (Z.eqb_spec (bend HEAP_START_VIRT pre + 24) 0);
    [pose proof START_pos; lia|].
  mstep. rewrite Hlock. cbn [Z.eqb bindr]. unfold sizeof_heap_block at 1 2 3.
  replace (bend HEAP_START_VIRT pre + 24 - 24) with (bend HEAP_START_VIRT pre) by lia.
  change (set_hb_free 1) with (set_hb_free (b2z true)). apply (rep_lock 1) in Hr.
  destruct (set_free_spec _ _ _ _ _ true Hr) as (h1 & -> & Hr1). cbn [bindr].
  destruct (merge_next_spec _ _ _ _ _ Hr1) as (h2 & -> & Hr2). cbn [bindr].
  destruct (merge_prev_spec _ _ _ _ Hr2) as (h3 & -> & Hr3). cbn [bindr].
  exists h3. split; [destruct s; simpl in *; by subst|].
  apply (rep_lock 0) in Hr3. unfold free_block. destruct (merge_right sz post).
  destruct s; simpl in *; by subst.
Qed.

(** *** Growing the heap *)

Definition grow (bl : list blk) : list blk :=
  match last bl with
  | Some (sz, true) => removelast bl ++ [(sz + 4096, true)]
  | _ => bl ++ [(4072, true)]
  end.

Definition heap_rep (s : heap) (bl : list blk) : Prop := heap_lay s bl /\ coalesced bl.

Lemma grow_coal bl : coalesced bl -> coalesced (grow bl).
Proof.
  intros Hc. unfold grow. destruct (last bl) as [[sz []]|] eqn:Hl.
  - apply last_Some in Hl as [pre ->]. rewrite removelast_last. by eapply coal_snoc_flag.
  - apply last_Some in Hl as [pre ->]. by apply coal_snoc_after_used.
  - by apply last_None in Hl as ->.
Qed.

(** The state right after the new page is mapped and its header written. *)
Lemma env_grow s v :
  heap_env s -> pm_ok v -> (pm_count v < pm_count (h_vm s))%nat ->
  (forall b, HEAP_START_VIRT <= b < HEAP_LIMIT -> pm_present (h_vm s) b = true -> pm_present v b = true) ->
  heap_env (set_h_vm v s).
Proof.
  intros He Hok Hc Hp. pose proof (he_limit s He). pose proof (he_lo s He).
  split; simpl; [done|apply He|apply He|lia|].
  intros a Ha. apply Hp; [lia|]. by apply He.
Qed.

Lemma env_new_end s :
  heap_env s -> pm_present (h_vm s) (heap_end_virt s) = true ->
  heap_end_virt s + 4096 + 4096 * Z.of_nat (pm_count (h_vm s)) <= HEAP_LIMIT ->
  heap_env (set_heap_end (heap_end_virt s + 4096) s).
Proof.
  intros He Hp Hl. pose proof (he_lo s He). pose proof (he_align s He) as Ha.
  split; simpl; [apply He|lia| |lia|].
  - rewrite Z.add_mod, Ha by lia. done.
  - intros a Hr. destruct (Z_lt_le_dec a (heap_end_virt s)); [apply He; lia|].
    rewrite (pm_present_page _ a (heap_end_virt s)); [done|]. Z.div_mod_to_equations. lia.
Qed.

(** Linking the fresh page, whose header is in place, to the list. *)
Lemma link_page_spec s bl :
  heap_lay s bl -> header_present s (heap_end_virt s) = true ->
  pm_present (h_vm s) (heap_end_virt s) = true ->
  heap_end_virt s + 4096 + 4096 * Z.of_nat (pm_count (h_vm s)) <= HEAP_LIMIT ->
  h_blocks s !! heap_end_virt s = Some (mk_block 4072 1 0) ->
  exists h', (fuel <- mget list_fuel ;;
     last <- last_block fuel (heap_head s) ;;
     lb <- read_block last ;;
     if truthy (hb_free lb) && (u64 (last + sizeof_heap_block + hb_size lb) =? heap_end_virt s) then
       nb <- read_block (heap_end_virt s) ;;
       modify_block last (fun b => set_hb_size (u64 (hb_size b + (sizeof_heap_block + hb_size nb))) b)
     else modify_block last (set_hb_next (heap_end_virt s))) s = Ret tt (set_h_blocks h' s) /\
    heap_lay (set_heap_end (heap_end_virt s + 4096) (set_h_blocks h' s)) (grow bl).
Proof.
  intros Hr Hhdr Hpres Hlim Hnew.
  destruct (exists_last (hr_ne _ _ Hr)) as (pre & [sz fr] & ->).
  pose proof (inside _ _ _ _ _ Hr) as (Hsz & Hsz8 & Hlo & Hhi & H64).
  pose proof (hr_end _ _ Hr) as Hend. rewrite bend_app in Hend. simpl in Hend.
  pose proof (hr_ok _ _ Hr) as Hok. apply Forall_app in Hok as [Hpre _].
  pose proof START_pos. mstep. rewrite (hr_head _ _ Hr).
  pose proof (fuel_enough _ _ Hr) as Hfuel. rewrite length_app in Hfuel. simpl in Hfuel.
  rewrite (last_block_spec s HEAP_START_VIRT pre (sz, fr))
    by (apply Hr || lia || (rewrite (hr_end _ _ Hr); lia)).
  cbn [bindr]. rewrite (read_block_ok _ _ _ (header_inside _ _ _ _ _ Hr) (lookup_inside _ _ _ _ _ Hr)).
  cbn [bindr hb_free hb_size]. unfold sizeof_heap_block at 1. rewrite u64_small by (unfold two64 in *; lia).
  rewrite Hend, Z.eqb_refl, andb_true_r. unfold grow. rewrite last_snoc, removelast_last.
  assert (Hnl : heap_end_virt s <> bend HEAP_START_VIRT pre) by lia.
  assert (Hfin : forall h' mid', mid' <> [] -> Forall block_ok mid' ->
    bend (bend HEAP_START_VIRT pre) mid' = heap_end_virt s + 4096 ->
    (forall k, k < bend HEAP_START_VIRT pre -> h' !! k = h_blocks s !! k) ->
    rep h' (bend HEAP_START_VIRT pre) mid' 0 ->
    heap_lay (set_heap_end (heap_end_virt s + 4096) (set_h_blocks h' s)) (pre ++ mid')).
  { intros h' mid' Hm Hmok Hb Hk Hrep. split; simpl; try apply Hr.
    - apply (env_new_end (set_h_blocks h' s)); [apply env_blocks, Hr|done|done].
    - by destruct pre.
    - apply Forall_app. by split.
    - rewrite <- (app_nil_r mid').
      apply (rep_replace (h_blocks s) h' _ pre [(sz, fr)] mid' [] 0); try done.
      by rewrite app_nil_r; apply Hr.
    - by rewrite bend_app. }
  destruct fr; cbn [b2z truthy Z.eqb negb].
  - rewrite (read_block_ok _ _ _ Hhdr Hnew). cbn [bindr].
    rewrite (modify_block_ok _ _ _ _ (header_inside _ _ _ _ _ Hr) (lookup_inside _ _ _ _ _ Hr)).
    eexists. split; [reflexivity|]. unfold sizeof_heap_block. cbn.
    rewrite u64_small by (unfold two64, HEAP_LIMIT in *; lia). apply Hfin; try done.
    + apply Forall_cons_2; [|by apply Forall_nil_2]. split; simpl; Z.div_mod_to_equations; lia.
    + simpl. lia.
    + intros k Hk. by rewrite lookup_insert_ne by lia.
    + split; [|done]. rewrite lookup_insert_eq. unfold set_hb_size. cbn. by replace (sz + 4096) with (sz + (24 + 4072)) by lia.
  - rewrite (modify_block_ok _ _ _ _ (header_inside _ _ _ _ _ Hr) (lookup_inside _ _ _ _ _ Hr)).
    eexists. split; [reflexivity|]. rewrite <- app_assoc. apply Hfin; try done.
    + apply Forall_cons_2; [done|]. apply Forall_cons_2; [done|by apply Forall_nil_2].
    + simpl. lia.
    + intros k Hk. by rewrite lookup_insert_ne by lia.
    + cbn. rewrite lookup_insert_eq. split; [by rewrite Hend|].
      rewrite Hend, lookup_insert_ne by lia. by rewrite Hnew.
Qed.

Definition frames (s : heap) : Z := Z.of_nat (pm_count (h_vm s)).

Lemma heap_expand_spec s bl :
  heap_rep s bl ->
  (heap_expand_locked s = Ret 0 s /\ frames s = 0) \/
  (exists s', heap_expand_locked s = Ret 1 s' /\ heap_rep s' (grow bl) /\
     heap_lock s' = heap_lock s /\ frames s' < frames s <= frames s' + 4) \/
  (heap_expand_locked s = Fault /\ 0 < frames s <= 3).
Proof.
  intros [Hr Hc]. pose proof (hr_env _ _ Hr) as He. unfold heap_expand_locked, pmm_alloc, frames. mstep.
  destruct (pm_count (h_vm s)) as [|n] eqn:Hn.
  { left. rewrite (pm_alloc_none (h_vm s) (he_ok s He) Hn). cbn.
    replace (set_h_vm (h_vm s) s) with s by (by destruct s). done. }
  right. destruct (pm_alloc_some (h_vm s) n (he_ok s He) Hn)
    as (p & v1 & Ea & Hp0 & Hown & Hok1 & Hn1 & Hpres1). rewrite Ea. cbn [zoomr bindr].
  destruct (Z.eqb_spec p 0); [done|]. unfold map_page. mstep. cbn [h_vm set_h_vm heap_end_virt].
  pose proof (he_limit s He) as Hlim. pose proof (he_lo s He) as Hlo. rewrite Hn in Hlim.
  destruct (pm_map_spec v1 (heap_end_virt s) p 3 Hok1 Hown Hp0) as (v2 & Em & Hok2 & Hn2 & Hpres2 & Hm);
    [lia|]. rewrite Em. cbn [zoomr bindr].
  set (s1 := set_h_vm v2 (set_h_vm v1 s)).
  assert (He1 : heap_env s1).
  { apply (env_grow s v2); [done|done|lia|]. intros b Hb Hpb. apply Hpres2; [done|]. by rewrite Hpres1. }
  destruct (pm_present v2 (heap_end_virt s)) eqn:Hpe.
  2:{ right. destruct Hm as [|[Hm _]]; [done|]. split; [|lia].
      unfold write_block, header_present. cbn. by rewrite Hpe. }
  left. assert (Hhdr : header_present s1 (heap_end_virt s) = true).
  { unfold header_present. cbn. rewrite Hpe. cbn. rewrite <- Hpe. apply pm_present_page.
    pose proof (he_align s He). unfold sizeof_heap_block. Z.div_mod_to_equations. lia. }
  change (PAGE_SIZE - sizeof_heap_block) with 4072.
  rewrite (write_block_ok s1 _ _ Hhdr). cbn [bindr].
  set (h1 := <[_:=_]> (h_blocks s1)).
  assert (Hlay : heap_lay (set_h_blocks h1 s1) bl).
  { split; try apply Hr; [by apply env_blocks|]. apply (rep_frame (h_blocks s)); try apply Hr.
    intros k Hk. rewrite (hr_end _ _ Hr) in Hk. change (h1 !! k = h_blocks s !! k). unfold h1. rewrite lookup_insert_ne by lia. done. }
  destruct (link_page_spec (set_h_blocks h1 s1) bl) as (h2 & El & Hl2); try done.
  { cbn. lia. }
  { cbn. unfold h1. apply lookup_insert_eq. }
  change (heap_head (set_h_blocks h1 s1)) with (heap_head s) in *.
  change (heap_end_virt (set_h_blocks h1 s1)) with (heap_end_virt s) in *.
  destruct (Z.eqb_spec (heap_head s) 0) as [E0|_].
  { rewrite (hr_head _ _ Hr) in E0. done. }
  mstep in El. rewrite El. cbn [bindr]. eexists. split; [reflexivity|].
  cbn [heap_end_virt set_h_blocks s1 set_h_vm] in Hl2 |- *. unfold PAGE_SIZE.
  rewrite u64_small by (unfold two64, HEAP_LIMIT, HEAP_START_VIRT in *; lia).
  split; [split; [exact Hl2|by apply grow_coal]|]. split; [done|]. cbn. lia.
Qed.

(** ** The blocks in use

    [used a bl] lists the payload address and size of every allocated block. *)

Fixpoint used (a : Z) (bl : list blk) : list (Z * Z) :=
  match bl with
  | [] => []
  | (sz, fr) :: bl' =>
      if fr then used (a + 24 + sz) bl' else (a + 24, sz) :: used (a + 24 + sz) bl'
  end.

Lemma used_app a b1 b2 : used a (b1 ++ b2) = used a b1 ++ used (bend a b1) b2.
Proof.
  revert a. induction b1 as [|[sz []] b1 IH]; intros a; simpl; [done|apply IH|]. by rewrite IH.
Qed.

Lemma used_grow a bl : used a (grow bl) = used a bl.
Proof.
  unfold grow. destruct (last bl) as [[sz []]|] eqn:Hl.
  - apply last_Some in Hl as [pre ->]. by rewrite removelast_last, !used_app.
  - by rewrite used_app, app_nil_r.
  - by apply last_None in Hl as ->.
Qed.

Lemma merge_right_ext a sz post :
  used (a + 24 + (merge_right sz post).1) (merge_right sz post).2 = used (a + 24 + sz) post.
Proof.
  destruct post as [|[sz' []] post]; simpl; [done| |done]. f_equal. lia.
Qed.

Lemma merge_left_used a pre sz : used a (merge_left pre sz) = used a pre.
Proof.
  unfold merge_left. destruct (last pre) as [[szp []]|] eqn:Hl.
  - apply last_Some in Hl as [pre' ->]. by rewrite removelast_last, !used_app.
  - by rewrite used_app, app_nil_r.
  - by apply last_None in Hl as ->.
Qed.

Lemma merge_left_bend a pre sz : bend a (merge_left pre sz) = bend a pre + 24 + sz.
Proof.
  unfold merge_left. destruct (last pre) as [[szp []]|] eqn:Hl.
  - apply last_Some in Hl as [pre' ->]. rewrite removelast_last, !bend_app. simpl. lia.
  - by rewrite bend_app.
  - by apply last_None in Hl as ->.
Qed.

Lemma used_free a pre sz post :
  used a (pre ++ (sz, false) :: post) ≡ₚ (bend a pre + 24, sz) :: used a (free_block pre sz post).
Proof.
  unfold free_block. destruct (merge_right sz post) as [sz' post'] eqn:E.
  rewrite !used_app, merge_left_used, merge_left_bend. cbn [used].
  pose proof (merge_right_ext (bend a pre) sz post) as Hx. rewrite E in Hx. cbn [fst snd] in Hx.
  rewrite Hx. by rewrite Permutation_middle.
Qed.

Lemma used_find a bl p sz :
  (p, sz) ∈ used a bl ->
  exists pre post, bl = pre ++ (sz, false) :: post /\ p = bend a pre + 24.
Proof.
  revert a. induction bl as [|[z []] bl IH]; intros a Hin; simpl in Hin.
  - by apply not_elem_of_nil in Hin.
  - destruct (IH _ Hin) as (pre & post & -> & ->). by exists ((z, true) :: pre), post.
  - apply elem_of_cons in Hin as [[= -> ->]|Hin]; [by exists [], bl|].
    destruct (IH _ Hin) as (pre & post & -> & ->). by exists ((z, false) :: pre), post.
Qed.

Lemma first_fit_Some n bl pre :
  first_fit n bl = Some pre -> exists sz post, bl = pre ++ (sz, true) :: post /\ n <= sz.
Proof.
  revert pre. induction bl as [|[sz fr] bl IH]; intros pre; simpl; [done|].
  destruct fr; simpl; [destruct (Z.leb_spec n sz)|].
  - intros [= <-]. by exists sz, bl.
  - destruct (first_fit n bl) as [pre'|]; simpl; intros [= <-].
    destruct (IH pre' eq_refl) as (z & post & -> & ?). by exists z, post.
  - destruct (first_fit n bl) as [pre'|]; simpl; intros [= <-].
    destruct (IH pre' eq_refl) as (z & post & -> & ?). by exists z, post.
Qed.

(** Bytes of the free block that ends the heap, its header included. *)
Definition tail_room (bl : list blk) : Z :=
  match last bl with Some (sz, true) => sz + 24 | _ => 0 end.

Lemma tail_room_grow bl : tail_room (grow bl) = tail_room bl + 4096.
Proof.
  unfold grow, tail_room. destruct (last bl) as [[sz []]|]; rewrite ?last_snoc; lia.
Qed.

Lemma first_fit_None_app n b1 b2 :
  first_fit n (b1 ++ b2) = None -> first_fit n b2 = None.
Proof.
  induction b1 as [|b b1 IH]; simpl; [done|]. destruct (b.2 && (n <=? b.1)); [done|].
  destruct (first_fit n (b1 ++ b2)); [done|]. auto.
Qed.

Lemma first_fit_None_tail n bl : 0 <= n -> first_fit n bl = None -> tail_room bl < n + 24.
Proof.
  intros Hn Hf. unfold tail_room. destruct (last bl) as [[sz []]|] eqn:Hl; try lia.
  apply last_Some in Hl as [pre ->]. apply first_fit_None_app in Hf. simpl in Hf.
  destruct (Z.leb_spec n sz); [done|lia].
Qed.

(** ** [kmalloc] *)

(** The outcome of a request of [n] bytes on a heap with blocks [bl]: a
    block of at least [n] bytes that was not in use and joins the blocks in
    use, or, only when the frame pool is too small, a null pointer or a
    fault, the other blocks untouched. *)
Definition kmalloc_post (n : Z) (s : heap) (bl : list blk) (r : res heap Z) : Prop :=
  (exists p sz s' bl', r = Ret p s' /\ p <> 0 /\ heap_rep s' bl' /\ heap_lock s' = 0 /\
     n <= sz /\ used HEAP_START_VIRT bl' ≡ₚ (p, sz) :: used HEAP_START_VIRT bl /\
     frames s' <= frames s <= frames s' + 4 * ((Z.max 0 (n + 24 - tail_room bl) + 4095) / 4096)) \/
  (tail_room bl + 4096 * (frames s / 4) < n + 24 /\
   (r = Fault \/
    exists s' bl', r = Ret 0 s' /\ heap_rep s' bl' /\ heap_lock s' = 0 /\
      used HEAP_START_VIRT bl' = used HEAP_START_VIRT bl /\ frames s' = 0)).

Lemma kmalloc_loop_spec n fuel s bl :
  0 <= n -> n mod 8 = 0 -> heap_rep s bl -> frames s + 1 < Z.of_nat fuel ->
  kmalloc_post n s bl (kmalloc_loop fuel n s).
Proof.
  intros Hn Hn8. revert s bl. induction fuel as [|fuel IH]; intros s bl Hrep Hf.
  { unfold frames in Hf. lia. }
  destruct Hrep as [Hr Hc]. cbn [kmalloc_loop]. mstep. rewrite (hr_head _ _ Hr).
  pose proof (find_fit_spec s n bl HEAP_START_VIRT (list_fuel s) (hr_env _ _ Hr) (hr_ok _ _ Hr)
    (hr_rep _ _ Hr) ltac:(lia) (hr_end _ _ Hr) (fuel_enough _ _ Hr)) as Hff.
  replace (match bl with [] => 0 | _ => HEAP_START_VIRT end) with HEAP_START_VIRT in Hff
    by (pose proof (hr_ne _ _ Hr); by destruct bl). rewrite Hff. cbn [bindr].
  pose proof START_pos. destruct (first_fit n bl) as [pre|] eqn:Hfit.
  - left. destruct (first_fit_Some _ _ _ Hfit) as (sz & post & -> & Hsz).
    pose proof (inside _ _ _ _ _ Hr) as (_ & _ & Hlo & _).
    destruct (truthy (bend HEAP_START_VIRT pre)) eqn:Ht.
    2:{ unfold truthy in Ht. destruct (Z.eqb_spec (bend HEAP_START_VIRT pre) 0); [lia|done]. }
    destruct (take_block_spec s pre sz post n Hr) as (h' & -> & Hr'); [lia|done|]. cbn [bindr].
    exists (bend HEAP_START_VIRT pre + 24), (if n + 32 <=? sz then n else sz).
    eexists _, (pre ++ carve n sz ++ post). split; [reflexivity|]. split; [lia|].
    split; [split; [by apply (rep_lock 0) in Hr'|by apply carve_coal]|]. split; [done|].
    split; [destruct (n + 32 <=? sz); lia|]. split; [|cbn; unfold frames; cbn; Z.div_mod_to_equations; lia].
    rewrite !used_app, carve_bend. cbn [used]. unfold carve.
    destruct (n + 32 <=? sz); cbn [used app]; by rewrite Permutation_middle.
  - cbn. pose proof (first_fit_None_tail n bl Hn Hfit) as Htail.
    destruct (heap_expand_spec s bl) as [[-> Hz]|[(s' & -> & Hrep' & Hl' & Hfr)|[-> Hfr]]]; [by split|..].
    + right. rewrite Hz. split; [change (0 / 4) with 0; lia|]. right. cbn.
      exists (set_heap_lock 0 s), bl. split; [done|]. split; [split; [by apply rep_lock|done]|]. done.
    + cbn. destruct (IH s' (grow bl) Hrep') as [(p & sz & s2 & bl2 & E & H1 & H2 & H3 & H4 & H5 & H6)|[Hlt Hx]];
        [lia|left|right].
      * rewrite used_grow in H5. rewrite tail_room_grow in H6. exists p, sz, s2, bl2. split_and!; try done; [lia|]. Z.div_mod_to_equations. lia.
      * rewrite tail_room_grow in Hlt. split; [Z.div_mod_to_equations; lia|]. by rewrite used_grow in Hx.
    + right. cbn. split; [|by left]. Z.div_mod_to_equations. lia.
Qed.

Lemma align8_spec n : 0 <= n -> n + 7 < two64 ->
  n <= align8 n < n + 8 /\ align8 n mod 8 = 0.
Proof.
  intros H0 H1. unfold align8. rewrite u64_small by lia.
  change MASK7 with (Z.ones 64 - Z.ones 3).
  rewrite (land_clear_low (n + 7) 3 64) by (change (2 ^ 64) with two64; lia).
  change (2 ^ 3) with 8. Z.div_mod_to_equations. lia.
Qed.

Lemma kmalloc_init n s bl :
  0 <= n -> n + 7 < two64 -> heap_rep s bl -> heap_lock s = 0 ->
  kmalloc_post (align8 n) s bl (kmalloc n s).
Proof.
  intros Hn Hn7 [Hr Hc] Hlock. destruct (align8_spec n Hn Hn7) as [Ha Ha8].
  unfold kmalloc. mstep. rewrite Hlock. cbn [Z.eqb bindr].
  change (heap_initialized (set_heap_lock 1 s)) with (heap_initialized s). rewrite (hr_init _ _ Hr).
  cbn [Z.eqb bindr].
  apply (kmalloc_loop_spec (align8 n) _ (set_heap_lock 1 s) bl); [lia|done| |].
  - split; [by apply rep_lock|done].
  - unfold frames. cbn [h_vm set_heap_lock]. lia.
Qed.

(** *** The first request: [heap_init] *)

(** The heap before its first use, with frames for the initial pages and
    their tables. *)
Record heap_fresh (s : heap) : Prop := {
  hf_env : heap_env s;
  hf_init : heap_initialized s = 0;
  hf_end : heap_end_virt s = HEAP_START_VIRT;
  hf_frames : 64 <= frames s
}.

Lemma heap_init_pages_spec n i s :
  heap_env s -> heap_end_virt s = HEAP_START_VIRT + i * 4096 -> 0 <= i ->
  4 * Z.of_nat n <= frames s ->
  exists v', heap_init_pages n i s =
      Ret tt (set_heap_end (HEAP_START_VIRT + (i + Z.of_nat n) * 4096) (set_h_vm v' s)) /\
    heap_env (set_heap_end (HEAP_START_VIRT + (i + Z.of_nat n) * 4096) (set_h_vm v' s)) /\
    Z.of_nat (pm_count v') <= frames s <= Z.of_nat (pm_count v') + 4 * Z.of_nat n.
Proof.
  revert i s. induction n as [|n IH]; intros i s He Hend Hi Hf; cbn [heap_init_pages].
  - exists (h_vm s). replace (set_heap_end _ (set_h_vm (h_vm s) s)) with s.
    2:{ destruct s; simpl in *. subst. unfold set_heap_end. simpl. f_equal. lia. }
    split; [done|]. split; [done|]. unfold frames. lia.
  - unfold pmm_alloc, map_page. mstep. unfold frames in Hf.
    destruct (pm_count (h_vm s)) as [|c] eqn:Hc; [lia|].
    destruct (pm_alloc_some (h_vm s) c (he_ok s He) Hc)
      as (p & v1 & Ea & Hp0 & Hown & Hok1 & Hn1 & Hpres1). rewrite Ea. cbn [zoomr bindr].
    destruct (Z.eqb_spec p 0); [done|]. cbn [h_vm set_h_vm].
    pose proof (he_limit s He) as Hlim. rewrite Hc in Hlim. unfold PAGE_SIZE.
    destruct (pm_map_spec v1 (HEAP_START_VIRT + i * 4096) p 3 Hok1 Hown Hp0)
      as (v2 & Em & Hok2 & Hn2 & Hpres2 & Hm); [lia|]. rewrite Em. cbn [zoomr bindr].
    assert (Hpm : pm_present v2 (HEAP_START_VIRT + i * 4096) = true) by (destruct Hm as [|[? _]]; [done|lia]).
    assert (He2 : heap_env (set_heap_end (HEAP_START_VIRT + (i + 1) * 4096) (set_h_vm v2 s))).
    { replace (HEAP_START_VIRT + (i + 1) * 4096) with (heap_end_virt (set_h_vm v2 s) + 4096)
        by (cbn; lia). apply env_new_end.
      - apply env_grow; [done|done|lia|]. intros b Hb Hpb. apply Hpres2; [done|]. by rewrite Hpres1.
      - cbn. by rewrite Hend.
      - cbn. lia. }
    destruct (IH (i + 1) _ He2) as (v' & E & He' & Hfr); [done|lia|unfold frames; cbn; lia|].
    exists v'. replace (i + Z.of_nat (S n)) with (i + 1 + Z.of_nat n) by lia.
    split; [|split].
    + exact E.
    + exact He'.
    + unfold frames in *. cbn in Hfr. lia.
Qed.

Lemma heap_init_spec s :
  heap_fresh s ->
  exists s', heap_init s = Ret tt s' /\ heap_rep s' [(65512, true)] /\
    heap_lock s' = heap_lock s /\ frames s' <= frames s <= frames s' + 64.
Proof.
  intros [He Hi Hend Hf]. unfold heap_init, HEAP_INITIAL_PAGES. mstep.
  destruct (heap_init_pages_spec 16 0 s) as (v' & -> & He' & Hfr); [done|lia|lia|lia|].
  cbn [bindr]. change (HEAP_START_VIRT + (0 + Z.of_nat 16) * 4096) with (HEAP_START_VIRT + 65536) in *.
  set (s1 := set_heap_head HEAP_START_VIRT _).
  assert (He1 : heap_env s1) by (destruct He'; by split).
  rewrite write_block_ok by (apply header_ok; [exact He1|lia|cbn; lia]). cbn [bindr].
  eexists. split; [reflexivity|]. split; [|split; [done|]].
  - split; [|done]. split; try done.
    + destruct He1. by split.
    + apply Forall_cons_2; [done|by apply Forall_nil_2].
    + split; [|done]. cbn. by rewrite lookup_insert_eq.
  - unfold frames in *. cbn. lia.
Qed.

(** ** The contract of the heap *)

(** The blocks in use, in any order; a heap before its first use has none. *)
Definition heap_view (s : heap) (ls : list (Z * Z)) : Prop :=
  (exists bl, heap_rep s bl /\ used HEAP_START_VIRT bl ≡ₚ ls) \/ (heap_fresh s /\ ls = []).

(** The largest request that is sure to succeed. *)
Definition heap_room (s : heap) : Z := 4096 * (frames s / 4) - 24.

Lemma used_range a bl p sz :
  Forall block_ok bl -> (p, sz) ∈ used a bl -> a + 24 <= p /\ p + sz <= bend a bl /\ 0 <= sz.
Proof.
  intros Hok Hin. destruct (used_find _ _ _ _ Hin) as (pre & post & -> & ->).
  apply Forall_app in Hok as [Hp Hq]. apply Forall_cons in Hq as [[? _] Hq].
  pose proof (bend_ge a pre Hp). rewrite bend_app. simpl in *.
  pose proof (bend_ge (bend a pre + 24 + sz) post Hq). lia.
Qed.

Lemma used_apart a bl l1 p1 z1 l2 p2 z2 l3 :
  Forall block_ok bl -> used a bl = l1 ++ (p1, z1) :: l2 ++ (p2, z2) :: l3 -> p1 + z1 <= p2.
Proof.
  intros Hok. revert a l1. induction Hok as [|[sz fr] bl [Hsz _] Hok IH]; intros a l1 E; simpl in E.
  { destruct l1; done. }
  destruct fr; [by eapply IH|]. destruct l1 as [|x l1]; cbn [app] in E;
    [|injection E as _ E; by eapply IH].
  injection E as E1 E2 E3. subst p1 z1.
  assert (Hin : (p2, z2) ∈ used (a + 24 + sz) bl) by (rewrite E3; set_solver).
  apply used_range in Hin; [lia|done].
Qed.

Lemma used_disjoint a bl p1 z1 p2 z2 :
  Forall block_ok bl -> (p1, z1) ∈ used a bl -> (p2, z2) ∈ used a bl ->
  (p1, z1) = (p2, z2) \/ p1 + z1 <= p2 \/ p2 + z2 <= p1.
Proof.
  intros Hok H1 H2. apply list_elem_of_split in H1 as (l1 & l2 & E).
  rewrite E in H2. apply elem_of_app in H2 as [H2|H2].
  - apply list_elem_of_split in H2 as (k1 & k2 & ->). right. right.
    rewrite <- app_assoc in E. cbn [app] in E. by eapply used_apart.
  - apply elem_of_cons in H2 as [H2|H2]; [by left|].
    apply list_elem_of_split in H2 as (k1 & k2 & ->). right. left. by eapply used_apart.
Qed.

Lemma used_aligned a bl p sz :
  Forall block_ok bl -> a mod 8 = 0 -> (p, sz) ∈ used a bl -> p mod 8 = 0.
Proof.
  intros Hok. revert a. induction Hok as [|[z fr] bl [_ Hz] Hok IH]; intros a Ha Hin; simpl in *.
  { by apply not_elem_of_nil in Hin. }
  assert ((a + 24 + z) mod 8 = 0) by (Z.div_mod_to_equations; lia).
  destruct fr; [by eapply IH|]. apply elem_of_cons in Hin as [[= -> _]|Hin]; [|by eapply IH].
  Z.div_mod_to_equations. lia.
Qed.

Lemma kmalloc_fresh n s :
  0 <= n -> n + 7 < two64 -> heap_fresh s -> heap_lock s = 0 ->
  exists s1, frames s1 <= frames s <= frames s1 + 64 /\
    kmalloc_post (align8 n) s1 [(65512, true)] (kmalloc n s).
Proof.
  intros Hn Hn7 Hfr Hlock. destruct (align8_spec n Hn Hn7) as [Ha Ha8].
  unfold kmalloc. mstep. rewrite Hlock. cbn [Z.eqb bindr].
  change (heap_initialized (set_heap_lock 1 s)) with (heap_initialized s). rewrite (hf_init _ Hfr).
  cbn [Z.eqb bindr].
  assert (Hf1 : heap_fresh (set_heap_lock 1 s)) by (destruct Hfr; split; [by apply env_lock|done..]).
  destruct (heap_init_spec _ Hf1) as (s1 & -> & Hrep & Hl1 & Hf). cbn [bindr].
  exists s1. split; [exact Hf|]. apply kmalloc_loop_spec; [lia|done|done|]. unfold frames. lia.
Qed.

Lemma heap_view_wf s ls :
  heap_view s ls ->
  (forall p z, (p, z) ∈ ls -> p mod 8 = 0 /\ HEAP_START_VIRT <= p /\ p + z <= heap_end_virt s) /\
  (forall p1 z1 p2 z2, (p1, z1) ∈ ls -> (p2, z2) ∈ ls ->
     (p1, z1) = (p2, z2) \/ p1 + z1 <= p2 \/ p2 + z2 <= p1).
Proof.
  intros [(bl & [Hr _] & Hp)|[_ ->]].
  2:{ split; [intros p z Hin|intros p1 z1 p2 z2 Hin _]; by apply not_elem_of_nil in Hin. }
  pose proof (hr_ok _ _ Hr) as Hok. split.
  - intros p z Hin. rewrite <- Hp in Hin.
    pose proof (used_range _ _ _ _ Hok Hin). rewrite (hr_end _ _ Hr) in *.
    split; [|lia]. exact (used_aligned HEAP_START_VIRT bl p z Hok eq_refl Hin).
  - intros p1 z1 p2 z2. rewrite <- Hp. by apply used_disjoint.
Qed.

Lemma tail_room_nonneg s bl : heap_rep s bl -> 0 <= tail_room bl.
Proof.
  intros Hrep. unfold tail_room. destruct (last bl) as [[sz []]|] eqn:Hl; try lia.
  apply last_Some in Hl as [pre ->]. pose proof (hr_ok _ _ (proj1 Hrep)) as Hok.
  apply Forall_app in Hok as [_ Hok]. apply Forall_cons in Hok as [[? _] _]. simpl in *. lia.
Qed.

(** What [kmalloc] does, in terms of the blocks in use. *)
Lemma kmalloc_view n s ls :
  0 <= n -> n + 7 < two64 -> heap_view s ls -> heap_lock s = 0 ->
  (exists p sz s', kmalloc n s = Ret p s' /\ p <> 0 /\ heap_lock s' = 0 /\ n <= sz /\
     heap_view s' ((p, sz) :: ls) /\ NoDup (p :: ls.*1)) \/
  (heap_room s < align8 n + 65536 /\
   (kmalloc n s = Fault \/
    exists s', kmalloc n s = Ret 0 s' /\ heap_lock s' = 0 /\ heap_view s' ls /\ frames s' = 0)).
Proof.
  intros Hn Hn7 Hv Hlock. pose proof (align8_spec n Hn Hn7) as [Ha _].
  assert (Hgen : forall s1 bl, used HEAP_START_VIRT bl ≡ₚ ls -> frames s <= frames s1 + 64 ->
    0 <= tail_room bl -> kmalloc_post (align8 n) s1 bl (kmalloc n s) ->
    (exists p sz s', kmalloc n s = Ret p s' /\ p <> 0 /\ heap_lock s' = 0 /\ n <= sz /\
       heap_view s' ((p, sz) :: ls) /\ NoDup (p :: ls.*1)) \/
    (heap_room s < align8 n + 65536 /\
     (kmalloc n s = Fault \/
      exists s', kmalloc n s = Ret 0 s' /\ heap_lock s' = 0 /\ heap_view s' ls /\ frames s' = 0))).
  { intros s1 bl Hp Hf Ht [(p & sz & s' & bl' & E & Hp0 & Hrep & Hl & Hsz & Hu & _)|[Hlt Hx]].
    - left. exists p, sz, s'. rewrite Hp in Hu. split_and!; try done; [lia| |].
      + left. by exists bl'.
      + pose proof (hr_ok _ _ (proj1 Hrep)) as Hok.
        change (NoDup (((p, sz) :: ls).*1)). rewrite <- Hu. clear -Hok.
        revert Hok. generalize HEAP_START_VIRT. induction bl' as [|[z fr] bl IH]; intros a Hok; [constructor|].
        apply Forall_cons in Hok as [[Hz _] Hok]. simpl. destruct fr; [by apply IH|].
        rewrite fmap_cons. constructor; [|by apply IH]. intros ((q & y) & Hq & Hin)%list_elem_of_fmap.
        apply used_range in Hin; [|done]. simpl in *. lia.
    - right. split.
      + unfold heap_room. Z.div_mod_to_equations. lia.
      + destruct Hx as [->|(s' & bl' & E & Hrep & Hl & Hu & Hfr)]; [by left|right].
        exists s'. split_and!; try done. left. exists bl'. by rewrite Hu. }
  destruct Hv as [(bl & Hrep & Hp)|[Hfresh ->]].
  - eapply (Hgen s bl Hp); [lia|by apply (tail_room_nonneg s)|by apply kmalloc_init].
  - destruct (kmalloc_fresh n s Hn Hn7 Hfresh Hlock) as (s1 & Hf & Hpost).
    eapply (Hgen s1 [(65512, true)]); [done|lia|by unfold tail_room|done].
Qed.

(** The frames a request takes: a page and at most three tables for every
    4096 bytes, and the initial pages on the first request. *)
Lemma kmalloc_cost n s ls p s' :
  0 <= n -> n + 7 < two64 -> heap_view s ls -> heap_lock s = 0 -> kmalloc n s = Ret p s' -> p <> 0 ->
  frames s <= frames s' + 4 * ((n + 4127) / 4096) + (if decide (ls = []) then 64 else 0).
Proof.
  intros Hn Hn7 Hv Hlock E Hp. pose proof (align8_spec n Hn Hn7) as [Ha _].
  assert (Hgen : forall s1 bl, 0 <= tail_room bl -> kmalloc_post (align8 n) s1 bl (kmalloc n s) -> frames s1 <= frames s' + 4 * ((n + 4127) / 4096)).
  { intros s1 bl Ht [(p' & sz & s2 & bl' & E' & _ & _ & _ & _ & _ & Hc)|[_ [E'|(s2 & bl' & E' & _)]]]; rewrite E in E'; try discriminate E'.
    - injection E' as -> ->. Z.div_mod_to_equations. lia.
    - injection E' as -> ->. done. }
  destruct Hv as [(bl & Hrep & Hu)|[Hfresh ->]].
  - pose proof (Hgen s bl (tail_room_nonneg s bl Hrep) (kmalloc_init n s bl Hn Hn7 Hrep Hlock)). destruct (decide (ls = [])); lia.
  - destruct (kmalloc_fresh n s Hn Hn7 Hfresh Hlock) as (s1 & Hf & Hpost). rewrite decide_True by done.
    pose proof (Hgen s1 [(65512, true)] ltac:(done) Hpost). lia.
Qed.

Lemma kfree_view s ls ls' p sz :
  heap_view s ls -> heap_lock s = 0 -> ls ≡ₚ (p, sz) :: ls' ->
  exists s', kfree p s = Ret tt s' /\ heap_lock s' = 0 /\ heap_view s' ls' /\
    heap_end_virt s' = heap_end_virt s /\ h_vm s' = h_vm s.
Proof.
  intros [(bl & [Hr Hc] & Hp)|[_ ->]] Hlock Hperm.
  2:{ by apply Permutation_nil_cons in Hperm. }
  assert (Hin : (p, sz) ∈ used HEAP_START_VIRT bl) by (rewrite Hp, Hperm; left).
  destruct (used_find _ _ _ _ Hin) as (pre & post & -> & ->).
  destruct (kfree_lay s pre sz post Hr Hlock) as (h' & E & Hr').
  eexists. split; [exact E|]. split; [done|]. split; [|done]. left.
  exists (free_block pre sz post). split; [split; [done|by apply free_block_coal]|].
  rewrite used_free, Hperm in Hp. by apply Permutation_cons_inv in Hp.
Qed.

(** ** Properties *)

(** C4: a request to [kmalloc] in any reachable heap state, the first call
    included.  Either it returns an 8-aligned block of at least the requested
    size that lies inside the heap and overlaps no block in use, and exactly
    this block joins the blocks in use; or the frame pool is too small for
    the request ([heap_room]), and then it returns a null pointer with the
    heap unchanged or faults on a page the page-table code could not map.
    The lock is released, and the retry loop ends within its fuel. *)
Theorem kmalloc_correct (n : Z) (s : heap) (ls : list (Z * Z))
    (Hn : 0 <= n) (Hn7 : n + 7 < two64) (Hv : heap_view s ls) (Hlock : heap_lock s = 0) :
  (exists p sz s', kmalloc n s = Ret p s' /\ heap_lock s' = 0 /\ n <= sz /\ p mod 8 = 0 /\
     HEAP_START_VIRT < p /\ p + sz <= heap_end_virt s' /\
     (forall q z, (q, z) ∈ ls -> q + z <= p \/ p + sz <= q) /\
     heap_view s' ((p, sz) :: ls)) \/
  (heap_room s < align8 n + 65536 /\
   (kmalloc n s = Fault \/
    exists s', kmalloc n s = Ret 0 s' /\ heap_lock s' = 0 /\ heap_view s' ls)).
Proof.
  destruct (kmalloc_view n s ls Hn Hn7 Hv Hlock) as
    [(p & sz & s' & E & Hp0 & Hl & Hsz & Hv' & Hnd)|[Hroom [E|(s' & E & Hl & Hv' & _)]]].
  - left. destruct (heap_view_wf _ _ Hv') as [Hwf Hdis].
    destruct (Hwf p sz) as (H8 & Hlo & Hhi); [by left|].
    exists p, sz, s'. split_and!; try done.
    + destruct Hv' as [(bl & [Hr _] & Hu)|[_ Hx]]; [|done].
      assert (Hin : (p, sz) ∈ used HEAP_START_VIRT bl) by (rewrite Hu; left).
      apply used_range in Hin; [lia|apply Hr].
    + intros q z Hq. destruct (Hdis q z p sz) as [Heq|?]; [by right|by left| |done].
      injection Heq as -> ->. apply NoDup_cons in Hnd as [Hnd _]. destruct Hnd.
      apply list_elem_of_fmap. by exists (p, sz).
  - right. split; [done|by left].
  - right. split; [done|]. right. by exists s'.
Qed.

(** C22: [kfree] of a block in use returns with the lock released, removes
    exactly that block from the blocks in use, merges it with free neighbours
    (no two neighbouring free blocks remain) and changes neither the extent
    of the heap nor the page tables; so the same memory can be allocated
    again. *)
Theorem kfree_correct (s : heap) (bl : list blk) (ls : list (Z * Z)) (p sz : Z)
    (Hrep : heap_rep s bl) (Hlock : heap_lock s = 0)
    (Huse : used HEAP_START_VIRT bl ≡ₚ (p, sz) :: ls) :
  exists s' bl', kfree p s = Ret tt s' /\ heap_lock s' = 0 /\ heap_rep s' bl' /\ coalesced bl' /\
    used HEAP_START_VIRT bl' ≡ₚ ls /\
    heap_end_virt s' = heap_end_virt s /\ h_vm s' = h_vm s.
Proof.
  destruct Hrep as [Hr Hc].
  assert (Hin : (p, sz) ∈ used HEAP_START_VIRT bl) by (rewrite Huse; left).
  destruct (used_find _ _ _ _ Hin) as (pre & post & -> & ->).
  destruct (kfree_lay s pre sz post Hr Hlock) as (h' & E & Hr').
  pose proof (free_block_coal _ _ _ Hc) as Hc'.
  eexists _, (free_block pre sz post). split; [exact E|]. split; [done|]. split; [by split|].
  split; [done|]. split; [|done]. rewrite used_free in Huse. by apply Permutation_cons_inv in Huse.
Qed.
End HeapFacts.
