(* ===== verification/HeapKeeps.v ===== *)
(** * What the heap does to the memory below it

    The allocator reaches page frames and page tables only through
    [pm_alloc] and, with a frame it was given and an address of the heap
    region, [pm_map].  So any preorder on the memory state that both
    operations follow relates the states before and after [kmalloc]; proc.c
    uses this for the frames of user address spaces. *)

From stdpp Require Import base gmap list fin_maps.
From Stdlib Require Import ZArith Lia.
From S2P Require Import Prelude Heap HeapFacts.

Section HeapKeeps.
Context {V : Type} `{PageMapper V}.
Context (R : V -> V -> Prop) `{!PreOrder R}.
Hypothesis R_alloc : forall v p v', pm_ok v -> pm_alloc v = Ret p v' -> R v v'.
Hypothesis R_map : forall v a p flags v', pm_ok v -> pm_owned p -> p <> 0 -> HEAP_START_VIRT <= a < HEAP_LIMIT ->
  pm_map a p flags v = Ret tt v' -> R v v'.
#[local] Abbreviation heap := (@heap_t V).

(** The part of the heap invariant that bounds the addresses it maps. *)
Definition env (s : heap) : Prop :=
  pm_ok (h_vm s) /\ HEAP_START_VIRT <= heap_end_virt s /\
  heap_end_virt s + 4096 * Z.of_nat (pm_count (h_vm s)) <= HEAP_LIMIT.

(** How far the heap can grow with the frames there are. *)
Definition reach (s : heap) : Z := heap_end_virt s + 4096 * Z.of_nat (pm_count (h_vm s)).

Definition keeps {A} (m : M heap A) : Prop :=
  forall s a s', m s = Ret a s' -> env s -> env s' /\ R (h_vm s) (h_vm s') /\ reach s' <= reach s.

(** Operations that do not touch the memory below. *)
Definition quiet {A} (m : M heap A) : Prop :=
  forall s a s', m s = Ret a s' -> h_vm s' = h_vm s /\ heap_end_virt s' = heap_end_virt s.

Lemma quiet_keeps {A} (m : M heap A) : quiet m -> keeps m.
Proof. intros Hq s a s' E He. destruct (Hq s a s' E) as [Ev Ee]. unfold env, reach. rewrite Ev, Ee. split; [done|]. split; [done|lia]. Qed.

Lemma quiet_bind {A B} (m : M heap A) (f : A -> M heap B) : quiet m -> (forall a, quiet (f a)) -> quiet (mbind m f).
Proof.
  intros Hm Hf s b s' E. unfold mbind in E. apply bindr_Ret_inv in E as (a & s1 & E1 & E2).
  destruct (Hm _ _ _ E1) as [<- <-]. exact (Hf a _ _ _ E2).
Qed.

Lemma keeps_bind {A B} (m : M heap A) (f : A -> M heap B) : keeps m -> (forall a, keeps (f a)) -> keeps (mbind m f).
Proof.
  intros Hm Hf s b s' E He. unfold mbind in E. apply bindr_Ret_inv in E as (a & s1 & E1 & E2).
  destruct (Hm _ _ _ E1 He) as (He1 & R1 & L1). destruct (Hf a _ _ _ E2 He1) as (He2 & R2 & L2).
  split; [done|]. split; [by etransitivity|lia].
Qed.

Lemma quiet_ret {A} (a : A) : quiet (mret a).
Proof. intros s b s' [= _ <-]. done. Qed.

Lemma quiet_get {A} (f : heap -> A) : quiet (mget f).
Proof. intros s b s' [= _ <-]. done. Qed.

Lemma quiet_set (f : heap -> heap) : (forall s, h_vm (f s) = h_vm s /\ heap_end_virt (f s) = heap_end_virt s) -> quiet (mset f).
Proof. intros Hf s b s' [= _ <-]. apply Hf. Qed.

Lemma quiet_read a : quiet (read_block a).
Proof. intros s b s'. unfold read_block. destruct (header_present s a); [|done]. destruct (h_blocks s !! a); [|done]. by intros [= _ <-]. Qed.

Lemma quiet_write a b : quiet (write_block a b).
Proof. intros s x s'. unfold write_block. destruct (header_present s a); [|done]. by intros [= _ <-]. Qed.

Lemma quiet_lock : quiet (spin_lock heap_lock set_heap_lock).
Proof. intros s x s'. unfold spin_lock. destruct (heap_lock s =? 0); [|done]. by intros [= _ <-]. Qed.

Lemma quiet_unlock : quiet (spin_unlock set_heap_lock).
Proof. intros s x s'. by intros [= _ <-]. Qed.

Hint Resolve quiet_ret quiet_get quiet_read quiet_write quiet_lock quiet_unlock : orchid.

(** Goes through the code of a quiet operation. *)
Ltac quiet :=
  repeat first
    [ progress (auto with orchid)
    | apply quiet_bind; intros
    | apply quiet_set; done
    | match goal with |- quiet (if ?b then _ else _) => destruct b end ].

Lemma quiet_modify a f : quiet (modify_block a f).
Proof. unfold modify_block. quiet. Qed.
Hint Resolve quiet_modify : orchid.

Lemma quiet_last fuel : forall a, quiet (last_block fuel a).
Proof. induction fuel as [|fuel IH]; intros a; [done|]. cbn [last_block]. quiet. Qed.

Lemma quiet_find fuel : forall a n, quiet (find_fit fuel a n).
Proof. induction fuel as [|fuel IH]; intros a n; [done|]. cbn [find_fit]. quiet. Qed.

Lemma quiet_take a n : quiet (take_block a n).
Proof. unfold take_block. cbv zeta. quiet. Qed.

Lemma quiet_prev fuel : forall b p c, quiet (find_prev fuel b p c).
Proof. induction fuel as [|fuel IH]; intros b p c; [done|]. cbn [find_prev]. quiet. Qed.
Hint Resolve quiet_last quiet_find quiet_take quiet_prev : orchid.

(** [kfree] leaves the memory below alone. *)
Lemma kfree_quiet p : quiet (kfree p).
Proof. unfold kfree, merge_next, merge_prev. cbv zeta. quiet. Qed.

Lemma limit_lt : HEAP_LIMIT < two64.
Proof. done. Qed.

(** A new frame and its mapping at the end of the heap. *)
Lemma alloc_env s p s' : pmm_alloc s = Ret p s' -> env s -> env s' /\ R (h_vm s) (h_vm s') /\ heap_end_virt s' = heap_end_virt s /\
  (pm_count (h_vm s') <= pm_count (h_vm s))%nat /\
  (p <> 0 -> pm_owned p /\ heap_end_virt s + 4096 + 4096 * Z.of_nat (pm_count (h_vm s')) <= HEAP_LIMIT /\
     Z.of_nat (pm_count (h_vm s)) = Z.of_nat (pm_count (h_vm s')) + 1).
Proof.
  intros E (Hok & Hlo & Hhi). unfold pmm_alloc, zoom in E. destruct (pm_count (h_vm s)) as [|n] eqn:Hn.
  - pose proof (pm_alloc_none _ Hok Hn) as Ea. rewrite Ea in E. injection E as <- <-. unfold env. cbn. rewrite Hn.
    split; [done|]. split; [by eapply R_alloc|]. split; [done|]. split; [lia|done].
  - destruct (pm_alloc_some _ n Hok Hn) as (q & v' & Ea & Hq & Ho & Hok' & Hn' & _). pose proof Ea as Er. rewrite Ea in E. injection E as <- <-.
    unfold env. cbn. rewrite Hn'. split; [split; [done|lia]|]. split; [by eapply R_alloc|]. split; [done|]. split; [lia|]. intros _. split; [done|lia].
Qed.

Lemma map_env s a p s' : map_page a p s = Ret tt s' -> env s -> pm_owned p -> p <> 0 -> HEAP_START_VIRT <= a < HEAP_LIMIT ->
  env s' /\ R (h_vm s) (h_vm s') /\ heap_end_virt s' = heap_end_virt s /\ (pm_count (h_vm s') <= pm_count (h_vm s))%nat.
Proof.
  intros E (Hok & Hlo & Hhi) Ho Hp Ha. destruct (pm_map_spec (h_vm s) a p 3 Hok Ho Hp Ha) as (v' & Em & Hok' & Hn & _).
  unfold map_page, zoom in E. pose proof Em as Er. rewrite Em in E. injection E as <-. unfold env. cbn.
  split; [split; [done|lia]|]. split; [by eapply R_map|]. split; [done|lia].
Qed.

Lemma keeps_expand : keeps heap_expand_locked.
Proof.
  intros s r s' E He. unfold heap_expand_locked in E. unfold mbind at 1 in E. apply bindr_Ret_inv in E as (p & s1 & E1 & E).
  destruct (alloc_env s p s1 E1 He) as (He1 & R1 & Ee1 & Hcl & Hp). destruct (Z.eqb_spec p 0) as [->|Hnz]; [injection E as _ <-; split; [done|]; split; [done|unfold reach; lia]|].
  destruct (Hp Hnz) as (Ho & Hlim & Hcnt). unfold mbind at 1 in E. cbn [mget bindr] in E. unfold mbind at 1 in E.
  apply bindr_Ret_inv in E as ([] & s2 & E2 & E). pose proof He1 as (Hok1 & Hlo1 & Hhi1).
  destruct (map_env s1 _ p s2 E2 He1 Ho Hnz) as (He2 & R2 & Ee2 & Hc2); [lia|].
  unfold mbind at 1 in E. apply bindr_Ret_inv in E as ([] & s3 & E3 & E). destruct (quiet_write _ _ _ _ _ E3) as [V3 N3].
  unfold mbind at 1 in E. cbn [mget bindr] in E. unfold mbind at 1 in E. apply bindr_Ret_inv in E as ([] & s4 & E4 & E).
  assert (Hq : h_vm s4 = h_vm s3 /\ heap_end_virt s4 = heap_end_virt s3).
  { eapply (quiet_bind (mret tt) (fun _ => _)); [apply quiet_ret| |exact E4]. intros _. quiet. }
  destruct Hq as [V4 N4]. injection E as _ <-. unfold env. cbn [h_vm heap_end_virt set_heap_end]. rewrite V4, V3, N4, N3, Ee2, Ee1 in *.
  pose proof limit_lt. pose proof START_pos. change PAGE_SIZE with 4096. destruct He2 as (Hok2 & _ & _).
  rewrite u64_small by lia. split; [split; [done|lia]|]. split; [by etransitivity|]. unfold reach. cbn [h_vm heap_end_virt set_heap_end]. rewrite V4. lia.
Qed.

Lemma keeps_init_pages n B : B <= HEAP_LIMIT -> forall i s s', heap_init_pages n i s = Ret tt s' -> env s -> 0 <= i ->
  HEAP_START_VIRT + i * 4096 + 4096 * Z.of_nat (pm_count (h_vm s)) <= B -> reach s <= B ->
  env s' /\ R (h_vm s) (h_vm s') /\ reach s' <= B.
Proof.
  intros HB. induction n as [|n IH]; intros i s s' E He Hi Hl Hr; cbn [heap_init_pages] in E; [by injection E as <-|].
  unfold mbind at 1 in E. apply bindr_Ret_inv in E as (p & s1 & E1 & E). destruct (alloc_env s p s1 E1 He) as (He1 & R1 & Ee1 & Hcl & Hp).
  destruct (Z.eqb_spec p 0) as [->|Hnz]; [injection E as <-; split; [done|]; split; [done|unfold reach in *; lia]|]. destruct (Hp Hnz) as (Ho & Hlim & Hcnt).
  unfold mbind at 1 in E. apply bindr_Ret_inv in E as ([] & s2 & E2 & E). change PAGE_SIZE with 4096 in *.
  destruct (map_env s1 _ p s2 E2 He1 Ho Hnz) as (He2 & R2 & Ee2 & Hc2); [lia|].
  unfold mbind at 1 in E. cbn [mset bindr] in E. destruct (IH _ _ _ E) as (He' & R' & L'); cbn [h_vm set_heap_end]; [|lia|lia|unfold reach; cbn [h_vm heap_end_virt set_heap_end]; lia|].
  - destruct He2 as (Hok2 & Hlo2 & Hhi2). split; [done|]. cbn [h_vm heap_end_virt set_heap_end]. lia.
  - split; [done|]. split; [|done]. etransitivity; [exact R1|]. by etransitivity.
Qed.

Lemma keeps_init : keeps heap_init.
Proof.
  intros s r s' E He. unfold heap_init in E. unfold mbind at 1 in E. apply bindr_Ret_inv in E as ([] & s1 & E1 & E).
  pose proof He as (Hok & Hlo & Hhi). destruct (keeps_init_pages _ (reach s) Hhi _ _ _ E1 He ltac:(lia) ltac:(unfold reach; lia) ltac:(lia)) as (He1 & R1 & L1).
  assert (Hq : keeps (mset (set_heap_head HEAP_START_VIRT) ;;; e <- mget heap_end_virt ;;
    write_block HEAP_START_VIRT (mk_block (u64 (e - HEAP_START_VIRT - sizeof_heap_block)) 1 0) ;;; mset (set_heap_initialized 1)))
    by (apply quiet_keeps; quiet).
  destruct (Hq _ _ _ E He1) as (He2 & R2 & L2). split; [done|]. split; [by etransitivity|lia].
Qed.

Lemma keeps_loop fuel n : keeps (kmalloc_loop fuel n).
Proof.
  induction fuel as [|fuel IH]; [done|]. cbn [kmalloc_loop].
  apply keeps_bind; [apply quiet_keeps; quiet|intros head]. apply keeps_bind; [apply quiet_keeps; quiet|intros lf].
  apply keeps_bind; [apply quiet_keeps; quiet|intros curr]. destruct (truthy curr); [apply quiet_keeps; quiet|].
  apply keeps_bind; [apply keeps_expand|intros ok]. destruct (ok =? 0); [apply quiet_keeps; quiet|exact IH].
Qed.

(** [kmalloc] follows the preorder. *)
Lemma kmalloc_keeps n : keeps (kmalloc n).
Proof.
  unfold kmalloc. apply keeps_bind; [apply quiet_keeps; quiet|intros _]. apply keeps_bind; [apply quiet_keeps; quiet|intros init].
  apply keeps_bind; [destruct (init =? 0); [apply keeps_init|apply quiet_keeps; quiet]|intros _].
  apply keeps_bind; [apply quiet_keeps; quiet|intros frames]. apply keeps_loop.
Qed.

(** A heap with a view has the bounds. *)
Lemma view_env (s : heap) ls : heap_view s ls -> env s.
Proof.
  intros [(bl & [Hr _] & _)|[Hf _]]; [destruct (hr_env _ _ Hr)|destruct (hf_env _ Hf)]; by split.
Qed.

Lemma kmalloc_view_keeps n (s : heap) ls p s' : heap_view s ls -> kmalloc n s = Ret p s' ->
  R (h_vm s) (h_vm s') /\ reach s' <= reach s.
Proof. intros Hv E. exact (proj2 (kmalloc_keeps n s p s' E (view_env s ls Hv))). Qed.

Lemma kfree_vm (s : heap) p s' : kfree p s = Ret tt s' -> h_vm s' = h_vm s /\ reach s' = reach s.
Proof. intros E. destruct (kfree_quiet p s tt s' E) as [Ev Ee]. unfold reach. by rewrite Ev, Ee. Qed.
End HeapKeeps.
