(* ===== verification/KernelMem.v ===== *)
(** * Joining the memory components

    vmm.c provides what the heap needs ([Vmm_PageMapper]), and the heap
    provides what the rest of the kernel needs ([KHeap], [Heap_KHeap]). *)

From stdpp Require Import base gmap list fin_maps.
From Stdlib Require Import ZArith Lia.
From S2P Require Import Prelude Mem Pmm Vmm PageTables Heap HeapFacts.

(** ** What the kernel heap promises to its clients

    [kh_view s ls]: the heap is well formed, its lock is free, and [ls] are
    the address and size of the blocks in use.  [kh_scarce s n]: the frame
    pool may be too small for a request of [n] bytes. *)
Class KHeap (H : Type) : Type := {
  kh_malloc : Z -> M H Z;
  kh_free : Z -> M H unit;
  kh_view : H -> list (Z * Z) -> Prop;
  kh_scarce : H -> Z -> Prop;
  kh_view_perm : forall s ls ls', kh_view s ls -> ls ≡ₚ ls' -> kh_view s ls';
  kh_view_nonzero : forall s ls p z, kh_view s ls -> (p, z) ∈ ls -> 0 < p;
  kh_view_apart : forall s ls p1 z1 p2 z2, kh_view s ls -> (p1, z1) ∈ ls -> (p2, z2) ∈ ls ->
    (p1, z1) = (p2, z2) \/ p1 + z1 <= p2 \/ p2 + z2 <= p1;
  kh_malloc_spec : forall n s ls, 0 <= n < two32 -> kh_view s ls ->
    (exists p sz s', kh_malloc n s = Ret p s' /\ p <> 0 /\ n <= sz /\ (p ∉ ls.*1) /\
       kh_view s' ((p, sz) :: ls)) \/
    (kh_scarce s n /\
     (kh_malloc n s = Fault \/ exists s', kh_malloc n s = Ret 0 s' /\ kh_view s' ls));
  kh_free_spec : forall s ls p sz, kh_view s ((p, sz) :: ls) ->
    exists s', kh_free p s = Ret tt s' /\ kh_view s' ls
}.

(** ** The page tables serve the heap *)

Section Mapper.
Context {P : Type} `{FrameAllocator P}.
Context (hhdm_offset : Z) (hhdm_nonneg : 0 <= hhdm_offset).

(** The PML4 slot of the heap region. *)
Definition heap_slot (i : Z) : Prop := i = 480.

Lemma heap_region_slot a : HEAP_START_VIRT <= a < HEAP_LIMIT -> heap_slot (PML4_INDEX a).
Proof.
  intros Ha. unfold heap_slot, PML4_INDEX. change 0x1FF with 511. rewrite land_511, Z.shiftr_div_pow2 by lia.
  replace (a / 2 ^ 39) with 33554400; [done|]. unfold HEAP_START_VIRT, HEAP_LIMIT in Ha.
  change (2 ^ 39) with 549755813888. Z.div_mod_to_equations. lia.
Qed.

Definition vm_present (v : @vm_t P) (a : Z) : bool :=
  present (leaf hhdm_offset (vm_mem v) (vm_pml4 v) a).

Definition vm_ready (v : @vm_t P) : Prop :=
  vm_wf hhdm_offset heap_slot (vm_pml4 v) v /\ vmm_lock v = 0.

Lemma vm_present_page (v : vm_t) a b : a / 4096 = b / 4096 -> vm_present v a = vm_present v b.
Proof. intros E. unfold vm_present. f_equal. apply leaf_vpn. unfold vpn. by rewrite E. Qed.

Lemma vm_alloc_none (v : vm_t) :
  vm_ready v -> length (fa_pages (vm_pmm v)) = 0%nat -> alloc_frame v = Ret 0 v.
Proof.
  intros [Hwf _] Hn%nil_length_inv. unfold alloc_frame, zoom.
  rewrite (fa_alloc_nil _ (vwf_pmm _ _ _ _ Hwf) Hn). by destruct v.
Qed.

Lemma vm_alloc_some (v : vm_t) n :
  vm_ready v -> length (fa_pages (vm_pmm v)) = S n ->
  exists p v', alloc_frame v = Ret p v' /\ p <> 0 /\ frame hhdm_offset p /\ vm_ready v' /\
    length (fa_pages (vm_pmm v')) = n /\ forall a, vm_present v' a = vm_present v a.
Proof.
  intros [[Hok Hpt] Hlock] Hn. destruct (fa_pages (vm_pmm v)) as [|p ps] eqn:Hp; [done|].
  destruct (fa_alloc_cons _ p ps Hok Hp) as (pm' & Ea & Hok' & Hp').
  destruct (wf_head _ _ _ _ _ _ Hpt) as (Hf & H0 & _).
  exists p, (set_vm_pmm pm' v). unfold alloc_frame, zoom. rewrite Ea.
  split; [done|]. split; [done|]. split; [done|]. split; [|split; [|done]].
  - split; [|done]. split; [done|]. cbn. rewrite Hp'. destruct Hpt as [Hr Ht Hi Hfr Hnd]. split.
    + done.
    + intros path t Hpath Hw. destruct (Ht path t Hpath Hw) as [? Hn']. split; [done|].
      by apply not_elem_of_cons in Hn' as [_ ?].
    + done.
    + by apply Forall_cons in Hfr as [_ ?].
    + by apply NoDup_cons in Hnd as [_ ?].
  - cbn. rewrite Hp'. simpl in Hn. lia.
Qed.

Lemma vm_map_ok (v : vm_t) a p flags :
  vm_ready v -> frame hhdm_offset p -> p <> 0 -> HEAP_START_VIRT <= a < HEAP_LIMIT ->
  exists v', vmm_map hhdm_offset a p flags v = Ret tt v' /\ vm_ready v' /\
    (length (fa_pages (vm_pmm v')) <= length (fa_pages (vm_pmm v)) <= 3 + length (fa_pages (vm_pmm v')))%nat /\
    (forall b, HEAP_START_VIRT <= b < HEAP_LIMIT -> vm_present v b = true -> vm_present v' b = true) /\
    (vm_present v' a = true \/
     (length (fa_pages (vm_pmm v)) <= 2)%nat /\ length (fa_pages (vm_pmm v')) = 0%nat).
Proof.
  intros [Hwf Hlock] Hf H0 Ha. pose proof (frame_nonneg _ _ Hf) as Hp.
  destruct (vmm_map_effect hhdm_offset hhdm_nonneg heap_slot v a p flags) as (v' & E & X);
    [done|done|by apply heap_region_slot|lia|].
  exists v'. split; [done|]. pose proof (me_root _ _ _ _ _ _ _ X) as Hroot.
  assert (Hnew : present (make_entry p (Z.lor flags VMM_PRESENT)) = true)
    by (rewrite present_make by lia; apply odd_lor_present).
  split; [split; [rewrite Hroot; apply X|apply X]|]. split; [|split].
  - destruct (me_used _ _ _ _ _ _ _ X) as (u & Eu & Hu). rewrite Eu, length_app. lia.
  - intros b Hb. unfold vm_present. rewrite Hroot.
    destruct (me_leaf _ _ _ _ _ _ _ X) as [Hl|(_ & _ & Hl & _)];
      rewrite (Hl b) by (by apply heap_region_slot); [|done].
    by destruct (vpn b =? vpn a).
  - unfold vm_present. rewrite Hroot.
    destruct (me_leaf _ _ _ _ _ _ _ X) as [Hl|(Hn & Hnil & _)]; [left|right].
    + rewrite (Hl a) by (by apply heap_region_slot). by rewrite Z.eqb_refl.
    + split; [done|]. by rewrite Hnil.
Qed.

(** vmm.c (with pmm.c or any frame allocator below it) is a page mapper. *)
Definition Vmm_PageMapper : PageMapper (@vm_t P) := {|
  pm_alloc := alloc_frame;
  pm_map := vmm_map hhdm_offset;
  pm_present := vm_present;
  pm_count := fun v => length (fa_pages (vm_pmm v));
  pm_ok := vm_ready;
  pm_owned := frame hhdm_offset;
  pm_present_page := vm_present_page;
  pm_alloc_none := vm_alloc_none;
  pm_alloc_some := vm_alloc_some;
  pm_map_spec := vm_map_ok
|}.

End Mapper.

(** ** The heap serves the kernel *)

Section Client.
Context {V : Type} `{PageMapper V}.

Definition heap_client_view (s : @heap_t V) (ls : list (Z * Z)) : Prop :=
  heap_view s ls /\ heap_lock s = 0.

Lemma client_view_perm (s : heap_t) ls ls' :
  heap_client_view s ls -> ls ≡ₚ ls' -> heap_client_view s ls'.
Proof.
  intros [[(bl & Hr & Hp)|[Hf ->]] Hl] Hperm; (split; [|done]).
  - left. exists bl. split; [done|]. by rewrite Hp.
  - right. split; [done|]. symmetry. by apply Permutation_nil_l.
Qed.

Lemma client_view_nonzero (s : heap_t) ls p z : heap_client_view s ls -> (p, z) ∈ ls -> 0 < p.
Proof.
  intros [Hv _] Hin. destruct (heap_view_wf _ _ Hv) as [Hwf _].
  destruct (Hwf p z Hin) as (_ & Hlo & _). pose proof START_pos. lia.
Qed.

Lemma client_view_apart (s : heap_t) ls p1 z1 p2 z2 :
  heap_client_view s ls -> (p1, z1) ∈ ls -> (p2, z2) ∈ ls ->
  (p1, z1) = (p2, z2) \/ p1 + z1 <= p2 \/ p2 + z2 <= p1.
Proof. intros [Hv _]. apply (heap_view_wf _ _ Hv). Qed.

Lemma client_malloc (n : Z) (s : heap_t) ls :
  0 <= n < two32 -> heap_client_view s ls ->
  (exists p sz s', kmalloc n s = Ret p s' /\ p <> 0 /\ n <= sz /\ (p ∉ ls.*1) /\
     heap_client_view s' ((p, sz) :: ls)) \/
  (heap_room s < align8 n + 65536 /\
   (kmalloc n s = Fault \/ exists s', kmalloc n s = Ret 0 s' /\ heap_client_view s' ls)).
Proof.
  intros Hn [Hv Hl]. destruct (kmalloc_view n s ls) as
    [(p & sz & s' & E & Hp & Hl' & Hsz & Hv' & Hnd)|[Hr [E|(s' & E & Hl' & Hv' & _)]]]; try done;
    try (unfold two32, two64 in *; lia).
  - left. exists p, sz, s'. apply NoDup_cons in Hnd as [? _]. by split_and!.
  - right. split; [done|by left].
  - right. split; [done|right]. by exists s'.
Qed.

Lemma client_free (s : heap_t) ls p sz :
  heap_client_view s ((p, sz) :: ls) ->
  exists s', kfree p s = Ret tt s' /\ heap_client_view s' ls.
Proof.
  intros [Hv Hl]. destruct (kfree_view s _ ls p sz Hv Hl) as (s' & E & Hl' & Hv' & _); [done|].
  by exists s'.
Qed.

#[export] Instance Heap_KHeap : KHeap (@heap_t V) := {|
  kh_malloc := kmalloc;
  kh_free := kfree;
  kh_view := heap_client_view;
  kh_scarce := fun s n => heap_room s < align8 n + 65536;
  kh_view_perm := client_view_perm;
  kh_view_nonzero := client_view_nonzero;
  kh_view_apart := client_view_apart;
  kh_malloc_spec := client_malloc;
  kh_free_spec := client_free
|}.

End Client.

(** ** Witnesses: a machine with 256 free frames *)

Definition demo_frames : list Z := (fun i => 4096 * (i + 10)) <$> seqZ 0 256.
Definition demo_pool : pmm_t := mk_pmm (list_to_map (zip (seqZ 0 256) demo_frames)) 256 0.

(** The boot loader's direct map begins at [demo_hhdm], in PML4 slot 256: the
    tables on the way to its first page. *)
Definition loader_tables : list (Z * Z * Z) := [(20480, 256, 8192); (8192, 0, 12288); (12288, 0, 16384); (16384, 0, 0)].
Definition loader_mem : mem :=
  fold_right (fun '(t, i, p) m => wr64 m (slot demo_hhdm t i) (make_entry p 3)) ∅ loader_tables.

Lemma loader_mem_zero x i : frame demo_hhdm x -> 0 <= i < 512 -> x ∉ [8192; 12288; 16384] -> x <> 20480 \/ i <> 256 ->
  rd64 loader_mem (slot demo_hhdm x i) = 0.
Proof.
  intros Hx Hi Hn Hk. rewrite !not_elem_of_cons in Hn. destruct Hn as (H1 & H2 & H3 & _). unfold loader_mem, loader_tables. cbn [fold_right].
  repeat (rewrite rd64_wr64_ne by (apply slot_apart; try done; try (by apply frame_small); auto using not_eq_sym; destruct Hk; auto using not_eq_sym)).
  apply (rdn_zero 8). done.
Qed.

Definition demo_space : @vm_t pmm_t := mk_vm demo_pool loader_mem 20480 0.

#[export] Instance demo_mapper : PageMapper (@vm_t pmm_t) :=
  Vmm_PageMapper demo_hhdm demo_hhdm_nonneg.

Definition demo_heap : @heap_t (@vm_t pmm_t) := heap_boot demo_space.

Lemma demo_pool_pages : free_pages demo_pool = reverse demo_frames.
Proof. vm_compute. reflexivity. Defined.

Lemma demo_space_wf : vm_wf demo_hhdm heap_slot 20480 demo_space.
Proof.
  split.
  - split; simpl; unfold MAX_FREE_LIST; lia.
  - change (fa_pages (vm_pmm demo_space)) with (free_pages demo_pool). rewrite demo_pool_pages.
    assert (Hin : forall p, p ∈ reverse demo_frames -> frame demo_hhdm p /\ p <> 0 /\ p <> 20480).
    { intros p Hp. rewrite reverse_Permutation in Hp.
      apply list_elem_of_fmap in Hp as (i & -> & Hi%elem_of_seqZ).
      split; [apply frame_small; [lia|]|lia]. rewrite Z.mul_comm. by apply Z_mod_mult. }
    apply pt_wf_fresh.
    + by apply frame_small.
    + intros Hp. by destruct (Hin _ Hp) as (_ & _ & []).
    + apply Forall_forall. intros p Hp. destruct (Hin p Hp) as (? & ? & _). by split.
    + rewrite reverse_Permutation. apply NoDup_fmap_2; [|apply NoDup_seqZ]. intros i j. lia.
    + intros i Hi Hs. replace (rd64 (vm_mem demo_space) (slot demo_hhdm 20480 i)) with 0; [done|].
      symmetry. apply loader_mem_zero; [by apply frame_small|done|apply (bool_decide_unpack _); vm_compute; exact Logic.I|].
      right. unfold heap_slot in Hs. lia.
Defined.

Lemma demo_heap_view : heap_view demo_heap [].
Proof.
  right. split; [|done]. split; [|done|done|].
  - split; cbn.
    + split; [apply demo_space_wf|done].
    + lia.
    + done.
    + rewrite demo_pool_pages, length_reverse. vm_compute. discriminate.
    + intros a Ha. lia.
  - unfold frames. cbn. rewrite demo_pool_pages, length_reverse. vm_compute. discriminate.
Defined.

Lemma kmalloc_correct_witness :
  ((exists p sz s', kmalloc 100 demo_heap = Ret p s' /\ heap_lock s' = 0 /\ 100 <= sz /\ p mod 8 = 0 /\
     HEAP_START_VIRT < p /\ p + sz <= heap_end_virt s' /\
     (forall q z, (q, z) ∈ @nil (Z * Z) -> q + z <= p \/ p + sz <= q) /\
     heap_view s' [(p, sz)]) \/
   (heap_room demo_heap < align8 100 + 65536 /\
    (kmalloc 100 demo_heap = Fault \/
     exists s', kmalloc 100 demo_heap = Ret 0 s' /\ heap_lock s' = 0 /\ heap_view s' []))) /\
  fst <$> returned (kmalloc 100 demo_heap) = Some (HEAP_START_VIRT + 24).
Proof.
  split.
  - apply (kmalloc_correct 100 demo_heap []); [lia|unfold two64; lia|apply demo_heap_view|reflexivity].
  - vm_compute. reflexivity.
Defined.

Lemma kfree_correct_witness :
  exists p sz s s' bl', kmalloc 100 demo_heap = Ret p s /\ 100 <= sz /\
    kfree p s = Ret tt s' /\ heap_lock s' = 0 /\ heap_rep s' bl' /\ coalesced bl' /\
    used HEAP_START_VIRT bl' ≡ₚ [] /\ heap_end_virt s' = heap_end_virt s /\ h_vm s' = h_vm s.
Proof.
  destruct (kmalloc_view 100 demo_heap []) as
    [(p & sz & s & E & _ & Hl & Hsz & Hv & _)|[Hroom _]];
    [lia|unfold two64; lia|apply demo_heap_view|reflexivity| |].
  - destruct Hv as [(bl & Hrep & Hu)|[_ Hx]]; [|discriminate Hx].
    destruct (kfree_correct s bl [] p sz Hrep Hl Hu) as (s' & bl' & Ef & Hrest).
    exists p, sz, s, s', bl'. split; [exact E|]. split; [exact Hsz|]. split; [exact Ef|exact Hrest].
  - exfalso. revert Hroom. vm_compute. discriminate.
Defined.
