(* ===== verification/Chain.v ===== *)
(** * Linked lists in a typed store

    The scheduler's ready queue, the timer queue and the IPC wait lists are
    singly linked lists of heap objects.  A store maps addresses to objects;
    [cseg] and [chain] say which addresses a list visits. *)

From stdpp Require Import base gmap list fin_maps.
From Stdlib Require Import ZArith Lia.
From S2P Require Import Prelude.

(** Objects with a [next] field. *)
Class Linked (N : Type) : Type := {
  nxt : N -> Z;
  set_nxt : Z -> N -> N;
  nxt_set : forall p n, nxt (set_nxt p n) = p
}.

Section Chain.
Context {N : Type} `{Linked N}.

(** [p->...]: dereferencing null or an address with no object faults. *)
Definition deref (p : Z) : M (gmap Z N) N := fun h =>
  if p =? 0 then Fault else match h !! p with Some n => Ret n h | None => Fault end.

(** [p->field = ...]. *)
Definition update (p : Z) (f : N -> N) : M (gmap Z N) unit := fun h =>
  if p =? 0 then Fault
  else match h !! p with Some n => Ret tt (<[p := f n]> h) | None => Fault end.

(** [while (tail->next) tail = tail->next;] *)
Fixpoint last_node (fuel : nat) (tail : Z) : M (gmap Z N) Z :=
  match fuel with
  | O => mhang
  | S fuel' =>
      n <- deref tail ;;
      if truthy (nxt n) then last_node fuel' (nxt n) else mret tail
  end.

(** One round per object is enough for a list that ends. *)
Definition walk_fuel (h : gmap Z N) : nat := S (size h).

Definition find_tail (head : Z) : M (gmap Z N) Z := fun h => last_node (walk_fuel h) head h.

(** ** Segments *)

Fixpoint cseg (h : gmap Z N) (p : Z) (l : list Z) (q : Z) : Prop :=
  match l with
  | [] => p = q
  | a :: l' => p = a /\ a <> 0 /\ exists n, h !! a = Some n /\ cseg h (nxt n) l' q
  end.

Definition chain (h : gmap Z N) (p : Z) (l : list Z) : Prop := cseg h p l 0.

Lemma cseg_app h p l1 l2 q :
  cseg h p (l1 ++ l2) q <-> exists r, cseg h p l1 r /\ cseg h r l2 q.
Proof.
  revert p. induction l1 as [|a l1 IH]; intros p; simpl.
  { split; [intros; by exists p|by intros (r & -> & ?)]. }
  setoid_rewrite IH. naive_solver.
Qed.

Lemma cseg_frame h h' p l q :
  (forall a, a ∈ l -> h' !! a = h !! a) -> cseg h p l q -> cseg h' p l q.
Proof.
  revert p. induction l as [|a l IH]; intros p Hf; simpl; [done|].
  intros (-> & H0 & n & Hn & Hc). split; [done|]. split; [done|]. exists n.
  split; [rewrite Hf; [done|left]|]. apply IH; [|done]. intros b Hb. apply Hf. by right.
Qed.

Lemma cseg_insert h p l q a n : a ∉ l -> cseg h p l q -> cseg (<[a:=n]> h) p l q.
Proof. intros Ha. apply cseg_frame. intros b Hb. rewrite lookup_insert_ne by (by intros ->). done. Qed.

Lemma cseg_delete h p l q a : a ∉ l -> cseg h p l q -> cseg (delete a h) p l q.
Proof. intros Ha. apply cseg_frame. intros b Hb. rewrite lookup_delete_ne by (by intros ->). done. Qed.

Lemma chain_insert h p l a n : a ∉ l -> chain h p l -> chain (<[a:=n]> h) p l.
Proof. apply cseg_insert. Qed.

Lemma chain_functional h p l l' : chain h p l -> chain h p l' -> l = l'.
Proof.
  revert p l'. induction l as [|a l IH]; intros p [|b l']; unfold chain; simpl.
  - done.
  - intros -> (<- & ? & _). done.
  - by intros (-> & ? & _) ->.
  - intros (-> & H0 & n & Hn & Hc) (<- & _ & n' & Hn' & Hc').
    rewrite Hn in Hn'. injection Hn' as <-. f_equal. by eapply IH.
Qed.

Lemma chain_suffix h p l1 a l2 : chain h p (l1 ++ a :: l2) -> chain h a (a :: l2).
Proof. intros (r & _ & Hr)%cseg_app. destruct Hr as (-> & ? & ?). by split. Qed.

(** A list that ends visits no address twice. *)
Lemma chain_NoDup h p l : chain h p l -> NoDup l.
Proof.
  revert p. induction l as [|a l IH]; intros p Hc; [constructor|].
  constructor; [|destruct Hc as (_ & _ & n & _ & Hc); by eapply IH].
  intros Hin. apply list_elem_of_split in Hin as (l1 & l2 & ->).
  assert (p = a) as -> by apply Hc.
  pose proof (chain_suffix h a (a :: l1) a l2 Hc) as Hs.
  pose proof (chain_functional _ _ _ _ Hc Hs) as E.
  apply (f_equal length) in E. simpl in E. rewrite length_app in E. simpl in E. lia.
Qed.

Lemma chain_nonzero h p l a : chain h p l -> a ∈ l -> a <> 0 /\ is_Some (h !! a).
Proof.
  intros Hc Hin. apply list_elem_of_split in Hin as (l1 & l2 & ->).
  apply chain_suffix in Hc as (_ & ? & n & ? & _). eauto.
Qed.

Lemma chain_length h p l : chain h p l -> (length l <= size h)%nat.
Proof.
  intros Hc. apply nodup_keys_size; [by eapply chain_NoDup|].
  intros x Hx. by apply (chain_nonzero h p l).
Qed.

Lemma chain_nil h p : chain h p [] <-> p = 0.
Proof. done. Qed.

Lemma chain_zero h l : chain h 0 l -> l = [].
Proof. destruct l; [done|]. by intros (<- & ? & _). Qed.

(** ** The walk to the tail *)

Lemma deref_ok h p n : p <> 0 -> h !! p = Some n -> deref p h = Ret n h.
Proof. intros H0 Hn. unfold deref. destruct (Z.eqb_spec p 0); [done|]. by rewrite Hn. Qed.

Lemma update_ok h p n f : p <> 0 -> h !! p = Some n -> update p f h = Ret tt (<[p:=f n]> h).
Proof. intros H0 Hn. unfold update. destruct (Z.eqb_spec p 0); [done|]. by rewrite Hn. Qed.

Lemma last_node_spec h p l a fuel :
  chain h p (l ++ [a]) -> (length l < fuel)%nat -> last_node fuel p h = Ret a h.
Proof.
  revert p fuel. induction l as [|b l IH]; intros p fuel Hc Hf; (destruct fuel; [lia|]); simpl in Hf.
  - destruct Hc as (-> & H0 & n & Hn & Hz). cbn [last_node]. mstep.
    rewrite (deref_ok h a n H0 Hn). cbn [bindr]. simpl in Hz. by rewrite Hz.
  - destruct Hc as (-> & H0 & n & Hn & Hc). cbn [last_node]. mstep.
    rewrite (deref_ok h b n H0 Hn). cbn [bindr].
    assert (Ht : truthy (nxt n) = true).
    { unfold truthy. destruct (Z.eqb_spec (nxt n) 0) as [E|]; [|done].
      rewrite E in Hc. apply chain_zero in Hc. by destruct l. }
    rewrite Ht. apply IH; [done|lia].
Qed.

Lemma find_tail_spec h p l a : chain h p (l ++ [a]) -> find_tail p h = Ret a h.
Proof.
  intros Hc. apply (last_node_spec h p l a); [done|].
  pose proof (chain_length _ _ _ Hc) as Hl. rewrite length_app in Hl. simpl in Hl.
  unfold walk_fuel. lia.
Qed.

(** A cycle is walked for ever: no amount of fuel is enough. *)
Lemma last_node_cycle h a n fuel :
  a <> 0 -> h !! a = Some n -> nxt n = a -> last_node fuel a h = Hang.
Proof.
  intros H0 Hn Hx. induction fuel as [|fuel IH]; [done|]. cbn [last_node]. mstep.
  rewrite (deref_ok h a n H0 Hn). cbn [bindr]. rewrite Hx.
  unfold truthy. destruct (Z.eqb_spec a 0); [done|]. apply IH.
Qed.

(** Linking [b], whose own link is null, behind the last node [a]. *)
Lemma chain_snoc h p l a n b nb :
  chain h p (l ++ [a]) -> h !! a = Some n -> b <> 0 -> b ∉ l ++ [a] ->
  h !! b = Some nb -> nxt nb = 0 ->
  chain (<[a := set_nxt b n]> h) p ((l ++ [a]) ++ [b]).
Proof.
  intros Hc Hn Hb0 Hb Hnb Hz. pose proof (chain_NoDup _ _ _ Hc) as Hnd.
  apply NoDup_app in Hnd as (_ & Hal & _).
  rewrite <- app_assoc. apply cseg_app in Hc as (r & Hc & Hr). apply cseg_app.
  exists r. split; [apply cseg_insert; [|done]; intros Hin; apply (Hal a Hin); left|].
  destruct Hr as (-> & Ha0 & _). split; [done|]. split; [done|].
  exists (set_nxt b n). rewrite lookup_insert_eq. split; [done|]. rewrite nxt_set.
  split; [done|]. split; [done|]. exists nb. split; [|done].
  rewrite lookup_insert_ne; [done|]. intros ->. apply Hb. apply elem_of_app. right. left.
Qed.

End Chain.
