(* ===== verification/Descriptors.v ===== *)
(** * Descriptor tables (src/kernel/gdt.c, idt.c, tss.c)

    The segment, TSS and interrupt descriptors as records of their packed
    fields, and the programming of the interrupt controllers and of the
    SYSCALL model-specific registers as the sequence of port and MSR writes
    that [idt_init] issues. *)

From stdpp Require Import base gmap list fin_maps.
From Stdlib Require Import ZArith Lia.
From S2P Require Import Prelude Mem Pmm Vmm PageTables Heap HeapFacts KernelMem.

(** ** Global descriptor table (gdt.c) *)

Record gdt_entry : Type := mk_gdt_entry {
  ge_limit_low : Z;
  ge_base_low : Z;
  ge_base_mid : Z;
  ge_access : Z;
  ge_granularity : Z;
  ge_base_high : Z
}.

Record tss_entry : Type := mk_tss_entry {
  te_length : Z;
  te_base_low : Z;
  te_base_mid : Z;
  te_flags1 : Z;
  te_flags2 : Z;
  te_base_high : Z;
  te_base_upper : Z;
  te_reserved : Z
}.

Record gdt_t : Type := mk_gdt {
  gdt_entries : list gdt_entry;      (* entries[5] *)
  gdt_tss : tss_entry;
  gdtp_limit : Z;
  gdtp_base : Z
}.

Definition zero_gdt_entry : gdt_entry := mk_gdt_entry 0 0 0 0 0 0.
Definition zero_tss_entry : tss_entry := mk_tss_entry 0 0 0 0 0 0 0 0.

(** [sizeof(gdt)]: five packed 8-byte entries and a 16-byte TSS entry. *)
Definition sizeof_gdt : Z := 56.

(** [gdt_addr] is the address of the static [gdt]; loading the registers
    ([lgdt], the segment reloads) changes no memory. *)
Definition gdt_init (gdt_addr : Z) : gdt_t :=
  mk_gdt
    [zero_gdt_entry;
     mk_gdt_entry 0 0 0 0x9A 0x20 0;
     mk_gdt_entry 0 0 0 0x92 0 0;
     mk_gdt_entry 0 0 0 0xFA 0x20 0;
     mk_gdt_entry 0 0 0 0xF2 0 0]
    zero_tss_entry (u16 (sizeof_gdt - 1)) gdt_addr.

Definition gdt_set_tss (base : Z) (g : gdt_t) : gdt_t :=
  mk_gdt (gdt_entries g)
    (mk_tss_entry 104 (u16 (Z.land base 0xFFFF)) (u8 (Z.land (Z.shiftr base 16) 0xFF)) 0x89 0
       (u8 (Z.land (Z.shiftr base 24) 0xFF)) (u32 (Z.shiftr base 32)) 0)
    (gdtp_limit g) (gdtp_base g).

(** How the processor reads the base of a TSS descriptor. *)
Definition tss_entry_base (e : tss_entry) : Z :=
  te_base_low e + 2 ^ 16 * te_base_mid e + 2 ^ 24 * te_base_high e + 2 ^ 32 * te_base_upper e.

(** Descriptor privilege level, and the code-segment and present bits. *)
Definition access_dpl (a : Z) : Z := Z.land (Z.shiftr a 5) 3.
Definition access_present (a : Z) : bool := Z.testbit a 7.
Definition access_code (a : Z) : bool := Z.testbit a 3.

(** The entry a selector names. *)
Definition selector_entry (sel : Z) (g : gdt_t) : option gdt_entry :=
  gdt_entries g !! Z.to_nat (Z.shiftr sel 3).
Definition selector_rpl (sel : Z) : Z := Z.land sel 3.

(** ** Task state segment (tss.c) *)

Definition sizeof_tss64 : Z := 104.

(** The static pointer [tss] and the two fields of [struct tss64] that the
    kernel writes after [tss_init] has zeroed the structure. *)
Record tss_t : Type := mk_tss {
  tss_ptr : Z;
  tss_rsp0 : Z;
  tss_io_map_base : Z
}.

Definition tss_boot : tss_t := mk_tss 0 0 0.

Definition tss_set_rsp0 (rsp0 : Z) (t : tss_t) : tss_t :=
  if truthy (tss_ptr t) then mk_tss (tss_ptr t) rsp0 (tss_io_map_base t) else t.

Definition tss_set_io_bitmap (full : Z) (t : tss_t) : tss_t :=
  if negb (truthy (tss_ptr t)) then t
  else mk_tss (tss_ptr t) (tss_rsp0 t) (if truthy full then 0xFFFF else u16 sizeof_tss64).

Section Tss.
Context {H : Type} `{KHeap H}.

Record tss_env : Type := mk_tss_env {
  te_heap : H;
  te_gdt : gdt_t;
  te_tss : tss_t
}.

(** [tss_init]: the byte loop zeroes the whole structure; [tss_flush] loads
    the task register. *)
Definition tss_init : M tss_env unit :=
  p <- zoom te_heap (fun h s => mk_tss_env h (te_gdt s) (te_tss s)) (kh_malloc sizeof_tss64) ;;
  if p =? 0 then
    mset (fun s => mk_tss_env (te_heap s) (te_gdt s)
                     (mk_tss 0 (tss_rsp0 (te_tss s)) (tss_io_map_base (te_tss s))))
  else
    mset (fun s => mk_tss_env (te_heap s) (te_gdt s) (mk_tss p 0 0)) ;;;
    mset (fun s => mk_tss_env (te_heap s) (gdt_set_tss p (te_gdt s)) (te_tss s)).

End Tss.

(** ** Interrupt descriptor table (idt.c) *)

Record idt_entry : Type := mk_idt_entry {
  ie_base_low : Z;
  ie_sel : Z;
  ie_ist : Z;
  ie_flags : Z;
  ie_base_mid : Z;
  ie_base_high : Z;
  ie_reserved : Z
}.

(** What [idt_init] sends to the devices. *)
Inductive hw_write : Type :=
| Outb (port val : Z)
| Wrmsr (msr val : Z).

Record idt_t : Type := mk_idt {
  idt : gmap Z idt_entry;       (* static struct idt_entry idt[256] *)
  idtp_limit : Z;
  idtp_base : Z;
  idt_trace : list hw_write     (* device writes, oldest first *)
}.

Definition idt_boot : idt_t := mk_idt ∅ 0 0 [].

Definition idt_set_gate (num base sel flags : Z) (s : idt_t) : idt_t :=
  mk_idt
    (<[u8 num := mk_idt_entry (u16 (Z.land base 0xFFFF)) (u16 sel) 0 (u8 flags)
                   (u16 (Z.land (Z.shiftr base 16) 0xFFFF))
                   (u32 (Z.land (Z.shiftr base 32) 0xFFFFFFFF)) 0]> (idt s))
    (idtp_limit s) (idtp_base s) (idt_trace s).

Definition hw (w : list hw_write) (s : idt_t) : idt_t :=
  mk_idt (idt s) (idtp_limit s) (idtp_base s) (idt_trace s ++ w).

Definition IA32_EFER : Z := 0xC0000080.
Definition IA32_STAR : Z := 0xC0000081.
Definition IA32_LSTAR : Z := 0xC0000082.
Definition IA32_FMASK : Z := 0xC0000084.

(** [wrmsr] writes EDX:EAX. *)
Definition wrmsr (msr eax edx : Z) : hw_write := Wrmsr msr (u32 eax + 2 ^ 32 * u32 edx).

Definition pic_remap : list hw_write :=
  [Outb 0x20 0x11; Outb 0xA0 0x11; Outb 0x21 0x20; Outb 0xA1 0x28;
   Outb 0x21 0x04; Outb 0xA1 0x02; Outb 0x21 0x01; Outb 0xA1 0x01].
Definition pic_mask_all : list hw_write := [Outb 0x21 0xFF; Outb 0xA1 0xFF].

(** EFER is read, bit 0 (SCE) set in its low half, and written back. *)
Definition syscall_msrs (efer syscall_entry : Z) : list hw_write :=
  [wrmsr IA32_EFER (Z.lor (u32 efer) 1) (Z.shiftr efer 32);
   wrmsr IA32_STAR 0x00180008 0;
   wrmsr IA32_LSTAR syscall_entry (Z.shiftr syscall_entry 32);
   wrmsr IA32_FMASK 0x300 0].

Definition idt_init (idt_addr : Z) (isr_stub_table : Z -> Z) (efer syscall_entry : Z)
    (s : idt_t) : idt_t :=
  let s := mk_idt (idt s) (u16 (256 * 16 - 1)) idt_addr (idt_trace s) in
  let s := hw pic_remap s in
  let s := hw pic_mask_all s in
  let s := for_up 32 0 (fun i s => idt_set_gate i (isr_stub_table i) 0x08 0x8E s) s in
  let s := for_up 16 32 (fun i s => idt_set_gate i (isr_stub_table i) 0x08 0x8E s) s in
  hw (syscall_msrs efer syscall_entry) s.

(** How the processor reads the handler address of a gate. *)
Definition gate_base (e : idt_entry) : Z :=
  ie_base_low e + 2 ^ 16 * ie_base_mid e + 2 ^ 32 * ie_base_high e.

(** The selectors SYSCALL and SYSRET take from STAR (bits 47:32 and 63:48). *)
Definition star_syscall_cs (star : Z) : Z := Z.land (Z.shiftr star 32) 0xFFFF.
Definition star_sysret_cs (star : Z) : Z := Z.land (Z.shiftr star 48) 0xFFFF.

(** ** Lemmas *)

Lemma land_ffff x : Z.land x 0xFFFF = x mod 2 ^ 16.
Proof. change 0xFFFF with (Z.ones 16). by rewrite Z.land_ones. Qed.
Lemma land_ff x : Z.land x 0xFF = x mod 2 ^ 8.
Proof. change 0xFF with (Z.ones 8). by rewrite Z.land_ones. Qed.
Lemma land_ffffffff x : Z.land x 0xFFFFFFFF = x mod 2 ^ 32.
Proof. change 0xFFFFFFFF with (Z.ones 32). by rewrite Z.land_ones. Qed.

(** ** Properties *)

(** [gdt_set_tss] splits a 64-bit TSS address into the four descriptor
    fields so that the processor reads exactly that address back, with the
    present, available-64-bit-TSS type; the other descriptors are untouched. *)
Theorem gdt_set_tss_roundtrip (base : Z) (g : gdt_t) (Hb : 0 <= base < two64) :
  tss_entry_base (gdt_tss (gdt_set_tss base g)) = base /\
  te_flags1 (gdt_tss (gdt_set_tss base g)) = 0x89 /\
  gdt_entries (gdt_set_tss base g) = gdt_entries g.
Proof.
  split; [|done]. unfold tss_entry_base, gdt_set_tss, u8, u16, u32, two8, two16, two32.
  cbn [gdt_tss te_base_low te_base_mid te_base_high te_base_upper].
  rewrite land_ffff, !land_ff, !Z.shiftr_div_pow2 by lia. unfold two64 in Hb.
  change (2 ^ 16) with 65536. change (2 ^ 8) with 256. change (2 ^ 24) with 16777216.
  change (2 ^ 32) with 4294967296. Z.div_mod_to_equations. lia.
Qed.

Lemma gdt_set_tss_roundtrip_witness :
  tss_entry_base (gdt_tss (gdt_set_tss 0xFFFFF00000000018 (gdt_init 4096))) = 0xFFFFF00000000018 /\
  te_flags1 (gdt_tss (gdt_set_tss 0xFFFFF00000000018 (gdt_init 4096))) = 0x89 /\
  gdt_entries (gdt_set_tss 0xFFFFF00000000018 (gdt_init 4096)) = gdt_entries (gdt_init 4096).
Proof. apply (gdt_set_tss_roundtrip 0xFFFFF00000000018 (gdt_init 4096)). unfold two64. lia. Defined.

Lemma gate_base_set num base sel flags s :
  0 <= base < two64 ->
  gate_base <$> idt (idt_set_gate num base sel flags s) !! u8 num = Some base.
Proof.
  intros Hb. unfold idt_set_gate. cbn [idt]. rewrite lookup_insert_eq. cbn [fmap option_fmap option_map].
  f_equal. unfold gate_base, u16, u32, two16, two32. cbn [ie_base_low ie_base_mid ie_base_high].
  rewrite !land_ffff, land_ffffffff, !Z.shiftr_div_pow2 by lia. unfold two64 in Hb.
  change (2 ^ 16) with 65536. change (2 ^ 32) with 4294967296. Z.div_mod_to_equations. lia.
Qed.

Lemma set_gates_spec table n lo s i :
  (forall v, 0 <= table v < two64) -> 0 <= lo -> lo + Z.of_nat n <= 256 ->
  gate_base <$> idt (for_up n lo (fun i s => idt_set_gate i (table i) 0x08 0x8E s) s) !! i =
    if (lo <=? i) && (i <? lo + Z.of_nat n) then Some (table i) else gate_base <$> idt s !! i.
Proof.
  intros Ht Hlo Hhi.
  apply (for_up_ind (fun j x => gate_base <$> idt x !! i =
    if (lo <=? i) && (i <? j) then Some (table i) else gate_base <$> idt s !! i)).
  - destruct (Z.leb_spec lo i), (Z.ltb_spec i lo); simpl; try done; lia.
  - intros j x Hj Hx. destruct (Z.eq_dec i j) as [->|Hne].
    + assert (Hu : u8 j = j) by (apply Z.mod_small; unfold two8; lia).
      pose proof (gate_base_set j (table j) 0x08 0x8E x (Ht j)) as Hg. rewrite Hu in Hg. rewrite Hg.
      destruct (Z.leb_spec lo j), (Z.ltb_spec j (j + 1)); simpl; try done; lia.
    + unfold idt_set_gate. cbn [idt]. rewrite lookup_insert_ne.
      2:{ unfold u8, two8. rewrite Z.mod_small by lia. done. }
      rewrite Hx. destruct (Z.leb_spec lo i), (Z.ltb_spec i j), (Z.ltb_spec i (j + 1)); simpl; try done; lia.
Qed.

Lemma hw_idt w s : idt (hw w s) = idt s.
Proof. done. Qed.

Lemma hw_trace w s : idt_trace (hw w s) = idt_trace s ++ w.
Proof. done. Qed.

Lemma set_gates_trace table n lo s :
  idt_trace (for_up n lo (fun i s => idt_set_gate i (table i) 0x08 0x8E s) s) = idt_trace s.
Proof. by apply (for_up_ind (fun _ x => idt_trace x = idt_trace s)). Qed.

(** After [idt_init] the processor finds, for each of the 48 exception
    and IRQ vectors, exactly the address of its stub, and no other vector
    has a gate; the PICs are told to deliver their IRQs at vectors 32 and
    40, the ones [isr_handler] subtracts 32 from. *)
Theorem idt_init_gates (addr efer entry : Z) (table : Z -> Z) (v : Z)
    (Ht : forall i, 0 <= table i < two64) :
  gate_base <$> idt (idt_init addr table efer entry idt_boot) !! v =
    (if (0 <=? v) && (v <? 48) then Some (table v) else None) /\
  exists pre post, idt_trace (idt_init addr table efer entry idt_boot) =
    pre ++ [Outb 0x21 32; Outb 0xA1 40] ++ post.
Proof.
  split.
  - unfold idt_init. cbv zeta. rewrite hw_idt, !set_gates_spec, !hw_idt by (done || lia).
    cbn [idt idt_boot]. rewrite lookup_empty.
    destruct (Z.leb_spec 0 v), (Z.ltb_spec v 48), (Z.leb_spec 32 v),
      (Z.ltb_spec v (32 + Z.of_nat 16)), (Z.ltb_spec v (0 + Z.of_nat 32)); simpl; try done; lia.
  - exists [Outb 0x20 0x11; Outb 0xA0 0x11]. eexists.
    unfold idt_init. cbv zeta. rewrite hw_trace, !set_gates_trace, !hw_trace.
    cbn [idt_trace idt_boot]. unfold pic_remap. rewrite <- app_assoc. cbn [app]. reflexivity.
Qed.

(** The gate of a vector: the kernel's code selector, present. *)
Lemma set_gates_flags table n lo s i : 0 <= lo -> lo + Z.of_nat n <= 256 ->
  (forall e, idt s !! i = Some e -> ie_sel e = 0x08 /\ Z.testbit (ie_flags e) 7 = true) ->
  forall e, idt (for_up n lo (fun i s => idt_set_gate i (table i) 0x08 0x8E s) s) !! i = Some e -> ie_sel e = 0x08 /\ Z.testbit (ie_flags e) 7 = true.
Proof.
  intros Hlo Hhi Hs. apply (for_up_ind (fun _ x => forall e, idt x !! i = Some e -> ie_sel e = 0x08 /\ Z.testbit (ie_flags e) 7 = true)); [exact Hs|].
  intros j x _ Hx e. unfold idt_set_gate. cbn [idt]. intros [[_ <-]|[_ He]]%lookup_insert_Some; [by split|by apply Hx].
Qed.

Lemma idt_init_gate addr efer entry (table : Z -> Z) v : (forall i, 0 <= table i < two64) -> 0 <= v < 48 ->
  exists e, idt (idt_init addr table efer entry idt_boot) !! v = Some e /\ gate_base e = table v /\ ie_sel e = 0x08 /\ Z.testbit (ie_flags e) 7 = true.
Proof.
  intros Ht Hv. pose proof (idt_init_gates addr efer entry table v Ht) as [Hg _].
  destruct (Z.leb_spec 0 v), (Z.ltb_spec v 48); try lia. cbn [andb] in Hg. destruct (idt _ !! v) as [e|] eqn:E; [|done]. injection Hg as Hg.
  exists e. split; [done|]. split; [exact Hg|]. revert E. unfold idt_init. cbv zeta. rewrite hw_idt. revert e Hg. intros e _.
  apply set_gates_flags; [lia|lia|]. intros e'. apply set_gates_flags; [lia|lia|]. intros e''. rewrite !hw_idt. cbn [idt idt_boot]. by rewrite lookup_empty.
Qed.

Lemma idt_init_gates_witness :
  (forall i, 0 <= (fun n => 4096 + 16 * (n mod 256)) i < two64) /\
  (gate_base <$> idt (idt_init 0 (fun n => 4096 + 16 * (n mod 256)) 0 65536 idt_boot) !! 33 = Some 4624 /\
   exists pre post, idt_trace (idt_init 0 (fun n => 4096 + 16 * (n mod 256)) 0 65536 idt_boot) =
    pre ++ [Outb 0x21 32; Outb 0xA1 40] ++ post).
Proof.
  assert (Ht : forall i, 0 <= (fun n => 4096 + 16 * (n mod 256)) i < two64).
  { intros i. unfold two64. pose proof (Z.mod_pos_bound i 256). lia. }
  split; [exact Ht|].
  apply (idt_init_gates 0 0 65536 (fun n => 4096 + 16 * (n mod 256)) 33 Ht).
Defined.

(** The STAR register as [idt_init] programs it.  The selectors are in
    the low half that SYSCALL does not use in 64-bit mode; the fields that
    SYSCALL and SYSRET read are both zero, not the 0x08 and 0x18 of the
    comment. *)
Theorem star_selectors_lost (efer entry : Z) :
  exists star, In (Wrmsr IA32_STAR star) (syscall_msrs efer entry) /\
    star_syscall_cs star = 0 /\ star_sysret_cs star = 0.
Proof. exists 0x00180008. split; [right; left; reflexivity|]. split; reflexivity. Qed.
