(* ===== verification/Sched.v ===== *)
(** * Scheduler (src/kernel/scheduler.c)

    Thread control blocks are a typed store keyed by the address [kmalloc]
    returned; the ready queue is linked through their [next] fields.  A call
    of [schedule] ends in [__switch_to]: the outcome is [Switch], with the
    state in which the next thread runs and the continuation of the caller.
    The registers and stacks that [__switch_to] saves and restores are the
    subject of Context.v. *)

From stdpp Require Import base gmap list fin_maps.
From Stdlib Require Import ZArith Lia.
From S2P Require Import Prelude Mem Pmm Vmm PageTables Heap HeapFacts KernelMem Chain Descriptors.

(** ** Threads *)

Record thread : Type := mk_thread {
  th_rsp : Z;
  th_kernel_stack : Z;
  th_state : Z;
  th_cr3 : Z;
  th_iopl : Z;
  th_process : Z;
  th_next : Z
}.

Definition THREAD_STATE_RUNNING : Z := 1.
Definition THREAD_STATE_READY : Z := 2.
Definition THREAD_STATE_BLOCKED : Z := 3.

Definition STACK_SIZE : Z := 4096.
(** 8 + 8 + 4 (+4) + 8 + 4 (+4) + 8 + 8 *)
Definition sizeof_thread : Z := 56.

Definition set_th_state (x : Z) (t : thread) : thread :=
  mk_thread (th_rsp t) (th_kernel_stack t) x (th_cr3 t) (th_iopl t) (th_process t) (th_next t).
Definition set_th_iopl (x : Z) (t : thread) : thread :=
  mk_thread (th_rsp t) (th_kernel_stack t) (th_state t) (th_cr3 t) x (th_process t) (th_next t).
Definition set_th_next (x : Z) (t : thread) : thread :=
  mk_thread (th_rsp t) (th_kernel_stack t) (th_state t) (th_cr3 t) (th_iopl t) (th_process t) x.

#[export] Instance thread_Linked : Linked thread := {|
  nxt := th_next;
  set_nxt := set_th_next;
  nxt_set := fun _ _ => eq_refl
|}.

Section Sched.
Context {H : Type} `{KHeap H}.
(** The contents of a freshly allocated, not yet written field. *)
Context (junk : Z).
(** The address of the assembly routine [userspace_entry]. *)
Context (userspace_entry : Z).

(** ** State *)

Record sched_t : Type := mk_sched {
  s_heap : H;
  s_threads : gmap Z thread;
  s_stack : gmap Z Z;           (* 64-bit words of the kernel stacks *)
  current_thread : Z;
  ready_queue : Z;
  idle_thread_ptr : Z;
  thread_count : Z;
  sched_lock : Z;
  s_tss : tss_t;
  current_process : Z;          (* the global of proc.c *)
  s_cr3 : Z                     (* the processor's CR3 *)
}.

Definition set_heap (x : H) (s : sched_t) : sched_t :=
  mk_sched x (s_threads s) (s_stack s) (current_thread s) (ready_queue s) (idle_thread_ptr s)
    (thread_count s) (sched_lock s) (s_tss s) (current_process s) (s_cr3 s).
Definition set_threads (x : gmap Z thread) (s : sched_t) : sched_t :=
  mk_sched (s_heap s) x (s_stack s) (current_thread s) (ready_queue s) (idle_thread_ptr s)
    (thread_count s) (sched_lock s) (s_tss s) (current_process s) (s_cr3 s).
Definition set_stack (x : gmap Z Z) (s : sched_t) : sched_t :=
  mk_sched (s_heap s) (s_threads s) x (current_thread s) (ready_queue s) (idle_thread_ptr s)
    (thread_count s) (sched_lock s) (s_tss s) (current_process s) (s_cr3 s).
Definition set_current_thread (x : Z) (s : sched_t) : sched_t :=
  mk_sched (s_heap s) (s_threads s) (s_stack s) x (ready_queue s) (idle_thread_ptr s)
    (thread_count s) (sched_lock s) (s_tss s) (current_process s) (s_cr3 s).
Definition set_ready_queue (x : Z) (s : sched_t) : sched_t :=
  mk_sched (s_heap s) (s_threads s) (s_stack s) (current_thread s) x (idle_thread_ptr s)
    (thread_count s) (sched_lock s) (s_tss s) (current_process s) (s_cr3 s).
Definition set_idle_thread_ptr (x : Z) (s : sched_t) : sched_t :=
  mk_sched (s_heap s) (s_threads s) (s_stack s) (current_thread s) (ready_queue s) x
    (thread_count s) (sched_lock s) (s_tss s) (current_process s) (s_cr3 s).
Definition set_thread_count (x : Z) (s : sched_t) : sched_t :=
  mk_sched (s_heap s) (s_threads s) (s_stack s) (current_thread s) (ready_queue s) (idle_thread_ptr s)
    x (sched_lock s) (s_tss s) (current_process s) (s_cr3 s).
Definition set_sched_lock (x : Z) (s : sched_t) : sched_t :=
  mk_sched (s_heap s) (s_threads s) (s_stack s) (current_thread s) (ready_queue s) (idle_thread_ptr s)
    (thread_count s) x (s_tss s) (current_process s) (s_cr3 s).
Definition set_tss (x : tss_t) (s : sched_t) : sched_t :=
  mk_sched (s_heap s) (s_threads s) (s_stack s) (current_thread s) (ready_queue s) (idle_thread_ptr s)
    (thread_count s) (sched_lock s) x (current_process s) (s_cr3 s).
Definition set_current_process (x : Z) (s : sched_t) : sched_t :=
  mk_sched (s_heap s) (s_threads s) (s_stack s) (current_thread s) (ready_queue s) (idle_thread_ptr s)
    (thread_count s) (sched_lock s) (s_tss s) x (s_cr3 s).
Definition set_cr3 (x : Z) (s : sched_t) : sched_t :=
  mk_sched (s_heap s) (s_threads s) (s_stack s) (current_thread s) (ready_queue s) (idle_thread_ptr s)
    (thread_count s) (sched_lock s) (s_tss s) (current_process s) x.

(** The static initial values. *)
Definition sched_boot (h : H) (cr3 : Z) : sched_t :=
  mk_sched h ∅ ∅ 0 0 0 0 0 tss_boot 0 cr3.

Definition on_heap {A} (m : M H A) : M sched_t A := zoom s_heap set_heap m.
Definition on_threads {A} (m : M (gmap Z thread) A) : M sched_t A := zoom s_threads set_threads m.
Definition lock_sched : M sched_t unit := spin_lock sched_lock set_sched_lock.
Definition unlock_sched : M sched_t unit := spin_unlock set_sched_lock.

(** [stk[i] = w] on a kernel stack. *)
Definition poke (a w : Z) : M sched_t unit :=
  mset (fun s => set_stack (<[a := u64 w]> (s_stack s)) s).

(** ** Operations *)

Definition scheduler_add_thread (t : Z) : M sched_t unit :=
  lock_sched ;;;
  rq <- mget ready_queue ;;
  on_threads (update t (set_th_next rq)) ;;;
  mset (set_ready_queue t) ;;;
  mset (fun s => set_thread_count (i32 (thread_count s + 1)) s) ;;;
  unlock_sched.

(** The common part of [thread_create] and [thread_create_user] before the
    stack is laid out: both blocks, or nothing. *)
Definition alloc_thread : M sched_t (option (Z * Z)) :=
  t <- on_heap (kh_malloc sizeof_thread) ;;
  if t =? 0 then mret None
  else
    stack <- on_heap (kh_malloc STACK_SIZE) ;;
    if stack =? 0 then on_heap (kh_free t) ;;; mret None
    else mret (Some (t, stack)).

(** Lines 54-69 of [thread_create]: the initial stack, the record, the push. *)
Definition kthread_setup (entry cr3 proc t stack : Z) : M sched_t Z :=
  let kernel_stack := stack + STACK_SIZE in
  let stk := kernel_stack - 8 * 7 in
  poke (stk + 8 * 0) 0 ;;; poke (stk + 8 * 1) 0 ;;; poke (stk + 8 * 2) 0 ;;;
  poke (stk + 8 * 3) 0 ;;; poke (stk + 8 * 4) 0 ;;; poke (stk + 8 * 5) 0 ;;;
  poke (stk + 8 * 6) entry ;;;
  mset (fun s => set_threads
    (<[t := mk_thread stk kernel_stack THREAD_STATE_READY cr3 0 proc junk]> (s_threads s)) s) ;;;
  scheduler_add_thread t ;;;
  mret t.

(** [thread_create]; the unused [name] is left out.  Result 0 is NULL. *)
Definition thread_create (entry cr3 proc : Z) : M sched_t Z :=
  o <- alloc_thread ;;
  match o with
  | None => mret 0
  | Some (t, stack) => kthread_setup entry cr3 proc t stack
  end.

(** Lines 80-98 of [thread_create_user]. *)
Definition uthread_setup (user_entry user_stack pml4_phys proc t kstack : Z) : M sched_t Z :=
  let kernel_stack := kstack + STACK_SIZE in
  let stk := kernel_stack - 8 * 5 in
  poke (stk + 8 * 0) 0x23 ;;; poke (stk + 8 * 1) user_stack ;;;
  poke (stk + 8 * 2) 0x202 ;;; poke (stk + 8 * 3) 0x1B ;;; poke (stk + 8 * 4) user_entry ;;;
  let stk := stk - 8 in
  poke stk userspace_entry ;;;
  let stk := stk - 8 * 6 in
  poke (stk + 8 * 0) 0 ;;; poke (stk + 8 * 1) 0 ;;; poke (stk + 8 * 2) 0 ;;;
  poke (stk + 8 * 3) 0 ;;; poke (stk + 8 * 4) 0 ;;; poke (stk + 8 * 5) 0 ;;;
  mset (fun s => set_threads
    (<[t := mk_thread stk kernel_stack THREAD_STATE_READY pml4_phys 0 proc junk]> (s_threads s)) s) ;;;
  scheduler_add_thread t ;;;
  mret t.

Definition thread_create_user (user_entry user_stack pml4_phys proc : Z) : M sched_t Z :=
  o <- alloc_thread ;;
  match o with
  | None => mret 0
  | Some (t, kstack) => uthread_setup user_entry user_stack pml4_phys proc t kstack
  end.

(** [idle_thread] is the address of the idle loop. *)
Definition scheduler_init (idle_thread kernel_cr3 : Z) : M sched_t unit :=
  idle <- thread_create idle_thread kernel_cr3 0 ;;
  if idle =? 0 then mret tt
  else
    on_threads (update idle (set_th_state THREAD_STATE_READY)) ;;;
    mset (set_idle_thread_ptr idle) ;;;
    lock_sched ;;;
    mset (set_ready_queue 0) ;;;
    unlock_sched ;;;
    mset (set_current_thread idle).

(** Append to the ready queue: the same lines in [thread_unblock] and
    [schedule]. *)
Definition enqueue_tail (t : Z) : M sched_t unit :=
  on_threads (update t (set_th_next 0)) ;;;
  rq <- mget ready_queue ;;
  if truthy rq then
    tail <- on_threads (find_tail rq) ;;
    on_threads (update tail (set_th_next t))
  else mset (set_ready_queue t).

Definition thread_unblock (t : Z) : M sched_t unit :=
  lock_sched ;;;
  th <- on_threads (deref t) ;;
  (if th_state th =? THREAD_STATE_BLOCKED then
     on_threads (update t (set_th_state THREAD_STATE_READY)) ;;;
     enqueue_tail t
   else mret tt) ;;;
  unlock_sched.

(** Lines 143-163 of [schedule]: choose the next thread and put the current
    one back when it is still runnable; the result is [next]. *)
Definition pick_next (cur : Z) : M sched_t Z :=
  next <- mget ready_queue ;;
  next <- (if next =? 0 then mget idle_thread_ptr
           else
             n <- on_threads (deref next) ;;
             mset (set_ready_queue (th_next n)) ;;;
             mret next) ;;
  c <- on_threads (deref cur) ;;
  idle <- mget idle_thread_ptr ;;
  (if (th_state c =? THREAD_STATE_RUNNING) && negb (cur =? idle) then
     on_threads (update cur (set_th_state THREAD_STATE_READY)) ;;;
     enqueue_tail cur
   else mret tt) ;;;
  mret next.

(** [__switch_to]: the processor goes on in the other thread with the new
    CR3; the caller's continuation is kept until it is resumed. *)
Definition switch_to (new_cr3 : Z) : M sched_t unit := fun s =>
  Switch (set_cr3 new_cr3 s) (fun s' => Ret tt s').

Definition schedule : M sched_t unit :=
  lock_sched ;;;
  cur <- mget current_thread ;;
  if cur =? 0 then unlock_sched
  else
    next <- pick_next cur ;;
    on_threads (update next (set_th_state THREAD_STATE_RUNNING)) ;;;
    n <- on_threads (deref next) ;;
    mset (fun s => set_tss (tss_set_rsp0 (th_kernel_stack n) (s_tss s)) s) ;;;
    mset (set_current_thread next) ;;;
    (if truthy (th_process n) then mset (set_current_process (th_process n)) else mret tt) ;;;
    unlock_sched ;;;
    switch_to (th_cr3 n).

(** The code after the [schedule] of an exiting thread is
    [__builtin_unreachable]: it is never resumed, and returning there is
    undefined. *)
Definition no_return (m : M sched_t unit) : M sched_t unit := fun s =>
  match m s with
  | Switch s' _ => Gone s'
  | Ret _ _ => Fault
  | r => r
  end.

(** The first critical sections of [thread_exit] and [thread_block]; an
    interrupt can come between them and the [schedule] that follows. *)
Definition exit_current : M sched_t unit :=
  lock_sched ;;;
  cur <- mget current_thread ;;
  (if truthy cur then
     on_threads (update cur (set_th_state 0)) ;;;
     on_threads (update cur (set_th_next 0))
   else mret tt) ;;;
  unlock_sched.

Definition block_current : M sched_t unit :=
  lock_sched ;;;
  cur <- mget current_thread ;;
  on_threads (update cur (set_th_state THREAD_STATE_BLOCKED)) ;;;
  unlock_sched.

Definition thread_exit : M sched_t unit := exit_current ;;; no_return schedule.

Definition thread_block : M sched_t unit := block_current ;;; schedule.

End Sched.
