(* ===== verification/SchedFacts.v ===== *)
(** * Correctness of the scheduler (src/kernel/scheduler.c)

    The ready queue is a list of distinct ready threads; every ready thread
    is in it and only the current thread runs ([sched_inv]).  All operations
    keep this, [schedule] takes the head and puts a still running thread at
    the tail, and so the ready threads run in turn. *)

From stdpp Require Import base gmap list fin_maps.
From Stdlib Require Import ZArith Lia.
From S2P Require Import Prelude Mem Pmm Vmm PageTables Heap HeapFacts KernelMem Chain Descriptors Sched.

(** ** States of threads, whatever their links *)

Definition state_of (h : gmap Z thread) (t : Z) : option Z := th_state <$> h !! t.

(** The store with the links erased. *)
Definition core (h : gmap Z thread) : gmap Z thread := set_th_next 0 <$> h.

Lemma state_of_core h h' t : core h = core h' -> state_of h t = state_of h' t.
Proof.
  intros E. assert (Hl : core h !! t = core h' !! t) by (by rewrite E).
  unfold core in Hl. rewrite !lookup_fmap in Hl. unfold state_of.
  destruct (h !! t) as [a|], (h' !! t) as [b|]; simpl in *; try done.
  injection Hl. intros. by f_equal.
Qed.

Lemma core_set_next h t th p : h !! t = Some th -> core (<[t := set_th_next p th]> h) = core h.
Proof.
  intros Ht. apply map_eq. intros x. unfold core. rewrite !lookup_fmap, lookup_insert.
  case_decide as E; [subst; by rewrite Ht|done].
Qed.

Lemma state_of_insert h t th u :
  state_of (<[t := th]> h) u = if decide (t = u) then Some (th_state th) else state_of h u.
Proof. unfold state_of. rewrite lookup_insert. by case_decide. Qed.

Lemma state_of_Some h t x : state_of h t = Some x -> exists th, h !! t = Some th /\ th_state th = x.
Proof. unfold state_of. destruct (h !! t) as [th|]; simpl; [|done]. intros [= <-]. eauto. Qed.

(** Two different states of one thread. *)
Ltac two_states := repeat match goal with H : ?x = ?y :> Z |- _ => subst x || subst y end;
  match goal with
  | H1 : state_of ?h ?t = Some _, H2 : state_of ?h ?t = Some _ |- _ => rewrite H1 in H2; discriminate
  end.

Section SchedFacts.
Context {H : Type} `{HK : KHeap H}.
#[local] Abbreviation sched := (@sched_t H).

(** ** The invariant *)

Record sched_inv (s : sched) (q : list Z) : Prop := {
  si_lock : sched_lock s = 0;
  si_chain : chain (s_threads s) (ready_queue s) q;
  si_ready : forall t, t ∈ q -> state_of (s_threads s) t = Some THREAD_STATE_READY;
  si_lost : forall t, state_of (s_threads s) t = Some THREAD_STATE_READY ->
    t ∈ q \/ t = idle_thread_ptr s;
  si_running : forall t, state_of (s_threads s) t = Some THREAD_STATE_RUNNING ->
    t = current_thread s \/ t = idle_thread_ptr s;
  si_idle : state_of (s_threads s) (idle_thread_ptr s) = Some THREAD_STATE_READY \/
    state_of (s_threads s) (idle_thread_ptr s) = Some THREAD_STATE_RUNNING;
  si_idle_out : idle_thread_ptr s ∉ q;
  si_idle_nz : idle_thread_ptr s <> 0;
  si_cur : is_Some (state_of (s_threads s) (current_thread s));
  si_cur_nz : current_thread s <> 0
}.

(** The current thread is really running (the boot processor starts as the
    idle thread). *)
Definition cur_runs (s : sched) : Prop :=
  state_of (s_threads s) (current_thread s) = Some THREAD_STATE_RUNNING \/
  current_thread s = idle_thread_ptr s.

(** ** Accesses *)

Lemma on_update (s : sched) p th f :
  p <> 0 -> s_threads s !! p = Some th ->
  on_threads (update p f) s = Ret tt (set_threads (<[p := f th]> (s_threads s)) s).
Proof. intros. unfold on_threads, zoom. by rewrite (update_ok _ p th). Qed.

Lemma on_deref (s : sched) p th :
  p <> 0 -> s_threads s !! p = Some th ->
  on_threads (deref p) s = Ret th (set_threads (s_threads s) s).
Proof. intros. unfold on_threads, zoom. by rewrite (deref_ok _ p th). Qed.

Lemma set_threads_id (s : sched) : set_threads (s_threads s) s = s.
Proof. by destruct s. Qed.

Lemma enqueue_tail_spec (s : sched) q t th :
  chain (s_threads s) (ready_queue s) q -> t ∉ q -> t <> 0 -> s_threads s !! t = Some th ->
  exists h' r', enqueue_tail t s = Ret tt (set_ready_queue r' (set_threads h' s)) /\
    chain h' r' (q ++ [t]) /\ core h' = core (s_threads s).
Proof.
  intros Hc Hq H0 Ht. unfold enqueue_tail. mstep. rewrite (on_update s t th) by done. cbn [bindr].
  set (h1 := <[t := set_th_next 0 th]> (s_threads s)).
  assert (Hc1 : chain h1 (ready_queue s) q) by (by apply chain_insert).
  assert (Ht1 : h1 !! t = Some (set_th_next 0 th)) by apply lookup_insert_eq.
  assert (Hcore1 : core h1 = core (s_threads s)) by (by apply core_set_next).
  cbn [ready_queue set_threads]. unfold truthy. destruct (Z.eqb_spec (ready_queue s) 0) as [Hz|Hnz]; cbn [negb].
  - rewrite Hz in Hc1. apply chain_zero in Hc1 as ->. exists h1, t. split; [done|].
    split; [|done]. split; [done|]. split; [done|]. by exists (set_th_next 0 th).
  - assert (Hne : q <> []) by (intros ->; by apply Hnz).
    destruct (exists_last Hne) as (q' & a & ->). unfold on_threads at 1, zoom.
    change (s_threads (set_threads h1 s)) with h1. rewrite (find_tail_spec h1 _ q' a Hc1). cbn [zoomr bindr].
    destruct (chain_nonzero _ _ _ a Hc1) as [Ha0 [na Hna]]; [apply elem_of_app; right; left|].
    rewrite (on_update _ a na) by done. exists (<[a := set_th_next t na]> h1), (ready_queue s).
    split; [by destruct s|]. split.
    + change (set_th_next t na) with (set_nxt t na). by apply (chain_snoc h1 (ready_queue s) q' a na t (set_th_next 0 th)).
    + by rewrite core_set_next.
Qed.

(** ** [schedule] *)

(** The queue after [schedule]: the head is gone, a still running thread
    other than the idle one is at the tail. *)
Definition requeued (s : sched) (q : list Z) : list Z :=
  tail q ++ (if bool_decide (state_of (s_threads s) (current_thread s) = Some THREAD_STATE_RUNNING /\
                             current_thread s <> idle_thread_ptr s)
             then [current_thread s] else []).

(** The same as a function of the store alone, for [pick_next]. *)
Definition after_pick (s : sched) (h : gmap Z thread) : gmap Z thread :=
  match h !! current_thread s with
  | Some c => if (th_state c =? THREAD_STATE_RUNNING) && negb (current_thread s =? idle_thread_ptr s)
              then <[current_thread s := set_th_state THREAD_STATE_READY c]> h else h
  | None => h
  end.

Lemma pop_head (s : sched) q :
  chain (s_threads s) (ready_queue s) q ->
  exists r, chain (s_threads s) r (tail q) /\
    (if ready_queue s =? 0 then mget idle_thread_ptr
     else n <- on_threads (deref (ready_queue s)) ;; mset (set_ready_queue (th_next n)) ;;;
          mret (ready_queue s)) s = Ret (hd (idle_thread_ptr s) q) (set_ready_queue r s).
Proof.
  intros Hc. destruct q as [|a q].
  - apply chain_nil in Hc. rewrite Hc. cbn [Z.eqb]. exists 0. split; [done|].
    destruct s; simpl in *. by subst.
  - destruct Hc as (-> & H0 & n & Hn & Hc). destruct (Z.eqb_spec a 0); [done|].
    exists (th_next n). split; [done|]. mstep. rewrite (on_deref s a n) by done. cbn. by destruct s.
Qed.

Lemma pick_next_spec (s : sched) q c :
  chain (s_threads s) (ready_queue s) q ->
  (th_state c = THREAD_STATE_RUNNING -> current_thread s ∉ q) -> current_thread s <> 0 ->
  s_threads s !! current_thread s = Some c ->
  exists h' r', pick_next (current_thread s) s =
      Ret (hd (idle_thread_ptr s) q) (set_ready_queue r' (set_threads h' s)) /\
    chain h' r' (requeued s q) /\ core h' = core (after_pick s (s_threads s)).
Proof.
  intros Hc Hout H0 Hcur. destruct (pop_head s q Hc) as (r & Hr & Epop).
  unfold pick_next. rewrite (mbind_Ret _ _ _ _ _ (eq_refl : mget ready_queue s = _)). cbv beta.
  rewrite (mbind_Ret _ _ _ _ _ Epop). mstep.
  rewrite (on_deref _ _ c) by done. rewrite set_threads_id. cbn [bindr].
  unfold requeued, after_pick, state_of. rewrite Hcur. cbn [fmap option_fmap option_map].
  change (idle_thread_ptr (set_ready_queue r s)) with (idle_thread_ptr s).
  destruct (Z.eqb_spec (th_state c) THREAD_STATE_RUNNING) as [Hrun|Hrun]; cbn [andb].
  2:{ rewrite bool_decide_eq_false_2 by naive_solver. cbn [bindr]. rewrite app_nil_r.
      exists (s_threads s), r. split; [by destruct s|done]. }
  destruct (Z.eqb_spec (current_thread s) (idle_thread_ptr s)) as [Hi|Hi]; cbn [negb].
  { rewrite bool_decide_eq_false_2 by naive_solver. cbn [bindr]. rewrite app_nil_r.
    exists (s_threads s), r. split; [by destruct s|done]. }
  assert (Hout' : current_thread s ∉ tail q) by (specialize (Hout Hrun); destruct q; [done|]; set_solver).
  rewrite bool_decide_eq_true_2 by (split; [by f_equal|done]).
  rewrite (on_update _ _ c) by done. cbn [bindr].
  set (h1 := <[current_thread s := set_th_state THREAD_STATE_READY c]> (s_threads s)).
  set (s1 := set_threads _ _).
  destruct (enqueue_tail_spec s1 (tail q) (current_thread s) (set_th_state THREAD_STATE_READY c))
    as (h' & r' & -> & Hc' & Hcore); try done.
  { by apply chain_insert. }
  { apply lookup_insert_eq. }
  cbn [bindr]. exists h', r'. split; [by destruct s|]. split; [done|]. done.
Qed.

Lemma core_lookup h h' t th :
  core h = core h' -> h !! t = Some th ->
  exists th', h' !! t = Some th' /\ set_th_next 0 th' = set_th_next 0 th.
Proof.
  intros E Ht. assert (Hl : core h !! t = core h' !! t) by (by rewrite E).
  unfold core in Hl. rewrite !lookup_fmap, Ht in Hl. simpl in Hl.
  destruct (h' !! t) as [b|]; simpl in *; [|done]. injection Hl. intros. exists b. split; [done|].
  destruct b, th. unfold set_th_next. simpl in *. by subst.
Qed.

Lemma core_dom h h' : core h = core h' -> dom h = dom h'.
Proof. intros E. rewrite <- (dom_fmap_L (set_th_next 0) h), <- (dom_fmap_L (set_th_next 0) h'). by f_equal. Qed.

Lemma after_pick_dom (s : sched) h : dom (after_pick s h) = dom h.
Proof.
  unfold after_pick. destruct (h !! current_thread s) as [c|] eqn:E; [|done].
  destruct (_ && _); [|done]. apply dom_insert_lookup_L. by rewrite E.
Qed.

(** Whether [schedule] puts the current thread back. *)
Definition requeues (s : sched) : Prop :=
  state_of (s_threads s) (current_thread s) = Some THREAD_STATE_RUNNING /\
  current_thread s <> idle_thread_ptr s.
#[export] Instance requeues_dec s : Decision (requeues s) := and_dec _ _.

Lemma after_pick_state (s : sched) t :
  state_of (after_pick s (s_threads s)) t =
  if decide (t = current_thread s /\ requeues s) then Some THREAD_STATE_READY
  else state_of (s_threads s) t.
Proof.
  unfold after_pick. destruct (s_threads s !! current_thread s) as [c|] eqn:E.
  2:{ rewrite decide_False; [done|]. unfold requeues, state_of. rewrite E. by intros (_ & ? & _). }
  assert (Hc : state_of (s_threads s) (current_thread s) = Some (th_state c)) by (unfold state_of; by rewrite E).
  destruct (Z.eqb_spec (th_state c) THREAD_STATE_RUNNING) as [Hr|Hr]; cbn [andb].
  2:{ rewrite decide_False; [done|]. unfold requeues. rewrite Hc. by intros (_ & [=] & _). }
  destruct (Z.eqb_spec (current_thread s) (idle_thread_ptr s)) as [Hi|Hi]; cbn [negb].
  { rewrite decide_False; [done|]. unfold requeues. naive_solver. }
  rewrite state_of_insert. destruct (decide (t = current_thread s)) as [->|Ht].
  - rewrite decide_True by done. rewrite decide_True; [done|]. unfold requeues. by rewrite Hc, Hr.
  - rewrite decide_False by done. by rewrite decide_False by naive_solver.
Qed.

Lemma requeued_in (s : sched) q t :
  t ∈ requeued s q <-> t ∈ tail q \/ (t = current_thread s /\ requeues s).
Proof.
  unfold requeued. rewrite elem_of_app.
  destruct (decide (requeues s)) as [Hr|Hr];
    [rewrite bool_decide_eq_true_2 by done|rewrite bool_decide_eq_false_2 by done]; set_solver.
Qed.

Lemma head_not_requeued (s : sched) q :
  sched_inv s q -> hd (idle_thread_ptr s) q ∉ requeued s q.
Proof.
  intros I. rewrite requeued_in. destruct q as [|a q]; simpl.
  { intros [?%elem_of_nil|[E [_ Hn]]]; [done|]. by apply Hn. }
  pose proof (chain_NoDup _ _ _ (si_chain _ _ I)) as [Ha _]%NoDup_cons.
  intros [?|[-> [Hr _]]]; [done|]. rewrite (si_ready _ _ I) in Hr by left. done.
Qed.

Lemma head_alive (s : sched) q :
  sched_inv s q -> hd (idle_thread_ptr s) q <> 0 /\
  is_Some (s_threads s !! hd (idle_thread_ptr s) q).
Proof.
  intros I. destruct q as [|a q]; simpl.
  - split; [apply I|]. destruct (si_idle _ _ I) as [E|E];
      destruct (state_of_Some _ _ _ E) as (th & -> & _); eauto.
  - apply (chain_nonzero _ _ _ _ (si_chain _ _ I)). left.
Qed.

(** The invariant speaks of the store only through links and states. *)
Lemma sched_inv_step (s s' : sched) q :
  sched_inv s q -> sched_lock s' = 0 -> idle_thread_ptr s' = idle_thread_ptr s ->
  current_thread s' = hd (idle_thread_ptr s) q ->
  chain (s_threads s') (ready_queue s') (requeued s q) ->
  (forall t, state_of (s_threads s') t =
     if decide (t = current_thread s') then Some THREAD_STATE_RUNNING
     else if decide (t = current_thread s /\ requeues s) then Some THREAD_STATE_READY
     else state_of (s_threads s) t) ->
  sched_inv s' (requeued s q) /\ cur_runs s'.
Proof.
  intros I Hl Hi Hcur Hc Hst.
  assert (Hout : current_thread s' ∉ requeued s q) by (rewrite Hcur; by apply head_not_requeued).
  assert (Hrun : state_of (s_threads s') (current_thread s') = Some THREAD_STATE_RUNNING)
    by (rewrite Hst; by rewrite decide_True).
  assert (Hq : forall t, t ∈ q -> t = current_thread s' \/ t ∈ tail q).
  { intros t. rewrite Hcur. destruct q; simpl; [by intros ?%elem_of_nil|]. by intros ?%elem_of_cons. }
  assert (Hnz : current_thread s' <> 0) by (rewrite Hcur; by apply head_alive).
  split; [|by left]. split; try done; rewrite ?Hi.
  - intros t Ht. rewrite Hst. rewrite decide_False by (by intros ->).
    case_decide as Hd; [done|]. apply requeued_in in Ht as [Ht|Ht]; [|done].
    apply (si_ready _ _ I). destruct q; [by apply elem_of_nil in Ht|by right].
  - intros t. rewrite Hst. rewrite requeued_in. case_decide; [done|]. case_decide as Hd; [by left; right|].
    intros [Ht|Ht]%(si_lost _ _ I); [|by right]. destruct (Hq t Ht); [done|]. by left; left.
  - intros t. rewrite Hst. case_decide; [by left|]. case_decide as Hd; [done|].
    intros Ht. destruct (si_running _ _ I t Ht) as [->|]; [|by right]. right.
    destruct (decide (current_thread s = idle_thread_ptr s)) as [|Hne]; [done|].
    exfalso. by apply Hd.
  - rewrite Hst. case_decide; [by right|]. rewrite decide_False by (intros [E [_ ?]]; done). apply I.
  - rewrite requeued_in. intros [Ht|[E [_ ?]]]; [|done]. apply (si_idle_out _ _ I).
    destruct q; [by apply elem_of_nil in Ht|by right].
  - apply I.
Qed.

(** The fields of a thread that only its creation and the switch itself set. *)
Definition same_frame (a b : thread) : Prop :=
  th_rsp b = th_rsp a /\ th_kernel_stack b = th_kernel_stack a /\ th_cr3 b = th_cr3 a /\ th_process b = th_process a.

Lemma after_pick_frame (s : sched) h t th : after_pick s h !! t = Some th -> exists a, h !! t = Some a /\ same_frame a th.
Proof.
  unfold after_pick. intros E. destruct (h !! current_thread s) as [c|] eqn:Ec; [destruct (_ && _)|]; [|by exists th|by exists th].
  apply lookup_insert_Some in E as [[<- <-]|[_ E]]; [exists c|exists th]; done.
Qed.

(** The state in which the chosen thread runs. *)
Lemma schedule_full (s : sched) q :
  sched_inv s q ->
  exists s', schedule s = Switch s' (fun x => Ret tt x) /\
    sched_inv s' (requeued s q) /\ cur_runs s' /\
    current_thread s' = hd (idle_thread_ptr s) q /\
    idle_thread_ptr s' = idle_thread_ptr s /\ s_heap s' = s_heap s /\
    dom (s_threads s') = dom (s_threads s) /\
    (exists n, s_threads s' !! current_thread s' = Some n /\ th_state n = THREAD_STATE_RUNNING /\
       s_cr3 s' = th_cr3 n /\ s_tss s' = tss_set_rsp0 (th_kernel_stack n) (s_tss s) /\
       current_process s' = if truthy (th_process n) then th_process n else current_process s) /\
    (forall t, ~ (t = current_thread s /\ requeues s) -> t <> current_thread s' ->
       state_of (s_threads s') t = state_of (s_threads s) t) /\
    s_stack s' = s_stack s /\
    (forall t b, s_threads s' !! t = Some b -> exists a, s_threads s !! t = Some a /\ same_frame a b).
Proof.
  intros I. destruct (si_cur _ _ I) as [x Hx]. destruct (state_of_Some _ _ _ Hx) as (c & Hc & _).
  assert (Hout : th_state c = THREAD_STATE_RUNNING -> current_thread s ∉ q).
  { intros Hr Hin. apply (si_ready _ _ I) in Hin. unfold state_of in Hin. rewrite Hc in Hin. simpl in Hin.
    rewrite Hr in Hin. done. }
  unfold schedule, lock_sched. mstep. rewrite (si_lock _ _ I). cbn [Z.eqb bindr].
  change (current_thread (set_sched_lock 1 s)) with (current_thread s).
  destruct (Z.eqb_spec (current_thread s) 0) as [Hz|Hnz]; [by destruct (si_cur_nz _ _ I)|].
  destruct (pick_next_spec (set_sched_lock 1 s) q c (si_chain _ _ I) Hout Hnz Hc)
    as (h' & r' & E & Hch & Hcore).
  change (current_thread (set_sched_lock 1 s)) with (current_thread s) in E. rewrite E. clear E. cbn [bindr].
  change (idle_thread_ptr (set_sched_lock 1 s)) with (idle_thread_ptr s).
  set (next := hd (idle_thread_ptr s) q).
  destruct (head_alive s q I) as [Hn0 [n0 Hn0']]. fold next in Hn0, Hn0'.
  assert (Hdom : dom h' = dom (s_threads s)) by (rewrite (core_dom _ _ Hcore); apply after_pick_dom).
  destruct (h' !! next) as [n|] eqn:Hn.
  2:{ apply not_elem_of_dom in Hn. rewrite Hdom in Hn. apply elem_of_dom_2 in Hn0'. done. }
  rewrite (on_update _ next n) by done. cbn [bindr].
  rewrite (on_deref _ next (set_th_state THREAD_STATE_RUNNING n)) by (try done; apply lookup_insert_eq).
  cbn [bindr]. set (h2 := <[next := set_th_state THREAD_STATE_RUNNING n]> h').
  assert (Hst : forall t, state_of h2 t =
     if decide (t = next) then Some THREAD_STATE_RUNNING
     else if decide (t = current_thread s /\ requeues s) then Some THREAD_STATE_READY
     else state_of (s_threads s) t).
  { intros t. unfold h2. rewrite state_of_insert. destruct (decide (t = next)) as [->|Ht].
    - by rewrite decide_True.
    - rewrite decide_False by done. rewrite (state_of_core _ _ t Hcore).
      apply (after_pick_state (set_sched_lock 1 s)). }
  assert (Hch2 : chain h2 r' (requeued s q)) by (apply chain_insert; [by apply head_not_requeued|done]).
  assert (Hd2 : dom h2 = dom (s_threads s)).
  { unfold h2. rewrite dom_insert_lookup_L by (by rewrite Hn). done. }
  cbn [th_process th_cr3 th_kernel_stack set_th_state].
  set (s2 := mk_sched (s_heap s) h2 (s_stack s) next r' (idle_thread_ptr s) (thread_count s) 0
    (tss_set_rsp0 (th_kernel_stack n) (s_tss s))
    (if truthy (th_process n) then th_process n else current_process s) (th_cr3 n)).
  exists s2. split.
  { unfold s2. destruct (truthy (th_process n)); reflexivity. }
  destruct (sched_inv_step s s2 q)
    as [I' Hrun]; try done.
  split; [done|]. split; [done|]. repeat (split; [done|]). split.
  - exists (set_th_state THREAD_STATE_RUNNING n). split; [apply lookup_insert_eq|done].
  - split; [intros t H1 H2; simpl in H2; simpl; by rewrite Hst, !decide_False by done|]. split; [done|].
    assert (Hfr : forall t b, h' !! t = Some b -> exists a, s_threads s !! t = Some a /\ same_frame a b).
    { intros t b Hb. destruct (core_lookup _ _ t b Hcore Hb) as (b' & Hb' & Hbx). destruct (after_pick_frame _ _ _ _ Hb') as (a & Ha & Hf).
      exists a. split; [exact Ha|]. unfold same_frame in *. destruct b, b'. cbn in *. injection Hbx as -> -> -> -> -> ->. exact Hf. }
    intros t b. cbn [s2 s_threads]. unfold h2. intros [[<- <-]|[_ Hb]]%lookup_insert_Some; [|by apply Hfr].
    destruct (Hfr next n Hn) as (a & Ha & Hf). by exists a.
Qed.

Lemma schedule_gen (s : sched) q :
  sched_inv s q ->
  exists s', schedule s = Switch s' (fun x => Ret tt x) /\
    sched_inv s' (requeued s q) /\ cur_runs s' /\
    current_thread s' = hd (idle_thread_ptr s) q /\
    idle_thread_ptr s' = idle_thread_ptr s /\ s_heap s' = s_heap s /\
    dom (s_threads s') = dom (s_threads s) /\
    (exists n, s_threads s' !! current_thread s' = Some n /\ th_state n = THREAD_STATE_RUNNING /\
       s_cr3 s' = th_cr3 n /\ s_tss s' = tss_set_rsp0 (th_kernel_stack n) (s_tss s) /\
       current_process s' = if truthy (th_process n) then th_process n else current_process s) /\
    (forall t, ~ (t = current_thread s /\ requeues s) -> t <> current_thread s' ->
       state_of (s_threads s') t = state_of (s_threads s) t).
Proof.
  intros I. destruct (schedule_full s q I) as (s' & E & I' & Hr & Hc & Hi & Hh & Hd & Hn & Ho & _). by exists s'.
Qed.

(** ** Giving up the processor *)

(** Parking the running current thread: any state other than running or
    ready. *)
Lemma sched_inv_park (s s' : sched) q c x :
  sched_inv s q -> requeues s -> x <> THREAD_STATE_RUNNING -> x <> THREAD_STATE_READY ->
  th_state c = x -> s' = set_threads (<[current_thread s := c]> (s_threads s)) s ->
  sched_inv s' q /\ ~ requeues s'.
Proof.
  intros I [Hr Hi] X1 X2 Hc ->.
  assert (Hout : current_thread s ∉ q) by (intros Hin%(si_ready _ _ I); two_states).
  assert (Hst : forall t, state_of (<[current_thread s := c]> (s_threads s)) t =
    if decide (current_thread s = t) then Some x else state_of (s_threads s) t).
  { intros t. by rewrite state_of_insert, Hc. }
  split; [split|]; cbn [s_threads set_threads current_thread idle_thread_ptr ready_queue sched_lock].
  - apply I.
  - apply chain_insert; [done|apply I].
  - intros t Ht. rewrite Hst, decide_False by (by intros <-). by apply (si_ready _ _ I).
  - intros t. rewrite Hst. case_decide; [congruence|]. apply (si_lost _ _ I).
  - intros t. rewrite Hst. case_decide; [by left|]. apply (si_running _ _ I).
  - rewrite Hst, decide_False by done. apply I.
  - apply I.
  - apply I.
  - rewrite Hst, decide_True by done. eauto.
  - apply I.
  - unfold requeues. cbn [s_threads set_threads current_thread]. rewrite Hst, decide_True by done. naive_solver.
Qed.

Lemma requeued_tail (s : sched) q : ~ requeues s -> requeued s q = tail q.
Proof. intros Hr. unfold requeued. rewrite bool_decide_eq_false_2 by done. apply app_nil_r. Qed.

Lemma block_current_spec (s : sched) q :
  sched_inv s q -> requeues s ->
  exists s', block_current s = Ret tt s' /\ sched_inv s' q /\ ~ requeues s' /\
    state_of (s_threads s') (current_thread s) = Some THREAD_STATE_BLOCKED /\
    current_thread s' = current_thread s /\ idle_thread_ptr s' = idle_thread_ptr s /\
    s_heap s' = s_heap s /\ dom (s_threads s') = dom (s_threads s).
Proof.
  intros I Hr. destruct (state_of_Some _ _ _ (proj1 Hr)) as (c & Hc & _).
  unfold block_current, lock_sched. mstep. rewrite (si_lock _ _ I). cbn [Z.eqb bindr].
  rewrite (on_update _ _ c) by (try done; apply I). cbn [bindr].
  set (c' := set_th_state THREAD_STATE_BLOCKED c).
  set (s' := set_threads (<[current_thread s := c']> (s_threads s)) s).
  destruct (sched_inv_park s s' q c' THREAD_STATE_BLOCKED I Hr) as [I' Hn]; [done|done|done|done|].
  exists s'. split; [unfold unlock_sched; mstep; pose proof (si_lock _ _ I); destruct s; simpl in *; by subst|].
  split; [done|]. split; [done|]. split; [unfold s'; cbn; by rewrite state_of_insert, decide_True|].
  repeat (split; [done|]). unfold s'. cbn. apply dom_insert_lookup_L. eauto.
Qed.

Lemma exit_current_spec (s : sched) q :
  sched_inv s q -> requeues s ->
  exists s', exit_current s = Ret tt s' /\ sched_inv s' q /\ ~ requeues s' /\
    state_of (s_threads s') (current_thread s) = Some 0 /\
    current_thread s' = current_thread s /\ idle_thread_ptr s' = idle_thread_ptr s /\
    s_heap s' = s_heap s /\ dom (s_threads s') = dom (s_threads s).
Proof.
  intros I Hr. destruct (state_of_Some _ _ _ (proj1 Hr)) as (c & Hc & _).
  unfold exit_current, lock_sched. mstep. rewrite (si_lock _ _ I). cbn [Z.eqb bindr].
  change (current_thread (set_sched_lock 1 s)) with (current_thread s).
  assert (Ht : truthy (current_thread s) = true).
  { unfold truthy. destruct (Z.eqb_spec (current_thread s) 0); [by destruct (si_cur_nz _ _ I)|done]. }
  rewrite Ht. rewrite (on_update _ _ c) by (try done; apply I). cbn [bindr].
  rewrite (on_update _ _ (set_th_state 0 c)) by (first [apply I|apply lookup_insert_eq]). cbn [bindr].
  set (c' := set_th_next 0 (set_th_state 0 c)).
  set (s' := set_threads (<[current_thread s := c']> (s_threads s)) s).
  destruct (sched_inv_park s s' q c' 0 I Hr) as [I' Hn]; [done|done|done|done|].
  exists s'. split.
  { unfold unlock_sched; mstep. cbn [s_threads set_threads set_sched_lock]. rewrite insert_insert_eq.
    pose proof (si_lock _ _ I). destruct s; simpl in *; by subst. }
  split; [done|]. split; [done|]. split; [unfold s'; cbn; by rewrite state_of_insert, decide_True|].
  repeat (split; [done|]). unfold s'. cbn. apply dom_insert_lookup_L. eauto.
Qed.

(** ** Waking a thread *)

Lemma thread_unblock_spec (s : sched) q t :
  sched_inv s q -> t <> 0 -> is_Some (s_threads s !! t) ->
  exists s', thread_unblock t s = Ret tt s' /\
    sched_inv s' (q ++ if decide (state_of (s_threads s) t = Some THREAD_STATE_BLOCKED) then [t] else []) /\
    (state_of (s_threads s) t = Some THREAD_STATE_BLOCKED ->
       state_of (s_threads s') t = Some THREAD_STATE_READY) /\
    (forall u, u <> t \/ state_of (s_threads s) t <> Some THREAD_STATE_BLOCKED ->
       state_of (s_threads s') u = state_of (s_threads s) u) /\
    current_thread s' = current_thread s /\ idle_thread_ptr s' = idle_thread_ptr s /\
    s_heap s' = s_heap s /\ dom (s_threads s') = dom (s_threads s).
Proof.
  intros I H0 [th Ht]. assert (Hth : state_of (s_threads s) t = Some (th_state th)) by (unfold state_of; by rewrite Ht).
  unfold thread_unblock, lock_sched. mstep. rewrite (si_lock _ _ I). cbn [Z.eqb bindr].
  rewrite (on_deref _ t th) by done. rewrite set_threads_id. cbn [bindr].
  destruct (Z.eqb_spec (th_state th) THREAD_STATE_BLOCKED) as [Hb|Hb]; cbn [bindr].
  2:{ rewrite decide_False by (rewrite Hth; by intros [=]). rewrite app_nil_r. exists s.
      split; [unfold unlock_sched; mstep; pose proof (si_lock _ _ I); destruct s; simpl in *; by subst|].
      split; [done|]. split; [rewrite Hth; by intros [=]|done]. }
  rewrite Hb in Hth. rewrite decide_True by done. rewrite (on_update _ t th) by done. cbn [bindr].
  set (th' := set_th_state THREAD_STATE_READY th). set (h1 := <[t := th']> (s_threads s)).
  assert (Hq : t ∉ q) by (intros Hin%(si_ready _ _ I); two_states).
  destruct (enqueue_tail_spec (set_threads h1 (set_sched_lock 1 s)) q t th') as (h' & r' & E & Hc & Hcore).
  { apply chain_insert; [done|apply I]. } { done. } { done. } { apply lookup_insert_eq. }
  cbn [s_threads set_threads] in E, Hcore. fold h1. cbn [s_threads set_sched_lock]. fold h1. rewrite E. cbn [bindr].
  assert (Hst : forall u, state_of h' u = if decide (t = u) then Some THREAD_STATE_READY else state_of (s_threads s) u).
  { intros u. rewrite (state_of_core _ _ u Hcore). unfold h1. by rewrite state_of_insert. }
  exists (set_ready_queue r' (set_threads h' s)).
  split; [unfold unlock_sched; mstep; pose proof (si_lock _ _ I); destruct s; simpl in *; by subst|].
  split; [split|]; cbn [s_threads set_threads set_ready_queue current_thread idle_thread_ptr ready_queue sched_lock].
  - apply I.
  - done.
  - intros u [Hu|Hu%list_elem_of_singleton]%elem_of_app; rewrite Hst; [|by rewrite decide_True].
    case_decide; [done|]. by apply (si_ready _ _ I).
  - intros u. rewrite Hst, elem_of_app. case_decide as E'; [intros _; left; right; subst; left|].
    intros [?|?]%(si_lost _ _ I); tauto.
  - intros u. rewrite Hst. case_decide; [done|]. apply (si_running _ _ I).
  - rewrite Hst, decide_False; [apply I|]. intros ->. destruct (si_idle _ _ I); two_states.
  - intros [Hu|Hu%list_elem_of_singleton]%elem_of_app; [by apply (si_idle_out _ _ I)|].
    destruct (si_idle _ _ I); two_states.
  - apply I.
  - rewrite Hst. case_decide; [eauto|apply I].
  - apply I.
  - split; [intros _; by rewrite Hst, decide_True|]. split; [intros u [Hu|Hu]; [by rewrite Hst, decide_False|done]|].
    repeat (split; [done|]). cbn. rewrite (core_dom _ _ Hcore). apply dom_insert_lookup_L. eauto.
Qed.

(** ** Creating threads *)

(** The heap is in order and every thread lives in a block in use. *)
Definition heap_ok (s : sched) (ls : list (Z * Z)) : Prop :=
  kh_view (s_heap s) ls /\ forall t, t ∈ dom (s_threads s) -> t ∈ ls.*1.

(** The frame pool may be too small for one of the two blocks of a thread. *)
Definition thread_scarce (h : H) : Prop :=
  kh_scarce h sizeof_thread \/
  exists p h', kh_malloc sizeof_thread h = Ret p h' /\ kh_scarce h' STACK_SIZE.

Lemma alloc_thread_spec (s : sched) ls :
  heap_ok s ls ->
  (exists t stack h' ls', alloc_thread s = Ret (Some (t, stack)) (set_heap h' s) /\
     t <> 0 /\ t ∉ dom (s_threads s) /\ stack <> 0 /\ kh_view h' ls' /\ t ∈ ls'.*1 /\
     (exists z, STACK_SIZE <= z /\ ls' = (stack, z) :: tail ls') /\ (forall x, x ∈ ls -> x ∈ ls')) \/
  (thread_scarce (s_heap s) /\
   (alloc_thread s = Fault \/ exists h', alloc_thread s = Ret None (set_heap h' s) /\ kh_view h' ls)).
Proof.
  intros [Hv Hd]. unfold alloc_thread, on_heap. mstep.
  destruct (kh_malloc_spec sizeof_thread (s_heap s) ls) as
    [(t & zt & h1 & E1 & Ht & Hzt & Hf1 & Hv1)|(Hsc & [E1|(h1 & E1 & Hv1)])]; [done|done| | |].
  2:{ right. split; [by left|]. left. by rewrite E1. }
  2:{ right. split; [by left|]. right. exists h1. by rewrite E1. }
  rewrite E1. cbn [zoomr bindr]. destruct (Z.eqb_spec t 0) as [|_]; [done|].
  destruct (kh_malloc_spec STACK_SIZE h1 ((t, zt) :: ls)) as
    [(k & zk & h2 & E2 & Hk & Hzk & Hf2 & Hv2)|(Hsc & [E2|(h2 & E2 & Hv2)])]; [done|done| | |];
    cbn [s_heap set_heap]; rewrite E2; cbn [zoomr bindr].
  - left. destruct (Z.eqb_spec k 0) as [|_]; [done|].
    exists t, k, h2, ((k, zk) :: (t, zt) :: ls). split; [by destruct s|]. split; [done|].
    split; [by intros Hin%Hd|]. split; [done|]. split; [done|]. split; [simpl; right; left|].
    split; [by exists zk|]. intros x Hx. by do 2 right.
  - right. split; [right; eauto|]. by left.
  - right. split; [right; eauto|]. right. cbn [Z.eqb].
    destruct (kh_free_spec _ _ _ _ Hv2) as (h3 & E3 & Hv3). cbn [s_heap set_heap]. rewrite E3.
    exists h3. split; [by destruct s|done].
Qed.

(** Pushing a new ready thread on the queue. *)
Lemma sched_inv_push (s s' : sched) q t th :
  sched_inv s q -> t <> 0 -> t ∉ dom (s_threads s) ->
  th_state th = THREAD_STATE_READY -> th_next th = ready_queue s ->
  sched_lock s' = 0 -> s_threads s' = <[t := th]> (s_threads s) -> ready_queue s' = t ->
  current_thread s' = current_thread s -> idle_thread_ptr s' = idle_thread_ptr s ->
  sched_inv s' (t :: q).
Proof.
  intros I H0 Hd Hs Hn El Et Eq Ec Ei.
  assert (Hno : forall u, is_Some (s_threads s !! u) -> t <> u).
  { intros u Hu ->. by apply Hd, elem_of_dom. }
  assert (Hq : t ∉ q) by (intros Hin; destruct (chain_nonzero _ _ _ _ (si_chain _ _ I) Hin) as [_ Hs']; by apply (Hno t Hs')).
  assert (Hst : forall u, state_of (s_threads s') u =
    if decide (t = u) then Some THREAD_STATE_READY else state_of (s_threads s) u).
  { intros u. by rewrite Et, state_of_insert, Hs. }
  assert (Hal : forall u x, state_of (s_threads s) u = Some x -> t <> u).
  { intros u x Hu. apply Hno. destruct (state_of_Some _ _ _ Hu) as (n & -> & _). eauto. }
  split; rewrite ?Ec, ?Ei; try apply I; try done.
  - rewrite Et, Eq. split; [done|]. split; [done|]. exists th. split; [apply lookup_insert_eq|].
    cbn [nxt thread_Linked]. rewrite Hn. apply chain_insert; [done|apply I].
  - intros u Hu. rewrite Hst. case_decide; [done|]. apply elem_of_cons in Hu as [->|Hu]; [done|].
    by apply (si_ready _ _ I).
  - intros u. rewrite Hst. case_decide as E; [intros _; left; subst; left|].
    intros [?|?]%(si_lost _ _ I); [left; by right|by right].
  - intros u. rewrite Hst. case_decide; [done|]. apply (si_running _ _ I).
  - rewrite Hst. case_decide as E; [by left|]. apply I.
  - intros [E|Hu]%elem_of_cons; [|by apply (si_idle_out _ _ I)].
    destruct (si_idle _ _ I) as [Hi|Hi]; by apply (Hal _ _ Hi).
  - destruct (si_cur _ _ I) as [x Hx]. rewrite Hst, Hx. case_decide; eauto.
Qed.

(** What [thread_create] and [thread_create_user] do once both blocks are
    there: [th] is the new record, [st] the words put on its stack. *)
Definition created (s s' : sched) (t : Z) (th : thread) (st : gmap Z Z) (h' : H) : Prop :=
  s' = mk_sched h' (<[t := set_th_next (ready_queue s) th]> (s_threads s)) st
    (current_thread s) t (idle_thread_ptr s) (i32 (thread_count s + 1)) 0 (s_tss s)
    (current_process s) (s_cr3 s).

Lemma created_inv (s s' : sched) q ls' t th st h' :
  sched_inv s q -> t <> 0 -> t ∉ dom (s_threads s) -> th_state th = THREAD_STATE_READY ->
  kh_view h' ls' -> t ∈ ls'.*1 -> (forall u, u ∈ dom (s_threads s) -> u ∈ ls'.*1) ->
  created s s' t th st h' ->
  sched_inv s' (t :: q) /\ heap_ok s' ls'.
Proof.
  intros I H0 Hd Hs Hv Ht Hls ->. split.
  - by apply (sched_inv_push s _ q t (set_th_next (ready_queue s) th)).
  - split; [done|]. cbn [s_threads]. intros u. rewrite dom_insert_L. set_solver.
Qed.

(** The stack a new kernel thread starts on: six zero registers and the
    entry point. *)
Definition kstack_words (stack entry : Z) (st : gmap Z Z) : gmap Z Z :=
  let stk := stack + STACK_SIZE - 8 * 7 in
  <[stk + 8 * 6 := u64 entry]> (<[stk + 8 * 5 := 0]> (<[stk + 8 * 4 := 0]> (<[stk + 8 * 3 := 0]>
    (<[stk + 8 * 2 := 0]> (<[stk + 8 * 1 := 0]> (<[stk + 8 * 0 := 0]> st)))))).

(** The stack of a new user thread: six zero registers, [userspace_entry]
    and the five words meant for [iretq]. *)
Definition ustack_words (ue stack entry ustack : Z) (st : gmap Z Z) : gmap Z Z :=
  let stk := stack + STACK_SIZE - 8 * 5 in
  let lo := stk - 8 - 8 * 6 in
  <[lo + 8 * 5 := 0]> (<[lo + 8 * 4 := 0]> (<[lo + 8 * 3 := 0]>
  (<[lo + 8 * 2 := 0]> (<[lo + 8 * 1 := 0]> (<[lo + 8 * 0 := 0]> (<[stk - 8 := u64 ue]>
  (<[stk + 8 * 4 := u64 entry]> (<[stk + 8 * 3 := 0x1B]> (<[stk + 8 * 2 := 0x202]>
  (<[stk + 8 * 1 := u64 ustack]> (<[stk + 8 * 0 := 0x23]> st))))))))))).

(** The three ways a creation can end. *)
Definition create_spec (m : M sched Z) (s : sched) (q : list Z) (ls : list (Z * Z))
    (th : Z -> thread) (words : Z -> gmap Z Z -> gmap Z Z) : Prop :=
  (exists t stack z s' ls', m s = Ret t s' /\ t <> 0 /\ t ∉ dom (s_threads s) /\
     STACK_SIZE <= z /\ (stack, z) ∈ ls' /\ (forall x, x ∈ ls -> x ∈ ls') /\
     created s s' t (th stack) (words stack (s_stack s)) (s_heap s') /\
     sched_inv s' (t :: q) /\ heap_ok s' ls') \/
  (thread_scarce (s_heap s) /\
   (m s = Fault \/ exists h', m s = Ret 0 (set_heap h' s) /\ sched_inv (set_heap h' s) q /\
      heap_ok (set_heap h' s) ls)).

Lemma sched_inv_heap (s : sched) q h' : sched_inv s q -> sched_inv (set_heap h' s) q.
Proof. intros []. by split. Qed.

(** Both functions allocate, fill the stack and the record, and push. *)
Lemma create_gen (m : M sched Z) (f : Z -> Z -> M sched Z) (s : sched) q ls th words :
  sched_inv s q -> heap_ok s ls ->
  m s = bindr (alloc_thread s)
    (fun o => match o with None => mret 0 | Some (t, stack) => f t stack end) ->
  (forall k, th_state (th k) = THREAD_STATE_READY) ->
  (forall t k s0, sched_lock s0 = 0 -> t <> 0 -> exists s1, f t k s0 = Ret t s1 /\
     created s0 s1 t (th k) (words k (s_stack s0)) (s_heap s0)) ->
  create_spec m s q ls th words.
Proof.
  intros I Hok Hm Hth Hf. unfold create_spec. rewrite Hm.
  destruct (alloc_thread_spec s ls Hok) as
    [(t & k & h' & ls' & E & H0 & Hd & Hk & Hv & Ht & (z & Hz & Els) & Hsub)|
     (Hsc & [E|(h' & E & Hv)])]; rewrite E; cbn [bindr].
  - left. destruct (Hf t k (set_heap h' s)) as (s1 & E1 & Hc); [apply I|done|].
    change (created s s1 t (th k) (words k (s_stack s)) h') in Hc.
    exists t, k, z, s1, ls'. split; [done|]. split; [done|]. split; [done|]. split; [done|].
    split; [rewrite Els; left|]. split; [done|]. split; [unfold created in *; by subst s1|].
    apply (created_inv s s1 q ls' t (th k) (words k (s_stack s)) h'); try done.
    intros u Hu. destruct Hok as [_ Hin]. apply Hin in Hu. apply list_elem_of_fmap in Hu as (x & -> & Hx).
    apply list_elem_of_fmap. exists x. auto.
  - right. split; [done|]. by left.
  - right. split; [done|]. right. exists h'. split; [done|]. split; [by apply sched_inv_heap|].
    split; [done|]. apply Hok.
Qed.

Lemma add_thread_ok (s : sched) t th st :
  sched_lock s = 0 -> t <> 0 ->
  (mset (fun s => set_threads (<[t := th]> (s_threads s)) s) ;;; scheduler_add_thread t ;;; mret t)
    (set_stack st s) = Ret t (mk_sched (s_heap s) (<[t := set_th_next (ready_queue s) th]> (s_threads s)) st
    (current_thread s) t (idle_thread_ptr s) (i32 (thread_count s + 1)) 0 (s_tss s)
    (current_process s) (s_cr3 s)).
Proof.
  intros Hl H0. unfold scheduler_add_thread, lock_sched, unlock_sched. mstep.
  cbn [sched_lock set_threads set_stack]. rewrite Hl. cbn [Z.eqb bindr].
  rewrite (on_update _ t th) by (first [done|apply lookup_insert_eq]). cbn [bindr].
  cbn [s_threads set_threads set_stack set_sched_lock]. rewrite insert_insert_eq. by destruct s.
Qed.

Lemma thread_create_gen junk (s : sched) q ls entry cr3 proc :
  sched_inv s q -> heap_ok s ls ->
  create_spec (thread_create junk entry cr3 proc) s q ls
    (fun k => mk_thread (k + STACK_SIZE - 8 * 7) (k + STACK_SIZE) THREAD_STATE_READY cr3 0 proc junk)
    (fun k => kstack_words k entry).
Proof.
  intros I Hok. eapply (create_gen _ (kthread_setup junk entry cr3 proc)); [done|done|reflexivity|done|].
  intros t k s0 Hl H0. eexists. split; [|reflexivity]. cbv beta.
  pose proof (add_thread_ok s0 t (mk_thread (k + STACK_SIZE - 8 * 7) (k + STACK_SIZE) THREAD_STATE_READY cr3 0 proc junk)
    (kstack_words k entry (s_stack s0)) Hl H0) as E. exact E.
Qed.

Lemma thread_create_user_gen junk ue (s : sched) q ls entry ustack cr3 proc :
  sched_inv s q -> heap_ok s ls ->
  create_spec (thread_create_user junk ue entry ustack cr3 proc) s q ls
    (fun k => mk_thread (k + STACK_SIZE - 8 * 5 - 8 - 8 * 6) (k + STACK_SIZE) THREAD_STATE_READY cr3 0 proc junk)
    (fun k => ustack_words ue k entry ustack).
Proof.
  intros I Hok. eapply (create_gen _ (uthread_setup junk ue entry ustack cr3 proc)); [done|done|reflexivity|done|].
  intros t k s0 Hl H0. eexists. split; [|reflexivity]. cbv beta.
  pose proof (add_thread_ok s0 t (mk_thread (k + STACK_SIZE - 8 * 5 - 8 - 8 * 6) (k + STACK_SIZE) THREAD_STATE_READY cr3 0 proc junk)
    (ustack_words ue k entry ustack (s_stack s0)) Hl H0) as E. exact E.
Qed.

(** ** Waking and blocking, for the clients *)

Definition blocked (s : sched) (t : Z) : Prop := state_of (s_threads s) t = Some THREAD_STATE_BLOCKED.
#[export] Instance blocked_dec s t : Decision (blocked s t) := decide (_ = _).


(** What changes for nobody but the woken threads. *)
Definition same_others (s s' : sched) (ts : list Z) : Prop :=
  (forall t, t ∉ ts -> state_of (s_threads s') t = state_of (s_threads s) t) /\
  current_thread s' = current_thread s /\ idle_thread_ptr s' = idle_thread_ptr s /\
  dom (s_threads s') = dom (s_threads s).


Lemma same_others_trans (s1 s2 s3 : sched) ts1 ts2 :
  same_others s1 s2 ts1 -> same_others s2 s3 ts2 -> same_others s1 s3 (ts1 ++ ts2).
Proof.
  intros (A1 & B1 & C1 & D1) (A2 & B2 & C2 & D2). split; [|split_and!; congruence].
  intros t [H1 H2]%not_elem_of_app. by rewrite A2, A1.
Qed.


Lemma filter_blocked_ext (s1 s2 : sched) (ts : list Z) :
  (forall t, t ∈ ts -> state_of (s_threads s1) t = state_of (s_threads s2) t) ->
  filter (blocked s1) ts = filter (blocked s2) ts.
Proof.
  induction ts as [|t ts IH]; intros He; [done|]. rewrite !filter_cons.
  rewrite IH by (intros u Hu; apply He; by right). specialize (He t ltac:(left)). unfold blocked at 1 3.
  rewrite (decide_ext (state_of (s_threads s1) t = Some THREAD_STATE_BLOCKED)
    (state_of (s_threads s2) t = Some THREAD_STATE_BLOCKED)) by (by rewrite He). done.
Qed.


(** Blocking as seen by everybody else. *)
Lemma thread_block_gen (sc : sched) q :
  sched_inv sc q -> requeues sc ->
  exists sc', thread_block sc = Switch sc' (fun x => Ret tt x) /\ sched_inv sc' (tail q) /\
    state_of (s_threads sc') (current_thread sc) = Some THREAD_STATE_BLOCKED /\
    current_thread sc' = hd (idle_thread_ptr sc) q /\
    idle_thread_ptr sc' = idle_thread_ptr sc /\
    s_heap sc' = s_heap sc /\ dom (s_threads sc') = dom (s_threads sc) /\
    forall t, state_of (s_threads sc) t = Some THREAD_STATE_BLOCKED ->
      state_of (s_threads sc') t = Some THREAD_STATE_BLOCKED.
Proof.
  intros I Hr. destruct (block_current_spec sc q I Hr) as (s1 & E1 & I1 & Hn & Hb & Hc & Hi & Hh & Hd).
  destruct (schedule_gen s1 q I1) as (s2 & E2 & I2 & _ & Hc2 & Hi2 & Hh2 & Hd2 & _ & Ho).
  assert (Hother : forall t, state_of (s_threads s1) t = Some THREAD_STATE_BLOCKED ->
    state_of (s_threads s2) t = Some THREAD_STATE_BLOCKED).
  { intros t Ht. rewrite Ho; [done|tauto|]. rewrite Hc2. intros ->. destruct q as [|a q]; simpl in Ht.
    - destruct (si_idle _ _ I1); two_states.
    - assert (Ha : state_of (s_threads s1) a = Some THREAD_STATE_READY) by (apply (si_ready _ _ I1); left). two_states. }
  exists s2. unfold thread_block, mbind. rewrite E1. cbn [bindr]. rewrite E2.
  rewrite requeued_tail in I2 by done. split; [done|]. split; [done|]. split; [by apply Hother|].
  split; [by rewrite Hc2, Hi|]. split; [congruence|]. split; [congruence|]. split; [congruence|].
  intros t Ht. apply Hother. revert E1. unfold block_current, lock_sched, unlock_sched. mstep.
  rewrite (si_lock _ _ I). cbn [Z.eqb bindr]. destruct (state_of_Some _ _ _ (proj1 Hr)) as (c & Hcur & _).
  rewrite (on_update _ _ c) by (try done; apply I). cbn [bindr]. intros [= <-]. cbn. rewrite state_of_insert.
  by case_decide.
Qed.


Lemma thread_unblock_client (sc : sched) q t :
  sched_inv sc q -> t <> 0 -> is_Some (s_threads sc !! t) ->
  exists sc', thread_unblock t sc = Ret tt sc' /\ sched_inv sc' (q ++ filter (blocked sc) [t]) /\
    same_others sc sc' (filter (blocked sc) [t]) /\ s_heap sc' = s_heap sc /\
    (blocked sc t -> state_of (s_threads sc') t = Some THREAD_STATE_READY).
Proof.
  intros I H0 Ht.
  destruct (thread_unblock_spec sc q t I H0 Ht) as (sc' & E & I' & Hst & Ho & Hc & Hi & Hh & Hd).
  exists sc'. split; [done|]. split; [exact I'|]. split; [|done]. split; [|done].
  intros u Hu. apply Ho. destruct (decide (u = t)) as [->|]; [right|by left].
  intros Hb. apply Hu. apply list_elem_of_filter. split; [done|left].
Qed.

(** A new thread is ready, and nobody else changes. *)
Lemma created_blocked (s s' : sched) t th st h' : created s s' t th st h' -> t ∉ dom (s_threads s) -> th_state th = THREAD_STATE_READY ->
  forall u, blocked s' u <-> blocked s u.
Proof.
  intros -> Hd Hst u. unfold blocked. cbn [s_threads]. rewrite state_of_insert. case_decide as E; [|done]. subst u. cbn [set_th_next th_state].
  rewrite Hst. split; [done|]. intros Hb. apply state_of_Some in Hb as (x & Hx & _). exfalso. apply Hd. apply elem_of_dom. eauto.
Qed.
End SchedFacts.
