(* ===== verification/SchedRun.v ===== *)
(** * Runs of the scheduler (src/kernel/scheduler.c)

    The calls threads and interrupt handlers make, in any order, as a
    transition system; what every reachable state satisfies; and when a ready
    thread gets the processor. *)

From stdpp Require Import base gmap list fin_maps.
From Stdlib Require Import ZArith Lia.
From S2P Require Import Prelude Mem Pmm Vmm PageTables Heap HeapFacts KernelMem Chain Descriptors Sched SchedFacts.

Section SchedRun.
Context {H : Type} `{HK : KHeap H}.
Context (junk userspace_entry : Z).
#[local] Abbreviation sched := (@sched_t H).

(** ** Calls

    [thread_block] and [thread_exit] are split at their [spin_unlock], so that
    interrupt handlers can run between marking and [schedule]. *)
Inductive call : Type :=
| CSchedule
| CBlock
| CExit
| CUnblock (t : Z)
| CCreate (entry cr3 proc : Z)
| CCreateUser (entry ustack cr3 proc : Z).

Definition run (c : call) : M sched unit :=
  match c with
  | CSchedule => schedule
  | CBlock => block_current
  | CExit => exit_current
  | CUnblock t => thread_unblock t
  | CCreate entry cr3 proc => thread_create junk entry cr3 proc ;;; mret tt
  | CCreateUser entry ustack cr3 proc =>
      thread_create_user junk userspace_entry entry ustack cr3 proc ;;; mret tt
  end.

(** A thread blocks or exits while it runs, and never as the idle thread;
    only existing threads are woken. *)
Definition allowed (s : sched) (c : call) : Prop :=
  match c with
  | CBlock | CExit => requeues s
  | CUnblock t => t <> 0 /\ is_Some (s_threads s !! t)
  | _ => True
  end.

(** The state in which the processor goes on. *)
Definition next_state {S A} (r : res S A) : option S :=
  match r with
  | Ret _ s | Switch s _ | Gone s => Some s
  | _ => None
  end.

Inductive reach (s0 : sched) : sched -> Prop :=
| reach_refl : reach s0 s0
| reach_step s c s' : reach s0 s -> allowed s c -> next_state (run c s) = Some s' -> reach s0 s'.

Definition good (s : sched) : Prop := exists q ls, sched_inv s q /\ heap_ok s ls.

Lemma heap_ok_same (s s' : sched) ls :
  heap_ok s ls -> s_heap s' = s_heap s -> dom (s_threads s') = dom (s_threads s) -> heap_ok s' ls.
Proof. intros [Hv Hd] Eh Ed. split; [by rewrite Eh|by rewrite Ed]. Qed.

Lemma create_good (m : M sched Z) s q ls th words :
  create_spec m s q ls th words ->
  (exists s', next_state ((m ;;; mret tt) s) = Some s' /\ good s') \/
  (thread_scarce (s_heap s) /\ (m ;;; mret tt) s = Fault).
Proof.
  intros [(t & k & z & s' & ls' & E & _ & _ & _ & _ & _ & _ & I & Hok)|(Hsc & [E|(h' & E & I & Hok)])];
    unfold mbind; rewrite E; cbn.
  - left. exists s'. split; [done|]. by exists (t :: q), ls'.
  - by right.
  - left. eexists. split; [done|]. by exists q, ls.
Qed.

Lemma call_good (s : sched) c :
  good s -> allowed s c ->
  (exists s', next_state (run c s) = Some s' /\ good s') \/
  (thread_scarce (s_heap s) /\ run c s = Fault).
Proof.
  intros (q & ls & I & Hok) Ha. destruct c as [| | |t|e c p|e u c p]; cbn [run].
  - left. destruct (schedule_gen s q I) as (s' & -> & I' & _ & _ & _ & Eh & Ed & _).
    exists s'. split; [done|]. exists (requeued s q), ls. split; [done|]. by apply (heap_ok_same s).
  - left. destruct (block_current_spec s q I Ha) as (s' & -> & I' & _ & _ & _ & _ & Eh & Ed).
    exists s'. split; [done|]. exists q, ls. split; [done|]. by apply (heap_ok_same s).
  - left. destruct (exit_current_spec s q I Ha) as (s' & -> & I' & _ & _ & _ & _ & Eh & Ed).
    exists s'. split; [done|]. exists q, ls. split; [done|]. by apply (heap_ok_same s).
  - left. destruct Ha as [H0 Ht].
    destruct (thread_unblock_spec s q t I H0 Ht) as (s' & -> & I' & _ & _ & _ & _ & Eh & Ed).
    exists s'. split; [done|]. eexists _, ls. split; [done|]. by apply (heap_ok_same s).
  - eapply create_good. by apply thread_create_gen.
  - eapply create_good. by apply thread_create_user_gen.
Qed.

Lemma reach_good s0 s : good s0 -> reach s0 s -> good s.
Proof.
  intros G0. induction 1 as [|s c s' _ IH Ha E]; [done|].
  destruct (call_good s c IH Ha) as [(s'' & E' & G)|[_ E']]; rewrite E' in E; [by injection E as <-|done].
Qed.

(** ** Start *)

(** [scheduler_init] on the static initial state. *)
Lemma scheduler_init_gen h cr3 idle kcr3 ls :
  kh_view h ls ->
  (exists s ls', scheduler_init junk idle kcr3 (sched_boot h cr3) = Ret tt s /\
     sched_inv s [] /\ heap_ok s ls' /\ current_thread s = idle_thread_ptr s /\ forall t, ~ blocked s t) \/
  (thread_scarce h /\
   (scheduler_init junk idle kcr3 (sched_boot h cr3) = Fault \/
    exists h', scheduler_init junk idle kcr3 (sched_boot h cr3) = Ret tt (sched_boot h' cr3) /\ kh_view h' ls)).
Proof.
  intros Hv. assert (Hok : heap_ok (sched_boot h cr3) ls).
  { split; [done|]. intros t. cbn. by rewrite dom_empty_L, elem_of_empty. }
  unfold scheduler_init, thread_create. mstep.
  destruct (alloc_thread_spec (sched_boot h cr3) ls Hok) as
    [(t & k & h' & ls' & E & H0 & _ & _ & Hv' & Ht & _)|(Hsc & [E|(h' & E & Hv')])]; rewrite E; cbn [bindr].
  2:{ right. split; [done|]. by left. }
  2:{ right. split; [done|]. right. by exists h'. }
  left. pose proof (add_thread_ok (sched_boot h' cr3) t
    (mk_thread (k + STACK_SIZE - 8 * 7) (k + STACK_SIZE) THREAD_STATE_READY kcr3 0 0 junk)
    (kstack_words k idle ∅) eq_refl H0) as E1.
  assert (E2 : kthread_setup junk idle kcr3 0 t k (sched_boot h' cr3) = _) by exact E1.
  change (set_heap h' (sched_boot h cr3)) with (sched_boot h' cr3). rewrite E2. clear E1 E2 E. cbn [bindr].
  destruct (Z.eqb_spec t 0) as [|_]; [done|]. set (th := set_th_next _ _).
  rewrite (on_update _ t th) by (first [done|apply lookup_insert_eq]). cbn [bindr].
  unfold lock_sched, unlock_sched. mstep. eexists _, ls'. split; [reflexivity|].
  cbn [s_threads set_threads]. rewrite insert_insert_eq.
  assert (Hst : forall u, state_of (<[t := set_th_state THREAD_STATE_READY th]> (∅ : gmap Z thread)) u =
    if decide (t = u) then Some THREAD_STATE_READY else None).
  { intros u. rewrite state_of_insert. case_decide; [done|]. unfold state_of. by rewrite lookup_empty. }
  split; [|split; [split; [done|]|split; [done|intros u; unfold blocked; cbn [s_threads set_threads set_current_thread set_sched_lock set_ready_queue set_idle_thread_ptr]; rewrite Hst; by case_decide]]].
  - split; cbn [s_threads set_threads set_current_thread set_sched_lock set_ready_queue set_idle_thread_ptr
      current_thread idle_thread_ptr sched_lock ready_queue]; try done.
    + by intros u ?%elem_of_nil.
    + intros u. rewrite Hst. case_decide; [by right|done].
    + intros u. rewrite Hst. by case_decide.
    + rewrite Hst, decide_True by done. by left.
    + by intros ?%elem_of_nil.
    + rewrite Hst, decide_True by done. eauto.
  - intros u. cbn. rewrite dom_insert_L, dom_empty_L. set_solver.
Qed.

(** ** Fairness *)

Definition is_create (c : call) : bool :=
  match c with CCreate _ _ _ | CCreateUser _ _ _ _ => true | _ => false end.

Inductive trace : sched -> list call -> sched -> Prop :=
| trace_nil s : trace s [] s
| trace_cons s c s1 cs s2 : allowed s c -> next_state (run c s) = Some s1 ->
    trace s1 cs s2 -> trace s (c :: cs) s2.

Fixpoint schedules (cs : list call) : nat :=
  match cs with
  | [] => 0
  | CSchedule :: cs => S (schedules cs)
  | _ :: cs => schedules cs
  end.

(** One call moves a waiting thread up one place or not at all. *)
Lemma step_position (s s' : sched) c q1 t q2 :
  sched_inv s (q1 ++ t :: q2) -> is_create c = false -> allowed s c ->
  next_state (run c s) = Some s' -> (schedules [c] <= length q1)%nat ->
  exists q1' q2', sched_inv s' (q1' ++ t :: q2') /\
    (length q1 = schedules [c] + length q1')%nat.
Proof.
  intros I Hc Ha E Hl. destruct c as [| | |u|e c p|e u c p]; try discriminate Hc; cbn [run] in E.
  - destruct q1 as [|a q1]; [simpl in Hl; lia|].
    destruct (schedule_gen s _ I) as (s1 & E1 & I' & _). rewrite E1 in E. injection E as <-.
    unfold requeued in I'. simpl in I'. rewrite <- app_assoc in I'. by exists q1, (q2 ++ (if bool_decide (requeues s) then [current_thread s] else [])).
  - destruct (block_current_spec s _ I Ha) as (s1 & E1 & I' & _). rewrite E1 in E. injection E as <-. by exists q1, q2.
  - destruct (exit_current_spec s _ I Ha) as (s1 & E1 & I' & _). rewrite E1 in E. injection E as <-. by exists q1, q2.
  - destruct (thread_unblock_spec s _ u I (proj1 Ha) (proj2 Ha)) as (s1 & E1 & I' & _).
    rewrite E1 in E. injection E as <-. rewrite <- app_assoc in I'. by exists q1, (q2 ++ (if decide (state_of (s_threads s) u = Some THREAD_STATE_BLOCKED) then [u] else [])).
Qed.

Lemma trace_position (s s' : sched) cs : trace s cs s' -> forall q1 t q2,
  sched_inv s (q1 ++ t :: q2) -> Forall (fun c => is_create c = false) cs ->
  (schedules cs <= length q1)%nat ->
  exists q1' q2', sched_inv s' (q1' ++ t :: q2') /\ (length q1 = schedules cs + length q1')%nat.
Proof.
  induction 1 as [s|s c s1 cs s2 Ha E _ IH]; intros q1 t q2 I Hcs Hl.
  { by exists q1, q2. }
  assert (Hsplit : schedules (c :: cs) = (schedules [c] + schedules cs)%nat) by (by destruct c).
  apply Forall_cons in Hcs as [Hc Hcs].
  destruct (step_position s s1 c q1 t q2 I Hc Ha E) as (q1' & q2' & I' & El); [lia|].
  destruct (IH q1' t q2' I' Hcs) as (q3 & q4 & I3 & E3); [lia|].
  exists q3, q4. split; [done|]. lia.
Qed.

(** C6: round robin.  A ready thread with [n] threads before it in the queue
    is the one the [n+1]-st [schedule] switches to, whatever blocking,
    exiting and waking happens in between (thread creation apart, which
    pushes in front). *)
Theorem round_robin (s s1 : sched) q1 t q2 cs :
  sched_inv s (q1 ++ t :: q2) -> trace s cs s1 -> Forall (fun c => is_create c = false) cs ->
  schedules cs = length q1 ->
  exists s2 k, schedule s1 = Switch s2 k /\ current_thread s2 = t /\
    state_of (s_threads s2) t = Some THREAD_STATE_RUNNING.
Proof.
  intros I Ht Hcs Hn. destruct (trace_position s s1 cs Ht q1 t q2 I Hcs) as (q1' & q2' & I' & El); [lia|].
  assert (Hq1 : q1' = []) by (destruct q1'; [done|simpl in El; lia]). rewrite Hq1 in I'. simpl in I'.
  destruct (schedule_gen s1 _ I') as (s2 & E & I2 & Hr & Hcur & Hi & _). simpl in Hcur.
  exists s2, (fun x => Ret tt x). split; [done|]. split; [done|]. rewrite <- Hcur.
  destruct Hr as [Hr|Hr]; [done|]. exfalso. apply (si_idle_out _ _ I').
  rewrite <- Hi, <- Hr, Hcur. left.
Qed.

(** [schedule] on any state of the invariant: it gives the processor to
    the head of the ready queue, or to the idle thread when the queue is
    empty; the caller goes to the tail if it still runs and is not the idle
    thread; the kernel stack of the TSS, CR3 and the current process are those of the new
    thread; and no other thread changes state. *)
Theorem schedule_correct (s : sched) q :
  sched_inv s q ->
  exists s', schedule s = Switch s' (fun x => Ret tt x) /\
    sched_inv s' (tail q ++ if decide (requeues s) then [current_thread s] else []) /\
    current_thread s' = hd (idle_thread_ptr s) q /\
    (exists n, s_threads s' !! current_thread s' = Some n /\ th_state n = THREAD_STATE_RUNNING /\
       s_cr3 s' = th_cr3 n /\ s_tss s' = tss_set_rsp0 (th_kernel_stack n) (s_tss s) /\
       current_process s' = if truthy (th_process n) then th_process n else current_process s) /\
    (forall t, t <> current_thread s -> t <> current_thread s' ->
       state_of (s_threads s') t = state_of (s_threads s) t).
Proof.
  intros I. destruct (schedule_gen s q I) as (s' & E & I' & Hr & Hc & Hi & _ & _ & Hn & Ho).
  exists s'. split; [done|]. split; [|split; [done|split; [exact Hn|]]].
  2:{ intros t H1 H2. apply Ho; [naive_solver|done]. }
  unfold requeued in I'. fold (requeues s) in I'.
  destruct (decide (requeues s)); [rewrite bool_decide_eq_true_2 in I' by done|
    rewrite bool_decide_eq_false_2 in I' by done]; done.
Qed.

(** [thread_create] either returns a new thread, in a block the heap did
    not have in use, with its own stack, the six zero registers and the entry
    point on it, first in the ready queue, so that the next [schedule] runs it;
    or, when frames are scarce, NULL with everything allocated given back and
    nothing else changed, or a fault inside the heap. *)
Theorem thread_create_correct (s : sched) q ls entry cr3 proc :
  sched_inv s q -> heap_ok s ls ->
  (exists t stack z s' ls' s2 k, thread_create junk entry cr3 proc s = Ret t s' /\
     t <> 0 /\ t ∉ dom (s_threads s) /\ STACK_SIZE <= z /\ (stack, z) ∈ ls' /\
     sched_inv s' (t :: q) /\ heap_ok s' ls' /\
     s_threads s' = <[t := mk_thread (stack + STACK_SIZE - 56) (stack + STACK_SIZE)
       THREAD_STATE_READY cr3 0 proc (ready_queue s)]> (s_threads s) /\
     s_stack s' = kstack_words stack entry (s_stack s) /\
     schedule s' = Switch s2 k /\ current_thread s2 = t) \/
  (thread_scarce (s_heap s) /\
   (thread_create junk entry cr3 proc s = Fault \/
    exists h', thread_create junk entry cr3 proc s = Ret 0 (set_heap h' s) /\
      sched_inv (set_heap h' s) q /\ heap_ok (set_heap h' s) ls)).
Proof.
  intros I Hok. destruct (thread_create_gen junk s q ls entry cr3 proc I Hok) as
    [(t & k & z & s' & ls' & E & H0 & Hd & Hz & Hin & _ & Hc & I' & Hok')|Hsc]; [left|by right].
  destruct (schedule_gen s' _ I') as (s2 & E2 & _ & _ & Hcur & _).
  exists t, k, z, s', ls', s2, (fun x => Ret tt x). repeat (split; [done|]).
  unfold created in Hc. split; [by rewrite Hc|]. split; [by rewrite Hc|]. done.
Qed.

(** ** Queuing a thread twice *)

Lemma enqueue_tail_cycle (s : sched) u t n th :
  ready_queue s = t -> t <> 0 -> s_threads s !! t = Some n -> th_next n = t ->
  u <> 0 -> u <> t -> s_threads s !! u = Some th -> enqueue_tail u s = Hang.
Proof.
  intros Hq H0 Hn Hx Hu Hut Hth. unfold enqueue_tail. mstep. rewrite (on_update _ u th) by done. cbn [bindr].
  cbn [ready_queue set_threads]. rewrite Hq. unfold truthy. destruct (Z.eqb_spec t 0) as [|_]; [done|]. cbn [negb].
  unfold on_threads at 1, zoom, find_tail. cbn [s_threads set_threads].
  by rewrite (last_node_cycle _ t n) by (try done; by rewrite lookup_insert_ne by done).
Qed.

Lemma pick_next_cycle (s : sched) t n :
  ready_queue s = t -> t <> 0 -> s_threads s !! t = Some n -> th_next n = t ->
  current_thread s <> 0 -> current_thread s <> t -> requeues s ->
  pick_next (current_thread s) s = Hang.
Proof.
  intros Hq H0 Hn Hx Hc0 Hct [Hr Hi]. destruct (state_of_Some _ _ _ Hr) as (c & Hc & Hcs).
  unfold pick_next. mstep. rewrite Hq. destruct (Z.eqb_spec t 0) as [|_]; [done|].
  rewrite (on_deref _ t n) by done. cbn [bindr]. rewrite set_threads_id, Hx.
  rewrite (on_deref _ _ c) by done. cbn [bindr]. rewrite set_threads_id, Hcs.
  cbn [idle_thread_ptr set_ready_queue]. destruct (Z.eqb_spec (current_thread s) (idle_thread_ptr s)) as [|_]; [done|].
  cbn [Z.eqb negb andb THREAD_STATE_RUNNING Pos.eqb]. rewrite (on_update _ _ c) by done. cbn [bindr].
  rewrite (enqueue_tail_cycle _ _ t n (set_th_state THREAD_STATE_READY c)); try done.
  - cbn. by rewrite lookup_insert_ne.
  - apply lookup_insert_eq.
Qed.

(** [elf_load] and [sys_exec] call [scheduler_add_thread] on a thread
    that [thread_create_user] has already put first in the queue.  The thread
    then links to itself, and the next [schedule] of a running thread, as well as the
    next wake-up of a blocked one, never ends. *)
Theorem second_add_hangs (s : sched) t q :
  sched_inv s (t :: q) -> requeues s ->
  exists s1, scheduler_add_thread t s = Ret tt s1 /\ schedule s1 = Hang /\
    forall u, u <> 0 -> state_of (s_threads s) u = Some THREAD_STATE_BLOCKED ->
      thread_unblock u s1 = Hang.
Proof.
  intros I Hr. pose proof (si_chain _ _ I) as (Hq & H0 & n & Hn & _).
  assert (Ht : state_of (s_threads s) t = Some THREAD_STATE_READY) by (apply (si_ready _ _ I); left).
  set (h1 := <[t := set_th_next t n]> (s_threads s)).
  set (s1 := set_thread_count (i32 (thread_count s + 1)) (set_ready_queue t (set_threads h1 s))).
  assert (Hst : forall u, state_of h1 u = state_of (s_threads s) u).
  { intros u. apply state_of_core. by apply core_set_next. }
  assert (Hne : forall u x, state_of (s_threads s) u = Some x -> x <> THREAD_STATE_READY -> u <> t).
  { intros u x Hu Hx ->. rewrite Ht in Hu. by injection Hu. }
  assert (Hn1 : h1 !! t = Some (set_th_next t n)) by apply lookup_insert_eq.
  exists s1. split; [|split].
  - unfold scheduler_add_thread, lock_sched, unlock_sched. mstep. rewrite (si_lock _ _ I). cbn [Z.eqb bindr].
    rewrite (on_update _ t n) by done. cbn [bindr ready_queue set_sched_lock]. rewrite Hq.
    unfold s1, h1. pose proof (si_lock _ _ I). destruct s; simpl in *. by subst.
  - unfold schedule, lock_sched. mstep. change (sched_lock s1) with (sched_lock s).
    rewrite (si_lock _ _ I). cbn [Z.eqb bindr]. change (current_thread (set_sched_lock 1 s1)) with (current_thread s).
    destruct (Z.eqb_spec (current_thread s) 0) as [Hz|Hz]; [by destruct (si_cur_nz _ _ I)|].
    change (current_thread s) with (current_thread (set_sched_lock 1 s1)) at 1.
    rewrite (pick_next_cycle (set_sched_lock 1 s1) t (set_th_next t n)); try done.
    + apply (Hne _ _ (proj1 Hr)). done.
    + split; [|apply Hr]. cbn. rewrite Hst. apply Hr.
  - intros u Hu0 Hu. rewrite <- Hst in Hu. destruct (state_of_Some _ _ _ Hu) as (th & Hth & Hb). rewrite Hst in Hu.
    unfold thread_unblock, lock_sched. mstep. change (sched_lock s1) with (sched_lock s).
    rewrite (si_lock _ _ I). cbn [Z.eqb bindr]. rewrite (on_deref _ u th) by done. cbn [bindr]. rewrite set_threads_id, Hb.
    cbn [Z.eqb THREAD_STATE_BLOCKED Pos.eqb]. rewrite (on_update _ u th) by done. cbn [bindr].
    assert (Hut : u <> t) by (by apply (Hne _ _ Hu)).
    rewrite (enqueue_tail_cycle _ u t (set_th_next t n) (set_th_state THREAD_STATE_READY th)); try done.
    + cbn. by rewrite lookup_insert_ne by done.
    + apply lookup_insert_eq.
Qed.


End SchedRun.

(** ** Witnesses: an idle, a running, two ready and a blocked thread *)

Definition demo_thread (k st nx : Z) : thread := mk_thread (k - 56) k st 4096 0 0 nx.
Definition demo_threads : gmap Z thread :=
  list_to_map [(100, demo_thread 10000 THREAD_STATE_READY 0);
               (200, demo_thread 20000 THREAD_STATE_RUNNING 0);
               (300, demo_thread 30000 THREAD_STATE_READY 400);
               (400, demo_thread 40000 THREAD_STATE_READY 0);
               (500, demo_thread 50000 THREAD_STATE_BLOCKED 0)].
Definition demo_sched : @sched_t (@heap_t (@vm_t pmm_t)) :=
  mk_sched demo_heap demo_threads ∅ 200 300 100 5 0 tss_boot 0 4096.

Lemma demo_sched_inv : sched_inv demo_sched [300; 400].
Proof.
  assert (Hall : forall t x, state_of demo_threads t = Some x ->
    (t, x) ∈ [(100, 2); (200, 1); (300, 2); (400, 2); (500, 3)]).
  { intros t x E. destruct (state_of_Some _ _ _ E) as (th & Hth & <-).
    apply elem_of_list_to_map_2 in Hth.
    apply (list_elem_of_fmap_2 (fun '(t, th) => (t, th_state th))) in Hth. exact Hth. }
  split; try reflexivity.
  - cbn. split; [reflexivity|]. split; [lia|]. exists (demo_thread 30000 THREAD_STATE_READY 400).
    split; [reflexivity|]. split; [reflexivity|]. split; [lia|]. exists (demo_thread 40000 THREAD_STATE_READY 0).
    split; reflexivity.
  - intros t Ht. repeat (apply elem_of_cons in Ht as [->|Ht]; [reflexivity|]). by apply elem_of_nil in Ht.
  - intros t Ht%Hall. cbn. set_solver.
  - intros t Ht%Hall. cbn. set_solver.
  - left. reflexivity.
  - cbn. set_solver.
  - discriminate.
  - cbn. eexists. reflexivity.
  - discriminate.
Defined.

(** The scheduler started on the demonstration heap. *)
Definition demo_init : M (@sched_t (@heap_t (@vm_t pmm_t))) unit := scheduler_init 7 4198400 20480.

Lemma demo_client_view : kh_view demo_heap [].
Proof. split; [apply demo_heap_view|reflexivity]. Defined.

Lemma demo_init_cur :
  option_map (fun p => current_thread (snd p)) (returned (demo_init (sched_boot demo_heap 20480)))
  = Some (HEAP_START_VIRT + 24).
Proof. vm_compute. reflexivity. Qed.

Lemma demo_init_ok :
  exists s ls, demo_init (sched_boot demo_heap 20480) = Ret tt s /\ sched_inv s [] /\ heap_ok s ls /\
    current_thread s = idle_thread_ptr s.
Proof.
  pose proof demo_init_cur as E. unfold demo_init in *.
  destruct (scheduler_init_gen 7 demo_heap 20480 4198400 20480 [] demo_client_view) as
    [(s & ls & E1 & I & Hok & Hc)|(_ & [E1|(h' & E1 & _)])].
  - exists s, ls. split; [exact E1|]. split; [exact I|]. split; [exact Hok|exact (proj1 Hc)].
  - rewrite E1 in E. discriminate E.
  - rewrite E1 in E. discriminate E.
Defined.


Lemma thread_create_correct_witness :
  exists s0 ls, demo_init (sched_boot demo_heap 20480) = Ret tt s0 /\
  ((exists t stack z s' ls' s2 k, thread_create 7 4200000 20480 0 s0 = Ret t s' /\
     t <> 0 /\ t ∉ dom (s_threads s0) /\ STACK_SIZE <= z /\ (stack, z) ∈ ls' /\
     sched_inv s' [t] /\ heap_ok s' ls' /\
     s_threads s' = <[t := mk_thread (stack + STACK_SIZE - 56) (stack + STACK_SIZE)
       THREAD_STATE_READY 20480 0 0 (ready_queue s0)]> (s_threads s0) /\
     s_stack s' = kstack_words stack 4200000 (s_stack s0) /\
     schedule s' = Switch s2 k /\ current_thread s2 = t) \/
  (thread_scarce (s_heap s0) /\
   (thread_create 7 4200000 20480 0 s0 = Fault \/
    exists h', thread_create 7 4200000 20480 0 s0 = Ret 0 (set_heap h' s0) /\
      sched_inv (set_heap h' s0) [] /\ heap_ok (set_heap h' s0) ls))).
Proof.
  destruct demo_init_ok as (s0 & ls & E & I & Hok & _). exists s0, ls. split; [exact E|].
  exact (thread_create_correct 7 s0 [] ls 4200000 20480 0 I Hok).
Defined.

Lemma demo_requeues : requeues demo_sched.
Proof. split; [reflexivity|discriminate]. Defined.

Lemma schedule_correct_witness :
  exists s', schedule demo_sched = Switch s' (fun x => Ret tt x) /\
    sched_inv s' [400; 200] /\ current_thread s' = 300.
Proof.
  destruct (schedule_correct demo_sched [300; 400] demo_sched_inv) as (s' & E & I & Hc & _).
  exists s'. split; [exact E|]. split; [|exact Hc].
  destruct (decide (requeues demo_sched)) as [_|Hn]; [exact I|].
  exfalso. exact (Hn demo_requeues).
Defined.

(** The running thread blocks and gives the processor to 300; the next
    [schedule] runs 400. *)
Lemma round_robin_witness :
  exists s1 s2 k, trace 7 0 demo_sched [CBlock; CSchedule] s1 /\
    schedule s1 = Switch s2 k /\ current_thread s2 = 400 /\
    state_of (s_threads s2) 400 = Some THREAD_STATE_RUNNING.
Proof.
  destruct (block_current_spec demo_sched [300; 400] demo_sched_inv demo_requeues) as (sb & Eb & Ib & _).
  destruct (schedule_gen sb [300; 400] Ib) as (s1 & E1 & _).
  assert (Ht : trace 7 0 demo_sched [CBlock; CSchedule] s1).
  { apply (trace_cons 7 0 demo_sched CBlock sb); [exact demo_requeues|cbn [run]; rewrite Eb; reflexivity|].
    apply (trace_cons 7 0 sb CSchedule s1); [exact Logic.I|cbn [run]; rewrite E1; reflexivity|constructor]. }
  destruct (round_robin 7 0 demo_sched s1 [300] 400 [] [CBlock; CSchedule] demo_sched_inv Ht) as (s2 & k & Hrest).
  { repeat constructor. }
  { reflexivity. }
  exists s1, s2, k. split; [exact Ht|exact Hrest].
Defined.

Lemma second_add_hangs_witness :
  exists s1, scheduler_add_thread 300 demo_sched = Ret tt s1 /\ schedule s1 = Hang /\
    thread_unblock 500 s1 = Hang.
Proof.
  destruct (second_add_hangs demo_sched 300 [400] demo_sched_inv demo_requeues) as (s1 & E & Es & Eu).
  exists s1. split; [exact E|]. split; [exact Es|]. apply Eu; [lia|reflexivity].
Defined.

(** The same machine after one thread has been created and scheduled. *)
Definition and_then {S A B} (r : res S A) (f : S -> option B) : option B :=
  match r with Ret _ s => f s | _ => None end.
Definition demo_started : option (@sched_t (@heap_t (@vm_t pmm_t))) :=
  and_then (demo_init (sched_boot demo_heap 20480)) (fun s0 =>
  and_then (thread_create 7 4200000 20480 0 s0) (fun s1 => next_state (schedule s1))).

Lemma demo_started_cur : option_map current_thread demo_started = Some (HEAP_START_VIRT + 4224).
Proof. vm_compute. reflexivity. Qed.

Lemma demo_running :
  exists s ls, demo_started = Some s /\ sched_inv s [] /\ heap_ok s ls /\ requeues s.
Proof.
  pose proof demo_started_cur as E. pose proof demo_init_cur as Ec. unfold demo_started in *.
  destruct demo_init_ok as (s0 & ls & E0 & I & Hok & Hc). rewrite E0 in E, Ec |- *. cbn [and_then] in E |- *.
  cbn [returned option_map snd] in Ec. injection Ec as Ec.
  destruct (thread_create_gen 7 s0 [] ls 4200000 20480 0 I Hok) as
    [(t & k & z & s1 & ls' & E1 & _ & _ & _ & _ & _ & Hcr & I1 & Hok1)|(_ & [E1|(h' & E1 & I1 & _)])]; rewrite E1 in E |- *; cbn [and_then] in E |- *.
  - destruct (schedule_gen s1 [t] I1) as (s2 & E2 & I2 & _ & Hcur & Hi & Hh & Hd & (n & Hn & Hst & _) & _). rewrite E2.
    assert (Hci : current_thread s1 = idle_thread_ptr s1) by (rewrite Hcr; exact Hc).
    rewrite requeued_tail in I2 by (intros [_ Hx]; exact (Hx Hci)).
    exists s2, ls'. split; [reflexivity|]. split; [exact I2|]. split; [exact (heap_ok_same s1 s2 ls' Hok1 Hh Hd)|].
    split; [unfold state_of; rewrite Hn; cbn; by rewrite Hst|].
    rewrite Hcur, Hi. intros Hx. apply (si_idle_out _ _ I1). rewrite <- Hx. left.
  - discriminate E.
  - destruct (schedule_gen _ _ I1) as (s2 & E2 & _ & _ & Hcur & _). rewrite E2 in E.
    cbn [next_state option_map] in E. injection E as E. rewrite Hcur in E. cbn [hd idle_thread_ptr set_heap] in E.
    rewrite <- Hc, Ec in E. discriminate E.
Defined.

(** Its heap has room for another thread. *)
Definition thread_room (h : @heap_t (@vm_t pmm_t)) : bool :=
  (align8 sizeof_thread + 65536 <=? heap_room h) &&
  match kh_malloc sizeof_thread h with Ret _ h' => align8 STACK_SIZE + 65536 <=? heap_room h' | _ => true end.

Lemma thread_room_fed h : thread_room h = true -> ~ thread_scarce h.
Proof.
  intros [H1%Z.leb_le H2]%andb_true_iff [Hs|(p & h' & E & Hs)].
  - change (heap_room h < align8 sizeof_thread + 65536) in Hs. lia.
  - rewrite E in H2. apply Z.leb_le in H2. change (heap_room h' < align8 STACK_SIZE + 65536) in Hs. lia.
Qed.

Lemma demo_started_thread_room : (fun s => thread_room (s_heap s)) <$> demo_started = Some true.
Proof. vm_compute. reflexivity. Qed.

Lemma demo_started_thread_fed s : demo_started = Some s -> ~ thread_scarce (s_heap s).
Proof. intros E. apply thread_room_fed. pose proof demo_started_thread_room as Hr. rewrite E in Hr. by injection Hr. Qed.
