(* ===== verification/Context.v ===== *)
(** * Context switch (src/kernel/switch.s, src/kernel/userspace_entry.S)

    [__switch_to] and [userspace_entry] at the level of registers and stack
    words, and the stacks that [thread_create] and [thread_create_user] lay
    out for them. *)

From stdpp Require Import base gmap list fin_maps.
From Stdlib Require Import ZArith Lia.
From S2P Require Import Prelude Mem Pmm Vmm PageTables Heap HeapFacts KernelMem Chain Descriptors Sched SchedFacts SchedRun.

(** ** The processor *)

(** The registers a called function preserves. *)
Record callee : Type := mk_callee {
  r_rbp : Z; r_rbx : Z; r_r12 : Z; r_r13 : Z; r_r14 : Z; r_r15 : Z
}.

Record cpu_t : Type := mk_cpu {
  c_regs : callee;
  c_rsp : Z;
  c_rip : Z;
  c_cr3 : Z;
  c_words : gmap Z Z;          (* 64-bit words of the stacks *)
  c_threads : gmap Z thread    (* [rsp] is the first field of a thread *)
}.

Definition set_regs (x : callee) (c : cpu_t) : cpu_t :=
  mk_cpu x (c_rsp c) (c_rip c) (c_cr3 c) (c_words c) (c_threads c).
Definition set_rsp (x : Z) (c : cpu_t) : cpu_t :=
  mk_cpu (c_regs c) x (c_rip c) (c_cr3 c) (c_words c) (c_threads c).
Definition set_rip (x : Z) (c : cpu_t) : cpu_t :=
  mk_cpu (c_regs c) (c_rsp c) x (c_cr3 c) (c_words c) (c_threads c).
Definition set_c_cr3 (x : Z) (c : cpu_t) : cpu_t :=
  mk_cpu (c_regs c) (c_rsp c) (c_rip c) x (c_words c) (c_threads c).
Definition set_words (x : gmap Z Z) (c : cpu_t) : cpu_t :=
  mk_cpu (c_regs c) (c_rsp c) (c_rip c) (c_cr3 c) x (c_threads c).
Definition set_c_threads (x : gmap Z thread) (c : cpu_t) : cpu_t :=
  mk_cpu (c_regs c) (c_rsp c) (c_rip c) (c_cr3 c) (c_words c) x.

Definition set_th_rsp (x : Z) (t : thread) : thread :=
  mk_thread x (th_kernel_stack t) (th_state t) (th_cr3 t) (th_iopl t) (th_process t) (th_next t).

(** [pushq] and [popq]. *)
Definition pushq (w : Z) : M cpu_t unit := fun c =>
  let sp := u64 (c_rsp c - 8) in Ret tt (set_rsp sp (set_words (<[sp := w]> (c_words c)) c)).
Definition popq : M cpu_t Z := fun c =>
  match c_words c !! c_rsp c with
  | Some w => Ret w (set_rsp (u64 (c_rsp c + 8)) c)
  | None => Fault
  end.
Definition reg (f : callee -> Z) : M cpu_t Z := mget (fun c => f (c_regs c)).

(** ** [__switch_to] *)

Definition save_regs : M cpu_t unit :=
  x <- reg r_rbp ;; pushq x ;;; x <- reg r_rbx ;; pushq x ;;; x <- reg r_r12 ;; pushq x ;;;
  x <- reg r_r13 ;; pushq x ;;; x <- reg r_r14 ;; pushq x ;;; x <- reg r_r15 ;; pushq x.

Definition restore_regs : M cpu_t unit :=
  r15 <- popq ;; r14 <- popq ;; r13 <- popq ;; r12 <- popq ;; rbx <- popq ;; rbp <- popq ;;
  mset (set_regs (mk_callee rbp rbx r12 r13 r14 r15)).

(** [ret] *)
Definition retq : M cpu_t unit := a <- popq ;; mset (set_rip a).

Definition on_c_threads {A} (m : M (gmap Z thread) A) : M cpu_t A := zoom c_threads set_c_threads m.

(** Entered with the return address on the stack. *)
Definition switch_asm (prev next new_cr3 : Z) : M cpu_t unit :=
  save_regs ;;;
  sp <- mget c_rsp ;;
  on_c_threads (update prev (set_th_rsp sp)) ;;;
  n <- on_c_threads (deref next) ;;
  mset (set_rsp (th_rsp n)) ;;;
  cr3 <- mget c_cr3 ;;
  (if cr3 =? new_cr3 then mret tt else mset (set_c_cr3 new_cr3)) ;;;
  restore_regs ;;;
  retq.

(** [iretq]: RIP, CS, RFLAGS, RSP and SS are popped in this order. *)
Record iret_frame : Type := mk_iret {
  if_rip : Z; if_cs : Z; if_rflags : Z; if_rsp : Z; if_ss : Z
}.
Definition iretq : M cpu_t iret_frame :=
  rip <- popq ;; cs <- popq ;; fl <- popq ;; sp <- popq ;; ss <- popq ;;
  mset (fun c => set_rip rip (set_rsp sp c)) ;;;
  mret (mk_iret rip cs fl sp ss).

(** ** Saved contexts *)

(** The seven words from [sp] up hold the registers and the resume address. *)
Definition saved (w : gmap Z Z) (sp : Z) (r : callee) (ra : Z) : Prop :=
  w !! sp = Some (r_r15 r) /\ w !! (sp + 8) = Some (r_r14 r) /\ w !! (sp + 16) = Some (r_r13 r) /\
  w !! (sp + 24) = Some (r_r12 r) /\ w !! (sp + 32) = Some (r_rbx r) /\
  w !! (sp + 40) = Some (r_rbp r) /\ w !! (sp + 48) = Some ra.

Lemma popq_ok rg sp ip cr w th x sp' :
  w !! sp = Some x -> 0 <= sp -> sp' = sp + 8 -> sp' < two64 ->
  popq (mk_cpu rg sp ip cr w th) = Ret x (mk_cpu rg sp' ip cr w th).
Proof. intros E H0 -> H1. unfold popq. cbn [c_words c_rsp]. rewrite E, u64_small by lia. done. Qed.

(** Resuming a saved context. *)
Lemma resume_ok rg sp ip cr w th r ra :
  saved w sp r ra -> 0 <= sp -> sp + 56 < two64 ->
  (restore_regs ;;; retq) (mk_cpu rg sp ip cr w th) = Ret tt (mk_cpu r (sp + 56) ra cr w th).
Proof.
  intros (H1 & H2 & H3 & H4 & H5 & H6 & H7) Hlo Hhi. unfold restore_regs, retq. mstep.
  rewrite (popq_ok _ sp _ _ _ _ _ (sp + 8) H1) by lia. cbn [bindr].
  rewrite (popq_ok _ (sp + 8) _ _ _ _ _ (sp + 16) H2) by lia. cbn [bindr].
  rewrite (popq_ok _ (sp + 16) _ _ _ _ _ (sp + 24) H3) by lia. cbn [bindr].
  rewrite (popq_ok _ (sp + 24) _ _ _ _ _ (sp + 32) H4) by lia. cbn [bindr].
  rewrite (popq_ok _ (sp + 32) _ _ _ _ _ (sp + 40) H5) by lia. cbn [bindr].
  rewrite (popq_ok _ (sp + 40) _ _ _ _ _ (sp + 48) H6) by lia. unfold set_regs.
  cbn [bindr c_regs c_rsp c_rip c_cr3 c_words c_threads].
  rewrite (popq_ok _ (sp + 48) _ _ _ _ _ (sp + 56) H7) by lia. cbn [bindr]. by destruct r.
Qed.

(** Saving: the seven words below the old stack pointer, return address
    included. *)
Definition pushed (w : gmap Z Z) (sp : Z) (r : callee) : gmap Z Z :=
  <[sp - 48 := r_r15 r]> (<[sp - 40 := r_r14 r]> (<[sp - 32 := r_r13 r]> (<[sp - 24 := r_r12 r]>
    (<[sp - 16 := r_rbx r]> (<[sp - 8 := r_rbp r]> w))))).

Lemma pushq_ok rg sp ip cr w th x sp' :
  sp' = sp - 8 -> 0 <= sp' < two64 ->
  pushq x (mk_cpu rg sp ip cr w th) = Ret tt (mk_cpu rg sp' ip cr (<[sp' := x]> w) th).
Proof. intros -> H. unfold pushq. cbn [c_rsp]. by rewrite u64_small by lia. Qed.

Lemma save_ok r sp ip cr w th :
  48 <= sp < two64 ->
  save_regs (mk_cpu r sp ip cr w th) = Ret tt (mk_cpu r (sp - 48) ip cr (pushed w sp r) th).
Proof.
  intros H. unfold save_regs, reg. mstep. cbn [c_regs].
  rewrite (pushq_ok _ sp _ _ _ _ _ (sp - 8)) by lia. cbn [bindr c_regs].
  rewrite (pushq_ok _ (sp - 8) _ _ _ _ _ (sp - 16)) by lia. cbn [bindr c_regs].
  rewrite (pushq_ok _ (sp - 16) _ _ _ _ _ (sp - 24)) by lia. cbn [bindr c_regs].
  rewrite (pushq_ok _ (sp - 24) _ _ _ _ _ (sp - 32)) by lia. cbn [bindr c_regs].
  rewrite (pushq_ok _ (sp - 32) _ _ _ _ _ (sp - 40)) by lia. cbn [bindr c_regs].
  by rewrite (pushq_ok _ (sp - 40) _ _ _ _ _ (sp - 48)) by lia.
Qed.

(** Looking a word up through the words written above it. *)
Ltac word := repeat first
  [ rewrite lookup_insert_eq
  | rewrite lookup_insert_ne by lia
  | match goal with |- <[?a := _]> _ !! ?b = _ => replace b with a by lia end ].

Lemma pushed_saved w sp r ra : w !! sp = Some ra -> saved (pushed w sp r) (sp - 48) r ra.
Proof.
  intros Hra. unfold saved, pushed. split_and!; word; try done.
  replace (sp - 48 + 48) with sp by lia. done.
Qed.

Lemma pushed_below w sp r a : a < sp - 48 \/ sp <= a -> pushed w sp r !! a = w !! a.
Proof. intros Ha. unfold pushed. by rewrite !lookup_insert_ne by lia. Qed.

(** One switch, to a context saved elsewhere. *)
Lemma switch_gen r sp ip cr w th prev next new_cr3 p n r' ra' :
  48 <= sp < two64 -> prev <> 0 -> next <> 0 -> prev <> next ->
  th !! prev = Some p -> th !! next = Some n ->
  saved w (th_rsp n) r' ra' -> 0 <= th_rsp n -> th_rsp n + 56 < two64 ->
  (th_rsp n + 56 <= sp - 48 \/ sp <= th_rsp n) ->
  switch_asm prev next new_cr3 (mk_cpu r sp ip cr w th) =
    Ret tt (mk_cpu r' (th_rsp n + 56) ra' new_cr3 (pushed w sp r)
      (<[prev := set_th_rsp (sp - 48) p]> th)).
Proof.
  intros Hsp Hp Hn Hpn Ep En Hs H0 H1 Hd. unfold switch_asm.
  rewrite (mbind_Ret _ _ _ _ _ (save_ok r sp ip cr w th Hsp)).
  unfold mbind at 1, mget at 1. cbn [bindr c_rsp]. unfold mbind at 1, on_c_threads at 1, zoom. cbn [c_threads].
  rewrite (update_ok _ prev p) by done. cbn [zoomr bindr]. unfold mbind at 1, on_c_threads at 1, zoom.
  cbn [c_threads set_c_threads]. rewrite (deref_ok _ next n) by (try done; by rewrite lookup_insert_ne).
  cbn [zoomr bindr]. unfold mbind at 1, mset at 1. unfold set_c_threads, set_rsp.
  cbn [bindr c_regs c_rsp c_rip c_cr3 c_words c_threads]. unfold mbind at 1, mget at 1. cbn [bindr c_cr3].
  set (th' := <[prev := set_th_rsp (sp - 48) p]> th).
  assert (E : forall x, (if cr =? new_cr3 then mret tt else mset (set_c_cr3 new_cr3))
      (mk_cpu r x ip cr (pushed w sp r) th') = Ret tt (mk_cpu r x ip new_cr3 (pushed w sp r) th')).
  { intros x. destruct (Z.eqb_spec cr new_cr3) as [->|]; done. }
  rewrite (mbind_Ret _ _ _ _ _ (E (th_rsp n))). apply resume_ok; [|done|done].
  destruct Hs as (S1 & S2 & S3 & S4 & S5 & S6 & S7). unfold saved. split_and!; rewrite pushed_below; try done; lia.
Qed.

Lemma saved_frame w w' sp r ra :
  (forall a, sp <= a <= sp + 48 -> w' !! a = w !! a) -> saved w sp r ra -> saved w' sp r ra.
Proof.
  intros Hf (S1 & S2 & S3 & S4 & S5 & S6 & S7). unfold saved. split_and!; rewrite Hf; try done; lia.
Qed.

(** C13: a thread that is switched away from and later switched back to goes
    on where it was: with its six registers, its stack pointer just above the
    return address and that address in RIP, provided its record and the seven
    saved words have been left alone. *)
Theorem switch_round_trip r sp ip cr w th A B crB a b rB raB ra :
  48 <= sp -> sp + 8 < two64 -> A <> 0 -> B <> 0 -> A <> B ->
  th !! A = Some a -> th !! B = Some b -> w !! sp = Some ra ->
  saved w (th_rsp b) rB raB -> 0 <= th_rsp b -> th_rsp b + 56 < two64 ->
  (th_rsp b + 56 <= sp - 48 \/ sp <= th_rsp b) ->
  exists c1, switch_asm A B crB (mk_cpu r sp ip cr w th) = Ret tt c1 /\
    c_regs c1 = rB /\ c_rip c1 = raB /\ c_rsp c1 = th_rsp b + 56 /\ c_cr3 c1 = crB /\
    forall c2 crA,
      (forall x, sp - 48 <= x <= sp -> c_words c2 !! x = c_words c1 !! x) ->
      th_rsp <$> c_threads c2 !! A = th_rsp <$> c_threads c1 !! A ->
      is_Some (c_threads c2 !! B) -> 48 <= c_rsp c2 < two64 ->
      (sp + 8 <= c_rsp c2 - 48 \/ c_rsp c2 <= sp - 48) ->
      exists c3, switch_asm B A crA c2 = Ret tt c3 /\
        c_regs c3 = r /\ c_rsp c3 = sp + 8 /\ c_rip c3 = ra /\ c_cr3 c3 = crA.
Proof.
  intros Hsp Hsp' HA HB HAB Ea Eb Hra Hs H0 H1 Hd. eexists. split.
  { by apply (switch_gen r sp ip cr w th A B crB a b rB raB); try lia. }
  cbn [c_regs c_rip c_rsp c_cr3 c_words c_threads]. repeat (split; [done|]).
  intros [r2 sp2 ip2 cr2 w2 th2] crA. cbn [c_words c_threads c_rsp]. rewrite lookup_insert_eq.
  intros Hw Ht [b2 Eb2] Hsp2 Hd2. destruct (th2 !! A) as [a2|] eqn:Ea2; [|done]. injection Ht as Ht. cbn in Ht.
  eexists. split.
  { apply (switch_gen r2 sp2 ip2 cr2 w2 th2 B A crA b2 a2 r ra); try done; rewrite ?Ht; try lia.
    apply (saved_frame (pushed w sp r)); [|by apply pushed_saved].
    intros x Hx. apply Hw. lia. }
  cbn. rewrite Ht. repeat split; lia.
Qed.

(** The stack of [thread_create] is a saved context with zero registers. *)
Lemma kstack_saved stack entry st :
  saved (kstack_words stack entry st) (stack + STACK_SIZE - 56) (mk_callee 0 0 0 0 0 0) (u64 entry).
Proof. unfold saved, kstack_words. cbn [r_rbp r_rbx r_r12 r_r13 r_r14 r_r15]. split_and!; by word. Qed.

Lemma ustack_saved ue stack entry us st :
  saved (ustack_words ue stack entry us st) (stack + STACK_SIZE - 96) (mk_callee 0 0 0 0 0 0) (u64 ue).
Proof. unfold saved, ustack_words. cbn [r_rbp r_rbx r_r12 r_r13 r_r14 r_r15]. split_and!; by word. Qed.

(** A switch to a stack as [kthread_setup] lays it out. *)
Lemma kstack_starts r sp ip cr st th prev next p n stack entry :
  48 <= sp < two64 -> prev <> 0 -> next <> 0 -> prev <> next ->
  th !! prev = Some p -> th !! next = Some n -> th_rsp n = stack + STACK_SIZE - 56 ->
  0 <= stack -> stack + STACK_SIZE < two64 -> 0 <= entry < two64 ->
  (sp <= stack \/ stack + STACK_SIZE <= sp - 48) ->
  exists c, switch_asm prev next (th_cr3 n)
      (mk_cpu r sp ip cr (kstack_words stack entry st) th) = Ret tt c /\
    c_rip c = entry /\ c_rsp c = stack + STACK_SIZE /\
    c_regs c = mk_callee 0 0 0 0 0 0 /\ c_cr3 c = th_cr3 n.
Proof.
  intros Hsp Hp Hn Hpn Ep En Hr H0 H1 He Hd. unfold STACK_SIZE in *. eexists. split.
  { apply (switch_gen r sp ip cr (kstack_words stack entry st) th prev next (th_cr3 n) p n
      (mk_callee 0 0 0 0 0 0) (u64 entry)); rewrite ?Hr; try done; try lia. apply kstack_saved. }
  cbn. rewrite Hr, u64_small by done. repeat split; lia.
Qed.

(** *** A thread made by [thread_create], up to its first instruction *)

Section FirstRun.
Context {V : Type} `{PageMapper V}.
#[local] Abbreviation heap := (@heap_t V).
#[local] Abbreviation sched := (@sched_t heap).

Lemma view_below (h : heap) ls p z : kh_view h ls -> (p, z) ∈ ls -> HEAP_START_VIRT <= p /\ p + z < two64.
Proof.
  intros [Hv _] Hin. destruct (heap_view_wf _ _ Hv) as [Hwf _]. destruct (Hwf p z Hin) as (_ & Hlo & Hhi).
  destruct Hv as [(bl & [[He _ _ _ _ _ _] _] & _)|[_ ->]]; [|by apply elem_of_nil in Hin].
  pose proof (he_limit _ He). unfold HEAP_LIMIT, two64 in *. lia.
Qed.

(** C32: a thread made by [thread_create] starts at its entry point.  The
    stack is a new block of the heap; the next [schedule] chooses the thread
    and its page tables; and the switch it makes, from wherever the caller's
    stack pointer is outside the new stack, arrives at the entry point, on the
    empty stack, with zero registers and the thread's page tables.  The
    exception is a heap without room for the two blocks: NULL, with the queue
    as it was, or a fault in the heap. *)
Theorem new_thread_starts junk (s : sched) q ls entry cr3 proc :
  sched_inv s q -> heap_ok s ls -> 0 <= entry < two64 ->
  (exists t stack z ls' s1 s2 k,
     thread_create junk entry cr3 proc s = Ret t s1 /\ schedule s1 = Switch s2 k /\ current_thread s2 = t /\ s_cr3 s2 = cr3 /\
     heap_ok s1 ls' /\ (stack, z) ∈ ls' /\ STACK_SIZE <= z /\
     forall r sp ip cr, 48 <= sp < two64 -> sp <= stack \/ stack + STACK_SIZE <= sp - 48 ->
       exists c, switch_asm (current_thread s) t (s_cr3 s2) (mk_cpu r sp ip cr (s_stack s2) (s_threads s2)) = Ret tt c /\
         c_rip c = entry /\ c_rsp c = stack + STACK_SIZE /\ c_regs c = mk_callee 0 0 0 0 0 0 /\ c_cr3 c = cr3) \/
  (thread_scarce (s_heap s) /\
   (thread_create junk entry cr3 proc s = Fault \/
    exists h', thread_create junk entry cr3 proc s = Ret 0 (set_heap h' s) /\ sched_inv (set_heap h' s) q)).
Proof.
  intros I Hok He. destruct (thread_create_gen junk s q ls entry cr3 proc I Hok) as
    [(t & stack & z & s1 & ls' & E & H0 & Hd & Hz & Hin & Hsub & Hc & I1 & Hok1)|(Hsc & Hx)].
  2:{ right. split; [exact Hsc|]. destruct Hx as [Hx|(h' & E & I' & _)]; [by left|right; by exists h']. }
  left. destruct (schedule_full s1 _ I1) as (s2 & E2 & _ & _ & Hcur & _ & _ & Hd2 & (n & Hn & _ & Hcr3 & _) & _ & Hst & Hfr).
  cbn [hd] in Hcur. rewrite Hcur in Hn. destruct (Hfr t n Hn) as (a & Ha & Fr & Fk & Fc & _).
  unfold created in Hc. assert (Hat : a = set_th_next (ready_queue s) (mk_thread (stack + STACK_SIZE - 8 * 7) (stack + STACK_SIZE) THREAD_STATE_READY cr3 0 proc junk)).
  { rewrite Hc in Ha. cbn [s_threads] in Ha. rewrite lookup_insert_eq in Ha. by injection Ha. }
  destruct (view_below _ _ _ _ (proj1 Hok1) Hin) as [Hlo Hhi]. pose proof START_pos. subst a. cbn [set_th_next th_rsp th_cr3] in Fr, Fc.
  destruct (si_cur _ _ I) as [x Hx]. destruct (state_of_Some _ _ _ Hx) as (c0 & Hc0 & _).
  assert (Hct : current_thread s <> t) by (intros <-; apply Hd, elem_of_dom; by exists c0).
  assert (Hp : exists p, s_threads s2 !! current_thread s = Some p).
  { destruct (s_threads s2 !! current_thread s) eqn:Ep; [by eexists|exfalso]. apply not_elem_of_dom in Ep. apply Ep. rewrite Hd2, Hc. cbn [s_threads].
    rewrite dom_insert_L. apply elem_of_union. right. apply elem_of_dom. by exists c0. }
  destruct Hp as [p Hp]. exists t, stack, z, ls', s1, s2, (fun x => Ret tt x).
  split; [exact E|]. split; [exact E2|]. split; [exact Hcur|]. split; [congruence|]. split; [exact Hok1|]. split; [exact Hin|]. split; [exact Hz|].
  intros r sp ip cr Hsp Hd'. rewrite Hcr3, Fc, Hst. replace (s_stack s1) with (kstack_words stack entry (s_stack s)) by (by rewrite Hc).
  destruct (kstack_starts r sp ip cr (s_stack s) (s_threads s2) (current_thread s) t p n stack entry) as (c & Ec & Hr); try done; [apply (si_cur_nz _ _ I)|lia|lia|].
  rewrite Fc in Ec, Hr. exists c. split; [exact Ec|exact Hr].
Qed.
End FirstRun.

(** The first switch to a thread made by [thread_create_user] arrives at
    [userspace_entry], but the five words for [iretq] are stored in reverse:
    RIP is loaded with the selector 0x23, CS with the user stack, RSP with
    the selector 0x1B and SS with the entry point. *)
Theorem user_thread_iret_reversed r sp ip cr st th prev next p n ue stack entry us :
  48 <= sp < two64 -> prev <> 0 -> next <> 0 -> prev <> next ->
  th !! prev = Some p -> th !! next = Some n -> th_rsp n = stack + STACK_SIZE - 96 ->
  0 <= stack -> stack + STACK_SIZE < two64 -> 0 <= ue < two64 ->
  0 <= entry < two64 -> 0 <= us < two64 ->
  (sp <= stack \/ stack + STACK_SIZE <= sp - 48) ->
  exists c c', switch_asm prev next (th_cr3 n)
      (mk_cpu r sp ip cr (ustack_words ue stack entry us st) th) = Ret tt c /\
    c_rip c = ue /\
    iretq c = Ret (mk_iret 0x23 us 0x202 0x1B entry) c' /\ c_rip c' = 0x23 /\ c_rsp c' = 0x1B.
Proof.
  intros Hsp Hp Hn Hpn Ep En Hr H0 H1 Hue He Hus Hd. unfold STACK_SIZE in *.
  set (w := ustack_words ue stack entry us st).
  assert (Hw : forall x, stack <= x < stack + 4096 -> pushed w sp r !! x = w !! x)
    by (intros x Hx; apply pushed_below; lia).
  eexists _, _. split.
  { apply (switch_gen r sp ip cr w th prev next (th_cr3 n) p n
      (mk_callee 0 0 0 0 0 0) (u64 ue)); rewrite ?Hr; try done; try lia. apply ustack_saved. }
  cbn [c_rip]. rewrite u64_small by done. split; [done|]. rewrite Hr.
  unfold iretq. mstep. set (b := stack + 4096 - 40).
  rewrite (popq_ok _ _ _ _ _ _ 0x23 (b + 8)); [|rewrite Hw by lia; unfold w, ustack_words, STACK_SIZE; by word|unfold b; lia..].
  cbn [bindr].
  rewrite (popq_ok _ _ _ _ _ _ (u64 us) (b + 16)); [|rewrite Hw by lia; unfold w, ustack_words, STACK_SIZE, b; by word|unfold b; lia..].
  cbn [bindr].
  rewrite (popq_ok _ _ _ _ _ _ 0x202 (b + 24)); [|rewrite Hw by lia; unfold w, ustack_words, STACK_SIZE, b; by word|unfold b; lia..].
  cbn [bindr].
  rewrite (popq_ok _ _ _ _ _ _ 0x1B (b + 32)); [|rewrite Hw by lia; unfold w, ustack_words, STACK_SIZE, b; by word|unfold b; lia..].
  cbn [bindr].
  rewrite (popq_ok _ _ _ _ _ _ (u64 entry) (b + 40)); [|rewrite Hw by lia; unfold w, ustack_words, STACK_SIZE, b; by word|unfold b; lia..].
  cbn [bindr]. rewrite !u64_small by done. done.
Qed.

(** ** Witnesses *)

Definition demo_ctx_threads : gmap Z thread :=
  list_to_map [(200, mk_thread 0 24576 THREAD_STATE_RUNNING 4096 0 0 0);
               (300, mk_thread 36808 36864 THREAD_STATE_READY 8192 0 0 0);
               (400, mk_thread 45016 45112 THREAD_STATE_READY 12288 0 0 0)].
Definition demo_regs : callee := mk_callee 1 2 3 4 5 6.

Lemma switch_round_trip_witness :
  exists c1, switch_asm 200 300 8192
      (mk_cpu demo_regs 24000 0 4096 (<[24000 := 777]> (kstack_words 32768 5000 ∅)) demo_ctx_threads) = Ret tt c1 /\
    c_rip c1 = 5000 /\
    exists c3, switch_asm 300 200 4096 c1 = Ret tt c3 /\
      c_regs c3 = demo_regs /\ c_rsp c3 = 24008 /\ c_rip c3 = 777.
Proof.
  destruct (switch_round_trip demo_regs 24000 0 4096 (<[24000 := 777]> (kstack_words 32768 5000 ∅)) demo_ctx_threads
    200 300 8192 (mk_thread 0 24576 THREAD_STATE_RUNNING 4096 0 0 0) (mk_thread 36808 36864 THREAD_STATE_READY 8192 0 0 0)
    (mk_callee 0 0 0 0 0 0) 5000 777) as (c1 & E & Hr & Hip & Hsp & Hc & Hback);
    try reflexivity; try lia; try (cbn; unfold two64; lia).
  { split_and!; reflexivity. }
  exists c1. split; [exact E|]. split; [exact Hip|].
  destruct (Hback c1 4096) as (c3 & E3 & Hr3 & Hs3 & Hi3 & _).
  - intros x _. reflexivity.
  - reflexivity.
  - assert (Eth : c_threads <$> (snd <$> returned (switch_asm 200 300 8192
      (mk_cpu demo_regs 24000 0 4096 (<[24000 := 777]> (kstack_words 32768 5000 ∅)) demo_ctx_threads))) =
      Some (<[200 := mk_thread 23952 24576 THREAD_STATE_RUNNING 4096 0 0 0]> demo_ctx_threads)) by reflexivity.
    rewrite E in Eth. cbn [returned fmap option_fmap option_map snd] in Eth. injection Eth as Eth. rewrite Eth.
    eexists. reflexivity.
  - rewrite Hsp. cbn. unfold two64. lia.
  - rewrite Hsp. cbn. lia.
  - exists c3. split; [exact E3|]. split; [exact Hr3|]. split; [exact Hs3|exact Hi3].
Defined.

(** A thread made by an idle machine, switched to from a stack at 24000. *)
Lemma new_thread_starts_witness :
  exists s t stack s1 s2 k c, thread_create 7 5000 8192 0 s = Ret t s1 /\ schedule s1 = Switch s2 k /\ current_thread s2 = t /\
    switch_asm (current_thread s) t 8192 (mk_cpu demo_regs 24000 0 4096 (s_stack s2) (s_threads s2)) = Ret tt c /\
    c_rip c = 5000 /\ c_rsp c = stack + STACK_SIZE /\ c_cr3 c = 8192.
Proof.
  destruct demo_running as (s & ls & E & I & Hok & _). exists s.
  destruct (new_thread_starts 7 s [] ls 5000 8192 0 I Hok) as [(t & stack & z & ls' & s1 & s2 & k & Ec & Es & Hcur & Hcr & Hok1 & Hin & _ & Hrun)|[Hsc _]].
  - unfold two64. lia.
  - destruct (Hrun demo_regs 24000 0 4096) as (c & Ew & Hip & Hsp & _ & Hc).
    + unfold two64. lia.
    + left. destruct (view_below _ _ _ _ (proj1 Hok1) Hin) as [Hlo _]. unfold HEAP_START_VIRT in Hlo. lia.
    + rewrite Hcr in Ew. exists t, stack, s1, s2, k, c. split; [exact Ec|]. split; [exact Es|]. split; [exact Hcur|]. split; [exact Ew|]. split; [exact Hip|]. split; [exact Hsp|exact Hc].
  - exfalso. exact (demo_started_thread_fed s E Hsc).
Defined.

Lemma user_thread_iret_reversed_witness :
  exists c c', switch_asm 200 400 12288
      (mk_cpu demo_regs 24000 0 4096 (ustack_words 9000 41016 4194304 8384512 ∅) demo_ctx_threads) = Ret tt c /\
    c_rip c = 9000 /\
    iretq c = Ret (mk_iret 0x23 8384512 0x202 0x1B 4194304) c' /\ c_rip c' = 0x23 /\ c_rsp c' = 0x1B.
Proof.
  apply (user_thread_iret_reversed demo_regs 24000 0 4096 ∅ demo_ctx_threads 200 400
    (mk_thread 0 24576 THREAD_STATE_RUNNING 4096 0 0 0) (mk_thread 45016 45112 THREAD_STATE_READY 12288 0 0 0)
    9000 41016 4194304 8384512);
    try reflexivity; unfold two64, STACK_SIZE; lia.
Defined.
