(* ===== verification/Timer.v ===== *)
(** * Sleep timer (src/kernel/timer.c)

    The queue of sleeping threads, ordered by deadline; the timer interrupt
    wakes those that are due.  The queue is walked through pointers to links
    ([timer_entry_t **prev]), modelled by the type [link]. *)

From stdpp Require Import base gmap list fin_maps sorting.
From Stdlib Require Import ZArith Lia.
From S2P Require Import Prelude Mem Pmm Vmm PageTables Heap HeapFacts KernelMem Chain Descriptors Sched SchedFacts.

Record timer_entry : Type := mk_tentry {
  te_thread : Z;
  te_deadline : Z;
  te_next : Z
}.
Definition sizeof_timer_entry : Z := 24.

Definition set_te_next (p : Z) (e : timer_entry) : timer_entry := mk_tentry (te_thread e) (te_deadline e) p.

#[export] Instance timer_Linked : Linked timer_entry := {|
  nxt := te_next;
  set_nxt := set_te_next;
  nxt_set := fun _ _ => eq_refl
|}.

Record timer_t : Type := mk_timer {
  tm_entries : gmap Z timer_entry;
  ticks : Z;
  timer_lock : Z;
  timer_queue : Z
}.
Definition timer_boot : timer_t := mk_timer ∅ 0 0 0.

Definition set_tm_entries (x : gmap Z timer_entry) (s : timer_t) : timer_t :=
  mk_timer x (ticks s) (timer_lock s) (timer_queue s).
Definition set_ticks (x : Z) (s : timer_t) : timer_t :=
  mk_timer (tm_entries s) x (timer_lock s) (timer_queue s).
Definition set_timer_lock (x : Z) (s : timer_t) : timer_t :=
  mk_timer (tm_entries s) (ticks s) x (timer_queue s).
Definition set_timer_queue (x : Z) (s : timer_t) : timer_t :=
  mk_timer (tm_entries s) (ticks s) (timer_lock s) x.

(** A [timer_entry_t **]: the queue head or the [next] field of an entry. *)
Inductive link : Type := Head | NextOf (p : Z).

Definition on_entries {A} (m : M (gmap Z timer_entry) A) : M timer_t A := zoom tm_entries set_tm_entries m.

(** [*prev] and [*prev = p]. *)
Definition load_link (l : link) : M timer_t Z :=
  match l with
  | Head => mget timer_queue
  | NextOf a => e <- on_entries (deref a) ;; mret (te_next e)
  end.
Definition store_link (l : link) (p : Z) : M timer_t unit :=
  match l with
  | Head => mset (set_timer_queue p)
  | NextOf a => on_entries (update a (set_te_next p))
  end.

(** The insertion point: [while ( *prev && ( *prev)->deadline < d)]. *)
Fixpoint find_slot (fuel : nat) (prev : link) (d : Z) : M timer_t link :=
  match fuel with
  | O => mhang
  | S fuel' =>
      p <- load_link prev ;;
      if truthy p then
        e <- on_entries (deref p) ;;
        if te_deadline e <? d then find_slot fuel' (NextOf p) d else mret prev
      else mret prev
  end.

Section Timer.
Context {H : Type} `{HK : KHeap H}.
Context (junk : Z).
#[local] Abbreviation sched := (@sched_t H).

Definition state : Type := sched * timer_t.
Definition on_s {A} (m : M sched A) : M state A := zoom fst (fun x (p : state) => (x, snd p)) m.
Definition on_t {A} (m : M timer_t A) : M state A := zoom snd (fun x (p : state) => (fst p, x)) m.

Definition lock_timer : M state unit := on_t (spin_lock timer_lock set_timer_lock).
Definition unlock_timer : M state unit := on_t (spin_unlock set_timer_lock).

(** [kfree(entry)]: the object is gone. *)
Definition free_entry (a : Z) : M state unit :=
  on_t (mset (fun s => set_tm_entries (delete a (tm_entries s)) s)) ;;;
  on_s (on_heap (kh_free a)).

(** The loop of [timer_tick]. *)
Fixpoint tick_loop (fuel : nat) (prev : link) : M state unit :=
  match fuel with
  | O => mhang
  | S fuel' =>
      entry <- on_t (load_link prev) ;;
      if truthy entry then
        e <- on_t (on_entries (deref entry)) ;;
        now <- on_t (mget ticks) ;;
        if te_deadline e <=? now then
          on_t (store_link prev (te_next e)) ;;;
          on_s (thread_unblock (te_thread e)) ;;;
          free_entry entry ;;;
          tick_loop fuel' prev
        else tick_loop fuel' (NextOf entry)
      else mret tt
  end.

Definition timer_tick : M state unit :=
  lock_timer ;;;
  on_t (mset (fun s => set_ticks (u64 (ticks s + 1)) s)) ;;;
  (fun s => tick_loop (walk_fuel (tm_entries (snd s))) Head s) ;;;
  unlock_timer.

Definition timer_get_ticks : M state Z := on_t (mget ticks).

(** [sleep_until] up to the release of the timer lock; [true] when the caller
    has to block. *)
Definition sleep_enqueue (tick_deadline : Z) : M state bool :=
  lock_timer ;;;
  now <- on_t (mget ticks) ;;
  if tick_deadline <=? now then unlock_timer ;;; mret false
  else
    entry <- on_s (on_heap (kh_malloc sizeof_timer_entry)) ;;
    if entry =? 0 then unlock_timer ;;; mret false
    else
      cur <- on_s (mget current_thread) ;;
      on_t (mset (fun s => set_tm_entries
        (<[entry := mk_tentry cur tick_deadline junk]> (tm_entries s)) s)) ;;;
      prev <- on_t (fun s => find_slot (walk_fuel (tm_entries s)) Head tick_deadline s) ;;
      p <- on_t (load_link prev) ;;
      on_t (on_entries (update entry (set_te_next p))) ;;;
      on_t (store_link prev entry) ;;;
      unlock_timer ;;;
      mret true.

Definition sleep_until (tick_deadline : Z) : M state unit :=
  b <- sleep_enqueue tick_deadline ;;
  if b then on_s thread_block else mret tt.

End Timer.

(** ** Links and lists *)

(** The link that follows the entries [l]. *)
Definition link_of (l : list Z) : link := match last l with Some a => NextOf a | None => Head end.

Lemma link_of_snoc l a : link_of (l ++ [a]) = NextOf a.
Proof. unfold link_of. by rewrite last_snoc. Qed.

Lemma load_link_ok s l1 l2 :
  chain (tm_entries s) (timer_queue s) (l1 ++ l2) ->
  load_link (link_of l1) s = Ret (hd 0 l2) s.
Proof.
  intros Hc. destruct l1 as [|a l1 _] using rev_ind.
  - unfold load_link, link_of, mget. cbn. destruct l2; [by rewrite Hc|by destruct Hc as (-> & _)].
  - rewrite link_of_snoc. unfold load_link, on_entries. rewrite <- app_assoc in Hc.
    apply cseg_app in Hc as (r & _ & -> & H0 & e & He & Hc). mstep. rewrite (deref_ok _ a e) by done. cbn.
    f_equal; [|by destruct s]. destruct l2 as [|b l2]; [done|]. destruct Hc as (E & _). exact E.
Qed.

(** The links erased. *)
Definition ecore (h : gmap Z timer_entry) : gmap Z timer_entry := set_te_next 0 <$> h.

Lemma ecore_set h a e p : h !! a = Some e -> ecore (<[a := set_te_next p e]> h) = ecore h.
Proof.
  intros Ha. apply map_eq. intros x. unfold ecore. rewrite !lookup_fmap, lookup_insert.
  case_decide as E; [subst; by rewrite Ha|done].
Qed.

(** Storing [p], the head of [l2], in the link after [l1]. *)
Lemma store_link_ok s l1 r l2 p :
  chain (tm_entries s) (timer_queue s) (l1 ++ r) -> chain (tm_entries s) p l2 ->
  (forall a, a ∈ l1 -> a ∉ l2) ->
  exists s', store_link (link_of l1) p s = Ret tt s' /\
    chain (tm_entries s') (timer_queue s') (l1 ++ l2) /\
    ecore (tm_entries s') = ecore (tm_entries s) /\
    ticks s' = ticks s /\ timer_lock s' = timer_lock s.
Proof.
  intros Hc Hp Hd. pose proof (chain_NoDup _ _ _ Hc) as Hnd. destruct l1 as [|a l1 _] using rev_ind.
  - by exists (set_timer_queue p s).
  - rewrite link_of_snoc. rewrite <- app_assoc in Hc. apply cseg_app in Hc as (x & Hc1 & -> & H0 & e & He & _).
    exists (set_tm_entries (<[a := set_te_next p e]> (tm_entries s)) s). unfold store_link, on_entries. mstep.
    rewrite (update_ok _ a e) by done. split; [done|]. split; [|split; [by apply ecore_set|done]].
    rewrite <- !app_assoc in Hnd. apply NoDup_app in Hnd as (_ & Hnd & _).
    cbn [tm_entries timer_queue set_tm_entries]. rewrite <- app_assoc. apply cseg_app. exists a. split.
    { apply cseg_insert; [|done]. intros Hin. apply (Hnd a Hin). simpl. left. }
    split; [done|]. split; [done|]. exists (set_te_next p e). rewrite lookup_insert_eq. split; [done|].
    apply cseg_insert; [|done]. apply Hd. apply elem_of_app. right. left.
Qed.
