(* ===== verification/TimerFacts.v ===== *)
(** * Correctness of the sleep timer (src/kernel/timer.c)

    A tick wakes exactly the threads whose deadline has passed, a sleeper
    blocks until its deadline, and what an interrupt between the two critical
    sections of [sleep_until] does. *)

From stdpp Require Import base gmap list fin_maps sorting.
From Stdlib Require Import ZArith Lia.
From S2P Require Import Prelude Mem Pmm Vmm PageTables Heap HeapFacts KernelMem Chain Descriptors Sched SchedFacts SchedRun Timer.

(** A sleeping thread: the address of its entry, deadline and thread. *)
Record nap : Type := mk_nap { n_addr : Z; n_dl : Z; n_thr : Z }.

Definition due (now : Z) (x : nap) : Prop := n_dl x <= now.
#[export] Instance due_dec now x : Decision (due now x) := Z_le_dec (n_dl x) now.

Lemma ecore_lookup h h' a e :
  ecore h' = ecore h -> h !! a = Some e ->
  exists e', h' !! a = Some e' /\ te_deadline e' = te_deadline e /\ te_thread e' = te_thread e.
Proof.
  intros E Ha. assert (Hl : ecore h' !! a = ecore h !! a) by (by rewrite E).
  unfold ecore in Hl. rewrite !lookup_fmap, Ha in Hl. simpl in Hl.
  destruct (h' !! a) as [e'|]; simpl in *; [|done]. injection Hl. intros. by exists e'.
Qed.

Section TimerFacts.
Context {H : Type} `{HK : KHeap H}.
Context (junk : Z).
#[local] Abbreviation sched := (@sched_t H).
#[local] Abbreviation state := (@state H).

Record timer_core (s : state) (q : list Z) (l : list nap) : Prop := {
  tc_sched : sched_inv (fst s) q;
  tc_chain : chain (tm_entries (snd s)) (timer_queue (snd s)) (n_addr <$> l);
  tc_ent : forall x, x ∈ l -> exists e, tm_entries (snd s) !! n_addr x = Some e /\
    te_deadline e = n_dl x /\ te_thread e = n_thr x;
  tc_thr : forall x, x ∈ l -> n_thr x <> 0 /\ is_Some (s_threads (fst s) !! n_thr x);
  tc_heap : exists le lr, kh_view (s_heap (fst s)) (le ++ lr) /\ le.*1 = n_addr <$> l /\
    forall t, t ∈ dom (s_threads (fst s)) -> t ∈ lr.*1
}.

(** Every listed thread is blocked, and listed once. *)
Definition asleep (s : state) (l : list nap) : Prop :=
  NoDup (n_thr <$> l) /\
  forall x, x ∈ l -> state_of (s_threads (fst s)) (n_thr x) = Some THREAD_STATE_BLOCKED.

(** The threads a tick wakes: those of the due entries that are blocked. *)
Definition woken (s : sched) (now : Z) (l : list nap) : list Z :=
  filter (blocked s) (n_thr <$> filter (due now) l).

(** ** Waking one entry *)

(** Lines 32-34: unlink, unblock, free. *)
Lemma wake_entry s q l1 x l2 :
  timer_core s q (l1 ++ x :: l2) -> NoDup (n_addr <$> l1 ++ x :: l2) ->
  exists e s', tm_entries (snd s) !! n_addr x = Some e /\
    te_deadline e = n_dl x /\
    (on_t (store_link (link_of (n_addr <$> l1)) (te_next e)) ;;;
     on_s (thread_unblock (te_thread e)) ;;; free_entry (n_addr x)) s = Ret tt s' /\
    timer_core s' (q ++ filter (blocked (fst s)) [n_thr x]) (l1 ++ l2) /\
    same_others (fst s) (fst s') (filter (blocked (fst s)) [n_thr x]) /\
    ticks (snd s') = ticks (snd s) /\ timer_lock (snd s') = timer_lock (snd s).
Proof.
  intros [Hs Hc He Ht (le & lr & Hv & Hle & Hd)] Hnd. destruct s as [sc tm]. cbn [fst snd] in *.
  destruct (He x) as (e & Ee & Hdl & Hth); [apply elem_of_app; right; left|].
  destruct (Ht x) as [H0 Hsome]; [apply elem_of_app; right; left|].
  rewrite fmap_app, fmap_cons in Hc, Hle, Hnd.
  assert (Hx : n_addr x ∉ (n_addr <$> l1) ++ (n_addr <$> l2)).
  { apply NoDup_app in Hnd as (_ & Hn1 & [Hn2 _]%NoDup_cons). intros [Hin|Hin]%elem_of_app; [|done].
    apply (Hn1 _ Hin). left. }
  assert (Hc2 : chain (tm_entries tm) (te_next e) (n_addr <$> l2)).
  { apply cseg_app in Hc as (r & _ & -> & _ & e' & Ee' & Hc2). rewrite Ee in Ee'. by injection Ee' as <-. }
  destruct (store_link_ok tm (n_addr <$> l1) _ (n_addr <$> l2) (te_next e) Hc Hc2) as (tm' & E1 & Hc' & Hcore & Htk & Hlk).
  { apply NoDup_app in Hnd as (_ & Hn1 & _). intros a Ha Ha2. apply (Hn1 a Ha). by right. }
  destruct (thread_unblock_spec sc q (n_thr x) Hs H0 Hsome) as (sc' & E2 & I' & Hst & Hoth & Hcur & Hidle & Hheap & Hdom).
  change (q ++ _) with (q ++ filter (blocked sc) [n_thr x]) in I'.
  destruct (app_eq_cons_fmap_fst le (n_addr <$> l1) (n_addr x) (n_addr <$> l2) Hle) as (le1 & z & le2 & -> & Hl1 & Hl2).
  destruct (kh_free_spec (s_heap sc) (le1 ++ le2 ++ lr) (n_addr x) z) as (h' & E3 & Hv').
  { eapply kh_view_perm; [exact Hv|]. rewrite <- app_assoc. simpl. by rewrite <- Permutation_middle. }
  exists e, (set_heap h' sc', set_tm_entries (delete (n_addr x) (tm_entries tm')) tm').
  split; [done|]. split; [done|]. split; [|split; [|split; [|done]]].
  - unfold on_t at 1, on_s at 1, free_entry, on_t, on_s, on_heap. mstep. cbn [fst snd]. rewrite E1. cbn [zoomr bindr fst snd].
    rewrite Hth, E2. cbn [zoomr bindr fst snd]. rewrite Hheap, E3. done.
  - split; cbn [fst snd].
    + by apply sched_inv_heap.
    + rewrite fmap_app. apply cseg_delete; done.
    + intros y Hy. destruct (He y) as (ey & Eey & Hey); [apply elem_of_app in Hy as [?|?]; apply elem_of_app; [by left|right; by right]|].
      destruct (ecore_lookup _ _ _ _ Hcore Eey) as (ey' & Eey' & Hd' & Ht').
      exists ey'. cbn [tm_entries set_tm_entries]. rewrite lookup_delete_ne; [split; [done|]; by rewrite Hd', Ht'|].
      intros E. apply Hx. rewrite E, <- fmap_app. by apply list_elem_of_fmap_2.
    + intros y Hy. destruct (Ht y) as [Hy0 Hys]; [apply elem_of_app in Hy as [?|?]; apply elem_of_app; [by left|right; by right]|].
      split; [done|]. cbn. apply elem_of_dom. rewrite Hdom. by apply elem_of_dom.
    + exists (le1 ++ le2), lr. cbn. rewrite <- app_assoc. split; [done|]. split; [|by rewrite Hdom].
      by rewrite !fmap_app, Hl1, Hl2.
  - split; [|done]. intros t Ht'. cbn [fst snd]. destruct (decide (t = n_thr x)) as [->|Hne]; [|apply Hoth; by left].
    destruct (decide (blocked sc (n_thr x))) as [Hb|Hb].
    { exfalso. apply Ht'. apply list_elem_of_filter. split; [done|left]. }
    apply Hoth. by right.
Qed.

(** ** The loop of [timer_tick] *)

Lemma load_core s q l1 l2 :
  timer_core s q (l1 ++ l2) ->
  on_t (load_link (link_of (n_addr <$> l1))) s = Ret (hd 0 (n_addr <$> l2)) s.
Proof.
  intros Hc. pose proof (tc_chain _ _ _ Hc) as Hch. rewrite fmap_app in Hch. unfold on_t, zoom.
  rewrite (load_link_ok _ _ _ Hch). cbn. by destruct s.
Qed.

Lemma nap_nonzero s q l x : timer_core s q l -> x ∈ l -> truthy (n_addr x) = true.
Proof.
  intros Hc Hx. destruct (chain_nonzero _ _ _ (n_addr x) (tc_chain _ _ _ Hc)) as [H0 _]; [by apply list_elem_of_fmap_2|].
  unfold truthy. by destruct (Z.eqb_spec (n_addr x) 0).
Qed.

Lemma tick_loop_spec l2 : forall fuel s q l1,
  timer_core s q (l1 ++ l2) -> NoDup (n_thr <$> l2) -> (length l2 < fuel)%nat ->
  let now := ticks (snd s) in
  exists s', tick_loop fuel (link_of (n_addr <$> l1)) s = Ret tt s' /\
    timer_core s' (q ++ woken (fst s) now l2) (l1 ++ filter (fun x => ~ due now x) l2) /\
    same_others (fst s) (fst s') (woken (fst s) now l2) /\ ticks (snd s') = now /\
    timer_lock (snd s') = timer_lock (snd s).
Proof.
  induction l2 as [|x l2 IH]; intros fuel s q l1 Hc Hnd Hf; cbv zeta; (destruct fuel as [|fuel]; [simpl in Hf; lia|]);
    cbn [tick_loop]; rewrite (mbind_Ret _ _ _ _ _ (load_core s q l1 _ Hc)).
  { cbn [fmap list_fmap hd]. change (truthy 0) with false. exists s. unfold woken. cbn [filter list_filter fmap list_fmap].
    rewrite !app_nil_r in *. by split_and!. }
  cbn [fmap list_fmap hd]. simpl in Hf.
  rewrite (nap_nonzero s q _ x Hc) by (apply elem_of_app; right; left).
  rewrite fmap_cons in Hnd. apply NoDup_cons in Hnd as [Hx Hnd].
  pose proof (chain_NoDup _ _ _ (tc_chain _ _ _ Hc)) as Hnda.
  destruct (wake_entry s q l1 x l2 Hc Hnda) as (e & s1 & Ee & Hdl & E1 & Hc1 & Ho1 & Htk & Hlk).
  assert (Ed : on_t (on_entries (deref (n_addr x))) s = Ret e s).
  { unfold on_t, on_entries, zoom. rewrite (deref_ok _ _ e) by (try done; by apply (chain_nonzero _ _ _ _ (tc_chain _ _ _ Hc)), list_elem_of_fmap_2, elem_of_app; right; left).
    by destruct s as [? []]. }
  rewrite (mbind_Ret _ _ _ _ _ Ed).
  assert (Eg : on_t (mget ticks) s = Ret (ticks (snd s)) s) by (unfold on_t, zoom, mget; by destruct s).
  rewrite (mbind_Ret _ _ _ _ _ Eg). rewrite Hdl. unfold woken.
  destruct (Z.leb_spec (n_dl x) (ticks (snd s))) as [Hle|Hgt].
  - rewrite (filter_cons_True (due (ticks (snd s)))), (filter_cons_False (fun y => ~ due (ticks (snd s)) y)) by (unfold due; tauto).
    destruct (IH fuel s1 _ l1 Hc1 Hnd) as (s2 & E2 & Hc2 & Ho2 & Htk2 & Hlk2); [lia|].
    assert (Ew : woken (fst s1) (ticks (snd s1)) l2 = woken (fst s) (ticks (snd s)) l2).
    { unfold woken. rewrite Htk. apply filter_blocked_ext. intros t Ht. apply Ho1. intros [_ ->%list_elem_of_singleton]%list_elem_of_filter.
      apply Hx. apply list_elem_of_fmap in Ht as (y & -> & [_ Hy]%list_elem_of_filter). by apply list_elem_of_fmap_2. }
    rewrite Ew in *. rewrite Htk in *. rewrite fmap_cons. change (n_thr x :: ?l) with ([n_thr x] ++ l). rewrite filter_app.
    exists s2. split; [|split; [|split; [|split; [done|congruence]]]].
    + revert E1 E2. unfold mbind. intros E1 E2. destruct (on_t (store_link _ _) s) as [[] sa| | | | |]; try done. cbn [bindr] in *.
      destruct (on_s (thread_unblock _) sa) as [[] sb| | | | |]; try done. cbn [bindr] in *. rewrite E1. exact E2.
    + rewrite app_assoc. exact Hc2.
    + exact (same_others_trans _ _ _ _ _ Ho1 Ho2).
  - rewrite (filter_cons_False (due (ticks (snd s)))), (filter_cons_True (fun y => ~ due (ticks (snd s)) y)) by (unfold due; lia).
    assert (Hc' : timer_core s q ((l1 ++ [x]) ++ l2)) by (by rewrite <- app_assoc).
    destruct (IH fuel s q (l1 ++ [x]) Hc') as (s2 & E2 & Hc2 & Ho2 & Htk2 & Hlk2); [done|lia|].
    exists s2. rewrite fmap_app in E2. cbn [fmap list_fmap] in E2. rewrite link_of_snoc in E2.
    rewrite <- app_assoc in Hc2. done.
Qed.

(** The lock around the core. *)
Definition timer_inv (s : state) (q : list Z) (l : list nap) : Prop :=
  timer_core s q l /\ timer_lock (snd s) = 0.

Lemma timer_core_meta (sc : sched) tm q l k t :
  timer_core (sc, tm) q l -> timer_core (sc, set_timer_lock k (set_ticks t tm)) q l.
Proof. by intros []. Qed.

Lemma timer_tick_gen s q l :
  timer_inv s q l -> NoDup (n_thr <$> l) ->
  let now := u64 (ticks (snd s) + 1) in
  exists s', timer_tick s = Ret tt s' /\
    timer_inv s' (q ++ woken (fst s) now l) (filter (fun x => ~ due now x) l) /\
    same_others (fst s) (fst s') (woken (fst s) now l) /\ ticks (snd s') = now.
Proof.
  intros [Hc Hl] Hnd. destruct s as [sc tm]. cbn [fst snd] in *.
  unfold timer_tick, lock_timer, unlock_timer, on_t at 1 2. mstep. cbn [snd fst]. rewrite Hl. cbn [Z.eqb zoomr bindr fst snd].
  set (tm1 := set_ticks _ (set_timer_lock 1 tm)).
  assert (Hc1 : timer_core (sc, tm1) q ([] ++ l)) by (exact (timer_core_meta sc tm q l 1 _ Hc)).
  assert (Hf : (length l < walk_fuel (tm_entries (snd (sc, tm1))))%nat).
  { pose proof (chain_length _ _ _ (tc_chain _ _ _ Hc)) as Hlen. rewrite length_fmap in Hlen. unfold walk_fuel. cbn in *. lia. }
  destruct (tick_loop_spec l _ (sc, tm1) q [] Hc1 Hnd Hf) as ([sc' tm'] & E & Hc' & Ho & Htk & Hlk).
  change (link_of (n_addr <$> [])) with Head in E. cbn [snd] in E. rewrite E. cbn [bindr]. unfold on_t. mstep. cbn [fst snd] in *.
  eexists. split; [reflexivity|]. cbn [app fst snd] in *. split; [split; [|done]|split; [done|done]].
  destruct tm'. exact (timer_core_meta sc' _ _ _ 0 _ Hc').
Qed.

(** ** Going to sleep *)

(** Insertion before the first entry whose deadline is not smaller. *)
Fixpoint insert_nap (x : nap) (l : list nap) : list nap :=
  match l with
  | [] => [x]
  | y :: l' => if n_dl y <? n_dl x then y :: insert_nap x l' else x :: l
  end.

Lemma find_slot_spec tm x l2 : forall fuel l1,
  chain (tm_entries tm) (timer_queue tm) (n_addr <$> l1 ++ l2) ->
  (forall y, y ∈ l1 ++ l2 -> exists e, tm_entries tm !! n_addr y = Some e /\ te_deadline e = n_dl y) ->
  (length l2 < fuel)%nat ->
  exists la lb, l2 = la ++ lb /\ insert_nap x l2 = la ++ x :: lb /\
    find_slot fuel (link_of (n_addr <$> l1)) (n_dl x) tm = Ret (link_of (n_addr <$> l1 ++ la)) tm.
Proof.
  induction l2 as [|y l2 IH]; intros fuel l1 Hc He Hf; (destruct fuel as [|fuel]; [simpl in Hf; lia|]);
    cbn [find_slot insert_nap]; pose proof Hc as Hc'; rewrite fmap_app in Hc';
    rewrite (mbind_Ret _ _ _ _ _ (load_link_ok _ _ _ Hc')).
  { exists [], []. rewrite !app_nil_r. done. }
  cbn [fmap list_fmap hd]. simpl in Hf.
  destruct (He y) as (e & Ee & Hd); [apply elem_of_app; right; left|].
  destruct (chain_nonzero _ _ _ (n_addr y) Hc) as [H0 _]; [apply list_elem_of_fmap_2, elem_of_app; right; left|].
  unfold truthy. destruct (Z.eqb_spec (n_addr y) 0) as [|_]; [done|]. cbn [negb].
  assert (Ed : on_entries (deref (n_addr y)) tm = Ret e tm).
  { unfold on_entries, zoom. rewrite (deref_ok _ _ e) by done. by destruct tm. }
  rewrite (mbind_Ret _ _ _ _ _ Ed), Hd. destruct (Z.ltb_spec (n_dl y) (n_dl x)) as [Hlt|Hge].
  - destruct (IH fuel (l1 ++ [y])) as (la & lb & E1 & E2 & E3); [by rewrite <- app_assoc|by rewrite <- app_assoc|lia|].
    exists (y :: la), lb. split; [by rewrite E1|]. split; [by rewrite E2|].
    rewrite <- app_assoc in E3. rewrite fmap_app in E3 at 1. cbn [fmap list_fmap] in E3. rewrite link_of_snoc in E3. done.
  - exists [], (y :: l2). by rewrite app_nil_r.
Qed.

Lemma timer_core_sched (sc sc' : sched) tm q q' l :
  timer_core (sc, tm) q l -> sched_inv sc' q' -> s_heap sc' = s_heap sc ->
  dom (s_threads sc') = dom (s_threads sc) -> timer_core (sc', tm) q' l.
Proof.
  intros [Hs Hc He Ht (le & lr & Hv & Hle & Hd)] I Eh Ed. split; cbn [fst snd] in *; try done.
  - intros x Hx. destruct (Ht x Hx) as [? ?%elem_of_dom]. split; [done|]. apply elem_of_dom. by rewrite Ed.
  - exists le, lr. rewrite Eh, Ed. done.
Qed.

(** Adding an entry to the list and to the heap. *)
Lemma link_entry (sc : sched) tm q l h' a z d :
  timer_core (sc, tm) q l ->
  (exists le lr, kh_view h' ((a, z) :: le ++ lr) /\ le.*1 = n_addr <$> l /\
     forall t, t ∈ dom (s_threads sc) -> t ∈ lr.*1) ->
  a <> 0 -> a ∉ n_addr <$> l ->
  let tm1 := set_tm_entries (<[a := mk_tentry (current_thread sc) d junk]> (tm_entries tm)) tm in
  let x := mk_nap a d (current_thread sc) in
  exists tm', (prev <- on_t (fun s => find_slot (walk_fuel (tm_entries s)) Head d s) ;;
      p <- on_t (load_link prev) ;;
      on_t (on_entries (update a (set_te_next p))) ;;;
      on_t (store_link prev a)) (set_heap h' sc, tm1) = Ret tt (set_heap h' sc, tm') /\
    timer_core (set_heap h' sc, tm') q (insert_nap x l) /\
    ticks tm' = ticks tm /\ timer_lock tm' = timer_lock tm.
Proof.
  intros [Hs Hc He Ht _] (le & lr & Hv & Hle & Hd) H0 Ha. cbn [fst snd] in *. cbv zeta.
  set (tm1 := set_tm_entries _ tm). set (x := mk_nap a d (current_thread sc)).
  assert (Hc1 : chain (tm_entries tm1) (timer_queue tm1) (n_addr <$> [] ++ l)) by (by apply chain_insert).
  assert (He1 : forall y, y ∈ l -> exists e, tm_entries tm1 !! n_addr y = Some e /\ te_deadline e = n_dl y /\ te_thread e = n_thr y).
  { intros y Hy. destruct (He y Hy) as (e & Ee & Hed). exists e. split; [|done]. cbn. rewrite lookup_insert_ne; [done|].
    intros ->. apply Ha. by apply list_elem_of_fmap_2. }
  destruct (find_slot_spec tm1 x l (walk_fuel (tm_entries tm1)) []) as (la & lb & El & Eins & Ef); [done| | |].
  { intros y Hy. destruct (He1 y Hy) as (e & ? & ? & _). by exists e. }
  { pose proof (chain_length _ _ _ Hc1) as Hlen. rewrite length_fmap in Hlen. unfold walk_fuel. cbn [app] in Hlen. lia. }
  change (n_dl x) with d in Ef. change (link_of (n_addr <$> [])) with Head in Ef. cbn [app] in Ef, Hc1.
  rewrite El, fmap_app in Hc1, Ha.
  unfold on_t at 1. mstep. cbn [snd]. rewrite Ef. cbn [zoomr bindr fst snd].
  unfold on_t at 1. mstep. cbn [snd]. rewrite (load_link_ok _ _ _ Hc1). cbn [zoomr bindr fst snd].
  set (e0 := mk_tentry (current_thread sc) d junk). set (e1 := set_te_next (hd 0 (n_addr <$> lb)) e0).
  unfold on_t at 1, on_entries. mstep. cbn [snd]. rewrite (update_ok _ a e0) by (try done; apply lookup_insert_eq).
  cbn [zoomr bindr fst snd]. fold e1. set (tm2 := set_tm_entries _ tm1).
  assert (Hm2 : tm_entries tm2 = <[a := e1]> (tm_entries tm)) by (cbn; by rewrite insert_insert_eq).
  assert (Hcl : chain (tm_entries tm) (timer_queue tm2) ((n_addr <$> la) ++ (n_addr <$> lb))).
  { cbn. rewrite <- fmap_app, <- El. done. }
  assert (Hc2 : chain (tm_entries tm2) (timer_queue tm2) ((n_addr <$> la) ++ (n_addr <$> lb))) by (rewrite Hm2; by apply chain_insert).
  pose proof (chain_NoDup _ _ _ Hcl) as Hnd. apply not_elem_of_app in Ha as [Ha1 Ha2].
  assert (Hc3 : chain (tm_entries tm2) a (a :: (n_addr <$> lb))).
  { split; [done|]. split; [done|]. exists e1. rewrite Hm2, lookup_insert_eq. split; [done|].
    apply cseg_insert; [done|]. apply cseg_app in Hcl as (r & _ & Hr). cbn [nxt timer_Linked te_next e1 set_te_next].
    destruct lb; [done|]. destruct Hr as (-> & Hr). by split. }
  destruct (store_link_ok tm2 (n_addr <$> la) _ _ a Hc2 Hc3) as (tm3 & E3 & Hch & Hcore & Htk & Hlk).
  { intros y Hy [->|Hy2]%elem_of_cons; [done|]. apply NoDup_app in Hnd as (_ & Hn & _). by apply (Hn y). }
  unfold on_t. mstep. cbn [snd]. rewrite E3. cbn [zoomr fst]. exists tm3. split; [done|]. split; [|by split].
  assert (Hin : forall y, y ∈ insert_nap x l -> y = x \/ y ∈ l).
  { intros y. rewrite Eins, El. rewrite !elem_of_app, elem_of_cons. tauto. }
  split; cbn [fst snd].
  - by apply sched_inv_heap.
  - by rewrite Eins, fmap_app, fmap_cons.
  - intros y Hy. assert (Hy' : exists e, tm_entries tm2 !! n_addr y = Some e /\ te_deadline e = n_dl y /\ te_thread e = n_thr y).
    { rewrite Hm2. apply Hin in Hy as [->|Hy]; [exists e1; by rewrite lookup_insert_eq|].
      destruct (He y Hy) as (e & Ee & Hed). exists e. split; [|done]. rewrite lookup_insert_ne; [done|].
      intros E. apply (list_elem_of_fmap_2 n_addr) in Hy. rewrite El, fmap_app, <- E in Hy. by apply elem_of_app in Hy as [?|?]. }
    destruct Hy' as (e & Ee & Hed & Het). destruct (ecore_lookup _ _ _ _ Hcore Ee) as (e' & ? & ? & ?).
    exists e'. split; [done|]. split; congruence.
  - intros y [->|Hy]%Hin; [|by apply Ht]. split; [apply Hs|]. destruct (si_cur _ _ Hs) as [st Hst].
    destruct (state_of_Some _ _ _ Hst) as (th & Hth & _). cbn. eauto.
  - rewrite El, fmap_app in Hle. apply fmap_app_inv in Hle as (le1 & le2 & E1 & E2 & ->).
    exists (le1 ++ (a, z) :: le2), lr. cbn. split; [|split; [|done]].
    + eapply kh_view_perm; [exact Hv|]. rewrite <- !app_assoc. simpl. apply Permutation_middle.
    + rewrite Eins, !fmap_app, !fmap_cons, E1, E2. done.
Qed.

(** Up to the release of the timer lock. *)
Lemma sleep_enqueue_spec (s : state) q l d :
  timer_inv s q l ->
  if decide (d <= ticks (snd s)) then sleep_enqueue junk d s = Ret false s
  else
    (exists a h' tm', sleep_enqueue junk d s = Ret true (set_heap h' (fst s), tm') /\
       timer_inv (set_heap h' (fst s), tm') q (insert_nap (mk_nap a d (current_thread (fst s))) l) /\
       ticks tm' = ticks (snd s)) \/
    (kh_scarce (s_heap (fst s)) sizeof_timer_entry /\
     (sleep_enqueue junk d s = Fault \/
      exists h', sleep_enqueue junk d s = Ret false (set_heap h' (fst s), snd s) /\
        timer_inv (set_heap h' (fst s), snd s) q l)).
Proof.
  intros [Hc Hl]. destruct s as [sc tm]. cbn [fst snd] in *.
  assert (Hunlock : set_timer_lock 0 (set_timer_lock 1 tm) = tm) by (destruct tm; cbn in *; by subst).
  remember (sleep_enqueue junk d (sc, tm)) as R eqn:HR. unfold sleep_enqueue, lock_timer, unlock_timer in HR.
  unfold on_t at 1, on_t at 1 in HR. mstep in HR. cbn [snd fst] in HR. rewrite Hl in HR. cbn [Z.eqb zoomr bindr fst snd] in HR.
  cbn [ticks set_timer_lock] in HR. case_decide as Hd.
  { destruct (Z.leb_spec d (ticks tm)); [|lia]. unfold on_t in HR. mstep in HR. cbn [fst snd] in HR. by rewrite Hunlock in HR. }
  destruct (Z.leb_spec d (ticks tm)) as [|_]; [lia|].
  pose proof (tc_heap _ _ _ Hc) as (le & lr & Hv & Hle & Hdom). cbn [fst snd] in *.
  unfold on_s at 1, on_heap in HR. mstep in HR. cbn [fst snd] in HR.
  destruct (kh_malloc_spec sizeof_timer_entry (s_heap sc) (le ++ lr)) as
    [(a & z & h' & E & H0 & Hz & Hfr & Hv')|(Hsc & [E|(h' & E & Hv')])]; [done|done| | |]; rewrite E in HR; cbn [zoomr bindr fst snd] in HR.
  2:{ right. split; [done|]. by left. }
  2:{ right. split; [done|]. right. exists h'. unfold on_t in HR. mstep in HR. cbn [Z.eqb fst snd] in HR. rewrite Hunlock in HR. split; [done|].
      split; [|done]. destruct Hc as [Hs Hch He Ht _]. split; cbn; try done; [by apply sched_inv_heap|]. by exists le, lr. }
  left. destruct (Z.eqb_spec a 0) as [|_]; [done|].
  unfold on_s at 1 in HR. mstep in HR. cbn [fst snd current_thread set_heap] in HR. unfold on_t at 1 in HR. mstep in HR. cbn [fst snd] in HR.
  assert (Ha : a ∉ n_addr <$> l). { rewrite <- Hle. intros Hin. apply Hfr. rewrite fmap_app. apply elem_of_app. by left. }
  destruct (link_entry sc (set_timer_lock 1 tm) q l h' a z d) as (tm' & El & Hc' & Htk & Hlk); [by destruct Hc|by exists le, lr|done|done|].
  exists a, h', (set_timer_lock 0 tm'). split; [|split; [split; [|done]|done]].
  2:{ exact (timer_core_meta _ _ _ _ 0 (ticks tm') Hc'). }
  rewrite HR. clear HR. revert El. unfold mbind, mget, mret.
  match goal with |- bindr ?r _ = _ -> _ => destruct r as [prev s1| | | | |] end; cbn [bindr]; try done.
  destruct (on_t (load_link prev) s1) as [p s2| | | | |]; cbn [bindr]; try done.
  destruct (on_t (on_entries (update a (set_te_next p))) s2) as [[] s3| | | | |]; cbn [bindr]; try done.
  destruct (on_t (store_link prev a) s3) as [[] s4| | | | |]; cbn [bindr]; try done.
  intros [= ->]. done.
Qed.

(** ** Theorems *)

Lemma insert_nap_perm x l : insert_nap x l ≡ₚ x :: l.
Proof.
  induction l as [|y l IH]; cbn [insert_nap]; [done|]. destruct (n_dl y <? n_dl x); [|done].
  rewrite IH. apply Permutation_swap.
Qed.

Definition ordered : list nap -> Prop := StronglySorted (fun x y => n_dl x <= n_dl y).

Lemma insert_nap_ordered x l : ordered l -> ordered (insert_nap x l).
Proof.
  intros Hl. induction Hl as [|y l Hs IH Hy]; cbn [insert_nap]; [repeat constructor|].
  destruct (Z.ltb_spec (n_dl y) (n_dl x)) as [Hlt|Hge].
  - constructor; [exact IH|]. rewrite insert_nap_perm. constructor; [lia|done].
  - constructor; [by constructor|]. constructor; [lia|]. eapply Forall_impl; [exact Hy|]. intros z Hz. simpl in Hz. lia.
Qed.

Lemma filter_ordered (P : nap -> Prop) `{!forall x, Decision (P x)} l : ordered l -> ordered (filter P l).
Proof.
  induction 1 as [|y l Hs IH Hy]; [constructor|]. rewrite filter_cons. case_decide; [|done].
  constructor; [done|]. apply Forall_forall. intros z [_ Hz]%list_elem_of_filter.
  by apply (proj1 (Forall_forall _ _) Hy).
Qed.

Lemma woken_asleep s l now : asleep s l -> woken (fst s) now l = n_thr <$> filter (due now) l.
Proof.
  intros [_ Hb]. unfold woken. set (ts := filter (due now) l).
  assert (Hts : forall x, x ∈ ts -> blocked (fst s) (n_thr x)).
  { intros x [_ Hx]%list_elem_of_filter. by apply Hb. }
  clearbody ts. induction ts as [|x ts IH]; [done|]. rewrite fmap_cons, filter_cons_True by (apply Hts; left).
  f_equal. apply IH. intros y Hy. apply Hts. by right.
Qed.

(** A timer interrupt advances the tick count and wakes the threads whose
    deadline has come, in the order of their deadlines and behind the ready
    threads; it frees their entries, keeps the others in order and touches no
    other thread. *)
Theorem timer_tick_correct s q l :
  timer_inv s q l -> asleep s l -> ordered l ->
  let now := u64 (ticks (snd s) + 1) in
  exists s', timer_tick s = Ret tt s' /\ ticks (snd s') = now /\
    timer_inv s' (q ++ (n_thr <$> filter (due now) l)) (filter (fun x => ~ due now x) l) /\
    asleep s' (filter (fun x => ~ due now x) l) /\ ordered (filter (fun x => ~ due now x) l) /\
    forall t, (forall x, x ∈ l -> due now x -> n_thr x <> t) ->
      state_of (s_threads (fst s')) t = state_of (s_threads (fst s)) t.
Proof.
  intros Hi Hsl Hord. destruct (timer_tick_gen s q l Hi (proj1 Hsl)) as (s' & E & Hi' & Ho & Htk). cbv zeta.
  rewrite (woken_asleep s l _ Hsl) in Hi', Ho. exists s'. split; [done|]. split; [done|]. split; [done|].
  assert (Hoth : forall t, (forall x, x ∈ l -> due (u64 (ticks (snd s) + 1)) x -> n_thr x <> t) ->
    state_of (s_threads (fst s')) t = state_of (s_threads (fst s)) t).
  { intros t Ht. apply Ho. intros (x & -> & [Hd Hx]%list_elem_of_filter)%list_elem_of_fmap. by apply (Ht x). }
  destruct Hsl as [Hnd Hb]. split; [|split; [by apply filter_ordered|done]]. split.
  - eapply sublist_NoDup; [exact Hnd|]. apply fmap_sublist, sublist_filter.
  - intros x [Hd Hx]%list_elem_of_filter. rewrite Hoth; [by apply Hb|]. intros y Hy Hdy E'.
    assert (x = y) as ->; [|done]. apply (NoDup_fmap_elem n_thr l); done.
Qed.

Lemma asleep_insert s s' l x :
  asleep s l -> (forall t, t <> n_thr x -> state_of (s_threads (fst s)) t = Some THREAD_STATE_BLOCKED ->
    state_of (s_threads (fst s')) t = Some THREAD_STATE_BLOCKED) ->
  state_of (s_threads (fst s)) (n_thr x) <> Some THREAD_STATE_BLOCKED ->
  state_of (s_threads (fst s')) (n_thr x) = Some THREAD_STATE_BLOCKED ->
  asleep s' (insert_nap x l).
Proof.
  intros [Hnd Hb] Hsame Hx Hx'.
  assert (Hne : forall y, y ∈ l -> n_thr y <> n_thr x) by (intros y Hy E; apply Hx; rewrite <- E; by apply Hb).
  split.
  - rewrite insert_nap_perm, fmap_cons. apply NoDup_cons. split; [|done].
    intros (y & E & Hy)%list_elem_of_fmap. by apply (Hne y Hy).
  - intros y Hy. rewrite insert_nap_perm in Hy. apply elem_of_cons in Hy as [->|Hy]; [done|]. apply Hsame; [by apply Hne|by apply Hb].
Qed.

Lemma sleep_until_gen s q l d :
  timer_inv s q l -> asleep s l -> ordered l -> requeues (fst s) ->
  (d <= ticks (snd s) -> sleep_until junk d s = Ret tt s) /\
  (ticks (snd s) < d ->
    (exists a s' k, let l' := insert_nap (mk_nap a d (current_thread (fst s))) l in
       sleep_until junk d s = Switch s' k /\ (forall x, k x = Ret tt x) /\
       timer_inv s' (tail q) l' /\ asleep s' l' /\ ordered l' /\
       ticks (snd s') = ticks (snd s) /\
       current_thread (fst s') = hd (idle_thread_ptr (fst s)) q) \/
    (kh_scarce (s_heap (fst s)) sizeof_timer_entry /\
     (sleep_until junk d s = Fault \/
      exists h', sleep_until junk d s = Ret tt (set_heap h' (fst s), snd s) /\
        timer_inv (set_heap h' (fst s), snd s) q l))).
Proof.
  intros Hi Hsl Hord Hr. pose proof (sleep_enqueue_spec s q l d Hi) as E. unfold sleep_until, mbind.
  split; intros Hd; [rewrite decide_True in E by done|rewrite decide_False in E by lia]; [by rewrite E|].
  destruct E as [(a & h' & tm' & E & Hi' & Htk)|(Hsc & [E|(h' & E & Hi')])]; rewrite E; cbn [bindr].
  2:{ right. split; [done|]. by left. }
  2:{ right. split; [done|]. right. by exists h'. }
  left. set (x := mk_nap a d (current_thread (fst s))) in *.
  destruct Hi' as [Hc' Hl']. pose proof (tc_sched _ _ _ Hc') as I'. cbn [fst] in I'.
  destruct (thread_block_gen (set_heap h' (fst s)) q I' Hr) as (sc' & Eb & I2 & Hb & Hcur & Hidle & Hh & Hdom & Hoth).
  unfold on_s, zoom. cbn [fst snd]. rewrite Eb. cbn [zoomr].
  exists a, (sc', tm'). eexists. cbv zeta. split; [reflexivity|]. fold x.
  split; [by intros []|]. split; [split; [|done]|].
  { eapply timer_core_sched; [exact Hc'|exact I2|done|done]. }
  split; [|split; [by apply insert_nap_ordered|done]].
  apply (asleep_insert s); [done|intros t _; apply Hoth|cbn; intros Hx; pose proof (proj1 Hr); two_states|done].
Qed.

(** [sleep_until] by the running thread.  A deadline that has passed
    returns at once.  Otherwise the thread is entered in the queue in order
    of its deadline, blocked, and the head of the ready queue runs; or the
    heap has no room for the entry, and the call returns without sleeping or
    faults inside the heap. *)
Theorem sleep_until_correct s q l d :
  timer_inv s q l -> asleep s l -> ordered l -> requeues (fst s) ->
  (d <= ticks (snd s) -> sleep_until junk d s = Ret tt s) /\
  (ticks (snd s) < d ->
    (exists a s' k, let l' := insert_nap (mk_nap a d (current_thread (fst s))) l in
       sleep_until junk d s = Switch s' k /\ (forall x, k x = Ret tt x) /\
       timer_inv s' (tail q) l' /\ asleep s' l' /\ ordered l' /\
       ticks (snd s') = ticks (snd s) /\
       current_thread (fst s') = hd (idle_thread_ptr (fst s)) q) \/
    (kh_scarce (s_heap (fst s)) sizeof_timer_entry /\
     (sleep_until junk d s = Fault \/
      exists h', sleep_until junk d s = Ret tt (set_heap h' (fst s), snd s) /\
        timer_inv (set_heap h' (fst s), snd s) q l))).
Proof. apply sleep_until_gen. Qed.

(** A timer interrupt with the [schedule] that follows it. *)
Definition tick_irq : M state unit := timer_tick ;;; on_s schedule.

Fixpoint tick_n (n : nat) (s : state) : option state :=
  match n with
  | O => Some s
  | S n' => s1 ← next_state (tick_irq s); tick_n n' s1
  end.

(** The scheduler will run [t] without anybody's help: it is linked into the
    ready queue and marked ready, or it has the processor. *)
Definition runnable (s : sched) (t : Z) : Prop :=
  exists q, sched_inv s q /\
    ((t ∈ q /\ state_of (s_threads s) t = Some THREAD_STATE_READY) \/
     (current_thread s = t /\ state_of (s_threads s) t = Some THREAD_STATE_RUNNING)).

Lemma tick_irq_step s q l :
  timer_inv s q l -> asleep s l ->
  let now := u64 (ticks (snd s) + 1) in
  exists s' q', next_state (tick_irq s) = Some s' /\ ticks (snd s') = now /\
    timer_inv s' q' (filter (fun x => ~ due now x) l) /\ asleep s' (filter (fun x => ~ due now x) l) /\
    forall x, x ∈ l -> due now x -> runnable (fst s') (n_thr x).
Proof.
  intros Hi Hsl. cbv zeta. destruct (timer_tick_gen s q l Hi (proj1 Hsl)) as ([sc tm] & E & [Hc Hl] & Ho & Htk).
  rewrite (woken_asleep s l _ Hsl) in Hc, Ho. set (now := u64 (ticks (snd s) + 1)) in *. cbn [fst snd] in *.
  pose proof (tc_sched _ _ _ Hc) as I. cbn [fst] in I.
  destruct (schedule_gen sc _ I) as (sc' & E2 & I2 & _ & Hcur & _ & Hh & Hd & _ & Hoth).
  exists (sc', tm), (requeued sc (q ++ (n_thr <$> filter (due now) l))). unfold tick_irq, mbind. rewrite E. cbn [bindr].
  unfold on_s, zoom. cbn [fst snd]. rewrite E2. split; [done|]. split; [done|].
  split; [split; [by eapply timer_core_sched|done]|].
  assert (Hkeep : forall t, state_of (s_threads sc) t = Some THREAD_STATE_BLOCKED ->
    state_of (s_threads sc') t = Some THREAD_STATE_BLOCKED).
  { intros t Ht. rewrite Hoth; [done| |].
    - intros [-> [Hr _]]. two_states.
    - rewrite Hcur. intros ->. destruct (q ++ _) as [|b q'] eqn:Eq; simpl in Ht.
      + destruct (si_idle _ _ I); two_states.
      + assert (Hb : state_of (s_threads sc) b = Some THREAD_STATE_READY) by (apply (si_ready _ _ I); left). two_states. }
  destruct Hsl as [Hnd Hb]. split; [split|].
  - eapply sublist_NoDup; [exact Hnd|]. apply fmap_sublist, sublist_filter.
  - intros x [Hdx Hx]%list_elem_of_filter. apply Hkeep. rewrite (proj1 Ho); [by apply Hb|].
    intros (y & E' & [Hdy Hy]%list_elem_of_filter)%list_elem_of_fmap.
    assert (x = y) as ->; [|done]. by apply (NoDup_fmap_elem n_thr l).
  - intros x Hx Hdx. cbn [fst]. eexists. split; [exact I2|].
    assert (Hin : n_thr x ∈ q ++ (n_thr <$> filter (due now) l)).
    { apply elem_of_app. right. apply list_elem_of_fmap_2. by apply list_elem_of_filter. }
    destruct (q ++ _) as [|b q'] eqn:Eq; [by apply elem_of_nil in Hin|]. cbn [hd] in Hcur. apply elem_of_cons in Hin as [Hb'|Hin].
    + right. split; [congruence|]. destruct (schedule_gen sc _ I) as (sc2 & E3 & _ & _ & _ & _ & _ & _ & (n & Hn & Hst & _) & _).
      rewrite E2 in E3. injection E3 as <-. unfold state_of. rewrite Hb', <- Hcur, Hn. simpl. by rewrite Hst.
    + left. assert (Hr : n_thr x ∈ requeued sc (b :: q')) by (apply elem_of_app; by left). split; [exact Hr|]. by apply (si_ready _ _ I2).
Qed.

(** C11: a sleeping thread wakes on time.  Through any number of timer
    interrupts smaller than the distance to its deadline it stays blocked,
    and after the interrupt that reaches the deadline it is linked into the
    ready queue and marked ready, or already has the processor; the scheduler's
    invariant holds. *)
Theorem sleeper_wakes_on_time s q l x n :
  timer_inv s q l -> asleep s l -> x ∈ l ->
  0 <= ticks (snd s) < n_dl x -> n_dl x < two64 -> Z.of_nat n <= n_dl x - ticks (snd s) ->
  exists s', tick_n n s = Some s' /\
    (Z.of_nat n < n_dl x - ticks (snd s) -> state_of (s_threads (fst s')) (n_thr x) = Some THREAD_STATE_BLOCKED) /\
    (Z.of_nat n = n_dl x - ticks (snd s) -> runnable (fst s') (n_thr x)).
Proof.
  revert s q l. induction n as [|n IH]; intros s q l Hi Hsl Hx Ht Hmax Hn.
  { exists s. split; [done|]. split; [intros _; by apply Hsl|lia]. }
  destruct (tick_irq_step s q l Hi Hsl) as (s1 & q1 & E & Htk & Hi1 & Hsl1 & Hw). cbn [tick_n]. rewrite E. cbn [mbind option_bind].
  rewrite u64_small in * by lia. destruct (decide (n_dl x = ticks (snd s) + 1)) as [Hd|Hd].
  - assert (n = O) as -> by lia. exists s1. split; [done|]. split; [lia|]. intros _. apply (Hw x Hx). unfold due; lia.
  - destruct (IH s1 q1 _ Hi1 Hsl1) as (s2 & E2 & Hb & Hrun).
    + apply list_elem_of_filter. split; [unfold due; lia|done].
    + lia.
    + done.
    + lia.
    + exists s2. split; [done|]. split; intros Hk; [apply Hb|apply Hrun]; lia.
Qed.

(** A lost wake-up.  [sleep_until] releases the timer lock before it
    blocks.  When the caller has asked for the next tick and that tick's
    interrupt comes in between, the entry is removed while the thread still
    runs; the thread then blocks with no entry left that could wake it. *)
Theorem sleep_lost_wakeup s q l s1 :
  timer_inv s q l -> asleep s l -> requeues (fst s) ->
  0 <= ticks (snd s) -> ticks (snd s) + 1 < two64 ->
  sleep_enqueue junk (ticks (snd s) + 1) s = Ret true s1 ->
  let cur := current_thread (fst s) in
  exists s2 s3 q3 l3, timer_tick s1 = Ret tt s2 /\ on_s block_current s2 = Ret tt s3 /\
    current_thread (fst s3) = cur /\
    state_of (s_threads (fst s3)) cur = Some THREAD_STATE_BLOCKED /\
    timer_inv s3 q3 l3 /\ cur ∉ q3 /\ forall x, x ∈ l3 -> n_thr x <> cur.
Proof.
  intros Hi [Hnd Hb] Hr H0 Hmax E. cbv zeta. pose proof (sleep_enqueue_spec s q l (ticks (snd s) + 1) Hi) as Hq.
  rewrite decide_False, E in Hq by lia.
  destruct Hq as [(a & h' & tm' & E1 & Hi1 & Htk)|(_ & [E1|(h' & E1 & _)])]; [|done|done]. injection E1 as ->.
  set (x := mk_nap a (ticks (snd s) + 1) (current_thread (fst s))) in *.
  assert (Hne : forall y, y ∈ l -> n_thr y <> current_thread (fst s)).
  { intros y Hy Ey. pose proof (Hb y Hy) as Hby. pose proof (proj1 Hr) as Hr1. rewrite Ey in Hby. two_states. }
  assert (Hnd1 : NoDup (n_thr <$> insert_nap x l)).
  { rewrite insert_nap_perm, fmap_cons. apply NoDup_cons. split; [|done].
    intros (y & Ey & Hy)%list_elem_of_fmap. by apply (Hne y Hy). }
  destruct (timer_tick_gen _ q _ Hi1 Hnd1) as ([sc2 tm2] & E2 & [Hc2 Hl2] & Ho & _). cbn [fst snd] in *.
  rewrite Htk, u64_small in Hc2, Ho by lia. destruct Ho as (Hst & Hcur & Hidle & _).
  assert (Hcst : state_of (s_threads sc2) (current_thread sc2) = Some THREAD_STATE_RUNNING).
  { rewrite Hcur. cbn. rewrite Hst; [apply Hr|]. intros [Hbl _]%list_elem_of_filter. unfold blocked in Hbl.
    pose proof (proj1 Hr). cbn in Hbl. two_states. }
  assert (Hr2 : requeues sc2) by (split; [done|rewrite Hcur, Hidle; apply Hr]).
  pose proof (tc_sched _ _ _ Hc2) as I2. cbn [fst] in I2.
  destruct (block_current_spec sc2 _ I2 Hr2) as (sc3 & E3 & I3 & _ & Hb3 & Hcur3 & _ & Hh3 & Hd3).
  rewrite Hcur in Hcur3, Hb3. cbn [current_thread set_heap] in Hcur3, Hb3.
  exists (sc2, tm2), (sc3, tm2). eexists _, _. split; [done|]. split; [unfold on_s, zoom; cbn [fst]; by rewrite E3|].
  split; [done|]. split; [done|]. split; [split; [by eapply timer_core_sched|done]|]. split.
  - intros Hin%(si_ready _ _ I3). two_states.
  - intros y [Hdy Hy]%list_elem_of_filter. rewrite insert_nap_perm in Hy. apply elem_of_cons in Hy as [->|Hy]; [|by apply Hne].
    exfalso. apply Hdy. unfold due. cbn. lia.
Qed.

End TimerFacts.

(** ** Witnesses: the machine of [demo_running], where the running thread
    sleeps until tick 5 *)

Lemma timer_inv_boot {H} `{KHeap H} (s : @sched_t H) q ls :
  sched_inv s q -> heap_ok s ls -> timer_inv (s, timer_boot) q [].
Proof.
  intros I [Hv Hd]. split; [|done]. split; try done; try (by intros x ?%elem_of_nil). by exists [], ls.
Qed.

Lemma asleep_nil {H} `{KHeap H} (s : @state H) : asleep s [].
Proof. split; [constructor|]. by intros x ?%elem_of_nil. Qed.

Definition demo_slept (d : Z) : option (@state (@heap_t (@vm_t pmm_t))) :=
  demo_started ≫= fun s => next_state (sleep_until 7 d (s, timer_boot)).

Lemma demo_slept_queue : option_map (fun s => timer_queue (snd s)) (demo_slept 5) = Some (HEAP_START_VIRT + 8424).
Proof. vm_compute. reflexivity. Qed.

Lemma demo_asleep :
  exists s x, demo_slept 5 = Some s /\ timer_inv s [] [x] /\ asleep s [x] /\ n_dl x = 5 /\ ticks (snd s) = 0.
Proof.
  pose proof demo_slept_queue as E. destruct demo_running as (s0 & ls & E0 & I & Hok & Hr).
  unfold demo_slept in *. rewrite E0 in E |- *. cbn [base.mbind option_bind] in E |- *.
  destruct (sleep_until_gen 7 (s0, timer_boot) [] [] 5 (timer_inv_boot s0 [] ls I Hok) (asleep_nil _)) as [_ Hs];
    [constructor|exact Hr|].
  destruct Hs as [(a & s' & k & Es & _ & Hi & Hsl & _ & Htk & _)|(_ & [Es|(h' & Es & _)])]; [cbn; lia| | |];
    rewrite Es in E |- *.
  - eexists s', _. split; [reflexivity|]. split; [exact Hi|]. split; [exact Hsl|]. split; [reflexivity|exact Htk].
  - discriminate E.
  - discriminate E.
Defined.

Lemma timer_tick_correct_witness :
  exists s x s', demo_slept 5 = Some s /\ timer_tick s = Ret tt s' /\ ticks (snd s') = 1 /\
    timer_inv s' [] [x] /\ asleep s' [x].
Proof.
  destruct demo_asleep as (s & x & E & Hi & Hsl & Hd & Ht).
  destruct (timer_tick_correct s [] [x] Hi Hsl) as (s' & E' & Htk & Hi' & Hsl' & _).
  { repeat constructor. }
  exists s, x, s'. split; [exact E|]. split; [exact E'|]. rewrite Ht in *. change (u64 (0 + 1)) with 1 in *.
  rewrite (filter_cons_False (due 1)) in Hi' by (unfold due; lia).
  rewrite (filter_cons_True (fun y => ~ due 1 y)) in Hi', Hsl' by (unfold due; lia).
  split; [exact Htk|]. split; [exact Hi'|exact Hsl'].
Defined.

Lemma sleep_until_correct_witness :
  exists s, demo_started = Some s /\ sleep_until 7 0 (s, timer_boot) = Ret tt (s, timer_boot).
Proof.
  destruct demo_running as (s0 & ls & E0 & I & Hok & Hr). exists s0. split; [exact E0|].
  destruct (sleep_until_correct 7 (s0, timer_boot) [] [] 0 (timer_inv_boot s0 [] ls I Hok) (asleep_nil _)) as [Hs _];
    [constructor|exact Hr|]. apply Hs. cbn. lia.
Defined.

Lemma sleeper_wakes_on_time_witness :
  exists s x s', demo_slept 5 = Some s /\ tick_n 5 s = Some s' /\ runnable (fst s') (n_thr x).
Proof.
  destruct demo_asleep as (s & x & E & Hi & Hsl & Hd & Ht).
  destruct (sleeper_wakes_on_time s [] [x] x 5 Hi Hsl) as (s' & E' & _ & Hr); try lia.
  { left. }
  { unfold two64. lia. }
  exists s, x, s'. split; [exact E|]. split; [exact E'|]. apply Hr. lia.
Defined.

Lemma demo_enqueue_true :
  (demo_started ≫= fun s => option_map fst (returned (sleep_enqueue 7 1 (s, timer_boot)))) = Some true.
Proof. vm_compute. reflexivity. Qed.

Lemma sleep_lost_wakeup_witness :
  exists s s1 s2 s3, demo_started = Some s /\ sleep_enqueue 7 1 (s, timer_boot) = Ret true s1 /\
    timer_tick s1 = Ret tt s2 /\ on_s block_current s2 = Ret tt s3 /\
    state_of (s_threads (fst s3)) (current_thread s) = Some THREAD_STATE_BLOCKED.
Proof.
  pose proof demo_enqueue_true as E. destruct demo_running as (s0 & ls & E0 & I & Hok & Hr). rewrite E0 in E. cbn [base.mbind option_bind] in E.
  destruct (sleep_enqueue 7 1 (s0, timer_boot)) as [b s1| | | | |] eqn:E1; try discriminate E. injection E as ->.
  destruct (sleep_lost_wakeup 7 (s0, timer_boot) [] [] s1 (timer_inv_boot s0 [] ls I Hok) (asleep_nil _) Hr)
    as (s2 & s3 & q3 & l3 & E2 & E3 & _ & Hb & _).
  - cbn. lia.
  - cbn. unfold two64. lia.
  - exact E1.
  - exists s0, s1, s2, s3. split; [exact E0|]. split; [exact E1|]. split; [exact E2|]. split; [exact E3|exact Hb].
Defined.
