(* ===== verification/Ipc.v ===== *)
(** * Message ports (src/kernel/ipc.c)

    Sixty-four ports, each with a list of blocked senders, whose messages are
    kept in their wait nodes, and a list of blocked receivers, whose buffers
    the wait nodes point to. *)

From stdpp Require Import base gmap list fin_maps.
From Stdlib Require Import ZArith Lia.
From S2P Require Import Prelude Mem Pmm Vmm PageTables Heap HeapFacts KernelMem Chain Descriptors Sched SchedFacts.

Definition MAX_PORTS : Z := 64.
Definition IPC_MSG_MAX : Z := 256.

Record ipc_message : Type := mk_msg { msg_length : Z; msg_data : list Z }.

(** The union of a wait node: a pending message or a receive buffer. *)
Inductive wait_body : Type :=
| Snd (pending_msg : ipc_message)
| Rcv (buffer : Z).

Record wait_node : Type := mk_wait { wn_thread : Z; wn_body : wait_body; wn_next : Z }.
(** 8 + (8 + 256) + 8 *)
Definition sizeof_wait_node : Z := 280.

Definition set_wn_next (p : Z) (n : wait_node) : wait_node := mk_wait (wn_thread n) (wn_body n) p.

#[export] Instance wait_Linked : Linked wait_node := {|
  nxt := wn_next;
  set_nxt := set_wn_next;
  nxt_set := fun _ _ => eq_refl
|}.

Record port_t : Type := mk_port { port_lock : Z; senders : Z; recvers : Z }.

Definition set_port_lock (x : Z) (p : port_t) : port_t := mk_port x (senders p) (recvers p).
Definition set_senders (x : Z) (p : port_t) : port_t := mk_port (port_lock p) x (recvers p).
Definition set_recvers (x : Z) (p : port_t) : port_t := mk_port (port_lock p) (senders p) x.

Record ipc_t : Type := mk_ipc {
  ports : list port_t;
  ipc_initialized : Z;
  ip_nodes : gmap Z wait_node;
  ip_msgs : gmap Z ipc_message    (* the message buffers of the callers *)
}.
Definition ipc_boot (msgs : gmap Z ipc_message) : ipc_t :=
  mk_ipc (replicate 64 (mk_port 0 0 0)) 0 ∅ msgs.

Definition set_ports (x : list port_t) (s : ipc_t) : ipc_t :=
  mk_ipc x (ipc_initialized s) (ip_nodes s) (ip_msgs s).
Definition set_ipc_initialized (x : Z) (s : ipc_t) : ipc_t := mk_ipc (ports s) x (ip_nodes s) (ip_msgs s).
Definition set_ip_nodes (x : gmap Z wait_node) (s : ipc_t) : ipc_t :=
  mk_ipc (ports s) (ipc_initialized s) x (ip_msgs s).
Definition set_ip_msgs (x : gmap Z ipc_message) (s : ipc_t) : ipc_t :=
  mk_ipc (ports s) (ipc_initialized s) (ip_nodes s) x.

(** [for (i = 0; i < len; i++) dst[i] = src[i]], [n] rounds from [i] on; both
    arrays have 256 elements. *)
Fixpoint copy_data (n : nat) (i : nat) (src dst : list Z) : option (list Z) :=
  match n with
  | O => Some dst
  | S n' =>
      match src !! i with
      | Some c => if (i <? length dst)%nat then copy_data n' (S i) src (<[i := c]> dst) else None
      | None => None
      end
  end.

Definition clip (len : Z) : Z := if IPC_MSG_MAX <? len then IPC_MSG_MAX else len.

(** The copy of a message into [dst]: the length is clipped, the bytes past it
    stay. *)
Definition copy_msg (src dst : ipc_message) : option ipc_message :=
  let len := clip (msg_length src) in
  d ← copy_data (Z.to_nat len) 0 (msg_data src) (msg_data dst);
  Some (mk_msg len d).

Section Ipc.
Context {H : Type} `{HK : KHeap H}.
(** What a fresh block contains. *)
Context (junk_msg : ipc_message).
#[local] Abbreviation sched := (@sched_t H).

Definition state : Type := sched * ipc_t.
Definition on_s {A} (m : M sched A) : M state A := zoom fst (fun x (p : state) => (x, snd p)) m.
Definition on_i {A} (m : M ipc_t A) : M state A := zoom snd (fun x (p : state) => (fst p, x)) m.
Definition on_nodes {A} (m : M (gmap Z wait_node) A) : M ipc_t A := zoom ip_nodes set_ip_nodes m.

(** [ports[i]]: an index past the array faults. *)
Definition get_port (i : Z) : M ipc_t port_t := fun s => mopt (ports s !! Z.to_nat i) s.
Definition put_port (i : Z) (p : port_t) : M ipc_t unit :=
  mset (fun s => set_ports (<[Z.to_nat i := p]> (ports s)) s).
Definition lock_port (i : Z) : M ipc_t unit :=
  p <- get_port i ;;
  if port_lock p =? 0 then put_port i (set_port_lock 1 p) else fun _ => Spin.
Definition unlock_port (i : Z) : M ipc_t unit :=
  p <- get_port i ;; put_port i (set_port_lock 0 p).

(** Reading and writing a message through a pointer. *)
Definition read_msg (a : Z) : M ipc_t ipc_message := fun s =>
  if a =? 0 then Fault else mopt (ip_msgs s !! a) s.
Definition write_msg (a : Z) (m : ipc_message) : M ipc_t unit :=
  mset (fun s => set_ip_msgs (<[a := m]> (ip_msgs s)) s).

(** The ports are reset one after the other. *)
Definition ipc_init : M ipc_t unit :=
  mset (fun s => set_ports ((fun _ => mk_port 0 0 0) <$> ports s) s) ;;;
  mset (set_ipc_initialized 1).

Definition ensure_init : M ipc_t unit :=
  i <- mget ipc_initialized ;; if truthy i then mret tt else ipc_init.

(** [kfree(node)]. *)
Definition free_node (a : Z) : M state unit :=
  on_i (mset (fun s => set_ip_nodes (delete a (ip_nodes s)) s)) ;;;
  on_s (on_heap (kh_free a)).

(** Lines 47-58 (and 70-81): hand the message to the first waiting receiver. *)
Definition deliver (port node msg : Z) : M state unit :=
  n <- on_i (on_nodes (deref node)) ;;
  p <- on_i (get_port port) ;;
  on_i (put_port port (set_recvers (wn_next n) p)) ;;;
  match wn_body n with
  | Snd _ => mfault
  | Rcv buffer =>
      (if truthy buffer then
         m <- on_i (read_msg msg) ;;
         b <- on_i (read_msg buffer) ;;
         b' <- mopt (copy_msg m b) ;;
         on_i (write_msg buffer b')
       else mret tt) ;;;
      on_i (unlock_port port) ;;;
      on_s (thread_unblock (wn_thread n)) ;;;
      free_node node
  end.

Definition ipc_kernel_send (port msg : Z) : M state unit :=
  on_i ensure_init ;;;
  if MAX_PORTS <=? port then mret tt
  else
    on_i (lock_port port) ;;;
    p <- on_i (get_port port) ;;
    if truthy (recvers p) then deliver port (recvers p) msg else on_i (unlock_port port).

(** [ipc_send] up to the release of the port lock; [true] when the caller has
    to block. *)
Definition send_enqueue (port msg : Z) : M state bool :=
  on_i ensure_init ;;;
  if MAX_PORTS <=? port then mret false
  else
    on_i (lock_port port) ;;;
    p <- on_i (get_port port) ;;
    if truthy (recvers p) then deliver port (recvers p) msg ;;; mret false
    else
      node <- on_s (on_heap (kh_malloc sizeof_wait_node)) ;;
      if node =? 0 then on_i (unlock_port port) ;;; mret false
      else
        cur <- on_s (mget current_thread) ;;
        m <- on_i (read_msg msg) ;;
        m' <- mopt (copy_msg m junk_msg) ;;
        p <- on_i (get_port port) ;;
        on_i (mset (fun s => set_ip_nodes (<[node := mk_wait cur (Snd m') (senders p)]> (ip_nodes s)) s)) ;;;
        on_i (put_port port (set_senders node p)) ;;;
        on_i (unlock_port port) ;;;
        mret true.

Definition ipc_send (port msg : Z) : M state unit :=
  b <- send_enqueue port msg ;;
  if b then on_s thread_block else mret tt.

(** Lines 104-113: take the message of the first waiting sender. *)
Definition accept (port node msg : Z) : M state unit :=
  n <- on_i (on_nodes (deref node)) ;;
  p <- on_i (get_port port) ;;
  on_i (put_port port (set_senders (wn_next n) p)) ;;;
  match wn_body n with
  | Rcv _ => mfault
  | Snd pending =>
      b <- on_i (read_msg msg) ;;
      b' <- mopt (copy_msg pending b) ;;
      on_i (write_msg msg b') ;;;
      on_i (unlock_port port) ;;;
      on_s (thread_unblock (wn_thread n)) ;;;
      free_node node
  end.

Definition recv_enqueue (port msg : Z) : M state bool :=
  on_i ensure_init ;;;
  if MAX_PORTS <=? port then mret false
  else
    on_i (lock_port port) ;;;
    p <- on_i (get_port port) ;;
    if truthy (senders p) then accept port (senders p) msg ;;; mret false
    else
      node <- on_s (on_heap (kh_malloc sizeof_wait_node)) ;;
      if node =? 0 then on_i (unlock_port port) ;;; mret false
      else
        cur <- on_s (mget current_thread) ;;
        p <- on_i (get_port port) ;;
        on_i (mset (fun s => set_ip_nodes (<[node := mk_wait cur (Rcv msg) (recvers p)]> (ip_nodes s)) s)) ;;;
        on_i (put_port port (set_recvers node p)) ;;;
        on_i (unlock_port port) ;;;
        mret true.

Definition ipc_recv (port msg : Z) : M state unit :=
  b <- recv_enqueue port msg ;;
  if b then on_s thread_block else mret tt.

End Ipc.
