(* ===== verification/IpcFacts.v ===== *)
(** * Correctness of message ports (src/kernel/ipc.c)

    Messages are copied byte for byte up to the clipped length; a port never
    has senders and receivers waiting at once; a message sent is received by
    exactly one receiver. *)

From stdpp Require Import base gmap list fin_maps.
From Stdlib Require Import ZArith Lia.
From S2P Require Import Prelude Mem Pmm Vmm PageTables Heap HeapFacts KernelMem Chain Descriptors Sched SchedFacts SchedRun.
From S2P Require Import Ipc.

(** ** Copying a message *)

Lemma copy_data_spec n : forall i src dst,
  (i + n <= length src)%nat -> (i + n <= length dst)%nat ->
  copy_data n i src dst = Some (take i dst ++ take n (drop i src) ++ drop (i + n) dst).
Proof.
  induction n as [|n IH]; intros i src dst Hs Hd; cbn [copy_data].
  { rewrite take_0, Nat.add_0_r. simpl. by rewrite take_drop. }
  destruct (lookup_lt_is_Some_2 src i) as [c Hc]; [lia|]. rewrite Hc.
  destruct (Nat.ltb_spec i (length dst)); [|lia]. rewrite IH by (rewrite ?length_insert; lia). f_equal.
  rewrite (drop_S src c i Hc). cbn [take].
  rewrite (take_S_r (<[i := c]> dst) i c) by (apply list_lookup_insert_eq; lia).
  rewrite take_insert_ge by lia. rewrite drop_insert_lt by lia.
  rewrite <- app_assoc. simpl. do 4 f_equal. lia.
Qed.

(** A message buffer: 256 bytes and an unsigned length. *)
Definition msg_ok (m : ipc_message) : Prop := length (msg_data m) = 256%nat /\ 0 <= msg_length m.

(** The bytes a message carries. *)
Definition payload (m : ipc_message) : list Z := take (Z.to_nat (clip (msg_length m))) (msg_data m).

Lemma clip_range n : 0 <= n -> 0 <= clip n <= 256.
Proof. unfold clip, IPC_MSG_MAX. zcases; lia. Qed.

Lemma copy_msg_spec src dst :
  msg_ok src -> msg_ok dst ->
  exists m, copy_msg src dst = Some m /\ msg_ok m /\ msg_length m = clip (msg_length src) /\
    payload m = payload src.
Proof.
  intros [Hs Hs0] [Hd Hd0]. pose proof (clip_range _ Hs0) as Hc. unfold copy_msg.
  set (len := clip (msg_length src)) in *.
  rewrite copy_data_spec by lia. cbn [mbind option_bind]. rewrite drop_0, take_0, app_nil_l.
  assert (Hcc : clip len = len) by (unfold clip, IPC_MSG_MAX; zcases; lia).
  eexists. split; [reflexivity|]. unfold payload, msg_ok. cbn [msg_data msg_length].
  rewrite Hcc. fold len. split; [split; [|lia]|split; [done|]].
  - rewrite length_app, length_take, length_drop. lia.
  - rewrite take_app_le by (rewrite length_take; lia). by rewrite take_take, Nat.min_id.
Qed.

(** ** The invariant *)

Record wait : Type := mk_w { w_addr : Z; w_thr : Z; w_body : wait_body }.
Record pview : Type := mk_pv { pv_snd : list wait; pv_rcv : list wait }.

(** Senders ([true]) and receivers ([false]) alike. *)
Definition qhead (b : bool) (p : port_t) : Z := if b then senders p else recvers p.
Definition set_qhead (b : bool) (x : Z) (p : port_t) : port_t := if b then set_senders x p else set_recvers x p.
Definition pvq (b : bool) (v : pview) : list wait := if b then pv_snd v else pv_rcv v.
Definition set_pvq (b : bool) (l : list wait) (v : pview) : pview :=
  if b then mk_pv l (pv_rcv v) else mk_pv (pv_snd v) l.

Definition waits (v : pview) : list wait := pv_snd v ++ pv_rcv v.
Definition all_waits (ps : list pview) : list wait := concat (waits <$> ps).
Definition others {A} (i : nat) (l : list A) : list A := take i l ++ drop (S i) l.

Lemma others_perm {A} (l : list A) i x : l !! i = Some x -> l ≡ₚ x :: others i l.
Proof. intros Hx. rewrite <- (take_drop_middle l i x Hx) at 1. unfold others. by rewrite Permutation_middle. Qed.

Lemma others_insert {A} (l : list A) i x : others i (<[i := x]> l) = others i l.
Proof. unfold others. by rewrite take_insert_ge, drop_insert_lt by lia. Qed.

Lemma all_waits_split ps i v : ps !! i = Some v -> all_waits ps ≡ₚ waits v ++ all_waits (others i ps).
Proof. intros Hv. unfold all_waits. rewrite (others_perm ps i v Hv) at 1. done. Qed.

Lemma all_waits_elem ps i v w : ps !! i = Some v -> w ∈ waits v -> w ∈ all_waits ps.
Proof. intros Hv Hw. rewrite (all_waits_split ps i v Hv). apply elem_of_app. by left. Qed.

Lemma pvq_waits b v : waits v ≡ₚ pvq b v ++ pvq (negb b) v.
Proof. destruct b; unfold waits; simpl; [done|apply Permutation_app_comm]. Qed.

Lemma waits_set b l v : waits (set_pvq b l v) ≡ₚ l ++ pvq (negb b) v.
Proof. destruct b; unfold waits; simpl; [done|apply Permutation_app_comm]. Qed.

Section IpcFacts.
Context {H : Type} `{HK : KHeap H}.
Context (junk_msg : ipc_message) (junk_ok : msg_ok junk_msg).
#[local] Abbreviation sched := (@sched_t H).
#[local] Abbreviation state := (@Ipc.state H).

(** What a wait node of the given side must hold. *)
Definition body_ok (msgs : gmap Z ipc_message) (b : bool) (w : wait) : Prop :=
  match b, w_body w with
  | true, Snd m => msg_ok m
  | false, Rcv a => a = 0 \/ is_Some (msgs !! a)
  | _, _ => False
  end.

Definition node_ok (nodes : gmap Z wait_node) (w : wait) : Prop :=
  exists n, nodes !! w_addr w = Some n /\ wn_thread n = w_thr w /\ wn_body n = w_body w.

Record port_ok (s : ipc_t) (p : port_t) (v : pview) : Prop := {
  po_chain : forall b, chain (ip_nodes s) (qhead b p) (w_addr <$> pvq b v);
  po_body : forall b w, w ∈ pvq b v -> body_ok (ip_msgs s) b w;
  po_one : pv_snd v = [] \/ pv_rcv v = []
}.

Record ipc_core (s : state) (q : list Z) (ps : list pview) : Prop := {
  ic_sched : sched_inv (fst s) q;
  ic_len : length ps = 64%nat /\ length (ports (snd s)) = 64%nat;
  ic_port : forall i v p, ps !! i = Some v -> ports (snd s) !! i = Some p -> port_ok (snd s) p v;
  ic_node : forall w, w ∈ all_waits ps -> node_ok (ip_nodes (snd s)) w;
  ic_nodup : NoDup (w_addr <$> all_waits ps);
  ic_thr : forall w, w ∈ all_waits ps -> w_thr w <> 0 /\ is_Some (s_threads (fst s) !! w_thr w);
  ic_msgs : forall a m, ip_msgs (snd s) !! a = Some m -> msg_ok m;
  ic_heap : exists le lr, kh_view (s_heap (fst s)) (le ++ lr) /\ le.*1 ≡ₚ w_addr <$> all_waits ps /\
    forall t, t ∈ dom (s_threads (fst s)) -> t ∈ lr.*1
}.

(** ** Removing the first waiter of a list *)

Lemma pop_addrs ps i v b w l :
  ps !! i = Some v -> pvq b v = w :: l -> NoDup (w_addr <$> all_waits ps) ->
  all_waits ps ≡ₚ w :: all_waits (<[i := set_pvq b l v]> ps) /\
  w_addr w ∉ w_addr <$> all_waits (<[i := set_pvq b l v]> ps).
Proof.
  intros Hv Hq Hnd. assert (Hp : all_waits ps ≡ₚ w :: all_waits (<[i := set_pvq b l v]> ps)).
  { rewrite (all_waits_split ps i v Hv).
    rewrite (all_waits_split (<[i := set_pvq b l v]> ps) i (set_pvq b l v))
      by (apply list_lookup_insert_eq, (lookup_lt_Some _ _ _ Hv)).
    rewrite others_insert, waits_set, (pvq_waits b v), Hq. done. }
  split; [done|]. rewrite Hp, fmap_cons in Hnd. by apply NoDup_cons in Hnd as [? _].
Qed.

Lemma msgs_body (m1 m2 : gmap Z ipc_message) b w :
  (forall a, is_Some (m1 !! a) -> is_Some (m2 !! a)) -> body_ok m1 b w -> body_ok m2 b w.
Proof. intros Hm. unfold body_ok. destruct b, (w_body w); try done. intros [?|?]; [by left|right; auto]. Qed.

Lemma pop_core (s s' : state) q q' ps i v p b w l n k h' :
  ipc_core s q ps -> ps !! i = Some v -> ports (snd s) !! i = Some p -> pvq b v = w :: l ->
  ip_nodes (snd s) !! w_addr w = Some n ->
  sched_inv (fst s') q' -> dom (s_threads (fst s')) = dom (s_threads (fst s)) ->
  s_heap (fst s') = h' ->
  (forall le lr, kh_view (s_heap (fst s)) (le ++ lr) -> forall z le', le ≡ₚ (w_addr w, z) :: le' -> kh_view h' (le' ++ lr)) ->
  ports (snd s') = <[i := set_port_lock k (set_qhead b (wn_next n) p)]> (ports (snd s)) ->
  ip_nodes (snd s') = delete (w_addr w) (ip_nodes (snd s)) ->
  (forall a, is_Some (ip_msgs (snd s) !! a) -> is_Some (ip_msgs (snd s') !! a)) ->
  (forall a m, ip_msgs (snd s') !! a = Some m -> msg_ok m) ->
  ipc_core s' q' (<[i := set_pvq b l v]> ps).
Proof.
  intros C Hv Hp Hq Hn I' Hd Hh Hfree Hports Hnodes Hmsg Hmok.
  destruct (pop_addrs ps i v b w l Hv Hq (ic_nodup _ _ _ C)) as [Hperm Hw].
  set (ps' := <[i := set_pvq b l v]> ps) in *.
  pose proof (lookup_lt_Some _ _ _ Hv) as Hi.
  assert (Hsub : forall x, x ∈ all_waits ps' -> x ∈ all_waits ps) by (intros x Hx; rewrite Hperm; by right).
  pose proof (ic_port _ _ _ C i v p Hv Hp) as [Hc Hb Hone].
  destruct (ic_len _ _ _ C) as [HL1 HL2].
  split.
  - done.
  - rewrite Hports. unfold ps'. by rewrite !length_insert.
  - intros j v' p' Hv' Hp'. rewrite Hports in Hp'. unfold ps' in Hv'. destruct (decide (i = j)) as [<-|Hne].
    + rewrite list_lookup_insert_eq in Hv' by lia. rewrite list_lookup_insert_eq in Hp' by lia. injection Hv' as <-. injection Hp' as <-.
      assert (Hin : forall b' x, x ∈ pvq b' (set_pvq b l v) -> x ∈ all_waits ps' /\ x ∈ pvq b' v).
      { intros b' x Hx. split.
        - apply (all_waits_elem ps' i (set_pvq b l v)); [by apply list_lookup_insert_eq|]. rewrite (pvq_waits b'). apply elem_of_app. by left.
        - destruct b, b'; simpl in *; rewrite ?Hq; try done; by right. }
      split.
      * intros b'. rewrite Hnodes. apply cseg_delete.
        { intros (x & E & Hx)%list_elem_of_fmap. apply Hw. rewrite E. apply list_elem_of_fmap_2. by apply (Hin b'). }
        destruct (decide (b = b')) as [<-|Hbb].
        -- specialize (Hc b). rewrite Hq, fmap_cons in Hc. destruct Hc as (_ & _ & n' & Hn' & Hc).
           rewrite Hn in Hn'. injection Hn' as <-. by destruct b.
        -- specialize (Hc b'). by destruct b, b'.
      * intros b' x Hx. apply (msgs_body (ip_msgs (snd s))); [done|]. apply Hb. by apply (Hin b').
      * destruct b; simpl in *; (destruct Hone as [Ho|Ho]; rewrite Ho in *; [|]); try discriminate; tauto.
    + rewrite list_lookup_insert_ne in Hv' by done. rewrite list_lookup_insert_ne in Hp' by done. destruct (ic_port _ _ _ C j v' p' Hv' Hp') as [Hc' Hb' Hone'].
      split; [|intros b' x Hx; apply (msgs_body (ip_msgs (snd s))); [done|by apply Hb']|done].
      intros b'. rewrite Hnodes. apply cseg_delete; [|apply Hc'].
      intros (x & E & Hx)%list_elem_of_fmap. apply Hw. rewrite E. apply list_elem_of_fmap_2.
      apply (all_waits_elem ps' j v'); [unfold ps'; by rewrite list_lookup_insert_ne|].
      rewrite (pvq_waits b'). apply elem_of_app. by left.
  - intros x Hx. destruct (ic_node _ _ _ C x (Hsub x Hx)) as (n' & Hn' & ?). exists n'. split; [|done].
    rewrite Hnodes, lookup_delete_ne; [done|]. intros E. apply Hw. rewrite E. by apply list_elem_of_fmap_2.
  - pose proof (ic_nodup _ _ _ C) as Hnd. rewrite Hperm, fmap_cons in Hnd. by apply NoDup_cons in Hnd as [_ ?].
  - intros x Hx. destruct (ic_thr _ _ _ C x (Hsub x Hx)) as [? ?%elem_of_dom]. split; [done|]. apply elem_of_dom. by rewrite Hd.
  - done.
  - destruct (ic_heap _ _ _ C) as (le & lr & Hview & Hle & Hdom).
    rewrite Hperm, fmap_cons in Hle. symmetry in Hle.
    assert (Hin : w_addr w ∈ le.*1) by (rewrite <- Hle; left).
    apply list_elem_of_fmap in Hin as ([a z] & Ea & Hin). simpl in Ea. subst a.
    apply list_elem_of_split in Hin as (l1 & l2 & ->).
    exists (l1 ++ l2), lr. rewrite Hh. split; [|split; [|by rewrite Hd]].
    + apply (Hfree _ _ Hview z). by rewrite Permutation_middle.
    + rewrite fmap_app, fmap_cons in Hle. simpl in Hle. rewrite <- Permutation_middle in Hle. apply Permutation_cons_inv in Hle.
      by rewrite fmap_app.
Qed.

(** ** Handing a message over *)

Lemma on_i_ok {A} (m : M ipc_t A) (sc : sched) ip x ip' :
  m ip = Ret x ip' -> on_i m (sc, ip) = Ret x (sc, ip').
Proof. intros E. unfold on_i, zoom. cbn [snd]. by rewrite E. Qed.

Lemma get_port_ok ip i p : ports ip !! i = Some p -> get_port (Z.of_nat i) ip = Ret p ip.
Proof. intros E. unfold get_port. rewrite Nat2Z.id, E. done. Qed.

Lemma put_port_ok ip i p :
  put_port (Z.of_nat i) p ip = Ret tt (set_ports (<[i := p]> (ports ip)) ip).
Proof. unfold put_port, mset. by rewrite Nat2Z.id. Qed.

Lemma unlock_port_ok ip i p : ports ip !! i = Some p ->
  unlock_port (Z.of_nat i) ip = Ret tt (set_ports (<[i := set_port_lock 0 p]> (ports ip)) ip).
Proof. intros E. unfold unlock_port. rewrite (mbind_Ret _ _ _ _ _ (get_port_ok ip i p E)). apply put_port_ok. Qed.

Lemma read_msg_ok ip a m : a <> 0 -> ip_msgs ip !! a = Some m -> read_msg a ip = Ret m ip.
Proof. intros H0 E. unfold read_msg. destruct (Z.eqb_spec a 0); [done|]. by rewrite E. Qed.

(** Unlock, wake, free: the end of both directions. *)
Lemma release_spec (sc : sched) ip q i p t a ls z :
  sched_inv sc q -> ports ip !! i = Some p -> t <> 0 -> is_Some (s_threads sc !! t) ->
  kh_view (s_heap sc) ((a, z) :: ls) ->
  exists sc' h', (on_i (unlock_port (Z.of_nat i)) ;;; on_s (thread_unblock t) ;;; free_node a) (sc, ip) =
      Ret tt (set_heap h' sc', set_ip_nodes (delete a (ip_nodes ip))
        (set_ports (<[i := set_port_lock 0 p]> (ports ip)) ip)) /\
    sched_inv (set_heap h' sc') (q ++ filter (blocked sc) [t]) /\
    same_others sc (set_heap h' sc') (filter (blocked sc) [t]) /\
    (blocked sc t -> state_of (s_threads sc') t = Some THREAD_STATE_READY) /\
    kh_free a (s_heap sc) = Ret tt h'.
Proof.
  intros I Hp H0 Ht Hv. destruct (thread_unblock_client sc q t I H0 Ht) as (sc' & E & I' & Ho & Hh & Hrdy).
  destruct (kh_free_spec _ _ _ _ Hv) as (h' & Ef & _). exists sc', h'.
  rewrite (mbind_Ret _ _ _ _ _ (on_i_ok _ sc ip _ _ (unlock_port_ok ip i p Hp))).
  unfold free_node, on_s, on_i, on_heap. mstep. cbn [fst snd]. rewrite E. cbn [zoomr bindr fst snd]. rewrite Hh, Ef.
  split; [done|]. split; [by apply sched_inv_heap|]. split; [done|]. split; [done|done].
Qed.

Lemma free_view (h h' : H) a : kh_free a h = Ret tt h' ->
  forall le lr, kh_view h (le ++ lr) -> forall z le', le ≡ₚ (a, z) :: le' -> kh_view h' (le' ++ lr).
Proof.
  intros Ef le lr Hv z le' Hp. destruct (kh_free_spec h (le' ++ lr) a z) as (h2 & E & Hv').
  { eapply kh_view_perm; [exact Hv|]. by rewrite Hp. }
  rewrite Ef in E. by injection E as <-.
Qed.

Lemma heap_head (s : state) q ps w :
  ipc_core s q ps -> w ∈ all_waits ps -> exists z ls, kh_view (s_heap (fst s)) ((w_addr w, z) :: ls).
Proof.
  intros C Hw. destruct (ic_heap _ _ _ C) as (le & lr & Hv & Hle & _).
  assert (Hin : w_addr w ∈ le.*1) by (rewrite Hle; by apply list_elem_of_fmap_2).
  apply list_elem_of_fmap in Hin as ([a z] & Ea & Hin). simpl in Ea. subst a.
  apply list_elem_of_split in Hin as (l1 & l2 & ->). exists z, (l1 ++ l2 ++ lr).
  eapply kh_view_perm; [exact Hv|]. rewrite <- app_assoc. simpl. by rewrite <- Permutation_middle.
Qed.

(** The state after a hand-over to or from the first waiter [w] of side [b]. *)
Definition handed (s s' : state) (q : list Z) (ps : list pview) (i : nat) (v : pview) (p : port_t)
    (b : bool) (w : wait) (l : list wait) (msgs' : gmap Z ipc_message) : Prop :=
  ipc_core s' (q ++ filter (blocked (fst s)) [w_thr w]) (<[i := set_pvq b l v]> ps) /\
  same_others (fst s) (fst s') (filter (blocked (fst s)) [w_thr w]) /\
  (blocked (fst s) (w_thr w) -> state_of (s_threads (fst s')) (w_thr w) = Some THREAD_STATE_READY) /\
  (exists x, ports (snd s') = <[i := set_port_lock 0 (set_qhead b x p)]> (ports (snd s))) /\
  ipc_initialized (snd s') = ipc_initialized (snd s) /\
  ip_msgs (snd s') = msgs'.

(** Both directions, once the message has been copied. *)
Lemma handover_spec (s : state) q ps i v p b w l n msgs' :
  ipc_core s q ps -> ps !! i = Some v -> ports (snd s) !! i = Some p -> pvq b v = w :: l ->
  ip_nodes (snd s) !! w_addr w = Some n -> wn_thread n = w_thr w ->
  (forall a, is_Some (ip_msgs (snd s) !! a) -> is_Some (msgs' !! a)) ->
  (forall a m, msgs' !! a = Some m -> msg_ok m) ->
  let ip1 := set_ip_msgs msgs' (set_ports (<[i := set_qhead b (wn_next n) p]> (ports (snd s))) (snd s)) in
  exists s', (on_i (unlock_port (Z.of_nat i)) ;;; on_s (thread_unblock (wn_thread n)) ;;; free_node (w_addr w))
      (fst s, ip1) = Ret tt s' /\ handed s s' q ps i v p b w l msgs'.
Proof.
  intros C Hv Hp Hq Hn Ht Hm1 Hm2 ip1. destruct s as [sc ip]. cbn [fst snd] in *.
  assert (Hw : w ∈ all_waits ps).
  { apply (all_waits_elem ps i v w Hv). rewrite (pvq_waits b), Hq. left. }
  destruct (ic_thr _ _ _ C w Hw) as [H0 Hs]. destruct (heap_head _ _ _ w C Hw) as (z & ls & Hview). cbn [fst] in *.
  assert (Hp1 : ports ip1 !! i = Some (set_qhead b (wn_next n) p)).
  { cbn. apply list_lookup_insert_eq. by apply (lookup_lt_Some _ _ _ Hp). }
  rewrite Ht. destruct (release_spec sc ip1 q i _ (w_thr w) (w_addr w) ls z (ic_sched _ _ _ C) Hp1 H0 Hs Hview)
    as (sc' & h' & E & I' & Ho & Hrdy & Ef).
  eexists. split; [exact E|]. unfold handed. cbn [fst snd].
  assert (Hpf : ports (set_ip_nodes (delete (w_addr w) (ip_nodes ip1))
      (set_ports (<[i := set_port_lock 0 (set_qhead b (wn_next n) p)]> (ports ip1)) ip1)) =
      <[i := set_port_lock 0 (set_qhead b (wn_next n) p)]> (ports ip)).
  { cbn. by rewrite list_insert_insert_eq. }
  split; [|split; [done|split; [done|split; [exists (wn_next n); exact Hpf|done]]]].
  eapply (pop_core (sc, ip)); try done.
  - apply Ho.
  - exact (free_view _ _ _ Ef).
Qed.

Lemma first_node (s : state) q ps i v p b w l :
  ipc_core s q ps -> ps !! i = Some v -> ports (snd s) !! i = Some p -> pvq b v = w :: l ->
  exists n, ip_nodes (snd s) !! w_addr w = Some n /\ wn_thread n = w_thr w /\ wn_body n = w_body w /\
    qhead b p = w_addr w /\ w_addr w <> 0 /\ body_ok (ip_msgs (snd s)) b w.
Proof.
  intros C Hv Hp Hq. destruct (ic_port _ _ _ C i v p Hv Hp) as [Hc Hb _]. specialize (Hc b). rewrite Hq, fmap_cons in Hc.
  destruct Hc as (Eh & H0 & _).
  destruct (ic_node _ _ _ C w) as (n & Hn & Ht & Hbody).
  { apply (all_waits_elem ps i v w Hv). rewrite (pvq_waits b), Hq. left. }
  exists n. split_and!; try done. apply Hb. rewrite Hq. left.
Qed.

(** The buffers after [src] has been received into the buffer [a]. *)
Definition received (msgs msgs' : gmap Z ipc_message) (a : Z) (src : ipc_message) : Prop :=
  exists m, msgs' = <[a := m]> msgs /\ msg_ok m /\ msg_length m = clip (msg_length src) /\
    payload m = payload src.

Lemma received_ok msgs msgs' a src :
  received msgs msgs' a src -> (forall x m, msgs !! x = Some m -> msg_ok m) ->
  (forall x, is_Some (msgs !! x) -> is_Some (msgs' !! x)) /\ (forall x m, msgs' !! x = Some m -> msg_ok m).
Proof.
  intros (m & -> & Hok & _) Hall. split; intros x.
  - rewrite lookup_insert. by case_decide; eauto.
  - intros m'. rewrite lookup_insert. case_decide; [by intros [= <-]|]. apply Hall.
Qed.

Lemma deliver_spec (s : state) q ps i v p w l msg m :
  ipc_core s q ps -> ps !! i = Some v -> ports (snd s) !! i = Some p -> pv_rcv v = w :: l ->
  msg <> 0 -> ip_msgs (snd s) !! msg = Some m ->
  exists s' buf msgs', w_body w = Rcv buf /\
    deliver (Z.of_nat i) (w_addr w) msg s = Ret tt s' /\ handed s s' q ps i v p false w l msgs' /\
    (if buf =? 0 then msgs' = ip_msgs (snd s) else received (ip_msgs (snd s)) msgs' buf m).
Proof.
  intros C Hv Hp Hq Hm0 Hm. destruct s as [sc ip]. cbn [fst snd] in *.
  destruct (first_node _ _ _ i v p false w l C Hv Hp Hq) as (n & Hn & Ht & Hb & _ & H0 & Hbok). cbn [snd] in *.
  unfold body_ok in Hbok. destruct (w_body w) as [|buf] eqn:Ebody; [done|].
  unfold deliver. rewrite (mbind_Ret _ _ _ _ _ (on_i_ok (on_nodes (deref (w_addr w))) sc ip n ip
    ltac:(unfold on_nodes, zoom; rewrite (deref_ok _ _ n) by done; by destruct ip))).
  rewrite (mbind_Ret _ _ _ _ _ (on_i_ok _ sc ip _ _ (get_port_ok ip i p Hp))).
  rewrite (mbind_Ret _ _ _ _ _ (on_i_ok _ sc ip _ _ (put_port_ok ip i (set_recvers (wn_next n) p)))). rewrite Hb.
  set (ip0 := set_ports _ ip). destruct (Z.eqb_spec buf 0) as [->|Hb0].
  - change (truthy 0) with false. rewrite (mbind_Ret _ _ _ _ _ (eq_refl : mret tt (sc, ip0) = Ret tt (sc, ip0))).
    destruct (handover_spec (sc, ip) q ps i v p false w l n (ip_msgs ip) C Hv Hp Hq Hn Ht) as (s' & E & Hd);
      [done|apply C|]. exists s', 0, (ip_msgs ip). split; [done|]. split; [|done]. exact E.
  - destruct Hbok as [|[mb Hmb]]; [done|].
    destruct (copy_msg_spec m mb) as (m' & Ecp & Hok & Hlen & Hpay); [by apply (ic_msgs _ _ _ C) in Hm|by apply (ic_msgs _ _ _ C) in Hmb|].
    unfold truthy. destruct (Z.eqb_spec buf 0) as [|_]; [done|]. cbn [negb].
    assert (Ewrite : (m <- on_i (read_msg msg) ;; b <- on_i (read_msg buf) ;; b' <- mopt (copy_msg m b) ;;
        on_i (write_msg buf b')) (sc, ip0) = Ret tt (sc, set_ip_msgs (<[buf := m']> (ip_msgs ip)) ip0)).
    { rewrite (mbind_Ret _ _ _ _ _ (on_i_ok _ sc ip0 _ _ (read_msg_ok ip0 msg m Hm0 Hm))).
      rewrite (mbind_Ret _ _ _ _ _ (on_i_ok _ sc ip0 _ _ (read_msg_ok ip0 buf mb Hb0 Hmb))).
      unfold mopt, mbind. rewrite Ecp. done. }
    rewrite (mbind_Ret _ _ _ _ _ Ewrite).
    assert (Hrec : received (ip_msgs ip) (<[buf := m']> (ip_msgs ip)) buf m) by (by exists m').
    destruct (received_ok _ _ _ _ Hrec (ic_msgs _ _ _ C)) as [Hr1 Hr2].
    destruct (handover_spec (sc, ip) q ps i v p false w l n _ C Hv Hp Hq Hn Ht Hr1 Hr2) as (s' & E & Hd).
    exists s', buf, (<[buf := m']> (ip_msgs ip)). split; [done|]. split; [exact E|]. split; [done|]. by destruct (Z.eqb_spec buf 0).
Qed.

Lemma accept_spec (s : state) q ps i v p w l msg mb :
  ipc_core s q ps -> ps !! i = Some v -> ports (snd s) !! i = Some p -> pv_snd v = w :: l ->
  msg <> 0 -> ip_msgs (snd s) !! msg = Some mb ->
  exists s' pending msgs', w_body w = Snd pending /\
    accept (Z.of_nat i) (w_addr w) msg s = Ret tt s' /\ handed s s' q ps i v p true w l msgs' /\
    received (ip_msgs (snd s)) msgs' msg pending.
Proof.
  intros C Hv Hp Hq Hm0 Hm. destruct s as [sc ip]. cbn [fst snd] in *.
  destruct (first_node _ _ _ i v p true w l C Hv Hp Hq) as (n & Hn & Ht & Hb & _ & H0 & Hbok). cbn [snd] in *.
  unfold body_ok in Hbok. destruct (w_body w) as [pending|] eqn:Ebody; [|done].
  unfold accept. rewrite (mbind_Ret _ _ _ _ _ (on_i_ok (on_nodes (deref (w_addr w))) sc ip n ip
    ltac:(unfold on_nodes, zoom; rewrite (deref_ok _ _ n) by done; by destruct ip))).
  rewrite (mbind_Ret _ _ _ _ _ (on_i_ok _ sc ip _ _ (get_port_ok ip i p Hp))).
  rewrite (mbind_Ret _ _ _ _ _ (on_i_ok _ sc ip _ _ (put_port_ok ip i (set_senders (wn_next n) p)))). rewrite Hb.
  set (ip0 := set_ports _ ip).
  destruct (copy_msg_spec pending mb) as (m' & Ecp & Hok & Hlen & Hpay); [done|by apply (ic_msgs _ _ _ C) in Hm|].
  rewrite (mbind_Ret _ _ _ _ _ (on_i_ok _ sc ip0 _ _ (read_msg_ok ip0 msg mb Hm0 Hm))).
  rewrite (mbind_Ret _ _ _ _ _ (ltac:(unfold mopt; rewrite Ecp; reflexivity) : mopt (copy_msg pending mb) (sc, ip0) = Ret m' (sc, ip0))).
  rewrite (mbind_Ret _ _ _ _ _ (on_i_ok (write_msg msg m') sc ip0 tt _ eq_refl)).
  assert (Hrec : received (ip_msgs ip) (<[msg := m']> (ip_msgs ip)) msg pending) by (by exists m').
  destruct (received_ok _ _ _ _ Hrec (ic_msgs _ _ _ C)) as [Hr1 Hr2].
  destruct (handover_spec (sc, ip) q ps i v p true w l n _ C Hv Hp Hq Hn Ht Hr1 Hr2) as (s' & E & Hd).
  exists s', pending, (<[msg := m']> (ip_msgs ip)). split; [done|]. split; [exact E|]. split; [done|done].
Qed.

(** ** Waiting *)

Lemma push_core (sc : sched) ip q ps i v p b a z h' w k :
  ipc_core (sc, ip) q ps -> ps !! i = Some v -> ports ip !! i = Some p -> pvq (negb b) v = [] ->
  w_addr w = a -> a <> 0 -> a ∉ w_addr <$> all_waits ps -> w_thr w = current_thread sc ->
  body_ok (ip_msgs ip) b w ->
  (exists le lr, kh_view h' ((a, z) :: le ++ lr) /\ le.*1 ≡ₚ w_addr <$> all_waits ps /\
    forall t, t ∈ dom (s_threads sc) -> t ∈ lr.*1) ->
  ipc_core (set_heap h' sc,
    set_ports (<[i := set_port_lock k (set_qhead b a p)]> (ports ip))
      (set_ip_nodes (<[a := mk_wait (w_thr w) (w_body w) (qhead b p)]> (ip_nodes ip)) ip))
    q (<[i := set_pvq b (w :: pvq b v) v]> ps).
Proof.
  intros C Hv Hp Hone Hwa H0 Hfr Hthr Hbok Hheap. pose proof (lookup_lt_Some _ _ _ Hv) as Hi.
  destruct (ic_len _ _ _ C) as [HL1 HL2]. cbn [snd] in HL2. pose proof (ic_port _ _ _ C i v p Hv Hp) as [Hc Hb _].
  set (ps' := <[i := set_pvq b (w :: pvq b v) v]> ps).
  assert (Hperm : all_waits ps' ≡ₚ w :: all_waits ps).
  { unfold ps'. rewrite (all_waits_split (<[i := set_pvq b (w :: pvq b v) v]> ps) i (set_pvq b (w :: pvq b v) v))
      by (by apply list_lookup_insert_eq).
    rewrite others_insert, waits_set, (all_waits_split ps i v Hv), (pvq_waits b v). done. }
  assert (Hnot : forall j v' b', ps !! j = Some v' -> a ∉ w_addr <$> pvq b' v').
  { intros j v' b' Hj (x & E & Hx)%list_elem_of_fmap. apply Hfr. rewrite E. apply list_elem_of_fmap_2.
    apply (all_waits_elem ps j v' x Hj). rewrite (pvq_waits b'). apply elem_of_app. by left. }
  split; cbn [fst snd set_ports set_ip_nodes ports ip_nodes ip_msgs set_heap s_threads s_heap].
  - apply sched_inv_heap. apply C.
  - unfold ps'. by rewrite !length_insert.
  - intros j v' p' Hv' Hp'. unfold ps' in Hv'. destruct (decide (i = j)) as [<-|Hne].
    + rewrite list_lookup_insert_eq in Hv' by lia. rewrite list_lookup_insert_eq in Hp' by lia. injection Hv' as <-. injection Hp' as <-.
      split; cbn [ip_nodes ip_msgs set_ports set_ip_nodes].
      * intros b'. destruct (decide (b = b')) as [<-|Hbb].
        -- replace (pvq b (set_pvq b (w :: pvq b v) v)) with (w :: pvq b v) by (by destruct b).
           rewrite fmap_cons, Hwa. split; [by destruct b|]. split; [done|]. eexists. rewrite lookup_insert_eq. split; [done|].
           cbn [nxt wait_Linked wn_next]. apply cseg_insert; [by apply (Hnot i)|apply Hc].
        -- replace (pvq b' (set_pvq b (w :: pvq b v) v)) with (pvq b' v) by (by destruct b, b').
           replace (qhead b' (set_port_lock k (set_qhead b a p))) with (qhead b' p) by (by destruct b, b').
           apply cseg_insert; [by apply (Hnot i)|apply Hc].
      * intros b' x Hx. destruct (decide (b = b')) as [<-|Hbb].
        -- replace (pvq b (set_pvq b (w :: pvq b v) v)) with (w :: pvq b v) in Hx by (by destruct b).
           apply elem_of_cons in Hx as [->|Hx]; [done|by apply Hb].
        -- replace (pvq b' (set_pvq b (w :: pvq b v) v)) with (pvq b' v) in Hx by (by destruct b, b'). by apply Hb.
      * destruct b; simpl in *; tauto.
    + rewrite list_lookup_insert_ne in Hv' by done. rewrite list_lookup_insert_ne in Hp' by done.
      destruct (ic_port _ _ _ C j v' p' Hv' Hp') as [Hc' Hb' Hone']. split; [|done|done].
      intros b'. apply cseg_insert; [by apply (Hnot j)|apply Hc'].
  - intros x Hx. rewrite Hperm in Hx. apply elem_of_cons in Hx as [->|Hx].
    + eexists. rewrite Hwa, lookup_insert_eq. done.
    + destruct (ic_node _ _ _ C x Hx) as (n & Hn & ?). exists n. rewrite lookup_insert_ne; [done|].
      intros E. apply Hfr. rewrite E. by apply list_elem_of_fmap_2.
  - rewrite Hperm, fmap_cons, Hwa. apply NoDup_cons. split; [done|apply C].
  - intros x Hx. rewrite Hperm in Hx. apply elem_of_cons in Hx as [->|Hx]; [|by apply (ic_thr _ _ _ C)].
    rewrite Hthr. pose proof (ic_sched _ _ _ C) as I. split; [apply I|]. destruct (si_cur _ _ I) as [st Hst].
    destruct (state_of_Some _ _ _ Hst) as (th & Hth & _). eauto.
  - apply C.
  - destruct Hheap as (le & lr & Hview & Hle & Hdom). exists ((a, z) :: le), lr. split; [done|].
    split; [|done]. rewrite Hperm, !fmap_cons, Hle, Hwa. done.
Qed.

(** ** The invariant between operations *)

Definition ipc_inv (s : state) (q : list Z) (ps : list pview) : Prop :=
  ipc_core s q ps /\ (forall i p, ports (snd s) !! i = Some p -> port_lock p = 0) /\
  (ipc_initialized (snd s) <> 0 \/ ports (snd s) = replicate 64 (mk_port 0 0 0)).

Lemma core_relock (sc : sched) ip q ps i p k n :
  ipc_core (sc, ip) q ps -> ports ip !! i = Some p ->
  ipc_core (sc, set_ports (<[i := set_port_lock k p]> (ports ip)) (set_ipc_initialized n ip)) q ps.
Proof.
  intros [Hs Hl Hp Hn Hnd Ht Hm Hh] Hi. split; cbn in *; try done.
  - by rewrite length_insert.
  - intros j v p' Hv Hp'. pose proof (lookup_lt_Some _ _ _ Hi) as Hlt. destruct (decide (i = j)) as [<-|Hne].
    + rewrite list_lookup_insert_eq in Hp' by done. injection Hp' as <-. destruct (Hp i v p Hv Hi) as [Hc Hb Ho].
      split; [|done|done]. intros b. specialize (Hc b). by destruct b.
    + rewrite list_lookup_insert_ne in Hp' by done. destruct (Hp j v p' Hv Hp'). by split.
Qed.

(** Entering an operation: initialise if needed and take the port's lock. *)
Lemma enter_spec (s : state) q ps i v :
  ipc_inv s q ps -> ps !! i = Some v ->
  exists p n, ports (snd s) !! i = Some p /\ n <> 0 /\
    let ip1 := set_ports (<[i := set_port_lock 1 p]> (ports (snd s))) (set_ipc_initialized n (snd s)) in
    on_i ensure_init s = Ret tt (fst s, set_ipc_initialized n (snd s)) /\
    on_i (lock_port (Z.of_nat i)) (fst s, set_ipc_initialized n (snd s)) = Ret tt (fst s, ip1) /\
    ipc_core (fst s, ip1) q ps /\ (Z.of_nat i < 64) /\
    ports ip1 !! i = Some (set_port_lock 1 p) /\ port_lock p = 0.
Proof.
  intros (C & Hlock & Hinit) Hv. destruct s as [sc ip]. cbn [fst snd] in *. destruct (ic_len _ _ _ C) as [HL1 HL2]. cbn [snd] in *.
  pose proof (lookup_lt_Some _ _ _ Hv) as Hi. destruct (lookup_lt_is_Some_2 (ports ip) i) as [p Hp]; [lia|].
  assert (E : exists n, n <> 0 /\ ensure_init ip = Ret tt (set_ipc_initialized n ip)).
  { unfold ensure_init, mbind, mget, truthy. cbn [bindr]. destruct (Z.eqb_spec (ipc_initialized ip) 0) as [E0|E0]; cbn [negb].
    - destruct Hinit as [|Hr]; [done|]. exists 1. split; [done|]. unfold ipc_init, mbind, mset. cbn [bindr].
      f_equal. destruct ip as [po ini nd ms]. cbn in *. by subst po.
    - exists (ipc_initialized ip). split; [done|]. by destruct ip. }
  destruct E as (n & Hn & E). exists p, n. split; [done|]. split; [done|]. cbv zeta.
  split; [by apply on_i_ok|]. split; [|split; [by apply core_relock|split; [lia|split; [|by eapply Hlock]]]].
  - apply on_i_ok. unfold lock_port.
    rewrite (mbind_Ret _ _ _ _ _ (get_port_ok (set_ipc_initialized n ip) i p Hp)). rewrite (Hlock i p Hp). cbn [Z.eqb].
    exact (put_port_ok (set_ipc_initialized n ip) i _).
  - cbn. apply list_lookup_insert_eq. lia.
Qed.

Lemma qhead_truthy (s : state) q ps i v p b :
  ipc_core s q ps -> ps !! i = Some v -> ports (snd s) !! i = Some p ->
  truthy (qhead b p) = negb (bool_decide (pvq b v = [])).
Proof.
  intros C Hv Hp. destruct (ic_port _ _ _ C i v p Hv Hp) as [Hc _ _]. specialize (Hc b).
  destruct (pvq b v) as [|w l]; unfold truthy.
  - apply chain_nil in Hc. by rewrite Hc.
  - destruct Hc as (-> & H0 & _). rewrite bool_decide_eq_false_2 by done. by destruct (Z.eqb_spec (w_addr w) 0).
Qed.

Lemma handed_inv (sc : sched) ip s' q ps i v p0 n b w l msgs' :
  let ip1 := set_ports (<[i := set_port_lock 1 p0]> (ports ip)) (set_ipc_initialized n ip) in
  (forall j p, ports ip !! j = Some p -> port_lock p = 0) -> n <> 0 ->
  handed (sc, ip1) s' q ps i v (set_port_lock 1 p0) b w l msgs' ->
  ipc_inv s' (q ++ filter (blocked sc) [w_thr w]) (<[i := set_pvq b l v]> ps).
Proof.
  intros ip1 Hlock Hn (C & _ & _ & (x & Hp) & Hini & _). split; [exact C|]. split; [|left; by rewrite Hini].
  intros j p. rewrite Hp. unfold ip1. cbn. rewrite list_insert_insert_eq.
  destruct (decide (i = j)) as [<-|Hne]; [|rewrite list_lookup_insert_ne by done; apply Hlock].
  intros Hj. destruct (decide (i < length (ports ip))%nat).
  - rewrite list_lookup_insert_eq in Hj by done. by injection Hj as <-.
  - rewrite list_insert_ge in Hj by lia. by eapply Hlock.
Qed.

(** No memory for a wait node: only the lock is released. *)
Lemma backout_inv (sc : sched) ip q ps i v p0 n h' :
  let ip1 := set_ports (<[i := set_port_lock 1 p0]> (ports ip)) (set_ipc_initialized n ip) in
  ipc_core (sc, ip1) q ps -> (forall j p, ports ip !! j = Some p -> port_lock p = 0) -> n <> 0 ->
  ps !! i = Some v -> ports ip !! i = Some p0 ->
  (exists le lr, kh_view h' (le ++ lr) /\ le.*1 ≡ₚ w_addr <$> all_waits ps /\
    forall t, t ∈ dom (s_threads sc) -> t ∈ lr.*1) ->
  exists ip2, on_i (unlock_port (Z.of_nat i)) (set_heap h' sc, ip1) = Ret tt (set_heap h' sc, ip2) /\
    ipc_inv (set_heap h' sc, ip2) q ps /\ ip_msgs ip2 = ip_msgs ip.
Proof.
  intros ip1 C Hlock Hn Hv Hp Hheap. pose proof (lookup_lt_Some _ _ _ Hp) as Hi.
  assert (Hp1 : ports ip1 !! i = Some (set_port_lock 1 p0)) by (by apply list_lookup_insert_eq).
  eexists. split; [apply on_i_ok, (unlock_port_ok _ _ _ Hp1)|]. split; [|done]. split; [|split; [|by left]].
  - assert (C' : ipc_core (set_heap h' sc, ip1) q ps).
    { destruct C as [Hs Hl Hpo Hno Hnd Ht Hm _]. split; try done. by apply sched_inv_heap. }
    exact (core_relock _ _ _ _ i _ 0 n C' Hp1).
  - intros j p. cbn. rewrite list_insert_insert_eq. destruct (decide (i = j)) as [<-|Hne];
      [|rewrite list_lookup_insert_ne by done; apply Hlock]. rewrite list_lookup_insert_eq by done. by intros [= <-].
Qed.

(** A pushed waiter, with the lock released. *)
Lemma pushed_inv (sc : sched) ip q ps i v p0 n b a z h' w :
  let ip1 := set_ports (<[i := set_port_lock 1 p0]> (ports ip)) (set_ipc_initialized n ip) in
  ipc_core (sc, ip1) q ps -> (forall j p, ports ip !! j = Some p -> port_lock p = 0) -> n <> 0 ->
  ps !! i = Some v -> ports ip !! i = Some p0 -> pvq (negb b) v = [] ->
  w_addr w = a -> a <> 0 -> a ∉ w_addr <$> all_waits ps -> w_thr w = current_thread sc ->
  body_ok (ip_msgs ip) b w ->
  (exists le lr, kh_view h' ((a, z) :: le ++ lr) /\ le.*1 ≡ₚ w_addr <$> all_waits ps /\
    forall t, t ∈ dom (s_threads sc) -> t ∈ lr.*1) ->
  let ip2 := set_ip_nodes (<[a := mk_wait (w_thr w) (w_body w) (qhead b p0)]> (ip_nodes ip)) ip1 in
  let ip3 := set_ports (<[i := set_qhead b a (set_port_lock 1 p0)]> (ports ip2)) ip2 in
  exists ip4, on_i (unlock_port (Z.of_nat i)) (set_heap h' sc, ip3) = Ret tt (set_heap h' sc, ip4) /\
    ipc_inv (set_heap h' sc, ip4) q (<[i := set_pvq b (w :: pvq b v) v]> ps) /\ ip_msgs ip4 = ip_msgs ip.
Proof.
  intros ip1 C Hlock Hn Hv Hp Hone Hwa H0 Hfr Hthr Hbok Hheap ip2 ip3. pose proof (lookup_lt_Some _ _ _ Hp) as Hi.
  assert (Hp1 : ports ip1 !! i = Some (set_port_lock 1 p0)) by (by apply list_lookup_insert_eq).
  assert (Hp3 : ports ip3 !! i = Some (set_qhead b a (set_port_lock 1 p0))).
  { cbn. apply list_lookup_insert_eq. by rewrite length_insert. }
  eexists. split; [apply on_i_ok, (unlock_port_ok _ _ _ Hp3)|]. split; [|done].
  pose proof (push_core sc ip1 q ps i v _ b a z h' w 0 C Hv Hp1 Hone Hwa H0 Hfr Hthr Hbok Hheap) as C'.
  split; [|split; [|by left]].
  - unfold ip3. cbn [ports set_ports]. rewrite list_insert_insert_eq. unfold set_ports in *. cbn in *.
    replace (qhead b (set_port_lock 1 p0)) with (qhead b p0) in C' by (by destruct b). exact C'.
  - intros j p. cbn. rewrite !list_insert_insert_eq. destruct (decide (i = j)) as [<-|Hne];
      [|rewrite list_lookup_insert_ne by done; apply Hlock]. rewrite list_lookup_insert_eq by done. by intros [= <-].
Qed.

(** ** Sending *)

Lemma port_small i : (i < 64)%nat -> (MAX_PORTS <=? Z.of_nat i) = false.
Proof. intros. unfold MAX_PORTS. apply Z.leb_gt. lia. Qed.

Lemma alloc_node (sc : sched) ip q ps :
  ipc_core (sc, ip) q ps ->
  (exists a z h', on_s (on_heap (kh_malloc sizeof_wait_node)) (sc, ip) = Ret a (set_heap h' sc, ip) /\
     a <> 0 /\ a ∉ w_addr <$> all_waits ps /\
     (exists le lr, kh_view h' ((a, z) :: le ++ lr) /\ le.*1 ≡ₚ w_addr <$> all_waits ps /\
        forall t, t ∈ dom (s_threads sc) -> t ∈ lr.*1)) \/
  (kh_scarce (s_heap sc) sizeof_wait_node /\
   (on_s (on_heap (kh_malloc sizeof_wait_node)) (sc, ip) = Fault \/
    exists h', on_s (on_heap (kh_malloc sizeof_wait_node)) (sc, ip) = Ret 0 (set_heap h' sc, ip) /\
      exists le lr, kh_view h' (le ++ lr) /\ le.*1 ≡ₚ w_addr <$> all_waits ps /\
        forall t, t ∈ dom (s_threads sc) -> t ∈ lr.*1)).
Proof.
  intros C. destruct (ic_heap _ _ _ C) as (le & lr & Hv & Hle & Hd). cbn [fst] in *.
  unfold on_s, on_heap, zoom. cbn [fst snd].
  destruct (kh_malloc_spec sizeof_wait_node (s_heap sc) (le ++ lr)) as
    [(a & z & h' & E & H0 & _ & Hfr & Hv')|(Hsc & [E|(h' & E & Hv')])]; [done|done| | |]; rewrite E; cbn [zoomr].
  - left. exists a, z, h'. split; [done|]. split; [done|]. split; [|by exists le, lr].
    intros Hin. apply Hfr. rewrite fmap_app. apply elem_of_app. left. by rewrite Hle.
  - right. split; [done|]. by left.
  - right. split; [done|]. right. exists h'. split; [done|]. by exists le, lr.
Qed.

Lemma send_enqueue_spec (s : state) q ps i v msg m :
  ipc_inv s q ps -> ps !! i = Some v -> msg <> 0 -> ip_msgs (snd s) !! msg = Some m ->
  match pv_rcv v with
  | w :: l =>
      exists s' buf msgs', w_body w = Rcv buf /\ send_enqueue junk_msg (Z.of_nat i) msg s = Ret false s' /\
        ipc_inv s' (q ++ filter (blocked (fst s)) [w_thr w]) (<[i := set_pvq false l v]> ps) /\
        same_others (fst s) (fst s') (filter (blocked (fst s)) [w_thr w]) /\
        (blocked (fst s) (w_thr w) -> state_of (s_threads (fst s')) (w_thr w) = Some THREAD_STATE_READY) /\
        ip_msgs (snd s') = msgs' /\
        (if buf =? 0 then msgs' = ip_msgs (snd s) else received (ip_msgs (snd s)) msgs' buf m)
  | [] =>
      (exists a m' h' ip', send_enqueue junk_msg (Z.of_nat i) msg s = Ret true (set_heap h' (fst s), ip') /\
         msg_ok m' /\ payload m' = payload m /\ msg_length m' = clip (msg_length m) /\
         ipc_inv (set_heap h' (fst s), ip') q
           (<[i := set_pvq true (mk_w a (current_thread (fst s)) (Snd m') :: pv_snd v) v]> ps) /\
         ip_msgs ip' = ip_msgs (snd s)) \/
      (kh_scarce (s_heap (fst s)) sizeof_wait_node /\
       (send_enqueue junk_msg (Z.of_nat i) msg s = Fault \/
        exists h' ip', send_enqueue junk_msg (Z.of_nat i) msg s = Ret false (set_heap h' (fst s), ip') /\
          ipc_inv (set_heap h' (fst s), ip') q ps /\ ip_msgs ip' = ip_msgs (snd s)))
  end.
Proof.
  intros Hinv Hv Hm0 Hm. destruct (enter_spec s q ps i v Hinv Hv) as (p & n & Hp & Hn & E0 & E1 & C & Hi & Hp1 & _).
  destruct s as [sc ip]. cbn [fst snd] in *. set (ip1 := set_ports _ _) in *.
  destruct Hinv as (_ & Hlock & _). cbn [snd] in Hlock.
  assert (Hpre : send_enqueue junk_msg (Z.of_nat i) msg (sc, ip) =
    (p <- on_i (get_port (Z.of_nat i)) ;;
     if truthy (recvers p) then deliver (Z.of_nat i) (recvers p) msg ;;; mret false
     else
      node <- on_s (on_heap (kh_malloc sizeof_wait_node)) ;;
      if node =? 0 then on_i (unlock_port (Z.of_nat i)) ;;; mret false
      else
        cur <- on_s (mget current_thread) ;;
        m <- on_i (read_msg msg) ;;
        m' <- mopt (copy_msg m junk_msg) ;;
        p <- on_i (get_port (Z.of_nat i)) ;;
        on_i (mset (fun s => set_ip_nodes (<[node := mk_wait cur (Snd m') (senders p)]> (ip_nodes s)) s)) ;;;
        on_i (put_port (Z.of_nat i) (set_senders node p)) ;;;
        on_i (unlock_port (Z.of_nat i)) ;;;
        mret true) (sc, ip1)).
  { unfold send_enqueue. rewrite (mbind_Ret _ _ _ _ _ E0), port_small by lia. by rewrite (mbind_Ret _ _ _ _ _ E1). }
  rewrite (mbind_Ret _ _ _ _ _ (on_i_ok _ sc ip1 _ _ (get_port_ok ip1 i _ Hp1))) in Hpre.
  change (recvers (set_port_lock 1 p)) with (qhead false (set_port_lock 1 p)) in Hpre.
  rewrite (qhead_truthy _ _ _ _ _ _ false C Hv Hp1) in Hpre. cbn [pvq] in Hpre. destruct (pv_rcv v) as [|w l] eqn:Hq.
  - rewrite bool_decide_eq_true_2 in Hpre by done. cbn [negb] in Hpre.
    destruct (alloc_node sc ip1 q ps C) as [(a & z & h' & E & H0 & Hfr & Hheap)|(Hsc & [E|(h' & E & Hheap)])].
    2:{ right. split; [done|]. left. rewrite Hpre. unfold mbind. by rewrite E. }
    2:{ right. split; [done|]. right. rewrite (mbind_Ret _ _ _ _ _ E) in Hpre. cbn [Z.eqb] in Hpre.
        destruct (backout_inv sc ip q ps i v p n h' C Hlock Hn Hv Hp Hheap) as (ip2 & Eu & Hinv2 & Hms).
        exists h', ip2. split; [|by split]. rewrite Hpre. by rewrite (mbind_Ret _ _ _ _ _ Eu). }
    left. rewrite (mbind_Ret _ _ _ _ _ E) in Hpre. destruct (Z.eqb_spec a 0) as [|_]; [done|].
    rewrite (mbind_Ret _ _ _ _ _ (eq_refl : on_s (mget current_thread) (set_heap h' sc, ip1) = Ret (current_thread sc) (set_heap (s_heap (set_heap h' sc)) sc, ip1))) in Hpre.
    change (set_heap (s_heap (set_heap h' sc)) sc) with (set_heap h' sc) in Hpre.
    rewrite (mbind_Ret _ _ _ _ _ (on_i_ok _ (set_heap h' sc) ip1 _ _ (read_msg_ok ip1 msg m Hm0 Hm))) in Hpre.
    destruct (copy_msg_spec m junk_msg) as (m' & Ecp & Hok & Hlen & Hpay); [exact (ic_msgs _ _ _ C _ _ Hm)|done|].
    rewrite (mbind_Ret _ _ _ _ _ (ltac:(unfold mopt; rewrite Ecp; reflexivity) : mopt (copy_msg m junk_msg) (set_heap h' sc, ip1) = Ret m' (set_heap h' sc, ip1))) in Hpre.
    rewrite (mbind_Ret _ _ _ _ _ (on_i_ok _ (set_heap h' sc) ip1 _ _ (get_port_ok ip1 i _ Hp1))) in Hpre.
    set (w := mk_w a (current_thread sc) (Snd m')).
    destruct (pushed_inv sc ip q ps i v p n true a z h' w C Hlock Hn Hv Hp Hq eq_refl H0 Hfr eq_refl Hok Hheap) as (ip4 & Eu & Hinv4 & Hms).
    exists a, m', h', ip4. split; [|split_and!; done]. rewrite Hpre.
    rewrite (mbind_Ret _ _ _ _ _ (on_i_ok (mset _) (set_heap h' sc) ip1 _ _ eq_refl)).
    rewrite (mbind_Ret _ _ _ _ _ (on_i_ok _ (set_heap h' sc) _ _ _ (put_port_ok _ i _))).
    by rewrite (mbind_Ret _ _ _ _ _ Eu).
  - rewrite bool_decide_eq_false_2 in Hpre by done. cbn [negb] in Hpre.
    destruct (first_node _ _ _ i v _ false w l C Hv Hp1 Hq) as (nd & _ & _ & _ & Eh & _).
    rewrite Eh in Hpre.
    destruct (deliver_spec (sc, ip1) q ps i v _ w l msg m C Hv Hp1 Hq Hm0 Hm) as (s' & buf & msgs' & Hbody & Ed & Hh & Hrec).
    exists s', buf, msgs'. split; [done|]. rewrite Hpre, (mbind_Ret _ _ _ _ _ Ed). split; [done|].
    split; [exact (handed_inv sc ip s' q ps i v p n false w l msgs' Hlock Hn Hh)|].
    destruct Hh as (_ & Ho & Hr & _ & _ & Hms). done.
Qed.

(** ** Receiving *)

Lemma recv_enqueue_spec (s : state) q ps i v msg mb :
  ipc_inv s q ps -> ps !! i = Some v -> msg <> 0 -> ip_msgs (snd s) !! msg = Some mb ->
  match pv_snd v with
  | w :: l =>
      exists s' pending msgs', w_body w = Snd pending /\ recv_enqueue (Z.of_nat i) msg s = Ret false s' /\
        ipc_inv s' (q ++ filter (blocked (fst s)) [w_thr w]) (<[i := set_pvq true l v]> ps) /\
        same_others (fst s) (fst s') (filter (blocked (fst s)) [w_thr w]) /\
        (blocked (fst s) (w_thr w) -> state_of (s_threads (fst s')) (w_thr w) = Some THREAD_STATE_READY) /\
        ip_msgs (snd s') = msgs' /\ received (ip_msgs (snd s)) msgs' msg pending
  | [] =>
      (exists a h' ip', recv_enqueue (Z.of_nat i) msg s = Ret true (set_heap h' (fst s), ip') /\
         ipc_inv (set_heap h' (fst s), ip') q
           (<[i := set_pvq false (mk_w a (current_thread (fst s)) (Rcv msg) :: pv_rcv v) v]> ps) /\
         ip_msgs ip' = ip_msgs (snd s)) \/
      (kh_scarce (s_heap (fst s)) sizeof_wait_node /\
       (recv_enqueue (Z.of_nat i) msg s = Fault \/
        exists h' ip', recv_enqueue (Z.of_nat i) msg s = Ret false (set_heap h' (fst s), ip') /\
          ipc_inv (set_heap h' (fst s), ip') q ps /\ ip_msgs ip' = ip_msgs (snd s)))
  end.
Proof.
  intros Hinv Hv Hm0 Hm. destruct (enter_spec s q ps i v Hinv Hv) as (p & n & Hp & Hn & E0 & E1 & C & Hi & Hp1 & _).
  destruct s as [sc ip]. cbn [fst snd] in *. set (ip1 := set_ports _ _) in *.
  destruct Hinv as (_ & Hlock & _). cbn [snd] in Hlock.
  remember (recv_enqueue (Z.of_nat i) msg (sc, ip)) as R eqn:Hpre. unfold recv_enqueue in Hpre.
  rewrite (mbind_Ret _ _ _ _ _ E0), port_small in Hpre by lia. rewrite (mbind_Ret _ _ _ _ _ E1) in Hpre.
  rewrite (mbind_Ret _ _ _ _ _ (on_i_ok _ sc ip1 _ _ (get_port_ok ip1 i _ Hp1))) in Hpre.
  change (senders (set_port_lock 1 p)) with (qhead true (set_port_lock 1 p)) in Hpre.
  rewrite (qhead_truthy _ _ _ _ _ _ true C Hv Hp1) in Hpre. cbn [pvq] in Hpre. destruct (pv_snd v) as [|w l] eqn:Hq.
  - rewrite bool_decide_eq_true_2 in Hpre by done. cbn [negb] in Hpre.
    destruct (alloc_node sc ip1 q ps C) as [(a & z & h' & E & H0 & Hfr & Hheap)|(Hsc & [E|(h' & E & Hheap)])].
    2:{ right. split; [done|]. left. rewrite Hpre. unfold mbind. by rewrite E. }
    2:{ right. split; [done|]. right. rewrite (mbind_Ret _ _ _ _ _ E) in Hpre. cbn [Z.eqb] in Hpre.
        destruct (backout_inv sc ip q ps i v p n h' C Hlock Hn Hv Hp Hheap) as (ip2 & Eu & Hinv2 & Hms).
        exists h', ip2. split; [|by split]. rewrite Hpre. by rewrite (mbind_Ret _ _ _ _ _ Eu). }
    left. rewrite (mbind_Ret _ _ _ _ _ E) in Hpre. destruct (Z.eqb_spec a 0) as [|_]; [done|].
    rewrite (mbind_Ret _ _ _ _ _ (eq_refl : on_s (mget current_thread) (set_heap h' sc, ip1) = Ret (current_thread sc) (set_heap (s_heap (set_heap h' sc)) sc, ip1))) in Hpre.
    change (set_heap (s_heap (set_heap h' sc)) sc) with (set_heap h' sc) in Hpre.
    rewrite (mbind_Ret _ _ _ _ _ (on_i_ok _ (set_heap h' sc) ip1 _ _ (get_port_ok ip1 i _ Hp1))) in Hpre.
    set (w := mk_w a (current_thread sc) (Rcv msg)).
    assert (Hbok : body_ok (ip_msgs ip) false w) by (right; eauto).
    destruct (pushed_inv sc ip q ps i v p n false a z h' w C Hlock Hn Hv Hp Hq eq_refl H0 Hfr eq_refl Hbok Hheap) as (ip4 & Eu & Hinv4 & Hms).
    exists a, h', ip4. split; [|split_and!; done]. rewrite Hpre.
    rewrite (mbind_Ret _ _ _ _ _ (on_i_ok (mset _) (set_heap h' sc) ip1 _ _ eq_refl)).
    rewrite (mbind_Ret _ _ _ _ _ (on_i_ok _ (set_heap h' sc) _ _ _ (put_port_ok _ i _))).
    by rewrite (mbind_Ret _ _ _ _ _ Eu).
  - rewrite bool_decide_eq_false_2 in Hpre by done. cbn [negb] in Hpre.
    destruct (first_node _ _ _ i v _ true w l C Hv Hp1 Hq) as (nd & _ & _ & _ & Eh & _).
    rewrite Eh in Hpre.
    destruct (accept_spec (sc, ip1) q ps i v _ w l msg mb C Hv Hp1 Hq Hm0 Hm) as (s' & pending & msgs' & Hbody & Ed & Hh & Hrec).
    exists s', pending, msgs'. split; [done|]. rewrite Hpre, (mbind_Ret _ _ _ _ _ Ed). split; [done|].
    split; [exact (handed_inv sc ip s' q ps i v p n true w l msgs' Hlock Hn Hh)|].
    destruct Hh as (_ & Ho & Hr & _ & _ & Hms). done.
Qed.

(** ** Blocking afterwards *)

Lemma ipc_inv_sched (sc sc' : sched) ip q q' ps :
  ipc_inv (sc, ip) q ps -> sched_inv sc' q' -> s_heap sc' = s_heap sc ->
  dom (s_threads sc') = dom (s_threads sc) -> ipc_inv (sc', ip) q' ps.
Proof.
  intros ([Hs Hl Hpo Hno Hnd Ht Hm (le & lr & Hv & Hle & Hd)] & Hlk & Hini) I Eh Ed. split; [|done].
  split; cbn [fst snd] in *; try done.
  - intros w Hw. destruct (Ht w Hw) as [? ?%elem_of_dom]. split; [done|]. apply elem_of_dom. by rewrite Ed.
  - exists le, lr. rewrite Eh, Ed. done.
Qed.

Lemma block_after (sc : sched) ip q ps h' :
  ipc_inv (set_heap h' sc, ip) q ps -> requeues sc ->
  exists sc' k, on_s thread_block (set_heap h' sc, ip) = Switch (sc', ip) k /\ (forall x, k x = Ret tt x) /\
    ipc_inv (sc', ip) (tail q) ps /\
    state_of (s_threads sc') (current_thread sc) = Some THREAD_STATE_BLOCKED /\
    current_thread sc' = hd (idle_thread_ptr sc) q.
Proof.
  intros Hi Hr. pose proof (ic_sched _ _ _ (proj1 Hi)) as I. cbn [fst] in I.
  destruct (thread_block_gen (set_heap h' sc) q I Hr) as (sc' & E & I' & Hb & Hc & _ & Hh & Hd & _).
  exists sc'. unfold on_s, zoom. cbn [fst snd]. rewrite E. cbn [zoomr]. eexists. split; [reflexivity|].
  split; [by intros []|]. split; [by eapply ipc_inv_sched|]. by split.
Qed.

(** ** Theorems *)

Lemma set_heap_id (sc : sched) : set_heap (s_heap sc) sc = sc.
Proof. by destruct sc. Qed.

(** [ipc_send] when nobody waits to receive. *)
Lemma ipc_send_waits (s : state) q ps i v msg m :
  ipc_inv s q ps -> requeues (fst s) -> ps !! i = Some v -> pv_rcv v = [] ->
  msg <> 0 -> ip_msgs (snd s) !! msg = Some m ->
  (exists a m' s' k, ipc_send junk_msg (Z.of_nat i) msg s = Switch s' k /\ (forall x, k x = Ret tt x) /\
     msg_ok m' /\ payload m' = payload m /\ msg_length m' = clip (msg_length m) /\
     ipc_inv s' (tail q)
       (<[i := set_pvq true (mk_w a (current_thread (fst s)) (Snd m') :: pv_snd v) v]> ps) /\
     state_of (s_threads (fst s')) (current_thread (fst s)) = Some THREAD_STATE_BLOCKED /\
     ip_msgs (snd s') = ip_msgs (snd s)) \/
  (kh_scarce (s_heap (fst s)) sizeof_wait_node /\
   (ipc_send junk_msg (Z.of_nat i) msg s = Fault \/
    exists s', ipc_send junk_msg (Z.of_nat i) msg s = Ret tt s' /\ ipc_inv s' q ps /\
      ip_msgs (snd s') = ip_msgs (snd s))).
Proof.
  intros Hi Hr Hv Hq Hm0 Hm. pose proof (send_enqueue_spec s q ps i v msg m Hi Hv Hm0 Hm) as E. rewrite Hq in E.
  unfold ipc_send, mbind.
  destruct E as [(a & m' & h' & ip' & E & Hok & Hpay & Hlen & Hi' & Hms)|(Hsc & [E|(h' & ip' & E & Hi' & Hms)])]; rewrite E; cbn [bindr].
  - left. destruct (block_after (fst s) ip' q _ h' Hi' Hr) as (sc' & k & Eb & Hk & Hi2 & Hb & _).
    exists a, m', (sc', ip'), k. by split_and!.
  - right. split; [done|]. by left.
  - right. split; [done|]. right. exists (set_heap h' (fst s), ip'). by split_and!.
Qed.

(** [ipc_send] on a valid port.  If a receiver waits, the first one gets
    the message in its buffer (length clipped to 256, the bytes unchanged), is
    made ready, and the sender goes on.  Otherwise a copy of the message is
    queued and the sender blocks; without memory for the copy the message is
    dropped, or the heap faults. *)
Theorem ipc_send_correct (s : state) q ps i v msg m :
  ipc_inv s q ps -> requeues (fst s) -> ps !! i = Some v ->
  msg <> 0 -> ip_msgs (snd s) !! msg = Some m ->
  (forall w l, pv_rcv v = w :: l ->
     exists s' buf, w_body w = Rcv buf /\ ipc_send junk_msg (Z.of_nat i) msg s = Ret tt s' /\
       ipc_inv s' (q ++ filter (blocked (fst s)) [w_thr w]) (<[i := mk_pv (pv_snd v) l]> ps) /\
       (blocked (fst s) (w_thr w) -> state_of (s_threads (fst s')) (w_thr w) = Some THREAD_STATE_READY) /\
       (buf <> 0 -> received (ip_msgs (snd s)) (ip_msgs (snd s')) buf m)) /\
  (pv_rcv v = [] ->
     (exists a m' s' k, ipc_send junk_msg (Z.of_nat i) msg s = Switch s' k /\ (forall x, k x = Ret tt x) /\
        payload m' = payload m /\ msg_length m' = clip (msg_length m) /\
        ipc_inv s' (tail q)
          (<[i := mk_pv (mk_w a (current_thread (fst s)) (Snd m') :: pv_snd v) (pv_rcv v)]> ps) /\
        state_of (s_threads (fst s')) (current_thread (fst s)) = Some THREAD_STATE_BLOCKED) \/
     (kh_scarce (s_heap (fst s)) sizeof_wait_node /\
      (ipc_send junk_msg (Z.of_nat i) msg s = Fault \/
       exists s', ipc_send junk_msg (Z.of_nat i) msg s = Ret tt s' /\ ipc_inv s' q ps))).
Proof.
  intros Hi Hr Hv Hm0 Hm. split.
  - intros w l Hq. pose proof (send_enqueue_spec s q ps i v msg m Hi Hv Hm0 Hm) as E. rewrite Hq in E.
    destruct E as (s' & buf & msgs' & Hb & E & Hi' & _ & Hrdy & <- & Hrec). exists s', buf.
    unfold ipc_send, mbind. rewrite E. cbn [bindr]. split; [done|]. split; [done|]. split; [done|]. split; [done|].
    intros H0. by destruct (Z.eqb_spec buf 0).
  - intros Hq. destruct (ipc_send_waits s q ps i v msg m Hi Hr Hv Hq Hm0 Hm) as
      [(a & m' & s' & k & E & Hk & _ & Hp & Hl & Hi' & Hb & _)|(Hsc & [E|(s' & E & Hi' & _)])].
    + left. exists a, m', s', k. by split_and!.
    + right. split; [done|]. by left.
    + right. split; [done|]. right. by exists s'.
Qed.

(** [ipc_recv] on a valid port.  If a sender waits, the message of the
    first one is copied to the caller's buffer and the sender is made ready;
    otherwise the caller is queued with its buffer and blocks (or there is no
    memory, and it returns with nothing or the heap faults). *)
Theorem ipc_recv_correct (s : state) q ps i v msg mb :
  ipc_inv s q ps -> requeues (fst s) -> ps !! i = Some v ->
  msg <> 0 -> ip_msgs (snd s) !! msg = Some mb ->
  (forall w l, pv_snd v = w :: l ->
     exists s' pending, w_body w = Snd pending /\ ipc_recv (Z.of_nat i) msg s = Ret tt s' /\
       ipc_inv s' (q ++ filter (blocked (fst s)) [w_thr w]) (<[i := mk_pv l (pv_rcv v)]> ps) /\
       (blocked (fst s) (w_thr w) -> state_of (s_threads (fst s')) (w_thr w) = Some THREAD_STATE_READY) /\
       received (ip_msgs (snd s)) (ip_msgs (snd s')) msg pending) /\
  (pv_snd v = [] ->
     (exists a s' k, ipc_recv (Z.of_nat i) msg s = Switch s' k /\ (forall x, k x = Ret tt x) /\
        ipc_inv s' (tail q)
          (<[i := mk_pv (pv_snd v) (mk_w a (current_thread (fst s)) (Rcv msg) :: pv_rcv v)]> ps) /\
        state_of (s_threads (fst s')) (current_thread (fst s)) = Some THREAD_STATE_BLOCKED) \/
     (kh_scarce (s_heap (fst s)) sizeof_wait_node /\
      (ipc_recv (Z.of_nat i) msg s = Fault \/
       exists s', ipc_recv (Z.of_nat i) msg s = Ret tt s' /\ ipc_inv s' q ps))).
Proof.
  intros Hi Hr Hv Hm0 Hm. pose proof (recv_enqueue_spec s q ps i v msg mb Hi Hv Hm0 Hm) as E.
  unfold ipc_recv, mbind. split.
  - intros w l Hq. rewrite Hq in E. destruct E as (s' & pd & msgs' & Hb & E & Hi' & _ & Hrdy & <- & Hrec).
    exists s', pd. rewrite E. by split_and!.
  - intros Hq. rewrite Hq in E.
    destruct E as [(a & h' & ip' & E & Hi' & Hms)|(Hsc & [E|(h' & ip' & E & Hi' & Hms)])]; rewrite E; cbn [bindr].
    + left. destruct (block_after (fst s) ip' q _ h' Hi' Hr) as (sc' & k & Eb & Hk & Hi2 & Hb & _).
      exists a, (sc', ip'), k. simpl in Hi2. by split_and!.
    + right. split; [done|]. by left.
    + right. split; [done|]. right. by exists (set_heap h' (fst s), ip').
Qed.

(** C9: rendezvous.  A message sent on a port where nobody waits is the
    message the next receiver on that port gets, whoever runs then; the
    sender is ready again and the port is as it was before.  The exception is
    a heap without room for a wait node: then [ipc_send] drops the message and
    returns, with nothing changed but the heap, or faults in the heap. *)
Theorem ipc_rendezvous (s : state) q ps i v msg m buf mb :
  ipc_inv s q ps -> requeues (fst s) -> ps !! i = Some v -> pv_rcv v = [] ->
  msg <> 0 -> ip_msgs (snd s) !! msg = Some m -> buf <> 0 -> ip_msgs (snd s) !! buf = Some mb ->
  (exists s1 k s2, ipc_send junk_msg (Z.of_nat i) msg s = Switch s1 k /\
     ipc_recv (Z.of_nat i) buf s1 = Ret tt s2 /\
     ipc_inv s2 (tail q ++ [current_thread (fst s)]) ps /\
     received (ip_msgs (snd s)) (ip_msgs (snd s2)) buf m /\
     state_of (s_threads (fst s2)) (current_thread (fst s)) = Some THREAD_STATE_READY) \/
  (kh_scarce (s_heap (fst s)) sizeof_wait_node /\
   (ipc_send junk_msg (Z.of_nat i) msg s = Fault \/
    exists s', ipc_send junk_msg (Z.of_nat i) msg s = Ret tt s' /\ ipc_inv s' q ps /\ ip_msgs (snd s') = ip_msgs (snd s))).
Proof.
  intros Hi Hr Hv Hq Hm0 Hm Hb0 Hmb.
  destruct (ipc_send_waits s q ps i v msg m Hi Hr Hv Hq Hm0 Hm) as
    [(a & m' & s1 & k & E & Hk & Hok & Hp & Hl & Hi1 & Hbl & Hms)|Hsc]; [|by right]. left.
  set (w := mk_w a (current_thread (fst s)) (Snd m')) in *. set (v1 := set_pvq true (w :: pv_snd v) v) in *.
  pose proof (lookup_lt_Some _ _ _ Hv) as Hlt.
  assert (Hv1 : <[i := v1]> ps !! i = Some v1) by (by apply list_lookup_insert_eq).
  pose proof (recv_enqueue_spec s1 (tail q) _ i v1 buf mb Hi1 Hv1 Hb0) as E2. rewrite Hms in E2. specialize (E2 Hmb).
  change (pv_snd v1) with (w :: pv_snd v) in E2.
  destruct E2 as (s2 & pd & msgs' & [= <-] & E2 & Hi2 & _ & Hrdy & <- & Hrec).
  exists s1, k, s2. split; [done|]. split; [unfold ipc_recv, mbind; by rewrite E2|].
  rewrite list_insert_insert_eq in Hi2. replace (set_pvq true (pv_snd v) v1) with v in Hi2 by (by destruct v).
  rewrite list_insert_id in Hi2 by done. rewrite filter_cons_True in Hi2 by done.
  split; [exact Hi2|]. split; [|by apply Hrdy]. destruct Hrec as (mr & -> & Hokr & Hlr & Hpr).
  exists mr. split; [done|]. split; [done|]. split; [|congruence]. rewrite Hlr, Hl.
  pose proof (clip_range (msg_length m) (proj2 (ic_msgs _ _ _ (proj1 Hi) _ _ Hm))). unfold clip, IPC_MSG_MAX in *. zcases; lia.
Qed.

Lemma kernel_send_spec (s : state) q ps port msg m :
  ipc_inv s q ps -> 0 <= port < 64 -> msg <> 0 -> ip_msgs (snd s) !! msg = Some m ->
  exists s' v, ps !! Z.to_nat port = Some v /\ ipc_kernel_send port msg s = Ret tt s' /\
    match pv_rcv v with
    | [] => ipc_inv s' q ps /\ fst s' = fst s /\ ip_msgs (snd s') = ip_msgs (snd s)
    | w :: l => exists buf, w_body w = Rcv buf /\
        ipc_inv s' (q ++ filter (blocked (fst s)) [w_thr w]) (<[Z.to_nat port := mk_pv (pv_snd v) l]> ps) /\
        (if buf =? 0 then ip_msgs (snd s') = ip_msgs (snd s) else received (ip_msgs (snd s)) (ip_msgs (snd s')) buf m) /\
        (blocked (fst s) (w_thr w) -> state_of (s_threads (fst s')) (w_thr w) = Some THREAD_STATE_READY) /\
        same_others (fst s) (fst s') (filter (blocked (fst s)) [w_thr w])
    end.
Proof.
  intros Hi [H0 Hp] Hm0 Hm.
  destruct (ic_len _ _ _ (proj1 Hi)) as [HL _]. destruct (lookup_lt_is_Some_2 ps (Z.to_nat port)) as [v Hv]; [lia|].
  destruct (enter_spec s q ps _ v Hi Hv) as (p & n & Hpo & Hn & E0 & E1 & C & Hlt & Hp1 & _).
  rewrite Z2Nat.id in * by lia. set (i := Z.to_nat port) in *. assert (Hport : port = Z.of_nat i) by lia.
  destruct s as [sc ip]. cbn [fst snd] in *. set (ip1 := set_ports _ _) in *. destruct Hi as (C0 & Hlock & _). cbn [snd] in *.
  remember (ipc_kernel_send port msg (sc, ip)) as R eqn:HR. unfold ipc_kernel_send in HR.
  rewrite (mbind_Ret _ _ _ _ _ E0) in HR. rewrite Hport, port_small in HR by lia. rewrite <- Hport in HR.
  rewrite (mbind_Ret _ _ _ _ _ E1) in HR. rewrite Hport in HR.
  rewrite (mbind_Ret _ _ _ _ _ (on_i_ok _ sc ip1 _ _ (get_port_ok ip1 i _ Hp1))) in HR.
  change (recvers (set_port_lock 1 p)) with (qhead false (set_port_lock 1 p)) in HR.
  rewrite (qhead_truthy _ _ _ _ _ _ false C Hv Hp1) in HR. cbn [pvq] in HR. destruct (pv_rcv v) as [|w l] eqn:Hq.
  + rewrite bool_decide_eq_true_2 in HR by done. cbn [negb] in HR.
    destruct (backout_inv sc ip q ps i v p n (s_heap sc) C Hlock Hn Hv Hpo) as (ip2 & Eu & Hi2 & Hms); [apply C|].
    rewrite set_heap_id in Eu, Hi2. exists (sc, ip2), v. rewrite Hq. split; [done|]. split; [rewrite HR; exact Eu|]. done.
  + rewrite bool_decide_eq_false_2 in HR by done. cbn [negb] in HR.
    destruct (first_node _ _ _ i v _ false w l C Hv Hp1 Hq) as (nd & _ & _ & _ & Eh & _). rewrite Eh in HR.
    destruct (deliver_spec (sc, ip1) q ps i v _ w l msg m C Hv Hp1 Hq Hm0 Hm) as (s' & buf & msgs' & Hbody & Ed & Hh & Hrec).
    exists s', v. rewrite Hq. split; [done|]. split; [rewrite HR; exact Ed|]. exists buf. split; [done|].
    split; [exact (handed_inv sc ip s' q ps i v p n false w l msgs' Hlock Hn Hh)|].
    destruct Hh as (_ & Ho & Hrd & _ & _ & ->). split; [exact Hrec|]. split; [exact Hrd|exact Ho].
Qed.

(** Message buffers can come and go as long as the waiting receivers keep
    theirs. *)
Lemma ipc_inv_msgs (sc : sched) ip q ps msgs :
  ipc_inv (sc, ip) q ps -> (forall a m, msgs !! a = Some m -> msg_ok m) ->
  (forall i v w a, ps !! i = Some v -> w ∈ pv_rcv v -> w_body w = Rcv a -> a <> 0 -> is_Some (msgs !! a)) ->
  ipc_inv (sc, set_ip_msgs msgs ip) q ps.
Proof.
  intros ([Hs Hl Hp Hn Hnd Ht Hm Hh] & Hlock & Hini) Hok Hbuf. split; [|done]. split; cbn in *; try done.
  intros i v p Hv Hpo. destruct (Hp i v p Hv Hpo) as [Hc Hb H1]. split; [done| |done].
  intros b w Hw. specialize (Hb b w Hw). unfold body_ok in *. destruct b; [done|]. destruct (w_body w) as [|a] eqn:E; [done|].
  destruct (Z.eq_dec a 0) as [->|Ha]; [by left|]. right. by apply (Hbuf i v w a).
Qed.

Lemma receiver_buffer (s : state) q ps i v w a :
  ipc_inv s q ps -> ps !! i = Some v -> w ∈ pv_rcv v -> w_body w = Rcv a -> a <> 0 -> is_Some (ip_msgs (snd s) !! a).
Proof.
  intros (C & _) Hv Hw Hb Ha. destruct (ic_len _ _ _ C) as [HL HL'].
  destruct (lookup_lt_is_Some_2 (ports (snd s)) i) as [p Hp]; [apply lookup_lt_Some in Hv; lia|].
  pose proof (po_body _ _ _ (ic_port _ _ _ C i v p Hv Hp) false w Hw) as Hok. unfold body_ok in Hok. rewrite Hb in Hok. by destruct Hok.
Qed.

(** [ipc_kernel_send], which interrupt handlers call, always returns:
    with a receiver waiting the message is handed over, otherwise it is
    dropped and nothing changes; and any operation on a port number of 64 or
    more returns with nothing changed. *)
Theorem ipc_kernel_send_correct (s : state) q ps port msg m :
  ipc_inv s q ps -> 0 <= port -> msg <> 0 -> ip_msgs (snd s) !! msg = Some m ->
  (port < 64 -> exists s' v, ps !! Z.to_nat port = Some v /\ ipc_kernel_send port msg s = Ret tt s' /\
     match pv_rcv v with
     | [] => ipc_inv s' q ps /\ fst s' = fst s /\ ip_msgs (snd s') = ip_msgs (snd s)
     | w :: l => exists buf, w_body w = Rcv buf /\
         ipc_inv s' (q ++ filter (blocked (fst s)) [w_thr w]) (<[Z.to_nat port := mk_pv (pv_snd v) l]> ps) /\
         (buf <> 0 -> received (ip_msgs (snd s)) (ip_msgs (snd s')) buf m)
     end) /\
  (64 <= port -> exists s', ipc_kernel_send port msg s = Ret tt s' /\ ipc_send junk_msg port msg s = Ret tt s' /\
     ipc_recv port msg s = Ret tt s' /\ ipc_inv s' q ps /\ fst s' = fst s /\ ip_msgs (snd s') = ip_msgs (snd s)).
Proof.
  intros Hi H0 Hm0 Hm. split; intros Hp.
  - destruct (kernel_send_spec s q ps port msg m Hi (conj H0 Hp) Hm0 Hm) as (s' & v & Hv & E & Hs'). exists s', v.
    split; [done|]. split; [done|]. destruct (pv_rcv v) as [|w l]; [done|]. destruct Hs' as (buf & Hb & Hi' & Hrec & _).
    exists buf. split; [done|]. split; [done|]. intros Hb0. by destruct (Z.eqb_spec buf 0).
  - destruct (ic_len _ _ _ (proj1 Hi)) as [HL _]. destruct (lookup_lt_is_Some_2 ps 0) as [v Hv]; [lia|].
    destruct (enter_spec s q ps 0 v Hi Hv) as (p & n & Hpo & Hn & E0 & _).
    destruct s as [sc ip]. cbn [fst snd] in *. exists (sc, set_ipc_initialized n ip).
    assert (Eb : (MAX_PORTS <=? port) = true) by (unfold MAX_PORTS; apply Z.leb_le; lia).
    unfold ipc_kernel_send, ipc_send, ipc_recv, send_enqueue, recv_enqueue. unfold mbind. rewrite E0. cbn [bindr].
    rewrite Eb. split_and!; try done. destruct Hi as (C & Hlock & _). split; [|split; [done|by left]].
    pose proof (core_relock sc ip q ps 0 p (port_lock p) n C Hpo) as C'.
    replace (set_port_lock (port_lock p) p) with p in C' by (by destruct p). rewrite list_insert_id in C' by done.
    by destruct ip.
Qed.
End IpcFacts.

(** ** Witnesses: a running thread, all ports free, two message buffers *)

Definition no_waits : list pview := replicate 64 (mk_pv [] []).

Lemma no_waits_lookup i v : no_waits !! i = Some v -> v = mk_pv [] [].
Proof. intros E. apply lookup_replicate in E as [? _]. done. Qed.

Lemma all_waits_none : all_waits no_waits = [].
Proof. vm_compute. reflexivity. Qed.

Lemma ipc_boot_inv {H} `{KHeap H} (s : @sched_t H) q ls msgs :
  sched_inv s q -> heap_ok s ls -> (forall a m, msgs !! a = Some m -> msg_ok m) ->
  ipc_inv (s, ipc_boot msgs) q no_waits.
Proof.
  intros I [Hv Hd] Hm. split; [|split; [|by right]].
  - split; try done; rewrite ?all_waits_none; try (by intros w ?%elem_of_nil); [|constructor|by exists [], ls].
    intros i v p ->%no_waits_lookup Hp. apply lookup_replicate in Hp as [-> _].
    split; [intros []; done|intros [] w Hw; by apply elem_of_nil in Hw|by left].
  - intros i p Hp. by apply lookup_replicate in Hp as [-> _].
Qed.

Definition demo_hello : ipc_message := mk_msg 5 ([104; 101; 108; 108; 111] ++ replicate 251 0).
Definition demo_empty : ipc_message := mk_msg 0 (replicate 256 0).
Definition demo_msgs : gmap Z ipc_message := <[1000 := demo_hello]> (<[2000 := demo_empty]> ∅).

Lemma demo_msgs_ok a m : demo_msgs !! a = Some m -> msg_ok m.
Proof.
  unfold demo_msgs. rewrite !lookup_insert. repeat case_decide; try (by intros [= <-]).
Qed.

Lemma demo_empty_ok : msg_ok demo_empty.
Proof. done. Qed.

Lemma ipc_send_correct_witness :
  exists s, demo_started = Some s /\
    ((exists a m' s' k, ipc_send demo_empty 3 1000 (s, ipc_boot demo_msgs) = Switch s' k /\ (forall x, k x = Ret tt x) /\
        payload m' = payload demo_hello /\ msg_length m' = 5 /\
        ipc_inv s' [] (<[3%nat := mk_pv [mk_w a (current_thread s) (Snd m')] []]> no_waits) /\
        state_of (s_threads (fst s')) (current_thread s) = Some THREAD_STATE_BLOCKED) \/
     (kh_scarce (s_heap s) sizeof_wait_node /\
      (ipc_send demo_empty 3 1000 (s, ipc_boot demo_msgs) = Fault \/
       exists s', ipc_send demo_empty 3 1000 (s, ipc_boot demo_msgs) = Ret tt s' /\ ipc_inv s' [] no_waits))).
Proof.
  destruct demo_running as (s & ls & E & I & Hok & Hr). exists s. split; [exact E|].
  destruct (ipc_send_correct demo_empty demo_empty_ok (s, ipc_boot demo_msgs) [] no_waits 3 (mk_pv [] []) 1000 demo_hello) as [_ Hw].
  - exact (ipc_boot_inv s [] ls demo_msgs I Hok demo_msgs_ok).
  - exact Hr.
  - reflexivity.
  - discriminate.
  - reflexivity.
  - exact (Hw eq_refl).
Defined.

Lemma ipc_recv_correct_witness :
  exists s, demo_started = Some s /\
    ((exists a s' k, ipc_recv 3 2000 (s, ipc_boot demo_msgs) = Switch s' k /\ (forall x, k x = Ret tt x) /\
        ipc_inv s' [] (<[3%nat := mk_pv [] [mk_w a (current_thread s) (Rcv 2000)]]> no_waits) /\
        state_of (s_threads (fst s')) (current_thread s) = Some THREAD_STATE_BLOCKED) \/
     (kh_scarce (s_heap s) sizeof_wait_node /\
      (ipc_recv 3 2000 (s, ipc_boot demo_msgs) = Fault \/
       exists s', ipc_recv 3 2000 (s, ipc_boot demo_msgs) = Ret tt s' /\ ipc_inv s' [] no_waits))).
Proof.
  destruct demo_running as (s & ls & E & I & Hok & Hr). exists s. split; [exact E|].
  destruct (ipc_recv_correct (s, ipc_boot demo_msgs) [] no_waits 3 (mk_pv [] []) 2000 demo_empty) as [_ Hw].
  - exact (ipc_boot_inv s [] ls demo_msgs I Hok demo_msgs_ok).
  - exact Hr.
  - reflexivity.
  - discriminate.
  - reflexivity.
  - exact (Hw eq_refl).
Defined.

(** The heap has room for a wait node. *)
Lemma demo_started_room : (fun s => align8 sizeof_wait_node + 65536 <=? heap_room (s_heap s)) <$> demo_started = Some true.
Proof. vm_compute. reflexivity. Qed.

Lemma demo_started_fed s : demo_started = Some s -> ~ kh_scarce (s_heap s) sizeof_wait_node.
Proof.
  intros E Hs. pose proof demo_started_room as Hr. rewrite E in Hr. injection Hr as Hr%Z.leb_le.
  change (heap_room (s_heap s) < align8 sizeof_wait_node + 65536) in Hs. lia.
Qed.

Lemma ipc_rendezvous_witness :
  exists s s1 k s2, demo_started = Some s /\ ipc_send demo_empty 3 1000 (s, ipc_boot demo_msgs) = Switch s1 k /\
    ipc_recv 3 2000 s1 = Ret tt s2 /\ ipc_inv s2 [current_thread s] no_waits /\
    received demo_msgs (ip_msgs (snd s2)) 2000 demo_hello /\
    state_of (s_threads (fst s2)) (current_thread s) = Some THREAD_STATE_READY.
Proof.
  destruct demo_running as (s & ls & E & I & Hok & Hr). exists s.
  destruct (ipc_rendezvous demo_empty demo_empty_ok (s, ipc_boot demo_msgs) [] no_waits 3 (mk_pv [] []) 1000 demo_hello 2000 demo_empty) as [(s1 & k & s2 & Hx)|[Hs _]].
  - exact (ipc_boot_inv s [] ls demo_msgs I Hok demo_msgs_ok).
  - exact Hr.
  - reflexivity.
  - reflexivity.
  - discriminate.
  - reflexivity.
  - discriminate.
  - reflexivity.
  - exists s1, k, s2. split; [exact E|exact Hx].
  - exfalso. exact (demo_started_fed s E Hs).
Defined.

Lemma ipc_kernel_send_correct_witness :
  exists s s', demo_started = Some s /\
    ipc_kernel_send 64 1000 (s, ipc_boot demo_msgs) = Ret tt s' /\ ipc_inv s' [] no_waits.
Proof.
  destruct demo_running as (s & ls & E & I & Hok & Hr).
  destruct (ipc_kernel_send_correct demo_empty (s, ipc_boot demo_msgs) [] no_waits 64 1000 demo_hello) as [_ Hw].
  - exact (ipc_boot_inv s [] ls demo_msgs I Hok demo_msgs_ok).
  - lia.
  - discriminate.
  - reflexivity.
  - destruct Hw as (s' & E' & _ & _ & Hi & _); [lia|]. exists s, s'. split; [exact E|]. split; [exact E'|exact Hi].
Defined.
