(* ===== verification/KbdBuf.v ===== *)
(** * Keyboard buffer (src/kernel/kbd_buf.c)

    A ring of 256 characters between the keyboard interrupt and the readers,
    and its refinement to a bounded queue. *)

From stdpp Require Import base gmap list fin_maps.
From Stdlib Require Import ZArith Lia.
From S2P Require Import Prelude.

Definition BUF_SIZE : Z := 256.

Record kbd_t : Type := mk_kbd {
  kb_buf : list Z;
  kb_head : Z;
  kb_tail : Z;
  kbd_lock : Z
}.

Definition set_kb_buf (x : list Z) (s : kbd_t) : kbd_t := mk_kbd x (kb_head s) (kb_tail s) (kbd_lock s).
Definition set_kb_head (x : Z) (s : kbd_t) : kbd_t := mk_kbd (kb_buf s) x (kb_tail s) (kbd_lock s).
Definition set_kb_tail (x : Z) (s : kbd_t) : kbd_t := mk_kbd (kb_buf s) (kb_head s) x (kbd_lock s).
Definition set_kbd_lock (x : Z) (s : kbd_t) : kbd_t := mk_kbd (kb_buf s) (kb_head s) (kb_tail s) x.

(** The static initial values. *)
Definition kbd_boot : kbd_t := mk_kbd (replicate 256 0) 0 0 0.

Definition lock_kbd : M kbd_t unit := spin_lock kbd_lock set_kbd_lock.
Definition unlock_kbd : M kbd_t unit := spin_unlock set_kbd_lock.

(** [buf[i]] and [buf[i] = c]: an index past the array faults. *)
Definition buf_read (i : Z) : M kbd_t Z := fun s => mopt (kb_buf s !! Z.to_nat i) s.
Definition buf_write (i c : Z) : M kbd_t unit := fun s =>
  if (Z.to_nat i <? length (kb_buf s))%nat then Ret tt (set_kb_buf (<[Z.to_nat i := c]> (kb_buf s)) s)
  else Fault.

Definition kbd_buf_init : M kbd_t unit :=
  mset (set_kb_tail 0) ;;; mset (set_kb_head 0).

Definition kbd_buf_put (c : Z) : M kbd_t unit :=
  lock_kbd ;;;
  head <- mget kb_head ;;
  let next := u32 (head + 1) mod BUF_SIZE in
  tail <- mget kb_tail ;;
  (if negb (next =? tail) then buf_write head c ;;; mset (set_kb_head next) else mret tt) ;;;
  unlock_kbd.

(** One round of the loop of [kbd_buf_get]: the oldest character, if any. *)
Definition kbd_try_get : M kbd_t (option Z) :=
  lock_kbd ;;;
  tail <- mget kb_tail ;;
  head <- mget kb_head ;;
  if negb (tail =? head) then
    c <- buf_read tail ;;
    mset (set_kb_tail (u32 (tail + 1) mod BUF_SIZE)) ;;;
    unlock_kbd ;;;
    mret (Some c)
  else unlock_kbd ;;; mret None.

(** [kbd_buf_get] in a state that contains the buffer; [yield] is the system
    call made between two rounds, and [fuel] bounds the number of rounds. *)
Fixpoint kbd_buf_get {S} (get : S -> kbd_t) (put : kbd_t -> S -> S) (yield : M S unit)
    (fuel : nat) : M S Z :=
  match fuel with
  | O => mhang
  | Datatypes.S fuel' =>
      o <- zoom get put kbd_try_get ;;
      match o with
      | Some c => mret c
      | None => yield ;;; kbd_buf_get get put yield fuel'
      end
  end.

(** ** The queue a buffer holds *)

Definition ring (i : Z) : nat := Z.to_nat (i mod BUF_SIZE).

(** [n] characters from index [tail] on. *)
Definition window (buf : list Z) (tail : Z) (n : nat) : list Z :=
  (fun i => default 0 (buf !! ring (tail + i))) <$> seqZ 0 (Z.of_nat n).

Record kbd_rep (s : kbd_t) (q : list Z) : Prop := {
  kr_lock : kbd_lock s = 0;
  kr_size : length (kb_buf s) = 256%nat;
  kr_head : kb_head s = (kb_tail s + Z.of_nat (length q)) mod BUF_SIZE;
  kr_tail : 0 <= kb_tail s < BUF_SIZE;
  kr_len : (length q <= 255)%nat;
  kr_q : q = window (kb_buf s) (kb_tail s) (length q)
}.

Lemma window_S buf t n :
  window buf t (S n) = window buf t n ++ [default 0 (buf !! ring (t + Z.of_nat n))].
Proof.
  unfold window. rewrite Nat2Z.inj_succ. unfold Z.succ. rewrite seqZ_app by lia.
  rewrite fmap_app. by rewrite Z.add_0_l.
Qed.

Lemma ring_shift t i : ring ((t + 1) mod BUF_SIZE + i) = ring (t + (1 + i)).
Proof. unfold ring, BUF_SIZE. f_equal. rewrite Zplus_mod_idemp_l. f_equal. lia. Qed.

Lemma window_cons buf t n :
  window buf t (S n) = default 0 (buf !! ring t) :: window buf ((t + 1) mod BUF_SIZE) n.
Proof.
  induction n as [|n IH].
  { unfold window. change (seqZ 0 (Z.of_nat 1)) with [0]. cbn [fmap list_fmap]. by rewrite Z.add_0_r. }
  rewrite window_S, IH, (window_S _ _ n). rewrite ring_shift. simpl. do 6 f_equal. lia.
Qed.

(** Writing behind the window leaves it alone. *)
Lemma window_insert buf t n c :
  0 <= t -> (n < 256)%nat ->
  window (<[ring (t + Z.of_nat n) := c]> buf) t n = window buf t n.
Proof.
  intros Ht Hn. unfold window. apply list_fmap_ext. intros k i Hk.
  apply lookup_seqZ in Hk as [-> Hk]. rewrite list_lookup_insert_ne; [done|].
  unfold ring, BUF_SIZE. intros E. apply Z2Nat.inj in E; [|by apply Z.mod_pos_bound..].
  assert (H1 : (t + Z.of_nat n) mod 256 = (t + (0 + Z.of_nat k)) mod 256) by done.
  revert H1. Z.div_mod_to_equations. lia.
Qed.

Lemma kbd_boot_rep : kbd_rep kbd_boot [].
Proof. split; cbn; try done; unfold BUF_SIZE; lia. Qed.

(** ** Operations on the queue *)

Definition fifo_put (c : Z) (q : list Z) : list Z :=
  if (length q <? 255)%nat then q ++ [c] else q.

Lemma kbd_put_spec s q c :
  kbd_rep s q -> exists s', kbd_buf_put c s = Ret tt s' /\ kbd_rep s' (fifo_put c q).
Proof.
  intros [Hl Hs Hh Ht Hn Hq]. unfold kbd_buf_put, lock_kbd, unlock_kbd. mstep. rewrite Hl. cbn [Z.eqb bindr].
  cbn [kb_head kb_tail set_kbd_lock].
  assert (Hh' : 0 <= kb_head s < 256) by (rewrite Hh; by apply Z.mod_pos_bound).
  rewrite u32_small by (unfold two32; lia). unfold fifo_put, BUF_SIZE in *.
  assert (Hnext : (kb_head s + 1) mod 256 = (kb_tail s + Z.of_nat (S (length q))) mod 256).
  { rewrite Hh, Zplus_mod_idemp_l. f_equal. lia. }
  destruct (Z.eqb_spec ((kb_head s + 1) mod 256) (kb_tail s)) as [E|E]; cbn [negb].
  - destruct (Nat.ltb_spec (length q) 255) as [Hlt|Hge].
    { exfalso. rewrite Hnext in E. revert E. Z.div_mod_to_equations. lia. }
    eexists. split; [reflexivity|]. by split.
  - destruct (Nat.ltb_spec (length q) 255) as [Hlt|Hge].
    2:{ exfalso. apply E. rewrite Hnext. replace (length q) with 255%nat by lia. Z.div_mod_to_equations. lia. }
    unfold buf_write. cbn [kb_buf set_kbd_lock]. rewrite Hs.
    destruct (Nat.ltb_spec (Z.to_nat (kb_head s)) 256) as [_|]; [|lia]. cbn [bindr]. eexists. split; [reflexivity|].
    assert (Hr : Z.to_nat (kb_head s) = ring (kb_tail s + Z.of_nat (length q))) by (unfold ring, BUF_SIZE; by rewrite <- Hh).
    split; cbn; try done.
    + by rewrite length_insert.
    + rewrite length_app. simpl. rewrite Hnext. unfold BUF_SIZE. do 2 f_equal. lia.
    + rewrite length_app. simpl. lia.
    + rewrite length_app. simpl. rewrite Nat.add_1_r, window_S, Hr, window_insert by lia.
      rewrite list_lookup_insert_eq by (rewrite Hs, <- Hr; lia). by rewrite <- Hq.
Qed.

Lemma kbd_get_spec s q :
  kbd_rep s q -> exists s', kbd_try_get s = Ret (head q) s' /\ kbd_rep s' (tail q).
Proof.
  intros [Hl Hs Hh Ht Hn Hq]. unfold kbd_try_get, lock_kbd, unlock_kbd. mstep. rewrite Hl. cbn [Z.eqb bindr].
  cbn [kb_head kb_tail set_kbd_lock]. unfold BUF_SIZE in *. destruct q as [|c q].
  - rewrite Hh. cbn [length Z.of_nat]. rewrite Z.add_0_r, Z.mod_small by done. rewrite Z.eqb_refl. cbn [negb bindr].
    eexists. split; [reflexivity|]. by split; cbn.
  - destruct (Z.eqb_spec (kb_tail s) (kb_head s)) as [E|E]; cbn [negb].
    { exfalso. rewrite Hh in E. simpl in E, Hn. revert E. Z.div_mod_to_equations. lia. }
    cbn [length] in Hq. rewrite window_cons in Hq. injection Hq as Hc Hq.
    assert (Hr : ring (kb_tail s) = Z.to_nat (kb_tail s)) by (unfold ring, BUF_SIZE; by rewrite Z.mod_small).
    rewrite Hr in Hc. destruct (lookup_lt_is_Some_2 (kb_buf s) (Z.to_nat (kb_tail s))) as [x Hx]; [lia|].
    unfold buf_read. cbn [kb_buf set_kbd_lock]. rewrite Hx in *. simpl in Hc. unfold mopt. cbn [bindr].
    rewrite u32_small by (unfold two32; lia). eexists. split; [by rewrite Hc|].
    split; cbn; try done.
    + rewrite Hh. simpl length. unfold BUF_SIZE. rewrite Zplus_mod_idemp_l. f_equal. lia.
    + by apply Z.mod_pos_bound.
    + simpl in Hn. lia.
Qed.

(** ** Refinement *)

Inductive kbd_op : Type := Put (c : Z) | TryGet.

Definition kbd_run1 (o : kbd_op) : M kbd_t (option Z) :=
  match o with Put c => kbd_buf_put c ;;; mret None | TryGet => kbd_try_get end.

Fixpoint kbd_run (os : list kbd_op) : M kbd_t (list (option Z)) :=
  match os with
  | [] => mret []
  | o :: os => x <- kbd_run1 o ;; xs <- kbd_run os ;; mret (x :: xs)
  end.

(** The abstract queue: at most 255 characters, a character that finds it
    full is dropped. *)
Definition fifo_run1 (o : kbd_op) (q : list Z) : option Z * list Z :=
  match o with Put c => (None, fifo_put c q) | TryGet => (head q, tail q) end.

Fixpoint fifo_run (os : list kbd_op) (q : list Z) : list (option Z) * list Z :=
  match os with
  | [] => ([], q)
  | o :: os =>
      let '(x, q1) := fifo_run1 o q in
      let '(xs, q2) := fifo_run os q1 in (x :: xs, q2)
  end.

Lemma kbd_run_spec os : forall s q, kbd_rep s q ->
  exists s', kbd_run os s = Ret (fst (fifo_run os q)) s' /\ kbd_rep s' (snd (fifo_run os q)).
Proof.
  induction os as [|o os IH]; intros s q Hr; cbn [kbd_run fifo_run]; [by exists s|].
  assert (H1 : exists s1, kbd_run1 o s = Ret (fst (fifo_run1 o q)) s1 /\ kbd_rep s1 (snd (fifo_run1 o q))).
  { destruct o as [c|]; cbn [kbd_run1 fifo_run1 fst snd]; [|by apply kbd_get_spec].
    destruct (kbd_put_spec s q c Hr) as (s1 & E & Hr1). exists s1. unfold mbind. by rewrite E. }
  destruct H1 as (s1 & E1 & Hr1). destruct (fifo_run1 o q) as [x q1]. cbn [fst snd] in *.
  destruct (IH s1 q1 Hr1) as (s2 & E2 & Hr2). exists s2. unfold mbind. rewrite E1. cbn [bindr].
  rewrite E2. cbn [bindr]. by destruct (fifo_run os q1).
Qed.

(** C37: from boot, any sequence of keyboard interrupts and reads returns and
    gives what a first-in first-out queue of at most 255 characters gives. *)
Theorem kbd_refines_fifo os :
  exists s', kbd_run os kbd_boot = Ret (fst (fifo_run os [])) s' /\ kbd_rep s' (snd (fifo_run os [])).
Proof. apply kbd_run_spec, kbd_boot_rep. Qed.

(** [kbd_buf_get] returns the oldest character in the first round that
    finds one: called in the first of the states [es ++ [s]] and resumed after each yield in the
    next, all empty but the last, it returns in the last one; a round per
    state is enough. *)
Theorem kbd_get_waits es e s c q fuel :
  Forall (fun e => kbd_rep e []) es -> kbd_rep s (c :: q) -> es ++ [s] = e :: tail (es ++ [s]) ->
  (length es < fuel)%nat ->
  exists s', drive (tail (es ++ [s])) (kbd_buf_get id (fun k _ => k) myield fuel e) = Ret c s' /\
    kbd_rep s' q.
Proof.
  revert e fuel. induction es as [|e0 es IH]; intros e fuel Hes Hs He Hf; (destruct fuel as [|fuel]; [simpl in Hf; lia|]);
    injection He as <-; cbn [kbd_buf_get]; mstep.
  - destruct (kbd_get_spec s _ Hs) as (s' & E & Hs'). change (id s) with s. rewrite E. by exists s'.
  - apply Forall_cons in Hes as [He0 Hes]. destruct (kbd_get_spec _ _ He0) as (s' & E & Hs'). change (id e0) with e0. rewrite E.
    cbn [head zoomr bindr]. unfold myield at 1. cbn [bindr tail app]. simpl in Hf.
    destruct (IH (hd s es) fuel Hes Hs) as (s2 & E2 & Hq).
    + by destruct es.
    + lia.
    + exists s2. split; [|done]. rewrite <- E2. by destruct es.
Qed.

Lemma kbd_get_waits_witness :
  exists s', drive [snd (default (tt, kbd_boot) (returned (kbd_buf_put 113 kbd_boot)))]
      (kbd_buf_get id (fun k _ => k) myield 2 kbd_boot) = Ret 113 s' /\ kbd_rep s' [].
Proof.
  destruct (kbd_put_spec kbd_boot [] 113 kbd_boot_rep) as (s1 & E & H1). rewrite E.
  apply (kbd_get_waits [kbd_boot] kbd_boot s1 113 [] 2).
  - constructor; [apply kbd_boot_rep|constructor].
  - exact H1.
  - reflexivity.
  - simpl. lia.
Defined.
