(* ===== verification/Bus.v ===== *)
(** * Service registry (src/kernel/bus.c)

    Names are registered in a table of 32 slots of 32 bytes and looked up by
    comparing C strings.  The table refines a list of names. *)

From stdpp Require Import base gmap list fin_maps.
From Stdlib Require Import ZArith Lia.
From S2P Require Import Prelude.

Definition MAX_SERVICES : Z := 32.
Definition NAME_MAX : Z := 32.

Record service_t : Type := mk_service { sv_name : list Z; sv_port : Z }.

Record bus_t : Type := mk_bus {
  services : list service_t;
  next_port : Z;
  num_services : Z;
  bus_lock : Z
}.

Definition set_services (x : list service_t) (s : bus_t) : bus_t :=
  mk_bus x (next_port s) (num_services s) (bus_lock s).
Definition set_next_port (x : Z) (s : bus_t) : bus_t :=
  mk_bus (services s) x (num_services s) (bus_lock s).
Definition set_num_services (x : Z) (s : bus_t) : bus_t :=
  mk_bus (services s) (next_port s) x (bus_lock s).
Definition set_bus_lock (x : Z) (s : bus_t) : bus_t :=
  mk_bus (services s) (next_port s) (num_services s) x.

Definition empty_service : service_t := mk_service (replicate 32 0) 0.
Definition bus_boot : bus_t := mk_bus (replicate 32 empty_service) 0 0 0.

Definition lock_bus : M bus_t unit := spin_lock bus_lock set_bus_lock.
Definition unlock_bus : M bus_t unit := spin_unlock set_bus_lock.

(** [name[i]] of the argument, [services[n]] and its fields; an index past an
    array faults. *)
Definition name_at (name : list Z) (i : Z) : M bus_t Z := mopt (name !! Z.to_nat i).
Definition service_at (n : Z) : M bus_t service_t := fun s => mopt (services s !! Z.to_nat n) s.
Definition set_service (n : Z) (sv : service_t) : M bus_t unit :=
  mset (fun s => set_services (<[Z.to_nat n := sv]> (services s)) s).
Definition write_name (n i c : Z) : M bus_t unit :=
  sv <- service_at n ;;
  if (Z.to_nat i <? length (sv_name sv))%nat
  then set_service n (mk_service (<[Z.to_nat i := c]> (sv_name sv)) (sv_port sv))
  else mfault.

(** The copy loop with [k] characters still allowed. *)
Fixpoint copy_name (name : list Z) (n : Z) (k : nat) (i : Z) : M bus_t unit :=
  match k with
  | O => mret tt
  | S k' =>
      c <- name_at name i ;;
      if truthy c then write_name n i c ;;; copy_name name n k' (i + 1) else mret tt
  end.

Definition bus_register (name : list Z) : M bus_t Z :=
  lock_bus ;;;
  n <- mget num_services ;;
  if MAX_SERVICES <=? n then unlock_bus ;;; mret (-1)
  else
    copy_name name n (Z.to_nat (NAME_MAX - 1)) 0 ;;;
    write_name n (NAME_MAX - 1) 0 ;;;
    p <- mget next_port ;;
    sv <- service_at n ;;
    set_service n (mk_service (sv_name sv) p) ;;;
    mset (set_next_port (i32 (p + 1))) ;;;
    sv <- service_at n ;;
    let port := sv_port sv in
    mset (set_num_services (i32 (n + 1))) ;;;
    unlock_bus ;;;
    mret port.

(** The comparison loop; a slot has 32 characters, so the 33rd round is
    never reached. *)
Fixpoint match_name (name slot : list Z) (fuel : nat) (j : Z) : M bus_t bool :=
  match fuel with
  | O => mhang
  | S fuel' =>
      a <- name_at name j ;;
      b <- mopt (slot !! Z.to_nat j) ;;
      if truthy a || truthy b then
        if negb (a =? b) then mret false else match_name name slot fuel' (j + 1)
      else mret true
  end.

(** [k] slots left, from slot [i] on. *)
Fixpoint lookup_loop (name : list Z) (k : nat) (i : Z) : M bus_t Z :=
  match k with
  | O => unlock_bus ;;; mret (-1)
  | S k' =>
      sv <- service_at i ;;
      m <- match_name name (sv_name sv) 33 0 ;;
      if m then unlock_bus ;;; mret (sv_port sv) else lookup_loop name k' (i + 1)
  end.

Definition bus_lookup (name : list Z) : M bus_t Z :=
  lock_bus ;;;
  n <- mget num_services ;;
  lookup_loop name (Z.to_nat n) 0.

(** ** The list of names a table holds *)

(** The bytes of a C string argument. *)
Definition c_string (buf name : list Z) : Prop :=
  Forall (fun c => c <> 0) name /\ exists rest, buf = name ++ 0 :: rest.

(** A slot keeps 31 characters and pads with zeros. *)
Definition pad (name : list Z) : list Z := name ++ replicate (32 - length name) 0.
Definition slot_of (name : list Z) : list Z := pad (take 31 name).

Record bus_rep (s : bus_t) (names : list (list Z)) : Prop := {
  br_lock : bus_lock s = 0;
  br_num : num_services s = Z.of_nat (length names);
  br_port : next_port s = Z.of_nat (length names);
  br_max : (length names <= 32)%nat;
  br_nz : Forall (Forall (fun c => c <> 0)) names;
  br_tab : services s = imap (fun i n => mk_service (slot_of n) (Z.of_nat i)) names ++
             replicate (32 - length names) empty_service
}.

Lemma bus_boot_rep : bus_rep bus_boot [].
Proof. split; cbn; try done; lia. Qed.

(** ** [bus_register] *)

Lemma length_pad n : (length n <= 32)%nat -> length (pad n) = 32%nat.
Proof. intros. unfold pad. rewrite length_app, length_replicate. lia. Qed.

Lemma pad_snoc n c : (length n < 32)%nat -> <[length n := c]> (pad n) = pad (n ++ [c]).
Proof.
  intros Hn. unfold pad. rewrite insert_app_r_alt by lia. rewrite Nat.sub_diag, length_app. simpl.
  replace (32 - length n)%nat with (S (32 - (length n + 1)))%nat by lia. simpl. by rewrite <- app_assoc.
Qed.

Lemma c_string_lookup buf name i :
  c_string buf name -> (i <= length name)%nat ->
  buf !! i = Some (nth i name 0) /\ (nth i name 0 = 0 <-> i = length name).
Proof.
  intros [Hnz [rest ->]] Hi. destruct (decide (i = length name)) as [->|Hne].
  - rewrite list_lookup_middle by done. rewrite nth_overflow by lia. done.
  - assert (Hlt : (i < length name)%nat) by lia. rewrite lookup_app_l by done.
    destruct (lookup_lt_is_Some_2 name i Hlt) as [c Hc]. rewrite Hc.
    rewrite (nth_lookup_Some name i 0 c Hc). split; [done|]. split; [|lia].
    intros ->. by destruct (Forall_lookup_1 _ _ _ _ Hnz Hc).
Qed.

Lemma write_name_ok s n i c sv :
  services s !! Z.to_nat n = Some sv -> (Z.to_nat i < length (sv_name sv))%nat ->
  write_name n i c s = Ret tt (set_services
    (<[Z.to_nat n := mk_service (<[Z.to_nat i := c]> (sv_name sv)) (sv_port sv)]> (services s)) s).
Proof.
  intros Hs Hi. unfold write_name, service_at. mstep. rewrite Hs. cbn [bindr].
  destruct (Nat.ltb_spec (Z.to_nat i) (length (sv_name sv))); [done|lia].
Qed.

Lemma copy_name_spec buf name n k : forall i s,
  c_string buf name -> (i + k = 31)%nat -> (i <= length name)%nat ->
  services s !! Z.to_nat n = Some (mk_service (pad (take i name)) 0) ->
  copy_name buf n k (Z.of_nat i) s =
    Ret tt (set_services (<[Z.to_nat n := mk_service (slot_of name) 0]> (services s)) s).
Proof.
  induction k as [|k IH]; intros i s Hb Hik Hi Hs; cbn [copy_name].
  - replace i with 31%nat in Hs by lia. unfold mret. f_equal. fold (slot_of name) in Hs.
    rewrite list_insert_id by done. by destruct s.
  - destruct (c_string_lookup buf name i Hb Hi) as [E Hz]. unfold name_at. mstep. rewrite Nat2Z.id, E.
    cbn [bindr]. unfold truthy. destruct (Z.eqb_spec (nth i name 0) 0) as [H0|H0]; cbn [negb].
    + apply Hz in H0. f_equal. unfold slot_of. rewrite take_ge by lia. rewrite take_ge in Hs by lia.
      rewrite list_insert_id by done. by destruct s.
    + assert (Hlt : (i < length name)%nat) by (destruct (decide (i = length name)); [tauto|lia]).
      assert (Hlen : length (take i name) = i) by (rewrite length_take; lia).
      rewrite (write_name_ok s n _ _ _ Hs) by (cbn; rewrite Nat2Z.id, length_pad; lia). cbn [bindr sv_name sv_port].
      assert (Etake : <[i := nth i name 0]> (pad (take i name)) = pad (take (S i) name)).
      { destruct (lookup_lt_is_Some_2 name i Hlt) as [c Hc]. rewrite (take_S_r _ _ _ Hc).
        rewrite (nth_lookup_Some name i 0 c Hc), <- pad_snoc by lia. by rewrite Hlen. }
      rewrite Nat2Z.id. rewrite Etake. replace (Z.of_nat i + 1) with (Z.of_nat (S i)) by lia.
      apply lookup_lt_Some in Hs as Hn.
      rewrite IH; [|done|lia|lia|cbn; by rewrite list_lookup_insert_eq].
      cbn [services set_services]. by rewrite list_insert_insert_eq.
Qed.

Lemma pad_lookup n j : (j < 32)%nat -> (length n <= 32)%nat -> pad n !! j = Some (nth j n 0).
Proof.
  intros Hj Hn. unfold pad. destruct (decide (j < length n)%nat) as [Hlt|Hge].
  - rewrite lookup_app_l by done. destruct (lookup_lt_is_Some_2 n j Hlt) as [c Hc].
    by rewrite Hc, (nth_lookup_Some n j 0 c Hc).
  - rewrite lookup_app_r by lia. rewrite lookup_replicate_2 by lia. by rewrite nth_overflow by lia.
Qed.

Lemma slot_31 n : <[31%nat := 0]> (slot_of n) = slot_of n.
Proof.
  apply list_insert_id. unfold slot_of. rewrite pad_lookup by (rewrite ?length_take; lia).
  rewrite nth_overflow; [done|]. rewrite length_take. lia.
Qed.

Lemma bus_register_spec s names buf name :
  bus_rep s names -> c_string buf name ->
  if decide (length names = 32%nat) then bus_register buf s = Ret (-1) s
  else exists s', bus_register buf s = Ret (Z.of_nat (length names)) s' /\ bus_rep s' (names ++ [name]).
Proof.
  intros [Hl Hn Hp Hmax Hnz Ht] Hb. unfold bus_register, lock_bus, unlock_bus. mstep. rewrite Hl. cbn [Z.eqb bindr].
  cbn [num_services set_bus_lock]. rewrite Hn. unfold MAX_SERVICES, NAME_MAX.
  set (n := length names) in *. case_decide as Hd.
  { destruct (Z.leb_spec 32 (Z.of_nat n)); [|lia]. unfold set_bus_lock. cbn. destruct s; cbn in *. by subst. }
  destruct (Z.leb_spec 32 (Z.of_nat n)); [lia|].
  set (s1 := set_bus_lock 1 s).
  assert (Hlen : length (imap (fun i n => mk_service (slot_of n) (Z.of_nat i)) names) = n) by apply length_imap.
  assert (Hslot : services s1 !! Z.to_nat (Z.of_nat n) = Some (mk_service (pad (take 0 name)) 0)).
  { cbn. rewrite Ht, Nat2Z.id, lookup_app_r by lia. rewrite Hlen. rewrite lookup_replicate_2 by lia. done. }
  pose proof (lookup_lt_Some _ _ _ Hslot) as Hrange.
  pose proof (copy_name_spec buf name (Z.of_nat n) 31 0 s1 Hb eq_refl (Nat.le_0_l _) Hslot) as E.
  change (Z.of_nat 0) with 0 in E. change (Z.to_nat (32 - 1)) with 31%nat. rewrite E. clear E. cbn [bindr].
  rewrite (write_name_ok _ _ _ _ (mk_service (slot_of name) 0));
    [|cbn; by rewrite list_lookup_insert_eq|cbn; unfold slot_of; rewrite length_pad; [lia|rewrite length_take; lia]].
  cbn [bindr services set_services sv_name sv_port]. change (Z.to_nat (32 - 1)) with 31%nat.
  rewrite slot_31, list_insert_insert_eq. unfold service_at, set_service. mstep. cbn [services set_services].
  rewrite list_lookup_insert_eq by done. cbn [bindr services set_services sv_name next_port set_next_port].
  rewrite list_insert_insert_eq, list_lookup_insert_eq by done. cbn [bindr sv_port].
  eexists. split; [cbn; by rewrite Hp|].
  assert (Hs' : services s = imap (fun i n => mk_service (slot_of n) (Z.of_nat i)) names ++
    empty_service :: replicate (31 - n) empty_service).
  { rewrite Ht. f_equal. by replace (32 - n)%nat with (S (31 - n)) by lia. }
  split; cbn; rewrite ?length_app; simpl; try (rewrite i32_small by lia); rewrite ?Hp; try done; try (fold n; lia).
  - apply Forall_app. split; [done|]. constructor; [apply Hb|constructor].
  - rewrite Hs', Nat2Z.id. rewrite insert_app_r_alt by lia. rewrite Hlen, Nat.sub_diag. simpl.
    rewrite imap_app, <- app_assoc. simpl. fold n. rewrite Nat.add_0_r.
    by replace (32 - (n + 1))%nat with (31 - n)%nat by lia.
Qed.

(** ** [bus_lookup] *)

Lemma nth_prefix (a b : list Z) j :
  (j < length a)%nat -> (j < length b)%nat -> nth j a 0 = nth j b 0 -> take j a = take j b ->
  take (S j) a = take (S j) b.
Proof.
  intros Ha Hb E Hp. destruct (lookup_lt_is_Some_2 a j Ha) as [x Hx], (lookup_lt_is_Some_2 b j Hb) as [y Hy].
  rewrite (take_S_r _ _ _ Hx), (take_S_r _ _ _ Hy), Hp.
  rewrite (nth_lookup_Some a j 0 x Hx), (nth_lookup_Some b j 0 y Hy) in E. by subst.
Qed.

Lemma match_name_spec buf name m s : c_string buf name -> Forall (fun c => c <> 0) m -> (length m <= 31)%nat ->
  forall fuel j, (j + fuel = 33)%nat -> (j <= length name)%nat -> (j <= length m)%nat ->
  take j name = take j m ->
  match_name buf (pad m) fuel (Z.of_nat j) s = Ret (bool_decide (name = m)) s.
Proof.
  intros Hb Hm Hlen fuel. induction fuel as [|fuel IH]; intros j Hj Hj1 Hj2 Hp; [lia|]. cbn [match_name].
  destruct (c_string_lookup buf name j Hb Hj1) as [E Hz].
  destruct (c_string_lookup (m ++ [0]) m j (conj Hm (ex_intro _ [] eq_refl)) Hj2) as [_ Hzm].
  unfold name_at. mstep. rewrite Nat2Z.id, E. cbn [bindr]. rewrite pad_lookup by lia. cbn [bindr]. unfold truthy.
  destruct (Z.eqb_spec (nth j name 0) 0) as [Ha|Ha], (Z.eqb_spec (nth j m 0) 0) as [Hb0|Hb0]; cbn [negb orb];
    try (destruct (Z.eqb_spec (nth j name 0) (nth j m 0)) as [Hab|Hab]; cbn [negb]; try (exfalso; lia)).
  - apply Hz in Ha. apply Hzm in Hb0. rewrite !take_ge in Hp by lia. by rewrite bool_decide_eq_true_2.
  - rewrite bool_decide_eq_false_2; [done|]. intros ->. done.
  - rewrite bool_decide_eq_false_2; [done|]. intros ->. done.
  - assert (j <> length name /\ j <> length m) as [? ?] by tauto.
    replace (Z.of_nat j + 1) with (Z.of_nat (S j)) by lia. apply IH; try lia. apply nth_prefix; [lia|lia|done|done].
  - rewrite bool_decide_eq_false_2; [done|]. intros ->. done.
Qed.

(** The port a list of names gives: the first that agrees in its first 31
    characters, or -1. *)
Fixpoint find_name (i : Z) (names : list (list Z)) (name : list Z) : Z :=
  match names with
  | [] => -1
  | m :: names' => if decide (name = take 31 m) then i else find_name (i + 1) names' name
  end.

Lemma lookup_loop_spec buf name s names : c_string buf name -> bus_rep s names ->
  forall l1 l2, names = l1 ++ l2 ->
  lookup_loop buf (length l2) (Z.of_nat (length l1)) (set_bus_lock 1 s) =
    Ret (find_name (Z.of_nat (length l1)) l2 name) s.
Proof.
  intros Hb Hr l1 l2. revert l1. induction l2 as [|m l2 IH]; intros l1 E; cbn [lookup_loop length find_name].
  { unfold unlock_bus. mstep. unfold set_bus_lock. cbn. destruct Hr as [Hl _ _ _ _ _]. destruct s; cbn in *. by subst. }
  unfold service_at. mstep. cbn [services set_bus_lock]. rewrite Nat2Z.id.
  assert (Hsv : services s !! length l1 = Some (mk_service (slot_of m) (Z.of_nat (length l1)))).
  { rewrite (br_tab _ _ Hr), E. rewrite lookup_app_l by (rewrite length_imap, length_app; simpl; lia).
    rewrite list_lookup_imap, list_lookup_middle by done. done. }
  rewrite Hsv. cbn [bindr sv_name sv_port].
  assert (Hm : Forall (fun c => c <> 0) (take 31 m)).
  { apply Forall_take. pose proof (br_nz _ _ Hr) as Hnz. rewrite E in Hnz. by apply Forall_app in Hnz as [_ [? _]%Forall_cons]. }
  pose proof (match_name_spec buf name (take 31 m) (set_bus_lock 1 s) Hb Hm) as Hmatch.
  unfold slot_of. change 0 with (Z.of_nat 0) at 1. rewrite Hmatch; [|rewrite length_take; lia|done|lia|lia|done].
  cbn [bindr]. case_decide as Hd.
  - rewrite bool_decide_eq_true_2 by done. unfold unlock_bus. mstep.
    destruct Hr as [Hl _ _ _ _ _]. destruct s; cbn in *. by subst.
  - rewrite bool_decide_eq_false_2 by done. replace (Z.of_nat (length l1) + 1) with (Z.of_nat (length (l1 ++ [m])))
      by (rewrite length_app; simpl; lia). apply IH. by rewrite <- app_assoc.
Qed.

Lemma bus_lookup_spec s names buf name :
  bus_rep s names -> c_string buf name -> bus_lookup buf s = Ret (find_name 0 names name) s.
Proof.
  intros Hr Hb. unfold bus_lookup, lock_bus. mstep. rewrite (br_lock _ _ Hr). cbn [Z.eqb bindr].
  cbn [num_services set_bus_lock]. rewrite (br_num _ _ Hr), Nat2Z.id.
  exact (lookup_loop_spec buf name s names Hb Hr [] names eq_refl).
Qed.

Lemma find_name_snoc names m name : forall i, 0 <= i ->
  find_name i (names ++ [m]) name =
  if decide (find_name i names name = -1 /\ name = take 31 m) then i + Z.of_nat (length names)
  else find_name i names name.
Proof.
  induction names as [|n names IH]; intros i Hi; cbn [find_name app length].
  - rewrite Z.add_0_r. case_decide as E; [by rewrite decide_True|]. rewrite decide_False by tauto. done.
  - destruct (decide (name = take 31 n)) as [E|E]; [by destruct (decide (i = -1 /\ name = take 31 m)) as [[? _]|]; [lia|]|].
    rewrite IH by lia.
    destruct (decide (find_name (i + 1) names name = -1 /\ name = take 31 m)); [lia|done].
Qed.

Lemma find_name_long i names name : (31 < length name)%nat -> find_name i names name = -1.
Proof.
  intros Hl. revert i. induction names as [|m names IH]; intros i; cbn [find_name]; [done|].
  rewrite decide_False; [apply IH|]. intros ->. rewrite length_take in Hl. lia.
Qed.

(** C38: registering a new name of at most 31 characters returns the next
    port, that port is what the name is looked up to from then on, and no
    other name's port changes. *)
Theorem bus_register_lookup s names buf name :
  bus_rep s names -> c_string buf name -> (length name <= 31)%nat -> (length names < 32)%nat ->
  bus_lookup buf s = Ret (-1) s ->
  exists s', bus_register buf s = Ret (Z.of_nat (length names)) s' /\
    bus_rep s' (names ++ [name]) /\
    bus_lookup buf s' = Ret (Z.of_nat (length names)) s' /\
    forall buf2 name2, c_string buf2 name2 -> name2 <> name ->
      exists r, bus_lookup buf2 s = Ret r s /\ bus_lookup buf2 s' = Ret r s'.
Proof.
  intros Hr Hb Hlen Hroom Hnew. rewrite (bus_lookup_spec _ _ _ _ Hr Hb) in Hnew. injection Hnew as Hnew.
  pose proof (bus_register_spec s names buf name Hr Hb) as Hreg. rewrite decide_False in Hreg by lia.
  destruct Hreg as (s' & E & Hr'). exists s'. split; [done|]. split; [done|].
  assert (Ht : take 31 name = name) by (by apply take_ge). split.
  - rewrite (bus_lookup_spec _ _ _ _ Hr' Hb). rewrite find_name_snoc, decide_True by (try lia; by rewrite Ht). done.
  - intros buf2 name2 Hb2 Hne. exists (find_name 0 names name2). split; [by apply bus_lookup_spec|].
    rewrite (bus_lookup_spec _ _ _ _ Hr' Hb2). rewrite find_name_snoc, decide_False by (try lia; rewrite Ht; tauto). done.
Qed.

(** The limits of the registry.  The 33rd registration is refused with -1
    and changes nothing; and a name of 32 characters or more, though it can
    be registered, is never found, because only its first 31 are kept. *)
Theorem bus_limits s names buf name :
  bus_rep s names -> c_string buf name ->
  (length names = 32%nat -> bus_register buf s = Ret (-1) s) /\
  ((31 < length name)%nat -> bus_lookup buf s = Ret (-1) s /\
     forall p s', bus_register buf s = Ret p s' -> bus_lookup buf s' = Ret (-1) s').
Proof.
  intros Hr Hb. pose proof (bus_register_spec s names buf name Hr Hb) as Hreg. split.
  - intros Hn. by rewrite decide_True in Hreg.
  - intros Hl. split; [by rewrite (bus_lookup_spec _ _ _ _ Hr Hb), find_name_long|].
    intros p s' E. case_decide as Hd.
    + rewrite Hreg in E. injection E as <- <-. by rewrite (bus_lookup_spec _ _ _ _ Hr Hb), find_name_long.
    + destruct Hreg as (s1 & E1 & Hr1). rewrite E1 in E. injection E as <- <-.
      by rewrite (bus_lookup_spec _ _ _ _ Hr1 Hb), find_name_long.
Qed.

(** ** Witnesses *)

Lemma demo_name : c_string [107; 98; 100; 0] [107; 98; 100].
Proof. split; [repeat constructor; lia|]. exists []. reflexivity. Defined.

Lemma bus_register_lookup_witness :
  exists s', bus_register [107; 98; 100; 0] bus_boot = Ret 0 s' /\ bus_rep s' [[107; 98; 100]] /\
    bus_lookup [107; 98; 100; 0] s' = Ret 0 s'.
Proof.
  destruct (bus_register_lookup bus_boot [] [107; 98; 100; 0] [107; 98; 100]) as (s' & E & Hr & El & _).
  - exact bus_boot_rep.
  - exact demo_name.
  - simpl. lia.
  - simpl. lia.
  - reflexivity.
  - exists s'. split; [exact E|]. split; [exact Hr|exact El].
Defined.

Definition demo_long : list Z := replicate 40 120.

Lemma bus_limits_witness :
  exists s', bus_register (demo_long ++ [0]) bus_boot = Ret 0 s' /\
    bus_lookup (demo_long ++ [0]) s' = Ret (-1) s'.
Proof.
  assert (Hb : c_string (demo_long ++ [0]) demo_long).
  { split; [apply Forall_replicate; lia|]. exists []. reflexivity. }
  destruct (bus_limits bus_boot [] (demo_long ++ [0]) demo_long bus_boot_rep Hb) as [_ Hl].
  pose proof (bus_register_spec bus_boot [] (demo_long ++ [0]) demo_long bus_boot_rep Hb) as Hreg.
  rewrite decide_False in Hreg by discriminate. destruct Hreg as (s' & E & _).
  exists s'. split; [exact E|]. apply (proj2 (Hl ltac:(vm_compute; lia)) 0 s' E).
Defined.
