(* ===== verification/Printf.v ===== *)
(** * Formatted output (src/kernel/serial.c, src/kernel/console.c)

    serial.c and console.c each have a [write], [print_hex], [print_dec] and
    [printf] that differ only in the function that puts one character and in
    the hexadecimal digits.  They are modelled once, over any [putc], and
    shown to put the characters of a reference formatter. *)

From stdpp Require Import base gmap list fin_maps.
From Stdlib Require Import ZArith Lia.
From S2P Require Import Prelude.

(** Arguments of [printf]: a C string (or NULL) or an integer. *)
Inductive arg : Type :=
| AStr (s : option (list Z))
| AInt (n : Z).

(** ASCII *)
Definition ch_0 : Z := 48.
Definition ch_minus : Z := 45.
Definition ch_percent : Z := 37.
Definition null_text : list Z := [40; 110; 117; 108; 108; 41].   (* (null) *)

Section Printf.
Context {S : Type} (putc : Z -> M S unit).
(** The sixteen digits, and what an uninitialised buffer holds. *)
Context (hex : list Z) (junk : Z).

(** [while ( *str) putc( *str++)] on the bytes from [str] on. *)
Fixpoint write (str : list Z) : M S unit :=
  match str with
  | [] => mfault
  | c :: str' => if c =? 0 then mret tt else putc c ;;; write str'
  end.

(** [while (num > 0 && i >= 0) { buf[i--] = hex[num & 0xF]; num >>= 4; }] *)
Fixpoint hex_loop (fuel : nat) (num i : Z) (buf : list Z) : option (Z * list Z) :=
  match fuel with
  | O => None
  | Datatypes.S fuel' =>
      if (0 <? num) && (0 <=? i) then
        d ← hex !! Z.to_nat (Z.land num 0xF);
        hex_loop fuel' (Z.shiftr num 4) (i - 1) (<[Z.to_nat i := d]> buf)
      else Some (i, buf)
  end.

Definition print_hex (num : Z) : M S unit :=
  let buf := <[16%nat := 0]> (replicate 17 junk) in
  if num =? 0 then putc ch_0
  else
    r <- mopt (hex_loop 17 num 15 buf) ;;
    let '(i, buf) := r in
    write (drop (Z.to_nat (i + 1)) buf).

(** [while (num > 0 && i >= 0) { buf[i--] = '0' + (num % 10); num /= 10; }] *)
Fixpoint dec_loop (fuel : nat) (num i : Z) (buf : list Z) : option (Z * list Z) :=
  match fuel with
  | O => None
  | Datatypes.S fuel' =>
      if (0 <? num) && (0 <=? i) then
        dec_loop fuel' (Z.quot num 10) (i - 1) (<[Z.to_nat i := ch_0 + Z.rem num 10]> buf)
      else Some (i, buf)
  end.

(** [num] is a signed 64-bit integer; its negation wraps. *)
Definition print_dec (num : Z) : M S unit :=
  let buf := <[20%nat := 0]> (replicate 21 junk) in
  if num =? 0 then putc ch_0
  else
    let is_negative := num <? 0 in
    let num := if is_negative then i64 (- num) else num in
    r <- mopt (dec_loop 21 num 19 buf) ;;
    let '(i, buf) := r in
    if is_negative then
      if i <? 0 then mfault                       (* buf[-1] *)
      else write (drop (Z.to_nat (i - 1 + 1)) (<[Z.to_nat i := ch_minus]> buf))
    else write (drop (Z.to_nat (i + 1)) buf).

(** [va_arg]: asking for an argument of another kind, or for one too many, is
    undefined. *)
Definition va_str (args : list arg) : M S (option (list Z) * list arg) :=
  match args with AStr s :: args' => mret (s, args') | _ => mfault end.
Definition va_int (args : list arg) : M S (Z * list arg) :=
  match args with AInt n :: args' => mret (n, args') | _ => mfault end.

(** The [switch] of [printf]; the result is the remaining arguments. *)
Definition directive (d : Z) (args : list arg) : M S (list arg) :=
  if d =? 115 then                                         (* s *)
    r <- va_str args ;;
    match fst r with
    | Some s => write s ;;; mret (snd r)
    | None => write (null_text ++ [0]) ;;; mret (snd r)
    end
  else if d =? 120 then                                    (* x *)
    r <- va_int args ;;
    putc ch_0 ;;; putc 120 ;;; print_hex (u64 (fst r)) ;;; mret (snd r)
  else if d =? 100 then                                    (* d *)
    r <- va_int args ;;
    print_dec (i64 (fst r)) ;;; mret (snd r)
  else if d =? 99 then                                     (* c *)
    r <- va_int args ;;
    putc (u8 (fst r)) ;;; mret (snd r)
  else if d =? ch_percent then putc ch_percent ;;; mret args
  else putc ch_percent ;;; putc d ;;; mret args.

Fixpoint printf (fmt : list Z) (args : list arg) : M S unit :=
  match fmt with
  | [] => mfault
  | c :: fmt1 =>
      if c =? 0 then mret tt
      else if c =? ch_percent then
        match fmt1 with
        | [] => mfault
        | d :: fmt2 => args' <- directive d args ;; printf fmt2 args'
        end
      else putc c ;;; printf fmt1 args
  end.

(** Putting the characters of a list. *)
Fixpoint puts (l : list Z) : M S unit :=
  match l with
  | [] => mret tt
  | c :: l' => putc c ;;; puts l'
  end.

End Printf.

(** ** The reference formatter *)

Fixpoint digits_aux (fuel : nat) (b n : Z) (acc : list Z) : list Z :=
  match fuel with
  | O => acc
  | S fuel' => if n <=? 0 then acc else digits_aux fuel' b (n / b) (n mod b :: acc)
  end.

(** The digits of [n], most significant first. *)
Definition digits (b n : Z) : list Z := digits_aux 64 b n [].

Definition hex_text (hex : list Z) (n : Z) : list Z :=
  if n =? 0 then [ch_0] else (fun d => nth (Z.to_nat d) hex 0) <$> digits 16 n.

Definition dec_text (n : Z) : list Z :=
  if n =? 0 then [ch_0]
  else if n =? - 2 ^ 63 then [ch_minus]
  else (if n <? 0 then [ch_minus] else []) ++ ((fun d => ch_0 + d) <$> digits 10 (Z.abs n)).

(** The characters up to the terminator. *)
Fixpoint c_text (str : list Z) : option (list Z) :=
  match str with
  | [] => None
  | c :: str' => if c =? 0 then Some [] else l ← c_text str'; Some (c :: l)
  end.

Definition directive_text (hex : list Z) (d : Z) (args : list arg) : option (list Z * list arg) :=
  if d =? 115 then
    match args with
    | AStr (Some s) :: args' => t ← c_text s; Some (t, args')
    | AStr None :: args' => Some (null_text, args')
    | _ => None
    end
  else if d =? 120 then
    match args with AInt n :: args' => Some ([ch_0; 120] ++ hex_text hex (u64 n), args') | _ => None end
  else if d =? 100 then
    match args with AInt n :: args' => Some (dec_text (i64 n), args') | _ => None end
  else if d =? 99 then
    match args with AInt n :: args' => Some ([u8 n], args') | _ => None end
  else if d =? ch_percent then Some ([ch_percent], args)
  else Some ([ch_percent; d], args).

Fixpoint format (hex : list Z) (fmt : list Z) (args : list arg) : option (list Z) :=
  match fmt with
  | [] => None
  | c :: fmt1 =>
      if c =? 0 then Some []
      else if c =? ch_percent then
        match fmt1 with
        | [] => None
        | d :: fmt2 =>
            r ← directive_text hex d args;
            t ← format hex fmt2 (snd r);
            Some (fst r ++ t)
        end
      else t ← format hex fmt1 args; Some (c :: t)
  end.

(** ** Numbers and their digits *)

Definition parse (b : Z) (ds : list Z) : Z := fold_left (fun a d => a * b + d) ds 0.

Lemma digits_aux_app b fuel : forall n acc, digits_aux fuel b n acc = digits_aux fuel b n [] ++ acc.
Proof.
  induction fuel as [|fuel IH]; intros n acc; cbn [digits_aux]; [done|]. destruct (n <=? 0); [done|].
  rewrite IH, (IH _ [n mod b]), <- app_assoc. done.
Qed.

Lemma parse_snoc b l d : parse b (l ++ [d]) = parse b l * b + d.
Proof. unfold parse. by rewrite fold_left_app. Qed.

Lemma div_shrinks b n fuel : 2 <= b -> 0 < n < 2 ^ Z.of_nat (S fuel) -> 0 <= n / b < 2 ^ Z.of_nat fuel.
Proof.
  intros Hb Hn. rewrite Nat2Z.inj_succ, Z.pow_succ_r in Hn by lia. split; [apply Z.div_pos; lia|].
  apply Z.div_lt_upper_bound; [lia|]. assert (0 < 2 ^ Z.of_nat fuel) by lia. nia.
Qed.

Lemma parse_digits_aux b fuel : 2 <= b -> forall n, 0 <= n < 2 ^ Z.of_nat fuel ->
  parse b (digits_aux fuel b n []) = n.
Proof.
  intros Hb. induction fuel as [|fuel IH]; intros n Hn; cbn [digits_aux]; [unfold parse; simpl in *; lia|].
  destruct (Z.leb_spec n 0); [unfold parse; simpl; lia|].
  rewrite digits_aux_app, parse_snoc, IH by (apply div_shrinks; lia).
  rewrite Z.mul_comm. symmetry. apply Z.div_mod. lia.
Qed.

Lemma digits_aux_range b fuel : 2 <= b -> forall n d, d ∈ digits_aux fuel b n [] -> 0 <= d < b.
Proof.
  intros Hb. induction fuel as [|fuel IH]; intros n d; cbn [digits_aux]; [by intros ?%elem_of_nil|].
  destruct (n <=? 0); [by intros ?%elem_of_nil|]. rewrite digits_aux_app.
  intros [?|Hd%list_elem_of_singleton]%elem_of_app; [by eapply IH|]. subst d. apply Z.mod_pos_bound. lia.
Qed.

Lemma digits_parse b n : 2 <= b -> 0 <= n < two64 -> parse b (digits b n) = n.
Proof. intros Hb Hn. unfold digits. apply parse_digits_aux; [done|]. unfold two64 in Hn. done. Qed.

(** ** The digit loops *)

Lemma loop_room i num b : 2 <= b -> 0 < num < b ^ (i + 1) -> 0 <= i -> 0 <= num / b < b ^ i.
Proof.
  intros Hb Hn Hi. split; [apply Z.div_pos; lia|]. apply Z.div_lt_upper_bound; [lia|].
  rewrite Z.pow_add_r in Hn by lia. lia.
Qed.

Lemma room_index i num b : 2 <= b -> 0 < num < b ^ (i + 1) -> 0 <= i.
Proof. intros Hb Hn. destruct (Z_lt_le_dec i 0); [|done]. destruct (Z.eq_dec i (-1)) as [->|]; [simpl in Hn; lia|]. rewrite Z.pow_neg_r in Hn by lia. lia. Qed.

Lemma drop_put (buf : list Z) i c : 0 <= i -> (Z.to_nat i < length buf)%nat ->
  drop (Z.to_nat i) (<[Z.to_nat i := c]> buf) = c :: drop (Z.to_nat (i + 1)) buf.
Proof.
  intros Hi Hl. rewrite (drop_S _ c (Z.to_nat i)) by (by apply list_lookup_insert_eq).
  rewrite drop_insert_lt by lia. do 2 f_equal. lia.
Qed.

Lemma dec_loop_spec fuel f : forall num i buf acc,
  0 <= num -> num < 2 ^ Z.of_nat f -> num < 10 ^ (i + 1) -> -1 <= i -> (i < Z.of_nat fuel - 1) ->
  (Z.to_nat (i + 1) <= length buf)%nat -> drop (Z.to_nat (i + 1)) buf = acc ->
  exists i' buf', dec_loop fuel num i buf = Some (i', buf') /\ -1 <= i' <= i /\
    (i' = i \/ 10 ^ (i - i' - 1) <= num) /\ length buf' = length buf /\
    drop (Z.to_nat (i' + 1)) buf' = ((fun d => ch_0 + d) <$> digits_aux f 10 num []) ++ acc.
Proof.
  revert f. induction fuel as [|fuel IH]; intros f num i buf acc H0 Hf Hr Hi Hfu Hb Hacc; [lia|]. cbn [dec_loop].
  destruct (Z.ltb_spec 0 num) as [Hp|Hz]; cbn [andb].
  2:{ exists i, buf. split; [done|]. split; [lia|]. split; [by left|]. split; [done|].
      assert (num = 0) as -> by lia. rewrite Hacc. by destruct f. }
  pose proof (room_index i num 10 ltac:(lia) ltac:(lia)) as Hi0. destruct (Z.leb_spec 0 i); [|lia].
  destruct f as [|f]; [simpl in Hf; lia|].
  rewrite Z.quot_div_nonneg, Z.rem_mod_nonneg by lia.
  destruct (loop_room i num 10 ltac:(lia) ltac:(lia) Hi0) as [Hq1 Hq2].
  destruct (div_shrinks 10 num f ltac:(lia) ltac:(lia)) as [_ Hq3].
  destruct (IH f (num / 10) (i - 1) (<[Z.to_nat i := ch_0 + num mod 10]> buf) (ch_0 + num mod 10 :: acc))
    as (i' & buf' & E & Hi' & Hn' & Hl' & Hd); try lia.
  - by replace (i - 1 + 1) with i by lia.
  - rewrite length_insert. lia.
  - replace (i - 1 + 1) with i by lia. rewrite drop_put by lia. by rewrite Hacc.
  - exists i', buf'. split; [done|]. split; [lia|]. split; [|split; [by rewrite Hl', length_insert|]].
    + right. destruct Hn' as [->|Hn']; [replace (i - (i - 1) - 1) with 0 by lia; lia|].
      assert (i' < i - 1 \/ i' = i - 1) as [Hlt|Heq] by lia; [|rewrite Heq; replace (i - (i - 1) - 1) with 0 by lia; lia].
      replace (i - i' - 1) with (1 + (i - 1 - i' - 1)) by lia. rewrite Z.pow_add_r by lia. Z.div_mod_to_equations. lia.
    + rewrite Hd. cbn [digits_aux]. destruct (Z.leb_spec num 0); [lia|]. rewrite (digits_aux_app _ _ _ [num mod 10]), fmap_app, <- app_assoc. done.
Qed.

Lemma hex_loop_spec hex fuel f : length hex = 16%nat -> forall num i buf acc,
  0 <= num -> num < 2 ^ Z.of_nat f -> num < 16 ^ (i + 1) -> -1 <= i -> (i < Z.of_nat fuel - 1) ->
  (Z.to_nat (i + 1) <= length buf)%nat -> drop (Z.to_nat (i + 1)) buf = acc ->
  exists i' buf', hex_loop hex fuel num i buf = Some (i', buf') /\ -1 <= i' <= i /\
    drop (Z.to_nat (i' + 1)) buf' = ((fun d => nth (Z.to_nat d) hex 0) <$> digits_aux f 16 num []) ++ acc.
Proof.
  intros Hhex. revert f. induction fuel as [|fuel IH]; intros f num i buf acc H0 Hf Hr Hi Hfu Hb Hacc; [lia|]. cbn [hex_loop].
  destruct (Z.ltb_spec 0 num) as [Hp|Hz]; cbn [andb].
  2:{ exists i, buf. split; [done|]. split; [lia|]. assert (num = 0) as -> by lia. rewrite Hacc. by destruct f. }
  pose proof (room_index i num 16 ltac:(lia) ltac:(lia)) as Hi0. destruct (Z.leb_spec 0 i); [|lia].
  destruct f as [|f]; [simpl in Hf; lia|].
  assert (Hland : Z.land num 0xF = num mod 16) by (change 0xF with (Z.ones 4); by rewrite Z.land_ones).
  rewrite Hland, Z.shiftr_div_pow2 by lia. change (2 ^ 4) with 16.
  assert (Hm : 0 <= num mod 16 < 16) by (apply Z.mod_pos_bound; lia).
  destruct (lookup_lt_is_Some_2 hex (Z.to_nat (num mod 16))) as [c Hc]; [lia|]. rewrite Hc. cbn [base.mbind option_bind].
  destruct (loop_room i num 16 ltac:(lia) ltac:(lia) Hi0) as [Hq1 Hq2].
  destruct (div_shrinks 16 num f ltac:(lia) ltac:(lia)) as [_ Hq3].
  destruct (IH f (num / 16) (i - 1) (<[Z.to_nat i := c]> buf) (c :: acc)) as (i' & buf' & E & Hi' & Hd); try lia.
  - by replace (i - 1 + 1) with i by lia.
  - rewrite length_insert. lia.
  - replace (i - 1 + 1) with i by lia. rewrite drop_put by lia. by rewrite Hacc.
  - exists i', buf'. split; [done|]. split; [lia|]. rewrite Hd. cbn [digits_aux]. destruct (Z.leb_spec num 0); [lia|].
    rewrite (digits_aux_app _ _ _ [num mod 16]), fmap_app, <- app_assoc. cbn [fmap list_fmap app]. by rewrite (nth_lookup_Some hex _ 0 c Hc).
Qed.

Lemma c_text_zero l rest : Forall (fun c => c <> 0) l -> c_text (l ++ 0 :: rest) = Some l.
Proof.
  induction 1 as [|c l Hc _ IH]; [done|]. cbn [c_text app]. destruct (Z.eqb_spec c 0); [done|]. by rewrite IH.
Qed.

(** ** Signed 64-bit integers *)

Lemma i64_range n : - 2 ^ 63 <= i64 n < 2 ^ 63.
Proof.
  unfold i64, signed, two64. pose proof (Z.mod_pos_bound n 18446744073709551616 ltac:(lia)).
  change (18446744073709551616 / 2) with 9223372036854775808. change (2 ^ 63) with 9223372036854775808.
  destruct (Z.ltb_spec (n mod 18446744073709551616) 9223372036854775808); lia.
Qed.

Lemma i64_neg n : - 9223372036854775808 < n < 0 -> i64 (- n) = - n.
Proof.
  intros Hn. unfold i64, signed, two64. change (18446744073709551616 / 2) with 9223372036854775808.
  rewrite Z.mod_small by lia. destruct (Z.ltb_spec (- n) 9223372036854775808); lia.
Qed.

(** ** What the output functions put *)

Section PrintfFacts.
Context {S : Type} (putc : Z -> M S unit) (hex : list Z) (junk : Z).
Context (hex_len : length hex = 16%nat) (hex_nz : Forall (fun c => c <> 0) hex).
(** States in which a character can be put. *)
Context (P : S -> Prop) (putc_ok : forall c s, P s -> exists s', putc c s = Ret tt s' /\ P s').

Lemma puts_ok l : forall s, P s -> exists s', puts putc l s = Ret tt s' /\ P s'.
Proof.
  induction l as [|c l IH]; intros s Hs; cbn [puts]; [by exists s|].
  destruct (putc_ok c s Hs) as (s1 & E & Hs1). rewrite (mbind_Ret _ _ _ _ _ E). by apply IH.
Qed.

Lemma puts_app l1 l2 : forall s, P s -> exists s1, puts putc l1 s = Ret tt s1 /\ P s1 /\
  puts putc (l1 ++ l2) s = puts putc l2 s1.
Proof.
  induction l1 as [|c l1 IH]; intros s Hs; cbn [puts app]; [by exists s|].
  destruct (putc_ok c s Hs) as (s1 & E & Hs1). rewrite !(mbind_Ret _ _ _ _ _ E). by apply IH.
Qed.

Lemma puts_single c s : P s -> puts putc [c] s = putc c s.
Proof. intros Hs. destruct (putc_ok c s Hs) as (s1 & E & _). cbn [puts]. by rewrite (mbind_Ret _ _ _ _ _ E), E. Qed.

Lemma write_puts str : forall t s, P s -> c_text str = Some t -> write putc str s = puts putc t s.
Proof.
  induction str as [|c str IH]; intros t s Hs; cbn [c_text write]; [done|]. destruct (c =? 0); [by intros [= <-]|].
  destruct (c_text str) as [t'|] eqn:Et; [|done]. intros [= <-]. cbn [puts].
  destruct (putc_ok c s Hs) as (s1 & E & Hs1). rewrite !(mbind_Ret _ _ _ _ _ E). by apply IH.
Qed.

Lemma print_hex_puts n s : P s -> 0 <= n < two64 -> print_hex putc hex junk n s = puts putc (hex_text hex n) s.
Proof.
  intros Hs Hn. unfold print_hex, hex_text. destruct (Z.eqb_spec n 0) as [_|H0]; [symmetry; by apply puts_single|].
  destruct (hex_loop_spec hex 17 64 hex_len n 15 (<[16%nat := 0]> (replicate 17 junk)) [0]) as (i & buf & E & Hi & Hd);
    [lia|exact (proj2 Hn)|exact (proj2 Hn)|lia|lia|cbn; lia|done|].
  rewrite E. unfold mopt. rewrite (mbind_Ret _ _ _ _ _ eq_refl). apply write_puts; [done|].
  rewrite Hd. apply c_text_zero. apply Forall_fmap, Forall_forall. intros d Hdig. simpl.
  pose proof (digits_aux_range 16 64 ltac:(lia) n d Hdig) as Hr.
  destruct (lookup_lt_is_Some_2 hex (Z.to_nat d)) as [c Hc]; [lia|].
  rewrite (nth_lookup_Some hex _ 0 c Hc). by apply (Forall_lookup_1 _ _ _ _ hex_nz Hc).
Qed.

Lemma print_dec_puts n s : P s -> - 2 ^ 63 <= n < 2 ^ 63 -> print_dec putc junk n s = puts putc (dec_text n) s.
Proof using S putc junk P putc_ok.
  clear hex_len hex_nz. intros Hs Hn. unfold print_dec, dec_text. destruct (Z.eqb_spec n 0) as [_|H0]; [symmetry; by apply puts_single|].
  destruct (Z.eqb_spec n (- 2 ^ 63)) as [->|Hmin].
  { change (- 2 ^ 63 <? 0) with true. change (i64 (- - 2 ^ 63)) with (- 2 ^ 63).
    change (dec_loop 21 (- 2 ^ 63) 19 (<[20%nat := 0]> (replicate 21 junk))) with (Some (19, <[20%nat := 0]> (replicate 21 junk))).
    cbv zeta. unfold mbind at 1. cbn [mopt bindr]. by apply write_puts. }
  change (2 ^ 63) with 9223372036854775808 in *. set (m := if n <? 0 then i64 (- n) else n).
  assert (Hm : m = Z.abs n /\ 0 < Z.abs n < 9223372036854775808).
  { unfold m. destruct (Z.ltb_spec n 0); [rewrite i64_neg by lia; lia|lia]. }
  destruct Hm as [Hm Habs].
  destruct (dec_loop_spec 21 64 m 19 (<[20%nat := 0]> (replicate 21 junk)) [0]) as (i & buf & E & Hi & Hlt & Hlen & Hd);
    [lia|change (2 ^ Z.of_nat 64) with 18446744073709551616; lia|change (10 ^ (19 + 1)) with 100000000000000000000; lia|lia|lia|cbn; lia|done|].
  cbv zeta. fold m. unfold mbind at 1. rewrite E. cbn [mopt bindr]. rewrite Hm in Hd. fold (digits 10 (Z.abs n)) in Hd.
  assert (Hnz : Forall (fun c => c <> 0) ((fun d => ch_0 + d) <$> digits 10 (Z.abs n))).
  { apply Forall_fmap, Forall_forall. intros d Hdig. simpl. pose proof (digits_aux_range 10 64 ltac:(lia) _ d Hdig). unfold ch_0. lia. }
  destruct (n <? 0) eqn:Eneg; cbv iota zeta.
  - assert (Hi0 : 0 <= i).
    { destruct (Z.eq_dec i (-1)) as [Ei|]; [|lia]. destruct Hlt as [|Hlt]; [lia|]. rewrite Ei in Hlt. change (10 ^ (19 - -1 - 1)) with 10000000000000000000 in Hlt. lia. }
    destruct (Z.ltb_spec i 0); [lia|]. apply write_puts; [done|].
    replace (i - 1 + 1) with i by lia. rewrite drop_put by (rewrite ?Hlen; cbn; lia). rewrite Hd.
    change (ch_minus :: ?l ++ [0]) with ((ch_minus :: l) ++ [0]). apply c_text_zero. by constructor.
  - apply write_puts; [done|]. rewrite Hd. by apply c_text_zero.
Qed.

Lemma directive_puts d args t args' s :
  P s -> directive_text hex d args = Some (t, args') ->
  exists s', directive putc hex junk d args s = Ret args' s' /\ puts putc t s = Ret tt s' /\ P s'.
Proof.
  intros Hs. unfold directive_text, directive.
  assert (Hputs : forall m l (r : list arg), m s = puts putc l s -> exists s', (m ;;; mret r) s = Ret r s' /\
    puts putc l s = Ret tt s' /\ P s').
  { intros m l r Em. destruct (puts_ok l s Hs) as (s' & E & Hs'). exists s'. unfold mbind. rewrite Em, E. done. }
  destruct (d =? 115).
  { destruct args as [|[[str|]|] args]; try done; unfold va_str, mbind, mret; cbn [bindr fst snd].
    - destruct (c_text str) as [t'|] eqn:Et; [|done]. intros [= <- <-]. apply Hputs. by apply write_puts.
    - intros [= <- <-]. apply Hputs. by apply write_puts. }
  destruct (d =? 120).
  { destruct args as [|[|n] args]; try done. intros [= <- <-]. unfold va_int, mret. rewrite (mbind_Ret _ _ _ _ _ eq_refl). cbn [fst snd].
    destruct (putc_ok ch_0 s Hs) as (s1 & E1 & Hs1). rewrite (mbind_Ret _ _ _ _ _ E1).
    destruct (putc_ok 120 s1 Hs1) as (s2 & E2 & Hs2). rewrite (mbind_Ret _ _ _ _ _ E2).
    destruct (puts_ok (hex_text hex (u64 n)) s2 Hs2) as (s3 & E3 & Hs3). exists s3.
    unfold mbind at 1. rewrite print_hex_puts by (try done; apply u64_range). rewrite E3. split; [done|]. split; [|done].
    change (ch_0 :: 120 :: ?l) with ([ch_0; 120] ++ l). cbn [app puts]. rewrite (mbind_Ret _ _ _ _ _ E1), (mbind_Ret _ _ _ _ _ E2). done. }
  destruct (d =? 100).
  { destruct args as [|[|n] args]; try done. intros [= <- <-]. unfold va_int, mret. rewrite (mbind_Ret _ _ _ _ _ eq_refl). cbn [fst snd].
    apply Hputs. apply print_dec_puts; [done|]. apply i64_range. }
  destruct (d =? 99).
  { destruct args as [|[|n] args]; try done. intros [= <- <-]. unfold va_int, mret. rewrite (mbind_Ret _ _ _ _ _ eq_refl). cbn [fst snd].
    apply Hputs. by rewrite puts_single. }
  destruct (d =? ch_percent); intros [= <- <-].
  - apply Hputs. by rewrite puts_single.
  - destruct (putc_ok ch_percent s Hs) as (s1 & E1 & Hs1). rewrite (mbind_Ret _ _ _ _ _ E1).
    destruct (putc_ok d s1 Hs1) as (s2 & E2 & Hs2). exists s2. unfold mbind. rewrite E2. split; [done|].
    cbn [puts]. rewrite (mbind_Ret _ _ _ _ _ E1). unfold mbind. by rewrite E2.
Qed.

(** [printf] puts exactly the formatted text. *)
Lemma printf_puts_aux n : forall fmt args t s, (length fmt <= n)%nat ->
  P s -> format hex fmt args = Some t ->
  exists s', printf putc hex junk fmt args s = Ret tt s' /\ puts putc t s = Ret tt s' /\ P s'.
Proof.
  induction n as [|n IH]; intros fmt args t s Hn Hs; (destruct fmt as [|c fmt]; [cbn; congruence|]); simpl in Hn; [lia|].
  cbn [format printf]. destruct (c =? 0); [intros [= <-]; by exists s|]. destruct (c =? ch_percent).
  - destruct fmt as [|d fmt]; [done|]. simpl in Hn. destruct (directive_text hex d args) as [[t1 args']|] eqn:Ed; [|done].
    cbn [base.mbind option_bind fst snd]. destruct (format hex fmt args') as [t2|] eqn:Ef; [|done]. intros [= <-].
    destruct (directive_puts d args t1 args' s Hs Ed) as (s1 & E1 & Ep1 & Hs1). rewrite (mbind_Ret _ _ _ _ _ E1).
    destruct (IH fmt args' t2 s1) as (s2 & E2 & Ep2 & Hs2); [lia|done|done|].
    destruct (puts_app t1 t2 s Hs) as (s1' & Ep1' & _ & Eapp). rewrite Ep1 in Ep1'. injection Ep1' as <-.
    exists s2. split; [done|]. split; [by rewrite Eapp|done].
  - destruct (format hex fmt args) as [t2|] eqn:Ef; [|done]. cbn [base.mbind option_bind]. intros [= <-].
    destruct (putc_ok c s Hs) as (s1 & E1 & Hs1). rewrite (mbind_Ret _ _ _ _ _ E1).
    destruct (IH fmt args t2 s1) as (s2 & E2 & Ep2 & Hs2); [lia|done|done|].
    exists s2. split; [done|]. split; [|done]. cbn [puts]. by rewrite (mbind_Ret _ _ _ _ _ E1).
Qed.

Lemma printf_puts fmt args t s :
  P s -> format hex fmt args = Some t ->
  exists s', printf putc hex junk fmt args s = Ret tt s' /\ puts putc t s = Ret tt s' /\ P s'.
Proof. by apply (printf_puts_aux (length fmt)). Qed.
End PrintfFacts.
