(* ===== verification/Serial.v ===== *)
(** * Serial port (src/kernel/serial.c)

    The UART is hardware: what its line status and scratch registers read is
    a parameter, a function of the port writes so far and of the number of
    polls since the last one.  Waiting for the transmitter is a loop with
    fuel; the theorems say how much is enough, and that without a ready
    transmitter no amount is. *)

From stdpp Require Import base gmap list fin_maps.
From Stdlib Require Import ZArith Lia.
From S2P Require Import Prelude Printf.

Definition COM1 : Z := 0x3F8.

(** The port writes so far, the newest first, and the number of reads of the
    line status register since the last write. *)
Record uart := mkUart { u_out : list (Z * Z); u_polls : nat }.

Definition serial_hex : list Z :=
  [48; 49; 50; 51; 52; 53; 54; 55; 56; 57; 97; 98; 99; 100; 101; 102].   (* 0123456789abcdef *)

Section Serial.
(** The line status register and the scratch register, and the bytes of an
    uninitialised stack buffer. *)
Context (lsr : list (Z * Z) -> nat -> Z) (scratch : list (Z * Z) -> Z) (junk : Z).

Definition outb (port val : Z) : M uart unit :=
  mset (fun s => mkUart ((port, val) :: u_out s) 0).

Definition inb (port : Z) : M uart Z := fun s =>
  if port =? COM1 + 5 then Ret (lsr (u_out s) (u_polls s)) (mkUart (u_out s) (u_polls s + 1))
  else if port =? COM1 + 7 then Ret (scratch (u_out s)) s
  else Ret 0xFF s.

Definition serial_init : M uart unit :=
  outb (COM1 + 1) 0x00 ;;;
  outb (COM1 + 3) 0x80 ;;;
  outb (COM1 + 0) 0x01 ;;;
  outb (COM1 + 1) 0x00 ;;;
  outb (COM1 + 3) 0x03 ;;;
  outb (COM1 + 2) 0xC7 ;;;
  outb (COM1 + 4) 0x0B ;;;
  outb (COM1 + 7) 0xAE ;;;
  v <- inb (COM1 + 7) ;;
  if negb (v =? 0xAE) then mret tt
  else outb (COM1 + 4) 0x0F.

Definition serial_tx_empty : M uart Z :=
  v <- inb (COM1 + 5) ;; mret (Z.land v 0x20).

(** [while (!serial_tx_empty());] *)
Fixpoint wait_tx (fuel : nat) : M uart unit :=
  match fuel with
  | O => mhang
  | Datatypes.S fuel' => e <- serial_tx_empty ;; if e =? 0 then wait_tx fuel' else mret tt
  end.

Definition serial_putc (fuel : nat) (c : Z) : M uart unit :=
  wait_tx fuel ;;;
  (if c =? 10 then outb COM1 13 ;;; wait_tx fuel else mret tt) ;;;
  outb COM1 (u8 c).

Definition serial_write (fuel : nat) : list Z -> M uart unit := write (serial_putc fuel).
Definition serial_print_hex (fuel : nat) : Z -> M uart unit := print_hex (serial_putc fuel) serial_hex junk.
Definition serial_print_dec (fuel : nat) : Z -> M uart unit := print_dec (serial_putc fuel) junk.
Definition serial_printf (fuel : nat) : list Z -> list arg -> M uart unit :=
  printf (serial_putc fuel) serial_hex junk.

End Serial.

(** What reaches the line for a text: a newline becomes CR LF. *)
Fixpoint crlf (t : list Z) : list Z :=
  match t with
  | [] => []
  | c :: t' => (if c =? 10 then [13; 10] else [u8 c]) ++ crlf t'
  end.

(** The bytes sent, the oldest first, are added to the trace. *)
Definition sent (t : list Z) (s s' : uart) : Prop :=
  u_out s' = reverse ((fun b => (COM1, b)) <$> t) ++ u_out s.

(** The transmitter is ready again after fewer than [n] polls. *)
Definition ready_within (lsr : list (Z * Z) -> nat -> Z) (n : nat) : Prop :=
  forall out p, exists k, (k < n)%nat /\ Z.land (lsr out (p + k)%nat) 0x20 <> 0.

(** Reading a printed number back. *)
Definition hex_value (c : Z) : Z := if c <? 58 then c - 48 else c - 87.
Definition read_hex (t : list Z) : Z := parse 16 (hex_value <$> t).
Definition read_dec (t : list Z) : Z :=
  match t with
  | c :: t' => if c =? ch_minus then - parse 10 ((fun c => c - ch_0) <$> t')
               else parse 10 ((fun c => c - ch_0) <$> t)
  | [] => 0
  end.

Lemma sent_app t1 t2 s s1 s2 : sent t1 s s1 -> sent t2 s1 s2 -> sent (t1 ++ t2) s s2.
Proof. unfold sent. intros H1 H2. rewrite H2, H1, fmap_app, reverse_app, <- app_assoc. done. Qed.

Lemma crlf_app t1 t2 : crlf (t1 ++ t2) = crlf t1 ++ crlf t2.
Proof. induction t1 as [|c t1 IH]; [done|]. cbn [crlf app]. by rewrite IH, <- app_assoc. Qed.

Section SerialFacts.
Context (lsr : list (Z * Z) -> nat -> Z) (scratch : list (Z * Z) -> Z) (junk : Z).

(** One round of the polling loop. *)
Lemma wait_tx_step fuel s :
  wait_tx lsr scratch (S fuel) s =
  if Z.land (lsr (u_out s) (u_polls s)) 0x20 =? 0
  then wait_tx lsr scratch fuel (mkUart (u_out s) (u_polls s + 1))
  else Ret tt (mkUart (u_out s) (u_polls s + 1)).
Proof.
  cbn [wait_tx]. unfold serial_tx_empty, inb, mbind, mret. cbn [bindr Z.eqb Pos.eqb].
  change (COM1 + 5 =? COM1 + 5) with true. cbn [bindr]. by destruct (_ =? 0).
Qed.

Lemma wait_tx_ready k : forall fuel s, (k < fuel)%nat ->
  Z.land (lsr (u_out s) (u_polls s + k)%nat) 0x20 <> 0 ->
  exists s', wait_tx lsr scratch fuel s = Ret tt s' /\ u_out s' = u_out s.
Proof.
  induction k as [|k IH]; intros [|fuel] s Hk Hr; try lia; rewrite wait_tx_step.
  - rewrite Nat.add_0_r in Hr. destruct (Z.eqb_spec (Z.land (lsr (u_out s) (u_polls s)) 32) 0); [done|]. eauto.
  - destruct (_ =? 0); [|eauto]. apply (IH fuel (mkUart (u_out s) (u_polls s + 1))); [lia|].
    cbn [u_out u_polls]. by replace (u_polls s + 1 + k)%nat with (u_polls s + S k)%nat by lia.
Qed.

Lemma wait_tx_stuck fuel : forall s, (forall n, Z.land (lsr (u_out s) n) 0x20 = 0) -> wait_tx lsr scratch fuel s = Hang.
Proof.
  induction fuel as [|fuel IH]; intros s Hn; [done|]. rewrite wait_tx_step, Hn. by apply IH.
Qed.

Context (n : nat) (ready : ready_within lsr n) (fuel : nat) (enough : (n <= fuel)%nat).

Lemma wait_tx_done s : exists s', wait_tx lsr scratch fuel s = Ret tt s' /\ u_out s' = u_out s.
Proof. destruct (ready (u_out s) (u_polls s)) as (k & Hk & Hr). apply (wait_tx_ready k); [lia|done]. Qed.

Lemma serial_putc_sent c s : exists s', serial_putc lsr scratch fuel c s = Ret tt s' /\ sent (crlf [c]) s s'.
Proof.
  unfold serial_putc. destruct (wait_tx_done s) as (s1 & E1 & H1). rewrite (mbind_Ret _ _ _ _ _ E1).
  cbn [crlf app]. destruct (Z.eqb_spec c 10) as [->|Hc].
  - destruct (wait_tx_done (mkUart ((COM1, 13) :: u_out s1) 0)) as (s3 & E3 & H3).
    erewrite mbind_Ret; [|by erewrite mbind_Ret; [exact E3|]]. eexists. split; [done|].
    unfold sent. cbn [u_out]. rewrite H3. cbn [u_out]. by rewrite H1.
  - unfold mbind, mret. cbn [bindr]. eexists. split; [done|]. unfold sent. cbn. by rewrite H1.
Qed.

Lemma puts_sent t : forall s s', puts (serial_putc lsr scratch fuel) t s = Ret tt s' -> sent (crlf t) s s'.
Proof.
  induction t as [|c t IH]; intros s s'; cbn [puts]; [by intros [= <-]|].
  destruct (serial_putc_sent c s) as (s1 & E & Hs1). rewrite (mbind_Ret _ _ _ _ _ E). intros E'.
  change (c :: t) with ([c] ++ t). rewrite crlf_app. eapply sent_app; [done|by apply IH].
Qed.

Lemma serial_putc_any c s : True -> exists s', serial_putc lsr scratch fuel c s = Ret tt s' /\ True.
Proof. intros _. destruct (serial_putc_sent c s) as (s' & E & _). eauto. Qed.

Lemma serial_puts t s : exists s', puts (serial_putc lsr scratch fuel) t s = Ret tt s' /\ sent (crlf t) s s'.
Proof.
  destruct (puts_ok (serial_putc lsr scratch fuel) (fun _ => True) serial_putc_any t s I) as (s' & E & _).
  exists s'. split; [done|]. by apply puts_sent.
Qed.
End SerialFacts.

Lemma serial_hex_nz : Forall (fun c => c <> 0) serial_hex.
Proof. by repeat (constructor; [lia|]). Qed.

(** What [serial_print_dec] sends is read back as the number. *)
Lemma read_dec_text n : - 2 ^ 63 < n < 2 ^ 63 -> read_dec (dec_text n) = n.
Proof.
  change (2 ^ 63) with 9223372036854775808. intros Hn. unfold dec_text. destruct (Z.eqb_spec n 0) as [->|H0]; [done|].
  destruct (Z.eqb_spec n (- 2 ^ 63)) as [E|_]; [change (2 ^ 63) with 9223372036854775808 in E; lia|].
  assert (Hp : parse 10 ((fun c => c - ch_0) <$> ((fun d => ch_0 + d) <$> digits 10 (Z.abs n))) = Z.abs n).
  { rewrite <- list_fmap_compose, (list_fmap_ext _ id), list_fmap_id by (intros; unfold compose, id; lia).
    apply digits_parse; unfold two64; lia. }
  destruct (Z.ltb_spec n 0); cbn [app read_dec].
  - change (ch_minus =? ch_minus) with true. cbv iota. rewrite Hp. lia.
  - destruct (digits 10 (Z.abs n)) as [|d ds] eqn:Ed; [unfold parse in Hp; simpl in Hp; lia|].
    assert (Hd : 0 <= d < 10) by (apply (digits_aux_range 10 64 ltac:(lia) (Z.abs n)); unfold digits in Ed; rewrite Ed; left).
    cbn [fmap list_fmap read_dec] in *. destruct (Z.eqb_spec (ch_0 + d) ch_minus) as [E|_]; [unfold ch_0, ch_minus in E; lia|].
    rewrite Hp. lia.
Qed.

Lemma read_hex_text n : 0 <= n < two64 -> read_hex (hex_text serial_hex n) = n.
Proof.
  intros Hn. unfold hex_text, read_hex. destruct (Z.eqb_spec n 0) as [->|H0]; [done|].
  rewrite <- (digits_parse 16 n) at 2 by lia. f_equal. rewrite <- list_fmap_compose.
  rewrite <- (list_fmap_id (digits 16 n)) at 2. apply Forall_fmap_ext_1, Forall_forall. intros d Hd%(digits_aux_range 16); [|lia].
  assert (Hc : forall d, (d < 16)%nat -> hex_value (nth d serial_hex 0) = Z.of_nat d).
  { intros k Hk. do 16 (destruct k as [|k]; [done|]). lia. }
  unfold compose, id. rewrite Hc by lia. lia.
Qed.

(** Digits and signs are sent as they are. *)
Lemma plain_crlf t : Forall (fun c => 10 < c < 256) t -> crlf t = t.
Proof.
  induction 1 as [|c t Hc _ IH]; [done|]. cbn [crlf]. rewrite IH. destruct (Z.eqb_spec c 10); [lia|].
  unfold u8, two8. by rewrite Z.mod_small by lia.
Qed.

Lemma dec_text_plain n : Forall (fun c => 10 < c < 256) (dec_text n).
Proof.
  unfold dec_text, ch_0, ch_minus. repeat case_match; rewrite ?Forall_app, ?Forall_fmap; repeat constructor; try lia;
    apply Forall_forall; intros d Hd%(digits_aux_range 10); unfold compose; lia.
Qed.

Lemma hex_text_plain n : Forall (fun c => 10 < c < 256) (hex_text serial_hex n).
Proof.
  unfold hex_text, ch_0. case_match; [repeat constructor; lia|]. apply Forall_fmap, Forall_forall.
  intros d Hd%(digits_aux_range 16); [|lia]. unfold compose.
  assert (Hall : Forall (fun c => 10 < c < 256) serial_hex) by (repeat constructor; lia).
  destruct (lookup_lt_is_Some_2 serial_hex (Z.to_nat d)) as [c Hc]; [cbn; lia|].
  rewrite (nth_lookup_Some _ _ 0 c Hc). by apply (Forall_lookup_1 _ _ _ _ Hall Hc).
Qed.

(** ** Properties *)

(** C36: [serial_printf] returns, and sends exactly the formatted text with
    every newline as CR LF, provided the transmitter is ready again within [n]
    polls and the waiting loops may poll that often. *)
Theorem serial_printf_correct lsr scratch junk n fuel fmt args t s :
  ready_within lsr n -> (n <= fuel)%nat -> format serial_hex fmt args = Some t ->
  exists s', serial_printf lsr scratch junk fuel fmt args s = Ret tt s' /\ sent (crlf t) s s'.
Proof.
  intros Hr Hf Et.
  destruct (printf_puts (serial_putc lsr scratch fuel) serial_hex junk eq_refl serial_hex_nz (fun _ => True)
    (serial_putc_any lsr scratch n Hr fuel Hf) fmt args t s I Et) as (s' & E & Ep & _).
  exists s'. split; [done|]. by apply (puts_sent lsr scratch n Hr fuel Hf).
Qed.

(** A transmitter that is busy for two polls after each write. *)
Definition demo_lsr (out : list (Z * Z)) (polls : nat) : Z := if (polls <? 2)%nat then 0x40 else 0x60.

Lemma demo_ready : ready_within demo_lsr 3.
Proof.
  intros out p. exists 2%nat. split; [lia|]. unfold demo_lsr. destruct (Nat.ltb_spec (p + 2) 2); [lia|done].
Qed.

(** "%d: %s\n" with -17 and "ok": the line receives "-17: ok\r\n". *)
Lemma serial_printf_correct_witness :
  exists s', serial_printf demo_lsr (fun _ => 0) 0xAA 3 [37; 100; 58; 32; 37; 115; 10; 0]
               [AInt (-17); AStr (Some [111; 107; 0])] (mkUart [] 0) = Ret tt s' /\
             sent [45; 49; 55; 58; 32; 111; 107; 13; 10] (mkUart [] 0) s'.
Proof.
  apply (serial_printf_correct demo_lsr (fun _ => 0) 0xAA 3 3 [37; 100; 58; 32; 37; 115; 10; 0]
    [AInt (-17); AStr (Some [111; 107; 0])] [45; 49; 55; 58; 32; 111; 107; 10]);
    [apply demo_ready|lia|vm_compute; reflexivity].
Defined.

(** A decimal or hexadecimal number that has been sent is read back from
    the line as the same number; the one exception is the least 64-bit
    integer, whose negation is itself: a lone minus sign is sent for it. *)
Theorem serial_numbers_roundtrip lsr scratch junk n fuel s :
  ready_within lsr n -> (n <= fuel)%nat ->
  (forall d, - 2 ^ 63 < d < 2 ^ 63 -> exists s' t,
     serial_print_dec lsr scratch junk fuel d s = Ret tt s' /\ sent t s s' /\ read_dec t = d) /\
  (forall x, 0 <= x < two64 -> exists s' t,
     serial_print_hex lsr scratch junk fuel x s = Ret tt s' /\ sent t s s' /\ read_hex t = x) /\
  (exists s', serial_print_dec lsr scratch junk fuel (- 2 ^ 63) s = Ret tt s' /\ sent [ch_minus] s s').
Proof.
  intros Hr Hf. pose proof (serial_putc_any lsr scratch n Hr fuel Hf) as Hok.
  pose proof (serial_puts lsr scratch n Hr fuel Hf) as Hputs.
  split; [|split].
  - intros d Hd. destruct (Hputs (dec_text d) s) as (s' & E & Hs'). exists s', (dec_text d).
    unfold serial_print_dec. rewrite (print_dec_puts _ junk (fun _ => True) Hok) by (done || (change (2 ^ 63) with 9223372036854775808 in *; lia)).
    rewrite plain_crlf in Hs' by apply dec_text_plain. auto using read_dec_text.
  - intros x Hx. destruct (Hputs (hex_text serial_hex x) s) as (s' & E & Hs'). exists s', (hex_text serial_hex x).
    unfold serial_print_hex. rewrite (print_hex_puts _ serial_hex junk eq_refl serial_hex_nz (fun _ => True) Hok) by done.
    rewrite plain_crlf in Hs' by apply hex_text_plain. auto using read_hex_text.
  - destruct (Hputs (dec_text (- 2 ^ 63)) s) as (s' & E & Hs'). exists s'.
    unfold serial_print_dec. rewrite (print_dec_puts _ junk (fun _ => True) Hok) by (done || (change (2 ^ 63) with 9223372036854775808 in *; lia)). done.
Qed.

Lemma serial_numbers_roundtrip_witness :
  exists s' t, serial_print_dec demo_lsr (fun _ => 0) 0xAA 3 (-90210) (mkUart [] 0) = Ret tt s' /\
    sent t (mkUart [] 0) s' /\ read_dec t = -90210.
Proof. apply (serial_numbers_roundtrip demo_lsr (fun _ => 0) 0xAA 3 3 (mkUart [] 0) demo_ready (le_n 3)). lia. Defined.

(** [serial_putc] has no timeout: with a transmitter that never becomes
    ready it does not return, however often it polls. *)
Theorem serial_putc_no_timeout lsr scratch fuel c s :
  (forall k, Z.land (lsr (u_out s) k) 0x20 = 0) -> serial_putc lsr scratch fuel c s = Hang.
Proof. intros Hn. unfold serial_putc, mbind. by rewrite (wait_tx_stuck lsr scratch fuel s Hn). Qed.
