(* ===== verification/Console.v ===== *)
(** * Framebuffer console (src/kernel/console.c)

    The framebuffer is a byte memory, addressed by the offset from [fb_addr];
    an access outside its [pitch * height] bytes faults.  The definitions
    follow the code down to the 64-bit wrap-around of its index arithmetic.
    The specification is a text terminal: a grid of characters and a cursor. *)

From stdpp Require Import base gmap list fin_maps.
From Stdlib Require Import ZArith Lia.
From S2P Require Import Prelude Mem Printf.

Definition FONT_WIDTH : Z := 8.
Definition FONT_HEIGHT : Z := 16.

(** The sixteen rows of a glyph, the top row in the highest byte. *)
Definition glyph_rows (bits : Z) : list Z :=
  (fun r => Z.land (Z.shiftr bits (8 * (15 - r))) 0xFF) <$> seqZ 0 16.

(** The glyphs of the characters 32 to 95, and of 96 to 126. *)
Definition font_capitals : list Z :=
  [ 0x00000000000000000000000000000000
  ; 0x0000183C3C3C18181800181800000000
  ; 0x00666666240000000000000000000000
  ; 0x0000006C6CFE6C6C6CFE6C6C00000000
  ; 0x18187CC6C2C07C060686C67C18180000
  ; 0x00000000C2C60C183060C68600000000
  ; 0x0000386C383076DCCCCCCC7600000000
  ; 0x00303030600000000000000000000000
  ; 0x00000C18303030303030180C00000000
  ; 0x000030180C0C0C0C0C0C183000000000
  ; 0x0000000000663CFF3C66000000000000
  ; 0x000000000018187E1818000000000000
  ; 0x00000000000000000018183000000000
  ; 0x00000000000000FE0000000000000000
  ; 0x00000000000000000000181800000000
  ; 0x0000000002060C183060C08000000000
  ; 0x00003C66C3C3DBDBC3C3663C00000000
  ; 0x00001838781818181818187E00000000
  ; 0x00007CC6060C183060C0C6FE00000000
  ; 0x00007CC606063C060606C67C00000000
  ; 0x00000C1C3C6CCCFE0C0C0C1E00000000
  ; 0x0000FEC0C0C0FC060606C67C00000000
  ; 0x00003860C0C0FCC6C6C6C67C00000000
  ; 0x0000FEC606060C183030303000000000
  ; 0x00007CC6C6C67CC6C6C6C67C00000000
  ; 0x00007CC6C6C67E0606060C7800000000
  ; 0x00000000181800000018180000000000
  ; 0x00000000181800000018183000000000
  ; 0x000000060C18306030180C0600000000
  ; 0x00000000007E00007E00000000000000
  ; 0x0000006030180C060C18306000000000
  ; 0x00007CC6C60C18181800181800000000
  ; 0x00007CC6C6DEDEDEDCC0603C00000000
  ; 0x000010386CC6C6FEC6C6C6C600000000
  ; 0x0000FC6666667C66666666FC00000000
  ; 0x00003C66C2C0C0C0C0C2663C00000000
  ; 0x0000F86C6666666666666CF800000000
  ; 0x0000FE6662687868606266FE00000000
  ; 0x0000FE6662687868606060F000000000
  ; 0x00003C66C2C0C0DEC6C6663A00000000
  ; 0x0000C6C6C6C6FEC6C6C6C6C600000000
  ; 0x00003C18181818181818183C00000000
  ; 0x00001E0C0C0C0C0CCCCCCC7800000000
  ; 0x0000E666666C78786C6666E600000000
  ; 0x0000F06060606060606266FE00000000
  ; 0x0000C3E7FFFFDBC3C3C3C3C300000000
  ; 0x0000C6E6F6FEDECEC6C6C6C600000000
  ; 0x00007CC6C6C6C6C6C6C6C67C00000000
  ; 0x0000FC6666667C60606060F000000000
  ; 0x00007CC6C6C6C6C6C6D6DE7C0C0E0000
  ; 0x0000FC6666667C6C666666E600000000
  ; 0x00007CC6C660380C06C6C67C00000000
  ; 0x0000FFDB991818181818183C00000000
  ; 0x0000C6C6C6C6C6C6C6C6C67C00000000
  ; 0x0000C3C3C3C3C3C3C3663C1800000000
  ; 0x0000C3C3C3C3C3DBDBFF666600000000
  ; 0x0000C3C3663C18183C66C3C300000000
  ; 0x0000C3C3C3663C181818183C00000000
  ; 0x0000FFC3860C183060C1C3FF00000000
  ; 0x00003C30303030303030303C00000000
  ; 0x00000080C0E070381C0E060200000000
  ; 0x00003C0C0C0C0C0C0C0C0C3C00000000
  ; 0x10386CC6000000000000000000000000
  ; 0x00000000000000000000000000FF0000 ].
Definition font_small : list Z :=
  [ 0x30301800000000000000000000000000
  ; 0x0000000000780C7CCCCCCC7600000000
  ; 0x0000E06060786C666666667C00000000
  ; 0x00000000007CC6C0C0C0C67C00000000
  ; 0x00001C0C0C3C6CCCCCCCCC7600000000
  ; 0x00000000007CC6FEC0C0C67C00000000
  ; 0x0000386C6460F060606060F000000000
  ; 0x000000000076CCCCCCCCCC7C0CCC7800
  ; 0x0000E060606C7666666666E600000000
  ; 0x00001818003818181818183C00000000
  ; 0x00000606000E06060606060666663C00
  ; 0x0000E06060666C78786C66E600000000
  ; 0x00003818181818181818183C00000000
  ; 0x0000000000E6FFDBDBDBDBDB00000000
  ; 0x0000000000DC66666666666600000000
  ; 0x00000000007CC6C6C6C6C67C00000000
  ; 0x0000000000DC66666666667C6060F000
  ; 0x000000000076CCCCCCCCCC7C0C0C1E00
  ; 0x0000000000DC7666606060F000000000
  ; 0x00000000007CC660380CC67C00000000
  ; 0x0000103030FC30303030361C00000000
  ; 0x0000000000CCCCCCCCCCCC7600000000
  ; 0x0000000000C3C3C3C3663C1800000000
  ; 0x0000000000C3C3C3DBDBFF6600000000
  ; 0x0000000000C3663C183C66C300000000
  ; 0x0000000000C6C6C6C6C6C67E060CF800
  ; 0x0000000000FECC183060C6FE00000000
  ; 0x00000E18181870181818180E00000000
  ; 0x00001818181818181818181800000000
  ; 0x0000701818180E181818187000000000
  ; 0x000076DC000000000000000000000000 ].
Definition font : list (list Z) := glyph_rows <$> (font_capitals ++ font_small).

(** The fields of [struct limine_framebuffer] that are used. *)
Record limine_framebuffer := mkFb { lf_width : Z; lf_height : Z; lf_pitch : Z }.

(** The file's variables; [fb_mem] is what [fb_addr] points to. *)
Record con := mkCon {
  fb_width : Z;
  fb_height : Z;
  fb_pitch : Z;
  fb_pixels_per_line : Z;
  cursor_x : Z;
  cursor_y : Z;
  fb_mem : mem }.

Definition set_cursor (x y : Z) (s : con) : con :=
  mkCon (fb_width s) (fb_height s) (fb_pitch s) (fb_pixels_per_line s) x y (fb_mem s).
Definition set_mem (m : mem) (s : con) : con :=
  mkCon (fb_width s) (fb_height s) (fb_pitch s) (fb_pixels_per_line s) (cursor_x s) (cursor_y s) m.

(** Loads and stores of [n] bytes at an offset. *)
Definition fb_inside (s : con) (off n : Z) : bool :=
  (0 <=? off) && (off + n <=? fb_pitch s * fb_height s).
Definition fb_store (n : nat) (off v : Z) : M con unit := fun s =>
  if fb_inside s off (Z.of_nat n) then Ret tt (set_mem (wrn n (fb_mem s) off v) s) else Fault.
Definition fb_load (n : nat) (off : Z) : M con Z := fun s =>
  if fb_inside s off (Z.of_nat n) then Ret (rdn n (fb_mem s) off) s else Fault.

(** The body of the inner loop of [draw_char]. *)
Definition draw_pixel (line px py row fg bg col : Z) : M con unit :=
  let x := u64 (px + col) in
  let y := u64 (py + row) in
  w <- mget fb_width ;;
  h <- mget fb_height ;;
  if (w <=? x) || (h <=? y) then mret tt
  else
    let color := if truthy (Z.land line (Z.shiftr 0x80 col)) then fg else bg in
    ppl <- mget fb_pixels_per_line ;;
    fb_store 4 (4 * u64 (u64 (y * ppl) + x)) color.

Definition draw_row (glyph : list Z) (px py fg bg row : Z) : M con unit :=
  line <- mopt (glyph !! Z.to_nat row) ;;
  mfor (Z.to_nat FONT_WIDTH) 0 (draw_pixel line px py row fg bg).

Definition draw_char (c px py fg bg : Z) : M con unit :=
  let c := i8 c in
  let c := if (c <? 32) || (126 <? c) then 63 else c in
  glyph <- mopt (font !! Z.to_nat (c - 32)) ;;
  mfor (Z.to_nat FONT_HEIGHT) 0 (draw_row glyph px py fg bg).

Definition scroll : M con unit :=
  line_bytes <- mget fb_pitch ;;
  h <- mget fb_height ;;
  let total_bytes := u64 (u64 (h - FONT_HEIGHT) * line_bytes) in
  let src := u64 (FONT_HEIGHT * line_bytes) in
  let dst := 0 in
  let qword_count := total_bytes / 8 in
  mfor (Z.to_nat qword_count) 0 (fun i => v <- fb_load 8 (src + 8 * i) ;; fb_store 8 (dst + 8 * i) v) ;;;
  let dst := dst + 8 * qword_count in
  let src := src + 8 * qword_count in
  let remaining := total_bytes mod 8 in
  mfor (Z.to_nat remaining) 0 (fun i => v <- fb_load 1 (src + i) ;; fb_store 1 (dst + i) v) ;;;
  let clear_ptr := u64 (u64 (h - FONT_HEIGHT) * line_bytes) in
  let clear_qwords := u64 (FONT_HEIGHT * line_bytes) / 8 in
  mfor (Z.to_nat clear_qwords) 0 (fun i => fb_store 8 (clear_ptr + 8 * i) 0).

(** [if (cursor_y * FONT_HEIGHT + FONT_HEIGHT > fb_height) { cursor_y--; scroll(); }] *)
Definition scroll_if_needed : M con unit :=
  y <- mget cursor_y ;;
  h <- mget fb_height ;;
  if h <? u64 (u64 (y * FONT_HEIGHT) + FONT_HEIGHT) then
    mset (fun s => set_cursor (cursor_x s) (u64 (cursor_y s - 1)) s) ;;; scroll
  else mret tt.

Definition advance_cursor : M con unit :=
  mset (fun s => set_cursor (u64 (cursor_x s + 1)) (cursor_y s) s) ;;;
  x <- mget cursor_x ;;
  w <- mget fb_width ;;
  (if w <? u64 (u64 (x * FONT_WIDTH) + FONT_WIDTH)
   then mset (fun s => set_cursor 0 (u64 (cursor_y s + 1)) s) else mret tt) ;;;
  scroll_if_needed.

Definition console_clear : M con unit :=
  ppl <- mget fb_pixels_per_line ;;
  h <- mget fb_height ;;
  let total_qwords := u64 (ppl * h) / 2 in
  mfor (Z.to_nat total_qwords) 0 (fun i => fb_store 8 (8 * i) 0) ;;;
  mset (set_cursor 0 0).

(** The log message on the serial line is left out. *)
Definition console_init (framebuffer : limine_framebuffer) : M con unit :=
  mset (fun s => mkCon (lf_width framebuffer) (lf_height framebuffer) (lf_pitch framebuffer)
                   (lf_pitch framebuffer / 4) 0 0 (fb_mem s)) ;;;
  console_clear.

(** Drawing the character at the cursor. *)
Definition draw_at_cursor (c : Z) : M con unit :=
  x <- mget cursor_x ;;
  y <- mget cursor_y ;;
  draw_char c (u64 (x * FONT_WIDTH)) (u64 (y * FONT_HEIGHT)) 0xFFFFFF 0x000000.

(** [console_putc] of a character with no special meaning. *)
Definition putc_plain (c : Z) : M con unit := draw_at_cursor c ;;; advance_cursor.

Definition console_putc (c : Z) : M con unit :=
  let c := i8 c in
  if c =? 10 then                                        (* newline *)
    mset (fun s => set_cursor 0 (u64 (cursor_y s + 1)) s) ;;; scroll_if_needed
  else if c =? 13 then                                   (* carriage return *)
    mset (fun s => set_cursor 0 (cursor_y s) s)
  else if c =? 9 then mfor 4 0 (fun _ => putc_plain 32)  (* tab: console_putc of a space *)
  else if c =? 8 then                                    (* backspace *)
    mset (fun s =>
      if 0 <? cursor_x s then set_cursor (u64 (cursor_x s - 1)) (cursor_y s) s
      else if 0 <? cursor_y s then set_cursor (u64 (fb_width s / FONT_WIDTH - 1)) (u64 (cursor_y s - 1)) s
      else s) ;;;
    draw_at_cursor 32
  else putc_plain c.

Definition console_hex : list Z :=
  [48; 49; 50; 51; 52; 53; 54; 55; 56; 57; 65; 66; 67; 68; 69; 70].   (* 0123456789ABCDEF *)

Definition console_write : list Z -> M con unit := write console_putc.
Definition console_print_hex (junk : Z) : Z -> M con unit := print_hex console_putc console_hex junk.
Definition console_print_dec (junk : Z) : Z -> M con unit := print_dec console_putc junk.
Definition console_printf (junk : Z) : list Z -> list arg -> M con unit := printf console_putc console_hex junk.
