(* ===== verification/ConsoleFacts.v ===== *)
(** * The console shows a text terminal

    [renders] relates the bytes of the framebuffer to a grid of characters and
    a cursor; every operation of console.c is shown to stay inside the
    framebuffer and to do on the screen what the terminal operation does on
    the grid. *)

From stdpp Require Import base gmap list fin_maps.
From Stdlib Require Import ZArith Lia.
From S2P Require Import Prelude Mem Printf Console.

(** ** The terminal *)

Record term := mkTerm { t_cols : Z; t_rows : Z; t_x : Z; t_y : Z; t_grid : Z -> Z -> Z }.

(** What is shown for a character: unprintable ones become a question mark. *)
Definition shown (c : Z) : Z := if (i8 c <? 32) || (126 <? i8 c) then 63 else i8 c.

Definition term_move (x y : Z) (t : term) : term := mkTerm (t_cols t) (t_rows t) x y (t_grid t).

(** A cursor below the last line scrolls the grid by one line. *)
Definition term_scroll_if (t : term) : term :=
  if t_rows t <=? t_y t then
    mkTerm (t_cols t) (t_rows t) (t_x t) (t_y t - 1)
      (fun r c => if r + 1 <? t_rows t then t_grid t (r + 1) c else 32)
  else t.

Definition term_set (ch : Z) (t : term) : term :=
  mkTerm (t_cols t) (t_rows t) (t_x t) (t_y t)
    (fun r c => if (r =? t_y t) && (c =? t_x t) then ch else t_grid t r c).

Definition term_advance (t : term) : term :=
  term_scroll_if (if t_cols t <=? t_x t + 1 then term_move 0 (t_y t + 1) t else term_move (t_x t + 1) (t_y t) t).

Definition term_plain (c : Z) (t : term) : term := term_advance (term_set (shown c) t).

Definition term_putc (c : Z) (t : term) : term :=
  let c := i8 c in
  if c =? 10 then term_scroll_if (term_move 0 (t_y t + 1) t)
  else if c =? 13 then term_move 0 (t_y t) t
  else if c =? 9 then Nat.iter 4 (term_plain 32) t
  else if c =? 8 then
    term_set 32 (if 0 <? t_x t then term_move (t_x t - 1) (t_y t) t
                 else if 0 <? t_y t then term_move (t_cols t - 1) (t_y t - 1) t else t)
  else term_plain c t.

(** ** Pixels *)

Definition pixel_at (s : con) (m : mem) (x y : Z) : Z := rdn 4 m (4 * (y * fb_pixels_per_line s + x)).
Definition pixel (s : con) (x y : Z) : Z := pixel_at s (fb_mem s) x y.

(** The colour of a point of a character cell. *)
Definition glyph_pixel (ch col row fg bg : Z) : Z :=
  match font !! Z.to_nat (ch - 32) ≫= lookup (Z.to_nat row) with
  | Some line => if truthy (Z.land line (Z.shiftr 0x80 col)) then fg else bg
  | None => bg
  end.

(** A framebuffer as the boot loader describes it: lines of whole 32-bit
    pixels, big enough for one character, and a size the address space can
    hold. *)
Definition fb_ok (s : con) : Prop :=
  8 <= fb_width s /\ 16 <= fb_height s /\ 4 * fb_width s <= fb_pitch s /\
  fb_pitch s = 4 * fb_pixels_per_line s /\ fb_pitch s * fb_height s < two64.

Definition renders (s : con) (t : term) : Prop :=
  t_cols t = fb_width s / 8 /\ t_rows t = fb_height s / 16 /\
  t_x t = cursor_x s /\ t_y t = cursor_y s /\
  0 <= t_x t < t_cols t /\ 0 <= t_y t < t_rows t /\
  forall x y, 0 <= x < 8 * t_cols t -> 0 <= y < fb_height s ->
    pixel s x y = if y <? 16 * t_rows t
                  then glyph_pixel (t_grid t (y / 16) (x / 8)) (x mod 8) (y mod 16) 0xFFFFFF 0
                  else 0.

(** ** Stores *)

Lemma fb_inside_intro s off n : 0 <= off -> off + n <= fb_pitch s * fb_height s -> fb_inside s off n = true.
Proof. intros. unfold fb_inside. apply andb_true_intro. split; by apply Z.leb_le. Qed.

Lemma set_mem_id s : set_mem (fb_mem s) s = s.
Proof. by destruct s. Qed.

Lemma fb_ok_bounds s : fb_ok s ->
  fb_width s < two64 / 4 /\ fb_height s < two64 / 4 /\ fb_pixels_per_line s < two64 / 4 /\
  fb_width s <= fb_pixels_per_line s /\ 8 <= fb_pixels_per_line s.
Proof.
  intros (Hw & Hh & Hp & Hl & Hsz). assert (Hppl : fb_width s <= fb_pixels_per_line s) by lia.
  change (two64 / 4) with 4611686018427387904. unfold two64 in Hsz.
  assert (4 * fb_pixels_per_line s * 16 <= fb_pitch s * fb_height s) by nia.
  assert (32 * fb_height s <= fb_pitch s * fb_height s) by nia. lia.
Qed.

(** The index of a pixel does not wrap and lies inside. *)
Lemma pixel_index s x y : fb_ok s -> 0 <= x < fb_pixels_per_line s -> 0 <= y < fb_height s ->
  u64 (u64 (y * fb_pixels_per_line s) + x) = y * fb_pixels_per_line s + x /\
  fb_inside s (4 * (y * fb_pixels_per_line s + x)) 4 = true.
Proof.
  intros Hok Hx Hy. pose proof (fb_ok_bounds s Hok) as Hb. destruct Hok as (Hw & Hh & Hp & Hl & Hsz).
  assert (0 <= y * fb_pixels_per_line s) by nia.
  assert (Hlast : y * fb_pixels_per_line s + fb_pixels_per_line s <= fb_pixels_per_line s * fb_height s) by nia.
  rewrite Hl in Hsz. unfold two64 in Hsz.
  split; [rewrite (u64_small (y * _)), u64_small by (unfold two64; lia); done|].
  unfold fb_inside. rewrite Hl. apply andb_true_intro. split; apply Z.leb_le; lia.
Qed.

Lemma pixel_at_store s m x y v x' y' :
  0 <= x < fb_pixels_per_line s -> 0 <= x' < fb_pixels_per_line s -> 0 <= v < two32 ->
  pixel_at s (wrn 4 m (4 * (y * fb_pixels_per_line s + x)) v) x' y' =
  if (x' =? x) && (y' =? y) then v else pixel_at s m x' y'.
Proof.
  intros Hx Hx' Hv. unfold pixel_at. destruct (Z.eqb_spec x' x) as [->|Hne]; cbn [andb].
  - destruct (Z.eqb_spec y' y) as [->|Hney].
    + rewrite rdn_wrn_eq. apply Z.mod_small. done.
    + apply rdn_ext. intros b Hb. apply rd8_wrn_out. assert (y' < y \/ y < y') as [|] by lia; [left|right]; nia.
  - apply rdn_ext. intros b Hb. apply rd8_wrn_out.
    assert (y' < y \/ y < y' \/ y' = y) as [?|[?| ->]] by lia; [left|right|]; nia || lia.
Qed.

(** ** Drawing *)

Lemma font_glyph ch row : 32 <= ch <= 126 -> 0 <= row < 16 ->
  exists g line, font !! Z.to_nat (ch - 32) = Some g /\ g !! Z.to_nat row = Some line.
Proof.
  intros Hc Hr. destruct (lookup_lt_is_Some_2 font (Z.to_nat (ch - 32))) as [g Hg]; [cbn; lia|].
  assert (Hall : Forall (fun g => length g = 16%nat) font) by (repeat constructor).
  assert (Hlen : length g = 16%nat) by (apply (Forall_lookup_1 _ _ _ _ Hall Hg)).
  destruct (lookup_lt_is_Some_2 g (Z.to_nat row)) as [line Hl]; [lia|]. eauto.
Qed.

Lemma shown_range c : 32 <= shown c <= 126.
Proof. unfold shown. destruct (Z.ltb_spec (i8 c) 32); cbn [orb]; [lia|]. destruct (Z.ltb_spec 126 (i8 c)); lia. Qed.

(** The pixels of a cell at [px, py] already drawn: all of the rows before
    [row], and the columns before [col] in it. *)
Definition drawn (ch px py fg bg row col : Z) (s : con) (m : mem) : Prop :=
  forall x y, 0 <= x < fb_pixels_per_line s -> 0 <= y < fb_height s ->
    pixel_at s m x y =
      if (px <=? x) && (x <? px + 8) && (x <? fb_width s) && (py <=? y) &&
         ((y <? py + row) || (y =? py + row) && (x <? px + col))
      then glyph_pixel ch (x - px) (y - py) fg bg else pixel s x y.

Lemma drawn_next_row ch px py fg bg row s m :
  drawn ch px py fg bg row 8 s m -> drawn ch px py fg bg (row + 1) 0 s m.
Proof.
  intros H x y Hx Hy. rewrite (H x y Hx Hy).
  destruct (Z.leb_spec px x), (Z.ltb_spec x (px + 8)), (Z.ltb_spec x (fb_width s)), (Z.leb_spec py y); cbn [andb]; try done.
  destruct (Z.ltb_spec x (px + 0)); [lia|]. rewrite andb_false_r, orb_false_r, andb_true_r.
  destruct (Z.ltb_spec y (py + row)), (Z.eqb_spec y (py + row)), (Z.ltb_spec y (py + (row + 1))); cbn [orb]; done || lia.
Qed.

Lemma drawn_next_col ch px py fg bg row col line s m :
  fb_ok s -> 0 <= px -> 0 <= py -> 0 <= fg < two32 -> 0 <= bg < two32 -> 0 <= row -> 0 <= col < 8 ->
  font !! Z.to_nat (ch - 32) ≫= lookup (Z.to_nat row) = Some line ->
  px + col < fb_width s -> py + row < fb_height s ->
  drawn ch px py fg bg row col s m ->
  drawn ch px py fg bg row (col + 1) s
    (wrn 4 m (4 * ((py + row) * fb_pixels_per_line s + (px + col))) (if truthy (Z.land line (Z.shiftr 0x80 col)) then fg else bg)).
Proof.
  intros Hok Hpx Hpy Hfg Hbg Hrow Hcol Hline Hx0 Hy0 H x y Hx Hy. pose proof (fb_ok_bounds s Hok) as Hb.
  rewrite pixel_at_store by (try case_match; lia). destruct (Z.eqb_spec x (px + col)) as [->|Hne]; cbn [andb].
  - destruct (Z.eqb_spec y (py + row)) as [->|Hney].
    + destruct (Z.leb_spec px (px + col)), (Z.ltb_spec (px + col) (px + 8)), (Z.ltb_spec (px + col) (fb_width s)),
        (Z.leb_spec py (py + row)), (Z.ltb_spec (px + col) (px + (col + 1))); try lia. cbn [andb]. rewrite orb_true_r.
      unfold glyph_pixel. rewrite !Z.add_simpl_l, Hline. done.
    + rewrite (H _ y Hx Hy). destruct (Z.eqb_spec y (py + row)); done.
  - rewrite (H x y Hx Hy). destruct (Z.ltb_spec x (px + col)), (Z.ltb_spec x (px + (col + 1))); done || lia.
Qed.

(** Nothing is drawn outside the screen. *)
Lemma drawn_clipped ch px py fg bg row col s m :
  0 <= px -> 0 <= py -> fb_width s <= px + col \/ fb_height s <= py + row ->
  drawn ch px py fg bg row col s m -> drawn ch px py fg bg row (col + 1) s m.
Proof.
  intros Hpx Hpy Hout H x y Hx Hy. rewrite (H x y Hx Hy).
  destruct (Z.leb_spec px x), (Z.ltb_spec x (px + 8)), (Z.ltb_spec x (fb_width s)), (Z.leb_spec py y); cbn [andb]; try done.
  destruct (Z.ltb_spec y (py + row)); cbn [orb]; [done|]. destruct (Z.eqb_spec y (py + row)); cbn [andb]; [|done].
  destruct (Z.ltb_spec x (px + col)), (Z.ltb_spec x (px + (col + 1))); done || lia.
Qed.

Lemma draw_pixel_spec ch line px py fg bg row col s m :
  fb_ok s -> 0 <= px -> px + 8 < two64 -> 0 <= py -> py + 16 < two64 -> 0 <= fg < two32 -> 0 <= bg < two32 ->
  0 <= row < 16 -> 0 <= col < 8 ->
  font !! Z.to_nat (ch - 32) ≫= lookup (Z.to_nat row) = Some line ->
  drawn ch px py fg bg row col s m ->
  exists m', draw_pixel line px py row fg bg col (set_mem m s) = Ret tt (set_mem m' s) /\
    drawn ch px py fg bg row (col + 1) s m'.
Proof.
  intros Hok Hpx Hpx' Hpy Hpy' Hfg Hbg Hrow Hcol Hline Hd. unfold draw_pixel, mbind, mget, mret. cbv zeta. cbn [bindr].
  rewrite (u64_small (px + col)), (u64_small (py + row)) by lia.
  change (fb_width (set_mem m s)) with (fb_width s). change (fb_height (set_mem m s)) with (fb_height s).
  pose proof (fb_ok_bounds s Hok) as Hb.
  destruct (Z.leb_spec (fb_width s) (px + col)); cbn [orb]; [exists m; split; [done|]; apply drawn_clipped; [done..|lia|done]|].
  destruct (Z.leb_spec (fb_height s) (py + row)); [exists m; split; [done|]; apply drawn_clipped; [done..|lia|done]|].
  change (fb_pixels_per_line (set_mem m s)) with (fb_pixels_per_line s).
  destruct (pixel_index s (px + col) (py + row) Hok ltac:(lia) ltac:(lia)) as [-> Hin].
  unfold fb_store. change (fb_inside (set_mem m s)) with (fb_inside s). change (Z.of_nat 4) with 4. rewrite Hin.
  eexists. split; [done|]. apply drawn_next_col; done || lia.
Qed.

Lemma draw_row_spec ch g px py fg bg row s m :
  fb_ok s -> 0 <= px -> px + 8 < two64 -> 0 <= py -> py + 16 < two64 -> 0 <= fg < two32 -> 0 <= bg < two32 ->
  32 <= ch <= 126 -> 0 <= row < 16 -> font !! Z.to_nat (ch - 32) = Some g -> drawn ch px py fg bg row 0 s m ->
  exists m', draw_row g px py fg bg row (set_mem m s) = Ret tt (set_mem m' s) /\ drawn ch px py fg bg (row + 1) 0 s m'.
Proof.
  intros Hok Hpx Hpx' Hpy Hpy' Hfg Hbg Hch Hrow Hg Hd.
  destruct (font_glyph ch row Hch Hrow) as (g' & line & Hg' & Hl). rewrite Hg in Hg'. injection Hg' as <-.
  unfold draw_row, mbind. rewrite Hl. cbn [mopt bindr].
  destruct (mfor_rule (fun col s' => exists m', s' = set_mem m' s /\ drawn ch px py fg bg row col s m')
    8 0 (draw_pixel line px py row fg bg) (set_mem m s)) as (s' & E & m' & -> & Hd'); [eauto| |].
  - intros col s1 Hcol (m1 & -> & Hd1).
    destruct (draw_pixel_spec ch line px py fg bg row col s m1) as (m2 & E2 & Hd2); try done; [by rewrite Hg|].
    eauto.
  - exists m'. split; [done|]. by apply drawn_next_row.
Qed.

Lemma draw_char_spec c px py fg bg s :
  fb_ok s -> 0 <= px -> px + 8 < two64 -> 0 <= py -> py + 16 < two64 -> 0 <= fg < two32 -> 0 <= bg < two32 ->
  exists m, draw_char c px py fg bg s = Ret tt (set_mem m s) /\ drawn (shown c) px py fg bg 16 0 s m.
Proof.
  intros Hok Hpx Hpx' Hpy Hpy' Hfg Hbg. unfold draw_char. cbv zeta. fold (shown c). pose proof (shown_range c) as Hch.
  destruct (font_glyph (shown c) 0 Hch ltac:(lia)) as (g & _ & Hg & _). unfold mbind. rewrite Hg. cbn [mopt bindr].
  destruct (mfor_rule (fun row s' => exists m, s' = set_mem m s /\ drawn (shown c) px py fg bg row 0 s m) 16 0
    (draw_row g px py fg bg) s) as (s' & E & m & -> & Hm); [| |exists m; by split].
  - exists (fb_mem s). split; [by rewrite set_mem_id|]. intros x y Hx Hy.
    destruct (Z.leb_spec py y), (Z.ltb_spec y (py + 0)), (Z.ltb_spec x (px + 0)), (Z.leb_spec px x); cbn [andb orb]; rewrite ?andb_false_r; done || lia.
  - intros row s1 Hrow (m1 & -> & Hm1).
    destruct (draw_row_spec (shown c) g px py fg bg row s m1) as (m2 & E2 & Hd2); try done. eauto.
Qed.

(** ** Block moves *)

(** Copying [n] blocks of [k] bytes upwards in memory, to lower addresses. *)
Lemma copy_loop k K src dst n s :
  K = Z.of_nat k -> 0 < K -> 0 <= dst -> dst + K <= src -> src + K * Z.of_nat n <= fb_pitch s * fb_height s ->
  forall (load store : Z -> Z), (forall i, load i = src + K * i) -> (forall i, store i = dst + K * i) ->
  exists m, mfor n 0 (fun i => v <- fb_load k (load i) ;; fb_store k (store i) v) s = Ret tt (set_mem m s) /\
    forall b, rd8 m b = if (dst <=? b) && (b <? dst + K * Z.of_nat n) then rd8 (fb_mem s) (src + (b - dst)) else rd8 (fb_mem s) b.
Proof.
  intros EK Hk Hd Hsd Hin load store Hload Hstore.
  destruct (mfor_rule (fun i s' => exists m, s' = set_mem m s /\ forall b, rd8 m b =
      if (dst <=? b) && (b <? dst + K * i) then rd8 (fb_mem s) (src + (b - dst)) else rd8 (fb_mem s) b) n 0
    (fun i => v <- fb_load k (load i) ;; fb_store k (store i) v) s) as (s' & E & m & -> & Hm); [| |eauto].
  - exists (fb_mem s). split; [by rewrite set_mem_id|]. intros b. destruct (Z.leb_spec dst b), (Z.ltb_spec b (dst + K * 0)); done || lia.
  - intros i s1 Hi (m & -> & Hm). unfold mbind, fb_load, fb_store. rewrite Hload, Hstore, <- EK.
    assert (K * i + K <= K * Z.of_nat n) by nia. assert (0 <= K * i) by nia.
    rewrite !fb_inside_intro by (cbn [fb_pitch fb_height set_mem]; lia). cbn [bindr].
    rewrite !fb_inside_intro by (cbn [fb_pitch fb_height set_mem]; lia).
    eexists. split; [done|]. eexists. split; [done|]. intros b.
    cbn [fb_mem set_mem]. destruct (decide (dst + K * i <= b < dst + K * i + K)) as [Hb|Hb].
    + replace b with (dst + K * i + (b - dst - K * i)) at 1 by lia. rewrite rd8_wrn_rdn, Hm by lia.
      destruct (Z.leb_spec dst b), (Z.ltb_spec b (dst + K * (i + 1))); cbn [andb]; try nia.
      destruct (Z.ltb_spec (src + K * i + (b - dst - K * i)) (dst + K * i)); [lia|].
      rewrite andb_false_r. f_equal. lia.
    + rewrite rd8_wrn_out, Hm by lia.
      destruct (Z.leb_spec dst b), (Z.ltb_spec b (dst + K * i)), (Z.ltb_spec b (dst + K * (i + 1))); cbn [andb]; done || nia.
Qed.

Lemma zero_loop p n s :
  0 <= p -> p + 8 * Z.of_nat n <= fb_pitch s * fb_height s ->
  exists m, mfor n 0 (fun i => fb_store 8 (p + 8 * i) 0) s = Ret tt (set_mem m s) /\
    forall b, rd8 m b = if (p <=? b) && (b <? p + 8 * Z.of_nat n) then 0 else rd8 (fb_mem s) b.
Proof.
  intros Hp Hin.
  destruct (mfor_rule (fun i s' => exists m, s' = set_mem m s /\ forall b, rd8 m b =
      if (p <=? b) && (b <? p + 8 * i) then 0 else rd8 (fb_mem s) b) n 0 (fun i => fb_store 8 (p + 8 * i) 0) s)
    as (s' & E & m & -> & Hm); [| |eauto].
  - exists (fb_mem s). split; [by rewrite set_mem_id|]. intros b. destruct (Z.leb_spec p b), (Z.ltb_spec b (p + 8 * 0)); done || lia.
  - intros i s1 Hi (m & -> & Hm). unfold fb_store.
    rewrite fb_inside_intro by (cbn [fb_pitch fb_height set_mem]; lia).
    eexists. split; [done|]. eexists. split; [done|]. intros b. cbn [fb_mem set_mem].
    destruct (decide (p + 8 * i <= b < p + 8 * i + 8)) as [Hb|Hb].
    + rewrite rd8_wrn_zero by lia. destruct (Z.leb_spec p b), (Z.ltb_spec b (p + 8 * (i + 1))); done || lia.
    + rewrite rd8_wrn_out, Hm by lia.
      destruct (Z.leb_spec p b), (Z.ltb_spec b (p + 8 * i)), (Z.ltb_spec b (p + 8 * (i + 1))); cbn [andb]; done || lia.
Qed.

(** ** Scrolling and clearing *)

Lemma scroll_sizes s : fb_ok s ->
  let total := (fb_height s - 16) * fb_pitch s in
  u64 (u64 (fb_height s - FONT_HEIGHT) * fb_pitch s) = total /\ u64 (FONT_HEIGHT * fb_pitch s) = 16 * fb_pitch s /\
  0 <= total /\ total + 16 * fb_pitch s = fb_pitch s * fb_height s /\ 32 <= fb_pitch s.
Proof.
  intros Hok total. pose proof (fb_ok_bounds s Hok) as Hb. destruct Hok as (Hw & Hh & Hp & Hl & Hsz).
  change (two64 / 4) with 4611686018427387904 in Hb. unfold FONT_HEIGHT. rewrite (u64_small (fb_height s - 16)) by (unfold two64; lia).
  assert (0 <= total) by (unfold total; nia). assert (total + 16 * fb_pitch s = fb_pitch s * fb_height s) by (unfold total; lia).
  rewrite !u64_small by (unfold total in *; lia). unfold total. lia.
Qed.

Lemma scroll_bytes s : fb_ok s ->
  exists m, scroll s = Ret tt (set_mem m s) /\
    forall b, 0 <= b < fb_pitch s * fb_height s -> rd8 m b =
      if b <? (fb_height s - 16) * fb_pitch s then rd8 (fb_mem s) (b + 16 * fb_pitch s) else 0.
Proof.
  intros Hok. destruct (scroll_sizes s Hok) as (Et & Es & Ht & Hsum & Hp32). set (total := (fb_height s - 16) * fb_pitch s) in *.
  pose proof (Z.div_mod total 8 ltac:(lia)) as Hdm. pose proof (Z.mod_pos_bound total 8 ltac:(lia)) as Hmod.
  pose proof (Z.div_pos total 8 Ht ltac:(lia)) as Hdiv.
  unfold scroll, mbind, mget. cbv zeta. cbn [bindr]. rewrite Et, Es.
  destruct (copy_loop 8 8 (16 * fb_pitch s) 0 (Z.to_nat (total / 8)) s eq_refl ltac:(lia) ltac:(lia) ltac:(lia) ltac:(lia)
    (fun i => 16 * fb_pitch s + 8 * i) (fun i => 0 + 8 * i)) as (m1 & E1 & H1); [done..|].
  unfold mbind in E1. rewrite E1. cbn [bindr]. clear E1.
  destruct (copy_loop 1 1 (16 * fb_pitch s + 8 * (total / 8)) (0 + 8 * (total / 8)) (Z.to_nat (total mod 8)) (set_mem m1 s)
    eq_refl ltac:(lia) ltac:(lia) ltac:(lia) ltac:(cbn [fb_pitch fb_height set_mem]; lia)
    (fun i => 16 * fb_pitch s + 8 * (total / 8) + i) (fun i => 0 + 8 * (total / 8) + i)) as (m2 & E2 & H2); [intros; lia..|].
  unfold mbind in E2. rewrite E2. cbn [bindr]. clear E2.
  assert (Hq : Z.of_nat (Z.to_nat (16 * fb_pitch s / 8)) = 2 * fb_pitch s) by (Z.div_mod_to_equations; lia).
  destruct (zero_loop total (Z.to_nat (16 * fb_pitch s / 8)) (set_mem m2 (set_mem m1 s))) as (m3 & E3 & H3);
    [done|cbn [fb_pitch fb_height set_mem]; lia|].
  exists m3. split; [done|]. intros b Hb. cbn [fb_mem set_mem] in H1, H2, H3.
  rewrite H3, H2, !H1, Hq, !Z2Nat.id by lia.
  repeat match goal with |- context [?x <=? ?y] => destruct (Z.leb_spec x y) | |- context [?x <? ?y] => destruct (Z.ltb_spec x y) end;
    cbn [andb]; try lia; f_equal; lia.
Qed.

Lemma clear_bytes s : fb_ok s ->
  exists m, console_clear s = Ret tt (set_cursor 0 0 (set_mem m s)) /\
    forall b, 0 <= b < 8 * (fb_pixels_per_line s * fb_height s / 2) -> rd8 m b = 0.
Proof.
  intros Hok. pose proof (fb_ok_bounds s Hok) as Hb. destruct Hok as (Hw & Hh & Hp & Hl & Hsz). rewrite Hl in Hsz.
  unfold console_clear, mbind, mget. cbv zeta. cbn [bindr].
  assert (0 <= fb_pixels_per_line s * fb_height s) by nia. rewrite u64_small by (unfold two64 in *; lia).
  set (q := fb_pixels_per_line s * fb_height s) in *. pose proof (Z.div_pos q 2 ltac:(lia) ltac:(lia)).
  assert (8 * (q / 2) <= 4 * q) by (Z.div_mod_to_equations; lia).
  destruct (zero_loop 0 (Z.to_nat (q / 2)) s) as (m & E & Hm); [lia|rewrite Hl; unfold q in *; lia|].
  change (fun i => fb_store 8 (0 + 8 * i) 0) with (fun i => fb_store 8 (8 * i) 0) in E.
  rewrite E. cbn [bindr]. exists m. split; [done|]. intros b Hb'. rewrite Hm.
  destruct (Z.leb_spec 0 b), (Z.ltb_spec b (0 + 8 * Z.of_nat (Z.to_nat (q / 2)))); done || lia.
Qed.

(** ** Pixels after scrolling and clearing *)

Lemma pixel_bytes s x y : fb_ok s -> 0 <= x < fb_pixels_per_line s -> 0 <= y < fb_height s ->
  0 <= 4 * (y * fb_pixels_per_line s + x) /\ 4 * (y * fb_pixels_per_line s + x) + 4 <= fb_pitch s * fb_height s.
Proof.
  intros (Hw & Hh & Hp & Hl & Hsz) Hx Hy. rewrite Hl.
  assert (y * fb_pixels_per_line s + fb_pixels_per_line s <= fb_pixels_per_line s * fb_height s) by nia. nia.
Qed.

Lemma scroll_pixels s : fb_ok s ->
  exists m, scroll s = Ret tt (set_mem m s) /\
    forall x y, 0 <= x < fb_pixels_per_line s -> 0 <= y < fb_height s ->
      pixel_at s m x y = if y <? fb_height s - 16 then pixel s x (y + 16) else 0.
Proof.
  intros Hok. destruct (scroll_bytes s Hok) as (m & E & Hm). exists m. split; [done|]. intros x y Hx Hy.
  pose proof (pixel_bytes s x y Hok Hx Hy) as Hpb. assert (Hl : fb_pitch s = 4 * fb_pixels_per_line s) by apply Hok.
  unfold pixel, pixel_at. destruct (Z.ltb_spec y (fb_height s - 16)).
  - apply rdn_shift. intros i Hi. rewrite Hm by lia.
    destruct (Z.ltb_spec (4 * (y * fb_pixels_per_line s + x) + i) ((fb_height s - 16) * fb_pitch s)); [f_equal; lia|nia].
  - apply rdn_zero. intros b Hb. rewrite Hm by lia.
    destruct (Z.ltb_spec b ((fb_height s - 16) * fb_pitch s)); [nia|done].
Qed.

(** Only the last pixel of a line of odd length can stay uncleared. *)
Lemma clear_pixels s : fb_ok s ->
  exists m, console_clear s = Ret tt (set_cursor 0 0 (set_mem m s)) /\
    forall x y, 0 <= x -> x + 1 < fb_pixels_per_line s \/ (x + 1 = fb_pixels_per_line s /\ Z.Even (fb_pixels_per_line s)) ->
      0 <= y < fb_height s -> pixel_at s m x y = 0.
Proof.
  intros Hok. destruct (clear_bytes s Hok) as (m & E & Hm). exists m. split; [done|]. intros x y Hx0 Hx Hy.
  pose proof (fb_ok_bounds s Hok) as Hb.
  unfold pixel_at. apply rdn_zero. intros b Hb'. apply Hm. set (q := fb_pixels_per_line s * fb_height s).
  assert (Hrow : y * fb_pixels_per_line s + fb_pixels_per_line s <= q) by (unfold q; nia).
  assert (0 <= y * fb_pixels_per_line s) by nia. pose proof (Z.div_mod q 2 ltac:(lia)). pose proof (Z.mod_pos_bound q 2 ltac:(lia)).
  destruct Hx as [Hx|[Hx [k Hk]]]; [lia|].
  assert (q mod 2 = 0) by (unfold q; rewrite Hk, <- Z.mul_assoc, Z.mul_comm; apply Z.mod_mul; lia). lia.
Qed.

(** ** The screen shows the terminal *)

Lemma glyph_space col row fg bg : 0 <= row < 16 -> glyph_pixel 32 col row fg bg = bg.
Proof.
  intros Hr. unfold glyph_pixel. change (font !! Z.to_nat (32 - 32)) with (Some (replicate 16 0)). cbn [base.mbind option_bind].
  destruct (replicate 16 0 !! Z.to_nat row) as [line|] eqn:E; [|done]. apply lookup_replicate in E as [-> _]. done.
Qed.

(** The rendering, without the cursor. *)
Definition shows (s : con) (m : mem) (cols rows : Z) (grid : Z -> Z -> Z) : Prop :=
  forall x y, 0 <= x < 8 * cols -> 0 <= y < fb_height s ->
    pixel_at s m x y = if y <? 16 * rows then glyph_pixel (grid (y / 16) (x / 8)) (x mod 8) (y mod 16) 0xFFFFFF 0 else 0.

Definition same_screen (s s' : con) : Prop :=
  fb_width s' = fb_width s /\ fb_height s' = fb_height s /\ fb_pitch s' = fb_pitch s /\
  fb_pixels_per_line s' = fb_pixels_per_line s.

Lemma screen_dims s : fb_ok s -> let cols := fb_width s / 8 in let rows := fb_height s / 16 in
  1 <= cols /\ 1 <= rows /\ 8 * cols <= fb_width s < 8 * cols + 8 /\ 16 * rows <= fb_height s < 16 * rows + 16 /\
  8 * cols <= fb_pixels_per_line s.
Proof.
  intros Hok cols rows. pose proof (fb_ok_bounds s Hok) as Hb. destruct Hok as (Hw & Hh & _).
  subst cols rows. Z.div_mod_to_equations. lia.
Qed.

Lemma scroll_shows s grid : fb_ok s -> shows s (fb_mem s) (fb_width s / 8) (fb_height s / 16) grid ->
  exists m, scroll s = Ret tt (set_mem m s) /\
    shows s m (fb_width s / 8) (fb_height s / 16) (fun r c => if r + 1 <? fb_height s / 16 then grid (r + 1) c else 32).
Proof.
  intros Hok Hs. destruct (scroll_pixels s Hok) as (m & E & Hm). exists m. split; [done|]. intros x y Hx Hy.
  destruct (screen_dims s Hok) as (_ & _ & Hw & Hh & Hp). rewrite Hm by lia.
  assert (0 <= y mod 16 < 16) by (apply Z.mod_pos_bound; lia).
  assert (Hd : (y + 16) / 16 = y / 16 + 1 /\ (y + 16) mod 16 = y mod 16).
  { replace (y + 16) with (y + 1 * 16) by lia. rewrite Z.div_add, Z.mod_add by lia. done. }
  destruct (Z.ltb_spec y (fb_height s - 16)).
  - unfold pixel. rewrite (Hs x (y + 16)) by lia. destruct Hd as [-> ->].
    destruct (Z.ltb_spec (y + 16) (16 * (fb_height s / 16))), (Z.ltb_spec y (16 * (fb_height s / 16))),
      (Z.ltb_spec (y / 16 + 1) (fb_height s / 16)); try done; try (Z.div_mod_to_equations; lia). by rewrite glyph_space.
  - destruct (Z.ltb_spec y (16 * (fb_height s / 16))); [|done].
    destruct (Z.ltb_spec (y / 16 + 1) (fb_height s / 16)); [Z.div_mod_to_equations; lia|]. by rewrite glyph_space.
Qed.

Lemma draw_shows s c grid cx cy : fb_ok s -> 0 <= cx < fb_width s / 8 -> 0 <= cy < fb_height s / 16 ->
  shows s (fb_mem s) (fb_width s / 8) (fb_height s / 16) grid ->
  exists m, draw_char c (u64 (cx * FONT_WIDTH)) (u64 (cy * FONT_HEIGHT)) 0xFFFFFF 0 s = Ret tt (set_mem m s) /\
    shows s m (fb_width s / 8) (fb_height s / 16) (fun r k => if (r =? cy) && (k =? cx) then shown c else grid r k).
Proof.
  intros Hok Hcx Hcy Hs. destruct (screen_dims s Hok) as (_ & _ & Hw & Hh & Hp). pose proof (fb_ok_bounds s Hok) as Hb.
  change (two64 / 4) with 4611686018427387904 in Hb. unfold FONT_WIDTH, FONT_HEIGHT. rewrite !u64_small by (unfold two64; lia).
  destruct (draw_char_spec c (cx * 8) (cy * 16) 0xFFFFFF 0 s) as (m & E & Hm); try done; try (unfold two64; lia); [lia..|].
  exists m. split; [done|]. intros x y Hx Hy. rewrite Hm by lia.
  destruct (Z.ltb_spec x (fb_width s)); [|lia].
  pose proof (Z.div_mod x 8 ltac:(lia)). pose proof (Z.mod_pos_bound x 8 ltac:(lia)).
  pose proof (Z.div_mod y 16 ltac:(lia)). pose proof (Z.mod_pos_bound y 16 ltac:(lia)).
  destruct (Z.ltb_spec x (cx * 8 + 0)), (Z.leb_spec (cx * 8) x), (Z.ltb_spec x (cx * 8 + 8)), (Z.leb_spec (cy * 16) y),
    (Z.ltb_spec y (cy * 16 + 16)), (Z.eqb_spec (y / 16) cy), (Z.eqb_spec (x / 8) cx); try lia; rewrite ?andb_false_r; cbn [andb orb];
    try (by apply Hs).
  destruct (Z.ltb_spec y (16 * (fb_height s / 16))); [|lia]. f_equal; lia.
Qed.

Lemma renders_shows s t : renders s t -> shows s (fb_mem s) (fb_width s / 8) (fb_height s / 16) (t_grid t).
Proof. intros (Hc & Hr & _ & _ & _ & _ & Hp). rewrite <- Hc, <- Hr. exact Hp. Qed.

(** A cursor that is at most one line too low. *)
Definition renders_low (s : con) (t : term) : Prop :=
  t_cols t = fb_width s / 8 /\ t_rows t = fb_height s / 16 /\ t_x t = cursor_x s /\ t_y t = cursor_y s /\
  0 <= t_x t < t_cols t /\ 0 <= t_y t <= t_rows t /\
  shows s (fb_mem s) (fb_width s / 8) (fb_height s / 16) (t_grid t).

Lemma renders_of_low s t : renders_low s t -> t_y t < t_rows t -> renders s t.
Proof.
  intros (Hc & Hr & Hx & Hy & Hx' & Hy' & Hs) Hlow. rewrite <- Hc, <- Hr in Hs.
  repeat (split; [done || lia|]). exact Hs.
Qed.

Lemma scroll_if_renders s t : fb_ok s -> renders_low s t ->
  exists s', scroll_if_needed s = Ret tt s' /\ same_screen s s' /\ renders s' (term_scroll_if t).
Proof.
  intros Hok (Hc & Hr & Hx & Hy & Hx' & Hy' & Hs). destruct (screen_dims s Hok) as (Hc1 & Hr1 & Hw & Hh & Hp).
  pose proof (fb_ok_bounds s Hok) as Hb. change (two64 / 4) with 4611686018427387904 in Hb.
  unfold scroll_if_needed, mbind, mget, mset, FONT_HEIGHT. cbn [bindr]. rewrite (u64_small (cursor_y s * 16)), u64_small by (unfold two64; lia).
  unfold term_scroll_if. destruct (Z.ltb_spec (fb_height s) (cursor_y s * 16 + 16)), (Z.leb_spec (t_rows t) (t_y t)); try lia.
  - rewrite u64_small by (unfold two64; lia). set (s1 := set_cursor _ _ s).
    destruct (scroll_shows s1 (t_grid t) Hok Hs) as (m & E & Hm). rewrite E.
    eexists. split; [done|]. split; [done|]. apply renders_of_low; [|cbn; lia].
    rewrite Hc, Hr. repeat (split; [cbn; done || lia|]). exact Hm.
  - eexists. split; [done|]. split; [done|]. apply renders_of_low; [done|lia].
Qed.

Lemma draw_at_cursor_renders s t c : fb_ok s -> renders s t ->
  exists s', draw_at_cursor c s = Ret tt s' /\ same_screen s s' /\ renders s' (term_set (shown c) t).
Proof.
  intros Hok H. pose proof (renders_shows s t H) as Hs. destruct H as (Hc & Hr & Hx & Hy & Hx' & Hy' & _).
  unfold draw_at_cursor, mbind, mget. cbn [bindr].
  destruct (draw_shows s c (t_grid t) (cursor_x s) (cursor_y s)) as (m & E & Hm); [done|lia|lia|done|]. rewrite E.
  eexists. split; [done|]. split; [done|]. apply renders_of_low; [|cbn; lia]. unfold term_set.
  rewrite Hc, Hr, Hx, Hy. repeat (split; [cbn; done || lia|]). exact Hm.
Qed.

Lemma advance_renders s t : fb_ok s -> renders s t ->
  exists s', advance_cursor s = Ret tt s' /\ same_screen s s' /\ renders s' (term_advance t).
Proof.
  intros Hok H. pose proof (renders_shows s t H) as Hs. destruct H as (Hc & Hr & Hx & Hy & Hx' & Hy' & _).
  destruct (screen_dims s Hok) as (Hc1 & Hr1 & Hw & Hh & Hp). pose proof (fb_ok_bounds s Hok) as Hb. change (two64 / 4) with 4611686018427387904 in Hb.
  unfold advance_cursor, mbind, mget, mset, mret, FONT_WIDTH. cbn [bindr]. cbn [cursor_x set_cursor].
  rewrite (u64_small (cursor_x s + 1)), (u64_small (_ * 8)), u64_small by (unfold two64; lia).
  unfold term_advance. change (fb_width (set_cursor (cursor_x s + 1) (cursor_y s) s)) with (fb_width s).
  destruct (Z.ltb_spec (fb_width s) ((cursor_x s + 1) * 8 + 8)), (Z.leb_spec (t_cols t) (t_x t + 1)); try lia; cbn [bindr].
  - cbn [cursor_y set_cursor]. rewrite u64_small by (unfold two64; lia).
    apply (scroll_if_renders (set_cursor 0 (cursor_y s + 1) (set_cursor (cursor_x s + 1) (cursor_y s) s))); [exact Hok|].
    repeat (split; [cbn; done || lia|]). exact Hs.
  - apply (scroll_if_renders (set_cursor (cursor_x s + 1) (cursor_y s) s)); [exact Hok|].
    repeat (split; [cbn; done || lia|]). exact Hs.
Qed.

Lemma same_screen_ok s s' : same_screen s s' -> fb_ok s -> fb_ok s'.
Proof. intros (E1 & E2 & E3 & E4). unfold fb_ok. by rewrite E1, E2, E3, E4. Qed.

Lemma same_screen_trans s1 s2 s3 : same_screen s1 s2 -> same_screen s2 s3 -> same_screen s1 s3.
Proof. intros (? & ? & ? & ?) (? & ? & ? & ?). repeat split; congruence. Qed.

Lemma putc_plain_renders s t c : fb_ok s -> renders s t ->
  exists s', putc_plain c s = Ret tt s' /\ same_screen s s' /\ renders s' (term_plain c t).
Proof.
  intros Hok H. destruct (draw_at_cursor_renders s t c Hok H) as (s1 & E1 & S1 & H1).
  unfold putc_plain. rewrite (mbind_Ret _ _ _ _ _ E1).
  destruct (advance_renders s1 _ (same_screen_ok _ _ S1 Hok) H1) as (s2 & E2 & S2 & H2).
  exists s2. split; [done|]. split; [by eapply same_screen_trans|done].
Qed.

Lemma tab_renders n : forall i s t, fb_ok s -> renders s t ->
  exists s', mfor n i (fun _ => putc_plain 32) s = Ret tt s' /\ same_screen s s' /\ renders s' (Nat.iter n (term_plain 32) t).
Proof.
  induction n as [|n IH]; intros i s t Hok H; cbn [mfor]; [by exists s|].
  destruct (putc_plain_renders s t 32 Hok H) as (s1 & E1 & S1 & H1). rewrite (mbind_Ret _ _ _ _ _ E1).
  destruct (IH (i + 1) s1 _ (same_screen_ok _ _ S1 Hok) H1) as (s2 & E2 & S2 & H2).
  exists s2. split; [done|]. split; [by eapply same_screen_trans|]. by rewrite Nat.iter_succ_r.
Qed.

Lemma console_putc_renders s t c : fb_ok s -> renders s t ->
  exists s', console_putc c s = Ret tt s' /\ same_screen s s' /\ renders s' (term_putc c t).
Proof.
  intros Hok H. pose proof (renders_shows s t H) as Hs. pose proof H as (Hc & Hr & Hx & Hy & Hx' & Hy' & Hpx).
  destruct (screen_dims s Hok) as (Hc1 & Hr1 & Hw & Hh & Hp). pose proof (fb_ok_bounds s Hok) as Hb. change (two64 / 4) with 4611686018427387904 in Hb.
  unfold console_putc, term_putc. cbv zeta. destruct (i8 c =? 10).
  { unfold mbind, mset. cbn [bindr]. rewrite u64_small by (unfold two64; lia).
    apply (scroll_if_renders (set_cursor 0 (cursor_y s + 1) s)); [exact Hok|]. repeat (split; [cbn; done || lia|]). exact Hs. }
  destruct (i8 c =? 13).
  { eexists. split; [done|]. split; [done|]. repeat (split; [cbn; done || lia|]). exact Hpx. }
  destruct (i8 c =? 9).
  { exact (tab_renders 4 0 s t Hok H). }
  destruct (i8 c =? 8).
  - unfold mbind, mset. cbn [bindr].
    replace (term_set 32) with (term_set (shown 32)) by reflexivity. rewrite <- Hx, <- Hy.
    destruct (Z.ltb_spec 0 (t_x t)); [|destruct (Z.ltb_spec 0 (t_y t))]; rewrite ?u64_small by (unfold two64, FONT_WIDTH; lia).
    + apply (draw_at_cursor_renders (set_cursor (t_x t - 1) (t_y t) s)); [exact Hok|]. repeat (split; [cbn; done || lia|]). exact Hpx.
    + apply (draw_at_cursor_renders (set_cursor (fb_width s / FONT_WIDTH - 1) (t_y t - 1) s)); [exact Hok|].
      unfold FONT_WIDTH. repeat (split; [cbn; done || lia|]). exact Hpx.
    + by apply draw_at_cursor_renders.
  - apply (putc_plain_renders s t (i8 c) Hok H).
Qed.

Definition term_puts (l : list Z) (t : term) : term := fold_left (fun t c => term_putc c t) l t.

Lemma puts_renders l : forall s t s', fb_ok s -> renders s t -> puts console_putc l s = Ret tt s' ->
  same_screen s s' /\ renders s' (term_puts l t).
Proof.
  induction l as [|c l IH]; intros s t s' Hok H; cbn [puts term_puts fold_left]; [by intros [= <-]|].
  destruct (console_putc_renders s t c Hok H) as (s1 & E1 & S1 & H1). rewrite (mbind_Ret _ _ _ _ _ E1). intros E.
  destruct (IH s1 _ s' (same_screen_ok _ _ S1 Hok) H1 E) as [S2 H2]. split; [by eapply same_screen_trans|done].
Qed.

Definition blank_term (fb : limine_framebuffer) : term :=
  mkTerm (lf_width fb / 8) (lf_height fb / 16) 0 0 (fun _ _ => 32).

(** A framebuffer as the boot loader describes it. *)
Definition framebuffer_ok (fb : limine_framebuffer) : Prop :=
  8 <= lf_width fb /\ 16 <= lf_height fb /\ 4 * lf_width fb <= lf_pitch fb /\
  lf_pitch fb mod 4 = 0 /\ lf_pitch fb * lf_height fb < two64.

Lemma console_init_renders fb s : framebuffer_ok fb ->
  exists s', console_init fb s = Ret tt s' /\ fb_ok s' /\ renders s' (blank_term fb).
Proof.
  intros (Hw & Hh & Hp & Hm & Hsz). unfold console_init.
  set (s1 := mkCon (lf_width fb) (lf_height fb) (lf_pitch fb) (lf_pitch fb / 4) 0 0 (fb_mem s)).
  assert (Hok : fb_ok s1).
  { repeat (split; [done|]). split; [|done]. cbn. pose proof (Z.div_mod (lf_pitch fb) 4 ltac:(lia)). lia. }
  destruct (clear_pixels s1 Hok) as (m & E & Hpix). exists (set_cursor 0 0 (set_mem m s1)).
  unfold mbind, mset. cbn [bindr]. split; [exact E|]. split; [exact Hok|].
  destruct (screen_dims s1 Hok) as (Hc1 & Hr1 & Hcw & Hrh & Hcp). apply renders_of_low; [|cbn in *; lia].
  repeat (split; [cbn in *; done || lia|]). intros x y Hx Hy.
  change (pixel_at (set_cursor 0 0 (set_mem m s1)) m) with (pixel_at s1 m). cbn [fb_mem set_cursor set_mem].
  change (fb_width (set_cursor 0 0 (set_mem m s1)) / 8) with (fb_width s1 / 8) in Hx.
  transitivity 0; [|destruct (_ <? _); [by rewrite glyph_space by (apply Z.mod_pos_bound; lia)|done]].
  apply Hpix; [lia| |exact Hy]. destruct (Z.eq_dec (x + 1) (fb_pixels_per_line s1)); [|left; lia].
  destruct (Z.Even_or_Odd (fb_pixels_per_line s1)) as [He|[k Hk]]; [by right|lia].
Qed.

(** ** Properties *)

(** C17: putting any character on a usable screen succeeds, never touches a
    byte outside the framebuffer, keeps the cursor on the screen and shows
    what a text terminal shows: printable characters drawn at the cursor,
    line wrap, newline, carriage return, tab, backspace and scrolling. *)
Theorem console_putc_correct s t c : fb_ok s -> renders s t ->
  exists s', console_putc c s = Ret tt s' /\ fb_ok s' /\ renders s' (term_putc c t).
Proof.
  intros Hok H. destruct (console_putc_renders s t c Hok H) as (s' & E & S & H').
  exists s'. split; [done|]. split; [by eapply same_screen_ok|done].
Qed.

Lemma console_hex_nz : Forall (fun c => c <> 0) console_hex.
Proof. by repeat (constructor; [lia|]). Qed.

(** After [console_init] on a framebuffer as the boot loader describes it,
    whatever it held before, [console_printf] returns and the screen shows
    exactly the formatted text written to an empty terminal. *)
Theorem console_printf_correct fb junk fmt args text s :
  framebuffer_ok fb -> format console_hex fmt args = Some text ->
  exists s', (console_init fb ;;; console_printf junk fmt args) s = Ret tt s' /\
    renders s' (term_puts text (blank_term fb)).
Proof.
  intros Hfb Et. destruct (console_init_renders fb s Hfb) as (s1 & E1 & Hok & H1). rewrite (mbind_Ret _ _ _ _ _ E1).
  destruct (printf_puts console_putc console_hex junk eq_refl console_hex_nz (fun s => fb_ok s /\ exists t, renders s t)) with (fmt := fmt) (args := args) (t := text) (s := s1)
    as (s' & E & Ep & _); [|eauto|done|].
  - intros c s2 [Hok2 [t2 H2]]. destruct (console_putc_renders s2 t2 c Hok2 H2) as (s3 & E3 & S3 & H3).
    exists s3. split; [done|]. split; [by eapply same_screen_ok|eauto].
  - exists s'. split; [done|]. by apply (puts_renders text s1 (blank_term fb) s').
Qed.

(** A 20 by 40 pixel screen: two columns and two rows, and pixels to spare. *)
Definition demo_fb : limine_framebuffer := mkFb 20 40 96.
Definition demo_con : con := mkCon 0 0 0 0 0 0 ∅.

Lemma console_printf_correct_witness :
  exists s', (console_init demo_fb ;;; console_printf 0xAA [37; 120; 33; 0] [AInt 10]) demo_con = Ret tt s' /\
    renders s' (term_puts [48; 120; 65; 33] (blank_term demo_fb)).
Proof.
  apply (console_printf_correct demo_fb 0xAA [37; 120; 33; 0] [AInt 10] [48; 120; 65; 33] demo_con);
    [vm_compute; repeat split; discriminate|vm_compute; reflexivity].
Defined.

Lemma demo_con_ok : exists s, returned (console_init demo_fb demo_con) = Some (tt, s) /\ fb_ok s /\ renders s (blank_term demo_fb).
Proof.
  destruct (console_init_renders demo_fb demo_con) as (s & E & Hok & H); [vm_compute; repeat split; discriminate|].
  exists s. rewrite E. exact (conj eq_refl (conj Hok H)).
Qed.

Lemma console_putc_correct_witness :
  exists s s', returned (console_init demo_fb demo_con) = Some (tt, s) /\ console_putc 65 s = Ret tt s' /\
    renders s' (term_putc 65 (blank_term demo_fb)).
Proof.
  destruct demo_con_ok as (s & E & Hok & H).
  destruct (console_putc_correct s (blank_term demo_fb) 65 Hok H) as (s' & E' & _ & H').
  exact (ex_intro _ s (ex_intro _ s' (conj E (conj E' H')))).
Defined.

(** The text that fills the small screen scrolls it: "0xA!" leaves "A!" on the
    first line and the cursor at the start of the second. *)
Example demo_scrolled :
  let t := term_puts [48; 120; 65; 33] (blank_term demo_fb) in
  (t_grid t 0 0, t_grid t 0 1, t_grid t 1 0, t_grid t 1 1, t_x t, t_y t) = (65, 33, 32, 32, 0, 1).
Proof. vm_compute. reflexivity. Qed.
