(* ===== verification/Limine.v ===== *)
(** * The boot loader's protocol (limine.h, src/kernel/limine.c)

    The structures of limine.h as C types with the layout the x86-64 ABI gives
    them, the request objects limine.c places in the kernel image, and the
    reads by which [_start], [pmm_init] and [console_init] take the answers
    out of memory.

    A structure of the protocol is written by one program and read by another,
    so what matters is where its fields lie: [limine_layout] compares every
    structure with a table of the protocol's byte offsets, so that what the
    loader stores at the place of a field is what the kernel reads by its name.  The
    loader recognises a request by its four words: [requests_unambiguous] shows
    that, however the linker orders the objects, each word sequence of the
    header occurs in the image at the object that carries it and nowhere else.
    [boot_info_roundtrip] follows the pointers of the answers: the kernel gets
    the first framebuffer, the memory map and the offset that were put there. *)

From stdpp Require Import base gmap list strings.
From Stdlib Require Import ZArith Lia.
From S2P Require Import Prelude Mem Pmm Console.

(** ** C types and their layout *)

#[local] Unset Elimination Schemes.
Inductive cty : Type :=
| CInt (bytes : nat)
| CArr (n : nat) (t : cty)
| CStruct (fields : list (string * cty)).
#[local] Set Elimination Schemes.

Definition uint8_t : cty := CInt 1.
Definition uint16_t : cty := CInt 2.
Definition uint32_t : cty := CInt 4.
Definition uint64_t : cty := CInt 8.
Definition int64_t : cty := CInt 8.
(** [LIMINE_PTR(TYPE)]: a pointer or, with [LIMINE_NO_POINTERS], a [uint64_t]. *)
Definition LIMINE_PTR : cty := CInt 8.

Definition align_up (x a : Z) : Z := (x + (a - 1)) / a * a.

Fixpoint alignof (t : cty) : Z :=
  match t with
  | CInt w => Z.of_nat w
  | CArr _ t => alignof t
  | CStruct fs =>
      (fix go fs := match fs with [] => 1 | (_, t) :: fs' => Z.max (alignof t) (go fs') end) fs
  end.

Fixpoint sizeof (t : cty) : Z :=
  match t with
  | CInt w => Z.of_nat w
  | CArr n t => Z.of_nat n * sizeof t
  | CStruct fs =>
      align_up ((fix go fs off := match fs with
                 | [] => off
                 | (_, t) :: fs' => go fs' (align_up off (alignof t) + sizeof t)
                 end) fs 0) (alignof (CStruct fs))
  end.

(** The scalars of an object at offset [base]: where each lies and its width. *)
Fixpoint leaves (t : cty) (base : Z) : list (Z * nat) :=
  match t with
  | CInt w => [(base, w)]
  | CArr n t => concat ((fun i => leaves t (base + Z.of_nat i * sizeof t)) <$> seq 0 n)
  | CStruct fs =>
      (fix go fs off := match fs with
       | [] => []
       | (_, t) :: fs' => let o := align_up off (alignof t) in leaves t (base + o) ++ go fs' (o + sizeof t)
       end) fs 0
  end.

(** Offset and type of a member. *)
Fixpoint member_at (fs : list (string * cty)) (off : Z) (name : string) : option (Z * cty) :=
  match fs with
  | [] => None
  | (n, t) :: fs' =>
      let o := align_up off (alignof t) in
      if decide (n = name) then Some (o, t) else member_at fs' (o + sizeof t) name
  end.
Definition member (t : cty) (name : string) : option (Z * cty) :=
  match t with CStruct fs => member_at fs 0 name | _ => None end.

(** [p->name], for a scalar member. *)
Definition ld (m : mem) (t : cty) (p : Z) (name : string) : Z :=
  match member t name with
  | Some (o, CInt w) => rdn w m (p + o)
  | _ => 0
  end.

(** ** limine.h *)

Definition LIMINE_COMMON_MAGIC : list Z := [0xc7b1dd30df4c8b88; 0x0a82e883a194f07b].
Definition limine_base_revision (N : Z) : list Z := [0xf9562b2d5c95a6c8; 0x6a7b384944536bdc; N].

Definition limine_uuid : cty :=
  CStruct [("a", uint32_t); ("b", uint16_t); ("c", uint16_t); ("d", CArr 8 uint8_t)]%string.

Definition limine_file : cty :=
  CStruct [("revision", uint64_t); ("address", LIMINE_PTR); ("size", uint64_t); ("path", LIMINE_PTR);
           ("cmdline", LIMINE_PTR); ("media_type", uint32_t); ("unused", uint32_t); ("tftp_ip", uint32_t);
           ("tftp_port", uint32_t); ("partition_index", uint32_t); ("mbr_disk_id", uint32_t);
           ("gpt_disk_uuid", limine_uuid); ("gpt_part_uuid", limine_uuid); ("part_uuid", limine_uuid)]%string.

(** The members every request begins with. *)
Definition request_with (more : list (string * cty)) : cty :=
  CStruct (("id", CArr 4 uint64_t) :: ("revision", uint64_t) :: ("response", LIMINE_PTR) :: more)%string.
Definition response_with (more : list (string * cty)) : cty := CStruct (("revision", uint64_t) :: more)%string.

Definition LIMINE_BOOT_INFO_REQUEST : list Z := LIMINE_COMMON_MAGIC ++ [0xf55038d8e2a1202f; 0x279426fcf5f59740].
Definition limine_boot_info_response : cty := response_with [("name", LIMINE_PTR); ("version", LIMINE_PTR)]%string.
Definition limine_boot_info_request : cty := request_with [].

Definition LIMINE_STACK_SIZE_REQUEST : list Z := LIMINE_COMMON_MAGIC ++ [0x224ef0460a8e8926; 0xe1cb0fc25f46ea3d].
Definition limine_stack_size_response : cty := response_with [].
Definition limine_stack_size_request : cty := request_with [("stack_size", uint64_t)]%string.

Definition LIMINE_HHDM_REQUEST : list Z := LIMINE_COMMON_MAGIC ++ [0x48dcf1cb8ad2b852; 0x63984e959a98244b].
Definition limine_hhdm_response : cty := response_with [("offset", uint64_t)]%string.
Definition limine_hhdm_request : cty := request_with [].

Definition LIMINE_FRAMEBUFFER_REQUEST : list Z := LIMINE_COMMON_MAGIC ++ [0x9d5827dcd881dd75; 0xa3148604f6fab11b].
Definition limine_framebuffer : cty :=
  CStruct [("address", LIMINE_PTR); ("width", uint64_t); ("height", uint64_t); ("pitch", uint64_t);
           ("bpp", uint16_t); ("memory_model", uint8_t); ("red_mask_size", uint8_t); ("red_mask_shift", uint8_t);
           ("green_mask_size", uint8_t); ("green_mask_shift", uint8_t); ("blue_mask_size", uint8_t);
           ("blue_mask_shift", uint8_t); ("unused", CArr 7 uint8_t); ("edid_size", uint64_t);
           ("edid", LIMINE_PTR)]%string.
Definition limine_framebuffer_response : cty :=
  response_with [("framebuffer_count", uint64_t); ("framebuffers", LIMINE_PTR)]%string.
Definition limine_framebuffer_request : cty := request_with [].

Definition LIMINE_TERMINAL_REQUEST : list Z := LIMINE_COMMON_MAGIC ++ [0xc8ac59310c2b0844; 0xa68d0c7265d38878].
Definition limine_terminal : cty :=
  CStruct [("columns", uint64_t); ("rows", uint64_t); ("write", LIMINE_PTR); ("rsvd", CArr 7 LIMINE_PTR)]%string.
Definition limine_terminal_response : cty :=
  response_with [("terminal_count", uint64_t); ("terminals", LIMINE_PTR); ("callback", LIMINE_PTR)]%string.
Definition limine_terminal_request : cty := request_with [("callback", LIMINE_PTR)]%string.

Definition LIMINE_5_LEVEL_PAGING_REQUEST : list Z := LIMINE_COMMON_MAGIC ++ [0x94469551da9b3192; 0xebe5e86db7382888].
Definition limine_5_level_paging_response : cty := response_with [].
Definition limine_5_level_paging_request : cty := request_with [].

Definition LIMINE_SMP_REQUEST : list Z := LIMINE_COMMON_MAGIC ++ [0x95a67b819a1b857e; 0xa0b61b723b6a73e0].
(** The x86 variants. *)
Definition limine_smp_info : cty :=
  CStruct [("processor_id", uint32_t); ("lapic_id", uint32_t); ("reserved", uint64_t);
           ("goto_address", LIMINE_PTR); ("extra_argument", uint64_t)]%string.
Definition limine_smp_response : cty :=
  response_with [("flags", uint32_t); ("bsp_lapic_id", uint32_t); ("cpu_count", uint64_t); ("cpus", LIMINE_PTR)]%string.
Definition limine_smp_request : cty := request_with [("flags", uint64_t)]%string.

Definition LIMINE_MEMMAP_REQUEST : list Z := LIMINE_COMMON_MAGIC ++ [0x67cf3d9d378a806f; 0xe304acdfc50c3c62].
Definition limine_memmap_entry : cty := CStruct [("base", uint64_t); ("length", uint64_t); ("type", uint64_t)]%string.
Definition limine_memmap_response : cty := response_with [("entry_count", uint64_t); ("entries", LIMINE_PTR)]%string.
Definition limine_memmap_request : cty := request_with [].

Definition LIMINE_ENTRY_POINT_REQUEST : list Z := LIMINE_COMMON_MAGIC ++ [0x13d86c035a1cd3e1; 0x2a0bfa9755a7d465].
Definition limine_entry_point_response : cty := response_with [].
Definition limine_entry_point_request : cty := request_with [("entry", LIMINE_PTR)]%string.

Definition LIMINE_KERNEL_FILE_REQUEST : list Z := LIMINE_COMMON_MAGIC ++ [0xad97e90e83f1ed67; 0x31eb5d1c5ff23b69].
Definition limine_kernel_file_response : cty := response_with [("kernel_file", LIMINE_PTR)]%string.
Definition limine_kernel_file_request : cty := request_with [].

Definition LIMINE_MODULE_REQUEST : list Z := LIMINE_COMMON_MAGIC ++ [0x3e7e279702be32af; 0xca1c4f3bd1280cee].
Definition limine_module_response : cty := response_with [("module_count", uint64_t); ("modules", LIMINE_PTR)]%string.
Definition limine_module_request : cty := request_with [].

Definition LIMINE_RSDP_REQUEST : list Z := LIMINE_COMMON_MAGIC ++ [0xc5e77b6b397e7b43; 0x27637845accdcf3].
Definition limine_rsdp_response : cty := response_with [("address", LIMINE_PTR)]%string.
Definition limine_rsdp_request : cty := request_with [].

Definition LIMINE_SMBIOS_REQUEST : list Z := LIMINE_COMMON_MAGIC ++ [0x9e9046f11e095391; 0xaa4a520fefbde5ee].
Definition limine_smbios_response : cty := response_with [("entry_32", LIMINE_PTR); ("entry_64", LIMINE_PTR)]%string.
Definition limine_smbios_request : cty := request_with [].

Definition LIMINE_EFI_SYSTEM_TABLE_REQUEST : list Z := LIMINE_COMMON_MAGIC ++ [0x5ceba5163eaaf6d6; 0x0a6981610cf65fcc].
Definition limine_efi_system_table_response : cty := response_with [("address", LIMINE_PTR)]%string.
Definition limine_efi_system_table_request : cty := request_with [].

Definition LIMINE_BOOT_TIME_REQUEST : list Z := LIMINE_COMMON_MAGIC ++ [0x502746e184c088aa; 0xfbc5ec83e6327893].
Definition limine_boot_time_response : cty := response_with [("boot_time", int64_t)]%string.
Definition limine_boot_time_request : cty := request_with [].

Definition LIMINE_KERNEL_ADDRESS_REQUEST : list Z := LIMINE_COMMON_MAGIC ++ [0x71ba76863cc55f63; 0xb2644a48c516a487].
Definition limine_kernel_address_response : cty :=
  response_with [("physical_base", uint64_t); ("virtual_base", uint64_t)]%string.
Definition limine_kernel_address_request : cty := request_with [].

Definition LIMINE_DTB_REQUEST : list Z := LIMINE_COMMON_MAGIC ++ [0xb40ddb48fb54bac7; 0x545081493f81ffb7].
Definition limine_dtb_response : cty := response_with [("dtb_ptr", LIMINE_PTR)]%string.
Definition limine_dtb_request : cty := request_with [].

Definition limine_requests_start_marker : list Z :=
  [0xf6b8f4b39de7d1ae; 0xfab91a6940fcb9cf; 0x785c6ed015d3e316; 0x181e920a5c44e15f].
Definition limine_requests_end_marker : list Z :=
  [0xadc0e0531bb10d03; 0x9572709b5d6b4eb7; 0xc6edd1b93d7f00ed; 0x3c6a9ac7879b3180].

Definition LIMINE_KERNEL_INFO_MAGIC : Z := 0x11cf02eb4db3c5ce.
Definition limine_kernel_info : cty :=
  CStruct [("magic", uint64_t); ("revision", uint64_t); ("requests_start", LIMINE_PTR); ("requests_end", LIMINE_PTR)]%string.

(** Every structure of the header. *)
Definition limine_structs : list cty :=
  [limine_uuid; limine_file; limine_boot_info_response; limine_boot_info_request; limine_stack_size_response;
   limine_stack_size_request; limine_hhdm_response; limine_hhdm_request; limine_framebuffer;
   limine_framebuffer_response; limine_framebuffer_request; limine_terminal; limine_terminal_response;
   limine_terminal_request; limine_5_level_paging_response; limine_5_level_paging_request; limine_smp_info;
   limine_smp_response; limine_smp_request; limine_memmap_entry; limine_memmap_response; limine_memmap_request;
   limine_entry_point_response; limine_entry_point_request; limine_kernel_file_response;
   limine_kernel_file_request; limine_module_response; limine_module_request; limine_rsdp_response;
   limine_rsdp_request; limine_smbios_response; limine_smbios_request; limine_efi_system_table_response;
   limine_efi_system_table_request; limine_boot_time_response; limine_boot_time_request;
   limine_kernel_address_response; limine_kernel_address_request; limine_dtb_response; limine_dtb_request;
   limine_kernel_info].

(** Every request id of the header. *)
Definition limine_ids : list (list Z) :=
  [LIMINE_BOOT_INFO_REQUEST; LIMINE_STACK_SIZE_REQUEST; LIMINE_HHDM_REQUEST; LIMINE_FRAMEBUFFER_REQUEST;
   LIMINE_TERMINAL_REQUEST; LIMINE_5_LEVEL_PAGING_REQUEST; LIMINE_SMP_REQUEST; LIMINE_MEMMAP_REQUEST;
   LIMINE_ENTRY_POINT_REQUEST; LIMINE_KERNEL_FILE_REQUEST; LIMINE_MODULE_REQUEST; LIMINE_RSDP_REQUEST;
   LIMINE_SMBIOS_REQUEST; LIMINE_EFI_SYSTEM_TABLE_REQUEST; LIMINE_BOOT_TIME_REQUEST;
   LIMINE_KERNEL_ADDRESS_REQUEST; LIMINE_DTB_REQUEST].

(** ** limine.c: the objects, as the 64-bit words of their initialisers

    A member with no initialiser ([response]) is zero. *)

Definition request (id : list Z) (revision : Z) : list Z := id ++ [revision; 0].
Definition framebuffer_request : list Z := request LIMINE_FRAMEBUFFER_REQUEST 1.
Definition memmap_request : list Z := request LIMINE_MEMMAP_REQUEST 2.
Definition hhdm_request : list Z := request LIMINE_HHDM_REQUEST 1.
Definition rsdp_request : list Z := request LIMINE_RSDP_REQUEST 1.
Definition kernel_file_request : list Z := request LIMINE_KERNEL_FILE_REQUEST 1.
(** The arguments are the addresses of the two markers. *)
Definition kernel_info (start_marker end_marker : Z) : list Z :=
  [LIMINE_KERNEL_INFO_MAGIC; 3; start_marker; end_marker].

(** In the order of the file. *)
Definition limine_objects (start_marker end_marker : Z) : list (list Z) :=
  [limine_base_revision 3; framebuffer_request; memmap_request; hhdm_request; rsdp_request; kernel_file_request;
   limine_requests_start_marker; limine_requests_end_marker; kernel_info start_marker end_marker].

(** ** main.c, lines 103-113, and the reads of [pmm_init] and [console_init]

    [fb_req], [mm_req] and [hh_req] are the addresses of the three request
    objects.  The answers are read here as a whole: the kernel reads them
    where it uses them, and nothing it runs before writes to them. *)
Section Answers.
Context (m : mem) (fb_req mm_req hh_req : Z).

(** [fb], NULL or the address of the first framebuffer. *)
Definition boot_fb : Z :=
  let fb_resp := ld m limine_framebuffer_request fb_req "response" in
  if negb (fb_resp =? 0) && (0 <? ld m limine_framebuffer_response fb_resp "framebuffer_count")
  then rd64 m (ld m limine_framebuffer_response fb_resp "framebuffers" + 8 * 0)
  else 0.

Definition boot_mm : Z := ld m limine_memmap_request mm_req "response".

(** [hhdm_offset], 0 before. *)
Definition boot_hhdm : Z :=
  let hhdm_resp := ld m limine_hhdm_request hh_req "response" in
  if negb (hhdm_resp =? 0) then ld m limine_hhdm_response hhdm_resp "offset" else 0.

(** What the console takes from [fb]. *)
Definition read_framebuffer (fb : Z) : Console.limine_framebuffer :=
  mkFb (ld m limine_framebuffer fb "width") (ld m limine_framebuffer fb "height") (ld m limine_framebuffer fb "pitch").
Definition read_bpp (fb : Z) : Z := ld m limine_framebuffer fb "bpp".

(** [for (i = 0; i < mm_resp->entry_count; i++) entry = mm_resp->entries[i]]. *)
Definition read_entry (e : Z) : memmap_entry :=
  mk_entry (ld m limine_memmap_entry e "base") (ld m limine_memmap_entry e "length") (ld m limine_memmap_entry e "type").
Definition read_memmap (mm_resp : Z) : list memmap_entry :=
  (fun i => read_entry (rd64 m (ld m limine_memmap_response mm_resp "entries" + 8 * i)))
    <$> seqZ 0 (ld m limine_memmap_response mm_resp "entry_count").

Definition boot_framebuffer : option Console.limine_framebuffer :=
  if boot_fb =? 0 then None else Some (read_framebuffer boot_fb).
Definition boot_memmap : option (list memmap_entry) :=
  if boot_mm =? 0 then None else Some (read_memmap boot_mm).
End Answers.

(** ** Bytes of a structure filled in field by field *)

(** The [w] bytes of a scalar, the least significant first. *)
Fixpoint enc (w : nat) (v : Z) : list Z :=
  match w with
  | O => []
  | S w' => u8 v :: enc w' (v / 256)
  end.

Fixpoint encode (ws : list nat) (vs : list Z) : list Z :=
  match ws, vs with
  | w :: ws', v :: vs' => enc w v ++ encode ws' vs'
  | _, _ => []
  end.

Definition bytes_at (m : mem) (p : Z) (bs : list Z) : Prop :=
  forall i b, bs !! i = Some b -> rd8 m (p + Z.of_nat i) = b.

(** Offsets when nothing is left between the scalars. *)
Fixpoint packed_from (off : Z) (ws : list nat) : list (Z * nat) :=
  match ws with
  | [] => []
  | w :: ws' => (off, w) :: packed_from (off + Z.of_nat w) ws'
  end.

Definition widths (t : cty) : list nat := (leaves t 0).*2.
Definition packed (t : cty) : bool :=
  bool_decide (leaves t 0 = packed_from 0 (widths t)) && (sizeof t =? Z.of_nat (sum_list (widths t))).

(** An object of type [t] at [p] whose scalars are [vs]. *)
Definition placed (m : mem) (p : Z) (t : cty) (vs : list Z) : Prop :=
  Forall2 (fun w v => 0 <= v < 256 ^ Z.of_nat w) (widths t) vs /\ bytes_at m p (encode (widths t) vs).

Lemma enc_length w v : length (enc w v) = w.
Proof. revert v. induction w; intros v; simpl; [done|]. by rewrite IHw. Qed.

Lemma bytes_at_app m p l1 l2 :
  bytes_at m p (l1 ++ l2) -> bytes_at m p l1 /\ bytes_at m (p + Z.of_nat (length l1)) l2.
Proof.
  intros H. split; intros i b Hi.
  - apply H. by apply lookup_app_l_Some.
  - replace (p + Z.of_nat (length l1) + Z.of_nat i) with (p + Z.of_nat (length l1 + i)) by lia.
    apply H. rewrite lookup_app_r by lia. by replace (length l1 + i - length l1)%nat with i by lia.
Qed.

Lemma rdn_enc w m p v : bytes_at m p (enc w v) -> rdn w m p = v mod 256 ^ Z.of_nat w.
Proof.
  revert p v. induction w as [|w IH]; intros p v H; cbn [rdn enc] in *.
  { by rewrite Z.mod_1_r. }
  change (u8 v :: enc w (v / 256)) with ([u8 v] ++ enc w (v / 256)) in H.
  apply bytes_at_app in H as [H0 H1]. change (Z.of_nat (length [u8 v])) with 1 in H1. rewrite (IH _ _ H1). specialize (H0 0%nat _ eq_refl).
  rewrite Z.add_0_r in H0. rewrite H0. unfold u8, two8.
  rewrite Nat2Z.inj_succ, Z.pow_succ_r by lia.
  rewrite Z.rem_mul_r by (try apply Z.pow_nonzero; lia). lia.
Qed.

Lemma packed_from_lookup ws off i o w :
  packed_from off ws !! i = Some (o, w) -> ws !! i = Some w /\ o = off + Z.of_nat (sum_list (take i ws)).
Proof.
  revert off i. induction ws as [|w' ws IH]; intros off [|i] H; simplify_eq/=; [split; [done|lia]|].
  destruct (IH _ _ H) as [? ->]. split; [done|]. lia.
Qed.

(** The [i]-th scalar of a packed object. *)
Lemma encode_leaf m ws : forall p vs i w v,
  bytes_at m p (encode ws vs) -> ws !! i = Some w -> vs !! i = Some v ->
  rdn w m (p + Z.of_nat (sum_list (take i ws))) = v mod 256 ^ Z.of_nat w.
Proof.
  induction ws as [|w' ws IH]; intros p [|v' vs] [|i] w v H Hw Hv; simplify_eq/=; apply bytes_at_app in H as [H0 H1].
  - rewrite Z.add_0_r. by apply rdn_enc.
  - rewrite enc_length in H1. rewrite Nat2Z.inj_add, Z.add_assoc. by apply (IH _ vs).
Qed.

Lemma placed_leaf m p t vs i o w v :
  packed t = true -> placed m p t vs -> leaves t 0 !! i = Some (o, w) -> vs !! i = Some v ->
  rdn w m (p + o) = v.
Proof.
  unfold packed. rewrite andb_true_iff, bool_decide_eq_true. intros [Hp _] [Hf Hb] Hl Hv.
  rewrite Hp in Hl. apply packed_from_lookup in Hl as [Hw ->]. rewrite Z.add_0_l.
  rewrite (encode_leaf _ _ _ _ _ _ _ Hb Hw Hv). apply Z.mod_small.
  by apply (Forall2_lookup_lr _ _ _ _ _ _ Hf Hw Hv).
Qed.

(** ** The protocol's layout, in bytes

    What both sides agreed on, written without reference to the types above:
    for each structure its size and its members in order, each with the byte
    it begins at and the bytes it takes. *)
Inductive extent : Type :=
| Scalar (bytes : nat)
| Bytes (bytes : nat).
Definition extent_bytes (k : extent) : Z := match k with Scalar w | Bytes w => Z.of_nat w end.

Definition protocol_layout : list (cty * Z * list (string * Z * extent)) :=
  [(limine_uuid, 16, [("a", 0, Scalar 4); ("b", 4, Scalar 2); ("c", 6, Scalar 2); ("d", 8, Bytes 8)]);
   (limine_file, 112, [("revision", 0, Scalar 8); ("address", 8, Scalar 8); ("size", 16, Scalar 8); ("path", 24,
      Scalar 8); ("cmdline", 32, Scalar 8); ("media_type", 40, Scalar 4); ("unused", 44, Scalar 4); ("tftp_ip",
      48, Scalar 4); ("tftp_port", 52, Scalar 4); ("partition_index", 56, Scalar 4); ("mbr_disk_id", 60, Scalar
      4); ("gpt_disk_uuid", 64, Bytes 16); ("gpt_part_uuid", 80, Bytes 16); ("part_uuid", 96, Bytes 16)]);
   (limine_boot_info_response, 24, [("revision", 0, Scalar 8); ("name", 8, Scalar 8); ("version", 16, Scalar
      8)]);
   (limine_boot_info_request, 48, [("id", 0, Bytes 32); ("revision", 32, Scalar 8); ("response", 40, Scalar 8)]);
   (limine_stack_size_response, 8, [("revision", 0, Scalar 8)]);
   (limine_stack_size_request, 56, [("id", 0, Bytes 32); ("revision", 32, Scalar 8); ("response", 40, Scalar 8);
      ("stack_size", 48, Scalar 8)]);
   (limine_hhdm_response, 16, [("revision", 0, Scalar 8); ("offset", 8, Scalar 8)]);
   (limine_hhdm_request, 48, [("id", 0, Bytes 32); ("revision", 32, Scalar 8); ("response", 40, Scalar 8)]);
   (limine_framebuffer, 64, [("address", 0, Scalar 8); ("width", 8, Scalar 8); ("height", 16, Scalar 8);
      ("pitch", 24, Scalar 8); ("bpp", 32, Scalar 2); ("memory_model", 34, Scalar 1); ("red_mask_size", 35,
      Scalar 1); ("red_mask_shift", 36, Scalar 1); ("green_mask_size", 37, Scalar 1); ("green_mask_shift", 38,
      Scalar 1); ("blue_mask_size", 39, Scalar 1); ("blue_mask_shift", 40, Scalar 1); ("unused", 41, Bytes 7);
      ("edid_size", 48, Scalar 8); ("edid", 56, Scalar 8)]);
   (limine_framebuffer_response, 24, [("revision", 0, Scalar 8); ("framebuffer_count", 8, Scalar 8);
      ("framebuffers", 16, Scalar 8)]);
   (limine_framebuffer_request, 48, [("id", 0, Bytes 32); ("revision", 32, Scalar 8); ("response", 40, Scalar
      8)]);
   (limine_terminal, 80, [("columns", 0, Scalar 8); ("rows", 8, Scalar 8); ("write", 16, Scalar 8); ("rsvd", 24,
      Bytes 56)]);
   (limine_terminal_response, 32, [("revision", 0, Scalar 8); ("terminal_count", 8, Scalar 8); ("terminals", 16,
      Scalar 8); ("callback", 24, Scalar 8)]);
   (limine_terminal_request, 56, [("id", 0, Bytes 32); ("revision", 32, Scalar 8); ("response", 40, Scalar 8);
      ("callback", 48, Scalar 8)]);
   (limine_5_level_paging_response, 8, [("revision", 0, Scalar 8)]);
   (limine_5_level_paging_request, 48, [("id", 0, Bytes 32); ("revision", 32, Scalar 8); ("response", 40, Scalar
      8)]);
   (limine_smp_info, 32, [("processor_id", 0, Scalar 4); ("lapic_id", 4, Scalar 4); ("reserved", 8, Scalar 8);
      ("goto_address", 16, Scalar 8); ("extra_argument", 24, Scalar 8)]);
   (limine_smp_response, 32, [("revision", 0, Scalar 8); ("flags", 8, Scalar 4); ("bsp_lapic_id", 12, Scalar 4);
      ("cpu_count", 16, Scalar 8); ("cpus", 24, Scalar 8)]);
   (limine_smp_request, 56, [("id", 0, Bytes 32); ("revision", 32, Scalar 8); ("response", 40, Scalar 8);
      ("flags", 48, Scalar 8)]);
   (limine_memmap_entry, 24, [("base", 0, Scalar 8); ("length", 8, Scalar 8); ("type", 16, Scalar 8)]);
   (limine_memmap_response, 24, [("revision", 0, Scalar 8); ("entry_count", 8, Scalar 8); ("entries", 16, Scalar
      8)]);
   (limine_memmap_request, 48, [("id", 0, Bytes 32); ("revision", 32, Scalar 8); ("response", 40, Scalar 8)]);
   (limine_entry_point_response, 8, [("revision", 0, Scalar 8)]);
   (limine_entry_point_request, 56, [("id", 0, Bytes 32); ("revision", 32, Scalar 8); ("response", 40, Scalar
      8); ("entry", 48, Scalar 8)]);
   (limine_kernel_file_response, 16, [("revision", 0, Scalar 8); ("kernel_file", 8, Scalar 8)]);
   (limine_kernel_file_request, 48, [("id", 0, Bytes 32); ("revision", 32, Scalar 8); ("response", 40, Scalar
      8)]);
   (limine_module_response, 24, [("revision", 0, Scalar 8); ("module_count", 8, Scalar 8); ("modules", 16,
      Scalar 8)]);
   (limine_module_request, 48, [("id", 0, Bytes 32); ("revision", 32, Scalar 8); ("response", 40, Scalar 8)]);
   (limine_rsdp_response, 16, [("revision", 0, Scalar 8); ("address", 8, Scalar 8)]);
   (limine_rsdp_request, 48, [("id", 0, Bytes 32); ("revision", 32, Scalar 8); ("response", 40, Scalar 8)]);
   (limine_smbios_response, 24, [("revision", 0, Scalar 8); ("entry_32", 8, Scalar 8); ("entry_64", 16, Scalar
      8)]);
   (limine_smbios_request, 48, [("id", 0, Bytes 32); ("revision", 32, Scalar 8); ("response", 40, Scalar 8)]);
   (limine_efi_system_table_response, 16, [("revision", 0, Scalar 8); ("address", 8, Scalar 8)]);
   (limine_efi_system_table_request, 48, [("id", 0, Bytes 32); ("revision", 32, Scalar 8); ("response", 40,
      Scalar 8)]);
   (limine_boot_time_response, 16, [("revision", 0, Scalar 8); ("boot_time", 8, Scalar 8)]);
   (limine_boot_time_request, 48, [("id", 0, Bytes 32); ("revision", 32, Scalar 8); ("response", 40, Scalar 8)]);
   (limine_kernel_address_response, 24, [("revision", 0, Scalar 8); ("physical_base", 8, Scalar 8);
      ("virtual_base", 16, Scalar 8)]);
   (limine_kernel_address_request, 48, [("id", 0, Bytes 32); ("revision", 32, Scalar 8); ("response", 40, Scalar
      8)]);
   (limine_dtb_response, 16, [("revision", 0, Scalar 8); ("dtb_ptr", 8, Scalar 8)]);
   (limine_dtb_request, 48, [("id", 0, Bytes 32); ("revision", 32, Scalar 8); ("response", 40, Scalar 8)]);
   (limine_kernel_info, 32, [("magic", 0, Scalar 8); ("revision", 8, Scalar 8); ("requests_start", 16, Scalar
      8); ("requests_end", 24, Scalar 8)])]%string.

Definition member_names (t : cty) : list string := match t with CStruct fs => fs.*1 | _ => [] end.

(** Every field begins where the one before it ends, and the last ends at [size]. *)
Fixpoint tiled (off size : Z) (fields : list (string * Z * extent)) : bool :=
  match fields with
  | [] => off =? size
  | (_, o, k) :: fields' => (o =? off) && tiled (o + extent_bytes k) size fields'
  end.

(** The type [t] has the member [name] at [o] with the extent [k]. *)
Definition field_agrees (t : cty) (f : string * Z * extent) : bool :=
  let '(name, o, k) := f in
  match member t name with
  | Some (o', ty) => (o' =? o) && (sizeof ty =? extent_bytes k) && (o mod alignof ty =? 0) &&
      match k, ty with Scalar w, CInt w' => (w =? w')%nat | Scalar _, _ => false | Bytes _, _ => true end
  | None => false
  end.

Definition layout_agrees (row : cty * Z * list (string * Z * extent)) : bool :=
  let '(t, size, fields) := row in
  (sizeof t =? size) && bool_decide (member_names t = fields.*1.*1) && tiled 0 size fields && forallb (field_agrees t) fields.

Lemma layout_agreed row : row ∈ protocol_layout -> layout_agrees row = true.
Proof.
  assert (H : forallb layout_agrees protocol_layout = true) by (vm_compute; reflexivity).
  rewrite forallb_forall in H. intros Hr. by apply H, list_elem_of_In.
Qed.

Lemma field_agrees_spec t name o k : field_agrees t (name, o, k) = true ->
  exists ty, member t name = Some (o, ty) /\ sizeof ty = extent_bytes k /\ o mod alignof ty = 0 /\
    forall w, k = Scalar w -> ty = CInt w.
Proof.
  unfold field_agrees. destruct (member t name) as [[o' ty]|]; [|done].
  rewrite !andb_true_iff, !Z.eqb_eq. intros [[[-> ?] ?] Hk]. exists ty. do 3 (split; [done|]).
  intros w ->. destruct ty; [|done|done]. apply Nat.eqb_eq in Hk. by subst.
Qed.

(** A scalar the loader stored at the place the protocol gives a member is
    what the kernel reads by the member's name. *)
Lemma ld_stored t name o w m p v : member t name = Some (o, CInt w) -> 0 <= v < 256 ^ Z.of_nat w ->
  bytes_at m (p + o) (enc w v) -> ld m t p name = v.
Proof. intros Hm Hv Hb. unfold ld. rewrite Hm, (rdn_enc _ _ _ _ Hb). by apply Z.mod_small. Qed.

(** C34: the kernel and the loader agree on every structure of the protocol.
    The table of the protocol's places has a row for each structure of the
    header.  The type of the row has the row's size and exactly the row's
    members, in its order, each at the row's byte with the row's width,
    aligned, with no gap between them; and a value the loader stores at the
    place of a scalar member is the value the kernel reads by that member's
    name, wherever the object lies. *)
Theorem limine_layout (t : cty) (size : Z) (fields : list (string * Z * extent)) :
  (t, size, fields) ∈ protocol_layout ->
  protocol_layout.*1.*1 = limine_structs /\ sizeof t = size /\ member_names t = fields.*1.*1 /\ tiled 0 size fields = true /\
  (forall name o k, (name, o, k) ∈ fields ->
     exists ty, member t name = Some (o, ty) /\ sizeof ty = extent_bytes k /\ o mod alignof ty = 0) /\
  (forall name o w m p v, (name, o, Scalar w) ∈ fields -> 0 <= v < 256 ^ Z.of_nat w ->
     bytes_at m (p + o) (enc w v) -> ld m t p name = v).
Proof.
  intros Hr. apply layout_agreed in Hr. cbn [layout_agrees] in Hr.
  rewrite !andb_true_iff, Z.eqb_eq, bool_decide_eq_true, forallb_forall in Hr. destruct Hr as [[[Hs Hn] Ht] Hf].
  assert (Hm : forall name o k, (name, o, k) ∈ fields -> exists ty, member t name = Some (o, ty) /\
    sizeof ty = extent_bytes k /\ o mod alignof ty = 0 /\ forall w, k = Scalar w -> ty = CInt w).
  { intros name o k Hin. apply field_agrees_spec, Hf. by apply list_elem_of_In. }
  split; [reflexivity|]. do 3 (split; [done|]). split.
  - intros name o k Hin. destruct (Hm _ _ _ Hin) as (ty & ? & ? & ? & _). by exists ty.
  - intros name o w m p v Hin. destruct (Hm _ _ _ Hin) as (ty & Hty & _ & _ & Hw). rewrite (Hw w eq_refl) in Hty. by apply ld_stored.
Qed.

(** ** Recognising the requests in the image *)

(** The positions (in words) at which the word sequence [id] stands. *)
Fixpoint occurs (id img : list Z) (pos : nat) : list nat :=
  match img with
  | [] => []
  | _ :: img' => (if decide (take (length id) img = id) then [pos] else []) ++ occurs id img' (S pos)
  end.

Definition limine_requests : list (list Z) :=
  [framebuffer_request; memmap_request; hhdm_request; rsdp_request; kernel_file_request].

(** The first word of every request. *)
#[local] Abbreviation magic := 0xc7b1dd30df4c8b88.

Lemma occurs_skip id rest t : forall pos, length id = 4%nat -> head id = Some magic -> magic ∉ t ->
  occurs id (t ++ rest) pos = occurs id rest (pos + length t).
Proof.
  induction t as [|x t IH]; intros pos Hl Hh Ht; cbn [app length]; [by rewrite Nat.add_0_r|].
  apply not_elem_of_cons in Ht as [Hx Ht]. cbn [occurs]. rewrite decide_False.
  - simpl. rewrite IH by done. f_equal. lia.
  - intros E. rewrite Hl in E. destruct id as [|y id]; [done|]. simpl in Hh. injection Hh as ->. simpl in E. congruence.
Qed.

(** An object that can only be matched at its beginning. *)
Definition recognisable (o : list Z) : Prop :=
  exists x t, o = x :: t /\ (magic ∉ t) /\ (x = magic -> (4 <= length o)%nat).

Lemma occurs_object id o rest pos : length id = 4%nat -> head id = Some magic -> recognisable o ->
  occurs id (o ++ rest) pos =
    (if decide (take 4 o = id) then [pos] else []) ++ occurs id rest (pos + length o).
Proof.
  intros Hl Hh (x & t & -> & Ht & Hx). cbn [app occurs]. rewrite Hl, occurs_skip by done.
  f_equal; [|f_equal; simpl; lia]. destruct (decide (x = magic)) as [->|Hne].
  - change (magic :: t ++ rest) with ((magic :: t) ++ rest). rewrite take_app_le by auto. done.
  - rewrite !decide_False; [done| |]; intros E; destruct id as [|y id]; simplify_eq/=.
Qed.

Lemma occurs_none id l : length id = 4%nat -> head id = Some magic -> Forall recognisable l ->
  (forall o, o ∈ l -> take 4 o <> id) -> forall pos, occurs id (concat l) pos = [].
Proof.
  intros Hl Hh Hr Hn. induction Hr as [|o l Ho Hr IH]; intros pos; [done|]. cbn [concat].
  rewrite occurs_object, decide_False by (done || (apply Hn; left)). apply IH. intros. apply Hn. by right.
Qed.

Lemma occurs_once id r l1 l2 : length id = 4%nat -> head id = Some magic -> Forall recognisable (l1 ++ r :: l2) ->
  take 4 r = id -> (forall o, o ∈ l1 ++ l2 -> take 4 o <> id) ->
  occurs id (concat (l1 ++ r :: l2)) 0 = [length (concat l1)].
Proof.
  intros Hl Hh Hr E Hn. apply Forall_app in Hr as [Hr1 Hr2].
  assert (Hgen : forall pos, occurs id (concat (l1 ++ r :: l2)) pos = [(pos + length (concat l1))%nat]).
  { induction Hr1 as [|o l1 Ho Hr1 IH]; intros pos.
    - apply Forall_cons in Hr2 as [Hrr Hr2]. cbn [concat app length]. rewrite occurs_object, decide_True by done.
      rewrite occurs_none by done. by rewrite Nat.add_0_r.
    - cbn [concat app]. rewrite occurs_object, decide_False by (done || (apply Hn; left)).
      simpl. rewrite IH by (intros; apply Hn; by right). f_equal. rewrite length_app. lia. }
  apply Hgen.
Qed.

(** The markers lie in the kernel image, above the base of linker.ld. *)
Definition image_address (a : Z) : Prop := 0xffffffff80000000 <= a < two64.

Section Image.
Context (a b : Z) (Ha : image_address a) (Hb : image_address b).

Lemma objects_recognisable : Forall recognisable (limine_objects a b).
Proof using Ha Hb.
  unfold image_address in *.
  let l := eval vm_compute in (limine_objects a b) in change (Forall recognisable l).
  repeat apply Forall_cons_2; try apply Forall_nil_2;
    (eexists _, _; split; [reflexivity|]; split; [|cbn [length]; lia]);
    rewrite !not_elem_of_cons; split_and!; first [lia|apply not_elem_of_nil].
Qed.

Lemma objects_nodup : NoDup (limine_objects a b).
Proof.
  unfold limine_objects. rewrite !NoDup_cons, !not_elem_of_cons.
  split_and!; try apply not_elem_of_nil; try apply NoDup_nil_2; discriminate.
Qed.

(** Objects that begin with the words of a request are that request. *)
Lemma object_of_id r o : r ∈ limine_requests -> o ∈ limine_objects a b -> take 4 o = take 4 r -> o = r.
Proof.
  intros Hr Ho.
  assert (H : Forall (fun r => Forall (fun o => take 4 o = take 4 r -> o = r) (limine_objects a b)) limine_requests).
  { repeat (apply Forall_cons_2 || apply Forall_nil_2); intros E; first [reflexivity|discriminate E]. }
  rewrite Forall_forall in H. specialize (H r Hr). rewrite Forall_forall in H. auto.
Qed.

Lemma id_of_object id o : id ∈ limine_ids -> o ∈ limine_objects a b -> take 4 o = id -> o ∈ limine_requests.
Proof.
  intros Hid Ho E. assert (Hh : head o = Some magic).
  { assert (H : Forall (fun id => head id = Some magic) limine_ids) by (repeat constructor).
    rewrite Forall_forall in H. specialize (H _ Hid). rewrite <- E in H. by destruct o. }
  assert (H : Forall (fun o => head o = Some magic -> o ∈ limine_requests) (limine_objects a b)).
  { repeat (apply Forall_cons_2 || apply Forall_nil_2); intros E'; try discriminate E'; unfold limine_requests; rewrite !elem_of_cons; tauto. }
  rewrite Forall_forall in H. auto.
Qed.
End Image.

Lemma limine_ids_shape id : id ∈ limine_ids -> length id = 4%nat /\ head id = Some magic.
Proof.
  assert (H : Forall (fun id => length id = 4%nat /\ head id = Some magic) limine_ids) by (repeat constructor).
  rewrite Forall_forall in H. apply H.
Qed.

(** In whatever order the linker puts the objects of limine.c, a loader
    that looks for the four words of a request finds each of the five requests
    of the kernel at exactly one place, the object itself, and finds none of
    the other requests of the header: no id is the prefix of another object,
    lies across two objects, or occurs among revisions, markers and
    addresses. *)
Theorem requests_unambiguous (a b : Z) (l : list (list Z)) :
  image_address a -> image_address b -> l ≡ₚ limine_objects a b ->
  (forall r, r ∈ limine_requests ->
     exists l1 l2, l = l1 ++ r :: l2 /\ occurs (take 4 r) (concat l) 0 = [length (concat l1)]) /\
  (forall id, id ∈ limine_ids -> id ∉ take 4 <$> limine_requests -> occurs id (concat l) 0 = []).
Proof.
  intros Ha Hb Hl.
  assert (Hrec : Forall recognisable l) by (rewrite Hl; by apply objects_recognisable).
  assert (Hnd : NoDup l) by (rewrite Hl; apply objects_nodup). split.
  - intros r Hr. assert (Hrl : r ∈ l).
    { rewrite Hl. unfold limine_requests, limine_objects in *. rewrite !elem_of_cons in *. tauto. }
    apply list_elem_of_split in Hrl as (l1 & l2 & ->). exists l1, l2. split; [done|].
    assert (Hid : take 4 r ∈ limine_ids).
    { revert r Hr Hl Hrec Hnd. assert (H : Forall (fun r => take 4 r ∈ limine_ids) limine_requests) by (apply (bool_decide_unpack _); by vm_compute).
      rewrite Forall_forall in H. auto. }
    destruct (limine_ids_shape _ Hid) as [Hlen Hh]. apply occurs_once; try done.
    intros o Ho E. rewrite <- Permutation_middle in Hnd. apply NoDup_cons in Hnd as [Hnd _]. apply Hnd.
    rewrite <- (object_of_id a b r o Hr); [done| |done]. rewrite <- Hl, <- Permutation_middle. by right.
  - intros id Hid Hn. destruct (limine_ids_shape _ Hid) as [Hlen Hh]. apply occurs_none; try done.
    intros o Ho E. apply Hn. rewrite <- E. apply list_elem_of_fmap_2. rewrite Hl in Ho. by apply (id_of_object a b id).
Qed.

Definition index_of (o : list Z) (l : list (list Z)) : option nat := fst <$> list_find (o =.) l.

(** [r] stands after the start marker and before the end marker. *)
Definition enclosed (l : list (list Z)) (r : list Z) : bool :=
  match index_of limine_requests_start_marker l, index_of r l, index_of limine_requests_end_marker l with
  | Some i, Some j, Some k => (i <? j)%nat && (j <? k)%nat
  | _, _, _ => false
  end.

(** The two markers are declared one after the other, behind the requests:
    neither in the order of the file nor in the opposite one does a request
    lie between them. *)
Lemma requests_not_enclosed a b :
  Forall (fun r => enclosed (limine_objects a b) r = false /\ enclosed (reverse (limine_objects a b)) r = false) limine_requests.
Proof. repeat (apply Forall_cons_2 || apply Forall_nil_2); split; vm_compute; reflexivity. Qed.

(** ** Following the answers *)

(** The [i]-th pointer of an array. *)
Definition pointers_at (m : mem) (arr : Z) (ps : list Z) : Prop :=
  forall i p, ps !! i = Some p -> rd64 m (arr + 8 * Z.of_nat i) = p.

(** A framebuffer the loader describes: where, and its scalars; the ones
    after [bpp] are not used by the kernel. *)
Record fb_answer : Type := mk_fb_answer { fa_at : Z; fa_address : Z; fa_fb : Console.limine_framebuffer; fa_bpp : Z; fa_rest : list Z }.
Definition fa_scalars (f : fb_answer) : list Z :=
  [fa_address f; lf_width (fa_fb f); lf_height (fa_fb f); lf_pitch (fa_fb f); fa_bpp f] ++ fa_rest f.

(** A request as limine.c leaves it, or with its answer: the [response]
    member points to a response, that points to an array of pointers. *)
Definition fb_answered (m : mem) (fb_req : Z) (o : option (list fb_answer)) : Prop :=
  match o with
  | None => placed m fb_req limine_framebuffer_request framebuffer_request
  | Some fbs => exists resp rev arr, resp <> 0 /\
      placed m fb_req limine_framebuffer_request (LIMINE_FRAMEBUFFER_REQUEST ++ [1; resp]) /\
      placed m resp limine_framebuffer_response [rev; Z.of_nat (length fbs); arr] /\
      pointers_at m arr (fa_at <$> fbs) /\
      Forall (fun f => fa_at f <> 0 /\ placed m (fa_at f) limine_framebuffer (fa_scalars f)) fbs
  end.

Definition mm_answered (m : mem) (mm_req : Z) (o : option (list (Z * memmap_entry))) : Prop :=
  match o with
  | None => placed m mm_req limine_memmap_request memmap_request
  | Some es => exists resp rev arr, resp <> 0 /\
      placed m mm_req limine_memmap_request (LIMINE_MEMMAP_REQUEST ++ [2; resp]) /\
      placed m resp limine_memmap_response [rev; Z.of_nat (length es); arr] /\
      pointers_at m arr es.*1 /\
      Forall (fun '(p, e) => placed m p limine_memmap_entry [me_base e; me_length e; me_type e]) es
  end.

Definition hhdm_answered (m : mem) (hh_req : Z) (o : option Z) : Prop :=
  match o with
  | None => placed m hh_req limine_hhdm_request hhdm_request
  | Some offset => exists resp rev, resp <> 0 /\
      placed m hh_req limine_hhdm_request (LIMINE_HHDM_REQUEST ++ [1; resp]) /\
      placed m resp limine_hhdm_response [rev; offset]
  end.

(** Reading a member by name is reading its scalar. *)
Lemma ld_placed m p t vs name i o w v :
  packed t = true -> placed m p t vs -> member t name = Some (o, CInt w) -> leaves t 0 !! i = Some (o, w) ->
  vs !! i = Some v -> ld m t p name = v.
Proof.
  intros Ht Hpl Hm Hi Hv. unfold ld. rewrite Hm. exact (placed_leaf m p t vs i o w v Ht Hpl Hi Hv).
Qed.

(** [ldp H i]: the member named in the goal is the [i]-th scalar of the object [H] describes. *)
Ltac ldp H i := eapply (ld_placed _ _ _ _ _ i); [vm_compute; reflexivity|exact H|reflexivity|reflexivity|reflexivity].

Lemma boot_fb_answered m fb_req o : fb_answered m fb_req o ->
  boot_fb m fb_req = match o with Some (f :: _) => fa_at f | _ => 0 end.
Proof.
  unfold boot_fb. destruct o as [fbs|]; simpl; intros H.
  - destruct H as (resp & rev & arr & Hne & Hq & Hr & Hp & _).
    replace (ld m limine_framebuffer_request fb_req "response") with resp by (symmetry; ldp Hq 5%nat).
    replace (ld m limine_framebuffer_response resp "framebuffer_count") with (Z.of_nat (length fbs)) by (symmetry; ldp Hr 1%nat).
    replace (ld m limine_framebuffer_response resp "framebuffers") with arr by (symmetry; ldp Hr 2%nat).
    destruct (Z.eqb_spec resp 0); [done|]. destruct fbs as [|f fbs]; [done|]. exact (Hp 0%nat _ eq_refl).
  - replace (ld m limine_framebuffer_request fb_req "response") with 0; [done|]. symmetry. ldp H 5%nat.
Qed.

Lemma boot_framebuffer_answered m fb_req o : fb_answered m fb_req o ->
  boot_framebuffer m fb_req = match o with Some (f :: _) => Some (fa_fb f) | _ => None end /\
  (forall f fbs, o = Some (f :: fbs) -> read_bpp m (boot_fb m fb_req) = fa_bpp f).
Proof.
  intros H. unfold boot_framebuffer. rewrite (boot_fb_answered _ _ _ H).
  destruct o as [[|f fbs]|]; [by split| |by split].
  destruct H as (resp & rev & arr & _ & _ & _ & _ & Hf). apply Forall_cons in Hf as [[Hne Hpl] _].
  destruct (Z.eqb_spec (fa_at f) 0); [done|]. split.
  - f_equal. unfold read_framebuffer. destruct f as [at_ ad [w h pi] bpp rest]. simpl in *.
    f_equal; [ldp Hpl 1%nat|ldp Hpl 2%nat|ldp Hpl 3%nat].
  - intros f' fbs' [= -> ->]. unfold read_bpp. ldp Hpl 4%nat.
Qed.

Lemma boot_memmap_answered m mm_req o : mm_answered m mm_req o ->
  boot_memmap m mm_req = (fun es => es.*2) <$> o.
Proof.
  unfold boot_memmap, boot_mm. destruct o as [es|]; simpl; intros H.
  - destruct H as (resp & rev & arr & Hne & Hq & Hr & Hp & Hf).
    replace (ld m limine_memmap_request mm_req "response") with resp by (symmetry; ldp Hq 5%nat).
    destruct (Z.eqb_spec resp 0); [done|]. f_equal. unfold read_memmap.
    replace (ld m limine_memmap_response resp "entry_count") with (Z.of_nat (length es)) by (symmetry; ldp Hr 1%nat).
    replace (ld m limine_memmap_response resp "entries") with arr by (symmetry; ldp Hr 2%nat).
    apply list_eq. intros i. rewrite !list_lookup_fmap. destruct (es !! i) as [[p e]|] eqn:Ei.
    + rewrite lookup_seqZ_lt by (apply lookup_lt_Some in Ei; lia). simpl. f_equal. rewrite Z.add_0_l.
      rewrite (Hp i p) by (by rewrite list_lookup_fmap, Ei).
      rewrite Forall_lookup in Hf. specialize (Hf i _ Ei). simpl in Hf. destruct e as [b l t]. unfold read_entry.
      f_equal; [ldp Hf 0%nat|ldp Hf 1%nat|ldp Hf 2%nat].
    + rewrite lookup_seqZ_ge; [done|]. apply lookup_ge_None in Ei. lia.
  - replace (ld m limine_memmap_request mm_req "response") with 0; [done|]. symmetry. ldp H 5%nat.
Qed.

Lemma boot_hhdm_answered m hh_req o : hhdm_answered m hh_req o -> boot_hhdm m hh_req = default 0 o.
Proof.
  unfold boot_hhdm. destruct o as [off|]; simpl; intros H.
  - destruct H as (resp & rev & Hne & Hq & Hr).
    replace (ld m limine_hhdm_request hh_req "response") with resp by (symmetry; ldp Hq 5%nat).
    destruct (Z.eqb_spec resp 0); [done|]. ldp Hr 1%nat.
  - replace (ld m limine_hhdm_request hh_req "response") with 0; [done|]. symmetry. ldp H 5%nat.
Qed.

(** C26: what the loader puts in memory is what the kernel starts with.  For
    each of the three requests, unanswered or answered with structures placed
    anywhere, [_start] gets the first framebuffer (width, height, pitch,
    depth) or none, every entry of the memory map in order or no map, and the
    offset of the direct map or 0. *)
Theorem boot_info_roundtrip (m : mem) (fb_req mm_req hh_req : Z) fbs es offset :
  fb_answered m fb_req fbs -> mm_answered m mm_req es -> hhdm_answered m hh_req offset ->
  boot_framebuffer m fb_req = match fbs with Some (f :: _) => Some (fa_fb f) | _ => None end /\
  (forall f rest, fbs = Some (f :: rest) -> read_bpp m (boot_fb m fb_req) = fa_bpp f) /\
  boot_memmap m mm_req = (fun es => es.*2) <$> es /\
  boot_hhdm m hh_req = default 0 offset.
Proof.
  intros Hf Hm Hh. destruct (boot_framebuffer_answered m fb_req fbs Hf) as [E1 E2].
  split; [done|]. split; [done|]. split; [by apply boot_memmap_answered|by apply boot_hhdm_answered].
Qed.

(** ** Witnesses: a machine with one framebuffer and two memory regions *)

Fixpoint bytes_atb (m : mem) (p : Z) (bs : list Z) : bool :=
  match bs with
  | [] => true
  | b :: bs' => (rd8 m p =? b) && bytes_atb m (p + 1) bs'
  end.

Lemma bytes_atb_sound m bs : forall p, bytes_atb m p bs = true -> bytes_at m p bs.
Proof.
  induction bs as [|b bs IH]; intros p H [|i] x Hx; simplify_eq/=; apply andb_true_iff in H as [H1 H2].
  - rewrite Z.add_0_r. by apply Z.eqb_eq.
  - replace (p + Z.of_nat (S i)) with (p + 1 + Z.of_nat i) by lia. by apply IH.
Qed.

Fixpoint fitb (ws : list nat) (vs : list Z) : bool :=
  match ws, vs with
  | [], [] => true
  | w :: ws', v :: vs' => (0 <=? v) && (v <? 256 ^ Z.of_nat w) && fitb ws' vs'
  | _, _ => false
  end.

Lemma fitb_sound ws : forall vs, fitb ws vs = true -> Forall2 (fun w v => 0 <= v < 256 ^ Z.of_nat w) ws vs.
Proof.
  induction ws as [|w ws IH]; intros [|v vs] H; try discriminate H; constructor; simpl in H.
  - rewrite !andb_true_iff, Z.leb_le, Z.ltb_lt in H. tauto.
  - apply IH. apply andb_true_iff in H. tauto.
Qed.

Definition placedb (m : mem) (p : Z) (t : cty) (vs : list Z) : bool :=
  fitb (widths t) vs && bytes_atb m p (encode (widths t) vs).
Lemma placedb_sound m p t vs : placedb m p t vs = true -> placed m p t vs.
Proof. unfold placedb. rewrite andb_true_iff. intros [H1 H2]. split; [by apply fitb_sound|by apply bytes_atb_sound]. Qed.

Definition poke (m : mem) (p : Z) (bs : list Z) : mem :=
  snd (fold_left (fun '(a, m) b => (a + 1, wr8 m a b)) bs (p, m)).
Definition put_struct (p : Z) (t : cty) (vs : list Z) (m : mem) : mem := poke m p (encode (widths t) vs).

Definition demo_answer : fb_answer :=
  mk_fb_answer 0x4000 0xfd000000 (mkFb 800 600 3200) 32 ([1; 8; 16; 8; 8; 8; 0] ++ replicate 7 0 ++ [0; 0]).
Definition demo_entries : list (Z * memmap_entry) := [(0x5000, mk_entry 0x10000 0xC8000 0); (0x5018, mk_entry 0xfd000000 1920000 7)].

Definition demo_answers : mem :=
  put_struct 0x1000 limine_framebuffer_request (LIMINE_FRAMEBUFFER_REQUEST ++ [1; 0x2000])
  (put_struct 0x1100 limine_memmap_request (LIMINE_MEMMAP_REQUEST ++ [2; 0x2100])
  (put_struct 0x1200 limine_hhdm_request (LIMINE_HHDM_REQUEST ++ [1; 0x2200])
  (put_struct 0x2000 limine_framebuffer_response [1; 1; 0x3000]
  (put_struct 0x2100 limine_memmap_response [0; 2; 0x3100]
  (put_struct 0x2200 limine_hhdm_response [0; 0xffff800000000000]
  (put_struct 0x3000 (CArr 1 LIMINE_PTR) [0x4000]
  (put_struct 0x3100 (CArr 2 LIMINE_PTR) [0x5000; 0x5018]
  (put_struct 0x4000 limine_framebuffer (fa_scalars demo_answer)
  (put_struct 0x5000 limine_memmap_entry [0x10000; 0xC8000; 0]
  (put_struct 0x5018 limine_memmap_entry [0xfd000000; 1920000; 7] ∅)))))))))).

Lemma demo_fb_answered : fb_answered demo_answers 0x1000 (Some [demo_answer]).
Proof.
  exists 0x2000, 1, 0x3000. split; [done|]. split; [apply placedb_sound; vm_compute; reflexivity|].
  split; [apply placedb_sound; vm_compute; reflexivity|]. split.
  - intros [|i] p Hp; [|by destruct i]. injection Hp as <-. vm_compute. reflexivity.
  - constructor; [|constructor]. split; [done|]. apply placedb_sound. vm_compute. reflexivity.
Qed.

Lemma demo_mm_answered : mm_answered demo_answers 0x1100 (Some demo_entries).
Proof.
  exists 0x2100, 0, 0x3100. split; [done|]. split; [apply placedb_sound; vm_compute; reflexivity|].
  split; [apply placedb_sound; vm_compute; reflexivity|]. split.
  - intros [|[|i]] p Hp; [| |by destruct i]; injection Hp as <-; vm_compute; reflexivity.
  - repeat (apply Forall_cons_2 || apply Forall_nil_2); apply placedb_sound; vm_compute; reflexivity.
Qed.

Lemma demo_hhdm_answered : hhdm_answered demo_answers 0x1200 (Some 0xffff800000000000).
Proof. exists 0x2200, 0. split; [done|]. split; apply placedb_sound; vm_compute; reflexivity. Qed.

Lemma boot_info_roundtrip_witness :
  boot_framebuffer demo_answers 0x1000 = Some (mkFb 800 600 3200) /\
  boot_memmap demo_answers 0x1100 = Some demo_entries.*2 /\ boot_hhdm demo_answers 0x1200 = 0xffff800000000000.
Proof.
  destruct (boot_info_roundtrip _ _ _ _ _ _ _ demo_fb_answered demo_mm_answered demo_hhdm_answered) as (E1 & _ & E2 & E3).
  split; [exact E1|]. split; [exact E2|exact E3].
Defined.

(** The framebuffer of the machine: its pitch stands at byte 24. *)
Lemma limine_layout_witness :
  sizeof limine_framebuffer = 64 /\ ld demo_answers limine_framebuffer 0x4000 "pitch" = 3200 /\
  ld demo_answers limine_memmap_entry 0x5018 "length" = 1920000.
Proof.
  destruct (limine_layout limine_framebuffer 64
    (default [] ((fun r => r.2) <$> protocol_layout !! 8%nat))) as (_ & Es & _ & _ & _ & H).
  { apply (list_elem_of_lookup_2 _ 8). reflexivity. }
  destruct (limine_layout limine_memmap_entry 24 [("base", 0, Scalar 8); ("length", 8, Scalar 8); ("type", 16, Scalar 8)]%string)
    as (_ & _ & _ & _ & _ & H').
  { apply (list_elem_of_lookup_2 _ 19). reflexivity. }
  split; [exact Es|]. split.
  - apply (H "pitch"%string 24 8%nat); [apply (list_elem_of_lookup_2 _ 3); reflexivity|lia|].
    apply bytes_atb_sound. vm_compute. reflexivity.
  - apply (H' "length"%string 8 8%nat); [apply (list_elem_of_lookup_2 _ 1); reflexivity|lia|].
    apply bytes_atb_sound. vm_compute. reflexivity.
Defined.

Lemma requests_unambiguous_witness :
  exists l1 l2, reverse (limine_objects 0xffffffff80005000 0xffffffff80005020) = l1 ++ hhdm_request :: l2 /\
    occurs LIMINE_HHDM_REQUEST (concat (reverse (limine_objects 0xffffffff80005000 0xffffffff80005020))) 0 = [length (concat l1)].
Proof.
  refine (proj1 (requests_unambiguous 0xffffffff80005000 0xffffffff80005020
    (reverse (limine_objects 0xffffffff80005000 0xffffffff80005020)) _ _ _) hhdm_request _).
  - unfold image_address, two64. lia.
  - unfold image_address, two64. lia.
  - apply reverse_Permutation.
  - unfold limine_requests. rewrite !elem_of_cons. tauto.
Defined.
