(* ===== verification/Irq.v ===== *)
(** * Interrupts (src/kernel/irq.c, src/kernel/isr_handler.c)

    The table that forwards device interrupts to message ports and the common
    interrupt handler, on the state of the components it calls. *)

From stdpp Require Import base gmap list fin_maps.
From Stdlib Require Import ZArith Lia.
From S2P Require Import Prelude Mem Pmm Vmm PageTables Heap HeapFacts KernelMem Chain Descriptors Sched SchedFacts.
From S2P Require Import SchedRun Timer TimerFacts Ipc IpcFacts KbdBuf.

(** ** irq.c: the table *)

Record irq_slot := mk_slot { sl_port : Z; sl_in_use : Z }.
Record irq_t := mk_irq { irq_table : list irq_slot; irq_lock : Z }.

Definition set_irq_table (x : list irq_slot) (s : irq_t) : irq_t := mk_irq x (irq_lock s).
Definition set_irq_lock (x : Z) (s : irq_t) : irq_t := mk_irq (irq_table s) x.

(** The static initial values. *)
Definition irq_boot : irq_t := mk_irq (replicate 16 (mk_slot 0 0)) 0.

(** [irq_table[i]]: an index past the array faults. *)
Definition get_slot (i : Z) : M irq_t irq_slot := fun s => mopt (irq_table s !! Z.to_nat i) s.
Definition put_slot (i : Z) (x : irq_slot) : M irq_t unit :=
  mset (fun s => set_irq_table (<[Z.to_nat i := x]> (irq_table s)) s).

Definition irq_init : M irq_t unit :=
  mfor 16 0 (fun i => x <- get_slot i ;; put_slot i (mk_slot (sl_port x) 0)).

(** [irq] is a byte. *)
Definition irq_register (irq port : Z) : M irq_t Z :=
  if 16 <=? irq then mret (-1)
  else
    spin_lock irq_lock set_irq_lock ;;;
    x <- get_slot irq ;;
    if truthy (sl_in_use x) then spin_unlock set_irq_lock ;;; mret (-1)
    else
      put_slot irq (mk_slot port 1) ;;;
      spin_unlock set_irq_lock ;;;
      mret 0.

(** ** isr_handler.c: the scan codes *)

Definition scancode_tbl : list Z :=
  [ 0; 0; 49; 50; 51; 52; 53; 54; 55; 56; 57; 48; 45; 61; 0; 0
  ; 113; 119; 101; 114; 116; 121; 117; 105; 111; 112; 91; 93; 0; 0; 97; 115
  ; 100; 102; 103; 104; 106; 107; 108; 59; 39; 96; 0; 92; 122; 120; 99; 118
  ; 98; 110; 109; 44; 46; 47; 0; 0; 0; 32; 0 ] ++ replicate 69 0.

Definition scancode_to_ascii (sc : Z) : Z :=
  if sc <? 128 then u8 (nth (Z.to_nat sc) scancode_tbl 0) else 0.

(** [struct regs]: the fields the handler reads. *)
Record regs := mk_regs { int_no : Z; err_code : Z }.

Section Isr.
Context {H : Type} `{HK : KHeap H}.
#[local] Abbreviation sched := (@sched_t H).
(** The bytes of [msg.data] on the handler's stack, where [msg] lies there,
    and what the keyboard controller's ports 0x64 (n-th read) and 0x60 give. *)
Context (junk_data : list Z) (frame : Z) (status : nat -> Z) (data : Z).

(** The components a handler can reach, and the bytes sent to the interrupt
    controllers, the newest first. *)
Record kernel := mk_kernel {
  k_sched : sched; k_timer : timer_t; k_ipc : ipc_t; k_kbd : kbd_t; k_irq : irq_t; k_out : list (Z * Z) }.

Definition on_sched {A} (m : M sched A) : M kernel A :=
  zoom k_sched (fun x k => mk_kernel x (k_timer k) (k_ipc k) (k_kbd k) (k_irq k) (k_out k)) m.
Definition on_st {A} (m : M (sched * timer_t) A) : M kernel A :=
  zoom (fun k => (k_sched k, k_timer k))
    (fun p k => mk_kernel (fst p) (snd p) (k_ipc k) (k_kbd k) (k_irq k) (k_out k)) m.
Definition on_si {A} (m : M (sched * ipc_t) A) : M kernel A :=
  zoom (fun k => (k_sched k, k_ipc k))
    (fun p k => mk_kernel (fst p) (k_timer k) (snd p) (k_kbd k) (k_irq k) (k_out k)) m.
Definition on_kbd {A} (m : M kbd_t A) : M kernel A :=
  zoom k_kbd (fun x k => mk_kernel (k_sched k) (k_timer k) (k_ipc k) x (k_irq k) (k_out k)) m.
Definition on_irq {A} (m : M irq_t A) : M kernel A :=
  zoom k_irq (fun x k => mk_kernel (k_sched k) (k_timer k) (k_ipc k) (k_kbd k) x (k_out k)) m.
Definition outb (port val : Z) : M kernel unit :=
  mset (fun k => mk_kernel (k_sched k) (k_timer k) (k_ipc k) (k_kbd k) (k_irq k) ((port, val) :: k_out k)).

(** A message on the stack: it exists during the call. *)
Definition with_msg (m : ipc_message) (f : Z -> M (sched * ipc_t) unit) : M (sched * ipc_t) unit :=
  on_i (write_msg frame m) ;;;
  f frame ;;;
  on_i (mset (fun s => set_ip_msgs (delete frame (ip_msgs s)) s)).

Definition irq_handler (irq : Z) : M kernel unit :=
  on_irq (spin_lock irq_lock set_irq_lock) ;;;
  x <- (if irq <? 16 then on_irq (get_slot irq) else mret (mk_slot 0 0)) ;;
  if (irq <? 16) && truthy (sl_in_use x) then
    on_irq (spin_unlock set_irq_lock) ;;;
    on_si (with_msg (mk_msg 0 junk_data) (ipc_kernel_send (sl_port x)))
  else on_irq (spin_unlock set_irq_lock).

(** The log message is left out; the thread does not come back. *)
Definition page_fault_handler : M kernel unit := on_sched thread_exit.

(** [do { st = inb(0x64) } while (!(st & 1))] *)
Fixpoint kbc_wait (fuel n : nat) : M kernel unit :=
  match fuel with
  | O => mhang
  | Datatypes.S fuel' => if Z.land (status n) 1 =? 0 then kbc_wait fuel' (Datatypes.S n) else mret tt
  end.

Definition isr_keyboard (fuel : nat) : M kernel unit :=
  kbc_wait fuel 0 ;;;
  let sc := u8 data in
  (if Z.land sc 0x80 =? 0 then
     let ch := scancode_to_ascii sc in
     if truthy ch then on_kbd (kbd_buf_put ch) else mret tt
   else mret tt) ;;;
  outb 0x20 0x20.

(** Lines 53-60: forward the interrupt and acknowledge it. *)
Definition isr_generic (r : regs) : M kernel unit :=
  if (32 <=? int_no r) && (int_no r <=? 47) then
    irq_handler (u8 (int_no r - 32)) ;;;
    (if 40 <=? int_no r then outb 0xA0 0x20 else mret tt) ;;;
    outb 0x20 0x20
  else mret tt.

Definition isr_handler (fuel : nat) (r : regs) : M kernel unit :=
  if int_no r =? 14 then page_fault_handler
  else
    (if int_no r =? 32 then on_st timer_tick ;;; on_sched schedule else mret tt) ;;;
    if int_no r =? 33 then isr_keyboard fuel
    else isr_generic r.

End Isr.
Arguments kernel H : clear implicits.

(** ** Facts *)

Definition irq_inv (s : irq_t) : Prop := irq_lock s = 0 /\ length (irq_table s) = 16%nat.

Lemma irq_boot_inv : irq_inv irq_boot.
Proof. done. Qed.

Lemma get_slot_ok s i : irq_inv s -> 0 <= i < 16 -> exists x, irq_table s !! Z.to_nat i = Some x.
Proof. intros [_ Hl] Hi. apply lookup_lt_is_Some_2. lia. Qed.

Lemma high_bit_clear sc : 0 <= sc < 256 -> (Z.land sc 0x80 =? 0) = (sc <? 128).
Proof.
  intros Hsc. assert (Hall : forallb (fun n => Bool.eqb (Z.land (Z.of_nat n) 0x80 =? 0) (Z.of_nat n <? 128)) (seq 0 256) = true)
    by (vm_compute; reflexivity).
  rewrite forallb_forall in Hall. specialize (Hall (Z.to_nat sc)). rewrite Z2Nat.id in Hall by lia.
  apply Bool.eqb_prop, Hall, in_seq. lia.
Qed.

Section IsrFacts.
Context {H : Type} `{HK : KHeap H}.
Context (junk_data : list Z) (frame : Z) (status : nat -> Z) (data : Z).
#[local] Abbreviation sched := (@sched_t H).

(** An empty message from the handler's stack. *)
Lemma with_msg_spec (s : sched * ipc_t) q ps port :
  length junk_data = 256%nat -> frame <> 0 -> ipc_inv s q ps -> ip_msgs (snd s) !! frame = None -> 0 <= port < 64 ->
  exists s' v, ps !! Z.to_nat port = Some v /\
    with_msg frame (mk_msg 0 junk_data) (ipc_kernel_send port) s = Ret tt s' /\
    match pv_rcv v with
    | [] => ipc_inv s' q ps /\ fst s' = fst s /\ ip_msgs (snd s') = ip_msgs (snd s)
    | w :: l => exists buf, w_body w = Rcv buf /\
        ipc_inv s' (q ++ filter (blocked (fst s)) [w_thr w]) (<[Z.to_nat port := mk_pv (pv_snd v) l]> ps) /\
        (buf <> 0 -> exists m, ip_msgs (snd s') = <[buf := m]> (ip_msgs (snd s)) /\ msg_length m = 0) /\
        (blocked (fst s) (w_thr w) -> state_of (s_threads (fst s')) (w_thr w) = Some THREAD_STATE_READY) /\
        same_others (fst s) (fst s') (filter (blocked (fst s)) [w_thr w])
    end.
Proof.
  destruct s as [sc ip]. cbn [fst snd]. intros junk_len frame_nz Hi Hf Hp. unfold with_msg.
  set (M := <[frame := mk_msg 0 junk_data]> (ip_msgs ip)).
  assert (E0 : on_i (write_msg frame (mk_msg 0 junk_data)) (sc, ip) = Ret tt (sc, set_ip_msgs M ip)) by reflexivity.
  rewrite (mbind_Ret _ _ _ _ _ E0).
  assert (Hok : forall a m, M !! a = Some m -> msg_ok m).
  { intros a m. unfold M. rewrite lookup_insert. case_decide; [by intros [= <-]|]. apply (ic_msgs _ _ _ (proj1 Hi)). }
  assert (Hbufs : forall i v w a, ps !! i = Some v -> w ∈ pv_rcv v -> w_body w = Rcv a -> a <> 0 -> is_Some (ip_msgs ip !! a)).
  { intros i v w a Hv Hw Hb Ha. by apply (receiver_buffer (sc, ip) q ps i v w a). }
  assert (Hi1 : ipc_inv (sc, set_ip_msgs M ip) q ps).
  { apply ipc_inv_msgs; [done|done|]. intros i v w a Hv Hw Hb Ha. unfold M. rewrite lookup_insert.
    case_decide; [done|]. by apply (Hbufs i v w a). }
  destruct (kernel_send_spec (sc, set_ip_msgs M ip) q ps port frame (mk_msg 0 junk_data) Hi1 Hp frame_nz) as ([sc' ip'] & v & Hv & E & Hs');
    [apply lookup_insert_eq|]. rewrite (mbind_Ret _ _ _ _ _ E). cbn [fst snd] in *.
  set (s2 := (sc', set_ip_msgs (delete frame (ip_msgs ip')) ip') : sched * ipc_t). exists s2, v. split; [done|]. split; [done|].
  assert (Hdel : forall q' ps', ipc_inv (sc', ip') q' ps' ->
    (forall i v w a, ps' !! i = Some v -> w ∈ pv_rcv v -> w_body w = Rcv a -> a <> 0 -> is_Some (ip_msgs ip !! a)) -> ipc_inv s2 q' ps').
  { intros q' ps' Hi' Hb'. apply ipc_inv_msgs; [done| |].
    - intros a m [_ Ha]%lookup_delete_Some. by apply (ic_msgs _ _ _ (proj1 Hi')) in Ha.
    - intros i v' w a Hv' Hw Hb Ha. rewrite lookup_delete_ne; [by apply (receiver_buffer (sc', ip') q' ps' i v' w a)|].
      intros <-. destruct (Hb' i v' w frame Hv' Hw Hb Ha). congruence. }
  destruct (pv_rcv v) as [|w l] eqn:Hq.
  - destruct Hs' as (Hi' & -> & Hms). split; [by apply Hdel|]. split; [done|]. cbn [s2 snd ip_msgs set_ip_msgs].
    rewrite Hms. cbn [ip_msgs set_ip_msgs]. unfold M. by apply delete_insert_id.
  - destruct Hs' as (buf & Hb & Hi' & Hrec & Hrd). exists buf. split; [done|]. split; [|split; [|done]].
    + apply Hdel; [done|]. intros i v' w' a Hv' Hw'. destruct (decide (i = Z.to_nat port)) as [->|Hne].
      * rewrite list_lookup_insert_eq in Hv' by (by eapply lookup_lt_Some). injection Hv' as <-. cbn [pv_rcv] in Hw'.
        apply (Hbufs _ v w' a Hv). rewrite Hq. by right.
      * rewrite list_lookup_insert_ne in Hv' by done. by apply (Hbufs i v' w' a).
    + intros Hb0. destruct (Z.eqb_spec buf 0); [done|]. destruct Hrec as (m & Hms & _ & Hlen & _). exists m.
      split; [|done]. cbn [s2 snd ip_msgs set_ip_msgs]. rewrite Hms. cbn [ip_msgs set_ip_msgs].
      assert (buf <> frame). { intros ->. destruct (Hbufs _ v w frame Hv ltac:(rewrite Hq; left) Hb frame_nz). congruence. }
      rewrite delete_insert_ne by done. unfold M. by rewrite delete_insert_id.
Qed.

Lemma kbc_wait_ready n : forall fuel m (k : kernel H), (n < fuel)%nat -> Z.land (status (m + n)%nat) 1 <> 0 ->
  (forall i, (i < n)%nat -> Z.land (status (m + i)%nat) 1 = 0) -> kbc_wait status fuel m k = Ret tt k.
Proof.
  induction n as [|n IH]; intros [|fuel] m k Hf Hr Hb; try lia; cbn [kbc_wait].
  - rewrite Nat.add_0_r in Hr. destruct (Z.eqb_spec (Z.land (status m) 1) 0); done.
  - pose proof (Hb 0%nat ltac:(lia)) as H0. rewrite Nat.add_0_r in H0. rewrite H0. cbn [Z.eqb]. apply IH; [lia| |].
    + by replace (S m + n)%nat with (m + S n)%nat by lia.
    + intros i Hi. replace (S m + i)%nat with (m + S i)%nat by lia. apply Hb. lia.
Qed.

(** An interrupt nobody has registered for leaves the kernel as it was. *)
Lemma irq_handler_unused (k : kernel H) irq :
  irq_inv (k_irq k) -> 0 <= irq ->
  (forall x, irq_table (k_irq k) !! Z.to_nat irq = Some x -> sl_in_use x = 0) ->
  irq_handler junk_data frame irq k = Ret tt k.
Proof.
  intros Hi H0 Hx. destruct k as [ks kt ki kk [tbl lk] ko]. destruct Hi as [Hl Hn]. cbn in Hl, Hn, Hx. subst lk.
  unfold irq_handler, on_irq. mstep. cbn [Z.eqb irq_lock k_irq zoomr bindr]. destruct (Z.ltb_spec irq 16); cbn [andb]; [|done].
  destruct (lookup_lt_is_Some_2 tbl (Z.to_nat irq)) as [x E]; [lia|]. unfold get_slot. cbn [k_irq irq_table set_irq_lock].
  rewrite E. cbn [mopt zoomr bindr]. rewrite (Hx x E). done.
Qed.

(** ** Properties *)

(** An interrupt registered for a port is forwarded: the longest waiting
    list head among the receivers gets an empty message and becomes ready
    behind the ready threads; with no receiver waiting nothing changes.  The
    message of the handler's stack does not outlive the call, and the
    handler always returns. *)
Theorem irq_forwarded (k : kernel H) q ps irq x :
  length junk_data = 256%nat -> frame <> 0 -> irq_inv (k_irq k) -> ipc_inv (k_sched k, k_ipc k) q ps -> ip_msgs (k_ipc k) !! frame = None ->
  0 <= irq < 16 -> irq_table (k_irq k) !! Z.to_nat irq = Some x -> sl_in_use x <> 0 -> 0 <= sl_port x < 64 ->
  exists k' v, ps !! Z.to_nat (sl_port x) = Some v /\ irq_handler junk_data frame irq k = Ret tt k' /\
    k_irq k' = k_irq k /\ k_timer k' = k_timer k /\ k_kbd k' = k_kbd k /\ k_out k' = k_out k /\
    match pv_rcv v with
    | [] => ipc_inv (k_sched k', k_ipc k') q ps /\ k_sched k' = k_sched k
    | w :: l => exists buf, w_body w = Rcv buf /\
        ipc_inv (k_sched k', k_ipc k') (q ++ filter (blocked (k_sched k)) [w_thr w])
          (<[Z.to_nat (sl_port x) := mk_pv (pv_snd v) l]> ps) /\
        (buf <> 0 -> exists m, ip_msgs (k_ipc k') = <[buf := m]> (ip_msgs (k_ipc k)) /\ msg_length m = 0) /\
        (blocked (k_sched k) (w_thr w) -> state_of (s_threads (k_sched k')) (w_thr w) = Some THREAD_STATE_READY)
    end.
Proof.
  intros Hj Hfr Hi Hipc Hf H0 Hx Hu Hp. destruct k as [ks kt ki kk [tbl lk] ko]. destruct Hi as [Hl Hn]. cbn in Hl, Hn, Hx, Hipc, Hf. subst lk.
  destruct (with_msg_spec (ks, ki) q ps (sl_port x) Hj Hfr Hipc Hf Hp) as ([sc' ip'] & v & Hv & E & Hs').
  exists (mk_kernel sc' kt ip' kk (mk_irq tbl 0) ko), v. split; [done|]. cbn [k_sched k_ipc k_irq k_timer k_kbd k_out fst snd] in *.
  split; [|destruct (pv_rcv v); [destruct Hs' as (? & -> & _); done|destruct Hs' as (buf & ? & ? & ? & ? & _); split_and!; try done; by exists buf]].
  unfold irq_handler, on_irq, on_si. mstep. cbn [Z.eqb irq_lock k_irq zoomr bindr].
  destruct (Z.ltb_spec irq 16); [|lia]. unfold get_slot. cbn [k_irq irq_table set_irq_lock k_sched k_ipc andb].
  rewrite Hx. cbn [mopt zoomr bindr]. unfold truthy. destruct (Z.eqb_spec (sl_in_use x) 0); [done|]. cbn [negb bindr k_sched k_ipc].
  rewrite E. done.
Qed.

(** C25: the timer interrupt advances the clock, moves the sleepers that are
    due behind the ready threads and switches to the first ready thread, in
    this order.  The interrupt is acknowledged only when the interrupted
    thread runs again: no byte has gone to the interrupt controller when the
    next thread starts. *)
Theorem timer_interrupt fuel (k : kernel H) q l :
  timer_inv (k_sched k, k_timer k) q l -> asleep (k_sched k, k_timer k) l ->
  let now := u64 (ticks (k_timer k) + 1) in
  let q1 := q ++ (n_thr <$> filter (due now) l) in
  exists k' f, isr_handler junk_data frame status data fuel (mk_regs 32 0) k = Switch k' f /\
    ticks (k_timer k') = now /\ current_thread (k_sched k') = hd (idle_thread_ptr (k_sched k)) q1 /\
    state_of (s_threads (k_sched k')) (current_thread (k_sched k')) = Some THREAD_STATE_RUNNING /\
    k_out k' = k_out k /\
    forall k2, irq_inv (k_irq k2) -> irq_table (k_irq k2) !! 0%nat = Some (mk_slot 0 0) ->
      exists k3, f k2 = Ret tt k3 /\ k_out k3 = (0x20, 0x20) :: k_out k2 /\ k_sched k3 = k_sched k2.
Proof.
  intros Hi Hsl now q1. destruct (timer_tick_gen _ q l Hi (proj1 Hsl)) as ([sc1 tm1] & E1 & [Hc1 _] & Ho & Ht).
  rewrite (woken_asleep _ l _ Hsl) in Hc1, Ho. cbn [fst snd] in *. fold now q1 in Hc1.
  destruct (schedule_gen sc1 q1 (tc_sched _ _ _ Hc1)) as (sc2 & E2 & I2 & Hr & Hcur & Hidle & _ & _ & (n & Hn & Hst & _) & _).
  destruct k as [ks kt ki kk kq ko]. cbn [k_sched k_timer k_out] in *.
  eexists (mk_kernel sc2 tm1 ki kk kq ko), _. split; [|split; [|split; [|split; [|split]]]].
  - unfold isr_handler, on_st, on_sched. cbn [int_no Z.eqb Pos.eqb]. mstep. cbn [k_sched k_timer]. rewrite E1. cbn [zoomr bindr fst snd k_sched].
    rewrite E2. cbn [zoomr bindr]. reflexivity.
  - exact Ht.
  - cbn [k_sched]. rewrite Hcur. destruct Ho as (_ & _ & -> & _). done.
  - cbn [k_sched]. unfold state_of. rewrite Hn. cbn. by rewrite Hst.
  - done.
  - intros k2 Hq Hx. cbn [bindr zoomr].
    set (k2' := mk_kernel _ _ _ _ _ _). exists (mk_kernel (k_sched k2) (k_timer k2) (k_ipc k2) (k_kbd k2) (k_irq k2) ((0x20, 0x20) :: k_out k2)).
    split; [|done]. cbn [int_no Z.eqb Pos.eqb]. unfold isr_generic. cbn [int_no Z.leb Z.compare Pos.compare Pos.compare_cont andb].
    change (u8 (32 - 32)) with 0. unfold mbind at 1. rewrite (irq_handler_unused k2'); [|done|lia|].
    + destruct k2; reflexivity.
    + intros x. change (irq_table (k_irq k2) !! 0%nat = Some x -> sl_in_use x = 0). rewrite Hx. by intros [= <-].
Qed.

Lemma keyboard_spec fuel n (k : kernel H) cs :
  kbd_rep (k_kbd k) cs -> (n < fuel)%nat -> Z.land (status n) 1 <> 0 -> (forall i, (i < n)%nat -> Z.land (status i) 1 = 0) ->
  let ch := scancode_to_ascii (u8 data) in
  exists kb, isr_handler junk_data frame status data fuel (mk_regs 33 0) k =
      Ret tt (mk_kernel (k_sched k) (k_timer k) (k_ipc k) kb (k_irq k) ((0x20, 0x20) :: k_out k)) /\
    kbd_rep kb (if (u8 data <? 128) && truthy ch then fifo_put ch cs else cs).
Proof.
  intros Hk Hn Hready Hbusy ch. unfold isr_handler. cbn [int_no Z.eqb Pos.eqb]. unfold isr_keyboard.
  assert (Hw : kbc_wait status fuel 0 k = Ret tt k).
  { apply (kbc_wait_ready n); [lia|by rewrite Nat.add_0_l|]. intros i Hi. rewrite Nat.add_0_l. by apply Hbusy. }
  unfold mbind at 1. unfold mret at 1. cbn [bindr]. rewrite (mbind_Ret _ _ _ _ _ Hw).
  assert (Hsc : (Z.land (u8 data) 0x80 =? 0) = (u8 data <? 128)) by (apply high_bit_clear, Z.mod_pos_bound; done).
  rewrite Hsc. cbv zeta. fold ch. destruct (u8 data <? 128); cbn [andb]; [destruct (truthy ch)|].
  - destruct (kbd_put_spec _ _ ch Hk) as (kb & E & Hkb). exists kb. split; [|done]. unfold on_kbd. mstep. rewrite E. done.
  - exists (k_kbd k). split; [|done]. by destruct k.
  - exists (k_kbd k). split; [|done]. by destruct k.
Qed.

(** C35: a key press puts the character of its scan code into the keyboard
    buffer and is acknowledged; releases and keys without a character are
    only acknowledged.  Nothing else changes, whatever [irq_register] has
    stored for interrupt 1: it is never forwarded to a port. *)
Theorem keyboard_interrupt fuel n (k : kernel H) cs :
  kbd_rep (k_kbd k) cs -> (n < fuel)%nat -> Z.land (status n) 1 <> 0 -> (forall i, (i < n)%nat -> Z.land (status i) 1 = 0) ->
  let ch := scancode_to_ascii (u8 data) in
  exists kb, isr_handler junk_data frame status data fuel (mk_regs 33 0) k =
      Ret tt (mk_kernel (k_sched k) (k_timer k) (k_ipc k) kb (k_irq k) ((0x20, 0x20) :: k_out k)) /\
    kbd_rep kb (if (u8 data <? 128) && truthy ch then fifo_put ch cs else cs).
Proof. apply keyboard_spec. Qed.

(** A page fault ends the running thread: the handler never returns, the
    next ready thread runs and the dead one is in no queue. *)
Theorem page_fault_kills fuel (k : kernel H) q e :
  sched_inv (k_sched k) q -> requeues (k_sched k) ->
  exists k', isr_handler junk_data frame status data fuel (mk_regs 14 e) k = Gone k' /\
    sched_inv (k_sched k') (tail q) /\ current_thread (k_sched k') = hd (idle_thread_ptr (k_sched k)) q /\
    state_of (s_threads (k_sched k')) (current_thread (k_sched k)) = Some 0 /\ k_out k' = k_out k.
Proof.
  intros I Hr. destruct (exit_current_spec _ q I Hr) as (s1 & E1 & I1 & Hr1 & Hst & Hc & Hid & _).
  destruct (schedule_gen s1 q I1) as (s2 & E2 & I2 & _ & Hcur & _ & _ & _ & _ & Hoth).
  rewrite requeued_tail in I2 by done. rewrite Hid in Hcur.
  exists (mk_kernel s2 (k_timer k) (k_ipc k) (k_kbd k) (k_irq k) (k_out k)). cbn [k_sched k_out].
  split; [|split; [done|split; [done|split; [|done]]]].
  - unfold isr_handler, page_fault_handler, on_sched, thread_exit, no_return. cbn [int_no Z.eqb Pos.eqb]. mstep.
    rewrite E1. cbn [bindr]. rewrite E2. done.
  - rewrite Hoth; [done|tauto|]. rewrite Hcur. destruct Hr as [Hrun Hni]. destruct q as [|a q]; simpl; [done|].
    intros Ea. rewrite <- Ea, (si_ready _ _ I a ltac:(left)) in Hrun || rewrite Ea, (si_ready _ _ I a ltac:(left)) in Hrun. done.
Qed.
End IsrFacts.

(** Registering an interrupt takes a free slot of the table and refuses
    numbers past it and slots in use, which stay as they are. *)
Theorem irq_register_correct s irq port :
  irq_inv s -> 0 <= irq < 256 ->
  (16 <= irq -> irq_register irq port s = Ret (-1) s) /\
  (irq < 16 -> exists x, irq_table s !! Z.to_nat irq = Some x /\
     if sl_in_use x =? 0 then
       exists s', irq_register irq port s = Ret 0 s' /\ irq_inv s' /\
         irq_table s' !! Z.to_nat irq = Some (mk_slot port 1) /\
         forall j, j <> Z.to_nat irq -> irq_table s' !! j = irq_table s !! j
     else irq_register irq port s = Ret (-1) s).
Proof.
  intros Hi H0. pose proof Hi as [Hl Hn]. unfold irq_register. split; intros Hq; [by destruct (Z.leb_spec 16 irq); [|lia]|].
  destruct (Z.leb_spec 16 irq); [lia|]. destruct (get_slot_ok s irq Hi ltac:(lia)) as [x Hx]. exists x. split; [done|].
  unfold get_slot. mstep. rewrite Hl. cbn [Z.eqb bindr irq_table set_irq_lock]. rewrite Hx. cbn [bindr]. unfold truthy.
  destruct (Z.eqb_spec (sl_in_use x) 0); cbn [negb].
  - eexists. split; [done|]. cbn [irq_table set_irq_table set_irq_lock].
    split; [split; [done|cbn [irq_table set_irq_table set_irq_lock]; by rewrite length_insert]|].
    split; [apply list_lookup_insert_eq; lia|]. intros j Hj. by rewrite list_lookup_insert_ne.
  - destruct s. cbn in *. by subst.
Qed.

(** ** Witnesses *)

Definition demo_irq : irq_t := mk_irq (<[4%nat := mk_slot 3 1]> (replicate 16 (mk_slot 0 0))) 0.

Lemma irq_register_correct_witness : irq_register 16 3 irq_boot = Ret (-1) irq_boot.
Proof. apply (irq_register_correct irq_boot 16 3); [exact irq_boot_inv|lia|lia]. Defined.

Definition demo_kernel {H} (s : @sched_t H) (tm : timer_t) : kernel H :=
  mk_kernel s tm (ipc_boot demo_msgs) kbd_boot demo_irq [].

Lemma irq_forwarded_witness :
  exists s k', demo_started = Some s /\
    irq_handler (replicate 256 0) 3000 4 (demo_kernel s timer_boot) = Ret tt k' /\ k_sched k' = s.
Proof.
  destruct demo_running as (s & ls & E & I & Hok & Hr).
  destruct (irq_forwarded (replicate 256 0) 3000 (demo_kernel s timer_boot) [] no_waits 4 (mk_slot 3 1) eq_refl)
    as (k' & v & Hv & E' & _ & _ & _ & _ & Hm).
  - discriminate.
  - exact (conj eq_refl eq_refl).
  - exact (ipc_boot_inv s [] ls demo_msgs I Hok demo_msgs_ok).
  - reflexivity.
  - lia.
  - reflexivity.
  - discriminate.
  - cbn. lia.
  - apply no_waits_lookup in Hv. subst v. destruct Hm as [_ Hs].
    exists s, k'. split; [exact E|]. split; [exact E'|exact Hs].
Defined.

Lemma page_fault_kills_witness :
  exists s k', demo_started = Some s /\
    isr_handler (replicate 256 0) 3000 (fun _ => 0) 0 0 (mk_regs 14 2) (demo_kernel s timer_boot) = Gone k'.
Proof.
  destruct demo_running as (s & ls & E & I & Hok & Hr).
  destruct (page_fault_kills (replicate 256 0) 3000 (fun _ => 0) 0 0 (demo_kernel s timer_boot) [] 2 I Hr) as (k' & E' & _).
  exists s, k'. split; [exact E|exact E'].
Defined.

(** The key Q (scan code 0x10) on an empty buffer, ready at the second poll. *)
Lemma keyboard_interrupt_witness :
  exists s kb, demo_started = Some s /\
    isr_handler (replicate 256 0) 3000 (fun n => if (n =? 1)%nat then 1 else 0) 0x10 2 (mk_regs 33 0) (demo_kernel s timer_boot) =
      Ret tt (mk_kernel s timer_boot (ipc_boot demo_msgs) kb demo_irq [(0x20, 0x20)]) /\ kbd_rep kb [113].
Proof.
  destruct demo_running as (s & ls & E & I & Hok & Hr).
  destruct (keyboard_interrupt (replicate 256 0) 3000 (fun n => if (n =? 1)%nat then 1 else 0) 0x10 2 1 (demo_kernel s timer_boot) [])
    as (kb & E' & Hkb); [exact kbd_boot_rep|lia|discriminate|by intros [|i] Hi; [|lia]|].
  exists s, kb. split; [exact E|]. split; [exact E'|exact Hkb].
Defined.

Lemma timer_interrupt_witness :
  exists s k' f, demo_started = Some s /\
    isr_handler (replicate 256 0) 3000 (fun _ => 0) 0 0 (mk_regs 32 0) (demo_kernel s timer_boot) = Switch k' f /\
    ticks (k_timer k') = 1 /\ k_out k' = [] /\
    exists k3, f (demo_kernel s timer_boot) = Ret tt k3 /\ k_out k3 = [(0x20, 0x20)].
Proof.
  destruct demo_running as (s & ls & E & I & Hok & Hr).
  destruct (timer_interrupt (replicate 256 0) 3000 (fun _ => 0) 0 0 (demo_kernel s timer_boot) [] [] (timer_inv_boot s [] ls I Hok)
    (asleep_nil _)) as (k' & f & E' & Ht & _ & _ & Hout & Hres).
  exists s, k', f. split; [exact E|]. split; [exact E'|]. split; [exact Ht|]. split; [exact Hout|].
  destruct (Hres (demo_kernel s timer_boot) (conj eq_refl eq_refl) eq_refl) as (k3 & E3 & Ho & _).
  exists k3. split; [exact E3|exact Ho].
Defined.
