(* ===== verification/System.v ===== *)
(** * The kernel as a whole

    The components of Irq.v (scheduler, sleep timer, message ports, keyboard
    buffer, interrupt table) share the heap and the threads.  This file states
    what holds of them together and the events that can happen: interrupts,
    and the calls threads make.  An event runs until it returns or gives the
    processor away; what is left of it then waits to be resumed, in whatever
    state the others have produced.  (System calls run with interrupts masked;
    for kernel threads this leaves out an interrupt inside an operation, whose
    effects TimerFacts.v and SchedRun.v examine.) *)

From stdpp Require Import base gmap list fin_maps.
From Stdlib Require Import ZArith Lia.
From S2P Require Import Prelude Mem Pmm Vmm PageTables Heap HeapFacts KernelMem Chain Descriptors Sched SchedFacts.
From S2P Require Import SchedRun Timer TimerFacts Ipc IpcFacts KbdBuf Irq.

(** ** A client's view of a shared heap

    The same heap with some blocks in use set aside: what is proved of a
    component against the interface holds with the blocks of the others
    around. *)
Section Framed.
Context {H : Type} `{HK : KHeap H} (F : list (Z * Z)).

Lemma framed_perm s ls ls' : kh_view s (ls ++ F) -> ls ≡ₚ ls' -> kh_view s (ls' ++ F).
Proof. intros Hv Hp. eapply kh_view_perm; [exact Hv|by rewrite Hp]. Qed.

Lemma framed_malloc n s ls : 0 <= n < two32 -> kh_view s (ls ++ F) ->
  (exists p sz s', kh_malloc n s = Ret p s' /\ p <> 0 /\ n <= sz /\ (p ∉ ls.*1) /\ kh_view s' (((p, sz) :: ls) ++ F)) \/
  (kh_scarce s n /\ (kh_malloc n s = Fault \/ exists s', kh_malloc n s = Ret 0 s' /\ kh_view s' (ls ++ F))).
Proof.
  intros Hn Hv. destruct (kh_malloc_spec n s _ Hn Hv) as [(p & sz & s' & E & H0 & Hsz & Hf & Hv')|Hsc]; [left|by right].
  exists p, sz, s'. rewrite fmap_app, elem_of_app in Hf. split_and!; try done. tauto.
Qed.

Definition framed : KHeap H := {|
  kh_malloc := kh_malloc;
  kh_free := kh_free;
  kh_view := fun s ls => kh_view s (ls ++ F);
  kh_scarce := kh_scarce;
  kh_view_perm := framed_perm;
  kh_view_nonzero := fun s ls p z Hv Hin => kh_view_nonzero s (ls ++ F) p z Hv (proj2 (elem_of_app _ _ _) (or_introl Hin));
  kh_view_apart := fun s ls p1 z1 p2 z2 Hv H1 H2 =>
    kh_view_apart s (ls ++ F) p1 z1 p2 z2 Hv (proj2 (elem_of_app _ _ _) (or_introl H1)) (proj2 (elem_of_app _ _ _) (or_introl H2));
  kh_malloc_spec := framed_malloc;
  kh_free_spec := fun s ls p sz Hv => kh_free_spec s (ls ++ F) p sz Hv
|}.
End Framed.

(** ** Outcomes that respect an invariant

    Started in [s], a computation returns, ends or gives the processor away in
    a state with the invariant, and what is left of it then is [T].  It does
    not wait for a lock for ever, does not loop, and faults only where [O]
    allows it. *)
Definition safe {S A} (I O : S -> Prop) (T : M S A) (s : S) (r : res S A) : Prop :=
  match r with
  | Ret _ s' | Gone s' => I s'
  | Switch s' k => I s' /\ forall x, k x = T x
  | Spin | Hang => False
  | Fault => O s
  end.

Section System.
Context {H : Type} `{HK : KHeap H}.
#[local] Abbreviation sched := (@sched_t H).
(** As in Irq.v, and what fresh blocks hold. *)
Context (junk userspace_entry : Z) (junk_msg : ipc_message).
Context (junk_data : list Z) (frame : Z) (status : nat -> Z) (data : Z) (fuel : nat).

(** ** Events *)

Inductive event : Type :=
| Interrupt (r : regs)
| Yield
| Exit
| Sleep (deadline : Z)
| Send (port msg : Z)
| Recv (port msg : Z)
| Register (irq port : Z)
| ReadKey
| Create (entry cr3 proc : Z)
| CreateUser (entry ustack cr3 proc : Z)
| Compose (buffer : Z) (m : ipc_message).

(** [ReadKey] is one round of [kbd_buf_get]; with [Compose] a thread writes
    the message in a buffer of its own. *)
Definition run_event (e : event) : M (kernel H) unit :=
  match e with
  | Interrupt r => isr_handler junk_data frame status data fuel r
  | Yield => on_sched schedule
  | Exit => on_sched thread_exit
  | Sleep d => on_st (sleep_until junk d)
  | Send port msg => on_si (ipc_send junk_msg port msg)
  | Recv port msg => on_si (ipc_recv port msg)
  | Register irq port => _ <- on_irq (irq_register irq port) ;; mret tt
  | ReadKey => o <- on_kbd kbd_try_get ;; match o with Some _ => mret tt | None => on_sched schedule end
  | Create entry cr3 proc => _ <- on_sched (thread_create junk entry cr3 proc) ;; mret tt
  | CreateUser entry ustack cr3 proc => _ <- on_sched (thread_create_user junk userspace_entry entry ustack cr3 proc) ;; mret tt
  | Compose a m => on_si (on_i (write_msg a m))
  end.

(** What is left of an event when it has given the processor away: the timer
    interrupt still has to be forwarded and acknowledged. *)
Definition rest_of (e : event) : M (kernel H) unit :=
  match e with
  | Interrupt r => if int_no r =? 32 then isr_generic junk_data frame r else mret tt
  | _ => mret tt
  end.

(** When an event can happen: only a running thread other than the idle one
    blocks, exits or faults; buffers belong to the caller and are never the
    handler's; the keyboard controller has its byte ready when it interrupts;
    unsigned arguments are not negative. *)
Definition enabled (k : kernel H) (e : event) : Prop :=
  match e with
  | Interrupt r => 0 <= int_no r < 256 /\ (int_no r = 14 -> requeues (k_sched k)) /\
      (int_no r = 33 -> exists n, (n < fuel)%nat /\ Z.land (status n) 1 <> 0 /\ forall i, (i < n)%nat -> Z.land (status i) 1 = 0)
  | Yield | ReadKey | Create _ _ _ | CreateUser _ _ _ _ => True
  | Exit | Sleep _ => requeues (k_sched k)
  | Send port msg | Recv port msg => requeues (k_sched k) /\ 0 <= port /\ msg <> 0 /\ is_Some (ip_msgs (k_ipc k) !! msg)
  | Register irq port => 0 <= irq < 256 /\ 0 <= port
  | Compose a m => a <> frame /\ msg_ok m
  end.

(** The event allocates and the frame pool may be too small for it. *)
Definition event_starved (e : event) (k : kernel H) : Prop :=
  match e with
  | Sleep _ => kh_scarce (s_heap (k_sched k)) sizeof_timer_entry
  | Send _ _ | Recv _ _ => kh_scarce (s_heap (k_sched k)) sizeof_wait_node
  | Create _ _ _ | CreateUser _ _ _ _ => thread_scarce (s_heap (k_sched k))
  | _ => False
  end.

(** ** The invariant *)

(** The blocks of the timer entries, of the wait nodes and of the rest, which
    holds the threads. *)
Definition heap_split (sc : sched) (l : list nap) (ps : list pview) (lt le lr : list (Z * Z)) : Prop :=
  kh_view (s_heap sc) (lt ++ le ++ lr) /\ lt.*1 = n_addr <$> l /\ le.*1 ≡ₚ w_addr <$> all_waits ps /\
  forall t, t ∈ dom (s_threads sc) -> t ∈ lr.*1.

(** The threads somebody is going to wake. *)
Definition waiting (l : list nap) (ps : list pview) : list Z := (n_thr <$> l) ++ (w_thr <$> all_waits ps).

Record kernel_rep (k : kernel H) (q : list Z) (l : list nap) (ps : list pview) (cs : list Z) : Prop := {
  ki_timer : timer_inv (k_sched k, k_timer k) q l;
  ki_ordered : ordered l;
  ki_ipc : ipc_inv (k_sched k, k_ipc k) q ps;
  ki_heap : exists lt le lr, heap_split (k_sched k) l ps lt le lr;
  ki_once : NoDup (waiting l ps);
  ki_blocked : forall t, blocked (k_sched k) t <-> t ∈ waiting l ps;
  ki_kbd : kbd_rep (k_kbd k) cs;
  ki_irq : irq_inv (k_irq k) /\ Forall (fun x => 0 <= sl_port x) (irq_table (k_irq k));
  ki_frame : ip_msgs (k_ipc k) !! frame = None
}.

Definition kernel_inv (k : kernel H) : Prop := exists q l ps cs, kernel_rep k q l ps cs.

(** ** Runs

    The state and what is left of the computations that gave the processor
    away; a step is an event or the resumption of one of them. *)
Definition config : Type := kernel H * list (kernel H -> res (kernel H) unit).

Inductive outcome (r : res (kernel H) unit) (ks : list (kernel H -> res (kernel H) unit)) : config -> Prop :=
| out_ret k : r = Ret tt k -> outcome r ks (k, ks)
| out_gone k : r = Gone k -> outcome r ks (k, ks)
| out_switch k c : r = Switch k c -> outcome r ks (k, c :: ks).

Inductive step : config -> config -> Prop :=
| step_event k ks e x : enabled k e -> outcome (run_event e k) ks x -> step (k, ks) x
| step_resume k ks1 c ks2 x : outcome (c k) (ks1 ++ ks2) x -> step (k, ks1 ++ c :: ks2) x.
End System.
