(* ===== verification/SystemFacts.v ===== *)
(** * Facts about the kernel as a whole: every event keeps the joint
    invariant. *)

From stdpp Require Import base gmap list fin_maps.
From Stdlib Require Import ZArith Lia.
From S2P Require Import Prelude Mem Pmm Vmm PageTables Heap HeapFacts KernelMem Chain Descriptors Sched SchedFacts.
From S2P Require Import SchedRun Timer TimerFacts Ipc IpcFacts KbdBuf Irq System.

(** A part that does not fault, run first thing. *)
Lemma safe_never {S A} (I O : S -> Prop) T s s' (r : res S A) : safe I (fun _ => False) T s r -> safe I O T s' r.
Proof. by destruct r. Qed.

(** ** States of threads across the operations of the scheduler *)

Section Blocked.
Context {H : Type}.
#[local] Abbreviation sched := (@sched_t H).

Lemma schedule_blocked (s : sched) q : sched_inv s q ->
  exists s', schedule s = Switch s' (fun x => Ret tt x) /\ sched_inv s' (requeued s q) /\ s_heap s' = s_heap s /\
    dom (s_threads s') = dom (s_threads s) /\ forall t, blocked s' t <-> blocked s t.
Proof.
  intros I. destruct (schedule_gen s q I) as (s' & E & I' & _ & Hc & Hi & Hh & Hd & (n & Hn & Hst & _) & Ho).
  exists s'. split_and!; try done. intros t. unfold blocked.
  assert (Hrun : state_of (s_threads s') (current_thread s') = Some THREAD_STATE_RUNNING) by (unfold state_of; rewrite Hn; simpl; by rewrite Hst).
  destruct (decide (t = current_thread s')) as [->|Hne].
  - rewrite Hrun. split; [done|]. intros Hb. exfalso. rewrite Hc in Hb. destruct q as [|a q]; simpl in Hb.
    + destruct (si_idle _ _ I); two_states.
    + assert (state_of (s_threads s) a = Some THREAD_STATE_READY) by (apply (si_ready _ _ I); left). two_states.
  - destruct (decide (t = current_thread s /\ requeues s)) as [[-> Hr]|Hn']; [|by rewrite Ho].
    assert (Hrd : state_of (s_threads s') (current_thread s) = Some THREAD_STATE_READY).
    { apply (si_ready _ _ I'). apply requeued_in. by right. }
    rewrite Hrd. split; [done|]. intros Hb. destruct Hr as [Hr _]. two_states.
Qed.

Lemma park_states (s s' : sched) c : s' = set_threads (<[current_thread s := c]> (s_threads s)) s ->
  forall t, blocked s' t <-> (if decide (t = current_thread s) then th_state c = THREAD_STATE_BLOCKED else blocked s t).
Proof.
  intros -> t. unfold blocked. cbn [s_threads set_threads]. rewrite state_of_insert.
  destruct (decide (t = current_thread s)) as [->|Hne]; [rewrite decide_True by done|by rewrite decide_False].
  split; [by intros [=]|by intros ->].
Qed.

Lemma thread_block_blocked (s : sched) q : sched_inv s q -> requeues s ->
  exists s', thread_block s = Switch s' (fun x => Ret tt x) /\ sched_inv s' (tail q) /\ s_heap s' = s_heap s /\
    dom (s_threads s') = dom (s_threads s) /\ forall t, blocked s' t <-> t = current_thread s \/ blocked s t.
Proof.
  intros I Hr. destruct (state_of_Some _ _ _ (proj1 Hr)) as (c & Hc & _).
  set (s1 := set_threads (<[current_thread s := set_th_state THREAD_STATE_BLOCKED c]> (s_threads s)) s).
  assert (E1 : block_current s = Ret tt s1).
  { unfold block_current, lock_sched, unlock_sched. mstep. rewrite (si_lock _ _ I). cbn [Z.eqb bindr].
    rewrite (on_update _ _ c) by (try done; apply I). cbn [bindr]. pose proof (si_lock _ _ I). unfold s1. destruct s; simpl in *; by subst. }
  destruct (sched_inv_park s s1 q (set_th_state THREAD_STATE_BLOCKED c) THREAD_STATE_BLOCKED I Hr) as [I1 Hn]; [done..|].
  destruct (schedule_blocked s1 q I1) as (s2 & E2 & I2 & Hh & Hd & Hb). rewrite requeued_tail in I2 by done.
  exists s2. unfold thread_block, mbind. rewrite E1. cbn [bindr]. split; [done|]. split; [done|]. split; [done|].
  split; [rewrite Hd; unfold s1; cbn; apply dom_insert_lookup_L; eauto|]. intros t. rewrite Hb.
  rewrite (park_states s s1 _ eq_refl). destruct (decide (t = current_thread s)); simpl; tauto.
Qed.

Lemma thread_exit_blocked (s : sched) q : sched_inv s q -> requeues s ->
  exists s', thread_exit s = Gone s' /\ sched_inv s' (tail q) /\ s_heap s' = s_heap s /\
    dom (s_threads s') = dom (s_threads s) /\ forall t, blocked s' t <-> blocked s t.
Proof.
  intros I Hr. destruct (state_of_Some _ _ _ (proj1 Hr)) as (c & Hc & _).
  set (c' := set_th_next 0 (set_th_state 0 c)).
  set (s1 := set_threads (<[current_thread s := c']> (s_threads s)) s).
  assert (E1 : exit_current s = Ret tt s1).
  { destruct (exit_current_spec s q I Hr) as (s1' & E & _). rewrite E. f_equal. revert E.
    unfold exit_current, lock_sched, unlock_sched. mstep. rewrite (si_lock _ _ I). cbn [Z.eqb bindr].
    change (current_thread (set_sched_lock 1 s)) with (current_thread s).
    assert (Ht : truthy (current_thread s) = true) by (unfold truthy; destruct (Z.eqb_spec (current_thread s) 0); [by destruct (si_cur_nz _ _ I)|done]).
    rewrite Ht. rewrite (on_update _ _ c) by (try done; apply I). cbn [bindr].
    rewrite (on_update _ _ (set_th_state 0 c)) by (first [apply I|apply lookup_insert_eq]). cbn [bindr].
    intros [= <-]. unfold s1, c'. cbn [s_threads set_threads set_sched_lock]. rewrite insert_insert_eq.
    pose proof (si_lock _ _ I). destruct s; simpl in *; by subst. }
  destruct (sched_inv_park s s1 q c' 0 I Hr) as [I1 Hn]; [done..|].
  destruct (schedule_blocked s1 q I1) as (s2 & E2 & I2 & Hh & Hd & Hb). rewrite requeued_tail in I2 by done.
  exists s2. unfold thread_exit, no_return, mbind. rewrite E1. cbn [bindr]. rewrite E2. split; [done|]. split; [done|]. split; [done|].
  split; [rewrite Hd; unfold s1; cbn; apply dom_insert_lookup_L; eauto|]. intros t. rewrite Hb.
  rewrite (park_states s s1 _ eq_refl). destruct (decide (t = current_thread s)) as [->|]; [|done].
  unfold c'. simpl. split; [done|]. intros Hbl. destruct Hr as [Hr _]. unfold blocked in Hbl. two_states.
Qed.

(** Waking moves the woken threads from the blocked to the ready ones. *)
Lemma same_others_blocked (s s' : sched) q ts : same_others s s' (filter (blocked s) ts) ->
  sched_inv s' (q ++ filter (blocked s) ts) -> forall t, blocked s' t <-> blocked s t /\ t ∉ ts.
Proof.
  intros (Ho & _) I t. destruct (decide (t ∈ filter (blocked s) ts)) as [Hin|Hout].
  - assert (state_of (s_threads s') t = Some THREAD_STATE_READY) by (apply (si_ready _ _ I), elem_of_app; by right).
    apply list_elem_of_filter in Hin as [? ?]. split; [intros Hb; unfold blocked in Hb; two_states|tauto].
  - rewrite list_elem_of_filter in Hout. unfold blocked in *. rewrite Ho by (by rewrite list_elem_of_filter).
    split; [|tauto]. intros Hb. split; [done|]. tauto.
Qed.
End Blocked.

(** ** The parts of the invariant and the components *)

Section SystemFacts.
Context {H : Type} `{HK : KHeap H}.
#[local] Abbreviation sched := (@sched_t H).
Context (junk userspace_entry : Z) (junk_msg : ipc_message) (junk_ok : msg_ok junk_msg).
Context (junk_data : list Z) (junk_len : length junk_data = 256%nat) (frame : Z) (frame_nz : frame <> 0).
Context (status : nat -> Z) (data : Z) (fuel : nat).
#[local] Abbreviation kernel_rep := (kernel_rep frame).
#[local] Abbreviation kernel_inv := (kernel_inv frame).
#[local] Abbreviation never := (fun _ : kernel H => False).

(** A component's invariant in another state of the scheduler and in another
    view of the heap. *)
Lemma timer_inv_move (i1 i2 : KHeap H) (sc sc' : sched) tm q q' l :
  @timer_inv H i1 (sc, tm) q l -> sched_inv sc' q' -> dom (s_threads sc) ⊆ dom (s_threads sc') ->
  (exists le lr, @kh_view H i2 (s_heap sc') (le ++ lr) /\ le.*1 = n_addr <$> l /\ forall t, t ∈ dom (s_threads sc') -> t ∈ lr.*1) ->
  @timer_inv H i2 (sc', tm) q' l.
Proof.
  intros [[Hs Hc He Ht _] Hl] I Hd Hh. split; [|done]. split; cbn [fst snd] in *; try done.
  intros x Hx. destruct (Ht x Hx) as [? ?%elem_of_dom]. split; [done|]. apply elem_of_dom. by apply Hd.
Qed.

Lemma ipc_inv_move (i1 i2 : KHeap H) (sc sc' : sched) ip q q' ps :
  @ipc_inv H i1 (sc, ip) q ps -> sched_inv sc' q' -> dom (s_threads sc) ⊆ dom (s_threads sc') ->
  (exists le lr, @kh_view H i2 (s_heap sc') (le ++ lr) /\ le.*1 ≡ₚ w_addr <$> all_waits ps /\ forall t, t ∈ dom (s_threads sc') -> t ∈ lr.*1) ->
  @ipc_inv H i2 (sc', ip) q' ps.
Proof.
  intros ([Hs Hl Hpo Hno Hnd Ht Hm _] & Hlk & Hini) I Hd Hh. split; [|done]. split; cbn [fst snd] in *; try done.
  intros w Hw. destruct (Ht w Hw) as [? ?%elem_of_dom]. split; [done|]. apply elem_of_dom. by apply Hd.
Qed.

Lemma split_timer (sc : sched) l ps lt le lr : heap_split sc l ps lt le lr -> kh_view (s_heap sc) ((lt ++ lr) ++ le).
Proof. intros (Hv & _). eapply kh_view_perm; [exact Hv|]. rewrite <- app_assoc. by rewrite (Permutation_app_comm le lr). Qed.

Lemma split_ipc (sc : sched) l ps lt le lr : heap_split sc l ps lt le lr -> kh_view (s_heap sc) ((le ++ lr) ++ lt).
Proof. intros (Hv & _). eapply kh_view_perm; [exact Hv|]. by rewrite Permutation_app_comm. Qed.

(** Both invariants follow from the heap as it is divided. *)
Lemma split_invs (i1 i2 : KHeap H) (sc0 sc : sched) tm ip q0 q l ps lt le lr :
  @timer_inv H i1 (sc0, tm) q0 l -> @ipc_inv H i2 (sc0, ip) q0 ps -> sched_inv sc q -> dom (s_threads sc0) ⊆ dom (s_threads sc) ->
  @heap_split H HK sc l ps lt le lr -> @timer_inv H HK (sc, tm) q l /\ @ipc_inv H HK (sc, ip) q ps.
Proof.
  intros Ht Hi I Hd Hs. pose proof Hs as (Hv & Elt & Ele & Hdom). split.
  - eapply (timer_inv_move i1 HK); [exact Ht|done|done|]. exists lt, (le ++ lr). split; [done|]. split; [done|].
    intros t Hin. rewrite fmap_app. apply elem_of_app. right. by apply Hdom.
  - eapply (ipc_inv_move i2 HK); [exact Hi|done|done|]. exists le, (lt ++ lr). split; [|split; [done|]].
    + eapply kh_view_perm; [exact Hv|]. rewrite !app_assoc. by rewrite (Permutation_app_comm lt le).
    + intros t Hin. rewrite fmap_app. apply elem_of_app. right. by apply Hdom.
Qed.

Lemma rep_timer (k : kernel H) q l ps cs lt le lr : kernel_rep k q l ps cs -> heap_split (k_sched k) l ps lt le lr ->
  @timer_inv H (framed le) (k_sched k, k_timer k) q l.
Proof.
  intros R Hs. eapply timer_inv_move; [exact (ki_timer _ _ _ _ _ _ R)|apply (tc_sched _ _ _ (proj1 (ki_timer _ _ _ _ _ _ R)))|done|].
  exists lt, lr. split; [exact (split_timer _ _ _ _ _ _ Hs)|]. split; apply Hs.
Qed.

Lemma rep_ipc (k : kernel H) q l ps cs lt le lr : kernel_rep k q l ps cs -> heap_split (k_sched k) l ps lt le lr ->
  @ipc_inv H (framed lt) (k_sched k, k_ipc k) q ps.
Proof.
  intros R Hs. eapply ipc_inv_move; [exact (ki_ipc _ _ _ _ _ _ R)|apply (tc_sched _ _ _ (proj1 (ki_timer _ _ _ _ _ _ R)))|done|].
  exists le, lr. split; [exact (split_ipc _ _ _ _ _ _ Hs)|]. split; apply Hs.
Qed.

(** ** What a step of one component leaves *)

(** The scheduler alone, the heap untouched. *)
Lemma after_sched (k : kernel H) q l ps cs sc' q' : kernel_rep k q l ps cs ->
  sched_inv sc' q' -> s_heap sc' = s_heap (k_sched k) -> dom (s_threads sc') = dom (s_threads (k_sched k)) ->
  (forall t, blocked sc' t <-> blocked (k_sched k) t) ->
  kernel_rep (mk_kernel sc' (k_timer k) (k_ipc k) (k_kbd k) (k_irq k) (k_out k)) q' l ps cs.
Proof.
  intros [Ht Ho Hi (lt & le & lr & Hs) Hn Hb Hk Hq Hf] I Eh Ed Hbl.
  assert (Hs' : heap_split sc' l ps lt le lr) by (unfold heap_split in *; by rewrite Eh, Ed).
  destruct (split_invs HK HK (k_sched k) sc' (k_timer k) (k_ipc k) q q' l ps lt le lr Ht Hi I) as [Ht' Hi']; [by rewrite Ed|done|].
  split; cbn [k_sched k_timer k_ipc k_kbd k_irq]; try done; [by exists lt, le, lr|]. intros t. by rewrite Hbl.
Qed.

Lemma after_timer (k : kernel H) q l ps cs lt le lr sc' tm' q' l' : kernel_rep k q l ps cs -> heap_split (k_sched k) l ps lt le lr ->
  @timer_inv H (framed le) (sc', tm') q' l' -> dom (s_threads sc') = dom (s_threads (k_sched k)) -> ordered l' ->
  NoDup (waiting l' ps) -> (forall t, blocked sc' t <-> t ∈ waiting l' ps) ->
  kernel_rep (mk_kernel sc' tm' (k_ipc k) (k_kbd k) (k_irq k) (k_out k)) q' l' ps cs.
Proof.
  intros [Ht Ho Hi _ Hn Hb Hk Hq Hf] Hs Hti Ed Hord Hnd Hbl.
  destruct (tc_heap _ _ _ (proj1 Hti)) as (lt' & lr' & Hv & Elt & Hdom). cbn [fst] in *.
  pose proof (tc_sched _ _ _ (proj1 Hti)) as I. cbn [fst] in I.
  assert (Hs' : heap_split sc' l' ps lt' le lr').
  { split; [|split; [done|split; [apply Hs|done]]]. change (kh_view (s_heap sc') ((lt' ++ lr') ++ le)) in Hv.
    eapply kh_view_perm; [exact Hv|]. rewrite <- app_assoc. by rewrite (Permutation_app_comm le lr'). }
  assert (Hd : dom (s_threads (k_sched k)) ⊆ dom (s_threads sc')) by (by rewrite Ed).
  assert (Hi' : ipc_inv (sc', k_ipc k) q' ps).
  { eapply ipc_inv_move; [exact Hi|done|done|]. exists le, (lt' ++ lr'). split; [|split; [apply Hs|]].
    - eapply kh_view_perm; [exact Hv|]. by rewrite Permutation_app_comm.
    - intros t Hin. rewrite fmap_app. apply elem_of_app. right. by apply Hdom. }
  destruct (split_invs (framed le) HK sc' sc' tm' (k_ipc k) q' q' l' ps lt' le lr' Hti Hi' I) as [Ht' _]; [done|done|].
  split; cbn [k_sched k_timer k_ipc k_kbd k_irq]; try done. by exists lt', le, lr'.
Qed.

Lemma after_ipc (k : kernel H) q l ps cs lt le lr sc' ip' q' ps' : kernel_rep k q l ps cs -> heap_split (k_sched k) l ps lt le lr ->
  @ipc_inv H (framed lt) (sc', ip') q' ps' -> dom (s_threads sc') = dom (s_threads (k_sched k)) ->
  ip_msgs ip' !! frame = None -> NoDup (waiting l ps') -> (forall t, blocked sc' t <-> t ∈ waiting l ps') ->
  kernel_rep (mk_kernel sc' (k_timer k) ip' (k_kbd k) (k_irq k) (k_out k)) q' l ps' cs.
Proof.
  intros [Ht Ho _ _ Hn Hb Hk Hq Hf] Hs Hii Ed Hf' Hnd Hbl.
  destruct (ic_heap _ _ _ (proj1 Hii)) as (le' & lr' & Hv & Ele & Hdom). cbn [fst] in *.
  pose proof (ic_sched _ _ _ (proj1 Hii)) as I. cbn [fst] in I.
  change (kh_view (s_heap sc') ((le' ++ lr') ++ lt)) in Hv.
  assert (Hs' : heap_split sc' l ps' lt le' lr').
  { split; [|split; [apply Hs|done]]. eapply kh_view_perm; [exact Hv|]. by rewrite Permutation_app_comm. }
  assert (Ht' : timer_inv (sc', k_timer k) q' l).
  { eapply timer_inv_move; [exact Ht|done|by rewrite Ed|]. exists lt, (le' ++ lr'). split; [apply Hs'|]. split; [apply Hs|].
    intros t Hin. rewrite fmap_app. apply elem_of_app. right. by apply Hdom. }
  destruct (split_invs HK (framed lt) sc' sc' (k_timer k) ip' q' q' l ps' lt le' lr' Ht' Hii I) as [_ Hi']; [done|done|].
  split; cbn [k_sched k_timer k_ipc k_kbd k_irq]; try done. by exists lt, le', lr'.
Qed.

(** ** The waiting threads *)

Lemma waiting_pop l ps ps' w : all_waits ps ≡ₚ w :: all_waits ps' -> NoDup (waiting l ps) ->
  NoDup (waiting l ps') /\ forall t, t ∈ waiting l ps' <-> t ∈ waiting l ps /\ t ∉ [w_thr w].
Proof.
  intros Hp Hn. assert (Hw : waiting l ps ≡ₚ w_thr w :: waiting l ps').
  { unfold waiting. rewrite Hp, fmap_cons. by rewrite <- Permutation_middle. }
  rewrite Hw in Hn. apply NoDup_cons in Hn as [Hin Hn]. split; [done|]. intros t. rewrite Hw, elem_of_cons, list_elem_of_singleton.
  split; [intros Ht; split; [by right|by intros ->]|tauto].
Qed.

Lemma waiting_push l ps ps' w : all_waits ps' ≡ₚ w :: all_waits ps -> NoDup (waiting l ps) -> w_thr w ∉ waiting l ps ->
  NoDup (waiting l ps') /\ forall t, t ∈ waiting l ps' <-> t = w_thr w \/ t ∈ waiting l ps.
Proof.
  intros Hp Hn Hin. assert (Hw : waiting l ps' ≡ₚ w_thr w :: waiting l ps).
  { unfold waiting. rewrite Hp, fmap_cons. by rewrite <- Permutation_middle. }
  rewrite Hw. split; [by apply NoDup_cons|]. intros t. by rewrite Hw, elem_of_cons.
Qed.

Lemma waits_popped ps i v b w lq : ps !! i = Some v -> pvq b v = w :: lq ->
  all_waits ps ≡ₚ w :: all_waits (<[i := set_pvq b lq v]> ps).
Proof.
  intros Hv Hq. pose proof (lookup_lt_Some _ _ _ Hv) as Hlt.
  rewrite (all_waits_split ps i v Hv), (all_waits_split (<[i := set_pvq b lq v]> ps) i (set_pvq b lq v)) by (by apply list_lookup_insert_eq).
  rewrite others_insert, (waits_set b lq v), (pvq_waits b v), Hq. done.
Qed.

Lemma waits_pushed ps i v b w : ps !! i = Some v -> all_waits (<[i := set_pvq b (w :: pvq b v) v]> ps) ≡ₚ w :: all_waits ps.
Proof.
  intros Hv. pose proof (lookup_lt_Some _ _ _ Hv) as Hlt.
  rewrite (all_waits_split ps i v Hv), (all_waits_split (<[i := set_pvq b (w :: pvq b v) v]> ps) i (set_pvq b (w :: pvq b v) v)) by (by apply list_lookup_insert_eq).
  rewrite others_insert, (waits_set b _ v), (pvq_waits b v). done.
Qed.

Lemma waiting_tick l ps now : NoDup (waiting l ps) ->
  let l' := filter (fun x => ~ due now x) l in
  NoDup (waiting l' ps) /\ forall t, t ∈ waiting l' ps <-> t ∈ waiting l ps /\ t ∉ n_thr <$> filter (due now) l.
Proof.
  intros Hn l'. pose proof Hn as Hn'. unfold waiting in Hn'. apply NoDup_app in Hn' as (Hn1 & Hn2 & Hn3).
  assert (Hsub : forall t, t ∈ n_thr <$> l' -> t ∈ n_thr <$> l).
  { intros t (x & -> & [_ Hx]%list_elem_of_filter)%list_elem_of_fmap. by apply list_elem_of_fmap_2. }
  split.
  - apply NoDup_app. split; [eapply sublist_NoDup; [exact Hn1|]; apply fmap_sublist, sublist_filter|].
    split; [|done]. intros t Ht. by apply Hn2, Hsub.
  - intros t. unfold waiting. rewrite !elem_of_app. split.
    + intros [Ht|Ht]; (split; [tauto || (left; by apply Hsub)|]); intros (y & Ey & [Hdy Hy]%list_elem_of_filter)%list_elem_of_fmap.
      * apply list_elem_of_fmap in Ht as (x & Ex & [Hdx Hx]%list_elem_of_filter).
        assert (x = y) as ->; [|done]. apply (NoDup_fmap_elem n_thr l); congruence.
      * apply (Hn2 t); [rewrite Ey; by apply list_elem_of_fmap_2|done].
    + intros [[Ht|Ht] Hnd]; [left|by right]. apply list_elem_of_fmap in Ht as (x & -> & Hx). apply list_elem_of_fmap_2.
      apply list_elem_of_filter. split; [|done]. intros Hd. apply Hnd. apply list_elem_of_fmap_2. by apply list_elem_of_filter.
Qed.

Lemma waiting_sleep l ps x : NoDup (waiting l ps) -> n_thr x ∉ waiting l ps ->
  NoDup (waiting (insert_nap x l) ps) /\ forall t, t ∈ waiting (insert_nap x l) ps <-> t = n_thr x \/ t ∈ waiting l ps.
Proof.
  intros Hn Hin. assert (Hw : waiting (insert_nap x l) ps ≡ₚ n_thr x :: waiting l ps).
  { unfold waiting. by rewrite insert_nap_perm. }
  rewrite Hw. split; [by apply NoDup_cons|]. intros t. by rewrite Hw, elem_of_cons.
Qed.

(** ** The scheduler's events *)

Lemma rep_sched (k : kernel H) q l ps cs : kernel_rep k q l ps cs -> sched_inv (k_sched k) q.
Proof. intros R. exact (tc_sched _ _ _ (proj1 (ki_timer _ _ _ _ _ _ R))). Qed.

Lemma running_not_waiting (k : kernel H) q l ps cs : kernel_rep k q l ps cs -> requeues (k_sched k) -> current_thread (k_sched k) ∉ waiting l ps.
Proof. intros R [Hr _] Hin. apply (ki_blocked _ _ _ _ _ _ R) in Hin. unfold blocked in Hin. two_states. Qed.

Lemma kernel_eta (k : kernel H) : mk_kernel (k_sched k) (k_timer k) (k_ipc k) (k_kbd k) (k_irq k) (k_out k) = k.
Proof. by destruct k. Qed.

Lemma yield_safe (k : kernel H) : kernel_inv k -> safe kernel_inv never (mret tt) k (on_sched schedule k).
Proof.
  intros (q & l & ps & cs & R). destruct (schedule_blocked _ q (rep_sched _ _ _ _ _ R)) as (sc' & E & I & Hh & Hd & Hb).
  unfold on_sched, zoom. rewrite E. cbn [zoomr safe]. split.
  - eexists _, l, ps, cs. exact (after_sched k q l ps cs sc' _ R I Hh Hd Hb).
  - intros x. by rewrite kernel_eta.
Qed.

Lemma exit_safe (k : kernel H) : kernel_inv k -> requeues (k_sched k) -> safe kernel_inv never (mret tt) k (on_sched thread_exit k).
Proof.
  intros (q & l & ps & cs & R) Hr. destruct (thread_exit_blocked _ q (rep_sched _ _ _ _ _ R) Hr) as (sc' & E & I & Hh & Hd & Hb).
  unfold on_sched, zoom. rewrite E. cbn [zoomr safe]. eexists _, l, ps, cs. exact (after_sched k q l ps cs sc' _ R I Hh Hd Hb).
Qed.

(** ** The timer's events *)

Lemma tick_safe (k : kernel H) : kernel_inv k -> exists k', on_st timer_tick k = Ret tt k' /\ kernel_inv k'.
Proof.
  intros (q & l & ps & cs & R). destruct (ki_heap _ _ _ _ _ _ R) as (lt & le & lr & Hs).
  pose proof (ki_once _ _ _ _ _ _ R) as Hn. assert (Hn1 : NoDup (n_thr <$> l)) by (by apply NoDup_app in Hn as (? & _)).
  destruct (@timer_tick_gen H (framed le) (k_sched k, k_timer k) q l (rep_timer _ _ _ _ _ _ _ _ R Hs) Hn1) as ([sc' tm'] & E & Hti & Ho & _).
  cbn [fst snd] in *. set (now := u64 (ticks (k_timer k) + 1)) in *.
  destruct (waiting_tick l ps now Hn) as [Hn' Hw].
  exists (mk_kernel sc' tm' (k_ipc k) (k_kbd k) (k_irq k) (k_out k)). split.
  - unfold on_st, zoom. change (timer_tick (k_sched k, k_timer k)) with (@timer_tick H (framed le) (k_sched k, k_timer k)). by rewrite E.
  - eexists _, _, ps, cs. apply (after_timer k q l ps cs lt le lr sc' tm' _ _ R Hs Hti); [apply Ho|by apply filter_ordered, R|done|].
    intros t. rewrite Hw, <- (ki_blocked _ _ _ _ _ _ R t). apply (same_others_blocked (k_sched k) sc' q); [exact Ho|].
    exact (tc_sched _ _ _ (proj1 Hti)).
Qed.

Lemma sleep_safe (k : kernel H) d : kernel_inv k -> requeues (k_sched k) ->
  safe kernel_inv (fun k => kh_scarce (s_heap (k_sched k)) sizeof_timer_entry) (mret tt) k (on_st (sleep_until junk d) k).
Proof.
  intros (q & l & ps & cs & R) Hr. destruct (ki_heap _ _ _ _ _ _ R) as (lt & le & lr & Hs).
  pose proof (@sleep_enqueue_spec H (framed le) junk (k_sched k, k_timer k) q l d (rep_timer _ _ _ _ _ _ _ _ R Hs)) as E.
  unfold on_st, sleep_until, zoom, mbind.
  change (sleep_enqueue junk d (k_sched k, k_timer k)) with (@sleep_enqueue H (framed le) junk d (k_sched k, k_timer k)).
  cbn [fst snd] in E. case_decide.
  { rewrite E. cbn [bindr]. unfold mret. cbn [zoomr safe fst snd]. rewrite kernel_eta. by exists q, l, ps, cs. }
  destruct E as [(a & h' & tm' & E & Hti & _)|(Hsc & [E|(h' & E & Hti)])]; rewrite E; cbn [bindr].
  - pose proof (tc_sched _ _ _ (proj1 Hti)) as I. cbn [fst] in I.
    destruct (thread_block_blocked (set_heap h' (k_sched k)) q I Hr) as (sc' & Eb & I' & Hh & Hd & Hb).
    unfold Timer.on_s, zoom. cbn [fst snd]. rewrite Eb. cbn [zoomr safe fst snd]. split; [|intros x; cbn [zoomr fst snd]; by rewrite kernel_eta].
    destruct (waiting_sleep l ps (mk_nap a d (current_thread (k_sched k)))) as [Hn' Hw]; [apply R|by apply (running_not_waiting k q l ps cs)|].
    eexists _, _, ps, cs. refine (after_timer k q l ps cs lt le lr sc' tm' _ _ R Hs _ Hd _ Hn' _).
    + eapply (timer_inv_move (framed le) (framed le)); [exact Hti|exact I'|by rewrite Hd|]. destruct (tc_heap _ _ _ (proj1 Hti)) as (lt' & lr' & Hv & Elt & Hdom).
      exists lt', lr'. rewrite Hh, Hd. done.
    + by apply insert_nap_ordered, R.
    + intros t. rewrite Hw, Hb, <- (ki_blocked _ _ _ _ _ _ R t). done.
  - unfold safe. exact Hsc.
  - unfold mret. cbn [zoomr safe fst snd]. exists q, l, ps, cs.
    apply (after_timer k q l ps cs lt le lr _ _ q l R Hs Hti); [done|apply R|apply R|apply R].
Qed.

(** ** The events of the message ports *)

(** The first waiter [w] of a list has got its message. *)
Lemma handed_rep (k : kernel H) q l ps cs lt le lr sc' ip' i v b w lq :
  kernel_rep k q l ps cs -> heap_split (k_sched k) l ps lt le lr -> ps !! i = Some v -> pvq b v = w :: lq ->
  @ipc_inv H (framed lt) (sc', ip') (q ++ filter (blocked (k_sched k)) [w_thr w]) (<[i := set_pvq b lq v]> ps) ->
  same_others (k_sched k) sc' (filter (blocked (k_sched k)) [w_thr w]) -> ip_msgs ip' !! frame = None ->
  kernel_inv (mk_kernel sc' (k_timer k) ip' (k_kbd k) (k_irq k) (k_out k)).
Proof.
  intros R Hs Hv Hq Hi Ho Hf. destruct (waiting_pop l ps _ w (waits_popped ps i v b w lq Hv Hq) (ki_once _ _ _ _ _ _ R)) as [Hn Hw].
  eexists _, l, _, cs. apply (after_ipc k q l ps cs lt le lr sc' ip' _ _ R Hs Hi); [apply Ho|done|done|].
  intros t. rewrite Hw, <- (ki_blocked _ _ _ _ _ _ R t). apply (same_others_blocked (k_sched k) sc' q); [exact Ho|].
  exact (ic_sched _ _ _ (proj1 Hi)).
Qed.

(** The common ends of [ipc_send] and [ipc_recv]: the first waiter of the
    other side is served, the caller is queued and blocks, or there was no
    memory. *)
Lemma ipc_call_safe (k : kernel H) (m : M (sched * ipc_t) bool) q l ps cs lt le lr i v b :
  kernel_rep k q l ps cs -> heap_split (k_sched k) l ps lt le lr -> requeues (k_sched k) -> ps !! i = Some v ->
  match pvq (negb b) v with
  | w :: lq => exists s', m (k_sched k, k_ipc k) = Ret false s' /\
      @ipc_inv H (framed lt) s' (q ++ filter (blocked (k_sched k)) [w_thr w]) (<[i := set_pvq (negb b) lq v]> ps) /\
      same_others (k_sched k) (fst s') (filter (blocked (k_sched k)) [w_thr w]) /\ ip_msgs (snd s') !! frame = None
  | [] =>
      (exists w h' ip', m (k_sched k, k_ipc k) = Ret true (set_heap h' (k_sched k), ip') /\ w_thr w = current_thread (k_sched k) /\
         @ipc_inv H (framed lt) (set_heap h' (k_sched k), ip') q (<[i := set_pvq b (w :: pvq b v) v]> ps) /\ ip_msgs ip' = ip_msgs (k_ipc k)) \/
      (kh_scarce (s_heap (k_sched k)) sizeof_wait_node /\
       (m (k_sched k, k_ipc k) = Fault \/
        exists h' ip', m (k_sched k, k_ipc k) = Ret false (set_heap h' (k_sched k), ip') /\
          @ipc_inv H (framed lt) (set_heap h' (k_sched k), ip') q ps /\ ip_msgs ip' = ip_msgs (k_ipc k)))
  end ->
  safe kernel_inv (fun k => kh_scarce (s_heap (k_sched k)) sizeof_wait_node) (mret tt) k
    (on_si (x <- m ;; if x then Ipc.on_s thread_block else mret tt) k).
Proof.
  intros R Hs Hr Hv Hm. unfold on_si, zoom, mbind. pose proof (ki_frame _ _ _ _ _ _ R) as Hf.
  destruct (pvq (negb b) v) as [|w lq] eqn:Hq.
  2:{ destruct Hm as ([sc' ip'] & E & Hi & Ho & Hf'). rewrite E. unfold mret. cbn [bindr zoomr safe fst snd] in *.
      exact (handed_rep k q l ps cs lt le lr sc' ip' i v (negb b) w lq R Hs Hv Hq Hi Ho Hf'). }
  destruct Hm as [(w & h' & ip' & E & Ew & Hi & Hms)|(Hsc & [E|(h' & ip' & E & Hi & Hms)])]; rewrite E; cbn [bindr].
  - pose proof (ic_sched _ _ _ (proj1 Hi)) as I. cbn [fst] in I.
    destruct (thread_block_blocked (set_heap h' (k_sched k)) q I Hr) as (sc' & Eb & I' & Hh & Hd & Hb).
    unfold Ipc.on_s, zoom. cbn [fst snd]. rewrite Eb. cbn [zoomr safe fst snd]. split; [|intros x; cbn [zoomr fst snd]; by rewrite kernel_eta].
    destruct (waiting_push l ps _ w (waits_pushed ps i v b w Hv) (ki_once _ _ _ _ _ _ R)) as [Hn Hw];
      [rewrite Ew; by apply (running_not_waiting k q l ps cs)|].
    eexists _, l, _, cs. refine (after_ipc k q l ps cs lt le lr sc' ip' _ _ R Hs _ Hd _ Hn _).
    + eapply (ipc_inv_move (framed lt) (framed lt)); [exact Hi|exact I'|by rewrite Hd|].
      destruct (ic_heap _ _ _ (proj1 Hi)) as (le' & lr' & Hv' & Ele & Hdom). exists le', lr'. rewrite Hh, Hd. done.
    + by rewrite Hms.
    + intros t. rewrite Hw, Hb, Ew, <- (ki_blocked _ _ _ _ _ _ R t). done.
  - exact Hsc.
  - unfold mret. cbn [zoomr safe fst snd]. exists q, l, ps, cs.
    apply (after_ipc k q l ps cs lt le lr _ _ q ps R Hs Hi); [done|by rewrite Hms|apply R|apply R].
Qed.

(** A message written where a caller waits is not in the handler's frame. *)
Lemma frame_received (msgs msgs' : gmap Z ipc_message) a src : is_Some (msgs !! a) -> msgs !! frame = None ->
  received msgs msgs' a src -> msgs' !! frame = None.
Proof. intros [x Hx] Hf (m & -> & _). rewrite lookup_insert_ne; [done|]. intros ->. congruence. Qed.

Lemma port_view (k : kernel H) q l ps cs port : kernel_rep k q l ps cs -> 0 <= port < 64 ->
  exists v, ps !! Z.to_nat port = Some v /\ Z.of_nat (Z.to_nat port) = port.
Proof.
  intros R Hp. destruct (ic_len _ _ _ (proj1 (ki_ipc _ _ _ _ _ _ R))) as [HL _].
  destruct (lookup_lt_is_Some_2 ps (Z.to_nat port)) as [v Hv]; [lia|]. exists v. split; [done|lia].
Qed.

(** A port number past the table: nothing happens. *)
Lemma far_port_safe (k : kernel H) port msg : kernel_inv k -> 64 <= port -> msg <> 0 -> is_Some (ip_msgs (k_ipc k) !! msg) ->
  exists k', on_si (ipc_send junk_msg port msg) k = Ret tt k' /\ on_si (ipc_recv port msg) k = Ret tt k' /\ kernel_inv k'.
Proof.
  intros (q & l & ps & cs & R) Hp Hm0 [m Hm]. destruct (ki_heap _ _ _ _ _ _ R) as (lt & le & lr & Hs).
  destruct (ipc_kernel_send_correct junk_msg (k_sched k, k_ipc k) q ps port msg m (ki_ipc _ _ _ _ _ _ R) ltac:(lia) Hm0 Hm)
    as [_ ([sc' ip'] & _ & E2 & E3 & Hi & Hsc & Hms)]; [done|]. cbn [fst snd] in *. subst sc'.
  exists (mk_kernel (k_sched k) (k_timer k) ip' (k_kbd k) (k_irq k) (k_out k)).
  unfold on_si, zoom. rewrite E2, E3. split; [done|]. split; [done|]. exists q, l, ps, cs.
  destruct R as [Ht Ho _ Hh Hn Hb Hk Hq Hf]. split; cbn [k_sched k_timer k_ipc k_kbd k_irq]; try done. by rewrite Hms.
Qed.

Lemma send_safe (k : kernel H) port msg : kernel_inv k -> requeues (k_sched k) -> 0 <= port -> msg <> 0 -> is_Some (ip_msgs (k_ipc k) !! msg) ->
  safe kernel_inv (fun k => kh_scarce (s_heap (k_sched k)) sizeof_wait_node) (mret tt) k (on_si (ipc_send junk_msg port msg) k).
Proof.
  intros Hk Hr Hp Hm0 Hm. destruct (decide (port < 64)) as [Hlt|Hge].
  2:{ destruct (far_port_safe k port msg Hk ltac:(lia) Hm0 Hm) as (k' & -> & _ & Hk'). exact Hk'. }
  destruct Hk as (q & l & ps & cs & R). destruct (ki_heap _ _ _ _ _ _ R) as (lt & le & lr & Hs). destruct Hm as [m Hm].
  destruct (port_view k q l ps cs port R ltac:(lia)) as (v & Hv & Ep).
  pose proof (rep_ipc _ _ _ _ _ _ _ _ R Hs) as Hi. pose proof (ki_frame _ _ _ _ _ _ R) as Hf.
  pose proof (@send_enqueue_spec H (framed lt) junk_msg junk_ok (k_sched k, k_ipc k) q ps _ v msg m Hi Hv Hm0 Hm) as E.
  rewrite Ep in E. change (@send_enqueue H (framed lt)) with (@send_enqueue H HK) in E.
  apply (ipc_call_safe k (send_enqueue junk_msg port msg) q l ps cs lt le lr (Z.to_nat port) v true R Hs Hr Hv). cbn [pvq negb fst snd] in *.
  destruct (pv_rcv v) as [|w lq] eqn:Hq.
  - destruct E as [(a & m' & h' & ip' & E & _ & _ & _ & Hi' & Hms)|E]; [left|by right].
    exists (mk_w a (current_thread (k_sched k)) (Snd m')), h', ip'. done.
  - destruct E as (s' & buf & msgs' & Hb & E & Hi' & Ho & _ & Hms & Hrec). exists s'. split_and!; try done. rewrite Hms.
    destruct (Z.eqb_spec buf 0); [by rewrite Hrec|]. eapply frame_received; [|exact Hf|exact Hrec].
    apply (@receiver_buffer H (framed lt) (k_sched k, k_ipc k) q ps (Z.to_nat port) v w buf Hi Hv); [rewrite Hq; left|done|done].
Qed.

Lemma recv_safe (k : kernel H) port msg : kernel_inv k -> requeues (k_sched k) -> 0 <= port -> msg <> 0 -> is_Some (ip_msgs (k_ipc k) !! msg) ->
  safe kernel_inv (fun k => kh_scarce (s_heap (k_sched k)) sizeof_wait_node) (mret tt) k (on_si (ipc_recv port msg) k).
Proof.
  intros Hk Hr Hp Hm0 Hm. destruct (decide (port < 64)) as [Hlt|Hge].
  2:{ destruct (far_port_safe k port msg Hk ltac:(lia) Hm0 Hm) as (k' & _ & -> & Hk'). exact Hk'. }
  destruct Hk as (q & l & ps & cs & R). destruct (ki_heap _ _ _ _ _ _ R) as (lt & le & lr & Hs). destruct Hm as [m Hm].
  destruct (port_view k q l ps cs port R ltac:(lia)) as (v & Hv & Ep).
  pose proof (rep_ipc _ _ _ _ _ _ _ _ R Hs) as Hi. pose proof (ki_frame _ _ _ _ _ _ R) as Hf.
  pose proof (@recv_enqueue_spec H (framed lt) (k_sched k, k_ipc k) q ps _ v msg m Hi Hv Hm0 Hm) as E.
  rewrite Ep in E. change (@recv_enqueue H (framed lt)) with (@recv_enqueue H HK) in E.
  apply (ipc_call_safe k (recv_enqueue port msg) q l ps cs lt le lr (Z.to_nat port) v false R Hs Hr Hv). cbn [pvq negb fst snd] in *.
  destruct (pv_snd v) as [|w lq] eqn:Hq.
  - destruct E as [(a & h' & ip' & E & Hi' & Hms)|E]; [left|by right].
    exists (mk_w a (current_thread (k_sched k)) (Rcv msg)), h', ip'. done.
  - destruct E as (s' & pd & msgs' & Hb & E & Hi' & Ho & _ & Hms & Hrec). exists s'. split_and!; try done. rewrite Hms.
    eapply frame_received; [eauto|exact Hf|exact Hrec].
Qed.

(** ** Interrupts *)

Lemma msg0_ok : msg_ok (mk_msg 0 junk_data).
Proof. by split. Qed.

(** Forwarding: the handler's message comes and goes. *)
Lemma with_msg_safe (k : kernel H) port : kernel_inv k -> 0 <= port ->
  exists k', on_si (with_msg frame (mk_msg 0 junk_data) (ipc_kernel_send port)) k = Ret tt k' /\ kernel_inv k'.
Proof.
  intros (q & l & ps & cs & R) Hp. destruct (ki_heap _ _ _ _ _ _ R) as (lt & le & lr & Hs).
  pose proof (rep_ipc _ _ _ _ _ _ _ _ R Hs) as Hi. pose proof (ki_frame _ _ _ _ _ _ R) as Hf.
  destruct (decide (port < 64)) as [Hlt|Hge].
  - destruct (@with_msg_spec H (framed lt) junk_data frame (k_sched k, k_ipc k) q ps port junk_len frame_nz Hi Hf ltac:(lia)) as ([sc' ip'] & v & Hv & E & Hs').
    exists (mk_kernel sc' (k_timer k) ip' (k_kbd k) (k_irq k) (k_out k)). cbn [fst snd] in *. split.
    { unfold on_si, zoom. change (@ipc_kernel_send H (framed lt)) with (@ipc_kernel_send H HK) in E. by rewrite E. }
    destruct (pv_rcv v) as [|w lq] eqn:Hq.
    + destruct Hs' as (Hi' & -> & Hms). exists q, l, ps, cs.
      apply (after_ipc k q l ps cs lt le lr _ ip' q ps R Hs Hi'); [done|by rewrite Hms|apply R|apply R].
    + destruct Hs' as (buf & Hb & Hi' & Hrec & _ & Ho).
      apply (handed_rep k q l ps cs lt le lr sc' ip' (Z.to_nat port) v false w lq R Hs Hv Hq Hi' Ho).
      destruct (decide (buf = 0)) as [->|Hb0].
      * destruct (ip_msgs ip' !! frame) as [m'|] eqn:Em; [|done]. exfalso. revert Em. clear -E.
        unfold with_msg, mbind in E. apply bindr_Ret_inv in E as (? & ? & _ & E). apply bindr_Ret_inv in E as (? & [? ip1] & _ & E).
        injection E as _ <-. cbn [ip_msgs set_ip_msgs]. by rewrite lookup_delete_eq.
      * destruct (Hrec Hb0) as (m & -> & _). rewrite lookup_insert_ne; [done|]. intros ->.
        destruct (@receiver_buffer H (framed lt) (k_sched k, k_ipc k) q ps (Z.to_nat port) v w frame Hi Hv) as [x Hx]; [rewrite Hq; left|done|done|].
        cbn [snd] in Hx. congruence.
  - assert (Hbuf : forall i v w a, ps !! i = Some v -> w ∈ pv_rcv v -> w_body w = Rcv a -> a <> 0 -> is_Some (ip_msgs (k_ipc k) !! a)).
    { intros i v w a Hv Hw Hb Ha. by apply (@receiver_buffer H (framed lt) (k_sched k, k_ipc k) q ps i v w a). }
    pose proof (ic_msgs _ _ _ (proj1 Hi)) as Hok. cbn [snd] in Hok.
    assert (Hi1 : @ipc_inv H (framed lt) (k_sched k, set_ip_msgs (<[frame := mk_msg 0 junk_data]> (ip_msgs (k_ipc k))) (k_ipc k)) q ps).
    { apply ipc_inv_msgs; [done| |].
      - intros a m. rewrite lookup_insert. case_decide; [intros [= <-]; apply msg0_ok|apply Hok].
      - intros i v w a Hv Hw Hb Ha. rewrite lookup_insert. case_decide; [done|]. by apply (Hbuf i v w a). }
    destruct (@ipc_kernel_send_correct H (framed lt) junk_msg _ q ps port frame (mk_msg 0 junk_data) Hi1 Hp frame_nz) as [_ ([sc' ip'] & E & _ & _ & Hi2 & Hsc & Hms)];
      [apply lookup_insert_eq|lia|]. cbn [fst snd ip_msgs set_ip_msgs] in *. subst sc'.
    exists (mk_kernel (k_sched k) (k_timer k) (set_ip_msgs (delete frame (ip_msgs ip')) ip') (k_kbd k) (k_irq k) (k_out k)). split.
    + unfold on_si, zoom, with_msg, mbind. change (@ipc_kernel_send H (framed lt)) with (@ipc_kernel_send H HK) in E.
      change (on_i (write_msg frame (mk_msg 0 junk_data)) (k_sched k, k_ipc k)) with
        (Ret tt (k_sched k, set_ip_msgs (<[frame := mk_msg 0 junk_data]> (ip_msgs (k_ipc k))) (k_ipc k)) : res (sched * ipc_t) unit).
      cbn [bindr]. rewrite E. done.
    + exists q, l, ps, cs. apply (after_ipc k q l ps cs lt le lr _ _ q ps R Hs); [|done|apply lookup_delete_eq|apply R|apply R].
      rewrite Hms, delete_insert_id by done. by apply ipc_inv_msgs.
Qed.

Lemma irq_handler_safe (k : kernel H) irq : kernel_inv k -> 0 <= irq ->
  exists k', irq_handler junk_data frame irq k = Ret tt k' /\ kernel_inv k'.
Proof.
  intros Hk H0. pose proof Hk as (q & l & ps & cs & R). destruct (ki_irq _ _ _ _ _ _ R) as [Hi Hpo]. pose proof Hi as [Hl Hn].
  destruct (decide (irq < 16)) as [Hlt|Hge].
  2:{ exists k. split; [|done]. apply irq_handler_unused; [done|done|]. intros x Hx. apply lookup_lt_Some in Hx. lia. }
  destruct (get_slot_ok _ irq Hi ltac:(lia)) as [x Hx]. destruct (decide (sl_in_use x = 0)) as [Hu|Hu].
  { exists k. split; [|done]. apply irq_handler_unused; [done|done|]. intros y Hy. congruence. }
  rewrite Forall_forall in Hpo. pose proof (Hpo x ltac:(by eapply list_elem_of_lookup_2)) as Hport.
  destruct (with_msg_safe k (sl_port x) Hk Hport) as (k' & E & Hk'). exists k'. split; [|done]. rewrite <- E.
  unfold irq_handler, on_irq. mstep. rewrite Hl. cbn [Z.eqb zoomr bindr]. destruct (Z.ltb_spec irq 16); [|lia].
  unfold get_slot. cbn [k_irq irq_table set_irq_lock andb]. rewrite Hx. cbn [mopt zoomr bindr]. unfold truthy.
  destruct (Z.eqb_spec (sl_in_use x) 0); [done|]. cbn [negb bindr]. f_equal. destruct k as [? ? ? ? [t lk] ?]. cbn in *. by subst.
Qed.

Lemma out_safe (k : kernel H) p v : kernel_inv k -> exists k', outb p v k = Ret tt k' /\ kernel_inv k'.
Proof.
  intros (q & l & ps & cs & R). eexists. split; [reflexivity|]. exists q, l, ps, cs.
  destruct R as [Ht Ho Hi Hh Hn Hb Hk Hq Hf]. by split.
Qed.

Lemma generic_safe (k : kernel H) r : kernel_inv k -> exists k', isr_generic junk_data frame r k = Ret tt k' /\ kernel_inv k'.
Proof.
  intros Hk. unfold isr_generic. destruct (_ && _); [|by exists k].
  destruct (irq_handler_safe k (u8 (int_no r - 32)) Hk) as (k1 & E1 & H1); [apply Z.mod_pos_bound; reflexivity|].
  rewrite (mbind_Ret _ _ _ _ _ E1). destruct (40 <=? int_no r).
  - destruct (out_safe k1 0xA0 0x20 H1) as (k2 & E2 & H2). rewrite (mbind_Ret _ _ _ _ _ E2). by apply out_safe.
  - rewrite (mbind_Ret _ _ _ k1 k1 eq_refl) || unfold mbind at 1, mret. cbn [bindr]. by apply out_safe.
Qed.

Lemma key_safe (k : kernel H) kb cs' : kernel_inv k -> kbd_rep kb cs' ->
  kernel_inv (mk_kernel (k_sched k) (k_timer k) (k_ipc k) kb (k_irq k) (k_out k)).
Proof. intros (q & l & ps & cs & R) Hk. exists q, l, ps, cs'. destruct R as [Ht Ho Hi Hh Hn Hb _ Hq Hf]. by split. Qed.

Lemma keyboard_safe (k : kernel H) n : kernel_inv k -> (n < fuel)%nat -> Z.land (status n) 1 <> 0 ->
  (forall i, (i < n)%nat -> Z.land (status i) 1 = 0) -> exists k', isr_keyboard status data fuel k = Ret tt k' /\ kernel_inv k'.
Proof.
  intros Hk Hn Hready Hbusy. unfold isr_keyboard.
  assert (Hw : kbc_wait status fuel 0 k = Ret tt k) by (apply (kbc_wait_ready status n); [lia|by rewrite Nat.add_0_l|intros i Hi; rewrite Nat.add_0_l; by apply Hbusy]).
  rewrite (mbind_Ret _ _ _ _ _ Hw). cbv zeta.
  assert (Hput : exists k1, (if Z.land (u8 data) 0x80 =? 0 then if truthy (scancode_to_ascii (u8 data)) then on_kbd (kbd_buf_put (scancode_to_ascii (u8 data))) else mret tt else mret tt) k = Ret tt k1 /\ kernel_inv k1).
  { destruct (Z.land (u8 data) 0x80 =? 0); [|by exists k]. destruct (truthy _); [|by exists k].
    pose proof Hk as (q & l & ps & cs & R). destruct (kbd_put_spec _ _ (scancode_to_ascii (u8 data)) (ki_kbd _ _ _ _ _ _ R)) as (kb & E & Hkb).
    eexists. split; [unfold on_kbd, zoom; rewrite E; reflexivity|]. exact (key_safe k kb _ Hk Hkb). }
  destruct Hput as (k1 & E1 & H1). rewrite (mbind_Ret _ _ _ _ _ E1). by apply out_safe.
Qed.

Lemma interrupt_safe (k : kernel H) r : kernel_inv k -> (int_no r = 14 -> requeues (k_sched k)) ->
  (int_no r = 33 -> exists n, (n < fuel)%nat /\ Z.land (status n) 1 <> 0 /\ forall i, (i < n)%nat -> Z.land (status i) 1 = 0) ->
  safe kernel_inv never (if int_no r =? 32 then isr_generic junk_data frame r else mret tt) k (isr_handler junk_data frame status data fuel r k).
Proof.
  intros Hk Hpf Hkb. unfold isr_handler. destruct (Z.eqb_spec (int_no r) 14) as [E|_].
  { destruct (Z.eqb_spec (int_no r) 32); [lia|]. by apply exit_safe; auto. }
  destruct (Z.eqb_spec (int_no r) 32) as [E32|_].
  - destruct (Z.eqb_spec (int_no r) 33); [lia|]. destruct (tick_safe k Hk) as (k1 & E1 & H1).
    pose proof (yield_safe k1 H1) as Hy. unfold mbind at 1. rewrite (mbind_Ret _ _ _ _ _ E1).
    destruct H1 as (q & l & ps & cs & R). destruct (schedule_blocked _ q (rep_sched _ _ _ _ _ R)) as (sc' & E & _).
    unfold on_sched, zoom in *. rewrite E in *. cbn [zoomr safe bindr] in *. destruct Hy as [Hi Hc]. split; [exact Hi|].
    intros x. by rewrite kernel_eta.
  - rewrite (mbind_Ret (mret tt) _ k tt k eq_refl). destruct (Z.eqb_spec (int_no r) 33) as [E|_].
    + destruct (Hkb E) as (n & H1 & H2 & H3). by destruct (keyboard_safe k n Hk H1 H2 H3) as (k' & -> & Hk').
    + by destruct (generic_safe k r Hk) as (k' & -> & Hk').
Qed.

(** ** The remaining calls *)

Lemma register_safe (k : kernel H) irq port : kernel_inv k -> 0 <= irq < 256 -> 0 <= port ->
  exists x k', on_irq (irq_register irq port) k = Ret x k' /\ kernel_inv k'.
Proof.
  intros (q & l & ps & cs & R) Hirq Hp. destruct (ki_irq _ _ _ _ _ _ R) as [Hi Hpo].
  assert (Hr : exists x s', irq_register irq port (k_irq k) = Ret x s' /\ irq_inv s' /\ Forall (fun x => 0 <= sl_port x) (irq_table s')).
  { destruct (irq_register_correct (k_irq k) irq port Hi Hirq) as [Hfar Hnear]. destruct (decide (16 <= irq)) as [Hge|Hlt].
    { exists (-1), (k_irq k). by rewrite Hfar. }
    destruct (Hnear ltac:(lia)) as (x & Hx & Hreg). destruct (sl_in_use x =? 0); [|by exists (-1), (k_irq k)].
    destruct Hreg as (s' & E & Hi' & Hnew & Hold). exists 0, s'. split_and!; [done|apply Hi'|].
    apply Forall_lookup. intros j y Hy. destruct (decide (j = Z.to_nat irq)) as [->|Hne]; [rewrite Hnew in Hy; by injection Hy as <-|].
    rewrite Hold in Hy by done. rewrite Forall_lookup in Hpo. by apply (Hpo j). }
  destruct Hr as (x & s' & E & Hi' & Hpo'). eexists x, _. unfold on_irq, zoom. rewrite E. split; [reflexivity|].
  exists q, l, ps, cs. destruct R as [Ht Ho Hip Hh Hn Hb Hk _ Hf]. by split.
Qed.

Lemma readkey_safe (k : kernel H) : kernel_inv k ->
  safe kernel_inv never (mret tt) k ((o <- on_kbd kbd_try_get ;; match o with Some _ => mret tt | None => on_sched schedule end) k).
Proof.
  intros Hk. pose proof Hk as (q & l & ps & cs & R). destruct (kbd_get_spec _ _ (ki_kbd _ _ _ _ _ _ R)) as (kb & E & Hkb).
  pose proof (key_safe k kb _ Hk Hkb) as H1. unfold mbind, on_kbd at 1, zoom. rewrite E. cbn [zoomr bindr].
  destruct (head cs); [exact H1|]. exact (safe_never _ _ _ _ k _ (yield_safe _ H1)).
Qed.

Lemma create_safe (k : kernel H) (m : M sched Z) th words :
  kernel_inv k -> (forall x, th_state (th x) = THREAD_STATE_READY) ->
  (forall F q ls, sched_inv (k_sched k) q -> @heap_ok H (framed F) (k_sched k) ls -> @create_spec H (framed F) m (k_sched k) q ls th words) ->
  safe kernel_inv (fun k => thread_scarce (s_heap (k_sched k))) (mret tt) k ((_ <- on_sched m ;; mret tt) k).
Proof.
  intros (q & l & ps & cs & R) Hth Hm. destruct (ki_heap _ _ _ _ _ _ R) as (lt & le & lr & Hs). pose proof (rep_sched _ _ _ _ _ R) as I.
  destruct (Hm (lt ++ le) q lr I) as [(t & stk & z & s' & ls' & E & H0 & Hd & _ & _ & _ & Hc & I' & Hv' & Hdom')|(Hsc & [E|(h' & E & I' & Hv' & _)])].
  { split; [|apply Hs]. cbn [kh_view framed]. eapply kh_view_perm; [apply Hs|]. by rewrite app_assoc, Permutation_app_comm. }
  - unfold mbind, on_sched, zoom. rewrite E. unfold mret. cbn [zoomr bindr safe].
    assert (Hs' : heap_split s' l ps lt le ls').
    { destruct Hs as (_ & Elt & Ele & _). split; [|done]. change (kh_view (s_heap s') (ls' ++ lt ++ le)) in Hv'.
      eapply kh_view_perm; [exact Hv'|]. by rewrite Permutation_app_comm, app_assoc. }
    pose proof (created_blocked _ _ _ _ _ _ Hc Hd (Hth stk)) as Hb.
    destruct (split_invs HK HK (k_sched k) s' (k_timer k) (k_ipc k) q (t :: q) l ps lt le ls' (ki_timer _ _ _ _ _ _ R) (ki_ipc _ _ _ _ _ _ R) I') as [Ht' Hi'];
      [rewrite Hc; cbn [s_threads]; rewrite dom_insert_L; set_solver|done|].
    exists (t :: q), l, ps, cs. destruct R as [_ Ho _ _ Hn Hbl Hk Hq Hf].
    split; cbn [k_sched k_timer k_ipc k_kbd k_irq]; try done; [by exists lt, le, ls'|]. intros u. by rewrite Hb.
  - unfold mbind, on_sched, zoom. rewrite E. exact Hsc.
  - unfold mbind, on_sched, zoom. rewrite E. unfold mret. cbn [zoomr bindr safe].
    assert (Hs' : heap_split (set_heap h' (k_sched k)) l ps lt le lr).
    { destruct Hs as (_ & Elt & Ele & Hdom). split; [|done]. change (kh_view h' (lr ++ lt ++ le)) in Hv'.
      eapply kh_view_perm; [exact Hv'|]. by rewrite Permutation_app_comm, app_assoc. }
    destruct (split_invs HK HK (k_sched k) (set_heap h' (k_sched k)) (k_timer k) (k_ipc k) q q l ps lt le lr (ki_timer _ _ _ _ _ _ R) (ki_ipc _ _ _ _ _ _ R) I') as [Ht' Hi'];
      [done|done|]. exists q, l, ps, cs. destruct R as [_ Ho _ _ Hn Hbl Hk Hq Hf].
    split; cbn [k_sched k_timer k_ipc k_kbd k_irq]; try done. by exists lt, le, lr.
Qed.

Lemma compose_safe (k : kernel H) a m : kernel_inv k -> a <> frame -> msg_ok m ->
  exists k', on_si (on_i (write_msg a m)) k = Ret tt k' /\ kernel_inv k'.
Proof.
  intros (q & l & ps & cs & R) Ha Hm. eexists. split; [reflexivity|]. exists q, l, ps, cs.
  destruct R as [Ht Ho Hi Hh Hn Hb Hk Hq Hf]. split; cbn [k_sched k_timer k_ipc k_kbd k_irq fst snd ip_msgs set_ip_msgs]; try done.
  - apply ipc_inv_msgs; [done| |].
    + intros x y. rewrite lookup_insert. case_decide; [by intros [= <-]|]. apply (ic_msgs _ _ _ (proj1 Hi)).
    + intros i v w b Hv Hw Hbd Hb0. rewrite lookup_insert. case_decide; [done|]. by apply (receiver_buffer (k_sched k, k_ipc k) q ps i v w b).
  - by rewrite lookup_insert_ne.
Qed.

(** ** Every event keeps the invariant *)

#[local] Abbreviation run_event := (run_event junk userspace_entry junk_msg junk_data frame status data fuel).
#[local] Abbreviation enabled := (enabled frame status fuel).
#[local] Abbreviation step := (step junk userspace_entry junk_msg junk_data frame status data fuel).

Lemma event_safe (k : kernel H) e : kernel_inv k -> enabled k e -> safe kernel_inv (event_starved e) (rest_of junk_data frame e) k (run_event e k).
Proof.
  intros Hk He. destruct e as [r| | |d|port msg|port msg|irq port| |entry cr3 proc|entry us cr3 proc|a m]; cbn [System.run_event rest_of] in *.
  - destruct He as (_ & Hpf & Hkb). by apply interrupt_safe.
  - by apply yield_safe.
  - by apply exit_safe.
  - by apply sleep_safe.
  - destruct He as (Hr & Hp & Hm0 & Hm). by apply send_safe.
  - destruct He as (Hr & Hp & Hm0 & Hm). by apply recv_safe.
  - destruct He as [Hi Hp]. destruct (register_safe k irq port Hk Hi Hp) as (x & k' & E & Hk'). unfold mbind. by rewrite E.
  - by apply readkey_safe.
  - eapply create_safe; [done| |intros F q ls I Hok; exact (@thread_create_gen H (framed F) junk (k_sched k) q ls entry cr3 proc I Hok)]. done.
  - eapply create_safe; [done| |intros F q ls I Hok; exact (@thread_create_user_gen H (framed F) junk userspace_entry (k_sched k) q ls entry us cr3 proc I Hok)]. done.
  - destruct He as [Ha Hm]. by destruct (compose_safe k a m Hk Ha Hm) as (k' & -> & Hk').
Qed.

(** ** Runs *)

Lemma rest_safe (k : kernel H) e : kernel_inv k -> exists k', rest_of junk_data frame e k = Ret tt k' /\ kernel_inv k'.
Proof. intros Hk. destruct e as [r| | | | | | | | | |]; cbn [rest_of]; try (by exists k). destruct (int_no r =? 32); [by apply generic_safe|by exists k]. Qed.

(** The suspended computations return when they are resumed. *)
Definition config_ok (x : config) : Prop :=
  kernel_inv (fst x) /\ forall c, c ∈ snd x -> forall k, kernel_inv k -> exists k', c k = Ret tt k' /\ kernel_inv k'.

Lemma step_ok x y : config_ok x -> step x y -> config_ok y.
Proof.
  intros [Hk Hks] Hs. destruct Hs as [k ks e y He Ho|k ks1 c ks2 y Ho]; cbn [fst snd] in *.
  - pose proof (event_safe k e Hk He) as Hr. destruct Ho as [k' E|k' E|k' c E]; rewrite E in Hr; simpl in Hr; [by split..|].
    destruct Hr as [Hi Hc]. split; [done|]. intros c' Hc' x Hx. cbn [snd] in Hc'. apply elem_of_cons in Hc' as [->|Hc']; [|by apply (Hks c')].
    rewrite Hc. by apply rest_safe.
  - destruct (Hks c ltac:(apply elem_of_app; right; left) k Hk) as (k' & E & Hk').
    destruct Ho as [k2 E2|k2 E2|k2 c2 E2]; rewrite E in E2; simplify_eq. split; [done|]. intros c' Hc'. apply Hks. cbn [snd] in Hc'.
    apply elem_of_app in Hc' as [?|?]; apply elem_of_app; [by left|right; by right].
Qed.

Lemma steps_ok x y : config_ok x -> rtc step x y -> config_ok y.
Proof. intros Hx Hs. induction Hs as [x|x y z Hs _ IH]; [done|]. by apply IH, (step_ok x y). Qed.

Definition stuck (r : res (kernel H) unit) : Prop := r = Spin \/ r = Hang \/ r = Fault.

Lemma safe_not_stuck O T k r : safe kernel_inv O T k r -> stuck r -> r = Fault /\ O k.
Proof. by intros Hs [->|[->| ->]]. Qed.
End SystemFacts.
