(* ===== verification/Fork.v ===== *)
(** * Copying an address space (src/kernel/proc.c, lines 47-112)

    The four nested loops of [fork_address_space], one definition per loop,
    on the page tables and the byte memory of vmm.c.  [memset] and [memcpy]
    are those of Mem.v. *)

From stdpp Require Import base gmap list fin_maps.
From Stdlib Require Import ZArith Lia.
From S2P Require Import Prelude Mem Pmm Vmm.

(** A [for] loop whose body may leave the function with a nonzero result. *)
Fixpoint for_ok {S} (n : nat) (i : Z) (body : Z -> M S Z) : M S Z :=
  match n with
  | O => mret 0
  | Datatypes.S n' =>
      r <- body i ;;
      if r =? 0 then for_ok n' (i + 1) body else mret r
  end.

Section Fork.
Context {P : Type} `{FrameAllocator P}.
Context (hhdm_offset : Z).
#[local] Abbreviation vm := (@vm_t P).
#[local] Abbreviation ptv := (phys_to_virt hhdm_offset).

Definition do_memset (s c n : Z) : M vm unit := mset (fun x => set_vm_mem (memset s c n (vm_mem x)) x).
Definition do_memcpy (d s n : Z) : M vm unit := mset (fun x => set_vm_mem (memcpy d s n (vm_mem x)) x).

(** [(parent & 0xFFF) | phys] *)
Definition child_entry (parent phys : Z) : Z := Z.lor (Z.land parent 0xFFF) phys.

(** Lines 94-105: one page. *)
Definition fork_page (parent_pt child_pt pt_i : Z) : M vm Z :=
  e <- load64 (parent_pt + 8 * pt_i) ;;
  if negb (present e) then mret 0 else
  let old_phys := entry_get_addr e in
  new_phys <- alloc_frame ;;
  if new_phys =? 0 then mret (-1) else
  do_memcpy (ptv new_phys) (ptv old_phys) PAGE_SIZE ;;;
  e <- load64 (parent_pt + 8 * pt_i) ;;
  store64 (child_pt + 8 * pt_i) (child_entry e new_phys) ;;;
  mret 0.

Definition fork_pt (parent_pt child_pt : Z) : M vm Z := for_ok 512 0 (fork_page parent_pt child_pt).

(** Lines 82-92, and the same lines of the two outer loops: one table, whose
    entries are then copied by the next loop. *)
Definition fork_table (next : Z -> Z -> M vm Z) (parent child i : Z) : M vm Z :=
  e <- load64 (parent + 8 * i) ;;
  if negb (present e) then mret 0 else
  sub_phys <- alloc_frame ;;
  if sub_phys =? 0 then mret (-1) else
  let child_sub := ptv sub_phys in
  do_memset child_sub 0 PAGE_SIZE ;;;
  e <- load64 (parent + 8 * i) ;;
  store64 (child + 8 * i) (child_entry e sub_phys) ;;;
  e <- load64 (parent + 8 * i) ;;
  let parent_sub := ptv (entry_get_addr e) in
  next parent_sub child_sub.

Definition fork_pd (parent_pd child_pd : Z) : M vm Z := for_ok 512 0 (fork_table fork_pt parent_pd child_pd).
Definition fork_pdpt (parent_pdpt child_pdpt : Z) : M vm Z := for_ok 512 0 (fork_table fork_pd parent_pdpt child_pdpt).

Definition fork_address_space (parent_pml4_phys child_pml4_phys : Z) : M vm Z :=
  let parent_pml4 := ptv parent_pml4_phys in
  let child_pml4 := ptv child_pml4_phys in
  mfor 256 256 (fun i => e <- load64 (parent_pml4 + 8 * i) ;; store64 (child_pml4 + 8 * i) e) ;;;
  for_ok 256 0 (fork_table fork_pdpt parent_pml4 child_pml4).

End Fork.
