(* ===== verification/ForkFacts.v ===== *)
(** * A forked address space is a deep copy

    [fork_address_space] proved level by level: each loop copies the slots of
    one table, and a copied slot is a fresh frame that holds a copy of what
    the parent's slot refers to. *)

From stdpp Require Import base gmap list fin_maps.
From Stdlib Require Import ZArith Lia.
From S2P Require Import Prelude Mem Pmm Vmm PageTables Fork.

#[local] Opaque rd64 wr64 memset memcpy.

(** A list of indices that are known to be in range. *)
Ltac index_path := repeat (apply Forall_cons_2; [assumption|]); apply Forall_nil_2.

Section ForkFacts.
Context {P : Type} `{FrameAllocator P}.
Context (hhdm_offset : Z) (hhdm_nonneg : 0 <= hhdm_offset).
#[local] Abbreviation vm := (@vm_t P).
#[local] Abbreviation slot := (slot hhdm_offset).
#[local] Abbreviation walk := (walk hhdm_offset).
#[local] Abbreviation ptv := (phys_to_virt hhdm_offset).
#[local] Abbreviation frame := (frame hhdm_offset).

(** ** Memory changed in some frames only *)

Definition in_frame (x a : Z) : Prop := ptv x <= a < ptv x + 4096.
Definition only (m m' : mem) (L : list Z) : Prop :=
  forall a, (forall x, x ∈ L -> ~ in_frame x a) -> rd8 m' a = rd8 m a.

Lemma only_trans m1 m2 m3 L1 L2 : only m1 m2 L1 -> only m2 m3 L2 -> only m1 m3 (L1 ++ L2).
Proof.
  intros H1 H2 a Ha. rewrite H2, H1; [done| |]; intros x Hx; apply Ha, elem_of_app; auto.
Qed.

Lemma only_mono m m' L L' : only m m' L -> (forall x, x ∈ L -> x ∈ L') -> only m m' L'.
Proof. intros H1 Hs a Ha. apply H1. auto. Qed.

Lemma in_frame_apart x y a : frame x -> frame y -> in_frame x a -> in_frame y a -> x = y.
Proof.
  intros Hx Hy. unfold in_frame. rewrite !frame_ptv by done. intros Ha Hb.
  destruct (Z.eq_dec x y); [done|]. destruct (frames_apart hhdm_offset x y Hx Hy n); lia.
Qed.

Definition frames (L : list Z) : Prop := forall x, x ∈ L -> frame x.

Lemma only_byte m m' L x b : only m m' L -> frames L -> frame x -> x ∉ L -> 0 <= b < 4096 ->
  rd8 m' (ptv x + b) = rd8 m (ptv x + b).
Proof.
  intros Ho HL Hx Hn Hb. apply Ho. intros y Hy Hin. apply Hn.
  assert (y = x) as ->; [|done]. apply (in_frame_apart y x (ptv x + b)); [by apply HL|done|done|]. unfold in_frame. lia.
Qed.

Lemma only_slot m m' L x i : only m m' L -> frames L -> frame x -> x ∉ L -> 0 <= i < 512 ->
  rd64 m' (slot x i) = rd64 m (slot x i).
Proof.
  intros Ho HL Hx Hn Hi. apply rd64_ext. intros b Hb. unfold Vmm.slot in *.
  replace b with (ptv x + (b - ptv x)) by lia. apply (only_byte m m' L); try done. lia.
Qed.

Lemma only_wr64 m x i v : frame x -> 0 <= i < 512 -> only m (wr64 m (slot x i) v) [x].
Proof.
  intros Hx Hi a Ha. apply rd8_wr64_out. specialize (Ha x ltac:(left)). unfold in_frame in Ha. unfold Vmm.slot. lia.
Qed.

Lemma only_memset m x : frame x -> only m (memset (ptv x) 0 4096 m) [x].
Proof.
  intros Hx a Ha. specialize (Ha x ltac:(left)). unfold in_frame in Ha. rewrite rd8_memset by lia.
  destruct (Z.leb_spec (ptv x) a), (Z.ltb_spec a (ptv x + 4096)); simpl; done || lia.
Qed.

Lemma only_memcpy m x y : frame x -> frame y -> x <> y ->
  only m (memcpy (ptv x) (ptv y) 4096 m) [x] /\
  forall b, 0 <= b < 4096 -> rd8 (memcpy (ptv x) (ptv y) 4096 m) (ptv x + b) = rd8 m (ptv y + b).
Proof.
  intros Hx Hy Hne. pose proof (frames_apart hhdm_offset x y Hx Hy Hne) as Hap.
  assert (Hd : ptv x + 4096 <= ptv y \/ ptv y + 4096 <= ptv x) by (rewrite !frame_ptv by done; lia).
  split.
  - intros a Ha. specialize (Ha x ltac:(left)). unfold in_frame in Ha. rewrite rd8_memcpy by lia.
    destruct (Z.leb_spec (ptv x) a), (Z.ltb_spec a (ptv x + 4096)); simpl; done || lia.
  - intros b Hb. rewrite rd8_memcpy by lia.
    destruct (Z.leb_spec (ptv x) (ptv x + b)), (Z.ltb_spec (ptv x + b) (ptv x + 4096)); simpl; try lia.
    f_equal. lia.
Qed.

(** ** Entries of the child *)

Lemma child_entry_make e p : frame p -> child_entry e p = make_entry p e.
Proof.
  intros Hp. unfold child_entry, make_entry. rewrite Z.lor_comm. f_equal.
  symmetry. change (entry_get_addr p = p). by apply (frame_entry_addr hhdm_offset).
Qed.

Lemma flags_make e p : frame p -> Z.land (make_entry p e) 0xFFF = Z.land e 0xFFF.
Proof.
  intros Hp. pose proof (frame_nonneg _ _ Hp). change 0xFFF with 4095. rewrite !land_4095, make_entry_add by done.
  rewrite Z.add_mod, entry_addr_aligned, Z.add_0_l, !Z.mod_mod by lia. done.
Qed.

Lemma present_make' e p : frame p -> present (make_entry p e) = present e.
Proof.
  intros Hp. rewrite present_make by (by apply (frame_nonneg hhdm_offset) in Hp). unfold present, truthy.
  rewrite land_1, Zmod_odd. by destruct (Z.odd e).
Qed.

Lemma addr_make e p : frame p -> entry_get_addr (make_entry p e) = p.
Proof. intros Hp. rewrite entry_get_make by (by apply (frame_nonneg hhdm_offset) in Hp). by apply (frame_entry_addr hhdm_offset). Qed.

(** ** Copies of trees

    A tree of depth [d] at a frame: a page when [d] is 0, otherwise a table
    whose present entries refer to trees of depth [d - 1]. *)

(** The frames of a tree, by the paths that lead to them. *)
Definition path_ok (d : nat) (path : list Z) : Prop := (length path <= d)%nat /\ Forall (fun i => 0 <= i < 512) path.

(** Every frame of the tree satisfies [Q]. *)
Definition tree_in (d : nat) (m : mem) (t : Z) (Q : Z -> Prop) : Prop :=
  forall path x, path_ok d path -> walk m t path = Some x -> Q x.

(** Different paths lead to different frames. *)
Definition tree_inj (d : nat) (m : mem) (t : Z) : Prop :=
  forall p1 p2 x, path_ok d p1 -> path_ok d p2 -> walk m t p1 = Some x -> walk m t p2 = Some x -> p1 = p2.

(** A slot whose subtree is copied ([R]), with the same flags. *)
Definition slot_cloned (R : Z -> Z -> Prop) (m m' : mem) (t t' j : Z) : Prop :=
  let e := rd64 m (slot t j) in let e' := rd64 m' (slot t' j) in
  if present e then present e' = true /\ Z.land e' 0xFFF = Z.land e 0xFFF /\ R (entry_get_addr e) (entry_get_addr e')
  else present e' = false.

Fixpoint cloned (d : nat) (m m' : mem) (t t' : Z) : Prop :=
  match d with
  | O => forall b, 0 <= b < 4096 -> rd8 m' (ptv t' + b) = rd8 m (ptv t + b)
  | S d' => forall j, 0 <= j < 512 -> slot_cloned (cloned d' m m') m m' t t' j
  end.

Lemma path_ok_nil d : path_ok d [].
Proof. split; [simpl; lia|constructor]. Qed.

Lemma path_ok_cons d j path : path_ok (S d) (j :: path) <-> 0 <= j < 512 /\ path_ok d path.
Proof. unfold path_ok. rewrite Forall_cons. simpl. intuition lia. Qed.

Lemma path_ok_S d path : path_ok d path -> path_ok (S d) path.
Proof. intros [? ?]. split; [lia|done]. Qed.

Lemma tree_in_root d m t Q : tree_in d m t Q -> Q t.
Proof. intros Ht. apply (Ht []); [apply path_ok_nil|done]. Qed.

Lemma tree_in_sub d m t Q j : tree_in (S d) m t Q -> 0 <= j < 512 -> present (rd64 m (slot t j)) = true ->
  tree_in d m (entry_get_addr (rd64 m (slot t j))) Q.
Proof.
  intros Ht Hj Hp path x Hpath Hw. apply (Ht (j :: path)); [by apply path_ok_cons|]. cbn [Vmm.walk]. by rewrite Hp.
Qed.

Lemma tree_in_mono d m t (Q Q' : Z -> Prop) : tree_in d m t Q -> (forall x, Q x -> Q' x) -> tree_in d m t Q'.
Proof. intros Ht HQ path x Hp Hw. eauto. Qed.

(** A tree whose frames are untouched is unchanged. *)
Lemma walk_same d : forall m m' L t path, only m m' L -> frames L ->
  tree_in d m t (fun x => frame x /\ x ∉ L) -> path_ok (S d) path -> walk m' t path = walk m t path.
Proof.
  induction d as [|d IH]; intros m m' L t path Ho HL Ht Hp; destruct path as [|j path]; try done; cbn [Vmm.walk].
  - apply path_ok_cons in Hp as [Hj [Hlen _]]. destruct path; [|simpl in Hlen; lia].
    destruct (tree_in_root _ _ _ _ Ht) as [Hf Hn]. by rewrite (only_slot m m' L t j).
  - apply path_ok_cons in Hp as [Hj Hp]. destruct (tree_in_root _ _ _ _ Ht) as [Hf Hn].
    rewrite (only_slot m m' L t j) by done. destruct (present _) eqn:E; [|done].
    apply (IH m m' L); try done. by apply tree_in_sub.
Qed.

Lemma tree_in_same d m m' L t Q : only m m' L -> frames L -> tree_in d m t (fun x => frame x /\ x ∉ L) ->
  tree_in d m t Q -> tree_in d m' t Q.
Proof.
  intros Ho HL Ht HQ path x Hp Hw. apply (HQ path); [done|]. rewrite <- Hw. symmetry.
  apply (walk_same d m m' L); try done. by apply path_ok_S.
Qed.

(** Copies survive changes elsewhere, on either side. *)
Lemma cloned_left d : forall m m' m1 L t t', only m m1 L -> frames L -> tree_in d m t (fun x => frame x /\ x ∉ L) ->
  cloned d m m' t t' -> cloned d m1 m' t t'.
Proof.
  induction d as [|d IH]; intros m m' m1 L t t' Ho HL Ht Hc; destruct (tree_in_root _ _ _ _ Ht) as [Hf Hn]; cbn [cloned] in *.
  - intros b Hb. rewrite (only_byte m m1 L) by done. by apply Hc.
  - intros j Hj. specialize (Hc j Hj). unfold slot_cloned in *. rewrite (only_slot m m1 L) by done.
    destruct (present (rd64 m (slot t j))) eqn:E; [|done]. destruct Hc as (E' & Hfl & Hc). split; [done|]. split; [done|].
    apply (IH m m' m1 L); try done. by apply tree_in_sub.
Qed.

Lemma cloned_right d : forall m m' m2 L t t', only m' m2 L -> frames L -> tree_in d m' t' (fun x => frame x /\ x ∉ L) ->
  cloned d m m' t t' -> cloned d m m2 t t'.
Proof.
  induction d as [|d IH]; intros m m' m2 L t t' Ho HL Ht Hc; destruct (tree_in_root _ _ _ _ Ht) as [Hf Hn]; cbn [cloned] in *.
  - intros b Hb. rewrite (only_byte m' m2 L) by done. by apply Hc.
  - intros j Hj. specialize (Hc j Hj). unfold slot_cloned in *. rewrite (only_slot m' m2 L) by done.
    destruct (present (rd64 m (slot t j))) eqn:E; [|done]. destruct Hc as (E' & Hfl & Hc). split; [done|]. split; [done|].
    apply (IH m m' m2 L); try done. by apply tree_in_sub.
Qed.

Lemma only_sym m m' L : only m m' L -> only m' m L.
Proof. intros Ho a Ha. symmetry. by apply Ho. Qed.

(** ** One run of a loop or of its body *)

Definition free_frames (s : vm) : list Z := fa_pages (vm_pmm s).

Definition pool (s : vm) : Prop :=
  fa_ok (vm_pmm s) /\ NoDup (free_frames s) /\ forall x, x ∈ free_frames s -> frame x /\ x <> 0.

(** [s'] after [s]: the frames [used] were taken, memory changed in them and
    in the frame [c] only. *)
Record ran (s s' : vm) (c : Z) (used : list Z) : Prop := {
  ran_pool : pool s';
  ran_used : free_frames s = used ++ free_frames s';
  ran_mem : only (vm_mem s) (vm_mem s') (c :: used);
  ran_root : vm_pml4 s' = vm_pml4 s;
  ran_lock : vmm_lock s' = vmm_lock s
}.

Lemma ran_refl s c : pool s -> ran s s c [].
Proof. intros Hp. by split. Qed.

Lemma ran_trans s1 s2 s3 c u1 u2 : ran s1 s2 c u1 -> ran s2 s3 c u2 -> ran s1 s3 c (u1 ++ u2).
Proof.
  intros [P1 U1 M1 R1 L1] [P2 U2 M2 R2 L2]. split; [done|by rewrite U1, U2, app_assoc| |congruence|congruence].
  eapply only_mono; [eapply only_trans; eassumption|]. set_solver.
Qed.

(** A frame a parent may own: neither free nor the child's. *)
Definition apart (s : vm) (c x : Z) : Prop := frame x /\ x <> c /\ x ∉ free_frames s.

Lemma apart_child s c x : apart s c x -> frame x /\ x ∉ [c].
Proof. intros (Hx & Hc & _). split; [done|]. by intros ?%list_elem_of_singleton. Qed.

Lemma apart_ran s s' c used x : ran s s' c used -> apart s c x -> x ∉ c :: used /\ apart s' c x.
Proof.
  intros Hr (Hf & Hc & Hn). rewrite (ran_used _ _ _ _ Hr) in Hn. unfold apart. set_solver.
Qed.

Lemma used_frames s s' c used : pool s -> frame c -> ran s s' c used -> frames (c :: used).
Proof.
  intros (_ & _ & Hp) Hc Hr x [->|Hx]%elem_of_cons; [done|]. apply Hp. rewrite (ran_used _ _ _ _ Hr). set_solver.
Qed.

Lemma used_was_free s s' c used x : ran s s' c used -> x ∈ used -> x ∈ free_frames s.
Proof. intros Hr Hx. rewrite (ran_used _ _ _ _ Hr). apply elem_of_app. by left. Qed.

Definition succeeded (d : nat) (s s' : vm) (p c : Z) (U : list Z) : Prop :=
  cloned d (vm_mem s) (vm_mem s') p c /\ tree_in d (vm_mem s') c (fun x => x ∈ U) /\ tree_inj d (vm_mem s') c.

(** A copy of one present slot into the slot of the child's table [c]. *)
Definition slot_spec (d : nat) (body : Z -> Z -> Z -> M vm Z) : Prop :=
  forall s p c j, pool s -> frame c -> c ∉ free_frames s -> apart s c p -> 0 <= j < 512 ->
    let e := rd64 (vm_mem s) (slot p j) in
    present e = true -> tree_in d (vm_mem s) (entry_get_addr e) (apart s c) ->
    exists r s' used, body (ptv p) (ptv c) j s = Ret r s' /\ ran s s' c used /\
      (forall k, 0 <= k < 512 -> k <> j -> rd64 (vm_mem s') (slot c k) = rd64 (vm_mem s) (slot c k)) /\
      ((r = 0 /\ exists q, frame q /\ rd64 (vm_mem s') (slot c j) = make_entry q e /\
          succeeded d s s' (entry_get_addr e) q used) \/
       (r = -1 /\ free_frames s' = [])).

(** A copy of a table into an empty one. *)
Definition level_spec (d : nat) (next : Z -> Z -> M vm Z) : Prop :=
  forall s p c, pool s -> frame c -> c ∉ free_frames s -> tree_in d (vm_mem s) p (apart s c) ->
    (forall j, 0 <= j < 512 -> present (rd64 (vm_mem s) (slot c j)) = false) ->
    exists r s' used, next (ptv p) (ptv c) s = Ret r s' /\ ran s s' c used /\
      ((r = 0 /\ succeeded d s s' p c (c :: used)) \/ (r = -1 /\ free_frames s' = [])).

Lemma alloc_none s : pool s -> free_frames s = [] -> alloc_frame s = Ret 0 s.
Proof.
  intros (Hok & _) Hn. unfold alloc_frame, zoom. rewrite (fa_alloc_nil _ Hok Hn). by destruct s.
Qed.

Lemma alloc_some s q free : pool s -> free_frames s = q :: free ->
  exists s', alloc_frame s = Ret q s' /\ pool s' /\ free_frames s' = free /\ vm_mem s' = vm_mem s /\
    vm_pml4 s' = vm_pml4 s /\ vmm_lock s' = vmm_lock s /\ frame q /\ q <> 0 /\ q ∉ free.
Proof.
  intros (Hok & Hnd & Hf) Hq. destruct (fa_alloc_cons _ q free Hok Hq) as (pm & E & Hok' & Hfree).
  exists (set_vm_pmm pm s). unfold alloc_frame, zoom. rewrite E. unfold free_frames in *. rewrite Hq in Hnd, Hf.
  apply NoDup_cons in Hnd as [Hn Hnd]. destruct (Hf q ltac:(left)) as [Hfq Hq0]. cbn [vm_pmm vm_mem vm_pml4 vmm_lock set_vm_pmm].
  split; [done|]. split; [|by rewrite Hfree]. split; [done|]. unfold free_frames. cbn [vm_pmm set_vm_pmm]. rewrite Hfree.
  split; [done|]. intros x Hx. apply Hf. by right.
Qed.

(** One page. *)
Lemma fork_page_spec : slot_spec 0 (fork_page hhdm_offset).
Proof.
  intros s p c j Hpool Hc Hcn Hp Hj e He Ht. destruct (tree_in_root _ _ _ _ Ht) as (Hold & Holdc & Holdn). destruct Hp as (Hpf & Hpc & Hpn).
  unfold fork_page, load64, store64, do_memcpy. mstep. change (ptv p + 8 * j) with (slot p j). fold e. rewrite He. cbn [negb].
  destruct (free_frames s) as [|q free] eqn:Hfree.
  { rewrite (alloc_none s Hpool Hfree). cbn [bindr Z.eqb]. exists (-1), s, []. split; [done|]. split; [by apply ran_refl|]. split; [done|]. by right. }
  destruct (alloc_some s q free Hpool Hfree) as (s1 & E & Hpool1 & Hfree1 & Hm1 & Hr1 & Hl1 & Hq & Hq0 & Hqn). rewrite E. cbn [bindr].
  destruct (Z.eqb_spec q 0); [done|]. cbn [bindr vm_mem set_vm_mem]. rewrite Hm1. change PAGE_SIZE with 4096.
  assert (Hqo : q <> entry_get_addr e) by set_solver.
  destruct (only_memcpy (vm_mem s) q (entry_get_addr e) Hq Hold Hqo) as [Ho Hcopy].
  set (m1 := memcpy (ptv q) (ptv (entry_get_addr e)) 4096 (vm_mem s)) in *. clearbody m1.
  assert (Hcq : c <> q) by set_solver. assert (Hpq : p <> q) by set_solver.
  assert (Hqf : frames [q]) by (intros x ->%list_elem_of_singleton; done).
  assert (Ee : rd64 m1 (slot p j) = e) by (apply (only_slot (vm_mem s) m1 [q] p j Ho Hqf Hpf ltac:(set_solver) Hj)). rewrite Ee.
  change (ptv c + 8 * j) with (slot c j). rewrite child_entry_make by done.
  set (s' := set_vm_mem (wr64 m1 (slot c j) (make_entry q e)) _). exists 0, s', [q]. split; [done|].
  assert (Hslot : forall k, 0 <= k < 512 -> rd64 (vm_mem s') (slot c k) = if k =? j then make_entry q e else rd64 (vm_mem s) (slot c k)).
  { intros k Hk. cbn [vm_mem s' set_vm_mem]. destruct (Z.eqb_spec k j) as [->|Hne].
    - rewrite rd64_wr64_eq. apply make_entry_u64. by apply (frame_nonneg hhdm_offset) in Hq.
    - rewrite rd64_wr64_ne by (apply slot_apart; auto). exact (only_slot (vm_mem s) m1 [q] c k Ho Hqf Hc ltac:(set_solver) Hk). }
  split; [|split].
  - split; [exact Hpool1|rewrite Hfree; f_equal; symmetry; exact Hfree1| |exact Hr1|exact Hl1]. cbn [vm_mem s' set_vm_mem].
    eapply only_mono; [eapply only_trans; [exact Ho|by apply only_wr64]|]. set_solver.
  - intros k Hk Hne. rewrite Hslot by done. by destruct (Z.eqb_spec k j).
  - left. split; [done|]. exists q. split; [done|]. split; [rewrite Hslot by done; by rewrite Z.eqb_refl|].
    split; [|split].
    + intros b Hb. cbn [vm_mem s' set_vm_mem]. rewrite <- Hcopy by done.
      apply (only_byte m1 _ [c]); try done; [by apply only_wr64|intros x ->%list_elem_of_singleton; done|set_solver].
    + intros path x [Hlen _] Hw. destruct path; [|simpl in Hlen; lia]. injection Hw as <-. set_solver.
    + intros p1 p2 x [Hl1' _] [Hl2 _]. destruct p1, p2; simpl in *; done || lia.
Qed.

Lemma memset_slot x m j : frame x -> 0 <= j < 512 -> rd64 (memset (ptv x) 0 4096 m) (slot x j) = 0.
Proof. intros Hx Hj. unfold Vmm.slot. apply rd64_memset_zero; lia. Qed.

(** One table. *)
Lemma fork_table_spec d next : level_spec d next -> slot_spec d (fork_table hhdm_offset next).
Proof.
  intros Hnext s p c j Hpool Hc Hcn Hp Hj e He Ht. destruct Hp as (Hpf & Hpc & Hpn).
  unfold fork_table, load64, store64, do_memset. mstep. change (ptv p + 8 * j) with (slot p j). fold e. rewrite He. cbn [negb].
  destruct (free_frames s) as [|q free] eqn:Hfree.
  { rewrite (alloc_none s Hpool Hfree). cbn [bindr Z.eqb]. exists (-1), s, []. split; [done|]. split; [by apply ran_refl|]. split; [done|]. by right. }
  destruct (alloc_some s q free Hpool Hfree) as (s1 & E & Hpool1 & Hfree1 & Hm1 & Hr1 & Hl1 & Hq & Hq0 & Hqn). rewrite E. cbn [bindr].
  destruct (Z.eqb_spec q 0); [done|]. cbn [bindr vm_mem set_vm_mem]. rewrite Hm1. change PAGE_SIZE with 4096.
  assert (Hcq : c <> q) by set_solver. assert (Hpq : p <> q) by set_solver.
  assert (Hqf : frames [q]) by (intros x ->%list_elem_of_singleton; done).
  assert (Hqc : frames [q; c]) by (intros x [->| ->%list_elem_of_singleton]%elem_of_cons; done).
  pose proof (only_memset (vm_mem s) q Hq) as Ho1. pose proof (fun k => memset_slot q (vm_mem s) k Hq) as Hz.
  set (m1 := memset (ptv q) 0 4096 (vm_mem s)) in *. clearbody m1.
  assert (Ee : rd64 m1 (slot p j) = e) by (apply (only_slot (vm_mem s) m1 [q] p j Ho1 Hqf Hpf ltac:(set_solver) Hj)). rewrite Ee.
  change (ptv c + 8 * j) with (slot c j). rewrite child_entry_make by done.
  pose proof (only_wr64 m1 c j (make_entry q e) Hc Hj) as Ho2.
  assert (Hwc : rd64 (wr64 m1 (slot c j) (make_entry q e)) (slot c j) = make_entry q e)
    by (rewrite rd64_wr64_eq; apply make_entry_u64; by apply (frame_nonneg hhdm_offset) in Hq).
  assert (Hwo : forall x k, frame x -> 0 <= k < 512 -> x <> c \/ k <> j ->
    rd64 (wr64 m1 (slot c j) (make_entry q e)) (slot x k) = rd64 m1 (slot x k))
    by (intros x k Hx Hk Hne; apply rd64_wr64_ne, slot_apart; try done; destruct Hne; auto).
  set (m2 := wr64 m1 (slot c j) (make_entry q e)) in *. clearbody m2.
  rewrite (Hwo p j), Ee by (try done; by left).
  set (s2 := set_vm_mem m2 (set_vm_mem m1 s1)).
  assert (Ho : only (vm_mem s) m2 [q; c]) by (apply (only_trans _ m1 _ [q] [c]); done).
  assert (Hsub : forall x, apart s c x -> (frame x /\ x ∉ [q; c]) /\ apart s2 q x).
  { intros x (Hx & Hxc & Hxn). rewrite Hfree in Hxn. unfold apart. change (free_frames s2) with (free_frames s1). rewrite Hfree1. set_solver. }
  assert (Ht' : tree_in d (vm_mem s) (entry_get_addr e) (fun x => frame x /\ x ∉ [q; c]))
    by (eapply tree_in_mono; [exact Ht|]; intros x Hx; by apply Hsub).
  destruct (Hnext s2 (entry_get_addr e) q) as (r & s3 & used & E3 & Hran & Hres).
  - exact Hpool1.
  - exact Hq.
  - change (free_frames s2) with (free_frames s1). by rewrite Hfree1.
  - apply (tree_in_same d (vm_mem s) m2 [q; c]); try done. eapply tree_in_mono; [exact Ht|]. intros x Hx. by apply Hsub.
  - intros k Hk. change (vm_mem s2) with m2. rewrite (Hwo q k), Hz by (try done; left; congruence). done.
  - assert (HU : frames (q :: used)) by (eapply used_frames; [| |exact Hran]; done).
    assert (Hcu : c ∉ q :: used).
    { intros [?|Hin]%elem_of_cons; [done|]. apply Hcn. right. rewrite <- Hfree1.
      change (free_frames s1) with (free_frames s2). rewrite (ran_used _ _ _ _ Hran). apply elem_of_app. by left. }
    exists r, s3, (q :: used). split; [exact E3|]. split; [|split].
    + destruct Hran as [Rp Ru Rm Rr Rl]. change (free_frames s2) with (free_frames s1) in Ru. split; [done| | |exact (eq_trans Rr Hr1)|exact (eq_trans Rl Hl1)].
      * rewrite Hfree. cbn [app]. f_equal. by rewrite <- Hfree1.
      * change (vm_mem s2) with m2 in Rm. eapply only_mono; [eapply only_trans; [exact Ho|exact Rm]|]. set_solver.
    + intros k Hk Hne. rewrite (only_slot (vm_mem s2) (vm_mem s3) (q :: used)); try done; [|apply Hran].
      change (vm_mem s2) with m2. rewrite Hwo by (try done; by right). apply (only_slot (vm_mem s) m1 [q]); try done. set_solver.
    + destruct Hres as [[-> (Hcl & Hin & Hinj)]|[-> Hnil]]; [left|by right]. split; [done|]. exists q. split; [done|]. split; [|split; [|split]].
      * rewrite (only_slot (vm_mem s2) (vm_mem s3) (q :: used)); try done. apply Hran.
      * apply (cloned_left d m2 _ (vm_mem s) [q; c]); try done; [by apply only_sym|]. apply (tree_in_same d (vm_mem s) m2 [q; c]); done.
      * done.
      * done.
Qed.

(** ** The loop over the slots of a table *)

(** The slots below [i] are copied; [s0] is the state before the loop.  A slot
    the parent does not use is left as it is, so the child's tree is known in
    the slots [A] only, where that leaves it empty. *)
Record copied (d : nat) (A : Z -> Prop) (s0 s : vm) (p c i : Z) (used : list Z) : Prop := {
  cp_ran : ran s0 s c used;
  cp_slots : forall j, 0 <= j < i -> A j -> slot_cloned (cloned d (vm_mem s0) (vm_mem s)) (vm_mem s0) (vm_mem s) p c j;
  cp_in : forall j path x, 0 <= j < i -> A j -> path_ok d path -> walk (vm_mem s) c (j :: path) = Some x -> x ∈ used;
  cp_inj : forall j1 p1 j2 p2 x, 0 <= j1 < i -> 0 <= j2 < i -> A j1 -> A j2 -> path_ok d p1 -> path_ok d p2 ->
    walk (vm_mem s) c (j1 :: p1) = Some x -> walk (vm_mem s) c (j2 :: p2) = Some x -> j1 :: p1 = j2 :: p2;
  cp_left : forall j, 0 <= j < i -> present (rd64 (vm_mem s0) (slot p j)) = false ->
    rd64 (vm_mem s) (slot c j) = rd64 (vm_mem s0) (slot c j);
  cp_rest : forall j, i <= j < 512 -> rd64 (vm_mem s) (slot c j) = rd64 (vm_mem s0) (slot c j)
}.

Lemma walk_absent m t j path : present (rd64 m (slot t j)) = false -> walk m t (j :: path) = None.
Proof. intros E. cbn [Vmm.walk]. by rewrite E. Qed.

Lemma walk_present m t j path : present (rd64 m (slot t j)) = true ->
  walk m t (j :: path) = walk m (entry_get_addr (rd64 m (slot t j))) path.
Proof. intros E. cbn [Vmm.walk]. by rewrite E. Qed.

(** Nothing to copy in slot [i]. *)
Lemma copied_skip d A s0 s p c i used : copied d A s0 s p c i used -> 0 <= i < 512 ->
  present (rd64 (vm_mem s0) (slot p i)) = false -> (A i -> present (rd64 (vm_mem s0) (slot c i)) = false) ->
  copied d A s0 s p c (i + 1) used.
Proof.
  intros [Hr Hs Hin Hinj Hleft Hrest] Hi Hp Hc.
  assert (Hw : A i -> forall path, walk (vm_mem s) c (i :: path) = None)
    by (intros HA path; apply walk_absent; rewrite Hrest by lia; by apply Hc).
  assert (Hlt : forall j, 0 <= j < i + 1 -> j = i \/ 0 <= j < i) by lia.
  split; [done| | | | |].
  - intros j [->|Hj]%Hlt HA; [|by apply Hs]. unfold slot_cloned. rewrite Hp, Hrest by lia. by apply Hc.
  - intros j path x [->|Hj]%Hlt HA; [by rewrite Hw|by apply Hin].
  - intros j1 p1 j2 p2 x [->|Hj1]%Hlt [->|Hj2]%Hlt A1 A2; rewrite ?(Hw A1), ?(Hw A2); try done. by apply Hinj.
  - intros j [->|Hj]%Hlt; [intros _; apply Hrest; lia|by apply Hleft].
  - intros j Hj. apply Hrest. lia.
Qed.

(** Slot [i] copied. *)
Lemma copied_step d A s0 s s' p c i used used1 q :
  pool s0 -> frame c -> c ∉ free_frames s0 -> apart s0 c p ->
  copied d A s0 s p c i used -> 0 <= i < 512 -> present (rd64 (vm_mem s0) (slot p i)) = true ->
  tree_in d (vm_mem s0) (entry_get_addr (rd64 (vm_mem s0) (slot p i))) (apart s0 c) ->
  ran s s' c used1 -> (forall k, 0 <= k < 512 -> k <> i -> rd64 (vm_mem s') (slot c k) = rd64 (vm_mem s) (slot c k)) ->
  frame q -> rd64 (vm_mem s') (slot c i) = make_entry q (rd64 (vm_mem s0) (slot p i)) ->
  succeeded d s s' (entry_get_addr (rd64 (vm_mem s0) (slot p i))) q used1 ->
  copied d A s0 s' p c (i + 1) (used ++ used1).
Proof.
  intros Hpool Hc Hcn Hp [Hr Hs Hin Hinj Hleft Hrest] Hi Hpr Ht Hr1 Hslots Hq Hqe (Hcl & Hqin & Hqinj).
  set (e := rd64 (vm_mem s0) (slot p i)) in *.
  assert (Hlt : forall j, 0 <= j < i + 1 -> j = i \/ 0 <= j < i) by lia.
  pose proof (used_frames _ _ _ _ Hpool Hc Hr) as HU. pose proof (used_frames _ _ _ _ (ran_pool _ _ _ _ Hr) Hc Hr1) as HU1.
  assert (Hdis : forall x, x ∈ used -> x ∉ c :: used1).
  { intros x Hx. destruct Hpool as (_ & Hnd & _). rewrite (ran_used _ _ _ _ Hr), (ran_used _ _ _ _ Hr1) in Hnd, Hcn.
    apply NoDup_app in Hnd as (_ & Hnd & _). specialize (Hnd x Hx). set_solver. }
  assert (Hnew : forall path, walk (vm_mem s') c (i :: path) = walk (vm_mem s') q path).
  { intros path. rewrite walk_present by (by rewrite Hqe, present_make'). by rewrite Hqe, addr_make. }
  assert (Hpresj : forall j, 0 <= j < i -> rd64 (vm_mem s') (slot c j) = rd64 (vm_mem s) (slot c j)) by (intros j Hj; apply Hslots; lia).
  assert (HtL : tree_in d (vm_mem s0) (entry_get_addr e) (fun x => frame x /\ x ∉ c :: used)).
  { eapply tree_in_mono; [exact Ht|]. intros x Hx. split; [apply Hx|]. by apply (apart_ran _ _ _ _ x Hr). }
  assert (Hold : forall j, 0 <= j < i -> A j -> present (rd64 (vm_mem s) (slot c j)) = true ->
    tree_in d (vm_mem s) (entry_get_addr (rd64 (vm_mem s) (slot c j))) (fun x => frame x /\ x ∉ c :: used1)).
  { intros j Hj HA Hpj path x Hpath Hw. assert (x ∈ used) by (apply (Hin j path x Hj HA Hpath); by rewrite walk_present).
    split; [apply HU; by right|by apply Hdis]. }
  assert (Hwold : forall j path, 0 <= j < i -> A j -> path_ok d path -> walk (vm_mem s') c (j :: path) = walk (vm_mem s) c (j :: path)).
  { intros j path Hj HA Hpath. destruct (present (rd64 (vm_mem s) (slot c j))) eqn:E.
    - rewrite !walk_present by (rewrite ?Hpresj by done; done). rewrite Hpresj by done.
      apply (walk_same d (vm_mem s) (vm_mem s') (c :: used1)); [apply Hr1|done|by apply Hold|by apply path_ok_S].
    - rewrite !walk_absent by (rewrite ?Hpresj by done; done). done. }
  split.
  - eapply ran_trans; eassumption.
  - intros j [->|Hj]%Hlt HA.
    + unfold slot_cloned. fold e. rewrite Hpr, Hqe, present_make', flags_make, addr_make by done. split; [done|]. split; [done|].
      apply (cloned_left d (vm_mem s) _ (vm_mem s0) (c :: used)); try done; [apply only_sym, Hr|].
      apply (tree_in_same d (vm_mem s0) (vm_mem s) (c :: used)); [apply Hr|done|exact HtL|exact HtL].
    + specialize (Hs j Hj HA). unfold slot_cloned in *. rewrite Hpresj by done. destruct (present (rd64 (vm_mem s0) (slot p j))) eqn:E; [|done].
      destruct Hs as (E' & Hfl & Hcl'). split; [done|]. split; [done|].
      apply (cloned_right d _ (vm_mem s) (vm_mem s') (c :: used1)); try done; [apply Hr1|by apply Hold].
  - intros j path x [->|Hj]%Hlt HA Hpath.
    + rewrite Hnew. intros Hw. apply elem_of_app. right. by apply (Hqin path).
    + rewrite Hwold by done. intros Hw. apply elem_of_app. left. by apply (Hin j path).
  - intros j1 p1 j2 p2 x [->|Hj1]%Hlt [->|Hj2]%Hlt A1 A2 Hp1 Hp2; rewrite ?Hnew; rewrite ?Hwold by done; intros W1 W2.
    + f_equal. by apply (Hqinj p1 p2 x).
    + exfalso. apply (Hdis x); [by apply (Hin j2 p2)|]. right. by apply (Hqin p1).
    + exfalso. apply (Hdis x); [by apply (Hin j1 p1)|]. right. by apply (Hqin p2).
    + by apply (Hinj j1 p1 j2 p2 x).
  - intros j [->|Hj]%Hlt Hpj; [fold e in Hpj; congruence|]. rewrite Hpresj by done. by apply Hleft.
  - intros j Hj. rewrite Hslots by lia. apply Hrest. lia.
Qed.

(** The whole loop: all slots from [i] to [N], or no memory. *)
Lemma slots_loop d (A : Z -> Prop) body s0 p c N :
  slot_spec d body -> (forall s j, 0 <= j < 512 -> present (rd64 (vm_mem s) (slot p j)) = false -> body (ptv p) (ptv c) j s = Ret 0 s) ->
  pool s0 -> frame c -> c ∉ free_frames s0 -> apart s0 c p -> N <= 512 ->
  (forall j, 0 <= j < N -> present (rd64 (vm_mem s0) (slot p j)) = true ->
     tree_in d (vm_mem s0) (entry_get_addr (rd64 (vm_mem s0) (slot p j))) (apart s0 c)) ->
  (forall j, 0 <= j < N -> A j -> present (rd64 (vm_mem s0) (slot p j)) = false -> present (rd64 (vm_mem s0) (slot c j)) = false) ->
  forall n i s used, 0 <= i -> i + Z.of_nat n = N -> copied d A s0 s p c i used ->
  exists r s' used', for_ok n i (body (ptv p) (ptv c)) s = Ret r s' /\ ran s0 s' c used' /\
    ((r = 0 /\ copied d A s0 s' p c N used') \/ (r = -1 /\ free_frames s' = [])).
Proof.
  intros Hbody Hskip Hpool Hc Hcn Hp HN Htree Habs.
  induction n as [|n IH]; intros i s used Hi HiN Hcp; cbn [for_ok].
  { exists 0, s, used. split; [done|]. split; [apply Hcp|]. left. replace N with i by lia. done. }
  pose proof (cp_ran _ _ _ _ _ _ _ _ Hcp) as Hr.
  assert (Hpi : rd64 (vm_mem s) (slot p i) = rd64 (vm_mem s0) (slot p i)).
  { apply (only_slot (vm_mem s0) (vm_mem s) (c :: used)); [apply Hr|by eapply used_frames|apply Hp|by apply (apart_ran _ _ _ _ p Hr)|lia]. }
  destruct (present (rd64 (vm_mem s0) (slot p i))) eqn:Epi.
  - destruct (Hbody s p c i) as (r & s1 & used1 & E & Hr1 & Hslots & Hres).
    + apply Hr.
    + done.
    + rewrite (ran_used _ _ _ _ Hr) in Hcn. set_solver.
    + by apply (apart_ran _ _ _ _ p Hr).
    + lia.
    + by rewrite Hpi.
    + rewrite Hpi. assert (Hti := Htree i ltac:(lia) Epi).
      apply (tree_in_same d (vm_mem s0) (vm_mem s) (c :: used)); [apply Hr|by eapply used_frames| |].
      * eapply tree_in_mono; [exact Hti|]. intros x Hx. split; [apply Hx|]. by apply (apart_ran _ _ _ _ x Hr).
      * eapply tree_in_mono; [exact Hti|]. intros x Hx. by apply (apart_ran _ _ _ _ x Hr).
    + rewrite (mbind_Ret _ _ _ _ _ E). rewrite Hpi in Hres. destruct Hres as [[-> (q & Hq & Hqe & Hsucc)]|[-> Hnil]].
      * cbn [Z.eqb]. apply (IH (i + 1) s1 (used ++ used1)); [lia|lia|].
        eapply copied_step; try done; try lia. apply Htree; [lia|done].
      * cbn [Z.eqb]. exists (-1), s1, (used ++ used1). split; [done|]. split; [by eapply ran_trans|]. by right.
  - rewrite (mbind_Ret _ _ _ _ _ (Hskip s i ltac:(lia) ltac:(by rewrite Hpi))). cbn [Z.eqb].
    apply (IH (i + 1) s used); [lia|lia|]. apply copied_skip; try done; [lia|]. intros HA. apply Habs; [lia|done|done].
Qed.

Lemma copied_start d A s p c : pool s -> copied d A s s p c 0 [].
Proof. intros Hp. by split; try done; try lia. Qed.

Lemma level_loop d body :
  slot_spec d body -> (forall p c s j, present (rd64 (vm_mem s) (slot p j)) = false -> body (ptv p) (ptv c) j s = Ret 0 s) ->
  level_spec (S d) (fun p c => for_ok 512 0 (body p c)).
Proof.
  intros Hbody Hskip s p c Hpool Hc Hcn Ht Habs.
  destruct (slots_loop d (fun _ => True) body s p c 512 Hbody) with (n := 512%nat) (i := 0) (s := s) (used := @nil Z) as (r & s' & used & E & Hr & Hres); try done; try lia.
  - intros s1 j _ Hj. by apply Hskip.
  - by apply (tree_in_root _ _ _ _ Ht).
  - intros j Hj Hp. by apply tree_in_sub.
  - intros j Hj _ _. by apply Habs.
  - by apply copied_start.
  - exists r, s', used. split; [done|]. split; [done|]. destruct Hres as [[-> Hcp]|?]; [left; split; [done|]|by right].
    assert (Hcu : c ∉ used) by (intros Hu; exact (Hcn (used_was_free _ _ _ _ _ Hr Hu))).
    split; [|split].
    + cbn [cloned]. intros j Hj. by apply (cp_slots _ _ _ _ _ _ _ _ Hcp).
    + intros [|j path] x Hpath Hw; [injection Hw as <-; left|]. apply path_ok_cons in Hpath as [Hj Hpath]. right.
      by apply (cp_in _ _ _ _ _ _ _ _ Hcp j path).
    + intros [|j1 p1] [|j2 p2] x Hp1 Hp2 W1 W2; try done.
      * injection W1 as <-. apply path_ok_cons in Hp2 as [Hj Hp2]. by apply (cp_in _ _ _ _ _ _ _ _ Hcp j2 p2) in W2.
      * injection W2 as <-. apply path_ok_cons in Hp1 as [Hj Hp1]. by apply (cp_in _ _ _ _ _ _ _ _ Hcp j1 p1) in W1.
      * apply path_ok_cons in Hp1 as [Hj1 Hp1], Hp2 as [Hj2 Hp2]. by apply (cp_inj _ _ _ _ _ _ _ _ Hcp j1 p1 j2 p2 x).
Qed.

Lemma fork_page_skip p c (s : vm) j : present (rd64 (vm_mem s) (slot p j)) = false -> fork_page hhdm_offset (ptv p) (ptv c) j s = Ret 0 s.
Proof. intros E. unfold fork_page, load64. mstep. change (ptv p + 8 * j) with (slot p j). by rewrite E. Qed.

Lemma fork_table_skip next p c (s : vm) j : present (rd64 (vm_mem s) (slot p j)) = false -> fork_table hhdm_offset next (ptv p) (ptv c) j s = Ret 0 s.
Proof. intros E. unfold fork_table, load64. mstep. change (ptv p + 8 * j) with (slot p j). by rewrite E. Qed.

Lemma fork_pt_spec : level_spec 1 (fork_pt hhdm_offset).
Proof. apply level_loop; [apply fork_page_spec|intros; by apply fork_page_skip]. Qed.

Lemma fork_pd_spec : level_spec 2 (fork_pd hhdm_offset).
Proof. apply level_loop; [apply fork_table_spec, fork_pt_spec|intros; by apply fork_table_skip]. Qed.

Lemma fork_pdpt_spec : level_spec 3 (fork_pdpt hhdm_offset).
Proof. apply level_loop; [apply fork_table_spec, fork_pd_spec|intros; by apply fork_table_skip]. Qed.

(** ** The kernel half *)

Lemma kernel_half (s : vm) p c : frame p -> frame c -> p <> c ->
  exists m, mfor 256 256 (fun i => e <- load64 (ptv p + 8 * i) ;; store64 (ptv c + 8 * i) e) s = Ret tt (set_vm_mem m s) /\
    only (vm_mem s) m [c] /\
    (forall i, 256 <= i < 512 -> rd64 m (slot c i) = rd64 (vm_mem s) (slot p i)) /\
    (forall i, 0 <= i < 256 -> rd64 m (slot c i) = rd64 (vm_mem s) (slot c i)).
Proof.
  intros Hp Hc Hne. assert (Hcf : frames [c]) by (intros x ->%list_elem_of_singleton; done).
  destruct (mfor_rule (fun i s' => exists m, s' = set_vm_mem m s /\ only (vm_mem s) m [c] /\
      (forall k, 256 <= k < i -> rd64 m (slot c k) = rd64 (vm_mem s) (slot p k)) /\
      (forall k, 0 <= k < 256 -> rd64 m (slot c k) = rd64 (vm_mem s) (slot c k))) 256 256
    (fun i => e <- load64 (ptv p + 8 * i) ;; store64 (ptv c + 8 * i) e) s) as (s' & E & m & -> & Ho & Hk & Hu); [| |eauto].
  - exists (vm_mem s). split; [by destruct s|]. split; [done|]. split; [lia|done].
  - intros i s1 Hi (m & -> & Ho & Hk & Hu). change (Z.of_nat 256) with 256 in Hi. unfold load64, store64. mstep. eexists. split; [done|].
    cbn [vm_mem set_vm_mem]. change (ptv p + 8 * i) with (slot p i). change (ptv c + 8 * i) with (slot c i).
    rewrite (only_slot (vm_mem s) m [c] p i Ho Hcf Hp ltac:(set_solver) ltac:(lia)).
    exists (wr64 m (slot c i) (rd64 (vm_mem s) (slot p i))). split; [done|]. split; [|split].
    + eapply only_mono; [eapply only_trans; [exact Ho|apply only_wr64; [done|lia]]|]. set_solver.
    + intros k Hki. destruct (Z.eq_dec k i) as [->|Hki'].
      * rewrite rd64_wr64_eq. apply u64_small, rd64_range.
      * rewrite rd64_wr64_ne by (apply slot_apart; try done; try lia; auto). apply Hk. lia.
    + intros k Hki. rewrite rd64_wr64_ne by (apply slot_apart; try done; try lia; right; lia). by apply Hu.
Qed.

(** ** Walks in a copy *)

Lemma cloned_walk m m' : forall path d t t', cloned (length path + d) m m' t t' -> Forall (fun i => 0 <= i < 512) path ->
  match walk m t path, walk m' t' path with
  | Some x, Some x' => cloned d m m' x x'
  | None, None => True
  | _, _ => False
  end.
Proof.
  induction path as [|j path IH]; intros d t t' Hc Hp; [exact Hc|]. apply Forall_cons in Hp as [Hj Hp]. cbn [Vmm.walk].
  specialize (Hc j Hj). unfold slot_cloned in Hc. destruct (present (rd64 m (slot t j))); [|by rewrite Hc].
  destruct Hc as (-> & _ & Hc). by apply IH.
Qed.

(** Two last-level entries for copies of the same page. *)
Definition page_cloned (m m' : mem) (e e' : Z) : Prop :=
  present e' = present e /\
  (present e = true -> Z.land e' 0xFFF = Z.land e 0xFFF /\
     forall b, 0 <= b < 4096 -> rd8 m' (ptv (entry_get_addr e') + b) = rd8 m (ptv (entry_get_addr e) + b)).

Lemma cloned_leaf m m' t t' v : slot_cloned (cloned 3 m m') m m' t t' (PML4_INDEX v) ->
  page_cloned m m' (leaf hhdm_offset m t v) (leaf hhdm_offset m' t' v).
Proof.
  intros Hs. destruct (index_range v) as (_ & H3 & H2 & H1). unfold leaf, upath, slot_cloned in *.
  assert (H0 : page_cloned m m' 0 0) by (split; [done|]; discriminate).
  assert (Hpath : Forall (fun i => 0 <= i < 512) [PDPT_INDEX v; PD_INDEX v]) by (by index_path).
  destruct (present (rd64 m (slot t (PML4_INDEX v)))) eqn:E.
  2:{ by rewrite !walk_absent by done. }
  destruct Hs as (E' & _ & Hs). rewrite (walk_present m t), (walk_present m' t') by done.
  pose proof (cloned_walk m m' [PDPT_INDEX v; PD_INDEX v] 1 _ _ Hs Hpath) as Hw.
  destruct (walk m _ _) as [x|], (walk m' _ _) as [x'|]; try done.
  specialize (Hw (PT_INDEX v) H1). unfold slot_cloned in Hw. unfold page_cloned.
  destruct (present (rd64 m (slot x (PT_INDEX v)))); [|split; [exact Hw|discriminate]].
  destruct Hw as (-> & Hfl & Hb). by split.
Qed.

(** The frame of a present page is the end of the whole path. *)
Lemma leaf_walk m t v : present (leaf hhdm_offset m t v) = true ->
  walk m t (upath v ++ [PT_INDEX v]) = Some (entry_get_addr (leaf hhdm_offset m t v)).
Proof.
  intros Hp. unfold leaf in *. rewrite walk_app. destruct (walk m t (upath v)) as [x|]; [|done].
  cbn [Vmm.walk]. by rewrite Hp.
Qed.

Definition user_half (v : Z) : Prop := PML4_INDEX v < 256.

Lemma full_path v : path_ok 3 [PDPT_INDEX v; PD_INDEX v; PT_INDEX v].
Proof. destruct (index_range v) as (_ & H3 & H2 & H1). split; [done|]. by index_path. Qed.

(** What [fork_address_space] leaves in the user half of the two spaces. *)
Definition forked (s s' : vm) (parent child : Z) : Prop :=
  let pl := leaf hhdm_offset (vm_mem s) parent in let cl := leaf hhdm_offset (vm_mem s') child in
  (forall v, user_half v -> page_cloned (vm_mem s) (vm_mem s') (pl v) (cl v)) /\
  (forall v, user_half v -> present (cl v) = true ->
     entry_get_addr (cl v) ∈ free_frames s /\ entry_get_addr (cl v) ∉ free_frames s') /\
  (forall v w, user_half v -> user_half w -> present (cl v) = true -> present (cl w) = true ->
     entry_get_addr (cl v) = entry_get_addr (cl w) -> vpn v = vpn w) /\
  (forall i, 256 <= i < 512 -> rd64 (vm_mem s') (slot child i) = rd64 (vm_mem s) (slot parent i)).

(** The parent keeps its pages and what they hold. *)
Definition parent_kept (s s' : vm) (parent : Z) : Prop :=
  forall v, user_half v -> leaf hhdm_offset (vm_mem s') parent v = leaf hhdm_offset (vm_mem s) parent v /\
    (present (leaf hhdm_offset (vm_mem s) parent v) = true -> forall b, 0 <= b < 4096 ->
       rd8 (vm_mem s') (ptv (entry_get_addr (leaf hhdm_offset (vm_mem s) parent v)) + b) =
       rd8 (vm_mem s) (ptv (entry_get_addr (leaf hhdm_offset (vm_mem s) parent v)) + b)).

Lemma ran_kept s s' parent child used : pool s -> frame child -> ran s s' child used -> apart s child parent ->
  (forall j, 0 <= j < 256 -> present (rd64 (vm_mem s) (slot parent j)) = true ->
     tree_in 3 (vm_mem s) (entry_get_addr (rd64 (vm_mem s) (slot parent j))) (apart s child)) ->
  parent_kept s s' parent.
Proof.
  intros Hpool Hc Hr Hp Ht v Hv. destruct (index_range v) as (H4 & H3 & H2 & H1). unfold user_half in Hv.
  pose proof (used_frames _ _ _ _ Hpool Hc Hr) as HU. pose proof (ran_mem _ _ _ _ Hr) as Ho.
  assert (Hap : forall x, apart s child x -> frame x /\ x ∉ child :: used).
  { intros x Hx. split; [apply Hx|]. by apply (apart_ran _ _ _ _ x Hr). }
  assert (Hroot : rd64 (vm_mem s') (slot parent (PML4_INDEX v)) = rd64 (vm_mem s) (slot parent (PML4_INDEX v)))
    by (apply (only_slot _ _ (child :: used)); try done; by apply Hap).
  destruct (present (rd64 (vm_mem s) (slot parent (PML4_INDEX v)))) eqn:E.
  2:{ unfold leaf, upath. rewrite !walk_absent by (rewrite ?Hroot; done). done. }
  pose proof (Ht (PML4_INDEX v) ltac:(lia) E) as Hti.
  assert (HtL : tree_in 3 (vm_mem s) (entry_get_addr (rd64 (vm_mem s) (slot parent (PML4_INDEX v)))) (fun x => frame x /\ x ∉ child :: used))
    by (eapply tree_in_mono; [exact Hti|done]).
  assert (Hw : forall path, path_ok 3 path -> walk (vm_mem s') parent (PML4_INDEX v :: path) = walk (vm_mem s) parent (PML4_INDEX v :: path)).
  { intros path Hpath. rewrite !walk_present by (rewrite ?Hroot; done). rewrite Hroot.
    apply (walk_same 3 _ _ (child :: used)); try done. by apply path_ok_S. }
  assert (Hin : forall path x, path_ok 3 path -> walk (vm_mem s) parent (PML4_INDEX v :: path) = Some x -> frame x /\ x ∉ child :: used).
  { intros path x Hpath. rewrite walk_present by done. by apply HtL. }
  assert (Hleaf : leaf hhdm_offset (vm_mem s') parent v = leaf hhdm_offset (vm_mem s) parent v).
  { unfold leaf, upath. rewrite Hw by (split; [simpl; lia|by index_path]).
    destruct (walk (vm_mem s) parent _) as [x|] eqn:Ex; [|done].
    destruct (Hin [PDPT_INDEX v; PD_INDEX v] x) as [Hxf Hxn]; [split; [simpl; lia|by index_path]|done|].
    by apply (only_slot _ _ (child :: used)). }
  split; [done|]. intros Hpr b Hb. apply leaf_walk in Hpr. destruct (Hin [PDPT_INDEX v; PD_INDEX v; PT_INDEX v] _ (full_path v) Hpr) as [Hxf Hxn].
  by apply (only_byte _ _ (child :: used)).
Qed.

(** The conditions under which the copy is made: a pool of good frames and a
    parent whose user half lies in frames that are neither free nor the
    child's. *)
Record fork_src (s : vm) (parent child : Z) : Prop := {
  fs_pool : pool s;
  fs_child : frame child /\ child ∉ free_frames s;
  fs_parent : apart s child parent;
  fs_tree : forall j, 0 <= j < 256 -> present (rd64 (vm_mem s) (slot parent j)) = true ->
     tree_in 3 (vm_mem s) (entry_get_addr (rd64 (vm_mem s) (slot parent j))) (apart s child)
}.

(** The code does not clear the child's PML4, so the copy is exact where the
    frame maps nothing that the parent does not. *)
Definition clear_slot (m : mem) (parent child j : Z) : Prop :=
  present (rd64 m (slot parent j)) = true \/ present (rd64 m (slot child j)) = false.

(** The conditions of an exact copy: those, and a child whose PML4 frame maps
    nothing the parent does not. *)
Record fork_pre (s : vm) (parent child : Z) : Prop := {
  fp_pool : pool s;
  fp_child : frame child /\ child ∉ free_frames s;
  fp_parent : apart s child parent;
  fp_tree : forall j, 0 <= j < 256 -> present (rd64 (vm_mem s) (slot parent j)) = true ->
     tree_in 3 (vm_mem s) (entry_get_addr (rd64 (vm_mem s) (slot parent j))) (apart s child);
  fp_clear : forall j, 0 <= j < 256 -> present (rd64 (vm_mem s) (slot parent j)) = false ->
     present (rd64 (vm_mem s) (slot child j)) = false
}.

Lemma pre_src (s : vm) parent child : fork_pre s parent child -> fork_src s parent child.
Proof. intros [? ? ? ? _]. by split. Qed.

Lemma pre_clear (s : vm) parent child j : fork_pre s parent child -> 0 <= j < 256 -> clear_slot (vm_mem s) parent child j.
Proof. intros Hp Hj. unfold clear_slot. destruct (present (rd64 (vm_mem s) (slot parent j))) eqn:E; [by left|right]. by apply Hp. Qed.

(** [forked] for the slots [A]. *)
Definition forked_in (A : Z -> Prop) (s s' : vm) (parent child : Z) : Prop :=
  let pl := leaf hhdm_offset (vm_mem s) parent in let cl := leaf hhdm_offset (vm_mem s') child in
  let U v := user_half v /\ A (PML4_INDEX v) in
  (forall v, U v -> page_cloned (vm_mem s) (vm_mem s') (pl v) (cl v)) /\
  (forall v, U v -> present (cl v) = true ->
     entry_get_addr (cl v) ∈ free_frames s /\ entry_get_addr (cl v) ∉ free_frames s') /\
  (forall v w, U v -> U w -> present (cl v) = true -> present (cl w) = true ->
     entry_get_addr (cl v) = entry_get_addr (cl w) -> vpn v = vpn w) /\
  (forall i, 256 <= i < 512 -> rd64 (vm_mem s') (slot child i) = rd64 (vm_mem s) (slot parent i)).

Lemma forked_mono (A A' : Z -> Prop) (s s' : vm) parent child :
  (forall j, 0 <= j < 256 -> A' j -> A j) -> forked_in A s s' parent child -> forked_in A' s s' parent child.
Proof.
  intros HA (F1 & F2 & F3 & F4). assert (HU : forall v, user_half v /\ A' (PML4_INDEX v) -> user_half v /\ A (PML4_INDEX v)).
  { intros v [Hv Hi]. split; [done|]. apply HA; [|done]. unfold user_half in Hv. pose proof (index_range v). lia. }
  split; [|split; [|split; [|exact F4]]]; intros; [apply F1|apply F2|apply F3]; auto.
Qed.

Lemma forked_all (A : Z -> Prop) (s s' : vm) parent child :
  (forall j, 0 <= j < 256 -> A j) -> forked_in A s s' parent child -> forked s s' parent child.
Proof.
  intros HA (F1 & F2 & F3 & F4). assert (HU : forall v, user_half v -> A (PML4_INDEX v)).
  { intros v Hv. apply HA. unfold user_half in Hv. pose proof (index_range v). lia. }
  split; [|split; [|split; [|exact F4]]]; intros; [apply F1|apply F2|apply F3]; auto.
Qed.

Lemma copied_forked A s m1 s' parent child used :
  fork_src s parent child -> only (vm_mem s) m1 [child] ->
  (forall i, 256 <= i < 512 -> rd64 m1 (slot child i) = rd64 (vm_mem s) (slot parent i)) ->
  copied 3 A (set_vm_mem m1 s) s' parent child 256 used -> forked_in A s s' parent child.
Proof.
  intros [Hpool [Hc Hcn] Hp Ht] Ho Hker Hcp. pose proof (cp_ran _ _ _ _ _ _ _ _ Hcp) as Hr.
  assert (Hcf : frames [child]) by (intros x ->%list_elem_of_singleton; done).
  pose proof (apart_child s child) as Hap.
  assert (Hsl : forall j, 0 <= j < 256 -> A j -> slot_cloned (cloned 3 (vm_mem s) (vm_mem s')) (vm_mem s) (vm_mem s') parent child j).
  { intros j Hj HA. pose proof (cp_slots _ _ _ _ _ _ _ _ Hcp j Hj HA) as Hs. cbn [vm_mem set_vm_mem] in Hs. unfold slot_cloned in *.
    rewrite (only_slot (vm_mem s) m1 [child] parent j Ho Hcf (proj1 Hp) (proj2 (Hap _ Hp)) ltac:(lia)) in Hs.
    destruct (present (rd64 (vm_mem s) (slot parent j))) eqn:E; [|done]. destruct Hs as (E' & Hfl & Hs). split; [done|]. split; [done|].
    assert (HtL : tree_in 3 (vm_mem s) (entry_get_addr (rd64 (vm_mem s) (slot parent j))) (fun x => frame x /\ x ∉ [child]))
      by (eapply tree_in_mono; [by apply Ht|exact Hap]).
    apply (cloned_left 3 m1 _ (vm_mem s) [child]); [by apply only_sym|done| |done]. by apply (tree_in_same 3 (vm_mem s) m1 [child]). }
  assert (Hend : forall v, present (leaf hhdm_offset (vm_mem s') child v) = true ->
     walk (vm_mem s') child (PML4_INDEX v :: [PDPT_INDEX v; PD_INDEX v; PT_INDEX v]) = Some (entry_get_addr (leaf hhdm_offset (vm_mem s') child v)))
    by (intros v Hv; by apply leaf_walk).
  split; [|split; [|split]].
  - intros v [Hv HA]. apply cloned_leaf, Hsl; [|done]. unfold user_half in Hv. pose proof (index_range v). lia.
  - intros v [Hv HA] Hpr. unfold user_half in Hv. pose proof (index_range v) as [Hi _].
    pose proof (cp_in _ _ _ _ _ _ _ _ Hcp (PML4_INDEX v) _ _ ltac:(lia) HA (full_path v) (Hend v Hpr)) as Hu.
    split; [exact (used_was_free _ _ _ _ _ Hr Hu)|]. destruct Hpool as (_ & Hnd & _). pose proof (ran_used _ _ _ _ Hr) as Hus.
    change (free_frames (set_vm_mem m1 s)) with (free_frames s) in Hus. rewrite Hus in Hnd. apply NoDup_app in Hnd as (_ & Hnd & _). by apply Hnd.
  - intros v w [Hv HA] [Hw HB] Pv Pw E. unfold user_half in *. pose proof (index_range v) as [Hi _]. pose proof (index_range w) as [Hi' _].
    pose proof (cp_inj _ _ _ _ _ _ _ _ Hcp (PML4_INDEX v) _ (PML4_INDEX w) _ _ ltac:(lia) ltac:(lia) HA HB (full_path v) (full_path w) (Hend v Pv)) as Hinj.
    rewrite E in Hinj. specialize (Hinj (Hend w Pw)). injection Hinj as E4 E3 E2 E1. by apply same_indices_same_vpn.
  - intros i Hi. rewrite (cp_rest _ _ _ _ _ _ _ _ Hcp i Hi). by apply Hker.
Qed.

(** The conditions hold for a well-formed address space (PageTables.v) whose
    pages are neither free nor the child's. *)
Definition user_slot (i : Z) : Prop := 0 <= i < 256.

Definition addr_of (j a b c : Z) : Z := j * 2 ^ 39 + a * 2 ^ 30 + b * 2 ^ 21 + c * 2 ^ 12.

Lemma addr_of_index j a b c : 0 <= j < 512 -> 0 <= a < 512 -> 0 <= b < 512 -> 0 <= c < 512 ->
  upath (addr_of j a b c) = [j; a; b] /\ PT_INDEX (addr_of j a b c) = c.
Proof.
  intros Hj Ha Hb Hc. unfold upath, PML4_INDEX, PDPT_INDEX, PD_INDEX, PT_INDEX, addr_of. change 0x1FF with 511.
  rewrite !land_511, !Z.shiftr_div_pow2 by lia. change (2 ^ 39) with 549755813888. change (2 ^ 30) with 1073741824.
  change (2 ^ 21) with 2097152. change (2 ^ 12) with 4096.
  split; [f_equal; [|f_equal; [|f_equal]]|]; Z.div_mod_to_equations; lia.
Qed.

Lemma fork_src_wf (s : vm) parent child :
  vm_wf hhdm_offset user_slot parent s -> data_page hhdm_offset user_slot parent s child ->
  (forall v, user_half v -> present (leaf hhdm_offset (vm_mem s) parent v) = true ->
     apart s child (entry_get_addr (leaf hhdm_offset (vm_mem s) parent v))) ->
  fork_src s parent child.
Proof.
  intros [Hok Hwf] (Hc & Hcn & Hnt) Hpages.
  assert (Htab : forall path t, tpath 3 user_slot path -> walk (vm_mem s) parent path = Some t -> apart s child t).
  { intros path t Hp Hw. destruct (wf_table _ _ _ _ _ Hwf path t Hp Hw) as [Hf Hn]. split; [done|]. split; [|done].
    intros ->. by apply (Hnt path). }
  split; [|done|apply (Htab [] parent); [split; [simpl; lia|by split]|done]|].
  - split; [done|]. split; [apply Hwf|]. intros x Hx. pose proof (wf_free _ _ _ _ _ Hwf) as Hf. rewrite Forall_forall in Hf. by apply Hf.
  - intros j Hj Hpr path x [Hlen Hp] Hw. rewrite <- (walk_present (vm_mem s) parent j path Hpr) in Hw.
    destruct (decide (length path <= 2)%nat) as [H2|H2].
    { apply (Htab (j :: path)); [|done]. split; [simpl; lia|]. split; [apply Forall_cons; split; [lia|done]|done]. }
    destruct path as [|a [|b [|c [|]]]]; simpl in *; try lia. apply Forall_cons in Hp as [Ha Hp]. apply Forall_cons in Hp as [Hb Hp].
    apply Forall_cons in Hp as [Hcc _]. destruct (addr_of_index j a b c) as [Eu Ep]; [lia|done|done|done|].
    assert (El : walk (vm_mem s) parent (upath (addr_of j a b c) ++ [PT_INDEX (addr_of j a b c)]) = Some x) by (rewrite Eu, Ep; exact Hw).
    rewrite walk_app in El. specialize (Hpages (addr_of j a b c)). unfold leaf in Hpages.
    destruct (walk (vm_mem s) parent (upath (addr_of j a b c))) as [t|]; [|done]. cbn [Vmm.walk] in El.
    destruct (present (rd64 (vm_mem s) (slot t (PT_INDEX (addr_of j a b c))))); [|done]. injection El as <-. apply Hpages; [|done].
    unfold user_half. unfold upath in Eu. injection Eu as -> _ _. lia.
Qed.

Lemma fork_pre_wf (s : vm) parent child :
  vm_wf hhdm_offset user_slot parent s -> data_page hhdm_offset user_slot parent s child ->
  (forall v, user_half v -> present (leaf hhdm_offset (vm_mem s) parent v) = true ->
     apart s child (entry_get_addr (leaf hhdm_offset (vm_mem s) parent v))) ->
  (forall j, 0 <= j < 256 -> present (rd64 (vm_mem s) (slot parent j)) = false ->
     present (rd64 (vm_mem s) (slot child j)) = false) ->
  fork_pre s parent child.
Proof. intros Hwf Hc Hp Hcl. destruct (fork_src_wf s parent child Hwf Hc Hp). by split. Qed.

(** The tables and pages of the child in the slots [A] are the frames [used],
    each at one place. *)
Definition child_tree (A : Z -> Prop) (m : mem) (child : Z) (used : list Z) : Prop :=
  (forall j path x, 0 <= j < 256 -> A j -> path_ok 3 path -> walk m child (j :: path) = Some x -> x ∈ used) /\
  (forall j1 p1 j2 p2 x, 0 <= j1 < 256 -> 0 <= j2 < 256 -> A j1 -> A j2 -> path_ok 3 p1 -> path_ok 3 p2 ->
    walk m child (j1 :: p1) = Some x -> walk m child (j2 :: p2) = Some x -> j1 :: p1 = j2 :: p2).

Lemma fork_gen (s : vm) (parent child : Z) :
  fork_src s parent child -> let A := clear_slot (vm_mem s) parent child in
  exists r s' used, fork_address_space hhdm_offset parent child s = Ret r s' /\ ran s s' child used /\
    ((r = 0 /\ forked_in A s s' parent child /\ child_tree A (vm_mem s') child used /\
       (forall j, 0 <= j < 256 -> present (rd64 (vm_mem s) (slot parent j)) = false ->
          rd64 (vm_mem s') (slot child j) = rd64 (vm_mem s) (slot child j))) \/
     (r = -1 /\ free_frames s' = [])).
Proof.
  intros Hpre A. pose proof Hpre as [Hpool [Hc Hcn] Hp Ht]. unfold fork_address_space.
  pose proof (kernel_half s parent child (proj1 Hp) Hc (proj1 (proj2 Hp))) as (m1 & E1 & Ho & Hk & Hu). cbv zeta. rewrite (mbind_Ret _ _ _ _ _ E1). clear E1.
  set (s1 := set_vm_mem m1 s) in *. assert (Hcf : frames [child]) by (intros x ->%list_elem_of_singleton; done).
  pose proof (apart_child s child) as Hap.
  assert (Hpj : forall j, 0 <= j < 512 -> rd64 m1 (slot parent j) = rd64 (vm_mem s) (slot parent j)).
  { intros j Hj. exact (only_slot (vm_mem s) m1 [child] parent j Ho Hcf (proj1 Hp) (proj2 (Hap _ Hp)) Hj). }
  destruct (slots_loop 3 A (fork_table hhdm_offset (fork_pdpt hhdm_offset)) s1 parent child 256) with (n := 256%nat) (i := 0) (s := s1) (used := @nil Z)
    as (r & s' & used & E & Hr & Hres).
  - apply fork_table_spec, fork_pdpt_spec.
  - intros s2 j _ Hj. by apply fork_table_skip.
  - exact Hpool.
  - exact Hc.
  - exact Hcn.
  - exact Hp.
  - lia.
  - intros j Hj. change (vm_mem s1) with m1. rewrite (Hpj j) by lia. intros E. specialize (Ht j Hj E).
    apply (tree_in_same 3 (vm_mem s) m1 [child] _ _ Ho Hcf); [|exact Ht]. eapply tree_in_mono; [exact Ht|exact Hap].
  - intros j Hj HA. change (vm_mem s1) with m1. rewrite (Hpj j), Hu by lia. destruct HA as [HA|HA]; [by rewrite HA|done].
  - lia.
  - lia.
  - exact (copied_start 3 A s1 parent child Hpool).
  - assert (Hran : ran s s' child used).
    { destruct Hr as [Rp Ru Rm Rr Rl]. split; [exact Rp|exact Ru| |exact Rr|exact Rl].
      eapply only_mono; [eapply only_trans; [exact Ho|exact Rm]|]. intros x [->%list_elem_of_singleton|?]%elem_of_app; [left|done]. }
    exists r, s', used. split; [exact E|]. split; [exact Hran|].
    destruct Hres as [[-> Hcp]|?]; [left; split; [done|]|by right]. split; [by eapply copied_forked|].
    split; [split; [exact (cp_in _ _ _ _ _ _ _ _ Hcp)|exact (cp_inj _ _ _ _ _ _ _ _ Hcp)]|].
    intros j Hj Hpr. rewrite <- Hu by done. apply (cp_left _ _ _ _ _ _ _ _ Hcp j Hj). change (vm_mem s1) with m1. by rewrite Hpj by lia.
Qed.

(** ** Properties *)

(** C14: [fork_address_space] copies the user half of an address space: with
    enough frames it returns 0 and every user page the parent maps is mapped
    in the child with the same flags and the same contents, in a frame of its
    own taken from the pool; nothing else is mapped, the kernel half is
    shared, and the parent keeps its pages and contents.  When the pool runs
    out it returns -1, the pool is empty and the parent is unharmed. *)
Theorem fork_deep_copy (s : vm) (parent child : Z) :
  fork_pre s parent child ->
  exists r s', fork_address_space hhdm_offset parent child s = Ret r s' /\ pool s' /\
    vm_pml4 s' = vm_pml4 s /\ vmm_lock s' = vmm_lock s /\ parent_kept s s' parent /\
    ((r = 0 /\ forked s s' parent child) \/ (r = -1 /\ free_frames s' = [])).
Proof.
  intros Hpre. destruct (fork_gen s parent child (pre_src _ _ _ Hpre)) as (r & s' & used & E & Hr & Hres).
  pose proof (fun j => pre_clear s parent child j Hpre) as Hcl. destruct Hpre as [Hpool [Hc Hcn] Hp Ht _].
  exists r, s'. split; [exact E|]. split; [apply Hr|]. split; [apply Hr|]. split; [apply Hr|]. split; [by eapply ran_kept|].
  destruct Hres as [(-> & Hf & _)|Hres]; [left; exact (conj eq_refl (forked_all _ _ _ _ _ Hcl Hf))|right; exact Hres].
Qed.
End ForkFacts.

(** ** Witness: an address space with one page at 0x400000, and ten free frames *)

Definition fork_pmm : pmm_t := mk_pmm (list_to_map (zip (seqZ 0 10) ((fun i => 4096 * (i + 1)) <$> seqZ 0 10))) 10 0.
Definition fork_root : Z := 81920.
Definition fork_frame : Z := 86016.
Definition fork_child : Z := 90112.
(** The byte 5 of the page is 77. *)
Definition fork_vm0 : @vm_t pmm_t := mk_vm fork_pmm (wr8 ∅ (demo_hhdm + fork_frame + 5) 77) fork_root 0.

Lemma fork_pages : fa_pages (vm_pmm fork_vm0) = [40960; 36864; 32768; 28672; 24576; 20480; 16384; 12288; 8192; 4096].
Proof. vm_compute. reflexivity. Qed.

Lemma fork_vm0_slot x i : frame demo_hhdm x -> x <> fork_frame -> 0 <= i < 512 -> rd64 (vm_mem fork_vm0) (slot demo_hhdm x i) = 0.
Proof.
  intros Hx Hne Hi. apply (rdn_zero 8). intros b Hb. cbn [vm_mem fork_vm0]. rewrite rd8_wr8_ne; [done|].
  unfold slot in Hb. rewrite frame_ptv in Hb by done. destruct (frames_apart demo_hhdm x fork_frame Hx) as [?|?]; [by apply frame_small|done|lia|lia].
Qed.

Lemma fork_vm0_wf : vm_wf demo_hhdm user_slot fork_root fork_vm0.
Proof.
  split; [split; simpl; unfold MAX_FREE_LIST; lia|]. rewrite fork_pages. apply pt_wf_fresh.
  - by apply frame_small.
  - apply (bool_decide_unpack _). vm_compute. exact Logic.I.
  - repeat (apply Forall_cons_2; [split; [by apply frame_small|done]|]). by apply Forall_nil_2.
  - apply (bool_decide_unpack _). vm_compute. exact Logic.I.
  - intros i Hi _. rewrite fork_vm0_slot; [done|by apply frame_small|done|done].
Qed.

Lemma fork_vm0_data d : frame demo_hhdm d -> bool_decide (d ∈ fork_root :: fa_pages (vm_pmm fork_vm0)) = false ->
  data_page demo_hhdm user_slot fork_root fork_vm0 d.
Proof.
  intros Hd Hn%bool_decide_eq_false_1. apply not_elem_of_cons in Hn as [Hr Hn]. split; [done|]. split; [done|].
  intros [|j path] (_ & Hp & Hj) Hw; [by injection Hw|]. cbn [walk] in Hw. apply Forall_cons in Hp as [Hj' _].
  rewrite fork_vm0_slot in Hw by (try done; by apply frame_small). done.
Qed.

(** The page mapped at 0x400000. *)
Lemma fork_parent : exists s, vmm_map_user demo_hhdm fork_root 0x400000 fork_frame 7 1 fork_vm0 = Ret tt s /\
  fork_pre demo_hhdm s fork_root fork_child /\ vmm_lock s = 0 /\ vm_wf demo_hhdm user_slot fork_root s /\
  data_page demo_hhdm user_slot fork_root s fork_frame /\
  (forall w, user_slot (PML4_INDEX w) -> leaf demo_hhdm (vm_mem s) fork_root w =
    if vpn w =? vpn 0x400000 then make_entry fork_frame 7 else 0) /\
  rd8 (vm_mem s) (phys_to_virt demo_hhdm fork_frame + 5) = 77.
Proof.
  destruct (vmm_map_user_effect demo_hhdm demo_hhdm_nonneg user_slot fork_root fork_vm0 0x400000 fork_frame 7 1) as (s & E & X);
    [exact fork_vm0_wf|reflexivity|split; [discriminate|reflexivity]|reflexivity|].
  exists s. split; [exact E|]. clear E.
  assert (Hdf : data_page demo_hhdm user_slot fork_root fork_vm0 fork_frame) by (apply fork_vm0_data; [by apply frame_small|vm_compute; reflexivity]).
  assert (Hdc : data_page demo_hhdm user_slot fork_root fork_vm0 fork_child) by (apply fork_vm0_data; [by apply frame_small|vm_compute; reflexivity]).
  assert (Hleaf : forall w, user_slot (PML4_INDEX w) -> leaf demo_hhdm (vm_mem s) fork_root w =
    if vpn w =? vpn 0x400000 then make_entry fork_frame 7 else 0).
  { destruct (me_leaf _ _ _ _ _ _ _ X) as [Hl|(Hn & _)]; [|rewrite fork_pages in Hn; simpl in Hn; lia].
    intros w Hw. rewrite (Hl w Hw). destruct (vpn w =? vpn 0x400000); [done|]. unfold leaf, upath. cbn [walk].
    rewrite fork_vm0_slot; [done|by apply frame_small|done|]. pose proof (index_range w). lia. }
  destruct (me_data _ _ _ _ _ _ _ X _ Hdf) as (Hf & Hfn & Hft). pose proof (me_data _ _ _ _ _ _ _ X _ Hdc) as Hcs.
  split; [|split; [apply X|split; [apply X|split; [done|split; [done|]]]]].
  - apply fork_pre_wf; [apply X|done| |].
    + intros v Hv Hp. pose proof (index_range v) as [Hi _]. rewrite Hleaf in * by (unfold user_slot, user_half in *; lia).
      destruct (vpn v =? vpn 0x400000); [|done]. rewrite (addr_make demo_hhdm) by done. split; [done|]. split; done.
    + intros j Hj _. replace (rd64 (vm_mem s) (slot demo_hhdm fork_child j)) with 0; [done|]. symmetry. apply (rdn_zero 8). intros b Hb.
      unfold slot in Hb. replace b with (phys_to_virt demo_hhdm fork_child + (b - phys_to_virt demo_hhdm fork_child)) by lia.
      rewrite (me_page _ _ _ _ _ _ _ X fork_child) by (done || lia). cbn [vm_mem fork_vm0]. rewrite rd8_wr8_ne; [done|].
      change (phys_to_virt demo_hhdm fork_child) with (demo_hhdm + fork_child) in *. unfold fork_frame, fork_child in *. lia.
  - rewrite (me_page _ _ _ _ _ _ _ X fork_frame) by (done || lia). vm_compute. reflexivity.
Qed.

(** The child sees the byte 77 in a frame of its own. *)
Lemma fork_deep_copy_witness :
  exists s r s', vmm_map_user demo_hhdm fork_root 0x400000 fork_frame 7 1 fork_vm0 = Ret tt s /\
    fork_address_space demo_hhdm fork_root fork_child s = Ret r s' /\
    ((r = 0 /\ rd8 (vm_mem s') (phys_to_virt demo_hhdm (entry_get_addr (leaf demo_hhdm (vm_mem s') fork_child 0x400000)) + 5) = 77) \/
     (r = -1 /\ free_frames s' = [])).
Proof.
  destruct fork_parent as (s & E & Hpre & _ & _ & _ & Hl & Hb). specialize (Hl 0x400000 (conj (Z.le_refl 0) eq_refl)). change (vpn 0x400000 =? vpn 0x400000) with true in Hl.
  destruct (fork_deep_copy demo_hhdm demo_hhdm_nonneg s fork_root fork_child Hpre) as (r & s' & E' & _ & _ & _ & _ & Hres).
  exists s, r, s'. split; [exact E|]. split; [exact E'|]. destruct Hres as [[Hr (Hc & _)]|Hres]; [left|right; exact Hres].
  split; [exact Hr|]. destruct (Hc 0x400000) as [_ Hpage]; [reflexivity|]. rewrite Hl in Hpage.
  destruct (Hpage eq_refl) as [_ Hbytes]. rewrite (Hbytes 5) by lia. exact Hb.
Defined.
