(* ===== verification/UserCopy.v ===== *)
(** * Copying between the kernel and user space (src/kernel/syscalls.c, lines 47-94)

    [copy_to_user] and [copy_from_user] go page by page through the page
    tables of the current process; a kernel buffer is a range of addresses of
    the same byte memory. *)

From stdpp Require Import base gmap list fin_maps.
From Stdlib Require Import ZArith Lia.
From S2P Require Import Prelude Mem Pmm Vmm PageTables Fork ForkFacts.

Section UserCopy.
Context {P : Type} `{FrameAllocator P}.
Context (hhdm_offset : Z).
#[local] Abbreviation vm := (@vm_t P).

(** Lines 50-53: the page, the offset in it and the bytes to copy there. *)
Definition page_of (uaddr : Z) : Z := Z.land uaddr PAGE_MASK.
Definition off_of (uaddr : Z) : Z := Z.land uaddr (PAGE_SIZE - 1).
Definition chunk_of (uaddr len : Z) : Z :=
  let chunk := PAGE_SIZE - off_of uaddr in if len <? chunk then len else chunk.

(** The [while (len)] loops; every round copies at least one byte. *)
Fixpoint to_user_loop (fuel : nat) (root uaddr kdata len : Z) : M vm Z :=
  match fuel with
  | O => mhang
  | S fuel' =>
      if len =? 0 then mret 0 else
      let chunk := chunk_of uaddr len in
      phys <- user_virt_to_phys hhdm_offset root (page_of uaddr) ;;
      if phys =? 0 then mret (-1) else
      let uvirt := u64 (phys + hhdm_offset + off_of uaddr) in
      do_memcpy uvirt kdata chunk ;;;
      to_user_loop fuel' root (u64 (uaddr + chunk)) (kdata + chunk) (len - chunk)
  end.

Fixpoint from_user_loop (fuel : nat) (root kdest uaddr len : Z) : M vm Z :=
  match fuel with
  | O => mhang
  | S fuel' =>
      if len =? 0 then mret 0 else
      let chunk := chunk_of uaddr len in
      phys <- user_virt_to_phys hhdm_offset root (page_of uaddr) ;;
      if phys =? 0 then mret (-1) else
      let uvirt := u64 (phys + hhdm_offset + off_of uaddr) in
      do_memcpy kdest uvirt chunk ;;;
      from_user_loop fuel' root (kdest + chunk) (u64 (uaddr + chunk)) (len - chunk)
  end.

(** [proc] is the PML4 of [current_process], if there is one. *)
Definition copy_to_user (proc : option Z) (uaddr kdata len : Z) : M vm Z :=
  match proc with
  | None => mret (-1)
  | Some root => to_user_loop (S (Z.to_nat len)) root uaddr kdata len
  end.
Definition copy_from_user (proc : option Z) (kdest uaddr len : Z) : M vm Z :=
  match proc with
  | None => mret (-1)
  | Some root => from_user_loop (S (Z.to_nat len)) root kdest uaddr len
  end.
End UserCopy.

#[local] Opaque rd64 wr64 memcpy.

(** ** Pages and offsets *)

Lemma off_of_mod u : off_of u = u mod 4096.
Proof. unfold off_of. change (PAGE_SIZE - 1) with 4095. apply land_4095. Qed.

Lemma page_of_sub u : 0 <= u < two64 -> page_of u = u - u mod 4096.
Proof.
  intros Hu. unfold page_of. change PAGE_MASK with (Z.ones 64 - Z.ones 12). by rewrite (land_clear_low u 12 64) by (done || lia).
Qed.

Lemma vpn_page u w : u / 4096 = w / 4096 -> vpn u = vpn w.
Proof. unfold vpn. by intros ->. Qed.

(** User addresses below 2^47 with the same page number are in the same page. *)
Lemma vpn_user u w : 0 <= u < 2 ^ 47 -> 0 <= w < 2 ^ 47 -> vpn u = vpn w -> u / 4096 = w / 4096.
Proof.
  unfold vpn. change (2 ^ 47) with 140737488355328. intros Hu Hw. rewrite !Z.mod_small; [done|..];
    change (2 ^ 36) with 68719476736; Z.div_mod_to_equations; lia.
Qed.

Lemma user_half_low v : 0 <= v < 2 ^ 47 -> 0 <= PML4_INDEX v < 256.
Proof.
  change (2 ^ 47) with 140737488355328. intros Hv. unfold PML4_INDEX. change 0x1FF with 511. rewrite land_511, Z.shiftr_div_pow2 by lia.
  change (2 ^ 39) with 549755813888. Z.div_mod_to_equations. lia.
Qed.

Lemma chunk_spec u len : 0 <= u < two64 -> 0 < len ->
  0 < chunk_of u len <= len /\ u mod 4096 + chunk_of u len <= 4096 /\ (chunk_of u len < len -> (u + chunk_of u len) mod 4096 = 0).
Proof.
  intros Hu Hl. unfold chunk_of. rewrite off_of_mod. change PAGE_SIZE with 4096.
  pose proof (Z.mod_pos_bound u 4096 ltac:(lia)). destruct (Z.ltb_spec len (4096 - u mod 4096)); [lia|].
  split; [lia|]. split; [lia|]. intros _. pose proof (Z.div_mod u 4096 ltac:(lia)).
  replace (u + (4096 - u mod 4096)) with ((u / 4096 + 1) * 4096) by lia. apply Z.mod_mul. lia.
Qed.

Section UserCopyFacts.
Context {P : Type} `{FrameAllocator P}.
Context (hhdm_offset : Z) (hhdm_nonneg : 0 <= hhdm_offset).
#[local] Abbreviation vm := (@vm_t P).
#[local] Abbreviation slot := (slot hhdm_offset).
#[local] Abbreviation walk := (walk hhdm_offset).
#[local] Abbreviation leaf := (leaf hhdm_offset).
#[local] Abbreviation ptv := (phys_to_virt hhdm_offset).

(** The frame of a user address and the byte it holds. *)
Definition uframe (m : mem) (root v : Z) : Z := entry_get_addr (leaf m root v).
Definition ubyte (m : mem) (root v : Z) : Z := rd8 m (ptv (uframe m root v) + v mod 4096).
Definition umapped (m : mem) (root v : Z) : Prop := present (leaf m root v) = true.

(** Kernel memory: the bytes that are in no page of the process. *)
Definition outside (m : mem) (root b : Z) : Prop :=
  forall v, 0 <= v < 2 ^ 47 -> umapped m root v -> b <> ptv (uframe m root v) + v mod 4096.

(** A user address space: well-formed tables, and every mapped user page has
    a frame of its own that is neither free nor a table. *)
Record uspace (s : vm) (root : Z) : Prop := {
  us_wf : vm_wf hhdm_offset user_slot root s;
  us_lock : vmm_lock s = 0;
  us_page : forall v, 0 <= v < 2 ^ 47 -> umapped (vm_mem s) root v ->
    data_page hhdm_offset user_slot root s (uframe (vm_mem s) root v) /\ uframe (vm_mem s) root v <> 0;
  us_inj : forall v w, 0 <= v < 2 ^ 47 -> 0 <= w < 2 ^ 47 -> umapped (vm_mem s) root v -> umapped (vm_mem s) root w ->
    uframe (vm_mem s) root v = uframe (vm_mem s) root w -> v / 4096 = w / 4096
}.

(** A table of the address space. *)
Definition is_table (m : mem) (root x : Z) : Prop := exists path, tpath 3 user_slot path /\ walk m root path = Some x.

(** A kernel buffer: apart from the tables and the pages of the process. *)
Definition kbuf (s : vm) (root a len : Z) : Prop :=
  forall x, frame hhdm_offset x ->
    is_table (vm_mem s) root x \/ (exists v, 0 <= v < 2 ^ 47 /\ umapped (vm_mem s) root v /\ uframe (vm_mem s) root v = x) ->
    a + len <= ptv x \/ ptv x + 4096 <= a.

(** ** Writing outside the tables *)

Definition tables_kept (m m' : mem) (root : Z) : Prop :=
  forall x, is_table m root x -> forall b, 0 <= b < 4096 -> rd8 m' (ptv x + b) = rd8 m (ptv x + b).

Lemma kept_same m m' root : tables_kept m m' root -> tables_same hhdm_offset user_slot m m' root.
Proof. intros Hk path x Hp Hw b. apply Hk. by exists path. Qed.

Lemma kept_walk m m' root path : tables_kept m m' root -> tpath 3 user_slot path -> walk m' root path = walk m root path.
Proof. intros Hk. by apply (same_walk hhdm_offset user_slot), kept_same. Qed.

Lemma kept_leaf m m' root v : tables_kept m m' root -> 0 <= v < 2 ^ 47 -> leaf m' root v = leaf m root v.
Proof. intros Hk Hv. apply (same_leaf hhdm_offset user_slot); [by apply kept_same|by apply user_half_low]. Qed.

Lemma kept_uspace (s : vm) m' root : uspace s root -> tables_kept (vm_mem s) m' root -> uspace (set_vm_mem m' s) root.
Proof.
  intros [[Hok [W1 W2 W3 W4 W5]] Hl Hpg Hinj] Hk.
  assert (Hw : forall path, tpath 3 user_slot path -> walk m' root path = walk (vm_mem s) root path) by (intros; by apply kept_walk).
  assert (Hlf : forall v, 0 <= v < 2 ^ 47 -> leaf m' root v = leaf (vm_mem s) root v) by (intros; by apply kept_leaf).
  split; [|done| |].
  - split; [done|]. cbn [vm_mem set_vm_mem vm_pmm]. split; try done.
    + intros path t Hp. rewrite Hw by done. by apply W2.
    + intros p1 p2 t Hp1 Hp2. rewrite !Hw by done. by apply W3.
  - intros v Hv. unfold umapped, uframe. cbn [vm_mem set_vm_mem]. rewrite Hlf by done. intros Hm.
    destruct (Hpg v Hv Hm) as [(D1 & D2 & D3) D4]. split; [|done]. split; [done|]. split; [done|].
    intros path Hp. cbn [vm_mem set_vm_mem]. rewrite Hw by done. by apply D3.
  - intros v w Hv Hw'. unfold umapped, uframe. cbn [vm_mem set_vm_mem]. rewrite !Hlf by done. by apply Hinj.
Qed.

Lemma kept_table m m' root x : tables_kept m m' root -> is_table m' root x <-> is_table m root x.
Proof.
  intros Hk. split; intros (path & Hp & Hw); exists path; (split; [done|]);
    [rewrite <- (kept_walk m m' root) by done|rewrite (kept_walk m m' root) by done]; done.
Qed.

Lemma kept_kbuf (s : vm) m' root a len : kbuf s root a len -> tables_kept (vm_mem s) m' root -> kbuf (set_vm_mem m' s) root a len.
Proof.
  intros Hb Hk x Hx [Ht|(v & Hv & Hm & E)]; apply Hb; try done.
  - left. by apply (kept_table (vm_mem s) m').
  - right. exists v. unfold umapped, uframe in *. cbn [vm_mem set_vm_mem] in *. by rewrite (kept_leaf (vm_mem s) m') in * by done.
Qed.

(** ** One round *)

Lemma umapped_page (m : mem) root u w : u / 4096 = w / 4096 ->
  leaf m root u = leaf m root w.
Proof. intros E. by apply leaf_vpn, vpn_page. Qed.

Lemma page_phys (s : vm) root u : uspace s root -> 0 <= u < 2 ^ 47 ->
  user_virt_to_phys hhdm_offset root (page_of u) s = Ret (if present (leaf (vm_mem s) root u) then uframe (vm_mem s) root u else 0) s.
Proof.
  intros Hs Hu. rewrite user_virt_to_phys_eq by apply Hs. f_equal. unfold translate, uframe.
  assert (Hp : page_of u = 4096 * (u / 4096)).
  { rewrite page_of_sub by (change (2 ^ 47) with 140737488355328 in Hu; unfold two64; lia). pose proof (Z.div_mod u 4096 ltac:(lia)). lia. }
  assert (Hl : leaf (vm_mem s) root (page_of u) = leaf (vm_mem s) root u).
  { apply umapped_page. rewrite Hp, Z.mul_comm, Z.div_mul by lia. done. }
  rewrite Hl. destruct (present _); [|done]. change 0xFFF with 4095. rewrite land_4095, Hp, Z.mul_comm, Z.mod_mul by lia. apply Z.lor_0_r.
Qed.

Lemma uvirt_eq x off : frame hhdm_offset x -> 0 <= off < 4096 -> u64 (x + hhdm_offset + off) = ptv x + off.
Proof.
  intros Hx Ho. rewrite frame_ptv by done. destruct Hx as (? & ? & ?). apply u64_small. unfold two64 in *. lia.
Qed.

(** What a round writes into a page of the process. *)
Lemma write_page (s : vm) root u k chunk x m1 :
  uspace s root -> 0 <= u < 2 ^ 47 -> 0 < chunk -> u mod 4096 + chunk <= 4096 -> umapped (vm_mem s) root u -> x = uframe (vm_mem s) root u ->
  (forall b, rd8 m1 b = if (ptv x + u mod 4096 <=? b) && (b <? ptv x + u mod 4096 + chunk) then k (b - (ptv x + u mod 4096)) else rd8 (vm_mem s) b) ->
  tables_kept (vm_mem s) m1 root /\
  (forall v, 0 <= v < 2 ^ 47 -> umapped (vm_mem s) root v ->
    ubyte m1 root v = if (u <=? v) && (v <? u + chunk) then k (v - u) else ubyte (vm_mem s) root v) /\
  (forall b, outside (vm_mem s) root b -> rd8 m1 b = rd8 (vm_mem s) b).
Proof.
  intros Hs Hu Hc Hoff Hm -> Hw. destruct (us_page _ _ Hs u Hu Hm) as [(Hx & Hxf & Hxt) _].
  pose proof (Z.mod_pos_bound u 4096 ltac:(lia)) as Hmod. set (x := uframe (vm_mem s) root u) in *.
  assert (Hout : forall y b, frame hhdm_offset y -> y <> x -> 0 <= b < 4096 -> rd8 m1 (ptv y + b) = rd8 (vm_mem s) (ptv y + b)).
  { intros y b Hy Hne Hb. rewrite Hw. rewrite !frame_ptv by done. destruct (frames_apart hhdm_offset y x Hy Hx Hne);
      destruct (Z.leb_spec (x + hhdm_offset + u mod 4096) (y + hhdm_offset + b)), (Z.ltb_spec (y + hhdm_offset + b) (x + hhdm_offset + u mod 4096 + chunk)); simpl; done || lia. }
  assert (Hk : tables_kept (vm_mem s) m1 root).
  { intros y (path & Hp & Hy) b Hb. apply Hout; [|intros ->; by apply (Hxt path)|done].
    apply (wf_table _ _ _ _ _ (vwf_pt _ _ _ _ (us_wf _ _ Hs)) path y Hp Hy). }
  split; [done|]. split; cycle 1.
  { intros b Hb. rewrite Hw. destruct (Z.leb_spec (ptv x + u mod 4096) b), (Z.ltb_spec b (ptv x + u mod 4096 + chunk)); simpl; try done.
    pose proof (Z.div_mod u 4096 ltac:(lia)). set (v := u + (b - (ptv x + u mod 4096))).
    assert (Ev : v / 4096 = u / 4096) by (subst v; Z.div_mod_to_equations; lia). pose proof (Z.div_mod v 4096 ltac:(lia)).
    assert (Hlf : leaf (vm_mem s) root v = leaf (vm_mem s) root u) by (by apply umapped_page).
    destruct (Hb v); unfold umapped, uframe; rewrite ?Hlf; [change (2 ^ 47) with (34359738368 * 4096) in *; Z.div_mod_to_equations; lia|done|].
    fold (uframe (vm_mem s) root u) x. lia. }
  intros v Hv Hvm. unfold ubyte, uframe. rewrite (kept_leaf (vm_mem s) m1) by done. fold (uframe (vm_mem s) root v).
  pose proof (Z.mod_pos_bound v 4096 ltac:(lia)) as Hvmod. destruct (us_page _ _ Hs v Hv Hvm) as [(Hy & _) _].
  pose proof (Z.div_mod u 4096 ltac:(lia)). pose proof (Z.div_mod v 4096 ltac:(lia)).
  destruct (Z.eq_dec (uframe (vm_mem s) root v) x) as [E|Hne].
  - pose proof (us_inj _ _ Hs v u Hv Hu Hvm Hm E) as Hpg. rewrite E, Hw.
    destruct (Z.leb_spec (ptv x + u mod 4096) (ptv x + v mod 4096)), (Z.ltb_spec (ptv x + v mod 4096) (ptv x + u mod 4096 + chunk)),
      (Z.leb_spec u v), (Z.ltb_spec v (u + chunk)); simpl; try done; try lia. f_equal. lia.
  - rewrite Hout by done. destruct (Z.leb_spec u v), (Z.ltb_spec v (u + chunk)); simpl; try done.
    exfalso. apply Hne. unfold x, uframe. rewrite (umapped_page (vm_mem s) root v u) by (Z.div_mod_to_equations; lia). done.
Qed.

(** Writing a kernel buffer changes neither the tables nor user memory. *)
Lemma kbuf_write (s : vm) root k len m1 : uspace s root -> kbuf s root k len ->
  (forall b, b < k \/ k + len <= b -> rd8 m1 b = rd8 (vm_mem s) b) ->
  tables_kept (vm_mem s) m1 root /\
  (forall v, 0 <= v < 2 ^ 47 -> umapped (vm_mem s) root v -> ubyte m1 root v = ubyte (vm_mem s) root v).
Proof.
  intros Hs Hb Hw.
  assert (Hk : tables_kept (vm_mem s) m1 root).
  { intros y Hy b Hbb. pose proof Hy as (path & Hp & Hwk). pose proof (wf_table _ _ _ _ _ (vwf_pt _ _ _ _ (us_wf _ _ Hs)) path y Hp Hwk) as [Hyf _].
    apply Hw. destruct (Hb y Hyf); [by left|lia|lia]. }
  split; [done|]. intros v Hv Hvm. unfold ubyte, uframe. rewrite (kept_leaf (vm_mem s) m1) by done. fold (uframe (vm_mem s) root v).
  destruct (us_page _ _ Hs v Hv Hvm) as [(Hy & _) _]. pose proof (Z.mod_pos_bound v 4096 ltac:(lia)).
  apply Hw. destruct (Hb _ Hy); [right; by exists v|lia|lia].
Qed.

(** What a round reads into a kernel buffer. *)
Lemma read_page (s : vm) root u k chunk x m1 :
  uspace s root -> kbuf s root k chunk -> 0 <= u < 2 ^ 47 -> 0 < chunk -> u mod 4096 + chunk <= 4096 -> umapped (vm_mem s) root u ->
  x = uframe (vm_mem s) root u ->
  (forall b, rd8 m1 b = if (k <=? b) && (b <? k + chunk) then rd8 (vm_mem s) (ptv x + u mod 4096 + (b - k)) else rd8 (vm_mem s) b) ->
  tables_kept (vm_mem s) m1 root /\
  (forall v, 0 <= v < 2 ^ 47 -> umapped (vm_mem s) root v -> ubyte m1 root v = ubyte (vm_mem s) root v) /\
  (forall b, rd8 m1 b = if (k <=? b) && (b <? k + chunk) then ubyte (vm_mem s) root (u + (b - k)) else rd8 (vm_mem s) b).
Proof.
  intros Hs Hb Hu Hc Hoff Hm -> Hw. pose proof (Z.mod_pos_bound u 4096 ltac:(lia)) as Hmod.
  destruct (kbuf_write s root k chunk m1 Hs Hb) as [Hk Hub].
  { intros b Hout. rewrite Hw. destruct (Z.leb_spec k b), (Z.ltb_spec b (k + chunk)); simpl; done || lia. }
  split; [done|]. split; [done|].
  intros b. rewrite Hw. destruct (Z.leb_spec k b), (Z.ltb_spec b (k + chunk)); simpl; try done. unfold ubyte, uframe.
  pose proof (Z.div_mod u 4096 ltac:(lia)). pose proof (Z.div_mod (u + (b - k)) 4096 ltac:(lia)).
  assert (Ev : (u + (b - k)) / 4096 = u / 4096) by (Z.div_mod_to_equations; lia).
  rewrite (umapped_page (vm_mem s) root (u + (b - k)) u Ev). f_equal. lia.
Qed.

Lemma kbuf_sub (s : vm) root k len k' len' : kbuf s root k len -> k <= k' -> k' + len' <= k + len -> kbuf s root k' len'.
Proof. intros Hb Hk Hl x Hx Hin. destruct (Hb x Hx Hin); lia. Qed.

Lemma kbuf_outside (s : vm) root k len b : uspace s root -> kbuf s root k len -> k <= b < k + len -> outside (vm_mem s) root b.
Proof.
  intros Hs Hb Hi v Hv Hm ->. destruct (us_page _ _ Hs v Hv Hm) as [(Hy & _) _]. pose proof (Z.mod_pos_bound v 4096 ltac:(lia)).
  destruct (Hb _ Hy); [right; by exists v|lia|lia].
Qed.

(** The address the round uses, apart from the kernel buffer. *)
Lemma page_apart (s : vm) root u k chunk : uspace s root -> kbuf s root k chunk -> 0 <= u < 2 ^ 47 -> umapped (vm_mem s) root u ->
  u mod 4096 + chunk <= 4096 ->
  let a := u64 (uframe (vm_mem s) root u + hhdm_offset + off_of u) in
  a = ptv (uframe (vm_mem s) root u) + u mod 4096 /\ (a + chunk <= k \/ k + chunk <= a).
Proof.
  intros Hs Hb Hu Hm Hc. destruct (us_page _ _ Hs u Hu Hm) as [(Hy & _) _]. pose proof (Z.mod_pos_bound u 4096 ltac:(lia)).
  rewrite off_of_mod, uvirt_eq by done. split; [done|]. destruct (Hb _ Hy); [right; by exists u|lia|lia].
Qed.

(** ** The loops *)

(** The first [n] bytes of the buffer are in user memory at [u]; all other
    memory is as it was. *)
Definition put (m m' : mem) (root u k n : Z) : Prop :=
  tables_kept m m' root /\
  (forall v, 0 <= v < 2 ^ 47 -> umapped m root v ->
    ubyte m' root v = if (u <=? v) && (v <? u + n) then rd8 m (k + (v - u)) else ubyte m root v) /\
  (forall b, outside m root b -> rd8 m' b = rd8 m b).

(** The first [n] bytes of user memory at [u] are in the buffer. *)
Definition got (m m' : mem) (root u k n : Z) : Prop :=
  tables_kept m m' root /\
  (forall v, 0 <= v < 2 ^ 47 -> umapped m root v -> ubyte m' root v = ubyte m root v) /\
  (forall b, rd8 m' b = if (k <=? b) && (b <? k + n) then ubyte m root (u + (b - k)) else rd8 m b).

(** How a copy of [len] bytes ends: all of them copied, or the bytes up to
    the first page that is not mapped. *)
Definition copy_end (m : mem) (root u len n r : Z) : Prop :=
  0 <= n <= len /\ (forall v, u <= v < u + n -> umapped m root v) /\
  ((r = 0 /\ n = len) \/ (r = -1 /\ n < len /\ ~ umapped m root (u + n))).

Lemma kept_umapped m m' root v : tables_kept m m' root -> 0 <= v < 2 ^ 47 -> umapped m' root v <-> umapped m root v.
Proof. intros Hk Hv. unfold umapped. by rewrite (kept_leaf m m'). Qed.

Lemma kept_trans m m1 m2 root : tables_kept m m1 root -> tables_kept m1 m2 root -> tables_kept m m2 root.
Proof. intros H1 H2 x Hx b Hb. rewrite H2; [by apply H1|by apply (kept_table m m1)|done]. Qed.

Lemma kept_outside m m' root b : tables_kept m m' root -> outside m root b -> outside m' root b.
Proof.
  intros Hk Ho v Hv. rewrite (kept_umapped m m') by done. unfold uframe. rewrite (kept_leaf m m') by done. by apply Ho.
Qed.

Lemma put_step m m1 m2 root u k c n : 0 <= u -> 0 < c -> 0 <= n -> u + c + n <= 2 ^ 47 ->
  (forall b, k <= b < k + (c + n) -> outside m root b) ->
  put m m1 root u k c -> put m1 m2 root (u + c) (k + c) n -> put m m2 root u k (c + n).
Proof.
  intros Hu Hc Hn Hle Hk (A1 & A2 & A3) (B1 & B2 & B3). split; [by eapply kept_trans|]. split.
  - intros v Hv Hm. rewrite B2 by (try done; by apply (kept_umapped m m1)). rewrite A2 by done.
    destruct (Z.leb_spec (u + c) v), (Z.ltb_spec v (u + c + n)), (Z.leb_spec u v), (Z.ltb_spec v (u + c)), (Z.ltb_spec v (u + (c + n))); simpl; try done; try lia.
    rewrite A3 by (apply Hk; lia). f_equal. lia.
  - intros b Hb. rewrite B3 by (by apply (kept_outside m m1)). by apply A3.
Qed.

Lemma got_step m m1 m2 root u k c n : 0 <= u -> 0 < c -> 0 <= n -> u + c + n <= 2 ^ 47 ->
  (forall v, u <= v < u + (c + n) -> umapped m root v) ->
  got m m1 root u k c -> got m1 m2 root (u + c) (k + c) n -> got m m2 root u k (c + n).
Proof.
  intros Hu Hc Hn Hle Hm (A1 & A2 & A3) (B1 & B2 & B3). split; [by eapply kept_trans|]. split.
  - intros v Hv Hvm. rewrite B2 by (try done; by apply (kept_umapped m m1)). by apply A2.
  - intros b. rewrite B3, A3.
    destruct (Z.leb_spec (k + c) b), (Z.ltb_spec b (k + c + n)), (Z.leb_spec k b), (Z.ltb_spec b (k + c)), (Z.ltb_spec b (k + (c + n))); simpl; try done; try lia.
    rewrite A2 by (lia || (apply Hm; lia)). f_equal. lia.
Qed.

Lemma end_step m m1 root u c len n r : 0 <= u -> 0 < c <= len -> u + len <= 2 ^ 47 -> tables_kept m m1 root ->
  (forall v, u <= v < u + c -> umapped m root v) ->
  copy_end m1 root (u + c) (len - c) n r -> copy_end m root u len (c + n) r.
Proof.
  intros Hu Hc Hle Hk Hm (Hn & Hall & Hend). split; [lia|]. split.
  - intros v Hv. destruct (Z.lt_ge_cases v (u + c)); [apply Hm; lia|]. rewrite <- (kept_umapped m m1) by (done || lia). apply Hall. lia.
  - destruct Hend as [[-> ->]|(-> & Hlt & Hun)]; [left; split; [done|lia]|right]. split; [done|]. split; [lia|].
    rewrite <- (kept_umapped m m1) by (done || lia). by rewrite Z.add_assoc.
Qed.

Lemma put_nil m root u k : put m m root u k 0.
Proof. split; [by intros x Hx b Hb|]. split; [|done]. intros v _ _. destruct (Z.leb_spec u v), (Z.ltb_spec v (u + 0)); simpl; done || lia. Qed.

Lemma got_nil m root u k : got m m root u k 0.
Proof. split; [by intros x Hx b Hb|]. split; [done|]. intros b. destruct (Z.leb_spec k b), (Z.ltb_spec b (k + 0)); simpl; done || lia. Qed.

Lemma chunk_mapped m root u c : umapped m root u -> u mod 4096 + c <= 4096 -> forall v, u <= v < u + c -> umapped m root v.
Proof.
  intros Hm Hc v Hv. unfold umapped. rewrite (umapped_page m root v u); [done|].
  pose proof (Z.div_mod u 4096 ltac:(lia)). pose proof (Z.mod_pos_bound u 4096 ltac:(lia)). Z.div_mod_to_equations. lia.
Qed.

Lemma set_mem_twice (s : vm) m1 m2 : set_vm_mem m2 (set_vm_mem m1 s) = set_vm_mem m2 s.
Proof. done. Qed.

Lemma set_mem_same (s : vm) : set_vm_mem (vm_mem s) s = s.
Proof. by destruct s. Qed.

(** What a copy needs: the process's address space, the user range below
    2^47 and a kernel buffer apart from both. *)
Definition copy_pre (s : vm) (root u k len : Z) : Prop :=
  uspace s root /\ 0 <= u /\ 0 <= len /\ u + len <= 2 ^ 47 /\ kbuf s root k len.

(** The next round, after [c] bytes. *)
Lemma copy_pre_next (s : vm) m1 root u k len c : copy_pre s root u k len -> 0 < c <= len -> tables_kept (vm_mem s) m1 root ->
  copy_pre (set_vm_mem m1 s) root (u + c) (k + c) (len - c) /\ u64 (u + c) = u + c.
Proof.
  intros (Hs & Hu & Hl & Hle & Hb) Hc Hk. split.
  - split; [by apply kept_uspace|]. split; [lia|]. split; [lia|]. split; [lia|]. apply kept_kbuf; [|done]. apply (kbuf_sub s root k len); [done|lia|lia].
  - apply u64_small. change (2 ^ 47) with 140737488355328 in Hle. unfold two64. lia.
Qed.

Lemma to_user_spec fuel : forall (s : vm) root u k len, copy_pre s root u k len -> (Z.to_nat len < fuel)%nat ->
  exists r m' n, to_user_loop hhdm_offset fuel root u k len s = Ret r (set_vm_mem m' s) /\
    put (vm_mem s) m' root u k n /\ copy_end (vm_mem s) root u len n r.
Proof.
  induction fuel as [|fuel IH]; intros s root u k len Hpre Hf; [lia|]. pose proof Hpre as (Hs & Hu & Hl & Hle & Hb). cbn [to_user_loop].
  destruct (Z.eqb_spec len 0) as [->|Hne].
  { exists 0, (vm_mem s), 0. rewrite set_mem_same. split; [done|]. split; [apply put_nil|]. split; [lia|]. split; [lia|by left]. }
  destruct (chunk_spec u len) as (Hc & Hoff & _); [change (2 ^ 47) with 140737488355328 in Hle; unfold two64; lia|lia|]. set (c := chunk_of u len) in *.
  cbv zeta. rewrite (mbind_Ret _ _ _ _ _ (page_phys s root u Hs ltac:(lia))). destruct (present (leaf (vm_mem s) root u)) eqn:Em; cycle 1.
  { exists (-1), (vm_mem s), 0. rewrite set_mem_same. split; [done|]. split; [apply put_nil|]. split; [lia|]. split; [lia|right].
    unfold umapped. rewrite Z.add_0_r, Em. split; [done|]. split; [lia|done]. }
  destruct (us_page _ _ Hs u ltac:(lia) Em) as [_ Hnz]. rewrite (proj2 (Z.eqb_neq _ _) Hnz).
  destruct (page_apart s root u k c) as [-> Hap]; [done|by apply (kbuf_sub s root k len); [|lia|lia]|lia|done|done|].
  set (a := ptv (uframe (vm_mem s) root u) + u mod 4096) in *. set (m1 := memcpy a k c (vm_mem s)).
  rewrite (mbind_Ret (do_memcpy a k c) _ s tt (set_vm_mem m1 s) eq_refl).
  destruct (write_page s root u (fun i => rd8 (vm_mem s) (k + i)) c (uframe (vm_mem s) root u) m1) as (A1 & A2 & A3); try done; try lia.
  { intros b. unfold m1. rewrite rd8_memcpy by lia. done. }
  destruct (copy_pre_next s m1 root u k len c Hpre Hc A1) as [Hpre' ->].
  destruct (IH _ _ _ _ _ Hpre' ltac:(lia)) as (r & m' & n & E & Hput & Hend). exists r, m', (c + n). rewrite E, set_mem_twice. split; [done|].
  pose proof Hend as (Hn & _). split.
  - apply (put_step (vm_mem s) m1 m'); try lia; [|by split|exact Hput]. intros b Hbb. eapply kbuf_outside; [exact Hs|exact Hb|lia].
  - eapply end_step; [lia|exact Hc|lia|exact A1| |exact Hend]. by apply chunk_mapped.
Qed.

Lemma from_user_spec fuel : forall (s : vm) root u k len, copy_pre s root u k len -> (Z.to_nat len < fuel)%nat ->
  exists r m' n, from_user_loop hhdm_offset fuel root k u len s = Ret r (set_vm_mem m' s) /\
    got (vm_mem s) m' root u k n /\ copy_end (vm_mem s) root u len n r.
Proof.
  induction fuel as [|fuel IH]; intros s root u k len Hpre Hf; [lia|]. pose proof Hpre as (Hs & Hu & Hl & Hle & Hb). cbn [from_user_loop].
  destruct (Z.eqb_spec len 0) as [->|Hne].
  { exists 0, (vm_mem s), 0. rewrite set_mem_same. split; [done|]. split; [apply got_nil|]. split; [lia|]. split; [lia|by left]. }
  destruct (chunk_spec u len) as (Hc & Hoff & _); [change (2 ^ 47) with 140737488355328 in Hle; unfold two64; lia|lia|]. set (c := chunk_of u len) in *.
  cbv zeta. rewrite (mbind_Ret _ _ _ _ _ (page_phys s root u Hs ltac:(lia))). destruct (present (leaf (vm_mem s) root u)) eqn:Em; cycle 1.
  { exists (-1), (vm_mem s), 0. rewrite set_mem_same. split; [done|]. split; [apply got_nil|]. split; [lia|]. split; [lia|right].
    unfold umapped. rewrite Z.add_0_r, Em. split; [done|]. split; [lia|done]. }
  destruct (us_page _ _ Hs u ltac:(lia) Em) as [_ Hnz]. rewrite (proj2 (Z.eqb_neq _ _) Hnz).
  assert (Hbc : kbuf s root k c) by (by apply (kbuf_sub s root k len); [|lia|lia]).
  destruct (page_apart s root u k c) as [-> Hap]; [done|done|lia|done|done|].
  set (a := ptv (uframe (vm_mem s) root u) + u mod 4096) in *. set (m1 := memcpy k a c (vm_mem s)).
  rewrite (mbind_Ret (do_memcpy k a c) _ s tt (set_vm_mem m1 s) eq_refl).
  destruct (read_page s root u k c (uframe (vm_mem s) root u) m1) as (A1 & A2 & A3); try done; try lia.
  { intros b. unfold m1. rewrite rd8_memcpy by lia. done. }
  destruct (copy_pre_next s m1 root u k len c Hpre Hc A1) as [Hpre' ->].
  destruct (IH _ _ _ _ _ Hpre' ltac:(lia)) as (r & m' & n & E & Hgot & Hend). exists r, m', (c + n). rewrite E, set_mem_twice. split; [done|].
  pose proof (end_step _ _ _ _ _ _ _ _ Hu Hc Hle A1 (chunk_mapped _ _ _ _ Em Hoff) Hend) as Hend'. split; [|exact Hend'].
  apply (got_step (vm_mem s) m1 m'); [lia|lia|apply Hend|pose proof Hend as (Hn & _); lia|apply Hend'|by split|exact Hgot].
Qed.

(** ** Properties *)

(** [copy_from_user] terminates and copies the user range byte by byte
    into the kernel buffer, however the range straddles pages: it returns 0
    after all [len] bytes, or -1 at the first page that is not mapped, with
    the bytes before it copied; no other byte of memory changes. *)
Theorem copy_from_user_correct (s : vm) (root u k len : Z) :
  copy_pre s root u k len ->
  exists r m' n, copy_from_user hhdm_offset (Some root) k u len s = Ret r (set_vm_mem m' s) /\
    got (vm_mem s) m' root u k n /\ copy_end (vm_mem s) root u len n r.
Proof. intros Hpre. apply from_user_spec; [done|lia]. Qed.

(** C24: What [copy_to_user] wrote, [copy_from_user] reads back: copying a
    buffer out to mapped user pages and in again gives the same bytes, both
    calls return 0, and user memory outside the range is unchanged; when a
    page of the range is not mapped both calls return -1. *)
Theorem copy_user_roundtrip (s : vm) (root u k k' len : Z) :
  copy_pre s root u k len -> kbuf s root k' len ->
  exists r m1 m2, copy_to_user hhdm_offset (Some root) u k len s = Ret r (set_vm_mem m1 s) /\
    copy_from_user hhdm_offset (Some root) k' u len (set_vm_mem m1 s) = Ret r (set_vm_mem m2 s) /\
    ((r = 0 /\ (forall v, u <= v < u + len -> umapped (vm_mem s) root v) /\
      (forall i, 0 <= i < len -> rd8 m2 (k' + i) = rd8 (vm_mem s) (k + i)) /\
      (forall v, 0 <= v < 2 ^ 47 -> ~ u <= v < u + len -> umapped (vm_mem s) root v -> ubyte m2 root v = ubyte (vm_mem s) root v)) \/
     (r = -1 /\ exists v, u <= v < u + len /\ ~ umapped (vm_mem s) root v)).
Proof.
  intros Hpre Hb'. pose proof Hpre as (Hs & Hu & Hl & Hle & Hb).
  destruct (to_user_spec (S (Z.to_nat len)) s root u k len Hpre ltac:(lia)) as (r & m1 & n & E1 & (P1 & P2 & P3) & Hn & Hall & Hend).
  assert (Hpre' : copy_pre (set_vm_mem m1 s) root u k' len).
  { split; [by apply kept_uspace|]. repeat (split; [lia|]). by apply kept_kbuf. }
  destruct (from_user_spec (S (Z.to_nat len)) _ root u k' len Hpre' ltac:(lia)) as (r' & m2 & n' & E2 & (G1 & G2 & G3) & Hn' & Hall' & Hend').
  cbn [vm_mem set_vm_mem] in *. rewrite set_mem_twice in E2.
  assert (Hum : forall v, u <= v < u + len -> umapped m1 root v <-> umapped (vm_mem s) root v) by (intros v Hv; apply kept_umapped; [done|lia]).
  assert (Er : r' = r).
  { destruct Hend as [[-> ->]|(-> & Hlt & Hno)], Hend' as [[-> ->]|(-> & Hlt' & Hno')]; try done.
    - destruct Hno'. apply Hum; [lia|]. apply Hall. lia.
    - destruct Hno. apply Hum; [lia|]. apply Hall'. lia. }
  subst r'. exists r, m1, m2. split; [exact E1|]. split; [exact E2|]. destruct Hend as [[-> ->]|(-> & Hlt & Hno)]; [left|right].
  - destruct Hend' as [[_ ->]|(? & _)]; [|done]. split; [done|]. split; [exact Hall|]. split.
    + intros i Hi. rewrite G3. destruct (Z.leb_spec k' (k' + i)), (Z.ltb_spec (k' + i) (k' + len)); simpl; try lia.
      rewrite P2 by (lia || (apply Hall; lia)). destruct (Z.leb_spec u (u + (k' + i - k'))), (Z.ltb_spec (u + (k' + i - k')) (u + len)); simpl; try lia. f_equal. lia.
    + intros v Hv Ho Hm. rewrite G2 by (try done; by apply (kept_umapped (vm_mem s) m1)). rewrite P2 by done.
      destruct (Z.leb_spec u v), (Z.ltb_spec v (u + len)); simpl; try done. exfalso. apply Ho. lia.
  - split; [done|]. exists (u + n). split; [lia|done].
Qed.
(** ** Termination *)

(** The pages of [len] bytes from [u] on. *)
Definition pages_touched (u len : Z) : Z := if len =? 0 then 0 else (u mod 4096 + len + 4095) / 4096.

(** A round takes one page off. *)
Lemma pages_next u len : 0 <= u < two64 -> 0 < len ->
  let c := chunk_of u len in 0 <= len - c /\ pages_touched (u64 (u + c)) (len - c) = pages_touched u len - 1.
Proof.
  intros Hu Hl c. destruct (chunk_spec u len Hu Hl) as (Hc & Hp & Hn). fold c in Hc, Hp, Hn. pose proof (Z.mod_pos_bound u 4096 ltac:(lia)) as Ho.
  split; [lia|]. unfold pages_touched. rewrite (proj2 (Z.eqb_neq len 0)) by lia.
  destruct (Z.eqb_spec (len - c) 0) as [Hz|Hne].
  { replace len with c in * by lia. replace ((u mod 4096 + c + 4095) / 4096) with 1; [done|]. Z.div_mod_to_equations. lia. }
  specialize (Hn ltac:(lia)).
  assert (Hm : u64 (u + c) mod 4096 = 0).
  { unfold u64, two64. rewrite <- Znumtheory.Zmod_div_mod; [done|lia|lia|]. exists 4503599627370496. done. }
  rewrite Hm. assert (Hcc : c = 4096 - u mod 4096).
  { assert (Hd : (u mod 4096 + c) mod 4096 = 0) by (by rewrite Zplus_mod_idemp_l). destruct (Z.eq_dec (u mod 4096 + c) 4096); [lia|].
    rewrite Z.mod_small in Hd by lia. lia. }
  rewrite Hcc. replace (u mod 4096 + len + 4095) with (0 + (len - (4096 - u mod 4096)) + 4095 + 1 * 4096) by lia. rewrite Z.div_add by lia. lia.
Qed.

Lemma pages_nonneg u len : 0 <= len -> 0 <= pages_touched u len <= len.
Proof.
  intros Hl. unfold pages_touched. destruct (Z.eqb_spec len 0); [lia|]. pose proof (Z.mod_pos_bound u 4096 ltac:(lia)). Z.div_mod_to_equations. lia.
Qed.

(** One round of either loop: stop, or copy [c] bytes and go on. *)
Ltac copy_round s IH Hl Hu Hlen Hf :=
  match goal with |- context [(?len =? 0)] => destruct (Z.eqb_spec len 0) as [->|Hne]; [exists 0, (vm_mem s); rewrite set_mem_same; by split; [|left]|] end;
  rewrite (mbind_Ret _ _ _ _ _ (user_virt_to_phys_eq hhdm_offset _ s _ Hl));
  destruct (_ =? 0); [exists (-1), (vm_mem s); rewrite set_mem_same; by split; [|right]|];
  match goal with |- context [do_memcpy ?d ?a (chunk_of ?u ?len)] =>
    destruct (pages_next u len Hu ltac:(lia)) as (Hc & Hn);
    edestruct (IH (set_vm_mem (memcpy d a (chunk_of u len) (vm_mem s)) s)) as (r & m & E & Hr);
      [done|apply u64_range|exact Hc|rewrite Hn; lia|]
  end;
  match goal with E : _ = Ret ?r (set_vm_mem ?m _) |- _ => exists r, m; split; [etransitivity; [exact E|by rewrite set_mem_twice]|done] end.

Lemma to_user_ends fuel : forall (s : vm) root u k len, vmm_lock s = 0 -> 0 <= u < two64 -> 0 <= len -> pages_touched u len < Z.of_nat fuel ->
  exists r m, to_user_loop hhdm_offset fuel root u k len s = Ret r (set_vm_mem m s) /\ (r = 0 \/ r = -1).
Proof.
  induction fuel as [|fuel IH]; intros s root u k len Hl Hu Hlen Hf; [pose proof (pages_nonneg u len Hlen); lia|].
  cbn [to_user_loop]. copy_round s IH Hl Hu Hlen Hf.
Qed.

Lemma from_user_ends fuel : forall (s : vm) root k u len, vmm_lock s = 0 -> 0 <= u < two64 -> 0 <= len -> pages_touched u len < Z.of_nat fuel ->
  exists r m, from_user_loop hhdm_offset fuel root k u len s = Ret r (set_vm_mem m s) /\ (r = 0 \/ r = -1).
Proof.
  induction fuel as [|fuel IH]; intros s root k u len Hl Hu Hlen Hf; [pose proof (pages_nonneg u len Hlen); lia|].
  cbn [from_user_loop]. copy_round s IH Hl Hu Hlen Hf.
Qed.

(** C23: copying between kernel and user memory ends whatever the caller
    passes: for every address, every length and every content of the page
    tables, also ranges that wrap around or leave the user half, both loops
    return 0 or -1 after at most one round per page the range touches, with
    the lock of the page tables free, and never run out of the rounds the
    model gives them. *)
Theorem copies_terminate (s : vm) (proc : option Z) (u k len : Z) :
  vmm_lock s = 0 -> 0 <= u < two64 -> 0 <= len ->
  (forall root fuel, pages_touched u len < Z.of_nat fuel ->
     (exists r m, to_user_loop hhdm_offset fuel root u k len s = Ret r (set_vm_mem m s)) /\
     (exists r m, from_user_loop hhdm_offset fuel root k u len s = Ret r (set_vm_mem m s))) /\
  (exists r m, copy_to_user hhdm_offset proc u k len s = Ret r (set_vm_mem m s) /\ (r = 0 \/ r = -1)) /\
  (exists r m, copy_from_user hhdm_offset proc k u len s = Ret r (set_vm_mem m s) /\ (r = 0 \/ r = -1)).
Proof.
  intros Hl Hu Hlen. split; [|split].
  - intros root fuel Hf. destruct (to_user_ends fuel s root u k len Hl Hu Hlen Hf) as (r & m & E & _).
    destruct (from_user_ends fuel s root k u len Hl Hu Hlen Hf) as (r' & m' & E' & _). split; [by exists r, m|by exists r', m'].
  - destruct proc as [root|]; [|exists (-1), (vm_mem s); rewrite set_mem_same; by split; [|right]].
    apply to_user_ends; try done. pose proof (pages_nonneg u len Hlen). lia.
  - destruct proc as [root|]; [|exists (-1), (vm_mem s); rewrite set_mem_same; by split; [|right]].
    apply from_user_ends; try done. pose proof (pages_nonneg u len Hlen). lia.
Qed.
End UserCopyFacts.

(** ** Witness: the process of ForkFacts.v, and buffers below the direct map *)

Lemma user_demo : exists s, vmm_map_user demo_hhdm fork_root 0x400000 fork_frame 7 1 fork_vm0 = Ret tt s /\
  uspace demo_hhdm s fork_root /\ ubyte demo_hhdm (vm_mem s) fork_root 0x400005 = 77 /\
  (forall k len, k + len <= demo_hhdm -> kbuf demo_hhdm s fork_root k len) /\
  (forall v, 0x400000 <= v < 0x401000 -> umapped demo_hhdm (vm_mem s) fork_root v).
Proof.
  destruct fork_parent as (s & E & _ & Hlk & Hwf & Hd & Hl & Hb). exists s. split; [exact E|]. clear E.
  assert (Hlf : forall v, 0 <= v < 2 ^ 47 -> leaf demo_hhdm (vm_mem s) fork_root v = if v / 4096 =? 1024 then make_entry fork_frame 7 else 0).
  { intros v Hv. rewrite Hl by (by apply user_half_low). destruct (Z.eqb_spec (vpn v) (vpn 0x400000)) as [Hp|Hp]; destruct (Z.eqb_spec (v / 4096) 1024) as [Hq|Hq]; try done.
    - destruct Hq. change 1024 with (0x400000 / 4096). apply vpn_user; done.
    - destruct Hp. by apply vpn_page. }
  split; [|split; [|split]].
  - split; [exact Hwf|exact Hlk| |].
    + intros v Hv. unfold umapped, uframe. rewrite Hlf by done. destruct (v / 4096 =? 1024); [|done]. intros _.
      rewrite (addr_make demo_hhdm) by apply Hd. split; [exact Hd|]. unfold fork_frame. lia.
    + intros v w Hv Hw. unfold umapped, uframe. rewrite !Hlf by done. destruct (Z.eqb_spec (v / 4096) 1024), (Z.eqb_spec (w / 4096) 1024); try done. lia.
  - unfold ubyte, uframe. rewrite Hlf by done. change (0x400005 / 4096 =? 1024) with true. cbv iota.
    rewrite (addr_make demo_hhdm) by apply Hd. exact Hb.
  - intros k len Hk x (Hx & Hx' & Hx'') _. left. unfold phys_to_virt. rewrite u64_small; [lia|]. unfold two64 in *. pose proof demo_hhdm_nonneg. lia.
  - intros v Hv. unfold umapped. rewrite Hlf by (change (2 ^ 47) with 140737488355328; lia). replace (v / 4096) with 1024 by (Z.div_mod_to_equations; lia). done.
Qed.

(** Two bytes read from 0x400004 into a buffer at 0x1000: the second is 77. *)
Lemma copy_from_user_correct_witness :
  exists s r m', vmm_map_user demo_hhdm fork_root 0x400000 fork_frame 7 1 fork_vm0 = Ret tt s /\
    copy_from_user demo_hhdm (Some fork_root) 0x1000 0x400004 2 s = Ret r (set_vm_mem m' s) /\ r = 0 /\ rd8 m' 0x1001 = 77.
Proof.
  destruct user_demo as (s & E & Hs & Hb & Hk & Hm).
  destruct (copy_from_user_correct demo_hhdm demo_hhdm_nonneg s fork_root 0x400004 0x1000 2) as (r & m' & n & E' & (_ & _ & Hg) & Hn & _ & Hend).
  { split; [exact Hs|]. repeat (split; [lia|]). apply Hk. vm_compute. discriminate. }
  exists s, r, m'. split; [exact E|]. split; [exact E'|]. destruct Hend as [[-> ->]|(_ & Hlt & Hno)].
  - split; [reflexivity|]. rewrite Hg. exact Hb.
  - destruct Hno. apply Hm. lia.
Defined.

(** Two bytes of a buffer at 0x1000 to 0x400ffe and back to 0x2000. *)
Lemma copy_user_roundtrip_witness :
  exists s m1 m2, vmm_map_user demo_hhdm fork_root 0x400000 fork_frame 7 1 fork_vm0 = Ret tt s /\
    copy_to_user demo_hhdm (Some fork_root) 0x400ffe 0x1000 2 s = Ret 0 (set_vm_mem m1 s) /\
    copy_from_user demo_hhdm (Some fork_root) 0x2000 0x400ffe 2 (set_vm_mem m1 s) = Ret 0 (set_vm_mem m2 s) /\
    rd8 m2 0x2001 = rd8 (vm_mem s) 0x1001.
Proof.
  destruct user_demo as (s & E & Hs & Hb & Hk & Hm).
  destruct (copy_user_roundtrip demo_hhdm demo_hhdm_nonneg s fork_root 0x400ffe 0x1000 0x2000 2) as (r & m1 & m2 & E1 & E2 & Hres).
  { split; [exact Hs|]. repeat (split; [lia|]). apply Hk. vm_compute. discriminate. }
  { apply Hk. vm_compute. discriminate. }
  exists s, m1, m2. destruct Hres as [(-> & _ & Hr & _)|(_ & v & Hv & Hno)].
  - split; [exact E|]. split; [exact E1|]. split; [exact E2|]. exact (Hr 1 ltac:(lia)).
  - destruct Hno. apply Hm. lia.
Defined.

(** A range that wraps around the end of the address space. *)
Lemma copies_terminate_witness :
  exists r m, copy_to_user demo_hhdm (Some fork_root) 0xfffffffffffffff0 0x1000 10000 fork_vm0 = Ret r (set_vm_mem m fork_vm0) /\ (r = 0 \/ r = -1).
Proof.
  destruct (copies_terminate demo_hhdm fork_vm0 (Some fork_root) 0xfffffffffffffff0 0x1000 10000) as (_ & Ht & _); [reflexivity|unfold two64; lia|lia|exact Ht].
Defined.
