(* ===== verification/Spaces.v ===== *)
(** * User address spaces beside the kernel's

    The frames of a process lie outside the kernel's own page tables and
    outside the free pool.  Such frames are kept by everything the heap does
    ([vm_grows]), so an address space ([pspace]) survives [kmalloc]; and
    [fork_address_space], run on a frame from the pool, keeps every address
    space and makes a new one. *)

From stdpp Require Import base gmap list fin_maps.
From Stdlib Require Import ZArith Lia.
From S2P Require Import Prelude Mem Pmm Vmm PageTables Heap HeapFacts HeapKeeps KernelMem Fork ForkFacts.

#[local] Opaque rd64 wr64 memcpy memset.

Section Spaces.
Context {P : Type} `{FrameAllocator P}.
Context (hhdm_offset : Z) (hhdm_nonneg : 0 <= hhdm_offset).
#[local] Abbreviation vm := (@vm_t P).
#[local] Abbreviation slot := (slot hhdm_offset).
#[local] Abbreviation walk := (walk hhdm_offset).
#[local] Abbreviation leaf := (leaf hhdm_offset).
#[local] Abbreviation ptv := (phys_to_virt hhdm_offset).
#[local] Abbreviation frame_same := (frame_same hhdm_offset).
#[local] Abbreviation vm_ready := (vm_ready hhdm_offset).

(** A frame that is neither free nor a table of the kernel's heap region. *)
Definition kdata (v : vm) (d : Z) : Prop := data_page hhdm_offset heap_slot (vm_pml4 v) v d.

(** ** What is kept *)

Record vm_keeps (v v' : vm) : Prop := {
  vk_ready : vm_ready v';
  vk_root : vm_pml4 v' = vm_pml4 v;
  vk_free : forall x, x ∈ free_frames v' -> x ∈ free_frames v;
  vk_count : (length (free_frames v') <= length (free_frames v))%nat;
  vk_data : forall d, kdata v d -> kdata v' d /\ frame_same (vm_mem v) (vm_mem v') d
}.

(** The same, where the frames [T], which belong to nobody, may be written. *)
Record keeps_but (T : list Z) (v v' : vm) : Prop := {
  kb_ready : vm_ready v';
  kb_root : vm_pml4 v' = vm_pml4 v;
  kb_free : forall x, x ∈ free_frames v' -> x ∈ free_frames v;
  kb_count : (length (free_frames v') <= length (free_frames v))%nat;
  kb_data : forall d, kdata v d -> kdata v' d /\ (d ∉ T -> frame_same (vm_mem v) (vm_mem v') d)
}.

Lemma keeps_nil v v' : keeps_but [] v v' <-> vm_keeps v v'.
Proof.
  split; intros [K1 K2 K3 K4 K5]; (split; [done|done|done|done|]); intros d Hd; destruct (K5 d Hd) as [? Hs]; (split; [done|]).
  - apply Hs, not_elem_of_nil.
  - by intros _.
Qed.

Lemma keeps_weaken T v v' : vm_keeps v v' -> keeps_but T v v'.
Proof. intros [K1 K2 K3 K4 K5]. split; try done. intros d Hd. destruct (K5 d Hd) as [? Hs]. by split. Qed.

Lemma keeps_but_trans T v1 v2 v3 : keeps_but T v1 v2 -> keeps_but T v2 v3 -> keeps_but T v1 v3.
Proof.
  intros [A1 A2 A3 A4 A5] [B1 B2 B3 B4 B5]. split; [done|congruence|auto|lia|].
  intros d Hd. destruct (A5 d Hd) as [Hd2 S1]. destruct (B5 d Hd2) as [Hd3 S2]. split; [done|].
  intros Hn b Hb. by rewrite S2, S1.
Qed.

(** Nothing is written to the frames that stay free. *)
Definition rest_same (v v' : vm) : Prop :=
  forall d, d ∈ free_frames v' -> frame_same (vm_mem v) (vm_mem v') d.

Definition vm_grows (v v' : vm) : Prop := vm_ready v -> vm_keeps v v' /\ rest_same v v'.

Lemma keeps_trans v1 v2 v3 : vm_keeps v1 v2 -> vm_keeps v2 v3 -> vm_keeps v1 v3.
Proof.
  intros [A1 A2 A3 A4 A5] [B1 B2 B3 B4 B5]. split; [done|congruence|auto|lia|].
  intros d Hd. destruct (A5 d Hd) as [Hd2 S1]. destruct (B5 d Hd2) as [Hd3 S2]. split; [done|].
  intros b Hb. by rewrite S2, S1.
Qed.

Lemma rest_trans v1 v2 v3 : vm_keeps v2 v3 -> rest_same v1 v2 -> rest_same v2 v3 -> rest_same v1 v3.
Proof. intros K A B d Hd b Hb. rewrite B by done. apply A; [by apply K|done]. Qed.

#[local] Instance grows_preorder : PreOrder vm_grows.
Proof.
  split.
  - intros v Hr. by split.
  - intros v1 v2 v3 H12 H23 Hr. destruct (H12 Hr) as [K1 R1]. destruct (H23 (vk_ready _ _ K1)) as [K2 R2].
    split; [by eapply keeps_trans|by eapply rest_trans].
Qed.

Lemma ready_pool v : vm_ready v -> pool hhdm_offset v.
Proof.
  intros [[Hok [_ _ _ Hf Hnd]] _]. split; [done|]. split; [done|]. intros x Hx. rewrite Forall_forall in Hf. by apply Hf.
Qed.

(** A table of the kernel is not free. *)
Lemma ktable_not_free v path x : vm_ready v -> tpath 3 heap_slot path -> walk (vm_mem v) (vm_pml4 v) path = Some x ->
  frame hhdm_offset x /\ x ∉ free_frames v.
Proof. intros [[_ Hwf] _] Hp Hw. by apply (wf_table _ _ _ _ _ Hwf path). Qed.

(** Memory that changes in frames of the pool, and in the frames [T], only. *)
Definition outer_but (T : list Z) (v v' : vm) : Prop :=
  forall d, frame hhdm_offset d -> d ∉ free_frames v -> d ∉ T -> frame_same (vm_mem v) (vm_mem v') d.
Definition outer_same (v v' : vm) : Prop :=
  forall d, frame hhdm_offset d -> d ∉ free_frames v -> frame_same (vm_mem v) (vm_mem v') d.

Lemma outer_nil v v' : outer_same v v' -> outer_but [] v v'.
Proof. intros Hs d Hd Hn _. by apply Hs. Qed.

(** The tables of the kernel's heap are not among such frames. *)
Lemma outer_table T v v' q x : vm_ready v -> outer_but T v v' -> (forall x, x ∈ T -> kdata v x) ->
  tpath 3 heap_slot q -> walk (vm_mem v) (vm_pml4 v) q = Some x -> frame_same (vm_mem v) (vm_mem v') x.
Proof.
  intros Hr Hs HT Hq Hw. destruct (ktable_not_free v q x Hr Hq Hw). apply Hs; [done|done|].
  intros Hx. destruct (HT x Hx) as (_ & _ & Hn). by apply (Hn q).
Qed.

(** The kernel's walks in such a memory. *)
Lemma outer_walk_but T v v' path : vm_ready v -> outer_but T v v' -> (forall x, x ∈ T -> kdata v x) -> tpath 3 heap_slot path ->
  walk (vm_mem v') (vm_pml4 v) path = walk (vm_mem v) (vm_pml4 v) path.
Proof. intros Hr Hs HT. apply same_walk. intros q x. by eapply outer_table. Qed.

Lemma outer_leaf_but T v v' a : vm_ready v -> outer_but T v v' -> (forall x, x ∈ T -> kdata v x) -> heap_slot (PML4_INDEX a) ->
  leaf (vm_mem v') (vm_pml4 v) a = leaf (vm_mem v) (vm_pml4 v) a.
Proof. intros Hr Hs HT. apply same_leaf. intros q x. by eapply outer_table. Qed.

Lemma no_tables (v : vm) x : x ∈ ([] : list Z) -> kdata v x.
Proof. by intros ?%elem_of_nil. Qed.

Lemma outer_walk v v' path : vm_ready v -> outer_same v v' -> tpath 3 heap_slot path ->
  walk (vm_mem v') (vm_pml4 v) path = walk (vm_mem v) (vm_pml4 v) path.
Proof. intros Hr Hs. apply (outer_walk_but []); [done|by apply outer_nil|apply no_tables]. Qed.

Lemma outer_leaf v v' a : vm_ready v -> outer_same v v' -> heap_slot (PML4_INDEX a) ->
  leaf (vm_mem v') (vm_pml4 v) a = leaf (vm_mem v) (vm_pml4 v) a.
Proof. intros Hr Hs. apply (outer_leaf_but []); [done|by apply outer_nil|apply no_tables]. Qed.

Lemma pool_change_but T v v' : vm_ready v -> fa_ok (vm_pmm v') -> vmm_lock v' = 0 -> vm_pml4 v' = vm_pml4 v -> outer_but T v v' ->
  (forall x, x ∈ T -> kdata v x) -> NoDup (free_frames v') -> (forall x, x ∈ free_frames v' -> x ∈ free_frames v) -> keeps_but T v v'.
Proof.
  intros Hr Hok Hl Hroot Hs HT Hnd Hfr. pose proof (ready_pool v Hr) as (_ & Hndv & Hff).
  assert (Hw : forall path, tpath 3 heap_slot path -> walk (vm_mem v') (vm_pml4 v) path = walk (vm_mem v) (vm_pml4 v) path)
    by (intros; by apply (outer_walk_but T)).
  pose proof Hr as [[Hokv [W1 W2 W3 W4 W5]] Hlk]. split; [|done|done| |].
  - split; [|done]. rewrite Hroot. split; [done|]. split; [done| | | |done].
    + intros path t Hp. rewrite Hw by done. intros Hwk. destruct (W2 path t Hp Hwk) as [? Hn]. split; [done|].
      intros Hx. by apply Hn, Hfr.
    + intros p1 p2 t Hp1 Hp2. rewrite !Hw by done. by apply W3.
    + apply Forall_forall. intros x Hx. by apply Hff, Hfr.
  - apply submseteq_length, NoDup_submseteq; done.
  - intros d (Hd & Hn & Hnt). split; [|by apply Hs]. split; [done|]. split; [intros Hx; by apply Hn, Hfr|].
    rewrite Hroot. intros path Hp. rewrite Hw by done. by apply Hnt.
Qed.

Lemma pool_change v v' : vm_ready v -> fa_ok (vm_pmm v') -> vmm_lock v' = 0 -> vm_pml4 v' = vm_pml4 v -> outer_same v v' ->
  NoDup (free_frames v') -> (forall x, x ∈ free_frames v' -> x ∈ free_frames v) -> vm_keeps v v'.
Proof. intros. apply keeps_nil, pool_change_but; try done; [by apply outer_nil|apply no_tables]. Qed.

Lemma only_outer v v' L : vm_ready v -> only hhdm_offset (vm_mem v) (vm_mem v') L -> (forall x, x ∈ L -> x ∈ free_frames v) -> outer_same v v'.
Proof.
  intros Hr Ho HL d Hd Hn b Hb. pose proof (ready_pool v Hr) as (_ & _ & Hff). apply only_byte with (L := L); try done.
  - intros x Hx. by apply Hff, HL.
  - intros Hx. by apply Hn, HL.
Qed.

(** ** The operations the heap uses *)

Lemma alloc_grows v p v' : alloc_frame v = Ret p v' -> vm_grows v v'.
Proof.
  intros E Hr. pose proof (ready_pool v Hr) as Hpool. destruct (free_frames v) as [|q free] eqn:Hq.
  - rewrite (alloc_none _ v Hpool Hq) in E. injection E as <- <-. by split.
  - destruct (alloc_some _ v q free Hpool Hq) as (v1 & E1 & (Hok & Hnd & _) & Hf & Hm & Hroot & Hl & _). rewrite E1 in E. injection E as <- <-.
    split; [apply pool_change; try done|].
    + rewrite Hl. apply Hr.
    + intros d _ _ b _. by rewrite Hm.
    + intros x. rewrite Hf, Hq. by right.
    + intros d _ b _. by rewrite Hm.
Qed.

Lemma map_grows v a p flags v' : frame hhdm_offset p -> p <> 0 -> HEAP_START_VIRT <= a < HEAP_LIMIT ->
  vmm_map hhdm_offset a p flags v = Ret tt v' -> vm_grows v v'.
Proof.
  intros Hp H0 Ha E [Hwf Hl]. pose proof (frame_nonneg _ _ Hp).
  destruct (vmm_map_effect hhdm_offset hhdm_nonneg heap_slot v a p flags) as (v1 & E1 & X); [done|done|by apply heap_region_slot|lia|].
  rewrite E1 in E. injection E as <-. destruct (me_used _ _ _ _ _ _ _ X) as (used & Hu & _). split; [|intros d Hd b; exact (me_rest _ _ _ _ _ _ _ X d b Hd)]. split.
  - split; [rewrite (me_root _ _ _ _ _ _ _ X)|]; apply X.
  - apply X.
  - intros x Hx. unfold free_frames in *. rewrite Hu. apply elem_of_app. by right.
  - unfold free_frames. rewrite Hu, length_app. lia.
  - intros d Hd. unfold kdata in *. rewrite (me_root _ _ _ _ _ _ _ X). split; [by apply X|]. intros b Hb. by apply X.
Qed.

(** ** Address spaces *)

Record pspace (v : vm) (root : Z) : Prop := {
  ps_wf : vm_wf hhdm_offset user_slot root v;
  ps_table : forall path x, tpath 3 user_slot path -> walk (vm_mem v) root path = Some x -> kdata v x;
  ps_page : forall u, user_half u -> present (leaf (vm_mem v) root u) = true -> kdata v (entry_get_addr (leaf (vm_mem v) root u))
}.

Lemma user_half_slot u : user_half u -> user_slot (PML4_INDEX u).
Proof. unfold user_half, user_slot. pose proof (index_range u). lia. Qed.

Lemma tpath_nil I : tpath 3 I [].
Proof. split; [simpl; lia|by split]. Qed.

(** The frames of an address space. *)
Definition owns (v : vm) (root x : Z) : Prop :=
  (exists path, tpath 3 user_slot path /\ walk (vm_mem v) root path = Some x) \/
  (exists u, user_half u /\ present (leaf (vm_mem v) root u) = true /\ entry_get_addr (leaf (vm_mem v) root u) = x).

Lemma owns_kdata v root x : pspace v root -> owns v root x -> kdata v x.
Proof. intros Hp [(path & Ht & Hw)|(u & Hu & Hpr & <-)]; [by apply (ps_table _ _ Hp path)|by apply (ps_page _ _ Hp)]. Qed.

(** The user pages and the PML4 as they were. *)
Definition space_kept (v v' : vm) (root : Z) : Prop :=
  parent_kept hhdm_offset v v' root /\ (forall i, 0 <= i < 512 -> rd64 (vm_mem v') (slot root i) = rd64 (vm_mem v) (slot root i)).

Lemma pspace_keeps_but T v v' root : keeps_but T v v' -> pspace v root -> (forall x, owns v root x -> x ∉ T) ->
  pspace v' root /\ space_kept v v' root /\ (forall x, owns v' root x -> owns v root x).
Proof.
  intros [K1 K2 K3 K4 K5] [[Hok [W1 W2 W3 W4 W5]] Ht Hp] HT.
  assert (Htf : forall path x, tpath 3 user_slot path -> walk (vm_mem v) root path = Some x -> kdata v' x /\ frame_same (vm_mem v) (vm_mem v') x).
  { intros path x Hpath Hw. destruct (K5 x (Ht path x Hpath Hw)) as [? Hs]. split; [done|]. apply Hs, HT. left. by exists path. }
  assert (Hs : tables_same hhdm_offset user_slot (vm_mem v) (vm_mem v') root).
  { intros path x Hpath Hw. by apply (Htf path). }
  assert (Hw : forall path, tpath 3 user_slot path -> walk (vm_mem v') root path = walk (vm_mem v) root path)
    by (intros; by apply (same_walk _ user_slot)).
  assert (Hl : forall u, user_half u -> leaf (vm_mem v') root u = leaf (vm_mem v) root u)
    by (intros u Hu; apply (same_leaf _ user_slot); [done|by apply user_half_slot]).
  split; [split|split; [split|]].
  - pose proof K1 as [[Hok' [_ _ _ F1 F2]] _]. split; [done|]. split; [done| | |done|done].
    + intros path t Hpath. rewrite Hw by done. intros Hwk. destruct (Htf path t Hpath Hwk) as [(Hf & Hn & _) _]. done.
    + intros p1 p2 t Hp1 Hp2. rewrite !Hw by done. by apply W3.
  - intros path x Hpath. rewrite Hw by done. intros Hwk. by apply (Htf path).
  - intros u Hu. rewrite Hl by done. intros Hpr. by apply K5, Hp.
  - intros u Hu. split; [by apply Hl|]. intros Hpr. apply (K5 _ (Hp u Hu Hpr)), HT. right. by exists u.
  - intros i Hi. apply same_slot; [|done]. by apply (Htf []); [apply tpath_nil|].
  - intros x [(path & Hpath & Hwk)|(u & Hu & Hpr & <-)]; [left; exists path|right; exists u].
    + by rewrite <- Hw.
    + by rewrite <- (Hl u Hu).
Qed.

Lemma pspace_keeps v v' root : vm_keeps v v' -> pspace v root ->
  pspace v' root /\ space_kept v v' root /\ (forall x, owns v' root x -> owns v root x).
Proof. intros K Hp. apply (pspace_keeps_but []); [by apply keeps_nil|done|]. intros x _. apply not_elem_of_nil. Qed.

(** The part of an address space below the PML4 slots [I]. *)
Definition kspace (I : Z -> Prop) (v : vm) (root : Z) : Prop :=
  (forall path x, tpath 3 I path -> walk (vm_mem v) root path = Some x -> kdata v x) /\
  (forall u, I (PML4_INDEX u) -> present (leaf (vm_mem v) root u) = true -> kdata v (entry_get_addr (leaf (vm_mem v) root u))).

Lemma kspace_root I v root : kspace I v root -> kdata v root.
Proof. intros [Ht _]. apply (Ht [] root); [split; [simpl; lia|by split]|done]. Qed.

(** Its pages are kept with everything else. *)
Lemma kspace_keeps I v v' root u : vm_keeps v v' -> kspace I v root -> I (PML4_INDEX u) ->
  leaf (vm_mem v') root u = leaf (vm_mem v) root u /\
  (present (leaf (vm_mem v) root u) = true -> frame_same (vm_mem v) (vm_mem v') (entry_get_addr (leaf (vm_mem v) root u))).
Proof.
  intros K [Ht Hp] Hu. split.
  - apply (same_leaf _ I); [|done]. intros path x Hpath Hw. by apply K, (Ht path).
  - intros Hpr. by apply K, Hp.
Qed.

(** ** Forking *)

(** Frames of the pool that are no longer free belong to nobody else. *)
Lemma taken_kdata v v' x : vm_ready v -> vm_keeps v v' ->
  outer_same v v' -> x ∈ free_frames v -> x ∉ free_frames v' -> kdata v' x.
Proof.
  intros Hr K Hs Hx Hn. pose proof (ready_pool v Hr) as (_ & _ & Hff). split; [by apply Hff|]. split; [done|].
  intros path Hp. rewrite (vk_root _ _ K), outer_walk by done. intros Hwk. by destruct (ktable_not_free v path x Hr Hp Hwk).
Qed.

Lemma child_space A v v2 child used : vm_ready v -> vm_keeps v v2 ->
  outer_same v v2 -> free_frames v = child :: used ++ free_frames v2 -> child_tree hhdm_offset A (vm_mem v2) child used ->
  kspace (fun j => user_slot j /\ A j) v2 child /\
  ((forall j, user_slot j -> A j) -> pspace v2 child /\ (forall x, owns v2 child x -> x ∈ free_frames v)).
Proof.
  intros Hr K Hos Hf [Hin Hinj]. pose proof (ready_pool v Hr) as (_ & Hnd & Hff). rewrite Hf in Hnd.
  apply NoDup_cons in Hnd as [Hc Hnd]. apply NoDup_app in Hnd as (_ & Hd & _).
  assert (Hcu : forall x, x ∈ child :: used -> kdata v2 x).
  { intros x Hx. apply (taken_kdata v v2 x Hr K Hos); [rewrite Hf; set_solver|]. apply elem_of_cons in Hx as [->|Hx]; [set_solver|by apply Hd]. }
  assert (Hpath : forall j path, tpath 3 user_slot (j :: path) -> 0 <= j < 256 /\ path_ok 3 path).
  { intros j path (Hlen & Hr' & Hj). apply Forall_cons in Hr' as [_ Hr']. split; [exact Hj|]. split; [simpl in Hlen; lia|done]. }
  split.
  { split.
    - intros [|j path] x (Hlen & Hp & Hj) Hwk; apply Hcu; [injection Hwk as <-; left|right]. destruct Hj as [Hj HA].
      apply Forall_cons in Hp as [_ Hp]. apply (Hin j path); [exact Hj|exact HA| |exact Hwk]. split; [simpl in Hlen; lia|done].
    - intros u [Hu HA] Hpr. apply Hcu. right.
      apply (Hin (PML4_INDEX u) [PDPT_INDEX u; PD_INDEX u; PT_INDEX u]); [exact Hu|exact HA|apply full_path|by apply leaf_walk]. }
  intros HA.
  assert (Htab : forall path x, tpath 3 user_slot path -> walk (vm_mem v2) child path = Some x -> x ∈ child :: used).
  { intros [|j path] x Hp Hwk; [injection Hwk as <-; left|right]. destruct (Hpath j path Hp). apply (Hin j path); auto. }
  assert (Hpg : forall u, user_half u -> present (leaf (vm_mem v2) child u) = true -> entry_get_addr (leaf (vm_mem v2) child u) ∈ child :: used).
  { intros u Hu Hpr. right. apply (Hin (PML4_INDEX u) [PDPT_INDEX u; PD_INDEX u; PT_INDEX u]); [by apply user_half_slot|by apply HA, user_half_slot|apply full_path|by apply leaf_walk]. }
  split; cycle 1.
  { intros x Hx. assert (Hxc : x ∈ child :: used) by (destruct Hx as [(path & Hp & Hwk)|(u & Hu & Hpr & <-)]; [by apply (Htab path)|by apply Hpg]).
    rewrite Hf. set_solver. }
  pose proof (vk_ready _ _ K) as [[Hok [_ _ _ F1 F2]] _]. split.
  - split; [done|]. split; [apply (Hcu child); left| | |done|done].
    + intros path x Hp Hwk. by destruct (Hcu x (Htab path x Hp Hwk)) as (? & ? & _).
    + intros [|j1 p1] [|j2 p2] x Hp1 Hp2 W1 W2; [done|injection W1 as <-|injection W2 as <-|].
      * destruct (Hpath j2 p2 Hp2). exfalso. apply Hc, elem_of_app. left. apply (Hin j2 p2); auto.
      * destruct (Hpath j1 p1 Hp1). exfalso. apply Hc, elem_of_app. left. apply (Hin j1 p1); auto.
      * destruct (Hpath j1 p1 Hp1), (Hpath j2 p2 Hp2). apply (Hinj j1 p1 j2 p2 x); auto.
  - intros path x Hp Hwk. by apply Hcu, (Htab path).
  - intros u Hu Hpr. by apply Hcu, Hpg.
Qed.

(** The frame [child] maps nothing in the user half that [parent] does not. *)
Definition clear_frame (m : mem) (parent child : Z) : Prop :=
  forall j, 0 <= j < 256 -> clear_slot hhdm_offset m parent child j.

(** The slots in which the frame still holds the words of its last use. *)
Definition stale_kept (m m' : mem) (parent child : Z) : Prop :=
  forall j, 0 <= j < 256 -> present (rd64 m (slot parent j)) = false -> rd64 m' (slot child j) = rd64 m (slot child j).

Lemma fork_space v parent child free :
  vm_ready v -> pspace v parent -> free_frames v = child :: free ->
  exists v1 r v2, alloc_frame v = Ret child v1 /\ child <> 0 /\ fork_address_space hhdm_offset parent child v1 = Ret r v2 /\
    vm_keeps v v2 /\ rest_same v v2 /\ child ∉ free_frames v2 /\ kdata v2 child /\
    (forall a, heap_slot (PML4_INDEX a) -> leaf (vm_mem v2) (vm_pml4 v2) a = leaf (vm_mem v) (vm_pml4 v) a) /\
    ((r = 0 /\ stale_kept (vm_mem v) (vm_mem v2) parent child /\
      (let A := clear_slot hhdm_offset (vm_mem v) parent child in
       forked_in hhdm_offset A v v2 parent child /\ kspace (fun j => user_slot j /\ A j) v2 child) /\
      (clear_frame (vm_mem v) parent child -> pspace v2 child /\ (forall x, owns v2 child x -> x ∈ free_frames v))) \/
     (r = -1 /\ free_frames v2 = [])).
Proof.
  intros Hr Hps Hf. pose proof (ready_pool v Hr) as Hpool.
  destruct (alloc_some _ v child free Hpool Hf) as (v1 & E1 & Hp1 & Hf1 & Hm1 & Hroot1 & Hl1 & Hc & Hc0 & Hcn).
  assert (Hne : forall x, kdata v x -> apart hhdm_offset v1 child x).
  { intros x (Hx & Hn & _). fold (free_frames v) in Hn. rewrite Hf in Hn. apply not_elem_of_cons in Hn as [? ?]. split; [done|]. by rewrite Hf1. }
  assert (Hwf1 : vm_wf hhdm_offset user_slot parent v1).
  { destruct Hps as [[_ [W1 W2 W3 W4 W5]] Ht _]. destruct Hp1 as (Hok1 & Hnd1 & Hff1). split; [done|]. rewrite Hm1. split; [done| |done| |done].
    - intros path t Hp Hw. destruct (Hne t (Ht path t Hp Hw)) as (? & _ & ?). done.
    - apply Forall_forall. exact Hff1. }
  assert (Hpre : fork_src hhdm_offset v1 parent child).
  { apply fork_src_wf; [done| |].
    - split; [done|]. split; [by fold (free_frames v1); rewrite Hf1|]. rewrite Hm1. intros path Hp Hw.
      by destruct (Hne child (ps_table _ _ Hps path child Hp Hw)) as (_ & [] & _).
    - rewrite Hm1. intros u Hu Hpr. by apply Hne, (ps_page _ _ Hps). }
  destruct (fork_gen hhdm_offset hhdm_nonneg v1 parent child Hpre) as (r & v2 & used & E2 & [Rp Ru Rm Rr Rl] & Hres).
  exists v1, r, v2. split; [exact E1|]. split; [exact Hc0|]. split; [exact E2|]. clear E1 E2. rewrite Hm1 in Rm, Hres. rewrite Hf1 in Ru.
  pose proof Rp as (Hok2 & Hnd2 & _). pose proof Hpool as (_ & Hndv & Hff).
  assert (Hsplit : free_frames v = child :: used ++ free_frames v2) by (by rewrite Hf, Ru).
  assert (HL : forall x, x ∈ child :: used -> x ∈ free_frames v) by (intros x Hx; rewrite Hsplit; set_solver).
  assert (Hsub : forall x, x ∈ free_frames v2 -> x ∈ free_frames v) by (intros x Hx; rewrite Hsplit; set_solver).
  assert (Hos : outer_same v v2) by (by apply (only_outer v v2 (child :: used))).
  assert (K : vm_keeps v v2) by (apply pool_change; try done; [rewrite Rl, Hl1; apply Hr|by rewrite Rr]).
  rewrite Hsplit in Hndv. apply NoDup_cons in Hndv as [Hcn2 Hnd]. apply NoDup_app in Hnd as (_ & Hdis & _).
  assert (Hc2 : child ∉ free_frames v2) by set_solver.
  split; [done|]. split.
  { intros d Hd b Hb. apply only_byte with (L := child :: used); try done; [intros y Hy; by apply Hff, HL|by apply Hff, Hsub|].
    intros [->|Hx]%elem_of_cons; [done|]. by apply (Hdis d Hx). }
  split; [done|]. split; [apply (taken_kdata v v2 child Hr K Hos); [rewrite Hf; left|done]|].
  split; [intros a Ha; rewrite (vk_root _ _ K); by apply outer_leaf|].
  destruct Hres as [(-> & Hfk & Htree & Hst)|Hres]; [left|by right]. split; [done|]. split; [exact Hst|].
  destruct (child_space _ v v2 child used Hr K Hos Hsplit Htree) as [Hks Hcs]. split; [split; [|exact Hks]|intros Hcl; by apply Hcs].
  destruct Hfk as (F1 & F2 & F3 & F4). rewrite Hm1 in F1, F4. split; [done|]. split; [|done].
  intros u Hu Hpr. destruct (F2 u Hu Hpr) as [Hin Hn]. split; [|done]. rewrite Hf. right. by rewrite <- Hf1.
Qed.

(** The copy stays a copy while other frames are handed out. *)
Lemma forked_after A v v2 v4 parent child : forked_in hhdm_offset A v v2 parent child -> vm_keeps v2 v4 ->
  kspace (fun j => user_slot j /\ A j) v2 child -> forked_in hhdm_offset A v v4 parent child.
Proof.
  intros (F1 & F2 & F3 & F4) K Hks.
  assert (Hk : forall u, user_half u /\ A (PML4_INDEX u) -> _) by (intros u [Hu HA]; exact (kspace_keeps _ v2 v4 child u K Hks (conj (user_half_slot u Hu) HA))).
  assert (Hl : forall u, user_half u /\ A (PML4_INDEX u) -> leaf (vm_mem v4) child u = leaf (vm_mem v2) child u) by (intros u Hu; by apply Hk).
  split; [|split; [|split]].
  - intros u Hu. rewrite (Hl u Hu). destruct (F1 u Hu) as [B0 B]. split; [done|]. intros Hp. destruct (B Hp) as [B1 B2]. split; [done|].
    intros b Hb. rewrite <- B2 by done. apply Hk; [done| |done]. exact (eq_trans B0 Hp).
  - intros u Hu. rewrite (Hl u Hu). intros Hp. destruct (F2 u Hu Hp) as [? Hn]. split; [done|]. intros Hx. by apply Hn, K.
  - intros u w Hu Hw. rewrite (Hl u Hu), (Hl w Hw). by apply F3.
  - intros i Hi. rewrite <- F4 by done. apply same_slot; [|lia]. by apply K, (kspace_root _ _ _ Hks).
Qed.

Lemma forked_before A v0 v v' parent child : forked_in hhdm_offset A v v' parent child -> vm_keeps v0 v -> pspace v0 parent ->
  forked_in hhdm_offset A v0 v' parent child.
Proof.
  intros (F1 & F2 & F3 & F4) K Hps. destruct (pspace_keeps v0 v parent K Hps) as (_ & [Hk Hs] & _).
  split; [|split; [|split]].
  - intros u Hu. destruct (Hk u (proj1 Hu)) as [Hl Hb]. specialize (F1 u Hu). rewrite Hl in F1. destruct F1 as [B0 B]. split; [done|].
    intros Hp. destruct (B Hp) as [B1 B2]. split; [done|]. intros b Hbb. rewrite B2 by done. by apply Hb.
  - intros u Hu Hp. destruct (F2 u Hu Hp) as [Hx Hn]. split; [by apply K|done].
  - done.
  - intros i Hi. rewrite F4 by done. apply Hs. lia.
Qed.

(** The words left in a frame of the pool are those that were there before. *)
Lemma clear_slot_before v0 v parent child j : vm_keeps v0 v -> rest_same v0 v -> pspace v0 parent -> child ∈ free_frames v -> 0 <= j < 256 ->
  rd64 (vm_mem v) (slot parent j) = rd64 (vm_mem v0) (slot parent j) /\ rd64 (vm_mem v) (slot child j) = rd64 (vm_mem v0) (slot child j).
Proof.
  intros K R Hps Hc Hj. destruct (pspace_keeps v0 v parent K Hps) as (_ & [_ Hs] & _). split; [apply Hs; lia|].
  apply same_slot; [by apply R|lia].
Qed.

(** Giving a frame back that came from the pool. *)
Lemma free_keeps v v' p : vm_ready v -> vm_keeps v v' -> p ∈ free_frames v -> p ∉ free_frames v' -> kdata v' p -> 
  exists v2, zoom vm_pmm set_vm_pmm (fa_free p) v' = Ret tt v2 /\ vm_keeps v v2 /\ vm_mem v2 = vm_mem v' /\ vm_pml4 v2 = vm_pml4 v'.
Proof.
  intros Hr [[[Hok [W1 W2 W3 W4 W5]] Hl] K2 K3 K4 K5] Hp Hn (Hpf & _ & Hpt). unfold free_frames in *.
  destruct (fa_free_spec (vm_pmm v') p Hok) as (pm & E & Hok' & Hpg). exists (set_vm_pmm pm v'). unfold zoom. rewrite E.
  split; [done|]. split; [|done]. pose proof (ready_pool v Hr) as (_ & Hnd & Hff). unfold free_frames in *.
  assert (Hsub : forall x, x ∈ fa_pages pm -> x = p \/ x ∈ fa_pages (vm_pmm v')).
  { intros x. rewrite Hpg. destruct (fa_room (vm_pmm v')); [|by right]. intros [->|?]%elem_of_cons; [by left|by right]. }
  assert (Hnd' : NoDup (fa_pages pm)) by (rewrite Hpg; destruct (fa_room (vm_pmm v')); [by constructor|done]).
  assert (Hin : forall x, x ∈ fa_pages pm -> x ∈ fa_pages (vm_pmm v)) by (intros x [->|?]%Hsub; auto).
  split; cbn [vm_pmm vm_mem vm_pml4 vmm_lock set_vm_pmm].
  - split; [|done]. split; [done|]. cbn [vm_pmm vm_mem vm_pml4 set_vm_pmm]. split; [done| |done| |done].
    + intros path t Hpath Hw. destruct (W2 path t Hpath Hw) as [? Ht]. split; [done|]. intros [->|?]%Hsub; [by apply (Hpt path)|done].
    + apply Forall_forall. intros x Hx. by apply Hff, Hin.
  - done.
  - exact Hin.
  - by apply submseteq_length, NoDup_submseteq.
  - intros d Hd. destruct (K5 d Hd) as [(D1 & D2 & D3) S]. split; [|exact S]. split; [done|]. split; [|exact D3].
    cbn [vm_pmm set_vm_pmm]. intros [->|?]%Hsub; [|done]. destruct Hd as (_ & Hd & _). done.
Qed.
End Spaces.
