(* ===== verification/StackMap.v ===== *)
(** * Mapping a page through tables one does not own

    [vmm_map_user] at an address whose tables belong to nobody in the model:
    the user stack lies at 2^47, in the PML4 slot (256) in which a boot loader
    keeps its direct map, and the loader of programs maps it through the
    tables it finds there.  About these tables only the descent is known: the
    frames it passes ([trail]) are different and not in the pool.  Then the
    call ends, it takes at most three frames, and memory changes in the frames
    of the trail and the ones taken only ([map_trail]). *)

From stdpp Require Import base gmap list fin_maps.
From Stdlib Require Import ZArith Lia.
From S2P Require Import Prelude Mem Pmm Vmm PageTables Fork ForkFacts.

#[local] Opaque rd64 wr64 zero_qwords.

Section StackMap.
Context {P : Type} `{FrameAllocator P}.
Context (hhdm_offset : Z) (hhdm_nonneg : 0 <= hhdm_offset).
#[local] Abbreviation vm := (@vm_t P).
#[local] Abbreviation slot := (slot hhdm_offset).
#[local] Abbreviation walk := (walk hhdm_offset).
#[local] Abbreviation leaf := (leaf hhdm_offset).
#[local] Abbreviation ptv := (phys_to_virt hhdm_offset).
#[local] Abbreviation frame := (frame hhdm_offset).
#[local] Abbreviation frame_same := (frame_same hhdm_offset).
#[local] Abbreviation only := (only hhdm_offset).
#[local] Abbreviation pool := (pool hhdm_offset).
#[local] Abbreviation frames := (frames hhdm_offset).
#[local] Abbreviation add_table := (add_table hhdm_offset).

(** ** The tables a descent passes *)

Fixpoint trail (m : mem) (t : Z) (path : list Z) : list Z :=
  t :: match path with
       | [] => []
       | i :: rest => let e := rd64 m (slot t i) in if present e then trail m (entry_get_addr e) rest else []
       end.

Definition indices (path : list Z) : Prop := Forall (fun i => 0 <= i < 512) path.

Lemma trail_head m t path : exists l, trail m t path = t :: l.
Proof. destruct path; eexists; reflexivity. Qed.

Lemma trail_root m t path : t ∈ trail m t path.
Proof. destruct (trail_head m t path) as [l ->]. left. Qed.

Lemma trail_cons m t i rest :
  trail m t (i :: rest) = t :: if present (rd64 m (slot t i)) then trail m (entry_get_addr (rd64 m (slot t i))) rest else [].
Proof. done. Qed.

(** The end of a walk is on its trail. *)
Lemma walk_in_trail m path : forall t x, walk m t path = Some x -> x ∈ trail m t path.
Proof.
  induction path as [|i path IH]; intros t x Hw; [injection Hw as <-; apply trail_root|].
  cbn [Vmm.walk] in Hw. rewrite trail_cons. destruct (present (rd64 m (slot t i))); [|done]. right. by apply IH.
Qed.

Lemma walk_below m i rest t x : walk m t (i :: rest) = Some x -> x ∈ tail (trail m t (i :: rest)).
Proof.
  rewrite trail_cons. change (walk m t (i :: rest)) with (let e := rd64 m (slot t i) in if present e then walk m (entry_get_addr e) rest else None).
  cbv zeta. destruct (present (rd64 m (slot t i))); [|done]. apply walk_in_trail.
Qed.

(** A descent through frames that are as they were. *)
Lemma trail_same m m' path : forall t, indices path -> (forall x, x ∈ trail m t path -> frame_same m m' x) ->
  trail m' t path = trail m t path /\ walk m' t path = walk m t path.
Proof.
  induction path as [|i path IH]; intros t Hp Hs; [done|]. apply Forall_cons in Hp as [Hi Hp].
  rewrite !trail_cons in *. cbn [Vmm.walk]. rewrite (same_slot _ m m' t i) by (try done; apply Hs; left).
  destruct (present (rd64 m (slot t i))); [|done].
  destruct (IH (entry_get_addr (rd64 m (slot t i))) Hp) as [-> ->]; [|done]. intros x Hx. apply Hs. by right.
Qed.

(** Writing in the table at the end of a descent does not change the descent. *)
Lemma trail_end m path e i : 0 <= i < 512 -> forall t x, indices path -> NoDup (trail m t path) -> frames (trail m t path) ->
  walk m t path = Some x -> walk (wr64 m (slot x i) e) t path = Some x.
Proof.
  intros Hi. induction path as [|j path IH]; intros t x Hp Hnd Hf Hw; [done|]. apply Forall_cons in Hp as [Hj Hp].
  cbn [Vmm.walk] in *. rewrite trail_cons in Hnd, Hf. destruct (present (rd64 m (slot t j))) eqn:Ep; [|done].
  apply NoDup_cons in Hnd as [Ht Hnd]. pose proof (walk_in_trail m path _ x Hw) as Hx.
  assert (Hne : t <> x) by (by intros ->).
  rewrite rd64_wr64_ne by (apply slot_apart; try done; [apply Hf; left|apply Hf; by right|by left]).
  rewrite Ep. apply IH; try done. intros y Hy. apply Hf. by right.
Qed.

(** ** The descent that creates what is missing *)

Fixpoint descend (t : Z) (path : list Z) : M vm (option Z) :=
  match path with
  | [] => mret (Some (ptv t))
  | i :: rest =>
      ensure_page_table hhdm_offset (slot t i) ;;;
      e <- load64 (slot t i) ;;
      if negb (present e) then mret None else descend (entry_get_addr e) rest
  end.

Lemma ensure_descend root virt (s : vm) : ensure_walk hhdm_offset (ptv root) virt s = descend root (upath virt) s.
Proof. reflexivity. Qed.

Lemma ensure_present t i (s : vm) : present (rd64 (vm_mem s) (slot t i)) = true -> ensure_page_table hhdm_offset (slot t i) s = Ret tt s.
Proof. intros E. unfold ensure_page_table, load64. mstep. by rewrite E. Qed.

Lemma ensure_none t i (s : vm) : pool s -> free_frames s = [] -> ensure_page_table hhdm_offset (slot t i) s = Ret tt s.
Proof.
  intros Hp Hn. unfold ensure_page_table, load64. unfold mbind at 1. cbn [mget bindr].
  destruct (negb (present (rd64 (vm_mem s) (slot t i)))); [|done]. by rewrite (mbind_Ret _ _ _ _ _ (alloc_none _ s Hp Hn)).
Qed.

Lemma ensure_new t i (s : vm) q free : pool s -> free_frames s = q :: free -> present (rd64 (vm_mem s) (slot t i)) = false ->
  exists s1, ensure_page_table hhdm_offset (slot t i) s = Ret tt s1 /\ pool s1 /\ free_frames s1 = free /\
    vm_mem s1 = add_table (vm_mem s) t i q /\ vm_pml4 s1 = vm_pml4 s /\ vmm_lock s1 = vmm_lock s /\ frame q /\ q ∉ free.
Proof.
  intros Hp Hf Ha. destruct (alloc_some _ s q free Hp Hf) as (s' & E & Hp' & Hf' & Hm & Hr & Hl & Hq & Hq0 & Hn).
  exists (set_vm_mem (add_table (vm_mem s) t i q) s'). split; [|exact (conj Hp' (conj Hf' (conj eq_refl (conj Hr (conj Hl (conj Hq Hn))))))].
  unfold ensure_page_table, load64. unfold mbind at 1. cbn [mget bindr]. rewrite Ha. cbn [negb].
  rewrite (mbind_Ret _ _ _ _ _ E), (proj2 (Z.eqb_neq _ _) Hq0). unfold store64. mstep. cbn [vm_mem set_vm_mem]. by rewrite Hm.
Qed.

Lemma add_table_only m t i q : frame t -> frame q -> 0 <= i < 512 -> only m (add_table m t i q) [t; q].
Proof.
  intros Ht Hq Hi a Ha. apply add_table_far; [done|..].
  - specialize (Ha t ltac:(left)). unfold in_frame in Ha. lia.
  - specialize (Ha q ltac:(right; left)). unfold in_frame in Ha. lia.
Qed.

(** The trail of an empty table is the table. *)
Lemma trail_empty m q path : indices path -> (forall i, 0 <= i < 512 -> present (rd64 m (slot q i)) = false) -> trail m q path = [q].
Proof. intros Hp Hz. destruct path as [|i path]; [done|]. apply Forall_cons in Hp as [Hi _]. rewrite trail_cons. by rewrite Hz. Qed.

(** The tables of a descent: frames outside the pool, each one once. *)
Definition good (s : vm) (T : list Z) : Prop := NoDup T /\ forall x, x ∈ T -> frame x /\ x ∉ free_frames s.

(** What a descent from [t] leaves: [used] are the frames it took. *)
Record descended (s s' : vm) (t : Z) (path : list Z) (used : list Z) : Prop := {
  ds_pool : pool s';
  ds_used : free_frames s = used ++ free_frames s' /\ (length used <= length path)%nat;
  ds_root : vm_pml4 s' = vm_pml4 s;
  ds_lock : vmm_lock s' = vmm_lock s;
  ds_only : only (vm_mem s) (vm_mem s') (trail (vm_mem s) t path ++ used);
  ds_trail : NoDup (trail (vm_mem s') t path) /\ forall x, x ∈ trail (vm_mem s') t path -> x ∈ trail (vm_mem s) t path ++ used;
  ds_top : match path with
           | [] => True
           | i :: _ => (forall j, 0 <= j < 512 -> j <> i -> rd64 (vm_mem s') (slot t j) = rd64 (vm_mem s) (slot t j)) /\
               (present (rd64 (vm_mem s) (slot t i)) = true -> only (vm_mem s) (vm_mem s') (tail (trail (vm_mem s) t path) ++ used))
           end
}.

Lemma used_fresh (s s' : vm) used x : pool s -> free_frames s = used ++ free_frames s' -> x ∈ used -> frame x /\ x ∈ free_frames s /\ x ∉ free_frames s'.
Proof.
  intros (_ & Hnd & Hf) E Hx. assert (Hin : x ∈ free_frames s) by (rewrite E; apply elem_of_app; by left).
  split; [by apply Hf|]. split; [done|]. rewrite E in Hnd. apply NoDup_app in Hnd as (_ & Hd & _). by apply Hd.
Qed.

(** Slots of a table that neither the trail below nor the pool holds. *)
Lemma descend_above (s s' : vm) t' path used t j : descended s s' t' path used -> pool s -> good s (trail (vm_mem s) t' path) ->
  frame t -> t ∉ trail (vm_mem s) t' path -> t ∉ free_frames s -> 0 <= j < 512 ->
  rd64 (vm_mem s') (slot t j) = rd64 (vm_mem s) (slot t j).
Proof.
  intros [_ [Hu _] _ _ Ho _ _] Hp [_ Hg] Ht Hn Hfr Hj. apply (only_slot hhdm_offset hhdm_nonneg _ _ _ _ _ Ho); try done.
  - intros x [Hx|Hx]%elem_of_app; [by apply Hg|]. by apply (used_fresh s s' used x).
  - intros [?|Hx]%elem_of_app; [done|]. by destruct (used_fresh s s' used t Hp Hu Hx) as (_ & ? & _).
Qed.

Lemma descend_spec path : forall (s : vm) t, pool s -> indices path -> good s (trail (vm_mem s) t path) ->
  exists o s' used, descend t path s = Ret o s' /\ descended s s' t path used /\
    match o with
    | Some pt => exists x, walk (vm_mem s') t path = Some x /\ pt = ptv x
    | None => walk (vm_mem s') t path = None /\ free_frames s' = []
    end.
Proof.
  induction path as [|i path IH]; intros s t Hp Hix Hg.
  { exists (Some (ptv t)), s, []. split; [done|]. split; [|by exists t].
    split; try done; [split; [by constructor; [intros ?%elem_of_nil|constructor]|set_solver]]. }
  apply Forall_cons in Hix as [Hi Hix]. destruct Hg as [Hnd Hg]. cbn [descend].
  destruct (Hg t (trail_root _ _ _)) as [Htf Htn].
  destruct (present (rd64 (vm_mem s) (slot t i))) eqn:Ep.
  - rewrite (mbind_Ret _ _ _ _ _ (ensure_present t i s Ep)). unfold load64. unfold mbind at 1. cbn [mget bindr]. rewrite Ep. cbn [negb].
    set (t' := entry_get_addr (rd64 (vm_mem s) (slot t i))) in *.
    assert (ET : trail (vm_mem s) t (i :: path) = t :: trail (vm_mem s) t' path) by (rewrite trail_cons, Ep; done).
    rewrite ET in Hnd, Hg. apply NoDup_cons in Hnd as [Htt Hnd].
    assert (Hg' : good s (trail (vm_mem s) t' path)) by (split; [done|]; intros x Hx; apply Hg; by right).
    destruct (IH s t' Hp Hix Hg') as (o & s' & used & E & D & Ho). exists o, s', used. split; [exact E|].
    assert (Hsl : forall j, 0 <= j < 512 -> rd64 (vm_mem s') (slot t j) = rd64 (vm_mem s) (slot t j))
      by (intros j Hj; exact (descend_above s s' t' path used t j D Hp Hg' Htf Htt Htn Hj)).
    assert (Hw : forall rest, walk (vm_mem s') t (i :: rest) = walk (vm_mem s') t' rest)
      by (intros rest; cbn [Vmm.walk]; by rewrite Hsl, Ep by done).
    assert (ET' : trail (vm_mem s') t (i :: path) = t :: trail (vm_mem s') t' path) by (rewrite trail_cons, Hsl, Ep by done; done).
    destruct D as [D1 [D2 D2'] D3 D4 D5 [D6 D6'] D7]. split; [|by destruct o; rewrite Hw].
    assert (Hnu : t ∉ used) by (intros Hx; by destruct (used_fresh s s' used t Hp D2 Hx) as (_ & ? & _)).
    split; try done.
    + split; [done|simpl; lia].
    + rewrite ET. eapply only_mono; [exact D5|]. intros x Hx. by right.
    + rewrite ET', ET. split; [constructor; [|done]|].
      * intros Hx. by destruct (proj1 (elem_of_app _ _ _) (D6' t Hx)).
      * intros x [->|Hx]%elem_of_cons; [left|]. right. by apply D6'.
    + split; [intros j Hj _; by apply Hsl|]. intros _. rewrite ET. exact D5.
  - assert (ET : trail (vm_mem s) t (i :: path) = [t]) by (rewrite trail_cons, Ep; done).
    destruct (free_frames s) as [|q free] eqn:Hf.
    + rewrite (mbind_Ret _ _ _ _ _ (ensure_none t i s Hp Hf)). unfold load64. unfold mbind at 1. cbn [mget bindr]. rewrite Ep. cbn [negb].
      exists None, s, []. split; [done|]. split; [|split; [cbn [Vmm.walk]; by rewrite Ep|done]].
      split; try done; [split; [done|simpl; lia]|split; [done|set_solver]].
    + destruct (ensure_new t i s q free Hp Hf Ep) as (s1 & E1 & Hp1 & Hf1 & Hm1 & Hr1 & Hl1 & Hq & Hqn).
      rewrite (mbind_Ret _ _ _ _ _ E1). clear E1. unfold load64. unfold mbind at 1. cbn [mget bindr].
      assert (Hqt : q <> t) by (intros ->; apply Htn; left).
      assert (He : rd64 (vm_mem s1) (slot t i) = make_entry q 3) by (rewrite Hm1; by apply add_table_slot).
      assert (Hpr : present (make_entry q 3) = true) by (rewrite present_make by (by apply (frame_nonneg hhdm_offset)); done).
      assert (Haq : entry_get_addr (make_entry q 3) = q) by (by apply (addr_make hhdm_offset)).
      rewrite He, Hpr, Haq. cbn [negb].
      assert (Tq : trail (vm_mem s1) q path = [q]).
      { apply trail_empty; [done|]. intros j Hj. rewrite Hm1, add_table_fresh by done. done. }
      assert (Hg' : good s1 (trail (vm_mem s1) q path)).
      { rewrite Tq. split; [constructor; [by intros ?%elem_of_nil|constructor]|]. intros x ->%list_elem_of_singleton. split; [done|by rewrite Hf1]. }
      destruct (IH s1 q Hp1 Hix Hg') as (o & s' & used & E & D & Ho). exists o, s', (q :: used). split; [exact E|].
      assert (Htn1 : t ∉ free_frames s1) by (rewrite Hf1; intros Hx; apply Htn; by right).
      assert (Hsl : forall j, 0 <= j < 512 -> rd64 (vm_mem s') (slot t j) = rd64 (vm_mem s1) (slot t j)).
      { intros j Hj. apply (descend_above s1 s' q path used t j D Hp1 Hg' Htf); [|done|done]. rewrite Tq. by intros ?%list_elem_of_singleton. }
      assert (Hw : walk (vm_mem s') t (i :: path) = walk (vm_mem s') q path) by (cbn [Vmm.walk]; by rewrite Hsl, He, Hpr, Haq by done).
      assert (ET' : trail (vm_mem s') t (i :: path) = t :: trail (vm_mem s') q path) by (rewrite trail_cons, Hsl, He, Hpr, Haq by done; done).
      destruct D as [D1 [D2 D2'] D3 D4 D5 [D6 D6'] D7]. rewrite Tq in D5, D6'. split; [|by destruct o; rewrite Hw].
      assert (Hnu : t ∉ used) by (intros Hx; by destruct (used_fresh s1 s' used t Hp1 D2 Hx) as (_ & ? & _)).
      split.
      * done.
      * rewrite Hf, <- Hf1, D2. split; [done|simpl; lia].
      * by rewrite D3.
      * by rewrite D4.
      * rewrite ET. eapply only_mono; [eapply only_trans; [|exact D5]; rewrite Hm1; by apply add_table_only|].
        intros x [[->|Hx%list_elem_of_singleton]%elem_of_cons|Hx]%elem_of_app; [left|subst x; right; left|right; exact Hx].
      * rewrite ET', ET. split; [constructor; [|done]|].
        -- intros Hx. apply D6' in Hx. apply elem_of_app in Hx as [Hx%list_elem_of_singleton|Hx]; [by apply Hqt|by apply Hnu].
        -- intros x [->|Hx]%elem_of_cons; [left|]. right. exact (D6' x Hx).
      * split; [|by rewrite Ep]. intros j Hj Hne. rewrite Hsl, Hm1 by done. apply add_table_other; try done; by right.
Qed.

(** ** The mapping *)

(** [vmm_map_user] along a trail of good tables. *)
Lemma map_trail (s : vm) root virt p flags is_user : pool s -> vmm_lock s = 0 -> 0 < p ->
  let T := trail (vm_mem s) root (upath virt) in good s T ->
  exists s' used, vmm_map_user hhdm_offset root virt p flags is_user s = Ret tt s' /\ pool s' /\
    free_frames s = used ++ free_frames s' /\ (length used <= 3)%nat /\ vm_pml4 s' = vm_pml4 s /\ vmm_lock s' = 0 /\
    only (vm_mem s) (vm_mem s') (T ++ used) /\
    (leaf (vm_mem s') root virt = make_entry p (user_flags flags is_user) \/ free_frames s' = []) /\
    (forall j, 0 <= j < 512 -> j <> PML4_INDEX virt -> rd64 (vm_mem s') (slot root j) = rd64 (vm_mem s) (slot root j)) /\
    (present (rd64 (vm_mem s) (slot root (PML4_INDEX virt))) = true -> only (vm_mem s) (vm_mem s') (tail T ++ used)).
Proof.
  intros Hp Hl Hp0 T Hg. destruct (index_range virt) as (H4 & H3 & H2 & H1). unfold vmm_map_user. rewrite (proj2 (Z.eqb_neq p 0)) by lia.
  unfold mbind at 1, spin_lock. rewrite Hl. cbn [Z.eqb bindr].
  set (s1 := set_vmm_lock 1 s).
  assert (Hix : indices (upath virt)) by (unfold indices, upath; by index_path).
  destruct (descend_spec (upath virt) s1 root) as (o & s2 & used & E & D & Ho); [done|done|exact Hg|].
  unfold mbind at 1. rewrite (ensure_descend root virt s1), E. cbn [bindr]. clear E.
  destruct D as [D1 [D2 D2'] D3 D4 D5 [D6 D6'] [D7 D8]]. change (vm_mem s1) with (vm_mem s) in *. change (free_frames s1) with (free_frames s) in D2.
  fold T in D5, D6', D8.
  assert (HTf : frames (T ++ used)).
  { intros x [Hx|Hx]%elem_of_app; [by apply Hg|]. by apply (used_fresh s s2 used x). }
  destruct o as [pt|].
  - destruct Ho as (x & Hw & ->). unfold store64, spin_unlock. mstep. eexists. exists used. split; [reflexivity|].
    change (ptv x + 8 * PT_INDEX virt) with (slot x (PT_INDEX virt)). cbn [vm_mem set_vmm_lock set_vm_mem vm_pml4 vmm_lock].
    set (e := make_entry p (user_flags flags is_user)).
    assert (Hxt : x ∈ tail (trail (vm_mem s2) root (upath virt))).
    { by apply (walk_below (vm_mem s2) (PML4_INDEX virt) [PDPT_INDEX virt; PD_INDEX virt]). }
    assert (Hx : x ∈ T ++ used) by (apply D6'; destruct (trail_head (vm_mem s2) root (upath virt)) as [l El]; rewrite El in *; by right).
    assert (Hrx : root <> x).
    { intros ->. destruct (trail_head (vm_mem s2) x (upath virt)) as [l El]. rewrite El in D6, Hxt. by apply NoDup_cons in D6 as [? _]. }
    assert (Hrf : frame root) by (apply Hg, trail_root). assert (Hxf : frame x) by (by apply HTf).
    pose proof (only_wr64 hhdm_offset (vm_mem s2) x (PT_INDEX virt) e Hxf H1) as Ow.
    split; [exact D1|]. split; [exact D2|]. split; [exact D2'|]. split; [exact D3|]. split; [done|]. split; [|split; [left|split]].
    + eapply only_mono; [eapply only_trans; [exact D5|exact Ow]|]. intros y [Hy|Hy]%elem_of_app; [done|]. by apply list_elem_of_singleton in Hy as ->.
    + change (leaf (wr64 (vm_mem s2) (slot x (PT_INDEX virt)) e) root virt = e). unfold Vmm.leaf. rewrite (trail_end (vm_mem s2) (upath virt) e (PT_INDEX virt) H1 root x Hix D6) by (try done; intros y Hy; by apply HTf, D6').
      rewrite rd64_wr64_eq. apply u64_small. unfold e. pose proof (make_entry_range p (user_flags flags is_user)). unfold two64. lia.
    + intros j Hj Hne. change (rd64 (wr64 (vm_mem s2) (slot x (PT_INDEX virt)) e) (slot root j) = rd64 (vm_mem s) (slot root j)). rewrite rd64_wr64_ne by (apply slot_apart; try done; by left). by apply D7.
    + intros Hpr. specialize (D8 Hpr). eapply only_mono; [eapply only_trans; [exact D8|exact Ow]|].
      intros y [Hy|Hy]%elem_of_app; [done|]. apply list_elem_of_singleton in Hy as ->.
      destruct (trail_head (vm_mem s) root (upath virt)) as [l El]. fold T in El. rewrite El in Hx |- *. cbn [tail].
      apply elem_of_app in Hx as [[?|?]%elem_of_cons|?]; [by destruct Hrx|apply elem_of_app; by left|apply elem_of_app; by right].
  - destruct Ho as [_ Hn]. unfold spin_unlock. eexists. exists used. split; [reflexivity|]. cbn [vm_mem set_vmm_lock vm_pml4 vmm_lock].
    split; [exact D1|]. split; [exact D2|]. split; [exact D2'|]. split; [exact D3|]. split; [done|]. split; [exact D5|].
    split; [by right|]. split; [exact D7|exact D8].
Qed.

(** *** Walks elsewhere *)

(** An address space whose root keeps the slots [I] and whose other tables are
    as they were. *)
Lemma walk_top I m m' root path : (forall i, 0 <= i < 512 -> I i -> rd64 m' (slot root i) = rd64 m (slot root i)) ->
  (forall path x, tpath 3 I path -> path <> [] -> walk m root path = Some x -> frame_same m m' x) ->
  tpath 3 I path -> walk m' root path = walk m root path.
Proof.
  intros Hs Hf. induction path as [|i path IH] using rev_ind; intros Hp; [done|]. rewrite !walk_snoc.
  pose proof (tpath_app_l _ _ _ _ Hp) as Hp'. rewrite (IH Hp'). pose proof (tpath_snoc_idx _ _ _ _ _ Hp) as Hi.
  destruct (walk m root path) as [t|] eqn:Et; [|done]. destruct path as [|j path].
  - injection Et as <-. rewrite Hs; [done|done|]. destruct Hp as (_ & _ & Hp). exact Hp.
  - rewrite (same_slot _ m m' t i); [done| |done]. by apply (Hf (j :: path)).
Qed.

Lemma leaf_top I m m' root v : (forall i, 0 <= i < 512 -> I i -> rd64 m' (slot root i) = rd64 m (slot root i)) ->
  (forall path x, tpath 3 I path -> path <> [] -> walk m root path = Some x -> frame_same m m' x) ->
  I (PML4_INDEX v) -> leaf m' root v = leaf m root v.
Proof.
  intros Hs Hf Hv. pose proof (upath_tpath I v Hv) as Hp. unfold Vmm.leaf. rewrite (walk_top I m m' root) by done.
  destruct (walk m root (upath v)) as [t|] eqn:Et; [|done]. apply same_slot; [|apply index_range].
  by apply (Hf (upath v)); [|discriminate|].
Qed.
End StackMap.
