(* ===== verification/Proc.v ===== *)
(** * Processes (src/kernel/proc.c) and the program loader (src/kernel/elf.c)

    Process records are a typed store keyed by the address [kmalloc]
    returned.  The operations run on the scheduler's state, whose heap is the
    heap of vmm.c over its page tables: the frames of a new address space
    come from the same pool as the pages of the heap.  [current_process] is
    the field of the scheduler's state of that name.  Messages on the serial
    line are not part of the state. *)

From stdpp Require Import base gmap list fin_maps.
From Stdlib Require Import ZArith Lia.
From S2P Require Import Prelude Mem Pmm Vmm PageTables Heap HeapFacts KernelMem Chain Descriptors Sched Fork.

(** ** State *)

Record process : Type := mk_process {
  pid : Z;
  pml4_phys : Z;
  main_thread : Z;
  p_next : Z
}.
Definition sizeof_process : Z := 32.

Definition set_pid (x : Z) (p : process) : process := mk_process x (pml4_phys p) (main_thread p) (p_next p).
Definition set_pml4_phys (x : Z) (p : process) : process := mk_process (pid p) x (main_thread p) (p_next p).
Definition set_main_thread (x : Z) (p : process) : process := mk_process (pid p) (pml4_phys p) x (p_next p).
Definition set_p_next (x : Z) (p : process) : process := mk_process (pid p) (pml4_phys p) (main_thread p) x.

#[export] Instance process_Linked : Linked process := {|
  nxt := p_next;
  set_nxt := set_p_next;
  nxt_set := fun _ _ => eq_refl
|}.

Record proc_t : Type := mk_procs {
  processes : gmap Z process;
  process_list : Z;
  next_pid : Z;
  proc_lock : Z;
  saved_user_rip : Z        (* the global of syscalls.c *)
}.

Definition set_processes (x : gmap Z process) (s : proc_t) : proc_t :=
  mk_procs x (process_list s) (next_pid s) (proc_lock s) (saved_user_rip s).
Definition set_process_list (x : Z) (s : proc_t) : proc_t :=
  mk_procs (processes s) x (next_pid s) (proc_lock s) (saved_user_rip s).
Definition set_next_pid (x : Z) (s : proc_t) : proc_t :=
  mk_procs (processes s) (process_list s) x (proc_lock s) (saved_user_rip s).
Definition set_proc_lock (x : Z) (s : proc_t) : proc_t :=
  mk_procs (processes s) (process_list s) (next_pid s) x (saved_user_rip s).

(** The static initial values. *)
Definition proc_boot : proc_t := mk_procs ∅ 0 1 0 0.

Definition USER_CODE_VADDR : Z := 0x400000.
Definition USER_STACK_VADDR : Z := 0x800000000000.

(** [(uint64_t)-1] *)
Definition MINUS1 : Z := 18446744073709551615.

Section Proc.
Context {P : Type} `{FrameAllocator P}.
Context (hhdm_offset : Z) (hhdm_nonneg : 0 <= hhdm_offset).
(** What a fresh block holds, and the address of [userspace_entry]. *)
Context (junk : Z) (userspace_entry : Z).
#[local] Abbreviation vm := (@vm_t P).
#[local] Abbreviation heap := (@heap_t vm).
#[local] Abbreviation sched := (@sched_t heap).
#[local] Instance proc_mapper : PageMapper vm := Vmm_PageMapper hhdm_offset hhdm_nonneg.
#[local] Abbreviation ptv := (phys_to_virt hhdm_offset).

Definition state : Type := sched * proc_t.
Definition on_s {A} (m : M sched A) : M state A := zoom fst (fun x (p : state) => (x, snd p)) m.
Definition on_p {A} (m : M proc_t A) : M state A := zoom snd (fun x (p : state) => (fst p, x)) m.
Definition on_vm {A} (m : M vm A) : M state A :=
  on_s (on_heap (zoom h_vm set_h_vm m)).
Definition on_processes {A} (m : M (gmap Z process) A) : M state A := on_p (zoom processes set_processes m).

Definition lock_proc : M state unit := on_p (spin_lock proc_lock set_proc_lock).
Definition unlock_proc : M state unit := on_p (spin_unlock set_proc_lock).

Definition pmm_free (p : Z) : M state unit := on_vm (zoom vm_pmm set_vm_pmm (fa_free p)).

(** [kmalloc(sizeof(process_t))] and [kfree] of a process record. *)
Definition alloc_process : M state Z :=
  p <- on_s (on_heap (kh_malloc sizeof_process)) ;;
  (if p =? 0 then mret tt
   else on_processes (mset (insert p (mk_process junk junk junk junk)))) ;;;
  mret p.
Definition free_process (p : Z) : M state unit :=
  on_processes (mset (delete p)) ;;; on_s (on_heap (kh_free p)).

(** ** proc.c *)

Definition proc_set_current (p : Z) : M state unit := on_s (mset (set_current_process p)).

(** [next_pid++] *)
Definition take_pid : M state Z :=
  n <- on_p (mget next_pid) ;;
  on_p (mset (set_next_pid (u64 (n + 1)))) ;;;
  mret n.

Definition proc_alloc_pid : M state Z :=
  lock_proc ;;; n <- take_pid ;; unlock_proc ;;; mret n.

(** [sys_fork] after the child's record exists; the result is the return
    value.  Lines 131-172. *)
Definition fork_into (parent child : Z) : M state Z :=
  child_pml4_phys <- on_vm alloc_frame ;;
  if child_pml4_phys =? 0 then
    free_process child ;;; unlock_proc ;;; mret MINUS1
  else
    pp <- on_processes (deref parent) ;;
    r <- on_vm (fork_address_space hhdm_offset (pml4_phys pp) child_pml4_phys) ;;
    if negb (r =? 0) then
      pmm_free child_pml4_phys ;;; free_process child ;;; unlock_proc ;;; mret MINUS1
    else
      on_processes (update child (set_pml4_phys child_pml4_phys)) ;;;
      rip <- on_p (mget saved_user_rip) ;;
      child_thread <- on_s (thread_create_user junk userspace_entry rip (USER_STACK_VADDR + PAGE_SIZE) child_pml4_phys child) ;;
      if child_thread =? 0 then
        pmm_free child_pml4_phys ;;; free_process child ;;; unlock_proc ;;; mret MINUS1
      else
        on_processes (update child (set_main_thread child_thread)) ;;;
        head <- on_p (mget process_list) ;;
        on_processes (update child (set_p_next head)) ;;;
        on_p (mset (set_process_list child)) ;;;
        unlock_proc ;;;
        c <- on_processes (deref child) ;;
        mret (pid c).

Definition sys_fork : M state Z :=
  lock_proc ;;;
  parent <- on_s (mget current_process) ;;
  if parent =? 0 then unlock_proc ;;; mret MINUS1
  else
    child <- alloc_process ;;
    if child =? 0 then unlock_proc ;;; mret MINUS1
    else
      n <- take_pid ;;
      on_processes (update child (set_pid n)) ;;;
      on_processes (update child (set_p_next 0)) ;;;
      fork_into parent child.

(** ** elf.c *)

(** [VMM_PRESENT | VMM_USER | VMM_WRITABLE] *)
Definition USER_RW : Z := Z.lor (Z.lor VMM_PRESENT VMM_USER) VMM_WRITABLE.

(** Lines 32-36: an address space that shares the kernel half. *)
Definition fresh_pml4 (kernel_cr3 pml4 : Z) : M vm unit :=
  do_memset (ptv pml4) 0 PAGE_SIZE ;;;
  mfor 256 256 (fun i => e <- load64 (ptv kernel_cr3 + 8 * i) ;; store64 (ptv pml4 + 8 * i) e).

(** Lines 41-56: [while (left)], page by page; [false] when no frame is left. *)
Fixpoint load_loop (fuel : nat) (pml4 vaddr src left : Z) : M vm bool :=
  match fuel with
  | O => mhang
  | S fuel' =>
      if left =? 0 then mret true else
      phys <- alloc_frame ;;
      if phys =? 0 then mret false else
      vmm_map_user hhdm_offset pml4 vaddr phys USER_RW 1 ;;;
      let chunk := if PAGE_SIZE <? left then PAGE_SIZE else left in
      do_memcpy (ptv phys) src chunk ;;;
      (if chunk <? PAGE_SIZE then do_memset (u64 (phys + hhdm_offset + chunk)) 0 (PAGE_SIZE - chunk) else mret tt) ;;;
      load_loop fuel' pml4 (u64 (vaddr + PAGE_SIZE)) (src + chunk) (left - chunk)
  end.

(** Lines 29-61: the image and the stack; the result is the PML4, or 0. *)
Definition load_image (kernel_cr3 data size : Z) : M vm Z :=
  pml4 <- alloc_frame ;;
  if pml4 =? 0 then mret 0 else
  fresh_pml4 kernel_cr3 pml4 ;;;
  ok <- load_loop (S (Z.to_nat size)) pml4 USER_CODE_VADDR data size ;;
  if negb ok then mret 0 else
  stack_phys <- alloc_frame ;;
  if stack_phys =? 0 then mret 0 else
  vmm_map_user hhdm_offset pml4 USER_STACK_VADDR stack_phys USER_RW 1 ;;;
  mret pml4.

Definition load_raw (kernel_cr3 data size proc : Z) : M state Z :=
  pml4 <- on_vm (load_image kernel_cr3 data size) ;;
  if pml4 =? 0 then mret 0 else
  on_processes (update proc (set_pml4_phys pml4)) ;;;
  on_s (thread_create_user junk userspace_entry USER_CODE_VADDR (USER_STACK_VADDR + PAGE_SIZE) pml4 proc).

Definition elf_load (kernel_cr3 data size : Z) : M state Z :=
  proc <- alloc_process ;;
  if proc =? 0 then mret (-1) else
  n <- proc_alloc_pid ;;
  on_processes (update proc (set_pid n)) ;;;
  on_processes (update proc (set_p_next 0)) ;;;
  t <- load_raw kernel_cr3 data size proc ;;
  if t =? 0 then free_process proc ;;; mret (-1) else
  on_processes (update proc (set_main_thread t)) ;;;
  on_s (scheduler_add_thread t) ;;;
  p <- on_processes (deref proc) ;;
  mret (i32 (pid p)).

Definition sys_exec (kernel_cr3 data size : Z) : M state unit :=
  proc <- on_s (mget current_process) ;;
  if proc =? 0 then mret tt else
  t <- load_raw kernel_cr3 data size proc ;;
  if t =? 0 then mret tt else
  proc <- on_s (mget current_process) ;;
  on_processes (update proc (set_main_thread t)) ;;;
  on_s (scheduler_add_thread t) ;;;
  on_s thread_exit.

End Proc.
