(* ===== verification/Syscalls.v ===== *)
(** * System calls (src/kernel/syscalls.c)

    The dispatcher, on the state of every component it calls: the kernel of
    Irq.v, the processes, the serial port, the console and [syscall_retval].
    A local array of the handler is a range of addresses of the byte memory,
    whose place on the stack is a parameter. *)

From stdpp Require Import base gmap list fin_maps.
From Stdlib Require Import ZArith Lia.
From S2P Require Import Prelude Mem Pmm Vmm PageTables Heap HeapFacts KernelMem Chain Descriptors Sched SchedFacts.
From S2P Require Import Timer Ipc KbdBuf Printf Serial Console Irq Fork UserCopy Proc.

(** ** syscalls.h *)

Definition SYS_read : Z := 0.
Definition SYS_write : Z := 1.
Definition SYS_open : Z := 2.
Definition SYS_close : Z := 3.
Definition SYS_gettid : Z := 4.
Definition SYS_sleep : Z := 5.
Definition SYS_nanosleep : Z := 6.
Definition SYS_fork : Z := 7.
Definition SYS_iopl : Z := 8.
Definition SYS_irq_register : Z := 9.
Definition SYS_exec : Z := 10.
Definition SYS_get_binary : Z := 11.
Definition SYS_yield : Z := 158.
Definition SYS_exit : Z := 60.

(** [strcmp] on byte arrays; [None] when it runs past the end of one. *)
Fixpoint strcmp (a b : list Z) : option Z :=
  match a, b with
  | x :: a', y :: b' => if truthy x && (x =? y) then strcmp a' b' else Some (i8 x - i8 y)
  | _, _ => None
  end.

Definition name_init : list Z := [105; 110; 105; 116; 0].
Definition name_shell : list Z := [115; 104; 101; 108; 108; 0].

Section Syscalls.
Context {P : Type} `{FrameAllocator P}.
Context (hhdm_offset : Z) (hhdm_nonneg : 0 <= hhdm_offset).
Context (junk : Z) (userspace_entry kernel_cr3 : Z).
(** The UART and the number of polls it may take (Serial.v). *)
Context (lsr : list (Z * Z) -> nat -> Z) (scratch : list (Z * Z) -> Z) (polls : nat).
(** The linker symbols of the embedded programs. *)
Context (init_start init_end shell_start shell_end : Z).
(** Where the locals [c], [kbuf] and [name] lie, and the address after the
    [syscall] instruction in [kbd_buf_get]. *)
Context (c_addr kbuf_addr name_addr yield_rip : Z).
#[local] Abbreviation vm := (@vm_t P).
#[local] Abbreviation heap := (@heap_t vm).
#[local] Abbreviation sched := (@sched_t heap).
#[local] Instance sys_mapper : PageMapper vm := Vmm_PageMapper hhdm_offset hhdm_nonneg.

Record sys : Type := mk_sys {
  y_kernel : kernel heap;
  y_proc : proc_t;
  y_uart : uart;
  y_con : con;
  syscall_retval : Z
}.

Definition on_kernel {A} (m : M (kernel heap) A) : M sys A :=
  zoom y_kernel (fun x y => mk_sys x (y_proc y) (y_uart y) (y_con y) (syscall_retval y)) m.
Definition on_uart {A} (m : M uart A) : M sys A :=
  zoom y_uart (fun x y => mk_sys (y_kernel y) (y_proc y) x (y_con y) (syscall_retval y)) m.
Definition on_con {A} (m : M con A) : M sys A :=
  zoom y_con (fun x y => mk_sys (y_kernel y) (y_proc y) (y_uart y) x (syscall_retval y)) m.
Definition set_sched (x : sched) (k : kernel heap) : kernel heap :=
  mk_kernel x (k_timer k) (k_ipc k) (k_kbd k) (k_irq k) (k_out k).
Definition on_proc {A} (m : M (sched * proc_t) A) : M sys A :=
  zoom (fun y => (k_sched (y_kernel y), y_proc y))
    (fun p y => mk_sys (set_sched (fst p) (y_kernel y)) (snd p) (y_uart y) (y_con y) (syscall_retval y)) m.
Definition on_mem {A} (m : M vm A) : M sys A := on_proc (on_vm m).

(** [syscall_retval = r] *)
Definition retval (r : Z) : M sys unit :=
  mset (fun y => mk_sys (y_kernel y) (y_proc y) (y_uart y) (y_con y) (u64 r)).

(** ** User memory *)

(** [current_process->pml4_phys], if there is a process. *)
Definition current_root : M sys (option Z) :=
  on_proc (
    p <- on_s (mget current_process) ;;
    if p =? 0 then mret None
    else r <- on_processes (deref p) ;; mret (Some (pml4_phys r))).

Definition to_user (uaddr kdata len : Z) : M sys Z :=
  root <- current_root ;; on_mem (copy_to_user hhdm_offset root uaddr kdata len).
Definition from_user (kdest uaddr len : Z) : M sys Z :=
  root <- current_root ;; on_mem (copy_from_user hhdm_offset root kdest uaddr len).

(** [p[i]] and [p[i] = c] on an array of bytes. *)
Definition load8 (a : Z) : M sys Z := on_mem (mget (fun s => rd8 (vm_mem s) a)).
Definition store8 (a v : Z) : M sys unit := on_mem (mset (fun s => set_vm_mem (wr8 (vm_mem s) a v) s)).

(** ** Helpers *)

Definition do_write (fd buf count : Z) : M sys Z :=
  if (fd =? 1) || (fd =? 2) then
    mfor (Z.to_nat count) 0 (fun i =>
      c <- load8 (buf + i) ;;
      on_uart (serial_putc lsr scratch polls c) ;;;
      on_con (console_putc c)) ;;;
    mret count
  else mret 0.

Definition do_sleep (seconds : Z) : M sys unit :=
  now <- on_kernel (on_st timer_get_ticks) ;;
  let deadline := u64 (now + u64 (seconds * 100)) in
  on_kernel (on_st (sleep_until junk deadline)).

Definition do_nanosleep (nanoseconds : Z) : M sys unit :=
  let ticks_to_wait := u64 (nanoseconds + 9999999) / 10000000 in
  now <- on_kernel (on_st timer_get_ticks) ;;
  on_kernel (on_st (sleep_until junk (u64 (now + ticks_to_wait)))).

(** ** The cases of the dispatcher *)

(** The [syscall] instruction in [kbd_buf_get]: the entry code saves the
    return address, then SYS_yield. *)
Definition kernel_yield : M sys unit :=
  on_proc (on_p (mset (fun s => mk_procs (processes s) (process_list s) (next_pid s) (proc_lock s) yield_rip))) ;;;
  on_kernel (on_sched schedule) ;;;
  retval 0.

Definition do_read (fuel : nat) (fd buf : Z) : M sys unit :=
  if fd =? 0 then
    c <- kbd_buf_get (fun y => k_kbd (y_kernel y))
           (fun x y => mk_sys (mk_kernel (k_sched (y_kernel y)) (k_timer (y_kernel y)) (k_ipc (y_kernel y)) x
                                 (k_irq (y_kernel y)) (k_out (y_kernel y)))
                         (y_proc y) (y_uart y) (y_con y) (syscall_retval y))
           kernel_yield fuel ;;
    store8 c_addr c ;;;
    r <- to_user buf c_addr 1 ;;
    if r =? 0 then retval 1 else retval (-1)
  else retval 0.

Definition handle_write (fd buf count : Z) : M sys unit :=
  let count := if 4096 <? count then 4096 else count in
  r <- from_user kbuf_addr buf count ;;
  if r =? 0 then n <- do_write fd kbuf_addr count ;; retval n
  else retval (-1).

Definition handle_exec (data size : Z) : M sys unit :=
  if 1048576 <? size then retval (-1)
  else
    kbuf <- on_kernel (on_sched (on_heap (kh_malloc size))) ;;
    if kbuf =? 0 then retval (-1)
    else
      r <- from_user kbuf data size ;;
      (if r =? 0 then
         on_proc (sys_exec hhdm_offset hhdm_nonneg junk userspace_entry kernel_cr3 kbuf size) ;;;
         retval 0
       else retval (-1)) ;;;
      on_kernel (on_sched (on_heap (kh_free kbuf))).

(** The bytes of the array [name]. *)
Definition read_name : M sys (list Z) :=
  on_mem (mget (fun s => (fun i => rd8 (vm_mem s) (name_addr + i)) <$> seqZ 0 32)).

(** [embedded_binaries], without the terminating entry. *)
Definition embedded_binaries : list (list Z * Z * Z) :=
  [(name_init, init_start, init_end); (name_shell, shell_start, shell_end)].

(** The loop over the table. *)
Fixpoint find_binary (table : list (list Z * Z * Z)) (name : list Z) (buf max : Z) : M sys unit :=
  match table with
  | [] => retval (-1)
  | (n, start, stop) :: table' =>
      d <- mopt (strcmp name n) ;;
      if d =? 0 then
        let size := u64 (stop - start) in
        if size <=? max then
          r <- to_user buf start size ;;
          if r =? 0 then retval size else retval (-2)
        else retval (-2)
      else find_binary table' name buf max
  end.

Definition handle_get_binary (uname buf max : Z) : M sys unit :=
  r <- from_user name_addr uname 31 ;;
  if negb (r =? 0) then retval (-1)
  else
    store8 (name_addr + 31) 0 ;;;
    name <- read_name ;;
    find_binary embedded_binaries name buf max.

(** [switch (nr)]; [fuel] bounds the rounds of [kbd_buf_get]. *)
Definition syscall_handler (fuel : nat) (nr a1 a2 a3 : Z) : M sys unit :=
  if nr =? SYS_read then do_read fuel a1 a2
  else if nr =? SYS_write then handle_write a1 a2 a3
  else if nr =? SYS_open then retval 10
  else if nr =? SYS_close then retval 0
  else if nr =? SYS_gettid then t <- on_kernel (on_sched (mget current_thread)) ;; retval t
  else if nr =? SYS_sleep then do_sleep a1 ;;; retval 0
  else if nr =? SYS_nanosleep then do_nanosleep a1 ;;; retval 0
  else if nr =? SYS_fork then
    r <- on_proc (sys_fork hhdm_offset hhdm_nonneg junk userspace_entry) ;; retval r
  else if nr =? SYS_iopl then
    (if a1 =? 3 then
       t <- on_kernel (on_sched (mget current_thread)) ;;
       on_kernel (on_sched (on_threads (update t (set_th_iopl 3))))
     else mret tt) ;;;
    retval 0
  else if nr =? SYS_irq_register then
    r <- on_kernel (on_irq (irq_register (u8 a1) a2)) ;; retval r
  else if nr =? SYS_exec then handle_exec a1 a2
  else if nr =? SYS_get_binary then handle_get_binary a1 a2 a3
  else if nr =? SYS_yield then on_kernel (on_sched schedule) ;;; retval 0
  else if nr =? SYS_exit then on_kernel (on_sched thread_exit)
  else retval (-1).

End Syscalls.
