(* ===== verification/ProcFacts.v ===== *)
(** * Facts about processes: [sys_fork]

    The invariant of the process table over the scheduler, the heap and the
    page tables, and what [sys_fork] does to it. *)

From stdpp Require Import base gmap list fin_maps.
From Stdlib Require Import ZArith Lia.
From S2P Require Import Prelude Mem Pmm Vmm PageTables Heap HeapFacts HeapKeeps KernelMem Chain Descriptors Sched SchedFacts.
From S2P Require Import Fork ForkFacts Spaces Proc.

#[local] Opaque rd64 wr64 memcpy memset kmalloc kfree fork_address_space.

Section ProcFacts.
Context {P : Type} `{FrameAllocator P}.
Context (hhdm_offset : Z) (hhdm_nonneg : 0 <= hhdm_offset).
Context (junk : Z) (userspace_entry : Z).
#[local] Abbreviation vm := (@vm_t P).
#[local] Abbreviation heap := (@heap_t vm).
#[local] Abbreviation sched := (@sched_t heap).
#[local] Instance facts_mapper : PageMapper vm := Vmm_PageMapper hhdm_offset hhdm_nonneg.
#[local] Existing Instance grows_preorder.
#[local] Abbreviation vm_keeps := (vm_keeps hhdm_offset).
#[local] Abbreviation rest_same := (rest_same hhdm_offset).
#[local] Abbreviation vm_grows := (vm_grows hhdm_offset).
#[local] Abbreviation pspace := (pspace hhdm_offset).
#[local] Abbreviation owns := (owns hhdm_offset).
#[local] Abbreviation kspace := (kspace hhdm_offset).
#[local] Abbreviation clear_slot := (clear_slot hhdm_offset).
#[local] Abbreviation clear_frame := (clear_frame hhdm_offset).
#[local] Abbreviation stale_kept := (stale_kept hhdm_offset).
#[local] Abbreviation forked_in := (forked_in hhdm_offset).

Definition vm_of (s : sched) : vm := h_vm (s_heap s).

(** ** The heap and the memory below it *)

Lemma view_ready (h : heap) ls : kh_view h ls -> vm_ready hhdm_offset (h_vm h).
Proof. intros [Hv _]. apply (view_env h ls Hv). Qed.

Lemma malloc_grows n (h : heap) ls p h' : kh_view h ls -> kh_malloc n h = Ret p h' ->
  vm_grows (h_vm h) (h_vm h') /\ reach h' <= reach h.
Proof.
  intros [Hv _] E. eapply (kmalloc_view_keeps (vm_grows)); [| |exact Hv|exact E].
  - intros v q v' _ Ea. eapply alloc_grows; exact Ea.
  - intros v a q flags v' _ Hq H0 Ha Em. eapply map_grows; [exact hhdm_nonneg|exact Hq|exact H0|exact Ha|exact Em].
Qed.

(** The heap keeps its blocks when frames are taken from under it. *)
Lemma view_vm (h : heap) ls v' : kh_view h ls -> ls <> [] -> vm_ready hhdm_offset v' ->
  heap_end_virt h + 4096 * Z.of_nat (length (free_frames v')) <= HEAP_LIMIT ->
  (forall a, HEAP_START_VIRT <= a < HEAP_LIMIT -> vm_present hhdm_offset v' a = vm_present hhdm_offset (h_vm h) a) ->
  kh_view (set_h_vm v' h) ls.
Proof.
  intros [[(bl & [[[E1 E2 E3 E4 E5] L2 L3 L4 L5 L6 L7] Hc] & Hp)|[_ ->]] Hl] Hne Hr Hn Hpr; [|done].
  split; [|done]. left. exists bl. split; [|done]. split; [|done]. split; try done.
  split; cbn [h_vm heap_end_virt set_h_vm]; try done.
  intros a Ha. change (vm_present hhdm_offset v' a = true). rewrite Hpr by lia. by apply E5.
Qed.

(** Operations of the scheduler that leave the heap alone. *)
Definition same_heap {A} (m : M sched A) : Prop := forall s a s', m s = Ret a s' -> s_heap s' = s_heap s.

Lemma same_heap_bind {A B} (m : M sched A) (f : A -> M sched B) : same_heap m -> (forall a, same_heap (f a)) -> same_heap (mbind m f).
Proof.
  intros Hm Hf s b s' E. unfold mbind in E. apply bindr_Ret_inv in E as (a & s1 & E1 & E2).
  rewrite <- (Hm _ _ _ E1). exact (Hf a _ _ _ E2).
Qed.

Lemma same_heap_set f : (forall s, s_heap (f s) = s_heap s) -> same_heap (mset f).
Proof. intros Hf s a s' [= _ <-]. apply Hf. Qed.

Lemma same_heap_threads {A} (m : M (gmap Z thread) A) : same_heap (on_threads m).
Proof. intros s a s'. unfold on_threads, zoom. destruct (m (s_threads s)); simpl; try done. by intros [= _ <-]. Qed.

Lemma same_heap_lock : same_heap lock_sched.
Proof. intros s a s'. unfold lock_sched, spin_lock. destruct (sched_lock s =? 0); [|done]. by intros [= _ <-]. Qed.

Lemma same_heap_add t : same_heap (scheduler_add_thread t).
Proof.
  unfold scheduler_add_thread, unlock_sched, spin_unlock.
  apply same_heap_bind; [apply same_heap_lock|intros _]. apply same_heap_bind; [by intros s a s' [= _ <-]|intros rq].
  apply same_heap_bind; [apply same_heap_threads|intros _]. repeat (apply same_heap_bind; [by apply same_heap_set|intros _]).
  by intros s a s' [= _ <-].
Qed.

Lemma same_heap_setup ue entry ustack cr3 proc t k : same_heap (uthread_setup junk ue entry ustack cr3 proc t k).
Proof.
  unfold uthread_setup, poke. cbv zeta. repeat (apply same_heap_bind; [by apply same_heap_set|intros _]).
  apply same_heap_bind; [apply same_heap_add|intros _]. by intros s a s' [= _ <-].
Qed.

Lemma free_vm (h : heap) p h' : kh_free p h = Ret tt h' -> h_vm h' = h_vm h /\ reach h' = reach h.
Proof. intros E. by eapply kfree_vm. Qed.

(** The two blocks of a thread, and any preorder that [kmalloc] follows. *)
Lemma alloc_thread_rel (R : vm -> vm -> Prop) `{!PreOrder R} (s : sched) ls o s1 :
  (forall n (h : heap) ls p h', kh_view h ls -> kh_malloc n h = Ret p h' -> R (h_vm h) (h_vm h')) ->
  kh_view (s_heap s) ls -> alloc_thread s = Ret o s1 -> R (vm_of s) (vm_of s1) /\ reach (s_heap s1) <= reach (s_heap s).
Proof.
  intros HR Hv E1. unfold alloc_thread, on_heap, zoom in E1. unfold vm_of.
  unfold mbind at 1 in E1. apply bindr_Ret_inv in E1 as (p & s2 & E2 & E1).
  destruct (kh_malloc sizeof_thread (s_heap s)) as [p' h1| | | | |] eqn:Em; try discriminate E2. injection E2 as -> <-.
  pose proof (HR _ _ _ _ _ Hv Em) as G1. pose proof (proj2 (malloc_grows _ _ _ _ _ Hv Em)) as L1.
  destruct (Z.eqb_spec p 0) as [->|Hp]; [by injection E1 as _ <-|].
  assert (Hv1 : exists ls1, kh_view h1 ls1).
  { destruct (kh_malloc_spec sizeof_thread (s_heap s) ls) as [(q & sz & h2 & E & _ & _ & _ & Hv2)|[_ [E|(h2 & E & Hv2)]]];
      [unfold sizeof_thread, two32; lia|done|..]; rewrite Em in E; try discriminate E; injection E as _ <-; eauto. }
  destruct Hv1 as [ls1 Hv1]. unfold mbind at 1 in E1. apply bindr_Ret_inv in E1 as (k & s3 & E3 & E1). cbn [s_heap set_heap] in E3.
  destruct (kh_malloc STACK_SIZE h1) as [k' h2| | | | |] eqn:Em2; try discriminate E3. injection E3 as -> <-.
  pose proof (HR _ _ _ _ _ Hv1 Em2) as G2. pose proof (proj2 (malloc_grows _ _ _ _ _ Hv1 Em2)) as L2. assert (G : R (h_vm (s_heap s)) (h_vm h2)) by (by etransitivity).
  destruct (Z.eqb_spec k 0) as [->|Hk]; [|injection E1 as _ <-; split; [exact G|]; cbn [s_heap set_heap]; lia].
  unfold mbind in E1. cbn [s_heap set_heap] in E1. destruct (kh_free p h2) as [[] h3| | | | |] eqn:Ef; try discriminate E1. injection E1 as _ <-.
  cbn [s_heap set_heap]. destruct (free_vm _ _ _ Ef) as [-> ->]. split; [exact G|lia].
Qed.

(** What follows [alloc_thread] in a creation leaves the heap alone. *)
Lemma create_alloc (f : Z -> Z -> M sched Z) (s : sched) t s' : (forall x k, same_heap (f x k)) ->
  (o <- alloc_thread ;; match o with None => mret 0 | Some (x, k) => f x k end) s = Ret t s' ->
  exists o s1, alloc_thread s = Ret o s1 /\ s_heap s' = s_heap s1.
Proof.
  intros Hf E. unfold mbind at 1 in E. apply bindr_Ret_inv in E as (o & s1 & E1 & E). exists o, s1. split; [done|].
  destruct o as [[x k]|]; [exact (Hf _ _ _ _ _ E)|]. by injection E as _ ->.
Qed.

Lemma create_user_grows ue entry ustack cr3 proc (s : sched) ls t s' : kh_view (s_heap s) ls ->
  thread_create_user junk ue entry ustack cr3 proc s = Ret t s' ->
  vm_grows (vm_of s) (vm_of s') /\ reach (s_heap s') <= reach (s_heap s).
Proof.
  intros Hv E. destruct (create_alloc _ s t s' (same_heap_setup ue entry ustack cr3 proc) E) as (o & s1 & E1 & Hh). unfold vm_of. rewrite Hh.
  apply (alloc_thread_rel vm_grows s ls o s1); [|exact Hv|exact E1]. intros n h ls1 p h' Hv1 Em. exact (proj1 (malloc_grows _ _ _ _ _ Hv1 Em)).
Qed.

(** ** The invariant *)

(** The process table [st] over the scheduler: records lie in blocks of the
    heap, the list of processes is linked, and every process has an address
    space of its own that shares no frame with another. *)
Record proc_core (sc : sched) (st : gmap Z process) (head : Z) (q : list Z) (ls : list (Z * Z)) (pl : list Z) : Prop := {
  pc_sched : sched_inv sc q;
  pc_threads : forall t, t ∈ dom (s_threads sc) -> t ∈ ls.*1;
  pc_dom : forall p, p ∈ dom st -> p ∈ ls.*1;
  pc_list : chain st head pl;
  pc_cur : current_process sc <> 0 -> is_Some (st !! current_process sc);
  pc_space : forall p r, st !! p = Some r -> pspace (vm_of sc) (pml4_phys r);
  pc_apart : forall p1 p2 r1 r2 x, st !! p1 = Some r1 -> st !! p2 = Some r2 -> p1 <> p2 ->
    owns (vm_of sc) (pml4_phys r1) x -> owns (vm_of sc) (pml4_phys r2) x -> False
}.

Definition proc_inv (s : sched * proc_t) (q : list Z) (ls : list (Z * Z)) (pl : list Z) : Prop :=
  proc_core (fst s) (processes (snd s)) (process_list (snd s)) q ls pl /\
  kh_view (s_heap (fst s)) ls /\ proc_lock (snd s) = 0.

(** No process loses or changes a page. *)
Definition spaces_kept (v v' : vm) (st : gmap Z process) : Prop :=
  forall p r, st !! p = Some r -> space_kept hhdm_offset v v' (pml4_phys r).

Lemma core_heap (sc : sched) st head q ls pl h' ls' : proc_core sc st head q ls pl ->
  vm_keeps (vm_of sc) (h_vm h') -> (forall x, x ∈ ls.*1 -> x ∈ ls'.*1) ->
  proc_core (set_heap h' sc) st head q ls' pl /\ spaces_kept (vm_of sc) (h_vm h') st.
Proof.
  intros [C1 C2 C3 C4 C5 C6 C7] K Hls.
  assert (Hk : forall p r, st !! p = Some r -> pspace (h_vm h') (pml4_phys r) /\ space_kept hhdm_offset (vm_of sc) (h_vm h') (pml4_phys r) /\
    (forall x, owns (h_vm h') (pml4_phys r) x -> owns (vm_of sc) (pml4_phys r) x)) by (intros p r Hr; by apply pspace_keeps; [|by apply (C6 p)]).
  split; [|intros p r Hr; by apply (Hk p)]. split; [by apply sched_inv_heap|auto|auto|done|done| |].
  - intros p r Hr. by apply (Hk p).
  - intros p1 p2 r1 r2 x H1 H2 Hne O1 O2. exact (C7 p1 p2 r1 r2 x H1 H2 Hne (proj2 (proj2 (Hk p1 r1 H1)) x O1) (proj2 (proj2 (Hk p2 r2 H2)) x O2)).
Qed.

(** A new process whose frames came from the pool. *)
Lemma core_add (sc : sched) st head q ls pl child rec v0 : proc_core sc st head q ls pl -> child <> 0 -> st !! child = None ->
  (child ∈ ls.*1) -> p_next rec = head -> pspace (vm_of sc) (pml4_phys rec) ->
  (forall x, owns (vm_of sc) (pml4_phys rec) x -> x ∈ free_frames v0) ->
  (forall p r x, st !! p = Some r -> owns (vm_of sc) (pml4_phys r) x -> x ∉ free_frames v0) ->
  proc_core sc (<[child := rec]> st) child q ls (child :: pl).
Proof.
  intros [C1 C2 C3 C4 C5 C6 C7] H0 Hn Hin Hnx Hps Ho Hoth.
  assert (Hcl : child ∉ pl) by (intros Hx; destruct (chain_nonzero _ _ _ _ C4 Hx) as [_ [? E]]; congruence).
  split; [done|done| | | | |].
  - intros p. rewrite dom_insert_L. intros [->%elem_of_singleton|?]%elem_of_union; auto.
  - split; [done|]. split; [done|]. exists rec. rewrite lookup_insert_eq. split; [done|]. cbn [nxt process_Linked]. rewrite Hnx. by apply cseg_insert.
  - intros Hc. rewrite lookup_insert. case_decide; [done|]. by apply C5.
  - intros p r. rewrite lookup_insert. case_decide; [by intros [= <-]|]. apply C6.
  - intros p1 p2 r1 r2 x. rewrite !lookup_insert. case_decide as E1; case_decide as E2; subst.
    + done.
    + intros [= <-] H2 _ O1 O2. exact (Hoth p2 r2 x H2 O2 (Ho x O1)).
    + intros H1 [= <-] _ O1 O2. exact (Hoth p1 r1 x H1 O1 (Ho x O2)).
    + by apply C7.
Qed.

Lemma core_not_free (sc : sched) st head q ls pl p r x v0 : proc_core sc st head q ls pl -> vm_keeps v0 (vm_of sc) -> st !! p = Some r ->
  pspace v0 (pml4_phys r) -> owns (vm_of sc) (pml4_phys r) x -> x ∉ free_frames v0.
Proof.
  intros C K Hr Hps Ho. destruct (pspace_keeps hhdm_offset v0 (vm_of sc) _ K Hps) as (_ & _ & Hb).
  by destruct (owns_kdata _ _ _ _ Hps (Hb x Ho)) as (_ & ? & _).
Qed.

(** ** Running the steps *)

Lemma mbind_Fault {S A B} (m : M S A) (f : A -> M S B) s : m s = Fault -> mbind m f s = Fault.
Proof. unfold mbind. by intros ->. Qed.

Lemma on_vm_ok {A} (m : M vm A) (sc : sched) pr v a v' : m v = Ret a v' -> vm_of sc = v ->
  on_vm m (sc, pr) = Ret a (set_heap (set_h_vm v' (s_heap sc)) sc, pr).
Proof. intros E <-. unfold on_vm, on_s, on_heap, zoom, vm_of in *. cbn [fst]. by rewrite E. Qed.

Lemma on_s_ok {A} (m : M sched A) (sc : sched) pr a sc' : m sc = Ret a sc' -> on_s m (sc, pr) = Ret a (sc', pr).
Proof. unfold on_s, zoom. cbn [fst]. by intros ->. Qed.

Lemma on_s_fault {A} (m : M sched A) (sc : sched) pr : m sc = Fault -> on_s m (sc, pr) = Fault.
Proof. unfold on_s, zoom. cbn [fst]. by intros ->. Qed.

Lemma get_proc {A} (sc : sched) pr (f : proc_t -> A) : on_p (mget f) (sc, pr) = Ret (f pr) (sc, pr).
Proof. done. Qed.

Lemma update_proc (sc : sched) st hd np l rip p r f : p <> 0 -> st !! p = Some r ->
  on_processes (update p f) (sc, mk_procs st hd np l rip) = Ret tt (sc, mk_procs (<[p := f r]> st) hd np l rip).
Proof. intros H0 Hp. unfold on_processes, on_p, zoom. cbn [snd processes]. by rewrite (update_ok _ p r). Qed.

Lemma deref_proc (sc : sched) st hd np l rip p r : p <> 0 -> st !! p = Some r ->
  on_processes (deref p) (sc, mk_procs st hd np l rip) = Ret r (sc, mk_procs st hd np l rip).
Proof. intros H0 Hp. unfold on_processes, on_p, zoom. cbn [snd processes]. by rewrite (deref_ok _ p r). Qed.

Lemma set_heap_twice (sc : sched) h1 h2 : set_heap h2 (set_heap h1 sc) = set_heap h2 sc.
Proof. done. Qed.

Lemma free_process_ok (sc : sched) st hd np l rip p r sz ls : kh_view (s_heap sc) ((p, sz) :: ls) -> st !! p = None ->
  exists h', free_process hhdm_offset hhdm_nonneg p (sc, mk_procs (<[p := r]> st) hd np l rip) = Ret tt (set_heap h' sc, mk_procs st hd np l rip) /\
    kh_view h' ls /\ h_vm h' = vm_of sc /\ reach h' = reach (s_heap sc).
Proof.
  intros Hv Hn. destruct (kh_free_spec (s_heap sc) ls p sz Hv) as (h' & E & Hv'). exists h'. split; [|split; [done|by apply (free_vm _ p)]].
  unfold free_process, on_processes, on_p, on_s, on_heap. mstep. cbn [snd fst processes bindr zoomr].
  change (@kh_free _ _) with (@kh_free heap (@Heap_KHeap vm facts_mapper)). rewrite E. cbn [zoomr bindr fst snd].
  unfold set_processes. cbn [process_list next_pid proc_lock saved_user_rip processes]. by rewrite delete_insert_id.
Qed.

(** Undoing a fork: the PML4 and the record are given back. *)
Lemma release_ok v0 (sc : sched) st hd np rip child r sz ls root : vm_ready hhdm_offset v0 ->
  kh_view (s_heap sc) ((child, sz) :: ls) -> st !! child = None -> vm_keeps v0 (vm_of sc) ->
  root ∈ free_frames v0 -> root ∉ free_frames (vm_of sc) -> kdata hhdm_offset (vm_of sc) root -> reach (s_heap sc) + 4096 <= HEAP_LIMIT ->
  exists h', (pmm_free root ;;; free_process hhdm_offset hhdm_nonneg child ;;; unlock_proc ;;; mret MINUS1) (sc, mk_procs (<[child := r]> st) hd np 1 rip) =
      Ret MINUS1 (set_heap h' sc, mk_procs st hd np 0 rip) /\ kh_view h' ls /\ vm_keeps v0 (h_vm h').
Proof.
  intros Hr Hv Hn K Hin Hout Hkd Hre. destruct (free_keeps hhdm_offset v0 (vm_of sc) root Hr K Hin Hout Hkd) as (v2 & E & K2 & Hm & Hp).
  set (sc2 := set_heap (set_h_vm v2 (s_heap sc)) sc).
  assert (Hlen : (length (free_frames v2) <= S (length (free_frames (vm_of sc))))%nat).
  { pose proof (vk_ready _ _ _ K) as [[Hok _] _]. destruct (fa_free_spec _ root Hok) as (pm & E' & _ & Hpg). unfold zoom in E. rewrite E' in E.
    injection E as <-. unfold free_frames. cbn [vm_pmm set_vm_pmm]. rewrite Hpg. destruct (fa_room _); simpl; lia. }
  assert (Hv2 : kh_view (s_heap sc2) ((child, sz) :: ls)).
  { apply view_vm; [done|done|apply K2| |].
    - unfold reach in Hre. change (pm_count (h_vm (s_heap sc))) with (length (free_frames (vm_of sc))) in Hre. lia.
    - intros a _. unfold vm_present. unfold vm_of in Hm, Hp. by rewrite Hm, Hp. }
  destruct (free_process_ok sc2 st hd np 1 rip child r sz ls Hv2 Hn) as (h' & Ef & Hv' & Hvm & _).
  exists h'. split; [|split; [done|]].
  - unfold pmm_free. rewrite (mbind_Ret _ _ _ _ _ (on_vm_ok _ _ _ _ _ _ E eq_refl)). rewrite (mbind_Ret _ _ _ _ _ Ef). done.
  - rewrite Hvm. exact K2.
Qed.

(** ** [sys_fork] *)

(** How many frames are free. *)
Definition spare (v : vm) : Z := Z.of_nat (length (free_frames v)).

(** With 76 frames the heap has room for a thread and its stack, with 68 for
    a process record. *)
Lemma scarce_spare (h : heap) n k : kh_scarce h n -> align8 n + 65560 <= 4096 * k -> spare (h_vm h) < 4 * k.
Proof. intros Hs Hk. change (4096 * (spare (h_vm h) / 4) - 24 < align8 n + 65536) in Hs. Z.div_mod_to_equations. lia. Qed.

Lemma thread_scarce_spare (h : heap) ls : kh_view h ls -> ls <> [] -> thread_scarce h -> spare (h_vm h) < 76.
Proof.
  intros Hv Hne [Hs|(p & h' & E & Hs)].
  - apply (scarce_spare h sizeof_thread 17) in Hs; [lia|]. vm_compute. discriminate.
  - destruct (kh_malloc_spec sizeof_thread h ls) as [(p' & sz & h2 & E' & Hp & _)|[Hs' _]]; [unfold sizeof_thread, two32; lia|exact Hv| |].
    + rewrite E in E'. injection E' as -> ->. apply (scarce_spare h2 STACK_SIZE 18) in Hs; [|vm_compute; discriminate].
      destruct Hv as [Hv Hl]. pose proof (kmalloc_cost sizeof_thread h ls p' h2 ltac:(unfold sizeof_thread; lia) ltac:(unfold sizeof_thread, two64; lia) Hv Hl E Hp) as Hc.
      rewrite decide_False in Hc by done. change (HeapFacts.frames h) with (spare (h_vm h)) in Hc. change (HeapFacts.frames h2) with (spare (h_vm h2)) in Hc.
      change ((sizeof_thread + 4127) / 4096) with 1 in Hc. lia.
    + apply (scarce_spare h sizeof_thread 17) in Hs'; [lia|]. vm_compute. discriminate.
Qed.

(** Frames run out: there is none for the child's PML4, or the copy of the
    parent's pages leaves too few for the child's thread. *)
Definition fork_short (sc : sched) (parent : Z) : Prop :=
  spare (vm_of sc) = 0 \/
  exists child v1 r v2, alloc_frame (vm_of sc) = Ret child v1 /\ fork_address_space hhdm_offset parent child v1 = Ret r v2 /\ spare v2 < 76.
Definition starved (sc : sched) (parent : Z) : Prop :=
  spare (vm_of sc) < 68 \/ exists p h1, kh_malloc sizeof_process (s_heap sc) = Ret p h1 /\ fork_short (set_heap h1 sc) parent.

(** The child [child] with PML4 [root] and thread [t] beside the others, whose
    invariant holds on.  The frame of the child's PML4 is not cleared: the
    copy is right in the slots it leaves empty or the parent uses, the others
    keep their words, and the child is a process like the others when there
    are no such words. *)
Record fork_ok (sc sc' : sched) (st : gmap Z process) (ls' : list (Z * Z)) (proot n rip head : Z) (q pl : list Z) (child t root : Z) : Prop := {
  fo_others : proc_core sc' st head (t :: q) ls' pl;
  fo_core : clear_frame (vm_mem (vm_of sc)) proot root ->
    proc_core sc' (<[child := mk_process n root t head]> st) child (t :: q) ls' (child :: pl);
  fo_view : kh_view (s_heap sc') ls';
  fo_frame : root ∈ free_frames (vm_of sc);
  fo_copy : forked_in (clear_slot (vm_mem (vm_of sc)) proot root) (vm_of sc) (vm_of sc') proot root;
  fo_stale : stale_kept (vm_mem (vm_of sc)) (vm_mem (vm_of sc')) proot root;
  fo_kept : spaces_kept (vm_of sc) (vm_of sc') st;
  fo_new : st !! child = None /\ t ∉ dom (s_threads sc);
  fo_thread : exists k, s_threads sc' = <[t := mk_thread (k + STACK_SIZE - 96) (k + STACK_SIZE) THREAD_STATE_READY root 0 child (ready_queue sc)]> (s_threads sc) /\
    s_stack sc' = ustack_words userspace_entry k rip (USER_STACK_VADDR + PAGE_SIZE) (s_stack sc)
}.

(** Whether the child maps a slot the parent does not can be told afterwards. *)
Lemma fork_clear_after (sc sc' : sched) st ls' prr n rip head q pl child t root p :
  fork_ok sc sc' st ls' (pml4_phys prr) n rip head q pl child t root -> st !! p = Some prr ->
  clear_frame (vm_mem (vm_of sc')) (pml4_phys prr) root -> clear_frame (vm_mem (vm_of sc)) (pml4_phys prr) root.
Proof.
  intros Hok Hp Hcl j Hj. destruct (fo_kept _ _ _ _ _ _ _ _ _ _ _ _ _ Hok p prr Hp) as [_ Hs]. specialize (Hs j ltac:(lia)).
  pose proof (fo_stale _ _ _ _ _ _ _ _ _ _ _ _ _ Hok j Hj) as Hst. specialize (Hcl j Hj). unfold ForkFacts.clear_slot in *. rewrite Hs in Hcl.
  destruct (present (rd64 (vm_mem (vm_of sc)) (slot hhdm_offset (pml4_phys prr) j))); [by left|right].
  rewrite <- Hst by done. by destruct Hcl.
Qed.

(** The heap once the copy has taken frames. *)
Lemma fork_heap (sc : sched) ls root v2 : kh_view (s_heap sc) ls -> ls <> [] -> vm_keeps (vm_of sc) v2 ->
  root ∈ free_frames (vm_of sc) -> root ∉ free_frames v2 ->
  (forall a, heap_slot (PML4_INDEX a) -> leaf hhdm_offset (vm_mem v2) (vm_pml4 v2) a = leaf hhdm_offset (vm_mem (vm_of sc)) (vm_pml4 (vm_of sc)) a) ->
  let h2 := set_h_vm v2 (s_heap sc) in reach h2 + 4096 <= HEAP_LIMIT /\ kh_view h2 ls.
Proof.
  intros Hv Hne K Hin Hrn Hleaf h2.
  assert (Hlen : (S (length (free_frames v2)) <= length (free_frames (vm_of sc)))%nat).
  { change (S (length (free_frames v2))) with (length (root :: free_frames v2)).
    pose proof (vk_ready _ _ _ K) as [[_ Hwf] _]. apply submseteq_length, NoDup_submseteq; [constructor; [done|apply Hwf]|].
    intros x [->|Hx]%elem_of_cons; [done|by apply K]. }
  assert (Henv : reach (s_heap sc) <= HEAP_LIMIT) by (apply (view_env _ _ (proj1 Hv))).
  assert (Hre2 : reach h2 + 4096 <= HEAP_LIMIT).
  { unfold reach in *. change (pm_count (h_vm (s_heap sc))) with (length (free_frames (vm_of sc))) in Henv.
    change (pm_count (h_vm h2)) with (length (free_frames v2)). cbn [heap_end_virt h2 set_h_vm]. lia. }
  split; [done|]. apply view_vm; [done|done|apply K| |].
  - unfold reach in Hre2. change (pm_count (h_vm h2)) with (length (free_frames v2)) in Hre2. cbn [heap_end_virt h2 set_h_vm] in Hre2. lia.
  - intros a Ha. unfold vm_present. by rewrite Hleaf by (by apply heap_region_slot).
Qed.

(** The child is entered in the process list. *)
Lemma publish_ok (sc : sched) st head np rip child n root t : child <> 0 ->
  (on_processes (update child (set_main_thread t)) ;;;
   head <- on_p (mget process_list) ;;
   on_processes (update child (set_p_next head)) ;;;
   on_p (mset (set_process_list child)) ;;;
   unlock_proc ;;;
   c <- on_processes (deref child) ;;
   mret (pid c)) (sc, mk_procs (<[child := mk_process n root junk 0]> st) head np 1 rip) =
  Ret n (sc, mk_procs (<[child := mk_process n root t head]> st) child np 0 rip).
Proof.
  intros Hc0. rewrite (mbind_Ret _ _ _ _ _ (update_proc _ _ _ _ _ _ child _ _ Hc0 (lookup_insert_eq _ _ _))). rewrite insert_insert_eq.
  unfold mbind at 1. cbn [on_p mget zoom zoomr bindr snd process_list].
  rewrite (mbind_Ret _ _ _ _ _ (update_proc _ _ _ _ _ _ child _ _ Hc0 (lookup_insert_eq _ _ _))). rewrite insert_insert_eq.
  unfold mbind at 1. cbn [on_p mset zoom zoomr bindr snd]. unfold mbind at 1. cbn [unlock_proc spin_unlock on_p zoom zoomr bindr snd fst].
  unfold set_proc_lock, set_process_list. cbn [processes process_list next_pid proc_lock saved_user_rip].
  rewrite (mbind_Ret _ _ _ _ _ (deref_proc _ _ _ _ _ _ child _ Hc0 (lookup_insert_eq _ _ _))). done.
Qed.

(** The processes once the child's thread exists. *)
Lemma fork_done (sc : sched) v2 (sc3 : sched) st head q ls ls' pl proot n rip child sz t root k :
  proc_core sc st head q ls pl -> child <> 0 -> st !! child = None -> root ∈ free_frames (vm_of sc) ->
  vm_keeps (vm_of sc) v2 -> vm_keeps v2 (vm_of sc3) ->
  stale_kept (vm_mem (vm_of sc)) (vm_mem v2) proot root ->
  (let A := clear_slot (vm_mem (vm_of sc)) proot root in
   forked_in A (vm_of sc) v2 proot root /\ kspace (fun j => user_slot j /\ A j) v2 root) ->
  (clear_frame (vm_mem (vm_of sc)) proot root -> pspace v2 root /\ (forall x, owns v2 root x -> x ∈ free_frames (vm_of sc))) ->
  sched_inv sc3 (t :: q) -> kh_view (s_heap sc3) ls' -> (forall u, u ∈ dom (s_threads sc3) -> u ∈ ls'.*1) ->
  (forall x, x ∈ (child, sz) :: ls -> x ∈ ls') -> (t ∉ dom (s_threads sc)) ->
  created (set_heap (set_h_vm v2 (s_heap sc)) sc) sc3 t
    (mk_thread (k + STACK_SIZE - 8 * 5 - 8 - 8 * 6) (k + STACK_SIZE) THREAD_STATE_READY root 0 child junk)
    (ustack_words userspace_entry k rip (USER_STACK_VADDR + PAGE_SIZE) (s_stack sc)) (s_heap sc3) ->
  fork_ok sc sc3 st ls' proot n rip head q pl child t root.
Proof.
  intros C Hc0 Hst Hrf K K3 Hstale [Hfork Hks] Hclear I3 Hv3 Hth3 Hls Htd Hcr.
  assert (K' : vm_keeps (vm_of sc) (vm_of sc3)) by (by eapply keeps_trans).
  assert (C3 : proc_core sc3 st head (t :: q) ls' pl).
  { destruct (core_heap sc st head q ls pl (s_heap sc3) ls' C K') as [[D1 D2 D3 D4 D5 D6 D7] _].
    { intros x (y & -> & Hy)%list_elem_of_fmap. apply list_elem_of_fmap. exists y. split; [done|]. apply Hls. by right. }
    split; try done. by rewrite Hcr. }
  split; try done.
  * intros Hcl. destruct (Hclear Hcl) as [Hps Hown].
    apply (core_add sc3 st head (t :: q) ls' pl child (mk_process n root t head) (vm_of sc)); try done.
    -- apply list_elem_of_fmap. exists (child, sz). split; [done|]. apply Hls. left.
    -- cbn [pml4_phys]. by apply (pspace_keeps hhdm_offset v2 _ root K3).
    -- cbn [pml4_phys]. intros x Hx. apply Hown. by apply (pspace_keeps hhdm_offset v2 _ root K3).
    -- intros p r x Hpr. apply (core_not_free sc3 st head (t :: q) ls' pl p r x (vm_of sc) C3 K' Hpr). by apply (pc_space _ _ _ _ _ _ C p).
  * by eapply forked_after.
  * intros j Hj Hpr. rewrite <- Hstale by done. apply same_slot; [|lia]. by apply (vk_data _ _ _ K3), (kspace_root _ _ _ _ Hks).
  * by eapply (core_heap sc st head q ls pl (s_heap sc3) ((child, sz) :: ls) C K'); intros x Hx; right.
  * exists k. rewrite Hcr. cbn [s_threads s_stack set_th_next th_rsp th_kernel_stack th_state th_cr3 th_iopl th_process]. split; [|done].
    replace (k + STACK_SIZE - 96) with (k + STACK_SIZE - 8 * 5 - 8 - 8 * 6) by lia. done.
Qed.

Lemma fork_into_spec (sc : sched) st head q ls pl child sz n parent prr np rip :
  proc_core sc st head q ls pl -> kh_view (s_heap sc) ((child, sz) :: ls) -> child <> 0 -> child ∉ ls.*1 ->
  parent <> 0 -> st !! parent = Some prr ->
  let run := fork_into hhdm_offset hhdm_nonneg junk userspace_entry parent child
    (sc, mk_procs (<[child := mk_process n junk junk 0]> st) head np 1 rip) in
  (exists t root sc' ls', run = Ret n (sc', mk_procs (<[child := mk_process n root t head]> st) child np 0 rip) /\
     fork_ok sc sc' st ls' (pml4_phys prr) n rip head q pl child t root) \/
  (fork_short sc (pml4_phys prr) /\ (run = Fault \/ exists h', run = Ret MINUS1 (set_heap h' sc, mk_procs st head np 0 rip) /\ kh_view h' ls /\ vm_keeps (vm_of sc) (h_vm h'))).
Proof.
  intros C Hv Hc0 Hcn Hp0 Hpar run. pose proof (view_ready _ _ Hv) as Hr. fold (vm_of sc) in Hr.
  assert (Hst : st !! child = None).
  { destruct (st !! child) eqn:E; [|done]. destruct Hcn. apply (pc_dom _ _ _ _ _ _ C), elem_of_dom. by rewrite E. }
  assert (Hpc : parent <> child) by (intros ->; congruence). unfold run, fork_into. clear run.
  destruct (free_frames (vm_of sc)) as [|root free] eqn:Hf.
  { pose proof (alloc_none _ _ (ready_pool _ _ Hr) Hf) as Ea. rewrite (mbind_Ret _ _ _ _ _ (on_vm_ok _ _ _ _ _ _ Ea eq_refl)). right.
    split; [left; unfold spare; by rewrite Hf|right]. cbn [Z.eqb].
    destruct (free_process_ok (set_heap (set_h_vm (vm_of sc) (s_heap sc)) sc) st head np 1 rip child (mk_process n junk junk 0) sz ls)
      as (h' & Ef & Hv' & Hvm & _); [cbn [s_heap set_heap]; unfold vm_of; by destruct (s_heap sc)|done|].
    exists h'. rewrite (mbind_Ret _ _ _ _ _ Ef). split; [done|]. split; [done|]. rewrite Hvm. by split. }
  destruct (fork_space hhdm_offset hhdm_nonneg (vm_of sc) (pml4_phys prr) root free Hr (pc_space _ _ _ _ _ _ C _ _ Hpar) Hf)
    as (v1 & r & v2 & Ea & Hroot & Ek & K & R & Hrn & Hrk & Hleaf & Hres).
  assert (Hshort : spare v2 < 76 -> fork_short sc (pml4_phys prr)) by (intros Hsp; right; exists root, v1, r, v2; split; [exact Ea|split; [exact Ek|exact Hsp]]).
  rewrite (mbind_Ret _ _ _ _ _ (on_vm_ok _ _ _ _ _ _ Ea eq_refl)). clear Ea. rewrite (proj2 (Z.eqb_neq _ _) Hroot).
  rewrite (mbind_Ret _ _ _ _ _ (deref_proc _ _ _ _ _ _ parent prr Hp0 (eq_trans (lookup_insert_ne _ _ _ _ (not_eq_sym Hpc)) Hpar))).
  rewrite (mbind_Ret _ _ _ _ _ (on_vm_ok _ (set_heap (set_h_vm v1 (s_heap sc)) sc) _ v1 _ _ Ek eq_refl)). clear Ek. rewrite set_heap_twice. cbn [s_heap set_heap].
  set (h2 := set_h_vm v2 (s_heap sc)). change (set_h_vm v2 (set_h_vm v1 (s_heap sc))) with h2.
  assert (Hin : root ∈ free_frames (vm_of sc)) by (rewrite Hf; left).
  destruct (fork_heap sc _ root v2 Hv (fun E => ltac:(discriminate E)) K Hin Hrn Hleaf) as [Hre2 Hv2]. fold h2 in Hre2, Hv2.
  destruct Hres as [(-> & Hst2 & Hfork & Hclear)|[-> Hnil]]; cycle 1.
  { right. split; [apply Hshort; unfold spare; rewrite Hnil; simpl; lia|right]. cbn [Z.eqb negb].
    destruct (release_ok (vm_of sc) (set_heap h2 sc) st head np rip child (mk_process n junk junk 0) sz ls root) as (h' & E & Hv' & K'); try done.
    exists h'. rewrite E. done. }
  cbn [Z.eqb negb].
  rewrite (mbind_Ret _ _ _ _ _ (update_proc _ _ _ _ _ _ child _ _ Hc0 (lookup_insert_eq _ _ _))). rewrite insert_insert_eq.
  cbn [set_pml4_phys pid main_thread p_next].
  rewrite (mbind_Ret _ _ _ _ _ (get_proc (set_heap h2 sc) (mk_procs (<[child := mk_process n root junk 0]> st) head np 1 rip) saved_user_rip)).
  cbn [saved_user_rip].
  set (st1 := <[child := mk_process n root junk 0]> st). set (sc2 := set_heap h2 sc).
  destruct (core_heap sc st head q ls pl h2 ((child, sz) :: ls) C K) as [C2 _]; [intros x Hx; by right|]. fold sc2 in C2.
  assert (Hvm2 : vm_of sc2 = v2) by done.
  destruct (thread_create_user_gen junk userspace_entry sc2 q ((child, sz) :: ls) rip (USER_STACK_VADDR + PAGE_SIZE) root child) as
    [(t & k & z & sc3 & ls' & E & Ht0 & Htd & _ & _ & Hls & Hcr & I3 & Hok3)|(Hsc & [E|(h3 & E & I3 & Hok3)])].
  { apply C2. }
  { split; [exact Hv2|apply C2]. }
  - left. exists t, root, sc3, ls'. rewrite (mbind_Ret _ _ _ _ _ (on_s_ok _ _ _ _ _ E)). rewrite (proj2 (Z.eqb_neq _ _) Ht0).
    destruct (create_user_grows _ _ _ _ _ sc2 _ _ _ Hv2 E) as [G3 _]. rewrite Hvm2 in G3. destruct (G3 (vk_ready _ _ _ K)) as [K3 _]. clear E G3.
    split.
    + exact (publish_ok sc3 st head np rip child n root t Hc0).
    + destruct Hok3 as [Hv3 Hth3]. by apply (fork_done sc v2 sc3 st head q ls ls' pl (pml4_phys prr) n rip child sz t root k).
  - right. split; [apply Hshort; exact (thread_scarce_spare h2 _ Hv2 ltac:(discriminate) Hsc)|left]. exact (mbind_Fault _ _ _ (on_s_fault _ _ _ E)).
  - right. split; [apply Hshort; exact (thread_scarce_spare h2 _ Hv2 ltac:(discriminate) Hsc)|right]. rewrite (mbind_Ret _ _ _ _ _ (on_s_ok _ _ _ _ _ E)). cbn [Z.eqb].
    destruct (create_user_grows _ _ _ _ _ sc2 _ _ _ Hv2 E) as [G3 L3]. clear E. rewrite Hvm2 in G3. destruct (G3 (vk_ready _ _ _ K)) as [K3 _].
    destruct (release_ok (vm_of sc) (set_heap h3 sc2) st head np rip child (mk_process n root junk 0) sz ls root) as (h' & E & Hv' & K'); try done.
    + apply Hok3.
    + by eapply keeps_trans.
    + intros Hx. by apply Hrn, K3.
    + by apply K3.
    + cbn [s_heap set_heap sc2] in L3 |- *. lia.
    + exists h'. unfold st1. rewrite E. done.
Qed.

(** [kmalloc] of the child's record and the process id. *)
Lemma alloc_process_ok (sc : sched) st hd np l rip ls : kh_view (s_heap sc) ls -> 
  (exists p sz h', alloc_process hhdm_offset hhdm_nonneg junk (sc, mk_procs st hd np l rip) =
       Ret p (set_heap h' sc, mk_procs (<[p := mk_process junk junk junk junk]> st) hd np l rip) /\ p <> 0 /\ (p ∉ ls.*1) /\
     kh_view h' ((p, sz) :: ls) /\ vm_keeps (vm_of sc) (h_vm h') /\ rest_same (vm_of sc) (h_vm h') /\
     kh_malloc sizeof_process (s_heap sc) = Ret p h') \/
  (spare (vm_of sc) < 68 /\
   (alloc_process hhdm_offset hhdm_nonneg junk (sc, mk_procs st hd np l rip) = Fault \/
    exists h', alloc_process hhdm_offset hhdm_nonneg junk (sc, mk_procs st hd np l rip) = Ret 0 (set_heap h' sc, mk_procs st hd np l rip) /\
      kh_view h' ls /\ vm_keeps (vm_of sc) (h_vm h'))).
Proof.
  intros Hv. pose proof (view_ready _ _ Hv) as Hr. unfold alloc_process.
  destruct (kh_malloc_spec sizeof_process (s_heap sc) ls) as [(p & sz & h' & E & H0 & _ & Hn & Hv')|[Hs [E|(h' & E & Hv')]]];
    [unfold sizeof_process, two32; lia|done|left|right; split; [|left]|right; split; [|right]];
    try (apply (scarce_spare (s_heap sc) sizeof_process 17 Hs); vm_compute; discriminate).
  - exists p, sz, h'. destruct (malloc_grows _ _ _ _ _ Hv E) as [G _]. destruct (G Hr) as [K R]. split; [|done].
    unfold on_s, on_heap. mstep. cbn [fst s_heap]. change (@kh_malloc _ _) with (@kh_malloc heap (@Heap_KHeap vm facts_mapper)). rewrite E.
    cbn [zoomr bindr fst snd]. rewrite (proj2 (Z.eqb_neq _ _) H0). done.
  - apply mbind_Fault, on_s_fault. unfold on_heap, zoom. change (@kh_malloc _ _) with (@kh_malloc heap (@Heap_KHeap vm facts_mapper)). by rewrite E.
  - exists h'. destruct (malloc_grows _ _ _ _ _ Hv E) as [G _]. destruct (G Hr) as [K _]. split; [|done].
    unfold on_s, on_heap. mstep. cbn [fst s_heap]. change (@kh_malloc _ _) with (@kh_malloc heap (@Heap_KHeap vm facts_mapper)). by rewrite E.
Qed.

(** What a call that fails leaves: the same processes, threads and blocks. *)
Definition fork_failed (s s' : sched * proc_t) (q : list Z) (ls : list (Z * Z)) (pl : list Z) : Prop :=
  proc_inv s' q ls pl /\ processes (snd s') = processes (snd s) /\ process_list (snd s') = process_list (snd s) /\ s_threads (fst s') = s_threads (fst s) /\
  spaces_kept (vm_of (fst s)) (vm_of (fst s')) (processes (snd s)).

Lemma failed_heap (sc : sched) st hd np np' rip q ls pl h' : proc_core sc st hd q ls pl -> kh_view h' ls -> vm_keeps (vm_of sc) (h_vm h') ->
  fork_failed (sc, mk_procs st hd np 0 rip) (set_heap h' sc, mk_procs st hd np' 0 rip) q ls pl.
Proof.
  intros C Hv K. destruct (core_heap sc st hd q ls pl h' ls C K) as [C' Hk]; [done|].
  split; [split; [exact C'|by split]|]. by split.
Qed.

Lemma sys_fork_gen (sc : sched) st hd np rip q ls pl prr : proc_core sc st hd q ls pl -> kh_view (s_heap sc) ls ->
  current_process sc <> 0 -> st !! current_process sc = Some prr ->
  let s := (sc, mk_procs st hd np 0 rip) in
  let run := sys_fork hhdm_offset hhdm_nonneg junk userspace_entry s in
  (exists child t root sc' ls', run = Ret np (sc', mk_procs (<[child := mk_process np root t hd]> st) child (u64 (np + 1)) 0 rip) /\
     fork_ok sc sc' st ls' (pml4_phys prr) np rip hd q pl child t root) \/
  (starved sc (pml4_phys prr) /\ (run = Fault \/ exists s', run = Ret MINUS1 s' /\ fork_failed s s' q ls pl)).
Proof.
  intros C Hv Hcur Hpar s run. unfold run, s, sys_fork. clear run s.
  assert (El : lock_proc (sc, mk_procs st hd np 0 rip) = Ret tt (sc, mk_procs st hd np 1 rip)) by done.
  rewrite (mbind_Ret _ _ _ _ _ El). clear El. rewrite (mbind_Ret _ _ _ _ _ (on_s_ok (mget current_process) sc _ _ _ eq_refl)).
  rewrite (proj2 (Z.eqb_neq _ _) Hcur).
  destruct (alloc_process_ok sc st hd np 1 rip ls Hv) as [(child & sz & h1 & E & Hc0 & Hcn & Hv1 & K1 & R1 & Em)|[Hs [E|(h1 & E & Hv1 & K1)]]];
    [|right; split; [by left|left]; exact (mbind_Fault _ _ _ E)|right; split; [by left|right]].
  2:{ rewrite (mbind_Ret _ _ _ _ _ E). eexists. split; [done|]. by apply failed_heap. }
  rewrite (mbind_Ret _ _ _ _ _ E), (proj2 (Z.eqb_neq _ _) Hc0). clear E. unfold take_pid.
  set (sc1 := set_heap h1 sc). set (st0 := <[child := mk_process junk junk junk junk]> st).
  assert (Ep : (n <- on_p (mget next_pid) ;; on_p (mset (set_next_pid (u64 (n + 1)))) ;;; mret n) (sc1, mk_procs st0 hd np 1 rip) =
    Ret np (sc1, mk_procs st0 hd (u64 (np + 1)) 1 rip)) by done.
  rewrite (mbind_Ret _ _ _ _ _ Ep). clear Ep. unfold st0.
  rewrite (mbind_Ret _ _ _ _ _ (update_proc _ _ _ _ _ _ child _ _ Hc0 (lookup_insert_eq _ _ _))), insert_insert_eq.
  rewrite (mbind_Ret _ _ _ _ _ (update_proc _ _ _ _ _ _ child _ _ Hc0 (lookup_insert_eq _ _ _))), insert_insert_eq.
  cbn [set_pid set_p_next pid pml4_phys main_thread p_next].
  destruct (core_heap sc st hd q ls pl h1 ls C K1) as [C1 Hk1]; [done|]. fold sc1 in C1.
  destruct (fork_into_spec sc1 st hd q ls pl child sz np (current_process sc) prr (u64 (np + 1)) rip C1 Hv1 Hc0 Hcn Hcur Hpar)
    as [(t & root & sc' & ls' & E & Hok)|(Hs & Hx)]; [left|right].
  - exists child, t, root, sc', ls'. split; [exact E|]. destruct Hok as [O0 O1 O2 O3 O4 O5 O6 O7 O8].
    pose proof (pc_space _ _ _ _ _ _ C (current_process sc) prr Hpar) as Hps.
    assert (Hw := fun j => clear_slot_before hhdm_offset _ _ (pml4_phys prr) root j K1 R1 Hps O3).
    assert (Hcs : forall j, 0 <= j < 256 -> clear_slot (vm_mem (vm_of sc)) (pml4_phys prr) root j -> clear_slot (vm_mem (vm_of sc1)) (pml4_phys prr) root j).
    { intros j Hj. unfold ForkFacts.clear_slot. change (vm_of sc1) with (h_vm h1). destruct (Hw j Hj) as [-> ->]. done. }
    split; try done.
    + intros Hcl. apply O1. intros j Hj. by apply Hcs, Hcl.
    + by apply K1.
    + eapply forked_mono; [exact Hcs|]. by eapply forked_before.
    + intros j Hj Hpr. destruct (Hw j Hj) as [Ep Ec]. rewrite <- Ec. apply O5; [done|]. change (vm_of sc1) with (h_vm h1). by rewrite Ep.
    + intros p r Hr. destruct (Hk1 p r Hr) as [A1 A2], (O6 p r Hr) as [B1 B2]. split; [|intros i Hi; by rewrite B2, A2].
      intros u Hu. destruct (A1 u Hu) as [A3 A4], (B1 u Hu) as [B3 B4]. change (vm_of sc1) with (h_vm h1) in *. rewrite A3 in B3, B4.
      split; [done|]. intros Hpr b Hb. rewrite B4 by done. by apply A4.
  - split; [right; exists child, h1; split; [exact Em|exact Hs]|]. destruct Hx as [E|(h' & E & Hv' & K')]; [left; exact E|right]. exists (set_heap h' sc, mk_procs st hd (u64 (np + 1)) 0 rip). split; [exact E|].
    apply failed_heap; [done|done|]. by eapply keeps_trans.
Qed.

(** ** Properties *)


End ProcFacts.

(** ** Witness: one process with an empty address space, run by one thread *)

Lemma malloc_step (h : @heap_t (@vm_t pmm_t)) ls n p h' : kh_view h ls -> 0 <= n < two32 -> kh_malloc n h = Ret p h' -> p <> 0 ->
  (exists sz, kh_view h' ((p, sz) :: ls)) /\ Spaces.vm_grows demo_hhdm (h_vm h) (h_vm h').
Proof.
  intros Hv Hn E Hp. split; [|by apply (malloc_grows demo_hhdm demo_hhdm_nonneg n h ls p h')].
  destruct (kh_malloc_spec n h ls Hn Hv) as [(q & sz & h2 & E' & _ & _ & _ & Hv')|[_ [E'|(h2 & E' & _)]]].
  - assert (Eq : Ret p h' = Ret q h2) by (etransitivity; [symmetry; exact E|exact E']). injection Eq as <- <-. by exists sz.
  - assert (Eq : Ret p h' = Fault) by (etransitivity; [symmetry; exact E|exact E']). discriminate Eq.
  - assert (Eq : Ret p h' = Ret 0 h2) by (etransitivity; [symmetry; exact E|exact E']). injection Eq as -> _. done.
Qed.

(** Blocks for two threads and a process. *)
Definition demo_blocks : M (@heap_t (@vm_t pmm_t)) (Z * Z * Z) :=
  a <- kh_malloc 56 ;; b <- kh_malloc 56 ;; c <- kh_malloc 32 ;; mret (a, b, c).

Definition blk_a : Z := HEAP_START_VIRT + 24.
Definition blk_b : Z := HEAP_START_VIRT + 104.
Definition blk_c : Z := HEAP_START_VIRT + 184.

Lemma demo_blocks_run : fst <$> returned (demo_blocks demo_heap) = Some (blk_a, blk_b, blk_c).
Proof. vm_compute. reflexivity. Qed.

Lemma demo_blocks_ok : exists h za zb zc, demo_blocks demo_heap = Ret (blk_a, blk_b, blk_c) h /\ kh_view h [(blk_c, zc); (blk_b, zb); (blk_a, za)] /\ Spaces.vm_grows demo_hhdm demo_space (h_vm h).
Proof.
  pose proof demo_blocks_run as Hrun. destruct (demo_blocks demo_heap) as [x h| | | | |] eqn:E; try discriminate Hrun.
  injection Hrun as ->. exists h. unfold demo_blocks in E. unfold mbind at 1 in E. apply bindr_Ret_inv in E as (a & h1 & E1 & E).
  unfold mbind at 1 in E. apply bindr_Ret_inv in E as (b & h2 & E2 & E). unfold mbind at 1 in E. apply bindr_Ret_inv in E as (c & h3 & E3 & E).
  injection E as -> -> -> ->.
  destruct (malloc_step demo_heap [] 56 blk_a h1) as [[za Va] Ga]; [exact (conj demo_heap_view eq_refl)|unfold two32; lia|exact E1|discriminate|].
  destruct (malloc_step h1 _ 56 blk_b h2 Va) as [[zb Vb] Gb]; [unfold two32; lia|exact E2|discriminate|].
  destruct (malloc_step h2 _ 32 blk_c h Vb) as [[zc Vc] Gc]; [unfold two32; lia|exact E3|discriminate|].
  exists za, zb, zc. split; [reflexivity|]. split; [exact Vc|]. pose proof (grows_preorder demo_hhdm). etransitivity; [exact Ga|]. by etransitivity.
Qed.

Definition demo_root : Z := 24576.

(** The tables of the boot loader's direct map, and the PML4. *)
Definition loader_frames : list Z := [20480; 8192; 12288; 16384].

Lemma demo_space_zero x i : frame demo_hhdm x -> x ∉ loader_frames -> 0 <= i < 512 -> rd64 (vm_mem demo_space) (slot demo_hhdm x i) = 0.
Proof. intros Hx [Hk Hn]%not_elem_of_cons Hi. apply loader_mem_zero; [done|done|done|by left]. Qed.

Lemma demo_space_walk x path : frame demo_hhdm x -> x ∉ loader_frames -> Forall (fun i => 0 <= i < 512) path -> path <> [] ->
  walk demo_hhdm (vm_mem demo_space) x path = None.
Proof. intros Hx Hn Hp Hne. destruct path as [|i path]; [done|]. apply Forall_cons in Hp as [Hi _]. cbn [walk]. by rewrite demo_space_zero. Qed.

Lemma demo_kernel_walk path x : tpath 3 heap_slot path -> walk demo_hhdm (vm_mem demo_space) 20480 path = Some x -> x = 20480.
Proof.
  intros (_ & Hp & Hs). destruct path as [|i path]; [by intros [= <-]|]. apply Forall_cons in Hp as [Hi _]. cbn [walk].
  change (vm_mem demo_space) with loader_mem. rewrite loader_mem_zero; [done|by apply frame_small|done| |].
  - apply (bool_decide_unpack _). vm_compute. exact Logic.I.
  - right. unfold heap_slot in Hs. lia.
Qed.

(** A free frame is none of them. *)
Lemma demo_free_frame x : x ∈ free_frames demo_space -> frame demo_hhdm x /\ x ∉ loader_frames.
Proof.
  intros Hx. pose proof demo_space_wf as [_ [_ _ _ Hf _]]. rewrite Forall_forall in Hf. split; [by apply Hf|].
  intros Hl. assert (Hb : forallb (fun y => negb (bool_decide (y ∈ reverse demo_frames))) loader_frames = true) by (vm_compute; reflexivity).
  rewrite forallb_forall in Hb. specialize (Hb x (proj1 (list_elem_of_In _ _) Hl)). apply negb_true_iff, bool_decide_eq_false_1 in Hb.
  apply Hb. change (free_frames demo_space) with (free_pages demo_pool) in Hx. by rewrite demo_pool_pages in Hx.
Qed.

Lemma demo_root_fresh : frame demo_hhdm demo_root /\ demo_root ∉ free_frames demo_space.
Proof.
  split; [by apply frame_small|]. unfold free_frames. change (fa_pages (vm_pmm demo_space)) with (free_pages demo_pool). rewrite demo_pool_pages.
  apply (bool_decide_unpack _). vm_compute. exact Logic.I.
Qed.

Lemma demo_space_leaf x u : frame demo_hhdm x -> x ∉ loader_frames -> leaf demo_hhdm (vm_mem demo_space) x u = 0.
Proof. intros Hx Hn. unfold leaf. rewrite demo_space_walk; [done|done|done| |done]. apply (upath_tpath (fun _ => True) u Logic.I). Qed.

(** An empty address space in any frame that is not in use. *)
Lemma demo_pspace_at root : frame demo_hhdm root -> root ∉ free_frames demo_space -> root ∉ loader_frames -> pspace demo_hhdm demo_space root.
Proof.
  intros Hf Hn Hr. pose proof demo_space_wf as [Hok [_ _ _ Hfr Hnd]].
  assert (Hk : kdata demo_hhdm demo_space root).
  { split; [done|]. split; [done|]. intros path Hp Hw%demo_kernel_walk; [|done]. apply Hr. subst root. left. }
  split.
  - split; [done|]. apply pt_wf_fresh; try done. intros i Hi _. by rewrite demo_space_zero.
  - intros [|i path] x (_ & Hp & _) Hw; [injection Hw as <-; exact Hk|]. by rewrite demo_space_walk in Hw.
  - intros u _. by rewrite demo_space_leaf.
Qed.

Lemma demo_root_apart : demo_root ∉ loader_frames.
Proof. apply (bool_decide_unpack _). vm_compute. exact Logic.I. Qed.

Lemma demo_pspace : pspace demo_hhdm demo_space demo_root.
Proof. destruct demo_root_fresh. apply demo_pspace_at; [done|done|exact demo_root_apart]. Qed.

Definition demo_sched (h : @heap_t (@vm_t pmm_t)) : @sched_t (@heap_t (@vm_t pmm_t)) :=
  mk_sched h (<[blk_a := mk_thread 0 0 THREAD_STATE_READY 20480 0 0 0]> (<[blk_b := mk_thread 0 0 THREAD_STATE_RUNNING demo_root 0 blk_c 0]> ∅))
    ∅ blk_b 0 blk_a 2 0 tss_boot blk_c 20480.
Definition demo_procs : proc_t := mk_procs (<[blk_c := mk_process 1 demo_root blk_b 0]> ∅) blk_c 2 0 0x400123.

Lemma demo_parent_inv h : sched_inv (demo_sched h) [].
Proof.
  assert (Hs : forall t, state_of (s_threads (demo_sched h)) t =
    if decide (blk_a = t) then Some THREAD_STATE_READY else if decide (blk_b = t) then Some THREAD_STATE_RUNNING else None).
  { intros t. unfold state_of. cbn [demo_sched s_threads]. rewrite !lookup_insert, lookup_empty. repeat case_decide; done. }
  split; [done|done|intros t Ht; by apply elem_of_nil in Ht| | | |by apply not_elem_of_nil|discriminate| |discriminate].
  - intros t. rewrite Hs. repeat case_decide; try done. by right.
  - intros t. rewrite Hs. repeat case_decide; try done. by left.
  - left. by rewrite Hs.
  - by rewrite Hs.
Qed.

(** The free frames were zero, so none of them maps anything. *)
Lemma demo_clear (v : @vm_t pmm_t) root x :
  vm_keeps demo_hhdm demo_space v -> rest_same demo_hhdm demo_space v -> x ∈ free_frames v ->
  clear_frame demo_hhdm (vm_mem v) root x.
Proof.
  intros K R Hx j Hj. right. rewrite (same_slot _ (vm_mem demo_space) (vm_mem v) x j); [|by apply R|lia].
  destruct (demo_free_frame x (vk_free _ _ _ K x Hx)). by rewrite demo_space_zero by (done || lia).
Qed.

Lemma demo_proc_inv : exists h ls, demo_blocks demo_heap = Ret (blk_a, blk_b, blk_c) h /\
  proc_inv demo_hhdm demo_hhdm_nonneg (demo_sched h, demo_procs) [] ls [blk_c] /\
  (forall x, x ∈ free_frames (h_vm h) -> clear_frame demo_hhdm (vm_mem (h_vm h)) demo_root x) /\ vm_keeps demo_hhdm demo_space (h_vm h).
Proof.
  destruct demo_blocks_ok as (h & za & zb & zc & E & Hv & G). exists h, [(blk_c, zc); (blk_b, zb); (blk_a, za)]. split; [exact E|]. clear E.
  destruct (G (conj demo_space_wf eq_refl)) as [K R]. clear G. pose proof demo_pspace as Hps.
  destruct (pspace_keeps demo_hhdm demo_space (h_vm h) demo_root K Hps) as (Hps' & _).
  split; [split; [|exact (conj Hv eq_refl)]|split; [|exact K]].
  - cbn [fst snd demo_procs processes process_list]. split.
    + apply demo_parent_inv.
    + intros t. cbn [demo_sched s_threads]. rewrite !dom_insert_L, dom_empty_L. cbn [fmap list_fmap fst]. set_solver.
    + intros p. rewrite dom_insert_L, dom_empty_L. cbn [fmap list_fmap fst]. set_solver.
    + split; [reflexivity|]. split; [discriminate|]. exists (mk_process 1 demo_root blk_b 0). split; [apply lookup_insert_eq|reflexivity].
    + intros _. cbn [demo_sched current_process]. rewrite lookup_insert_eq. by eexists.
    + intros p r. rewrite lookup_insert, lookup_empty. case_decide; [|done]. intros [= <-]. exact Hps'.
    + intros p1 p2 r1 r2 x. rewrite !lookup_insert, !lookup_empty. repeat case_decide; congruence.
  - intros x Hx. exact (demo_clear (h_vm h) demo_root x K R Hx).
Qed.

(** Process 1 forks process 2. *)
(** Memory is not short: what [starved] asks of the run, computed. *)
Definition fork_room (h : @heap_t (@vm_t pmm_t)) (parent : Z) : bool :=
  (68 <=? spare (h_vm h)) &&
  match kh_malloc sizeof_process h with
  | Ret _ h1 => (0 <? spare (h_vm h1)) &&
    match alloc_frame (h_vm h1) with
    | Ret child v1 => match fork_address_space demo_hhdm parent child v1 with Ret _ v2 => 76 <=? spare v2 | _ => true end
    | _ => true
    end
  | _ => true
  end.

Lemma fork_room_fed h parent : fork_room h parent = true -> ~ starved demo_hhdm demo_hhdm_nonneg (demo_sched h) parent.
Proof.
  unfold fork_room. intros [H1%Z.leb_le H2]%andb_true_iff [Hs|(p & h1 & E & Hs)].
  - change (vm_of (demo_sched h)) with (h_vm h) in Hs. lia.
  - change (kh_malloc sizeof_process h = Ret p h1) in E. rewrite E in H2. apply andb_true_iff in H2 as [H2%Z.ltb_lt H3].
    destruct Hs as [Hz|(child & v1 & r & v2 & Ea & Ef & Hl)]; [change (vm_of _) with (h_vm h1) in Hz; lia|].
    change (vm_of _) with (h_vm h1) in Ea. rewrite Ea, Ef in H3. apply Z.leb_le in H3. lia.
Qed.

Lemma demo_fork_room : (fun x => fork_room (snd x) demo_root) <$> returned (demo_blocks demo_heap) = Some true.
Proof. vm_compute. reflexivity. Qed.


(** ** What is left in the frame of the PML4

    The same fork with an entry left in slot 5 of the frame that becomes the
    child's PML4, as when the frame was the PML4 of an address space before:
    the parent does not use the slot, the child maps what the entry says. *)
Definition leave (x j e : Z) (h : @heap_t (@vm_t pmm_t)) : @heap_t (@vm_t pmm_t) :=
  set_h_vm (set_vm_mem (wr64 (vm_mem (h_vm h)) (slot demo_hhdm x j) e) (h_vm h)) h.

(** The result, the child's PML4, and slot [j] of the parent's and of the child's. *)
Definition child_slot (x j e : Z) : option (Z * Z * Z * Z) :=
  match demo_blocks demo_heap with
  | Ret _ h =>
      match sys_fork demo_hhdm demo_hhdm_nonneg 0 0x1000 (demo_sched (leave x j e h), demo_procs) with
      | Ret n s' =>
          (fun r => let m := vm_mem (vm_of (fst s')) in
             (n, pml4_phys r, rd64 m (slot demo_hhdm demo_root j), rd64 m (slot demo_hhdm (pml4_phys r) j)))
            <$> processes (snd s') !! process_list (snd s')
      | _ => None
      end
  | _ => None
  end.

Example fork_maps_stale_entry : child_slot 0xF6000 5 0x123007 = Some (2, 0xF6000, 0, 0x123007).
Proof. vm_compute. reflexivity. Qed.
