(* ===== verification/HeapStep.v ===== *)
(** * The heap beside the direct map

    [kmalloc] takes frames and adds tables for the heap region, and the
    region lies above the direct map: what stays as it was, down to single
    bytes, while the heap grows or one of its blocks is written. *)

From stdpp Require Import base gmap list fin_maps.
From Stdlib Require Import ZArith Lia.
From S2P Require Import Prelude Mem Pmm Vmm PageTables Heap HeapFacts HeapKeeps KernelMem Chain Descriptors Sched SchedFacts.
From S2P Require Import Fork ForkFacts Spaces Proc ProcFacts.

#[local] Opaque rd64 wr64 memcpy memset kmalloc kfree.

Section HeapStep.
Context {P : Type} `{FrameAllocator P}.
Context (hhdm_offset : Z) (hhdm_nonneg : 0 <= hhdm_offset).
#[local] Abbreviation vm := (@vm_t P).
#[local] Abbreviation heap := (@heap_t vm).
#[local] Instance step_mapper : PageMapper vm := Vmm_PageMapper hhdm_offset hhdm_nonneg.
#[local] Abbreviation slot := (slot hhdm_offset).
#[local] Abbreviation ptv := (phys_to_virt hhdm_offset).
#[local] Abbreviation frame := (frame hhdm_offset).
#[local] Abbreviation vm_keeps := (vm_keeps hhdm_offset).
#[local] Abbreviation vm_ready := (vm_ready hhdm_offset).

(** ** The kernel's PML4 under the heap

    Growing the heap changes slot 480 of the kernel's PML4 and no other. *)

Definition top_same (v v' : vm) : Prop :=
  forall i, 0 <= i < 512 -> i <> 480 -> rd64 (vm_mem v') (slot (vm_pml4 v) i) = rd64 (vm_mem v) (slot (vm_pml4 v) i).

(** Bytes in no free frame and no table of the kernel stay. *)
Definition far_same (v v' : vm) : Prop :=
  forall a, far hhdm_offset heap_slot (vm_pml4 v) v a -> rd8 (vm_mem v') a = rd8 (vm_mem v) a.

Definition heap_step (v v' : vm) : Prop := vm_ready v -> vm_keeps v v' /\ top_same v v' /\ far_same v v'.

(** Such a byte stays such a byte. *)
Lemma far_keeps v v' a : vm_keeps v v' -> far hhdm_offset heap_slot (vm_pml4 v) v a -> far hhdm_offset heap_slot (vm_pml4 v') v' a.
Proof. intros K Ha d Hd Hin. exact (proj1 (vk_data _ _ _ K d (Ha d Hd Hin))). Qed.

#[export] Instance heap_step_preorder : PreOrder heap_step.
Proof.
  split.
  - intros v Hr. by split.
  - intros v1 v2 v3 H12 H23 Hr. destruct (H12 Hr) as (K1 & T1 & F1). destruct (H23 (vk_ready _ _ _ K1)) as (K2 & T2 & F2).
    split; [by eapply keeps_trans|]. split; [|intros a Ha; rewrite F2 by (by eapply far_keeps); by apply F1]. intros i Hi Hn. rewrite <- (T1 i Hi Hn). specialize (T2 i Hi Hn). by rewrite (vk_root _ _ _ K1) in T2.
Qed.

Lemma alloc_step v p v' : alloc_frame v = Ret p v' -> heap_step v v'.
Proof.
  intros E Hr. destruct (alloc_grows hhdm_offset v p v' E Hr) as [K _]. split; [done|]. unfold alloc_frame, zoom in E.
  destruct (fa_alloc (vm_pmm v)); try discriminate E. by injection E as _ <-.
Qed.

Lemma map_step v a p flags v' : frame p -> p <> 0 -> HEAP_START_VIRT <= a < HEAP_LIMIT ->
  vmm_map hhdm_offset a p flags v = Ret tt v' -> heap_step v v'.
Proof.
  intros Hp H0 Ha E Hr. destruct (map_grows hhdm_offset hhdm_nonneg v a p flags v' Hp H0 Ha E Hr) as [K _]. split; [done|].
  destruct Hr as [Hwf Hl]. pose proof (frame_nonneg _ _ Hp).
  destruct (vmm_map_effect hhdm_offset hhdm_nonneg heap_slot v a p flags) as (v1 & E1 & X); [done|done|by apply heap_region_slot|lia|].
  rewrite E1 in E. injection E as <-. split; [intros i Hi Hn; by apply (me_top _ _ _ _ _ _ _ X)|exact (me_far _ _ _ _ _ _ _ X)].
Qed.

Lemma malloc_step_top n (h : heap) ls p h' : kh_view h ls -> kh_malloc n h = Ret p h' ->
  vm_keeps (h_vm h) (h_vm h') /\ top_same (h_vm h) (h_vm h') /\ far_same (h_vm h) (h_vm h').
Proof.
  intros Hv E. pose proof (view_ready hhdm_offset hhdm_nonneg h ls Hv) as Hr. destruct Hv as [Hv _].
  cut (heap_step (h_vm h) (h_vm h')); [intros Hs; exact (Hs Hr)|].
  eapply (kmalloc_view_keeps heap_step); [| |exact Hv|exact E].
  - intros v q v' _ Ea. eapply alloc_step; exact Ea.
  - intros v a q flags v' _ Hq H0 Ha Em. eapply map_step; [exact Hq|exact H0|exact Ha|exact Em].
Qed.

(** ** Writing into the heap region *)

Lemma heap_above x a : frame x -> HEAP_START_VIRT <= a -> ~ in_frame hhdm_offset x a.
Proof. intros Hx Ha. unfold in_frame. rewrite frame_ptv by done. destruct Hx as (_ & _ & Hx). unfold HEAP_START_VIRT in Ha. lia. Qed.

Lemma heap_write (v : vm) m' k : vm_ready v -> HEAP_START_VIRT <= k -> (forall b, b < k -> rd8 m' b = rd8 (vm_mem v) b) ->
  vm_keeps v (set_vm_mem m' v) /\ outer_same hhdm_offset v (set_vm_mem m' v).
Proof.
  intros Hr Hk Hb.
  assert (Ho : outer_same hhdm_offset v (set_vm_mem m' v)).
  { intros d Hd _ b Hbb. apply Hb. destruct (Z.lt_ge_cases (ptv d + b) k); [done|]. exfalso.
    apply (heap_above d (ptv d + b) Hd); [lia|]. unfold in_frame. lia. }
  split; [|done]. pose proof Hr as [[Hok Hwf] Hl]. apply pool_change; try done. apply Hwf.
Qed.

Lemma view_above (h : heap) ls p z : kh_view h ls -> (p, z) ∈ ls -> HEAP_START_VIRT <= p.
Proof. intros [Hv _] Hin. destruct (heap_view_wf _ _ Hv) as [Hwf _]. destruct (Hwf p z Hin) as (_ & Hlo & _). lia. Qed.

(** ** Creating threads *)

Lemma same_heap_ksetup junk entry cr3 proc t k : same_heap (P := P) (kthread_setup junk entry cr3 proc t k).
Proof.
  unfold kthread_setup, poke. cbv zeta. repeat (apply same_heap_bind; [by apply same_heap_set|intros _]).
  apply same_heap_bind; [apply same_heap_add|intros _]. by intros s a s' [= _ <-].
Qed.

Lemma create_step junk entry cr3 proc (s : @sched_t heap) ls t s' : kh_view (s_heap s) ls ->
  thread_create junk entry cr3 proc s = Ret t s' -> heap_step (vm_of s) (vm_of s').
Proof.
  intros Hv E. destruct (create_alloc hhdm_offset hhdm_nonneg _ s t s' (same_heap_ksetup junk entry cr3 proc) E) as (o & s1 & E1 & Hh). unfold vm_of. rewrite Hh.
  apply (alloc_thread_rel hhdm_offset hhdm_nonneg heap_step s ls o s1); [|exact Hv|exact E1].
  intros n h ls1 p h' Hv1 Em _. exact (malloc_step_top _ _ _ _ _ Hv1 Em).
Qed.
Lemma init_step junk idle_thread kcr3 (s : @sched_t heap) ls s' : kh_view (s_heap s) ls ->
  scheduler_init junk idle_thread kcr3 s = Ret tt s' -> heap_step (vm_of s) (vm_of s').
Proof.
  intros Hv E. unfold scheduler_init in E. unfold mbind at 1 in E. apply bindr_Ret_inv in E as (t & s1 & E1 & E).
  pose proof (create_step _ _ _ _ s ls t s1 Hv E1) as G. destruct (t =? 0); [by injection E as <-|].
  assert (Hh : same_heap (P := P) (on_threads (update t (set_th_state THREAD_STATE_READY)) ;;; mset (set_idle_thread_ptr t) ;;; lock_sched ;;;
    mset (set_ready_queue 0) ;;; unlock_sched ;;; mset (set_current_thread t))).
  { apply same_heap_bind; [apply same_heap_threads|intros _]. apply same_heap_bind; [by apply same_heap_set|intros _].
    apply same_heap_bind; [apply same_heap_lock|intros _]. apply same_heap_bind; [by apply same_heap_set|intros _].
    apply same_heap_bind; [by apply same_heap_set|intros _]. by apply same_heap_set. }
  unfold vm_of in *. by rewrite (Hh _ _ _ E).
Qed.
End HeapStep.
