(* ===== verification/ElfFacts.v ===== *)
(** * Facts about the program loader

    [load_image] builds an address space from frames of the pool: the image
    at [USER_CODE_VADDR], the rest of its last page zero, and a stack. *)

From stdpp Require Import base gmap list fin_maps.
From Stdlib Require Import ZArith Lia.
From S2P Require Import Prelude Mem Pmm Vmm PageTables Heap HeapFacts HeapKeeps KernelMem Chain Descriptors Sched SchedFacts.
From S2P Require Import Fork ForkFacts UserCopy Spaces StackMap Proc ProcFacts.

#[local] Opaque rd64 wr64 memcpy memset.

Section ElfFacts.
Context {P : Type} `{FrameAllocator P}.
Context (hhdm_offset : Z) (hhdm_nonneg : 0 <= hhdm_offset).
#[local] Abbreviation vm := (@vm_t P).
#[local] Abbreviation slot := (slot hhdm_offset).
#[local] Abbreviation walk := (walk hhdm_offset).
#[local] Abbreviation leaf := (leaf hhdm_offset).
#[local] Abbreviation ptv := (phys_to_virt hhdm_offset).
#[local] Abbreviation frame := (frame hhdm_offset).
#[local] Abbreviation frame_same := (frame_same hhdm_offset).

Definition ldata (root : Z) (s : vm) (d : Z) : Prop := data_page hhdm_offset user_slot root s d.

(** ** The address space under construction

    [v0] is the state before the loader started: it takes everything from
    the frames that were free then. *)
Record building (v0 : vm) (root : Z) (s : vm) : Prop := {
  bd_wf : vm_wf hhdm_offset user_slot root s;
  bd_lock : vmm_lock s = 0;
  bd_pml4 : vm_pml4 s = vm_pml4 v0;
  bd_free : forall x, x ∈ free_frames s -> x ∈ free_frames v0;
  bd_outer : outer_same hhdm_offset v0 s;
  bd_rest : rest_same hhdm_offset v0 s;
  bd_table : forall path x, tpath 3 user_slot path -> walk (vm_mem s) root path = Some x -> x ∈ free_frames v0;
  bd_page : forall u, user_half u -> present (leaf (vm_mem s) root u) = true ->
    ldata root s (entry_get_addr (leaf (vm_mem s) root u)) /\ entry_get_addr (leaf (vm_mem s) root u) ∈ free_frames v0;
  bd_only : only hhdm_offset (vm_mem v0) (vm_mem s) (free_frames v0)
}.

(** The kernel half of the PML4 stays. *)
Definition half_same (root : Z) (m m' : mem) : Prop :=
  forall i, 256 <= i < 512 -> rd64 m' (slot root i) = rd64 m (slot root i).

(** A frame nobody had taken before is no table of the new space. *)
Lemma outer_ldata v0 root s d : building v0 root s -> frame d -> d ∉ free_frames v0 -> ldata root s d.
Proof.
  intros B Hd Hn. split; [done|]. split; [intros Hx; by apply Hn, (bd_free _ _ _ B)|].
  intros path Hp Hw. by apply Hn, (bd_table _ _ _ B path).
Qed.

(** A byte outside the frames that were free is out of reach of the tables. *)
Lemma outer_far v0 root s a : building v0 root s -> (forall x, x ∈ free_frames v0 -> ~ in_frame hhdm_offset x a) ->
  far hhdm_offset user_slot root s a.
Proof. intros B Ha d Hd Hin. apply (outer_ldata v0); [done|done|]. intros Hx. by apply (Ha d). Qed.

(** *** Taking a frame *)
Lemma building_alloc v0 root s p free : building v0 root s -> free_frames s = p :: free ->
  exists s', alloc_frame s = Ret p s' /\ building v0 root s' /\ free_frames s' = free /\ vm_mem s' = vm_mem s /\
    ldata root s' p /\ p <> 0 /\ p ∈ free_frames v0 /\
    (forall u, user_half u -> present (leaf (vm_mem s) root u) = true -> entry_get_addr (leaf (vm_mem s) root u) <> p).
Proof.
  intros [[Hok [W1 W2 W3 W4 W5]] Hl Hp4 Hfr Hos Hre Ht Hpg Hon] Hf. unfold free_frames in *. rewrite Hf in W4, W5, W2.
  destruct (fa_alloc_cons _ p free Hok Hf) as (pm & E & Hok' & Hfree). exists (set_vm_pmm pm s). unfold alloc_frame, zoom. rewrite E.
  apply Forall_cons in W4 as [[Hpf Hp0] W4]. apply NoDup_cons in W5 as [Hpn W5].
  assert (Hd : forall d, ldata root s d -> d <> p /\ ldata root (set_vm_pmm pm s) d).
  { intros d (D1 & D2 & D3). rewrite Hf in D2. apply not_elem_of_cons in D2 as [? ?]. split; [done|]. split; [done|]. split; [|exact D3].
    cbn [vm_pmm set_vm_pmm]. by rewrite Hfree. }
  cbn [vm_pmm vm_mem vmm_lock vm_pml4 set_vm_pmm]. rewrite Hfree. split; [done|]. split; [split; try done|].
  - split; [done|]. cbn [vm_pmm vm_mem set_vm_pmm]. rewrite Hfree. split; try done.
    intros path t Hpath Hw. destruct (W2 path t Hpath Hw) as [? Hn]. split; [done|]. by apply not_elem_of_cons in Hn as [_ ?].
  - unfold free_frames. cbn [vm_pmm set_vm_pmm]. rewrite Hfree. intros x Hx. apply Hfr. rewrite Hf. by right.
  - intros d Hdf. apply Hre. unfold free_frames in *. cbn [vm_pmm set_vm_pmm] in Hdf. rewrite Hfree in Hdf. rewrite Hf. by right.
  - intros u Hu Hpr. destruct (Hpg u Hu Hpr) as [Hdu ?]. split; [by apply Hd|done].
  - split; [done|]. split; [done|]. split; [|split; [done|split]].
    + split; [done|]. split; [cbn [vm_pmm set_vm_pmm]; by rewrite Hfree|]. intros path Hpath Hw.
      destruct (W2 path p Hpath Hw) as [_ Hn]. by apply not_elem_of_cons in Hn as [[] _].
    + apply Hfr. rewrite Hf. left.
    + intros u Hu Hpr. by apply Hd, (Hpg u).
Qed.

(** *** Mapping it *)
Lemma building_map v0 root s virt p : building v0 root s -> ldata root s p -> p <> 0 -> p ∈ free_frames v0 -> user_slot (PML4_INDEX virt) ->
  exists s', vmm_map_user hhdm_offset root virt p USER_RW 1 s = Ret tt s' /\ building v0 root s' /\ ldata root s' p /\
    (forall d, ldata root s d -> frame_same (vm_mem s) (vm_mem s') d) /\
    ((forall w, user_slot (PML4_INDEX w) -> leaf (vm_mem s') root w = if vpn w =? vpn virt then make_entry p 7 else leaf (vm_mem s) root w) \/
     (free_frames s' = [] /\ forall w, user_slot (PML4_INDEX w) -> leaf (vm_mem s') root w = leaf (vm_mem s) root w)) /\
    spare s <= spare s' + 3 /\ half_same root (vm_mem s) (vm_mem s').
Proof.
  intros B Hd H0 Hin Hv. pose proof B as [Hwf Hl Hp4 Hfr Hos Hre Ht Hpg Hon]. pose proof Hd as (Hpf & _). pose proof (frame_nonneg _ _ Hpf).
  destruct (vmm_map_user_effect hhdm_offset hhdm_nonneg user_slot root s virt p USER_RW 1) as (s' & E & X); try done; [lia|].
  change (user_flags USER_RW 1) with 7 in X.
  destruct (me_used _ _ _ _ _ _ _ X) as (used & Hu & Hlen). exists s'. split; [done|].
  assert (Hleaf : (forall w, user_slot (PML4_INDEX w) -> leaf (vm_mem s') root w = if vpn w =? vpn virt then make_entry p 7 else leaf (vm_mem s) root w) \/
     (free_frames s' = [] /\ forall w, user_slot (PML4_INDEX w) -> leaf (vm_mem s') root w = leaf (vm_mem s) root w))
    by (destruct (me_leaf _ _ _ _ _ _ _ X) as [Hlf|(_ & Hn & Hlf & _)]; [by left|by right]).
  split; [|split; [by apply X|split; [intros d Hdd b; by apply X|split; [exact Hleaf|split; [unfold spare, free_frames; rewrite Hu, length_app; lia|]]]]].
  2:{ intros i Hi. apply (me_top _ _ _ _ _ _ _ X); [lia|]. unfold user_slot. lia. }
  split.
  - apply X.
  - apply X.
  - by rewrite (me_root _ _ _ _ _ _ _ X).
  - intros x Hx. apply Hfr. unfold free_frames in *. rewrite Hu. apply elem_of_app. by right.
  - intros d Hdf Hn b Hb. rewrite (me_page _ _ _ _ _ _ _ X d b); [by apply Hos|by apply (outer_ldata v0)|done].
  - intros d Hdf b Hb. rewrite (me_rest _ _ _ _ _ _ _ X d b Hdf Hb). apply Hre; [|done]. unfold free_frames in *. rewrite Hu. apply elem_of_app. by right.
  - intros path x Hp Hw. destruct (decide (x ∈ free_frames v0)) as [|Hn]; [done|exfalso].
    destruct (wf_table _ _ _ _ _ (vwf_pt _ _ _ _ (me_wf _ _ _ _ _ _ _ X)) path x Hp Hw) as [Hxf _].
    by apply (me_data _ _ _ _ _ _ _ X x (outer_ldata v0 root s x B Hxf Hn)) in Hw.
  - intros u Hu' Hpr. pose proof (user_half_slot u Hu') as Hlu.
    assert (Hold : leaf (vm_mem s') root u = leaf (vm_mem s) root u \/ leaf (vm_mem s') root u = make_entry p 7).
    { destruct Hleaf as [Hlf|[_ Hlf]]; rewrite Hlf by done; [destruct (vpn u =? vpn virt); [by right|by left]|by left]. }
    destruct Hold as [Eu|Eu]; rewrite Eu in *.
    + destruct (Hpg u Hu' Hpr). split; [by apply X|done].
    + rewrite (addr_make hhdm_offset) by done. split; [by apply X|done].
  - intros a Ha. rewrite (me_far _ _ _ _ _ _ _ X a); [by apply Hon|by apply (outer_far v0)].
Qed.

(** *** Writing into it *)
Lemma building_write v0 root s m p : building v0 root s -> ldata root s p -> p ∈ free_frames v0 -> only hhdm_offset (vm_mem s) m [p] ->
  building v0 root (set_vm_mem m s) /\ (forall w, user_slot (PML4_INDEX w) -> leaf m root w = leaf (vm_mem s) root w) /\
  half_same root (vm_mem s) m.
Proof.
  intros B Hp Hin Ho. pose proof B as [[Hok [W1 W2 W3 W4 W5]] Hl Hp4 Hfr Hos Hre Ht Hpg Hon]. destruct Hp as (Hpf & Hpn & Hpt).
  assert (Hf : frames hhdm_offset [p]) by (intros x ->%list_elem_of_singleton; done).
  assert (Hts : tables_same hhdm_offset user_slot (vm_mem s) m root).
  { intros path x Hpath Hw b Hb. apply only_byte with (L := [p]); try done; [by apply (W2 path)|].
    intros ->%list_elem_of_singleton. by apply (Hpt path). }
  assert (Hw : forall path, tpath 3 user_slot path -> walk m root path = walk (vm_mem s) root path) by (intros; by apply (same_walk _ user_slot)).
  assert (Hlf : forall w, user_slot (PML4_INDEX w) -> leaf m root w = leaf (vm_mem s) root w) by (intros; by apply (same_leaf _ user_slot)).
  split; [|split; [done|]].
  2:{ intros i Hi. apply (same_slot hhdm_offset); [|lia]. apply (Hts [] root); [apply tpath_nil|done]. }
  split; cbn [vm_mem set_vm_mem]; try done.
  - split; [done|]. cbn [vm_mem vm_pmm set_vm_mem]. split; try done.
    + intros path t Hpath. rewrite Hw by done. by apply W2.
    + intros p1 p2 t Hp1 Hp2. rewrite !Hw by done. by apply W3.
  - intros d Hd Hn b Hb. rewrite <- Hos by done. apply only_byte with (L := [p]); try done. by intros ->%list_elem_of_singleton.
  - intros d Hd b Hb. rewrite <- Hre by done. rewrite Forall_forall in W4. apply only_byte with (L := [p]); try done; [by apply W4|]. by intros ->%list_elem_of_singleton.
  - intros path x Hpath. rewrite Hw by done. by apply Ht.
  - intros u Hu. rewrite Hlf by (by apply user_half_slot). intros Hpr. destruct (Hpg u Hu Hpr) as [(D1 & D2 & D3) ?]. split; [|done].
    split; [done|]. split; [done|]. intros path Hpath. cbn [vm_mem set_vm_mem]. rewrite Hw by done. by apply D3.
  - intros a Ha. rewrite <- Hon by done. apply Ho. intros x ->%list_elem_of_singleton. by apply Ha.
Qed.

(** ** The image *)

(** The byte at a user address. *)
Definition byte_at (m : mem) (root u : Z) : Z := rd8 m (ptv (entry_get_addr (leaf m root u)) + u mod 4096).

(** The source: [size] bytes that are not in the direct map of a free
    frame. *)
Definition src_ok (v0 : vm) (src size : Z) : Prop :=
  forall i x, 0 <= i < size -> x ∈ free_frames v0 -> ~ in_frame hhdm_offset x (src + i).

(** [n] pages from [USER_CODE_VADDR] on hold the first [k] bytes of the
    source and zeros; no other user page is mapped. *)
Record image (v0 : vm) (root src : Z) (m : mem) (n k : Z) : Prop := {
  im_page : forall u, USER_CODE_VADDR <= u < USER_CODE_VADDR + 4096 * n ->
    leaf m root u = make_entry (entry_get_addr (leaf m root u)) 7 /\ present (leaf m root u) = true /\
    byte_at m root u = if u - USER_CODE_VADDR <? k then rd8 (vm_mem v0) (src + (u - USER_CODE_VADDR)) else 0;
  im_none : forall u, 0 <= u < 2 ^ 47 -> u < USER_CODE_VADDR \/ USER_CODE_VADDR + 4096 * n <= u ->
    present (leaf m root u) = false
}.

Lemma src_same v0 root s src size i : building v0 root s -> src_ok v0 src size -> 0 <= i < size ->
  rd8 (vm_mem s) (src + i) = rd8 (vm_mem v0) (src + i).
Proof. intros B Hs Hi. apply (bd_only _ _ _ B). intros x. by apply Hs. Qed.

Lemma src_apart v0 src size p a b : src_ok v0 src size -> p ∈ free_frames v0 -> 0 <= a -> a + b <= size -> 0 <= b <= 4096 ->
  ptv p + b <= src + a \/ src + a + b <= ptv p.
Proof.
  intros Hs Hp Ha Hab Hb. destruct (Z.eq_dec b 0) as [->|Hb0]; [lia|].
  pose proof (Hs a p ltac:(lia) Hp) as H1. pose proof (Hs (a + b - 1) p ltac:(lia) Hp) as H2. unfold in_frame in H1, H2. lia.
Qed.

(** In particular, bytes of frames that are in use. *)
Lemma frames_src v0 src size : vm_ready hhdm_offset v0 ->
  (forall i, 0 <= i < size -> exists d b, frame d /\ (d ∉ free_frames v0) /\ 0 <= b < 4096 /\ src + i = ptv d + b) -> src_ok v0 src size.
Proof.
  intros Hr Hs i x Hi Hx Hin. destruct (Hs i Hi) as (d & b & Hd & Hn & Hb & E). pose proof (ready_pool _ _ Hr) as (_ & _ & Hff).
  destruct (Hff x Hx) as [Hxf _]. apply Hn. replace d with x; [done|].
  apply (in_frame_apart hhdm_offset hhdm_nonneg x d (src + i)); [done|done|done|]. unfold in_frame. lia.
Qed.

(** What a round writes into its page. *)
Definition page_bytes (p src chunk : Z) (m : mem) : mem :=
  let m1 := memcpy (ptv p) src chunk m in
  if chunk <? PAGE_SIZE then memset (u64 (p + hhdm_offset + chunk)) 0 (PAGE_SIZE - chunk) m1 else m1.

Lemma page_bytes_spec p src chunk m : frame p -> 0 < chunk <= 4096 -> ptv p + chunk <= src \/ src + chunk <= ptv p ->
  only hhdm_offset m (page_bytes p src chunk m) [p] /\
  forall b, 0 <= b < 4096 -> rd8 (page_bytes p src chunk m) (ptv p + b) = if b <? chunk then rd8 m (src + b) else 0.
Proof.
  intros Hp Hc Hd. unfold page_bytes. change PAGE_SIZE with 4096. pose proof (frame_ptv hhdm_offset hhdm_nonneg p Hp) as Ep.
  assert (Eu : chunk < 4096 -> u64 (p + hhdm_offset + chunk) = ptv p + chunk).
  { intros Hlt. rewrite Ep. apply u64_small. destruct Hp as (? & _ & ?). unfold two64 in *. lia. }
  assert (Hrd : forall a, rd8 (if chunk <? 4096 then memset (u64 (p + hhdm_offset + chunk)) 0 (4096 - chunk) (memcpy (ptv p) src chunk m)
      else memcpy (ptv p) src chunk m) a =
    if (ptv p <=? a) && (a <? ptv p + 4096) then (if a - ptv p <? chunk then rd8 m (src + (a - ptv p)) else 0) else rd8 m a).
  { intros a. destruct (Z.ltb_spec chunk 4096); [rewrite Eu, rd8_memset by lia|]; rewrite rd8_memcpy by lia;
      zcases; simpl; try done; lia. }
  split.
  - intros a Ha. rewrite Hrd. specialize (Ha p ltac:(left)). unfold in_frame in Ha. zcases; simpl; done || lia.
  - intros b Hb. rewrite Hrd. replace (ptv p + b - ptv p) with b by lia. zcases; simpl; done || lia.
Qed.

Lemma vpn_eqb u w : 0 <= u < 2 ^ 47 -> 0 <= w < 2 ^ 47 -> (vpn u =? vpn w) = (u / 4096 =? w / 4096).
Proof.
  intros Hu Hw. destruct (Z.eqb_spec (vpn u) (vpn w)) as [E|E], (Z.eqb_spec (u / 4096) (w / 4096)) as [E'|E']; try done.
  - destruct E'. by apply vpn_user.
  - destruct E. by apply vpn_page.
Qed.

Lemma user_low u : 0 <= u < 2 ^ 47 -> user_half u.
Proof. intros Hu. apply user_half_low in Hu. unfold user_half. lia. Qed.

(** One more page: [s2] is the state after the mapping of the frame [p]. *)
Lemma image_step v0 root src (s1 s2 : vm) m3 n p chunk :
  building v0 root s1 -> building v0 root s2 -> image v0 root src (vm_mem s1) n (4096 * n) -> 0 <= n -> USER_CODE_VADDR + 4096 * (n + 1) <= 2 ^ 47 -> 0 < chunk <= 4096 ->
  frame p ->
  (forall u, user_half u -> present (leaf (vm_mem s1) root u) = true -> entry_get_addr (leaf (vm_mem s1) root u) <> p) ->
  (forall d, ldata root s1 d -> frame_same (vm_mem s1) (vm_mem s2) d) ->
  (forall w, user_slot (PML4_INDEX w) -> leaf (vm_mem s2) root w =
     if vpn w =? vpn (USER_CODE_VADDR + 4096 * n) then make_entry p 7 else leaf (vm_mem s1) root w) ->
  (forall w, user_slot (PML4_INDEX w) -> leaf m3 root w = leaf (vm_mem s2) root w) -> only hhdm_offset (vm_mem s2) m3 [p] ->
  (forall b, 0 <= b < 4096 -> rd8 m3 (ptv p + b) = if b <? chunk then rd8 (vm_mem v0) (src + 4096 * n + b) else 0) ->
  image v0 root src m3 (n + 1) (4096 * n + chunk).
Proof.
  intros B1 B2 [Ip In] Hn Hle Hc Hpf Hne Hfs Hl2 Hl3 Ho Hb. change (2 ^ 47) with 140737488355328 in *. unfold USER_CODE_VADDR in Ip, In, Hle, Hl2.
  assert (Hlf : forall w, 0 <= w < 140737488355328 -> leaf m3 root w = if w / 4096 =? 1024 + n then make_entry p 7 else leaf (vm_mem s1) root w).
  { intros w Hw. pose proof (user_half_slot w (user_low w Hw)) as Hs. rewrite Hl3, Hl2 by done. rewrite vpn_eqb by (change (2 ^ 47) with 140737488355328; lia).
    replace ((0x400000 + 4096 * n) / 4096) with (1024 + n) by (Z.div_mod_to_equations; lia). done. }
  split; unfold USER_CODE_VADDR.
  - intros u Hu. assert (Hur : 0 <= u < 140737488355328) by lia. unfold byte_at. rewrite Hlf by done. destruct (Z.eqb_spec (u / 4096) (1024 + n)) as [E|E].
    + rewrite (addr_make hhdm_offset) by done. split; [done|]. split; [rewrite present_make by (by eapply frame_nonneg); done|].
      rewrite Hb by (apply Z.mod_pos_bound; lia). assert (Em : u mod 4096 = u - 0x400000 - 4096 * n) by (Z.div_mod_to_equations; lia).
      rewrite Em. destruct (Z.ltb_spec (u - 0x400000 - 4096 * n) chunk), (Z.ltb_spec (u - 0x400000) (4096 * n + chunk)); try lia; try done. f_equal. lia.
    + assert (Hu' : 0x400000 <= u < 0x400000 + 4096 * n) by (Z.div_mod_to_equations; lia). destruct (Ip u Hu') as (I1 & I2 & I3).
      split; [done|]. split; [done|]. unfold byte_at in I3. pose proof (user_low u Hur) as Hh.
      destruct (bd_page _ _ _ B1 u Hh I2) as [Hd _]. pose proof Hd as (Hdf & _).
      pose proof (Z.mod_pos_bound u 4096 ltac:(lia)) as Hm.
      assert (Hf : frames hhdm_offset [p]) by (intros x ->%list_elem_of_singleton; done).
      rewrite (only_byte hhdm_offset hhdm_nonneg (vm_mem s2) m3 [p]); [|done|done|done|by intros ?%list_elem_of_singleton; apply (Hne u)|done].
      rewrite (Hfs _ Hd) by done. rewrite I3. destruct (Z.ltb_spec (u - 0x400000) (4096 * n)), (Z.ltb_spec (u - 0x400000) (4096 * n + chunk)); done || lia.
  - intros u Hu Hr. rewrite Hlf by done. destruct (Z.eqb_spec (u / 4096) (1024 + n)) as [E|E].
    + exfalso. Z.div_mod_to_equations. lia.
    + apply In; [done|lia].
Qed.

Lemma alloc_empty v0 root s : building v0 root s -> free_frames s = [] -> alloc_frame s = Ret 0 s.
Proof. intros B Hn. unfold alloc_frame, zoom. rewrite (fa_alloc_nil _ (vwf_pmm _ _ _ _ (bd_wf _ _ _ B)) Hn). by destruct s. Qed.

(** The pages of a size. *)
Definition pages (size : Z) : Z := (size + 4095) / 4096.

Lemma load_loop_spec v0 root src size : vm_ready hhdm_offset v0 -> src_ok v0 src size -> USER_CODE_VADDR + size + 4096 <= 2 ^ 47 ->
  forall fuel s n, building v0 root s -> 0 <= n -> 4096 * n <= size -> (Z.to_nat (size - 4096 * n) < fuel)%nat ->
  image v0 root src (vm_mem s) n (4096 * n) ->
  exists r s', load_loop hhdm_offset fuel root (USER_CODE_VADDR + 4096 * n) (src + 4096 * n) (size - 4096 * n) s = Ret r s' /\ building v0 root s' /\
    ((r = true /\ image v0 root src (vm_mem s') (pages size) size) \/ free_frames s' = []) /\
    spare s <= spare s' + 4 * (pages size - n) /\ half_same root (vm_mem s) (vm_mem s').
Proof.
  intros Hr Hsrc Hle. induction fuel as [|fuel IH]; intros s n B Hn Hsz Hf Hi; [lia|]. cbn [load_loop].
  destruct (Z.eqb_spec (size - 4096 * n) 0) as [E|Hne].
  { exists true, s. split; [done|]. split; [done|]. split; [left|split; [unfold pages; Z.div_mod_to_equations; lia|done]]. split; [done|]. replace size with (4096 * n) by lia.
    replace (pages (4096 * n)) with n by (unfold pages; Z.div_mod_to_equations; lia). done. }
  assert (Hpn : n + 1 <= pages size) by (unfold pages; Z.div_mod_to_equations; lia).
  destruct (free_frames s) as [|p free] eqn:Efr.
  { rewrite (mbind_Ret _ _ _ _ _ (alloc_empty _ _ _ B Efr)). cbn [Z.eqb]. exists false, s. split; [done|]. split; [done|]. split; [by right|split; [lia|done]]. }
  destruct (building_alloc v0 root s p free B Efr) as (s1 & E1 & B1 & F1 & M1 & D1 & Hp0 & Hpin & Hpne).
  rewrite (mbind_Ret _ _ _ _ _ E1). clear E1. rewrite (proj2 (Z.eqb_neq _ _) Hp0). unfold USER_CODE_VADDR in Hle |- *.
  change (2 ^ 47) with 140737488355328 in *.
  destruct (building_map v0 root s1 (0x400000 + 4096 * n) p B1 D1 Hp0 Hpin) as (s2 & E2 & B2 & D2 & Hfs & Hlf & Hs2 & Hh2).
  { apply user_half_slot, user_low. change (2 ^ 47) with 140737488355328. lia. }
  assert (Hsp : spare s <= spare s2 + 4) by (unfold spare in *; rewrite Efr; rewrite F1 in Hs2; simpl; lia). clear Hs2.
  rewrite (mbind_Ret _ _ _ _ _ E2). clear E2. cbv zeta. set (chunk := if PAGE_SIZE <? size - 4096 * n then PAGE_SIZE else size - 4096 * n).
  assert (Hc : 0 < chunk <= 4096 /\ chunk <= size - 4096 * n /\ (chunk < size - 4096 * n -> chunk = 4096))
    by (unfold chunk; change PAGE_SIZE with 4096; destruct (Z.ltb_spec 4096 (size - 4096 * n)); lia).
  clearbody chunk. pose proof D2 as (Hpf & _).
  set (m3 := page_bytes p (src + 4096 * n) chunk (vm_mem s2)).
  assert (Ew : (do_memcpy (ptv p) (src + 4096 * n) chunk ;;;
    (if chunk <? PAGE_SIZE then do_memset (u64 (p + hhdm_offset + chunk)) 0 (PAGE_SIZE - chunk) else mret tt)) s2 = Ret tt (set_vm_mem m3 s2)).
  { unfold m3, page_bytes, do_memcpy, do_memset. mstep. by destruct (chunk <? PAGE_SIZE). }
  destruct (page_bytes_spec p (src + 4096 * n) chunk (vm_mem s2) Hpf) as [Ho Hb]; [lia|apply (src_apart v0 src size); (done || lia)|]. fold m3 in Ho, Hb.
  destruct (building_write v0 root s2 m3 p B2 D2 Hpin Ho) as (B3 & Hl3 & Hh3).
  assert (Hh : half_same root (vm_mem s) m3) by (intros i Hx; rewrite Hh3, Hh2 by done; by rewrite M1).
  assert (Estep : forall k : M vm bool, (do_memcpy (ptv p) (src + 4096 * n) chunk ;;;
    (if chunk <? PAGE_SIZE then do_memset (u64 (p + hhdm_offset + chunk)) 0 (PAGE_SIZE - chunk) else mret tt) ;;; k) s2 = k (set_vm_mem m3 s2)).
  { intros k. revert Ew. unfold mbind, do_memcpy, mset. cbn [bindr]. destruct (chunk <? PAGE_SIZE); cbn; by intros [= ->]. }
  rewrite Estep. clear Ew Estep. rewrite u64_small by (unfold two64; change PAGE_SIZE with 4096; lia). change PAGE_SIZE with 4096.
  destruct Hlf as [Hlf|[Hnil _]].
  - assert (Hi3 : image v0 root src m3 (n + 1) (4096 * n + chunk)).
    { apply (image_step v0 root src s1 s2 m3 n p chunk); try done; try lia.
      - by rewrite M1.
      - unfold USER_CODE_VADDR. change (2 ^ 47) with 140737488355328. lia.
      - rewrite M1. exact Hpne.
      - intros b Hbb. rewrite Hb by done. destruct (Z.ltb_spec b chunk); [|done]. rewrite <- Z.add_assoc. apply (src_same v0 root s2 src size); [done|done|lia]. }
    destruct (Z.eq_dec chunk (size - 4096 * n)) as [Hlast|Hmore].
    + exists true, (set_vm_mem m3 s2). split.
      { replace (size - 4096 * n - chunk) with 0 by lia. destruct fuel; [lia|]. cbn [load_loop]. done. }
      split; [done|]. split; [left|split; [change (spare (set_vm_mem m3 s2)) with (spare s2); lia|done]]. split; [done|]. replace size with (4096 * n + chunk) at 2 by lia.
      replace (pages size) with (n + 1); [done|]. unfold pages. Z.div_mod_to_equations. lia.
    + destruct Hc as (Hc1 & Hc2 & Hc3). assert (chunk = 4096) by lia. subst chunk.
      replace (0x400000 + 4096 * n + 4096) with (USER_CODE_VADDR + 4096 * (n + 1)) by (unfold USER_CODE_VADDR; lia).
      replace (src + 4096 * n + 4096) with (src + 4096 * (n + 1)) by lia.
      replace (size - 4096 * n - 4096) with (size - 4096 * (n + 1)) by lia.
      destruct (IH (set_vm_mem m3 s2) (n + 1)) as (r & s' & E & B' & Hres & Hsp' & Hh'); [done|lia|lia|lia|by replace (4096 * (n + 1)) with (4096 * n + 4096) by lia|].
      exists r, s'. split; [exact E|]. split; [exact B'|]. split; [exact Hres|]. change (spare (set_vm_mem m3 s2)) with (spare s2) in Hsp'. split; [lia|].
      intros i Hx. rewrite Hh' by done. by apply Hh.
  - exists (if size - 4096 * n - chunk =? 0 then true else false), (set_vm_mem m3 s2). split; [|split; [done|split; [by right|split; [change (spare (set_vm_mem m3 s2)) with (spare s2); lia|done]]]].
    destruct fuel; [lia|]. cbn [load_loop]. destruct (size - 4096 * n - chunk =? 0); [done|].
    by rewrite (mbind_Ret _ _ _ _ _ (alloc_empty _ _ _ B3 Hnil)).
Qed.

(** The finished space: what has been changed outside the frames that were
    free are the tables [T] at most. *)
Record built (T : list Z) (v0 : vm) (root : Z) (s : vm) : Prop := {
  bt_wf : vm_wf hhdm_offset user_slot root s;
  bt_lock : vmm_lock s = 0;
  bt_pml4 : vm_pml4 s = vm_pml4 v0;
  bt_free : forall x, x ∈ free_frames s -> x ∈ free_frames v0;
  bt_outer : outer_but hhdm_offset T v0 s;
  bt_table : forall path x, tpath 3 user_slot path -> walk (vm_mem s) root path = Some x -> x ∈ free_frames v0;
  bt_page : forall u, user_half u -> present (leaf (vm_mem s) root u) = true ->
    ldata root s (entry_get_addr (leaf (vm_mem s) root u)) /\ entry_get_addr (leaf (vm_mem s) root u) ∈ free_frames v0
}.

Lemma building_built T v0 root s : building v0 root s -> built T v0 root s.
Proof. intros [? ? ? ? Ho ? ? ? ?]. split; try done. intros d Hd Hn _. by apply Ho. Qed.

Lemma built_keeps T v0 root s : vm_ready hhdm_offset v0 -> (forall x, x ∈ T -> kdata hhdm_offset v0 x) -> built T v0 root s ->
  keeps_but hhdm_offset T v0 s.
Proof. intros Hr HT [[Hok Hwf] Hl Hp4 Hfr Hos _ _]. apply pool_change_but; try done. apply Hwf. Qed.

(** It is seen from the kernel as the space of a process. *)
Lemma built_pspace T v0 root s : vm_ready hhdm_offset v0 -> (forall x, x ∈ T -> kdata hhdm_offset v0 x) -> built T v0 root s ->
  pspace hhdm_offset s root /\ (forall x, owns hhdm_offset s root x -> x ∈ free_frames v0).
Proof.
  intros Hr HT B. pose proof (built_keeps T v0 root s Hr HT B) as K. pose proof B as [Hwf Hl Hp4 Hfr Hos Ht Hpg].
  assert (Hk : forall x, x ∈ free_frames v0 -> x ∉ free_frames s -> kdata hhdm_offset s x).
  { intros x Hx Hn. pose proof (ready_pool _ v0 Hr) as (_ & _ & Hff). split; [by apply Hff|]. split; [done|].
    intros path Hp. rewrite Hp4, (outer_walk_but hhdm_offset T v0 s) by done. intros Hwk. by destruct (ktable_not_free hhdm_offset v0 path x Hr Hp Hwk). }
  split.
  - split; [exact Hwf| |].
    + intros path x Hp Hw. apply Hk; [by apply (Ht path)|]. destruct Hwf as [_ Hwf]. by apply (wf_table _ _ _ _ _ Hwf path x Hp Hw).
    + intros u Hu Hpr. destruct (Hpg u Hu Hpr) as [(_ & Hn & _) Hin]. by apply Hk.
  - intros x [(path & Hp & Hw)|(u & Hu & Hpr & <-)]; [by apply (Ht path)|by apply Hpg].
Qed.

(** ** A new PML4 *)

Lemma fresh_ok v0 root free kr src : vm_ready hhdm_offset v0 -> free_frames v0 = root :: free ->
  frame kr -> kr ∉ free_frames v0 ->
  exists s1 s2, alloc_frame v0 = Ret root s1 /\ root <> 0 /\ fresh_pml4 hhdm_offset kr root s1 = Ret tt s2 /\
    building v0 root s2 /\ image v0 root src (vm_mem s2) 0 0 /\
    (forall i, 256 <= i < 512 -> rd64 (vm_mem s2) (slot root i) = rd64 (vm_mem v0) (slot kr i)) /\ free_frames s2 = free.
Proof.
  intros Hr Hf Hkf Hkn. pose proof (ready_pool _ _ Hr) as Hpool.
  destruct (alloc_some _ v0 root free Hpool Hf) as (s1 & E1 & (Hok & Hnd & Hff) & F1 & M1 & Hroot & Hl & Hrf & Hr0 & Hrn).
  assert (Hne : kr <> root) by (intros ->; rewrite Hf in Hkn; apply Hkn; left).
  set (m1 := memset (ptv root) 0 4096 (vm_mem v0)). pose proof (only_memset hhdm_offset (vm_mem v0) root Hrf) as Ho1. fold m1 in Ho1.
  destruct (kernel_half hhdm_offset hhdm_nonneg (set_vm_mem m1 s1) kr root Hkf Hrf Hne) as (m2 & E2 & Ho2 & Hk & Hu).
  cbn [vm_mem set_vm_mem] in Ho2, Hk, Hu. exists s1, (set_vm_mem m2 s1). split; [done|]. split; [done|]. split.
  { unfold fresh_pml4. assert (Em : do_memset (ptv root) 0 PAGE_SIZE s1 = Ret tt (set_vm_mem m1 s1)) by (unfold do_memset, mset; by rewrite M1).
    rewrite (mbind_Ret _ _ _ _ _ Em). exact E2. }
  clear E2. assert (Hrfs : frames hhdm_offset [root]) by (intros x ->%list_elem_of_singleton; done).
  assert (Hkk : forall i, 0 <= i < 512 -> rd64 m1 (slot kr i) = rd64 (vm_mem v0) (slot kr i)).
  { intros i Hi. refine (only_slot hhdm_offset hhdm_nonneg (vm_mem v0) m1 [root] kr i Ho1 Hrfs Hkf _ Hi). by intros ?%list_elem_of_singleton. }
  assert (Hz : forall i, 0 <= i < 256 -> rd64 m2 (slot root i) = 0) by (intros i Hi; rewrite Hu by done; apply memset_slot; done || lia).
  assert (Hk2 : forall i, 256 <= i < 512 -> rd64 m2 (slot root i) = rd64 (vm_mem v0) (slot kr i)) by (intros i Hi; rewrite Hk, Hkk by lia; done).
  assert (Habs : forall i, 0 <= i < 512 -> user_slot i -> present (rd64 m2 (slot root i)) = false).
  { intros i Hi Hls. unfold user_slot in Hls. by rewrite Hz by lia. }
  assert (Hwk : forall path x, tpath 3 user_slot path -> walk m2 root path = Some x -> path = [] /\ x = root).
  { intros [|i path] x (_ & Hp & Hi) Hw; [by injection Hw as <-|]. apply Forall_cons in Hp as [Hi' _]. cbn [Vmm.walk] in Hw. by rewrite Habs in Hw. }
  assert (Hlf : forall u, user_half u -> leaf m2 root u = 0).
  { intros u Hu'. pose proof (upath_tpath user_slot u (user_half_slot u Hu')) as Hp. unfold Vmm.leaf.
    destruct (walk m2 root (upath u)) as [x|] eqn:E; [|done]. by destruct (Hwk _ x Hp E). }
  split; [|split; [split|split; [exact Hk2|exact F1]]].
  - split; cbn [vm_mem set_vm_mem].
    + split; [done|]. cbn [vm_mem vm_pmm set_vm_mem]. apply pt_wf_fresh; try done.
      * change (root ∉ free_frames s1). by rewrite F1.
      * apply Forall_forall. exact Hff.
    + cbn [vmm_lock set_vm_mem]. rewrite Hl. apply Hr.
    + exact Hroot.
    + intros x. change (x ∈ free_frames s1 -> x ∈ free_frames v0). rewrite F1, Hf. by right.
    + apply (only_outer hhdm_offset hhdm_nonneg v0 (set_vm_mem m2 s1) ([root] ++ [root]) Hr); [by eapply only_trans|].
      intros x Hx. rewrite Hf. cbn in Hx. set_solver.
    + intros d Hd b Hb. change (d ∈ free_frames s1) in Hd. assert (Hdr : d ∉ [root]) by (intros ->%list_elem_of_singleton; rewrite F1 in Hd; done).
      cbn [vm_mem set_vm_mem]. destruct (Hff d Hd) as [Hdf _]. rewrite (only_byte hhdm_offset hhdm_nonneg m1 m2 [root] d b) by done. by apply only_byte with (L := [root]).
    + intros path x Hp Hw. destruct (Hwk path x Hp Hw) as [_ ->]. rewrite Hf. left.
    + intros u Hu'. by rewrite Hlf.
    + intros a Ha. cbn [vm_mem set_vm_mem]. rewrite Ho2, Ho1; [done|..]; intros x ->%list_elem_of_singleton; apply Ha; rewrite Hf; left.
  - intros u Hx. lia.
  - intros u Hx _. cbn [vm_mem set_vm_mem]. by rewrite Hlf by (by apply user_low).
Qed.

(** ** The stack

    The page at 2^47 lies in PML4 slot 256, which the new space shares with
    the kernel's: it is mapped through the tables found there, the loader's
    direct map when that begins at 0xFFFF800000000000, or through new ones
    when the slot is empty. *)
Definition stack_tables (m : mem) (kr : Z) : list Z := tail (trail hhdm_offset m kr (upath USER_STACK_VADDR)).

(** The tables on the way down from the kernel's PML4 are different, and below
    it they are frames that nobody owns. *)
Definition stack_ok (v : vm) (kr : Z) : Prop :=
  NoDup (trail hhdm_offset (vm_mem v) kr (upath USER_STACK_VADDR)) /\ forall x, x ∈ stack_tables (vm_mem v) kr -> kdata hhdm_offset v x.

Lemma stack_upath : upath USER_STACK_VADDR = [256; 0; 0].
Proof. reflexivity. Qed.

Lemma stack_tables_slot m kr : stack_tables m kr =
  if present (rd64 m (slot kr 256)) then trail hhdm_offset m (entry_get_addr (rd64 m (slot kr 256))) [0; 0] else [].
Proof. unfold stack_tables. by rewrite stack_upath, trail_cons. Qed.

Lemma stack_free v kr : present (rd64 (vm_mem v) (slot kr 256)) = false -> stack_ok v kr.
Proof.
  intros E. unfold stack_ok. rewrite stack_tables_slot, stack_upath, trail_cons, E.
  split; [constructor; [by intros ?%elem_of_nil|constructor]|by intros x ?%elem_of_nil].
Qed.

(** The same tables in a memory that agrees on them. *)
Lemma stack_tables_same m m' kr kr' : rd64 m' (slot kr' 256) = rd64 m (slot kr 256) ->
  (forall x, x ∈ stack_tables m kr -> frame_same m m' x) -> stack_tables m' kr' = stack_tables m kr.
Proof.
  rewrite !stack_tables_slot. intros E Hs. rewrite E. destruct (present (rd64 m (slot kr 256))); [|done].
  apply (trail_same hhdm_offset m m' [0; 0]); [by repeat constructor|exact Hs].
Qed.

Lemma stack_trail m kr : trail hhdm_offset m kr (upath USER_STACK_VADDR) = kr :: stack_tables m kr.
Proof. unfold stack_tables. by destruct (trail_head hhdm_offset m kr (upath USER_STACK_VADDR)) as [l ->]. Qed.

(** The kernel's own changes keep them. *)
Lemma stack_kept v v' kr : vm_keeps hhdm_offset v v' -> rd64 (vm_mem v') (slot kr 256) = rd64 (vm_mem v) (slot kr 256) -> stack_ok v kr ->
  stack_tables (vm_mem v') kr = stack_tables (vm_mem v) kr /\ stack_ok v' kr.
Proof.
  intros K E [Hnd HT]. assert (ET : stack_tables (vm_mem v') kr = stack_tables (vm_mem v) kr)
    by (apply stack_tables_same; [exact E|]; intros x Hx; by apply (vk_data _ _ _ K), HT).
  split; [exact ET|]. unfold stack_ok. rewrite stack_trail, ET. rewrite stack_trail in Hnd. split; [exact Hnd|].
  intros x Hx. by apply (vk_data _ _ _ K), HT.
Qed.

(** A space that was built keeps its user half when the frames [L] change. *)
Lemma built_change T v0 root s s' L : building v0 root s -> only hhdm_offset (vm_mem s) (vm_mem s') (root :: L) ->
  (forall i, 0 <= i < 256 -> rd64 (vm_mem s') (slot root i) = rd64 (vm_mem s) (slot root i)) -> pool hhdm_offset s' ->
  (forall x, x ∈ free_frames s' -> x ∈ free_frames s) -> vm_pml4 s' = vm_pml4 s -> vmm_lock s' = 0 ->
  (forall x, x ∈ L -> frame x /\ (x ∈ T /\ x ∉ free_frames v0 \/ x ∈ free_frames s)) ->
  root ∈ free_frames v0 ->
  built T v0 root s' /\ (forall u, user_half u -> leaf (vm_mem s') root u = leaf (vm_mem s) root u) /\
  (forall d, ldata root s d -> d ∈ free_frames v0 -> frame_same (vm_mem s) (vm_mem s') d).
Proof.
  intros B Ho Htop (Hok & Hnd & Hff) Hfr Hp4 Hl HL Hrin. pose proof B as [[Hok0 [W1 W2 W3 W4 W5]] Hl0 Hp40 Hfr0 Hos Hre Ht Hpg Hon].
  assert (HLf : frames hhdm_offset (root :: L)) by (intros x [->|Hx]%elem_of_cons; [done|by apply HL]).
  assert (Hsame : forall d, frame d -> d <> root -> d ∉ L -> frame_same (vm_mem s) (vm_mem s') d).
  { intros d Hd Hne Hn b Hb. apply only_byte with (L := root :: L); try done. by intros [?|?]%elem_of_cons. }
  assert (Hkeep : forall d, frame d -> d <> root -> d ∈ free_frames v0 -> d ∉ free_frames s -> frame_same (vm_mem s) (vm_mem s') d).
  { intros d Hd Hne Hin Hn. apply Hsame; [done|done|]. intros Hx. destruct (HL d Hx) as [_ [[_ ?]|?]]; done. }
  assert (Htab : forall path x, tpath 3 user_slot path -> path <> [] -> walk (vm_mem s) root path = Some x -> frame_same (vm_mem s) (vm_mem s') x).
  { intros path x Hp Hne Hw. destruct (W2 path x Hp Hw). apply Hkeep; [done| |by apply (Ht path)|done].
    intros ->. apply Hne. by apply (W3 path [] root Hp (tpath_nil _) Hw). }
  assert (Hw : forall path, tpath 3 user_slot path -> walk (vm_mem s') root path = walk (vm_mem s) root path)
    by (intros path; apply walk_top; [intros i _ Hi; by apply Htop|exact Htab]).
  assert (Hlf : forall u, user_half u -> leaf (vm_mem s') root u = leaf (vm_mem s) root u)
    by (intros u Hu; apply (leaf_top hhdm_offset user_slot); [intros i _ Hi; by apply Htop|exact Htab|by apply user_half_slot]).
  assert (Hd : forall d, ldata root s d -> ldata root s' d).
  { intros d (D1 & D2 & D3). split; [done|]. split; [intros Hx; by apply D2, Hfr|]. intros path Hp. rewrite Hw by done. by apply D3. }
  split; [|split; [exact Hlf|]].
  - split; try done.
    + split; [done|]. split; [done| | |apply Forall_forall; exact Hff|done].
      * intros path t Hp. rewrite Hw by done. intros Hwk. destruct (W2 path t Hp Hwk) as [? Hn]. split; [done|]. intros Hx. by apply Hn, Hfr.
      * intros p1 p2 t Hp1 Hp2. rewrite !Hw by done. by apply W3.
    + by rewrite Hp4.
    + intros x Hx. by apply Hfr0, Hfr.
    + intros d Hdf Hn HT b Hb. rewrite (Hsame d); [by apply Hos|done|by intros ->| |done].
      intros Hx. destruct (HL d Hx) as [_ [[? _]|Hx']]; [done|]. by apply Hn, Hfr0.
    + intros path x Hp. rewrite Hw by done. by apply Ht.
    + intros u Hu. rewrite Hlf by done. intros Hpr. destruct (Hpg u Hu Hpr). split; [by apply Hd|done].
  - intros d (D1 & D2 & D3) Hin. apply Hkeep; [done| |done|done]. intros ->. by apply (D3 [] (tpath_nil _)).
Qed.

(** The tables of the stack, seen from the new PML4. *)
Lemma stack_seen v0 root kr s : vm_ready hhdm_offset v0 -> building v0 root s -> stack_ok v0 kr ->
  rd64 (vm_mem s) (slot root 256) = rd64 (vm_mem v0) (slot kr 256) ->
  stack_tables (vm_mem s) root = stack_tables (vm_mem v0) kr.
Proof.
  intros Hr B [_ HT] Hh. apply stack_tables_same; [done|]. intros x Hx. destruct (HT x Hx) as (Hxf & Hxn & _). by apply (bd_outer _ _ _ B).
Qed.

Lemma stack_map v0 root kr s p : vm_ready hhdm_offset v0 -> building v0 root s -> root ∈ free_frames v0 ->
  frame kr -> kr ∉ free_frames v0 -> stack_ok v0 kr ->
  (forall i, 256 <= i < 512 -> rd64 (vm_mem s) (slot root i) = rd64 (vm_mem v0) (slot kr i)) -> ldata root s p -> p <> 0 -> p ∈ free_frames v0 ->
  exists s', vmm_map_user hhdm_offset root USER_STACK_VADDR p USER_RW 1 s = Ret tt s' /\ built (stack_tables (vm_mem v0) kr) v0 root s' /\
    (forall u, user_half u -> leaf (vm_mem s') root u = leaf (vm_mem s) root u) /\
    (forall d, ldata root s d -> d ∈ free_frames v0 -> frame_same (vm_mem s) (vm_mem s') d) /\
    ((leaf (vm_mem s') root USER_STACK_VADDR = make_entry p 7 /\
      (present (rd64 (vm_mem v0) (slot kr 256)) = true -> leaf (vm_mem s') kr USER_STACK_VADDR = make_entry p 7)) \/ free_frames s' = []) /\
    spare s <= spare s' + 3.
Proof.
  intros Hr B Hrin Hkf Hkn Hst Hh (Hpf & Hpn & Hpt) Hp0 Hpin. pose proof Hst as [Hnd HT]. set (T := stack_tables (vm_mem v0) kr) in *.
  pose proof B as [[Hok [W1 W2 W3 W4 W5]] Hl Hp4 Hfr Hos Hre Ht Hpg Hon]. pose proof (frame_nonneg _ _ Hpf) as Hpp.
  assert (Hh256 : rd64 (vm_mem s) (slot root 256) = rd64 (vm_mem v0) (slot kr 256)) by (apply Hh; lia).
  assert (ET : trail hhdm_offset (vm_mem s) root (upath USER_STACK_VADDR) = root :: T) by (rewrite stack_trail; f_equal; by apply stack_seen).
  assert (Hpool : pool hhdm_offset s) by (split; [done|]; split; [done|]; intros x Hx; rewrite Forall_forall in W4; by apply W4).
  rewrite stack_trail in Hnd. fold T in Hnd. apply NoDup_cons in Hnd as [HkT HndT].
  assert (HTo : forall x, x ∈ T -> frame x /\ x ∉ free_frames v0) by (intros x Hx; by destruct (HT x Hx) as (? & ? & _)).
  assert (Hrn : root ∉ free_frames s) by (apply (W2 [] root (tpath_nil _) eq_refl)).
  assert (Hgood : good hhdm_offset s (root :: T)).
  { split; [constructor; [|done]; intros Hx; by apply (HTo root Hx)|]. intros x [->|Hx]%elem_of_cons; [done|].
    destruct (HTo x Hx) as [? Hn]. split; [done|]. intros Hx'. by apply Hn, Hfr. }
  rewrite <- ET in Hgood.
  destruct (map_trail hhdm_offset hhdm_nonneg s root USER_STACK_VADDR p USER_RW 1 Hpool Hl ltac:(lia) Hgood)
    as (s' & used & E & Hpool' & Hu & Hlen & Hroot & Hlock & Ho & Hlf & Htop & Hpr).
  rewrite ET in Ho, Hpr. cbn [tail app] in Ho, Hpr. change (user_flags USER_RW 1) with 7 in Hlf. change (PML4_INDEX USER_STACK_VADDR) with 256 in *.
  exists s'. split; [exact E|]. clear E.
  assert (HL : forall x, x ∈ T ++ used -> frame x /\ (x ∈ T /\ x ∉ free_frames v0 \/ x ∈ free_frames s)).
  { intros x [Hx|Hx]%elem_of_app; [destruct (HTo x Hx); split; [done|by left]|].
    destruct (used_fresh hhdm_offset s s' used x Hpool Hu Hx) as (? & ? & _). split; [done|by right]. }
  destruct (built_change T v0 root s s' (T ++ used) B Ho) as (Hb & Hlf' & Hfs'); try done.
  { intros i Hi. apply Htop; lia. }
  { intros x Hx. rewrite Hu. apply elem_of_app. by right. }
  split; [exact Hb|]. split; [exact Hlf'|]. split; [exact Hfs'|]. split.
  2:{ unfold spare. rewrite Hu, length_app. lia. }
  destruct Hlf as [Hlf|Hn]; [left; split; [exact Hlf|]|by right]. intros Hpk. rewrite <- Hlf.
  assert (Hk : rd64 (vm_mem s') (slot kr 256) = rd64 (vm_mem s') (slot root 256)).
  { rewrite Hh256 in Hpr. specialize (Hpr Hpk).
    assert (HLf : frames hhdm_offset (T ++ used)) by (intros x Hx; by apply HL).
    rewrite (only_slot hhdm_offset hhdm_nonneg _ _ _ root 256 Hpr); [|done|done| |lia].
    - rewrite (only_slot hhdm_offset hhdm_nonneg _ _ _ kr 256 Hpr); [|done|done| |lia].
      + rewrite Hh256. apply (same_slot hhdm_offset); [by apply Hos|lia].
      + intros [Hx|Hx]%elem_of_app; [done|]. destruct (used_fresh hhdm_offset s s' used kr Hpool Hu Hx) as (_ & Hx' & _). by apply Hkn, Hfr.
    - intros [Hx|Hx]%elem_of_app; [by apply (HTo root Hx)|]. by destruct (used_fresh hhdm_offset s s' used root Hpool Hu Hx) as (_ & ? & _). }
  unfold Vmm.leaf. rewrite stack_upath. cbn [Vmm.walk]. by rewrite Hk.
Qed.

(** ** The whole image *)

(** What the loader needs: the source in kernel memory, below 2^47 at its
    place, and a kernel PML4 in whose slot 256 the tables on the way to the
    stack belong to nobody. *)
Record load_pre (v0 : vm) (kr src size : Z) : Prop := {
  lp_ready : vm_ready hhdm_offset v0;
  lp_src : src_ok v0 src size;
  lp_size : 0 <= size /\ USER_CODE_VADDR + size + 4096 <= 2 ^ 47;
  lp_kernel : frame kr /\ kr ∉ free_frames v0;
  lp_stack : stack_ok v0 kr
}.

(** A loaded program. *)
Record loaded (v0 v' : vm) (kr root src size : Z) : Prop := {
  lo_build : built (stack_tables (vm_mem v0) kr) v0 root v';
  lo_image : image v0 root src (vm_mem v') (pages size) size;
  lo_stack : (exists sp, sp ∈ free_frames v0 /\ leaf (vm_mem v') root USER_STACK_VADDR = make_entry sp 7 /\
      (present (rd64 (vm_mem v0) (slot kr 256)) = true -> leaf (vm_mem v') kr USER_STACK_VADDR = make_entry sp 7)) \/ free_frames v' = []
}.

(** The image when the user half and its pages are as they were. *)
Lemma image_keep v0 root src (s s' : vm) n k : building v0 root s -> image v0 root src (vm_mem s) n k -> USER_CODE_VADDR + 4096 * n <= 2 ^ 47 ->
  (forall u, user_half u -> leaf (vm_mem s') root u = leaf (vm_mem s) root u) ->
  (forall d, ldata root s d -> d ∈ free_frames v0 -> frame_same (vm_mem s) (vm_mem s') d) ->
  image v0 root src (vm_mem s') n k.
Proof.
  intros B [Ip In] Hle Hlf Hfs.
  assert (Hl : forall u, 0 <= u < 2 ^ 47 -> leaf (vm_mem s') root u = leaf (vm_mem s) root u) by (intros u Hu; by apply Hlf, user_low).
  change (2 ^ 47) with 140737488355328 in *. split.
  - intros u Hu. assert (Hur : 0 <= u < 140737488355328) by (unfold USER_CODE_VADDR in *; lia). destruct (Ip u Hu) as (I1 & I2 & I3).
    unfold byte_at in *. rewrite Hl by done. split; [done|]. split; [done|]. rewrite <- I3.
    destruct (bd_page _ _ _ B u (user_low u Hur) I2) as [Hd Hin]. apply (Hfs _ Hd Hin), Z.mod_pos_bound. lia.
  - intros u Hu Hr. rewrite Hl by done. by apply In.
Qed.

Lemma load_image_gen v0 kr src size : load_pre v0 kr src size ->
  exists r v', load_image hhdm_offset kr src size v0 = Ret r v' /\ keeps_but hhdm_offset (stack_tables (vm_mem v0) kr) v0 v' /\
    outer_but hhdm_offset (stack_tables (vm_mem v0) kr) v0 v' /\
    ((r = 0 /\ free_frames v' = []) \/ (r <> 0 /\ loaded v0 v' kr r src size)) /\ spare v0 <= spare v' + 4 * pages size + 5.
Proof.
  intros [Hr Hsrc [Hs0 Hsz] [Hkf Hkn] Hst]. set (T := stack_tables (vm_mem v0) kr). unfold load_image. destruct (free_frames v0) as [|root free] eqn:Hf.
  { pose proof (alloc_none _ _ (ready_pool _ _ Hr) Hf) as Ea. rewrite (mbind_Ret _ _ _ _ _ Ea). exists 0, v0.
    split; [done|]. split; [by apply keeps_weaken|]. split; [done|]. split; [by left|]. unfold pages. Z.div_mod_to_equations. lia. }
  rewrite <- Hf in Hkn.
  destruct (fresh_ok v0 root free kr src Hr Hf Hkf Hkn) as (s1 & s2 & E1 & Hr0 & E2 & B2 & I2 & Hh2 & F2).
  assert (Hsp2 : spare v0 <= spare s2 + 1).
  { unfold spare. rewrite F2, Hf. simpl. lia. }
  rewrite (mbind_Ret _ _ _ _ _ E1), (proj2 (Z.eqb_neq _ _) Hr0), (mbind_Ret _ _ _ _ _ E2). clear E1 E2.
  destruct (load_loop_spec v0 root src size Hr Hsrc Hsz (S (Z.to_nat size)) s2 0 B2 ltac:(lia) ltac:(lia) ltac:(lia) I2) as (ok & s3 & E3 & B3 & Hres & Hsp3 & Hh3).
  change (4096 * 0) with 0 in E3. rewrite !Z.add_0_r, Z.sub_0_r in E3. rewrite (mbind_Ret _ _ _ _ _ E3). clear E3.
  assert (Hfin : forall s, built T v0 root s -> keeps_but hhdm_offset T v0 s /\ outer_but hhdm_offset T v0 s)
    by (intros s B; split; [apply (built_keeps T v0 root); [done|by apply Hst|done]|apply B]).
  assert (Hempty : free_frames s3 = [] -> exists r v', (if negb ok then mret 0 else
      stack_phys <- alloc_frame ;; if stack_phys =? 0 then mret 0 else
      vmm_map_user hhdm_offset root USER_STACK_VADDR stack_phys USER_RW 1 ;;; mret root) s3 = Ret r v' /\
      keeps_but hhdm_offset T v0 v' /\ outer_but hhdm_offset T v0 v' /\ ((r = 0 /\ free_frames v' = []) \/ (r <> 0 /\ loaded v0 v' kr r src size)) /\
      spare v0 <= spare v' + 4 * pages size + 5).
  { intros Hnil. exists 0, s3. destruct (Hfin s3 (building_built _ _ _ _ B3)) as [K O]. split; [|split; [exact K|split; [exact O|split; [by left|lia]]]].
    destruct ok; cbn [negb]; [|done]. by rewrite (mbind_Ret _ _ _ _ _ (alloc_empty _ _ _ B3 Hnil)). }
  destruct Hres as [[-> I3]|Hnil]; [|by apply Hempty].
  destruct (free_frames s3) as [|sp free3] eqn:Ef3; [by apply Hempty|]. clear Hempty. cbn [negb].
  destruct (building_alloc v0 root s3 sp free3 B3 Ef3) as (s4 & E4 & B4 & F4 & M4 & D4 & Hsp0 & Hspin & _).
  rewrite (mbind_Ret _ _ _ _ _ E4), (proj2 (Z.eqb_neq _ _) Hsp0). clear E4.
  destruct (stack_map v0 root kr s4 sp Hr B4) as (s5 & E5 & B5 & Hlf & Hfs & Hstk & Hsp5); try done.
  { rewrite Hf. left. }
  { intros i Hi. rewrite M4, Hh3 by done. by apply Hh2. }
  assert (Hsp4 : spare s3 = spare s4 + 1) by (unfold spare; rewrite Ef3, F4; simpl; lia).
  rewrite (mbind_Ret _ _ _ _ _ E5). clear E5. exists root, s5. destruct (Hfin s5 B5) as [K O]. split; [done|]. split; [exact K|]. split; [exact O|]. split; [right|lia].
  split; [done|]. split; [done| |].
  - apply (image_keep v0 root src s4 s5); try done; [by rewrite M4|].
    unfold pages, USER_CODE_VADDR in *. change (2 ^ 47) with 140737488355328 in *. Z.div_mod_to_equations. lia.
  - destruct Hstk as [Hstk|Hnil]; [left|by right]. by exists sp.
Qed.

(** A finished image, by byte offset. *)
Lemma image_program v0 root src m size : image v0 root src m (pages size) size -> 0 <= size ->
  (forall i, 0 <= i < 4096 * pages size ->
     byte_at m root (USER_CODE_VADDR + i) = if i <? size then rd8 (vm_mem v0) (src + i) else 0) /\
  (forall u, 0 <= u < 2 ^ 47 -> present (leaf m root u) = true <-> USER_CODE_VADDR <= u < USER_CODE_VADDR + 4096 * pages size).
Proof.
  intros [Ip In] Hs. split.
  - intros i Hi. destruct (Ip (USER_CODE_VADDR + i) ltac:(lia)) as (_ & _ & ->). by replace (USER_CODE_VADDR + i - USER_CODE_VADDR) with i by lia.
  - intros u Hu. split; [|by intros Hx; apply Ip]. intros Hpr. destruct (Z.lt_ge_cases u USER_CODE_VADDR); [rewrite In in Hpr by (done || lia); done|].
    destruct (Z.lt_ge_cases u (USER_CODE_VADDR + 4096 * pages size)); [lia|]. rewrite In in Hpr by (done || lia). done.
Qed.

Lemma pages_bound size : 0 <= size -> size <= 4096 * pages size < size + 4096.
Proof. intros. unfold pages. Z.div_mod_to_equations. lia. Qed.

(** ** Property *)

(** C20: loading a program builds a new address space out of free frames: the
    bytes of the image are at [USER_CODE_VADDR], the rest of the last page is
    zero and no other user page is mapped.  The stack page is mapped at 2^47
    through the tables of PML4 slot 256; when the kernel's slot is in use (the
    boot loader's direct map) these are the loader's tables, and the page
    appears in the kernel's address space too.  Every address space whose
    frames are not among these tables is kept.  The loader terminates, takes
    at most four frames for a page of the image and five more, and returns 0
    only when no frame is left; when the frames run out between the stack page
    and its tables it returns the PML4 all the same, without a stack. *)
Theorem load_image_correct (v0 : vm) (kr src size : Z) :
  load_pre v0 kr src size ->
  exists r v', load_image hhdm_offset kr src size v0 = Ret r v' /\ vm_ready hhdm_offset v' /\
    (forall root, pspace hhdm_offset v0 root -> (forall x, owns hhdm_offset v0 root x -> x ∉ stack_tables (vm_mem v0) kr) ->
       pspace hhdm_offset v' root /\ space_kept hhdm_offset v0 v' root) /\
    spare v0 <= spare v' + 4 * pages size + 5 /\
    ((r = 0 /\ free_frames v' = []) \/
     (r <> 0 /\ pspace hhdm_offset v' r /\ (forall x, owns hhdm_offset v' r x -> x ∈ free_frames v0) /\
      (forall i, 0 <= i < size -> byte_at (vm_mem v') r (USER_CODE_VADDR + i) = rd8 (vm_mem v0) (src + i)) /\
      (forall i, size <= i < 4096 * pages size -> byte_at (vm_mem v') r (USER_CODE_VADDR + i) = 0) /\
      (forall u, 0 <= u < 2 ^ 47 -> present (leaf (vm_mem v') r u) = true <->
         USER_CODE_VADDR <= u < USER_CODE_VADDR + 4096 * pages size) /\
      ((exists sp, sp ∈ free_frames v0 /\ leaf (vm_mem v') r USER_STACK_VADDR = make_entry sp 7 /\
          (present (rd64 (vm_mem v0) (slot kr 256)) = true -> leaf (vm_mem v') kr USER_STACK_VADDR = make_entry sp 7)) \/
       free_frames v' = []))).
Proof.
  intros Hp. pose proof Hp as [Hr _ [Hs0 Hs] _ [_ HT]]. destruct (load_image_gen v0 kr src size Hp) as (r & v' & E & K & _ & Hres & Hsp).
  exists r, v'. split; [exact E|]. clear E. split; [apply K|]. split.
  { intros root Hps Hn. destruct (pspace_keeps_but hhdm_offset _ v0 v' root K Hps Hn) as (? & ? & _). done. }
  split; [exact Hsp|]. destruct Hres as [Hz|(Hr0 & [B Hi Hst])]; [by left|right]. split; [done|].
  destruct (built_pspace _ v0 r v' Hr HT B) as [Hps Hown]. split; [done|]. split; [done|].
  destruct (image_program _ _ _ _ _ Hi Hs0) as [Hb Hm]. pose proof (pages_bound size Hs0).
  split; [|split; [|split; [exact Hm|exact Hst]]]; intros i Hx; rewrite Hb by lia; destruct (Z.ltb_spec i size); done || lia.
Qed.
End ElfFacts.

(** ** Witness: two pages loaded from the frames 24576 and 28672 *)

(** The direct map of the boot loader: three tables below slot 256. *)
Lemma loader_trail : stack_tables demo_hhdm loader_mem 20480 = [8192; 12288; 16384].
Proof. vm_compute. reflexivity. Qed.

Lemma loader_stack (v : @vm_t pmm_t) : stack_tables demo_hhdm (vm_mem v) 20480 = [8192; 12288; 16384] ->
  (forall x, x ∈ free_frames v -> x ∈ free_frames demo_space) ->
  (forall path x, tpath 3 heap_slot path -> walk demo_hhdm (vm_mem v) (vm_pml4 v) path = Some x -> x = 20480) -> stack_ok demo_hhdm v 20480.
Proof.
  intros ET Hf Hw. unfold stack_ok. rewrite stack_trail, ET. split; [apply (bool_decide_unpack _); vm_compute; exact Logic.I|].
  intros x Hx. assert (Hn : x ∉ free_frames demo_space).
  { intros [_ Hn]%demo_free_frame. apply Hn. by right. }
  split; [|split].
  - rewrite !elem_of_cons, elem_of_nil in Hx. destruct Hx as [->|[->|[->|[]]]]; by apply frame_small.
  - intros Hx'. by apply Hn, Hf.
  - intros path Hp Hk%Hw; [|done]. subst x. rewrite !elem_of_cons, elem_of_nil in Hx. destruct Hx as [?|[?|[?|[]]]]; discriminate.
Qed.

Lemma demo_stack : stack_ok demo_hhdm demo_space 20480.
Proof. apply loader_stack; [exact loader_trail|done|exact demo_kernel_walk]. Qed.

Definition demo_image : @vm_t pmm_t := set_vm_mem (wr8 loader_mem (demo_hhdm + 24576 + 3) 99) demo_space.

Lemma demo_image_same x : frame demo_hhdm x -> x <> 24576 -> frame_same demo_hhdm loader_mem (vm_mem demo_image) x.
Proof.
  intros Hx Hne b Hb. cbn [vm_mem demo_image set_vm_mem]. rewrite rd8_wr8_ne; [done|].
  rewrite frame_ptv by (done || exact demo_hhdm_nonneg).
  destruct (frames_apart demo_hhdm x 24576 Hx) as [?|?]; [by apply frame_small|done|lia|lia].
Qed.

Lemma demo_image_slot x i : frame demo_hhdm x -> x <> 24576 -> 0 <= i < 512 -> rd64 (vm_mem demo_image) (slot demo_hhdm x i) = rd64 loader_mem (slot demo_hhdm x i).
Proof. intros Hx Hne Hi. apply same_slot; [by apply demo_image_same|done]. Qed.

Lemma demo_not_free x : bool_decide (x ∈ reverse demo_frames) = false -> x ∉ free_frames demo_image.
Proof. intros Hx%bool_decide_eq_false_1. change (free_frames demo_image) with (free_pages demo_pool). by rewrite demo_pool_pages. Qed.

(** The kernel's PML4 maps nothing outside slot 256. *)
Lemma demo_image_top i : 0 <= i < 512 -> heap_slot i -> rd64 (vm_mem demo_image) (slot demo_hhdm 20480 i) = 0.
Proof.
  intros Hi Hs. rewrite demo_image_slot by (done || by apply frame_small). apply loader_mem_zero; [by apply frame_small|done| |].
  - apply (bool_decide_unpack _). vm_compute. exact Logic.I.
  - right. unfold heap_slot in Hs. lia.
Qed.

Lemma demo_image_pre : load_pre demo_hhdm demo_image 20480 (demo_hhdm + 24576) 5000.
Proof.
  pose proof demo_space_wf as [Hok [Hrf Hrt _ Hfr Hnd]].
  assert (Hk : frame demo_hhdm 20480) by (by apply frame_small).
  assert (Hn : 20480 ∉ free_frames demo_image) by (apply demo_not_free; vm_compute; reflexivity).
  assert (Hsrc : forall d, d = 24576 \/ d = 28672 -> frame demo_hhdm d /\ d ∉ free_frames demo_image).
  { intros d [->| ->]; (split; [by apply frame_small|apply demo_not_free; vm_compute; reflexivity]). }
  assert (Hr : vm_ready demo_hhdm demo_image).
  { split; [|reflexivity]. split; [exact Hok|]. apply pt_wf_fresh; [exact Hk|exact Hn|exact Hfr|exact Hnd|].
    intros i Hi Hs. by rewrite demo_image_top. }
  split; [exact Hr| | | |].
  - apply (frames_src demo_hhdm demo_hhdm_nonneg); [exact Hr|]. intros i Hi. exists (if i <? 4096 then 24576 else 28672), (if i <? 4096 then i else i - 4096). pose proof demo_hhdm_nonneg.
    destruct (Z.ltb_spec i 4096); (destruct (Hsrc 24576 ltac:(by left)) as [H1 N1]; destruct (Hsrc 28672 ltac:(by right)) as [H2 N2];
      split; [done|]; split; [done|]; split; [lia|]; rewrite frame_ptv by done; lia).
  - split; [lia|]. vm_compute. discriminate.
  - by split.
  - apply loader_stack; [vm_compute; reflexivity|done|].
    intros [|i path] x (_ & Hp & Hs) Hw; [by injection Hw as <-|]. apply Forall_cons in Hp as [Hi _]. cbn [walk] in Hw.
    change (vm_pml4 demo_image) with 20480 in Hw. by rewrite demo_image_top in Hw.
Qed.

Lemma demo_room : 200 <= spare demo_space.
Proof. vm_compute. discriminate. Qed.

(** Byte 3 of the image arrives at 0x400003, and the stack page, mapped
    through the tables of the direct map, appears at 2^47 in the kernel's
    address space as well. *)
Lemma load_image_correct_witness :
  exists r v', load_image demo_hhdm 20480 (demo_hhdm + 24576) 5000 demo_image = Ret r v' /\ r <> 0 /\ byte_at demo_hhdm (vm_mem v') r 0x400003 = 99 /\
    exists sp, leaf demo_hhdm (vm_mem v') r USER_STACK_VADDR = make_entry sp 7 /\ leaf demo_hhdm (vm_mem v') 20480 USER_STACK_VADDR = make_entry sp 7.
Proof.
  destruct (load_image_correct demo_hhdm demo_hhdm_nonneg demo_image 20480 (demo_hhdm + 24576) 5000 demo_image_pre) as (r & v' & E & _ & _ & Hsp & Hres).
  assert (Hne : free_frames v' <> []).
  { intros Hz. change (spare demo_image) with (spare demo_space) in Hsp. change (pages 5000) with 2 in Hsp. unfold spare at 2 in Hsp. rewrite Hz in Hsp.
    cbn [length] in Hsp. pose proof demo_room. lia. }
  exists r, v'. split; [exact E|]. destruct Hres as [[_ Hz]|(Hr & _ & _ & Hb & _ & _ & [(sp & _ & Hl & Hk)|Hz])]; [by destruct Hne| |by destruct Hne].
  split; [exact Hr|]. split; [etransitivity; [exact (Hb 3 ltac:(lia))|]; apply rd8_wr8_eq|].
  exists sp. split; [exact Hl|apply Hk; vm_compute; reflexivity].
Defined.
