(* ===== verification/ExecFacts.v ===== *)
(** * Facts about [sys_exec], and the stack after a fork *)

From stdpp Require Import base gmap list fin_maps.
From Stdlib Require Import ZArith Lia.
From S2P Require Import Prelude Mem Pmm Vmm PageTables Heap HeapFacts HeapKeeps KernelMem Chain Descriptors Sched SchedFacts.
From S2P Require Import Fork ForkFacts UserCopy Spaces Proc ProcFacts ElfFacts.

#[local] Opaque rd64 wr64 memcpy memset kmalloc kfree fork_address_space load_image.

(** ** Leaving for a thread that is queued behind itself *)

Section Cycle.
Context {H : Type} `{HK : KHeap H}.
#[local] Abbreviation sched := (@sched_t H).

(** [t] is the whole queue: its [next] is itself. *)
Definition self_queued (sc : sched) (t : Z) : Prop :=
  ready_queue sc = t /\ exists th, s_threads sc !! t = Some th /\ th_next th = t.

Lemma add_again (sc : sched) t th : sched_lock sc = 0 -> t <> 0 -> ready_queue sc = t -> s_threads sc !! t = Some th ->
  scheduler_add_thread t sc = Ret tt (mk_sched (s_heap sc) (<[t := set_th_next t th]> (s_threads sc)) (s_stack sc) (current_thread sc) t
    (idle_thread_ptr sc) (i32 (thread_count sc + 1)) 0 (s_tss sc) (current_process sc) (s_cr3 sc)).
Proof.
  intros Hl H0 Hq Ht. unfold scheduler_add_thread, lock_sched, unlock_sched. mstep. rewrite Hl. cbn [Z.eqb bindr ready_queue set_sched_lock].
  rewrite Hq. rewrite (on_update _ t th) by done. by destruct sc.
Qed.

Lemma exit_cycle (sc : sched) t th c : sched_lock sc = 0 -> t <> 0 -> current_thread sc <> 0 -> current_thread sc <> t ->
  s_threads sc !! current_thread sc = Some c -> s_threads sc !! t = Some th -> ready_queue sc = t -> th_next th = t ->
  exists sc', thread_exit sc = Gone sc' /\ current_thread sc' = t /\ s_cr3 sc' = th_cr3 th /\ s_heap sc' = s_heap sc /\
    s_threads sc' !! t = Some (set_th_state THREAD_STATE_RUNNING th) /\ ready_queue sc' = t.
Proof.
  intros Hl H0 Hc0 Hct Hc Ht Hq Hn. unfold thread_exit, exit_current, lock_sched, unlock_sched. mstep. rewrite Hl.
  cbn [Z.eqb bindr current_thread set_sched_lock]. unfold truthy. destruct (Z.eqb_spec (current_thread sc) 0) as [|_]; [done|]. cbn [negb].
  rewrite (on_update _ _ c) by done. cbn [bindr]. rewrite (on_update _ _ (set_th_state 0 c)) by (try done; apply lookup_insert_eq). cbn [bindr].
  cbn [s_threads set_threads]. rewrite insert_insert_eq. set (c' := set_th_next 0 (set_th_state 0 c)).
  set (h := <[current_thread sc := c']> (s_threads sc)).
  assert (Hh1 : h !! current_thread sc = Some c') by apply lookup_insert_eq.
  assert (Hh2 : h !! t = Some th) by (unfold h; by rewrite lookup_insert_ne).
  unfold no_return, schedule, pick_next, lock_sched, unlock_sched, switch_to. mstep. cbn [sched_lock set_sched_lock Z.eqb bindr current_thread set_threads].
  destruct (Z.eqb_spec (current_thread sc) 0) as [|_]; [done|]. cbn [ready_queue set_sched_lock set_threads]. rewrite Hq.
  destruct (Z.eqb_spec t 0) as [|_]; [done|]. rewrite (on_deref _ t th) by done. cbn [bindr]. rewrite Hn.
  rewrite (on_deref _ (current_thread sc) c') by done. cbn [bindr th_state c' set_th_next set_th_state]. change (0 =? THREAD_STATE_RUNNING) with false. cbn [andb bindr].
  rewrite (on_update _ t th) by done. cbn [bindr].
  rewrite (on_deref _ t (set_th_state THREAD_STATE_RUNNING th)) by (try done; apply lookup_insert_eq). cbn [bindr].
  destruct (truthy (th_process (set_th_state THREAD_STATE_RUNNING th))); cbn [bindr]; eexists; (split; [reflexivity|]); cbn;
    (split; [done|]; split; [done|]; split; [done|]; split; [apply lookup_insert_eq|done]).
Qed.

(** Queued by its creation and once more, the new thread runs next and stays
    its own successor. *)
Lemma add_cycle (sc sc2 : sched) t c th st : created sc sc2 t th st (s_heap sc2) -> t <> 0 -> current_thread sc <> 0 -> current_thread sc <> t ->
  s_threads sc !! current_thread sc = Some c ->
  exists sc3 sc4, scheduler_add_thread t sc2 = Ret tt sc3 /\ thread_exit sc3 = Gone sc4 /\ current_thread sc4 = t /\ s_cr3 sc4 = th_cr3 th /\
    s_heap sc4 = s_heap sc2 /\ self_queued sc4 t.
Proof.
  intros Hcr Ht0 Hc0 Hct Hc. unfold created in Hcr. set (th2 := set_th_next (ready_queue sc) th) in Hcr.
  assert (Ht2 : s_threads sc2 !! t = Some th2) by (rewrite Hcr; apply lookup_insert_eq).
  assert (Hf : sched_lock sc2 = 0 /\ ready_queue sc2 = t /\ current_thread sc2 = current_thread sc) by (by rewrite Hcr).
  destruct Hf as (Hl & Hq & Hcur).
  assert (Hc2 : s_threads sc2 !! current_thread sc2 = Some c) by (rewrite Hcur, Hcr; cbn [s_threads]; by rewrite lookup_insert_ne).
  clear Hcr. rewrite <- Hcur in Hc0, Hct. pose proof (add_again sc2 t th2 Hl Ht0 Hq Ht2) as Ea.
  set (sc3 := mk_sched _ _ _ _ _ _ _ _ _ _ _) in Ea.
  destruct (exit_cycle sc3 t (set_th_next t th2) c) as (sc4 & Ex & H1 & H2 & H3 & H4 & H5); try done.
  - subst sc3. cbn [current_thread s_threads]. by rewrite lookup_insert_ne.
  - apply lookup_insert_eq.
  - exists sc3, sc4. split; [exact Ea|]. split; [exact Ex|]. split; [done|]. split; [done|]. split; [done|]. split; [done|]. by eexists.
Qed.
End Cycle.

Section ExecFacts.
Context {P : Type} `{FrameAllocator P}.
Context (hhdm_offset : Z) (hhdm_nonneg : 0 <= hhdm_offset).
Context (junk : Z) (userspace_entry : Z).
#[local] Abbreviation vm := (@vm_t P).
#[local] Abbreviation heap := (@heap_t vm).
#[local] Abbreviation sched := (@sched_t heap).
#[local] Instance exec_mapper : PageMapper vm := Vmm_PageMapper hhdm_offset hhdm_nonneg.
#[local] Abbreviation leaf := (leaf hhdm_offset).
#[local] Abbreviation stack_of sc kr := (stack_tables hhdm_offset (vm_mem (vm_of sc)) kr).

(** The program in the address space [root]. *)
Definition program_at (v0 v : vm) (root data size : Z) : Prop :=
  pspace hhdm_offset v root /\
  (forall i, 0 <= i < size -> byte_at hhdm_offset (vm_mem v) root (USER_CODE_VADDR + i) = rd8 (vm_mem v0) (data + i)) /\
  (forall u, 0 <= u < 2 ^ 47 -> present (leaf (vm_mem v) root u) = true <-> USER_CODE_VADDR <= u < USER_CODE_VADDR + 4096 * pages size).

Lemma loaded_program v0 v1 kr root data size : load_pre hhdm_offset v0 kr data size ->
  loaded hhdm_offset v0 v1 kr root data size ->
  program_at v0 v1 root data size /\ forall x, owns hhdm_offset v1 root x -> x ∈ free_frames v0.
Proof.
  intros [Hr _ [Hs0 Hs] _ [_ HT]] [B Hi _]. destruct (built_pspace hhdm_offset _ v0 root v1 Hr HT B) as [Hps Hown]. split; [|done]. split; [done|].
  destruct (image_program _ _ _ _ _ _ Hi Hs0) as [Hb Hm]. pose proof (pages_bound size Hs0). split; [|exact Hm].
  intros i Hx. rewrite Hb by lia. destruct (Z.ltb_spec i size); done || lia.
Qed.

Lemma program_keeps v0 v1 v2 root data size : 0 <= size -> USER_CODE_VADDR + size + 4096 <= 2 ^ 47 ->
  vm_keeps hhdm_offset v1 v2 -> program_at v0 v1 root data size -> program_at v0 v2 root data size.
Proof.
  intros Hs0 Hs K (Hps & Hb & Hm). destruct (pspace_keeps hhdm_offset v1 v2 root K Hps) as (Hps' & [Hk _] & _). split; [done|].
  assert (Hl : forall u, 0 <= u < 2 ^ 47 -> leaf (vm_mem v2) root u = leaf (vm_mem v1) root u) by (intros u Hu; exact (proj1 (Hk u (user_low u Hu)))).
  pose proof (pages_bound size Hs0) as Hpg.
  change (2 ^ 47) with 140737488355328 in *. split; [|intros u Hu; rewrite Hl by done; by apply Hm].
  intros i Hi. rewrite <- Hb by done. assert (Hu : 0 <= USER_CODE_VADDR + i < 140737488355328) by (unfold USER_CODE_VADDR in *; lia).
  unfold byte_at. rewrite Hl by done. apply Hk; [by apply user_low| |apply Z.mod_pos_bound; lia]. apply Hm; [done|lia].
Qed.

(** [load_raw] run by a process: the heap view after the frames are taken. *)
Lemma load_view T (sc : sched) ls v1 : kh_view (s_heap sc) ls -> ls <> [] ->
  keeps_but hhdm_offset T (vm_of sc) v1 -> outer_but hhdm_offset T (vm_of sc) v1 -> (forall x, x ∈ T -> kdata hhdm_offset (vm_of sc) x) ->
  kh_view (set_h_vm v1 (s_heap sc)) ls.
Proof.
  intros Hv Hne K O HT. pose proof (view_ready hhdm_offset hhdm_nonneg _ _ Hv) as Hr.
  apply (view_vm hhdm_offset hhdm_nonneg); [done|done|apply K| |].
  - destruct (view_env _ _ (proj1 Hv)) as (_ & _ & He). pose proof (kb_count _ _ _ _ K) as Hn.
    change (pm_count (h_vm (s_heap sc))) with (length (free_frames (vm_of sc))) in He. lia.
  - intros a Ha. unfold vm_present. rewrite (kb_root _ _ _ _ K). f_equal. apply (outer_leaf_but hhdm_offset T); [exact Hr|exact O|exact HT|by apply heap_region_slot].
Qed.

(** Too few frames: the loader takes up to four for a page of the image and
    five more, and 76 are sure to be enough for the thread. *)
Definition load_short (sc : sched) (size : Z) : Prop := spare (vm_of sc) < 4 * pages size + 81.

(** The program is in the new address space [root], and the new thread [t]
    that will run it is at the head of the queue. *)
Record raw_ok (sc sc' : sched) (q : list Z) (ls : list (Z * Z)) (proc kr data size t root : Z) : Prop := {
  ro_program : program_at (vm_of sc) (vm_of sc') root data size;
  ro_owns : forall x, owns hhdm_offset (vm_of sc') root x -> x ∈ free_frames (vm_of sc);
  ro_thread : t <> 0 /\ t ∉ dom (s_threads sc);
  ro_created : exists th words, created sc sc' t th words (s_heap sc') /\ th_cr3 th = root /\ th_process th = proc;
  ro_keeps : keeps_but hhdm_offset (stack_of sc kr) (vm_of sc) (vm_of sc');
  ro_inv : sched_inv sc' (t :: q);
  ro_view : exists ls', kh_view (s_heap sc') ls' /\ forall x, x ∈ ls -> x ∈ ls'
}.

Lemma load_raw_gen (sc : sched) st hd np l rip q ls proc r kr data size :
  sched_inv sc q -> heap_ok sc ls -> ls <> [] -> proc <> 0 -> st !! proc = Some r -> load_pre hhdm_offset (vm_of sc) kr data size ->
  let run := load_raw hhdm_offset hhdm_nonneg junk userspace_entry kr data size proc (sc, mk_procs st hd np l rip) in
  (exists t root sc', run = Ret t (sc', mk_procs (<[proc := set_pml4_phys root r]> st) hd np l rip) /\ raw_ok sc sc' q ls proc kr data size t root) \/
  (load_short sc size /\
   (run = Fault \/ exists h' r', run = Ret 0 (set_heap h' sc, mk_procs (<[proc := r']> st) hd np l rip) /\
      kh_view h' ls /\ keeps_but hhdm_offset (stack_of sc kr) (vm_of sc) (h_vm h'))).
Proof.
  intros I [Hv Hd] Hne Hc0 Hp Hpre run. unfold run, load_raw. clear run.
  destruct (load_image_gen hhdm_offset hhdm_nonneg (vm_of sc) kr data size Hpre) as (root & v1 & E & K & O & Hres & Hsp).
  pose proof (load_view _ sc ls v1 Hv Hne K O (proj2 (lp_stack _ _ _ _ _ Hpre))) as Hv1. set (sc1 := set_heap (set_h_vm v1 (s_heap sc)) sc).
  pose proof (on_vm_ok _ sc (mk_procs st hd np l rip) _ _ _ E eq_refl) as Eo. fold sc1 in Eo. rewrite (mbind_Ret _ _ _ _ _ Eo). clear E Eo.
  destruct Hres as [[-> Hnil]|(Hr0 & Hload)].
  { right. split; [unfold load_short; unfold spare at 2 in Hsp; rewrite Hnil in Hsp; simpl in Hsp; lia|right]. exists (set_h_vm v1 (s_heap sc)), r. by rewrite insert_id. }
  rewrite (proj2 (Z.eqb_neq _ _) Hr0), (mbind_Ret _ _ _ _ _ (update_proc _ _ _ _ _ _ proc _ _ Hc0 Hp)).
  destruct (loaded_program _ _ _ _ _ _ Hpre Hload) as [Hprog Hown]. destruct Hpre as [Hr _ [Hs0 Hsz] _ _].
  assert (Hok1 : heap_ok sc1 ls) by (by split).
  assert (Hshort : thread_scarce (s_heap sc1) -> load_short sc size) by (intros Hx%(thread_scarce_spare hhdm_offset hhdm_nonneg _ ls Hv1 Hne); unfold load_short; assert (spare v1 < 76) by exact Hx; lia).
  destruct (thread_create_user_gen junk userspace_entry sc1 q ls USER_CODE_VADDR (USER_STACK_VADDR + PAGE_SIZE) root proc) as
    [(t & k & z & sc2 & ls' & E & Ht0 & Htd & _ & _ & Hls & Hcr & I2 & Hok2)|(Hsc & [E|(h2 & E & _ & Hok2)])]; [by apply sched_inv_heap|exact Hok1|left|right|right].
  - destruct (create_user_grows hhdm_offset hhdm_nonneg junk _ _ _ _ _ sc1 _ _ _ Hv1 E) as [G _]. destruct (G (kb_ready _ _ _ _ K)) as [K2 _]. clear G.
    exists t, root, sc2. split; [exact (on_s_ok _ _ _ _ _ E)|]. split; try done.
    + by apply (program_keeps _ v1).
    + intros x Hx. apply Hown. by apply (pspace_keeps hhdm_offset v1 (vm_of sc2) root K2 (proj1 Hprog)).
    + eexists _, _. split; [exact Hcr|done].
    + eapply keeps_but_trans; [exact K|by apply keeps_weaken].
    + exists ls'. split; [apply Hok2|exact Hls].
  - split; [by apply Hshort|left]. exact (on_s_fault _ _ _ E).
  - split; [by apply Hshort|right]. exists h2, (set_pml4_phys root r).
    split; [exact (on_s_ok _ _ _ _ _ E)|]. split; [apply Hok2|].
    destruct (create_user_grows hhdm_offset hhdm_nonneg junk _ _ _ _ _ sc1 _ _ _ Hv1 E) as [G _]. destruct (G (kb_ready _ _ _ _ K)) as [K2 _]. eapply keeps_but_trans; [exact K|by apply keeps_weaken].
Qed.

(** How [sys_exec] ends well: the caller's process runs the program from its
    first byte in a new thread and a new address space.  No address space
    changes, but for the tables on the way to the stack in the kernel's PML4
    [kr], and the blocks [ls] of the heap are still in use. *)
Record exec_ok (s s' : sched * proc_t) (ls : list (Z * Z)) (prr : process) (kr data size t root : Z) : Prop := {
  eo_program : program_at (vm_of (fst s)) (vm_of (fst s')) root data size;
  eo_thread : t <> 0 /\ (t ∉ dom (s_threads (fst s))) /\ current_thread (fst s') = t /\ s_cr3 (fst s') = root;
  eo_procs : processes (snd s') = <[current_process (fst s) := set_main_thread t (set_pml4_phys root prr)]> (processes (snd s));
  eo_queue : self_queued (fst s') t;
  eo_keeps : keeps_but hhdm_offset (stack_of (fst s) kr) (vm_of (fst s)) (vm_of (fst s'));
  eo_view : exists ls', kh_view (s_heap (fst s')) ls' /\ forall x, x ∈ ls -> x ∈ ls'
}.

(** How it fails: the caller goes on. *)
Definition exec_failed (sc : sched) (s' : sched * proc_t) (kr : Z) (ls : list (Z * Z)) : Prop :=
  s_threads (fst s') = s_threads sc /\ kh_view (s_heap (fst s')) ls /\ keeps_but hhdm_offset (stack_of sc kr) (vm_of sc) (vm_of (fst s')).

Lemma sys_exec_gen (sc : sched) st hd np rip q ls pl prr kr data size :
  proc_core hhdm_offset sc st hd q ls pl -> kh_view (s_heap sc) ls ->
  current_process sc <> 0 -> st !! current_process sc = Some prr -> is_Some (s_threads sc !! current_thread sc) ->
  load_pre hhdm_offset (vm_of sc) kr data size ->
  let s := (sc, mk_procs st hd np 0 rip) in
  let run := sys_exec hhdm_offset hhdm_nonneg junk userspace_entry kr data size s in
  (exists t root s', run = Gone s' /\ exec_ok s s' ls prr kr data size t root) \/
  (load_short sc size /\ (run = Fault \/ exists s', run = Ret tt s' /\ exec_failed sc s' kr ls)).
Proof.
  intros C Hv Hc0 Hp [c Hcur] Hpre s run. unfold run, s, sys_exec. clear run s.
  assert (Hne : ls <> []).
  { intros ->. assert (Hin : current_process sc ∈ ([] : list (Z * Z)).*1) by (apply (pc_dom _ _ _ _ _ _ _ C), elem_of_dom; eauto). by apply elem_of_nil in Hin. }
  rewrite (mbind_Ret _ _ _ _ _ (on_s_ok (mget current_process) sc _ _ _ eq_refl)). rewrite (proj2 (Z.eqb_neq _ _) Hc0).
  destruct (load_raw_gen sc st hd np 0 rip q ls (current_process sc) prr kr data size (pc_sched _ _ _ _ _ _ _ C) (conj Hv (pc_threads _ _ _ _ _ _ _ C)) Hne Hc0 Hp Hpre)
    as [(t & root & sc2 & E & [R1 R2 [Ht0 Htd] (th & words & Hcr & Hth & _) R5 R6 R7])|(Hs & [E|(h' & r' & E & Hv' & K)])].
  - left. rewrite (mbind_Ret _ _ _ _ _ E), (proj2 (Z.eqb_neq _ _) Ht0). clear E.
    assert (Hcp : current_process sc2 = current_process sc) by (by rewrite Hcr).
    rewrite (mbind_Ret _ _ _ _ _ (on_s_ok (mget current_process) sc2 _ _ _ eq_refl)), Hcp.
    rewrite (mbind_Ret _ _ _ _ _ (update_proc _ _ _ _ _ _ _ _ _ Hc0 (lookup_insert_eq _ _ _))), insert_insert_eq.
    assert (Hct : current_thread sc <> t) by (intros <-; apply Htd, elem_of_dom; by rewrite Hcur).
    destruct (add_cycle sc sc2 t c th words) as (sc3 & sc4 & Ea & Ex & Hc4 & Hcr4 & Hh4 & Hq4); [exact Hcr|done|apply C|done|done|].
    rewrite (mbind_Ret _ _ _ _ _ (on_s_ok _ _ _ _ _ Ea)). exists t, root, (sc4, mk_procs (<[current_process sc := set_main_thread t (set_pml4_phys root prr)]> st) hd np 0 rip).
    split; [unfold on_s, zoom; cbn [fst]; by rewrite Ex|]. rewrite Hth in Hcr4. split; cbn [fst snd processes]; unfold vm_of; try rewrite Hh4; done.
  - right. split; [done|left]. exact (mbind_Fault _ _ _ E).
  - right. split; [done|right]. rewrite (mbind_Ret _ _ _ _ _ E). by eexists.
Qed.


(** ** Properties *)

(** A successful [sys_exec] does not return: the processor runs a new
    thread of the calling process in a new address space that holds the
    program and nothing else, and the process record points to both; no
    other address space changes, apart from the tables through which the
    kernel's PML4 leads to the stack.  It returns only when fewer than 81 frames, and four for a page of the program,
    were free.  The new thread was queued twice: it
    is its own successor in the ready queue, so every thread that was ready
    before is no longer in it. *)
Theorem sys_exec_correct (s : sched * proc_t) q ls pl prr kr data size :
  proc_inv hhdm_offset hhdm_nonneg s q ls pl -> current_process (fst s) <> 0 -> processes (snd s) !! current_process (fst s) = Some prr ->
  is_Some (s_threads (fst s) !! current_thread (fst s)) -> load_pre hhdm_offset (vm_of (fst s)) kr data size ->
  let run := sys_exec hhdm_offset hhdm_nonneg junk userspace_entry kr data size s in
  (exists t root s', run = Gone s' /\ exec_ok s s' ls prr kr data size t root) \/
  (load_short (fst s) size /\
   (run = Fault \/ exists s', run = Ret tt s' /\ exec_failed (fst s) s' kr ls)).
Proof.
  destruct s as [sc [st hd np l rip]]. unfold proc_inv. cbn [fst snd processes process_list proc_lock]. intros (C & Hv & ->) Hc Hp Ht Hpre.
  by apply (sys_exec_gen sc st hd np rip q ls pl prr kr data size).
Qed.

(** The user stack lies in the kernel half (PML4 slot 256 of
    [USER_STACK_VADDR]), which [fork_address_space] shares: after a fork the
    stack page of parent and child is one frame, so neither has a stack of
    its own. *)
Theorem fork_shares_stack (s : vm) (parent child : Z) : fork_src hhdm_offset s parent child ->
  exists r s', fork_address_space hhdm_offset parent child s = Ret r s' /\
    (r = 0 -> forall v, USER_STACK_VADDR <= v < USER_STACK_VADDR + PAGE_SIZE -> leaf (vm_mem s') child v = leaf (vm_mem s') parent v).
Proof.
  intros Hpre. destruct (fork_gen hhdm_offset hhdm_nonneg s parent child Hpre) as (r & s' & used & E & Hr & Hres).
  exists r, s'. split; [exact E|]. clear E. intros -> v Hv. destruct Hres as [(_ & Hf & _)|[? _]]; [|discriminate].
  destruct Hf as (_ & _ & _ & Hk). pose proof Hpre as [Hpool [Hc Hcn] Hp _]. pose proof Hp as (Hpf & _).
  assert (Hi : PML4_INDEX v = 256).
  { unfold PML4_INDEX. change 0x1FF with 511. rewrite land_511, Z.shiftr_div_pow2 by lia. change (2 ^ 39) with 549755813888.
    unfold USER_STACK_VADDR in Hv. change PAGE_SIZE with 4096 in Hv. replace (v / 549755813888) with 256; [done|]. Z.div_mod_to_equations. lia. }
  assert (He : rd64 (vm_mem s') (slot hhdm_offset child 256) = rd64 (vm_mem s') (slot hhdm_offset parent 256)).
  { rewrite Hk by lia. symmetry. apply (only_slot hhdm_offset hhdm_nonneg (vm_mem s) (vm_mem s') (child :: used)); [apply Hr|by eapply used_frames|done| |lia].
    by apply (apart_ran hhdm_offset hhdm_nonneg s s' child used parent Hr). }
  unfold Vmm.leaf, upath. rewrite Hi. cbn [Vmm.walk]. rewrite He. done.
Qed.
End ExecFacts.

(** ** Witnesses *)

Lemma fork_shares_stack_witness :
  exists s r s', vmm_map_user demo_hhdm fork_root 0x400000 fork_frame 7 1 fork_vm0 = Ret tt s /\
    fork_address_space demo_hhdm fork_root fork_child s = Ret r s' /\
    (r = 0 -> leaf demo_hhdm (vm_mem s') fork_child 0x800000000ff8 = leaf demo_hhdm (vm_mem s') fork_root 0x800000000ff8).
Proof.
  destruct fork_parent as (s & E & Hpre & _).
  destruct (fork_shares_stack demo_hhdm demo_hhdm_nonneg s fork_root fork_child (pre_src _ _ _ _ Hpre)) as (r & s' & E' & Hs).
  exists s, r, s'. split; [exact E|]. split; [exact E'|]. intros Hr. apply (Hs Hr). vm_compute. split; [discriminate|reflexivity].
Defined.

Lemma demo_blocks_slot :
  (fun x => rd64 (vm_mem (h_vm (snd x))) (slot demo_hhdm 20480 256)) <$> returned (demo_blocks demo_heap) = Some (rd64 loader_mem (slot demo_hhdm 20480 256)).
Proof. vm_compute. reflexivity. Qed.

(** Frames enough for all the calls of the witnesses. *)
Lemma demo_blocks_spare : (fun x => 160 <=? spare (h_vm (snd x))) <$> returned (demo_blocks demo_heap) = Some true.
Proof. vm_compute. reflexivity. Qed.

Lemma demo_spare h : demo_blocks demo_heap = Ret (blk_a, blk_b, blk_c) h -> 160 <= spare (h_vm h).
Proof. intros E. pose proof demo_blocks_spare as Hs. rewrite E in Hs. cbn [returned fmap option_fmap option_map snd] in Hs. injection Hs as Hs%Z.leb_le. exact Hs. Qed.

(** A page of zeros in the frame 28672. *)
Lemma demo_exec_pre h : demo_blocks demo_heap = Ret (blk_a, blk_b, blk_c) h -> vm_keeps demo_hhdm demo_space (h_vm h) ->
  load_pre demo_hhdm (h_vm h) 20480 (demo_hhdm + 28672) 4000.
Proof.
  intros E K. pose proof demo_blocks_slot as Hs. rewrite E in Hs. cbn [returned fmap option_fmap option_map snd] in Hs. injection Hs as Hs. clear E.
  assert (Hn : forall x, bool_decide (x ∈ reverse demo_frames) = false -> x ∉ free_frames (h_vm h)).
  { intros x Hx Hin. apply (demo_not_free x Hx). by apply (vk_free _ _ _ K). }
  split; [apply K| |split; [lia|vm_compute; discriminate]| |exact (proj2 (stack_kept demo_hhdm demo_space (h_vm h) 20480 K Hs demo_stack))].
  - apply (frames_src demo_hhdm demo_hhdm_nonneg); [apply K|]. intros i Hi. exists 28672, i. pose proof demo_hhdm_nonneg. assert (Hf : frame demo_hhdm 28672) by (by apply frame_small).
    split; [done|]. split; [apply Hn; vm_compute; reflexivity|]. split; [lia|]. by rewrite frame_ptv.
  - split; [by apply frame_small|apply Hn; vm_compute; reflexivity].
Qed.

Lemma sys_exec_correct_witness :
  exists h ls, let s := (demo_sched h, demo_procs) in
    let run := sys_exec demo_hhdm demo_hhdm_nonneg 0 0x1000 20480 (demo_hhdm + 28672) 4000 s in
    (exists t root s', run = Gone s' /\ s_cr3 (fst s') = root /\ self_queued (fst s') t /\
       program_at demo_hhdm (h_vm h) (vm_of (fst s')) root (demo_hhdm + 28672) 4000) \/
    (load_short (fst s) 4000 /\
     (run = Fault \/ exists s', run = Ret tt s' /\ exec_failed demo_hhdm demo_hhdm_nonneg (fst s) s' 20480 ls)).
Proof.
  destruct demo_proc_inv as (h & ls & E & Hi & _ & K). exists h, ls.
  destruct (sys_exec_correct demo_hhdm demo_hhdm_nonneg 0 0x1000 _ _ _ _ (mk_process 1 demo_root blk_b 0) 20480 (demo_hhdm + 28672) 4000 Hi)
    as [(t & root & s' & Er & [O1 O2 O3 O4 _ _])|Hx].
  - discriminate.
  - apply lookup_insert_eq.
  - cbn. rewrite lookup_insert_ne by discriminate. rewrite lookup_insert_eq. eexists. reflexivity.
  - exact (demo_exec_pre h E K).
  - left. exists t, root, s'. split; [exact Er|]. split; [apply O2|]. split; [exact O4|exact O1].
  - right. exact Hx.
Defined.
