(* ===== verification/SyscallFacts.v ===== *)
(** * Facts about system calls *)

From stdpp Require Import base gmap list fin_maps.
From Stdlib Require Import ZArith Lia.
From S2P Require Import Prelude Mem Pmm Vmm PageTables Heap HeapFacts KernelMem Chain Descriptors Sched SchedFacts.
From S2P Require Import Timer Ipc IpcFacts KbdBuf Printf Serial Console ConsoleFacts Irq Fork ForkFacts UserCopy Proc ProcFacts Syscalls.

#[local] Opaque rd64 wr64 memcpy memset copy_to_user copy_from_user serial_putc console_putc.

(** ** [strcmp] against the strings the arrays hold *)

(** The characters before the terminator. *)
Fixpoint c_string (a : list Z) : list Z :=
  match a with
  | [] => []
  | x :: a' => if x =? 0 then [] else x :: c_string a'
  end.

Lemma i8_inj x y : 0 <= x < 256 -> 0 <= y < 256 -> i8 x - i8 y = 0 -> x = y.
Proof.
  intros Hx Hy. unfold i8, signed, two8. change (256 / 2) with 128. rewrite !Z.mod_small by lia.
  destruct (Z.ltb_spec x 128), (Z.ltb_spec y 128); lia.
Qed.

Lemma strcmp_spec (a b : list Z) :
  Forall (fun x => 0 <= x < 256) a -> Forall (fun x => 0 <= x < 256) b -> 0 ∈ a -> 0 ∈ b ->
  exists d, strcmp a b = Some d /\ (d = 0 <-> c_string a = c_string b).
Proof.
  revert b. induction a as [|x a IH]; intros b Ha Hb Ha0 Hb0; [by apply elem_of_nil in Ha0|].
  destruct b as [|y b]; [by apply elem_of_nil in Hb0|]. apply Forall_cons in Ha as [Hx Ha]. apply Forall_cons in Hb as [Hy Hb].
  cbn [strcmp c_string]. unfold truthy. destruct (Z.eqb_spec x 0) as [->|Hx0]; cbn [negb andb].
  - exists (i8 0 - i8 y). split; [done|]. destruct (Z.eqb_spec y 0) as [->|Hy0]; [by split|]. split; [|done].
    intros E%i8_inj; [by subst|lia|lia].
  - destruct (Z.eqb_spec x y) as [<-|Hxy].
    + apply elem_of_cons in Ha0 as [?|Ha0]; [done|]. apply elem_of_cons in Hb0 as [?|Hb0]; [done|].
      destruct (IH b Ha Hb Ha0 Hb0) as (d & E & Hd). exists d. split; [done|]. rewrite (proj2 (Z.eqb_neq _ _) Hx0). rewrite Hd. split; congruence.
    + exists (i8 x - i8 y). split; [done|]. split; [intros E%i8_inj; [done|lia|lia]|]. destruct (Z.eqb_spec y 0); [done|congruence].
Qed.

(** [strcmp] on two byte arrays that both have a terminator stops inside
    them and returns 0 exactly when they hold the same string. *)
Theorem strcmp_equal (a b : list Z) :
  Forall (fun x => 0 <= x < 256) a -> Forall (fun x => 0 <= x < 256) b -> 0 ∈ a -> 0 ∈ b ->
  exists d, strcmp a b = Some d /\ (d = 0 <-> c_string a = c_string b).
Proof. apply strcmp_spec. Qed.

Lemma strcmp_equal_witness : exists d, strcmp [105; 110; 105; 116; 0; 7] name_init = Some d /\ (d = 0 <-> [105; 110; 105; 116] = [105; 110; 105; 116]).
Proof.
  apply (strcmp_equal [105; 110; 105; 116; 0; 7] name_init).
  - repeat (apply Forall_cons_2; [lia|]). apply Forall_nil_2.
  - repeat (apply Forall_cons_2; [lia|]). apply Forall_nil_2.
  - do 4 right. left.
  - do 4 right. left.
Defined.

Section SyscallFacts.
Context {P : Type} `{FrameAllocator P}.
Context (hhdm_offset : Z) (hhdm_nonneg : 0 <= hhdm_offset).
Context (junk : Z) (userspace_entry kernel_cr3 : Z).
Context (lsr : list (Z * Z) -> nat -> Z) (scratch : list (Z * Z) -> Z) (polls : nat).
Context (init_start init_end shell_start shell_end : Z).
Context (c_addr kbuf_addr name_addr yield_rip : Z).
#[local] Abbreviation vm := (@vm_t P).
#[local] Abbreviation heap := (@heap_t vm).
#[local] Abbreviation sys := (@sys P).
#[local] Abbreviation ubyte := (ubyte hhdm_offset).
#[local] Abbreviation umapped := (umapped hhdm_offset).
#[local] Abbreviation handler := (syscall_handler hhdm_offset hhdm_nonneg junk userspace_entry kernel_cr3 lsr scratch polls
  init_start init_end shell_start shell_end c_addr kbuf_addr name_addr yield_rip).

(** ** The state by its parts *)

Definition mem_of (y : sys) : vm := vm_of (k_sched (y_kernel y)).
Definition put_mem (v : vm) (y : sys) : sys :=
  let sc := k_sched (y_kernel y) in
  mk_sys (set_sched (set_heap (set_h_vm v (s_heap sc)) sc) (y_kernel y)) (y_proc y) (y_uart y) (y_con y) (syscall_retval y).
Definition put_ret (r : Z) (y : sys) : sys := mk_sys (y_kernel y) (y_proc y) (y_uart y) (y_con y) (u64 r).
Definition put_io (u : uart) (c : con) (y : sys) : sys := mk_sys (y_kernel y) (y_proc y) u c (syscall_retval y).

Lemma put_mem_same (y : sys) : put_mem (mem_of y) y = y.
Proof. destruct y as [[[h st sk cu rq id ct lk ts cp cr] tm ip kb iq out] pr u c rv]. by destruct h. Qed.

Lemma on_mem_ok {A} (m : M vm A) (y : sys) a v' : m (mem_of y) = Ret a v' -> on_mem m y = Ret a (put_mem v' y).
Proof. intros E. unfold on_mem, on_proc, zoom. by rewrite (on_vm_ok _ _ _ _ _ _ E eq_refl). Qed.

(** The calling process, its page tables and the range it names. *)
Record caller (y : sys) (root : Z) : Prop := {
  ca_proc : exists r, current_process (k_sched (y_kernel y)) <> 0 /\
    processes (y_proc y) !! current_process (k_sched (y_kernel y)) = Some r /\ pml4_phys r = root
}.

Lemma current_root_ok (y : sys) root : caller y root -> current_root y = Ret (Some root) y.
Proof.
  intros [(r & H0 & Hr & <-)]. destruct y as [[sc tm ip kb iq out] [st hd np l rip] u c rv]. cbn in H0, Hr.
  unfold current_root, on_proc, zoom. cbn [y_kernel k_sched y_proc].
  rewrite (mbind_Ret _ _ _ _ _ (on_s_ok (mget current_process) sc _ _ _ eq_refl)). rewrite (proj2 (Z.eqb_neq _ _) H0).
  rewrite (mbind_Ret _ _ _ _ _ (deref_proc _ _ _ _ _ _ _ r H0 Hr)). done.
Qed.

Lemma from_user_ok (y : sys) root k u len : caller y root -> copy_pre hhdm_offset (mem_of y) root u k len ->
  exists r m' n, from_user hhdm_offset k u len y = Ret r (put_mem (set_vm_mem m' (mem_of y)) y) /\
    got hhdm_offset (vm_mem (mem_of y)) m' root u k n /\ copy_end hhdm_offset (vm_mem (mem_of y)) root u len n r.
Proof.
  intros Hc Hpre. destruct (from_user_spec hhdm_offset hhdm_nonneg (S (Z.to_nat len)) (mem_of y) root u k len Hpre ltac:(lia)) as (r & m' & n & E & Hg & He).
  exists r, m', n. split; [|done]. unfold from_user. rewrite (mbind_Ret _ _ _ _ _ (current_root_ok y root Hc)). by apply on_mem_ok.
Qed.

Lemma to_user_ok (y : sys) root k u len : caller y root -> copy_pre hhdm_offset (mem_of y) root u k len ->
  exists r m' n, to_user hhdm_offset u k len y = Ret r (put_mem (set_vm_mem m' (mem_of y)) y) /\
    put hhdm_offset (vm_mem (mem_of y)) m' root u k n /\ copy_end hhdm_offset (vm_mem (mem_of y)) root u len n r.
Proof.
  intros Hc Hpre. destruct (to_user_spec hhdm_offset hhdm_nonneg (S (Z.to_nat len)) (mem_of y) root u k len Hpre ltac:(lia)) as (r & m' & n & E & Hg & He).
  exists r, m', n. split; [|done]. unfold to_user. rewrite (mbind_Ret _ _ _ _ _ (current_root_ok y root Hc)). by apply on_mem_ok.
Qed.

Lemma load8_ok (y : sys) a : load8 a y = Ret (rd8 (vm_mem (mem_of y)) a) y.
Proof.
  unfold load8. etransitivity; [exact (on_mem_ok (mget (fun s => rd8 (vm_mem s) a)) y _ (mem_of y) eq_refl)|]. f_equal.
  destruct y as [[[h st sk cu rq id ct lk ts cp cr] tm ip kb iq out] pr u c rv]. by destruct h.
Qed.

(** The tables stay, and outside the pages of [root] only the [len] bytes of
    kernel memory at [a] may change. *)
Definition confined (m m' : mem) (root a len : Z) : Prop :=
  tables_kept hhdm_offset m m' root /\
  forall b, outside hhdm_offset m root b -> b < a \/ a + len <= b -> rd8 m' b = rd8 m b.

Lemma confined_trans m m1 m2 root a len : confined m m1 root a len -> confined m1 m2 root a len -> confined m m2 root a len.
Proof.
  intros [K1 B1] [K2 B2]. split; [by eapply kept_trans|]. intros b Ho Hb. rewrite B2; [by apply B1| |done]. by apply (kept_outside _ m m1).
Qed.

Lemma got_confined m m' root u k n len : n <= len -> got hhdm_offset m m' root u k n -> confined m m' root k len.
Proof.
  intros Hn (Hk & _ & Hg). split; [done|]. intros b _ Hb. rewrite Hg. destruct (Z.leb_spec k b), (Z.ltb_spec b (k + n)); simpl; done || lia.
Qed.

Lemma put_confined m m' root u k n a len : put hhdm_offset m m' root u k n -> confined m m' root a len.
Proof. intros (Hk & _ & Hb). split; [done|]. intros b Ho _. by apply Hb. Qed.

(** ** SYS_write *)

Lemma seqZ_snoc j : 0 <= j -> seqZ 0 (j + 1) = seqZ 0 j ++ [j].
Proof. intros Hj. by rewrite seqZ_app by lia. Qed.

(** [n] bytes of user memory. *)
Definition text_at (m : mem) (root u n : Z) : list Z := (fun i => ubyte m root (u + i)) <$> seqZ 0 n.

Lemma do_write_ok (y : sys) fd buf count t n : ready_within lsr n -> (n <= polls)%nat -> fd = 1 \/ fd = 2 -> 0 <= count ->
  fb_ok (y_con y) -> renders (y_con y) t ->
  let text := (fun i => rd8 (vm_mem (mem_of y)) (buf + i)) <$> seqZ 0 count in
  exists u c, do_write lsr scratch polls fd buf count y = Ret count (put_io u c y) /\
    sent (crlf text) (y_uart y) u /\ fb_ok c /\ renders c (term_puts text t).
Proof.
  intros Hr Hp Hfd Hc Hfb Ht text. unfold do_write.
  replace ((fd =? 1) || (fd =? 2)) with true by (destruct Hfd as [-> | ->]; done).
  set (f := fun i => rd8 (vm_mem (mem_of y)) (buf + i)) in *.
  destruct (mfor_rule (fun i y' => exists u c, y' = put_io u c y /\ sent (crlf (f <$> seqZ 0 i)) (y_uart y) u /\ fb_ok c /\
      renders c (term_puts (f <$> seqZ 0 i) t)) (Z.to_nat count) 0
    (fun i => c <- load8 (buf + i) ;; on_uart (serial_putc lsr scratch polls c) ;;; on_con (console_putc c)) y) as (y' & E & u & c & -> & Hs & Hok & Hre).
  - exists (y_uart y), (y_con y). split; [by destruct y|]. done.
  - intros j y1 Hj (u & c & -> & Hs & Hok & Hre). rewrite (mbind_Ret _ _ _ _ _ (load8_ok _ _)).
    change (rd8 (vm_mem (mem_of (put_io u c y))) (buf + j)) with (f j).
    destruct (serial_putc_sent lsr scratch n Hr polls Hp (f j) u) as (u1 & E1 & S1).
    destruct (console_putc_renders c _ (f j) Hok Hre) as (c1 & E2 & Sc & R1). exists (put_io u1 c1 y). split.
    { assert (Eu : on_uart (serial_putc lsr scratch polls (f j)) (put_io u c y) = Ret tt (put_io u1 c y)) by (unfold on_uart, zoom; cbn [y_uart put_io]; by rewrite E1).
      rewrite (mbind_Ret _ _ _ _ _ Eu). unfold on_con, zoom. cbn [y_con put_io]. by rewrite E2. }
    exists u1, c1. split; [done|]. rewrite seqZ_snoc, fmap_app by lia. cbn [fmap list_fmap]. split; [rewrite crlf_app; by eapply sent_app|]. split; [by eapply same_screen_ok|].
    unfold term_puts. rewrite fold_left_app. exact R1.
  - rewrite Z.add_0_l, Z2Nat.id in * by lia. exists u, c. split; [|done]. by rewrite (mbind_Ret _ _ _ _ _ E).
Qed.

Lemma got_text m m' root u k n : got hhdm_offset m m' root u k n -> (fun i => rd8 m' (k + i)) <$> seqZ 0 n = text_at m root u n.
Proof.
  intros (_ & _ & Hg). apply list_fmap_ext. intros j i Hi. apply lookup_seqZ in Hi as [-> Hj]. rewrite Hg. replace (u + (k + (0 + Z.of_nat j) - k)) with (u + (0 + Z.of_nat j)) by lia.
  zcases; simpl; done || lia.
Qed.

(** The state SYS_write leaves, by its parts. *)
Lemma sys_write_spec fuel (y : sys) root fd buf count t n :
  let len := if 4096 <? count then 4096 else count in
  caller y root -> fd = 1 \/ fd = 2 -> copy_pre hhdm_offset (mem_of y) root buf kbuf_addr len ->
  ready_within lsr n -> (n <= polls)%nat -> fb_ok (y_con y) -> renders (y_con y) t ->
  let m := vm_mem (mem_of y) in
  let text := text_at m root buf len in
  exists m' u c r, handler fuel SYS_write fd buf count y = Ret tt (put_ret r (put_io u c (put_mem (set_vm_mem m' (mem_of y)) y))) /\
    confined m m' root kbuf_addr len /\
    (forall v, 0 <= v < 2 ^ 47 -> umapped m root v -> ubyte m' root v = ubyte m root v) /\ fb_ok c /\
    (((forall v, buf <= v < buf + len -> umapped m root v) /\ r = len /\
      sent (crlf text) (y_uart y) u /\ renders c (term_puts text t)) \/
     ((exists v, buf <= v < buf + len /\ ~ umapped m root v) /\ r = -1 /\ u = y_uart y /\ c = y_con y)).
Proof.
  intros len Hc Hfd Hpre Hr Hp Hfb Ht m text. pose proof Hpre as (_ & _ & Hl & _ & _).
  change (handler fuel SYS_write fd buf count y) with (handle_write hhdm_offset lsr scratch polls kbuf_addr fd buf count y). unfold handle_write. fold len.
  destruct (from_user_ok y root kbuf_addr buf len Hc Hpre) as (r & m' & k & E & Hg & Hk & Hall & Hend). rewrite (mbind_Ret _ _ _ _ _ E). clear E.
  set (y1 := put_mem (set_vm_mem m' (mem_of y)) y). pose proof Hg as (_ & Hu & _).
  pose proof (got_confined m m' root buf kbuf_addr k len ltac:(lia) Hg) as Hkt.
  destruct Hend as [[-> ->]|(-> & Hlt & Hno)]; cbn [Z.eqb].
  - destruct (do_write_ok y1 fd kbuf_addr len t n Hr Hp Hfd Hl Hfb Ht) as (u & c & E & Hs & Hok & Hre). rewrite (mbind_Ret _ _ _ _ _ E).
    change (vm_mem (mem_of y1)) with m' in Hs, Hre. rewrite (got_text _ _ _ _ _ _ Hg) in Hs, Hre.
    exists m', u, c, len. split; [done|]. split; [exact Hkt|]. split; [exact Hu|]. split; [exact Hok|left]. by split; [exact Hall|].
  - exists m', (y_uart y), (y_con y), (-1). split; [by destruct y|]. split; [exact Hkt|]. split; [exact Hu|]. split; [exact Hfb|right].
    split; [|done]. exists (buf + k). split; [lia|done].
Qed.

(** C16: SYS_write copies at most 4096 bytes of the caller's buffer and puts
    them, in order, on the serial line and on the console; it returns their
    number and leaves user memory as it was.  When a page of the buffer is
    not mapped it returns -1 and prints nothing. *)
Theorem sys_write_correct fuel (y : sys) root fd buf count t n :
  let len := if 4096 <? count then 4096 else count in
  caller y root -> fd = 1 \/ fd = 2 -> copy_pre hhdm_offset (mem_of y) root buf kbuf_addr len ->
  ready_within lsr n -> (n <= polls)%nat -> fb_ok (y_con y) -> renders (y_con y) t ->
  let m := vm_mem (mem_of y) in
  let text := text_at m root buf len in
  exists y', handler fuel SYS_write fd buf count y = Ret tt y' /\
    (forall v, 0 <= v < 2 ^ 47 -> umapped m root v -> ubyte (vm_mem (mem_of y')) root v = ubyte m root v) /\
    (((forall v, buf <= v < buf + len -> umapped m root v) /\ syscall_retval y' = len /\
      sent (crlf text) (y_uart y) (y_uart y') /\ renders (y_con y') (term_puts text t)) \/
     ((exists v, buf <= v < buf + len /\ ~ umapped m root v) /\ syscall_retval y' = MINUS1 /\ y_uart y' = y_uart y /\ y_con y' = y_con y)).
Proof.
  intros len Hc Hfd Hpre Hr Hp Hfb Ht m text. pose proof Hpre as (_ & _ & Hl & _ & _).
  destruct (sys_write_spec fuel y root fd buf count t n Hc Hfd Hpre Hr Hp Hfb Ht) as (m' & u & c & r & E & _ & Hu & _ & Hres).
  eexists. split; [exact E|]. split; [exact Hu|]. destruct Hres as [(Hall & -> & Hs & Hre)|(Hno & -> & -> & ->)]; [left|right; by split].
  split; [exact Hall|]. split; [|by split]. cbn [put_ret syscall_retval]. apply u64_small. unfold two64. fold len. unfold len in *. destruct (Z.ltb_spec 4096 count); lia.
Qed.

(** ** SYS_read *)

Definition put_kbd (x : kbd_t) (y : sys) : sys :=
  mk_sys (mk_kernel (k_sched (y_kernel y)) (k_timer (y_kernel y)) (k_ipc (y_kernel y)) x (k_irq (y_kernel y)) (k_out (y_kernel y)))
    (y_proc y) (y_uart y) (y_con y) (syscall_retval y).

(** The state SYS_read leaves, by its parts. *)
Lemma sys_read_spec fuel (y : sys) root buf len ch q :
  caller y root -> kbd_rep (k_kbd (y_kernel y)) (ch :: q) -> 0 <= ch < 256 -> copy_pre hhdm_offset (mem_of y) root buf c_addr 1 ->
  let m := vm_mem (mem_of y) in
  exists kb m' r, handler (S fuel) SYS_read 0 buf len y = Ret tt (put_ret r (put_mem (set_vm_mem m' (mem_of y)) (put_kbd kb y))) /\
    kbd_rep kb q /\ confined m m' root c_addr 1 /\
    ((umapped m root buf /\ r = 1 /\
      forall v, 0 <= v < 2 ^ 47 -> umapped m root v -> ubyte m' root v = if v =? buf then ch else ubyte m root v) \/
     (~ umapped m root buf /\ r = -1 /\
      forall v, 0 <= v < 2 ^ 47 -> umapped m root v -> ubyte m' root v = ubyte m root v)).
Proof.
  intros Hc Hk Hch Hpre m. pose proof Hpre as (Hs & Hb0 & _ & Hb1 & Hkb).
  change (handler (S fuel) SYS_read 0 buf len y) with (do_read hhdm_offset c_addr yield_rip (S fuel) 0 buf y). unfold do_read. cbn [Z.eqb].
  destruct (kbd_get_spec _ _ Hk) as (kb & Ek & Hkr).
  assert (Eg : kbd_buf_get (fun y => k_kbd (y_kernel y)) put_kbd (kernel_yield yield_rip) (S fuel) y = Ret ch (put_kbd kb y)).
  { cbn [kbd_buf_get]. unfold mbind, zoom. by rewrite Ek. }
  unfold put_kbd in Eg at 1. rewrite (mbind_Ret _ _ _ _ _ Eg). clear Eg Ek. set (y1 := put_kbd kb y).
  set (m1 := wr8 m c_addr ch).
  assert (Es : store8 c_addr ch y1 = Ret tt (put_mem (set_vm_mem m1 (mem_of y)) y1)).
  { unfold store8. exact (on_mem_ok (mset (fun s => set_vm_mem (wr8 (vm_mem s) c_addr ch) s)) y1 tt _ eq_refl). }
  rewrite (mbind_Ret _ _ _ _ _ Es). clear Es. set (y2 := put_mem (set_vm_mem m1 (mem_of y)) y1).
  destruct (kbuf_write hhdm_offset (mem_of y) root c_addr 1 m1 Hs Hkb) as [Hkt Hku].
  { intros b Hb. unfold m1. apply rd8_wr8_ne. lia. }
  assert (Hpre2 : copy_pre hhdm_offset (mem_of y2) root buf c_addr 1).
  { split; [by apply (kept_uspace hhdm_offset (mem_of y) m1)|]. split; [done|]. split; [lia|]. split; [done|]. by apply (kept_kbuf hhdm_offset (mem_of y) m1). }
  destruct (to_user_ok y2 root c_addr buf 1) as (r & m2 & n & E & Hput & Hn & Hall & Hend); [by destruct Hc; split|exact Hpre2|].
  rewrite (mbind_Ret _ _ _ _ _ E). clear E. pose proof Hput as (P1 & P2 & _). change (vm_mem (mem_of y2)) with m1 in *.
  assert (Hum : forall v, 0 <= v < 2 ^ 47 -> umapped m1 root v <-> umapped m root v) by (intros v Hv; by apply kept_umapped).
  assert (Hub : forall v, 0 <= v < 2 ^ 47 -> umapped m root v -> ubyte m2 root v = if (buf <=? v) && (v <? buf + n) then ch else ubyte m root v).
  { intros v Hv Hm. rewrite P2 by (try done; by apply Hum). rewrite Hku by done. destruct (Z.leb_spec buf v), (Z.ltb_spec v (buf + n)); simpl; try done.
    replace (c_addr + (v - buf)) with c_addr by lia. unfold m1. rewrite rd8_wr8_eq. by apply Z.mod_small. }
  exists kb, m2. assert (Hk2 : confined m m2 root c_addr 1).
  { apply (confined_trans _ m1); [|by apply (put_confined _ _ _ _ _ _ _ _ Hput)]. split; [done|]. intros b _ Hb. unfold m1. apply rd8_wr8_ne. lia. }
  destruct Hend as [[-> ->]|(-> & Hlt & Hno)]; cbn [Z.eqb].
  - exists 1. split; [done|]. split; [exact Hkr|]. split; [exact Hk2|left]. split; [apply Hum; [lia|]; apply Hall; lia|].
    split; [done|]. intros v Hv Hm. rewrite Hub by done.
    destruct (Z.leb_spec buf v), (Z.ltb_spec v (buf + 1)), (Z.eqb_spec v buf); simpl; done || lia.
  - assert (n = 0) as -> by lia. exists (-1). split; [done|]. split; [exact Hkr|]. split; [exact Hk2|right].
    split; [rewrite <- (Hum buf) by lia; by rewrite Z.add_0_r in Hno|]. split; [done|]. intros v Hv Hm. rewrite Hub by done.
    destruct (Z.leb_spec buf v), (Z.ltb_spec v (buf + 0)); simpl; done || lia.
Qed.

(** C28: SYS_read on descriptor 0 with a character waiting takes the oldest
    one out of the keyboard buffer, stores it at the caller's address and
    returns 1; when that page is not mapped it returns -1 and the character
    is lost. *)
Theorem sys_read_correct fuel (y : sys) root buf len ch q :
  caller y root -> kbd_rep (k_kbd (y_kernel y)) (ch :: q) -> 0 <= ch < 256 -> copy_pre hhdm_offset (mem_of y) root buf c_addr 1 ->
  let m := vm_mem (mem_of y) in
  exists y', handler (S fuel) SYS_read 0 buf len y = Ret tt y' /\ kbd_rep (k_kbd (y_kernel y')) q /\
    ((umapped m root buf /\ syscall_retval y' = 1 /\
      forall v, 0 <= v < 2 ^ 47 -> umapped m root v -> ubyte (vm_mem (mem_of y')) root v = if v =? buf then ch else ubyte m root v) \/
     (~ umapped m root buf /\ syscall_retval y' = MINUS1 /\
      forall v, 0 <= v < 2 ^ 47 -> umapped m root v -> ubyte (vm_mem (mem_of y')) root v = ubyte m root v)).
Proof.
  intros Hc Hk Hch Hpre m. destruct (sys_read_spec fuel y root buf len ch q Hc Hk Hch Hpre) as (kb & m' & r & E & Hkr & _ & Hres).
  eexists. split; [exact E|]. split; [exact Hkr|]. destruct Hres as [(Hm & -> & Hb)|(Hm & -> & Hb)]; [left|right]; by split.
Qed.

(** ** SYS_get_binary *)

(** The program a name stands for. *)
Definition named (name : list Z) : option (Z * Z) :=
  if decide (name = c_string name_init) then Some (init_start, init_end)
  else if decide (name = c_string name_shell) then Some (shell_start, shell_end) else None.

(** An embedded program: kernel memory apart from user pages and from the
    array [name], with room for it at [buf]. *)
Definition program_ok (v : vm) (root buf start stop : Z) : Prop :=
  start <= stop /\ buf + (stop - start) <= 2 ^ 47 /\ kbuf hhdm_offset v root start (stop - start) /\
  (name_addr + 32 <= start \/ stop <= name_addr).

Definition send_binary (buf max start stop : Z) : M sys unit :=
  let size := u64 (stop - start) in
  if size <=? max then r <- to_user hhdm_offset buf start size ;; if r =? 0 then retval size else retval (-2) else retval (-2).

(** Over the table the loop is a lookup by name. *)
Lemma find_binary_named (name : list Z) buf max y : Forall (fun x => 0 <= x < 256) name -> 0 ∈ name ->
  find_binary hhdm_offset (embedded_binaries init_start init_end shell_start shell_end) name buf max y =
  match named (c_string name) with
  | Some (start, stop) => send_binary buf max start stop y
  | None => retval (-1) y
  end.
Proof.
  intros Hb H0. unfold embedded_binaries, named. cbn [find_binary].
  assert (Hn : forall n, Forall (fun x => 0 <= x < 256) n -> 0 ∈ n -> exists d, strcmp name n = Some d /\ (d = 0 <-> c_string name = c_string n)).
  { intros n Hn Hn0. exact (strcmp_spec name n Hb Hn H0 Hn0). }
  destruct (Hn name_init) as (d1 & E1 & H1); [repeat (apply Forall_cons_2; [lia|]); apply Forall_nil_2|do 4 right; left|].
  destruct (Hn name_shell) as (d2 & E2 & H2); [repeat (apply Forall_cons_2; [lia|]); apply Forall_nil_2|do 5 right; left|].
  unfold mbind at 1. rewrite E1. cbn [mopt bindr]. destruct (Z.eqb_spec d1 0) as [Hd1|Hd1].
  { rewrite decide_True by (by apply H1). done. }
  rewrite decide_False by (by rewrite <- H1). unfold mbind at 1. rewrite E2. cbn [mopt bindr]. destruct (Z.eqb_spec d2 0) as [Hd2|Hd2].
  - rewrite decide_True by (by apply H2). done.
  - rewrite decide_False by (by rewrite <- H2). done.
Qed.

Lemma c_string_app l : c_string (l ++ [0]) = c_string l.
Proof. induction l as [|x l IH]; [done|]. cbn [app c_string]. by rewrite IH. Qed.

Lemma named_in name start stop : named name = Some (start, stop) -> (start, stop) ∈ [(init_start, init_end); (shell_start, shell_end)].
Proof. unfold named. repeat case_decide; intros E; try done; injection E as <- <-; [left|right; left]. Qed.

(** The array [name] once its last byte is the terminator. *)
Definition name_copied (m m' : mem) (root uname : Z) : Prop :=
  tables_kept hhdm_offset m m' root /\
    (forall v, 0 <= v < 2 ^ 47 -> umapped m root v -> ubyte m' root v = ubyte m root v) /\
    (forall b, b < name_addr \/ name_addr + 32 <= b -> rd8 m' b = rd8 m b) /\
    (fun i => rd8 m' (name_addr + i)) <$> seqZ 0 32 = text_at m root uname 31 ++ [0].

Lemma name_terminated (v : vm) m1 root uname : uspace hhdm_offset v root -> kbuf hhdm_offset v root name_addr 32 ->
  got hhdm_offset (vm_mem v) m1 root uname name_addr 31 -> name_copied (vm_mem v) (wr8 m1 (name_addr + 31) 0) root uname.
Proof.
  intros Hs Hk Hg. pose proof (got_text _ _ _ _ _ _ Hg) as Ht. destruct Hg as (_ & _ & Hg).
  assert (Hout : forall b, b < name_addr \/ name_addr + 32 <= b -> rd8 (wr8 m1 (name_addr + 31) 0) b = rd8 (vm_mem v) b).
  { intros b Hb. rewrite rd8_wr8_ne by lia. rewrite Hg. destruct (Z.leb_spec name_addr b), (Z.ltb_spec b (name_addr + 31)); simpl; done || lia. }
  destruct (kbuf_write hhdm_offset v root name_addr 32 _ Hs Hk Hout) as [Hkt Hku]. split; [done|]. split; [done|]. split; [done|].
  rewrite <- Ht. change 32 with (31 + 1). rewrite seqZ_snoc, fmap_app by lia. cbn [fmap list_fmap]. rewrite rd8_wr8_eq. f_equal.
  apply list_fmap_ext. intros j i Hi. apply lookup_seqZ in Hi as [-> Hj]. rewrite rd8_wr8_ne by lia. done.
Qed.

Lemma text_bytes m root u n : Forall (fun x => 0 <= x < 256) (text_at m root u n).
Proof. apply Forall_fmap, Forall_forall. intros i _. apply rd8_range. Qed.

(** What SYS_get_binary leaves in user memory: the first [n] bytes at [buf]
    are those of the program. *)
Definition delivered (m m' : mem) (root buf start n : Z) : Prop :=
  forall v, 0 <= v < 2 ^ 47 -> umapped m root v ->
    ubyte m' root v = if (buf <=? v) && (v <? buf + n) then rd8 m (start + (v - buf)) else ubyte m root v.

Lemma delivered_none m m' root buf start : (forall v, 0 <= v < 2 ^ 47 -> umapped m root v -> ubyte m' root v = ubyte m root v) ->
  delivered m m' root buf start 0.
Proof. intros Hu v Hv Hm. rewrite Hu by done. destruct (Z.leb_spec buf v), (Z.ltb_spec v (buf + 0)); simpl; done || lia. Qed.

(** The outcome for the program at [start]. *)
Definition served (m m' : mem) (ret root buf max start stop : Z) : Prop :=
  exists n, delivered m m' root buf start n /\
    ((n = stop - start /\ stop - start <= max /\ ret = n /\ (forall v, buf <= v < buf + n -> umapped m root v)) \/
     (0 <= n /\ n <= stop - start /\ ret = u64 (-2) /\
       ((max < stop - start /\ n = 0) \/ (n < stop - start /\ ~ umapped m root (buf + n))))).

Lemma send_binary_ok (y : sys) m root uname buf max start stop :
  caller y root -> uspace hhdm_offset (mem_of y) root -> name_copied m (vm_mem (mem_of y)) root uname ->
  0 <= buf -> program_ok (mem_of y) root buf start stop ->
  exists m' r, send_binary buf max start stop y = Ret tt (put_ret r (put_mem (set_vm_mem m' (mem_of y)) y)) /\
    confined (vm_mem (mem_of y)) m' root name_addr 32 /\ served m m' (u64 r) root buf max start stop.
Proof.
  intros Hc Hs (Hkt & Hku & Hout & _) Hb (Hle & Hfit & Hk & Hap). unfold send_binary.
  rewrite (u64_small (stop - start)) by (unfold two64; change (2 ^ 47) with 140737488355328 in *; lia).
  destruct (Z.leb_spec (stop - start) max) as [Hmax|Hmax].
  2: { exists (vm_mem (mem_of y)), (-2). split; [rewrite set_mem_same, put_mem_same; done|]. split; [by split|].
       exists 0. split; [by apply delivered_none|]. right. split; [lia|]. split; [lia|]. split; [done|]. by left. }
  destruct (to_user_ok y root start buf (stop - start) Hc) as (r & m2 & n & E & Hput & Hn & Hall & Hend).
  { split; [done|]. split; [lia|]. split; [lia|]. by split. }
  rewrite (mbind_Ret _ _ _ _ _ E). clear E. pose proof Hput as (P1 & P2 & _). pose proof (put_confined _ _ _ _ _ _ name_addr 32 Hput) as Hcf.
  assert (Hum : forall v, 0 <= v < 2 ^ 47 -> umapped (vm_mem (mem_of y)) root v <-> umapped m root v) by (intros v Hv; by apply kept_umapped).
  assert (Hd : delivered m m2 root buf start n).
  { intros v Hv Hm. rewrite P2 by (try done; by apply Hum). destruct (Z.leb_spec buf v), (Z.ltb_spec v (buf + n)); simpl; [|by apply Hku..].
    apply Hout. lia. }
  destruct Hend as [[-> ->]|(-> & Hlt & Hno)]; cbn [Z.eqb].
  - exists m2, (stop - start). split; [done|]. split; [exact Hcf|]. exists (stop - start). split; [exact Hd|]. left. split; [done|]. split; [done|]. split.
    { apply u64_small. unfold two64. change (2 ^ 47) with 140737488355328 in *. lia. }
    intros v Hv. apply Hum; [lia|]. by apply Hall.
  - exists m2, (-2). split; [done|]. split; [exact Hcf|]. exists n. split; [exact Hd|]. right. split; [lia|]. split; [lia|]. split; [done|]. right. split; [done|].
    rewrite <- Hum by lia. done.
Qed.

(** The state SYS_get_binary leaves, by its parts. *)
Lemma get_binary_spec fuel (y : sys) root uname buf max :
  caller y root -> copy_pre hhdm_offset (mem_of y) root uname name_addr 31 -> kbuf hhdm_offset (mem_of y) root name_addr 32 -> 0 <= buf ->
  (forall start stop, (start, stop) ∈ [(init_start, init_end); (shell_start, shell_end)] -> program_ok (mem_of y) root buf start stop) ->
  let m := vm_mem (mem_of y) in
  exists m' r, handler fuel SYS_get_binary uname buf max y = Ret tt (put_ret r (put_mem (set_vm_mem m' (mem_of y)) y)) /\
    confined m m' root name_addr 32 /\
    let rejected := r = -1 /\ delivered m m' root buf 0 0 in
    (((exists v, uname <= v < uname + 31 /\ ~ umapped m root v) /\ rejected) \/
     ((forall v, uname <= v < uname + 31 -> umapped m root v) /\
      match named (c_string (text_at m root uname 31)) with
      | None => rejected
      | Some (start, stop) => served m m' (u64 r) root buf max start stop
      end)).
Proof.
  intros Hc Hpre Hk32 Hb Hprog m. pose proof Hpre as (Hs & _).
  change (handler fuel SYS_get_binary uname buf max y) with
    (handle_get_binary hhdm_offset init_start init_end shell_start shell_end name_addr uname buf max y). unfold handle_get_binary.
  destruct (from_user_ok y root name_addr uname 31 Hc Hpre) as (r & m1 & n & E & Hg & Hn & Hall & Hend). rewrite (mbind_Ret _ _ _ _ _ E). clear E.
  set (y1 := put_mem (set_vm_mem m1 (mem_of y)) y). pose proof (got_confined m m1 root uname name_addr n 32 ltac:(lia) Hg) as Hcf1.
  destruct Hend as [[-> ->]|(-> & Hlt & Hno)]; cbn [Z.eqb negb].
  2: { exists m1, (-1). split; [done|]. split; [exact Hcf1|]. left. split; [exists (uname + n); split; [lia|done]|]. split; [done|]. apply delivered_none. apply Hg. }
  set (m2 := wr8 m1 (name_addr + 31) 0). pose proof (name_terminated (mem_of y) m1 root uname Hs Hk32 Hg) as Hcp. fold m2 in Hcp.
  set (y2 := put_mem (set_vm_mem m2 (mem_of y1)) y1).
  assert (Es : store8 (name_addr + 31) 0 y1 = Ret tt y2) by exact (on_mem_ok (mset (fun s => set_vm_mem (wr8 (vm_mem s) (name_addr + 31) 0) s)) y1 tt _ eq_refl).
  rewrite (mbind_Ret _ _ _ _ _ Es). clear Es. pose proof Hcp as (Hkt & Hku & Hout & Hname).
  assert (Hcf2 : confined m m2 root name_addr 32) by (split; [exact Hkt|intros b _ Hb'; by apply Hout]).
  assert (Er : read_name name_addr y2 = Ret (text_at m root uname 31 ++ [0]) y2).
  { unfold read_name. etransitivity; [exact (on_mem_ok (mget (fun s => (fun i => rd8 (vm_mem s) (name_addr + i)) <$> seqZ 0 32)) y2 _ (mem_of y2) eq_refl)|].
    change (vm_mem (mem_of y2)) with m2. by rewrite Hname. }
  rewrite (mbind_Ret _ _ _ _ _ Er). clear Er.
  rewrite find_binary_named by (first [apply Forall_app; split; [apply text_bytes|repeat constructor; lia] | apply elem_of_app; right; left]).
  rewrite c_string_app. destruct (named _) as [[start stop]|] eqn:En.
  - pose proof (Hprog _ _ (named_in _ _ _ En)) as (P1 & P2 & P3 & P4).
    destruct (send_binary_ok y2 m root uname buf max start stop) as (m' & r & E & Hcf & Hsv); [by destruct Hc; split| |exact Hcp|done| |].
    + by apply (kept_uspace hhdm_offset (mem_of y) m2).
    + split; [done|]. split; [done|]. split; [by apply (kept_kbuf hhdm_offset (mem_of y) m2)|done].
    + exists m', r. split; [exact E|]. split; [by apply (confined_trans _ m2)|]. right. by split.
  - exists m2, (-1). split; [done|]. split; [exact Hcf2|]. right. split; [exact Hall|]. split; [done|]. by apply delivered_none.
Qed.

(** C29: SYS_get_binary copies the name from the caller, looks the program up
    and copies its bytes to the caller's buffer, nothing else of user memory
    changing; it returns the program's size.  An unknown name or a name that
    is not in mapped memory gives -1 and changes nothing; a program larger
    than [max], or a buffer that leaves mapped memory, gives -2, in the first
    case with nothing copied and in the second with the bytes up to the first
    page that is missing. *)
Theorem get_binary_correct fuel (y : sys) root uname buf max :
  caller y root -> copy_pre hhdm_offset (mem_of y) root uname name_addr 31 -> kbuf hhdm_offset (mem_of y) root name_addr 32 -> 0 <= buf ->
  (forall start stop, (start, stop) ∈ [(init_start, init_end); (shell_start, shell_end)] -> program_ok (mem_of y) root buf start stop) ->
  let m := vm_mem (mem_of y) in
  let rejected y' := syscall_retval y' = MINUS1 /\ delivered m (vm_mem (mem_of y')) root buf 0 0 in
  exists y', handler fuel SYS_get_binary uname buf max y = Ret tt y' /\
    (((exists v, uname <= v < uname + 31 /\ ~ umapped m root v) /\ rejected y') \/
     ((forall v, uname <= v < uname + 31 -> umapped m root v) /\
      match named (c_string (text_at m root uname 31)) with
      | None => rejected y'
      | Some (start, stop) => served m (vm_mem (mem_of y')) (syscall_retval y') root buf max start stop
      end)).
Proof.
  intros Hc Hpre Hk32 Hb Hprog m rejected.
  destruct (get_binary_spec fuel y root uname buf max Hc Hpre Hk32 Hb Hprog) as (m' & r & E & _ & Hres). eexists. split; [exact E|].
  destruct Hres as [(Hno & -> & Hd)|(Hall & Hres)]; [left; by split|right]. split; [exact Hall|].
  fold m in Hres. destruct (named _) as [[start stop]|]; [exact Hres|]. destruct Hres as [-> Hd]. by split.
Qed.

(** ** SYS_nanosleep *)

#[local] Instance sleep_mapper : PageMapper vm := Vmm_PageMapper hhdm_offset hhdm_nonneg.

Lemma sleep_until_past (s : @Sched.sched_t heap * timer_t) d : timer_lock (snd s) = 0 -> d <= ticks (snd s) -> sleep_until junk d s = Ret tt s.
Proof.
  destruct s as [sc [tq ti tl te]]. cbn [snd timer_lock ticks]. intros -> Hd. unfold sleep_until, sleep_enqueue, lock_timer, unlock_timer, on_t, spin_lock, spin_unlock.
  mstep. cbn [timer_lock snd ticks set_timer_lock Z.eqb]. mstep. cbn [ticks snd]. replace (d <=? ticks _) with true by (symmetry; by apply Z.leb_le). done.
Qed.

(** C40: SYS_nanosleep waits the least number of 10 ms ticks that covers the
    interval asked for, as long as adding the rounding term does not overflow;
    an interval in the last 10 ms below 2^64 ns overflows and the call returns
    at once. *)
Theorem nanosleep_ticks fuel (y : sys) ns a2 a3 :
  let now := ticks (k_timer (y_kernel y)) in
  0 <= ns < two64 -> 0 <= now < 2 ^ 63 -> timer_lock (k_timer (y_kernel y)) = 0 ->
  (ns < two64 - 9999999 -> exists w, (w - 1) * 10000000 < ns <= w * 10000000 /\
     handler fuel SYS_nanosleep ns a2 a3 y = (on_kernel (on_st (sleep_until junk (now + w))) ;;; retval 0) y) /\
  (two64 - 9999999 <= ns -> handler fuel SYS_nanosleep ns a2 a3 y = Ret tt (put_ret 0 y)).
Proof.
  intros now Hns Hnow Hl. change (2 ^ 63) with 9223372036854775808 in Hnow.
  change (handler fuel SYS_nanosleep ns a2 a3 y) with ((do_nanosleep hhdm_offset hhdm_nonneg junk ns ;;; retval 0) y).
  assert (Et : on_kernel (on_st timer_get_ticks) y = Ret now y).
  { unfold on_kernel, zoom. by destruct y as [[]]. }
  assert (Ed : do_nanosleep hhdm_offset hhdm_nonneg junk ns y =
    on_kernel (on_st (sleep_until junk (u64 (now + u64 (ns + 9999999) / 10000000)))) y) by (unfold do_nanosleep; by rewrite (mbind_Ret _ _ _ _ _ Et)).
  unfold mbind. rewrite Ed. unfold two64 in *. split; intros Hb.
  - exists ((ns + 9999999) / 10000000). rewrite (u64_small (ns + 9999999)) by (unfold two64; lia).
    split; [Z.div_mod_to_equations; lia|]. rewrite u64_small; [done|]. unfold two64. Z.div_mod_to_equations; lia.
  - assert (Ew : u64 (ns + 9999999) / 10000000 = 0).
    { unfold u64, two64. replace (ns + 9999999) with (ns + 9999999 - 18446744073709551616 + 1 * 18446744073709551616) by lia.
      rewrite Z.mod_add, Z.mod_small by lia. apply Z.div_small. lia. }
    rewrite Ew, Z.add_0_r, u64_small by (unfold two64; lia). unfold on_kernel, on_st, zoom.
    rewrite sleep_until_past; [by destruct y as [[]]|exact Hl|done].
Qed.
End SyscallFacts.

(** ** Witnesses: the process of [user_demo], with one page at 0x400000 *)

Definition demo_kernel_of (s : @vm_t pmm_t) (kb : kbd_t) : kernel (@heap_t (@vm_t pmm_t)) :=
  mk_kernel (demo_sched (set_h_vm s demo_heap)) timer_boot (ipc_boot demo_msgs) kb demo_irq [].
Definition demo_sys (s : @vm_t pmm_t) (kb : kbd_t) (c : con) : @sys pmm_t :=
  mk_sys (demo_kernel_of s kb) (mk_procs (<[blk_c := mk_process 1 fork_root blk_b 0]> ∅) blk_c 2 0 0x400123) (mkUart [] 0) c 0.

Lemma demo_caller s kb c : caller (demo_sys s kb c) fork_root.
Proof. split. exists (mk_process 1 fork_root blk_b 0). split; [discriminate|]. split; [apply lookup_insert_eq|done]. Qed.

Lemma demo_copy_pre s u k len : uspace demo_hhdm s fork_root -> (forall k len, k + len <= demo_hhdm -> kbuf demo_hhdm s fork_root k len) ->
  0 <= u -> 0 <= len -> u + len <= 2 ^ 47 -> k + len <= demo_hhdm -> copy_pre demo_hhdm s fork_root u k len.
Proof. intros Hs Hk Hu Hl Hul Hkl. split; [exact Hs|]. split; [done|]. split; [done|]. split; [done|]. by apply Hk. Qed.

#[local] Abbreviation demo_handler := (syscall_handler demo_hhdm demo_hhdm_nonneg 0 0x1000 20480 demo_lsr (fun _ => 0) 3
  0x2000 0x2003 0x3000 0x3002 0x4000 0x5000 0x7000 0x8000).

Lemma sys_write_correct_witness :
  exists s c y', vmm_map_user demo_hhdm fork_root 0x400000 fork_frame 7 1 fork_vm0 = Ret tt s /\
    demo_handler 0 SYS_write 1 0x400005 1 (demo_sys s kbd_boot c) = Ret tt y' /\
    syscall_retval y' = 1 /\ u_out (y_uart y') = [(COM1, 77)] /\ renders (y_con y') (term_puts [77] (blank_term demo_fb)).
Proof.
  destruct user_demo as (s & E & Hs & Hb & Hk & Hm). destruct demo_con_ok as (c & _ & Hok & Hre).
  destruct (sys_write_correct demo_hhdm demo_hhdm_nonneg 0 0x1000 20480 demo_lsr (fun _ => 0) 3 0x2000 0x2003 0x3000 0x3002 0x4000 0x5000 0x7000 0x8000
    0 (demo_sys s kbd_boot c) fork_root 1 0x400005 1 (blank_term demo_fb) 3) as (y' & E' & _ & Hres);
    [apply demo_caller|by left|apply demo_copy_pre; [exact Hs|exact Hk|vm_compute; discriminate..]|exact demo_ready|lia|exact Hok|exact Hre|].
  exists s, c, y'. split; [exact E|]. split; [exact E'|]. clear E E'.
  change (4096 <? 1) with false in Hres. cbv iota in Hres. change (vm_mem (mem_of (demo_sys s kbd_boot c))) with (vm_mem s) in Hres.
  replace (text_at demo_hhdm (vm_mem s) fork_root 0x400005 1) with [77] in Hres by (unfold text_at; change (seqZ 0 1) with [0]; cbn [fmap list_fmap]; by rewrite Z.add_0_r, Hb).
  destruct Hres as [(_ & Hr & Ho & Ht)|((v & Hv & Hno) & _)]; [|destruct Hno; apply Hm; lia].
  split; [exact Hr|]. split; [exact Ho|exact Ht].
Defined.

Lemma sys_read_correct_witness :
  exists s kb c y', vmm_map_user demo_hhdm fork_root 0x400000 fork_frame 7 1 fork_vm0 = Ret tt s /\
    demo_handler 1 SYS_read 0 0x400010 1 (demo_sys s kb c) = Ret tt y' /\
    syscall_retval y' = 1 /\ ubyte demo_hhdm (vm_mem (mem_of y')) fork_root 0x400010 = 113.
Proof.
  destruct user_demo as (s & E & Hs & Hb & Hk & Hm). destruct (kbd_put_spec kbd_boot [] 113 kbd_boot_rep) as (kb & _ & Hkb).
  destruct (sys_read_correct demo_hhdm demo_hhdm_nonneg 0 0x1000 20480 demo_lsr (fun _ => 0) 3 0x2000 0x2003 0x3000 0x3002 0x4000 0x5000 0x7000 0x8000
    0 (demo_sys s kb demo_con) fork_root 0x400010 1 113 []) as (y' & E' & _ & Hres);
    [apply demo_caller|exact Hkb|lia|apply demo_copy_pre; [exact Hs|exact Hk|vm_compute; discriminate..]|].
  exists s, kb, demo_con, y'. split; [exact E|]. split; [exact E'|]. clear E E'.
  destruct Hres as [(Hu & Hr & Hv)|(Hno & _)]; [|destruct Hno; apply Hm; lia].
  split; [exact Hr|]. exact (Hv 0x400010 ltac:(lia) Hu).
Defined.

Definition name_mem (m : mem) : mem := wr8 (wr8 (wr8 (wr8 (wr8 m 0x1000 105) 0x1001 110) 0x1002 105) 0x1003 116) 0x1004 0.

Lemma name_mem_bytes m : (fun i => rd8 (name_mem m) (0x1000 + i)) <$> seqZ 0 5 = name_init.
Proof.
  change (seqZ 0 5) with [0; 1; 2; 3; 4]. cbn [fmap list_fmap]. unfold name_mem, name_init.
  repeat f_equal; cbn [Z.add Pos.add]; repeat (rewrite rd8_wr8_ne by lia); by rewrite rd8_wr8_eq.
Qed.

(** The process once the kernel bytes [w] puts at 0x1000 have been copied to
    its page at 0x400000. *)
Lemma demo_written (w : mem -> mem) n bs : 0 <= n <= 4096 ->
  (forall m b, b < 0x1000 \/ 0x1000 + n <= b -> rd8 (w m) b = rd8 m b) ->
  (forall m, (fun i => rd8 (w m) (0x1000 + i)) <$> seqZ 0 n = bs) ->
  exists s0 s, vmm_map_user demo_hhdm fork_root 0x400000 fork_frame 7 1 fork_vm0 = Ret tt s0 /\
  copy_to_user demo_hhdm (Some fork_root) 0x400000 0x1000 n (set_vm_mem (w (vm_mem s0)) s0) = Ret 0 s /\
  uspace demo_hhdm s fork_root /\ (forall k len, k + len <= demo_hhdm -> kbuf demo_hhdm s fork_root k len) /\
  (forall v, 0x400000 <= v < 0x401000 -> umapped demo_hhdm (vm_mem s) fork_root v) /\
  text_at demo_hhdm (vm_mem s) fork_root 0x400000 n = bs.
Proof.
  intros Hn Hw Hbs. destruct user_demo as (s0 & E & Hs & Hb & Hk & Hm). set (m := w (vm_mem s0)).
  assert (Hle : 0x1000 + n <= demo_hhdm) by (change demo_hhdm with 0xffff800000000000; lia).
  assert (Hkt : tables_kept demo_hhdm (vm_mem s0) m fork_root).
  { apply (kbuf_write demo_hhdm s0 fork_root 0x1000 n); [exact Hs|by apply Hk|]. intros b Hb'. by apply Hw. }
  pose proof (kept_uspace demo_hhdm s0 m fork_root Hs Hkt) as Hs1.
  destruct (to_user_spec demo_hhdm demo_hhdm_nonneg (S (Z.to_nat n)) (set_vm_mem m s0) fork_root 0x400000 0x1000 n) as (r & m2 & n' & E2 & (P1 & P2 & _) & Hn' & _ & Hend).
  { apply demo_copy_pre; [exact Hs1| |lia|lia|change (2 ^ 47) with 140737488355328; lia|done]. intros k len Hkl. apply kept_kbuf; [by apply Hk|exact Hkt]. }
  { lia. }
  assert (Hm1 : forall v, 0x400000 <= v < 0x401000 -> umapped demo_hhdm m fork_root v).
  { intros v Hv. apply (kept_umapped demo_hhdm (vm_mem s0)); [exact Hkt|change (2 ^ 47) with 140737488355328; lia|by apply Hm]. }
  destruct Hend as [[-> ->]|(_ & Hlt & Hno)]; [|destruct Hno; apply Hm1; lia].
  exists s0, (set_vm_mem m2 (set_vm_mem m s0)). split; [exact E|]. split; [exact E2|]. clear E E2.
  split; [by apply kept_uspace|]. split; [intros k len Hkl; apply kept_kbuf; [apply kept_kbuf; [by apply Hk|exact Hkt]|exact P1]|]. split.
  { intros v Hv. apply (kept_umapped demo_hhdm m); [exact P1|change (2 ^ 47) with 140737488355328; lia|by apply Hm1]. }
  rewrite <- (Hbs (vm_mem s0)). apply list_fmap_ext. intros j i Hi. apply lookup_seqZ in Hi as [-> Hj].
  etransitivity; [apply P2; [change (2 ^ 47) with 140737488355328; lia|apply Hm1; lia]|].
  destruct (Z.leb_spec 0x400000 (0x400000 + (0 + Z.of_nat j))), (Z.ltb_spec (0x400000 + (0 + Z.of_nat j)) (0x400000 + n)); cbn [andb]; try lia.
  fold m. change (vm_mem (set_vm_mem m s0)) with m. f_equal. lia.
Qed.

(** It has written the name "init". *)
Lemma demo_named_init : exists s0 s, vmm_map_user demo_hhdm fork_root 0x400000 fork_frame 7 1 fork_vm0 = Ret tt s0 /\
  copy_to_user demo_hhdm (Some fork_root) 0x400000 0x1000 5 (set_vm_mem (name_mem (vm_mem s0)) s0) = Ret 0 s /\
  uspace demo_hhdm s fork_root /\ (forall k len, k + len <= demo_hhdm -> kbuf demo_hhdm s fork_root k len) /\
  (forall v, 0x400000 <= v < 0x401000 -> umapped demo_hhdm (vm_mem s) fork_root v) /\
  c_string (text_at demo_hhdm (vm_mem s) fork_root 0x400000 31) = c_string name_init.
Proof.
  destruct (demo_written name_mem 5 name_init ltac:(lia)) as (s0 & s & E & E2 & Hs & Hk & Hm & Ht).
  { intros m b Hb. unfold name_mem. by rewrite !rd8_wr8_ne by lia. }
  { exact name_mem_bytes. }
  exists s0, s. split; [exact E|]. split; [exact E2|]. clear E E2. split; [done|]. split; [done|]. split; [done|].
  unfold text_at. change (seqZ 0 31) with (seqZ 0 5 ++ seqZ 5 26). rewrite fmap_app. unfold text_at in Ht. by rewrite Ht.
Qed.

Lemma get_binary_correct_witness :
  exists s y', c_string (text_at demo_hhdm (vm_mem s) fork_root 0x400000 31) = [105; 110; 105; 116] /\
    demo_handler 0 SYS_get_binary 0x400000 0x400100 16 (demo_sys s kbd_boot demo_con) = Ret tt y' /\
    syscall_retval y' = 3 /\ ubyte demo_hhdm (vm_mem (mem_of y')) fork_root 0x400102 = rd8 (vm_mem s) 0x2002.
Proof.
  destruct demo_named_init as (s0 & s & _ & _ & Hs & Hk & Hm & Hn).
  destruct (get_binary_correct demo_hhdm demo_hhdm_nonneg 0 0x1000 20480 demo_lsr (fun _ => 0) 3 0x2000 0x2003 0x3000 0x3002 0x4000 0x5000 0x7000 0x8000
    0 (demo_sys s kbd_boot demo_con) fork_root 0x400000 0x400100 16) as (y' & E' & Hres).
  - apply demo_caller.
  - apply demo_copy_pre; [exact Hs|exact Hk|vm_compute; discriminate..].
  - apply Hk. vm_compute. discriminate.
  - lia.
  - intros start stop Hp. rewrite elem_of_cons, list_elem_of_singleton in Hp.
    destruct Hp as [[= -> ->]|[= -> ->]]; (split; [lia|]; split; [vm_compute; discriminate|]; split; [apply Hk; vm_compute; discriminate|right; lia]).
  - exists s, y'. split; [exact Hn|]. split; [exact E'|]. clear E'. change (vm_mem (mem_of (demo_sys s kbd_boot demo_con))) with (vm_mem s) in Hres.
    destruct Hres as [((v & Hv & Hno) & _)|(_ & Hres)]; [destruct Hno; apply Hm; lia|]. rewrite Hn in Hres.
    change (named 0x2000 0x2003 0x3000 0x3002 (c_string name_init)) with (Some (0x2000, 0x2003)) in Hres. cbv iota in Hres.
    destruct Hres as (n & Hd & [(-> & _ & Hr & _)|(Hn0 & Hle & _ & [(Hgt & _)|(Hlt & Hno)])]); [|lia|destruct Hno; apply Hm; lia].
    split; [exact Hr|]. exact (Hd 0x400102 ltac:(change (2 ^ 47) with 140737488355328; lia) (Hm 0x400102 ltac:(lia))).
Defined.

(** The greatest interval does not wait, and 25 ms wait as long as 30 ms. *)
Lemma nanosleep_ticks_witness :
  let y := demo_sys fork_vm0 kbd_boot demo_con in
  demo_handler 0 SYS_nanosleep 18446744073709551615 0 0 y = Ret tt (put_ret 0 y) /\
  demo_handler 0 SYS_nanosleep 25000000 0 0 y = demo_handler 0 SYS_nanosleep 30000000 0 0 y.
Proof.
  intros y. assert (Hp : forall ns, 0 <= ns < two64 -> _) by
    (intros ns Hns; exact (nanosleep_ticks demo_hhdm demo_hhdm_nonneg 0 0x1000 20480 demo_lsr (fun _ => 0) 3 0x2000 0x2003 0x3000 0x3002 0x4000 0x5000 0x7000 0x8000
      0 y ns 0 0 Hns ltac:(vm_compute; by split) eq_refl)).
  destruct (Hp 25000000 ltac:(by vm_compute)) as [Ha _]. destruct (Hp 30000000 ltac:(by vm_compute)) as [Hc _].
  destruct (Hp 18446744073709551615 ltac:(by vm_compute)) as [_ Hb]. split; [exact (Hb ltac:(vm_compute; discriminate))|].
  destruct (Ha ltac:(by vm_compute)) as (w & Hw & E). destruct (Hc ltac:(by vm_compute)) as (w' & Hw' & E').
  assert (w = w') as -> by lia. etransitivity; [exact E|]. symmetry. exact E'.
Defined.
