(* ===== verification/Isolation.v ===== *)
(** * Isolation of processes

    What a system call of one process can change of the memory of the others:
    nothing.  A copy between kernel and user memory writes in the pages of
    the caller only, so it keeps the page tables, the free frames, the heap
    and every other address space. *)

From stdpp Require Import base gmap list fin_maps.
From Stdlib Require Import ZArith Lia.
From S2P Require Import Prelude Mem Pmm Vmm PageTables Heap HeapFacts HeapKeeps KernelMem Chain Descriptors Sched SchedFacts.
From S2P Require Import Timer Ipc IpcFacts KbdBuf Printf Serial Console ConsoleFacts Irq Fork ForkFacts UserCopy Spaces Proc ProcFacts Syscalls SyscallFacts.

#[local] Opaque rd64 wr64 memcpy memset kmalloc kfree fork_address_space.

Section Isolation.
Context {P : Type} `{FrameAllocator P}.
Context (hhdm_offset : Z) (hhdm_nonneg : 0 <= hhdm_offset).
#[local] Abbreviation vm := (@vm_t P).
#[local] Abbreviation heap := (@heap_t vm).
#[local] Abbreviation sched := (@sched_t heap).
#[local] Abbreviation sys := (@sys P).
#[local] Instance isolation_mapper : PageMapper vm := Vmm_PageMapper hhdm_offset hhdm_nonneg.
#[local] Abbreviation walk := (walk hhdm_offset).
#[local] Abbreviation leaf := (leaf hhdm_offset).
#[local] Abbreviation ptv := (phys_to_virt hhdm_offset).
#[local] Abbreviation frame := (frame hhdm_offset).
#[local] Abbreviation frame_same := (frame_same hhdm_offset).
#[local] Abbreviation umapped := (umapped hhdm_offset).
#[local] Abbreviation uframe := (uframe hhdm_offset).
#[local] Abbreviation ubyte := (ubyte hhdm_offset).
#[local] Abbreviation uspace := (uspace hhdm_offset).
#[local] Abbreviation pspace := (pspace hhdm_offset).
#[local] Abbreviation kdata := (kdata hhdm_offset).
#[local] Abbreviation owns := (owns hhdm_offset).
#[local] Abbreviation clear_frame := (clear_frame hhdm_offset).
#[local] Abbreviation space_kept := (space_kept hhdm_offset).

(** ** Writing in the pages of one process *)

(** The address space [root] has a page in the frame [x]. *)
Definition upage (m : mem) (root x : Z) : Prop := exists u, 0 <= u < 2 ^ 47 /\ umapped m root u /\ uframe m root u = x.

(** Of the frames of the machine only pages of [root] change. *)
Definition user_change (m m' : mem) (root : Z) : Prop :=
  forall x, frame x -> ~ upage m root x -> frame_same m m' x.

Lemma user_half_rep u : user_half u -> exists w, 0 <= w < 2 ^ 47 /\ vpn w = vpn u.
Proof.
  intros Hu. unfold user_half in Hu. destruct (index_vpn u) as (Hi & _). rewrite Hi in Hu.
  pose proof (Z.mod_pos_bound (u / 4096) (2 ^ 36) ltac:(lia)) as Hb. unfold vpn in *.
  set (x := (u / 4096) mod 2 ^ 36) in *. exists (x * 4096). assert (x < 2 ^ 35).
  { change (2 ^ 35) with (256 * 2 ^ 27). pose proof (Z.mul_succ_div_gt x (2 ^ 27) ltac:(lia)). nia. }
  change (2 ^ 47) with (2 ^ 35 * 4096). split; [lia|]. rewrite Z.div_mul by lia. apply Z.mod_small. lia.
Qed.

Section Change.
Context (v : vm) (m' : mem) (root : Z).
Context (Hready : vm_ready hhdm_offset v) (Hps : pspace v root) (Hch : user_change (vm_mem v) m' root).
#[local] Abbreviation v' := (set_vm_mem m' v).

Lemma upage_kdata x : upage (vm_mem v) root x -> kdata v x.
Proof. intros (u & Hu & Hm & <-). apply (ps_page _ _ _ Hps); [|exact Hm]. unfold user_half. pose proof (user_half_low u Hu). lia. Qed.

(** The kernel's tables are no pages of the process. *)
Lemma change_walk path : tpath 3 heap_slot path -> walk m' (vm_pml4 v) path = walk (vm_mem v) (vm_pml4 v) path.
Proof.
  apply same_walk. intros q x Hq Hw. destruct (ktable_not_free _ v q x Hready Hq Hw) as [Hf _]. apply Hch; [exact Hf|].
  intros Hx. destruct (upage_kdata x Hx) as (_ & _ & Hn). exact (Hn q Hq Hw).
Qed.

Lemma change_leaf a : heap_slot (PML4_INDEX a) -> leaf m' (vm_pml4 v) a = leaf (vm_mem v) (vm_pml4 v) a.
Proof.
  apply same_leaf. intros q x Hq Hw. destruct (ktable_not_free _ v q x Hready Hq Hw) as [Hf _]. apply Hch; [exact Hf|].
  intros Hx. destruct (upage_kdata x Hx) as (_ & _ & Hn). exact (Hn q Hq Hw).
Qed.

Lemma change_ready : vm_ready hhdm_offset v'.
Proof.
  destruct Hready as [[Hok [W1 W2 W3 W4 W5]] Hl]. split; [|done]. split; [done|]. cbn [vm_mem vm_pml4 vm_pmm set_vm_mem].
  split; try done.
  - intros path t Hp. rewrite change_walk by done. by apply W2.
  - intros p1 p2 t Hp1 Hp2. rewrite !change_walk by done. by apply W3.
Qed.

Lemma change_kdata x : kdata v x -> kdata v' x.
Proof. intros (D1 & D2 & D3). split; [done|]. split; [done|]. cbn [vm_mem vm_pml4 set_vm_mem]. intros path Hp. rewrite change_walk by done. by apply D3. Qed.

(** An address space whose tables are not among the pages written. *)
Lemma change_space r : pspace v r -> (forall path x, tpath 3 user_slot path -> walk (vm_mem v) r path = Some x -> ~ upage (vm_mem v) root x) ->
  pspace v' r /\ (forall x, owns v' r x -> owns v r x) /\ (forall u, user_half u -> leaf m' r u = leaf (vm_mem v) r u).
Proof.
  intros [[Hok [W1 W2 W3 W4 W5]] Ht Hp] Hnp.
  assert (Hs : tables_same hhdm_offset user_slot (vm_mem v) m' r).
  { intros path x Hpath Hw. apply Hch; [by apply (W2 path)|by apply (Hnp path)]. }
  assert (Hw : forall path, tpath 3 user_slot path -> walk m' r path = walk (vm_mem v) r path) by (intros; by apply (same_walk _ user_slot)).
  assert (Hl : forall u, user_half u -> leaf m' r u = leaf (vm_mem v) r u) by (intros u Hu; apply (same_leaf _ user_slot); [done|by apply user_half_slot]).
  split; [|split; [|exact Hl]].
  - split.
    + split; [done|]. cbn [vm_mem set_vm_mem vm_pmm]. split; try done.
      * intros path t Hpath. rewrite Hw by done. by apply W2.
      * intros p1 p2 t Hp1 Hp2. rewrite !Hw by done. by apply W3.
    + intros path x Hpath. cbn [vm_mem set_vm_mem]. rewrite Hw by done. intros Hwk. by apply change_kdata, (Ht path).
    + intros u Hu. cbn [vm_mem set_vm_mem]. rewrite Hl by done. intros Hpr. by apply change_kdata, Hp.
  - intros x [(path & Hpath & Hwk)|(u & Hu & Hpr & <-)]; cbn [vm_mem set_vm_mem] in *; [left; exists path|right; exists u].
    + by rewrite <- Hw.
    + by rewrite <- (Hl u Hu).
Qed.

(** Another process keeps everything. *)
Lemma change_other r : pspace v r -> (forall x, owns v root x -> owns v r x -> False) ->
  pspace v' r /\ space_kept v v' r /\ (forall x, owns v' r x -> owns v r x).
Proof.
  intros Hr Hap.
  assert (Hno : forall x, owns v r x -> ~ upage (vm_mem v) root x).
  { intros x Hx (u & Hu & Hm & E). apply (Hap x); [|exact Hx]. right. exists u. split; [|done]. unfold user_half. pose proof (user_half_low u Hu). lia. }
  destruct (change_space r Hr) as (Hr' & Ho & Hl); [intros path x Hpath Hw; apply Hno; left; by exists path|].
  split; [exact Hr'|]. split; [|exact Ho]. split.
  - intros u Hu. split; [by apply Hl|]. intros Hpr b Hb. cbn [vm_mem set_vm_mem]. apply Hch; [by apply (ps_page _ _ _ Hr)| |done].
    apply Hno. right. by exists u.
  - intros i Hi. cbn [vm_mem set_vm_mem]. apply same_slot; [|done]. apply Hch; [apply (ps_table _ _ _ Hr []); [apply tpath_nil|done]|].
    apply Hno. left. exists []. split; [apply tpath_nil|done].
Qed.

(** The caller keeps its tables. *)
Lemma change_own : uspace v root -> pspace v' root /\ (forall x, owns v' root x -> owns v root x).
Proof.
  intros Hus. destruct (change_space root Hps) as (A & B & _); [|by split].
  intros path x Hpath Hw (u & Hu & Hm & E). destruct (us_page _ _ _ Hus u Hu Hm) as [(_ & _ & Hn) _]. rewrite E in Hn. by apply (Hn path).
Qed.
End Change.

(** ** The invariant of the processes *)

Definition put_vm (v : vm) (sc : sched) : sched := set_heap (set_h_vm v (s_heap sc)) sc.

Lemma core_change (sc : sched) st head q ls pl r m' :
  proc_core hhdm_offset sc st head q ls pl -> kh_view (s_heap sc) ls ->
  current_process sc <> 0 -> st !! current_process sc = Some r ->
  uspace (vm_of sc) (pml4_phys r) -> user_change (vm_mem (vm_of sc)) m' (pml4_phys r) ->
  let sc' := put_vm (set_vm_mem m' (vm_of sc)) sc in
  proc_core hhdm_offset sc' st head q ls pl /\ kh_view (s_heap sc') ls /\
  forall p r', st !! p = Some r' -> p <> current_process sc -> space_kept (vm_of sc) (vm_of sc') (pml4_phys r').
Proof.
  intros [C1 C2 C3 C4 C5 C6 C7] Hv Hc0 Hcur Hus Hch sc'.
  pose proof (view_ready hhdm_offset hhdm_nonneg _ _ Hv) as Hr. fold (vm_of sc) in Hr.
  pose proof (C6 _ _ Hcur) as Hps. set (root := pml4_phys r) in *.
  assert (Hoth : forall p r', st !! p = Some r' -> p <> current_process sc ->
    pspace (vm_of sc') (pml4_phys r') /\ space_kept (vm_of sc) (vm_of sc') (pml4_phys r') /\ (forall x, owns (vm_of sc') (pml4_phys r') x -> owns (vm_of sc) (pml4_phys r') x)).
  { intros p r' Hp Hne. apply (change_other (vm_of sc) m' root Hr Hps Hch); [by apply (C6 p)|].
    intros x O1 O2. exact (C7 _ _ _ _ x Hcur Hp (not_eq_sym Hne) O1 O2). }
  assert (Hall : forall p r', st !! p = Some r' -> pspace (vm_of sc') (pml4_phys r') /\ (forall x, owns (vm_of sc') (pml4_phys r') x -> owns (vm_of sc) (pml4_phys r') x)).
  { intros p r' Hp. destruct (decide (p = current_process sc)) as [->|Hne]; [|destruct (Hoth p r' Hp Hne) as (? & _ & ?); by split].
    rewrite Hcur in Hp. injection Hp as <-. by apply (change_own (vm_of sc) m' root Hr Hps Hch). }
  split; [|split].
  - split; [by apply sched_inv_heap|done|done|done|done|intros p r' Hp; by apply (Hall p)|].
    intros p1 p2 r1 r2 x H1 H2 Hne O1 O2. apply (C7 p1 p2 r1 r2 x H1 H2 Hne); [by apply (Hall p1)|by apply (Hall p2)].
  - apply (view_vm hhdm_offset hhdm_nonneg); [exact Hv| |exact (change_ready (vm_of sc) m' root Hr Hps Hch)| |].
    + intros ->. assert (Hin : current_process sc ∈ ([] : list (Z * Z)).*1) by (apply C3, elem_of_dom; by rewrite Hcur). by apply elem_of_nil in Hin.
    + assert (Henv : reach (s_heap sc) <= HEAP_LIMIT) by (apply (view_env _ _ (proj1 Hv))). unfold reach in Henv.
      change (pm_count (h_vm (s_heap sc))) with (length (free_frames (vm_of sc))) in Henv. exact Henv.
    + intros a Ha. unfold vm_present. cbn [vm_mem vm_pml4 set_vm_mem].
      by rewrite (change_leaf (vm_of sc) m' root Hr Hps Hch) by (by apply heap_region_slot).
  - intros p r' Hp Hne. by apply (Hoth p).
Qed.

(** ** System calls *)

(** Kernel memory that is not in the direct map of a frame. *)
Definition off_map (a len : Z) : Prop := forall x, frame x -> a + len <= ptv x \/ ptv x + 4096 <= a.

Lemma off_map_kbuf (v : vm) root a len len' : off_map a len -> len' <= len -> kbuf hhdm_offset v root a len'.
Proof. intros Ho Hl x Hx _. destruct (Ho x Hx); [left; lia|by right]. Qed.

Lemma confined_change (v : vm) m' root a len : uspace v root -> off_map a len -> confined hhdm_offset (vm_mem v) m' root a len -> user_change (vm_mem v) m' root.
Proof.
  intros Hus Ho [_ Hb] x Hx Hnp i Hi. apply Hb.
  - intros u Hu Hm. destruct (us_page _ _ _ Hus u Hu Hm) as [(Hf & _) _]. intros E. apply Hnp. exists u. split; [done|]. split; [done|].
    destruct (Z.eq_dec (uframe (vm_mem v) root u) x) as [|Hne]; [done|]. exfalso.
    pose proof (Z.mod_pos_bound u 4096 ltac:(lia)). rewrite !frame_ptv in E by done.
    destruct (frames_apart hhdm_offset x (uframe (vm_mem v) root u) Hx Hf (not_eq_sym Hne)); lia.
  - destruct (Ho x Hx); lia.
Qed.

(** The processes of the system. *)
Definition procs_ok (y : sys) (q : list Z) (ls : list (Z * Z)) (pl : list Z) : Prop :=
  proc_inv hhdm_offset hhdm_nonneg (k_sched (y_kernel y), y_proc y) q ls pl.

(** All processes but the running one have the memory they had. *)
Definition others_kept (y y' : sys) : Prop :=
  forall p r, processes (y_proc y) !! p = Some r -> p <> current_process (k_sched (y_kernel y)) ->
    processes (y_proc y') !! p = Some r /\ space_kept (mem_of y) (mem_of y') (pml4_phys r).

(** A change of memory that is confined to the caller. *)
Lemma procs_change (y y' : sys) q ls pl root m' a len : procs_ok y q ls pl -> caller y root -> uspace (mem_of y) root -> off_map a len ->
  confined hhdm_offset (vm_mem (mem_of y)) m' root a len ->
  k_sched (y_kernel y') = put_vm (set_vm_mem m' (mem_of y)) (k_sched (y_kernel y)) -> y_proc y' = y_proc y ->
  procs_ok y' q ls pl /\ others_kept y y'.
Proof.
  intros (C & Hv & Hl) [(r & H0 & Hr & <-)] Hus Ho Hcf Es Ep. cbn [fst snd] in *.
  destruct (core_change (k_sched (y_kernel y)) (processes (y_proc y)) (process_list (y_proc y)) q ls pl r m' C Hv H0 Hr Hus)
    as (C' & Hv' & Hk); [by eapply confined_change|].
  split.
  - unfold procs_ok, proc_inv. cbn [fst snd]. rewrite Es, Ep. by split.
  - intros p r' Hp Hne. rewrite Ep. split; [done|]. unfold mem_of. rewrite Es. by apply (Hk p).
Qed.

Section Calls.
Context (junk : Z) (userspace_entry kernel_cr3 : Z).
Context (lsr : list (Z * Z) -> nat -> Z) (scratch : list (Z * Z) -> Z) (polls : nat).
Context (init_start init_end shell_start shell_end : Z).
Context (c_addr kbuf_addr name_addr yield_rip : Z).
#[local] Abbreviation handler := (syscall_handler hhdm_offset hhdm_nonneg junk userspace_entry kernel_cr3 lsr scratch polls
  init_start init_end shell_start shell_end c_addr kbuf_addr name_addr yield_rip).

(** SYS_fork on the whole state. *)
Lemma fork_call fuel a1 a2 a3 (y : sys) q ls pl prr : procs_ok y q ls pl ->
  let sc := k_sched (y_kernel y) in let pr := y_proc y in
  current_process sc <> 0 -> processes pr !! current_process sc = Some prr ->
  (exists child t root y' ls', handler fuel SYS_fork a1 a2 a3 y = Ret tt y' /\
     (clear_frame (vm_mem (mem_of y')) (pml4_phys prr) root -> procs_ok y' (t :: q) ls' (child :: pl)) /\
     y_proc y' = mk_procs (<[child := mk_process (next_pid pr) root t (process_list pr)]> (processes pr)) child (u64 (next_pid pr + 1)) 0 (saved_user_rip pr) /\
     y_uart y' = y_uart y /\ y_con y' = y_con y /\ syscall_retval y' = u64 (next_pid pr) /\
     fork_ok hhdm_offset hhdm_nonneg userspace_entry sc (k_sched (y_kernel y')) (processes pr) ls' (pml4_phys prr) (next_pid pr) (saved_user_rip pr) (process_list pr) q pl child t root) \/
  (starved hhdm_offset hhdm_nonneg sc (pml4_phys prr) /\ (handler fuel SYS_fork a1 a2 a3 y = Fault \/
     exists y', handler fuel SYS_fork a1 a2 a3 y = Ret tt y' /\ syscall_retval y' = MINUS1 /\
       fork_failed hhdm_offset hhdm_nonneg (sc, pr) (k_sched (y_kernel y'), y_proc y') q ls pl)).
Proof.
  destruct y as [[sc tm ip kb iq out] [st hd np l rip] u c rv]. unfold procs_ok, proc_inv, mem_of. cbn [y_kernel y_proc k_sched fst snd processes process_list proc_lock].
  intros (C & Hv & ->) H0 Hp. cbn [next_pid process_list saved_user_rip processes y_uart y_con].
  assert (Eh : forall y, handler fuel SYS_fork a1 a2 a3 y = (r <- on_proc (sys_fork hhdm_offset hhdm_nonneg junk userspace_entry) ;; retval r) y) by done.
  rewrite Eh. unfold mbind, on_proc, zoom. cbn [y_kernel k_sched y_proc].
  destruct (sys_fork_gen hhdm_offset hhdm_nonneg junk userspace_entry sc st hd np rip q ls pl prr C Hv H0 Hp)
    as [(child & t & root & sc' & ls' & E & Hok)|(Hs & [E|(s' & E & Hf)])]; [left|right; split; [done|left]|right; split; [done|right]]; rewrite E; clear E.
  - exists child, t, root. eexists. exists ls'. split; [reflexivity|]. cbn. split; [|done]. intros Hcl.
    split; [apply Hok; by eapply (fork_clear_after hhdm_offset hhdm_nonneg)|]. split; [apply Hok|done].
  - done.
  - eexists. split; [reflexivity|]. cbn. split; [done|]. by destruct s'.
Qed.

(** The calls that move data or make a process: what they need of their
    arguments. *)
Definition data_call (y : sys) (root nr a1 a2 a3 : Z) : Prop :=
  (nr = SYS_read /\ a1 = 0 /\ 0 <= a2 < 2 ^ 47 /\ exists ch q, kbd_rep (k_kbd (y_kernel y)) (ch :: q) /\ 0 <= ch < 256) \/
  (nr = SYS_write /\ (a1 = 1 \/ a1 = 2) /\ 0 <= a2 /\ 0 <= a3 /\ a2 + Z.min a3 4096 <= 2 ^ 47) \/
  (nr = SYS_get_binary /\ 0 <= a1 /\ a1 + 31 <= 2 ^ 47 /\ 0 <= a2 /\
   forall start stop, (start, stop) ∈ [(init_start, init_end); (shell_start, shell_end)] ->
     program_ok hhdm_offset name_addr (mem_of y) root a2 start stop) \/
  nr = SYS_fork.

(** The process a call may have made maps nothing its parent does not. *)
Definition child_clear (y y' : sys) (root : Z) : Prop :=
  forall child r, processes (y_proc y) !! child = None -> processes (y_proc y') !! child = Some r ->
    clear_frame (vm_mem (mem_of y')) root (pml4_phys r).

(** SYS_fork. *)
Lemma fork_isolated fuel a1 a2 a3 (y : sys) root q ls pl : procs_ok y q ls pl -> caller y root ->
  (exists y' q' ls' pl', handler fuel SYS_fork a1 a2 a3 y = Ret tt y' /\ others_kept y y' /\
     proc_inv hhdm_offset hhdm_nonneg (k_sched (y_kernel y'), y_proc y) q' ls' pl /\
     (child_clear y y' root -> proc_inv hhdm_offset hhdm_nonneg (k_sched (y_kernel y'), y_proc y') q' ls' pl')) \/
  (SYS_fork = SYS_fork /\ starved hhdm_offset hhdm_nonneg (k_sched (y_kernel y)) root /\ handler fuel SYS_fork a1 a2 a3 y = Fault).
Proof.
  intros I [(prr & H0 & Hprr & <-)]. pose proof I as (_ & _ & Hl). cbn [snd] in Hl.
  destruct (fork_call fuel a1 a2 a3 y q ls pl prr I H0 Hprr) as [(child & th & cr & y' & ls' & E & I' & Ep & _ & _ & _ & Hok)|(Hs & [E|(y' & E & Hrv & I' & Hpr & Hhd & _ & Hk)])];
    [left|right; split; [reflexivity|]; split; [exact Hs|exact E]|left].
  - destruct (fo_new _ _ _ _ _ _ _ _ _ _ _ _ _ _ _ _ Hok) as [Hnew _].
    exists y', (th :: q), ls', (child :: pl). split; [exact E|]. split; [|split].
    + intros p r Hp' Hne. rewrite Ep. cbn [processes]. split; [|by apply (fo_kept _ _ _ _ _ _ _ _ _ _ _ _ _ _ _ _ Hok p)].
      rewrite lookup_insert_ne by congruence. done.
    + split; [apply Hok|]. split; [apply Hok|done].
    + intros Hcl. apply I', (Hcl child (mk_process (next_pid (y_proc y)) cr th (process_list (y_proc y)))); [done|]. rewrite Ep. apply lookup_insert_eq.
  - exists y', q, ls, pl. split; [exact E|]. cbn [fst snd] in *. split; [|split; [|by intros _]].
    + intros p r Hp' Hne. rewrite Hpr. split; [done|]. by apply (Hk p).
    + destruct I' as (C' & Hv' & _). cbn [fst snd] in *. rewrite Hpr, Hhd in C'. by split.
Qed.

End Calls.
End Isolation.

(** ** Witness: two processes with empty address spaces, the first one running *)

Definition blk_d : Z := HEAP_START_VIRT + 240.
Definition second_root : Z := 28672.

Lemma demo_fourth : fst <$> returned ((demo_blocks ;;; kh_malloc 32) demo_heap) = Some blk_d.
Proof. vm_compute. reflexivity. Qed.

Lemma second_root_fresh : frame demo_hhdm second_root /\ second_root ∉ free_frames demo_space.
Proof.
  split; [by apply frame_small|]. unfold free_frames. change (fa_pages (vm_pmm demo_space)) with (free_pages demo_pool). rewrite demo_pool_pages.
  apply (bool_decide_unpack _). vm_compute. exact Logic.I.
Qed.

Lemma second_root_apart : second_root ∉ loader_frames.
Proof. apply (bool_decide_unpack _). vm_compute. exact Logic.I. Qed.

(** An address space that was empty stays empty and owns its root only. *)
Lemma empty_space v root : vm_keeps demo_hhdm demo_space v -> pspace demo_hhdm demo_space root -> root ∉ loader_frames ->
  uspace demo_hhdm v root /\ forall x, owns demo_hhdm v root x -> x = root.
Proof.
  intros K Hps Hn. destruct (ps_table _ _ _ Hps [] root (tpath_nil _) eq_refl) as [Hf _]. destruct (pspace_keeps demo_hhdm demo_space v root K Hps) as (Hps' & [Hk _] & Ho).
  assert (Hl : forall u, user_half u -> leaf demo_hhdm (vm_mem v) root u = 0) by (intros u Hu; destruct (Hk u Hu) as [-> _]; by apply demo_space_leaf).
  assert (Hno : forall u, 0 <= u < 2 ^ 47 -> umapped demo_hhdm (vm_mem v) root u -> False).
  { intros u Hu. unfold umapped. rewrite Hl; [done|]. unfold user_half. pose proof (user_half_low u Hu). lia. }
  split.
  - split; [apply Hps'|apply K|intros u Hu Hm; by destruct (Hno u Hu Hm)|intros u w Hu _ Hm; by destruct (Hno u Hu Hm)].
  - intros x Hx. destruct (Ho x Hx) as [([|i path] & (_ & Hp & _) & Hw)|(u & _ & Hpr & _)].
    + by injection Hw.
    + by rewrite demo_space_walk in Hw.
    + by rewrite demo_space_leaf in Hpr.
Qed.

Definition two_procs : proc_t :=
  mk_procs (<[blk_c := mk_process 1 demo_root blk_b blk_d]> (<[blk_d := mk_process 2 second_root blk_b 0]> ∅)) blk_c 3 0 0x400123.
Definition two_sys (h : @heap_t (@vm_t pmm_t)) (c : con) : @sys pmm_t :=
  mk_sys (mk_kernel (demo_sched h) timer_boot (ipc_boot demo_msgs) kbd_boot demo_irq []) two_procs (mkUart [] 0) c 0.

Lemma two_procs_ok : exists h ls, vm_keeps demo_hhdm demo_space (h_vm h) /\
  forall c, procs_ok demo_hhdm demo_hhdm_nonneg (two_sys h c) [] ls [blk_c; blk_d].
Proof.
  destruct demo_blocks_ok as (h0 & za & zb & zc & E & Hv & G). pose proof demo_fourth as E4. unfold mbind in E4. rewrite E in E4. cbn [bindr] in E4.
  destruct (kh_malloc 32 h0) as [d h| | | | |] eqn:Em; try discriminate E4. injection E4 as ->. clear E.
  destruct (malloc_step h0 _ 32 blk_d h Hv) as [[zd Vd] Gd]; [unfold two32; lia|exact Em|discriminate|]. clear Em Hv.
  assert (Gh : Spaces.vm_grows demo_hhdm demo_space (h_vm h)) by (pose proof (grows_preorder demo_hhdm); by etransitivity). clear G Gd.
  destruct (Gh (conj demo_space_wf eq_refl)) as [K R]. exists h, [(blk_d, zd); (blk_c, zc); (blk_b, zb); (blk_a, za)]. split; [exact K|]. intros c.
  pose proof demo_pspace as P1. pose proof (demo_pspace_at second_root (proj1 second_root_fresh) (proj2 second_root_fresh) second_root_apart) as P2.
  assert (Hlook : forall p r, processes two_procs !! p = Some r -> p = blk_c /\ pml4_phys r = demo_root \/ p = blk_d /\ pml4_phys r = second_root).
  { intros p r. cbn [two_procs processes]. rewrite !lookup_insert, lookup_empty. repeat case_decide; intros [= <-]; [left|right]; by split. }
  split; [|exact (conj Vd eq_refl)].
  - cbn [fst snd two_sys y_kernel y_proc k_sched]. split.
    + apply demo_parent_inv.
    + intros t. cbn [demo_sched s_threads]. rewrite !dom_insert_L, dom_empty_L. cbn [fmap list_fmap fst]. set_solver.
    + intros p. cbn [two_procs processes]. rewrite !dom_insert_L, dom_empty_L. cbn [fmap list_fmap fst]. set_solver.
    + split; [reflexivity|]. split; [discriminate|]. exists (mk_process 1 demo_root blk_b blk_d). split; [apply lookup_insert_eq|].
      split; [reflexivity|]. split; [discriminate|]. exists (mk_process 2 second_root blk_b 0). split; [|reflexivity].
      cbn [two_procs processes]. rewrite lookup_insert_ne by discriminate. apply lookup_insert_eq.
    + intros _. cbn [demo_sched current_process two_procs processes]. rewrite lookup_insert_eq. by eexists.
    + intros p r Hr. change (vm_of (demo_sched h)) with (h_vm h).
      destruct (Hlook p r Hr) as [[_ ->]|[_ ->]]; [by apply (pspace_keeps demo_hhdm demo_space)|by apply (pspace_keeps demo_hhdm demo_space)].
    + intros p1 p2 r1 r2 x H1 H2 Hne. change (vm_of (demo_sched h)) with (h_vm h).
      pose proof (proj2 (empty_space (h_vm h) demo_root K P1 demo_root_apart) x) as O1. pose proof (proj2 (empty_space (h_vm h) second_root K P2 second_root_apart) x) as O2.
      destruct (Hlook p1 r1 H1) as [[-> ->]|[-> ->]], (Hlook p2 r2 H2) as [[-> ->]|[-> ->]].
      * by destruct Hne.
      * intros A%O1 B%O2. rewrite A in B. discriminate B.
      * intros A%O2 B%O1. rewrite A in B. discriminate B.
      * by destruct Hne.
Qed.

Lemma demo_off_map a len : a + len <= demo_hhdm -> off_map demo_hhdm a len.
Proof. intros Hl x Hx. left. rewrite frame_ptv by done. destruct Hx as ((? & _) & _). lia. Qed.


(** ** An address of the kernel half

    The page 0x400000 of process 2 in the frame [victim], which the direct map
    shows in the kernel half of process 1.  The call's result, that frame, and
    its first byte before and after SYS_read with the address of the direct
    map: the key A is written into the memory of the other process. *)
Definition victim : Z := 32768.
Definition key_waiting (h : @heap_t (@vm_t pmm_t)) : @sys pmm_t :=
  mk_sys (mk_kernel (demo_sched h) timer_boot (ipc_boot demo_msgs) (match kbd_buf_put 65 kbd_boot with Ret _ k => k | _ => kbd_boot end) demo_irq [])
    two_procs (mkUart [] 0) demo_con 0.

Definition read_through (m_addr : Z) : option (Z * Z * Z * Z) :=
  match demo_blocks demo_heap with
  | Ret _ h =>
      match (vmm_map_user demo_hhdm demo_root m_addr victim 3 1 ;;; vmm_map_user demo_hhdm second_root 0x400000 victim 7 1) (h_vm h) with
      | Ret _ v =>
          match syscall_handler demo_hhdm demo_hhdm_nonneg 0 0x1000 20480 demo_lsr (fun _ => 0) 3 0x2000 0x2003 0x3000 0x3002 0x4000 0x5000 0x7000 0x8000
              1 SYS_read 0 m_addr 1 (key_waiting (set_h_vm v h)) with
          | Ret _ y =>
              let x := entry_get_addr (leaf demo_hhdm (vm_mem (mem_of y)) second_root 0x400000) in
              Some (syscall_retval y, x, rd8 (vm_mem v) (phys_to_virt demo_hhdm x), rd8 (vm_mem (mem_of y)) (phys_to_virt demo_hhdm x))
          | _ => None
          end
      | _ => None
      end
  | _ => None
  end.

Example kernel_pointer_writes : read_through (demo_hhdm + victim) = Some (1, victim, 0, 65).
Proof. vm_compute. reflexivity. Qed.
