(* ===== verification/ExecCall.v ===== *)
(** * SYS_exec from the user's buffer to the running program

    [handle_exec] copies the image out of the caller's address space into a
    block of the heap and loads it from there. *)

From stdpp Require Import base gmap list fin_maps.
From Stdlib Require Import ZArith Lia.
From S2P Require Import Prelude Mem Pmm Vmm PageTables Heap HeapFacts HeapKeeps KernelMem Chain Descriptors Sched SchedFacts.
From S2P Require Import Timer Ipc IpcFacts KbdBuf Serial Console ConsoleFacts Irq Fork ForkFacts UserCopy Spaces Proc Syscalls ProcFacts HeapStep ElfFacts ExecFacts SyscallFacts Isolation.

#[local] Opaque rd64 wr64 memcpy memset kmalloc kfree copy_from_user sys_exec.

Section ExecCall.
Context {P : Type} `{FrameAllocator P}.
Context (hhdm_offset : Z) (hhdm_nonneg : 0 <= hhdm_offset).
#[local] Abbreviation vm := (@vm_t P).
#[local] Abbreviation heap := (@heap_t vm).
#[local] Abbreviation sched := (@sched_t heap).
#[local] Abbreviation sys := (@sys P).
#[local] Instance call_mapper : PageMapper vm := Vmm_PageMapper hhdm_offset hhdm_nonneg.
#[local] Abbreviation slot := (slot hhdm_offset).
#[local] Abbreviation ptv := (phys_to_virt hhdm_offset).
#[local] Abbreviation vm_keeps := (vm_keeps hhdm_offset).
#[local] Abbreviation vm_ready := (vm_ready hhdm_offset).
#[local] Abbreviation pspace := (pspace hhdm_offset).
#[local] Abbreviation uspace := (uspace hhdm_offset).

(** An address space the kernel's allocations leave alone. *)
Lemma uspace_keeps v v' root : vm_keeps v v' -> pspace v root -> uspace v root ->
  uspace v' root /\ (forall u, 0 <= u < 2 ^ 47 -> umapped hhdm_offset (vm_mem v') root u <-> umapped hhdm_offset (vm_mem v) root u) /\
  (forall u, 0 <= u < 2 ^ 47 -> umapped hhdm_offset (vm_mem v) root u -> ubyte hhdm_offset (vm_mem v') root u = ubyte hhdm_offset (vm_mem v) root u).
Proof.
  intros K Hps [_ _ Hpg Hinj]. destruct (pspace_keeps hhdm_offset v v' root K Hps) as (Hps' & [Hk _] & _).
  assert (Hl : forall u, 0 <= u < 2 ^ 47 -> leaf hhdm_offset (vm_mem v') root u = leaf hhdm_offset (vm_mem v) root u)
    by (intros u Hu; exact (proj1 (Hk u (user_low u Hu)))).
  assert (Hm : forall u, 0 <= u < 2 ^ 47 -> umapped hhdm_offset (vm_mem v') root u <-> umapped hhdm_offset (vm_mem v) root u)
    by (intros u Hu; unfold umapped; by rewrite Hl).
  split; [split|split; [exact Hm|]].
  - apply Hps'.
  - apply K.
  - intros u Hu. rewrite Hm by done. intros Hmu. unfold uframe. rewrite Hl by done. destruct (Hpg u Hu Hmu) as [(D1 & _ & D3) Hn]. split; [|exact Hn].
    destruct (vk_data _ _ _ K _ (ps_page _ _ _ Hps u (user_low u Hu) Hmu)) as [(_ & D2 & _) _]. split; [exact D1|]. split; [exact D2|].
    intros path Hp Hw. assert (Hs : tables_same hhdm_offset user_slot (vm_mem v) (vm_mem v') root)
      by (intros q x Hq Hx; by apply (vk_data _ _ _ K x), (ps_table _ _ _ Hps q)).
    rewrite (same_walk hhdm_offset user_slot (vm_mem v) (vm_mem v') root path Hs Hp) in Hw. by apply (D3 path).
  - intros u w Hu Hw. rewrite !Hm by done. unfold uframe. rewrite !Hl by done. by apply Hinj.
  - intros u Hu Hmu. unfold ubyte, uframe. rewrite Hl by done. apply Hk; [by apply user_low|exact Hmu|apply Z.mod_pos_bound; lia].
Qed.

(** ** The call *)

Section Call.
Context (junk : Z) (userspace_entry kernel_cr3 : Z).
Context (lsr : list (Z * Z) -> nat -> Z) (scratch : list (Z * Z) -> Z) (polls : nat).
Context (init_start init_end shell_start shell_end : Z).
Context (c_addr kbuf_addr name_addr yield_rip : Z).
#[local] Abbreviation handler := (syscall_handler hhdm_offset hhdm_nonneg junk userspace_entry kernel_cr3 lsr scratch polls
  init_start init_end shell_start shell_end c_addr kbuf_addr name_addr yield_rip).
#[local] Abbreviation sched_of y := (k_sched (y_kernel y)).
#[local] Abbreviation heap_of y := (s_heap (sched_of y)).
#[local] Abbreviation ubyte := (ubyte hhdm_offset).
#[local] Abbreviation umapped := (umapped hhdm_offset).

Definition put_heap (h : heap) (y : sys) : sys :=
  mk_sys (set_sched (set_heap h (sched_of y)) (y_kernel y)) (y_proc y) (y_uart y) (y_con y) (syscall_retval y).

Lemma on_heap_ok {A} (m : M heap A) (y : sys) a h' : m (heap_of y) = Ret a h' -> on_kernel (on_sched (on_heap m)) y = Ret a (put_heap h' y).
Proof. intros E. unfold on_kernel, on_sched, on_heap, zoom. by rewrite E. Qed.

Lemma on_heap_fault {A} (m : M heap A) (y : sys) : m (heap_of y) = Fault -> on_kernel (on_sched (on_heap m)) y = Fault.
Proof. intros E. unfold on_kernel, on_sched, on_heap, zoom. by rewrite E. Qed.

(** The tables on the way to the user stack in the kernel's PML4. *)
#[local] Abbreviation stack_of v := (stack_tables hhdm_offset (vm_mem v) kernel_cr3).

(** The caller: a process with its own address space, run by a thread.
    [kernel_cr3] is the kernel's PML4; the tables in its slot 256, through
    which the loader maps the stack, belong to no process. *)
Record exec_pre (y : sys) (q : list Z) (ls : list (Z * Z)) (pl : list Z) (prr : process) (data size : Z) : Prop := {
  ep_procs : proc_inv hhdm_offset hhdm_nonneg (sched_of y, y_proc y) q ls pl;
  ep_current : current_process (sched_of y) <> 0 /\ processes (y_proc y) !! current_process (sched_of y) = Some prr;
  ep_thread : is_Some (s_threads (sched_of y) !! current_thread (sched_of y));
  ep_space : uspace (mem_of y) (pml4_phys prr);
  ep_kernel : kernel_cr3 = vm_pml4 (mem_of y) /\ stack_ok hhdm_offset (mem_of y) kernel_cr3;
  ep_stack : forall p r x, processes (y_proc y) !! p = Some r -> owns hhdm_offset (mem_of y) (pml4_phys r) x -> x ∉ stack_of (mem_of y);
  ep_range : 0 <= data /\ 0 <= size /\ data + size <= 2 ^ 47
}.

(** These tables after a change of the kernel's own. *)
Lemma exec_stack (y : sys) q ls pl prr data size v : exec_pre y q ls pl prr data size -> vm_keeps (mem_of y) v ->
  rd64 (vm_mem v) (slot kernel_cr3 256) = rd64 (vm_mem (mem_of y)) (slot kernel_cr3 256) ->
  (kernel_cr3 = vm_pml4 v /\ stack_ok hhdm_offset v kernel_cr3) /\ stack_of v = stack_of (mem_of y) /\
  (forall p r x, processes (y_proc y) !! p = Some r -> owns hhdm_offset v (pml4_phys r) x -> x ∉ stack_of v).
Proof.
  intros [(C & _) _ _ _ [Hk Hs] Ho _] K E. destruct (stack_kept hhdm_offset _ _ _ K E Hs) as [ET Hs'].
  split; [split; [rewrite Hk; symmetry; apply K|exact Hs']|]. split; [exact ET|].
  intros p r x Hp Hx. rewrite ET. apply (Ho p r x Hp). by apply (pspace_keeps hhdm_offset _ _ _ K (pc_space _ _ _ _ _ _ _ C p r Hp)).
Qed.

(** The block for the image. *)
Lemma exec_buffer (y : sys) q ls pl prr data size kb sz h1 : exec_pre y q ls pl prr data size ->
  kh_malloc size (heap_of y) = Ret kb h1 -> kh_view h1 ((kb, sz) :: ls) ->
  let y1 := put_heap h1 y in
  exec_pre y1 q ((kb, sz) :: ls) pl prr data size /\ vm_keeps (mem_of y) (mem_of y1) /\ stack_of (mem_of y1) = stack_of (mem_of y) /\
  (forall u, 0 <= u < 2 ^ 47 -> umapped (vm_mem (mem_of y1)) (pml4_phys prr) u <-> umapped (vm_mem (mem_of y)) (pml4_phys prr) u) /\
  (forall u, 0 <= u < 2 ^ 47 -> umapped (vm_mem (mem_of y)) (pml4_phys prr) u ->
     ubyte (vm_mem (mem_of y1)) (pml4_phys prr) u = ubyte (vm_mem (mem_of y)) (pml4_phys prr) u).
Proof.
  intros Hpre E Hv1 y1. pose proof Hpre as [(C & Hv & Hl) [H0 Hp] Ht Hus [Hk Hs] _ Hr]. cbn [fst snd] in *.
  destruct (malloc_step_top hhdm_offset hhdm_nonneg size _ ls kb h1 Hv E) as (K & T & _). pose proof (pc_space _ _ _ _ _ _ _ C _ _ Hp) as Hps.
  destruct (exec_stack y q ls pl prr data size h1.(h_vm) Hpre K) as (Hk1 & ET & Ho1); [rewrite Hk in *; by apply T|].
  destruct (uspace_keeps _ _ _ K Hps Hus) as (Hus1 & Hm & Hb). split; [|by split].
  split; try done.
  - split; [|by split]. cbn [fst snd y1 put_heap y_kernel y_proc k_sched set_sched].
    apply (core_heap hhdm_offset _ _ _ _ ls _ h1 ((kb, sz) :: ls) C K). intros x Hx. by right.
Qed.

(** The image in it. *)
Lemma exec_filled (y : sys) q ls pl prr data size kb sz m' n : exec_pre y q ((kb, sz) :: ls) pl prr data size ->
  got hhdm_offset (vm_mem (mem_of y)) m' (pml4_phys prr) data kb n -> 0 <= n ->
  let y1 := put_mem (set_vm_mem m' (mem_of y)) y in
  exec_pre y1 q ((kb, sz) :: ls) pl prr data size /\ vm_keeps (mem_of y) (mem_of y1) /\ stack_of (mem_of y1) = stack_of (mem_of y) /\
  (size <= 1048576 -> load_pre hhdm_offset (mem_of y1) kernel_cr3 kb size).
Proof.
  intros Hpre (Hg1 & Hg2 & Hg3) Hn y1. pose proof Hpre as [(C & Hv & Hl) [H0 Hp] Ht Hus [Hk Hs] _ (Hd & Hz & Hle)]. cbn [fst snd] in *.
  pose proof (view_above hhdm_offset hhdm_nonneg _ _ kb sz Hv ltac:(left)) as Hab. pose proof (view_ready hhdm_offset hhdm_nonneg _ _ Hv) as Hr.
  destruct (heap_write hhdm_offset hhdm_nonneg (mem_of y) m' kb Hr Hab) as [K O].
  { intros b Hb. rewrite Hg3. zcases; simpl; done || lia. }
  assert (Hslot : rd64 m' (slot kernel_cr3 256) = rd64 (vm_mem (mem_of y)) (slot kernel_cr3 256)).
  { destruct (ktable_not_free hhdm_offset (mem_of y) [] kernel_cr3 Hr (tpath_nil _)) as [Hkf Hkn]; [by rewrite Hk|].
    apply same_slot; [|lia]. exact (O kernel_cr3 Hkf Hkn). }
  destruct (exec_stack y q _ pl prr data size (mem_of y1) Hpre K Hslot) as (Hk1 & ET & Ho1).
  split; [split; try done|split; [exact K|split; [exact ET|]]].
  - split; [|split; [|done]]; cbn [fst snd y1 put_mem y_kernel y_proc k_sched set_sched s_heap set_heap].
    + by apply (core_heap hhdm_offset _ _ _ _ ((kb, sz) :: ls) _ (set_h_vm (set_vm_mem m' (mem_of y)) (heap_of y)) ((kb, sz) :: ls) C K).
    + by apply (load_view hhdm_offset hhdm_nonneg [] (sched_of y) _ _ Hv); [|apply keeps_nil|apply outer_nil|apply no_tables].
  - apply (uspace_keeps _ _ _ K (pc_space _ _ _ _ _ _ _ C _ _ Hp) Hus).
  - intros Hsz. change (mem_of y1) with (set_vm_mem m' (mem_of y)). split.
    + apply K.
    + intros i x Hi Hx. apply (heap_above hhdm_offset hhdm_nonneg); [|lia]. pose proof (ready_pool _ _ (vk_ready _ _ _ K)) as (_ & _ & Hff). by apply Hff.
    + split; [done|]. unfold USER_CODE_VADDR. change (2 ^ 47) with 140737488355328. lia.
    + apply (ktable_not_free hhdm_offset _ [] kernel_cr3 (vk_ready _ _ _ K) (tpath_nil _)). cbn. by rewrite Hk.
    + apply Hk1.
Qed.

(** How the call succeeds: the processor runs a new thread of the process in
    an address space that holds the bytes of the caller's buffer.  Nobody's
    memory changed, and the block [kb] with the image is still allocated. *)
Record executes (y y' : sys) (ls : list (Z * Z)) (prr : process) (data size t root : Z) : Prop := {
  ex_bytes : forall i, 0 <= i < size ->
    ubyte (vm_mem (mem_of y')) root (USER_CODE_VADDR + i) = ubyte (vm_mem (mem_of y)) (pml4_phys prr) (data + i);
  ex_pages : forall u, 0 <= u < 2 ^ 47 ->
    umapped (vm_mem (mem_of y')) root u <-> USER_CODE_VADDR <= u < USER_CODE_VADDR + 4096 * pages size;
  ex_space : pspace (mem_of y') root;
  ex_kept : forall p r, processes (y_proc y) !! p = Some r -> space_kept hhdm_offset (mem_of y) (mem_of y') (pml4_phys r);
  ex_thread : (t ∉ dom (s_threads (sched_of y))) /\ current_thread (sched_of y') = t /\ s_cr3 (sched_of y') = root;
  ex_process : processes (y_proc y') = <[current_process (sched_of y) := set_main_thread t (set_pml4_phys root prr)]> (processes (y_proc y));
  ex_queue : self_queued (sched_of y') t;
  ex_leak : exists kb sz h1 ls', kh_malloc size (heap_of y) = Ret kb h1 /\ kh_view (heap_of y') ls' /\
    ((kb, sz) ∈ ls') /\ (kb ∉ ls.*1) /\ forall x, x ∈ ls -> x ∈ ls'
}.

(** How it comes back: no thread, no page of a process and no block is lost. *)
Definition unharmed (y y' : sys) (ls : list (Z * Z)) : Prop :=
  s_threads (sched_of y') = s_threads (sched_of y) /\ kh_view (heap_of y') ls /\
  forall p r, processes (y_proc y) !! p = Some r -> space_kept hhdm_offset (mem_of y) (mem_of y') (pml4_phys r).

#[local] Abbreviation stack_keeps y v := (keeps_but hhdm_offset (stack_of (mem_of y)) (mem_of y) v).

Lemma keeps_spaces (y : sys) q ls pl prr data size v : exec_pre y q ls pl prr data size -> stack_keeps y v ->
  forall p r, processes (y_proc y) !! p = Some r -> space_kept hhdm_offset (mem_of y) v (pml4_phys r).
Proof.
  intros [(C & _) _ _ _ _ Ho _] K p r Hp. apply (pspace_keeps_but hhdm_offset _ _ _ _ K); [by apply (pc_space _ _ _ _ _ _ _ C p r Hp)|].
  intros x. by apply (Ho p r).
Qed.

(** The last step of the call. *)
Lemma exec_release (y0 y : sys) q ls pl prr data size kb sz r : exec_pre y0 q ls pl prr data size ->
  s_threads (sched_of y) = s_threads (sched_of y0) -> kh_view (heap_of y) ((kb, sz) :: ls) -> stack_keeps y0 (mem_of y) ->
  exists y', (retval r ;;; on_kernel (on_sched (on_heap (kh_free kb)))) y = Ret tt y' /\ syscall_retval y' = u64 r /\ unharmed y0 y' ls.
Proof.
  intros Hpre Ht Hv K. destruct (kh_free_spec _ ls kb sz Hv) as (h' & E & Hv'). exists (put_heap h' (put_ret r y)). split; [|split; [done|]].
  - etransitivity; [exact (mbind_Ret (retval r) _ y tt (put_ret r y) eq_refl)|]. by apply on_heap_ok.
  - split; [done|]. split; [exact Hv'|]. apply (keeps_spaces y0 q ls pl prr data size); [done|].
    change (mem_of (put_heap h' (put_ret r y))) with (h_vm h'). by rewrite (proj1 (free_vm hhdm_offset hhdm_nonneg _ _ _ E)).
Qed.

(** [sys_exec] on the block [kb], and what follows it. *)
Lemma exec_loaded (y : sys) q ls pl prr data size kb sz (k : M sys unit) : exec_pre y q ((kb, sz) :: ls) pl prr data size ->
  load_pre hhdm_offset (mem_of y) kernel_cr3 kb size ->
  let run := ((on_proc (sys_exec hhdm_offset hhdm_nonneg junk userspace_entry kernel_cr3 kb size) ;;; retval 0) ;;; k) y in
  (exists t root y', run = Gone y' /\ exec_ok hhdm_offset hhdm_nonneg (sched_of y, y_proc y) (sched_of y', y_proc y') ((kb, sz) :: ls) prr kernel_cr3 kb size t root) \/
  (load_short (sched_of y) size /\
   (run = Fault \/ exists y', run = (retval 0 ;;; k) y' /\ exec_failed hhdm_offset hhdm_nonneg (sched_of y) (sched_of y', y_proc y') kernel_cr3 ((kb, sz) :: ls))).
Proof.
  destruct y as [[sc tm ip kb' iq out] [st hd np l rip] u c rv]. intros [(C & Hv & Hl) [H0 Hp] Ht _ _ _ _] Hload. unfold mem_of in Hload.
  cbn [fst snd y_kernel y_proc k_sched processes process_list proc_lock] in *. subst l. unfold mbind, on_proc, zoom. cbn [y_kernel y_proc k_sched].
  destruct (sys_exec_gen hhdm_offset hhdm_nonneg junk userspace_entry sc st hd np rip q _ pl prr kernel_cr3 kb size C Hv H0 Hp Ht Hload)
    as [(t & root & s' & E & Hok)|(Hs & [E|(s' & E & Hok)])]; rewrite E; cbn [zoomr bindr]; clear E.
  - left. exists t, root. eexists. split; [reflexivity|]. by destruct s'.
  - right. split; [done|by left].
  - right. split; [done|right]. exists (mk_sys (mk_kernel (fst s') tm ip kb' iq out) (snd s') u c rv). split; [done|]. by destruct s'.
Qed.

(** The program that runs is the one in the caller's buffer. *)
Lemma exec_executes (y y1 y2 y' : sys) ls prr data size kb sz h1 m' t root :
  kh_malloc size (heap_of y) = Ret kb h1 -> kb ∉ ls.*1 -> 0 <= data -> data + size <= 2 ^ 47 -> y1 = put_heap h1 y -> y2 = put_mem (set_vm_mem m' (mem_of y1)) y1 ->
  (forall u, data <= u < data + size -> umapped (vm_mem (mem_of y)) (pml4_phys prr) u) ->
  (forall u, 0 <= u < 2 ^ 47 -> umapped (vm_mem (mem_of y)) (pml4_phys prr) u ->
     ubyte (vm_mem (mem_of y1)) (pml4_phys prr) u = ubyte (vm_mem (mem_of y)) (pml4_phys prr) u) ->
  got hhdm_offset (vm_mem (mem_of y1)) m' (pml4_phys prr) data kb size ->
  (forall p r, processes (y_proc y) !! p = Some r -> space_kept hhdm_offset (mem_of y) (mem_of y') (pml4_phys r)) ->
  exec_ok hhdm_offset hhdm_nonneg (sched_of y2, y_proc y2) (sched_of y', y_proc y') ((kb, sz) :: ls) prr kernel_cr3 kb size t root ->
  executes y y' ls prr data size t root.
Proof.
  intros Em Hkn Hd Hle -> -> Hall Hb (_ & _ & Hg) Hkept [(Hps & Hby & Hpg) (_ & T1 & T2 & T3) Hpr Hq _ (ls' & Hv & Hls)].
  split; try done.
  - intros i Hi. etransitivity; [exact (Hby i Hi)|]. change (vm_mem (vm_of (fst (sched_of (put_mem (set_vm_mem m' (mem_of (put_heap h1 y))) (put_heap h1 y)), y_proc y)))) with m'.
    etransitivity; [exact (Hg (kb + i))|]. replace (data + (kb + i - kb)) with (data + i) by lia.
    rewrite (Hb (data + i)) by (first [lia|apply Hall; lia]). zcases; simpl; done || lia.
  - exists kb, sz, h1, ls'. split; [done|]. split; [done|]. split; [apply Hls; left|]. split; [done|]. intros x Hx. apply Hls. by right.
Qed.

(** The frames that are sure to be enough: for the block, for the new address
    space, and for the thread. *)
Definition exec_need (size : Z) : Z := 4 * ((size + 4127) / 4096) + 4 * pages size + 81.

Lemma need_pages size : 0 <= size -> 0 <= pages size.
Proof. intros. unfold pages. Z.div_mod_to_equations. lia. Qed.

Lemma block_scarce (h : heap) size : 0 <= size <= 1048576 -> kh_scarce h size -> spare (h_vm h) < exec_need size.
Proof.
  intros Hs Hsc. destruct (align8_spec size) as [Ha _]; [lia|unfold two64; lia|]. pose proof (need_pages size ltac:(lia)).
  apply (scarce_spare hhdm_offset hhdm_nonneg h size ((size + 4127) / 4096 + 17)) in Hsc; [unfold exec_need; lia|]. Z.div_mod_to_equations. lia.
Qed.

Lemma block_cost (h h1 : heap) ls size kb : 0 <= size <= 1048576 -> kh_view h ls -> ls <> [] -> kh_malloc size h = Ret kb h1 -> kb <> 0 ->
  spare (h_vm h) <= spare (h_vm h1) + 4 * ((size + 4127) / 4096).
Proof.
  intros Hs [Hv Hl] Hne E Hk. pose proof (kmalloc_cost size h ls kb h1 ltac:(lia) ltac:(unfold two64; lia) Hv Hl E Hk) as Hc.
  rewrite decide_False in Hc by done. change (spare (h_vm h) <= spare (h_vm h1) + 4 * ((size + 4127) / 4096) + 0) in Hc. lia.
Qed.

(** C21: SYS_exec takes at most 1 MB from the caller's buffer.  When all its
    pages are mapped, the call does not return: the processor runs a new
    thread of the process in a new address space that holds exactly the
    caller's bytes at [USER_CODE_VADDR], and no process loses or changes a
    page; the kernel's copy of the image stays allocated for ever.  A longer
    image or a buffer with an unmapped page gives -1 and changes nothing.
    With fewer free frames than [exec_need] the call may also return 0 or -1,
    or fault. *)
Theorem exec_call_correct fuel (y : sys) q ls pl prr data size a3 :
  exec_pre y q ls pl prr data size ->
  let run := handler fuel SYS_exec data size a3 y in
  (1048576 < size /\ run = Ret tt (put_ret (-1) y)) \/
  (size <= 1048576 /\ (forall u, data <= u < data + size -> umapped (vm_mem (mem_of y)) (pml4_phys prr) u) /\
   exists t root y', run = Gone y' /\ executes y y' ls prr data size t root) \/
  ((exists u, data <= u < data + size /\ ~ umapped (vm_mem (mem_of y)) (pml4_phys prr) u) /\
   exists y', run = Ret tt y' /\ syscall_retval y' = MINUS1 /\ unharmed y y' ls) \/
  (spare (mem_of y) < exec_need size /\
   (run = Fault \/ exists y', run = Ret tt y' /\ (syscall_retval y' = 0 \/ syscall_retval y' = MINUS1) /\ unharmed y y' ls)).
Proof.
  intros Hpre run. subst run. change (handler fuel SYS_exec data size a3 y) with (handle_exec hhdm_offset hhdm_nonneg junk userspace_entry kernel_cr3 data size y).
  unfold handle_exec. destruct (Z.ltb_spec 1048576 size) as [Hbig|Hsz]; [left; by split|right].
  pose proof Hpre as [(C & Hv & Hl) Hcur _ _ _ _ (Hd & Hz & Hle)]. cbn [fst snd] in C, Hv, Hl.
  assert (Hls : ls <> []) by (intros ->; assert (Hin : current_process (sched_of y) ∈ ([] : list (Z * Z)).*1) by
    (apply (pc_dom _ _ _ _ _ _ _ C), elem_of_dom; destruct Hcur as [_ ->]; eauto); by apply elem_of_nil in Hin).
  destruct (kh_malloc_spec size (heap_of y) ls) as [(kb & sz & h1 & Em & Hk0 & Hksz & Hkn & Hv1)|[Hsc [Em|(h1 & Em & Hv1)]]];
    [unfold two32; lia|exact Hv|..].
  2:{ right. right. split; [by apply block_scarce|left]. by apply mbind_Fault, on_heap_fault. }
  2:{ right. right. split; [by apply block_scarce|right]. exists (put_ret (-1) (put_heap h1 y)). split; [by rewrite (mbind_Ret _ _ _ _ _ (on_heap_ok _ y _ _ Em))|].
      split; [by right|]. split; [done|]. split; [exact Hv1|]. apply (keeps_spaces y q ls pl prr data size); [done|].
      apply keeps_weaken, (malloc_step_top hhdm_offset hhdm_nonneg size _ ls 0 h1 Hv Em). }
  rewrite (mbind_Ret _ _ _ _ _ (on_heap_ok _ y _ _ Em)), (proj2 (Z.eqb_neq _ _) Hk0).
  destruct (exec_buffer y q ls pl prr data size kb sz h1 Hpre Em Hv1) as (Hpre1 & K1 & T1 & Hm1 & Hb1). set (y1 := put_heap h1 y) in *.
  pose proof (view_above hhdm_offset hhdm_nonneg _ _ kb sz Hv1 ltac:(left)) as Hab.
  destruct (from_user_ok hhdm_offset hhdm_nonneg y1 (pml4_phys prr) kb data size) as (r & m' & n & E & Hg & Hn & Hall & Hend).
  { split. exists prr. destruct Hcur as [H0 Hp]. split; [exact H0|]. split; [exact Hp|done]. }
  { split; [apply Hpre1|]. split; [done|]. split; [done|]. split; [done|]. intros x Hx _. right. rewrite frame_ptv by done.
    destruct Hx as (_ & _ & Hx). unfold HEAP_START_VIRT in Hab. lia. }
  rewrite (mbind_Ret _ _ _ _ _ E). clear E. destruct (exec_filled y1 q ls pl prr data size kb sz m' n Hpre1 Hg ltac:(lia)) as (Hpre2 & K2 & T2 & Hload).
  specialize (Hload Hsz). set (y2 := put_mem (set_vm_mem m' (mem_of y1)) y1) in *. assert (K12 : stack_keeps y (mem_of y2)) by (apply keeps_weaken; by eapply keeps_trans).
  assert (T12 : stack_of (mem_of y2) = stack_of (mem_of y)) by (by rewrite T2, T1).
  assert (Hrange : forall i, 0 <= i < size -> 0 <= data + i < 2 ^ 47) by (intros; lia).
  destruct Hend as [[-> ->]|(-> & Hlt & Hno)]; cbn [Z.eqb].
  2:{ right. left. split; [exists (data + n); split; [lia|]; rewrite <- Hm1 by (apply Hrange; lia); exact Hno|].
      destruct (exec_release y y2 q ls pl prr data size kb sz (-1) Hpre) as (y' & E & Hr & Hu); [done|apply (ep_procs _ _ _ _ _ _ _ Hpre2)|exact K12|].
      exists y'. by split. }
  assert (Hmap : forall u, data <= u < data + size -> umapped (vm_mem (mem_of y)) (pml4_phys prr) u) by (intros u Hu; apply Hm1; [lia|by apply Hall]).
  destruct (exec_loaded y2 q ls pl prr data size kb sz (on_kernel (on_sched (on_heap (kh_free kb)))) Hpre2 Hload)
    as [(t & root & y' & E & Hok)|(Hs & Hres)]; [left|right; right].
  - split; [done|]. split; [done|]. exists t, root, y'. split; [exact E|].
    apply (exec_executes y y1 y2 y' ls prr data size kb sz h1 m' t root); try done.
    apply (keeps_spaces y q ls pl prr data size); [done|]. eapply keeps_but_trans; [exact K12|]. rewrite <- T12. exact (eo_keeps _ _ _ _ _ _ _ _ _ _ _ Hok).
  - split; [pose proof (block_cost _ _ ls size kb (conj Hz Hsz) Hv Hls Em Hk0) as Hc; unfold load_short, exec_need in *; change (vm_of (sched_of y2)) with (set_vm_mem m' (mem_of y1)) in Hs; change (spare (set_vm_mem m' (mem_of y1))) with (spare (h_vm h1)) in Hs; change (mem_of y) with (h_vm (heap_of y)); lia|]. destruct Hres as [E|(y3 & E & Ht3 & Hv3 & K3)]; [by left|right].
    destruct (exec_release y y3 q ls pl prr data size kb sz 0 Hpre) as (y' & E' & Hr & Hu); [done|exact Hv3|eapply keeps_but_trans; [exact K12|rewrite <- T12; exact K3]|].
    exists y'. split; [etransitivity; [exact E|exact E']|]. split; [by left|exact Hu].
Qed.
End Call.
End ExecCall.

(** ** Witness: a process that was loaded from a page of zeros runs the first
    five bytes of its own page *)

#[local] Abbreviation demo_load := (load_image demo_hhdm 20480 (demo_hhdm + 28672) 4000).

Lemma demo_load_run : (fun x => negb (fst x =? 0)) <$> returned ((demo_blocks ;;; zoom h_vm set_h_vm demo_load) demo_heap) = Some true.
Proof. vm_compute. reflexivity. Qed.

(** The tables of the direct map after the loading. *)
Lemma demo_load_tables : (fun x => stack_tables demo_hhdm (vm_mem (h_vm (snd x))) 20480) <$>
  returned ((demo_blocks ;;; zoom h_vm set_h_vm demo_load) demo_heap) = Some [8192; 12288; 16384].
Proof. vm_compute. reflexivity. Qed.

(** The address space of a program of one page. *)
Lemma loaded_uspace v0 v1 kr root src size : load_pre demo_hhdm v0 kr src size -> 0 < size <= 4096 -> loaded demo_hhdm v0 v1 kr root src size ->
  uspace demo_hhdm v1 root /\ forall u, 0x400000 <= u < 0x401000 -> umapped demo_hhdm (vm_mem v1) root u.
Proof.
  intros [Hr _ _ _ [_ HT]] Hs [B Hi _]. destruct (built_pspace demo_hhdm _ v0 root v1 Hr HT B) as [Hps _].
  destruct (image_program _ _ _ _ _ _ Hi ltac:(lia)) as [_ Hm]. replace (pages size) with 1 in Hm by (unfold pages; Z.div_mod_to_equations; lia).
  change USER_CODE_VADDR with 0x400000 in Hm. split; [|intros u Hu; apply Hm; [change (2 ^ 47) with 140737488355328; lia|lia]]. split.
  - apply Hps.
  - apply B.
  - intros u Hu Hp. destruct (bt_page _ _ _ _ _ B u (user_low u Hu) Hp) as [(D1 & D2 & D3) Hin]. split; [done|]. by apply (ready_pool demo_hhdm v0 Hr).
  - intros u w Hu Hw Pu%Hm Pw%Hm _; [|done..]. Z.div_mod_to_equations. lia.
Qed.

Definition init_sys (h : @heap_t (@vm_t pmm_t)) (root : Z) : @sys pmm_t :=
  mk_sys (mk_kernel (demo_sched h) timer_boot (ipc_boot demo_msgs) kbd_boot demo_irq [])
    (mk_procs (<[blk_c := mk_process 1 root blk_b 0]> ∅) blk_c 2 0 0x400123) (mkUart [] 0) demo_con 0.

(** The tables on the way to the stack after a program was loaded. *)
Lemma stack_after v0 v1 kr T : keeps_but demo_hhdm (stack_tables demo_hhdm (vm_mem v0) kr) v0 v1 -> stack_ok demo_hhdm v0 kr ->
  stack_tables demo_hhdm (vm_mem v0) kr = T -> stack_tables demo_hhdm (vm_mem v1) kr = T -> stack_ok demo_hhdm v1 kr.
Proof.
  intros K [Hnd HT] E0 E1. unfold stack_ok. rewrite stack_trail in Hnd |- *. rewrite E0 in *. rewrite E1. split; [exact Hnd|].
  intros x Hx. by apply (kb_data _ _ _ _ K), HT.
Qed.

(** The program is loaded. *)
Lemma init_loaded : exists h root ls, procs_ok demo_hhdm demo_hhdm_nonneg (init_sys h root) [] ls [blk_c] /\
  uspace demo_hhdm (h_vm h) root /\ (forall u, 0x400000 <= u < 0x401000 -> umapped demo_hhdm (vm_mem (h_vm h)) root u) /\
  150 <= spare (h_vm h) /\ vm_pml4 (h_vm h) = 20480 /\ stack_ok demo_hhdm (h_vm h) 20480 /\
  forall x, owns demo_hhdm (h_vm h) root x -> x ∉ stack_tables demo_hhdm (vm_mem (h_vm h)) 20480.
Proof.
  destruct demo_proc_inv as (h & ls & E & Hi & _ & K). pose proof demo_load_run as El. unfold mbind, zoom in El. rewrite E in El. cbn [bindr] in El.
  pose proof demo_load_tables as ET. unfold mbind, zoom in ET. rewrite E in ET. cbn [bindr] in ET.
  pose proof (demo_exec_pre h E K) as Hpre. pose proof (demo_spare h E) as Hroom.
  destruct (load_image_gen demo_hhdm demo_hhdm_nonneg (h_vm h) 20480 (demo_hhdm + 28672) 4000 Hpre) as (root & v1 & Er & K1 & O1 & Hres & Hsp).
  rewrite Er in El, ET. cbn [zoomr returned fmap option_fmap option_map snd h_vm set_h_vm] in ET. injection ET as ET.
  destruct Hres as [[-> _]|(Hr0 & Hl)]; [discriminate El|]. clear El.
  assert (E0 : stack_tables demo_hhdm (vm_mem (h_vm h)) 20480 = [8192; 12288; 16384]).
  { pose proof demo_blocks_slot as Hs. rewrite E in Hs. cbn [returned fmap option_fmap option_map snd] in Hs. injection Hs as Hs.
    etransitivity; [exact (proj1 (stack_kept demo_hhdm demo_space (h_vm h) 20480 K Hs demo_stack))|exact loader_trail]. }
  clear E Er. pose proof Hi as (C & Hv & _). cbn [fst snd] in C, Hv. pose proof (lp_stack _ _ _ _ _ Hpre) as Hst.
  pose proof (loaded_uspace (h_vm h) v1 20480 root _ 4000 Hpre ltac:(lia) Hl) as [Hu Hm]. destruct Hl as [B _ _].
  destruct (built_pspace demo_hhdm _ (h_vm h) root v1 (lp_ready _ _ _ _ _ Hpre) (proj2 Hst) B) as [Hps Hown].
  exists (set_h_vm v1 h), root, ls. cbn [h_vm set_h_vm]. split; [|split; [exact Hu|split; [exact Hm|split; [change (pages 4000) with 1 in Hsp; lia|split; [rewrite (kb_root _ _ _ _ K1); exact (vk_root _ _ _ K)|split]]]]].
  2:{ exact (stack_after _ _ _ _ K1 Hst E0 ET). }
  2:{ intros x Hx. rewrite ET, <- E0. intros HT. apply (proj2 Hst) in HT as (_ & Hn & _). by apply Hn, Hown. }
  split; [|split; [|reflexivity]].
  - cbn [fst snd init_sys y_kernel y_proc k_sched processes process_list]. split.
    + apply demo_parent_inv.
    + apply C.
    + intros p. rewrite dom_insert_L, dom_empty_L. intros [->%elem_of_singleton|Hx]%elem_of_union; [|by apply elem_of_empty in Hx].
      apply (pc_dom _ _ _ _ _ _ _ C). apply elem_of_dom. cbn [demo_procs processes]. rewrite lookup_insert_eq. by eexists.
    + split; [reflexivity|]. split; [discriminate|]. exists (mk_process 1 root blk_b 0). split; [apply lookup_insert_eq|reflexivity].
    + intros _. cbn [demo_sched current_process]. rewrite lookup_insert_eq. by eexists.
    + intros p r. rewrite lookup_insert, lookup_empty. case_decide; [|done]. intros [= <-]. exact Hps.
    + intros p1 p2 r1 r2 x. rewrite !lookup_insert, !lookup_empty. repeat case_decide; congruence.
  - apply (load_view demo_hhdm demo_hhdm_nonneg (stack_tables demo_hhdm (vm_mem (h_vm h)) 20480) _ _ _ Hv); [|exact K1|exact O1|exact (proj2 Hst)]. intros ->.
    assert (Hin : blk_c ∈ ([] : list (Z * Z)).*1); [|by apply elem_of_nil in Hin].
    apply (pc_dom _ _ _ _ _ _ _ C), elem_of_dom. cbn [demo_procs processes]. rewrite lookup_insert_eq. by eexists.
Qed.

(** The machine of ProcFacts: one process with an empty address space. *)
Definition exec_sys (h : @heap_t (@vm_t pmm_t)) : @sys pmm_t :=
  mk_sys (mk_kernel (demo_sched h) timer_boot (ipc_boot demo_msgs) kbd_boot demo_irq []) demo_procs (mkUart [] 0) demo_con 0.

Definition demo_handler (nr a1 a2 : Z) : M (@sys pmm_t) unit :=
  syscall_handler demo_hhdm demo_hhdm_nonneg 0 0x1000 20480 demo_lsr (fun _ => 0) 3 0x2000 0x2003 0x3000 0x3002 0x4000 0x5000 0x7000 0x8000 1 nr a1 a2 0.

(** The new thread runs the bytes at 0x400000. *)
Lemma exec_call_correct_witness : exists (y : @sys pmm_t) root0 t root y', demo_handler SYS_exec 0x400000 5 y = Gone y' /\
  current_thread (k_sched (y_kernel y')) = t /\ s_cr3 (k_sched (y_kernel y')) = root /\
  (forall i, 0 <= i < 5 -> ubyte demo_hhdm (vm_mem (mem_of y')) root (USER_CODE_VADDR + i) = ubyte demo_hhdm (vm_mem (mem_of y)) root0 (0x400000 + i)) /\
  umapped demo_hhdm (vm_mem (mem_of y')) root 0x400004.
Proof.
  destruct init_loaded as (h & root0 & ls & I & Hus & Hm & Hsp & Hk & Hst & Ho). exists (init_sys h root0), root0.
  destruct (exec_call_correct demo_hhdm demo_hhdm_nonneg 0 0x1000 20480 demo_lsr (fun _ => 0) 3 0x2000 0x2003 0x3000 0x3002 0x4000 0x5000 0x7000 0x8000
    1 (init_sys h root0) [] ls [blk_c] (mk_process 1 root0 blk_b 0) 0x400000 5 0) as [[Hbig _]|[(_ & _ & t & root & y' & Er & [X1 X2 _ _ (_ & X3 & X4) _ _ _])|[((u & Hu & Hno) & _)|[Hs' _]]]].
  - split.
    + exact I.
    + split; [discriminate|apply lookup_insert_eq].
    + cbn. rewrite lookup_insert_ne by discriminate. rewrite lookup_insert_eq. eexists. reflexivity.
    + exact Hus.
    + split; [symmetry; exact Hk|exact Hst].
    + intros p r x. cbn [init_sys y_proc processes]. rewrite lookup_insert, lookup_empty. case_decide; [|done]. intros [= <-]. exact (Ho x).
    + lia.
  - lia.
  - exists t, root, y'. split; [exact Er|]. split; [exact X3|]. split; [exact X4|]. split; [exact X1|].
    apply X2; [lia|]. change (pages 5) with 1. unfold USER_CODE_VADDR. lia.
  - destruct Hno. apply Hm. lia.
  - exfalso. change (exec_need 5) with 89 in Hs'. change (mem_of (init_sys h root0)) with (h_vm h) in Hs'. lia.
Defined.

(** The same machine with a page at 0x400000 in the frame 28672 that starts
    with the bytes 90, 91, 92, 93, 94: the call, run, loads them. *)
Definition exec_vm (v : @vm_t pmm_t) : @vm_t pmm_t :=
  match vmm_map_user demo_hhdm demo_root 0x400000 28672 7 1 v with
  | Ret _ v' => set_vm_mem (fold_left (fun m i => wr8 m (demo_hhdm + 28672 + i) (90 + i)) [0; 1; 2; 3; 4] (vm_mem v')) v'
  | _ => v
  end.

Definition exec_start (r : res (@heap_t (@vm_t pmm_t)) (Z * Z * Z)) : @sys pmm_t :=
  match r with
  | Ret _ h => exec_sys (set_h_vm (exec_vm (h_vm h)) h)
  | _ => exec_sys demo_heap
  end.

Definition exec_bytes (r : res (@sys pmm_t) unit) : option (list Z) :=
  match r with
  | Gone y' => Some (text_at demo_hhdm (vm_mem (mem_of y')) (s_cr3 (k_sched (y_kernel y'))) USER_CODE_VADDR 7)
  | _ => None
  end.

Lemma exec_runs : exec_bytes (demo_handler SYS_exec 0x400000 5 (exec_start (demo_blocks demo_heap))) = Some [90; 91; 92; 93; 94; 0; 0].
Proof. vm_compute. reflexivity. Qed.
