(* ===== verification/ElfLoad.v ===== *)
(** * Facts about [elf_load]

    The process it makes, and what the second [scheduler_add_thread] does to
    everybody else: the new thread is its own successor, and from then on it
    is the only one that [schedule] chooses. *)

From stdpp Require Import base gmap list fin_maps.
From Stdlib Require Import ZArith Lia.
From S2P Require Import Prelude Mem Pmm Vmm PageTables Heap HeapFacts HeapKeeps KernelMem Chain Descriptors Sched SchedFacts SchedRun.
From S2P Require Import Fork ForkFacts UserCopy Spaces Proc ProcFacts HeapStep ElfFacts ExecFacts.

#[local] Opaque rd64 wr64 memcpy memset kmalloc kfree load_raw.

(** ** A queue of one thread behind itself *)

Section Alone.
Context {H : Type} `{HK : KHeap H}.
#[local] Abbreviation sched := (@sched_t H).

(** The idle thread or [t] itself runs, and [t] is the whole queue. *)
Record alone (sc : sched) (t : Z) : Prop := {
  al_lock : sched_lock sc = 0;
  al_nz : t <> 0 /\ idle_thread_ptr sc <> 0 /\ idle_thread_ptr sc <> t;
  al_queue : self_queued sc t;
  al_idle : is_Some (s_threads sc !! idle_thread_ptr sc);
  al_cur : current_thread sc = idle_thread_ptr sc \/ current_thread sc = t
}.

(** Put back behind itself. *)
Lemma enqueue_self (sc : sched) t th : ready_queue sc = t -> t <> 0 -> s_threads sc !! t = Some th ->
  enqueue_tail t sc = Ret tt (set_threads (<[t := set_th_next t th]> (s_threads sc)) sc).
Proof.
  intros Hq H0 Ht. unfold enqueue_tail. mstep. rewrite (on_update _ t th) by done. cbn [bindr ready_queue set_threads]. rewrite Hq.
  unfold truthy. rewrite (proj2 (Z.eqb_neq _ _) H0). cbn [negb]. unfold on_threads at 1, zoom. cbn [s_threads set_threads].
  set (h1 := <[t := set_th_next 0 th]> (s_threads sc)).
  assert (Hc : chain h1 t [t]).
  { split; [done|]. split; [done|]. exists (set_th_next 0 th). split; [apply lookup_insert_eq|done]. }
  rewrite (find_tail_spec h1 t [] t Hc). cbn [zoomr bindr].
  rewrite (on_update _ t (set_th_next 0 th)) by (try done; apply lookup_insert_eq). cbn [s_threads set_threads]. unfold h1. by rewrite insert_insert_eq.
Qed.

(** Whoever runs, [pick_next] chooses [t] and keeps the loop. *)
Lemma pick_alone (sc : sched) t th0 : alone sc t -> s_threads sc !! t = Some th0 ->
  exists th, pick_next (current_thread sc) (set_sched_lock 1 sc) = Ret t (set_threads (<[t := th]> (s_threads sc)) (set_sched_lock 1 sc)) /\ th_next th = t /\ th_cr3 th = th_cr3 th0.
Proof.
  intros [Hl (H0 & Hi0 & Hit) (Hq & th & Hth & Hn) [i Hi] Hc] Hth0. assert (th0 = th) as -> by congruence. unfold pick_next. mstep. cbn [ready_queue set_sched_lock]. rewrite Hq.
  rewrite (proj2 (Z.eqb_neq _ _) H0). rewrite (on_deref _ t th) by done. cbn [bindr]. rewrite Hn.
  destruct Hc as [Hc|Hc]; rewrite Hc.
  - rewrite (on_deref _ (idle_thread_ptr sc) i) by done. cbn [bindr idle_thread_ptr set_threads set_ready_queue set_sched_lock].
    rewrite Z.eqb_refl, andb_false_r. cbn [bindr]. exists th. rewrite (insert_id _ _ _ Hth). split; [|by split]. f_equal. by destruct sc; cbn in *; subst.
  - rewrite (on_deref _ t th) by done. cbn [bindr idle_thread_ptr set_threads set_ready_queue set_sched_lock]. rewrite (proj2 (Z.eqb_neq t (idle_thread_ptr sc))) by congruence.
    cbn [negb]. rewrite andb_true_r. destruct (th_state th =? THREAD_STATE_RUNNING).
    + rewrite (on_update _ t th) by done. cbn [bindr]. rewrite (enqueue_self _ t (set_th_state THREAD_STATE_READY th)) by (try done; apply lookup_insert_eq).
      exists (set_th_next t (set_th_state THREAD_STATE_READY th)). split; [|by split]. cbn [bindr s_threads set_threads set_ready_queue set_sched_lock]. rewrite insert_insert_eq.
      by destruct sc; cbn in *; subst.
    + exists th. rewrite (insert_id _ _ _ Hth). split; [|by split]. cbn [bindr]. by destruct sc; cbn in *; subst.
Qed.

(** The address space of [t]. *)
Definition space_of (sc : sched) (t root : Z) : Prop := exists th, s_threads sc !! t = Some th /\ th_cr3 th = root.

Lemma schedule_alone (sc : sched) t root : alone sc t -> space_of sc t root ->
  exists sc' k, schedule sc = Switch sc' k /\ alone sc' t /\ space_of sc' t root /\ current_thread sc' = t /\ s_cr3 sc' = root.
Proof.
  intros A (th0 & Hth0 & <-). destruct (pick_alone sc t th0 A Hth0) as (th & E & Hn & <-). destruct A as [Hl (H0 & Hi0 & Hit) (Hq & _) [i Hi] Hc].
  unfold schedule, lock_sched. mstep. rewrite Hl. cbn [Z.eqb bindr current_thread set_sched_lock].
  assert (Hc0 : current_thread sc <> 0) by (destruct Hc; congruence). rewrite (proj2 (Z.eqb_neq _ _) Hc0), E. cbn [bindr].
  rewrite (on_update _ t th) by (try done; apply lookup_insert_eq). cbn [bindr].
  rewrite (on_deref _ t (set_th_state THREAD_STATE_RUNNING th)) by (try done; apply lookup_insert_eq). cbn [bindr].
  unfold unlock_sched, switch_to. mstep.
  destruct (truthy _); cbn [bindr]; eexists _, _; (split; [reflexivity|]); (split; [|split; [eexists; split; [apply lookup_insert_eq|done]|done]]);
    (split; cbn; [done|done|split; [done|]; eexists; split; [apply lookup_insert_eq|done]|do 2 rewrite lookup_insert_ne by done; by eexists|by right]).
Qed.

(** [n] calls of [schedule], each in the thread the one before chose. *)
Fixpoint schedules (n : nat) (sc : sched) : option sched :=
  match n with
  | O => Some sc
  | S n' => match schedule sc with Switch sc' _ | Ret _ sc' => schedules n' sc' | _ => None end
  end.

Lemma schedules_alone t root n : forall sc : sched, alone sc t -> space_of sc t root ->
  exists sc', schedules (S n) sc = Some sc' /\ alone sc' t /\ current_thread sc' = t /\ s_cr3 sc' = root.
Proof.
  induction n as [|n IH]; intros sc A Hs; destruct (schedule_alone sc t root A Hs) as (sc1 & k & E & A1 & Hs1 & Hc); cbn [schedules]; rewrite E; [by exists sc1|].
  destruct (IH sc1 A1 Hs1) as (sc' & E' & Hr). cbn [schedules] in E'. by exists sc'.
Qed.
End Alone.

(** ** The new process *)

Section ElfLoad.
Context {P : Type} `{FrameAllocator P}.
Context (hhdm_offset : Z) (hhdm_nonneg : 0 <= hhdm_offset).
Context (junk : Z) (userspace_entry : Z).
#[local] Abbreviation vm := (@vm_t P).
#[local] Abbreviation heap := (@heap_t vm).
#[local] Abbreviation sched := (@sched_t heap).
#[local] Instance elf_mapper : PageMapper vm := Vmm_PageMapper hhdm_offset hhdm_nonneg.
#[local] Abbreviation slot := (slot hhdm_offset).
#[local] Abbreviation vm_keeps := (vm_keeps hhdm_offset).
#[local] Abbreviation elf_load := (elf_load hhdm_offset hhdm_nonneg junk userspace_entry).

(** What the loader needs: the kernel's PML4, in whose slot 256 the tables on
    the way to the stack belong to nobody, and an image in bytes that neither
    the free frames nor the kernel's tables hold. *)
Record source_pre (v : vm) (kr data size : Z) : Prop := {
  so_kernel : kr = vm_pml4 v /\ stack_ok hhdm_offset v kr;
  so_bytes : forall i, 0 <= i < size -> far hhdm_offset heap_slot (vm_pml4 v) v (data + i);
  so_size : 0 <= size /\ USER_CODE_VADDR + size + 4096 <= 2 ^ 47
}.

Lemma source_load (v v' : vm) kr data size : vm_keeps v v' -> top_same hhdm_offset v v' -> far_same hhdm_offset v v' -> source_pre v kr data size ->
  load_pre hhdm_offset v' kr data size /\ stack_tables hhdm_offset (vm_mem v') kr = stack_tables hhdm_offset (vm_mem v) kr /\
  forall i, 0 <= i < size -> rd8 (vm_mem v') (data + i) = rd8 (vm_mem v) (data + i).
Proof.
  intros K T F [[-> Hs] Hb Hz]. destruct (stack_kept hhdm_offset v v' (vm_pml4 v) K ltac:(by apply T) Hs) as [ET Hs'].
  split; [|split; [exact ET|intros i Hi; by apply F, Hb]]. split.
  - apply K.
  - intros i x Hi Hx Hin. destruct (far_keeps hhdm_offset v v' _ K (Hb i Hi) x) as (_ & Hn & _); [|exact Hin|by apply Hn].
    pose proof (ready_pool _ _ (vk_ready _ _ _ K)) as (_ & _ & Hff). by apply Hff.
  - exact Hz.
  - rewrite <- (vk_root _ _ _ K). by apply (ktable_not_free hhdm_offset v' [] (vm_pml4 v') (vk_ready _ _ _ K) (tpath_nil _)).
  - exact Hs'.
Qed.

#[local] Abbreviation stack_of sc kr := (stack_tables hhdm_offset (vm_mem (vm_of sc)) kr).

(** The process [proc] with the thread [t], which stands behind itself. *)
Record elf_ok (s s' : sched * proc_t) (kr data size proc t root : Z) : Prop := {
  el_program : program_at hhdm_offset (vm_of (fst s)) (vm_of (fst s')) root data size;
  el_owns : forall x, owns hhdm_offset (vm_of (fst s')) root x -> x ∈ free_frames (vm_of (fst s));
  el_keeps : keeps_but hhdm_offset (stack_of (fst s) kr) (vm_of (fst s)) (vm_of (fst s'));
  el_process : proc <> 0 /\ processes (snd s) !! proc = None /\
    snd s' = mk_procs (<[proc := mk_process (next_pid (snd s)) root t 0]> (processes (snd s))) (process_list (snd s))
      (u64 (next_pid (snd s) + 1)) 0 (saved_user_rip (snd s));
  el_thread : (t ∉ dom (s_threads (fst s))) /\ exists th, s_threads (fst s') !! t = Some th /\ th_cr3 th = root /\ th_process th = proc;
  el_queue : self_queued (fst s') t /\ current_thread (fst s') = current_thread (fst s);
  el_alone : current_thread (fst s) = idle_thread_ptr (fst s) -> alone (fst s') t
}.

(** It failed: no process, and nothing of the heap is lost. *)
Definition elf_failed (s s' : sched * proc_t) (kr : Z) (ls : list (Z * Z)) : Prop :=
  processes (snd s') = processes (snd s) /\ s_threads (fst s') = s_threads (fst s) /\ kh_view (s_heap (fst s')) ls /\
  keeps_but hhdm_offset (stack_of (fst s) kr) (vm_of (fst s)) (vm_of (fst s')).

(** The address spaces of the processes, when they do not hold the tables on
    the way to the stack. *)
Definition spaces_kept (s s' : sched * proc_t) (kr : Z) : Prop :=
  forall p r, processes (snd s) !! p = Some r -> (forall x, owns hhdm_offset (vm_of (fst s)) (pml4_phys r) x -> x ∉ stack_of (fst s) kr) ->
  space_kept hhdm_offset (vm_of (fst s)) (vm_of (fst s')) (pml4_phys r).

Lemma alloc_process_top (sc : sched) pr ls p s1 : kh_view (s_heap sc) ls -> alloc_process hhdm_offset hhdm_nonneg junk (sc, pr) = Ret p s1 ->
  top_same hhdm_offset (vm_of sc) (vm_of (fst s1)) /\ far_same hhdm_offset (vm_of sc) (vm_of (fst s1)).
Proof.
  intros Hv E. unfold alloc_process in E. unfold mbind at 1 in E. apply bindr_Ret_inv in E as (q & s2 & E & E').
  unfold on_s, on_heap, zoom in E. cbn [fst s_heap] in E. destruct (kh_malloc sizeof_process (s_heap sc)) as [q' h'| | | | |] eqn:Em; try discriminate E.
  injection E as -> <-. destruct (malloc_step_top hhdm_offset hhdm_nonneg _ _ _ _ _ Hv Em) as (_ & T & F).
  assert (Hs : vm_of (fst s1) = h_vm h'); [|by rewrite Hs].
  destruct (q =? 0); unfold mbind in E'; cbn in E'; by injection E' as _ <-.
Qed.

(** The frames that are sure to be enough: for the record (and the heap's
    first pages), for the address space, and for the thread. *)
Definition elf_need (size : Z) : Z := 4 * pages size + 149.

Lemma record_cost (h h1 : heap) ls p : kh_view h ls -> kh_malloc sizeof_process h = Ret p h1 -> p <> 0 -> spare (h_vm h) <= spare (h_vm h1) + 68.
Proof.
  intros [Hv Hl] E Hk. pose proof (kmalloc_cost sizeof_process h ls p h1 ltac:(unfold sizeof_process; lia) ltac:(unfold sizeof_process, two64; lia) Hv Hl E Hk) as Hc.
  change (spare (h_vm h) <= spare (h_vm h1) + 4 + (if decide (ls = []) then 64 else 0)) in Hc. destruct (decide (ls = [])); lia.
Qed.

(** The end of [elf_load], with the thread at hand. *)
Lemma elf_publish (sc sc1 sc2 : sched) st hd np rip q ls kr data size proc n t root : sched_inv sc q -> proc <> 0 ->
  sc1 = set_heap (s_heap sc1) sc -> raw_ok hhdm_offset hhdm_nonneg sc1 sc2 q ls proc kr data size t root ->
  exists sc3, (on_processes (update proc (set_main_thread t)) ;;; on_s (scheduler_add_thread t) ;;; p <- on_processes (deref proc) ;; mret (i32 (pid p)))
      (sc2, mk_procs (<[proc := mk_process n root junk 0]> st) hd np 0 rip) =
    Ret (i32 n) (sc3, mk_procs (<[proc := mk_process n root t 0]> st) hd np 0 rip) /\
    s_heap sc3 = s_heap sc2 /\ self_queued sc3 t /\ current_thread sc3 = current_thread sc /\
    (exists th, s_threads sc3 !! t = Some th /\ th_cr3 th = root /\ th_process th = proc) /\
    (current_thread sc = idle_thread_ptr sc -> alone sc3 t).
Proof.
  intros I Hp0 Hsc1 [_ _ [Ht0 Htd] (th & words & Hcr & Hth & Hpr) _ I2 _].
  rewrite (mbind_Ret _ _ _ _ _ (update_proc _ _ _ _ _ _ proc _ _ Hp0 (lookup_insert_eq _ _ _))), insert_insert_eq.
  set (th2 := set_th_next (ready_queue sc1) th) in *.
  assert (Ht2 : s_threads sc2 !! t = Some th2) by (rewrite Hcr; apply lookup_insert_eq).
  pose proof (add_again sc2 t th2 (si_lock _ _ I2) Ht0 ltac:(by rewrite Hcr) Ht2) as Ea. set (sc3 := mk_sched _ _ _ _ _ _ _ _ _ _ _) in Ea.
  rewrite (mbind_Ret _ _ _ _ _ (on_s_ok _ _ _ _ _ Ea)), (mbind_Ret _ _ _ _ _ (deref_proc _ _ _ _ _ _ proc _ Hp0 (lookup_insert_eq _ _ _))).
  assert (Hc : current_thread sc2 = current_thread sc /\ idle_thread_ptr sc2 = idle_thread_ptr sc) by (rewrite Hcr, Hsc1; done). destruct Hc as [Hc Hi].
  assert (Hq : self_queued sc3 t) by (split; [done|]; exists (set_th_next t th2); split; [apply lookup_insert_eq|done]).
  exists sc3. split; [done|]. split; [done|]. split; [exact Hq|]. split; [exact Hc|]. split.
  { exists (set_th_next t th2). split; [apply lookup_insert_eq|by split]. }
  intros Hci. assert (Hit : idle_thread_ptr sc2 <> t) by (intros Hx; apply (si_idle_out _ _ I2); rewrite Hx; left).
  split; [done|split; [done|]|exact Hq| |left; cbn; congruence].
  - split; [exact (si_idle_nz _ _ I2)|exact Hit].
  - cbn [s_threads idle_thread_ptr sc3]. rewrite lookup_insert_ne by done.
    destruct (si_idle _ _ I2) as [Hx|Hx]; destruct (state_of_Some _ _ _ Hx) as (u & Hu & _); by exists u.
Qed.

Lemma elf_load_gen (sc : sched) st hd np rip q ls kr data size :
  sched_inv sc q -> heap_ok sc ls -> (forall p, p ∈ dom st -> p ∈ ls.*1) -> source_pre (vm_of sc) kr data size ->
  let s := (sc, mk_procs st hd np 0 rip) in
  let run := elf_load kr data size s in
  (exists proc t root s', run = Ret (i32 np) s' /\ elf_ok s s' kr data size proc t root) \/
  (spare (vm_of sc) < elf_need size /\ (run = Fault \/ exists s', run = Ret (-1) s' /\ elf_failed s s' kr ls)).
Proof.
  intros I [Hv Hth] Hdom Hsrc s run. unfold run, s, Proc.elf_load. clear run s.
  assert (Hmin : spare (vm_of sc) < 68 -> spare (vm_of sc) < elf_need size).
  { destruct (so_size _ _ _ _ Hsrc) as [Hz _]. unfold elf_need, pages. intros. Z.div_mod_to_equations. lia. }
  destruct (alloc_process_ok hhdm_offset hhdm_nonneg junk sc st hd np 0 rip ls Hv) as [(proc & sz & h1 & E & Hp0 & Hpn & Hv1 & K1 & _ & Em)|[Hs [E|(h1 & E & Hv1 & K1)]]].
  2:{ right. split; [exact (Hmin Hs)|left]. exact (mbind_Fault _ _ _ E). }
  2:{ right. split; [exact (Hmin Hs)|right]. rewrite (mbind_Ret _ _ _ _ _ E). eexists. split; [done|]. split; [done|]. split; [done|]. split; [exact Hv1|by apply keeps_weaken]. }
  destruct (alloc_process_top _ _ _ _ _ Hv E) as [T1 F1]. cbn [fst] in T1, F1.
  rewrite (mbind_Ret _ _ _ _ _ E), (proj2 (Z.eqb_neq _ _) Hp0). clear E. set (sc1 := set_heap h1 sc) in *.
  assert (Hst : st !! proc = None) by (destruct (st !! proc) eqn:Hx; [|done]; destruct Hpn; apply Hdom, elem_of_dom; by rewrite Hx).
  assert (Ep : proc_alloc_pid (sc1, mk_procs (<[proc := mk_process junk junk junk junk]> st) hd np 0 rip) =
    Ret np (sc1, mk_procs (<[proc := mk_process junk junk junk junk]> st) hd (u64 (np + 1)) 0 rip)) by done.
  rewrite (mbind_Ret _ _ _ _ _ Ep). clear Ep.
  rewrite (mbind_Ret _ _ _ _ _ (update_proc _ _ _ _ _ _ proc _ _ Hp0 (lookup_insert_eq _ _ _))), insert_insert_eq.
  rewrite (mbind_Ret _ _ _ _ _ (update_proc _ _ _ _ _ _ proc _ _ Hp0 (lookup_insert_eq _ _ _))), insert_insert_eq.
  cbn [set_pid set_p_next pid pml4_phys main_thread p_next]. destruct (source_load _ _ kr data size K1 T1 F1 Hsrc) as (Hload & ET & Hby).
  assert (Hneed : load_short sc1 size -> spare (vm_of sc) < elf_need size).
  { pose proof (record_cost _ _ _ _ Hv Em Hp0) as Hc. unfold load_short, elf_need. change (vm_of sc1) with (h_vm h1). unfold vm_of. lia. }
  pose proof (sched_inv_heap sc q h1 I) as I1. fold sc1 in I1.
  destruct (load_raw_gen hhdm_offset hhdm_nonneg junk userspace_entry sc1 (<[proc := mk_process np junk junk 0]> st) hd (u64 (np + 1)) 0 rip q ((proc, sz) :: ls) proc (mk_process np junk junk 0) kr data size)
    as [(t & root & sc2 & E & R)|(Hs & [E|(h' & r' & E & Hv' & K')])]; try done;
    [split; [exact Hv1|intros u Hu; right; by apply Hth]|apply lookup_insert_eq|left|right|right].
  - rewrite (mbind_Ret _ _ _ _ _ E), insert_insert_eq, (proj2 (Z.eqb_neq t 0)) by apply R. clear E. cbn [set_pml4_phys pid main_thread p_next].
    destruct (elf_publish sc sc1 sc2 st hd (u64 (np + 1)) rip q _ kr data size proc np t root I Hp0 eq_refl R) as (sc3 & E & Hh & Hq & Hc & Hnew & Hal).
    exists proc, t, root. eexists. split; [exact E|]. destruct R as [(R1 & R1' & R1'') R2 R3 _ R5 _ _]. split; cbn [fst snd]; unfold vm_of; rewrite ?Hh; try done.
    + split; [exact R1|]. split; [|exact R1'']. intros i Hi. etransitivity; [by apply R1'|exact (Hby i Hi)].
    + intros x Hx. by apply K1, R2.
    + assert (R6 : keeps_but hhdm_offset (stack_of sc kr) (h_vm h1) (vm_of sc2)) by (rewrite <- ET; exact R5).
      eapply keeps_but_trans; [by apply keeps_weaken|exact R6].
    + split; [apply R3|exact Hnew].
  - split; [by apply Hneed|left]. exact (mbind_Fault _ _ _ E).
  - split; [by apply Hneed|right].
    rewrite (mbind_Ret _ _ _ _ _ E), insert_insert_eq. cbn [Z.eqb].
    destruct (free_process_ok hhdm_offset hhdm_nonneg (set_heap h' sc1) st hd (u64 (np + 1)) 0 rip proc r' sz ls Hv' Hst) as (h2 & Ef & Hv2 & Hvm & _).
    rewrite (mbind_Ret _ _ _ _ _ Ef). eexists. split; [done|]. split; [done|]. split; [done|]. split; [exact Hv2|].
    cbn [fst]. change (keeps_but hhdm_offset (stack_of sc kr) (vm_of sc) (h_vm h2)). rewrite Hvm.
    assert (R6 : keeps_but hhdm_offset (stack_of sc kr) (h_vm h1) (h_vm h')) by (rewrite <- ET; exact K').
    eapply keeps_but_trans; [by apply keeps_weaken|exact R6].
Qed.

(** ** Properties *)

(** C30: [elf_load] makes a process out of a program image: a new record with
    the next process id, a new address space of free frames that holds the
    image and nothing else in the user half, and a new thread in it.  The
    stack goes through the tables of the kernel's PML4 slot 256; every process
    that does not own one of these tables keeps its memory.  It returns -1 (or
    faults) only when fewer frames than [elf_need] are free, and then no
    process exists and every block is given back. *)
Theorem elf_load_correct (s : sched * proc_t) q ls pl kr data size :
  proc_inv hhdm_offset hhdm_nonneg s q ls pl -> source_pre (vm_of (fst s)) kr data size ->
  let run := elf_load kr data size s in
  (exists proc t root s', run = Ret (i32 (next_pid (snd s))) s' /\ elf_ok s s' kr data size proc t root /\ spaces_kept s s' kr) \/
  (spare (vm_of (fst s)) < elf_need size /\ (run = Fault \/ exists s', run = Ret (-1) s' /\ elf_failed s s' kr ls /\ spaces_kept s s' kr)).
Proof.
  destruct s as [sc [st hd np l rip]]. unfold proc_inv. cbn [fst snd processes process_list proc_lock next_pid]. intros (C & Hv & ->) Hsrc.
  assert (Hk : forall s', keeps_but hhdm_offset (stack_of sc kr) (vm_of sc) (vm_of (fst s')) -> spaces_kept (sc, mk_procs st hd np 0 rip) s' kr).
  { intros s' K p r Hp Hn. apply (pspace_keeps_but hhdm_offset _ _ _ _ K); [exact (pc_space _ _ _ _ _ _ _ C p r Hp)|exact Hn]. }
  destruct (elf_load_gen sc st hd np rip q ls kr data size) as [(proc & t & root & s' & E & Hok)|(Hs & [E|(s' & E & Hf)])];
    [apply C|split; [exact Hv|apply C]|apply C|exact Hsrc|left|right; split; [done|by left]|right; split; [done|right]].
  - exists proc, t, root, s'. split; [exact E|]. split; [exact Hok|apply Hk, Hok].
  - exists s'. split; [exact E|]. split; [exact Hf|apply Hk, Hf].
Qed.
End ElfLoad.

(** ** Witness: the machine of ProcFacts and five bytes outside the direct map *)

Lemma demo_source h : demo_blocks demo_heap = Ret (blk_a, blk_b, blk_c) h -> vm_keeps demo_hhdm demo_space (h_vm h) ->
  source_pre demo_hhdm (h_vm h) 20480 0xFFFFFFFF80000000 5.
Proof.
  intros E K. pose proof demo_blocks_slot as Hs. rewrite E in Hs. cbn [returned fmap option_fmap option_map snd] in Hs. injection Hs as Hs. clear E.
  split; [split; [symmetry; apply K|exact (proj2 (stack_kept demo_hhdm demo_space (h_vm h) 20480 K Hs demo_stack))]| |split; [lia|vm_compute; discriminate]].
  intros i Hi x Hx Hin. exfalso. rewrite frame_ptv in Hin by (exact demo_hhdm_nonneg || exact Hx). destruct Hx as (_ & _ & Hx). lia.
Qed.

Lemma elf_load_correct_witness : exists h proc t root s', demo_blocks demo_heap = Ret (blk_a, blk_b, blk_c) h /\
  elf_load demo_hhdm demo_hhdm_nonneg 0 0x1000 20480 0xFFFFFFFF80000000 5 (demo_sched h, demo_procs) = Ret 2 s' /\
  elf_ok demo_hhdm (demo_sched h, demo_procs) s' 20480 0xFFFFFFFF80000000 5 proc t root.
Proof.
  destruct demo_proc_inv as (h & ls & E & Hi & _ & K). exists h.
  destruct (elf_load_correct demo_hhdm demo_hhdm_nonneg 0 0x1000 _ _ _ _ 20480 0xFFFFFFFF80000000 5 Hi (demo_source h E K))
    as [(proc & t & root & s' & Er & Hok & _)|[Hs _]].
  - exists proc, t, root, s'. split; [exact E|]. split; [exact Er|exact Hok].
  - exfalso. pose proof (demo_spare h E) as Hsp. change (elf_need 5) with 153 in Hs. change (vm_of (fst (demo_sched h, demo_procs))) with (h_vm h) in Hs. lia.
Defined.
