(* ===== verification/UserProgs.v ===== *)
(** * User programs (src/user/shell.S, src/user/init.S)

    The two programs of user mode, over the system calls.  A program is the
    sequence of its [syscall] instructions with the registers it passes and
    the tests it makes between them; an address of its image (the labels of
    the assembly, the instruction after a [syscall]) is a parameter.  RDI, RSI
    and RDX do not survive a call; where a program leaves them, the argument is
    the parameter [clobbered]. *)

From stdpp Require Import base gmap list fin_maps.
From Stdlib Require Import ZArith Lia.
From S2P Require Import Prelude Mem Pmm Vmm PageTables Heap HeapFacts KernelMem Chain Descriptors Sched SchedFacts.
From S2P Require Import Timer Ipc IpcFacts KbdBuf Printf Serial Console ConsoleFacts Irq Fork ForkFacts UserCopy Spaces Proc ProcFacts ElfFacts ExecFacts ExecCall Syscalls SyscallFacts Isolation.

Section UserProgs.
Context {P : Type} `{FrameAllocator P}.
Context (hhdm_offset : Z) (hhdm_nonneg : 0 <= hhdm_offset).
Context (junk : Z) (userspace_entry kernel_cr3 : Z).
Context (lsr : list (Z * Z) -> nat -> Z) (scratch : list (Z * Z) -> Z) (polls : nat).
Context (init_start init_end shell_start shell_end : Z).
Context (c_addr kbuf_addr name_addr yield_rip : Z).
#[local] Abbreviation vm := (@vm_t P).
#[local] Abbreviation sys := (@sys P).
#[local] Abbreviation ubyte := (ubyte hhdm_offset).
#[local] Abbreviation umapped := (umapped hhdm_offset).
#[local] Abbreviation text_at := (text_at hhdm_offset).
#[local] Abbreviation handler := (syscall_handler hhdm_offset hhdm_nonneg junk userspace_entry kernel_cr3 lsr scratch polls
  init_start init_end shell_start shell_end c_addr kbuf_addr name_addr yield_rip).

#[local] Instance prog_mapper : PageMapper vm := Vmm_PageMapper hhdm_offset hhdm_nonneg.

(** The [syscall] instruction before the address [rip]: the entry code saves
    that address, calls the handler, and returns [syscall_retval] in RAX. *)
Definition usyscall (fuel : nat) (rip rax rdi rsi rdx : Z) : M sys Z :=
  on_proc (on_p (mset (fun s => mk_procs (processes s) (process_list s) (next_pid s) (proc_lock s) rip))) ;;;
  handler fuel rax rdi rsi rdx ;;;
  mget syscall_retval.

(** ** shell.S *)

Section Shell.
(** The labels [prompt] and [buf], and the addresses after the three calls. *)
Context (prompt buf prompted_rip read_rip echoed_rip : Z).

(** One round, from [_start] back to [_start], where the shell begins the
    next; [jle] is a signed comparison. *)
Definition shell_round (fuel : nat) : M sys unit :=
  _ <- usyscall fuel prompted_rip 1 1 prompt 2 ;;
  rax <- usyscall fuel read_rip 0 0 buf 128 ;;
  if i64 rax <=? 0 then mret tt
  else
    let r12 := rax in
    _ <- usyscall fuel echoed_rip 1 1 buf r12 ;;
    mret tt.
End Shell.

(** ** init.S *)

Section Init.
(** The labels [shell_name] and [shell_buf], the addresses after the calls. *)
Context (shell_name shell_buf clobbered : Z).
Context (got_rip fork_rip exec_rip exit_rip loop_rip : Z).

Fixpoint loop_forever (fuel n : nat) : M sys unit :=
  match n with
  | O => mret tt
  | S n' => _ <- usyscall fuel loop_rip 158 clobbered clobbered clobbered ;; loop_forever fuel n'
  end.

(** From the address after the [fork] on, with what RAX and R12 hold there:
    the parent continues here, and the child starts here. *)
Definition init_forked (fuel n : nat) (rax r12 : Z) : M sys unit :=
  if negb (rax =? 0) then loop_forever fuel n
  else
    _ <- usyscall fuel exec_rip 10 shell_buf r12 clobbered ;;
    _ <- usyscall fuel exit_rip 60 0 clobbered clobbered ;;
    loop_forever fuel n.

(** [ja] is an unsigned comparison. *)
Definition init (fuel n : nat) : M sys unit :=
  rax <- usyscall fuel got_rip 11 shell_name shell_buf 4096 ;;
  let r12 := rax in
  if rax =? 0 then loop_forever fuel n
  else if 4096 <? rax then loop_forever fuel n
  else
    rax <- usyscall fuel fork_rip 7 clobbered clobbered clobbered ;;
    init_forked fuel n rax r12.
End Init.

(** ** One system call *)

Definition put_rip (rip : Z) (y : sys) : sys :=
  mk_sys (y_kernel y) (mk_procs (processes (y_proc y)) (process_list (y_proc y)) (next_pid (y_proc y)) (proc_lock (y_proc y)) rip)
    (y_uart y) (y_con y) (syscall_retval y).

Lemma syscall_ret fuel rip rax rdi rsi rdx y y' : handler fuel rax rdi rsi rdx (put_rip rip y) = Ret tt y' ->
  usyscall fuel rip rax rdi rsi rdx y = Ret (syscall_retval y') y'.
Proof.
  intros E. unfold usyscall.
  assert (E0 : on_proc (on_p (mset (fun s => mk_procs (processes s) (process_list s) (next_pid s) (proc_lock s) rip))) y = Ret tt (put_rip rip y)).
  { by destruct y as [[] [] u c r]. }
  rewrite (mbind_Ret _ _ _ _ _ E0), (mbind_Ret _ _ _ _ _ E). done.
Qed.

Lemma syscall_fault fuel rip rax rdi rsi rdx y : handler fuel rax rdi rsi rdx (put_rip rip y) = Fault -> usyscall fuel rip rax rdi rsi rdx y = Fault.
Proof.
  intros E. unfold usyscall.
  assert (E0 : on_proc (on_p (mset (fun s => mk_procs (processes s) (process_list s) (next_pid s) (proc_lock s) rip))) y = Ret tt (put_rip rip y)).
  { by destruct y as [[] [] u c r]. }
  rewrite (mbind_Ret _ _ _ _ _ E0). exact (mbind_Fault _ _ _ E).
Qed.

Lemma caller_rip rip y root : caller y root -> caller (put_rip rip y) root.
Proof. intros [Hc]. by split. Qed.

(** ** The shell *)

Section ShellFacts.
Context (prompt buf prompted_rip read_rip echoed_rip : Z).
(** The transmitter is ready within [np] polls. *)
Context (np : nat) (Hready : ready_within lsr np) (Hpolls : (np <= polls)%nat).

(** The shell can run: it has mapped memory for the prompt and the buffer,
    which the locals of the kernel are apart from, and the screen shows [t]. *)
Record shell_ready (y : sys) (root : Z) (t : term) : Prop := {
  sr_caller : caller y root;
  sr_space : uspace hhdm_offset (mem_of y) root;
  sr_kbuf : kbuf hhdm_offset (mem_of y) root kbuf_addr 2;
  sr_c : kbuf hhdm_offset (mem_of y) root c_addr 1;
  sr_prompt : 0 <= prompt /\ prompt + 2 <= 2 ^ 47 /\ (forall v, prompt <= v < prompt + 2 -> umapped (vm_mem (mem_of y)) root v);
  sr_buf : 0 <= buf < 2 ^ 47 /\ umapped (vm_mem (mem_of y)) root buf /\ (buf < prompt \/ prompt + 2 <= buf);
  sr_text : text_at (vm_mem (mem_of y)) root prompt 2 = [36; 32];
  sr_screen : fb_ok (y_con y) /\ renders (y_con y) t
}.

(** Memory may change as long as the tables and the prompt stay. *)
Lemma shell_ready_move y y' root t t' : shell_ready y root t -> caller y' root ->
  mem_of y' = set_vm_mem (vm_mem (mem_of y')) (mem_of y) -> tables_kept hhdm_offset (vm_mem (mem_of y)) (vm_mem (mem_of y')) root ->
  (forall v, prompt <= v < prompt + 2 -> ubyte (vm_mem (mem_of y')) root v = ubyte (vm_mem (mem_of y)) root v) ->
  fb_ok (y_con y') -> renders (y_con y') t' -> shell_ready y' root t'.
Proof.
  intros [R1 R2 R3 R4 (P1 & P2 & P3) (B1 & B2 & B3) R7 R8] Hc Em Hk Hp Hfb Hre.
  split; [done| | | | | | |done].
  - rewrite Em. by apply kept_uspace.
  - rewrite Em. by apply kept_kbuf.
  - rewrite Em. by apply kept_kbuf.
  - split; [done|]. split; [done|]. intros v Hv. apply (kept_umapped _ _ _ _ _ Hk); [lia|auto].
  - split; [done|]. split; [|done]. by apply (kept_umapped _ _ _ _ _ Hk).
  - rewrite <- R7. apply list_fmap_ext. intros j i Hi. apply lookup_seqZ in Hi as [-> Hj]. apply Hp. lia.
Qed.

(** [write(1, a, n)] of mapped memory. *)
Lemma shell_write fuel rip (y : sys) root t a n : shell_ready y root t -> 0 <= a -> 0 <= n <= 2 -> a + n <= 2 ^ 47 ->
  (forall v, a <= v < a + n -> umapped (vm_mem (mem_of y)) root v) ->
  let text := text_at (vm_mem (mem_of y)) root a n in
  exists y', usyscall fuel rip 1 1 a n y = Ret n y' /\ shell_ready y' root (term_puts text t) /\
    sent (crlf text) (y_uart y) (y_uart y') /\ k_kbd (y_kernel y') = k_kbd (y_kernel y).
Proof.
  intros R Ha Hn Han Hm text.
  assert (El : (if 4096 <? n then 4096 else n) = n) by (destruct (Z.ltb_spec 4096 n); lia).
  assert (Hpre : copy_pre hhdm_offset (mem_of (put_rip rip y)) root a kbuf_addr n).
  { split; [apply R|]. split; [done|]. split; [lia|]. split; [done|]. eapply kbuf_sub; [apply (sr_kbuf _ _ _ R)|lia|lia]. }
  destruct (sys_write_spec hhdm_offset hhdm_nonneg junk userspace_entry kernel_cr3 lsr scratch polls init_start init_end shell_start shell_end
    c_addr kbuf_addr name_addr yield_rip fuel (put_rip rip y) root 1 a n t np) as (m' & u & c & r & E & [Hk _] & Hb & Hok & Hres);
    [apply caller_rip, R|by left|by rewrite El|done|done|apply R|apply R|].
  rewrite El in Hres. destruct Hres as [(_ & -> & Hs & Hre)|((v & Hv & Hno) & _)]; [|by destruct Hno; apply Hm].
  eexists. split; [etransitivity; [exact (syscall_ret _ _ _ _ _ _ _ _ E)|]; cbn [put_ret syscall_retval]; by rewrite u64_small by (unfold two64; lia)|].
  split; [|split; [exact Hs|done]].
  apply (shell_ready_move y _ root t); try done; [by split; apply R|].
  intros v Hv. pose proof (sr_prompt _ _ _ R) as (P1 & P2 & P3). apply Hb; [lia|by apply P3].
Qed.

(** [read(0, buf, 128)] with a key waiting. *)
Lemma shell_read fuel rip (y : sys) root t ch q : shell_ready y root t -> kbd_rep (k_kbd (y_kernel y)) (ch :: q) -> 0 <= ch < 256 ->
  exists y', usyscall (S fuel) rip 0 0 buf 128 y = Ret 1 y' /\ shell_ready y' root t /\ y_uart y' = y_uart y /\
    kbd_rep (k_kbd (y_kernel y')) q /\ text_at (vm_mem (mem_of y')) root buf 1 = [ch].
Proof.
  intros R Hk Hch. pose proof (sr_buf _ _ _ R) as (B1 & B2 & B3). pose proof (sr_prompt _ _ _ R) as (P1 & P2 & P3).
  destruct (sys_read_spec hhdm_offset hhdm_nonneg junk userspace_entry kernel_cr3 lsr scratch polls init_start init_end shell_start shell_end
    c_addr kbuf_addr name_addr yield_rip fuel (put_rip rip y) root buf 128 ch q) as (kb & m' & r & E & Hkr & [Hkt _] & Hres);
    [apply caller_rip, R|done|done| |].
  { split; [apply R|]. split; [lia|]. split; [lia|]. split; [lia|apply R]. }
  destruct Hres as [(_ & -> & Hb)|(Hno & _)]; [|done].
  eexists. split; [exact (syscall_ret _ _ _ _ _ _ _ _ E)|]. split; [|split; [done|split; [exact Hkr|]]].
  - apply (shell_ready_move y _ root t t); try done; [by split; apply R| |apply R|apply R].
    intros v Hv. etransitivity; [apply Hb; [lia|by apply P3]|]. destruct (Z.eqb_spec v buf); [lia|done].
  - unfold SyscallFacts.text_at. change (seqZ 0 1) with [0]. cbn [fmap list_fmap]. f_equal. rewrite Z.add_0_r. etransitivity; [apply Hb; [lia|done]|]. by rewrite Z.eqb_refl.
Qed.

Lemma term_puts_app l1 l2 t : term_puts (l1 ++ l2) t = term_puts l2 (term_puts l1 t).
Proof. apply fold_left_app. Qed.

Definition shell_says (ch : Z) : list Z := [36; 32; ch].

Lemma shell_round_ok fuel (y : sys) root t ch q : shell_ready y root t -> kbd_rep (k_kbd (y_kernel y)) (ch :: q) -> 0 <= ch < 256 ->
  exists y', shell_round prompt buf prompted_rip read_rip echoed_rip (S fuel) y = Ret tt y' /\
    shell_ready y' root (term_puts (shell_says ch) t) /\ kbd_rep (k_kbd (y_kernel y')) q /\
    sent (crlf (shell_says ch)) (y_uart y) (y_uart y').
Proof.
  intros R Hk Hch. unfold shell_round. pose proof (sr_prompt _ _ _ R) as (P1 & P2 & P3).
  destruct (shell_write (S fuel) prompted_rip y root t prompt 2 R P1 ltac:(lia) P2 P3) as (y1 & E1 & R1 & S1 & K1).
  rewrite (mbind_Ret _ _ _ _ _ E1). rewrite (sr_text _ _ _ R) in R1, S1.
  destruct (shell_read fuel read_rip y1 root _ ch q R1) as (y2 & E2 & R2 & U2 & K2 & T2); [by rewrite K1|done|].
  rewrite (mbind_Ret _ _ _ _ _ E2). change (i64 1 <=? 0) with false. cbv iota zeta.
  pose proof (sr_buf _ _ _ R2) as (B1 & B2 & B3).
  destruct (shell_write (S fuel) echoed_rip y2 root _ buf 1 R2) as (y3 & E3 & R3 & S3 & K3); [lia|lia|lia| |].
  { intros v Hv. by replace v with buf by lia. }
  rewrite (mbind_Ret _ _ _ _ _ E3). rewrite T2 in R3, S3. exists y3. split; [done|].
  change (shell_says ch) with ([36; 32] ++ [ch]). rewrite term_puts_app. split; [exact R3|]. split; [by rewrite K3|]. rewrite crlf_app. eapply sent_app; [exact S1|by rewrite <- U2].
Qed.

(** ** From the keyboard to the screen *)

(** What the handler of interrupt 33 is given: its stack, and the status port
    of the keyboard controller, which has a byte ready after fewer than [kfuel]
    polls. *)
Context (junk_data : list Z) (stack_msg : Z) (status : nat -> Z) (kfuel nk : nat).
Context (Hkfuel : (nk < kfuel)%nat) (Hbyte : Z.land (status nk) 1 <> 0) (Hbusy : forall i, (i < nk)%nat -> Z.land (status i) 1 = 0).

(** A key goes down or up (its scan code), or the shell makes a round. *)
Inductive key_event : Type :=
| Key (scancode : Z)
| Round.

Definition run_key_event (fuel : nat) (e : key_event) : M sys unit :=
  match e with
  | Key sc => on_kernel (isr_handler junk_data stack_msg status sc kfuel (mk_regs 33 0))
  | Round => shell_round prompt buf prompted_rip read_rip echoed_rip fuel
  end.

Fixpoint run_key_events (fuel : nat) (es : list key_event) : M sys unit :=
  match es with
  | [] => mret tt
  | e :: es' => run_key_event fuel e ;;; run_key_events fuel es'
  end.

(** The characters still waiting and the ones echoed; a round needs one that
    waits (with none the shell yields until there is one). *)
Fixpoint keys_echoed (es : list key_event) (waiting : list Z) : option (list Z * list Z) :=
  match es with
  | [] => Some (waiting, [])
  | Key sc :: es' =>
      let ch := scancode_to_ascii (u8 sc) in
      keys_echoed es' (if (u8 sc <? 128) && truthy ch then fifo_put ch waiting else waiting)
  | Round :: es' =>
      match waiting with
      | [] => None
      | ch :: waiting' => '(rest, out) ← keys_echoed es' waiting'; Some (rest, ch :: out)
      end
  end.

Lemma key_pressed fuel (y : sys) root t cs sc : shell_ready y root t -> kbd_rep (k_kbd (y_kernel y)) cs ->
  let ch := scancode_to_ascii (u8 sc) in
  exists y', run_key_event fuel (Key sc) y = Ret tt y' /\ shell_ready y' root t /\ y_uart y' = y_uart y /\
    kbd_rep (k_kbd (y_kernel y')) (if (u8 sc <? 128) && truthy ch then fifo_put ch cs else cs).
Proof.
  intros R Hk ch. destruct (keyboard_spec junk_data stack_msg status sc kfuel nk (y_kernel y) cs Hk Hkfuel Hbyte Hbusy) as (kb & E & Hkb).
  eexists. split; [cbn [run_key_event]; unfold on_kernel, zoom; rewrite E; reflexivity|]. cbn [y_kernel k_kbd y_uart]. split; [|done].
  apply (shell_ready_move y _ root t t); try done; [by split; apply R|symmetry; apply set_mem_same|apply R|apply R].
Qed.

Lemma ascii_range sc : 0 <= scancode_to_ascii sc < 256.
Proof. unfold scancode_to_ascii. destruct (_ <? _); [|lia]. unfold u8, two8. apply Z.mod_pos_bound. lia. Qed.

Lemma fifo_put_bytes ch cs : 0 <= ch < 256 -> Forall (fun c => 0 <= c < 256) cs -> Forall (fun c => 0 <= c < 256) (fifo_put ch cs).
Proof. intros Hc Hcs. unfold fifo_put. case_match; [|done]. apply Forall_app. by split; [|constructor]. Qed.

(** C12: from the keyboard to the screen.  Key presses and rounds of the shell
    may come in any order in which the shell finds a character each time:
    every interrupt and every round returns, and the shell has printed, on the
    serial line and on the screen, the prompt and the character of each key in
    the order they were pressed, key releases and keys without a character
    (and presses that find the buffer full) aside; the other characters still
    wait in the buffer. *)
Theorem keys_reach_screen fuel (y : sys) root t es cs rest out :
  shell_ready y root t -> kbd_rep (k_kbd (y_kernel y)) cs -> Forall (fun c => 0 <= c < 256) cs -> keys_echoed es cs = Some (rest, out) ->
  let text := concat (shell_says <$> out) in
  exists y', run_key_events (S fuel) es y = Ret tt y' /\
    kbd_rep (k_kbd (y_kernel y')) rest /\ sent (crlf text) (y_uart y) (y_uart y') /\ shell_ready y' root (term_puts text t).
Proof.
  revert y t cs out. induction es as [|[sc|] es IH]; intros y t cs out R Hk Hcs He text; cbn [keys_echoed] in He.
  - injection He as <- <-. exists y. split; [done|]. split; [done|]. split; [done|exact R].
  - destruct (key_pressed (S fuel) y root t cs sc R Hk) as (y1 & E1 & R1 & U1 & K1).
    destruct (IH y1 t _ out R1 K1) as (y' & E & Hq & Hs & R'); [|exact He|].
    { destruct (_ && _); [|done]. apply fifo_put_bytes; [apply ascii_range|done]. }
    exists y'. cbn [run_key_events]. rewrite (mbind_Ret _ _ _ _ _ E1). rewrite U1 in Hs. done.
  - destruct cs as [|ch cs]; [done|]. apply Forall_cons in Hcs as [Hch Hcs].
    destruct (keys_echoed es cs) as [[rest' out']|] eqn:He'; [|done]. injection He as <- <-.
    destruct (shell_round_ok fuel y root t ch cs R Hk Hch) as (y1 & E1 & R1 & K1 & S1).
    destruct (IH y1 _ cs out' R1 K1 Hcs He') as (y' & E & Hq & Hs & R').
    exists y'. cbn [run_key_events run_key_event]. rewrite (mbind_Ret _ _ _ _ _ E1). split; [exact E|]. split; [done|].
    subst text. cbn [fmap list_fmap concat]. split; [rewrite crlf_app; by eapply sent_app|by rewrite term_puts_app].
Qed.
End ShellFacts.

(** ** The init program *)

(** A mapped page is reached through a present PML4 entry. *)
Lemma leaf_slot m root u : present (leaf hhdm_offset m root u) = true -> present (rd64 m (slot hhdm_offset root (PML4_INDEX u))) = true.
Proof. unfold Vmm.leaf, upath. cbn [Vmm.walk]. by destruct (present (rd64 m (slot hhdm_offset root (PML4_INDEX u)))). Qed.

(** A forked process reads the bytes its parent had. *)
Lemma forked_byte (v v' : vm) proot root u :
  forked_in hhdm_offset (clear_slot hhdm_offset (vm_mem v) proot root) v v' proot root -> 0 <= u < 2 ^ 47 -> umapped (vm_mem v) proot u ->
  umapped (vm_mem v') root u /\ ubyte (vm_mem v') root u = ubyte (vm_mem v) proot u.
Proof.
  intros (Hc & _) Hu Hm. destruct (Hc u) as [Hp Hb].
  { split; [unfold user_half; pose proof (user_half_low u Hu); lia|left]. by apply leaf_slot. }
  unfold UserCopy.umapped in *. split; [congruence|]. apply Hb; [done|]. apply Z.mod_pos_bound. lia.
Qed.

Section InitFacts.
Context (shell_name shell_buf clobbered : Z).
Context (got_rip fork_rip exec_rip exit_rip loop_rip : Z).
#[local] Abbreviation init := (init shell_name shell_buf clobbered got_rip fork_rip exec_rip exit_rip loop_rip).
#[local] Abbreviation loop_forever := (loop_forever clobbered loop_rip).

(** What init relies on: the text "shell" at [shell_name], room for the shell
    at [shell_buf], all in mapped memory, and locals of the kernel that are
    in no frame. *)
Record init_ready (y : sys) (prr : process) : Prop := {
  ir_cur : current_process (k_sched (y_kernel y)) <> 0 /\ processes (y_proc y) !! current_process (k_sched (y_kernel y)) = Some prr;
  ir_space : uspace hhdm_offset (mem_of y) (pml4_phys prr);
  ir_local : off_map hhdm_offset name_addr 32;
  ir_name : 0 <= shell_name /\ shell_name + 31 <= 2 ^ 47 /\
    (forall v, shell_name <= v < shell_name + 31 -> umapped (vm_mem (mem_of y)) (pml4_phys prr) v) /\
    c_string (text_at (vm_mem (mem_of y)) (pml4_phys prr) shell_name 31) = c_string name_shell;
  ir_programs : forall start stop, (start, stop) ∈ [(init_start, init_end); (shell_start, shell_end)] ->
    program_ok hhdm_offset name_addr (mem_of y) (pml4_phys prr) shell_buf start stop;
  ir_buf : 0 <= shell_buf /\ 0 < shell_end - shell_start <= 4096 /\
    (forall v, shell_buf <= v < shell_buf + (shell_end - shell_start) -> umapped (vm_mem (mem_of y)) (pml4_phys prr) v);
  ir_pid : 0 < next_pid (y_proc y) < two64
}.

(** The first call: the shell is in the buffer. *)
Lemma init_fetches fuel (y : sys) q ls pl prr : procs_ok hhdm_offset hhdm_nonneg y q ls pl -> init_ready y prr ->
  let size := shell_end - shell_start in
  exists y1, usyscall fuel got_rip 11 shell_name shell_buf 4096 y = Ret size y1 /\ procs_ok hhdm_offset hhdm_nonneg y1 q ls pl /\
    k_sched (y_kernel y1) = put_vm (mem_of y1) (k_sched (y_kernel y)) /\ y_proc y1 = y_proc (put_rip got_rip y) /\
    others_kept hhdm_offset y y1 /\
    forall v, shell_buf <= v < shell_buf + size ->
      umapped (vm_mem (mem_of y1)) (pml4_phys prr) v /\ ubyte (vm_mem (mem_of y1)) (pml4_phys prr) v = rd8 (vm_mem (mem_of y)) (shell_start + (v - shell_buf)).
Proof.
  intros I [(H0 & Hcur) Hus Hloc (N1 & N2 & N3 & N4) Hprog (B1 & B2 & B3) _] size.
  assert (Hc : caller (put_rip got_rip y) (pml4_phys prr)) by (split; by exists prr).
  assert (Hfit : shell_buf + size <= 2 ^ 47) by (apply (Hprog shell_start shell_end); right; left).
  destruct (get_binary_spec hhdm_offset hhdm_nonneg junk userspace_entry kernel_cr3 lsr scratch polls init_start init_end shell_start shell_end
    c_addr kbuf_addr name_addr yield_rip fuel (put_rip got_rip y) (pml4_phys prr) shell_name shell_buf 4096 Hc) as (m' & r & E & Hcf & Hres); [| |done|exact Hprog|].
  { split; [exact Hus|]. split; [done|]. split; [lia|]. split; [lia|]. eapply off_map_kbuf; [exact Hloc|lia]. }
  { eapply off_map_kbuf; [exact Hloc|lia]. }
  cbv zeta in Hres. change (mem_of (put_rip got_rip y)) with (mem_of y) in *. rewrite N4 in Hres.
  change (named init_start init_end shell_start shell_end (c_string name_shell)) with (Some (shell_start, shell_end)) in Hres. cbv iota in Hres.
  destruct Hres as [((v & Hv & Hno) & _)|(_ & n & Hd & [(-> & _ & Hr & _)|(Hn0 & Hn & _ & [(Hbad & _)|(Hlt & Hno)])])]; [by destruct Hno; apply N3| |lia|destruct Hno; apply B3; lia].
  set (y1 := put_ret r (put_mem (set_vm_mem m' (mem_of y)) (put_rip got_rip y))) in *.
  destruct (procs_change hhdm_offset hhdm_nonneg (put_rip got_rip y) y1 q ls pl (pml4_phys prr) m' name_addr 32) as [I1 Hk]; try done.
  exists y1. split; [etransitivity; [exact (syscall_ret _ _ _ _ _ _ _ _ E)|]; cbn [y1 put_ret syscall_retval]; by rewrite Hr|].
  split; [exact I1|]. split; [done|]. split; [done|]. split; [exact Hk|].
  intros v Hv. change (vm_mem (mem_of y1)) with m'. split; [apply (kept_umapped _ _ _ _ _ (proj1 Hcf)); [lia|by apply B3]|].
  rewrite Hd by (first [lia|by apply B3]). destruct (Z.leb_spec shell_buf v), (Z.ltb_spec v (shell_buf + (shell_end - shell_start))); simpl; done || lia.
Qed.

End InitFacts.
End UserProgs.

(** ** Witness: the process of [user_demo] runs the shell *)

Definition prompt_mem (m : mem) : mem := wr8 (wr8 m 0x1000 36) 0x1001 32.

Lemma demo_shell_ready : exists s c, fb_ok c /\
  forall kb, shell_ready demo_hhdm 0x4000 0x5000 0x400000 0x400010 (demo_sys s kb c) fork_root (blank_term demo_fb).
Proof.
  destruct (demo_written prompt_mem 2 [36; 32] ltac:(lia)) as (s0 & s & _ & _ & Hs & Hk & Hm & Ht).
  { intros m b Hb. unfold prompt_mem. by rewrite !rd8_wr8_ne by lia. }
  { intros m. change (seqZ 0 2) with [0; 1]. cbn [fmap list_fmap]. unfold prompt_mem. cbn [Z.add Pos.add]. by rewrite rd8_wr8_ne, !rd8_wr8_eq by lia. }
  destruct demo_con_ok as (c & _ & Hok & Hre). exists s, c. split; [exact Hok|]. intros kb.
  split; [apply demo_caller|exact Hs|apply Hk; vm_compute; discriminate|apply Hk; vm_compute; discriminate| | |exact Ht|by split].
  - split; [lia|]. split; [vm_compute; discriminate|]. intros v Hv. apply Hm. lia.
  - split; [change (2 ^ 47) with 140737488355328; lia|]. split; [apply Hm; lia|lia].
Qed.

(** The keys H (pressed and released), I and Enter, with the shell in between. *)
Lemma keys_reach_screen_witness : exists y y' : @sys pmm_t,
  run_key_events demo_hhdm demo_hhdm_nonneg 0 0x1000 20480 demo_lsr (fun _ => 0) 3 0x2000 0x2003 0x3000 0x3002 0x4000 0x5000 0x7000 0x8000
    0x400000 0x400010 0x400100 0x400110 0x400120 [] 0x9000 (fun _ => 1) 1 1 [Key 0x23; Key 0xA3; Round; Key 0x17; Key 0x1C; Round] y = Ret tt y' /\
  sent [36; 32; 104; 36; 32; 105] (y_uart y) (y_uart y') /\
  renders (y_con y') (term_puts [36; 32; 104; 36; 32; 105] (blank_term demo_fb)).
Proof.
  destruct demo_shell_ready as (s & c & _ & Hr).
  destruct (keys_reach_screen demo_hhdm demo_hhdm_nonneg 0 0x1000 20480 demo_lsr (fun _ => 0) 3 0x2000 0x2003 0x3000 0x3002 0x4000 0x5000 0x7000 0x8000
    0x400000 0x400010 0x400100 0x400110 0x400120 3 demo_ready ltac:(lia) [] 0x9000 (fun _ => 1) 1 0 ltac:(lia) ltac:(discriminate) ltac:(lia)
    0 (demo_sys s kbd_boot c) fork_root (blank_term demo_fb) [Key 0x23; Key 0xA3; Round; Key 0x17; Key 0x1C; Round] [] [] [104; 105])
    as (y' & E & _ & Hs & R); [apply Hr|exact kbd_boot_rep|constructor|reflexivity|].
  exists (demo_sys s kbd_boot c), y'. split; [exact E|]. split; [exact Hs|apply (sr_screen _ _ _ _ _ _ _ _ R)].
Defined.

(** ** Witness: a process whose page holds the text "shell" runs init *)

Definition shell_name_mem (m : mem) : mem :=
  wr8 (wr8 (wr8 (wr8 (wr8 (wr8 m 0x1000 115) 0x1001 104) 0x1002 101) 0x1003 108) 0x1004 108) 0x1005 0.

Lemma shell_name_bytes m : (fun i => rd8 (shell_name_mem m) (0x1000 + i)) <$> seqZ 0 6 = name_shell.
Proof.
  change (seqZ 0 6) with [0; 1; 2; 3; 4; 5]. cbn [fmap list_fmap]. unfold shell_name_mem, name_shell.
  repeat f_equal; cbn [Z.add Pos.add]; repeat (rewrite rd8_wr8_ne by lia); by rewrite rd8_wr8_eq.
Qed.

Lemma init_sys_caller h root : caller (init_sys h root) root.
Proof. split. exists (mk_process 1 root blk_b 0). split; [discriminate|]. split; [apply lookup_insert_eq|done]. Qed.

(** Its page holds the name of the shell. *)
Lemma init_named : exists h root ls, procs_ok demo_hhdm demo_hhdm_nonneg (init_sys h root) [] ls [blk_c] /\
  uspace demo_hhdm (h_vm h) root /\ (forall u, 0x400000 <= u < 0x401000 -> umapped demo_hhdm (vm_mem (h_vm h)) root u) /\
  c_string (text_at demo_hhdm (vm_mem (h_vm h)) root 0x400000 31) = c_string name_shell.
Proof.
  destruct init_loaded as (h & root & ls & I & Hs & Hm & _). set (v := h_vm h) in *. set (m1 := shell_name_mem (vm_mem v)).
  assert (Ho : off_map demo_hhdm 0x1000 6) by (apply demo_off_map; vm_compute; discriminate).
  assert (Hw : forall b, b < 0x1000 \/ 0x1000 + 6 <= b -> rd8 m1 b = rd8 (vm_mem v) b) by (intros b Hb; unfold m1, shell_name_mem; by rewrite !rd8_wr8_ne by lia).
  assert (Hkt : tables_kept demo_hhdm (vm_mem v) m1 root).
  { apply (kbuf_write demo_hhdm v root 0x1000 6); [exact Hs|eapply off_map_kbuf; [exact Ho|lia]|exact Hw]. }
  set (h1 := set_h_vm (set_vm_mem m1 v) h).
  destruct (procs_change demo_hhdm demo_hhdm_nonneg (init_sys h root) (init_sys h1 root) [] ls [blk_c] root m1 0x1000 6) as [I1 _];
    [exact I|apply init_sys_caller|exact Hs|exact Ho|split; [exact Hkt|intros b _; apply Hw]|done|done|].
  pose proof (kept_uspace demo_hhdm v m1 root Hs Hkt) as Hs1.
  destruct (to_user_spec demo_hhdm demo_hhdm_nonneg (S (Z.to_nat 6)) (set_vm_mem m1 v) root 0x400000 0x1000 6) as (r & m2 & n & _ & Hput & Hn & _ & Hend).
  { apply (conj Hs1). split; [lia|]. split; [lia|]. split; [vm_compute; discriminate|]. eapply off_map_kbuf; [exact Ho|lia]. }
  { lia. }
  assert (Hm1 : forall u, 0x400000 <= u < 0x401000 -> umapped demo_hhdm m1 root u).
  { intros u Hu. apply (kept_umapped demo_hhdm (vm_mem v)); [exact Hkt|change (2 ^ 47) with 140737488355328; lia|by apply Hm]. }
  destruct Hend as [[-> ->]|(_ & Hlt & Hno)]; [|destruct Hno; apply Hm1; lia].
  set (h2 := set_h_vm (set_vm_mem m2 v) h). pose proof Hput as (P1 & P2 & _). exists h2, root, ls.
  destruct (procs_change demo_hhdm demo_hhdm_nonneg (init_sys h1 root) (init_sys h2 root) [] ls [blk_c] root m2 0x1000 6) as [I2 _];
    [exact I1|apply init_sys_caller|exact Hs1|exact Ho|by apply (put_confined _ _ _ _ _ _ _ _ _ Hput)|done|done|].
  split; [exact I2|]. split; [by apply (kept_uspace demo_hhdm (set_vm_mem m1 v))|]. split.
  { intros u Hu. apply (kept_umapped demo_hhdm m1); [exact P1|change (2 ^ 47) with 140737488355328; lia|by apply Hm1]. }
  assert (Ht : text_at demo_hhdm m2 root 0x400000 6 = name_shell).
  { rewrite <- (shell_name_bytes (vm_mem v)). apply list_fmap_ext. intros j i Hi. apply lookup_seqZ in Hi as [-> Hj].
    etransitivity; [apply P2; [change (2 ^ 47) with 140737488355328; lia|apply Hm1; lia]|].
    destruct (Z.leb_spec 0x400000 (0x400000 + (0 + Z.of_nat j))), (Z.ltb_spec (0x400000 + (0 + Z.of_nat j)) (0x400000 + 6)); cbn [andb]; try lia.
    change (vm_mem (set_vm_mem m1 v)) with m1. unfold m1. f_equal. lia. }
  unfold text_at in *. change (seqZ 0 31) with (seqZ 0 6 ++ seqZ 6 25). rewrite fmap_app. change (vm_mem (h_vm h2)) with m2. by rewrite Ht.
Qed.

#[local] Abbreviation demo_init := (init demo_hhdm demo_hhdm_nonneg 0 0x1000 20480 demo_lsr (fun _ => 0) 3 0x2000 0x2003 0x3000 0x3002 0x4000 0x5000 0x7000 0x8000
  0x400000 0x400100 0 0x400200 0x400210 0x400220 0x400230 0x400240).
#[local] Abbreviation demo_loop := (loop_forever demo_hhdm demo_hhdm_nonneg 0 0x1000 20480 demo_lsr (fun _ => 0) 3 0x2000 0x2003 0x3000 0x3002 0x4000 0x5000 0x7000 0x8000
  0 0x400240).

#[local] Abbreviation demo_call := (usyscall demo_hhdm demo_hhdm_nonneg 0 0x1000 20480 demo_lsr (fun _ => 0) 3 0x2000 0x2003 0x3000 0x3002 0x4000 0x5000 0x7000 0x8000 0 0x400200).

