(* ===== verification/Services.v ===== *)
(** * Service threads (src/kernel/main.c, src/user/kbd.c, src/user/vfs.c)

    The threads that use the registry and the message ports: the echo service
    and its client, the two printing threads, the keyboard service and the
    file service.  They run in the kernel, on the state of Syscalls.v together
    with the registry and the lock of the serial line.  A loop that never ends
    is cut after a number of rounds ([mhang]); a busy-waiting delay has no
    effect and is left out.  A local message is a slot of the message store. *)

From stdpp Require Import base gmap list fin_maps.
From Stdlib Require Import ZArith Lia Ascii String.
From S2P Require Import Prelude Mem Pmm Vmm PageTables Heap HeapFacts KernelMem Chain Descriptors Sched SchedFacts.
From S2P Require Import Timer Ipc KbdBuf Bus Printf Serial Console Irq Fork UserCopy Proc Syscalls.

(** ** The strings *)

(** String literals: the characters, and the terminator. *)
Definition chars (s : string) : list Z := (fun c => Z.of_N (N_of_ascii c)) <$> list_ascii_of_string s.
Definition text (s : string) : list Z := chars s ++ [0].
Definition line (s : string) : list Z := chars s ++ [10; 0].

Definition str_echo : list Z := text "echo".
Definition str_kbd : list Z := text "kbd".
Definition str_vfs : list Z := text "vfs".
Definition str_hello : list Z := text "Hello, world!".
Definition fmt_a : list Z := line "Thread A: %d".
Definition fmt_b : list Z := line "Thread B: %d".
Definition fmt_started : list Z := line "Echo service started on port %d".
Definition str_failed : list Z := line "Failed to register echo service".
Definition str_not_found : list Z := line "Echo service not found!".
Definition fmt_sending : list Z := line "Client sending to port %d: %s".
Definition fmt_reply : list Z := line "Client received reply: %s".

(** [msg.data[i] = c] *)
Definition set_data (i c : Z) (m : ipc_message) : ipc_message := mk_msg (msg_length m) (<[Z.to_nat i := c]> (msg_data m)).

Section Services.
Context {P : Type} `{FrameAllocator P}.
Context (hhdm_offset : Z) (hhdm_nonneg : 0 <= hhdm_offset).
Context (junk : Z) (junk_msg : ipc_message) (userspace_entry kernel_cr3 : Z).
Context (lsr : list (Z * Z) -> nat -> Z) (scratch : list (Z * Z) -> Z) (polls : nat).
Context (init_start init_end shell_start shell_end : Z).
Context (c_addr kbuf_addr name_addr yield_rip : Z).
(** The keyboard controller (ports 0x64 and 0x60), for the n-th message, and
    the return addresses of the two system calls of the keyboard service. *)
Context (kstatus : nat -> nat -> Z) (kdata : nat -> Z) (rip_iopl rip_irq rdx : Z).
#[local] Abbreviation vm := (@vm_t P).
#[local] Abbreviation heap := (@heap_t vm).
#[local] Abbreviation sys := (@sys P).
#[local] Instance srv_mapper : PageMapper vm := Vmm_PageMapper hhdm_offset hhdm_nonneg.

Record srv : Type := mk_srv { v_sys : sys; v_bus : bus_t; serial_lock : Z; vfs_port : Z; kbd_port : Z }.

Definition on_sys {A} (m : M sys A) : M srv A :=
  zoom v_sys (fun x s => mk_srv x (v_bus s) (serial_lock s) (vfs_port s) (kbd_port s)) m.
Definition on_bus {A} (m : M bus_t A) : M srv A :=
  zoom v_bus (fun x s => mk_srv (v_sys s) x (serial_lock s) (vfs_port s) (kbd_port s)) m.
Definition on_ports {A} (m : M (@sched_t heap * ipc_t) A) : M srv A := on_sys (on_kernel (on_si m)).
Definition set_serial_lock (x : Z) (s : srv) : srv := mk_srv (v_sys s) (v_bus s) x (vfs_port s) (kbd_port s).
Definition set_vfs_port (x : Z) (s : srv) : srv := mk_srv (v_sys s) (v_bus s) (serial_lock s) x (kbd_port s).
Definition set_kbd_port (x : Z) (s : srv) : srv := mk_srv (v_sys s) (v_bus s) (serial_lock s) (vfs_port s) x.

(** The calls, with an [int] port converted to [uint64_t]. *)
Definition recv (port msg : Z) : M srv unit := on_ports (ipc_recv (u64 port) msg).
Definition send (port msg : Z) : M srv unit := on_ports (ipc_send junk_msg (u64 port) msg).
Definition exit : M srv unit := on_sys (on_kernel (on_sched thread_exit)).
Definition get_msg (a : Z) : M srv ipc_message := on_ports (on_i (read_msg a)).
Definition edit_msg (a : Z) (f : ipc_message -> ipc_message) : M srv unit :=
  m <- get_msg a ;; on_ports (on_i (write_msg a (f m))).

(** A line printed under the lock. *)
Definition say (fmt : list Z) (args : list arg) : M srv unit :=
  spin_lock serial_lock set_serial_lock ;;;
  on_sys (on_uart (serial_printf lsr scratch junk polls fmt args)) ;;;
  spin_unlock set_serial_lock.
Definition serial_write (t : list Z) : M srv unit := on_sys (on_uart (Serial.serial_write lsr scratch polls t)).

(** The [syscall] instruction executed by a kernel thread. *)
Definition syscall (rip nr a1 a2 : Z) : M srv unit :=
  on_sys (on_proc (on_p (mset (fun s => mk_procs (processes s) (process_list s) (next_pid s) (proc_lock s) rip)))) ;;;
  on_sys (syscall_handler hhdm_offset hhdm_nonneg junk userspace_entry kernel_cr3 lsr scratch polls
    init_start init_end shell_start shell_end c_addr kbuf_addr name_addr yield_rip polls nr a1 a2 rdx).

(** ** main.c *)

(** [for (;;) hlt] at the end. *)
Definition kernel_panic (msg : list Z) : M srv unit :=
  serial_write (10 :: 10 :: text "[KERNEL PANIC] ") ;;;
  serial_write msg ;;;
  serial_write (10 :: line "System halted.") ;;;
  mhang.

Definition thread_a : M srv unit := mfor 10 0 (fun i => say fmt_a [AInt i]) ;;; exit.
Definition thread_b : M srv unit := mfor 10 0 (fun i => say fmt_b [AInt i]) ;;; exit.

Definition echo_round (port msg : Z) : M srv unit := recv port msg ;;; send port msg.
Fixpoint echo_loop (rounds : nat) (port msg : Z) : M srv unit :=
  match rounds with
  | O => mhang
  | Datatypes.S n => echo_round port msg ;;; echo_loop n port msg
  end.

Definition echo_service (rounds : nat) (msg : Z) : M srv unit :=
  port <- on_bus (bus_register str_echo) ;;
  if port <? 0 then serial_write str_failed ;;; exit
  else say fmt_started [AInt port] ;;; echo_loop rounds port msg.

(** Lines 88-89, and 93-94. *)
Definition fill_hello (msg : Z) : M srv unit :=
  edit_msg msg (fun m => mk_msg 13 (msg_data m)) ;;;
  mfor 13 0 (fun i => c <- mopt (str_hello !! Z.to_nat i) ;; edit_msg msg (set_data i c)).
Definition echo_call (port msg : Z) : M srv unit := send port msg ;;; recv port msg.

Definition echo_client (msg : Z) : M srv unit :=
  port <- on_bus (bus_lookup str_echo) ;;
  if port <? 0 then serial_write str_not_found ;;; exit
  else
    fill_hello msg ;;;
    m <- get_msg msg ;;
    say fmt_sending [AInt port; AStr (Some (msg_data m))] ;;;
    echo_call port msg ;;;
    m <- get_msg msg ;;
    say fmt_reply [AStr (Some (msg_data m))] ;;;
    exit.

(** ** vfs.c *)

(** [for (i = 0; i < len; i++) serial_putc(buf[i])] with [buf = &req.data[2]]. *)
Definition vfs_print (data : list Z) (len : Z) : M srv unit :=
  mfor (Z.to_nat len) 0 (fun i => c <- mopt (data !! Z.to_nat (2 + i)) ;; on_sys (on_uart (serial_putc lsr scratch polls c))).

Definition vfs_handle (req : Z) : M srv unit :=
  m <- get_msg req ;;
  if msg_length m <? 2 then mret tt
  else
    opcode <- mopt (msg_data m !! 0%nat) ;;
    fd <- mopt (msg_data m !! 1%nat) ;;
    if u8 opcode =? 1 then
      let len := u64 (msg_length m - 2) in
      if (fd =? 1) || (fd =? 2) then vfs_print (msg_data m) len else mret tt
    else mret tt.

Definition vfs_round (port req : Z) : M srv unit := recv port req ;;; vfs_handle req.
Fixpoint vfs_loop (rounds : nat) (port req : Z) : M srv unit :=
  match rounds with
  | O => mhang
  | Datatypes.S n => vfs_round port req ;;; vfs_loop n port req
  end.

Definition vfs_service (rounds : nat) (req : Z) : M srv unit :=
  port <- on_bus (bus_register str_vfs) ;;
  if port <? 0 then mret tt else vfs_loop rounds port req.

(** ** kbd.c *)

Fixpoint kbd_wait (fuel : nat) (n k : nat) : M srv unit :=
  match fuel with
  | O => mhang
  | Datatypes.S fuel' => if Z.land (kstatus n k) 1 =? 0 then kbd_wait fuel' n (Datatypes.S k) else mret tt
  end.

(** What follows the interrupt message; the scan code table is the one of
    isr_handler.c. *)
Definition kbd_handle (n : nat) (msg : Z) : M srv unit :=
  kbd_wait polls n 0 ;;;
  let sc := u8 (kdata n) in
  if negb (Z.land sc 0x80 =? 0) then mret tt
  else
    let ch := scancode_to_ascii sc in
    if ch =? 0 then mret tt
    else
      edit_msg msg (fun m => mk_msg 1 (msg_data m)) ;;;
      edit_msg msg (set_data 0 ch) ;;;
      port <- mget vfs_port ;;
      send port msg.

Fixpoint kbd_loop (rounds : nat) (n : nat) (msg : Z) : M srv unit :=
  match rounds with
  | O => mhang
  | Datatypes.S r =>
      port <- mget kbd_port ;;
      recv port msg ;;;
      kbd_handle n msg ;;;
      kbd_loop r (Datatypes.S n) msg
  end.

Definition kbd_service (rounds : nat) (msg : Z) : M srv unit :=
  p <- on_bus (bus_register str_kbd) ;;
  mset (set_kbd_port p) ;;;
  if p <? 0 then mret tt
  else
    v <- on_bus (bus_lookup str_vfs) ;;
    mset (set_vfs_port v) ;;;
    if v <? 0 then mret tt
    else
      syscall rip_iopl SYS_iopl 3 0 ;;;
      syscall rip_irq SYS_irq_register 1 (u64 p) ;;;
      kbd_loop rounds 0 msg.

End Services.
