(* ===== verification/ServiceFacts.v ===== *)
(** * Facts about the service threads *)

From stdpp Require Import base gmap list fin_maps.
From Stdlib Require Import ZArith Lia.
From S2P Require Import Prelude Mem Pmm Vmm PageTables Heap HeapFacts KernelMem Chain Descriptors Sched SchedFacts SchedRun.
From S2P Require Import Timer Ipc IpcFacts KbdBuf Bus Printf Serial Console ConsoleFacts Irq Fork ForkFacts UserCopy Proc ProcFacts Syscalls SyscallFacts Services.

#[local] Opaque rd64 wr64 memcpy memset serial_putc.

(** ** Blocking in a call, and who runs then *)

Section Blocking.
Context {H : Type} `{HK : KHeap H}.
Context (junk_msg : ipc_message) (Hjunk : msg_ok junk_msg).
#[local] Abbreviation sched := (@sched_t H).
#[local] Abbreviation state := (sched * ipc_t)%type.

(** The thread at the head of the ready queue runs once the caller blocks. *)
Lemma block_runs (sc : sched) t q : sched_inv sc (t :: q) -> requeues sc ->
  exists sc', thread_block sc = Switch sc' (fun x => Ret tt x) /\ current_thread sc' = t /\ requeues sc'.
Proof.
  intros I Hr. destruct (block_current_spec sc (t :: q) I Hr) as (s1 & E1 & I1 & Hn & Hb & Hc & Hi & Hh & Hd).
  destruct (schedule_gen s1 (t :: q) I1) as (s2 & E2 & I2 & _ & Hc2 & Hi2 & _ & _ & (n & Hn2 & Hst & _) & _).
  exists s2. split; [unfold thread_block; by rewrite (mbind_Ret _ _ _ _ _ E1)|]. split; [exact Hc2|].
  split; [unfold state_of; rewrite Hn2; cbn; by rewrite Hst|]. rewrite Hc2, Hi2. cbn [hd]. intros ->. apply (si_idle_out _ _ I1). left.
Qed.

Lemma send_blocks (s : state) t q ps i v msg m :
  ipc_inv s (t :: q) ps -> requeues (fst s) -> ps !! i = Some v -> pv_rcv v = [] -> msg <> 0 -> ip_msgs (snd s) !! msg = Some m ->
  (exists a m' s' k, ipc_send junk_msg (Z.of_nat i) msg s = Switch s' k /\ (forall x, k x = Ret tt x) /\
     payload m' = payload m /\ msg_length m' = clip (msg_length m) /\
     ipc_inv s' q (<[i := set_pvq true (mk_w a (current_thread (fst s)) (Snd m') :: pv_snd v) v]> ps) /\
     blocked (fst s') (current_thread (fst s)) /\ ip_msgs (snd s') = ip_msgs (snd s) /\
     current_thread (fst s') = t /\ requeues (fst s')) \/
  (kh_scarce (s_heap (fst s)) sizeof_wait_node /\ forall s' k, ipc_send junk_msg (Z.of_nat i) msg s <> Switch s' k).
Proof.
  intros Hi Hr Hv Hq Hm0 Hm. pose proof (send_enqueue_spec junk_msg Hjunk s _ ps i v msg m Hi Hv Hm0 Hm) as E. rewrite Hq in E.
  destruct E as [(a & m' & h' & ip' & E & _ & Hp & Hl & Hi' & Hms)|(Hsc & E)]; [left|right].
  2: { split; [done|]. intros s' k. unfold ipc_send, mbind. by destruct E as [E|(? & ? & E & _)]; rewrite E. }
  destruct (block_after (fst s) ip' (t :: q) _ h' Hi' Hr) as (sc' & k & Eb & Hk & Hi2 & Hb & Hc).
  destruct (block_runs (set_heap h' (fst s)) t q) as (sc2 & E2 & Hc2 & Hr2); [exact (ic_sched _ _ _ (proj1 Hi'))|exact Hr|].
  assert (sc2 = sc') as ->.
  { unfold Ipc.on_s, zoom in Eb. cbn [fst snd] in Eb. rewrite E2 in Eb. cbn [zoomr] in Eb. by injection Eb. }
  exists a, m', (sc', ip'), k. split; [|by split_and!]. unfold ipc_send, mbind. rewrite E. exact Eb.
Qed.

(** The receiver takes a waiting message and goes on running. *)
Lemma recv_takes (s : state) q ps i v w l msg mb m' :
  ipc_inv s q ps -> requeues (fst s) -> ps !! i = Some v -> pv_snd v = w :: l -> w_body w = Snd m' -> blocked (fst s) (w_thr w) ->
  msg <> 0 -> ip_msgs (snd s) !! msg = Some mb ->
  exists s', ipc_recv (Z.of_nat i) msg s = Ret tt s' /\ ipc_inv s' (q ++ [w_thr w]) (<[i := set_pvq true l v]> ps) /\
    received (ip_msgs (snd s)) (ip_msgs (snd s')) msg m' /\ current_thread (fst s') = current_thread (fst s) /\ requeues (fst s') /\
    state_of (s_threads (fst s')) (w_thr w) = Some THREAD_STATE_READY.
Proof.
  intros Hi Hr Hv Hq Hw Hb Hm0 Hm. pose proof (recv_enqueue_spec s q ps i v msg mb Hi Hv Hm0 Hm) as E. rewrite Hq in E.
  destruct E as (s' & pd & msgs' & Hpd & E & Hi' & (Hst & Hc & Hid & _) & Hrdy & <- & Hrec). rewrite Hw in Hpd. injection Hpd as <-.
  rewrite filter_cons_True in Hi', Hst by done. rewrite filter_nil in Hi', Hst.
  exists s'. split; [unfold ipc_recv, mbind; by rewrite E|]. split; [exact Hi'|]. split; [exact Hrec|]. split; [exact Hc|]. split; [|by apply Hrdy].
  destruct Hr as [Hrun Hne]. split; [|by rewrite Hc, Hid]. rewrite Hc, Hst; [done|]. intros Hin%list_elem_of_singleton. unfold blocked in Hb. rewrite <- Hin in Hb. rewrite Hrun in Hb. discriminate Hb.
Qed.

Lemma received_msg msgs msgs' a src : received msgs msgs' a src -> exists m, msgs' !! a = Some m /\
  msg_length m = clip (msg_length src) /\ payload m = payload src /\ forall b, b <> a -> msgs' !! b = msgs !! b.
Proof.
  intros (m & -> & _ & Hl & Hp). exists m. split; [apply lookup_insert_eq|]. split; [done|]. split; [done|]. intros b Hb. by apply lookup_insert_ne.
Qed.

Lemma clip_twice n : 0 <= n -> clip (clip n) = clip n.
Proof. intros Hn. pose proof (clip_range n Hn). unfold clip at 1, IPC_MSG_MAX. zcases; lia. Qed.

(** A receiver on a port where nobody sends blocks, and the head of the queue
    runs. *)
Lemma recv_blocks (s : state) t q ps i v msg mb :
  ipc_inv s (t :: q) ps -> requeues (fst s) -> ps !! i = Some v -> pv_snd v = [] -> msg <> 0 -> ip_msgs (snd s) !! msg = Some mb ->
  (exists a s' k, ipc_recv (Z.of_nat i) msg s = Switch s' k /\ (forall x, k x = Ret tt x) /\
     ipc_inv s' q (<[i := set_pvq false (mk_w a (current_thread (fst s)) (Rcv msg) :: pv_rcv v) v]> ps) /\
     blocked (fst s') (current_thread (fst s)) /\ ip_msgs (snd s') = ip_msgs (snd s) /\
     current_thread (fst s') = t /\ requeues (fst s')) \/
  (kh_scarce (s_heap (fst s)) sizeof_wait_node /\ forall s' k, ipc_recv (Z.of_nat i) msg s <> Switch s' k).
Proof.
  intros Hi Hr Hv Hq Hm0 Hm. pose proof (recv_enqueue_spec s _ ps i v msg mb Hi Hv Hm0 Hm) as E. rewrite Hq in E.
  destruct E as [(a & h' & ip' & E & Hi' & Hms)|(Hsc & E)]; [left|right].
  2: { split; [done|]. intros s' k. unfold ipc_recv, mbind. by destruct E as [E|(? & ? & E & _)]; rewrite E. }
  destruct (block_after (fst s) ip' (t :: q) _ h' Hi' Hr) as (sc' & k & Eb & Hk & Hi2 & Hb & Hc).
  destruct (block_runs (set_heap h' (fst s)) t q) as (sc2 & E2 & Hc2 & Hr2); [exact (ic_sched _ _ _ (proj1 Hi'))|exact Hr|].
  assert (sc2 = sc') as ->.
  { unfold Ipc.on_s, zoom in Eb. cbn [fst snd] in Eb. rewrite E2 in Eb. cbn [zoomr] in Eb. by injection Eb. }
  exists a, (sc', ip'), k. split; [|by split_and!]. unfold ipc_recv, mbind. rewrite E. exact Eb.
Qed.

(** A sender hands its message to a receiver that waits, and goes on running. *)
Lemma send_hands (s : state) q ps i v w l buf msg m :
  ipc_inv s q ps -> ps !! i = Some v -> pv_rcv v = w :: l -> w_body w = Rcv buf -> buf <> 0 -> blocked (fst s) (w_thr w) ->
  msg <> 0 -> ip_msgs (snd s) !! msg = Some m ->
  exists s', ipc_send junk_msg (Z.of_nat i) msg s = Ret tt s' /\ ipc_inv s' (q ++ [w_thr w]) (<[i := set_pvq false l v]> ps) /\
    received (ip_msgs (snd s)) (ip_msgs (snd s')) buf m /\ current_thread (fst s') = current_thread (fst s) /\
    (requeues (fst s) -> requeues (fst s')) /\ state_of (s_threads (fst s')) (w_thr w) = Some THREAD_STATE_READY.
Proof.
  intros Hi Hv Hq Hw Hb0 Hb Hm0 Hm. pose proof (send_enqueue_spec junk_msg Hjunk s q ps i v msg m Hi Hv Hm0 Hm) as E. rewrite Hq in E.
  destruct E as (s' & bf & msgs' & Hbf & E & Hi' & (Hst & Hc & Hid & _) & Hrdy & <- & Hrec). rewrite Hw in Hbf. injection Hbf as <-.
  rewrite (proj2 (Z.eqb_neq _ _) Hb0) in Hrec. rewrite filter_cons_True in Hi', Hst by done. rewrite filter_nil in Hi', Hst.
  exists s'. split; [unfold ipc_send, mbind; by rewrite E|]. split; [exact Hi'|]. split; [exact Hrec|]. split; [exact Hc|]. split; [|by apply Hrdy].
  intros [Hrun Hne]. split; [|by rewrite Hc, Hid]. rewrite Hc, Hst; [done|]. intros Hin%list_elem_of_singleton. unfold blocked in Hb. rewrite <- Hin in Hb. rewrite Hrun in Hb. discriminate Hb.
Qed.

(** Request and reply over one port: the client [c] sends, the service [t]
    takes the message and sends it back, the client takes it. *)
Lemma request_reply (s : state) t q ps i msg m sbuf mb :
  ipc_inv s (t :: q) ps -> requeues (fst s) -> ps !! i = Some (mk_pv [] []) ->
  msg <> 0 -> ip_msgs (snd s) !! msg = Some m -> sbuf <> 0 -> ip_msgs (snd s) !! sbuf = Some mb -> msg <> sbuf ->
  (exists s1 k1 s2 s3 k3 s4,
     (ipc_send junk_msg (Z.of_nat i) msg s = Switch s1 k1 /\ (forall x, k1 x = Ret tt x) /\ current_thread (fst s1) = t) /\
     ipc_recv (Z.of_nat i) sbuf s1 = Ret tt s2 /\
     (ipc_send junk_msg (Z.of_nat i) sbuf s2 = Switch s3 k3 /\ (forall x, k3 x = Ret tt x) /\
      current_thread (fst s3) = hd 0 (q ++ [current_thread (fst s)])) /\
     ipc_recv (Z.of_nat i) msg s3 = Ret tt s4 /\
     ipc_inv s4 (tail (q ++ [current_thread (fst s)]) ++ [t]) ps /\
     exists m', ip_msgs (snd s4) !! msg = Some m' /\ msg_length m' = clip (msg_length m) /\ payload m' = payload m) \/
  (exists s', kh_scarce (s_heap (fst s')) sizeof_wait_node /\
     (s' = s \/ exists s1 k1, ipc_send junk_msg (Z.of_nat i) msg s = Switch s1 k1 /\ ipc_recv (Z.of_nat i) sbuf s1 = Ret tt s')).
Proof.
  intros Hi Hr Hv Hm0 Hm Hs0 Hs Hne. pose proof (lookup_lt_Some _ _ _ Hv) as Hlt. set (c := current_thread (fst s)).
  destruct (send_blocks s t q ps i _ msg m Hi Hr Hv eq_refl Hm0 Hm) as
    [(a & m1 & s1 & k1 & E1 & Hk1 & Hp1 & Hl1 & Hi1 & Hb1 & Hms1 & Hc1 & Hr1)|[Hsc _]]; [|right; exists s; split; [exact Hsc|by left]].
  fold c in Hi1, Hb1. set (v1 := set_pvq true _ _) in Hi1.
  destruct (recv_takes s1 q _ i v1 (mk_w a c (Snd m1)) [] sbuf mb m1 Hi1 Hr1) as (s2 & E2 & Hi2 & Hrec2 & Hc2 & Hr2 & Hrdy);
    [by apply list_lookup_insert_eq|done|done|exact Hb1|done|by rewrite Hms1|].
  rewrite list_insert_insert_eq in Hi2. change (set_pvq true [] v1) with (mk_pv [] []) in Hi2. rewrite list_insert_id in Hi2 by done. cbn [w_thr] in Hi2.
  destruct (received_msg _ _ _ _ Hrec2) as (m2 & Hm2 & Hl2 & Hp2 & Ho2).
  assert (Hi2' : ipc_inv s2 (hd 0 (q ++ [c]) :: tail (q ++ [c])) ps) by (by destruct q).
  destruct (send_blocks s2 _ _ ps i _ sbuf m2 Hi2' Hr2 Hv eq_refl Hs0 Hm2) as
    [(a3 & m3 & s3 & k3 & E3 & Hk3 & Hp3 & Hl3 & Hi3 & Hb3 & Hms3 & Hc3 & Hr3)|[Hsc _]].
  2: { right. exists s2. split; [exact Hsc|]. right. by exists s1, k1. }
  rewrite Hc2, Hc1 in Hi3, Hb3. set (v3 := set_pvq true _ _) in Hi3.
  assert (Hm3 : ip_msgs (snd s3) !! msg = Some m) by (rewrite Hms3, Ho2, Hms1 by done; done).
  destruct (recv_takes s3 _ _ i v3 (mk_w a3 t (Snd m3)) [] msg m m3 Hi3 Hr3) as (s4 & E4 & Hi4 & Hrec4 & _);
    [by apply list_lookup_insert_eq|done|done|exact Hb3|done|exact Hm3|].
  rewrite list_insert_insert_eq in Hi4. change (set_pvq true [] v3) with (mk_pv [] []) in Hi4. rewrite list_insert_id in Hi4 by done. cbn [w_thr] in Hi4.
  destruct (received_msg _ _ _ _ Hrec4) as (m4 & Hm4 & Hl4 & Hp4 & _).
  left. exists s1, k1, s2, s3, k3, s4. split; [done|]. split; [done|]. split; [done|]. split; [done|]. split; [exact Hi4|].
  exists m4. split; [done|]. split; [|congruence]. rewrite Hl4, Hl3, Hl2, Hl1.
  pose proof (proj2 (ic_msgs _ _ _ (proj1 Hi) _ _ Hm)). by rewrite !clip_twice by (repeat apply clip_range; done).
Qed.

(** The service first: it waits, the client [t] hands it the message and
    waits, the service hands it back. *)
Lemma reply_waiting (s : state) t q ps i msg m sbuf mb :
  ipc_inv s (t :: q) ps -> requeues (fst s) -> ps !! i = Some (mk_pv [] []) ->
  msg <> 0 -> ip_msgs (snd s) !! msg = Some m -> sbuf <> 0 -> ip_msgs (snd s) !! sbuf = Some mb -> msg <> sbuf ->
  let c := current_thread (fst s) in
  (exists s1 k1 s2 s3 k3 s4,
     (ipc_recv (Z.of_nat i) sbuf s = Switch s1 k1 /\ (forall x, k1 x = Ret tt x) /\ current_thread (fst s1) = t) /\
     ipc_send junk_msg (Z.of_nat i) msg s1 = Ret tt s2 /\
     (ipc_recv (Z.of_nat i) msg s2 = Switch s3 k3 /\ (forall x, k3 x = Ret tt x) /\ current_thread (fst s3) = hd 0 (q ++ [c])) /\
     ipc_send junk_msg (Z.of_nat i) sbuf s3 = Ret tt s4 /\
     ipc_inv s4 (tail (q ++ [c]) ++ [t]) ps /\
     exists m', ip_msgs (snd s4) !! msg = Some m' /\ msg_length m' = clip (msg_length m) /\ payload m' = payload m) \/
  (exists s', kh_scarce (s_heap (fst s')) sizeof_wait_node /\
     (s' = s \/ exists s1 k1, ipc_recv (Z.of_nat i) sbuf s = Switch s1 k1 /\ ipc_send junk_msg (Z.of_nat i) msg s1 = Ret tt s')).
Proof.
  intros Hi Hr Hv Hm0 Hm Hs0 Hs Hne c. pose proof (lookup_lt_Some _ _ _ Hv) as Hlt.
  destruct (recv_blocks s t q ps i _ sbuf mb Hi Hr Hv eq_refl Hs0 Hs) as
    [(a & s1 & k1 & E1 & Hk1 & Hi1 & Hb1 & Hms1 & Hc1 & Hr1)|[Hsc _]]; [|right; exists s; split; [exact Hsc|by left]].
  fold c in Hi1, Hb1. set (v1 := set_pvq false _ _) in Hi1.
  destruct (send_hands s1 q _ i v1 (mk_w a c (Rcv sbuf)) [] sbuf msg m Hi1) as (s2 & E2 & Hi2 & Hrec2 & Hc2 & Hr2 & Hrdy);
    [by apply list_lookup_insert_eq|done|done|exact Hs0|exact Hb1|exact Hm0|by rewrite Hms1|].
  rewrite list_insert_insert_eq in Hi2. change (set_pvq false [] v1) with (mk_pv [] []) in Hi2. rewrite list_insert_id in Hi2 by done. cbn [w_thr] in Hi2.
  destruct (received_msg _ _ _ _ Hrec2) as (m2 & Hm2 & Hl2 & Hp2 & Ho2).
  assert (Hi2' : ipc_inv s2 (hd 0 (q ++ [c]) :: tail (q ++ [c])) ps) by (by destruct q).
  assert (Hm2' : ip_msgs (snd s2) !! msg = Some m) by (by rewrite Ho2, Hms1).
  destruct (recv_blocks s2 _ _ ps i _ msg m Hi2' (Hr2 Hr1) Hv eq_refl Hm0 Hm2') as
    [(a3 & s3 & k3 & E3 & Hk3 & Hi3 & Hb3 & Hms3 & Hc3 & Hr3)|[Hsc _]].
  2: { right. exists s2. split; [exact Hsc|]. right. by exists s1, k1. }
  rewrite Hc2, Hc1 in Hi3, Hb3. set (v3 := set_pvq false _ _) in Hi3.
  destruct (send_hands s3 _ _ i v3 (mk_w a3 t (Rcv msg)) [] msg sbuf m2 Hi3) as (s4 & E4 & Hi4 & Hrec4 & _);
    [by apply list_lookup_insert_eq|done|done|exact Hm0|exact Hb3|exact Hs0|by rewrite Hms3|].
  rewrite list_insert_insert_eq in Hi4. change (set_pvq false [] v3) with (mk_pv [] []) in Hi4. rewrite list_insert_id in Hi4 by done. cbn [w_thr] in Hi4.
  destruct (received_msg _ _ _ _ Hrec4) as (m4 & Hm4 & Hl4 & Hp4 & _).
  left. exists s1, k1, s2, s3, k3, s4. split; [done|]. split; [done|]. split; [done|]. split; [done|]. split; [exact Hi4|].
  exists m4. split; [done|]. split; [|congruence]. rewrite Hl4, Hl2.
  pose proof (proj2 (ic_msgs _ _ _ (proj1 Hi) _ _ Hm)). by rewrite !clip_twice by (repeat apply clip_range; done).
Qed.

End Blocking.

Section ServiceFacts.
Context {P : Type} `{FrameAllocator P}.
Context (hhdm_offset : Z) (hhdm_nonneg : 0 <= hhdm_offset).
Context (junk : Z) (junk_msg : ipc_message) (Hjunk : msg_ok junk_msg).
Context (lsr : list (Z * Z) -> nat -> Z) (scratch : list (Z * Z) -> Z) (polls : nat).
#[local] Abbreviation vm := (@vm_t P).
#[local] Abbreviation heap := (@heap_t vm).
#[local] Abbreviation srv := (@srv P).
#[local] Instance facts_mapper : PageMapper vm := Vmm_PageMapper hhdm_offset hhdm_nonneg.
#[local] Abbreviation recv := (recv hhdm_offset hhdm_nonneg).
#[local] Abbreviation send := (send hhdm_offset hhdm_nonneg junk_msg).

(** ** The scheduler and the ports inside the state of a service *)

Definition si (s : srv) : @sched_t heap * ipc_t := (k_sched (y_kernel (v_sys s)), k_ipc (y_kernel (v_sys s))).
Definition put_si (p : @sched_t heap * ipc_t) (s : srv) : srv :=
  let y := v_sys s in let k := y_kernel y in
  mk_srv (mk_sys (mk_kernel (fst p) (k_timer k) (snd p) (k_kbd k) (k_irq k) (k_out k)) (y_proc y) (y_uart y) (y_con y) (syscall_retval y))
    (v_bus s) (serial_lock s) (vfs_port s) (kbd_port s).
Definition msgs_of (s : srv) : gmap Z ipc_message := ip_msgs (snd (si s)).

Lemma put_si_same (s : srv) : put_si (si s) s = s.
Proof. by destruct s as [[[]]]. Qed.

Lemma si_put p (s : srv) : si (put_si p s) = p.
Proof. by destruct p. Qed.

Lemma on_ports_ret {A} (m : M (@sched_t heap * ipc_t) A) (s : srv) a p : m (si s) = Ret a p -> on_ports m s = Ret a (put_si p s).
Proof. intros E. unfold on_ports, on_sys, on_kernel, on_si, zoom. fold (si s). by rewrite E. Qed.

Lemma on_ports_switch (m : M (@sched_t heap * ipc_t) unit) (s : srv) p k : m (si s) = Switch p k ->
  exists k', on_ports m s = Switch (put_si p s) k' /\ ((forall x, k x = Ret tt x) -> forall x, k' x = Ret tt x).
Proof.
  intros E. unfold on_ports, on_sys, on_kernel, on_si, zoom. fold (si s). rewrite E. cbn [zoomr]. eexists. split; [reflexivity|].
  intros Hk x. cbv beta. rewrite Hk. cbn [zoomr]. by destruct x as [[[]]].
Qed.

Lemma port_u64 (ps : list pview) i v : length ps = 64%nat -> ps !! i = Some v -> u64 (Z.of_nat i) = Z.of_nat i.
Proof. intros Hl Hv%lookup_lt_Some. apply u64_small. unfold two64. lia. Qed.

(** The client's call while the service is ready, in the state of a service. *)
Lemma call_ready (s : srv) t q ps i msg m sbuf mb :
  ipc_inv (si s) (t :: q) ps -> requeues (fst (si s)) -> ps !! i = Some (mk_pv [] []) ->
  msg <> 0 -> msgs_of s !! msg = Some m -> sbuf <> 0 -> msgs_of s !! sbuf = Some mb -> msg <> sbuf ->
  let port := Z.of_nat i in
  let me := current_thread (fst (si s)) in
  (exists s1 k1 s2 k2 s3,
     echo_call hhdm_offset hhdm_nonneg junk_msg port msg s = Switch s1 k1 /\ current_thread (fst (si s1)) = t /\
     echo_round hhdm_offset hhdm_nonneg junk_msg port sbuf s1 = Switch s2 k2 /\ current_thread (fst (si s2)) = hd 0 (q ++ [me]) /\
     k1 s2 = Ret tt s3 /\ ipc_inv (si s3) (tail (q ++ [me]) ++ [t]) ps /\
     exists m', msgs_of s3 !! msg = Some m' /\ msg_length m' = clip (msg_length m) /\ payload m' = payload m) \/
  (exists s', kh_scarce (s_heap (fst (si s'))) sizeof_wait_node /\
     (s' = s \/ exists s1 k1, send port msg s = Switch s1 k1 /\ recv port sbuf s1 = Ret tt s')).
Proof.
  intros Hi Hr Hv Hm0 Hm Hs0 Hs Hne port me. pose proof (proj1 (ic_len _ _ _ (proj1 Hi))) as HL.
  unfold echo_call, echo_round, Services.send, Services.recv. rewrite (port_u64 ps i _ HL Hv : u64 port = port).
  destruct (request_reply junk_msg Hjunk (si s) t q ps i msg m sbuf mb Hi Hr Hv Hm0 Hm Hs0 Hs Hne) as
    [(p1 & k1 & p2 & p3 & k3 & p4 & (E1 & Hk1 & Hc1) & E2 & (E3 & Hk3 & Hc3) & E4 & Hi4 & Hm4)|(p' & Hsc & Hp)].
  - fold port in E1, E2, E3, E4. left. destruct (on_ports_switch _ s p1 k1 E1) as (k1' & F1 & Hk1'). specialize (Hk1' Hk1). set (s1 := put_si p1 s) in *.
    assert (F2 : on_ports (ipc_recv port sbuf) s1 = Ret tt (put_si p2 s1)) by (apply on_ports_ret; unfold s1; by rewrite si_put).
    set (s2 := put_si p2 s1) in *.
    destruct (on_ports_switch (ipc_send junk_msg port sbuf) s2 p3 k3) as (k3' & F3 & _); [unfold s2; by rewrite si_put|].
    set (s3 := put_si p3 s2) in *.
    assert (F4 : on_ports (ipc_recv port msg) s3 = Ret tt (put_si p4 s3)) by (apply on_ports_ret; unfold s3; by rewrite si_put).
    exists s1. eexists. exists s3. eexists. exists (put_si p4 s3). split; [exact (mbind_Switch _ _ _ _ _ F1)|].
    unfold msgs_of. rewrite !si_put. split; [exact Hc1|]. split; [exact (eq_trans (mbind_Ret _ _ _ _ _ F2) F3)|]. split; [unfold s3; rewrite si_put; exact Hc3|].
    split; [cbv beta; rewrite Hk1'; exact F4|]. by split.
  - right. exists (put_si p' s). rewrite si_put. split; [exact Hsc|]. destruct Hp as [->|(p1 & k1 & E1 & E2)]; [left; apply put_si_same|right].
    destruct (on_ports_switch _ s p1 k1 E1) as (k1' & F1 & _). exists (put_si p1 s), k1'. split; [exact F1|].
    change (put_si p' s) with (put_si p' (put_si p1 s)). apply on_ports_ret. by rewrite si_put.
Qed.

(** The client's call while the service waits in its receive. *)
Lemma call_waiting (s : srv) t q ps i msg m sbuf mb :
  ipc_inv (si s) (t :: q) ps -> requeues (fst (si s)) -> ps !! i = Some (mk_pv [] []) ->
  msg <> 0 -> msgs_of s !! msg = Some m -> sbuf <> 0 -> msgs_of s !! sbuf = Some mb -> msg <> sbuf ->
  let port := Z.of_nat i in
  let me := current_thread (fst (si s)) in
  (exists s1 k1 s2 k2 s3,
     echo_round hhdm_offset hhdm_nonneg junk_msg port sbuf s = Switch s1 k1 /\ current_thread (fst (si s1)) = t /\
     echo_call hhdm_offset hhdm_nonneg junk_msg port msg s1 = Switch s2 k2 /\ current_thread (fst (si s2)) = hd 0 (q ++ [me]) /\
     k1 s2 = Ret tt s3 /\ k2 s3 = Ret tt s3 /\ ipc_inv (si s3) (tail (q ++ [me]) ++ [t]) ps /\
     exists m', msgs_of s3 !! msg = Some m' /\ msg_length m' = clip (msg_length m) /\ payload m' = payload m) \/
  (exists s', kh_scarce (s_heap (fst (si s'))) sizeof_wait_node /\
     (s' = s \/ exists s1 k1, recv port sbuf s = Switch s1 k1 /\ send port msg s1 = Ret tt s')).
Proof.
  intros Hi Hr Hv Hm0 Hm Hs0 Hs Hne port me. pose proof (proj1 (ic_len _ _ _ (proj1 Hi))) as HL.
  unfold echo_call, echo_round, Services.send, Services.recv. rewrite (port_u64 ps i _ HL Hv : u64 port = port).
  destruct (reply_waiting junk_msg Hjunk (si s) t q ps i msg m sbuf mb Hi Hr Hv Hm0 Hm Hs0 Hs Hne) as
    [(p1 & k1 & p2 & p3 & k3 & p4 & (E1 & Hk1 & Hc1) & E2 & (E3 & Hk3 & Hc3) & E4 & Hi4 & Hm4)|(p' & Hsc & Hp)].
  - fold port in E1, E2, E3, E4. left. destruct (on_ports_switch _ s p1 k1 E1) as (k1' & F1 & Hk1'). specialize (Hk1' Hk1). set (s1 := put_si p1 s) in *.
    assert (F2 : on_ports (ipc_send junk_msg port msg) s1 = Ret tt (put_si p2 s1)) by (apply on_ports_ret; unfold s1; by rewrite si_put).
    set (s2 := put_si p2 s1) in *.
    destruct (on_ports_switch (ipc_recv port msg) s2 p3 k3) as (k3' & F3 & Hk3'); [unfold s2; by rewrite si_put|]. specialize (Hk3' Hk3).
    set (s3 := put_si p3 s2) in *.
    assert (F4 : on_ports (ipc_send junk_msg port sbuf) s3 = Ret tt (put_si p4 s3)) by (apply on_ports_ret; unfold s3; by rewrite si_put).
    exists s1. eexists. exists s3, k3', (put_si p4 s3). split; [exact (mbind_Switch _ _ _ _ _ F1)|].
    unfold msgs_of. rewrite !si_put. split; [exact Hc1|]. split; [exact (eq_trans (mbind_Ret _ _ _ _ _ F2) F3)|]. split; [unfold s3; rewrite si_put; exact Hc3|].
    split; [cbv beta; rewrite Hk1'; exact F4|]. split; [apply Hk3'|]. by split.
  - right. exists (put_si p' s). rewrite si_put. split; [exact Hsc|]. destruct Hp as [->|(p1 & k1 & E1 & E2)]; [left; apply put_si_same|right].
    destruct (on_ports_switch _ s p1 k1 E1) as (k1' & F1 & _). exists (put_si p1 s), k1'. split; [exact F1|].
    change (put_si p' s) with (put_si p' (put_si p1 s)). apply on_ports_ret. by rewrite si_put.
Qed.

(** C27: the echo service, on a port where nobody waits, by a running thread
    and the first ready one, in either order.
    The client first: its call (send, then receive) blocks and the service
    runs; one round of the service takes the request and blocks with the
    reply; the client then returns.
    The service first, as [_start] has it: its round blocks in the receive; the
    client hands the message over without blocking and blocks in its own
    receive; the round, resumed, hands the reply over and returns, and so does
    the client.
    Either way the client has its own message in its buffer, length clipped to
    256 and bytes unchanged, both threads run or are ready and nobody waits on
    the port.  The exception is a heap without room for one of the two wait
    nodes. *)
Theorem echo_round_trip (s : srv) t q ps i msg m sbuf mb :
  ipc_inv (si s) (t :: q) ps -> requeues (fst (si s)) -> ps !! i = Some (mk_pv [] []) ->
  msg <> 0 -> msgs_of s !! msg = Some m -> sbuf <> 0 -> msgs_of s !! sbuf = Some mb -> msg <> sbuf ->
  let port := Z.of_nat i in
  let me := current_thread (fst (si s)) in
  let call := echo_call hhdm_offset hhdm_nonneg junk_msg port msg in
  let round := echo_round hhdm_offset hhdm_nonneg junk_msg port sbuf in
  let replied s' := ipc_inv (si s') (tail (q ++ [me]) ++ [t]) ps /\
    exists m', msgs_of s' !! msg = Some m' /\ msg_length m' = clip (msg_length m) /\ payload m' = payload m in
  let scarce s' := kh_scarce (s_heap (fst (si s'))) sizeof_wait_node in
  ((exists s1 k1 s2 k2 s3, call s = Switch s1 k1 /\ current_thread (fst (si s1)) = t /\
      round s1 = Switch s2 k2 /\ current_thread (fst (si s2)) = hd 0 (q ++ [me]) /\ k1 s2 = Ret tt s3 /\ replied s3) \/
   (exists s', scarce s' /\ (s' = s \/ exists s1 k1, send port msg s = Switch s1 k1 /\ recv port sbuf s1 = Ret tt s'))) /\
  ((exists s1 k1 s2 k2 s3, round s = Switch s1 k1 /\ current_thread (fst (si s1)) = t /\
      call s1 = Switch s2 k2 /\ current_thread (fst (si s2)) = hd 0 (q ++ [me]) /\ k1 s2 = Ret tt s3 /\ k2 s3 = Ret tt s3 /\ replied s3) \/
   (exists s', scarce s' /\ (s' = s \/ exists s1 k1, recv port sbuf s = Switch s1 k1 /\ send port msg s1 = Ret tt s'))).
Proof. intros Hi Hr Hv Hm0 Hm Hs0 Hs Hne port me call round replied scarce. split; [by apply (call_ready s t q ps i msg m sbuf mb)|by apply (call_waiting s t q ps i msg m sbuf mb)]. Qed.

(** ** The file service *)

Definition uart_of (s : srv) : uart := y_uart (v_sys s).
Definition put_uart (u : uart) (s : srv) : srv :=
  let y := v_sys s in
  mk_srv (mk_sys (y_kernel y) (y_proc y) u (y_con y) (syscall_retval y)) (v_bus s) (serial_lock s) (vfs_port s) (kbd_port s).

(** What a request prints. *)
Definition vfs_text (p : list Z) : list Z :=
  match p with
  | op :: fd :: text => if (u8 op =? 1) && ((fd =? 1) || (fd =? 2)) then text else []
  | _ => []
  end.

Lemma vfs_print_ok (s : srv) data len n : ready_within lsr n -> (n <= polls)%nat -> 0 <= len -> (Z.to_nat len + 2 <= length data)%nat ->
  exists u, vfs_print lsr scratch polls data len s = Ret tt (put_uart u s) /\ sent (crlf (take (Z.to_nat len) (drop 2 data))) (uart_of s) u.
Proof.
  intros Hr Hp Hl Hd.
  destruct (mfor_rule (fun i s' => exists u, s' = put_uart u s /\ sent (crlf (take (Z.to_nat i) (drop 2 data))) (uart_of s) u) (Z.to_nat len) 0
    (fun i => c <- mopt (data !! Z.to_nat (2 + i)) ;; on_sys (on_uart (serial_putc lsr scratch polls c))) s) as (s' & E & u & -> & Hs).
  - exists (uart_of s). split; [by destruct s as [[]]|done].
  - intros j s1 Hj (u & -> & Hs). destruct (lookup_lt_is_Some_2 data (Z.to_nat (2 + j))) as [c Hc]; [lia|]. unfold mbind at 1. rewrite Hc. cbn [mopt bindr].
    destruct (serial_putc_sent lsr scratch n Hr polls Hp c u) as (u1 & E1 & S1). exists (put_uart u1 s). split.
    { unfold on_sys, on_uart, zoom. cbn [put_uart v_sys y_uart]. by rewrite E1. }
    exists u1. split; [done|]. replace (Z.to_nat (j + 1)) with (Datatypes.S (Z.to_nat j)) by lia.
    rewrite (take_S_r _ _ c) by (rewrite lookup_drop; by replace (2 + Z.to_nat j)%nat with (Z.to_nat (2 + j)) by lia).
    rewrite crlf_app. by eapply sent_app.
  - rewrite Z.add_0_l, Z2Nat.id in Hs by lia. by exists u.
Qed.

Lemma get_msg_ok (s : srv) a m : a <> 0 -> msgs_of s !! a = Some m -> get_msg a s = Ret m s.
Proof.
  intros Ha Hm. unfold get_msg. erewrite on_ports_ret; [by rewrite put_si_same|]. unfold Ipc.on_i, zoom, read_msg.
  rewrite (proj2 (Z.eqb_neq _ _) Ha). unfold msgs_of in Hm. rewrite Hm. by destruct (si s).
Qed.

Lemma payload_split (m : ipc_message) : msg_ok m -> msg_length m <= 256 -> 2 <= msg_length m ->
  exists op fd, msg_data m !! 0%nat = Some op /\ msg_data m !! 1%nat = Some fd /\
    payload m = op :: fd :: take (Z.to_nat (msg_length m - 2)) (drop 2 (msg_data m)).
Proof.
  intros [Hl _] Hc H2. unfold payload. replace (clip (msg_length m)) with (msg_length m) by (unfold clip, IPC_MSG_MAX; zcases; lia).
  destruct (msg_data m) as [|op [|fd data]]; [done|done|]. exists op, fd. split; [done|]. split; [done|].
  replace (Z.to_nat (msg_length m)) with (Datatypes.S (Datatypes.S (Z.to_nat (msg_length m - 2)))) by lia. done.
Qed.

Lemma vfs_handle_ok (s : srv) req m n : ready_within lsr n -> (n <= polls)%nat -> req <> 0 -> msgs_of s !! req = Some m ->
  msg_ok m -> msg_length m <= 256 ->
  exists u, vfs_handle lsr scratch polls req s = Ret tt (put_uart u s) /\ sent (crlf (vfs_text (payload m))) (uart_of s) u.
Proof.
  intros Hr Hp Hq Hm Hok Hc. unfold vfs_handle. rewrite (mbind_Ret _ _ _ _ _ (get_msg_ok s req m Hq Hm)).
  assert (Hsame : exists u, Ret tt s = Ret tt (put_uart u s) /\ sent [] (uart_of s) u) by (exists (uart_of s); split; [by destruct s as [[]]|done]).
  destruct (Z.ltb_spec (msg_length m) 2) as [H2|H2].
  { replace (vfs_text (payload m)) with (@nil Z); [done|]. unfold payload. replace (clip (msg_length m)) with (msg_length m) by (unfold clip, IPC_MSG_MAX; zcases; lia).
    destruct (msg_data m) as [|a [|b l]]; destruct (Z.to_nat (msg_length m)) as [|[|k]] eqn:Ek; done || lia. }
  destruct (payload_split m Hok Hc H2) as (op & fd & H0 & H1 & ->). cbn [vfs_text].
  unfold mbind at 1. rewrite H0. cbn [mopt bindr]. unfold mbind at 1. rewrite H1. cbn [mopt bindr].
  destruct (u8 op =? 1); cbn [andb]; [|done]. destruct ((fd =? 1) || (fd =? 2)); [|done].
  rewrite u64_small by (unfold two64; lia). apply (vfs_print_ok s _ _ n Hr Hp); [lia|]. destruct Hok as [Hl _]. rewrite Hl. lia.
Qed.

(** One round of the file service with a request waiting: the request is
    taken, its sender is ready again, and a write request (opcode 1) to
    descriptor 1 or 2 puts exactly its text on the serial line; any other
    request prints nothing. *)
Theorem vfs_round_correct (s : srv) q ps i v w l req mb m n :
  ipc_inv (si s) q ps -> requeues (fst (si s)) -> ps !! i = Some v -> pv_snd v = w :: l -> w_body w = Snd m -> blocked (fst (si s)) (w_thr w) ->
  req <> 0 -> msgs_of s !! req = Some mb -> ready_within lsr n -> (n <= polls)%nat ->
  exists s', vfs_round hhdm_offset hhdm_nonneg lsr scratch polls (Z.of_nat i) req s = Ret tt s' /\
    ipc_inv (si s') (q ++ [w_thr w]) (<[i := set_pvq true l v]> ps) /\
    state_of (s_threads (fst (si s'))) (w_thr w) = Some THREAD_STATE_READY /\
    sent (crlf (vfs_text (payload m))) (uart_of s) (uart_of s').
Proof.
  intros Hi Hr Hv Hq Hw Hb Hq0 Hm Hrd Hp. unfold vfs_round, Services.recv. rewrite (port_u64 ps i v (proj1 (ic_len _ _ _ (proj1 Hi))) Hv).
  destruct (recv_takes (si s) q ps i v w l req mb m Hi Hr Hv Hq Hw Hb Hq0 Hm) as (p' & E & Hi' & (m' & Hms & Hok & Hl & Hpay) & _ & _ & Hrdy).
  set (s1 := put_si p' s). assert (E1 : on_ports (ipc_recv (Z.of_nat i) req) s = Ret tt s1) by (by apply on_ports_ret).
  assert (Hlen : msg_length m' <= 256) by (rewrite Hl; unfold clip, IPC_MSG_MAX; zcases; lia).
  destruct (vfs_handle_ok s1 req m' n Hrd Hp Hq0) as (u & E2 & Hs); [unfold msgs_of, s1; rewrite si_put, Hms; apply lookup_insert_eq|done|done|].
  exists (put_uart u s1). split; [exact (eq_trans (mbind_Ret _ _ _ _ _ E1) E2)|]. change (si (put_uart u s1)) with (si s1). unfold s1 at 1 2. rewrite si_put.
  split; [exact Hi'|]. split; [exact Hrdy|]. rewrite <- Hpay. exact Hs.
Qed.

(** ** The keyboard service *)

Context (kstatus : nat -> nat -> Z) (kdata : nat -> Z).

Lemma kbd_wait_ready n j : forall fuel k (s : srv), (j < fuel)%nat -> Z.land (kstatus n (k + j)%nat) 1 <> 0 ->
  (forall i, (i < j)%nat -> Z.land (kstatus n (k + i)%nat) 1 = 0) -> kbd_wait kstatus fuel n k s = Ret tt s.
Proof.
  induction j as [|j IH]; intros [|fuel] k s Hf Hr Hb; try lia; cbn [kbd_wait].
  - rewrite Nat.add_0_r in Hr. by rewrite (proj2 (Z.eqb_neq _ _) Hr).
  - pose proof (Hb 0%nat ltac:(lia)) as H0. rewrite Nat.add_0_r in H0. rewrite H0. cbn [Z.eqb]. apply IH; [lia| |].
    + by replace (Datatypes.S k + j)%nat with (k + Datatypes.S j)%nat by lia.
    + intros i Hi. replace (Datatypes.S k + i)%nat with (k + Datatypes.S i)%nat by lia. apply Hb. lia.
Qed.

Definition put_msg (a : Z) (m : ipc_message) (s : srv) : srv :=
  put_si (fst (si s), set_ip_msgs (<[a := m]> (msgs_of s)) (snd (si s))) s.

Lemma edit_msg_ok (s : srv) a m f : a <> 0 -> msgs_of s !! a = Some m -> edit_msg a f s = Ret tt (put_msg a (f m) s).
Proof.
  intros Ha Hm. unfold edit_msg. rewrite (mbind_Ret _ _ _ _ _ (get_msg_ok s a m Ha Hm)). apply on_ports_ret. unfold msgs_of. by destruct (si s).
Qed.

Lemma put_msg_at (s : srv) a m : msgs_of (put_msg a m s) !! a = Some m.
Proof. unfold msgs_of, put_msg. rewrite si_put. apply lookup_insert_eq. Qed.

Lemma put_msg_inv (s : srv) q ps a m m0 : ipc_inv (si s) q ps -> msgs_of s !! a = Some m0 -> msg_ok m -> ipc_inv (si (put_msg a m s)) q ps.
Proof.
  intros Hi Hm Hok. unfold put_msg. rewrite si_put. unfold msgs_of in *. destruct (si s) as [sc ip]. cbn [fst snd] in *. apply ipc_inv_msgs; [exact Hi| |].
  - intros b x. rewrite lookup_insert. case_decide; [by intros [= <-]|]. apply (ic_msgs _ _ _ (proj1 Hi)).
  - intros j v w b Hv Hw Hb Hb0. rewrite lookup_insert. case_decide; [by eexists|].
    destruct (lookup_lt_is_Some_2 (ports ip) j) as [p Hp]; [pose proof (ic_len _ _ _ (proj1 Hi)) as [L1 L2]; cbn [snd] in L2; apply lookup_lt_Some in Hv; lia|].
    pose proof (po_body _ _ _ (ic_port _ _ _ (proj1 Hi) j v p Hv Hp) false w Hw) as Hbo. unfold body_ok in Hbo. rewrite Hb in Hbo. by destruct Hbo.
Qed.

(** A key press, from the keyboard service to the file service.  The
    service reads the scan code, and hands the file service, which waits with
    the buffer [buf], a message of one byte, the character; the file service
    drops it, since it ignores messages shorter than two bytes. *)
Theorem kbd_key_dropped (s : srv) q ps i v w l buf msg m n j :
  ipc_inv (si s) q ps -> ps !! i = Some v -> vfs_port s = Z.of_nat i -> pv_rcv v = w :: l -> w_body w = Rcv buf -> buf <> 0 ->
  msg <> 0 -> msgs_of s !! msg = Some m ->
  (j < polls)%nat -> Z.land (kstatus n j) 1 <> 0 -> (forall i, (i < j)%nat -> Z.land (kstatus n i) 1 = 0) ->
  0 <= kdata n < 128 -> scancode_to_ascii (kdata n) <> 0 ->
  exists s' m', kbd_handle hhdm_offset hhdm_nonneg junk_msg polls kstatus kdata n msg s = Ret tt s' /\
    (exists q', ipc_inv (si s') q' (<[i := set_pvq false l v]> ps)) /\
    msgs_of s' !! buf = Some m' /\ payload m' = [scancode_to_ascii (kdata n)] /\
    vfs_handle lsr scratch polls buf s' = Ret tt s'.
Proof.
  intros Hi Hv Hvp Hrc Hw Hb0 Hm0 Hm Hj Hst Hbusy Hsc Hch. unfold kbd_handle. rewrite (mbind_Ret _ _ _ _ _ (kbd_wait_ready n j polls 0 s Hj Hst Hbusy)).
  replace (u8 (kdata n)) with (kdata n) by (unfold u8, two8; rewrite Z.mod_small by lia; done). rewrite high_bit_clear by lia.
  rewrite (proj2 (Z.ltb_lt _ _) (proj2 Hsc)). cbn [negb]. rewrite (proj2 (Z.eqb_neq _ _) Hch). set (ch := scancode_to_ascii _) in *.
  pose proof (ic_msgs _ _ _ (proj1 Hi) _ _ Hm) as Hok.
  rewrite (mbind_Ret _ _ _ _ _ (edit_msg_ok s msg m _ Hm0 Hm)). set (m1 := mk_msg 1 _). set (s1 := put_msg msg m1 s).
  assert (Hm1 : msgs_of s1 !! msg = Some m1) by apply put_msg_at. assert (Hok1 : msg_ok m1) by (split; [apply Hok|done]).
  rewrite (mbind_Ret _ _ _ _ _ (edit_msg_ok s1 msg m1 _ Hm0 Hm1)). set (m2 := set_data 0 ch m1). set (s2 := put_msg msg m2 s1).
  assert (Hok2 : msg_ok m2) by (split; [cbn [m2 set_data msg_data]; rewrite length_insert; apply Hok1|done]).
  pose proof (put_msg_inv s1 q ps msg m2 m1 (put_msg_inv s q ps msg m1 m Hi Hm Hok1) Hm1 Hok2) as Hi2. fold s2 in Hi2.
  rewrite (mbind_Ret _ _ _ _ _ (eq_refl : mget vfs_port s2 = Ret (vfs_port s2) s2)). change (vfs_port s2) with (vfs_port s). rewrite Hvp.
  unfold Services.send. rewrite (port_u64 ps i v (proj1 (ic_len _ _ _ (proj1 Hi))) Hv).
  pose proof (send_enqueue_spec junk_msg Hjunk (si s2) q ps i v msg m2 Hi2 Hv Hm0 (put_msg_at s1 msg m2)) as E. rewrite Hrc in E.
  destruct E as (p' & buf' & msgs' & Hbuf & E & Hi' & _ & _ & <- & Hrec). rewrite Hw in Hbuf. injection Hbuf as <-. rewrite (proj2 (Z.eqb_neq _ _) Hb0) in Hrec.
  destruct (received_msg _ _ _ _ Hrec) as (m' & Hm' & Hl' & Hp' & _). exists (put_si p' s2), m'.
  assert (Es : ipc_send junk_msg (Z.of_nat i) msg (si s2) = Ret tt p') by (unfold ipc_send, mbind; by rewrite E).
  split; [exact (on_ports_ret _ _ _ _ Es)|]. unfold msgs_of. rewrite si_put. split; [by eexists|]. split; [exact Hm'|]. split.
  - rewrite Hp'. unfold payload. change (clip (msg_length m2)) with 1. cbn [m2 set_data msg_data]. destruct (msg_data m1) as [|x d] eqn:Ed; [|done].
    destruct Hok1 as [Hl1 _]. rewrite Ed in Hl1. done.
  - unfold vfs_handle. rewrite (mbind_Ret _ _ _ _ _ (get_msg_ok (put_si p' s2) buf m' Hb0 ltac:(unfold msgs_of; by rewrite si_put))). by rewrite Hl'.
Qed.
End ServiceFacts.

(** ** Witnesses: two threads, the first running *)

Definition demo_pair : option (@sched_t (@heap_t (@vm_t pmm_t))) :=
  demo_started ≫= fun s => and_then (thread_create 7 4200000 20480 0 s) Some.

Lemma demo_pair_ready : option_map (fun s => truthy (ready_queue s)) demo_pair = Some true.
Proof. vm_compute. reflexivity. Qed.

Lemma demo_pair_ok : exists s t ls, demo_pair = Some s /\ sched_inv s [t] /\ heap_ok s ls /\ requeues s.
Proof.
  pose proof demo_pair_ready as E. unfold demo_pair in *. destruct demo_running as (s0 & ls & E0 & I & Hok & Hr).
  rewrite E0 in E |- *. cbn [base.mbind option_bind] in E |- *.
  destruct (thread_create_gen 7 s0 [] ls 4200000 20480 0 I Hok) as
    [(t & k & z & s1 & ls' & E1 & _ & Hd & _ & _ & _ & Hcr & I1 & Hok1)|(_ & [E1|(h' & E1 & I1 & _)])]; rewrite E1 in E |- *; cbn [and_then] in E |- *.
  - exists s1, t, ls'. split; [reflexivity|]. split; [exact I1|]. split; [exact Hok1|]. unfold created in Hcr. rewrite Hcr. destruct Hr as [Hr1 Hr2].
    split; [|exact Hr2]. cbn [s_threads current_thread]. unfold state_of in *. rewrite lookup_insert_ne; [exact Hr1|]. intros ->. apply Hd.
    apply elem_of_dom. destruct (s_threads s0 !! current_thread s0); [by eexists|done].
  - discriminate E.
  - pose proof (si_chain _ _ I1 : ready_queue s0 = 0) as Hc. clear E1 E0 I1. cbn [option_map] in E. injection E as E.
    change (ready_queue (set_heap h' s0)) with (ready_queue s0) in E. rewrite Hc in E. discriminate E.
Qed.

Definition demo_srv (p : @sched_t (@heap_t (@vm_t pmm_t)) * ipc_t) : @srv pmm_t :=
  mk_srv (mk_sys (mk_kernel (fst p) timer_boot (snd p) kbd_boot irq_boot []) (mk_procs ∅ 0 1 0 0) (mkUart [] 0) demo_con 0) bus_boot 0 3 4.

Lemma demo_si p : si (demo_srv p) = p.
Proof. by destruct p. Qed.

(** Room for a wait node, at the start and after each pair of calls. *)
Definition roomy (s : @srv pmm_t) : bool := align8 sizeof_wait_node + 65536 <=? heap_room (s_heap (fst (si s))).
Definition roomy_after (m1 m2 : M (@srv pmm_t) unit) (s : @srv pmm_t) : bool :=
  roomy s && match m1 s with Switch s1 _ => match m2 s1 with Ret _ s2 => roomy s2 | _ => true end | _ => true end.

Lemma roomy_fed m1 m2 s s' : roomy_after m1 m2 s = true ->
  (s' = s \/ exists s1 k1, m1 s = Switch s1 k1 /\ m2 s1 = Ret tt s') ->
  ~ @kh_scarce _ (@Heap_KHeap _ (Vmm_PageMapper demo_hhdm demo_hhdm_nonneg)) (s_heap (fst (si s'))) sizeof_wait_node.
Proof.
  intros [H0 H1]%andb_true_iff Hs Hsc. change (heap_room (s_heap (fst (si s'))) < align8 sizeof_wait_node + 65536) in Hsc.
  destruct Hs as [->|(s1 & k1 & E1 & E2)]; [|rewrite E1, E2 in H1]; unfold roomy in *; lia.
Qed.

#[local] Abbreviation demo_send := (Services.send demo_hhdm demo_hhdm_nonneg demo_empty 3 1000).
#[local] Abbreviation demo_recv := (Services.recv demo_hhdm demo_hhdm_nonneg 3 2000).

Lemma demo_pair_roomy : option_map (fun sc => let s := demo_srv (sc, ipc_boot demo_msgs) in
  roomy_after demo_send demo_recv s && roomy_after demo_recv demo_send s) demo_pair = Some true.
Proof. vm_compute. reflexivity. Qed.

(** The running thread is the client on port 3 with the message at 1000 and
    the other thread the service with its buffer at 2000; then the other way
    round. *)
Lemma echo_round_trip_witness :
  exists sc t, demo_pair = Some sc /\ let s := demo_srv (sc, ipc_boot demo_msgs) in
  let call := echo_call demo_hhdm demo_hhdm_nonneg demo_empty 3 1000 in
  let round := echo_round demo_hhdm demo_hhdm_nonneg demo_empty 3 2000 in
  let hello s' := exists m', msgs_of s' !! 1000 = Some m' /\ payload m' = [104; 101; 108; 108; 111] in
  (exists s1 k1 s2 k2 s3, call s = Switch s1 k1 /\ current_thread (fst (si s1)) = t /\ round s1 = Switch s2 k2 /\ k1 s2 = Ret tt s3 /\ hello s3) /\
  (exists s1 k1 s2 k2 s3, round s = Switch s1 k1 /\ current_thread (fst (si s1)) = t /\ call s1 = Switch s2 k2 /\ k1 s2 = Ret tt s3 /\ k2 s3 = Ret tt s3 /\ hello s3).
Proof.
  destruct demo_pair_ok as (sc & t & ls & E & I & Hok & Hr). exists sc, t. pose proof demo_pair_roomy as Hroom. rewrite E in Hroom. cbn [option_map] in Hroom.
  injection Hroom as Hroom. apply andb_true_iff in Hroom as [R1 R2]. split; [exact E|]. clear E. intros s call round hello.
  destruct (echo_round_trip demo_hhdm demo_hhdm_nonneg demo_empty demo_empty_ok s t [] no_waits 3 1000 demo_hello 2000 demo_empty) as [Hc Hs].
  - exact (ipc_boot_inv sc [t] ls demo_msgs I Hok demo_msgs_ok).
  - exact Hr.
  - reflexivity.
  - discriminate.
  - reflexivity.
  - discriminate.
  - reflexivity.
  - discriminate.
  - split.
    + destruct Hc as [(s1 & k1 & s2 & k2 & s3 & E1 & Hc & E2 & _ & E3 & _ & m' & Hm & _ & Hp)|(s' & Hsc & Hx)]; [|destruct (roomy_fed demo_send demo_recv s s' R1 Hx Hsc)].
      exists s1, k1, s2, k2, s3. split; [exact E1|]. split; [exact Hc|]. split; [exact E2|]. split; [exact E3|]. exists m'. split; [exact Hm|exact Hp].
    + destruct Hs as [(s1 & k1 & s2 & k2 & s3 & E1 & Hc' & E2 & _ & E3 & E4 & _ & m' & Hm & _ & Hp)|(s' & Hsc & Hx)]; [|destruct (roomy_fed demo_recv demo_send s s' R2 Hx Hsc)].
      exists s1, k1, s2, k2, s3. split; [exact E1|]. split; [exact Hc'|]. split; [exact E2|]. split; [exact E3|]. split; [exact E4|]. exists m'. split; [exact Hm|exact Hp].
Defined.

(** A write request for the text "Hi". *)
Definition demo_request : ipc_message := mk_msg 4 ([1; 1; 72; 105] ++ replicate 252 0).
Definition demo_requests : gmap Z ipc_message := <[1000 := demo_request]> (<[2000 := demo_empty]> ∅).

Lemma demo_requests_ok a m : demo_requests !! a = Some m -> msg_ok m.
Proof. unfold demo_requests. rewrite !lookup_insert. repeat case_decide; try (by intros [= <-]). Qed.

Definition switched {S A} (r : res S A) : bool := match r with Switch _ _ => true | _ => false end.

Lemma demo_send_blocks : option_map (fun s => switched (ipc_send demo_empty 3 1000 (s, ipc_boot demo_requests))) demo_pair = Some true.
Proof. vm_compute. reflexivity. Qed.

Lemma vfs_round_correct_witness :
  exists sc s1 k1 s', demo_pair = Some sc /\ ipc_send demo_empty 3 1000 (sc, ipc_boot demo_requests) = Switch s1 k1 /\
    vfs_round demo_hhdm demo_hhdm_nonneg demo_lsr (fun _ => 0) 3 3 2000 (demo_srv s1) = Ret tt s' /\
    u_out (uart_of s') = [(COM1, 105); (COM1, 72)].
Proof.
  pose proof demo_send_blocks as Hsw. destruct demo_pair_ok as (sc & t & ls & E & I & Hok & Hr). rewrite E in Hsw. cbn [option_map] in Hsw.
  destruct (send_blocks demo_empty demo_empty_ok (sc, ipc_boot demo_requests) t [] no_waits 3 (mk_pv [] []) 1000 demo_request) as
    [(a & m' & s1 & k1 & E1 & _ & Hp & _ & Hi & Hb & Hms & _ & Hr1)|(_ & Hno)].
  - exact (ipc_boot_inv sc [t] ls demo_requests I Hok demo_requests_ok).
  - exact Hr.
  - reflexivity.
  - reflexivity.
  - discriminate.
  - reflexivity.
  - destruct (vfs_round_correct demo_hhdm demo_hhdm_nonneg demo_lsr (fun _ => 0) 3 (demo_srv s1) []
      (<[3%nat := mk_pv [mk_w a (current_thread sc) (Snd m')] []]> no_waits) 3 (mk_pv [mk_w a (current_thread sc) (Snd m')] [])
      (mk_w a (current_thread sc) (Snd m')) [] 2000 demo_empty m' 3) as (s' & E2 & _ & _ & Hs).
    + rewrite demo_si. exact Hi.
    + rewrite demo_si. exact Hr1.
    + reflexivity.
    + reflexivity.
    + reflexivity.
    + rewrite demo_si. exact Hb.
    + discriminate.
    + unfold msgs_of. rewrite demo_si, Hms. reflexivity.
    + exact demo_ready.
    + lia.
    + exists sc, s1, k1, s'. split; [exact E|]. split; [exact E1|]. split; [exact E2|]. rewrite Hp in Hs. exact Hs.
  - exfalso. change (Z.of_nat 3) with 3 in Hno. destruct (ipc_send demo_empty 3 1000 _) eqn:Es in Hsw; try discriminate Hsw. exact (Hno _ _ Es).
Defined.

Lemma demo_recv_blocks : option_map (fun s => switched (ipc_recv 3 2000 (s, ipc_boot demo_msgs))) demo_started = Some true.
Proof. vm_compute. reflexivity. Qed.

(** The key q, scan code 16. *)
Lemma kbd_key_dropped_witness :
  exists sc s1 k1 s' m', demo_started = Some sc /\ ipc_recv 3 2000 (sc, ipc_boot demo_msgs) = Switch s1 k1 /\
    kbd_handle demo_hhdm demo_hhdm_nonneg demo_empty 3 (fun _ _ => 1) (fun _ => 16) 0 1000 (demo_srv s1) = Ret tt s' /\
    msgs_of s' !! 2000 = Some m' /\ payload m' = [113] /\ vfs_handle demo_lsr (fun _ => 0) 3 2000 s' = Ret tt s'.
Proof.
  pose proof demo_recv_blocks as Hsw. destruct demo_running as (sc & ls & E & I & Hok & Hr). rewrite E in Hsw. cbn [option_map] in Hsw.
  destruct (recv_enqueue_spec (sc, ipc_boot demo_msgs) [] no_waits 3 (mk_pv [] []) 2000 demo_empty) as
    [(a & h' & ip' & E1 & Hi & Hms)|(_ & Hno)].
  - exact (ipc_boot_inv sc [] ls demo_msgs I Hok demo_msgs_ok).
  - reflexivity.
  - discriminate.
  - reflexivity.
  - destruct (block_after sc ip' [] _ h' Hi Hr) as (sc' & k & Eb & _ & Hi2 & _).
    destruct (kbd_key_dropped demo_hhdm demo_hhdm_nonneg demo_empty demo_empty_ok demo_lsr (fun _ => 0) 3 (fun _ _ => 1) (fun _ => 16) (demo_srv (sc', ip')) []
      (<[3%nat := mk_pv [] [mk_w a (current_thread sc) (Rcv 2000)]]> no_waits) 3
      (mk_pv [] [mk_w a (current_thread sc) (Rcv 2000)]) (mk_w a (current_thread sc) (Rcv 2000)) [] 2000 1000 demo_hello 0 0) as (s' & m' & E2 & _ & Hm & Hp & Hv).
    + rewrite demo_si. exact Hi2.
    + reflexivity.
    + reflexivity.
    + reflexivity.
    + reflexivity.
    + discriminate.
    + discriminate.
    + unfold msgs_of. rewrite demo_si. cbn [snd]. rewrite Hms. reflexivity.
    + lia.
    + discriminate.
    + intros i Hi0. lia.
    + lia.
    + discriminate.
    + exists sc, (sc', ip'), k, s', m'. split; [exact E|]. split; [exact (eq_trans (mbind_Ret _ _ _ _ _ E1) Eb)|].
      split; [exact E2|]. split; [exact Hm|]. split; [exact Hp|exact Hv].
  - exfalso. unfold ipc_recv, mbind in Hsw. change (Z.of_nat 3) with 3 in Hno. destruct Hno as [Hno|(h' & ip' & Hno & _)]; rewrite Hno in Hsw; discriminate Hsw.
Defined.
