(* ===== verification/Boot.v ===== *)
(** * Boot (src/kernel/main.c, src/kernel/pit.c)

    The sequence of calls of [_start], on the state of every component.  The
    last lines of the function stand after an [#if 0] that is never closed:
    [_start] ends where that begins, and [load_init] is what stands behind
    it. *)

From stdpp Require Import base gmap list fin_maps.
From Stdlib Require Import ZArith Lia String.
From S2P Require Import Prelude Mem Pmm Vmm PageTables Heap HeapFacts KernelMem Chain Descriptors Sched SchedFacts SchedRun.
From S2P Require Import Timer Ipc KbdBuf Bus Printf Serial Console Limine Irq Fork UserCopy Proc Syscalls Services.

(** ** pit.c *)

Definition pit_divisor : Z := u16 (1193180 / 100).
Definition pit_init : list hw_write :=
  [Outb 0x43 0x36; Outb 0x40 (u8 (Z.land pit_divisor 0xFF)); Outb 0x40 (u8 (Z.shiftr pit_divisor 8))].

(** ** main.c *)

Section Boot.
Context (hhdm_offset : Z) (hhdm_nonneg : 0 <= hhdm_offset).
Context (junk : Z).
Context (lsr : list (Z * Z) -> nat -> Z) (scratch : list (Z * Z) -> Z) (polls : nat).
(** What the boot loader hands over: the framebuffer and its depth, the
    memory map and the page tables in CR3. *)
Context (fb : option Console.limine_framebuffer) (bpp : Z) (mm_resp : option (list memmap_entry)) (cr3 : Z).
(** Addresses the linker fixes, and the model specific register. *)
Context (gdt_addr idt_addr : Z) (isr_stub_table : Z -> Z) (efer syscall_entry : Z).
Context (idle_thread echo_service_at thread_a_at thread_b_at echo_client_at : Z).
#[local] Abbreviation vm := (@vm_t pmm_t).
#[local] Abbreviation heap := (@heap_t vm).
#[local] Abbreviation srv := (@srv pmm_t).
#[local] Instance boot_mapper : PageMapper vm := Vmm_PageMapper hhdm_offset hhdm_nonneg.

Record machine : Type := mk_machine { mc_srv : srv; mc_gdt : gdt_t; mc_idt : idt_t; kernel_cr3 : Z }.

Definition on_srv {A} (m : M srv A) : M machine A :=
  zoom mc_srv (fun x s => mk_machine x (mc_gdt s) (mc_idt s) (kernel_cr3 s)) m.
Definition on_uart {A} (m : M uart A) : M machine A := on_srv (on_sys (Syscalls.on_uart m)).
Definition on_con {A} (m : M con A) : M machine A := on_srv (on_sys (Syscalls.on_con m)).
Definition on_kernel {A} (m : M (kernel heap) A) : M machine A := on_srv (on_sys (Syscalls.on_kernel m)).
Definition on_vm {A} (m : M vm A) : M machine A := on_kernel (on_sched (on_heap (zoom h_vm set_h_vm m))).
(** Writes to device registers. *)
Definition devices (w : list hw_write) : M machine unit :=
  mset (fun s => mk_machine (mc_srv s) (mc_gdt s) (hw w (mc_idt s)) (kernel_cr3 s)).
Definition log (t : list Z) : M machine unit := on_uart (Serial.serial_write lsr scratch polls t).
Definition logf (fmt : list Z) (args : list arg) : M machine unit := on_uart (serial_printf lsr scratch junk polls fmt args).

(** Lines 120-126. *)
Definition show_framebuffer : M machine unit :=
  match fb with
  | Some f =>
      on_con (console_init f) ;;;
      on_con (console_write (chars "Orchid Microkernel v0.4.0" ++ 10 :: line "========================")) ;;;
      on_con (console_printf junk (line "Framebuffer: %dx%d, BPP: %d") [AInt (lf_width f); AInt (lf_height f); AInt bpp])
  | None => log (line "[boot] No framebuffer available")
  end.

(** Lines 130-135. *)
Definition total_usable (entries : list memmap_entry) : Z :=
  fold_left (fun total e => if me_type e =? LIMINE_MEMMAP_USABLE then u64 (total + me_length e) else total) entries 0.
Definition show_memory : M machine unit :=
  match mm_resp with
  | Some entries =>
      logf (line "[boot] Memory map entries: %d") [AInt (Z.of_nat (List.length entries))] ;;;
      logf (line "[boot] Total usable RAM: %d MB") [AInt (total_usable entries / (1024 * 1024))]
  | None => mret tt
  end.

Definition start_tss : M machine unit :=
  zoom (fun s => let sc := k_sched (y_kernel (v_sys (mc_srv s))) in mk_tss_env (s_heap sc) (mc_gdt s) (s_tss sc))
    (fun e s =>
       let sv := mc_srv s in let y := v_sys sv in let k := y_kernel y in let sc := k_sched k in
       let sc' := mk_sched (te_heap e) (s_threads sc) (s_stack sc) (current_thread sc) (ready_queue sc) (idle_thread_ptr sc)
                    (thread_count sc) (sched_lock sc) (te_tss e) (current_process sc) (s_cr3 sc) in
       mk_machine (mk_srv (mk_sys (set_sched sc' k) (y_proc y) (y_uart y) (y_con y) (syscall_retval y))
                     (v_bus sv) (serial_lock sv) (vfs_port sv) (kbd_port sv)) (te_gdt e) (mc_idt s) (kernel_cr3 s))
    tss_init.

Definition create_thread (entry : Z) (failed : list Z) : M machine unit :=
  t <- on_kernel (on_sched (thread_create junk entry cr3 0)) ;;
  if t =? 0 then log failed else mret tt.

(** The statements of [_start], in order. *)
Definition start_steps : list (M machine unit) :=
  [ on_uart (serial_init lsr scratch);
    log (10 :: line "========================================");
    log (line "Orchid Microkernel v0.4.0 (shell-ready)");
    log (chars "========================================" ++ [10; 10; 0]);
    show_framebuffer;
    show_memory;
    (_ <- on_vm (zoom vm_pmm set_vm_pmm (pmm_init mm_resp)) ;; mret tt);
    on_vm (vmm_init cr3);
    mset (fun s => mk_machine (mc_srv s) (mc_gdt s) (mc_idt s) cr3);
    logf (line "[boot] HHDM offset: %x") [AInt hhdm_offset];
    mset (fun s => mk_machine (mc_srv s) (gdt_init gdt_addr) (mc_idt s) (kernel_cr3 s));
    mset (fun s => mk_machine (mc_srv s) (mc_gdt s) (idt_init idt_addr isr_stub_table efer syscall_entry (mc_idt s)) (kernel_cr3 s));
    devices pit_init;
    on_kernel (on_sched (scheduler_init junk idle_thread cr3));
    start_tss;
    on_kernel (on_irq irq_init);
    on_kernel (on_kbd kbd_buf_init);
    mret tt;                                             (* proc_init *)
    devices [Outb 0x21 0xFC; Outb 0xA1 0xFF];
    create_thread echo_service_at (line "[boot] Failed to create echo_svc");
    create_thread thread_a_at (line "[boot] Failed to create thread_a");
    create_thread thread_b_at (line "[boot] Failed to create thread_b");
    create_thread echo_client_at (line "[boot] Failed to create echo_cli") ].

Fixpoint run_steps (steps : list (M machine unit)) : M machine unit :=
  match steps with
  | [] => mret tt
  | f :: steps' => f ;;; run_steps steps'
  end.

Definition _start : M machine unit := run_steps start_steps.

(** Lines 180-187, which stand after the [#if 0]: what they do when they are
    let in.  [userspace_entry] and the image are places the linker fixes; the
    two lines that follow enable interrupts and halt. *)
Definition load_init (userspace_entry init_start init_end : Z) : M machine unit :=
  k3 <- mget kernel_cr3 ;;
  let init_size := u64 (init_end - init_start) in
  init_pid <- on_srv (on_sys (on_proc (elf_load hhdm_offset hhdm_nonneg junk userspace_entry k3 init_start init_size))) ;;
  (if init_pid <? 0 then log (line "[boot] Failed to load init!")
   else logf (line "[boot] Init loaded, PID %d") [AInt init_pid]) ;;;
  log (line "[boot] Preemptive scheduler started.").

End Boot.

(** ** [_start] on the answers of the boot loader

    [info] is the memory the loader leaves, with the three request objects at
    [fb_req], [mm_req] and [hh_req]; lines 103-113 take the arguments of the
    rest out of it. *)
Section Start.
Context (info : mem) (fb_req mm_req hh_req : Z).

Lemma boot_hhdm_nonneg : 0 <= boot_hhdm info hh_req.
Proof. unfold boot_hhdm. destruct (negb _); [|done]. apply (rdn_range 8). Qed.

Definition kernel_start (junk : Z) (lsr : list (Z * Z) -> nat -> Z) (scratch : list (Z * Z) -> Z) (polls : nat) (cr3 : Z)
    (gdt_addr idt_addr : Z) (isr_stub_table : Z -> Z) (efer syscall_entry : Z)
    (idle_thread echo_service_at thread_a_at thread_b_at echo_client_at : Z) : M machine unit :=
  _start (boot_hhdm info hh_req) boot_hhdm_nonneg junk lsr scratch polls
    (boot_framebuffer info fb_req) (read_bpp info (boot_fb info fb_req)) (boot_memmap info mm_req) cr3
    gdt_addr idt_addr isr_stub_table efer syscall_entry idle_thread echo_service_at thread_a_at thread_b_at echo_client_at.
End Start.
