(* ===== verification/BootFacts.v ===== *)
(** * Facts about booting: [_start] establishes the invariants of the
    components. *)

From stdpp Require Import base gmap list fin_maps.
From Stdlib Require Import ZArith Lia String.
From S2P Require Import Prelude Mem Pmm Vmm PageTables Heap HeapFacts KernelMem Chain Descriptors Sched SchedFacts SchedRun.
From S2P Require Import Timer TimerFacts Ipc IpcFacts KbdBuf Bus Printf Serial Console ConsoleFacts Limine Irq Fork UserCopy Spaces Proc ProcFacts HeapStep Syscalls SyscallFacts Services ServiceFacts Boot.

#[local] Opaque rd64 wr64 serial_putc console_putc pmm_init thread_create scheduler_init idt_init gdt_init.

Section BootFacts.
Context (hhdm_offset : Z) (hhdm_nonneg : 0 <= hhdm_offset).
Context (junk : Z).
Context (lsr : list (Z * Z) -> nat -> Z) (scratch : list (Z * Z) -> Z) (polls : nat).
Context (fb : option Console.limine_framebuffer) (bpp : Z) (entries : list memmap_entry) (cr3 : Z).
Context (gdt_addr idt_addr : Z) (isr_stub_table : Z -> Z) (efer syscall_entry : Z).
Context (idle_thread echo_service_at thread_a_at thread_b_at echo_client_at : Z).
#[local] Abbreviation vm := (@vm_t pmm_t).
#[local] Abbreviation heap := (@heap_t vm).
#[local] Abbreviation sched := (@sched_t heap).
#[local] Instance boot_facts_mapper : PageMapper vm := Vmm_PageMapper hhdm_offset hhdm_nonneg.
#[local] Abbreviation steps := (start_steps hhdm_offset hhdm_nonneg junk lsr scratch polls fb bpp (Some entries) cr3
  gdt_addr idt_addr isr_stub_table efer syscall_entry idle_thread echo_service_at thread_a_at thread_b_at echo_client_at).

(** The machine by the parts the boot sequence changes. *)
Definition mach (sc : sched) (g : gdt_t) (i : idt_t) (k3 : Z) (u : uart) (c : con) : machine :=
  mk_machine (mk_srv (mk_sys (mk_kernel sc timer_boot (ipc_boot ∅) kbd_boot irq_boot []) (mk_procs ∅ 0 1 0 0) u c 0) bus_boot 0 (-1) (-1)) g i k3.
Definition vm0 (m : mem) : vm := mk_vm pmm_boot m 0 0.
Definition gdt_zero : gdt_t := mk_gdt (replicate 5 zero_gdt_entry) zero_tss_entry 0 0.
Definition power_on (m : mem) (u : uart) (c : con) : machine := mach (sched_boot (heap_boot (vm0 m)) cr3) gdt_zero idt_boot 0 u c.

Definition sched_of (mc : machine) : sched := k_sched (y_kernel (v_sys (mc_srv mc))).

(** The steps that allocate, each with its scarcity: [scheduler_init] and the
    four calls of [thread_create], and [tss_init]. *)
Definition thread_steps : list nat := [13; 19; 20; 21; 22]%nat.
Definition tss_step : nat := 14.
Definition memory_short (k : nat) (mc : machine) : Prop :=
  (k ∈ thread_steps /\ thread_scarce (s_heap (sched_of mc))) \/
  (k = tss_step /\ kh_scarce (s_heap (sched_of mc)) sizeof_tss64).

(** ** A sequence of steps *)

Lemma steps_rule (Inv : nat -> machine -> Prop) (l : list (M machine unit)) : forall i mc,
  Inv i mc ->
  (forall j f mc, l !! j = Some f -> Inv (i + j)%nat mc -> memory_short (i + j) mc \/ exists mc', f mc = Ret tt mc' /\ Inv (S (i + j)) mc') ->
  (exists mc', run_steps l mc = Ret tt mc' /\ Inv (i + List.length l)%nat mc') \/
  (exists n mc1, run_steps (take n l) mc = Ret tt mc1 /\ memory_short (i + n) mc1).
Proof.
  induction l as [|f l IH]; intros i mc H0 Hs.
  - left. exists mc. split; [done|]. by rewrite Nat.add_0_r.
  - destruct (Hs 0%nat f mc eq_refl) as [Hsh|(mc1 & E & H1)]; [by rewrite Nat.add_0_r|right; by exists 0%nat, mc|]. rewrite Nat.add_0_r in H1.
    destruct (IH (S i) mc1 H1) as [(mc' & E' & H')|(n & mc' & E' & Hsh)].
    + intros j g mc2 Hj H2. replace (S i + j)%nat with (i + S j)%nat in * by lia. by apply (Hs (S j)).
    + left. exists mc'. split; [cbn [run_steps]; by rewrite (mbind_Ret _ _ _ _ _ E)|]. cbn [List.length]. by replace (i + S (List.length l))%nat with (S i + List.length l)%nat by lia.
    + right. exists (S n), mc'. split; [cbn [take run_steps]; by rewrite (mbind_Ret _ _ _ _ _ E)|]. by replace (i + S n)%nat with (S i + n)%nat by lia.
Qed.

(** ** Printing *)

Context (n : nat) (Hready : ready_within lsr n) (Hpolls : (n <= polls)%nat).

Lemma log_ok t t' sc g i k3 u c : c_text t = Some t' -> exists u', log lsr scratch polls t (mach sc g i k3 u c) = Ret tt (mach sc g i k3 u' c).
Proof.
  intros Ht. destruct (serial_puts lsr scratch n Hready polls Hpolls t' u) as (u' & E & _). exists u'.
  unfold log, Boot.on_uart, on_srv, on_sys, Syscalls.on_uart, zoom. cbn [mach mc_srv v_sys y_uart].
  unfold Serial.serial_write. rewrite (write_puts (serial_putc lsr scratch polls) (fun _ => True) (serial_putc_any lsr scratch n Hready polls Hpolls) t t' u I Ht).
  by rewrite E.
Qed.

Lemma logf_ok fmt args t sc g i k3 u c : format serial_hex fmt args = Some t ->
  exists u', logf junk lsr scratch polls fmt args (mach sc g i k3 u c) = Ret tt (mach sc g i k3 u' c).
Proof.
  intros Ht. destruct (printf_puts (serial_putc lsr scratch polls) serial_hex junk eq_refl serial_hex_nz (fun _ => True)
    (serial_putc_any lsr scratch n Hready polls Hpolls) fmt args t u I Ht) as (u' & E & _). exists u'.
  unfold logf, Boot.on_uart, on_srv, on_sys, Syscalls.on_uart, zoom. cbn [mach mc_srv v_sys y_uart].
  unfold serial_printf. by rewrite E.
Qed.

(** A console that works. *)
Definition con_ok (c : con) : Prop := fb_ok c /\ exists t, renders c t.

Lemma con_putc_ok ch c : con_ok c -> exists c', console_putc ch c = Ret tt c' /\ con_ok c'.
Proof.
  intros [Hok [t Ht]]. destruct (console_putc_renders c t ch Hok Ht) as (c' & E & S & H'). exists c'. split; [done|].
  split; [by eapply same_screen_ok|by eexists].
Qed.

Lemma on_con_ok (f : M con unit) sc g i k3 u c c' : f c = Ret tt c' -> Boot.on_con f (mach sc g i k3 u c) = Ret tt (mach sc g i k3 u c').
Proof. intros E. unfold Boot.on_con, on_srv, on_sys, Syscalls.on_con, zoom. cbn [mach mc_srv v_sys y_con]. by rewrite E. Qed.

Lemma show_framebuffer_ok sc g i k3 u c : (forall f, fb = Some f -> framebuffer_ok f) ->
  exists u' c', show_framebuffer junk lsr scratch polls fb bpp (mach sc g i k3 u c) = Ret tt (mach sc g i k3 u' c').
Proof.
  intros Hf. unfold show_framebuffer. destruct fb as [f|].
  - destruct (console_init_renders f c (Hf f eq_refl)) as (c1 & E1 & Hok1 & Ht1). rewrite (mbind_Ret _ _ _ _ _ (on_con_ok _ sc g i k3 u _ _ E1)).
    assert (H1 : con_ok c1) by (split; [done|by eexists]). set (banner := (chars _ ++ _)).
    destruct (c_text banner) as [t|] eqn:Et; [|discriminate Et].
    destruct (puts_ok console_putc con_ok con_putc_ok t c1 H1) as (c2 & E2 & H2).
    assert (Ew : console_write banner c1 = Ret tt c2) by (unfold console_write; by rewrite (write_puts console_putc con_ok con_putc_ok banner t c1 H1 Et)).
    rewrite (mbind_Ret _ _ _ _ _ (on_con_ok _ sc g i k3 u _ _ Ew)). clear Ew Et.
    destruct (printf_puts console_putc console_hex junk eq_refl console_hex_nz con_ok con_putc_ok (line "Framebuffer: %dx%d, BPP: %d")
      [AInt (lf_width f); AInt (lf_height f); AInt bpp] _ c2 H2 eq_refl) as (c3 & E3 & _).
    exists u, c3. apply on_con_ok. exact E3.
  - destruct (log_ok (line "[boot] No framebuffer available") _ sc g i k3 u c eq_refl) as (u' & E). by exists u', c.
Qed.

Lemma show_memory_ok sc g i k3 u c :
  exists u', show_memory junk lsr scratch polls (Some entries) (mach sc g i k3 u c) = Ret tt (mach sc g i k3 u' c).
Proof.
  unfold show_memory. destruct (logf_ok (line "[boot] Memory map entries: %d") [AInt (Z.of_nat (List.length entries))] _ sc g i k3 u c eq_refl) as (u1 & E1).
  rewrite (mbind_Ret _ _ _ _ _ E1). exact (logf_ok (line "[boot] Total usable RAM: %d MB") [AInt (total_usable entries / (1024 * 1024))] _ sc g i k3 u1 c eq_refl).
Qed.

(** ** The heap over the memory map *)

Context (m : mem) (Hmap : memmap_ok entries).
Definition boot_frames : list Z := reverse (take (Z.to_nat MAX_FREE_LIST) (map_pages entries)).
Context (Hpt : pt_wf hhdm_offset heap_slot m cr3 boot_frames) (Henough : (64 <= List.length boot_frames)%nat).

Lemma boot_heap_view (p1 : pmm_t) : pmm_ok p1 -> free_pages p1 = boot_frames -> kh_view (heap_boot (mk_vm p1 m cr3 0)) [].
Proof.
  intros Hok Hp. split; [|done]. right. split; [|done].
  assert (Hlen : Z.of_nat (List.length boot_frames) <= 300000).
  { unfold boot_frames. rewrite length_reverse, length_take. unfold MAX_FREE_LIST. lia. }
  split; [|done|done|].
  - split; cbn.
    + split; [split; [exact Hok|]|done]. cbn. by rewrite Hp.
    + lia.
    + done.
    + rewrite Hp. unfold HEAP_LIMIT, HEAP_START_VIRT. lia.
    + intros a Ha. lia.
  - unfold frames. cbn. rewrite Hp. lia.
Qed.

(** ** The stages of the boot sequence *)

Definition idt1 : idt_t := idt_init idt_addr isr_stub_table efer syscall_entry idt_boot.
Definition idt2 : idt_t := hw pit_init idt1.
Definition idt3 : idt_t := hw [Outb 0x21 0xFC; Outb 0xA1 0xFF] idt2.

(** The boot processor is the idle thread and nobody is blocked. *)
Definition at_rest (sc : sched) : Prop := current_thread sc = idle_thread_ptr sc /\ forall t, ~ blocked sc t.

Definition stage (p1 : pmm_t) (i : nat) (mc : machine) : Prop :=
  if (i <? 14)%nat then
    exists u c, mc = mach
      (sched_boot (heap_boot (if (i <? 7)%nat then vm0 m else mk_vm p1 m (if (i <? 8)%nat then 0 else cr3) 0)) cr3)
      (if (i <? 11)%nat then gdt_zero else gdt_init gdt_addr)
      (if (i <? 12)%nat then idt_boot else if (i <? 13)%nat then idt1 else idt2)
      (if (i <? 9)%nat then 0 else cr3) u c
  else
    exists u c g sc q ls, mc = mach sc g (if (i <? 19)%nat then idt2 else idt3) cr3 u c /\
      sched_inv sc q /\ heap_ok sc ls /\ at_rest sc /\ List.length q = (i - 19)%nat /\
      heap_step hhdm_offset (mk_vm p1 m cr3 0) (vm_of sc).

Lemma on_kernel_ok {A} (f : M (kernel heap) A) sc g i k3 u c (a : A) sc' :
  f (mk_kernel sc timer_boot (ipc_boot ∅) kbd_boot irq_boot []) = Ret a (mk_kernel sc' timer_boot (ipc_boot ∅) kbd_boot irq_boot []) ->
  Boot.on_kernel f (mach sc g i k3 u c) = Ret a (mach sc' g i k3 u c).
Proof. intros E. unfold Boot.on_kernel, on_srv, on_sys, Syscalls.on_kernel, zoom. cbn [mach mc_srv v_sys y_kernel]. by rewrite E. Qed.

Lemma on_sched_ok {A} (f : M sched A) sc g i k3 u c (a : A) sc' :
  f sc = Ret a sc' -> Boot.on_kernel (on_sched f) (mach sc g i k3 u c) = Ret a (mach sc' g i k3 u c).
Proof. intros E. apply on_kernel_ok. unfold on_sched, zoom. cbn [k_sched]. by rewrite E. Qed.

Lemma create_thread_ok entry failed sc g i k3 u c q ls :
  sched_inv sc q -> heap_ok sc ls -> at_rest sc ->
  thread_scarce (s_heap sc) \/
  exists sc' t ls', create_thread hhdm_offset hhdm_nonneg junk lsr scratch polls cr3 entry failed (mach sc g i k3 u c) = Ret tt (mach sc' g i k3 u c) /\
    sched_inv sc' (t :: q) /\ heap_ok sc' ls' /\ at_rest sc' /\ heap_step hhdm_offset (vm_of sc) (vm_of sc').
Proof.
  intros I Hok Hc. destruct (thread_create_gen junk sc q ls entry cr3 0 I Hok) as
    [(t & k & z & sc' & ls' & E & H0 & Hd & _ & _ & _ & Hcr & I' & Hok')|(Hsc & _)]; [right|by left].
  exists sc', t, ls'. split; [|split; [exact I'|split; [exact Hok'|split; [split; [rewrite Hcr; apply Hc|]|]]]].
  2:{ intros v. rewrite (created_blocked _ _ _ _ _ _ Hcr Hd eq_refl). apply Hc. }
  2:{ exact (create_step hhdm_offset hhdm_nonneg junk entry cr3 0 sc ls t sc' (proj1 Hok) E). }
  unfold create_thread. refine (eq_trans (mbind_Ret _ _ _ _ _ (on_sched_ok _ sc g i k3 u c _ _ E)) _). by rewrite (proj2 (Z.eqb_neq _ _) H0).
Qed.

Lemma start_tss_ok sc g i k3 u c q ls :
  sched_inv sc q -> heap_ok sc ls -> at_rest sc ->
  kh_scarce (s_heap sc) sizeof_tss64 \/
  exists sc' g' ls', start_tss hhdm_offset hhdm_nonneg (mach sc g i k3 u c) = Ret tt (mach sc' g' i k3 u c) /\
    sched_inv sc' q /\ heap_ok sc' ls' /\ at_rest sc' /\ heap_step hhdm_offset (vm_of sc) (vm_of sc').
Proof.
  intros I [Hv Hd] Hc. destruct (kh_malloc_spec sizeof_tss64 (s_heap sc) ls) as
    [(p & sz & h' & E & H0 & _ & _ & Hv')|(Hsc & _)]; [unfold sizeof_tss64, two32; lia|exact Hv|right|by left].
  assert (G : heap_step hhdm_offset (vm_of sc) (h_vm h')) by (intros _; exact (malloc_step_top hhdm_offset hhdm_nonneg _ _ _ _ _ Hv E)).
  destruct sc as [h th st cu rq id ct lk ts cp cr]. cbn [s_heap s_threads current_thread idle_thread_ptr] in *.
  change (@kh_malloc _ (@Heap_KHeap _ (boot_mapper hhdm_offset hhdm_nonneg)) sizeof_tss64 h = Ret p h') in E.
  exists (mk_sched h' th st cu rq id ct lk (mk_tss p 0 0) cp cr), (gdt_set_tss p g), ((p, sz) :: ls). split.
  - unfold start_tss, zoom. cbn [mach mc_srv v_sys y_kernel k_sched s_heap s_tss mc_gdt]. unfold tss_init, mbind at 1, zoom. cbn [te_heap]. rewrite E. cbn [zoomr bindr].
    rewrite (proj2 (Z.eqb_neq _ _) H0). reflexivity.
  - split; [by destruct I; split|]. split; [split; [exact Hv'|intros t Ht; right; by apply Hd]|split; [exact Hc|exact G]].
Qed.

Lemma serial_init_ok sc g i k3 u c : exists u', Boot.on_uart (serial_init lsr scratch) (mach sc g i k3 u c) = Ret tt (mach sc g i k3 u' c).
Proof.
  assert (E : exists u', serial_init lsr scratch u = Ret tt u').
  { unfold serial_init. do 9 (erewrite mbind_Ret; [|reflexivity]). cbv beta. case_match; by eexists. }
  destruct E as (u' & E). exists u'. unfold Boot.on_uart, on_srv, on_sys, Syscalls.on_uart, zoom. cbn [mach mc_srv v_sys y_uart]. by rewrite E.
Qed.

(** The step leads to the stage with another log. *)
#[local] Opaque show_memory show_framebuffer log logf.
Ltac stage_by u' c' := cbn [Nat.ltb Nat.leb]; eexists; split; [|exists u', c'; reflexivity].

Lemma early_step (p1 : pmm_t) tot j f mc : (forall f, fb = Some f -> framebuffer_ok f) ->
  pmm_init (Some entries) pmm_boot = Ret tot p1 -> (j < 13)%nat -> steps !! j = Some f -> stage p1 j mc ->
  exists mc', f mc = Ret tt mc' /\ stage p1 (S j) mc'.
Proof.
  intros Hfb Ep Hj Hf Hs. unfold stage in Hs. rewrite (proj2 (Nat.ltb_lt j 14)) in Hs by lia. destruct Hs as (u & c & ->).
  destruct j as [|j]; [injection Hf as <-; destruct (serial_init_ok (sched_boot (heap_boot (vm0 m)) cr3) gdt_zero idt_boot 0 u c) as (u' & E); stage_by u' c; exact E|].
  do 3 (destruct j as [|j];
    [injection Hf as <-; match goal with |- context [log _ _ _ ?t] =>
       destruct (log_ok t _ (sched_boot (heap_boot (vm0 m)) cr3) gdt_zero idt_boot 0 u c eq_refl) as (u' & E) end; stage_by u' c; exact E|]).
  destruct j as [|j]; [injection Hf as <-; destruct (show_framebuffer_ok (sched_boot (heap_boot (vm0 m)) cr3) gdt_zero idt_boot 0 u c Hfb) as (u' & c' & E); stage_by u' c'; exact E|].
  destruct j as [|j]; [injection Hf as <-; destruct (show_memory_ok (sched_boot (heap_boot (vm0 m)) cr3) gdt_zero idt_boot 0 u c) as (u' & E); stage_by u' c; exact E|].
  destruct j as [|j].
  { injection Hf as <-. stage_by u c. unfold Boot.on_vm. refine (mbind_Ret _ _ _ _ _ (on_sched_ok _ _ _ _ _ _ _ tot _ _)).
    unfold on_heap, zoom. cbn [s_heap h_vm sched_boot heap_boot vm_pmm vm0 Nat.ltb Nat.leb]. rewrite Ep. reflexivity. }
  destruct j as [|j]; [injection Hf as <-; stage_by u c; reflexivity|].
  destruct j as [|j]; [injection Hf as <-; stage_by u c; reflexivity|].
  destruct j as [|j]; [injection Hf as <-; destruct (logf_ok (line "[boot] HHDM offset: %x") [AInt hhdm_offset] _
    (sched_boot (heap_boot (mk_vm p1 m cr3 0)) cr3) gdt_zero idt_boot cr3 u c eq_refl) as (u' & E); stage_by u' c; exact E|].
  do 3 (destruct j as [|j]; [injection Hf as <-; stage_by u c; reflexivity|]). lia.
Qed.

Lemma irq_init_boot : irq_init irq_boot = Ret tt irq_boot.
Proof. vm_compute. reflexivity. Qed.

Ltac late := unfold stage; cbn [Nat.ltb Nat.leb Nat.sub].

Lemma late_step (p1 : pmm_t) j f mc : pmm_ok p1 -> free_pages p1 = boot_frames ->
  (13 <= j < 23)%nat -> steps !! j = Some f -> stage p1 j mc -> memory_short j mc \/ exists mc', f mc = Ret tt mc' /\ stage p1 (S j) mc'.
Proof.
  intros Hok Hp Hj Hf Hs. do 13 (destruct j as [|j]; [lia|]). destruct j as [|j].
  { injection Hf as <-. destruct Hs as (u & c & ->). cbn [Nat.ltb Nat.leb].
    destruct (scheduler_init_gen junk (heap_boot (mk_vm p1 m cr3 0)) cr3 idle_thread cr3 [] (boot_heap_view p1 Hok Hp)) as
      [(sc & ls & E & I & Hh & Hc)|(Hsc & _)]; [right|left; left; split; [left|exact Hsc]].
    exists (mach sc (gdt_init gdt_addr) idt2 cr3 u c). split; [exact (on_sched_ok _ _ _ _ _ _ _ _ _ E)|]. late. exists u, c, (gdt_init gdt_addr), sc, [], ls. split_and!; try done.
    exact (init_step hhdm_offset hhdm_nonneg junk idle_thread cr3 (sched_boot (heap_boot (mk_vm p1 m cr3 0)) cr3) [] sc (boot_heap_view p1 Hok Hp) E). }
  unfold stage in Hs. replace (_ <? 14)%nat with false in Hs by (symmetry; apply Nat.ltb_ge; lia). destruct Hs as (u & c & g & sc & q & ls & -> & I & Hh & Hc & Hq & Hg).
  pose proof (heap_step_preorder hhdm_offset).
  destruct j as [|j].
  { injection Hf as <-. destruct (start_tss_ok sc g idt2 cr3 u c q ls I Hh Hc) as [Hsh|(sc' & g' & ls' & E & I' & Hh' & Hc' & Hg')]; [left; right; by split|right].
    exists (mach sc' g' idt2 cr3 u c). split; [exact E|]. late. exists u, c, g', sc', q, ls'. split_and!; try done. by etransitivity. }
  destruct j as [|j].
  { injection Hf as <-. right. exists (mach sc g idt2 cr3 u c). split; [|late; exists u, c, g, sc, q, ls; by split_and!].
    apply on_kernel_ok. unfold on_irq, zoom. cbn [k_irq]. by rewrite irq_init_boot. }
  destruct j as [|j]; [injection Hf as <-; right; exists (mach sc g idt2 cr3 u c); split; [reflexivity|late; exists u, c, g, sc, q, ls; by split_and!]|].
  destruct j as [|j]; [injection Hf as <-; right; exists (mach sc g idt2 cr3 u c); split; [reflexivity|late; exists u, c, g, sc, q, ls; by split_and!]|].
  destruct j as [|j]; [injection Hf as <-; right; exists (mach sc g idt3 cr3 u c); split; [reflexivity|late; exists u, c, g, sc, q, ls; by split_and!]|].
  do 4 (destruct j as [|j];
    [injection Hf as <-; cbn [Nat.ltb Nat.leb Nat.sub] in *;
     match goal with |- context [create_thread _ _ _ _ _ _ _ ?e ?t] =>
       destruct (create_thread_ok e t sc g idt3 cr3 u c q ls I Hh Hc) as [Hsh|(sc' & t' & ls' & E & I' & Hh' & Hc' & Hg')] end; [left; left; split; [repeat (first [left; reflexivity|right])|exact Hsh]|right];
     exists (mach sc' g idt3 cr3 u c); split; [exact E|late; exists u, c, g, sc', (t' :: q), ls'; split_and!; try done; [cbn [List.length]; lia|by etransitivity]]|]). lia.
Qed.

(** What the rest of the kernel relies on: four threads ready behind the idle
    thread, no sleeper, no waiting sender or receiver, an empty keyboard
    buffer, no interrupt forwarded, the service registry empty, and the
    interrupt controllers programmed with only the timer and the keyboard
    let through. *)
Definition booted (mc : machine) : Prop :=
  let k := y_kernel (v_sys (mc_srv mc)) in
  exists q ls, List.length q = 4%nat /\ sched_inv (k_sched k) q /\ heap_ok (k_sched k) ls /\
    at_rest (k_sched k) /\ ip_msgs (k_ipc k) = ∅ /\ irq_table (k_irq k) = replicate 16 (mk_slot 0 0) /\
    timer_inv (k_sched k, k_timer k) q [] /\ asleep (k_sched k, k_timer k) [] /\ ipc_inv (k_sched k, k_ipc k) q no_waits /\
    kbd_rep (k_kbd k) [] /\ irq_inv (k_irq k) /\ bus_rep (v_bus (mc_srv mc)) [] /\ serial_lock (mc_srv mc) = 0 /\
    kernel_cr3 mc = cr3 /\ exists pre, idt_trace (mc_idt mc) = pre ++ pit_init ++ [Outb 0x21 0xFC; Outb 0xA1 0xFF].

(** The memory under the heap: it grew from the page tables and the frames
    the boot loader left; and there is no process yet. *)
Definition boot_memory (mc : machine) : Prop :=
  y_proc (v_sys (mc_srv mc)) = proc_boot /\
  exists p1, pmm_ok p1 /\ free_pages p1 = boot_frames /\ heap_step hhdm_offset (mk_vm p1 m cr3 0) (vm_of (sched_of mc)).

(** With a memory map, page tables and a framebuffer as the boot loader
    describes them, and a serial line that becomes ready, [_start] runs
    through; unless one of its steps is reached with too little memory left
    for its allocation. *)
Lemma boot_correct_gen (u : uart) (c : con) : (forall f, fb = Some f -> framebuffer_ok f) ->
  (exists mc', _start hhdm_offset hhdm_nonneg junk lsr scratch polls fb bpp (Some entries) cr3
      gdt_addr idt_addr isr_stub_table efer syscall_entry idle_thread echo_service_at thread_a_at thread_b_at echo_client_at (power_on m u c) = Ret tt mc' /\
     booted mc' /\ boot_memory mc') \/
  (exists k mc1, run_steps (take k steps) (power_on m u c) = Ret tt mc1 /\ memory_short k mc1).
Proof.
  intros Hfb. destruct (pmm_init_pages entries Hmap) as (tot & p1 & Ep & Hok & Hp).
  destruct (steps_rule (stage p1) steps 0 (power_on m u c)) as [(mc' & E & Hs)|Hsh]; [by exists u, c| |left|by right].
  { intros j f mc Hf Hs. pose proof (lookup_lt_Some _ _ _ Hf) as Hj. cbn in Hj. change (0 + j)%nat with j in *. destruct (decide (j < 13)%nat).
    - right. by apply (early_step p1 tot).
    - apply (late_step p1); try done. lia. }
  exists mc'. split; [exact E|]. clear E. destruct Hs as (u' & c' & g & sc & q & ls & -> & I & Hh & Hc & Hq & Hg).
  split; [|split; [done|by exists p1]]. exists q, ls. cbn [mach mc_srv v_sys y_kernel k_sched k_timer k_ipc k_kbd k_irq v_bus serial_lock kernel_cr3 mc_idt].
  split; [exact Hq|]. split; [exact I|]. split; [exact Hh|]. split; [exact Hc|]. split; [done|]. split; [done|]. split; [exact (timer_inv_boot sc q ls I Hh)|]. split; [apply asleep_nil|].
  split; [apply (ipc_boot_inv sc q ls ∅ I Hh); intros a x Hx; by rewrite lookup_empty in Hx|]. split; [exact kbd_boot_rep|]. split; [exact irq_boot_inv|].
  split; [exact bus_boot_rep|]. split; [done|]. split; [done|]. exists (idt_trace idt1). unfold idt3, idt2, hw. cbn [idt_trace]. by rewrite <- app_assoc.
Qed.
End BootFacts.

(** The allocating steps of [kernel_start], each reached with too little
    memory for it. *)
Definition boot_short (info : mem) (fb_req mm_req hh_req junk : Z) (lsr : list (Z * Z) -> nat -> Z) (scratch : list (Z * Z) -> Z) (polls : nat)
    (cr3 gdt_addr idt_addr : Z) (isr_stub_table : Z -> Z) (efer syscall_entry idle_thread echo_service_at thread_a_at thread_b_at echo_client_at : Z)
    (mc0 : machine) : Prop :=
  exists k mc1, run_steps (take k (start_steps (boot_hhdm info hh_req) (boot_hhdm_nonneg info hh_req) junk lsr scratch polls
      (boot_framebuffer info fb_req) (read_bpp info (boot_fb info fb_req)) (boot_memmap info mm_req) cr3
      gdt_addr idt_addr isr_stub_table efer syscall_entry idle_thread echo_service_at thread_a_at thread_b_at echo_client_at)) mc0 = Ret tt mc1 /\
    memory_short (boot_hhdm info hh_req) (boot_hhdm_nonneg info hh_req) k mc1.

(** [kernel_start], with the memory it leaves. *)
Lemma kernel_start_gen (info : mem) (fb_req mm_req hh_req : Z) fbs es offset (junk : Z)
    (lsr : list (Z * Z) -> nat -> Z) (scratch : list (Z * Z) -> Z) (polls n : nat)
    (cr3 gdt_addr idt_addr : Z) (isr_stub_table : Z -> Z) (efer syscall_entry idle_thread echo_service_at thread_a_at thread_b_at echo_client_at : Z)
    (m : mem) (u : uart) (c : con) :
  fb_answered info fb_req fbs -> mm_answered info mm_req (Some es) -> hhdm_answered info hh_req (Some offset) ->
  ready_within lsr n -> (n <= polls)%nat ->
  memmap_ok es.*2 -> pt_wf offset heap_slot m cr3 (boot_frames es.*2) -> (64 <= List.length (boot_frames es.*2))%nat ->
  (forall f rest, fbs = Some (f :: rest) -> framebuffer_ok (fa_fb f)) ->
  (exists mc', kernel_start info fb_req mm_req hh_req junk lsr scratch polls cr3 gdt_addr idt_addr isr_stub_table efer syscall_entry
       idle_thread echo_service_at thread_a_at thread_b_at echo_client_at (power_on cr3 m u c) = Ret tt mc' /\
     booted (boot_hhdm info hh_req) (boot_hhdm_nonneg info hh_req) cr3 mc' /\ boot_memory (boot_hhdm info hh_req) es.*2 cr3 m mc') \/
  boot_short info fb_req mm_req hh_req junk lsr scratch polls cr3 gdt_addr idt_addr isr_stub_table efer syscall_entry
    idle_thread echo_service_at thread_a_at thread_b_at echo_client_at (power_on cr3 m u c).
Proof.
  intros Hf Hm Hh Hrd Hp Hmap Hpt Hn Hfb. apply boot_hhdm_answered in Hh. simpl in Hh. subst offset.
  unfold kernel_start, boot_short. rewrite (boot_memmap_answered _ _ _ Hm). simpl.
  destruct (boot_correct_gen (boot_hhdm info hh_req) (boot_hhdm_nonneg info hh_req) junk lsr scratch polls (boot_framebuffer info fb_req)
    (read_bpp info (boot_fb info fb_req)) es.*2 cr3 gdt_addr idt_addr isr_stub_table efer syscall_entry idle_thread echo_service_at thread_a_at thread_b_at echo_client_at
    n Hrd Hp m Hmap Hpt Hn u c) as [Hok|Hsh]; [|left; exact Hok|by right]. intros f E. rewrite (proj1 (boot_framebuffer_answered _ _ _ Hf)) in E.
  destruct fbs as [[|f0 fbs]|]; simplify_eq. by eapply Hfb.
Qed.

(** C10: booting.  From the answers the boot loader puts in memory (a memory
    map whose regions are sound and apart, page tables over its frames, a
    framebuffer or none, the offset of the direct map), and with a serial line
    that becomes ready, [_start] runs through and leaves a machine that
    satisfies the invariants of all components, with its four threads ready;
    unless one of its steps is reached with too little memory left for its
    allocation. *)
Theorem boot_correct (info : mem) (fb_req mm_req hh_req : Z) fbs es offset (junk : Z)
    (lsr : list (Z * Z) -> nat -> Z) (scratch : list (Z * Z) -> Z) (polls n : nat)
    (cr3 gdt_addr idt_addr : Z) (isr_stub_table : Z -> Z) (efer syscall_entry idle_thread echo_service_at thread_a_at thread_b_at echo_client_at : Z)
    (m : mem) (u : uart) (c : con) :
  fb_answered info fb_req fbs -> mm_answered info mm_req (Some es) -> hhdm_answered info hh_req (Some offset) ->
  ready_within lsr n -> (n <= polls)%nat ->
  memmap_ok es.*2 -> pt_wf offset heap_slot m cr3 (boot_frames es.*2) -> (64 <= List.length (boot_frames es.*2))%nat ->
  (forall f rest, fbs = Some (f :: rest) -> framebuffer_ok (fa_fb f)) ->
  (exists mc', kernel_start info fb_req mm_req hh_req junk lsr scratch polls cr3 gdt_addr idt_addr isr_stub_table efer syscall_entry
       idle_thread echo_service_at thread_a_at thread_b_at echo_client_at (power_on cr3 m u c) = Ret tt mc' /\
     booted (boot_hhdm info hh_req) (boot_hhdm_nonneg info hh_req) cr3 mc') \/
  boot_short info fb_req mm_req hh_req junk lsr scratch polls cr3 gdt_addr idt_addr isr_stub_table efer syscall_entry
    idle_thread echo_service_at thread_a_at thread_b_at echo_client_at (power_on cr3 m u c).
Proof.
  intros Hf Hm Hh Hrd Hp Hmap Hpt Hn Hfb.
  destruct (kernel_start_gen info fb_req mm_req hh_req fbs es offset junk lsr scratch polls n cr3 gdt_addr idt_addr isr_stub_table efer syscall_entry
    idle_thread echo_service_at thread_a_at thread_b_at echo_client_at m u c Hf Hm Hh Hrd Hp Hmap Hpt Hn Hfb) as [(mc' & E & Hb & _)|Hsh]; [left; by exists mc'|by right].
Qed.

(** ** Witness: one usable region of two hundred frames, and the direct map in
    the boot loader's page tables *)

Definition boot_map : list memmap_entry := [mk_entry 0x10000 0xC8000 LIMINE_MEMMAP_USABLE].

Lemma boot_map_ok : memmap_ok boot_map.
Proof.
  unfold boot_map. cbn [memmap_ok]. split_and!; [|apply Forall_nil_2|exact I]. unfold region_ok. simpl. unfold two64, PAGE_SIZE. lia.
Qed.

Definition page_list : list Z := (fun i => 0x10000 + 4096 * i) <$> seqZ 0 200.

Lemma boot_map_pages : boot_frames boot_map = reverse page_list.
Proof. vm_compute. reflexivity. Qed.

Lemma boot_map_tables : pt_wf demo_hhdm heap_slot loader_mem 20480 (boot_frames boot_map).
Proof.
  rewrite boot_map_pages.
  assert (Hin : forall p, p ∈ reverse page_list -> frame demo_hhdm p /\ p <> 0 /\ p <> 20480).
  { intros p Hp. rewrite reverse_Permutation in Hp. apply list_elem_of_fmap in Hp as (i & -> & Hi%elem_of_seqZ).
    split; [apply frame_small; [lia|]|lia]. rewrite Z.mul_comm, Z_mod_plus_full. done. }
  apply pt_wf_fresh.
  - by apply frame_small.
  - intros Hp. by destruct (Hin _ Hp) as (_ & _ & []).
  - apply Forall_forall. intros p Hp. destruct (Hin p Hp) as (? & ? & _). by split.
  - rewrite reverse_Permutation. apply NoDup_fmap_2; [|apply NoDup_seqZ]. intros i j. lia.
  - intros i Hi Hs. replace (rd64 loader_mem (slot demo_hhdm 20480 i)) with 0; [done|]. symmetry.
    apply loader_mem_zero; [by apply frame_small|done|apply (bool_decide_unpack _); vm_compute; exact Logic.I|]. right. unfold heap_slot in Hs. lia.
Qed.

(** The loader's answers: no framebuffer, the region above, the offset. *)
Definition demo_info : mem :=
  put_struct 0x1000 limine_framebuffer_request framebuffer_request
  (put_struct 0x1100 limine_memmap_request (LIMINE_MEMMAP_REQUEST ++ [2; 0x2100])
  (put_struct 0x1200 limine_hhdm_request (LIMINE_HHDM_REQUEST ++ [1; 0x2200])
  (put_struct 0x2100 limine_memmap_response [0; 1; 0x3100]
  (put_struct 0x2200 limine_hhdm_response [0; demo_hhdm]
  (put_struct 0x3100 (CArr 1 LIMINE_PTR) [0x5000]
  (put_struct 0x5000 limine_memmap_entry [0x10000; 0xC8000; 0] ∅)))))).

Lemma demo_info_fb : fb_answered demo_info 0x1000 None.
Proof. apply placedb_sound. vm_compute. reflexivity. Qed.
Lemma demo_info_mm : mm_answered demo_info 0x1100 (Some [(0x5000, mk_entry 0x10000 0xC8000 LIMINE_MEMMAP_USABLE)]).
Proof.
  exists 0x2100, 0, 0x3100. split; [done|]. split; [apply placedb_sound; vm_compute; reflexivity|].
  split; [apply placedb_sound; vm_compute; reflexivity|]. split.
  - intros [|i] p Hp; [|by destruct i]. injection Hp as <-. vm_compute. reflexivity.
  - apply Forall_cons_2; [|apply Forall_nil_2]. apply placedb_sound. vm_compute. reflexivity.
Qed.
Lemma demo_info_hhdm : hhdm_answered demo_info 0x1200 (Some demo_hhdm).
Proof. exists 0x2200, 0. split; [done|]. split; apply placedb_sound; vm_compute; reflexivity. Qed.

#[local] Abbreviation off := (boot_hhdm demo_info 0x1200).
#[local] Abbreviation off_nonneg := (boot_hhdm_nonneg demo_info 0x1200).

Definition demo_steps : list (M machine unit) := start_steps off off_nonneg 7 demo_lsr (fun _ => 0xAE) 3
  (boot_framebuffer demo_info 0x1000) (read_bpp demo_info (boot_fb demo_info 0x1000)) (boot_memmap demo_info 0x1100) 20480
  0x200000 0x201000 (fun i => 0x202000 + 16 * i) 0 0x203000 0x204000 0x205000 0x206000 0x207000 0x208000.
Definition demo_power_on : machine := power_on 20480 loader_mem (mkUart [] 0) demo_con.

(** Room for every allocation of the boot sequence. *)
Definition roomy (h : @heap_t (@vm_t pmm_t)) : bool :=
  (70000 <=? heap_room h) &&
  match kmalloc sizeof_thread h with Ret _ h' => 70000 <=? heap_room h' | _ => true end.

Lemma roomy_not_short k mc : roomy (s_heap (sched_of mc)) = true -> ~ memory_short off off_nonneg k mc.
Proof.
  intros [Hr Hm]%andb_prop. apply Z.leb_le in Hr. intros [[_ [Hs|(p & h' & E & Hs)]]|[_ Hs]].
  - change (heap_room (s_heap (sched_of mc)) < 56 + 65536) in Hs. lia.
  - change (kmalloc sizeof_thread (s_heap (sched_of mc)) = Ret p h') in E. rewrite E in Hm. apply Z.leb_le in Hm.
    change (heap_room h' < 4096 + 65536) in Hs. lia.
  - change (heap_room (s_heap (sched_of mc)) < 104 + 65536) in Hs. lia.
Qed.

Lemma demo_steps_roomy :
  forallb (fun k => match run_steps (take k demo_steps) demo_power_on with Ret _ mc => roomy (s_heap (sched_of mc)) | _ => true end)
    (tss_step :: thread_steps) = true.
Proof. vm_compute. reflexivity. Qed.

Lemma demo_not_short : ~ boot_short demo_info 0x1000 0x1100 0x1200 7 demo_lsr (fun _ => 0xAE) 3 20480
    0x200000 0x201000 (fun i => 0x202000 + 16 * i) 0 0x203000 0x204000 0x205000 0x206000 0x207000 0x208000 demo_power_on.
Proof.
  intros (k & mc1 & E & Hsh). pose proof demo_steps_roomy as Hr. rewrite forallb_forall in Hr.
  assert (Hk : In k (tss_step :: thread_steps)).
  { destruct Hsh as [[Hk _]|[-> _]]; [right; by apply list_elem_of_In|by left]. }
  specialize (Hr k Hk). change (run_steps (take k demo_steps) demo_power_on = Ret tt mc1) in E. rewrite E in Hr. exact (roomy_not_short k mc1 Hr Hsh).
Qed.

Lemma boot_map_enough : (64 <= List.length (boot_frames boot_map))%nat.
Proof. rewrite boot_map_pages. vm_compute. lia. Qed.

Lemma boot_correct_witness :
  exists mc', kernel_start demo_info 0x1000 0x1100 0x1200 7 demo_lsr (fun _ => 0xAE) 3 20480
    0x200000 0x201000 (fun i => 0x202000 + 16 * i) 0 0x203000 0x204000 0x205000 0x206000 0x207000 0x208000 demo_power_on = Ret tt mc' /\
    booted off off_nonneg 20480 mc'.
Proof.
  destruct (boot_correct demo_info 0x1000 0x1100 0x1200 _ _ _ 7 demo_lsr (fun _ => 0xAE) 3 3 20480
    0x200000 0x201000 (fun i => 0x202000 + 16 * i) 0 0x203000 0x204000 0x205000 0x206000 0x207000 0x208000 loader_mem (mkUart [] 0) demo_con
    demo_info_fb demo_info_mm demo_info_hhdm demo_ready (le_n 3) boot_map_ok boot_map_tables boot_map_enough) as [Hok|Hsh].
  - intros f rest Hf. discriminate Hf.
  - exact Hok.
  - exfalso. exact (demo_not_short Hsh).
Defined.

(** The machine the sequence leaves, for the witnesses of the files that
    follow. *)
Lemma demo_booted : exists mc', booted off off_nonneg 20480 mc'.
Proof.
  assert (Ehh : off = demo_hhdm) by (vm_compute; reflexivity).
  destruct (boot_correct_gen off off_nonneg 7 demo_lsr (fun _ => 0xAE) 3 (boot_framebuffer demo_info 0x1000)
    (read_bpp demo_info (boot_fb demo_info 0x1000)) boot_map 20480
    0x200000 0x201000 (fun i => 0x202000 + 16 * i) 0 0x203000 0x204000 0x205000 0x206000 0x207000 0x208000 3 demo_ready (le_n 3) loader_mem boot_map_ok)
    with (u := mkUart [] 0) (c := demo_con) as [(mc & _ & Hb & _)|Hsh].
  - rewrite Ehh. exact boot_map_tables.
  - exact boot_map_enough.
  - intros f Ef. assert (En : boot_framebuffer demo_info 0x1000 = None) by (vm_compute; reflexivity). congruence.
  - by exists mc.
  - exfalso. apply demo_not_short. destruct Hsh as (k & mc1 & E & Hsh). exists k, mc1. split; [|exact Hsh].
    assert (Em : boot_memmap demo_info 0x1100 = Some boot_map) by (vm_compute; reflexivity). rewrite Em. exact E.
Qed.
