(* ===== verification/InitFacts.v ===== *)
(** * Facts about loading the first program

    What [load_init] leaves behind the threads that [_start] made: the first
    user program, and a ready queue with nobody else in it. *)

From stdpp Require Import base gmap list fin_maps.
From Stdlib Require Import ZArith Lia String.
From S2P Require Import Prelude Mem Pmm Vmm PageTables Heap HeapFacts KernelMem Chain Descriptors Sched SchedFacts SchedRun.
From S2P Require Import Timer TimerFacts Ipc IpcFacts KbdBuf Bus Printf Serial Console ConsoleFacts Limine Irq Fork UserCopy Spaces Proc ProcFacts HeapStep ElfFacts ExecFacts ElfLoad.
From S2P Require Import Syscalls SyscallFacts Isolation Services ServiceFacts Boot BootFacts.

#[local] Opaque rd64 wr64 serial_putc Proc.elf_load.

(** However often [schedule] is called from [sc] on, it chooses [t], with the
    address space [root]. *)
Definition only_runs (sc : @sched_t (@heap_t (@vm_t pmm_t))) (t root : Z) : Prop :=
  forall k, exists sc', schedules (S k) sc = Some sc' /\ current_thread sc' = t /\ s_cr3 sc' = root.

Section InitFacts.
Context (hhdm_offset : Z) (hhdm_nonneg : 0 <= hhdm_offset).
Context (junk : Z).
Context (lsr : list (Z * Z) -> nat -> Z) (scratch : list (Z * Z) -> Z) (polls : nat).
Context (userspace_entry init_start init_end : Z).
#[local] Abbreviation vm := (@vm_t pmm_t).
#[local] Abbreviation heap := (@heap_t vm).
#[local] Abbreviation sched := (@sched_t heap).
#[local] Instance init_mapper : PageMapper vm := Vmm_PageMapper hhdm_offset hhdm_nonneg.
#[local] Abbreviation load_init := (load_init hhdm_offset hhdm_nonneg junk lsr scratch polls userspace_entry init_start init_end).
Context (n : nat) (Hready : ready_within lsr n) (Hpolls : (n <= polls)%nat).

(** The machine by the parts [load_init] changes. *)
Definition procs_of (mc : machine) : proc_t := y_proc (v_sys (mc_srv mc)).
Definition put_procs (s : sched * proc_t) (u : uart) (mc : machine) : machine :=
  let sv := mc_srv mc in let y := v_sys sv in
  mk_machine (mk_srv (mk_sys (set_sched (fst s) (y_kernel y)) (snd s) u (y_con y) (syscall_retval y))
    (v_bus sv) (serial_lock sv) (vfs_port sv) (kbd_port sv)) (mc_gdt mc) (mc_idt mc) (kernel_cr3 mc).

Lemma log_put t t' s u mc : c_text t = Some t' -> exists u', log lsr scratch polls t (put_procs s u mc) = Ret tt (put_procs s u' mc).
Proof.
  intros Ht. destruct (serial_puts lsr scratch n Hready polls Hpolls t' u) as (u' & E & _). exists u'.
  unfold log, Boot.on_uart, on_srv, on_sys, Syscalls.on_uart, zoom. cbn [put_procs mc_srv v_sys y_uart].
  unfold Serial.serial_write. rewrite (write_puts (serial_putc lsr scratch polls) (fun _ => True) (serial_putc_any lsr scratch n Hready polls Hpolls) t t' u Logic.I Ht).
  by rewrite E.
Qed.

Lemma logf_put fmt args t s u mc : format serial_hex fmt args = Some t ->
  exists u', logf junk lsr scratch polls fmt args (put_procs s u mc) = Ret tt (put_procs s u' mc).
Proof.
  intros Ht. destruct (printf_puts (serial_putc lsr scratch polls) serial_hex junk eq_refl serial_hex_nz (fun _ => True)
    (serial_putc_any lsr scratch n Hready polls Hpolls) fmt args t u Logic.I Ht) as (u' & E & _). exists u'.
  unfold logf, Boot.on_uart, on_srv, on_sys, Syscalls.on_uart, zoom. cbn [put_procs mc_srv v_sys y_uart].
  unfold serial_printf. by rewrite E.
Qed.

(** [load_init] is [elf_load] and two messages. *)
Lemma load_init_elf mc pid s' : 
  elf_load hhdm_offset hhdm_nonneg junk userspace_entry (kernel_cr3 mc) init_start (u64 (init_end - init_start)) (sched_of mc, procs_of mc) = Ret pid s' ->
  exists u', load_init mc = Ret tt (put_procs s' u' mc).
Proof.
  intros E. unfold Boot.load_init. rewrite (mbind_Ret (mget kernel_cr3) _ mc _ mc eq_refl). cbv zeta.
  assert (Ee : on_srv (on_sys (on_proc (elf_load hhdm_offset hhdm_nonneg junk userspace_entry (kernel_cr3 mc) init_start (u64 (init_end - init_start))))) mc =
    Ret pid (put_procs s' (y_uart (v_sys (mc_srv mc))) mc)).
  { unfold on_srv, on_sys, on_proc, zoom. unfold sched_of, procs_of in E. by rewrite E. }
  rewrite (mbind_Ret _ _ _ _ _ Ee). clear Ee.
  assert (El : exists u1, (if pid <? 0 then log lsr scratch polls (line "[boot] Failed to load init!") else logf junk lsr scratch polls (line "[boot] Init loaded, PID %d") [AInt pid])
    (put_procs s' (y_uart (v_sys (mc_srv mc))) mc) = Ret tt (put_procs s' u1 mc)).
  { destruct (pid <? 0); [exact (log_put (line "[boot] Failed to load init!") _ s' _ mc eq_refl)|].
    exact (logf_put (line "[boot] Init loaded, PID %d") [AInt pid] _ s' _ mc eq_refl). }
  destruct El as (u1 & El). rewrite (mbind_Ret _ _ _ _ _ El). exact (log_put (line "[boot] Preemptive scheduler started.") _ s' u1 mc eq_refl).
Qed.

(** From any machine at rest: the program is in place, and nobody else runs. *)
Lemma load_init_gen (mc : machine) q ls : sched_inv (sched_of mc) q -> heap_ok (sched_of mc) ls -> at_rest (sched_of mc) -> procs_of mc = proc_boot ->
  source_pre hhdm_offset (vm_of (sched_of mc)) (kernel_cr3 mc) init_start (u64 (init_end - init_start)) ->
  (exists t root mc', load_init mc = Ret tt mc' /\ (t ∉ q) /\
     program_at hhdm_offset (vm_of (sched_of mc)) (vm_of (sched_of mc')) root init_start (u64 (init_end - init_start)) /\
     only_runs (sched_of mc') t root) \/
  (spare (vm_of (sched_of mc)) < elf_need (u64 (init_end - init_start)) /\
   (load_init mc = Fault \/ exists mc', load_init mc = Ret tt mc' /\ s_threads (sched_of mc') = s_threads (sched_of mc))).
Proof.
  intros I Hok [Hidle _] Epr Hsrc. unfold proc_boot in Epr.
  destruct (elf_load_gen hhdm_offset hhdm_nonneg junk userspace_entry (sched_of mc) ∅ 0 1 0 q ls (kernel_cr3 mc) _ _ I Hok ltac:(set_solver) Hsrc)
    as [(proc & t & root & s' & E & Hel)|(Hs & [E|(s' & E & Hf)])]; rewrite <- Epr in E; [left|right; split; [done|left]|right; split; [done|right]].
  - destruct (load_init_elf mc _ s' E) as (u' & El). exists t, root. eexists. split; [exact El|]. destruct Hel as [Hpg _ _ _ [Htd (th & Hth & Hcr & _)] _ Hal]. split; [|split].
    + intros Hq. apply Htd. cbn [fst]. apply (si_ready _ _ I) in Hq. destruct (state_of_Some _ _ _ Hq) as (th' & Hth' & _). apply elem_of_dom. by exists th'.
    + exact Hpg.
    + intros k. destruct (schedules_alone t root k (fst s')) as (sc & Esc & _ & Hc); [by apply Hal|by exists th|]. by exists sc.
  - unfold Boot.load_init. rewrite (mbind_Ret (mget kernel_cr3) _ mc _ mc eq_refl). cbv zeta. apply mbind_Fault.
    unfold on_srv, on_sys, on_proc, zoom. unfold sched_of, procs_of in E. by rewrite E.
  - destruct (load_init_elf mc _ s' E) as (u' & El). eexists. split; [exact El|]. apply Hf.
Qed.
End InitFacts.

(** A machine as [_start] leaves it, and an image the direct map does not
    reach, such as one linked into the kernel. *)
Section Booted.
Context (hhdm_offset : Z) (hhdm_nonneg : 0 <= hhdm_offset).
#[local] Instance booted_mapper : PageMapper (@vm_t pmm_t) := Vmm_PageMapper hhdm_offset hhdm_nonneg.

Lemma off_map_far (v : @vm_t pmm_t) a size i : off_map hhdm_offset a size -> 0 <= i < size -> far hhdm_offset heap_slot (vm_pml4 v) v (a + i).
Proof. intros Ho Hi d Hd Hin. exfalso. destruct (Ho d Hd); lia. Qed.

(** The boot loader's tables on the way to 2^47, if its PML4 slot 256 is in
    use (its direct map lies there when it begins at 0xFFFF800000000000): they
    are different frames, outside the memory it calls usable, and not the
    tables of the kernel's heap region. *)
Definition loader_stack_ok (m : mem) (cr3 : Z) (usable : list Z) : Prop :=
  NoDup (cr3 :: stack_tables hhdm_offset m cr3) /\
  forall x, x ∈ stack_tables hhdm_offset m cr3 -> frame hhdm_offset x /\ (x ∉ usable) /\
    forall path, tpath 3 heap_slot path -> walk hhdm_offset m cr3 path <> Some x.

Lemma booted_source entries cr3 m (mc : machine) start size : pt_wf hhdm_offset heap_slot m cr3 (boot_frames entries) ->
  boot_memory hhdm_offset entries cr3 m mc -> loader_stack_ok m cr3 (boot_frames entries) ->
  off_map hhdm_offset start size -> 0 <= size -> USER_CODE_VADDR + size + 4096 <= 2 ^ 47 ->
  source_pre hhdm_offset (vm_of (sched_of mc)) cr3 start size /\
  forall i, 0 <= i < size -> rd8 (vm_mem (vm_of (sched_of mc))) (start + i) = rd8 m (start + i).
Proof.
  intros Hpt (_ & p1 & Hok & Hp & Hg) Hs Ho H0 Hz. set (v0 := mk_vm p1 m cr3 0) in *.
  destruct Hg as (K & T & F); [split; [split; [exact Hok|]|done]; cbn; by rewrite Hp|].
  split; [|intros i Hi; apply (F (start + i)); by apply off_map_far with (size := size)].
  split; [|intros i Hi; by apply off_map_far with (size := size)|done]. split; [symmetry; apply K|].
  apply (stack_kept hhdm_offset v0 _ cr3 K); [by apply (T 256)|]. destruct Hs as [Hnd HT]. split; [by rewrite stack_trail|].
  intros x Hx. destruct (HT x Hx) as (H1 & H2 & H3). split; [done|]. split; [|exact H3]. change (x ∉ free_pages p1). by rewrite Hp.
Qed.
End Booted.

(** C31: from power-on to the first user program, with the lines behind the
    [#if 0] let in.  The boot loader's tables may hold its direct map in PML4
    slot 256.  The four kernel threads are ready and the program is loaded
    byte for byte; but its thread is its own successor in the ready queue, so
    however often [schedule] runs after that, it chooses this thread: the four
    kernel threads never run.  Two exceptions, both for want of memory: the
    boot sequence stops at an allocation ([boot_short]), or fewer frames than
    [elf_need] are left for the program, and then no thread is added. *)
Theorem init_runs_alone (info : mem) (fb_req mm_req hh_req : Z) fbs es offset (junk : Z)
    (lsr : list (Z * Z) -> nat -> Z) (scratch : list (Z * Z) -> Z) (polls n : nat)
    (cr3 gdt_addr idt_addr : Z) (isr_stub_table : Z -> Z) (efer syscall_entry idle_thread echo_service_at thread_a_at thread_b_at echo_client_at : Z)
    (m : mem) (u : uart) (c : con) (userspace_entry start stop : Z) :
  fb_answered info fb_req fbs -> mm_answered info mm_req (Some es) -> hhdm_answered info hh_req (Some offset) ->
  ready_within lsr n -> (n <= polls)%nat ->
  memmap_ok es.*2 -> pt_wf offset heap_slot m cr3 (boot_frames es.*2) -> (64 <= List.length (boot_frames es.*2))%nat ->
  (forall f rest, fbs = Some (f :: rest) -> framebuffer_ok (fa_fb f)) ->
  loader_stack_ok offset m cr3 (boot_frames es.*2) -> start <= stop -> off_map offset start (stop - start) -> USER_CODE_VADDR + (stop - start) + 4096 <= 2 ^ 47 ->
  let off := boot_hhdm info hh_req in let off_nonneg := boot_hhdm_nonneg info hh_req in
  (exists mc, kernel_start info fb_req mm_req hh_req junk lsr scratch polls cr3 gdt_addr idt_addr isr_stub_table efer syscall_entry
       idle_thread echo_service_at thread_a_at thread_b_at echo_client_at (power_on cr3 m u c) = Ret tt mc /\
     let run := load_init off off_nonneg junk lsr scratch polls userspace_entry start stop mc in
     ((exists q t root mc', List.length q = 4%nat /\ sched_inv (sched_of mc) q /\ run = Ret tt mc' /\ (t ∉ q) /\
         (forall i, 0 <= i < stop - start -> byte_at off (vm_mem (vm_of (sched_of mc'))) root (USER_CODE_VADDR + i) = rd8 m (start + i)) /\
         only_runs (sched_of mc') t root) \/
      (spare (vm_of (sched_of mc)) < elf_need (stop - start) /\ (run = Fault \/ exists mc', run = Ret tt mc' /\ s_threads (sched_of mc') = s_threads (sched_of mc))))) \/
  boot_short info fb_req mm_req hh_req junk lsr scratch polls cr3 gdt_addr idt_addr isr_stub_table efer syscall_entry
    idle_thread echo_service_at thread_a_at thread_b_at echo_client_at (power_on cr3 m u c).
Proof.
  intros Hf Hm Hh Hrd Hp Hmap Hpt Hn Hfb Hs Hle Ho Hz off off_nonneg. pose proof (boot_hhdm_answered _ _ _ Hh) as Eo. simpl in Eo. fold off in Eo.
  destruct (kernel_start_gen info fb_req mm_req hh_req fbs es offset junk lsr scratch polls n cr3 gdt_addr idt_addr isr_stub_table efer syscall_entry
    idle_thread echo_service_at thread_a_at thread_b_at echo_client_at m u c Hf Hm Hh Hrd Hp Hmap Hpt Hn Hfb) as [(mc & E & Hb & Hmem)|Hsh]; [left|by right].
  exists mc. split; [exact E|]. clear E. subst offset. intros run.
  assert (Es : u64 (stop - start) = stop - start) by (apply u64_small; unfold two64, USER_CODE_VADDR in *; change (2 ^ 47) with 140737488355328 in Hz; lia).
  destruct (booted_source off es.*2 cr3 m mc start (stop - start)) as [Hsrc Hby]; try done; [lia|].
  destruct Hb as (q & ls & Hq & I & Hok & Hrest & _ & _ & _ & _ & _ & _ & _ & _ & _ & Hk & _). rewrite <- Es, <- Hk in Hsrc.
  destruct (load_init_gen off off_nonneg junk lsr scratch polls userspace_entry start stop n Hrd Hp mc q ls I Hok Hrest (proj1 Hmem) Hsrc)
    as [(t & root & mc' & E & Htq & (_ & Hpg & _) & Hrun)|Hst]; [left|right; by rewrite Es in Hst].
  exists q, t, root, mc'. split; [exact Hq|]. split; [exact I|]. split; [exact E|]. split; [exact Htq|]. split; [|exact Hrun].
  intros i Hi. rewrite <- (Hby i Hi). rewrite Es in Hpg. by apply Hpg.
Qed.

(** ** Witness: the machine of BootFacts and an image of five bytes linked at
    0xFFFFFFFF80000000 *)

#[local] Abbreviation demo_start := (kernel_start demo_info 0x1000 0x1100 0x1200 7 demo_lsr (fun _ => 0xAE) 3 20480
  0x200000 0x201000 (fun i => 0x202000 + 16 * i) 0 0x203000 0x204000 0x205000 0x206000 0x207000 0x208000 demo_power_on).

(** The tables of the direct map. *)
Lemma boot_stack_ok : loader_stack_ok demo_hhdm loader_mem 20480 (boot_frames boot_map).
Proof.
  unfold loader_stack_ok. rewrite loader_trail. split; [apply (bool_decide_unpack _); vm_compute; exact Logic.I|].
  intros x Hx. assert (Hx' : x = 8192 \/ x = 12288 \/ x = 16384) by (rewrite !elem_of_cons, elem_of_nil in Hx; tauto).
  split; [destruct Hx' as [->|[->| ->]]; by apply frame_small|]. split.
  - destruct Hx' as [->|[->| ->]]; (apply (bool_decide_unpack _); vm_compute; exact Logic.I).
  - intros path Hp Hw%demo_kernel_walk; [|done]. subst x. destruct Hx' as [?|[?|?]]; discriminate.
Qed.

(** Enough frames are left. *)
Definition frames_left (r : res machine unit) : option Z :=
  match r with Ret _ mc => Some (spare (vm_of (sched_of mc))) | _ => None end.

Lemma demo_frames_left : option_map (Z.leb (elf_need 5)) (frames_left demo_start) = Some true.
Proof. vm_compute. reflexivity. Qed.

Lemma init_runs_alone_witness : exists mc t mc' sc, demo_start = Ret tt mc /\
  load_init (boot_hhdm demo_info 0x1200) (boot_hhdm_nonneg demo_info 0x1200) 7 demo_lsr (fun _ => 0xAE) 3 0x209000 0xFFFFFFFF80000000 0xFFFFFFFF80000005 mc = Ret tt mc' /\
  schedules 1000 (sched_of mc') = Some sc /\ current_thread sc = t.
Proof.
  destruct (init_runs_alone demo_info 0x1000 0x1100 0x1200 _ _ _ 7 demo_lsr (fun _ => 0xAE) 3 3 20480
    0x200000 0x201000 (fun i => 0x202000 + 16 * i) 0 0x203000 0x204000 0x205000 0x206000 0x207000 0x208000 loader_mem (mkUart [] 0) demo_con
    0x209000 0xFFFFFFFF80000000 0xFFFFFFFF80000005
    demo_info_fb demo_info_mm demo_info_hhdm demo_ready (le_n 3) boot_map_ok boot_map_tables boot_map_enough) as [(mc & E & Hres)|Hsh].
  - intros f rest Hf. discriminate Hf.
  - exact boot_stack_ok.
  - discriminate.
  - intros x Hx. right. rewrite frame_ptv by (exact demo_hhdm_nonneg || exact Hx). destruct Hx as (_ & _ & Hx). lia.
  - vm_compute. discriminate.
  - destruct Hres as [(q & t & root & mc' & _ & _ & El & _ & _ & Hk)|[Hst _]].
    + destruct (Hk 999%nat) as (sc & Es & Hc & _). exists mc, t, mc', sc. split; [exact E|]. split; [exact El|]. split; [exact Es|exact Hc].
    + exfalso. pose proof demo_frames_left as Hf. change demo_start with (kernel_start demo_info 0x1000 0x1100 0x1200 7 demo_lsr (fun _ => 0xAE) 3 20480
        0x200000 0x201000 (fun i => 0x202000 + 16 * i) 0 0x203000 0x204000 0x205000 0x206000 0x207000 0x208000 (power_on 20480 loader_mem (mkUart [] 0) demo_con)) in Hf.
      rewrite E in Hf. cbn [frames_left option_map] in Hf. injection Hf as Hf%Z.leb_le. change (0xFFFFFFFF80000005 - 0xFFFFFFFF80000000) with 5 in Hst. lia.
  - exfalso. exact (demo_not_short Hsh).
Defined.
