(* ===== verification/SystemRun.v ===== *)
(** * Runs of the kernel from boot: no deadlock, no crash, no lost thread *)

From stdpp Require Import base gmap list fin_maps.
From Stdlib Require Import ZArith Lia.
From S2P Require Import Prelude Mem Pmm Vmm PageTables Heap HeapFacts KernelMem Chain Descriptors Sched SchedFacts SchedRun.
From S2P Require Import Timer TimerFacts Ipc IpcFacts KbdBuf Bus Limine Irq System SystemFacts Syscalls Services Boot BootFacts.

Section SystemRun.
Context (hhdm_offset : Z) (hhdm_nonneg : 0 <= hhdm_offset) (cr3 : Z).
#[local] Abbreviation heap := (@heap_t (@vm_t pmm_t)).
#[local] Instance run_mapper : PageMapper (@vm_t pmm_t) := Vmm_PageMapper hhdm_offset hhdm_nonneg.
Context (junk userspace_entry : Z) (junk_msg : ipc_message) (junk_ok : msg_ok junk_msg).
Context (junk_data : list Z) (junk_len : length junk_data = 256%nat) (frame : Z) (frame_nz : frame <> 0).
Context (status : nat -> Z) (data : Z) (fuel : nat).
#[local] Abbreviation run_event := (run_event junk userspace_entry junk_msg junk_data frame status data fuel).
#[local] Abbreviation enabled := (enabled frame status fuel).
#[local] Abbreviation step := (step junk userspace_entry junk_msg junk_data frame status data fuel).

Definition kernel_of (mc : machine) : kernel heap := y_kernel (v_sys (mc_srv mc)).

(** What [_start] leaves is a good state to start from. *)
Lemma booted_kernel (mc : machine) : booted hhdm_offset hhdm_nonneg cr3 mc -> kernel_inv frame (kernel_of mc).
Proof.
  intros (q & ls & _ & I & [Hv Hd] & [_ Hb] & Hms & Hir & Ht & _ & Hi & Hk & Hq & _).
  exists q, [], no_waits, []. split; try done.
  - constructor.
  - exists [], [], ls. split; [done|]. split; [done|]. split; [by rewrite all_waits_none|done].
  - unfold waiting. rewrite all_waits_none. constructor.
  - intros t. unfold waiting. rewrite all_waits_none. split; [intros Hbl; by destruct (Hb t Hbl)|by intros ?%elem_of_nil].
  - split; [done|]. unfold kernel_of. rewrite Hir. by apply Forall_replicate.
  - unfold kernel_of. by rewrite Hms.
Qed.

Lemma run_ok (mc : machine) k ks : booted hhdm_offset hhdm_nonneg cr3 mc -> rtc step (kernel_of mc, []) (k, ks) -> config_ok frame (k, ks).
Proof.
  intros Hb Hs. eapply steps_ok; [exact junk_ok|exact junk_len|exact frame_nz| |exact Hs]. split; [by apply booted_kernel|].
  intros c Hc. by apply elem_of_nil in Hc.
Qed.

(** C1: the kernel does not deadlock or crash.  From the state [_start]
    leaves, through any sequence of interrupts, calls of threads and
    resumptions of the threads that gave the processor away, the next event
    that can happen returns, ends or switches: it does not wait for a spin lock
    that is held, does not loop and touches no missing object; and each
    suspended computation returns when it is resumed.  The one exception is an event that allocates
    when the frame pool is too small: there the heap can fault. *)
Theorem kernel_never_stuck (mc : machine) k ks :
  booted hhdm_offset hhdm_nonneg cr3 mc -> rtc step (kernel_of mc, []) (k, ks) ->
  (forall e, enabled k e -> stuck (run_event e k) -> run_event e k = Fault /\ event_starved e k) /\
  (forall c, c ∈ ks -> exists k', c k = Ret tt k' /\ kernel_inv frame k').
Proof.
  intros Hb Hs. destruct (run_ok mc k ks Hb Hs) as [Hk Hks]. cbn [fst snd] in *. split.
  - intros e He Hst. eapply safe_not_stuck; [|exact Hst].
    exact (event_safe junk userspace_entry junk_msg junk_ok junk_data junk_len frame frame_nz status data fuel k e Hk He).
  - intros c Hc. by apply (Hks c Hc).
Qed.

(** C5: no thread is lost.  After any such run the ready queue, the queue of
    sleepers and the queues of the ports are proper lists in heap blocks of
    their own, and they divide the threads among them: the ready threads are
    those of the ready queue (and the idle thread), every blocked thread is
    named by exactly one timer entry or wait node, which will wake it, and
    every thread so named is blocked. *)
Theorem no_thread_lost (mc : machine) k ks :
  booted hhdm_offset hhdm_nonneg cr3 mc -> rtc step (kernel_of mc, []) (k, ks) ->
  exists q l ps lt le lr, let sc := k_sched k in
    timer_inv (sc, k_timer k) q l /\ ordered l /\ ipc_inv (sc, k_ipc k) q ps /\ heap_split sc l ps lt le lr /\
    (forall t, t ∈ q -> state_of (s_threads sc) t = Some THREAD_STATE_READY) /\
    (forall t, state_of (s_threads sc) t = Some THREAD_STATE_READY -> t ∈ q \/ t = idle_thread_ptr sc) /\
    (forall t, state_of (s_threads sc) t = Some THREAD_STATE_RUNNING -> t = current_thread sc \/ t = idle_thread_ptr sc) /\
    NoDup (waiting l ps) /\ (forall t, state_of (s_threads sc) t = Some THREAD_STATE_BLOCKED <-> t ∈ waiting l ps).
Proof.
  intros Hb Hs. destruct (run_ok mc k ks Hb Hs) as [(q & l & ps & cs & R) _]. cbn [fst] in *.
  destruct (ki_heap _ _ _ _ _ _ R) as (lt & le & lr & Hh). pose proof (rep_sched frame k q l ps cs R) as I.
  exists q, l, ps, lt, le, lr. cbv zeta. split; [apply R|]. split; [apply R|]. split; [apply R|]. split; [exact Hh|].
  split; [exact (si_ready _ _ I)|]. split; [exact (si_lost _ _ I)|]. split; [exact (si_running _ _ I)|]. split; [apply R|].
  exact (ki_blocked _ _ _ _ _ _ R).
Qed.
End SystemRun.

(** ** Witness: the demonstration machine after boot and one yield *)

#[local] Abbreviation off := (boot_hhdm demo_info 0x1200).
#[local] Abbreviation off_nonneg := (boot_hhdm_nonneg demo_info 0x1200).
#[local] Abbreviation demo_step := (@step _ (@Heap_KHeap _ (run_mapper off off_nonneg)) 7 0 (mk_msg 0 (replicate 256 0)) (replicate 256 0) 3000 (fun _ => 1) 0x10 1).

Lemma demo_yielded : exists mc k c, booted off off_nonneg 20480 mc /\ rtc demo_step (kernel_of mc, []) (k, [c]).
Proof.
  destruct demo_booted as (mc & Hb). pose proof Hb as (q & ls & _ & I & _).
  destruct (schedule_blocked (k_sched (kernel_of mc)) q I) as (sc' & E & _).
  eexists mc, _, _. split; [exact Hb|]. eapply rtc_once, (step_event _ _ _ _ _ _ _ _ _ _ Yield); [done|].
  apply out_switch. cbn [System.run_event]. unfold on_sched, zoom. rewrite E. cbn [zoomr]. reflexivity.
Qed.

Lemma demo_msg_ok : msg_ok (mk_msg 0 (replicate 256 0)).
Proof. by split. Qed.

Lemma kernel_never_stuck_witness :
  exists mc k c k', booted off off_nonneg 20480 mc /\ rtc demo_step (kernel_of mc, []) (k, [c]) /\ c k = Ret tt k'.
Proof.
  destruct demo_yielded as (mc & k & c & Hb & Hs).
  destruct (kernel_never_stuck off off_nonneg 20480 7 0 (mk_msg 0 (replicate 256 0)) demo_msg_ok (replicate 256 0) eq_refl
    3000 ltac:(discriminate) (fun _ => 1) 0x10 1 mc k [c] Hb Hs) as [_ Hc]. destruct (Hc c ltac:(left)) as (k' & E & _).
  exists mc, k, c, k'. split; [exact Hb|]. split; [exact Hs|exact E].
Defined.

Lemma no_thread_lost_witness :
  exists mc k c (q : list Z), booted off off_nonneg 20480 mc /\ rtc demo_step (kernel_of mc, []) (k, [c]) /\
    forall t, state_of (s_threads (k_sched k)) t = Some THREAD_STATE_READY -> t ∈ q \/ t = idle_thread_ptr (k_sched k).
Proof.
  destruct demo_yielded as (mc & k & c & Hb & Hs).
  destruct (no_thread_lost off off_nonneg 20480 7 0 (mk_msg 0 (replicate 256 0)) demo_msg_ok (replicate 256 0) eq_refl
    3000 ltac:(discriminate) (fun _ => 1) 0x10 1 mc k [c] Hb Hs) as (q & l & ps & lt & le & lr & _ & _ & _ & _ & _ & Hr & _).
  exists mc, k, c, q. split; [exact Hb|]. split; [exact Hs|exact Hr].
Defined.
