(* ===== verification/Entry.v ===== *)
(** * Entry code (src/kernel/isr.s, src/kernel/syscall_entry.S)

    The assembly around [isr_handler] and [syscall_handler], on the general
    registers and the words of the stack.  The C function it calls is a
    parameter.  With the table that [idt_init] fills, this is the whole way of
    an interrupt from its vector to the handler and back. *)

From stdpp Require Import base gmap list fin_maps.
From Stdlib Require Import ZArith Lia.
From S2P Require Import Prelude Descriptors.

Inductive reg : Type :=
| RAX | RBX | RCX | RDX | RSI | RDI | RBP | R8 | R9 | R10 | R11 | R12 | R13 | R14 | R15.
#[export] Instance reg_eq_dec : EqDecision reg.
Proof. solve_decision. Defined.

Record ecpu : Type := mk_ecpu { e_reg : reg -> Z; e_rsp : Z; e_words : gmap Z Z }.

Definition set_reg (r : reg) (w : Z) (c : ecpu) : ecpu :=
  mk_ecpu (fun x => if decide (x = r) then w else e_reg c x) (e_rsp c) (e_words c).
Definition set_e_rsp (x : Z) (c : ecpu) : ecpu := mk_ecpu (e_reg c) x (e_words c).

Definition pushq (w : Z) : M ecpu unit := fun c =>
  let sp := u64 (e_rsp c - 8) in Ret tt (mk_ecpu (e_reg c) sp (<[sp := w]> (e_words c))).
Definition popq : M ecpu Z := fun c =>
  match e_words c !! e_rsp c with
  | Some w => Ret w (set_e_rsp (u64 (e_rsp c + 8)) c)
  | None => Fault
  end.
Definition get_reg (r : reg) : M ecpu Z := mget (fun c => e_reg c r).
(** [movq %src, %dst] *)
Definition movq (src dst : reg) : M ecpu unit := w <- get_reg src ;; mset (set_reg dst w).

Fixpoint push_regs (l : list reg) : M ecpu unit :=
  match l with
  | [] => mret tt
  | r :: l' => w <- get_reg r ;; pushq w ;;; push_regs l'
  end.
Fixpoint pop_regs (l : list reg) : M ecpu unit :=
  match l with
  | [] => mret tt
  | r :: l' => w <- popq ;; mset (set_reg r w) ;;; pop_regs l'
  end.

(** ** isr.s *)

Definition saved_regs : list reg := [RDI; RSI; RBP; RBX; RDX; RCX; RAX; R8; R9; R10; R11; R12; R13; R14; R15].
Definition restored_regs : list reg := [R15; R14; R13; R12; R11; R10; R9; R8; RAX; RCX; RDX; RBX; RBP; RSI; RDI].

(** What [iretq] loads. *)
Record iret_frame : Type := mk_iret { if_rip : Z; if_cs : Z; if_rflags : Z; if_rsp : Z; if_ss : Z }.
Definition iretq : M ecpu iret_frame :=
  rip <- popq ;; cs <- popq ;; fl <- popq ;; sp <- popq ;; ss <- popq ;;
  mset (set_e_rsp sp) ;;;
  mret (mk_iret rip cs fl sp ss).

Section Isr.
(** [isr_handler], called with the address of the saved state. *)
Context (isr_handler : Z -> M ecpu unit).

Definition isr_common : M ecpu iret_frame :=
  push_regs saved_regs ;;;
  sp <- mget e_rsp ;;
  mset (set_reg RDI sp) ;;;
  isr_handler sp ;;;
  pop_regs restored_regs ;;;
  sp <- mget e_rsp ;;
  mset (set_e_rsp (u64 (sp + 16))) ;;;
  iretq.

Definition ISR_NOERRCODE (n : Z) : M ecpu iret_frame := pushq 0 ;;; pushq n ;;; isr_common.
Definition ISR_ERRCODE (n : Z) : M ecpu iret_frame := pushq n ;;; isr_common.

(** The exceptions declared with ISR_ERRCODE. *)
Definition isr_errcode (n : Z) : bool := bool_decide (n ∈ [8; 10; 11; 12; 13; 14; 17; 30]).
Definition isr (n : Z) : M ecpu iret_frame := if isr_errcode n then ISR_ERRCODE n else ISR_NOERRCODE n.

(** The table of stub addresses; [label k] is the address of [isr<k>]. *)
Definition isr_stub_table (label : Z -> Z) : list Z :=
  [label 0; label 1; label 2; label 3; label 4; label 5; label 6; label 7;
   label 8; label 9; label 10; label 11; label 12; label 13; label 14; label 15;
   label 16; label 17; label 18; label 19; label 20; label 21; label 22; label 23;
   label 24; label 25; label 26; label 27; label 28; label 29; label 30; label 31;
   label 32; label 33; label 34; label 35; label 36; label 37; label 38; label 39;
   label 40; label 41; label 42; label 43; label 44; label 45; label 46; label 47].
Definition isr_stub_at (label : Z -> Z) (i : Z) : Z := default 0 (isr_stub_table label !! Z.to_nat i).

(** The processor delivers vector [n]: it takes the gate from the table and
    goes on at its address, where it finds the code of the stub with that
    label.  A gate that is not present is a fault. *)
Definition stub_at (label : Z -> Z) (a : Z) : option Z := List.find (fun k => label k =? a) (seqZ 0 48).
Definition deliver (label : Z -> Z) (table : gmap Z idt_entry) (n : Z) : M ecpu iret_frame := fun c =>
  match table !! n with
  | Some e => if Z.testbit (ie_flags e) 7
              then match stub_at label (gate_base e) with Some k => isr k c | None => Fault end
              else Fault
  | None => Fault
  end.
End Isr.

(** ** syscall_entry.S *)

Section Syscall.
(** [syscall_handler] on its register arguments, and the word it leaves in
    [syscall_retval]. *)
Context (syscall_handler : list Z -> M ecpu unit) (syscall_retval : ecpu -> Z).

(** RCX and R11 hold the user's RIP and RFLAGS; the result is what [sysretq]
    loads into RIP and RFLAGS, with the value stored in [saved_user_rip]. *)
Definition syscall_entry : M ecpu (Z * Z * Z) :=
  push_regs [R11; RCX] ;;;
  saved_user_rip <- get_reg RCX ;;
  movq RDX RCX ;;;
  movq RSI RDX ;;;
  movq RDI RSI ;;;
  movq RAX RDI ;;;
  movq R10 R8 ;;;
  args <- mget (fun c => e_reg c <$> [RDI; RSI; RDX; RCX; R8; R9]) ;;
  syscall_handler args ;;;
  r <- mget syscall_retval ;;
  mset (set_reg RAX r) ;;;
  pop_regs [RCX; R11] ;;;
  rip <- get_reg RCX ;;
  fl <- get_reg R11 ;;
  mret (rip, fl, saved_user_rip).
End Syscall.

(** ** Facts *)

(** The words of the stack from [a] on. *)
Definition words_at (m : gmap Z Z) (a : Z) (l : list Z) : Prop :=
  forall i w, l !! i = Some w -> m !! (a + 8 * Z.of_nat i) = Some w.

Lemma words_at_app m a l1 l2 : words_at m a (l1 ++ l2) <-> words_at m a l1 /\ words_at m (a + 8 * Z.of_nat (length l1)) l2.
Proof.
  split.
  - intros Hw. split; intros i w Hi.
    + apply Hw. by apply lookup_app_l_Some.
    + replace (a + 8 * Z.of_nat (length l1) + 8 * Z.of_nat i) with (a + 8 * Z.of_nat (length l1 + i)) by lia. apply Hw. by rewrite lookup_app_r, Nat.add_comm, Nat.add_sub by lia.
  - intros [H1 H2] i w Hi. apply lookup_app_Some in Hi as [Hi|[Hl Hi]]; [by apply H1|]. specialize (H2 _ _ Hi).
    by replace (a + 8 * Z.of_nat (length l1) + 8 * Z.of_nat (i - length l1)) with (a + 8 * Z.of_nat i) in H2 by lia.
Qed.

Lemma words_at_ext m m' a l : words_at m a l -> (forall b, a <= b < a + 8 * Z.of_nat (length l) -> m' !! b = m !! b) -> words_at m' a l.
Proof. intros Hw He i w Hi. rewrite He; [by apply Hw|]. apply lookup_lt_Some in Hi. lia. Qed.

Lemma words_at_cons m a w l : words_at m a (w :: l) <-> m !! a = Some w /\ words_at m (a + 8) l.
Proof.
  change (w :: l) with ([w] ++ l). rewrite words_at_app. cbn [length]. change (8 * Z.of_nat 1) with 8. f_equiv. split.
  - intros Hw. replace a with (a + 8 * Z.of_nat 0) by lia. by apply Hw.
  - intros Hm [|i] x Hi; [|done]. injection Hi as <-. by replace (a + 8 * Z.of_nat 0) with a by lia.
Qed.

Lemma push_word c w l : 8 <= e_rsp c < two64 -> words_at (e_words c) (e_rsp c) l ->
  exists m, pushq w c = Ret tt (mk_ecpu (e_reg c) (e_rsp c - 8) m) /\ words_at m (e_rsp c - 8) (w :: l).
Proof.
  intros Hr Hl. unfold pushq. rewrite (u64_small (e_rsp c - 8)) by (unfold two64 in *; lia). eexists. split; [reflexivity|].
  apply words_at_cons. split; [apply lookup_insert_eq|]. replace (e_rsp c - 8 + 8) with (e_rsp c) by lia.
  apply (words_at_ext (e_words c)); [done|]. intros b Hb. apply lookup_insert_ne. lia.
Qed.

Lemma push_regs_ok l : forall c top, 8 * Z.of_nat (length l) <= e_rsp c < two64 -> words_at (e_words c) (e_rsp c) top ->
  exists m, push_regs l c = Ret tt (mk_ecpu (e_reg c) (e_rsp c - 8 * Z.of_nat (length l)) m) /\
    words_at m (e_rsp c - 8 * Z.of_nat (length l)) (reverse (e_reg c <$> l) ++ top).
Proof.
  induction l as [|r l IH]; intros c top Hr Ht; cbn [push_regs length].
  - exists (e_words c). rewrite Z.sub_0_r. split; [by destruct c|done].
  - cbn [length] in Hr. rewrite (mbind_Ret _ _ _ _ _ (eq_refl : get_reg r c = Ret (e_reg c r) c)).
    destruct (push_word c (e_reg c r) top) as (m1 & E1 & H1); [lia|done|]. rewrite (mbind_Ret _ _ _ _ _ E1).
    destruct (IH (mk_ecpu (e_reg c) (e_rsp c - 8) m1) (e_reg c r :: top)) as (m & E & Hm); [cbn [e_rsp]; lia|done|]. cbn [e_rsp e_reg] in *.
    exists m. replace (e_rsp c - 8 * Z.of_nat (S (length l))) with (e_rsp c - 8 - 8 * Z.of_nat (length l)) by lia. split; [done|].
    rewrite fmap_cons, reverse_cons, <- app_assoc. done.
Qed.

(** Registers loaded in order; a register that is loaded twice keeps the last. *)
Fixpoint load_regs (l : list reg) (ws : list Z) (f : reg -> Z) : reg -> Z :=
  match l, ws with
  | r :: l', w :: ws' => load_regs l' ws' (fun x => if decide (x = r) then w else f x)
  | _, _ => f
  end.

Lemma pop_word c w l : words_at (e_words c) (e_rsp c) (w :: l) -> 0 <= e_rsp c -> e_rsp c + 8 < two64 ->
  popq c = Ret w (set_e_rsp (e_rsp c + 8) c) /\ words_at (e_words c) (e_rsp c + 8) l.
Proof. intros [Hm Hl]%words_at_cons Ha Hr. unfold popq. rewrite Hm. rewrite u64_small by lia. done. Qed.

Lemma pop_regs_ok l : forall c ws top, words_at (e_words c) (e_rsp c) (ws ++ top) -> length ws = length l ->
  0 <= e_rsp c -> e_rsp c + 8 * Z.of_nat (length l) < two64 ->
  pop_regs l c = Ret tt (mk_ecpu (load_regs l ws (e_reg c)) (e_rsp c + 8 * Z.of_nat (length l)) (e_words c)) /\
  words_at (e_words c) (e_rsp c + 8 * Z.of_nat (length l)) top.
Proof.
  induction l as [|r l IH]; intros c ws top Hw Hl H0 Hr; cbn [pop_regs length].
  - destruct ws; [|done]. rewrite Z.add_0_r. split; [by destruct c|done].
  - destruct ws as [|w ws]; [done|]. injection Hl as Hl. cbn [length] in Hr.
    destruct (pop_word c w (ws ++ top)) as [E Hw1]; [done|done|lia|]. rewrite (mbind_Ret _ _ _ _ _ E).
    rewrite (mbind_Ret _ _ _ _ _ (eq_refl : mset (set_reg r w) (set_e_rsp (e_rsp c + 8) c) = Ret tt (set_reg r w (set_e_rsp (e_rsp c + 8) c)))).
    destruct (IH (set_reg r w (set_e_rsp (e_rsp c + 8) c)) ws top) as [E2 Hw2]; [done|done|cbn; lia|cbn; lia|].
    cbn [e_rsp e_reg e_words set_reg set_e_rsp] in *. replace (e_rsp c + 8 * Z.of_nat (S (length l))) with (e_rsp c + 8 + 8 * Z.of_nat (length l)) by lia.
    split; [exact E2|exact Hw2].
Qed.

Lemma iretq_ok c rip cs fl sp ss : words_at (e_words c) (e_rsp c) [rip; cs; fl; sp; ss] -> 0 <= e_rsp c -> e_rsp c + 40 < two64 ->
  iretq c = Ret (mk_iret rip cs fl sp ss) (set_e_rsp sp c).
Proof.
  intros Hw H0 Hr. unfold iretq.
  destruct (pop_word c _ _ Hw) as [E1 H1]; [lia|lia|]. rewrite (mbind_Ret _ _ _ _ _ E1).
  destruct (pop_word (set_e_rsp (e_rsp c + 8) c) _ _ H1) as [E2 H2]; [cbn; lia|cbn; lia|]. rewrite (mbind_Ret _ _ _ _ _ E2). cbn [set_e_rsp e_rsp] in *.
  destruct (pop_word (set_e_rsp (e_rsp c + 8 + 8) c) _ _ H2) as [E3 H3]; [cbn; lia|cbn; lia|]. rewrite (mbind_Ret _ _ _ _ _ E3). cbn [set_e_rsp e_rsp] in *.
  destruct (pop_word (set_e_rsp (e_rsp c + 8 + 8 + 8) c) _ _ H3) as [E4 H4]; [cbn; lia|cbn; lia|]. rewrite (mbind_Ret _ _ _ _ _ E4). cbn [set_e_rsp e_rsp] in *.
  destruct (pop_word (set_e_rsp (e_rsp c + 8 + 8 + 8 + 8) c) _ _ H4) as [E5 _]; [cbn; lia|cbn; lia|]. rewrite (mbind_Ret _ _ _ _ _ E5). done.
Qed.

(** A C function called on a stack that holds the words [frame]: it returns
    with the stack pointer and those words as they were. *)
Definition returns_on (f : M ecpu unit) (frame : list Z) : Prop :=
  forall c, words_at (e_words c) (e_rsp c) frame ->
    exists c', f c = Ret tt c' /\ e_rsp c' = e_rsp c /\ words_at (e_words c') (e_rsp c) frame.

(** [struct regs] on the stack. *)
Definition regs_frame (f : reg -> Z) (int_no err_code : Z) (fr : iret_frame) : list Z :=
  (f <$> restored_regs) ++ [int_no; err_code] ++ [if_rip fr; if_cs fr; if_rflags fr; if_rsp fr; if_ss fr].

Lemma isr_common_ok (h : Z -> M ecpu unit) c n err fr :
  words_at (e_words c) (e_rsp c) ([n; err] ++ [if_rip fr; if_cs fr; if_rflags fr; if_rsp fr; if_ss fr]) ->
  120 <= e_rsp c -> e_rsp c + 56 < two64 -> returns_on (h (e_rsp c - 120)) (regs_frame (e_reg c) n err fr) ->
  exists c', isr_common h c = Ret fr c' /\ (forall r, e_reg c' r = e_reg c r) /\ e_rsp c' = if_rsp fr.
Proof.
  intros Hw Hlo Hhi Hh. unfold isr_common. destruct (push_regs_ok saved_regs c _ ltac:(change (8 * Z.of_nat (length saved_regs)) with 120; lia) Hw) as (m & E & Hm).
  change (8 * Z.of_nat (length saved_regs)) with 120 in *. rewrite (mbind_Ret _ _ _ _ _ E). change (reverse (e_reg c <$> saved_regs)) with (e_reg c <$> restored_regs) in Hm.
  set (c1 := mk_ecpu (e_reg c) (e_rsp c - 120) m). rewrite (mbind_Ret _ _ _ _ _ (eq_refl : mget e_rsp c1 = Ret (e_rsp c - 120) c1)).
  rewrite (mbind_Ret _ _ _ _ _ (eq_refl : mset (set_reg RDI (e_rsp c - 120)) c1 = Ret tt (set_reg RDI (e_rsp c - 120) c1))).
  destruct (Hh (set_reg RDI (e_rsp c - 120) c1)) as (c2 & E2 & Hsp & Hw2); [exact Hm|]. rewrite (mbind_Ret _ _ _ _ _ E2).
  change (e_rsp (set_reg RDI (e_rsp c - 120) c1)) with (e_rsp c - 120) in *. rewrite <- Hsp in Hw2.
  destruct (pop_regs_ok restored_regs c2 (e_reg c <$> restored_regs) _ Hw2) as [E3 Hw3]; [done|lia|change (8 * Z.of_nat (length restored_regs)) with 120; lia|].
  change (8 * Z.of_nat (length restored_regs)) with 120 in *. rewrite (mbind_Ret _ _ _ _ _ E3). set (c3 := mk_ecpu _ (e_rsp c2 + 120) (e_words c2)) in *.
  rewrite (mbind_Ret _ _ _ _ _ (eq_refl : mget e_rsp c3 = Ret (e_rsp c2 + 120) c3)). rewrite Hsp. rewrite (u64_small (e_rsp c - 120 + 120 + 16)) by (unfold two64 in *; lia).
  set (c4 := set_e_rsp (e_rsp c - 120 + 120 + 16) c3). rewrite (mbind_Ret _ _ _ _ _ (eq_refl : mset (set_e_rsp (e_rsp c - 120 + 120 + 16)) c3 = Ret tt c4)).
  apply words_at_app in Hw3 as [_ Hw3]. cbn [length] in Hw3. change (8 * Z.of_nat 2) with 16 in Hw3. rewrite Hsp in Hw3.
  rewrite (iretq_ok c4 _ _ _ _ _ Hw3) by (cbn [c4 set_e_rsp e_rsp]; unfold two64 in *; lia).
  eexists. split; [by destruct fr|]. split; [|done]. intros r. by destruct r.
Qed.

(** The stub of one vector, entered with what the processor pushes. *)
Lemma isr_stub_ok (h : Z -> M ecpu unit) c n err fr :
  let iret := [if_rip fr; if_cs fr; if_rflags fr; if_rsp fr; if_ss fr] in
  words_at (e_words c) (e_rsp c) (if isr_errcode n then err :: iret else iret) ->
  136 <= e_rsp c -> e_rsp c + 64 < two64 ->
  returns_on (h (e_rsp c - 120 - (if isr_errcode n then 8 else 16))) (regs_frame (e_reg c) n (if isr_errcode n then err else 0) fr) ->
  exists c', isr h n c = Ret fr c' /\ (forall r, e_reg c' r = e_reg c r) /\ e_rsp c' = if_rsp fr.
Proof.
  intros iret Hw Hlo Hhi Hh. unfold isr. destruct (isr_errcode n).
  - unfold ISR_ERRCODE. destruct (push_word c n _ ltac:(lia) Hw) as (m & E & Hm). rewrite (mbind_Ret _ _ _ _ _ E).
    apply (isr_common_ok h (mk_ecpu (e_reg c) (e_rsp c - 8) m) n err fr); cbn [e_rsp e_reg e_words]; [done|lia|lia|].
    by replace (e_rsp c - 8 - 120) with (e_rsp c - 120 - 8) by lia.
  - unfold ISR_NOERRCODE. destruct (push_word c 0 _ ltac:(lia) Hw) as (m & E & Hm). rewrite (mbind_Ret _ _ _ _ _ E).
    destruct (push_word (mk_ecpu (e_reg c) (e_rsp c - 8) m) n _ ltac:(cbn; lia) Hm) as (m2 & E2 & Hm2). rewrite (mbind_Ret _ _ _ _ _ E2). cbn [e_rsp e_reg] in *.
    apply (isr_common_ok h (mk_ecpu (e_reg c) (e_rsp c - 8 - 8) m2) n 0 fr); cbn [e_rsp e_reg e_words]; [done|lia|lia|].
    by replace (e_rsp c - 8 - 8 - 120) with (e_rsp c - 120 - 16) by lia.
Qed.

(** Different stubs have different addresses, below 2^64. *)
Definition labels_ok (label : Z -> Z) : Prop :=
  (forall k, 0 <= label k < two64) /\ forall j k, 0 <= j < 48 -> 0 <= k < 48 -> label j = label k -> j = k.

Lemma stub_at_label label k : labels_ok label -> 0 <= k < 48 -> stub_at label (label k) = Some k.
Proof.
  intros [_ Hinj] Hk. unfold stub_at. destruct (List.find _ _) as [j|] eqn:Hf.
  - apply List.find_some in Hf as [Hj He%Z.eqb_eq]. apply list_elem_of_In, elem_of_seqZ in Hj. f_equal. apply Hinj; [lia|lia|exact He].
  - exfalso. pose proof (List.find_none _ _ Hf k) as Hn. cbv beta in Hn. rewrite Z.eqb_refl in Hn. discriminate Hn. apply list_elem_of_In, elem_of_seqZ. lia.
Qed.

Lemma isr_stub_at_label label k : 0 <= k < 48 -> isr_stub_at label k = label k.
Proof.
  intros Hk. assert (Hin : k ∈ seqZ 0 48) by (apply elem_of_seqZ; lia). clear Hk. revert k Hin. apply Forall_forall.
  change (seqZ 0 48) with ([0; 1; 2; 3; 4; 5; 6; 7; 8; 9; 10; 11; 12; 13; 14; 15; 16; 17; 18; 19; 20; 21; 22; 23; 24; 25; 26; 27; 28; 29; 30; 31;
    32; 33; 34; 35; 36; 37; 38; 39; 40; 41; 42; 43; 44; 45; 46; 47]). repeat constructor.
Qed.

Lemma isr_stub_bounds label i : labels_ok label -> 0 <= isr_stub_at label i < two64.
Proof.
  intros [Hb _]. unfold isr_stub_at. destruct (isr_stub_table label !! Z.to_nat i) as [a|] eqn:E; [|by vm_compute]. cbn [default from_option].
  apply list_elem_of_lookup_2 in E. unfold isr_stub_table in E. repeat (apply elem_of_cons in E as [->|E]; [apply Hb|]). by apply elem_of_nil in E.
Qed.

(** A vector that has a gate runs its own stub. *)
Lemma deliver_stub (h : Z -> M ecpu unit) label addr efer entry n c : labels_ok label -> 0 <= n < 48 ->
  deliver h label (idt (idt_init addr (isr_stub_at label) efer entry idt_boot)) n c = isr h n c.
Proof.
  intros Hl Hn. unfold deliver. destruct (idt_init_gate addr efer entry (isr_stub_at label) n) as (e & -> & Hb & _ & Hf); [|lia|].
  { intros i. by apply isr_stub_bounds. }
  rewrite Hf, Hb, isr_stub_at_label, stub_at_label by done. done.
Qed.

(** *** The processor's side

    The vectors for which the processor pushes an error code (Intel SDM vol. 3,
    table 6-1, and AMD APM vol. 2, table 8-1): #DF, #TS, #NP, #SS, #GP, #PF,
    #AC, #CP, #VC and #SX. *)
Definition cpu_error_code (n : Z) : bool := bool_decide (n ∈ [8; 10; 11; 12; 13; 14; 17; 21; 29; 30]).

(** What lies on the stack when the code of the gate starts: the five words
    of the interrupted code, below them the error code if there is one. *)
Definition iret_words (fr : iret_frame) : list Z := [if_rip fr; if_cs fr; if_rflags fr; if_rsp fr; if_ss fr].
Definition cpu_pushed (n err : Z) (fr : iret_frame) : list Z := if cpu_error_code n then err :: iret_words fr else iret_words fr.

(** The vectors whose stub is declared the way the processor enters it: all
    but 21 and 29. *)
Lemma stub_agrees n : 0 <= n < 48 -> n <> 21 -> n <> 29 -> isr_errcode n = cpu_error_code n.
Proof.
  intros Hn H1 H2. assert (Hin : n ∈ seqZ 0 48) by (apply elem_of_seqZ; lia).
  assert (Hall : Forall (fun k => k = 21 \/ k = 29 \/ isr_errcode k = cpu_error_code k) (seqZ 0 48)) by (apply (bool_decide_unpack _); vm_compute; exact Logic.I).
  rewrite Forall_forall in Hall. destruct (Hall n Hin) as [?|[?|?]]; done.
Qed.


(** C39: the system call entry hands the number and the first four arguments
    to the handler in the order of its parameters, and resumes user code at
    the saved RIP with the saved flags, the stack pointer of the caller and
    the handler's result in RAX.  The handler's sixth argument (a5) is the
    user's sixth (R9); the user's fifth (R8) is overwritten. *)
Theorem syscall_entry_correct (f : list Z -> M ecpu unit) (retval : ecpu -> Z) c :
  16 <= e_rsp c -> e_rsp c < two64 ->
  let args := e_reg c <$> [RAX; RDI; RSI; RDX; R10; R9] in
  returns_on (f args) [e_reg c RCX; e_reg c R11] ->
  exists c1 c2 c', f args c1 = Ret tt c2 /\ e_rsp c1 = e_rsp c - 16 /\
    syscall_entry f retval c = Ret (e_reg c RCX, e_reg c R11, e_reg c RCX) c' /\
    e_rsp c' = e_rsp c /\ e_reg c' RAX = retval c2.
Proof.
  intros Hlo Hhi args Hf. unfold syscall_entry.
  destruct (push_regs_ok [R11; RCX] c [] ltac:(change (8 * Z.of_nat (length [R11; RCX])) with 16; lia)) as (m & E & Hm); [by intros [|i] w Hi|].
  change (8 * Z.of_nat (length [R11; RCX])) with 16 in *. rewrite app_nil_r in Hm. change (reverse (e_reg c <$> [R11; RCX])) with [e_reg c RCX; e_reg c R11] in Hm.
  rewrite (mbind_Ret _ _ _ _ _ E). set (c0 := mk_ecpu (e_reg c) (e_rsp c - 16) m).
  rewrite (mbind_Ret _ _ _ _ _ (eq_refl : get_reg RCX c0 = Ret (e_reg c RCX) c0)).
  do 5 (erewrite mbind_Ret; [|reflexivity]). set (c1 := set_reg R8 _ _).
  rewrite (mbind_Ret _ _ _ _ _ (eq_refl : mget (fun c => e_reg c <$> [RDI; RSI; RDX; RCX; R8; R9]) c1 = Ret args c1)).
  destruct (Hf c1 Hm) as (c2 & E2 & Hsp & Hw). rewrite (mbind_Ret _ _ _ _ _ E2). change (e_rsp c1) with (e_rsp c - 16) in Hsp, Hw.
  rewrite (mbind_Ret _ _ _ _ _ (eq_refl : mget retval c2 = Ret (retval c2) c2)).
  rewrite (mbind_Ret _ _ _ _ _ (eq_refl : mset (set_reg RAX (retval c2)) c2 = Ret tt (set_reg RAX (retval c2) c2))).
  destruct (pop_regs_ok [RCX; R11] (set_reg RAX (retval c2) c2) [e_reg c RCX; e_reg c R11] []) as [E3 _];
    [cbn [set_reg e_words e_rsp]; by rewrite Hsp|done|cbn [set_reg e_rsp]; lia|cbn [set_reg e_rsp length]; lia|].
  rewrite (mbind_Ret _ _ _ _ _ E3). exists c1, c2. eexists. split; [exact E2|]. split; [done|]. split; [reflexivity|].
  split; [|done]. change (e_rsp (set_reg RAX (retval c2) c2)) with (e_rsp c2). cbn [e_rsp length]. lia.
Qed.

(** ** Witnesses *)

(** Interrupt 33 at an address of user code; the handler returns at once. *)
Definition demo_ecpu : ecpu :=
  mk_ecpu (fun r => if decide (r = RBX) then 5 else 9) 0x9000
    (<[0x9000 := 0x400010]> (<[0x9008 := 0x1B]> (<[0x9010 := 0x202]> (<[0x9018 := 0x7000]> (<[0x9020 := 0x23]> ∅))))).

Lemma returns_at_once frame : returns_on (mret tt) frame.
Proof. intros c Hc. by exists c. Qed.

Lemma demo_labels : labels_ok (fun k => 0x202000 + 16 * (k mod 48)).
Proof. split; intros k *; unfold two64; pose proof (Z.mod_pos_bound k 48); [lia|]. intros Hj Hk He. rewrite !Z.mod_small in He by lia. lia. Qed.

(** Vector 21 with the error code 3. *)
Definition demo_cp : ecpu :=
  mk_ecpu (fun _ => 9) 0x9000 (<[0x9000 := 3]> (<[0x9008 := 0x400010]> (<[0x9010 := 0x1B]> (<[0x9018 := 0x202]> (<[0x9020 := 0x7000]> (<[0x9028 := 0x23]> ∅)))))).

#[local] Abbreviation demo_deliver := (deliver (fun _ => mret tt) (fun k => 0x202000 + 16 * (k mod 48))
  (idt (idt_init 0x201000 (isr_stub_at (fun k => 0x202000 + 16 * (k mod 48))) 0 0x203000 idt_boot))).


Lemma syscall_entry_correct_witness :
  exists c', syscall_entry (fun _ => mret tt) (fun _ => 42) demo_ecpu = Ret (9, 9, 9) c' /\ e_rsp c' = 0x9000 /\ e_reg c' RAX = 42.
Proof.
  destruct (syscall_entry_correct (fun _ => mret tt) (fun _ => 42) demo_ecpu) as (c1 & c2 & c' & _ & _ & E & Hsp & Hr).
  - by vm_compute.
  - by vm_compute.
  - apply returns_at_once.
  - exists c'. split; [exact E|]. split; [exact Hsp|exact Hr].
Defined.
